(* ===== verification/_CoqProject ===== *)
-Q . S2P
Prelude.v
PyStr.v
PyVal.v
PyNum.v
IsoTime.v
PyText.v
RunStore.v
MemoryHost.v
RunnerState.v
RunnerResume.v
RunnerTicks.v
RunnerGate.v
RunnerExec.v
RunnerEvents.v
RunnerCommands.v
RunnerCommandsFacts.v
RunnerLock.v
OrdDict.v
Regex.v
Principal.v
Authorization.v
EntityAccess.v
Lockout.v
SignInLimiter.v
Sessions.v
SessionFacts.v
PyNet.v
Middleware.v
MiddlewareFacts.v
UserRegistry.v
UserRegistryFile.v
UserRegistryOps.v
UserRegistryFacts.v
UserRegistryRuns.v
RecoveryCodes.v
RecoverySpec.v
RecoveryFacts.v
RecoveryRuns.v
ToolGrants.v
ToolPolicy.v
ToolPolicyFacts.v
ToolPolicyStore.v
WorkspacePaths.v
WorkspacePolicy.v
WorkspaceScopeFacts.v
WorkspaceEnforcement.v
WorkspaceLayers.v
WorkspaceStoreFacts.v
EntitySeat.v
EntityQueue.v
EntityDoor.v
EntityDoorFacts.v
Retention.v
RetentionFacts.v
RetentionRuns.v
LedgerTail.v
LedgerTailFacts.v
LedgerStream.v
LedgerStreamFacts.v
PyCodec.v
AutomationPages.v
ListMemo.v
ListMemoFacts.v
StopSwitch.v
StopSwitchFacts.v
StopSwitchEnds.v
Passwords.v
AdminAccounts.v
AdminRoutes.v
AdminFacts.v
AdminRows.v
AdminRuns.v
FirstRun.v
SessionPasswords.v
FirstRunFacts.v
WindowFacts.v
PasswordFacts.v
FirstRunRuns.v
