(* ===== verification/Prelude.v ===== *)
(** * AbstractGateway: a verification development

    AbstractGateway is a server that keeps durable agent runs going and lets
    people and applications command them over HTTP. This development models its
    core in the kernel and proves what makes it correct. Paths below are under
    src/src/abstractgateway/.

    ** The program

    - The runner ([runner.py]) is one worker thread per process: under a kernel
      lock it polls the durable command inbox, scans the run store for runs to
      advance, hands each to one of two executors as a "tick", resumes the parents
      of finished child runs, and delivers external events.
      A Stop that does not stop a model call is forced ([stop_kill_switch.py]).
    - The runtime package executes ticks; the stores keep runs, ledgers and
      commands. Both are other packages: the runner calls them, and the model has
      them as the fields of two classes.
    - The HTTP middleware ([security/gateway_security.py]) authenticates each
      request: a bearer token, or a browser session ([security/sessions.py]); it
      counts invalid credentials per address, and it applies the route table
      ([security/authorization.py]). The routers of entities add two guards
      ([entity_access.py], [entity_settings_access.py]). Password sign-in has its
      own limiter ([passwords.py]); a lost token is recovered by a code sent by
      e-mail ([mail/recovery.py]); a fresh gateway waits to be set up in a browser
      ([first_run.py], [routes/session_passwords.py]). Administrators, and the creators of entities,
      switch and archive accounts on one page ([admin_accounts.py]).
    - A run takes its tools from a standing grant ([tool_grants.py]) and from the
      policy of its conversation ([session_tool_policy.py]); drafts are deleted
      when they expire ([run_retention.py]).
    - A run's records are its ledger, which a client follows as a stream
      ([ledger_tail.py], the route [stream_ledger]); automations are listed in one
      order by pages ([automation_order.py], [routes/automations.py]).

    ** Foundations

    - Prelude: exceptions and results; a state and exception monad [M] whose
      state survives an exception, as Python's does; loops; sorting; tactics.
    - PyStr, PyText, PyNum, PyVal: strings (Latin-1), [int()], dynamic values and dicts in
      insertion order. OrdDict: dicts of other types. Regex: the part of [re] the
      route table uses, parsed from the pattern text and matched by derivatives,
      proved against the language of the expression.
    - IsoTime: instants as microseconds, [isoformat], [fromisoformat] and
      [_epoch_from_iso]; [isoformat_roundtrip] covers all of [datetime]'s years.

    ** The runner

    - RunStore: a run, the class [HostOps] (what the runner calls of the stores and
      of the runtime, with no law assumed), and the walks of the run tree
      ([_list_descendant_run_ids], [_find_scheduled_root]), which end on every
      store, cycles of parents included. Fuel: the number of runs of the store; the
      theorems say the result is exact, not that it is right when there is one.
      MemoryHost: an instance of [HostOps] for concrete examples.
    - RunnerState: the runner's sets and counters ([GatewayRunner.__init__]), the
      entry points of other threads ([nudge], [_on_ledger_record]), submission and
      completion of ticks. [single_tick_guard]: no run is ever held twice.
    - RunnerTicks: the direct drain, the scan gate, the next deadline, the reaper
      and the scheduling pass, with [schedule_ticks_exact] and
      [paused_schedules_nothing]. RunnerGate: nothing the store holds is missed
      for longer than the configured interval; no deadline is slept through, but
      for the truncated window [window_deadlines] describes; the reaper cancels
      proven spinners only.
    - RunnerExec: a tick and its exception paths ([_tick_run]): a run whose tick
      raises is failed with the text, an unresolvable one after the configured
      number of attempts. RunnerResume: parents of finished children; the fast
      path refines the scan; the repair pass isolates failures.
    - RunnerEvents: durable delivery of events and their isolation from failing
      listeners. RunnerCommands, RunnerCommandsFacts: the command poll, the
      dispatch and every handler; the cursor never passes an unrecorded failure.
    - RunnerLock: processes that share one data directory, as a step relation:
      [stop] runs beside the worker and goes on when its wait for it is over, so a
      runner has the workers it ever started; mutual exclusion where every release
      was drained, the bounded takeover, the execution in which it is not drained and
      the worker that takes the lock after [stop] released it.
    - StopSwitch: [stop_kill_switch.py]: the incidents of cancelled trees, which a
      check in progress shares with the thread that arms, so that they are named by
      place; a check in its two halves (it reads the registry outside the lock); the
      forced stop; the watching thread as a step relation. The registry, the kill,
      the clocks and the ledger are the class [KillOps] over HostOps, the text of a
      number of seconds an argument. StopSwitchFacts: the invariants
      ([no_stop_unwatched], [only_late_inference_is_killed]); the bounded wait for
      killed calls has fuel [UNWIND_FUEL], its 5 s in pauses of 50 ms and one more,
      enough by [unwind_ends]. StopSwitchEnds: a forced stop ends its tree
      ([forced_stop_ends_the_tree]) and every incident is decided
      ([armed_stop_is_decided]); on a gateway in memory, the second Stop that is
      dropped with the first ([second_stop_unwatched]).

    ** Security

    - Principal: [GatewayPrincipal] and [safe_principal_component].
      Authorization: the whole table, the decision, the middleware's use of both
      ([admin_routes_closed]), and the row that shadows another
      ([template_edit_shadowed]). EntityAccess: names, creators, visibility, the
      right to configure; [settings_route_guarded] composes table and guards.
    - Lockout: [_AuthLockoutTracker] and the middleware's answer to an invalid
      credential: the schedule of locks, and where the count overflows.
      SignInLimiter: the four counters of [SignInLimiter]; every lock ends, and
      pruning never unlocks.
    - Sessions, SessionFacts: the sessions file, the memory each process keeps of
      it, the row writes handed to workers, and all operations of
      [GatewaySessionStore]: lifetime, soundness of authentication, finality of a
      deletion when operations are whole, and what a torn one does.
    - UserRegistry: [users.py] whole: the records, the file, every operation of
      [GatewayUserRegistry]. UserRegistryFile: what is written is read back.
      UserRegistryOps: the operations as one type [op], and the abstract effect of
      each ([change]): an account is added, edited or moved to another runtime,
      and none is ever removed. UserRegistryFacts: over any sequence of operations
      a runtime stays with its account ([runtime_ownership_final]), an entity
      keeps its shape ([entity_identity_fixed]), an archived account is shut
      ([archived_is_shut], which composes with Sessions); [file_roundtrip];
      [created_account_signs_in]. UserRegistryRuns: a concrete registry, and two
      runs against the documentation.
    - Passwords: the strength rule, and the hash of a password, which verifies
      ([password_hash_verifies]).
    - AdminAccounts, AdminRoutes: [admin_accounts.py] and the routes of
      [routes/gateway.py] that create, edit, switch and archive accounts, composed
      from the registry's operations (each atomic, nothing held between two). The
      state [desk] is the registry, the file of suspended entities and the entities,
      which are the class [EntityOps]. AdminFacts: a small program logic over the
      desk (what leaves the registry, [quiet]; what spares an administrator,
      [safe]) and [an_admin_remains], by the abstract effect of UserRegistryOps.
      AdminRows: the row of an account tells what works ([row_tells_what_works]),
      and who may act on an entity ([creators_act_alone]); suspending and resuming
      ([resumed_as_it_was]), against the class [EntityStates].
      AdminRuns: a concrete gateway, and five runs in which the page does otherwise
      than it means to.
    - FirstRun: [first_run.py], with [ensure_bootstrap_admin_user] of
      [config_cli.py] and its callers in [cli.py] and [firstrun_cli.py]: the posture
      of the environment, claim links, the record of an unclaimed gateway, the setup
      code. The state [house] is the data directory's part of it, with the registry.
      SessionPasswords: the routes of onboarding, sign-in, claim links and passwords
      ([routes/session_passwords.py], [routes/gateway.py]) over [front]: the house,
      two limiters (SignInLimiter) and the sessions (Sessions); what they read of
      the process is the class [SignIn]. FirstRunFacts: redemptions as a step relation
      ([link_redeemed_once]); a code is its words ([setup_code_is_its_words]); the
      default of a loopback start through relaunches
      ([loopback_default_survives_relaunch]) and where the reported posture is not
      the gateway's ([posture_tells_accounts]). WindowFacts: computations that respect
      a preorder ([stable]), and which routes leave the users' file or keep a shut
      window shut; events of the whole gateway; it is claimed once
      ([window_is_taken_once]) and closed by any administrator
      ([administrators_shut_the_window]). PasswordFacts: who changes a password
      ([password_changes_are_authorised]), and what it opens
      ([set_password_signs_in]). FirstRunRuns:
      a fresh gateway, and five runs that end otherwise than meant.
    - RecoveryCodes: [mail/recovery.py] whole, but the text of the mail: the
      document, pruning, the counts of a request, the issue of a code (before and
      after the mail), redemption. RecoverySpec: a short specification (an active
      code per account name and purpose, the times of requests) and the relation
      [refines], with one lemma per operation. RecoveryFacts: request threads,
      workers and redemptions interleaved in the order in which they take the lock,
      with clocks they read before; the trace of answers is one of the
      specification's, and what follows: [guesses_bounded], [redeem_sound].
      RecoveryRuns: the answers of a request ([request_code_answers]), the
      refinement of whole executions ([recovery_refines_spec]),
      [retry_after_enough], the request whose clock is old
      ([stalled_request_admitted]), and the spellings of one name that have a limit
      each.
    - PyNet: [fnmatch.fnmatchcase] and [urlsplit]. Middleware, MiddlewareFacts: all
      of [GatewaySecurityMiddleware.__call__] up to the application: the client's
      address, origins, tokens with their cache, sessions, the cross-site token,
      the use of the lockout and of the route table, bodies, the two pools, and the
      door of [/v1]. It composes Lockout, Sessions and Authorization. What a
      request has shown ([admitted_request]), whom the lockout refuses
      ([lockout_only_guesses]), the cache against the full check
      ([token_cache_transparent]); and three requests treated otherwise than meant.
      What the gateway reads at the time of a request (clocks, registry, stored
      network settings) is the record [env]. The body is read with fuel, one unit
      per message; [body_read_or_refused] says how many are enough, and
      [disconnect_never_ends] that no number is when the client leaves.

    ** Workspaces

    The folders a run, a session and an account may read and write
    ([workspace_policy.py], [session_workspaces.py]): a gateway policy, capped by
    built-in refusals, over which an account, a conversation or a run chooses a
    layer. The resolver answers a mode per path; the tools and the file routes get
    a flattened set of rows instead.
    - WorkspacePaths: paths, [_rule], [rows_refuse]. What the operating system
      does to a path ([resolve]) is the class FileSystem; RealPaths states that
      resolving is idempotent and gives a clean absolute path.
    - WorkspacePolicy: the stored shapes, [gateway_policy], the conversation
      folders and planes, [_Caps], [_Resolver], [effective_dict], [scope_for] and
      the check of the file routes. WorkspaceLayers: the validation and the
      clamping of a layer; the two documents' writes, the sessions file, and
      [resolve_effective].
    - WorkspaceScopeFacts, WorkspaceEnforcement, WorkspaceStoreFacts: the flattened rows refine the resolver
      ([flattened_scope_exact], and for a run's own layer with no hypothesis on
      the rows [one_off_scope_exact]); the data folder is closed
      ([data_folder_closed], from the state [gateway_write_admits] gives); what is
      written is read back; and two executions in which a check and the resolver
      disagree.

    ** Tools

    - ToolGrants: [tool_grants.py]: the store and its ledger, validation, writing,
      reading, the injection at a run's start. The ledger is the history of the
      grant ([ledger_is_the_history]); a run gets the last accepted act and never
      the destroy tier ([injection_is_the_last_act]).
    - ToolPolicy: the requests of [session_tool_policy.py], the building of a
      policy over the rows of the caller's tools, and merging. ToolPolicyFacts:
      what is approved, denied and listed as dropped, and where an approval comes
      from ([approved_goes_back_to_a_grant]). ToolPolicyStore: the write of
      [routes/session_tool_policy.py] against the runtime's store, a class with
      its laws (revisions, guarded writes) and an instance in memory; other
      writers act between a round's read and its write ([merge_loses_no_write]).

    ** Retention

    - Retention: [run_retention.py]: the names and marks of folders, expiry, the
      walk over a run tree, the folders a purge may delete, and the purge, over
      HostOps and the class PurgeOps of what the stores may offer to delete.
      RetentionFacts: the walk is a list of the tree, parents first
      ([collect_run_tree_ends]; its fuel is a bound on the steps, which the
      theorem shows to exist on every store), and a purge under the laws PurgeLaws
      of deletions touches expired drafts only
      ([purge_deletes_only_expired_drafts]). RetentionRuns: the folders
      ([purged_folders_are_the_runs_own], [session_folder_names]), a store in
      memory, and two runs in which the purge stops short or goes too far.

    ** The door of an entity

    An entity holds one conversation at a time ([entity_seat.py]), and callers can
    wait ([entity_queue.py]); [routes/entities.py] is the door between them.
    - EntitySeat: the record, its liveness, the priorities, the cancellation of a
      run tree (which ends: [cancel_run_tree_total]). EntityQueue: entries, the
      pruning of a write and the reaping of silent pollers.
    - EntityDoor: the state of a door is the run store, the seat's file, the
      queue's file and the entity's life; [summon_core] with its gates, the
      enqueueing, the admission of the head, poll, step-away and sweep, each under
      the entity's lock and so one step. What surrounds the door (the prelude, the
      substrate, the start of a run by the host) is the class DoorOps, with no law.
    - EntityDoorFacts: who gets a run and what else may change
      ([summon_core_spec]); a conversation keeps its seat ([seat_protects]); an
      admission concerns the head only ([admission_spec]); a concrete door, and the
      executions in which the seat forgets a living run, an
      interrupted admission runs twice or never, and a poll loses its entry.

    ** Streams and listings

    - LedgerTail: [ledger_tail.py]'s readers of a growing ledger, by byte offset
      (complete lines only, windows that grow, objects recovered from a line), by
      sequence number and by slices. What they use of the text codec and of [json]
      is the class JsonOps, with the laws JsonLaws. The stream sees a reader as the
      class TailReader with TailLaws; LedgerTailFacts proves the laws for each of
      the three ([recovered_enough]: the fuel of a line is its length).
    - LedgerStream: the loop of [stream_ledger], a pass as a function of what it
      meets. LedgerStreamFacts, against the interface: a client that is cut off
      after any number of frames, and comes back with [after] or [Last-Event-ID],
      misses and repeats nothing ([reconnect_exactly_once], over [start_index] and
      the text of an id; with [after] set the header is not read:
      [pinned_browser_is_sent_again]); done is said after
      everything was served ([done_serves_everything]), and it is said
      ([stream_ends]); concrete files and streams.
    - PyCodec: Base64 and [json], printed and parsed ([b64_roundtrip],
      [string_body_escaped]; the parser's fuel, twice the length of the text, is
      enough: [json_value_enough]). AutomationPages: keys, order,
      cursors, pages ([listing_order], [cursor_roundtrip],
      [pages_serve_the_listing]).
    - ListMemo: [_ListMemo] and [_Flight] as a step relation: requests, one
      critical section at a time, among writers of one plane; a computation begins
      and ends as two steps, and its outcome is any function of what the data went
      through in between and of other memories ([_index_rows] among them, which is
      not modelled).
      ListMemoFacts: [reads_see_earlier_writes], [single_flight],
      [every_request_answered]; schedules as a function, and the request that joins a computation older than a write.

    ** Conventions and limits

    A string literal of the code that is not Latin-1 stands as its UTF-8 bytes.
    Times are integers of microseconds where the code has doubles of seconds:
    rounding below a microsecond is not modelled; the exceptions of doubles (an
    integer power too large, an infinite duration) are. Loops over a Python set
    take the order of [elements], and no theorem depends on it. The amount of a
    schedule's interval is an exact decimal. Digests ([hashlib], [hmac]), the
    [ipaddress] reading of a client address and random ids are arguments;
    theorems that need something of them say so as hypotheses, and their
    witnesses instantiate them. [executor.submit] is taken not to raise, and
    reading or writing the sessions file not to fail.

    Not modelled: of the runner, the user-stream records of waits, the automatic
    compaction and the status snapshot beyond its status; of the middleware, the
    audit log, the headers of an answer and the policy's loading from the
    environment; of the user registry, the sealed copies of keys and writes of two
    processes at once; of the accounts page, the audit lines; the entity registry and its life; of the tools, their
    inventory and the routes that read and reset a policy; of the workspace policy,
    the migrations of older documents and the views of an account; of the door,
    failures of the operating system while the seat's or the queue's file is
    written, and queue entries of another shape than the door writes; of the
    streams, the choice of a reader, live deltas and the text of frames; of the
    listing, the rows' projection and the index rows kept per plane; the mail
    accounts and their watcher, push and triggers; console, command line, HTTP routes, models and engines,
    applications and operating-system integration, which are input and output
    around the parts above or drive other programs. *)

From stdpp Require Export base tactics option list strings gmap sets pretty.
From Stdlib Require Export ZArith Lia.

#[export] Set Warnings "-clear-no-such-hyp".

#[global] Arguments String.eqb !_ !_ / : simpl nomatch.
#[global] Arguments Ascii.eqb !_ !_ / : simpl nomatch.

Declare Scope gw_scope.
Delimit Scope gw_scope with gw.
#[global] Open Scope string_scope.
#[global] Open Scope list_scope.
#[global] Open Scope Z_scope.
#[global] Open Scope gw_scope.

(** ** Exceptions and results

    The Python exception classes the modelled code raises or tells apart.
    [StaleResumeError] is the runtime's subclass of [ValueError],
    [WorkspacePolicyError] the workspace policy's, with the path it names, and
    [OpenAIKeyError], [AccountArchivedError] and [EntityPrincipalGuardError] the
    user registry's, [AccountError] the accounts page's; every other class is only ever caught by
    [except Exception]. *)
Inductive exn :=
  | ValueError (m : string)
  | KeyError (m : string)
  | RuntimeError (m : string)
  | PermissionError (m : string)
  | TypeError (m : string)
  | OverflowError (m : string)
  | StaleResumeError (m : string)
  | EffectInterrupted
  | CommandNotRecorded (command_id : string)
  | WorkspacePolicyError (m : string) (p : option string)
  | NotImplementedError (m : string)
  | AttributeError (m : string)
  | OpenAIKeyError (status : Z) (code m : string)
  | AccountArchivedError (user_id : string)
  | EntityPrincipalGuardError (m : string)
  | AccountError (status : Z) (code m : string)
  | OtherError (m : string).

#[global] Instance exn_eq_dec : EqDecision exn.
Proof. solve_decision. Defined.

Inductive res (A : Type) :=
  | Ok (a : A)
  | Raise (e : exn).
Arguments Ok {A} _.
Arguments Raise {A} _.
#[global] Instance res_eq_dec {A} `{EqDecision A} : EqDecision (res A).
Proof. solve_decision. Defined.

Definition is_ok {A} (r : res A) : bool :=
  match r with Ok _ => true | Raise _ => false end.

(** A call whose exception leaves the caller too. *)
Definition rbind {A B} (r : res A) (f : A -> res B) : res B :=
  match r with Ok a => f a | Raise e => Raise e end.
Notation "x <== r ; k" := (rbind r (fun x => k))
  (at level 100, r at next level, right associativity) : gw_scope.

(** [for x in l: acc = f(acc, x)] where [f] may raise. *)
Fixpoint rfold {A B} (f : B -> A -> res B) (acc : B) (l : list A) : res B :=
  match l with
  | [] => Ok acc
  | x :: l => acc <== f acc x; rfold f acc l
  end.

(** ** A state and exception monad

    A computation reads and changes a state [S] and ends in a value or in an
    exception; the state reached before the exception is kept, as Python keeps
    it. *)
Definition M (S A : Type) : Type := S -> res A * S.

Section Monad.
Context {S : Type}.

Definition ret {A} (a : A) : M S A := fun s => (Ok a, s).
Definition raise {A} (e : exn) : M S A := fun s => (Raise e, s).
Definition mbind_ {A B} (m : M S A) (f : A -> M S B) : M S B :=
  fun s =>
    match m s with
    | (Ok a, s') => f a s'
    | (Raise e, s') => (Raise e, s')
    end.
Definition get : M S S := fun s => (Ok s, s).
Definition gets {A} (f : S -> A) : M S A := fun s => (Ok (f s), s).
Definition modify (f : S -> S) : M S unit := fun s => (Ok tt, f s).
Definition of_res {A} (r : res A) : M S A := fun s => (r, s).

(** [try m except e: h e]: the handler runs in the state [m] left. *)
Definition try_ {A} (m : M S A) (h : exn -> M S A) : M S A :=
  fun s =>
    match m s with
    | (Ok a, s') => (Ok a, s')
    | (Raise e, s') => h e s'
    end.

(** [for x in l: body x]; an exception leaves the loop. *)
Fixpoint for_ {A} (l : list A) (body : A -> M S unit) : M S unit :=
  match l with
  | [] => ret tt
  | x :: l => mbind_ (body x) (fun _ => for_ l body)
  end.

(** A loop that carries an accumulator. *)
Fixpoint fold_ {A B} (l : list A) (acc : B) (body : B -> A -> M S B) : M S B :=
  match l with
  | [] => ret acc
  | x :: l => mbind_ (body acc x) (fun acc' => fold_ l acc' body)
  end.
End Monad.

Notation "x <- m ;; k" := (mbind_ m (fun x => k))
  (at level 100, m at next level, right associativity) : gw_scope.
Notation "' p <- m ;; k" := (mbind_ m (fun x => match x with p => k end))
  (at level 20, p pattern, m at level 99, k at level 200) : gw_scope.
Notation "m ;;; k" := (mbind_ m (fun _ => k))
  (at level 100, right associativity) : gw_scope.

(** Running a computation for its final state. *)
Definition exec {S A} (m : M S A) (s : S) : S := snd (m s).

(** ** Tactics *)

(** Split every boolean connective in the hypotheses and the goal. *)
Ltac bool_to_prop :=
  repeat match goal with
  | H : andb _ _ = true |- _ => apply andb_true_iff in H; destruct H
  | H : orb _ _ = false |- _ => apply orb_false_iff in H; destruct H
  | H : negb _ = true |- _ => apply negb_true_iff in H
  | H : negb _ = false |- _ => apply negb_false_iff in H
  | H : bool_decide _ = true |- _ => apply bool_decide_eq_true in H
  | H : bool_decide _ = false |- _ => apply bool_decide_eq_false in H
  | H : Z.ltb _ _ = true |- _ => apply Z.ltb_lt in H
  | H : Z.ltb _ _ = false |- _ => apply Z.ltb_ge in H
  | H : Z.leb _ _ = true |- _ => apply Z.leb_le in H
  | H : Z.leb _ _ = false |- _ => apply Z.leb_gt in H
  | H : Z.eqb _ _ = true |- _ => apply Z.eqb_eq in H
  | H : Z.eqb _ _ = false |- _ => apply Z.eqb_neq in H
  | H : String.eqb _ _ = true |- _ => apply String.eqb_eq in H
  | H : String.eqb _ _ = false |- _ => apply String.eqb_neq in H
  end.

(** Case analysis on the outermost match or conditional, repeated. *)
Ltac cases := repeat (case_match; simplify_eq/=; try done).

(** ** Generic lemmas on the loops *)

Section Loops.
Context {S A : Type}.

Lemma for_app (l1 l2 : list A) (body : A -> M S unit) s :
  for_ (l1 ++ l2) body s = (for_ l1 body ;;; for_ l2 body) s.
Proof.
  revert s; induction l1 as [|x l1 IH]; intros s; [done|].
  simpl. unfold mbind_ in *. destruct (body x s) as [[|] ?]; [|done].
  apply IH.
Qed.

(** An invariant of the state kept by the body is kept by the loop. *)
Lemma for_inv (I : S -> Prop) (l : list A) (body : A -> M S unit) s :
  (forall x s, I s -> I (snd (body x s))) -> I s -> I (snd (for_ l body s)).
Proof.
  intros Hb. revert s; induction l as [|x l IH]; intros s HI; [done|].
  simpl. unfold mbind_. specialize (Hb x s HI) as Hx.
  destruct (body x s) as [[|] s']; simpl in *; auto.
Qed.

(** A body that never raises makes a loop that never raises. *)
Lemma for_ok (l : list A) (body : A -> M S unit) s :
  (forall x s, fst (body x s) = Ok tt) -> fst (for_ l body s) = Ok tt.
Proof.
  intros Hb. revert s; induction l as [|x l IH]; intros s; [done|].
  simpl. unfold mbind_. specialize (Hb x s).
  destruct (body x s) as [[|] s']; simpl in *; [auto|done].
Qed.

(** A pure loop is a left fold on the state. *)
Lemma for_pure (f : S -> A -> S) (l : list A) (body : A -> M S unit) s :
  (forall x s, body x s = (Ok tt, f s x)) -> for_ l body s = (Ok tt, fold_left f l s).
Proof.
  intros Hb. revert s; induction l as [|x l IH]; intros s; [done|].
  simpl. unfold mbind_. rewrite Hb. auto.
Qed.
End Loops.

Lemma fold_left_eq {A B} (f g : B -> A -> B) l b :
  (forall b a, f b a = g b a) -> fold_left f l b = fold_left g l b.
Proof. intros He. revert b. induction l as [|a l IH]; intros b; simpl; [done|]. by rewrite He, IH. Qed.

(** ** Calls that may raise *)

Lemma rbind_Ok {A B} (r : res A) (f : A -> res B) b :
  rbind r f = Ok b <-> exists a, r = Ok a /\ f a = Ok b.
Proof.
  destruct r; simpl; [|by split; [|intros (? & ? & _)]].
  split; [eauto|]. by intros (? & [= ->] & ?).
Qed.

(** An invariant of the accumulator kept by a loop that does not raise. *)
Lemma rfold_inv {A B} (I : B -> Prop) (f : B -> A -> res B) l acc acc' :
  (forall b a b', a ∈ l -> I b -> f b a = Ok b' -> I b') -> I acc -> rfold f acc l = Ok acc' -> I acc'.
Proof.
  revert acc. induction l as [|a l IH]; intros acc Hf HI; simpl; [by intros [= <-]|].
  intros (b & Hb & Hr)%rbind_Ok. apply (IH b); [intros; eapply Hf; eauto; set_solver| |done].
  eapply Hf; eauto. set_solver.
Qed.

(** The same for the calls of the monad. *)
Lemma mbind_Ok {S A B} (m : M S A) (k : A -> M S B) s b s' :
  mbind_ m k s = (Ok b, s') <-> exists a s1, m s = (Ok a, s1) /\ k a s1 = (Ok b, s').
Proof.
  unfold mbind_. destruct (m s) as [[a|e] s1]; split.
  - intros H. by exists a, s1.
  - by intros (? & ? & [= <- <-] & ?).
  - done.
  - by intros (? & ? & ? & ?).
Qed.
Ltac minv H :=
  repeat match type of H with
  | mbind_ _ _ _ = (Ok _, _) =>
      let x := fresh "x" in let s := fresh "s" in let Hx := fresh "Hx" in apply mbind_Ok in H as (x & s & Hx & H)
  end.

(** Take apart a hypothesis that a sequence of calls ended well. *)
Ltac rinv H :=
  repeat match type of H with
  | rbind _ _ = Ok _ =>
      let x := fresh "x" in let Hx := fresh "Hx" in apply rbind_Ok in H as (x & Hx & H)
  end.

(** ** Boolean filters

    [[x for x in l if f(x)]] is [List.filter f l]. *)
Lemma elem_of_lfilter {A} (f : A -> bool) l x : x ∈ List.filter f l <-> x ∈ l /\ f x = true.
Proof. rewrite !list_elem_of_In. apply filter_In. Qed.

Lemma length_lfilter_le {A} (f : A -> bool) l : (length (List.filter f l) <= length l)%nat.
Proof. induction l as [|x l IH]; simpl; [lia|]. destruct (f x); simpl; lia. Qed.

Lemma lfilter_all {A} (f : A -> bool) l : (forall x, x ∈ l -> f x = true) -> List.filter f l = l.
Proof.
  induction l as [|x l IH]; intros Hf; simpl; [done|].
  rewrite Hf by set_solver. f_equal. apply IH. set_solver.
Qed.

(** A test on every integer below a bound, by evaluation. *)
Lemma forallb_below (P : Z -> bool) (b : nat) (n : Z) :
  forallb (fun k => P (Z.of_nat k)) (seq 0 b) = true -> 0 <= n < Z.of_nat b -> P n = true.
Proof.
  intros HP Hn. rewrite forallb_forall in HP. specialize (HP (Z.to_nat n)).
  rewrite Z2Nat.id in HP by lia. apply HP, in_seq. lia.
Qed.

Lemma lfilter_none {A} (f : A -> bool) l : (forall x, x ∈ l -> f x = false) -> List.filter f l = [].
Proof.
  induction l as [|x l IH]; intros Hf; simpl; [done|].
  rewrite Hf by set_solver. apply IH. set_solver.
Qed.

(** Keys that do not repeat do not repeat after a filter. *)
Lemma NoDup_map_filter {A K} (key : A -> K) (f : A -> bool) l : NoDup (map key l) -> NoDup (map key (List.filter f l)).
Proof.
  induction l as [|x l IH]; simpl; [done|]. intros [Hx Hnd]%NoDup_cons. destruct (f x); simpl; [|auto].
  apply NoDup_cons. split; [|auto]. intros (y & Hy & [Hyl _]%elem_of_lfilter)%list_elem_of_fmap. apply Hx.
  rewrite Hy. by apply list_elem_of_fmap_2.
Qed.

(** [any] and [all] of a loop, in terms of its elements. *)
Lemma existsb_elem {A} (f : A -> bool) l : existsb f l = true <-> exists x, x ∈ l /\ f x = true.
Proof. rewrite existsb_exists. by setoid_rewrite list_elem_of_In. Qed.

(** ** Sorting by insertion

    Python's [sorted] and [list.sort] are stable; insertion sort on a total
    preorder is the stable sort of the same list. *)
Section Sort.
Context {A : Type} (leb : A -> A -> bool).

Fixpoint insert_sorted (x : A) (l : list A) : list A :=
  match l with
  | [] => [x]
  | y :: l' => if leb x y then x :: y :: l' else y :: insert_sorted x l'
  end.

Fixpoint py_sorted (l : list A) : list A :=
  match l with
  | [] => []
  | x :: l => insert_sorted x (py_sorted l)
  end.

Lemma insert_sorted_perm x l : insert_sorted x l ≡ₚ x :: l.
Proof.
  induction l as [|y l IH]; simpl; [done|].
  destruct (leb x y); [done|]. rewrite IH. apply Permutation_swap.
Qed.

Lemma py_sorted_perm l : py_sorted l ≡ₚ l.
Proof. induction l as [|x l IH]; simpl; [done|]. by rewrite insert_sorted_perm, IH. Qed.

Lemma elem_of_py_sorted x l : x ∈ py_sorted l <-> x ∈ l.
Proof. by rewrite py_sorted_perm. Qed.

Lemma length_py_sorted l : length (py_sorted l) = length l.
Proof. apply Permutation_length, py_sorted_perm. Qed.

Context (Htotal : forall x y, leb x y = true \/ leb y x = true).
Context (Htrans : forall x y z, leb x y = true -> leb y z = true -> leb x z = true).

Inductive SortedBy : list A -> Prop :=
  | SortedBy_nil : SortedBy []
  | SortedBy_cons x l : Forall (fun y => leb x y = true) l -> SortedBy l -> SortedBy (x :: l).

Lemma insert_sorted_sorted x l : SortedBy l -> SortedBy (insert_sorted x l).
Proof.
  induction 1 as [|y l Hy Hl IH]; simpl.
  - repeat constructor.
  - destruct (leb x y) eqn:E.
    + constructor; [|by constructor]. constructor; [done|].
      eapply Forall_impl; [exact Hy|]. simpl; eauto.
    + constructor; [|done]. rewrite insert_sorted_perm.
      constructor; [|done]. destruct (Htotal x y); congruence.
Qed.

Lemma py_sorted_sorted l : SortedBy (py_sorted l).
Proof. induction l; simpl; [constructor|by apply insert_sorted_sorted]. Qed.

Lemma insert_sorted_id x l : Forall (fun y => leb x y = true) l -> insert_sorted x l = x :: l.
Proof. destruct 1 as [|y l Hy Hl]; simpl; [done|]. by rewrite Hy. Qed.

(** Sorting a sorted list changes nothing. *)
Lemma py_sorted_id l : SortedBy l -> py_sorted l = l.
Proof. induction 1 as [|x l Hx Hl IH]; simpl; [done|]. rewrite IH. by apply insert_sorted_id. Qed.
End Sort.

(** ** Rule induction: an invariant of the steps holds of what they reach *)
Lemma rtc_preserves {A} (R : relation A) (P : A -> Prop) x y :
  (forall a b, R a b -> P a -> P b) -> P x -> rtc R x y -> P y.
Proof. intros Hstep Hx Hr. induction Hr; eauto. Qed.

Create HintDb gw.
Create Rewrite HintDb gw_rw.
#[export] Hint Resolve insert_sorted_sorted py_sorted_sorted : gw.
