(* ===== verification/PyStr.v ===== *)
(** * Python strings

    The string operations of the standard library the modelled code uses. A
    string is a sequence of characters with code points below 256 (Latin-1):
    [is_space], [lower] and the comparison are exact on those; [upper] is exact
    on ASCII, the only text the code upper-cases (HTTP methods). *)

From Stdlib Require Export Ascii.
From S2P Require Import Prelude.

Notation "c ::s s" := (String.String c s) (at level 60, right associativity) : gw_scope.

Definition code (c : ascii) : Z := Z.of_nat (nat_of_ascii c).

(** [str.isspace] of one character. *)
Definition is_space (c : ascii) : bool :=
  let n := code c in
  ((9 <=? n) && (n <=? 13)) || ((28 <=? n) && (n <=? 32)) || (n =? 133) || (n =? 160).

Fixpoint lstrip (s : string) : string :=
  match s with
  | "" => ""
  | c ::s s' => if is_space c then lstrip s' else s
  end.

(** [s.rstrip()] for an arbitrary set of characters to remove. *)
Fixpoint rstrip_by (f : ascii -> bool) (s : string) : string :=
  match s with
  | "" => ""
  | c ::s s' =>
      let r := rstrip_by f s' in
      if (String.eqb r "") && f c then "" else c ::s r
  end.
Fixpoint lstrip_by (f : ascii -> bool) (s : string) : string :=
  match s with
  | "" => ""
  | c ::s s' => if f c then lstrip_by f s' else s
  end.

Definition rstrip (s : string) : string := rstrip_by is_space s.
Definition strip (s : string) : string := rstrip (lstrip s).

(** [s.strip(chars)]. *)
Definition strip_by (f : ascii -> bool) (s : string) : string := rstrip_by f (lstrip_by f s).

Definition lower_ascii (c : ascii) : ascii :=
  let n := code c in
  if ((65 <=? n) && (n <=? 90)) || ((192 <=? n) && (n <=? 222) && negb (n =? 215))
  then ascii_of_nat (Z.to_nat (n + 32)) else c.
Definition upper_ascii (c : ascii) : ascii :=
  let n := code c in
  if (97 <=? n) && (n <=? 122) then ascii_of_nat (Z.to_nat (n - 32)) else c.

Fixpoint smap (f : ascii -> ascii) (s : string) : string :=
  match s with "" => "" | c ::s s' => f c ::s smap f s' end.
Definition lower : string -> string := smap lower_ascii.
Definition upper : string -> string := smap upper_ascii.

Fixpoint forall_chars (f : ascii -> bool) (s : string) : bool :=
  match s with "" => true | c ::s s' => f c && forall_chars f s' end.
Fixpoint exists_char (f : ascii -> bool) (s : string) : bool :=
  match s with "" => false | c ::s s' => f c || exists_char f s' end.
Definition has_char (c : ascii) (s : string) : bool := exists_char (Ascii.eqb c) s.

Definition is_digit (c : ascii) : bool := (48 <=? code c) && (code c <=? 57).
Definition is_alnum_ascii (c : ascii) : bool :=
  is_digit c || ((65 <=? code c) && (code c <=? 90)) || ((97 <=? code c) && (code c <=? 122)).

Definition len (s : string) : Z := Z.of_nat (String.length s).

Definition startswith (p s : string) : bool := String.prefix p s.

(** [s[n:]] and [s[:n]] for [n >= 0]. *)
Fixpoint sdrop (n : nat) (s : string) : string :=
  match n, s with
  | O, _ => s
  | S n, "" => ""
  | S n, _ ::s s' => sdrop n s'
  end.
Fixpoint stake (n : nat) (s : string) : string :=
  match n, s with
  | O, _ => ""
  | S n, "" => ""
  | S n, c ::s s' => c ::s stake n s'
  end.
Definition removeprefix_len (p s : string) : string := sdrop (String.length p) s.

Fixpoint srev_append (s acc : string) : string :=
  match s with "" => acc | c ::s s' => srev_append s' (c ::s acc) end.
Definition srev (s : string) : string := srev_append s "".
Definition endswith (p s : string) : bool := String.prefix (srev p) (srev s).

(** [sub in s]. *)
Fixpoint contains (sub s : string) : bool :=
  String.prefix sub s || match s with "" => false | _ ::s s' => contains sub s' end.

(** [hmac.compare_digest] of two texts: it refuses characters that are not ASCII. *)
Definition is_ascii (s : string) : bool := forall_chars (fun c => code c <? 128) s.
Definition compare_digest (a b : string) : res bool :=
  if is_ascii a && is_ascii b then Ok (String.eqb a b)
  else Raise (TypeError "comparing strings with non-ASCII characters is not supported").

(** [s.split(c)]. *)
Fixpoint split_char (c : ascii) (s : string) : list string :=
  match s with
  | "" => [""]
  | d ::s s' =>
      if Ascii.eqb c d then "" :: split_char c s'
      else match split_char c s' with
           | [] => [d ::s ""]
           | h :: t => (d ::s h) :: t
           end
  end.

(** [s.split(c, 1)]: [None] when the separator does not occur. *)
Fixpoint split1 (c : ascii) (s : string) : option (string * string) :=
  match s with
  | "" => None
  | d ::s s' =>
      if Ascii.eqb c d then Some ("", s')
      else match split1 c s' with Some (a, b) => Some (d ::s a, b) | None => None end
  end.

(** [s.rsplit(c, 1)]. *)
Fixpoint rsplit1 (c : ascii) (s : string) : option (string * string) :=
  match s with
  | "" => None
  | d ::s s' =>
      match rsplit1 c s' with
      | Some (a, b) => Some (d ::s a, b)
      | None => if Ascii.eqb c d then Some ("", s') else None
      end
  end.

(** [sep.join(l)]. *)
Fixpoint join (sep : string) (l : list string) : string :=
  match l with
  | [] => ""
  | [x] => x
  | x :: l => x +:+ sep +:+ join sep l
  end.

(** [str(n)] of an integer. *)
Definition str_of_Z (n : Z) : string := pretty n.

(** Comparison of strings by code points, as Python's [<=]. *)
Fixpoint str_leb (s t : string) : bool :=
  match s, t with
  | "", _ => true
  | _ ::s _, "" => false
  | c ::s s', d ::s t' => (code c <? code d) || ((code c =? code d) && str_leb s' t')
  end.
Definition str_ltb (s t : string) : bool := negb (str_leb t s).

(** ** Lemmas *)

Lemma code_inj c d : code c = code d -> c = d.
Proof.
  unfold code. intros H%Nat2Z.inj.
  rewrite <- (ascii_nat_embedding c), <- (ascii_nat_embedding d). by f_equal.
Qed.

Lemma code_bounds c : 0 <= code c < 256.
Proof. unfold code. pose proof (nat_ascii_bounded c). lia. Qed.

Lemma rstrip_by_idemp f s : rstrip_by f (rstrip_by f s) = rstrip_by f s.
Proof.
  induction s as [|c s IH]; simpl; [done|].
  destruct (String.eqb (rstrip_by f s) "" && f c) eqn:E; [done|].
  simpl. by rewrite IH, E.
Qed.

Lemma lstrip_rstrip_stable s :
  (s = "" \/ exists c s', s = c ::s s' /\ is_space c = false) ->
  lstrip (rstrip s) = rstrip s.
Proof.
  intros [->|(c & s' & -> & Hc)]; [done|].
  unfold rstrip. simpl. rewrite Hc, andb_false_r. simpl. by rewrite Hc.
Qed.

Lemma lstrip_head s : lstrip s = "" \/ exists c s', lstrip s = c ::s s' /\ is_space c = false.
Proof.
  induction s as [|c s IH]; simpl; [by left|].
  destruct (is_space c) eqn:E; [done|]. right. eauto.
Qed.

(** Stripping twice is stripping once. *)
(** A text that starts with a visible character is not blank. *)
Lemma strip_visible c s : is_space c = false -> strip (c ::s s) <> "".
Proof. intros Hc. unfold strip. simpl. rewrite Hc. unfold rstrip. simpl. by rewrite Hc, andb_false_r. Qed.

Lemma strip_idemp s : strip (strip s) = strip s.
Proof.
  unfold strip. rewrite lstrip_rstrip_stable by apply lstrip_head.
  apply rstrip_by_idemp.
Qed.

Lemma smap_smap f s : (forall c, f (f c) = f c) -> smap f (smap f s) = smap f s.
Proof. intros Hf. induction s as [|c s IH]; simpl; [done|]. by rewrite Hf, IH. Qed.

Lemma lower_ascii_idemp c : lower_ascii (lower_ascii c) = lower_ascii c.
Proof. destruct c as [[] [] [] [] [] [] [] []]; vm_compute; reflexivity. Qed.

Lemma lower_idemp s : lower (lower s) = lower s.
Proof. apply smap_smap, lower_ascii_idemp. Qed.

Lemma is_space_lower c : is_space (lower_ascii c) = is_space c.
Proof. destruct c as [[] [] [] [] [] [] [] []]; vm_compute; reflexivity. Qed.

Lemma smap_rstrip_by f g s : (forall c, f (g c) = f c) -> rstrip_by f (smap g s) = smap g (rstrip_by f s).
Proof.
  intros Hg. induction s as [|c s IH]; simpl; [done|]. rewrite IH, Hg.
  destruct (rstrip_by f s) eqn:E; simpl; [by destruct (f c)|done].
Qed.

Lemma lstrip_lower s : lstrip (lower s) = lower (lstrip s).
Proof.
  induction s as [|c s IH]; simpl; [done|]. rewrite is_space_lower.
  by destruct (is_space c).
Qed.

(** [s.strip().lower()] is its own normal form. *)
Lemma strip_lower s : strip (lower s) = lower (strip s).
Proof.
  unfold strip, rstrip. rewrite lstrip_lower.
  apply smap_rstrip_by. apply is_space_lower.
Qed.

Lemma strip_lower_idemp s : lower (strip (lower (strip s))) = lower (strip s).
Proof. by rewrite strip_lower, strip_idemp, lower_idemp. Qed.

Lemma forall_chars_rstrip f g s : forall_chars f s = true -> forall_chars f (rstrip_by g s) = true.
Proof.
  induction s as [|c s IH]; simpl; [done|]. intros [Hc Hs]%andb_true_iff.
  destruct (String.eqb (rstrip_by g s) "" && g c); simpl; [done|]. by rewrite Hc, IH.
Qed.

Lemma forall_chars_lstrip f g s : forall_chars f s = true -> forall_chars f (lstrip_by g s) = true.
Proof.
  induction s as [|c s IH]; simpl; [done|]. intros [Hc Hs]%andb_true_iff.
  destruct (g c); simpl; [auto|]. by rewrite Hc, Hs.
Qed.

Lemma forall_chars_strip_by f g s : forall_chars f s = true -> forall_chars f (strip_by g s) = true.
Proof. intros. by apply forall_chars_rstrip, forall_chars_lstrip. Qed.

Lemma rstrip_by_none f s : forall_chars (fun c => negb (f c)) s = true -> rstrip_by f s = s.
Proof.
  induction s as [|c s IH]; simpl; [done|]. intros Hs. apply andb_true_iff in Hs as [Hc Hs].
  rewrite IH by done. destruct s; simpl in *; [by rewrite (proj1 (negb_true_iff _) Hc)|done].
Qed.

Lemma strip_no_space s : forall_chars (fun c => negb (is_space c)) s = true -> strip s = s.
Proof.
  intros Hs. unfold strip, rstrip. assert (lstrip s = s) as ->.
  { destruct s as [|c s]; [done|]. simpl in *. apply andb_true_iff in Hs as [Hc _].
    by rewrite (proj1 (negb_true_iff _) Hc). }
  by apply rstrip_by_none.
Qed.

Lemma forall_chars_weaken (f g : ascii -> bool) s :
  (forall c, f c = true -> g c = true) -> forall_chars f s = true -> forall_chars g s = true.
Proof.
  intros Hfg. induction s as [|c s IH]; simpl; [done|]. intros Hs.
  apply andb_true_iff in Hs as [Hc Hs]. rewrite Hfg, IH; done.
Qed.

Lemma prefix_app p s : String.prefix p (p +:+ s) = true.
Proof. induction p as [|c p IH]; simpl; [by destruct s|]. destruct (ascii_dec c c); done. Qed.

Lemma prefix_spec p s : String.prefix p s = true <-> exists t, s = p +:+ t.
Proof.
  split.
  - revert s. induction p as [|c p IH]; intros s H; [by exists s|].
    destruct s as [|d s]; simpl in H; [done|].
    destruct (ascii_dec c d) as [->|]; [|done]. destruct (IH s H) as [t ->]. by exists t.
  - intros [t ->]. apply prefix_app.
Qed.

Lemma sdrop_app p s : sdrop (String.length p) (p +:+ s) = s.
Proof. induction p; simpl; auto. Qed.

Lemma sapp_assoc (s t u : string) : (s +:+ t) +:+ u = s +:+ (t +:+ u).
Proof. induction s as [|c s IH]; [done|]. change (c ::s ((s +:+ t) +:+ u) = c ::s (s +:+ (t +:+ u))). by f_equal. Qed.
Lemma scons_app c (s t : string) : (c ::s s) +:+ t = c ::s (s +:+ t).
Proof. reflexivity. Qed.
Lemma snil_app (t : string) : "" +:+ t = t.
Proof. reflexivity. Qed.
Lemma sapp_nil (s : string) : s +:+ "" = s.
Proof. induction s as [|c s IH]; [done|]. change (c ::s (s +:+ "") = c ::s s). by f_equal. Qed.
Lemma rstrip_by_app f s t : t <> "" -> rstrip_by f t = t -> rstrip_by f (s +:+ t) = s +:+ t.
Proof.
  intros Hne Ht. induction s as [|c s IH]; [done|]. rewrite scons_app. simpl. rewrite IH.
  destruct (String.eqb_spec (s +:+ t) ""); [|done]. by destruct s, t.
Qed.

Lemma has_char_app c s t : has_char c (s +:+ t) = has_char c s || has_char c t.
Proof. unfold has_char. induction s as [|d s IH]; simpl; [done|]. rewrite IH. by destruct (Ascii.eqb c d). Qed.

Lemma has_char_srev c s : has_char c (srev s) = has_char c s.
Proof.
  unfold srev. assert (forall acc, has_char c (srev_append s acc) = has_char c s || has_char c acc) as H.
  { unfold has_char. induction s as [|d s IH]; intros acc; simpl; [done|]. rewrite IH. simpl.
    by destruct (Ascii.eqb c d), (exists_char (Ascii.eqb c) s). }
  rewrite H. simpl. apply orb_false_r.
Qed.
Lemma endswith_char c s : has_char c s = false -> endswith (c ::s "") s = false.
Proof.
  intros Hs. unfold endswith. rewrite <- has_char_srev in Hs. simpl. destruct (srev s) as [|d r]; [done|].
  unfold has_char in Hs. simpl in *. apply orb_false_iff in Hs as [Hd _].
  destruct (ascii_dec c d) as [->|]; [by rewrite Ascii.eqb_refl in Hd|done].
Qed.

Lemma rsplit1_app c s t : has_char c t = false -> rsplit1 c (s +:+ c ::s t) = Some (s, t).
Proof.
  intros Ht. assert (rsplit1 c t = None) as Hn.
  { induction t as [|d t IH]; simpl in *; [done|].
    unfold has_char in Ht; simpl in Ht. apply orb_false_iff in Ht as [Hd Ht].
    by rewrite IH, Hd. }
  induction s as [|d s IH]; simpl.
  - by rewrite Hn, Ascii.eqb_refl.
  - by rewrite IH.
Qed.

(** ** The order of strings *)

Lemma str_leb_refl s : str_leb s s = true.
Proof. induction s as [|c s IH]; simpl; [done|]. by rewrite IH, Z.eqb_refl, orb_true_r. Qed.

Lemma str_leb_total s t : str_leb s t = true \/ str_leb t s = true.
Proof.
  revert t. induction s as [|c s IH]; intros [|d t]; simpl; auto.
  destruct (Z.ltb_spec (code c) (code d)); [by left|].
  destruct (Z.ltb_spec (code d) (code c)); [by right|].
  destruct (IH t); [left|right]; simpl.
  - replace (code c =? code d) with true by (symmetry; apply Z.eqb_eq; lia). done.
  - replace (code d =? code c) with true by (symmetry; apply Z.eqb_eq; lia). done.
Qed.

Lemma str_leb_antisym s t : str_leb s t = true -> str_leb t s = true -> s = t.
Proof.
  revert t. induction s as [|c s IH]; intros [|d t]; simpl; try done.
  intros H1 H2. apply orb_true_iff in H1, H2. rewrite !andb_true_iff, !Z.ltb_lt, !Z.eqb_eq in *.
  assert (code c = code d) as Hc by lia.
  rewrite (code_inj c d Hc), (IH t); [done| |]; destruct H1 as [?|[]], H2 as [?|[]]; try lia; done.
Qed.

Lemma str_leb_trans s t u : str_leb s t = true -> str_leb t u = true -> str_leb s u = true.
Proof.
  revert t u. induction s as [|c s IH]; intros [|d t] [|e u]; simpl; try done.
  rewrite !orb_true_iff, !andb_true_iff, !Z.ltb_lt, !Z.eqb_eq.
  intros [?|[? H1]] [?|[? H2]]; try (left; lia). right. split; [lia|]. eauto.
Qed.

Lemma str_ltb_leb s t : str_ltb s t = true -> str_leb s t = true.
Proof.
  unfold str_ltb. intros H%negb_true_iff. destruct (str_leb_total s t); congruence.
Qed.

(** [sorted] on strings. *)
Definition sort_str : list string -> list string := py_sorted str_leb.

Lemma sort_str_sorted l : SortedBy str_leb (sort_str l).
Proof. apply py_sorted_sorted; [apply str_leb_total|apply str_leb_trans]. Qed.

Lemma elem_of_sort_str x l : x ∈ sort_str l <-> x ∈ l.
Proof. apply elem_of_py_sorted. Qed.

Lemma sort_str_id l : SortedBy str_leb l -> sort_str l = l.
Proof. apply py_sorted_id. Qed.

#[export] Hint Resolve str_leb_total str_leb_trans str_leb_refl sort_str_sorted : gw.
#[export] Hint Rewrite strip_idemp lower_idemp strip_lower_idemp : gw_rw.

(** [sorted({...})]: a list without its repetitions, in order. *)
Definition sorted_set (l : list string) : list string := sort_str (remove_dups l).
Lemma sorted_set_elem n l : n ∈ sorted_set l <-> n ∈ l.
Proof. unfold sorted_set. rewrite elem_of_sort_str. apply elem_of_remove_dups. Qed.
Lemma sorted_set_NoDup l : NoDup (sorted_set l).
Proof. unfold sorted_set, sort_str. rewrite py_sorted_perm. apply NoDup_remove_dups. Qed.
Lemma sorted_set_sorted l : SortedBy str_leb (sorted_set l).
Proof. apply sort_str_sorted. Qed.
Lemma sorted_set_id l : SortedBy str_leb l -> NoDup l -> sorted_set l = l.
Proof.
  intros Hs Hn. unfold sorted_set. rewrite <- (sort_str_id l Hs) at 2. f_equal. clear Hs.
  induction Hn as [|x l Hx Hn IH]; [done|]. simpl. case_decide; [done|]. by rewrite IH.
Qed.
Lemma length_sorted_set l : (length (sorted_set l) <= length l)%nat.
Proof.
  unfold sorted_set, sort_str. rewrite length_py_sorted. apply submseteq_length, NoDup_submseteq; [apply NoDup_remove_dups|].
  intros x. apply elem_of_remove_dups.
Qed.
