(* ===== verification/PyVal.v ===== *)
(** * Dynamic values

    The values of the JSON documents and of the runs' [vars] the gateway reads:
    [None], booleans, integers, floats, strings, lists and dicts. A float is the
    one whose [repr] is the text it carries. A dict keeps its insertion order,
    as Python's does. *)

From S2P Require Import Prelude PyStr.

#[local] Set Warnings "-register-all".

Inductive val :=
  | VNone
  | VBool (b : bool)
  | VInt (z : Z)
  | VFloat (repr : string)
  | VStr (s : string)
  | VList (l : list val)
  | VDict (d : list (string * val)).

Abbreviation dict := (list (string * val)).

(** ** Truth and text *)

Definition truthy (v : val) : bool :=
  match v with
  | VNone => false
  | VBool b => b
  | VInt z => negb (z =? 0)
  | VFloat r => negb (String.eqb r "0.0" || String.eqb r "-0.0")
  | VStr s => negb (String.eqb s "")
  | VList l => match l with [] => false | _ => true end
  | VDict d => match d with [] => false | _ => true end
  end.

(** [a or b]. *)
Definition py_or (a b : val) : val := if truthy a then a else b.

Definition hex_digit (n : Z) : ascii :=
  ascii_of_nat (Z.to_nat (if n <? 10 then 48 + n else 87 + n)).
Definition bslash : ascii := "\".
Definition squote : ascii := "'".
Definition dquote : ascii := ascii_of_nat 34.
Definition quoted (s : string) : string := dquote ::s s +:+ dquote ::s "".

(** [repr] of one character inside a string quoted with [q]. *)
Definition repr_char (q c : ascii) : string :=
  let n := code c in
  if Ascii.eqb c q || Ascii.eqb c bslash then bslash ::s c ::s ""
  else if n =? 10 then bslash ::s "n" else if n =? 13 then bslash ::s "r"
  else if n =? 9 then bslash ::s "t"
  else if (n <? 32) || ((127 <=? n) && (n <=? 160)) || (n =? 173)
  then bslash ::s "x"%char ::s hex_digit (n / 16) ::s hex_digit (n mod 16) ::s ""
  else c ::s "".
Definition repr_str (s : string) : string :=
  let q := if has_char squote s && negb (has_char dquote s) then dquote else squote in
  let fix go s := match s with "" => q ::s "" | c ::s s' => repr_char q c +:+ go s' end in
  q ::s go s.

Fixpoint repr (v : val) : string :=
  match v with
  | VNone => "None"
  | VBool true => "True"
  | VBool false => "False"
  | VInt z => str_of_Z z
  | VFloat r => r
  | VStr s => repr_str s
  | VList l => "[" +:+ join ", " (map repr l) +:+ "]"
  | VDict d => "{" +:+ join ", " (map (fun kv => repr_str (fst kv) +:+ ": " +:+ repr (snd kv)) d) +:+ "}"
  end.

(** [str(v)]. *)
Definition py_str (v : val) : string :=
  match v with VStr s => s | _ => repr v end.

(** [str(v or dflt)], the idiom that reads an optional field as text. *)
Definition str_or (v : val) (dflt : string) : string := py_str (py_or v (VStr dflt)).

(** ** Dicts *)

Fixpoint dget (k : string) (d : dict) : option val :=
  match d with
  | [] => None
  | (k', v) :: d => if String.eqb k k' then Some v else dget k d
  end.

(** [d.get(k)]. *)
Definition get_ (k : string) (d : dict) : val := default VNone (dget k d).

(** [k in d]. *)
Definition dmem (k : string) (d : dict) : bool :=
  match dget k d with Some _ => true | None => false end.

(** [d[k] = v]: in place when the key exists, at the end otherwise. *)
Fixpoint dset (k : string) (v : val) (d : dict) : dict :=
  match d with
  | [] => [(k, v)]
  | (k', v') :: d => if String.eqb k k' then (k, v) :: d else (k', v') :: dset k v d
  end.

(** [d.setdefault(k, v)]. *)
Definition setdefault (k : string) (v : val) (d : dict) : dict :=
  if dmem k d then d else d ++ [(k, v)].

(** [d.pop(k, None)]. *)
Fixpoint dpop (k : string) (d : dict) : dict :=
  match d with
  | [] => []
  | (k', v) :: d => if String.eqb k k' then dpop k d else (k', v) :: dpop k d
  end.

(** [{**a, **b}]. *)
Definition dmerge (a b : dict) : dict := fold_left (fun d kv => dset (fst kv) (snd kv) d) b a.

Definition dkeys (d : dict) : list string := map fst d.

(** ** Type tests ([isinstance]) *)

Definition as_dict (v : val) : option dict := match v with VDict d => Some d | _ => None end.
Definition as_list (v : val) : option (list val) := match v with VList l => Some l | _ => None end.
Definition as_str (v : val) : option string := match v with VStr s => Some s | _ => None end.
Definition is_none (v : val) : bool := match v with VNone => true | _ => false end.
Definition is_dict (v : val) : bool := match v with VDict _ => true | _ => false end.
Definition is_list (v : val) : bool := match v with VList _ => true | _ => false end.
Definition is_str (v : val) : bool := match v with VStr _ => true | _ => false end.

(** [x if isinstance(x, dict) else {}]. *)
Definition dict_or_empty (v : val) : dict := default [] (as_dict v).

(** A string that is not blank. *)
Definition nonblank (v : val) : option string :=
  match v with VStr s => if String.eqb (strip s) "" then None else Some s | _ => None end.

(** ** Lemmas *)

Lemma dget_dset_eq k v d : dget k (dset k v d) = Some v.
Proof.
  induction d as [|[k' v'] d IH]; simpl; [by rewrite String.eqb_refl|].
  destruct (String.eqb k k') eqn:E; simpl; [by rewrite String.eqb_refl|by rewrite E].
Qed.

Lemma dget_dset_ne k k' v d : k <> k' -> dget k' (dset k v d) = dget k' d.
Proof.
  intros Hne. induction d as [|[k2 v2] d IH]; simpl.
  - by destruct (String.eqb_spec k' k); [congruence|].
  - destruct (String.eqb_spec k k2) as [->|]; simpl.
    + by destruct (String.eqb_spec k' k2); [congruence|].
    + by destruct (String.eqb k' k2).
Qed.

Lemma dget_app k d1 d2 :
  dget k (d1 ++ d2) = match dget k d1 with Some v => Some v | None => dget k d2 end.
Proof. induction d1 as [|[k' v] d1 IH]; simpl; [done|]. by destruct (String.eqb k k'). Qed.

Lemma dget_setdefault k k' v d :
  dget k' (setdefault k v d) =
  match dget k' d with Some w => Some w | None => if String.eqb k' k then Some v else None end.
Proof.
  unfold setdefault, dmem. destruct (dget k d) eqn:E.
  - destruct (dget k' d) eqn:E'; [done|]. destruct (String.eqb_spec k' k); congruence.
  - rewrite dget_app. simpl. done.
Qed.

(** [setdefault] never changes a key that is present. *)
Lemma setdefault_keeps k k' v w d : dget k' d = Some w -> dget k' (setdefault k v d) = Some w.
Proof. intros H. by rewrite dget_setdefault, H. Qed.

Lemma setdefault_present k v d : is_Some (dget k (setdefault k v d)).
Proof.
  rewrite dget_setdefault. destruct (dget k d); [eauto|]. rewrite String.eqb_refl. eauto.
Qed.

Lemma dget_dpop_eq k d : dget k (dpop k d) = None.
Proof.
  induction d as [|[k' v] d IH]; simpl; [done|].
  destruct (String.eqb k k') eqn:E; simpl; [done|by rewrite E].
Qed.

Lemma dget_dpop_ne k k' d : k <> k' -> dget k' (dpop k d) = dget k' d.
Proof.
  intros Hne. induction d as [|[k2 v] d IH]; simpl; [done|].
  destruct (String.eqb_spec k k2) as [->|]; simpl.
  - by destruct (String.eqb_spec k' k2); [congruence|].
  - by destruct (String.eqb k' k2).
Qed.

Lemma dget_dmerge k a b :
  NoDup (dkeys b) ->
  dget k (dmerge a b) = match dget k b with Some v => Some v | None => dget k a end.
Proof.
  unfold dmerge. revert a. induction b as [|[k' v] b IH]; intros a Hnd; simpl in *; [done|].
  inversion Hnd as [|? ? Hni Hnd']; subst. rewrite IH by done.
  destruct (String.eqb_spec k k') as [->|Hne].
  - assert (dget k' b = None) as ->; [|by rewrite dget_dset_eq].
    clear -Hni. induction b as [|[k2 v2] b IHb]; simpl in *; [done|].
    destruct (String.eqb_spec k' k2) as [->|]; [|apply IHb; set_solver]. set_solver.
  - destruct (dget k b); [done|]. by rewrite dget_dset_ne.
Qed.

Lemma get_dset_eq k v d : get_ k (dset k v d) = v.
Proof. unfold get_. by rewrite dget_dset_eq. Qed.
Lemma get_dset_ne k k' v d : k <> k' -> get_ k' (dset k v d) = get_ k' d.
Proof. intros. unfold get_. by rewrite dget_dset_ne. Qed.

(** Reads of updated dicts. *)
Ltac dict_simp :=
  repeat first
    [ rewrite get_dset_eq | rewrite get_dset_ne by done
    | rewrite dget_dset_eq | rewrite dget_dset_ne by done ].

#[export] Hint Rewrite dget_dset_eq dget_dpop_eq : gw_rw.
#[export] Hint Rewrite dget_dset_ne dget_dpop_ne using congruence : gw_rw.
#[export] Hint Resolve setdefault_keeps setdefault_present : gw.

(** ** Equality *)

Fixpoint val_eq_dec (x y : val) {struct x} : {x = y} + {x <> y}.
Proof.
  refine (match x, y with
  | VNone, VNone => left eq_refl
  | VBool a, VBool b => cast_if (decide (a = b))
  | VInt a, VInt b => cast_if (decide (a = b))
  | VFloat a, VFloat b => cast_if (decide (a = b))
  | VStr a, VStr b => cast_if (decide (a = b))
  | VList a, VList b => cast_if (@list_eq_dec val val_eq_dec a b)
  | VDict a, VDict b => cast_if (@list_eq_dec (string * val) (@prod_eq_dec string _ val val_eq_dec) a b)
  | _, _ => right _
  end); congruence.
Defined.
#[global] Instance val_eq_decision : EqDecision val := val_eq_dec.

(** ** [str(v or default)] of a string *)

Lemma str_or_str s d : s <> "" -> str_or (VStr s) d = s.
Proof. intros H. unfold str_or, py_or. simpl. by destruct (String.eqb_spec s ""). Qed.
Lemma str_or_self s : str_or (VStr s) "" = s.
Proof. unfold str_or, py_or. simpl. by destruct (String.eqb_spec s ""). Qed.
