(* ===== verification/PyNum.v ===== *)
(** * Python's number conversions

    [int(x)] of a dynamic value, and the decimal reading of a number's text. A
    number text is a mantissa and a power of ten. *)

From S2P Require Import Prelude PyStr PyVal.

Definition digits_val (s : string) : option Z :=
  let fix go acc s :=
    match s with
    | "" => Some acc
    | c ::s s => if is_digit c then go (10 * acc + (code c - 48)) s else None
    end in
  match s with "" => None | _ => go 0 s end.

Definition signed (s : string) : bool * string :=
  match s with
  | c ::s s' => if Ascii.eqb c "-" then (true, s') else if Ascii.eqb c "+" then (false, s') else (false, s)
  | "" => (false, s)
  end.
Definition with_sign (neg : bool) (z : Z) : Z := if neg then - z else z.

(** [int(s)] of a text: decimal digits, with single underscores between them. *)
Definition int_digits (s : string) : option Z :=
  let fix go acc (after_digit : bool) s :=
    match s with
    | "" => if after_digit then Some acc else None
    | c ::s s =>
        if is_digit c then go (10 * acc + (code c - 48)) true s
        else if Ascii.eqb c "_" && after_digit then go acc false s else None
    end in
  go 0 false s.
Definition int_of_str (s : string) : option Z :=
  let '(neg, t) := signed (strip s) in with_sign neg <$> int_digits t.

(** A decimal text [d+[.d*][e[+-]d+]] as (mantissa, power of ten). *)
Definition decimal_of (s : string) : option (Z * Z) :=
  let '(m, e) := match split1 "e" s with Some (m, e) => (m, int_of_str e) | None => (s, Some 0) end in
  match e with
  | None => None
  | Some e =>
      let '(i, f) := match split1 "." m with Some (i, f) => (i, f) | None => (m, "") end in
      match digits_val (i +:+ f) with
      | Some v => Some (v, e - len f)
      | None => None
      end
  end.
Definition scale10 (m e : Z) : Z := if 0 <=? e then m * 10 ^ e else Z.quot m (10 ^ (- e)).

(** [int(x)] of a float's repr: truncation towards zero, nothing for [nan] and
    [inf]. *)
Definition int_of_float (s : string) : option Z :=
  let '(neg, t) := signed s in
  match decimal_of t with Some (m, e) => Some (with_sign neg (scale10 m e)) | None => None end.

(** [int(v)], [None] when it raises. *)
Definition py_int (v : val) : option Z :=
  match v with
  | VInt z => Some z
  | VBool b => Some (if b then 1 else 0)
  | VFloat r => int_of_float r
  | VStr s => int_of_str s
  | _ => None
  end.

Example int_of_float_sample : int_of_float "1.5e+16" = Some 15000000000000000.
Proof. vm_compute. reflexivity. Qed.
Example int_of_float_neg : int_of_float "-2.75" = Some (-2).
Proof. vm_compute. reflexivity. Qed.
Example int_of_str_samples : map int_of_str ["1_000"; " -7 "; "1__0"; "_1"; "1_"; ""; "+"] = [Some 1000; Some (-7); None; None; None; None; None].
Proof. vm_compute. reflexivity. Qed.
