(* ===== verification/IsoTime.v ===== *)
(** * Instants and ISO 8601 text

    An instant is an integer number of microseconds since the epoch, the
    resolution of Python's [datetime]. [isoformat] is [datetime.isoformat] of an
    aware UTC value; [fromisoformat] is [datetime.fromisoformat] on the extended
    format (date, one separator character, [HH:MM[:SS[.ffffff]]], optional
    offset), which is the format the gateway and its runtime write. *)

From S2P Require Import Prelude PyStr.

Definition second : Z := 1000000.
Definition minute : Z := 60 * second.
Definition hour : Z := 60 * minute.
Definition day : Z := 24 * hour.

(** ** Days and civil dates (proleptic Gregorian calendar, day 0 = 1970-01-01) *)

Definition leap (y : Z) : bool := ((y mod 4 =? 0) && negb (y mod 100 =? 0)) || (y mod 400 =? 0).
Definition days_in_month (y m : Z) : Z :=
  if m =? 2 then (if leap y then 29 else 28)
  else if (m =? 4) || (m =? 6) || (m =? 9) || (m =? 11) then 30 else 31.

Definition days_from_civil (y m d : Z) : Z :=
  let y := if m <=? 2 then y - 1 else y in
  let era := y / 400 in
  let yoe := y mod 400 in
  let doy := (153 * (if 2 <? m then m - 3 else m + 9) + 2) / 5 + d - 1 in
  era * 146097 + (yoe * 365 + yoe / 4 - yoe / 100 + doy) - 719468.

(** Year of the era and day of that year of a day of the era. *)
Definition year_of_era (doe : Z) : Z := (doe - doe / 1460 + doe / 36524 - doe / 146096) / 365.
Definition day_of_year (doe : Z) : Z :=
  let yoe := year_of_era doe in doe - (365 * yoe + yoe / 4 - yoe / 100).

Definition civil_from_days (z : Z) : Z * Z * Z :=
  let z := z + 719468 in
  let era := z / 146097 in
  let doe := z mod 146097 in
  let yoe := year_of_era doe in
  let doy := day_of_year doe in
  let mp := (5 * doy + 2) / 153 in
  let d := doy - (153 * mp + 2) / 5 + 1 in
  let m := if mp <? 10 then mp + 3 else mp - 9 in
  let y := yoe + era * 400 in
  ((if m <=? 2 then y + 1 else y), m, d).

(** ** Printing *)

Definition digit (n : Z) : ascii := ascii_of_nat (Z.to_nat (48 + n)).
Definition pad2 (n : Z) : string := digit (n / 10) ::s digit (n mod 10) ::s "".
Definition pad4 (n : Z) : string := pad2 (n / 100) +:+ pad2 (n mod 100).
Definition pad6 (n : Z) : string := pad2 (n / 10000) +:+ pad2 (n / 100 mod 100) +:+ pad2 (n mod 100).

Definition isoformat (t : Z) : string :=
  let '(y, m, d) := civil_from_days (t / day) in
  let r := t mod day in
  let us := r mod second in
  pad4 y +:+ "-" +:+ pad2 m +:+ "-" +:+ pad2 d +:+ "T" +:+
  pad2 (r / hour) +:+ ":" +:+ pad2 (r / minute mod 60) +:+ ":" +:+ pad2 (r / second mod 60) +:+
  (if us =? 0 then "" else "." +:+ pad6 us) +:+ "+00:00".

(** ** Parsing *)

Definition digit_val (c : ascii) : option Z := if is_digit c then Some (code c - 48) else None.

(** Two digits, and the rest of the text. *)
Definition parse2 (s : string) : option (Z * string) :=
  match s with
  | a ::s b ::s s =>
      match digit_val a, digit_val b with Some a, Some b => Some (10 * a + b, s) | _, _ => None end
  | _ => None
  end.
Definition parse4 (s : string) : option (Z * string) :=
  match parse2 s with
  | Some (a, s) => match parse2 s with Some (b, s) => Some (100 * a + b, s) | None => None end
  | None => None
  end.

(** The digits of a fraction of a second, the first six of them counted. *)
Fixpoint parse_frac (n : nat) (scale acc : Z) (s : string) : Z * nat * string :=
  match s with
  | c ::s s' =>
      match digit_val c with
      | Some v => parse_frac (S n) (scale / 10) (acc + v * scale) s'
      | None => (acc, n, s)
      end
  | "" => (acc, n, s)
  end.

Definition eat (c : ascii) (s : string) : option string :=
  match s with d ::s s => if Ascii.eqb c d then Some s else None | "" => None end.

(** [HH:MM[:SS[.f+]]] in microseconds, and the rest. *)
Definition parse_clock (s : string) : option (Z * string) :=
  '(h, s) ← parse2 s;
  s ← eat ":" s;
  '(mi, s) ← parse2 s;
  match eat ":" s with
  | None => if (h <=? 23) && (mi <=? 59) then Some (h * hour + mi * minute, s) else None
  | Some s =>
      '(se, s) ← parse2 s;
      if (h <=? 23) && (mi <=? 59) && (se <=? 59) then
        let base := h * hour + mi * minute + se * second in
        match eat "." s with
        | None => Some (base, s)
        | Some s =>
            let '(us, n, s) := parse_frac 0 100000 0 s in
            if (n =? 0)%nat then None else Some (base + us, s)
        end
      else None
  end.

(** The UTC offset: [Some None] for a naive text. *)
Definition parse_offset (s : string) : option (option Z) :=
  match s with
  | "" => Some None
  | c ::s s' =>
      if Ascii.eqb c "Z" then (if String.eqb s' "" then Some (Some 0) else None)
      else
        let sign := if Ascii.eqb c "+" then 1 else -1 in
        if Ascii.eqb c "+" || Ascii.eqb c "-" then
          match parse_clock s' with
          | Some (o, "") => Some (Some (sign * o))
          | _ => None
          end
        else None
  end.

(** A naive local time in microseconds, and the offset when there is one. *)
Definition fromisoformat (s : string) : option (Z * option Z) :=
  '(y, s) ← parse4 s;
  s ← eat "-" s;
  '(m, s) ← parse2 s;
  s ← eat "-" s;
  '(d, s) ← parse2 s;
  if (1 <=? y) && (1 <=? m) && (m <=? 12) && (1 <=? d) && (d <=? days_in_month y m) then
    let date := days_from_civil y m d * day in
    match s with
    | "" => Some (date, None)
    | _ ::s s =>
        '(clock, s) ← parse_clock s;
        off ← parse_offset s;
        Some (date + clock, off)
    end
  else None.

(** The instant of a text, a naive one read as UTC. *)
Definition iso_instant (s : string) : option Z :=
  '(t, off) ← fromisoformat s;
  Some (t - default 0 off).

(** [.replace("Z", "+00:00")]. *)
Fixpoint replace_Z (s : string) : string :=
  match s with
  | "" => ""
  | c ::s s => if Ascii.eqb c "Z" then "+00:00" +:+ replace_Z s else c ::s replace_Z s
  end.

(** [_epoch_from_iso]: seconds since the epoch of an ISO text (here the instant),
    [None] when it does not parse. *)
Definition epoch_from_iso (s : string) : option Z := iso_instant (replace_Z (strip s)).

Example iso_roundtrip_sample : iso_instant (isoformat 1735689599123456) = Some 1735689599123456.
Proof. vm_compute. reflexivity. Qed.
Example iso_leap_sample : isoformat (days_from_civil 2024 2 29 * day) = "2024-02-29T00:00:00+00:00".
Proof. vm_compute. reflexivity. Qed.
Example iso_bad_sample : epoch_from_iso "2023-02-29T00:00:00Z" = None.
Proof. vm_compute. reflexivity. Qed.

(** ** Round trips *)

(** First day of a year of the era, counted from 1 March. *)
Definition year_start (y : Z) : Z := 365 * y + y / 4 - y / 100 + y / 400.

Lemma div_100 y : y / 100 = y / 4 / 25.
Proof. by rewrite Z.div_div. Qed.
Lemma div_400 y : y / 400 = y / 4 / 25 / 4.
Proof. by rewrite !Z.div_div. Qed.

Lemma div_step a k : 0 < k -> (a + 1) / k = a / k \/ (a + 1) / k = a / k + 1.
Proof. intros. Z.to_euclidean_division_equations. nia. Qed.

Lemma year_start_mono y : 365 <= year_start (y + 1) - year_start y <= 366.
Proof.
  unfold year_start. rewrite !div_100, !div_400.
  destruct (div_step y 4 eq_refl) as [-> | ->]; [lia|].
  destruct (div_step (y / 4) 25 eq_refl) as [-> | ->]; [lia|].
  destruct (div_step (y / 4 / 25) 4 eq_refl) as [-> | ->]; lia.
Qed.

Lemma year_start_find (n : nat) doe : 0 <= doe < year_start (Z.of_nat n) ->
  exists y, 0 <= y < Z.of_nat n /\ year_start y <= doe < year_start (y + 1).
Proof.
  induction n as [|n IH]; intros H; [change (year_start (Z.of_nat 0)) with 0 in H; lia|].
  destruct (Z.lt_ge_cases doe (year_start (Z.of_nat n))).
  - destruct IH as (y & ? & ?); [lia|]. exists y. lia.
  - exists (Z.of_nat n). rewrite Nat2Z.inj_succ in H. unfold Z.succ in H. lia.
Qed.

Definition year_count (doe : Z) : Z := doe - doe / 1460 + doe / 36524 - doe / 146096.
Lemma year_count_mono a b : 0 <= a <= b -> year_count a <= year_count b.
Proof.
  intros [Ha Hab]. replace b with (a + Z.of_nat (Z.to_nat (b - a))) by lia.
  induction (Z.to_nat (b - a)) as [|n IH]; [rewrite Z.add_0_r; lia|]. etrans; [exact IH|].
  replace (a + Z.of_nat (S n)) with (a + Z.of_nat n + 1) by lia. generalize (a + Z.of_nat n). intros c. unfold year_count.
  assert (forall x, x / 146096 = x / 36524 / 4) as E by (intros; by rewrite Z.div_div). rewrite !E.
  destruct (div_step c 1460 eq_refl) as [-> | ->], (div_step c 36524 eq_refl) as [-> | ->]; try lia.
  all: destruct (div_step (c / 36524) 4 eq_refl) as [-> | ->]; lia.
Qed.

(** The first and the last day of a year are counted to it. *)
Definition year_ends_ok (y : Z) : bool :=
  (year_of_era (year_start y) =? y) && (year_of_era (year_start (y + 1) - 1) =? y).
Lemma year_ends y : 0 <= y < 400 -> year_ends_ok y = true.
Proof. apply (forallb_below year_ends_ok 400). by vm_compute. Qed.

Lemma year_of_era_spec doe : 0 <= doe < 146097 ->
  let y := year_of_era doe in 0 <= y < 400 /\ year_start y <= doe < year_start (y + 1).
Proof.
  intros H. destruct (year_start_find 400 doe) as (y & Hy & Hd); [exact H|].
  pose proof (year_ends y Hy) as He. apply andb_true_iff in He as [H1%Z.eqb_eq H2%Z.eqb_eq].
  assert (year_of_era doe = y) as ->; [|done].
  assert (forall a b, 0 <= a <= b -> year_of_era a <= year_of_era b) as Hmono.
  { intros a b Hab. unfold year_of_era. apply Z.div_le_mono; [lia|]. by apply year_count_mono. }
  assert (0 <= year_start y) by (unfold year_start; Z.to_euclidean_division_equations; lia).
  pose proof (Hmono (year_start y) doe ltac:(lia)). pose proof (Hmono doe (year_start (y + 1) - 1) ltac:(lia)). lia.
Qed.

(** Month and day of a day of the year that starts on 1 March. *)
Definition month_ok (doy : Z) : bool :=
  let mp := (5 * doy + 2) / 153 in
  let d := doy - (153 * mp + 2) / 5 + 1 in
  let m := if mp <? 10 then mp + 3 else mp - 9 in
  (1 <=? m) && (m <=? 12) && (1 <=? d) &&
  (d <=? (if m =? 2 then (if doy =? 365 then 29 else 28)
          else if (m =? 4) || (m =? 6) || (m =? 9) || (m =? 11) then 30 else 31)) &&
  ((153 * (if 2 <? m then m - 3 else m + 9) + 2) / 5 + d - 1 =? doy) &&
  Bool.eqb (m <=? 2) (306 <=? doy).
Lemma months_ok : forallb (fun n => month_ok (Z.of_nat n)) (seq 0 366) = true.
Proof. vm_compute. reflexivity. Qed.
Lemma month_ok_all doy : 0 <= doy <= 365 -> month_ok doy = true.
Proof. intros H. apply (forallb_below month_ok 366); [exact months_ok|lia]. Qed.

Lemma leap_era y k : leap (y + 400 * k) = leap y.
Proof.
  unfold leap. replace (y + 400 * k) with (y + (100 * k) * 4) at 1 by lia.
  replace (y + 400 * k) with (y + (4 * k) * 100) at 1 by lia. replace (y + 400 * k) with (y + k * 400) by lia.
  by rewrite !Z_mod_plus_full.
Qed.

Lemma leap_year_length y : 0 <= y < 400 -> year_start (y + 1) - year_start y = if leap (y + 1) then 366 else 365.
Proof.
  intros H. unfold year_start, leap. rewrite !div_100, !div_400.
  destruct ((y + 1) mod 4 =? 0) eqn:E1, ((y + 1) mod 100 =? 0) eqn:E2, ((y + 1) mod 400 =? 0) eqn:E3; simpl;
    rewrite ?Z.eqb_eq, ?Z.eqb_neq in *; Z.to_euclidean_division_equations; lia.
Qed.

(** The first and the last day of [datetime]'s years 1 to 9999. *)
Definition first_day : Z := -719162.
Definition last_day : Z := 2932896.

Lemma civil_from_days_spec z y m d : first_day <= z <= last_day -> civil_from_days z = (y, m, d) ->
  1 <= y <= 9999 /\ 1 <= m <= 12 /\ 1 <= d <= days_in_month y m /\ d <= 31 /\ days_from_civil y m d = z.
Proof.
  intros Hz. unfold civil_from_days, first_day, last_day in *.
  pose proof (Z.div_mod (z + 719468) 146097 ltac:(done)) as Hdm.
  pose proof (Z.mod_pos_bound (z + 719468) 146097 ltac:(done)) as Hdoe.
  set (era := (z + 719468) / 146097) in *. set (doe := (z + 719468) mod 146097) in *.
  destruct (year_of_era_spec doe Hdoe) as [Hy Hd]. unfold day_of_year. set (yoe := year_of_era doe) in *.
  pose proof (leap_year_length yoe Hy) as Hlen.
  assert (year_start yoe = 365 * yoe + yoe / 4 - yoe / 100) as Hst.
  { unfold year_start. rewrite (Z.div_small yoe 400) by lia. lia. }
  set (doy := doe - (365 * yoe + yoe / 4 - yoe / 100)).
  assert (doy = doe - year_start yoe) as Ed by (subst doy; lia).
  assert (0 <= doy <= 365 /\ (doy = 365 -> leap (yoe + 1) = true)) as [Hdoy Hleap].
  { rewrite Ed. destruct (leap (yoe + 1)); split; lia. }
  assert (0 <= era <= 24) as Hera by (subst era; Z.to_euclidean_division_equations; lia).
  pose proof (month_ok_all doy Hdoy) as Hm. unfold month_ok in Hm. cbv zeta in *.
  set (mp := (5 * doy + 2) / 153) in *. set (d0 := doy - (153 * mp + 2) / 5 + 1) in *.
  set (m0 := if mp <? 10 then mp + 3 else mp - 9) in *.
  rewrite !andb_true_iff, !Z.leb_le, Z.eqb_eq in Hm. destruct Hm as [[[[[Hm1 Hm2] Hd1] Hd2] Hdoy'] Hjan].
  apply eqb_prop in Hjan. intros [= <- <- <-].
  assert (era = 0 -> yoe = 0 -> 306 <= doy) as Hlow.
  { intros E1 E2. rewrite E2 in Ed. change (year_start 0) with 0 in Ed. lia. }
  assert (era = 24 -> yoe = 399 -> doy < 306) as Hhigh.
  { intros E1 E2. rewrite E2 in Ed. change (year_start 399) with 145731 in Ed. lia. }
  assert ((m0 <=? 2) = true <-> 306 <= doy) as Hj by (rewrite Hjan; apply Z.leb_le).
  split_and!; try lia.
  - destruct (m0 <=? 2); [lia|]. assert (~ 306 <= doy) by (intros H; by apply Hj in H). lia.
  - destruct (m0 <=? 2); [|lia]. assert (306 <= doy) by (by apply Hj). lia.
  - unfold days_in_month. destruct (m0 =? 2) eqn:E2.
    + apply Z.eqb_eq in E2. rewrite (proj2 (Z.leb_le m0 2)) by lia.
      replace (yoe + era * 400 + 1) with (yoe + 1 + 400 * era) by lia. rewrite leap_era.
      destruct (doy =? 365) eqn:E3; [rewrite Hleap by (by apply Z.eqb_eq); lia|]. destruct (leap (yoe + 1)); lia.
    + destruct ((m0 =? 4) || _ || _ || _); lia.
  - destruct ((m0 =? 2)), ((m0 =? 4) || (m0 =? 6) || (m0 =? 9) || (m0 =? 11)), (doy =? 365); lia.
  - unfold days_from_civil.
    assert ((if m0 <=? 2 then (if m0 <=? 2 then yoe + era * 400 + 1 else yoe + era * 400) - 1
             else if m0 <=? 2 then yoe + era * 400 + 1 else yoe + era * 400) = yoe + era * 400) as -> by (destruct (m0 <=? 2); lia).
    rewrite Z.div_add, Z_mod_plus_full, (Z.div_small yoe 400), (Z.mod_small yoe 400) by lia.
    rewrite Hdoy'. subst doy. lia.
Qed.

(** ** Digits *)

Lemma digit_val_digit n : 0 <= n < 10 -> digit_val (digit n) = Some n.
Proof.
  intros H.
  assert (match digit_val (digit n) with Some v => v =? n | None => false end = true) as Hd.
  { apply (forallb_below (fun k => match digit_val (digit k) with Some v => v =? k | None => false end) 10);
      [by vm_compute|exact H]. }
  destruct (digit_val (digit n)); [|done]. by apply Z.eqb_eq in Hd as ->.
Qed.
Lemma div_10_bounds n : 0 <= n < 100 -> 0 <= n / 10 < 10 /\ 0 <= n mod 10 < 10.
Proof. intros. Z.to_euclidean_division_equations. lia. Qed.

Lemma parse2_pad2 n s : 0 <= n < 100 -> parse2 (pad2 n +:+ s) = Some (n, s).
Proof.
  intros H. destruct (div_10_bounds n H). unfold pad2. simpl. rewrite !digit_val_digit by done.
  do 2 f_equal. Z.to_euclidean_division_equations. lia.
Qed.
Lemma parse4_pad4 n s : 0 <= n < 10000 -> parse4 (pad4 n +:+ s) = Some (n, s).
Proof.
  intros H. unfold parse4, pad4. rewrite sapp_assoc.
  rewrite parse2_pad2 by (Z.to_euclidean_division_equations; lia). rewrite parse2_pad2 by (Z.to_euclidean_division_equations; lia).
  do 2 f_equal. Z.to_euclidean_division_equations. lia.
Qed.
Lemma parse_frac_digit k sc acc n s : 0 <= n < 10 ->
  parse_frac k sc acc (digit n ::s s) = parse_frac (S k) (sc / 10) (acc + n * sc) s.
Proof. intros H. simpl. by rewrite digit_val_digit. Qed.
Lemma parse_frac_pad6 us : 0 <= us < second -> parse_frac 0 100000 0 (pad6 us +:+ "+00:00") = (us, 6%nat, "+00:00").
Proof.
  intros H. unfold second in H. unfold pad6, pad2. rewrite !sapp_assoc, !scons_app, !snil_app.
  rewrite !parse_frac_digit by (Z.to_euclidean_division_equations; lia). simpl. do 2 f_equal.
  assert (us / 10000 = us / 100 / 100) as E by (by rewrite Z.div_div). rewrite E. clear E.
  pose proof (Z.div_mod us 100). pose proof (Z.div_mod (us / 100) 100).
  pose proof (Z.div_mod (us / 100 / 100) 10). pose proof (Z.div_mod ((us / 100) mod 100) 10). pose proof (Z.div_mod (us mod 100) 10).
  change (100000 / 10) with 10000. change (10000 / 10) with 1000. change (1000 / 10) with 100. change (100 / 10) with 10.
  change (10 / 10) with 1. lia.
Qed.

(** ** Texts *)

Lemma eat_char c s : eat c ((c ::s "") +:+ s) = Some s.
Proof. rewrite scons_app, snil_app. simpl. by rewrite Ascii.eqb_refl. Qed.

Lemma parse_clock_isoformat h mi se us :
  0 <= h <= 23 -> 0 <= mi <= 59 -> 0 <= se <= 59 -> 0 <= us < second ->
  parse_clock (pad2 h +:+ ":" +:+ pad2 mi +:+ ":" +:+ pad2 se +:+ (if us =? 0 then "" else "." +:+ pad6 us) +:+ "+00:00")
  = Some (h * hour + mi * minute + se * second + us, "+00:00").
Proof.
  intros Hh Hm Hs Hus. unfold parse_clock. rewrite parse2_pad2 by lia. cbn [mbind option_bind]. rewrite eat_char.
  cbn [mbind option_bind]. rewrite parse2_pad2 by lia. cbn [mbind option_bind]. rewrite eat_char.
  rewrite parse2_pad2 by lia. cbn [mbind option_bind]. rewrite !(proj2 (Z.leb_le _ _)) by lia. cbn [andb]. cbv zeta.
  destruct (Z.eqb_spec us 0) as [->|Hne]; [rewrite snil_app; cbn; do 2 f_equal; lia|].
  rewrite sapp_assoc, eat_char, parse_frac_pad6 by done. done.
Qed.

Lemma time_of_day r : 0 <= r < day ->
  0 <= r / hour <= 23 /\ 0 <= r / minute mod 60 <= 59 /\ 0 <= r / second mod 60 <= 59 /\ 0 <= r mod second < second /\
  r / hour * hour + r / minute mod 60 * minute + r / second mod 60 * second + r mod second = r.
Proof.
  unfold day. intros H.
  assert (r / hour = r / second / 60 / 60) as -> by (by rewrite !Z.div_div).
  assert (r / minute = r / second / 60) as -> by (by rewrite !Z.div_div).
  unfold hour, minute, second in *. Z.to_euclidean_division_equations. lia.
Qed.

(** The text has no space at its ends and no [Z]. *)
Definition iso_char (c : ascii) : bool := is_digit c || has_char c "-:T.+".
Lemma forall_chars_app f s u : forall_chars f (s +:+ u) = forall_chars f s && forall_chars f u.
Proof. induction s as [|c s IH]; [done|]. rewrite scons_app. simpl. by rewrite IH, andb_assoc. Qed.
Lemma iso_char_strip s : forall_chars iso_char s = true -> strip s = s.
Proof.
  intros Hs. apply strip_no_space. eapply forall_chars_weaken; [|exact Hs].
  intros c. destruct c as [[] [] [] [] [] [] [] []]; vm_compute; done.
Qed.
Lemma iso_char_clean s : forall_chars iso_char s = true -> replace_Z (strip s) = s.
Proof.
  intros Hs. rewrite (iso_char_strip s Hs).
  induction s as [|c s IH]; [done|]. simpl in *. apply andb_true_iff in Hs as [Hc Hs].
  assert (Ascii.eqb c "Z" = false) as ->; [|by rewrite IH].
  revert Hc. destruct c as [[] [] [] [] [] [] [] []]; vm_compute; done.
Qed.
Lemma iso_char_digit n : 0 <= n < 10 -> iso_char (digit n) = true.
Proof. apply (forallb_below (fun k => iso_char (digit k)) 10). by vm_compute. Qed.
Lemma iso_char_pad2 n : 0 <= n < 100 -> forall_chars iso_char (pad2 n) = true.
Proof. intros H. destruct (div_10_bounds n H). unfold pad2. cbn [forall_chars]. by rewrite !iso_char_digit. Qed.
Definition in_calendar (t : Z) : Prop := first_day * day <= t < (last_day + 1) * day.

Lemma calendar_fields t : in_calendar t -> exists y m d,
  civil_from_days (t / day) = (y, m, d) /\ 1 <= y <= 9999 /\ 1 <= m <= 12 /\ 1 <= d <= days_in_month y m /\ d <= 31 /\
  days_from_civil y m d = t / day.
Proof.
  intros Ht. unfold in_calendar in Ht. assert (0 < day) as Hday by done.
  pose proof (Z.div_mod t day ltac:(done)). pose proof (Z.mod_pos_bound t day Hday).
  assert (first_day <= t / day <= last_day) as Hz.
  { split; [apply Z.div_le_lower_bound; lia|]. apply Z.lt_succ_r, Z.div_lt_upper_bound; [done|]. lia. }
  destruct (civil_from_days (t / day)) as [[y m] d] eqn:Ec. exists y, m, d. split; [done|].
  by apply civil_from_days_spec.
Qed.

Lemma isoformat_chars t : in_calendar t -> forall_chars iso_char (isoformat t) = true /\ isoformat t <> "".
Proof.
  intros Ht. destruct (calendar_fields t Ht) as (y & m & d & Ec & Hy & Hm & Hd & Hd31 & _).
  destruct (time_of_day (t mod day)) as (Hh & Hmi & Hs & Hus & _); [by apply Z.mod_pos_bound|].
  unfold isoformat. rewrite Ec. cbv zeta. set (h := t mod day / hour) in *. set (mi := (t mod day / minute) mod 60) in *.
  set (se := (t mod day / second) mod 60) in *. set (us := (t mod day) mod second) in *. clearbody h mi se us. split; [|done].
  assert (forall_chars iso_char (if us =? 0 then "" else "." +:+ pad6 us) = true) as Hf.
  { destruct (us =? 0); [done|]. unfold pad6, second in *.
    rewrite !forall_chars_app, !iso_char_pad2 by (Z.to_euclidean_division_equations; lia). done. }
  unfold pad4. rewrite !forall_chars_app, Hf, !iso_char_pad2 by (Z.to_euclidean_division_equations; lia). done.
Qed.

Lemma iso_instant_isoformat t : in_calendar t -> iso_instant (isoformat t) = Some t.
Proof.
  intros Ht. destruct (calendar_fields t Ht) as (y & m & d & Ec & Hy & Hm & Hd & Hd31 & Hback).
  pose proof (Z.div_mod t day ltac:(done)) as Hdm.
  destruct (time_of_day (t mod day)) as (Hh & Hmi & Hs & Hus & Hsum); [by apply Z.mod_pos_bound|].
  unfold isoformat. rewrite Ec. cbv zeta.
  remember (t mod day) as r eqn:Er. clear Er. remember (r / hour) as h eqn:E1. remember (r / minute mod 60) as mi eqn:E2.
  remember (r / second mod 60) as se eqn:E3. remember (r mod second) as us eqn:E4. clear E1 E2 E3 E4.
  unfold iso_instant, fromisoformat.
  rewrite parse4_pad4 by lia. cbn [mbind option_bind]. rewrite eat_char. cbn [mbind option_bind].
  rewrite parse2_pad2 by lia. cbn [mbind option_bind]. rewrite eat_char. cbn [mbind option_bind].
  rewrite parse2_pad2 by lia. cbn [mbind option_bind].
  rewrite !(proj2 (Z.leb_le _ _)) by lia. cbn [andb]. cbv zeta.
  rewrite (scons_app "T"), snil_app. rewrite parse_clock_isoformat by done. cbn [mbind option_bind].
  change (parse_offset "+00:00") with (Some (Some 0)). cbn [mbind option_bind default]. f_equal.
  unfold default, id. rewrite Hback. lia.
Qed.

(** an instant survives its text: for every instant of the years 1 to 9999,
    to the microsecond, the text the gateway writes ([datetime.isoformat] of the
    UTC value) is read back ([_epoch_from_iso]) as that instant. *)
Theorem isoformat_roundtrip (t : Z) : in_calendar t -> epoch_from_iso (isoformat t) = Some t.
Proof.
  intros Ht. unfold epoch_from_iso. rewrite iso_char_clean by (by apply isoformat_chars). by apply iso_instant_isoformat.
Qed.
Lemma isoformat_roundtrip_witness :
  isoformat 1735689599123456 = "2024-12-31T23:59:59.123456+00:00" /\
  epoch_from_iso (isoformat 1735689599123456) = Some 1735689599123456.
Proof. split; [by vm_compute|]. apply isoformat_roundtrip. split; [by vm_compute|by vm_compute]. Defined.
