(* ===== verification/PyText.v ===== *)
(** * More of Python's text

    Words and printable characters of [str], [casefold], and the hexadecimal
    form of bytes ([bytes.hex], [bytes.fromhex]). *)

From S2P Require Import Prelude PyStr PyVal IsoTime.

(** [s.split()]: the maximal runs of characters that are not white space; [cur] is
    the run in progress, reversed. *)
Fixpoint words_from (cur : string) (s : string) : list string :=
  match s with
  | "" => if String.eqb cur "" then [] else [srev cur]
  | c ::s s =>
      if is_space c then (if String.eqb cur "" then words_from "" s else srev cur :: words_from "" s)
      else words_from (c ::s cur) s
  end.
Definition words (s : string) : list string := words_from "" s.

(** [ch.isprintable()]: in Latin-1, all but the control characters, the
    no-break space and the soft hyphen. *)
Definition is_printable (c : ascii) : bool :=
  let n := code c in ((32 <=? n) && (n <=? 126)) || ((161 <=? n) && negb (n =? 173)).

Fixpoint sfilter (f : ascii -> bool) (s : string) : string :=
  match s with "" => "" | c ::s s => if f c then c ::s sfilter f s else sfilter f s end.

(** [s.casefold()]. The micro sign folds to a letter outside Latin-1 that no other
    character folds to, and stands for it here. *)
Fixpoint casefold (s : string) : string :=
  match s with
  | "" => ""
  | c ::s s => if code c =? 223 then "s" ::s "s" ::s casefold s else lower_ascii c ::s casefold s
  end.

(** [s.count(c)] of one character. *)
Fixpoint count_char (c : ascii) (s : string) : nat :=
  match s with "" => O | d ::s s => ((if Ascii.eqb c d then 1 else 0) + count_char c s)%nat end.

(** [s.split(c, n)] *)
Fixpoint splitn (n : nat) (c : ascii) (s : string) : list string :=
  match n with
  | O => [s]
  | S n => match split1 c s with Some (a, b) => a :: splitn n c b | None => [s] end
  end.

(** ** Bytes in hexadecimal *)

Fixpoint hex (s : string) : string :=
  match s with "" => "" | c ::s s => hex_digit (code c / 16) ::s hex_digit (code c mod 16) ::s hex s end.

Definition hex_val (c : ascii) : option Z :=
  let n := code c in
  if (48 <=? n) && (n <=? 57) then Some (n - 48)
  else if (97 <=? n) && (n <=? 102) then Some (n - 87)
  else if (65 <=? n) && (n <=? 70) then Some (n - 55) else None.

(** [bytes.fromhex(s)]: white space of ASCII may stand between two bytes. *)
Definition hex_space (c : ascii) : bool := let n := code c in ((9 <=? n) && (n <=? 13)) || (n =? 32).
Fixpoint fromhex (s : string) : option string :=
  match s with
  | "" => Some ""
  | c ::s t =>
      if hex_space c then fromhex t
      else match t with
           | "" => None
           | d ::s t =>
               match hex_val c, hex_val d with
               | Some x, Some y => String.String (ascii_of_nat (Z.to_nat (16 * x + y))) <$> fromhex t
               | _, _ => None
               end
           end
  end.

Example words_sample : words "  a  bc d " = ["a"; "bc"; "d"].
Proof. reflexivity. Qed.
Example fromhex_sample : fromhex "41 4a" = Some "AJ".
Proof. reflexivity. Qed.

(** ** Lemmas *)

Definition hex_digit_ok (n : Z) : bool :=
  match hex_val (hex_digit n) with Some v => v =? n | None => false end &&
  negb (hex_space (hex_digit n)) && negb (Ascii.eqb "$" (hex_digit n)).
Lemma hex_digit_val n :
  0 <= n < 16 ->
  hex_val (hex_digit n) = Some n /\ hex_space (hex_digit n) = false /\ Ascii.eqb "$" (hex_digit n) = false.
Proof.
  intros Hn. assert (hex_digit_ok n = true) as H.
  { apply (forallb_below hex_digit_ok 16); [by vm_compute|lia]. }
  unfold hex_digit_ok in H. destruct (hex_val (hex_digit n)); bool_to_prop; by subst.
Qed.

Lemma byte_halves c : ascii_of_nat (Z.to_nat (16 * (code c / 16) + code c mod 16)) = c.
Proof.
  rewrite <- Z_div_mod_eq_full. unfold code. rewrite Nat2Z.id. apply ascii_nat_embedding.
Qed.

Lemma code_halves c : 0 <= code c / 16 < 16 /\ 0 <= code c mod 16 < 16.
Proof.
  pose proof (code_bounds c). split; [|apply Z.mod_pos_bound; lia].
  split; [apply Z.div_pos; lia|apply Z.div_lt_upper_bound; lia].
Qed.

(** What [hex] writes [fromhex] reads. *)
Lemma fromhex_hex s : fromhex (hex s) = Some s.
Proof.
  induction s as [|c s IH]; [done|]. cbn [hex fromhex]. destruct (code_halves c) as [Hh Hl].
  destruct (hex_digit_val _ Hh) as (H1 & H2 & _), (hex_digit_val _ Hl) as (H3 & _ & _).
  by rewrite H2, H1, H3, byte_halves, IH.
Qed.

Lemma hex_no_dollar s : has_char "$" (hex s) = false.
Proof.
  induction s as [|c s IH]; [done|]. unfold has_char in *. cbn [hex exists_char]. destruct (code_halves c) as [Hh Hl].
  destruct (hex_digit_val _ Hh) as (_ & _ & H1), (hex_digit_val _ Hl) as (_ & _ & H2). by rewrite H1, H2, IH.
Qed.

Lemma split1_app c s t : has_char c s = false -> split1 c (s +:+ c ::s t) = Some (s, t).
Proof.
  unfold has_char. induction s as [|d s IH]; simpl; intros H.
  - by rewrite Ascii.eqb_refl.
  - apply orb_false_iff in H as [Hd Hs]. change (split1 c (d ::s (s +:+ c ::s t)) = Some (d ::s s, t)). simpl. by rewrite Hd, IH.
Qed.

(** ** Reversal *)

Lemma srev_append_app s acc : srev_append s acc = srev s +:+ acc.
Proof.
  unfold srev. assert (forall s a b, srev_append s a +:+ b = srev_append s (a +:+ b)) as H.
  { clear. induction s as [|c s IH]; intros a b; [done|]. simpl. by rewrite IH. }
  by rewrite H.
Qed.
Lemma srev_append_rev s acc t : srev_append (srev_append s acc) t = srev_append acc (s +:+ t).
Proof. revert acc t. induction s as [|c s IH]; intros acc t; [done|]. simpl. by rewrite IH. Qed.
Lemma srev_involutive s : srev (srev s) = s.
Proof. unfold srev. rewrite srev_append_rev. apply sapp_nil. Qed.
Lemma srev_nil s : srev s = "" -> s = "".
Proof. intros H. by rewrite <- (srev_involutive s), H. Qed.

Lemma length_srev_append s acc : String.length (srev_append s acc) = (String.length s + String.length acc)%nat.
Proof. revert acc. induction s as [|c s IH]; intros acc; simpl; [done|]. rewrite IH. simpl. lia. Qed.

Lemma length_smap f s : String.length (smap f s) = String.length s.
Proof. induction s as [|c s IH]; simpl; [done|]. by rewrite IH. Qed.

Lemma count_char_lower s : count_char "@" (lower s) = count_char "@" s.
Proof.
  unfold lower. induction s as [|c s IH]; [done|]. cbn [smap count_char]. rewrite IH. do 2 f_equal.
  by replace (Ascii.eqb "@" (lower_ascii c)) with (Ascii.eqb "@" c) by (by destruct c as [[] [] [] [] [] [] [] []]).
Qed.

(** ** Words *)

Definition no_space (s : string) : bool := forall_chars (fun c => negb (is_space c)) s.
Definition is_word (w : string) : Prop := w <> "" /\ no_space w = true.

Lemma forall_chars_srev f s : forall_chars f (srev s) = forall_chars f s.
Proof.
  unfold srev. assert (forall acc, forall_chars f (srev_append s acc) = forall_chars f s && forall_chars f acc) as H.
  { induction s as [|c s IH]; intros acc; simpl; [done|]. rewrite IH. simpl. by destruct (f c), (forall_chars f s). }
  rewrite H. simpl. by rewrite andb_true_r.
Qed.

Lemma words_from_word w cur s : no_space w = true -> words_from cur (w +:+ s) = words_from (srev_append w cur) s.
Proof.
  unfold no_space. revert cur. induction w as [|c w IH]; intros cur Hw; [done|]. simpl in Hw.
  apply andb_true_iff in Hw as [Hc%negb_true_iff Hw]. change (words_from cur (c ::s (w +:+ s)) = words_from (srev_append w (c ::s cur)) s).
  cbn [words_from]. rewrite Hc. by apply IH.
Qed.

(** What lies in the words of a text lies in the text. *)
Lemma words_from_Forall f s cur :
  forall_chars f s = true -> forall_chars f cur = true -> no_space cur = true ->
  Forall (fun w => is_word w /\ forall_chars f w = true) (words_from cur s).
Proof.
  assert (forall cur, forall_chars f cur = true -> no_space cur = true -> String.eqb cur "" = false ->
    is_word (srev cur) /\ forall_chars f (srev cur) = true) as Hrev.
  { intros c Hf Hn He. unfold is_word, no_space. rewrite !forall_chars_srev. split_and!; [|done|done].
    intros H%srev_nil. by subst. }
  revert cur. induction s as [|c s IH]; intros cur Hs Hcur Hn; cbn [words_from].
  - destruct (String.eqb cur "") eqn:E; [constructor|]. constructor; [by apply Hrev|constructor].
  - cbn [forall_chars] in Hs. apply andb_true_iff in Hs as [Hc Hs]. destruct (is_space c) eqn:Ec.
    + destruct (String.eqb cur "") eqn:E; [by apply IH|]. constructor; [by apply Hrev|by apply IH].
    + apply IH; [done|simpl; by rewrite Hc|]. unfold no_space in *. simpl. by rewrite Ec.
Qed.
Lemma forall_chars_true s : forall_chars (fun _ => true) s = true.
Proof. by induction s. Qed.
Lemma words_words s : Forall is_word (words s).
Proof.
  eapply Forall_impl; [apply (words_from_Forall (fun _ => true)); [apply forall_chars_true|done|done]|].
  by intros w [H _].
Qed.

Lemma words_join ws : Forall is_word ws -> words (join " " ws) = ws.
Proof.
  unfold words. induction 1 as [|w ws [Hne Hw] Hws IH]; [done|].
  assert (String.eqb (srev w) "" = false) as Hr.
  { destruct (String.eqb_spec (srev w) "") as [E%srev_nil|]; done. }
  cbn [join]. destruct ws as [|w' ws].
  - rewrite <- (sapp_nil w), words_from_word by done. cbn [words_from].
    rewrite srev_append_app, !sapp_nil, Hr, srev_involutive. done.
  - rewrite words_from_word by done. change (" " +:+ join " " (w' :: ws)) with (" "%char ::s join " " (w' :: ws)).
    cbn [words_from]. change (is_space " ") with true. cbn match.
    rewrite srev_append_app, sapp_nil, Hr, srev_involutive. by f_equal.
Qed.

Lemma length_sapp (s t : string) : String.length (s +:+ t) = (String.length s + String.length t)%nat.
Proof. induction s as [|c s IH]; [done|]. change (S (String.length (s +:+ t)) = S (String.length s + String.length t)). by rewrite IH. Qed.
Lemma length_srev s : String.length (srev s) = String.length s.
Proof. unfold srev. rewrite length_srev_append. simpl. lia. Qed.

Lemma length_join_words cur s : (String.length (join " " (words_from cur s)) <= String.length cur + String.length s)%nat.
Proof.
  revert cur. induction s as [|c s IH]; intros cur; cbn [words_from].
  - destruct (String.eqb_spec cur "") as [->|]; [done|]. simpl. rewrite length_srev. lia.
  - destruct (is_space c).
    + destruct (String.eqb_spec cur "") as [->|].
      * etrans; [apply IH|]. simpl. lia.
      * specialize (IH ""). cbn [join]. destruct (words_from "" s) as [|w ws] eqn:Ew.
        -- rewrite length_srev. simpl in *. lia.
        -- rewrite !length_sapp, length_srev. simpl in *. lia.
    + etrans; [apply IH|]. simpl. lia.
Qed.

Lemma forall_chars_join f ws : f " "%char = true -> Forall (fun w => forall_chars f w = true) ws -> forall_chars f (join " " ws) = true.
Proof.
  intros Hf. induction 1 as [|w ws Hw Hws IH]; [done|]. cbn [join]. destruct ws; [done|].
  rewrite !forall_chars_app, Hw, IH. simpl. by rewrite Hf.
Qed.

Lemma sfilter_id f s : forall_chars f s = true -> sfilter f s = s.
Proof. induction s as [|c s IH]; simpl; intros H; [done|]. apply andb_true_iff in H as [-> H]. by rewrite IH. Qed.
Lemma forall_chars_sfilter f s : forall_chars f (sfilter f s) = true.
Proof. induction s as [|c s IH]; simpl; [done|]. destruct (f c) eqn:E; [|done]. simpl. by rewrite E, IH. Qed.
Lemma forall_chars_stake f n s : forall_chars f s = true -> forall_chars f (stake n s) = true.
Proof. revert n. induction s as [|c s IH]; intros [|n] H; simpl in *; try done. apply andb_true_iff in H as [-> H]. by rewrite IH. Qed.
Lemma length_stake n s : (String.length (stake n s) <= n)%nat.
Proof. revert n. induction s as [|c s IH]; intros [|n]; simpl; try lia. specialize (IH n). lia. Qed.
Lemma stake_all n s : (String.length s <= n)%nat -> stake n s = s.
Proof. revert n. induction s as [|c s IH]; intros [|n] H; simpl in *; try done; [lia|]. rewrite IH; [done|lia]. Qed.
