(* ===== verification/RunStore.v ===== *)
(** * Runs, and what the runner asks of its stores and of the runtime

    The fields of a run the gateway reads and writes, the operations of the run
    store, the ledger store and the runtime (code of AbstractRuntime: fields of
    the class [HostOps], never defined here), and the walks of the run tree the
    runner does over them ([runner.py]). *)

From S2P Require Import Prelude PyStr PyVal.

Inductive RunStatus := RUNNING | WAITING | COMPLETED | FAILED | CANCELLED.
#[global] Instance RunStatus_eq_dec : EqDecision RunStatus.
Proof. solve_decision. Defined.

Inductive WaitReason := UNTIL | EVENT | SUBWORKFLOW | OTHER_REASON (name : string).
#[global] Instance WaitReason_eq_dec : EqDecision WaitReason.
Proof. solve_decision. Defined.

(** What a waiting run waits for ([run.waiting]). *)
Record wait := mk_wait {
  w_reason : WaitReason;
  w_key : option string;
  w_until : option string;
  w_details : val;
}.

#[global] Instance wait_eq_dec : EqDecision wait.
Proof. solve_decision. Defined.

Record run := mk_run {
  run_id : string;
  workflow_id : string;
  status : RunStatus;
  current_node : string;
  vars : val;
  waiting : option wait;
  output : val;
  error : option string;
  created_at : string;
  updated_at : string;
  actor_id : option string;
  session_id : option string;
  parent_run_id : option string;
}.

#[global] Instance run_eq_dec : EqDecision run.
Proof. solve_decision. Defined.

Definition set_vars (v : val) (r : run) : run :=
  mk_run (run_id r) (workflow_id r) (status r) (current_node r) v (waiting r) (output r) (error r)
    (created_at r) (updated_at r) (actor_id r) (session_id r) (parent_run_id r).
Definition set_updated_at (t : string) (r : run) : run :=
  mk_run (run_id r) (workflow_id r) (status r) (current_node r) (vars r) (waiting r) (output r) (error r)
    (created_at r) t (actor_id r) (session_id r) (parent_run_id r).
Definition set_waiting (w : option wait) (r : run) : run :=
  mk_run (run_id r) (workflow_id r) (status r) (current_node r) (vars r) w (output r) (error r)
    (created_at r) (updated_at r) (actor_id r) (session_id r) (parent_run_id r).
(** [run.status = FAILED; run.error = err]. *)
Definition set_failed (err : string) (r : run) : run :=
  mk_run (run_id r) (workflow_id r) FAILED (current_node r) (vars r) (waiting r) (output r) (Some err)
    (created_at r) (updated_at r) (actor_id r) (session_id r) (parent_run_id r).

Definition is_terminal (st : RunStatus) : bool :=
  match st with COMPLETED | FAILED | CANCELLED => true | _ => false end.

(** [getattr(run, "actor_id", None) == "gateway"]: the runs this runner ticks. *)
Definition gateway_owned (r : run) : bool :=
  match actor_id r with Some a => String.eqb a "gateway" | None => false end.

(** The operations of the stores and of the runtime. [W] is everything outside
    the runner's memory: the run store, the ledger, the artifacts, the runs'
    live state. A store capability the code probes for is an option. *)
Class HostOps (W : Type) := {
  (** What [runtime_and_workflow_for_run] answers: a runtime and a workflow. *)
  handle : Type;
  load : string -> W -> res (option run);
  save : run -> M W unit;
  list_runs : option (RunStatus -> option WaitReason -> Z -> W -> res (list run));
  list_due_wait_until : option (string -> Z -> W -> res (list run));
  list_children : option (string -> W -> res (list run));
  list_event_waiters : option (string -> Z -> W -> res (list run));
  list_mailbox_runs : option (string -> W -> res (list run));
  next_wait_deadline : option (W -> res (option string));
  is_paused_vars : val -> bool;
  resolve : string -> M W handle;
  rt_resume : handle -> string -> option string -> dict -> M W unit;
  rt_tick : handle -> string -> Z -> M W run;
  rt_node_traces : handle -> string -> W -> res val;
  pause_run : string -> option string -> M W unit;
  resume_run : string -> M W unit;
  cancel_run : string -> string -> M W unit;
  (** A started and failed step record appended to the ledger: the run, its
      node, the idempotency key and the error. *)
  ledger_fail : run -> string -> string -> string -> M W unit;
  (** The runtime's clock text. *)
  utc_now_iso : Z -> string;
  (** A run the facade executes inside a call of this process. *)
  inline_run_active : string -> W -> bool;
  is_interrupted_voice_stream_wait : wait -> bool;
  close_interrupted_voice_stream : string -> string -> M W unit;
  (** [build_event_wait_key]: scope, name, session, workflow, run. *)
  event_wait_key : string -> string -> option string -> option string -> option string -> res string;
  (** What the gateway itself does on a run just saved, outside the runner:
      [live_deltas.close_run_live_state], the user stream's run pointer, the
      automatic compaction. *)
  close_live_state : run -> M W unit;
  stream_run : run -> M W unit;
  maybe_auto_compact : run -> M W unit;
}.

Section RunStore.
Context {W : Type} `{H : HostOps W}.

(** [_paused_while_running]. *)
Definition paused_while_running (r : run) : bool :=
  bool_decide (status r = RUNNING) && is_paused_vars (vars r).

(** [_is_pause_wait]. *)
Definition is_pause_wait (w : option wait) (rid : string) : bool :=
  match w with
  | None => false
  | Some w =>
      match w_key w with
      | Some k => String.eqb k ("pause:" +:+ rid)
      | None => false
      end ||
      match w_details w with
      | VDict d => match dget "kind" d with Some (VStr k) => String.eqb k "pause" | _ => false end
      | _ => false
      end
  end.

(** The ids of a run's children: [list_children] when the store has it,
    nothing when it has not or when it raises. *)
Definition child_ids (w : W) (rid : string) : list string :=
  match list_children with
  | None => []
  | Some f =>
      match f rid w with
      | Ok l => List.filter (fun i => negb (String.eqb i "")) (map run_id l)
      | Raise _ => []
      end
  end.

(** The loop of [_list_descendant_run_ids]: [queue], [seen] and [out] are the
    local variables; [None] when the fuel runs out. *)
Fixpoint descendants_go (children : string -> list string) (fuel : nat)
    (queue : list string) (seen : gset string) (out : list string) : option (list string) :=
  match queue with
  | [] => Some out
  | rid :: queue =>
      match fuel with
      | O => None
      | S fuel =>
          if bool_decide (rid ∈ seen) then descendants_go children fuel queue seen out
          else
            let seen := {[rid]} ∪ seen in
            descendants_go children fuel
              (queue ++ List.filter (fun c => negb (bool_decide (c ∈ seen))) (children rid))
              seen (out ++ [rid])
      end
  end.

Definition list_descendant_run_ids (fuel : nat) (w : W) (root : string) : option (list string) :=
  descendants_go (child_ids w) fuel [root] ∅ [].

(** [vars["_meta"]["schedule"]], when both are objects. *)
Definition schedule_meta (r : run) : option dict :=
  match vars r with
  | VDict v =>
      match get_ "_meta" v with
      | VDict m => as_dict (get_ "schedule" m)
      | _ => None
      end
  | _ => None
  end.

(** [_is_scheduled_parent_run]. *)
Definition is_scheduled_parent_run (r : run) : bool :=
  if startswith "scheduled:" (workflow_id r) then true
  else match schedule_meta r with
       | Some s => match get_ "kind" s with VStr k => String.eqb k "scheduled_run" | _ => false end
       | None => false
       end.

(** [_scheduled_parent_is_recurrent]. *)
Definition scheduled_parent_is_recurrent (r : run) : bool :=
  match schedule_meta r with
  | Some s => match nonblank (get_ "interval" s) with Some _ => true | None => false end
  | None => false
  end.

(** The loop of [_find_scheduled_root]: [None] when the fuel runs out. *)
Fixpoint find_root_go (fuel : nat) (w : W) (cur : run) (seen : gset string) : option (res (option run)) :=
  match fuel with
  | O => None
  | S fuel =>
      let rid := run_id cur in
      let named := negb (String.eqb rid "") in
      if named && bool_decide (rid ∈ seen) then Some (Ok None)
      else
        let seen := if named then {[rid]} ∪ seen else seen in
        let top := Some (Ok (if is_scheduled_parent_run cur then Some cur else None)) in
        match parent_run_id cur with
        | None => top
        | Some p =>
            if String.eqb (strip p) "" then top
            else match load (strip p) w with
                 | Raise e => Some (Raise e)
                 | Ok None => Some (Ok None)
                 | Ok (Some parent) => find_root_go fuel w parent seen
                 end
        end
  end.

(** [_find_scheduled_root]. *)
Definition find_scheduled_root (fuel : nat) (w : W) (r : run) : option (res (option run)) :=
  find_root_go fuel w r ∅.
End RunStore.

(** ** The walk of the run tree *)

Section Descendants.
Context (children : string -> list string).

(** [u] is a descendant of [root] or the root itself. *)
Inductive reachable (root : string) : string -> Prop :=
  | reach_root : reachable root root
  | reach_step u c : reachable root u -> c ∈ children u -> reachable root c.

(** How many queue entries the ids not yet seen can still add. *)
Definition pending (U : list string) (seen : gset string) : nat :=
  list_sum (map (fun u => if bool_decide (u ∈ seen) then 0%nat else length (children u)) U).

Lemma decide_seen_ne rid (seen : gset string) x :
  x <> rid -> bool_decide (x ∈ {[rid]} ∪ seen) = bool_decide (x ∈ seen).
Proof. intros. apply bool_decide_ext. set_solver. Qed.

Lemma pending_notin U rid seen : rid ∉ U -> pending U ({[rid]} ∪ seen) = pending U seen.
Proof.
  unfold pending. induction U as [|u U IH]; intros Hni; simpl; [done|].
  rewrite decide_seen_ne, IH by set_solver. done.
Qed.

Lemma pending_add U rid seen :
  NoDup U -> rid ∈ U -> rid ∉ seen ->
  (pending U ({[rid]} ∪ seen) + length (children rid) = pending U seen)%nat.
Proof.
  intros Hnd Hin Hns. induction Hnd as [|u U Hu Hnd IH]; [set_solver|].
  unfold pending in *; simpl. destruct (decide (u = rid)) as [->|Hne].
  - rewrite (bool_decide_true (rid ∈ {[rid]} ∪ seen)) by set_solver.
    rewrite (bool_decide_false (rid ∈ seen)) by done.
    pose proof (pending_notin U rid seen Hu) as Hp. unfold pending in Hp. lia.
  - rewrite decide_seen_ne by done. specialize (IH ltac:(set_solver)). lia.
Qed.

Lemma pending_empty U : pending U ∅ = list_sum (map (fun u => length (children u)) U).
Proof. unfold pending. induction U; simpl; [done|]. f_equal. Qed.

(** Enough fuel: the queue plus everything the unseen ids can add. *)
Lemma descendants_go_total U fuel queue seen out :
  NoDup U -> (forall u, u ∈ U -> children u ⊆ U) -> queue ⊆ U ->
  (length queue + pending U seen <= fuel)%nat ->
  exists l, descendants_go children fuel queue seen out = Some l.
Proof.
  intros Hnd Hcl. revert queue seen out.
  induction fuel as [|fuel IH]; intros [|rid queue] seen out Hq Hf; simpl in *; eauto; [lia|].
  case_bool_decide as Hs.
  - apply IH; [set_solver|lia].
  - apply IH.
    + assert (rid ∈ U) by set_solver. intros x. rewrite elem_of_app, elem_of_lfilter. set_solver.
    + rewrite length_app.
      pose proof (pending_add U rid seen Hnd ltac:(set_solver) Hs).
      pose proof (length_lfilter_le (fun c => negb (bool_decide (c ∈ {[rid]} ∪ seen))) (children rid)). lia.
Qed.

(** The ids already listed stay where they are. *)
Lemma descendants_go_prefix fuel queue seen out l :
  descendants_go children fuel queue seen out = Some l -> exists l', l = out ++ l'.
Proof.
  revert queue seen out.
  induction fuel as [|fuel IH]; intros [|rid queue] seen out Hl; simpl in *; simplify_eq;
    try (exists []; by rewrite app_nil_r).
  case_bool_decide; [by eapply IH|]. apply IH in Hl as [l' ->].
  exists ([rid] ++ l'). by rewrite (assoc_L (++)).
Qed.

(** The loop invariant: [out] lists [seen] without repetition, everything
    seen or queued is reachable, and every child of a seen run is seen or
    queued. *)
Lemma descendants_go_spec root fuel queue seen out l :
  NoDup out -> (forall x, x ∈ out <-> x ∈ seen) ->
  (forall x, x ∈ seen \/ x ∈ queue -> reachable root x) ->
  (forall x c, x ∈ seen -> c ∈ children x -> c ∈ seen \/ c ∈ queue) ->
  (root ∈ seen \/ root ∈ queue) ->
  descendants_go children fuel queue seen out = Some l ->
  NoDup l /\ (forall x, x ∈ l <-> reachable root x).
Proof.
  revert queue seen out.
  induction fuel as [|fuel IH]; intros [|rid queue] seen out Hnd Hos Hr Hc Hroot Hl; simpl in *; simplify_eq.
  1,2: split; [done|];
    (intros x; rewrite Hos; split; [intros; apply Hr; by left|]);
    (induction 1 as [|u c _ IHu Huc]; [|destruct (Hc _ _ IHu Huc)]; try done);
    [destruct Hroot as [?|[]%elem_of_nil]; done|by apply not_elem_of_nil in H].
  case_bool_decide as Hs.
  - apply (IH queue seen out); try done.
    + intros x [?|?]; apply Hr; [by left|right; by apply list_elem_of_further].
    + intros x c Hx Hcx. destruct (Hc x c Hx Hcx) as [?|[->|]%elem_of_cons]; auto.
    + destruct Hroot as [?|[->|]%elem_of_cons]; auto.
  - apply IH in Hl; [done|..].
    + apply NoDup_app. split_and!; [done| |apply NoDup_singleton].
      intros x Hx%Hos ->%list_elem_of_singleton. done.
    + intros x. rewrite elem_of_app, Hos. set_solver +.
    + intros x Hx. assert (reachable root rid) as Hrid by (apply Hr; right; apply list_elem_of_here).
      destruct Hx as [[->%elem_of_singleton|?]%elem_of_union|[?|[? _]%elem_of_lfilter]%elem_of_app];
        [done|apply Hr; by left|apply Hr; right; by apply list_elem_of_further|].
      by eapply reach_step.
    + intros x c Hx Hcx. rewrite elem_of_app, elem_of_lfilter, negb_true_iff, bool_decide_eq_false.
      destruct (decide (c ∈ {[rid]} ∪ seen)) as [|Hn]; [by left|right].
      apply elem_of_union in Hx as [->%elem_of_singleton|Hx]; [by right|left].
      destruct (Hc x c Hx Hcx) as [?|[->|]%elem_of_cons]; [exfalso; apply Hn; by apply elem_of_union_r|exfalso; apply Hn; set_solver +|done].
    + rewrite elem_of_app. destruct Hroot as [?|[->|]%elem_of_cons];
        [left; by apply elem_of_union_r|left; set_solver +|by right; left].
Qed.
End Descendants.

Section DescendantsOfARun.
Context {W : Type} `{H : HostOps W}.

(** the walk [_list_descendant_run_ids] ends and lists the whole run tree:
    on a store whose child links stay inside a finite set of ids, it answers
    the root first and then exactly the runs reachable from it, each once,
    cycles and shared children included. *)
Theorem list_descendant_run_ids_complete (w : W) (root : string) (U : list string) (fuel : nat) :
  NoDup U -> root ∈ U -> (forall u, u ∈ U -> child_ids w u ⊆ U) ->
  (1 + list_sum (map (fun u => length (child_ids w u)) U) <= fuel)%nat ->
  exists l, list_descendant_run_ids fuel w root = Some (root :: l) /\ NoDup (root :: l) /\
    forall x, x ∈ root :: l <-> reachable (child_ids w) root x.
Proof.
  intros Hnd Hroot Hcl Hf. unfold list_descendant_run_ids.
  pose proof (pending_empty (child_ids w) U) as Hp.
  destruct (descendants_go_total (child_ids w) U fuel [root] ∅ []) as [l Hl];
    [done|done|by intros x ->%list_elem_of_singleton|simpl; lia|].
  pose proof Hl as Hl'. apply (descendants_go_spec (child_ids w) root) in Hl' as [Hnd' Hiff].
  2: constructor.
  2: { intros x. split; intros Hx; exfalso; [by apply not_elem_of_nil in Hx|set_solver +Hx]. }
  2: { intros x [Hx | ->%list_elem_of_singleton]; [set_solver +Hx|constructor]. }
  2: { intros x c Hx. set_solver +Hx. }
  2: { right. by left. }
  pose proof Hl as Hp'. destruct fuel as [|fuel]; simpl in Hp'; [lia|].
  match type of Hp' with context[bool_decide ?P] =>
    rewrite (bool_decide_false P) in Hp' by apply not_elem_of_empty end.
  apply descendants_go_prefix in Hp' as [l' ->]. exists l'. by split_and!.
Qed.
End DescendantsOfARun.

Section ScheduledRoot.
Context {W : Type} `{H : HostOps W}.

(** A run with no parent id. *)
Definition parentless (r : run) : bool :=
  match parent_run_id r with None => true | Some p => String.eqb (strip p) "" end.

Definition unseen (U : list string) (seen : gset string) : nat :=
  length (List.filter (fun u => negb (bool_decide (u ∈ seen))) U).

Lemma unseen_add U (seen : gset string) x :
  x ∈ U -> x ∉ seen -> (unseen U ({[x]} ∪ seen) < unseen U seen)%nat.
Proof.
  unfold unseen. induction U as [|u U IH]; intros Hin Hns; [by apply not_elem_of_nil in Hin|].
  assert (forall V, (length (List.filter (fun u => negb (bool_decide (u ∈ {[x]} ∪ seen))) V) <=
    length (List.filter (fun u => negb (bool_decide (u ∈ seen))) V))%nat) as Hle.
  { induction V as [|v V IHV]; simpl; [lia|].
    destruct (decide (v ∈ seen)).
    - rewrite !bool_decide_true by set_solver. done.
    - rewrite (bool_decide_false (v ∈ seen)) by done. simpl.
      case_bool_decide; simpl; lia. }
  simpl. destruct (decide (u = x)) as [->|Hne].
  - rewrite (bool_decide_true (x ∈ {[x]} ∪ seen)) by set_solver.
    rewrite (bool_decide_false (x ∈ seen)) by done. simpl. specialize (Hle U). lia.
  - rewrite decide_seen_ne by done. apply elem_of_cons in Hin as [|Hin]; [done|].
    specialize (IH Hin Hns). destruct (negb (bool_decide (u ∈ seen))); simpl; lia.
Qed.

Lemma find_root_go_total (w : W) U fuel cur seen :
  (forall p q, load p w = Ok (Some q) -> run_id q <> "" /\ run_id q ∈ U) ->
  run_id cur <> "" -> run_id cur ∈ U -> (unseen U seen < fuel)%nat ->
  exists r, find_root_go fuel w cur seen = Some r.
Proof.
  intros HU. revert cur seen. induction fuel as [|fuel IH]; intros cur seen Hn Hin Hf; [lia|].
  simpl. destruct (String.eqb_spec (run_id cur) ""); [done|]. simpl.
  case_bool_decide as Hs; [eauto|].
  destruct (parent_run_id cur) as [p|]; [|eauto].
  destruct (String.eqb (strip p) ""); [eauto|].
  destruct (load (strip p) w) as [[q|]|] eqn:E; eauto.
  destruct (HU _ _ E). apply IH; [done|done|].
  pose proof (unseen_add U seen _ Hin Hs). lia.
Qed.

Lemma find_root_go_sound (w : W) fuel cur seen root :
  find_root_go fuel w cur seen = Some (Ok (Some root)) ->
  is_scheduled_parent_run root = true /\ parentless root = true.
Proof.
  unfold parentless. revert cur seen. induction fuel as [|fuel IH]; intros cur seen Hr; simpl in Hr; [done|].
  destruct (negb _ && _); [done|].
  destruct (parent_run_id cur) as [p|] eqn:Ep; [destruct (String.eqb (strip p) "") eqn:Es|].
  1,3: destruct (is_scheduled_parent_run cur) eqn:?; simplify_eq; rewrite ?Ep; done.
  destruct (load (strip p) w) as [[q|]|]; simplify_eq. by eapply IH.
Qed.

(** [_find_scheduled_root] ends on every store, parent links that loop
    included: when the runs the store answers have ids in a finite set, as many
    steps as that set has ids, plus one, are enough; and a root it answers is a
    scheduled run without a parent. *)
Theorem find_scheduled_root_total (w : W) (U : list string) (r : run) (fuel : nat) :
  (forall p q, load p w = Ok (Some q) -> run_id q <> "" /\ run_id q ∈ U) ->
  run_id r <> "" -> run_id r ∈ U -> (length U < fuel)%nat ->
  exists ans, find_scheduled_root fuel w r = Some ans /\
    forall root, ans = Ok (Some root) -> is_scheduled_parent_run root = true /\ parentless root = true.
Proof.
  intros HU Hn Hin Hf. unfold find_scheduled_root.
  destruct (find_root_go_total w U fuel r ∅ HU Hn Hin) as [ans Ha].
  { eapply Nat.le_lt_trans; [apply length_lfilter_le|done]. }
  exists ans. split; [done|]. intros root ->. by eapply find_root_go_sound.
Qed.
End ScheduledRoot.
