(* ===== verification/MemoryHost.v ===== *)
(** * An in-memory host

    A concrete instance of [HostOps], on which the theorems about the runner are
    applied to concrete runs: a list of runs, a ledger of failures and a log of
    the calls, and the sets of ids for which a call is made to fail. *)

From S2P Require Import Prelude PyStr PyVal IsoTime RunStore.

Record mem := mk_mem {
  m_runs : list run;
  m_ledger : list (string * string);
  m_log : list string;
  m_unresolvable : gset string;
  m_tick_fails : option exn;
}.
Definition mem_of (l : list run) : mem := mk_mem l [] [] ∅ None.

Fixpoint mem_put (r : run) (l : list run) : list run :=
  match l with
  | [] => [r]
  | q :: l => if String.eqb (run_id q) (run_id r) then r :: l else q :: mem_put r l
  end.
Definition mem_find (i : string) (l : list run) : option run :=
  List.find (fun r => String.eqb (run_id r) i) l.
Definition mem_save (r : run) (m : mem) : mem :=
  mk_mem (mem_put r (m_runs m)) (m_ledger m) (m_log m) (m_unresolvable m) (m_tick_fails m).
Definition mem_note (t : string) (m : mem) : mem :=
  mk_mem (m_runs m) (m_ledger m) (m_log m ++ [t]) (m_unresolvable m) (m_tick_fails m).
Definition with_status (st : RunStatus) (r : run) : run :=
  mk_run (run_id r) (workflow_id r) st (current_node r) (vars r) None (output r) (error r)
    (created_at r) (updated_at r) (actor_id r) (session_id r) (parent_run_id r).
Definition mem_update (i : string) (f : run -> run) (t : string) : M mem unit := fun m =>
  match mem_find i (m_runs m) with
  | Some r => (Ok tt, mem_note t (mem_save (f r) m))
  | None => (Raise (KeyError i), m)
  end.

Definition same_reason (a b : WaitReason) : bool := bool_decide (a = b).
Definition until_of (r : run) : option string :=
  match waiting r with Some w => match w_reason w with UNTIL => w_until w | _ => None end | None => None end.

#[export] Instance mem_host : HostOps mem := {
  handle := string;
  load i m := Ok (mem_find i (m_runs m));
  save r m := (Ok tt, mem_save r m);
  list_runs := Some (fun st reason lim m =>
    Ok (take (Z.to_nat lim) (List.filter (fun r =>
      bool_decide (status r = st) &&
      match reason with
      | None => true
      | Some q => match waiting r with Some w => same_reason (w_reason w) q | None => false end
      end) (m_runs m))));
  list_due_wait_until := Some (fun t lim m =>
    Ok (take (Z.to_nat lim) (List.filter (fun r =>
      match until_of r with Some u => str_leb u t | None => false end) (m_runs m))));
  list_children := Some (fun p m =>
    Ok (List.filter (fun r => bool_decide (parent_run_id r = Some p)) (m_runs m)));
  list_event_waiters := Some (fun k lim m =>
    Ok (take (Z.to_nat lim) (List.filter (fun r =>
      match waiting r with Some w => bool_decide (w_key w = Some k) | None => false end) (m_runs m))));
  list_mailbox_runs := Some (fun name m =>
    Ok (List.filter (fun r => negb (is_terminal (status r))) (m_runs m)));
  next_wait_deadline := Some (fun m =>
    Ok (head (sort_str (base.omap until_of (m_runs m)))));
  is_paused_vars v :=
    match v with
    | VDict d => match get_ "_runtime" d with
                 | VDict r => match get_ "control" r with VDict c => truthy (get_ "paused" c) | _ => false end
                 | _ => false
                 end
    | _ => false
    end;
  resolve i m := if bool_decide (i ∈ m_unresolvable m) then (Raise (KeyError i), m) else (Ok i, m);
  rt_resume h i k p m :=
    match mem_find i (m_runs m) with
    | Some r => match status r with
                | WAITING => mem_update i (with_status RUNNING) ("resume " +:+ i) m
                | _ => (Raise (StaleResumeError i), m)
                end
    | None => (Raise (KeyError i), m)
    end;
  rt_tick h i n m :=
    match m_tick_fails m with
    | Some e => (Raise e, m)
    | None =>
        match mem_find i (m_runs m) with
        | Some r => let r := with_status COMPLETED r in (Ok r, mem_note ("tick " +:+ i) (mem_save r m))
        | None => (Raise (KeyError i), m)
        end
    end;
  rt_node_traces h i m := Ok (VDict []);
  pause_run i reason := mem_update i (with_status WAITING) ("pause " +:+ i);
  resume_run i := mem_update i (with_status RUNNING) ("unpause " +:+ i);
  cancel_run i reason := mem_update i (with_status CANCELLED) ("cancel " +:+ i);
  ledger_fail r node key err m :=
    (Ok tt, mk_mem (m_runs m) (m_ledger m ++ [(key, err)]) (m_log m) (m_unresolvable m) (m_tick_fails m));
  utc_now_iso := isoformat;
  inline_run_active i m := false;
  is_interrupted_voice_stream_wait w := false;
  close_interrupted_voice_stream i reason m := (Ok tt, m);
  event_wait_key scope name sess wf rid :=
    Ok ("evt:" +:+ scope +:+ ":" +:+ default "" sess +:+ ":" +:+ name);
  close_live_state r m := (Ok tt, m);
  stream_run r m := (Ok tt, m);
  maybe_auto_compact r m := (Ok tt, m);
}.

(** Runs of the samples. *)
Definition sample_run (i : string) (st : RunStatus) (w : option wait) (parent : option string) : run :=
  mk_run i "wf" st "node" (VDict []) w VNone None "2025-01-01T00:00:00+00:00"
    "2025-01-01T00:00:00+00:00" (Some "gateway") None parent.
Definition sub_wait (child : string) : wait :=
  mk_wait SUBWORKFLOW (Some ("subworkflow:" +:+ child)) None (VDict [("sub_run_id", VStr child)]).
Definition until_wait (t : string) : wait := mk_wait UNTIL None (Some t) VNone.

(** A host that answers the runs it is given, on which every call succeeds and
    only a cancellation changes the world. *)
Definition static_host {W} (cancel : string -> W -> W) (l : list run) : HostOps W := {|
  handle := unit;
  load i _ := Ok (mem_find i l);
  save _ w := (Ok tt, w);
  list_runs := None;
  list_due_wait_until := None;
  list_children := Some (fun p _ => Ok (List.filter (fun r => bool_decide (parent_run_id r = Some p)) l));
  list_event_waiters := None;
  list_mailbox_runs := None;
  next_wait_deadline := None;
  is_paused_vars _ := false;
  resolve _ w := (Ok tt, w);
  rt_resume _ _ _ _ w := (Ok tt, w);
  rt_tick _ i _ w := (Raise (KeyError i), w);
  rt_node_traces _ _ _ := Ok VNone;
  pause_run _ _ w := (Ok tt, w);
  resume_run _ w := (Ok tt, w);
  cancel_run i _ w := (Ok tt, cancel i w);
  ledger_fail _ _ _ _ w := (Ok tt, w);
  utc_now_iso := isoformat;
  inline_run_active _ _ := false;
  is_interrupted_voice_stream_wait _ := false;
  close_interrupted_voice_stream _ _ w := (Ok tt, w);
  event_wait_key scope name _ _ _ := Ok (scope +:+ ":" +:+ name);
  close_live_state _ w := (Ok tt, w);
  stream_run _ w := (Ok tt, w);
  maybe_auto_compact _ w := (Ok tt, w);
|}.
Definition const_host (l : list run) : HostOps unit := static_host (fun _ w => w) l.

(** The walk of the run tree on a cycle of two runs. *)
Definition cycle_runs : list run :=
  [sample_run "a" RUNNING None (Some "b"); sample_run "b" RUNNING None (Some "a")].
Lemma list_descendant_run_ids_complete_witness :
  exists l, list_descendant_run_ids 3 (mem_of cycle_runs) "a" = Some ("a" :: l) /\ NoDup ("a" :: l) /\
    forall x, x ∈ "a" :: l <-> reachable (child_ids (mem_of cycle_runs)) "a" x.
Proof.
  apply (list_descendant_run_ids_complete (mem_of cycle_runs) "a" ["a"; "b"] 3).
  - by apply (bool_decide_unpack (NoDup ["a"; "b"])).
  - apply list_elem_of_here.
  - intros u Hu. apply elem_of_cons in Hu as [->|Hu]; [|apply list_elem_of_singleton in Hu as ->];
      intros x Hx; vm_compute in Hx; set_solver.
  - vm_compute. lia.
Defined.

Lemma find_scheduled_root_total_witness :
  exists ans, find_scheduled_root (H := const_host cycle_runs) 3 tt (sample_run "a" RUNNING None (Some "b")) = Some ans /\
    forall root, ans = Ok (Some root) -> is_scheduled_parent_run root = true /\ parentless root = true.
Proof.
  apply (find_scheduled_root_total (H := const_host cycle_runs) tt ["a"; "b"]).
  - intros p q. simpl. unfold mem_find. simpl.
    destruct (String.eqb "a" p); [|destruct (String.eqb "b" p)]; intros Hq; inv Hq; simpl;
      (split; [done|]); repeat constructor.
  - done.
  - set_solver.
  - simpl. lia.
Defined.
