(* ===== verification/RunnerState.v ===== *)
(** * The runner's memory: ids to tick, the single-tick guard, the wake

    [runner.py], class [GatewayRunner]: the sets and counters it keeps between
    loop iterations, the entry points other threads call ([nudge],
    [_on_ledger_record], [_queue_direct_tick]) and the submission of ticks to
    its two executors ([_submit_tick] and its completion callback). An executor
    is the list of the ticks handed to it and not started ([queued], with the
    lane) and the ticks its workers are running ([executing]). Times are in
    microseconds. *)

From S2P Require Import Prelude PyStr PyVal IsoTime RunStore.

(** [GatewayRunnerConfig]. *)
Record config := mk_config {
  poll_interval : Z;
  command_batch_limit : Z;
  tick_max_steps : Z;
  tick_workers : Z;
  command_tick_workers : Z;
  run_scan_limit : Z;
  workflow_resolution_failure_limit : Z;
  scan_gate_idle_interval : Z;
  poller_reap_enabled : bool;
  poller_reap_streak_min : Z;
  poller_reap_min_age : Z;
  poller_reap_interval : Z;
  stop_kill_switch : Z;
}.
Definition default_config : config :=
  mk_config 250000 200 100 4 1 200 40 500000 true 800 (3600 * second) (300 * second) (10 * second).

(** The bound of the direct-tick set. *)
Definition direct_bound : Z := 10000.

(** The user stream's parsers of a ledger record ([events_stream.py]). *)
Record stream_hooks := mk_hooks {
  attention_from_record : dict -> res (option dict);
  wait_attention_from_record : dict -> res (option dict);
}.

Record rstate {W : Type} := mk_rstate {
  world : W;
  direct : gset string;
  priority : gset string;
  inflight : gmap string Z;
  failures : gmap string Z;
  scan_force : bool;
  scan_last_probe : Z;
  scan_fingerprint : option val;
  next_due : option Z;
  wake : bool;
  last_reap_at : Z;
  reaped_total : Z;
  last_reaped : list string;
  voice_closed : list string;
  stream_queue : list (string * dict);
  queued : list (bool * string);
  executing : list string;
  host_paused : bool;
  now : Z;
}.
Arguments rstate : clear implicits.

Section Setters.
Context {W : Type}.
Definition put_world (v : W) (s : rstate W) : rstate W :=
  mk_rstate W v (direct s) (priority s) (inflight s) (failures s) (scan_force s) (scan_last_probe s) (scan_fingerprint s) (next_due s) (wake s) (last_reap_at s) (reaped_total s) (last_reaped s) (voice_closed s) (stream_queue s) (queued s) (executing s) (host_paused s) (now s).
Definition put_direct (v : gset string) (s : rstate W) : rstate W :=
  mk_rstate W (world s) v (priority s) (inflight s) (failures s) (scan_force s) (scan_last_probe s) (scan_fingerprint s) (next_due s) (wake s) (last_reap_at s) (reaped_total s) (last_reaped s) (voice_closed s) (stream_queue s) (queued s) (executing s) (host_paused s) (now s).
Definition put_priority (v : gset string) (s : rstate W) : rstate W :=
  mk_rstate W (world s) (direct s) v (inflight s) (failures s) (scan_force s) (scan_last_probe s) (scan_fingerprint s) (next_due s) (wake s) (last_reap_at s) (reaped_total s) (last_reaped s) (voice_closed s) (stream_queue s) (queued s) (executing s) (host_paused s) (now s).
Definition put_inflight (v : gmap string Z) (s : rstate W) : rstate W :=
  mk_rstate W (world s) (direct s) (priority s) v (failures s) (scan_force s) (scan_last_probe s) (scan_fingerprint s) (next_due s) (wake s) (last_reap_at s) (reaped_total s) (last_reaped s) (voice_closed s) (stream_queue s) (queued s) (executing s) (host_paused s) (now s).
Definition put_failures (v : gmap string Z) (s : rstate W) : rstate W :=
  mk_rstate W (world s) (direct s) (priority s) (inflight s) v (scan_force s) (scan_last_probe s) (scan_fingerprint s) (next_due s) (wake s) (last_reap_at s) (reaped_total s) (last_reaped s) (voice_closed s) (stream_queue s) (queued s) (executing s) (host_paused s) (now s).
Definition put_scan_force (v : bool) (s : rstate W) : rstate W :=
  mk_rstate W (world s) (direct s) (priority s) (inflight s) (failures s) v (scan_last_probe s) (scan_fingerprint s) (next_due s) (wake s) (last_reap_at s) (reaped_total s) (last_reaped s) (voice_closed s) (stream_queue s) (queued s) (executing s) (host_paused s) (now s).
Definition put_scan_last_probe (v : Z) (s : rstate W) : rstate W :=
  mk_rstate W (world s) (direct s) (priority s) (inflight s) (failures s) (scan_force s) v (scan_fingerprint s) (next_due s) (wake s) (last_reap_at s) (reaped_total s) (last_reaped s) (voice_closed s) (stream_queue s) (queued s) (executing s) (host_paused s) (now s).
Definition put_scan_fingerprint (v : option val) (s : rstate W) : rstate W :=
  mk_rstate W (world s) (direct s) (priority s) (inflight s) (failures s) (scan_force s) (scan_last_probe s) v (next_due s) (wake s) (last_reap_at s) (reaped_total s) (last_reaped s) (voice_closed s) (stream_queue s) (queued s) (executing s) (host_paused s) (now s).
Definition put_next_due (v : option Z) (s : rstate W) : rstate W :=
  mk_rstate W (world s) (direct s) (priority s) (inflight s) (failures s) (scan_force s) (scan_last_probe s) (scan_fingerprint s) v (wake s) (last_reap_at s) (reaped_total s) (last_reaped s) (voice_closed s) (stream_queue s) (queued s) (executing s) (host_paused s) (now s).
Definition put_wake (v : bool) (s : rstate W) : rstate W :=
  mk_rstate W (world s) (direct s) (priority s) (inflight s) (failures s) (scan_force s) (scan_last_probe s) (scan_fingerprint s) (next_due s) v (last_reap_at s) (reaped_total s) (last_reaped s) (voice_closed s) (stream_queue s) (queued s) (executing s) (host_paused s) (now s).
Definition put_last_reap_at (v : Z) (s : rstate W) : rstate W :=
  mk_rstate W (world s) (direct s) (priority s) (inflight s) (failures s) (scan_force s) (scan_last_probe s) (scan_fingerprint s) (next_due s) (wake s) v (reaped_total s) (last_reaped s) (voice_closed s) (stream_queue s) (queued s) (executing s) (host_paused s) (now s).
Definition put_reaped_total (v : Z) (s : rstate W) : rstate W :=
  mk_rstate W (world s) (direct s) (priority s) (inflight s) (failures s) (scan_force s) (scan_last_probe s) (scan_fingerprint s) (next_due s) (wake s) (last_reap_at s) v (last_reaped s) (voice_closed s) (stream_queue s) (queued s) (executing s) (host_paused s) (now s).
Definition put_last_reaped (v : list string) (s : rstate W) : rstate W :=
  mk_rstate W (world s) (direct s) (priority s) (inflight s) (failures s) (scan_force s) (scan_last_probe s) (scan_fingerprint s) (next_due s) (wake s) (last_reap_at s) (reaped_total s) v (voice_closed s) (stream_queue s) (queued s) (executing s) (host_paused s) (now s).
Definition put_voice_closed (v : list string) (s : rstate W) : rstate W :=
  mk_rstate W (world s) (direct s) (priority s) (inflight s) (failures s) (scan_force s) (scan_last_probe s) (scan_fingerprint s) (next_due s) (wake s) (last_reap_at s) (reaped_total s) (last_reaped s) v (stream_queue s) (queued s) (executing s) (host_paused s) (now s).
Definition put_stream_queue (v : list (string * dict)) (s : rstate W) : rstate W :=
  mk_rstate W (world s) (direct s) (priority s) (inflight s) (failures s) (scan_force s) (scan_last_probe s) (scan_fingerprint s) (next_due s) (wake s) (last_reap_at s) (reaped_total s) (last_reaped s) (voice_closed s) v (queued s) (executing s) (host_paused s) (now s).
Definition put_queued (v : list (bool * string)) (s : rstate W) : rstate W :=
  mk_rstate W (world s) (direct s) (priority s) (inflight s) (failures s) (scan_force s) (scan_last_probe s) (scan_fingerprint s) (next_due s) (wake s) (last_reap_at s) (reaped_total s) (last_reaped s) (voice_closed s) (stream_queue s) v (executing s) (host_paused s) (now s).
Definition put_executing (v : list string) (s : rstate W) : rstate W :=
  mk_rstate W (world s) (direct s) (priority s) (inflight s) (failures s) (scan_force s) (scan_last_probe s) (scan_fingerprint s) (next_due s) (wake s) (last_reap_at s) (reaped_total s) (last_reaped s) (voice_closed s) (stream_queue s) (queued s) v (host_paused s) (now s).
Definition put_host_paused (v : bool) (s : rstate W) : rstate W :=
  mk_rstate W (world s) (direct s) (priority s) (inflight s) (failures s) (scan_force s) (scan_last_probe s) (scan_fingerprint s) (next_due s) (wake s) (last_reap_at s) (reaped_total s) (last_reaped s) (voice_closed s) (stream_queue s) (queued s) (executing s) v (now s).
Definition put_now (v : Z) (s : rstate W) : rstate W :=
  mk_rstate W (world s) (direct s) (priority s) (inflight s) (failures s) (scan_force s) (scan_last_probe s) (scan_fingerprint s) (next_due s) (wake s) (last_reap_at s) (reaped_total s) (last_reaped s) (voice_closed s) (stream_queue s) (queued s) (executing s) (host_paused s) v.
End Setters.

(** A computation of the world, run from the runner. *)
Definition on_world {W A} (m : M W A) : M (rstate W) A :=
  fun s => match m (world s) with (r, w) => (r, put_world w s) end.

(** A fresh runner ([__init__]) over a world, at a time. *)
Definition init_rstate {W} (w : W) (t : Z) : rstate W :=
  mk_rstate W w ∅ ∅ ∅ ∅ true 0 None None false 0 0 [] [] [] [] [] false t.

Section Runner.
Context {W : Type}.
Implicit Types (s : rstate W).

(** [if len(self._direct_tick_ids) < 10000: self._direct_tick_ids.add(rid)]. *)
Definition direct_add (rid : string) (s : rstate W) : rstate W :=
  if Z.of_nat (size (direct s)) <? direct_bound then put_direct ({[rid]} ∪ direct s) s else s.

(** [nudge]. *)
Definition nudge (rid : option string) (s : rstate W) : rstate W :=
  let s := match rid with
           | Some r => if String.eqb (strip r) "" then s else direct_add (strip r) s
           | None => s
           end in
  put_wake true (put_scan_force true s).

(** [_queue_direct_tick]. *)
Definition queue_direct_tick (rid : string) (s : rstate W) : rstate W :=
  let rid := strip rid in
  if String.eqb rid "" then s else put_wake true (direct_add rid s).

(** The child run a wait record names. *)
Definition sub_id_of_wait (w : dict) : option string :=
  match get_ "details" w with
  | VDict d =>
      match get_ "sub_run_id" d with
      | VStr i => Some i
      | _ => match get_ "wait_key" w with
             | VStr k => if startswith "subworkflow:" k then Some (sdrop 12 k) else None
             | _ => None
             end
      end
  | _ => match get_ "wait_key" w with
         | VStr k => if startswith "subworkflow:" k then Some (sdrop 12 k) else None
         | _ => None
         end
  end.

Definition record_wait (record : val) : option dict :=
  match record with
  | VDict r => match get_ "result" r with VDict res => as_dict (get_ "wait" res) | _ => None end
  | _ => None
  end.

(** The part of [_on_ledger_record] that reads the wait. *)
Definition note_wait (w : dict) (s : rstate W) : rstate W :=
  let s := match sub_id_of_wait w with
           | Some i => if String.eqb (strip i) "" then s else direct_add (strip i) s
           | None => s
           end in
  match nonblank (get_ "until" w) with
  | None => s
  | Some u =>
      match epoch_from_iso u with
      | None => s
      | Some e =>
          match next_due s with
          | None => put_next_due (Some e) s
          | Some cur => if e <? cur then put_next_due (Some e) s else s
          end
      end
  end.

(** The part that queues attention items for the loop thread; an exception of
    a parser leaves what the other one already queued. *)
Definition note_attention (hk : stream_hooks) (record : dict) (s : rstate W) : rstate W :=
  let push kind item s := put_stream_queue (stream_queue s ++ [(kind, item)]) s in
  let is_emit := match get_ "effect" record with
                 | VDict e => match get_ "type" e with VStr t => String.eqb t "emit_event" | _ => false end
                 | _ => false
                 end in
  let wait_part s :=
    match record_wait (VDict record) with
    | Some _ => match wait_attention_from_record hk record with
                | Ok (Some item) => push "wait" item s
                | _ => s
                end
    | None => s
    end in
  if is_emit then
    match attention_from_record hk record with
    | Ok (Some item) => wait_part (push "automation" item s)
    | Ok None => wait_part s
    | Raise _ => s
    end
  else wait_part s.

(** [_on_ledger_record]. *)
Definition on_ledger_record (user_stream : option stream_hooks) (record : val) (s : rstate W) : rstate W :=
  let s := match record_wait record with Some w => note_wait w s | None => s end in
  let s := match user_stream, record with
           | Some hk, VDict r => note_attention hk r s
           | _, _ => s
           end in
  put_wake true s.

(** [_submit_tick]: nothing when the run is in flight in either lane. *)
Definition submit_tick (rid : string) (prio : bool) (s : rstate W) : rstate W :=
  match inflight s !! rid with
  | Some _ => s
  | None =>
      put_queued (queued s ++ [(prio, rid)]) (put_inflight (<[rid := now s]> (inflight s)) s)
  end.

(** [_done], the completion callback of a tick. *)
Definition tick_done (rid : string) (s : rstate W) : rstate W :=
  let s := put_inflight (delete rid (inflight s)) s in
  let s := match failures s !! rid with
           | Some _ => put_scan_force true s
           | None => queue_direct_tick rid s
           end in
  put_wake true s.

(** A worker takes a tick of its lane; the tick ends and its callback runs. *)
Definition start_tick (n : nat) (s : rstate W) : rstate W :=
  match queued s !! n with
  | Some (_, rid) => put_executing (executing s ++ [rid]) (put_queued (delete n (queued s)) s)
  | None => s
  end.
Definition finish_tick (n : nat) (s : rstate W) : rstate W :=
  match executing s !! n with
  | Some rid => tick_done rid (put_executing (delete n (executing s)) s)
  | None => s
  end.

(** [_wake_timeout]. *)
Definition wake_timeout (cfg : config) (s : rstate W) : Z :=
  let base := if poll_interval cfg =? 0 then 250000 else poll_interval cfg in
  let base := if base <=? 0 then 250000 else base in
  let base := match next_due s with
              | Some due =>
                  let remaining := due - now s in
                  if (0 <? remaining) && (remaining <? base) then remaining else base
              | None => base
              end in
  Z.max 5000 base.
End Runner.

(** ** The single-tick guard *)

(** The runs an executor holds: handed to it and not started, or running. *)
Definition held {W} (s : rstate W) : list string := map snd (queued s) ++ executing s.

(** The guard: no run is held twice, and the in-flight map is exactly what the
    executors hold. *)
Definition guarded {W} (s : rstate W) : Prop :=
  NoDup (held s) /\ forall rid, rid ∈ held s <-> is_Some (inflight s !! rid).

Section Guard.
Context {W : Type}.
Implicit Types (s : rstate W).

(** What a thread of the runner can do to these fields; a [ChangeOther] step
    is any change of the rest of the state. *)
Inductive lane_step s : rstate W -> Prop :=
  | StepSubmit rid prio : lane_step s (submit_tick rid prio s)
  | StepStart n : lane_step s (start_tick n s)
  | StepFinish n : lane_step s (finish_tick n s)
  | StepLedger hk record : lane_step s (on_ledger_record hk record s)
  | StepNudge rid : lane_step s (nudge rid s)
  | StepOther s' :
      queued s' = queued s -> executing s' = executing s -> inflight s' = inflight s -> lane_step s s'.

(** The executors' fields of a state. *)
Definition lanes s := (queued s, executing s, inflight s).

Lemma lanes_direct_add rid s : lanes (direct_add rid s) = lanes s.
Proof. unfold direct_add. by case_match. Qed.
Lemma lanes_nudge rid s : lanes (nudge rid s) = lanes s.
Proof. unfold nudge. destruct rid as [r|]; [|done]. case_match; [done|]. apply lanes_direct_add. Qed.
Lemma lanes_queue_direct rid s : lanes (queue_direct_tick rid s) = lanes s.
Proof. unfold queue_direct_tick. case_match; [done|]. apply lanes_direct_add. Qed.
Lemma lanes_note_wait w s : lanes (note_wait w s) = lanes s.
Proof.
  unfold note_wait. trans (lanes (match sub_id_of_wait w with
    | Some i => if String.eqb (strip i) "" then s else direct_add (strip i) s | None => s end)).
  - repeat case_match; done.
  - repeat case_match; try done. apply lanes_direct_add.
Qed.
Lemma lanes_ledger hk record s : lanes (on_ledger_record hk record s) = lanes s.
Proof.
  unfold on_ledger_record. trans (lanes (match record_wait record with Some w => note_wait w s | None => s end)).
  - generalize (match record_wait record with Some w => note_wait w s | None => s end). intros s'.
    destruct hk as [hk|]; [|done]. destruct record; try done.
    unfold note_attention, put_stream_queue. repeat case_match; done.
  - case_match; [apply lanes_note_wait|done].
Qed.
Lemma lanes_guarded s s' : lanes s' = lanes s -> guarded s -> guarded s'.
Proof. unfold lanes, guarded, held. intros [= -> -> ->]. done. Qed.

Lemma guarded_submit rid prio s : guarded s -> guarded (submit_tick rid prio s).
Proof.
  unfold submit_tick. destruct (inflight s !! rid) eqn:E; [done|]. intros [Hnd Hiff].
  assert (rid ∉ held s) as Hni by (rewrite Hiff, E; by intros [? [=]]).
  assert (held (put_queued (queued s ++ [(prio, rid)]) (put_inflight (<[rid := now s]> (inflight s)) s)) ≡ₚ
    rid :: held s) as Hp.
  { unfold held; simpl. rewrite map_app; simpl. solve_Permutation. }
  split; [rewrite Hp; by constructor|]. intros x. rewrite Hp, elem_of_cons, Hiff. simpl.
  destruct (decide (x = rid)) as [->|Hne].
  - rewrite lookup_insert_eq. split; eauto.
  - rewrite lookup_insert_ne by done. naive_solver.
Qed.

Lemma guarded_start n s : guarded s -> guarded (start_tick n s).
Proof.
  unfold start_tick. destruct (queued s !! n) as [[p rid]|] eqn:E; [|done]. intros [Hnd Hiff].
  assert (held (put_executing (executing s ++ [rid]) (put_queued (delete n (queued s)) s)) ≡ₚ held s) as Hp.
  { unfold held; simpl. rewrite (delete_Permutation _ _ _ E) at 2. simpl. solve_Permutation. }
  split; [by rewrite Hp|]. intros x. by rewrite Hp, Hiff.
Qed.

Lemma guarded_finish n s : guarded s -> guarded (finish_tick n s).
Proof.
  unfold finish_tick. destruct (executing s !! n) as [rid|] eqn:E; [|done]. intros [Hnd Hiff].
  apply (lanes_guarded (put_inflight (delete rid (inflight s)) (put_executing (delete n (executing s)) s))).
  { unfold tick_done. simpl. destruct (failures s !! rid); [done|].
    match goal with |- lanes (put_wake true ?t) = _ => change (lanes t = lanes (put_inflight (delete rid (inflight s)) (put_executing (delete n (executing s)) s))) end.
    apply lanes_queue_direct. }
  assert (rid :: held (put_inflight (delete rid (inflight s)) (put_executing (delete n (executing s)) s)) ≡ₚ held s) as Hp.
  { unfold held; simpl. rewrite (delete_Permutation _ _ _ E) at 2. solve_Permutation. }
  rewrite <- Hp in Hnd. apply NoDup_cons in Hnd as [Hni Hnd]. split; [done|]. intros x. simpl.
  destruct (decide (x = rid)) as [->|Hne].
  - rewrite lookup_delete_eq. split; [done|by intros [? [=]]].
  - rewrite lookup_delete_ne by done. rewrite <- Hiff, <- Hp, elem_of_cons. naive_solver.
Qed.

(** C2: the single-tick guard. From a fresh runner, whatever order the loop
    thread, the command lane, the executors' workers, the completion callbacks
    and the ledger hook interleave in, no run is ever held twice by the two
    executors (queued in one lane and ticking in the other, or queued twice),
    and a run is refused a new tick exactly while an executor holds it. *)
Theorem single_tick_guard (w : W) (t : Z) (s : rstate W) :
  rtc lane_step (init_rstate w t) s ->
  NoDup (held s) /\ forall rid prio, submit_tick rid prio s = s <-> rid ∈ held s.
Proof.
  intros Hr. assert (guarded s) as [Hnd Hiff].
  { refine (rtc_preserves _ guarded _ _ _ _ Hr).
    2: { split; [constructor|]. intros x. simpl. split; [by intros ?%elem_of_nil|by intros [? [=]]]. }
    - intros s1 s2 Hs Hg. destruct Hs as [rid prio|n|n|hk record|rid|s'].
      + by apply guarded_submit.
      + by apply guarded_start.
      + by apply guarded_finish.
      + eapply lanes_guarded; [apply lanes_ledger|done].
      + eapply lanes_guarded; [apply lanes_nudge|done].
      + eapply lanes_guarded; [|done]. unfold lanes. congruence. }
  split; [done|]. intros rid prio. rewrite Hiff. unfold submit_tick.
  destruct (inflight s !! rid) eqn:E; [naive_solver|]. split; [|by intros [? [=]]].
  intros He. apply (f_equal queued) in He. simpl in He.
  apply (f_equal length) in He. rewrite length_app in He. simpl in He. lia.
Qed.
End Guard.
