(* ===== verification/RunnerResume.v ===== *)
(** * Parents of finished child runs

    [runner.py]: the payload a finished child resumes its parent with, the
    repair pass over the waiting runs ([_repair_terminal_subworkflow_waits]) and
    the resumption that follows a child's last tick
    ([_resume_subworkflow_parents], with the fast path of
    [_waiting_parents_for_child]). *)

From S2P Require Import Prelude PyStr PyVal IsoTime RunStore MemoryHost RunnerState.

(** The output a parent is resumed with. *)
Definition child_output_payload (r : run) : dict :=
  let out := match output r with VDict d => d | v => [("result", v)] end in
  match status r with
  | COMPLETED => out
  | st =>
      let out := setdefault "success" (VBool false) out in
      let out := match st with CANCELLED => setdefault "cancelled" (VBool true) out | _ => out end in
      match error r with
      | Some e => if String.eqb (strip e) "" then out else setdefault "error" (VStr (strip e)) out
      | None => out
      end
  end.

(** [bool(details.get("include_traces") or details.get("includeTraces"))]. *)
Definition include_traces (details : dict) : bool :=
  truthy (py_or (get_ "include_traces" details) (get_ "includeTraces" details)).

(** A wait on the given child run: its details. *)
Definition subworkflow_details (r : run) : option dict :=
  match waiting r with
  | Some w => match w_reason w with SUBWORKFLOW => as_dict (w_details w) | _ => None end
  | None => None
  end.
Definition waits_on (child : string) (r : run) : bool :=
  match subworkflow_details r with
  | Some d => match dget "sub_run_id" d with Some (VStr c) => String.eqb c child | _ => false end
  | None => false
  end.

Section Resume.
Context {W : Type} `{H : HostOps W}.
Context (cfg : config).
Abbreviation R := (rstate W).

Definition queue_direct (rid : string) : M R unit := modify (queue_direct_tick rid).

(** The payload of the resume call. *)
Definition resume_payload (h : handle) (child : string) (out details : dict) (w : W) : dict :=
  [("sub_run_id", VStr child); ("output", VDict out)] ++
  (if include_traces details then
     [("node_traces", match rt_node_traces h child w with Ok v => py_or v (VDict []) | Raise _ => VDict [] end)]
   else []).

(** [runtime.resume(..., max_steps=0)] on a run's current wait. *)
Definition resume_wait (h : handle) (r : run) (payload : dict) : M R unit :=
  on_world (rt_resume h (run_id r) (match waiting r with Some w => w_key w | None => None end) payload).

(** The body of the loop of [_repair_terminal_subworkflow_waits]. *)
Definition repair_one (r : run) : M R unit :=
  if negb (gateway_owned r) then ret tt else
  match subworkflow_details r with
  | None => ret tt
  | Some details =>
      match nonblank (get_ "sub_run_id" details) with
      | None => ret tt
      | Some sub =>
          let sub := strip sub in
          w <- gets world ;;
          found <- of_res (load sub w) ;;
          match found with
          | None => ret tt
          | Some child =>
              if negb (is_terminal (status child)) then ret tt else
              try_ (
                h <- on_world (resolve (run_id r)) ;;
                w <- gets world ;;
                resume_wait h r (resume_payload h sub (child_output_payload child) details w) ;;;
                queue_direct (run_id r))
              (fun _ => ret tt)
          end
      end
  end.

(** [_repair_terminal_subworkflow_waits(waiting=...)]: the caller's list, or
    the store's waiting runs when there is none. *)
Definition repair_candidates (waiting_runs : option (list run)) (w : W) : res (list run) :=
  match waiting_runs with
  | Some l => Ok l
  | None =>
      match list_runs with
      | None => Ok []
      | Some f =>
          match f WAITING (Some SUBWORKFLOW) (run_scan_limit cfg) w with
          | Raise (TypeError _) => f WAITING None (run_scan_limit cfg) w
          | Raise _ => Ok []
          | ok => ok
          end
      end
  end.
Definition repair_terminal_subworkflow_waits (waiting_runs : option (list run)) : M R unit :=
  w <- gets world ;;
  l <- of_res (repair_candidates waiting_runs w) ;;
  for_ l repair_one.

(** [_waiting_parents_for_child]. *)
Definition scan_waiting (w : W) : res (list run) :=
  match list_runs with Some f => f WAITING None 2000 w | None => Ok [] end.
Definition fast_parent (child : string) (w : W) : option run :=
  match load child w with
  | Ok (Some c) =>
      let pid := strip (default "" (parent_run_id c)) in
      if String.eqb pid "" then None
      else match load pid w with
           | Ok (Some p) => if bool_decide (status p = WAITING) && waits_on child p then Some p else None
           | _ => None
           end
  | _ => None
  end.
Definition waiting_parents_for_child (child : string) (w : W) : res (list run) :=
  match fast_parent child w with
  | Some p => Ok [p]
  | None => scan_waiting w
  end.

(** The body of the loop of [_resume_subworkflow_parents]. *)
Definition resume_one (child : string) (out : dict) (r : run) : M R unit :=
  if negb (waits_on child r) then ret tt else
  if is_pause_wait (waiting r) (run_id r) then ret tt else
  fun s =>
    match on_world (resolve (run_id r)) s with
    | (Raise _, s) => (Ok tt, s)
    | (Ok h, s) =>
        let payload := resume_payload h child out (default [] (subworkflow_details r)) (world s) in
        match resume_wait h r payload s with
        | (Ok _, s) => queue_direct (run_id r) s
        | (Raise (StaleResumeError _), s) => (Ok tt, s)
        | (Raise e, s) => (Raise e, s)
        end
    end.
Definition resume_subworkflow_parents (child : string) (out : dict) : M R unit :=
  w <- gets world ;;
  l <- of_res (waiting_parents_for_child child w) ;;
  for_ l (resume_one child out).

(** The resumption without the fast path, the reference of the optimisation. *)
Definition resume_parents_by_scan (child : string) (out : dict) : M R unit :=
  w <- gets world ;;
  l <- of_res (scan_waiting w) ;;
  for_ l (resume_one child out).
End Resume.

(** ** Correctness *)

(** the payload never overwrites what the child wrote: a key of the child's
    own output keeps its value, and a child that failed or was cancelled always
    carries a [success] key, [False] unless the child said otherwise (and
    [cancelled] when it was cancelled). *)
Theorem child_output_payload_spec (r : run) (k : string) :
  (forall d v, output r = VDict d -> dget k d = Some v -> dget k (child_output_payload r) = Some v) /\
  (forall d, output r = VDict d -> dget "success" d = None -> status r <> COMPLETED ->
     dget "success" (child_output_payload r) = Some (VBool false)) /\
  (status r = CANCELLED -> is_Some (dget "cancelled" (child_output_payload r))) /\
  (status r = COMPLETED -> child_output_payload r = match output r with VDict d => d | v => [("result", v)] end).
Proof.
  unfold child_output_payload. split_and!.
  - intros d v -> Hk. destruct (status r); repeat case_match; auto 6 with gw.
  - intros d -> Hs Hne.
    assert (dget "success" (setdefault "success" (VBool false) d) = Some (VBool false)) as Hf
      by (by rewrite dget_setdefault, Hs).
    destruct (status r); repeat case_match; auto 6 with gw; done.
  - intros ->. destruct (setdefault_present "cancelled" (VBool true)
      (setdefault "success" (VBool false) (match output r with VDict d => d | v => [("result", v)] end))) as [v Hv].
    repeat case_match; eauto with gw.
  - by intros ->.
Qed.

Section FastPath.
Context {W : Type} `{H : HostOps W}.
Abbreviation R := (rstate W).

Lemma resume_one_skip child out r (s : R) :
  waits_on child r = false -> resume_one child out r s = (Ok tt, s).
Proof. intros Hw. unfold resume_one. by rewrite Hw. Qed.

(** Only the parents waiting on the child matter to the loop. *)
Lemma resume_loop_filter child out l (s : R) :
  for_ l (resume_one child out) s = for_ (List.filter (waits_on child) l) (resume_one child out) s.
Proof.
  revert s. induction l as [|r l IH]; intros s; [done|]. simpl.
  destruct (waits_on child r) eqn:E; simpl; unfold mbind_.
  - destruct (resume_one child out r s) as [[|] s']; [apply IH|done].
  - rewrite resume_one_skip by done. apply IH.
Qed.

(** the fast path only skips work, it never changes who is resumed: on a
    store where the scan answers, and where a parent waiting on the child is the
    only waiter on it (the wait key is unique to the child), resuming through
    the child's own parent id does exactly what the full scan does: the same
    calls on the same runs, the same exceptions and the same queued ids. *)
Theorem fast_path_refines_scan (child : string) (out : dict) (s : R) (l : list run) :
  scan_waiting (world s) = Ok l ->
  (forall p, fast_parent child (world s) = Some p -> List.filter (waits_on child) l = [p]) ->
  resume_subworkflow_parents child out s = resume_parents_by_scan child out s.
Proof.
  intros Hl Hu. unfold resume_subworkflow_parents, resume_parents_by_scan, waiting_parents_for_child.
  unfold mbind_, gets, of_res. rewrite Hl.
  destruct (fast_parent child (world s)) as [p|] eqn:E; [|done].
  rewrite (resume_loop_filter child out l), (Hu p eq_refl). done.
Qed.

(** *** The repair pass *)

(** Ids only enter the direct set, while it has room. *)
Definition room (n : nat) (s : R) : Prop := Z.of_nat (size (direct s)) + Z.of_nat n <= direct_bound.

Lemma queue_direct_tick_adds rid (s : R) :
  strip rid <> "" -> room 1 s -> strip rid ∈ direct (queue_direct_tick rid s).
Proof.
  unfold queue_direct_tick, direct_add, room. intros Hn Hr.
  destruct (String.eqb_spec (strip rid) ""); [done|].
  destruct (Z.ltb_spec (Z.of_nat (size (direct s))) direct_bound); [|lia]. simpl. set_solver +.
Qed.
Lemma queue_direct_tick_mono rid (s : R) : direct s ⊆ direct (queue_direct_tick rid s).
Proof. unfold queue_direct_tick, direct_add. repeat case_match; simpl; set_solver +. Qed.
Lemma queue_direct_tick_room rid n (s : R) : room (S n) s -> room n (queue_direct_tick rid s).
Proof.
  unfold room, queue_direct_tick, direct_add. intros Hr. repeat case_match; simpl; try lia.
  pose proof (size_union_alt {[strip rid]} (direct s)) as Hs. rewrite Hs, size_singleton.
  assert (size (direct s ∖ {[strip rid]}) <= size (direct s))%nat by (apply subseteq_size; set_solver +). lia.
Qed.

(** One step of the pass: it does not raise when the child loads, it keeps
    the queued ids, and it adds at most one. *)
Lemma repair_one_ok r (s : R) :
  (forall i w, is_ok (load i w) = true) ->
  exists s', repair_one r s = (Ok tt, s') /\ direct s ⊆ direct s' /\ forall n, room (S n) s -> room n s'.
Proof.
  intros Hload. assert (exists s', (Ok tt, s) = (Ok tt, s') /\ direct s ⊆ direct s' /\ forall n, room (S n) s -> room n s') as Hskip.
  { exists s. split_and!; [done..|]. unfold room. intros. lia. }
  unfold repair_one. destruct (negb _); [done|].
  destruct (subworkflow_details r) as [details|]; [|done].
  destruct (nonblank (get_ "sub_run_id" details)) as [sub|]; [|done].
  unfold mbind_ at 1, gets at 1, mbind_ at 1, of_res. specialize (Hload (strip sub) (world s)).
  destruct (load (strip sub) (world s)) as [[child|]|]; [|done..].
  destruct (negb _); [done|].
  unfold try_, mbind_, on_world, gets, resume_wait, on_world, queue_direct, modify. clear Hskip Hload.
  destruct (resolve (run_id r) (world s)) as [[h|] w1]; simpl.
  - destruct (rt_resume _ _ _ _ w1) as [[[]|] w2]; simpl.
    + eexists. split; [done|]. split.
      * etrans; [|apply queue_direct_tick_mono]. done.
      * intros n Hn. apply queue_direct_tick_room. exact Hn.
    + eexists. split; [done|]. unfold room; simpl. split; [done|]. intros; lia.
  - eexists. split; [done|]. unfold room; simpl. split; [done|]. intros; lia.
Qed.

(** A parent the pass can repair, in whatever world it is tried. *)
Definition repairable (r : run) : Prop :=
  gateway_owned r = true /\ strip (run_id r) <> "" /\
  exists details sub child,
    subworkflow_details r = Some details /\ nonblank (get_ "sub_run_id" details) = Some sub /\
    is_terminal (status child) = true /\
    forall w, load (strip sub) w = Ok (Some child) /\ is_ok (fst (resolve (run_id r) w)) = true /\
      forall h k p, fst (rt_resume h (run_id r) k p w) = Ok tt.

Lemma repair_one_queues r (s : R) :
  repairable r -> room 1 s -> strip (run_id r) ∈ direct (snd (repair_one r s)).
Proof.
  intros (Hown & Hid & details & sub & child & Hd & Hs & Hterm & Hall) Hroom.
  unfold repair_one. rewrite Hown, Hd, Hs. simpl.
  unfold mbind_ at 1, gets at 1, mbind_ at 1, of_res.
  destruct (Hall (world s)) as (-> & Hres & _). rewrite Hterm. simpl.
  unfold try_, mbind_, on_world, gets, resume_wait, on_world, queue_direct, modify.
  destruct (resolve (run_id r) (world s)) as [[h|] w1]; [|done]. simpl.
  destruct (Hall w1) as (_ & _ & Hr). specialize (Hr h (match waiting r with Some w => w_key w | None => None end)
    (resume_payload h (strip sub) (child_output_payload child) details w1)).
  destruct (rt_resume _ _ _ _ w1) as [[[]|] w2]; [|done]. simpl. by apply queue_direct_tick_adds.
Qed.

(** the repair pass is complete and isolates failures: whatever the other
    waiting runs do (unresolvable workflows, resumes that raise), as long as
    the store loads, the pass never raises, and every parent left waiting on a
    terminal child that can be resumed is resumed and queued for a direct tick. *)
Theorem repair_isolates_failures (cfg : config) (l : list run) (s : R) (r : run) :
  (forall i w, is_ok (load i w) = true) -> r ∈ l -> repairable r -> room (length l) s ->
  fst (repair_terminal_subworkflow_waits cfg (Some l) s) = Ok tt /\
  strip (run_id r) ∈ direct (snd (repair_terminal_subworkflow_waits cfg (Some l) s)).
Proof.
  intros Hload Hin Hr Hroom. unfold repair_terminal_subworkflow_waits, mbind_, gets, of_res. simpl.
  revert s Hroom Hin. induction l as [|q l IH]; intros s Hroom Hin; [by apply not_elem_of_nil in Hin|].
  simpl. unfold mbind_.
  assert (forall s', room (length l) s' -> strip (run_id r) ∈ direct s' \/ r ∈ l ->
    fst (for_ l repair_one s') = Ok tt /\ strip (run_id r) ∈ direct (snd (for_ l repair_one s'))) as Hrest.
  { intros s' Hroom' [Hd|Hl]; [|auto]. split.
    - apply for_ok. intros x t. destruct (repair_one_ok x t Hload) as (? & -> & _). done.
    - apply (for_inv (fun t => strip (run_id r) ∈ direct t)); [|done]. intros x t Ht.
      destruct (repair_one_ok x t Hload) as (t' & -> & Hsub & _). simpl. set_solver +Ht Hsub. }
  destruct (repair_one_ok q s Hload) as (s' & Hs' & Hsub & Hroom'). rewrite Hs'. apply Hrest; [auto|].
  apply elem_of_cons in Hin as [->|]; [left|by right].
  pose proof (repair_one_queues q s Hr) as Hq. rewrite Hs' in Hq. apply Hq. unfold room in *. simpl in *. lia.
Qed.
End FastPath.

(** ** Witnesses *)

Definition parent_p : run := sample_run "p" WAITING (Some (sub_wait "c")) None.
Definition child_c : run := sample_run "c" FAILED None (Some "p").
Definition other_o : run := sample_run "o" WAITING (Some (until_wait "2030-01-01T00:00:00Z")) None.
Definition family : mem := mem_of [other_o; parent_p; child_c].

Lemma fast_path_refines_scan_witness :
  resume_subworkflow_parents "c" [] (init_rstate family 0) = resume_parents_by_scan "c" [] (init_rstate family 0) /\
  direct (snd (resume_subworkflow_parents "c" [] (init_rstate family 0))) = {["p"]}.
Proof.
  split; [|by vm_compute].
  apply (fast_path_refines_scan "c" [] (init_rstate family 0) [other_o; parent_p]); [done|].
  intros p Hp. assert (p = parent_p) as -> by (vm_compute in Hp; by injection Hp as <-). done.
Defined.

Lemma repair_isolates_failures_witness :
  let H := const_host [child_c] in
  strip "p" ∈ direct (snd (repair_terminal_subworkflow_waits default_config (Some [other_o; parent_p])
    (init_rstate tt 0))).
Proof.
  intros H. apply (repair_isolates_failures (H := const_host [child_c]) default_config [other_o; parent_p] (init_rstate tt 0) parent_p).
  - done.
  - set_solver.
  - split_and!; [done..|]. exists [("sub_run_id", VStr "c")], "c", child_c. split_and!; try done.
  - unfold room. vm_compute. done.
Defined.
