(* ===== verification/RunnerTicks.v ===== *)
(** * Scheduling: which runs are handed to the executors, and when

    [runner.py]: the direct drain ([_drain_direct_ticks]), the scan gate
    ([_scan_pass_due]), the next deadline ([_note_next_due]), the idle-poller
    reaper ([_reap_idle_pollers]) and the scheduling pass ([_schedule_ticks]).
    The loop over a Python set takes its elements in the order of [elements];
    no theorem depends on that order. *)

From S2P Require Import Prelude PyStr PyVal IsoTime RunStore MemoryHost RunnerState RunnerResume.

(** [file_store_fingerprint]: the files' modification times, [None] for a file
    that vanished during the walk; (count, maximum, sum). *)
Definition file_store_fingerprint (stats : list (option Z)) : Z * Z * Z :=
  fold_left (fun '(count, max_ns, sum_ns) st =>
    match st with
    | None => (count, max_ns, sum_ns)
    | Some ns => (count + 1, if max_ns <? ns then ns else max_ns, sum_ns + ns)
    end) stats (0, 0, 0).

(** What the gate compares: nothing on an indexed store, the store's change
    token, or the fingerprint of the run directory. *)
Inductive scan_base {W : Type} :=
  | NoGate
  | Token (token : W -> res val)
  | RunDir (stats : W -> list (option Z)).
Arguments scan_base : clear implicits.

Definition fingerprint_of {W} (base : scan_base W) (w : W) : res val :=
  match base with
  | NoGate => Ok VNone
  | Token f => f w
  | RunDir stats =>
      let '(c, m, t) := file_store_fingerprint (stats w) in Ok (VList [VInt c; VInt m; VInt t])
  end.

Section Ticks.
Context {W : Type} `{H : HostOps W}.
Context (cfg : config).
Abbreviation R := (rstate W).

(** A run the direct drain ticks. *)
Definition drainable (w : W) (rid : string) : bool :=
  match load rid w with
  | Ok (Some r) => gateway_owned r && bool_decide (status r = RUNNING) && negb (paused_while_running r)
  | _ => false
  end.

(** [_drain_direct_ticks]. *)
Definition drain_direct_ticks (s : R) : R :=
  if host_paused s then s
  else
    fold_left (fun s rid => if drainable (world s) rid then submit_tick rid false s else s)
      (elements (direct s)) (put_direct ∅ s).

(** [_scan_pass_due], over the resolved base of the gate. *)
Definition idle_interval : Z := Z.max 50000 (scan_gate_idle_interval cfg).
Definition scan_pass_due (base : scan_base W) : M R bool := fun s =>
  match base with
  | NoGate => (Ok true, s)
  | _ =>
      if scan_force s then (Ok true, put_scan_last_probe 0 (put_scan_force false s))
      else if match next_due s with Some d => d <=? now s | None => false end then (Ok true, s)
      else if now s - scan_last_probe s <? idle_interval then (Ok false, s)
      else
        let s := put_scan_last_probe (now s) s in
        match fingerprint_of base (world s) with
        | Raise e => (Raise e, s)
        | Ok fp =>
            match scan_fingerprint s with
            | Some old => if bool_decide (fp = old) then (Ok false, s)
                          else (Ok true, put_scan_fingerprint (Some fp) s)
            | None => (Ok true, put_scan_fingerprint (Some fp) s)
            end
        end
  end.

(** The deadlines of a window of waiting runs: the loop of [_note_next_due],
    with the local variables [horizon] and [truncated]. *)
Fixpoint horizon_of (t : Z) (runs : list run) (horizon : option Z) (truncated : bool) : option Z * bool :=
  match runs with
  | [] => (horizon, truncated)
  | r :: runs =>
      match (match waiting r with Some w => w_until w | None => None end) with
      | None => horizon_of t runs horizon truncated
      | Some u =>
          if String.eqb u "" then horizon_of t runs horizon truncated
          else match epoch_from_iso u with
               | None => horizon_of t runs horizon true
               | Some e =>
                   if e <=? t then (Some t, truncated)
                   else horizon_of t runs (Some (match horizon with None => e | Some h => Z.min h e end)) truncated
               end
      end
  end.

(** [_note_next_due]. *)
Definition note_next_due (waiting_runs : list run) (s : R) : R :=
  let periodic := Some (now s + idle_interval) in
  match next_wait_deadline with
  | Some f =>
      put_next_due
        (match f (world s) with
         | Raise _ => periodic
         | Ok None => None
         | Ok (Some u) =>
             if String.eqb u "" then None
             else match epoch_from_iso u with
                  | None => periodic
                  | Some e => Some (if e <=? now s then now s else e)
                  end
         end) s
  | None =>
      let truncated := run_scan_limit cfg <=? Z.of_nat (length waiting_runs) in
      let '(horizon, truncated) := horizon_of (now s) waiting_runs None truncated in
      put_next_due (match horizon with None => if truncated then periodic else None | h => h end) s
  end.

(** Why a waiting run is reaped, [None] when it is kept. *)
Definition reap_reason (t : Z) (busy : gmap string Z) (r : run) : option string :=
  if negb (gateway_owned r) then None else
  match waiting r with
  | Some w =>
      match w_reason w, vars r with
      | UNTIL, VDict v =>
          match get_ "_runtime" v with
          | VDict ns =>
              match get_ "wait_until_streak" ns with
              | VInt streak =>
                  let streak_min := Z.max 1 (poller_reap_streak_min cfg) in
                  if streak <? streak_min then None else
                  match epoch_from_iso (created_at r) with
                  | Some created =>
                      if t - created <? Z.max 0 (poller_reap_min_age cfg) then None
                      else if String.eqb (run_id r) "" then None
                      else if bool_decide (is_Some (busy !! run_id r)) then None
                      else Some ("idle poller reaped: wait_until_streak=" +:+ str_of_Z streak +:+
                                 " >= " +:+ str_of_Z streak_min +:+
                                 " with no non-wait effect, run age " +:+
                                 str_of_Z ((t - created) / second) +:+ "s (gateway idle-poller reaper)")
                  | None => None
                  end
              | _ => None
              end
          | _ => None
          end
      | _, _ => None
      end
  | None => None
  end.

(** One candidate: a failing cancel is logged and the sweep goes on. *)
Definition reap_one (t : Z) (busy : gmap string Z) (acc : W * list string) (r : run) : W * list string :=
  let '(w, reaped) := acc in
  match reap_reason t busy r with
  | None => (w, reaped)
  | Some reason =>
      match cancel_run (run_id r) reason w with
      | (Ok _, w) => (w, reaped ++ [run_id r])
      | (Raise _, w) => (w, reaped)
      end
  end.

Definition reap_candidates (w : W) : option (list run) :=
  match list_runs with
  | None => None
  | Some f =>
      match f WAITING (Some UNTIL) (run_scan_limit cfg) w with
      | Ok l => Some l
      | Raise (TypeError _) =>
          match f WAITING None (run_scan_limit cfg) w with Ok l => Some l | Raise _ => None end
      | Raise _ => None
      end
  end.

Definition last20 {A} (l : list A) : list A := drop (length l - 20) l.

(** [_reap_idle_pollers], at the clock [t]. *)
Definition reap_idle_pollers (t : Z) (s : R) : R * Z :=
  if negb (poller_reap_enabled cfg) then (s, 0)
  else if t - last_reap_at s <? Z.max second (poller_reap_interval cfg) then (s, 0)
  else
    let s := put_last_reap_at t s in
    match reap_candidates (world s) with
    | None => (s, 0)
    | Some candidates =>
        let '(w, reaped) := fold_left (reap_one t (inflight s)) candidates (world s, []) in
        let s := put_world w s in
        let s := match reaped with
                 | [] => s
                 | _ => put_last_reaped (last20 reaped)
                          (put_reaped_total (reaped_total s + Z.of_nat (length reaped)) s)
                 end in
        (s, Z.of_nat (length reaped))
    end.

(** [_close_interrupted_voice_streams], with the time this process started. *)
Definition voice_sentence : string :=
  "Read aloud was interrupted because the gateway restarted; the audio was not finished. Press Read aloud again.".
Definition close_interrupted_voice_streams (process_started : Z) (waiting_runs : list run) (s : R) : R :=
  let '(w, closed) :=
    fold_left (fun '(w, closed) r =>
      if negb (gateway_owned r) then (w, closed) else
      match waiting r with
      | Some wt =>
          if negb (is_interrupted_voice_stream_wait wt) then (w, closed)
          else if match epoch_from_iso (created_at r) with Some c => process_started <=? c | None => false end
          then (w, closed)
          else match close_interrupted_voice_stream (run_id r) voice_sentence w with
               | (Ok _, w) => (w, closed ++ [run_id r])
               | (Raise _, w) => (w, closed)
               end
      | None => (w, closed)
      end) waiting_runs (world s, []) in
  let s := put_world w s in
  match closed with [] => s | _ => put_voice_closed (last20 (voice_closed s ++ closed)) s end.

(** A run the command lane ticks: loaded and gateway-owned, in any status. *)
Definition prioritizable (w : W) (rid : string) : bool :=
  negb (String.eqb rid "") &&
  match load rid w with Ok (Some r) => gateway_owned r | _ => false end.

(** The command-lane drain at the head of [_schedule_ticks]. *)
Definition drain_priority (s : R) : R :=
  fold_left (fun s rid => if prioritizable (world s) rid then submit_tick rid true s else s)
    (elements (priority s)) (put_priority ∅ s).

(** A run of the windowed scans that is ticked. *)
Definition scannable (r : run) : bool :=
  negb (String.eqb (run_id r) "") && gateway_owned r && negb (paused_while_running r).

Definition submit_scanned (l : list run) (s : R) : R :=
  fold_left (fun s r => if scannable r then submit_tick (run_id r) false s else s) l s.

Definition waiting_all (w : W) : list run :=
  match list_runs with
  | Some f => match f WAITING None (run_scan_limit cfg) w with Ok l => l | Raise _ => [] end
  | None => []
  end.

(** [_schedule_ticks]. *)
Definition schedule_ticks (process_started : Z) : M R unit := fun s =>
  if host_paused s then (Ok tt, s)
  else
    let s := drain_priority s in
    match (match list_runs with
           | Some f => f RUNNING None (run_scan_limit cfg) (world s)
           | None => Ok []
           end) with
    | Raise e => (Raise e, s)
    | Ok runs =>
        let s := drain_direct_ticks s in
        let due := match list_due_wait_until with
                   | Some f => match f (utc_now_iso (now s)) (run_scan_limit cfg) (world s) with
                               | Ok l => l | Raise _ => [] end
                   | None => []
                   end in
        let s := drain_direct_ticks s in
        let s := submit_scanned (runs ++ due) s in
        let parked := waiting_all (world s) in
        let s := drain_direct_ticks s in
        let s := note_next_due parked s in
        let s := snd (repair_terminal_subworkflow_waits cfg (Some parked) s) in
        let s := close_interrupted_voice_streams process_started parked s in
        (Ok tt, s)
    end.

(** The scheduling part of one iteration of [_loop]: the direct drain, the
    gate, the pass and the drain after it; an exception is logged. *)
Definition loop_schedule (base : scan_base W) (process_started : Z) (s : R) : R :=
  let s := drain_direct_ticks s in
  match scan_pass_due base s with
  | (Ok true, s) =>
      match schedule_ticks process_started s with
      | (Ok _, s) => drain_direct_ticks s
      | (Raise _, s) => s
      end
  | (_, s) => s
  end.
End Ticks.

(** ** Submission as set union *)

Section SubmitLemmas.
Context {W : Type} `{H : HostOps W}.
Context (cfg : config).
Abbreviation R := (rstate W).

Lemma held_submit rid prio (s : R) x :
  guarded s -> x ∈ held (submit_tick rid prio s) <-> x ∈ held s \/ x = rid.
Proof.
  intros [Hnd Hiff]. unfold submit_tick. destruct (inflight s !! rid) eqn:E.
  - split; [auto|]. intros [?| ->]; [done|]. rewrite Hiff, E. eauto.
  - unfold held; simpl. rewrite map_app; simpl. set_solver +.
Qed.

(** A loop that submits the chosen elements of a list. *)
Definition submit_loop {A} (pick : A -> option (bool * string)) (l : list A) (s : R) : R :=
  fold_left (fun s a => match pick a with Some (p, rid) => submit_tick rid p s | None => s end) l s.

Lemma submit_loop_spec {A} (pick : A -> option (bool * string)) l (s : R) :
  guarded s ->
  guarded (submit_loop pick l s) /\ world (submit_loop pick l s) = world s /\
  direct (submit_loop pick l s) = direct s /\ priority (submit_loop pick l s) = priority s /\
  host_paused (submit_loop pick l s) = host_paused s /\ now (submit_loop pick l s) = now s /\
  forall x, x ∈ held (submit_loop pick l s) <-> x ∈ held s \/ exists a p, a ∈ l /\ pick a = Some (p, x).
Proof.
  unfold submit_loop. revert s. induction l as [|a l IH]; intros s Hg; simpl.
  - split_and!; try done. intros x. split; [auto|]. intros [?|(a & p & Hn & _)]; [done|by apply elem_of_nil in Hn].
  - destruct (pick a) as [[p rid]|] eqn:Ea.
    + destruct (IH (submit_tick rid p s)) as (Hg' & Hw & Hd & Hp & Hh & Hn & Hx); [by apply guarded_submit|].
      assert (world (submit_tick rid p s) = world s /\ direct (submit_tick rid p s) = direct s /\
        priority (submit_tick rid p s) = priority s /\ host_paused (submit_tick rid p s) = host_paused s /\
        now (submit_tick rid p s) = now s)
        as (Hw1 & Hd1 & Hp1 & Hh1 & Hn1) by (unfold submit_tick; destruct (inflight s !! rid); done).
      split_and!; try congruence; try done. intros x. rewrite Hx, held_submit by done. split.
      * intros [[?| ->]|(b & q & Hb & Hq)]; [by left|right; exists a, p; split; [by left|done]|].
        right. exists b, q. split; [by right|done].
      * intros [?|(b & q & [-> | Hb]%elem_of_cons & Hq)]; [by left; left|left; right; congruence|right; eauto].
    + destruct (IH s Hg) as (Hg' & Hw & Hd & Hp & Hh & Hn & Hx). split_and!; try done. intros x. rewrite Hx. split.
      * intros [?|(b & q & Hb & Hq)]; [by left|right; exists b, q; split; [by right|done]].
      * intros [?|(b & q & [-> | Hb]%elem_of_cons & Hq)]; [by left|congruence|right; eauto].
Qed.

(** The ids the direct drain and the command-lane drain submit, in a world. *)
Definition drain_pick (w : W) (rid : string) : option (bool * string) :=
  if drainable w rid then Some (false, rid) else None.
Definition priority_pick (w : W) (rid : string) : option (bool * string) :=
  if prioritizable w rid then Some (true, rid) else None.
Definition scan_pick (r : run) : option (bool * string) :=
  if scannable r then Some (false, run_id r) else None.

Lemma fold_submit_world {A} (pick : W -> A -> option (bool * string)) l (s : R) :
  fold_left (fun s a => match pick (world s) a with Some (p, rid) => submit_tick rid p s | None => s end) l s =
  submit_loop (pick (world s)) l s.
Proof.
  unfold submit_loop. revert s. induction l as [|a l IH]; intros s; [done|]. simpl.
  destruct (pick (world s) a) as [[p rid]|] eqn:E; rewrite IH; [|done].
  f_equal. assert (world (submit_tick rid p s) = world s) as -> by (unfold submit_tick; by destruct (inflight s !! rid)). done.
Qed.

Lemma drain_direct_loop (s : R) :
  host_paused s = false ->
  drain_direct_ticks s = submit_loop (drain_pick (world s)) (elements (direct s)) (put_direct ∅ s).
Proof.
  intros Hp. unfold drain_direct_ticks. rewrite Hp.
  rewrite <- (fold_submit_world drain_pick (elements (direct s)) (put_direct ∅ s)).
  apply fold_left_eq. intros t rid. unfold drain_pick. by destruct (drainable (world t) rid).
Qed.
End SubmitLemmas.

Section Scheduling.
Context {W : Type} `{H : HostOps W}.
Context (cfg : config).
Abbreviation R := (rstate W).

(** a paused host schedules nothing: the drain, the pass and the whole
    scheduling part of a loop iteration start no tick, keep the queued direct
    and command ids for the resume, and leave the world as it is. *)
Theorem paused_schedules_nothing (base : scan_base W) (ps : Z) (s : R) :
  host_paused s = true ->
  drain_direct_ticks s = s /\ schedule_ticks cfg ps s = (Ok tt, s) /\
  held (loop_schedule cfg base ps s) = held s /\ direct (loop_schedule cfg base ps s) = direct s /\
  priority (loop_schedule cfg base ps s) = priority s /\ world (loop_schedule cfg base ps s) = world s.
Proof.
  intros Hp. assert (forall t : R, host_paused t = true -> drain_direct_ticks t = t) as Hd
    by (intros t Ht; unfold drain_direct_ticks; by rewrite Ht).
  split; [auto|]. split; [unfold schedule_ticks; by rewrite Hp|].
  unfold loop_schedule. rewrite Hd by done.
  assert (exists r t, scan_pass_due cfg base s = (r, t) /\ host_paused t = true /\ held t = held s /\
    direct t = direct s /\ priority t = priority s /\ world t = world s) as (r & t & -> & Ht & ? & ? & ? & ?).
  { unfold scan_pass_due. destruct base; repeat case_match; eexists _, _; split_and!; try done. }
  destruct r as [[|]|]; try done. unfold schedule_ticks. rewrite Ht. by rewrite Hd.
Qed.

(** The guarded ids after one direct drain. *)
Lemma drain_direct_held (s : R) :
  host_paused s = false -> guarded s ->
  guarded (drain_direct_ticks s) /\ world (drain_direct_ticks s) = world s /\
  direct (drain_direct_ticks s) = ∅ /\ priority (drain_direct_ticks s) = priority s /\
  host_paused (drain_direct_ticks s) = false /\ now (drain_direct_ticks s) = now s /\
  forall rid, rid ∈ held (drain_direct_ticks s) <->
    rid ∈ held s \/ (rid ∈ direct s /\ drainable (world s) rid = true).
Proof.
  intros Hp Hg. rewrite drain_direct_loop by done.
  destruct (submit_loop_spec (drain_pick (world s)) (elements (direct s)) (put_direct ∅ s))
    as (Hg' & Hw & Hd & Hpr & Hh & Hn & Hx); [done|].
  split_and!; try done; [by rewrite Hh|]. intros rid. rewrite Hx. unfold drain_pick. apply or_iff_compat_l. split.
  - intros (a & p & Ha & Hpk). destruct (drainable (world s) a) eqn:E; simplify_eq.
    split; [by apply elem_of_elements|done].
  - intros [Ha Hdr]. exists rid, false. rewrite Hdr. split; [by apply elem_of_elements|done].
Qed.

(** the direct drain ticks exactly the runs it should: on a running host,
    the executors hold afterwards what they held plus every queued id that
    loads as a gateway-owned RUNNING run that is not paused, nothing else; the
    queue is empty, and each run is held once. *)
Theorem drain_direct_exact (s : R) :
  host_paused s = false -> guarded s ->
  NoDup (held (drain_direct_ticks s)) /\ direct (drain_direct_ticks s) = ∅ /\
  forall rid, rid ∈ held (drain_direct_ticks s) <->
    rid ∈ held s \/ (rid ∈ direct s /\ exists r, load rid (world s) = Ok (Some r) /\
      gateway_owned r = true /\ status r = RUNNING /\ is_paused_vars (vars r) = false).
Proof.
  intros Hp Hg. destruct (drain_direct_held s Hp Hg) as ([Hnd _] & _ & Hd & _ & _ & _ & Hx).
  split_and!; [done..|]. intros rid. rewrite Hx. apply or_iff_compat_l, and_iff_compat_l.
  unfold drainable. destruct (load rid (world s)) as [[r|]|].
  2,3: split; [done|by intros (? & ? & _)].
  unfold paused_while_running. split.
  - intros Hb. exists r. destruct (decide (status r = RUNNING)) as [E|E].
    + rewrite !bool_decide_true in Hb by done. destruct (gateway_owned r), (is_paused_vars (vars r)); done.
    + rewrite !bool_decide_false in Hb by done. destruct (gateway_owned r); done.
  - intros (r' & [= <-] & -> & Hs & ->). by rewrite bool_decide_true.
Qed.

Lemma lanes_repair_one r (s : R) : lanes (snd (repair_one r s)) = lanes s.
Proof.
  unfold repair_one. destruct (negb _); [done|].
  destruct (subworkflow_details r); [|done]. destruct (nonblank _) as [sub|]; [|done].
  unfold mbind_ at 1, gets at 1, mbind_ at 1, of_res.
  destruct (load (strip sub) (world s)) as [[child|]|]; [|done..]. destruct (negb _); [done|].
  unfold try_, mbind_, on_world, gets, resume_wait, on_world, queue_direct, modify.
  destruct (resolve (run_id r) (world s)) as [[h|] w1]; simpl; [|done].
  destruct (rt_resume _ _ _ _ w1) as [[[]|] w2]; simpl; [|done]. by rewrite lanes_queue_direct.
Qed.
Lemma lanes_repair l (s : R) : lanes (snd (repair_terminal_subworkflow_waits cfg (Some l) s)) = lanes s.
Proof.
  unfold repair_terminal_subworkflow_waits, mbind_, gets, of_res. simpl.
  apply (for_inv (fun t => lanes t = lanes s)); [|done]. intros r t Ht. by rewrite lanes_repair_one.
Qed.
Lemma lanes_voice ps l (s : R) : lanes (close_interrupted_voice_streams ps l s) = lanes s.
Proof. unfold close_interrupted_voice_streams. destruct (fold_left _ _ _) as [w [|? ?]]; done. Qed.
Lemma lanes_next_due l (s : R) : lanes (note_next_due cfg l s) = lanes s.
Proof. unfold note_next_due. destruct next_wait_deadline; [done|]. by destruct (horizon_of _ _ _ _). Qed.
Lemma lanes_held (s t : R) : lanes s = lanes t -> held s = held t.
Proof. unfold lanes, held. by intros [= -> -> _]. Qed.

(** The runs the store lists as due at the runner's clock. *)
Definition due_runs (s : R) : list run :=
  match list_due_wait_until with
  | Some f => match f (utc_now_iso (now s)) (run_scan_limit cfg) (world s) with Ok l => l | Raise _ => [] end
  | None => []
  end.

(** C4: a scheduling pass ticks exactly what it should: on a running host whose
    RUNNING scan answers, the executors hold afterwards what they held, every
    commanded id that loads as gateway-owned (whatever its status and wherever
    it stands in the scan window), every queued direct id that is runnable, and
    every gateway-owned run, not paused, of the RUNNING window and of the due
    waits: nothing else, and no run twice. *)
Theorem schedule_ticks_exact (ps : Z) (s : R) (runs : list run) :
  host_paused s = false -> guarded s ->
  (match list_runs with
   | Some f => f RUNNING None (run_scan_limit cfg) (world s) = Ok runs
   | None => runs = []
   end) ->
  exists s', schedule_ticks cfg ps s = (Ok tt, s') /\ NoDup (held s') /\
  forall rid, rid ∈ held s' <->
    rid ∈ held s \/ (rid ∈ priority s /\ prioritizable (world s) rid = true) \/
    (rid ∈ direct s /\ drainable (world s) rid = true) \/
    (exists r, r ∈ runs ++ due_runs s /\ scannable r = true /\ run_id r = rid).
Proof.
  intros Hp Hg Hruns.
  destruct (submit_loop_spec (priority_pick (world s)) (elements (priority s)) (put_priority ∅ s))
    as (Hg1 & Hw1 & Hd1 & Hp1 & Hh1 & Hn1 & Hx1); [done|].
  assert (drain_priority s = submit_loop (priority_pick (world s)) (elements (priority s)) (put_priority ∅ s)) as E1.
  { rewrite <- (fold_submit_world priority_pick _ (put_priority ∅ s)). apply fold_left_eq.
    intros t rid. unfold priority_pick. by destruct (prioritizable (world t) rid). }
  rewrite <- E1 in *. set (s1 := drain_priority s) in *.
  assert ((match list_runs with Some f => f RUNNING None (run_scan_limit cfg) (world s1) | None => Ok [] end) = Ok runs) as Hr.
  { destruct list_runs; [|by rewrite Hruns]. rewrite Hw1. exact Hruns. }
  unfold schedule_ticks. rewrite Hp. fold s1. rewrite Hr.
  destruct (drain_direct_held s1) as (Hg2 & Hw2 & Hd2 & _ & Hh2 & Hn2 & Hx2); [by rewrite Hh1|done|].
  set (s2 := drain_direct_ticks s1) in *.
  destruct (drain_direct_held s2) as (Hg3 & Hw3 & Hd3 & _ & Hh3 & Hn3 & Hx3); [done..|].
  set (s3 := drain_direct_ticks s2) in *.
  replace (match list_due_wait_until with
    | Some f => match f (utc_now_iso (now s2)) (run_scan_limit cfg) (world s2) with Ok l => l | Raise _ => [] end
    | None => [] end) with (due_runs s)
    by (unfold due_runs; rewrite Hn2, Hn1, Hw2, Hw1; done).
  destruct (submit_loop_spec scan_pick (runs ++ due_runs s) s3) as (Hg4 & Hw4 & Hd4 & _ & Hh4 & _ & Hx4); [done|].
  assert (submit_scanned (runs ++ due_runs s) s3 = submit_loop scan_pick (runs ++ due_runs s) s3) as E4.
  { apply fold_left_eq. intros t r. unfold scan_pick. by destruct (scannable r). }
  rewrite <- E4 in *. set (s4 := submit_scanned (runs ++ due_runs s) s3) in *.
  destruct (drain_direct_held s4) as ([Hg5 _] & _ & _ & _ & _ & _ & Hx5); [by rewrite Hh4|done|].
  set (s5 := drain_direct_ticks s4) in *. eexists. split; [done|].
  match goal with |- NoDup (held ?t) /\ _ => assert (held t = held s5) as -> end.
  { apply lanes_held. by rewrite lanes_voice, lanes_repair, lanes_next_due. }
  split; [done|]. intros rid. rewrite Hx5, Hx4, Hx3, Hx2, Hx1, Hd4, Hd3, Hd2, Hd1, Hw1.
  assert ((exists a p, a ∈ elements (priority s) /\ priority_pick (world s) a = Some (p, rid)) <->
    rid ∈ priority s /\ prioritizable (world s) rid = true) as ->.
  { unfold priority_pick. split.
    - intros (a & p & Ha & Hpk). destruct (prioritizable (world s) a) eqn:E; simplify_eq.
      split; [by apply elem_of_elements|done].
    - intros [Ha E]. exists rid, true. rewrite E. split; [by apply elem_of_elements|done]. }
  assert ((exists a p, a ∈ runs ++ due_runs s /\ scan_pick a = Some (p, rid)) <->
    exists r, r ∈ runs ++ due_runs s /\ scannable r = true /\ run_id r = rid) as ->.
  { unfold scan_pick. split.
    - intros (a & p & Ha & Hpk). exists a. destruct (scannable a); simplify_eq. done.
    - intros (a & Ha & E & <-). exists a, false. by rewrite E. }
  simpl. set_solver +.
Qed.
End Scheduling.
