(* ===== verification/RunnerGate.v ===== *)
(** * The scan gate, the deadlines and the reaper: what the runner never misses

    Theorems on [scan_pass_due], [note_next_due], [wake_timeout] and
    [reap_idle_pollers] (defined in RunnerState and RunnerTicks). *)

From S2P Require Import Prelude PyStr PyVal IsoTime RunStore MemoryHost RunnerState RunnerResume RunnerTicks.

Section Gate.
Context {W : Type} `{H : HostOps W}.
Context (cfg : config) (base : scan_base W).
Abbreviation R := (rstate W).

(** The runner sees a clock and a world. *)
Definition at_ (t : Z) (w : W) (s : R) : R := put_now t (put_world w s).

(** A series of iterations at which the gate stayed closed. *)
Fixpoint gate_quiet (obs : list (Z * W)) (s : R) : option R :=
  match obs with
  | [] => Some s
  | (t, w) :: obs =>
      match scan_pass_due cfg base (at_ t w s) with
      | (Ok false, s') => gate_quiet obs s'
      | _ => None
      end
  end.

(** The gate of a file store, whatever it compares. *)
Lemma scan_pass_due_gated (s : R) :
  base <> NoGate ->
  scan_pass_due cfg base s =
  if scan_force s then (Ok true, put_scan_last_probe 0 (put_scan_force false s))
  else if match next_due s with Some d => d <=? now s | None => false end then (Ok true, s)
  else if now s - scan_last_probe s <? idle_interval cfg then (Ok false, s)
  else match fingerprint_of base (world s) with
       | Raise e => (Raise e, put_scan_last_probe (now s) s)
       | Ok fp =>
           match scan_fingerprint s with
           | Some old => if bool_decide (fp = old) then (Ok false, put_scan_last_probe (now s) s)
                         else (Ok true, put_scan_fingerprint (Some fp) (put_scan_last_probe (now s) s))
           | None => (Ok true, put_scan_fingerprint (Some fp) (put_scan_last_probe (now s) s))
           end
       end.
Proof. by destruct base. Qed.

Lemma gate_closed t w (s s' : R) :
  scan_pass_due cfg base (at_ t w s) = (Ok false, s') ->
  scan_force s = false /\ scan_force s' = false /\ scan_fingerprint s' = scan_fingerprint s /\
  next_due s' = next_due s /\ (scan_last_probe s' = scan_last_probe s \/ scan_last_probe s' = t).
Proof.
  unfold scan_pass_due. destruct base; [done|..]; simpl; repeat case_match; intros [= <-];
    split_and!; simpl; auto; congruence.
Qed.

Lemma gate_quiet_spec obs (s s' : R) T :
  gate_quiet obs s = Some s' -> scan_last_probe s <= T -> (forall t w, (t, w) ∈ obs -> t <= T) ->
  scan_fingerprint s' = scan_fingerprint s /\ scan_last_probe s' <= T.
Proof.
  revert s. induction obs as [|[t w] obs IH]; intros s Hq Hl Ht; simpl in Hq; [by simplify_eq|].
  destruct (scan_pass_due cfg base (at_ t w s)) as [[[|]|] s1] eqn:E; try done.
  apply gate_closed in E as (_ & _ & Hf & _ & Hp).
  assert (t <= T) by (apply (Ht t w); left).
  destruct (IH s1 Hq) as [-> ?]; [destruct Hp; lia| |done].
  intros t' w' ?. apply (Ht t' w'). by right.
Qed.

(** the gate delays a scan by one probe at most and never loses a change:
    after any series of iterations at which it stayed closed, up to time [T],
    an iteration one idle interval later finds it open whenever the store's
    fingerprint differs from the one recorded before the last pass, however
    many writes came in between. *)
Theorem scan_gate_no_lost_change (obs : list (Z * W)) (s s' : R) (T t : Z) (w : W) (fp : val) :
  base <> NoGate -> gate_quiet obs s = Some s' -> scan_last_probe s <= T ->
  (forall t w, (t, w) ∈ obs -> t <= T) -> T + idle_interval cfg <= t ->
  fingerprint_of base w = Ok fp -> scan_fingerprint s <> Some fp ->
  exists s'', scan_pass_due cfg base (at_ t w s') = (Ok true, s'').
Proof.
  intros Hb Hq Hl Ht Hlate Hfp Hne. destruct (gate_quiet_spec _ _ _ _ Hq Hl Ht) as [Hf Hp].
  rewrite scan_pass_due_gated by done. simpl. destruct (scan_force s'); [eauto|].
  destruct (match next_due s' with Some d => d <=? t | None => false end); [eauto|].
  destruct (Z.ltb_spec (t - scan_last_probe s') (idle_interval cfg)); [lia|].
  rewrite Hfp, Hf. destruct (scan_fingerprint s) as [old|]; [|by eauto].
  rewrite bool_decide_false by congruence. eauto.
Qed.

Lemma gate_open_at_deadline (s : R) t d :
  next_due s = Some d -> d <= now s -> t = now s -> exists s', scan_pass_due cfg base s = (Ok true, s').
Proof.
  intros Hd Hle ->. destruct base as [| |] eqn:Eb; [by eexists|..]; rewrite <- Eb;
    rewrite scan_pass_due_gated by congruence; (destruct (scan_force s); [by eexists|]);
    rewrite Hd; destruct (Z.leb_spec d (now s)); [by eexists|lia|by eexists|lia].
Qed.

(** a wait deadline is never slept through: once [note_next_due] has read
    the store's earliest deadline [e], the loop's sleep never ends after it (up
    to the 5 ms floor), and the gate is open at every iteration from [e] on;
    when the store cannot answer or the text does not parse, the gate is open
    at every iteration one idle interval later. *)
Theorem deadline_never_slept_through f l (s : R) (w : W) (t : Z) :
  next_wait_deadline = Some f ->
  let s' := note_next_due cfg l s in
  (forall u e, f (world s) = Ok (Some u) -> u <> "" -> epoch_from_iso u = Some e ->
     (t < e -> now s < e -> t + wake_timeout cfg (at_ t w s') <= Z.max e (t + 5000)) /\
     (now s <= t -> e <= t -> exists s'', scan_pass_due cfg base (at_ t w s') = (Ok true, s''))) /\
  ((forall u, f (world s) = Ok u -> exists v, u = Some v /\ v <> "" /\ epoch_from_iso v = None) ->
     now s + idle_interval cfg <= t -> exists s'', scan_pass_due cfg base (at_ t w s') = (Ok true, s'')).
Proof.
  intros Hf s'. subst s'. unfold note_next_due. rewrite Hf. split.
  - intros u e Hu Hne He. rewrite Hu, He. destruct (String.eqb_spec u ""); [done|]. split.
    + intros Hte Hne'. unfold wake_timeout. simpl. destruct (Z.leb_spec e (now s)); [lia|].
      repeat case_match; bool_to_prop; try lia.
      all: match goal with E : (_ && _) = false |- _ => apply andb_false_iff in E as [E|E]; bool_to_prop; lia end.
    + intros Hnt Het. eapply gate_open_at_deadline; [reflexivity| |reflexivity]. simpl.
      destruct (Z.leb_spec e (now s)); lia.
  - intros Hbad Ht. destruct (f (world s)) as [u|] eqn:E.
    + destruct (Hbad u eq_refl) as (v & -> & Hv & ->). destruct (String.eqb_spec v ""); [done|].
      eapply gate_open_at_deadline; [reflexivity| |reflexivity]. simpl. lia.
    + eapply gate_open_at_deadline; [reflexivity| |reflexivity]. simpl. lia.
Qed.

(** The deadline of a waiting run, when it has one that parses. *)
Definition deadline (r : run) : option Z :=
  match waiting r with
  | Some w => match w_until w with
              | Some u => if String.eqb u "" then None else epoch_from_iso u
              | None => None
              end
  | None => None
  end.

Lemma horizon_of_spec t l h tr :
  let '(h', tr') := horizon_of t l h tr in
  (forall e, h = Some e -> t <= e -> exists d, h' = Some d /\ t <= d <= e) /\
  (forall r e, r ∈ l -> deadline r = Some e -> (forall x, h = Some x -> t <= x) ->
     exists d, h' = Some d /\ t <= d <= Z.max t e).
Proof.
  revert h tr. induction l as [|r l IH]; intros h tr; simpl.
  - split; [intros e ->; eauto with lia|]. intros r e Hn. by apply elem_of_nil in Hn.
  - unfold deadline. destruct (waiting r) as [w0|] eqn:Ew; [destruct (w_until w0) as [u|] eqn:Eu|].
    2,3: specialize (IH h tr); destruct (horizon_of t l h tr) as [h' tr'], IH as [IH1 IH2]; split; [done|];
      intros q e [->|Hq]%elem_of_cons; [rewrite Ew, ?Eu; done|by apply (IH2 q e)].
    destruct (String.eqb u "") eqn:Es.
    { specialize (IH h tr); destruct (horizon_of t l h tr) as [h' tr'], IH as [IH1 IH2]; split; [done|];
        intros q e [->|Hq]%elem_of_cons; [rewrite Ew, Eu, Es; done|by apply (IH2 q e)]. }
    destruct (epoch_from_iso u) as [e0|] eqn:Ee.
    2: { specialize (IH h true); destruct (horizon_of t l h true) as [h' tr'], IH as [IH1 IH2]; split; [done|];
        intros q e [->|Hq]%elem_of_cons; [rewrite Ew, Eu, Es, Ee; done|by apply (IH2 q e)]. }
    destruct (Z.leb_spec e0 t).
    { split; [intros e _ Hte; exists t; split; [done|lia]|]. intros q e _ _ _. exists t. split; [done|lia]. }
    specialize (IH (Some (match h with None => e0 | Some h => Z.min h e0 end)) tr).
    destruct (horizon_of _ _ _ _) as [h' tr'], IH as [IH1 IH2]. split.
    + intros e -> Hte. destruct (IH1 _ eq_refl) as (d & -> & ?); [lia|]. exists d. split; [done|lia].
    + intros q e [->|Hq]%elem_of_cons He Hh.
      * rewrite Ew, Eu, Es, Ee in He. simplify_eq.
        destruct (IH1 _ eq_refl) as (d & -> & ?); [destruct h; [specialize (Hh _ eq_refl)|]; lia|].
        exists d. split; [done|]. destruct h; lia.
      * apply (IH2 q e); [done|done|]. intros x [= <-]. destruct h; [specialize (Hh _ eq_refl)|]; lia.
Qed.

(** the fallback window (a store without [next_wait_deadline]) covers every
    deadline it shows: the gate is open from each of them on; and it covers
    only those: with a full window whose deadlines are all in the future, the
    gate stays closed before the earliest of them, however many idle intervals
    pass, although the window may have cut off an earlier one. *)
Theorem window_deadlines l (s : R) (w : W) (t : Z) :
  next_wait_deadline = None ->
  let s' := note_next_due cfg l s in
  (forall r e, r ∈ l -> deadline r = Some e -> now s <= t -> e <= t ->
     exists s'', scan_pass_due cfg base (at_ t w s') = (Ok true, s'')) /\
  (forall h, base <> NoGate -> run_scan_limit cfg <= Z.of_nat (length l) ->
     fst (horizon_of (now s) l None true) = Some h -> t < h ->
     scan_force s = false -> scan_fingerprint s <> None ->
     Ok <$> scan_fingerprint s = Some (fingerprint_of base w) ->
     fst (scan_pass_due cfg base (at_ t w s')) = Ok false).
Proof.
  intros Hn s'. subst s'. unfold note_next_due. rewrite Hn. split.
  - intros r e Hr He Hnt Het.
    pose proof (horizon_of_spec (now s) l None (run_scan_limit cfg <=? Z.of_nat (length l))) as Hs.
    destruct (horizon_of _ _ _ _) as [h' tr']. destruct Hs as [_ Hs].
    destruct (Hs r e Hr He) as (d & -> & ?); [done|].
    eapply gate_open_at_deadline; [reflexivity| |reflexivity]. simpl. lia.
  - intros h Hb Hfull Hh Hth Hforce Hfn Hfp. destruct (Z.leb_spec (run_scan_limit cfg) (Z.of_nat (length l))); [|lia].
    destruct (horizon_of (now s) l None true) as [h' tr']; simpl in Hh; subst h'.
    destruct (scan_fingerprint s) as [old|] eqn:Eo; [|done]. simpl in Hfp. injection Hfp as Hfp.
    rewrite scan_pass_due_gated by done. simpl. rewrite Hforce.
    destruct (Z.leb_spec h t); [lia|]. destruct (_ <? _); [done|].
    rewrite <- Hfp, Eo. by rewrite bool_decide_true.
Qed.
End Gate.

Section Reaper.
Context {W : Type} `{H : HostOps W}.
Context (cfg : config).
Abbreviation R := (rstate W).

(** The positive proof of a spin the reaper asks for: a gateway-owned run in a
    timed wait, whose integer streak counter reached the limit, old enough, with
    an id, and not ticking. *)
Definition spin_proof (t : Z) (busy : gmap string Z) (r : run) : Prop :=
  gateway_owned r = true /\ run_id r <> "" /\ busy !! run_id r = None /\
  exists w v ns streak created,
    waiting r = Some w /\ w_reason w = UNTIL /\ vars r = VDict v /\ get_ "_runtime" v = VDict ns /\
    get_ "wait_until_streak" ns = VInt streak /\ Z.max 1 (poller_reap_streak_min cfg) <= streak /\
    epoch_from_iso (created_at r) = Some created /\ Z.max 0 (poller_reap_min_age cfg) <= t - created.

Lemma reap_reason_iff t busy r : is_Some (reap_reason cfg t busy r) <-> spin_proof t busy r.
Proof.
  unfold reap_reason, spin_proof. split.
  - intros [x Hx]. repeat case_match; simplify_eq; bool_to_prop; split_and!; try done.
    + destruct (busy !! run_id r); [exfalso; eauto|done].
    + do 5 eexists. split_and!; eauto; lia.
  - intros (-> & Hid & Hb & w & v & ns & streak & created & -> & -> & -> & -> & -> & Hs & -> & Ha).
    simpl. destruct (Z.ltb_spec streak (Z.max 1 (poller_reap_streak_min cfg))); [lia|].
    destruct (Z.ltb_spec (t - created) (Z.max 0 (poller_reap_min_age cfg))); [lia|].
    destruct (String.eqb_spec (run_id r) ""); [done|].
    rewrite bool_decide_false by (rewrite Hb; by intros [? [=]]). eauto.
Qed.

(** The sweep keeps every property of the world that cancelling proven
    spinners keeps, and counts at most them. *)
Lemma reap_loop_inv (I : W -> Prop) t busy l w reaped :
  (forall r reason w, r ∈ l -> spin_proof t busy r -> I w -> I (snd (cancel_run (run_id r) reason w))) ->
  I w -> I (fst (fold_left (reap_one cfg t busy) l (w, reaped))).
Proof.
  revert w reaped. induction l as [|r l IH]; intros w reaped Hc HI; simpl; [done|].
  destruct (reap_reason cfg t busy r) as [reason|] eqn:E.
  - assert (spin_proof t busy r) as Hr by (apply reap_reason_iff; eauto).
    pose proof (Hc r reason w ltac:(left) Hr HI) as Hw.
    destruct (cancel_run (run_id r) reason w) as [[|] w']; simpl in Hw; apply IH; try done;
      intros; apply Hc; try done; by right.
  - apply IH; [|done]. intros; apply Hc; try done; by right.
Qed.
Lemma reap_loop_count t busy l w reaped :
  (length (snd (fold_left (reap_one cfg t busy) l (w, reaped))) <=
   length reaped + length (List.filter (fun r => bool_decide (is_Some (reap_reason cfg t busy r))) l))%nat.
Proof.
  revert w reaped. induction l as [|r l IH]; intros w reaped; simpl; [lia|].
  destruct (reap_reason cfg t busy r) as [reason|] eqn:E.
  - rewrite bool_decide_true by eauto. simpl.
    destruct (cancel_run (run_id r) reason w) as [[|] w']; (etrans; [apply IH|]); rewrite ?length_app; simpl; lia.
  - rewrite bool_decide_false by (by intros [? [=]]). apply IH.
Qed.

(** the reaper is deny-safe. Whatever the store answers (event waits,
    foreign runs, runs mid-tick, runs without a counter), a sweep changes the
    world through cancellations of proven spinners only: it keeps every
    property those cancellations keep; it counts at most the proven spinners
    among its candidates; a disabled reaper, and a sweep sooner than the
    interval, do nothing at all. *)
Theorem reaper_deny_safe (I : W -> Prop) (t : Z) (s : R) :
  (forall r reason w l, reap_candidates cfg (world s) = Some l -> r ∈ l ->
     spin_proof t (inflight s) r -> I w -> I (snd (cancel_run (run_id r) reason w))) ->
  I (world s) ->
  I (world (fst (reap_idle_pollers cfg t s))) /\
  snd (reap_idle_pollers cfg t s) <= Z.of_nat (length (List.filter
    (fun r => bool_decide (is_Some (reap_reason cfg t (inflight s) r))) (default [] (reap_candidates cfg (world s))))) /\
  (poller_reap_enabled cfg = false \/ t < last_reap_at s + poller_reap_interval cfg ->
     reap_idle_pollers cfg t s = (s, 0)).
Proof.
  intros Hc HI. unfold reap_idle_pollers. destruct (poller_reap_enabled cfg); simpl; [|split_and!; [done|lia|done]].
  destruct (Z.ltb_spec (t - last_reap_at s) (Z.max second (poller_reap_interval cfg))).
  { split_and!; [done|simpl; lia|done]. }
  split_and!; [| |intros [|]; [done|lia]].
  - destruct (reap_candidates cfg (world s)) as [l|] eqn:E; [|done].
    pose proof (reap_loop_inv I t (inflight s) l (world s) []) as Hi.
    destruct (fold_left _ _ _) as [w reaped]. destruct reaped; apply Hi; eauto.
  - destruct (reap_candidates cfg (world s)) as [l|] eqn:E; [|simpl; lia].
    pose proof (reap_loop_count t (inflight s) l (world s) []) as Hi.
    destruct (fold_left _ _ _) as [w reaped]. simpl in *. lia.
Qed.
End Reaper.

(** ** Witnesses *)

Definition token_runs (m : mem) : res val := Ok (VList (map (fun r => VStr (run_id r)) (m_runs m))).
Definition one_run : mem := mem_of [sample_run "a" RUNNING None None].
Definition quiet_state : rstate mem :=
  put_scan_force false (put_scan_fingerprint (Some (VList [VStr "a"])) (init_rstate one_run 0)).

(** A closed gate at 0.6 s, a second run at 1.2 s: the gate opens. *)
Lemma scan_gate_no_lost_change_witness :
  exists s'', scan_pass_due default_config (Token token_runs)
    (at_ 1200000 (mem_save (sample_run "b" RUNNING None None) one_run)
       (put_scan_last_probe 600000 (put_now 600000 quiet_state))) = (Ok true, s'').
Proof.
  eapply (scan_gate_no_lost_change default_config (Token token_runs) [(600000, one_run)] quiet_state _ 600000 1200000
    (mem_save (sample_run "b" RUNNING None None) one_run) (VList [VStr "a"; VStr "b"])).
  - done.
  - vm_compute. reflexivity.
  - done.
  - intros t w Hin. apply list_elem_of_singleton in Hin. injection Hin as -> _. done.
  - done.
  - vm_compute. reflexivity.
  - done.
Defined.

Definition parked_run : run := sample_run "w" WAITING (Some (until_wait "1970-01-01T00:01:00+00:00")) None.
Definition parked : mem := mem_of [parked_run].

(** A deadline at 60 s, read at 0 s: the sleep at 59.9 s ends at it, and the gate
    is open at 60 s. *)
Lemma deadline_never_slept_through_witness :
  let s' := note_next_due default_config [] (init_rstate parked 0) in
  59900000 + wake_timeout default_config (at_ 59900000 parked s') <= 60000000 /\
  exists s'', scan_pass_due default_config (Token token_runs) (at_ 60000000 parked s') = (Ok true, s'').
Proof.
  split.
  - etrans; [refine (proj1 (proj1 (deadline_never_slept_through default_config (Token token_runs)
      _ [] (init_rstate parked 0) parked 59900000 eq_refl) "1970-01-01T00:01:00+00:00" 60000000 _ _ _) _ _); done|done].
  - refine (proj2 (proj1 (deadline_never_slept_through default_config (Token token_runs)
      _ [] (init_rstate parked 0) parked 60000000 eq_refl) "1970-01-01T00:01:00+00:00" 60000000 _ _ _) _ _); done.
Defined.

(** A window of one run with a limit of one: the gate is closed ten seconds
    later, before the only deadline the window showed. *)
Definition small_window : config :=
  mk_config 250000 200 100 4 1 1 40 500000 true 800 (3600 * second) (300 * second) (10 * second).
Lemma window_deadlines_witness :
  let H := const_host [parked_run] in
  let s := put_scan_force false (put_scan_fingerprint (Some VNone) (init_rstate tt 0)) in
  fst (scan_pass_due small_window (Token (fun _ => Ok VNone))
    (at_ 10000000 tt (note_next_due small_window [parked_run] s))) = Ok false.
Proof.
  intros H s. refine (proj2 (window_deadlines (H := const_host [parked_run]) small_window (Token (fun _ => Ok VNone))
    [parked_run] s tt 10000000 eq_refl) 60000000 _ _ _ _ _ _ _); done.
Defined.

(** Nothing spins: nothing is cancelled. *)
Lemma reaper_deny_safe_witness :
  world (fst (reap_idle_pollers default_config (10000 * second) (init_rstate parked 0))) = parked.
Proof.
  apply (reaper_deny_safe default_config (fun w => w = parked) (10000 * second) (init_rstate parked 0)); [|done].
  intros r reason w l Hl Hr Hspin ->. exfalso. apply reap_reason_iff in Hspin.
  vm_compute in Hl. injection Hl as <-. apply list_elem_of_singleton in Hr as ->.
  vm_compute in Hspin. destruct Hspin as [? [=]].
Defined.

Lemma paused_schedules_nothing_witness :
  schedule_ticks default_config 0 (put_host_paused true (init_rstate one_run 0)) =
  (Ok tt, put_host_paused true (init_rstate one_run 0)).
Proof. by apply (paused_schedules_nothing default_config NoGate 0 (put_host_paused true (init_rstate one_run 0))). Defined.

Lemma init_guarded {W} (w : W) t : guarded (init_rstate w t).
Proof. split; [constructor|]. intros x. simpl. split; [by intros ?%elem_of_nil|by intros [? [=]]]. Qed.

Lemma drain_direct_exact_witness :
  "a" ∈ held (drain_direct_ticks (put_direct {["a"; "z"]} (init_rstate one_run 0))).
Proof.
  apply (drain_direct_exact (put_direct {["a"; "z"]} (init_rstate one_run 0))); [done|apply (init_guarded one_run 0)|].
  right. split; [set_solver|]. eexists. split; [reflexivity|done].
Defined.

Lemma schedule_ticks_exact_witness :
  exists s', schedule_ticks default_config 0 (put_direct {["a"; "z"]} (init_rstate one_run 0)) = (Ok tt, s') /\
    NoDup (held s') /\ "a" ∈ held s'.
Proof.
  destruct (schedule_ticks_exact default_config 0 (put_direct {["a"; "z"]} (init_rstate one_run 0))
    [sample_run "a" RUNNING None None]) as (s' & Hs & Hnd & Hx); [done|apply (init_guarded one_run 0)|reflexivity|].
  exists s'. split_and!; [done|done|]. apply Hx. right; right; right.
  exists (sample_run "a" RUNNING None None). split_and!; [left|done..].
Defined.

Lemma single_tick_guard_witness :
  NoDup (held (submit_tick "a" true (submit_tick "a" false (init_rstate tt 0)))).
Proof.
  apply (single_tick_guard tt 0). eapply rtc_l; [apply (StepSubmit _ "a" false)|].
  eapply rtc_l; [apply (StepSubmit _ "a" true)|]. apply rtc_refl.
Defined.
