(* ===== verification/RunnerExec.v ===== *)
(** * Executing a tick

    [runner.py]: the count of consecutive resolution failures and the promotion
    of an unresolvable run ([_note_resolution_failure]), and the body of a tick
    ([_tick_run]) with its exception paths. *)

From S2P Require Import Prelude PyStr PyVal IsoTime RunStore MemoryHost RunnerState RunnerResume.

(** [type(exc).__name__] and [str(exc)]. A [KeyError] prints the repr of its
    key. *)
Definition exn_name (e : exn) : string :=
  match e with
  | ValueError _ => "ValueError"
  | KeyError _ => "KeyError"
  | RuntimeError _ => "RuntimeError"
  | PermissionError _ => "PermissionError"
  | TypeError _ => "TypeError"
  | OverflowError _ => "OverflowError"
  | StaleResumeError _ => "StaleResumeError"
  | EffectInterrupted => "EffectInterrupted"
  | CommandNotRecorded _ => "CommandNotRecorded"
  | WorkspacePolicyError _ _ => "WorkspacePolicyError"
  | NotImplementedError _ => "NotImplementedError"
  | AttributeError _ => "AttributeError"
  | OpenAIKeyError _ _ _ => "OpenAIKeyError"
  | AccountArchivedError _ => "AccountArchivedError"
  | EntityPrincipalGuardError _ => "EntityPrincipalGuardError"
  | AccountError _ _ _ => "AccountError"
  | OtherError _ => "Exception"
  end.
Definition exn_msg (e : exn) : string :=
  match e with
  | KeyError m => repr_str m
  | ValueError m | RuntimeError m | PermissionError m | TypeError m | OverflowError m
  | StaleResumeError m | WorkspacePolicyError m _ | NotImplementedError m | AttributeError m | OpenAIKeyError _ _ m
  | EntityPrincipalGuardError m | AccountError _ _ m | OtherError m => m
  | AccountArchivedError u => u +:+ " is archived: unarchive it first, then turn Active on."
  | EffectInterrupted => ""
  | CommandNotRecorded m => m
  end.
Definition exn_text (e : exn) : string := exn_name e +:+ ": " +:+ exn_msg e.

Section Exec.
Context {W : Type} `{H : HostOps W}.
Context (cfg : config).
Abbreviation R := (rstate W).

(** Any exception of [m] is swallowed. *)
Definition quietly (m : M R unit) : M R unit := try_ m (fun _ => ret tt).

(** [_clear_resolution_failure]. *)
Definition clear_resolution_failure (rid : string) : M R unit :=
  modify (fun s => put_failures (delete rid (failures s)) s).

(** The run saved as FAILED with the error and a failure record: the common
    part of the two promotions. *)
Definition fail_run (latest : run) (err key : string) : M R run := fun s =>
  let latest := set_updated_at (utc_now_iso (now s)) (set_failed err latest) in
  (on_world (save latest) ;;;
   quietly (on_world (close_live_state latest)) ;;;
   quietly (on_world (ledger_fail latest
     (if String.eqb (current_node latest) "" then "runtime" else current_node latest) key err)) ;;;
   ret latest) s.

(** [_note_resolution_failure]. *)
Definition resolution_limit : Z :=
  Z.max 1 (if workflow_resolution_failure_limit cfg =? 0 then 40 else workflow_resolution_failure_limit cfg).
Definition resolution_error (e : exn) (count : Z) : string :=
  "WorkflowResolutionError: " +:+ exn_text e +:+ " (after " +:+ str_of_Z count +:+ " consecutive attempts)".
Definition note_resolution_failure (rid : string) (e : exn) : M R unit :=
  count <- gets (fun s => default 0 (failures s !! rid) + 1) ;;
  modify (fun s => put_failures (<[rid := count]> (failures s)) s) ;;;
  if count <? resolution_limit then ret tt else
  quietly (
    w <- gets world ;;
    found <- of_res (load rid w) ;;
    match found with
    | None => clear_resolution_failure rid
    | Some latest =>
        if negb (bool_decide (status latest = RUNNING)) then clear_resolution_failure rid
        else
          fail_run latest (resolution_error e count) ("system:workflow_resolution:" +:+ rid) ;;;
          clear_resolution_failure rid
    end).

(** The handler of an exception of the runtime's tick: the run that the rest
    of [_tick_run] continues with, [None] when it returns. *)
Definition promote_after_exception (rid : string) (e : exn) : M R (option run) :=
  try_ (
    w <- gets world ;;
    found <- of_res (load rid w) ;;
    match found with
    | None => ret None
    | Some latest =>
        if bool_decide (status latest = RUNNING) then
          saved <- fail_run latest (exn_text e) ("system:tick_exception:" +:+ rid) ;;
          ret (Some saved)
        else ret (Some latest)
    end)
  (fun _ => ret None).

(** What follows a tick: the stream pointer, the automatic compaction and the
    resumption of the parents of a finished run. *)
Definition after_tick (rid : string) (state : run) : M R unit :=
  on_world (stream_run state) ;;;
  quietly (on_world (maybe_auto_compact state)) ;;;
  if is_terminal (status state)
  then quietly (resume_subworkflow_parents rid (child_output_payload state))
  else ret tt.

(** [_tick_run]. *)
Definition tick_steps : Z := if tick_max_steps cfg =? 0 then 100 else tick_max_steps cfg.
Definition tick_run (rid : string) : M R unit := fun s =>
  if inline_run_active rid (world s) then clear_resolution_failure rid s
  else
    match on_world (resolve rid) s with
    | (Raise e, s) =>
        if inline_run_active rid (world s) then clear_resolution_failure rid s
        else note_resolution_failure rid e s
    | (Ok h, s) =>
        (clear_resolution_failure rid ;;;
         fun s =>
           match on_world (rt_tick h rid tick_steps) s with
           | (Ok state, s) => after_tick rid state s
           | (Raise EffectInterrupted, s) => (Ok tt, s)
           | (Raise e, s) =>
               (found <- promote_after_exception rid e ;;
                match found with Some state => after_tick rid state | None => ret tt end) s
           end) s
    end.
End Exec.

(** ** Correctness *)

Section ExecProofs.
Context {W : Type} `{H : HostOps W}.
Context (cfg : config).
Abbreviation R := (rstate W).

Lemma quietly_ok (m : M R unit) s : fst (quietly m s) = Ok tt.
Proof. unfold quietly, try_. destruct (m s) as [[[]|] ?]; done. Qed.

(** The states of the store, all of them reachable by the calls a promotion
    makes after its save, keep what the save wrote. *)
Definition keeps_after_save (rid : string) (P : W -> Prop) : Prop :=
  (forall r w, P w -> P (snd (close_live_state r w))) /\
  (forall r a b c w, P w -> P (snd (ledger_fail r a b c w))).

Lemma fail_run_spec (latest : run) err key (s : R) (P : W -> Prop) :
  keeps_after_save (run_id latest) P ->
  let r := set_updated_at (utc_now_iso (now s)) (set_failed err latest) in
  fst (save r (world s)) = Ok tt -> P (snd (save r (world s))) ->
  exists s', fail_run latest err key s = (Ok r, s') /\ P (world s') /\ failures s' = failures s.
Proof.
  intros [Hk1 Hk2] r Hs HP. unfold fail_run, mbind_, on_world at 1. fold r.
  destruct (save r (world s)) as [[[]|] w1]; [|done]. simpl in HP.
  unfold quietly, try_, on_world, ret. simpl.
  pose proof (Hk1 r w1 HP) as HP2. destruct (close_live_state r w1) as [[[]|] w2]; simpl in *;
  match goal with |- context[ledger_fail ?a ?b ?c ?d w2] =>
    pose proof (Hk2 a b c d w2 HP2) as HP3; destruct (ledger_fail a b c d w2) as [[[]|] w3] end;
    simpl in *; eexists; split_and!; done.
Qed.

(** One failed attempt to resolve the run, as [_tick_run] makes it. *)
Definition failing (rid : string) (e : exn) (w : W) : Prop :=
  inline_run_active rid w = false /\ resolve rid w = (Raise e, w).

Lemma tick_failing rid e (s : R) :
  failing rid e (world s) -> tick_run cfg rid s = note_resolution_failure cfg rid e s.
Proof.
  intros [Hi Hr]. unfold tick_run. rewrite Hi. unfold on_world. rewrite Hr. simpl. rewrite Hi. by destruct s.
Qed.

(** Below the limit a failure only counts. *)
Lemma note_below rid e (s : R) :
  default 0 (failures s !! rid) + 1 < resolution_limit cfg ->
  note_resolution_failure cfg rid e s =
    (Ok tt, put_failures (<[rid := default 0 (failures s !! rid) + 1]> (failures s)) s).
Proof.
  intros Hlt. unfold note_resolution_failure, mbind_, gets, modify. simpl.
  destruct (Z.ltb_spec (default 0 (failures s !! rid) + 1) (resolution_limit cfg)); [done|lia].
Qed.

(** At the limit a RUNNING run is promoted. *)
Lemma note_at_limit rid e latest (s : R) (P : W -> Prop) :
  default 0 (failures s !! rid) + 1 = resolution_limit cfg ->
  load rid (world s) = Ok (Some latest) -> status latest = RUNNING ->
  let failed := set_updated_at (utc_now_iso (now s))
                  (set_failed (resolution_error e (resolution_limit cfg)) latest) in
  keeps_after_save rid P -> fst (save failed (world s)) = Ok tt -> P (snd (save failed (world s))) ->
  exists s', note_resolution_failure cfg rid e s = (Ok tt, s') /\ P (world s') /\ failures s' !! rid = None.
Proof.
  intros Hc Hl Hst failed Hk Hs HP.
  unfold note_resolution_failure, mbind_ at 1, gets at 1, mbind_ at 1, modify at 1. rewrite Hc, Z.ltb_irrefl.
  unfold quietly, try_, mbind_ at 1, gets, mbind_ at 1, of_res. simpl. rewrite Hl, Hst. simpl.
  unfold mbind_.
  match goal with |- context[fail_run ?l ?er ?k ?t] =>
    destruct (fail_run_spec l er k t P) as (s' & Hs' & HP' & _); [exact Hk|exact Hs|exact HP|rewrite Hs'] end.
  unfold clear_resolution_failure, modify. simpl. eexists; split_and!; [done|done|apply lookup_delete_eq].
Qed.

Fixpoint ticks (n : nat) (rid : string) (s : R) : R :=
  match n with O => s | S n => ticks n rid (exec (tick_run cfg rid) s) end.

Lemma ticks_below n rid e (s : R) k :
  failing rid e (world s) -> default 0 (failures s !! rid) = k -> k + Z.of_nat n < resolution_limit cfg ->
  ticks n rid s = (if (n =? 0)%nat then s else put_failures (<[rid := k + Z.of_nat n]> (failures s)) s).
Proof.
  intros Hf. revert s k Hf. induction n as [|n IH]; intros s k Hf Hk Hlt; [done|]. simpl ticks.
  unfold exec. rewrite (tick_failing _ e) by done. rewrite note_below by lia. simpl snd.
  rewrite (IH _ (k + 1)); [|done|simpl; rewrite lookup_insert_eq, Hk; done|lia].
  replace (k + 1 + Z.of_nat n) with (k + Z.of_nat (S n)) by lia.
  destruct n as [|n]; [by rewrite Hk|]. simpl failures. by rewrite insert_insert_eq.
Qed.

(** a run whose workflow cannot be resolved is neither failed early nor
    left spinning: over consecutive failed attempts on a RUNNING run, the world
    does not change before the limit, and the attempt that reaches it saves the
    run as FAILED with the resolution error and clears the count (the calls
    that follow the save may fail; they keep what they keep). *)
Theorem resolution_failure_promotes (rid : string) (e : exn) (latest : run) (s : R) (n : nat) (P : W -> Prop) :
  failing rid e (world s) -> failures s !! rid = None ->
  load rid (world s) = Ok (Some latest) -> status latest = RUNNING ->
  let failed := set_updated_at (utc_now_iso (now s))
                  (set_failed (resolution_error e (resolution_limit cfg)) latest) in
  keeps_after_save rid P -> fst (save failed (world s)) = Ok tt -> P (snd (save failed (world s))) ->
  (Z.of_nat n < resolution_limit cfg -> world (ticks n rid s) = world s) /\
  (Z.of_nat n = resolution_limit cfg -> P (world (ticks n rid s)) /\ failures (ticks n rid s) !! rid = None /\
     status failed = FAILED /\ error failed = Some (resolution_error e (resolution_limit cfg))).
Proof.
  intros Hf Hn Hl Hst failed Hk Hs HP.
  assert (1 <= resolution_limit cfg) by (unfold resolution_limit; lia). split.
  - intros Hlt. rewrite (ticks_below n rid e s 0); [by destruct n|done|by rewrite Hn|lia].
  - intros He. assert (n = S (n - 1))%nat as Hn1 by lia.
    assert (forall m s, ticks (S m) rid s = exec (tick_run cfg rid) (ticks m rid s)) as Hsnoc.
    { induction m as [|m IHm]; intros t; [done|]. simpl in *. by rewrite <- IHm. }
    rewrite Hn1, Hsnoc, (ticks_below _ rid e s 0); [|done|by rewrite Hn|lia].
    match goal with |- context[exec _ ?t] => set (s0 := t) end.
    assert (world s0 = world s /\ now s0 = now s /\ default 0 (failures s0 !! rid) + 1 = resolution_limit cfg)
      as (Hw0 & Hn0 & Hc0).
    { subst s0. destruct (n - 1)%nat as [|m] eqn:Em; simpl.
      - rewrite Hn. simpl. split_and!; [done|done|]. lia.
      - rewrite lookup_insert_eq. simpl. split_and!; [done|done|]. lia. }
    unfold exec. rewrite (tick_failing _ e) by by rewrite Hw0.
    destruct (note_at_limit rid e latest s0 P Hc0) as (s' & -> & HP' & Hd);
      rewrite ?Hw0, ?Hn0; try done; by split_and!.
Qed.

(** C40: a tick that raises never leaves its run RUNNING: when the runtime's
    tick raises anything but the deliberate interruption and the stored run is
    still RUNNING, the run is saved as FAILED with the exception's text before
    anything else; an [EffectInterrupted] changes nothing (the run stays
    RUNNING and continues at the next start); and no exception of the runtime
    leaves [_tick_run] unless the stream pointer itself raises. *)
Theorem tick_exception_fails_the_run (rid : string) (h : handle) (e : exn) (s : R) (w1 w2 : W) :
  inline_run_active rid (world s) = false -> resolve rid (world s) = (Ok h, w1) ->
  rt_tick h rid (tick_steps cfg) w1 = (Raise e, w2) ->
  (e = EffectInterrupted ->
     tick_run cfg rid s = (Ok tt, put_world w2 (put_failures (delete rid (failures s)) (put_world w1 s)))) /\
  (forall latest (P : W -> Prop), e <> EffectInterrupted ->
     load rid w2 = Ok (Some latest) -> status latest = RUNNING ->
     let failed := set_updated_at (utc_now_iso (now s)) (set_failed (exn_text e) latest) in
     keeps_after_save rid P -> fst (save failed w2) = Ok tt -> P (snd (save failed w2)) ->
     exists s', promote_after_exception rid e
       (put_world w2 (put_failures (delete rid (failures s)) (put_world w1 s))) = (Ok (Some failed), s') /\
       P (world s') /\ status failed = FAILED /\ tick_run cfg rid s = after_tick rid failed s').
Proof.
  intros Hi Hr Ht.
  assert (tick_run cfg rid s =
    match e with
    | EffectInterrupted => (Ok tt, put_world w2 (put_failures (delete rid (failures s)) (put_world w1 s)))
    | _ => (found <- promote_after_exception rid e ;;
            match found with Some state => after_tick rid state | None => ret tt end)
           (put_world w2 (put_failures (delete rid (failures s)) (put_world w1 s)))
    end) as E.
  { unfold tick_run. rewrite Hi. unfold on_world at 1. rewrite Hr. unfold mbind_ at 1, clear_resolution_failure, modify.
    unfold on_world. simpl. rewrite Ht. by destruct e. }
  split; [by intros ->|]. intros latest P Hne Hl Hst failed Hk Hs HP.
  set (t := put_world w2 (put_failures (delete rid (failures s)) (put_world w1 s))) in *.
  assert (exists s', promote_after_exception rid e t = (Ok (Some failed), s') /\ P (world s')) as (s' & Hp & HP').
  { unfold promote_after_exception, try_, mbind_ at 1, gets, mbind_ at 1, of_res. simpl. rewrite Hl, Hst. simpl.
    unfold mbind_. match goal with |- context[fail_run ?l ?er ?k ?t] =>
      destruct (fail_run_spec l er k t P) as (s' & Hs' & HP' & _); [exact Hk|exact Hs|exact HP|rewrite Hs'] end.
    eexists; by split. }
  exists s'. split_and!; [done..|]. rewrite E.
  trans ((found <- promote_after_exception rid e ;;
            match found with Some state => after_tick rid state | None => ret tt end) t); [by destruct e|].
  unfold mbind_. by rewrite Hp.
Qed.
End ExecProofs.

(** ** Witnesses *)

Definition lost_run : mem := mk_mem [sample_run "a" RUNNING None None] [] [] {["a"]} None.
Definition run_failed (err : string) (m : mem) : Prop :=
  exists r, mem_find "a" (m_runs m) = Some r /\ status r = FAILED /\ error r = Some err.

Lemma run_failed_kept err : keeps_after_save (H := mem_host) "a" (run_failed err).
Proof. split; intros; done. Qed.

(** Forty failed attempts at the default limit. *)
Lemma resolution_failure_promotes_witness :
  world (ticks default_config 39 "a" (init_rstate lost_run 0)) = lost_run /\
  run_failed (resolution_error (KeyError "a") 40) (world (ticks default_config 40 "a" (init_rstate lost_run 0))).
Proof.
  pose proof (resolution_failure_promotes default_config "a" (KeyError "a") (sample_run "a" RUNNING None None)
    (init_rstate lost_run 0) 39 (run_failed (resolution_error (KeyError "a") 40))) as H39.
  pose proof (resolution_failure_promotes default_config "a" (KeyError "a") (sample_run "a" RUNNING None None)
    (init_rstate lost_run 0) 40 (run_failed (resolution_error (KeyError "a") 40))) as H40.
  assert (failing "a" (KeyError "a") lost_run) as Hf by (split; [done|vm_compute; done]).
  split.
  - refine (proj1 (H39 Hf _ _ _ (run_failed_kept _) _ _) _); try done.
    eexists; split_and!; [vm_compute; reflexivity|vm_compute; reflexivity|vm_compute; reflexivity].
  - refine (proj1 (proj2 (H40 Hf _ _ _ (run_failed_kept _) _ _) _)); try done.
    eexists; split_and!; [vm_compute; reflexivity|vm_compute; reflexivity|vm_compute; reflexivity].
Defined.

Definition broken_tick (e : exn) : mem := mk_mem [sample_run "a" RUNNING None None] [] [] ∅ (Some e).
Lemma tick_exception_fails_the_run_witness :
  (exists s', promote_after_exception "a" (ValueError "boom") (init_rstate (broken_tick (ValueError "boom")) 0) =
     (Ok (Some (set_updated_at (isoformat 0) (set_failed "ValueError: boom" (sample_run "a" RUNNING None None)))), s') /\
     run_failed "ValueError: boom" (world s')) /\
  world (snd (tick_run default_config "a" (init_rstate (broken_tick EffectInterrupted) 0))) = broken_tick EffectInterrupted.
Proof.
  split.
  - destruct (proj2 (tick_exception_fails_the_run (H := mem_host) default_config "a" "a" (ValueError "boom")
      (init_rstate (broken_tick (ValueError "boom")) 0) _ _ eq_refl eq_refl eq_refl)
      (sample_run "a" RUNNING None None) (run_failed "ValueError: boom")) as (s' & Hs & HP & _);
      [done|done|done|apply run_failed_kept|done| |].
    + eexists; split_and!; [vm_compute; reflexivity..].
    + exists s'. split; [exact Hs|done].
  - rewrite (proj1 (tick_exception_fails_the_run (H := mem_host) default_config "a" "a" EffectInterrupted
      (init_rstate (broken_tick EffectInterrupted) 0) _ _ eq_refl eq_refl eq_refl)); done.
Defined.
