(* ===== verification/RunnerEvents.v ===== *)
(** * External events

    [runner.py]: [emit_event], the delivery of an event to the runs that wait
    for it ([_apply_emit_event]) and the durable append to the mailboxes
    ([_deliver_durable_event]). *)

From S2P Require Import Prelude PyStr PyVal PyNum IsoTime RunStore MemoryHost RunnerState.

Definition events_inbox_cap : Z := 500.

(** [{"resumed": n, "appended": m}]. *)
Record receivers := mk_receivers { resumed : Z; appended : Z }.

(** [str(x) if isinstance(x, str) and x else None]. *)
Definition str_opt (v : val) : option string :=
  match v with VStr s => if String.eqb s "" then None else Some s | _ => None end.

(** [_declares_mailbox]. *)
Definition declares_mailbox (name : string) (vars_obj : val) : bool :=
  match vars_obj with
  | VDict v =>
      match get_ "events_mailbox" v with
      | VStr s => String.eqb (strip s) name
      | VList l => existsb (fun m => match m with VStr s => String.eqb (strip s) name | _ => false end) l
      | _ => false
      end
  | _ => false
  end.

Definition same_event (event_id : string) (e : val) : bool :=
  match e with VDict d => String.eqb (str_or (get_ "event_id" d) "") event_id | _ => false end.

(** The append of one envelope to the vars of one run: [None] when the inbox
    already holds the event. *)
Definition inbox_append (envelope v : dict) : option dict :=
  let event_id := strip (str_or (get_ "event_id" envelope) "") in
  let '(inbox, v) := match get_ "events_inbox" v with
                     | VList l => (l, v)
                     | _ => ([], dset "events_inbox" (VList []) v)
                     end in
  if negb (String.eqb event_id "") && existsb (same_event event_id) inbox then None
  else
    let seq := match py_int (py_or (get_ "events_inbox_seq" v) (VInt 0)) with Some n => n + 1 | None => 1 end in
    let v := dset "events_inbox_seq" (VInt seq) v in
    let inbox := inbox ++ [VDict (dset "seq" (VInt seq) envelope)] in
    let overflow := Z.of_nat (length inbox) - events_inbox_cap in
    if 0 <? overflow then
      let v := dset "events_inbox" (VList (drop (Z.to_nat overflow) inbox)) v in
      let dropped := match py_int (py_or (get_ "events_inbox_dropped" v) (VInt 0)) with
                     | Some d => d + overflow | None => overflow end in
      Some (dset "events_inbox_dropped" (VInt dropped) v)
    else Some (dset "events_inbox" (VList inbox) v).

Section Events.
Context {W : Type} `{H : HostOps W}.
Abbreviation R := (rstate W).

(** The runs [_deliver_durable_event] considers; [None] when the store has no
    listing at all. *)
Definition mailbox_candidates (name : string) (w : W) : option (res (list run)) :=
  match list_mailbox_runs with
  | Some f => Some (f name w)
  | None =>
      match list_runs with
      | None => None
      | Some f =>
          let scan st := match f st None 1000000 w with Ok l => l | Raise _ => [] end in
          Some (Ok (scan RUNNING ++ scan WAITING))
      end
  end.

(** One candidate: the set of the ids already seen and the count. *)
Definition deliver_one (t : Z) (name : string) (envelope : dict) (acc : gset string * Z) (r : run)
  : M W (gset string * Z) :=
  let '(seen, n) := acc in
  let rid := run_id r in
  if String.eqb rid "" || bool_decide (rid ∈ seen) then ret (seen, n)
  else
    let seen := {[rid]} ∪ seen in
    if negb (declares_mailbox name (vars r)) then ret (seen, n)
    else
      w <- get ;;
      found <- of_res (load rid w) ;;
      match found with
      | Some fresh =>
          match vars fresh with
          | VDict v =>
              if negb (declares_mailbox name (VDict v)) then ret (seen, n)
              else match inbox_append envelope v with
                   | None => ret (seen, n + 1)
                   | Some v => save (set_updated_at (utc_now_iso t) (set_vars (VDict v) fresh)) ;;; ret (seen, n + 1)
                   end
          | _ => ret (seen, n)
          end
      | None => ret (seen, n)
      end.

(** [_deliver_durable_event]. *)
Definition deliver_durable_event (t : Z) (name : string) (envelope : dict) : M W Z :=
  w <- get ;;
  match mailbox_candidates name w with
  | None => ret 0
  | Some answer =>
      candidates <- of_res answer ;;
      acc <- fold_ candidates (∅, 0) (deliver_one t name envelope) ;;
      ret (snd acc)
  end.

(** One candidate listener of the event. *)
Definition emit_one (key : string) (envelope : dict) (n : Z) (r : run) : M W Z :=
  match waiting r with
  | None => ret n
  | Some wt =>
      if negb (bool_decide (w_key wt = Some key)) then ret n
      else if is_pause_wait (waiting r) (run_id r) then ret n
      else if is_paused_vars (vars r) then ret n
      else try_ (h <- resolve (run_id r) ;; rt_resume h (run_id r) (Some key) envelope ;;; ret (n + 1))
             (fun _ => ret n)
  end.

(** The candidate listeners. *)
Definition event_waiters (key : string) (w : W) : option (res (list run)) :=
  match list_runs with
  | None => None
  | Some scan =>
      let fallback := scan WAITING (Some EVENT) 10000 w in
      Some match list_event_waiters with
           | None => fallback
           | Some f =>
               match f key 10000 w with
               | Raise (NotImplementedError _ | AttributeError _ | TypeError _) => fallback
               | answer => answer
               end
           end
  end.

(** [payload.get("durable") is True or str(...) in {"1", "true", "yes"}]. *)
Definition is_durable (payload : dict) : bool :=
  match get_ "durable" payload with
  | VBool true => true
  | v => let s := lower (strip (str_or v "")) in String.eqb s "1" || String.eqb s "true" || String.eqb s "yes"
  end.

Definition event_scope (v : val) : string :=
  let s := lower (strip (str_or v "session")) in if String.eqb s "" then "session" else s.
Definition either (a b : string) (payload : dict) : val := py_or (get_ a payload) (get_ b payload).

Definition event_envelope (payload : dict) (name : string) (session client_id : val) : dict :=
  [ ("event_id", either "event_id" "eventId" payload);
    ("name", VStr name);
    ("scope", VStr (event_scope (get_ "scope" payload)));
    ("session_id", session);
    ("payload", match get_ "payload" payload with VDict d => VDict d | v => VDict [("value", v)] end);
    ("emitted_at", either "emitted_at" "emittedAt" payload);
    ("emitter", VDict [("source", VStr "external"); ("client_id", client_id)]) ].

(** [_apply_emit_event]. *)
Definition apply_emit_event (t : Z) (payload : dict) (default_session client_id : val) : M W receivers :=
  let name := strip (str_or (get_ "name" payload) "") in
  if String.eqb name "" then raise (ValueError "emit_event requires payload.name") else
  let session := py_or (either "session_id" "sessionId" payload) default_session in
  key <- of_res (event_wait_key (event_scope (get_ "scope" payload)) name (str_opt session)
           (str_opt (either "workflow_id" "workflowId" payload)) (str_opt (either "run_id" "runId" payload))) ;;
  let envelope := event_envelope payload name session client_id in
  w <- get ;;
  match event_waiters key w with
  | None => ret (mk_receivers 0 0)
  | Some answer =>
      listeners <- of_res answer ;;
      n <- fold_ listeners 0 (emit_one key envelope) ;;
      if is_durable payload
      then m <- deliver_durable_event t name envelope ;; ret (mk_receivers n m)
      else ret (mk_receivers n 0)
  end.

(** [emit_event]. *)
Definition opt_field (k : string) (v : option string) : dict :=
  match v with
  | Some s => if String.eqb (strip s) "" then [] else [(k, VStr (strip s))]
  | None => []
  end.
Definition emit_event (t : Z) (name session_id scope : string) (payload : val)
    (workflow_id run_id event_id emitted_at : option string) (client_id : val) (durable : bool) : M W receivers :=
  let name := strip name in
  if String.eqb name "" then raise (ValueError "name is required") else
  let sid := strip session_id in
  if String.eqb sid "" then raise (ValueError "session_id is required") else
  let body := [ ("name", VStr name); ("scope", VStr (event_scope (VStr scope)));
                ("session_id", VStr sid); ("payload", payload) ] ++
              (if durable then [("durable", VBool true)] else []) ++
              opt_field "workflow_id" workflow_id ++ opt_field "run_id" run_id ++
              opt_field "event_id" event_id ++ opt_field "emitted_at" emitted_at in
  apply_emit_event t body (VStr sid) client_id.
End Events.

(** ** The mailbox of one run *)

(** A well-formed mailbox: at most 500 entries, numbered consecutively up to the
    sequence counter, the entries before them all counted as dropped. *)
Definition mailbox (v : dict) (l : list val) (n d : Z) : Prop :=
  get_ "events_inbox" v = VList l /\ get_ "events_inbox_seq" v = VInt n /\
  get_ "events_inbox_dropped" v = (if d =? 0 then VNone else VInt d) /\
  Z.of_nat (length l) <= events_inbox_cap /\ 0 <= d /\ n = d + Z.of_nat (length l) /\
  forall i e, l !! i = Some e -> exists f, e = VDict f /\ dget "seq" f = Some (VInt (d + Z.of_nat i + 1)).

Lemma seq_read n : 0 <= n -> py_int (py_or (VInt n) (VInt 0)) = Some n.
Proof. intros. unfold py_or. simpl. destruct (Z.eqb_spec n 0) as [->|]; done. Qed.
Lemma dropped_read d : py_int (py_or (if d =? 0 then VNone else VInt d) (VInt 0)) = Some d.
Proof. unfold py_or. destruct (Z.eqb_spec d 0) as [->|]; [done|]. simpl. by destruct (Z.eqb_spec d 0). Qed.

(** a durable delivery to a well-formed mailbox is exactly one of: nothing,
    when the inbox holds an entry with the event's id; or one entry appended with
    the next sequence number, the oldest dropped and counted once the inbox is
    over 500. Either way the mailbox stays well-formed (numbers without a gap,
    [dropped + entries = seq], at most 500 entries), so no entry is lost
    uncounted and a reader that keeps the last number it read misses nothing that
    is still there; and the same event sent again is not appended twice. *)
Theorem durable_delivery (envelope v : dict) (l : list val) (n d : Z) :
  let event_id := str_or (get_ "event_id" envelope) "" in
  let entry := VDict (dset "seq" (VInt (n + 1)) envelope) in
  mailbox v l n d ->
  (strip event_id <> "" -> existsb (same_event (strip event_id)) l = true -> inbox_append envelope v = None) /\
  (strip event_id = "" \/ existsb (same_event (strip event_id)) l = false ->
   exists v', inbox_append envelope v = Some v' /\
     (if (Z.of_nat (length l) <? events_inbox_cap)
      then mailbox v' (l ++ [entry]) (n + 1) d
      else mailbox v' (tail l ++ [entry]) (n + 1) (d + 1)) /\
     (event_id <> "" -> strip event_id = event_id -> inbox_append envelope v' = None)).
Proof.
  intros event_id entry (Hl & Hn & Hd & Hcap & Hd0 & Hnd & Hseq). unfold inbox_append. fold event_id. rewrite Hl. split.
  { intros Hne ->. destruct (String.eqb_spec (strip event_id) ""); done. }
  intros Hnew. assert (negb (String.eqb (strip event_id) "") && existsb (same_event (strip event_id)) l = false) as ->.
  { destruct Hnew as [-> | ->]; [done|apply andb_false_r]. }
  rewrite Hn, seq_read by lia.
  assert (forall l', existsb (same_event event_id) (l' ++ [entry]) = true) as Hdup.
  { intros l'. rewrite existsb_app. simpl. subst entry. simpl.
    rewrite get_dset_ne by done. fold event_id. rewrite String.eqb_refl. by rewrite orb_true_r. }
  assert (dget "seq" (dset "seq" (VInt (n + 1)) envelope) = Some (VInt (n + 1))) as Hs by apply dget_dset_eq.
  fold entry. assert (Z.of_nat (length (l ++ [entry])) = Z.of_nat (length l) + 1) as -> by (rewrite length_app; simpl; lia).
  unfold events_inbox_cap in *.
  destruct (Z.ltb_spec (Z.of_nat (length l)) 500) as [Hlt|Hge].
  - destruct (Z.ltb_spec 0 (Z.of_nat (length l) + 1 - 500)); [lia|]. eexists. split; [done|]. split.
    + unfold mailbox. dict_simp. rewrite Hd. split_and!; try done.
      * rewrite length_app. simpl. unfold events_inbox_cap. lia.
      * rewrite length_app. simpl. lia.
      * intros i e Hi. apply lookup_app_Some in Hi as [Hi|[Hle Hi]]; [by apply Hseq|].
        apply list_lookup_singleton_Some in Hi as [Hi <-]. eexists. split; [done|]. rewrite Hs. do 2 f_equal. lia.
    + intros Hne Hst. dict_simp. rewrite Hst. destruct (String.eqb_spec event_id ""); [done|]. by rewrite Hdup.
  - destruct (Z.ltb_spec 0 (Z.of_nat (length l) + 1 - 500)); [|lia].
    assert (length l = 500%nat) as Hlen by lia. rewrite Hlen. replace (Z.to_nat _) with 1%nat by lia.
    destruct l as [|e0 l]; [done|]. simpl drop. simpl tail.
    dict_simp. rewrite Hd, dropped_read. eexists. split; [done|]. split.
    + unfold mailbox. dict_simp. simpl in Hlen. split_and!.
      * done.
      * done.
      * destruct (Z.eqb_spec (d + 1) 0); [lia|]. done.
      * rewrite length_app. simpl. unfold events_inbox_cap. lia.
      * lia.
      * rewrite length_app. simpl in *. lia.
      * intros i e Hi. apply lookup_app_Some in Hi as [Hi|[Hle Hi]].
        -- destruct (Hseq (S i) e Hi) as (f & -> & Hf). exists f. split; [done|]. rewrite Hf. do 2 f_equal. lia.
        -- apply list_lookup_singleton_Some in Hi as [Hi <-]. eexists. split; [done|]. rewrite Hs. do 2 f_equal. simpl in *. lia.
    + intros Hne Hst. dict_simp. rewrite Hst. destruct (String.eqb_spec event_id ""); [done|]. rewrite drop_0. by rewrite Hdup.
Qed.

(** ** Isolation *)

Section Isolation.
Context {W : Type} `{H : HostOps W}.

(** A listener step never raises, and counts one at most. *)
Lemma emit_one_ok key envelope n r (w : W) :
  exists m w', emit_one key envelope n r w = (Ok m, w') /\ n <= m <= n + 1.
Proof.
  unfold emit_one. destruct (waiting r) as [wt|]; [|exists n, w; split; [done|lia]].
  destruct (negb _); [exists n, w; split; [done|lia]|].
  destruct (is_pause_wait _ _); [exists n, w; split; [done|lia]|].
  destruct (is_paused_vars _); [exists n, w; split; [done|lia]|].
  unfold try_, mbind_. destruct (resolve (run_id r) w) as [[h|] w1]; [|exists n, w1; split; [done|lia]].
  destruct (rt_resume _ _ _ _ w1) as [[u|] w2]; [exists (n + 1)|exists n]; exists w2; (split; [done|lia]).
Qed.

Lemma emit_loop_ok key envelope l n (w : W) :
  exists m w', fold_ l n (emit_one key envelope) w = (Ok m, w') /\ n <= m <= n + Z.of_nat (length l).
Proof.
  revert n w. induction l as [|r l IH]; intros n w; simpl; [exists n, w; split; [done|lia]|].
  unfold mbind_. destruct (emit_one_ok key envelope n r w) as (m & w' & -> & ?).
  destruct (IH m w') as (m' & w'' & -> & ?). exists m', w''. split; [done|lia].
Qed.

(** no listener can make a durable event disappear: once the candidate
    listeners are listed, whatever each of them does (unresolvable workflow, a
    resume that raises, a paused run), the delivery reaches the durable append
    and answers its outcome, with a count of resumed runs between zero and the
    number of candidates; and a paused run, or one parked by a pause, is never
    resumed by the event. *)
Theorem emit_event_isolation (t : Z) (payload : dict) (session client_id : val) (w : W)
    (key : string) (listeners : list run) :
  let name := strip (str_or (get_ "name" payload) "") in
  let session' := py_or (either "session_id" "sessionId" payload) session in
  let envelope := event_envelope payload name session' client_id in
  name <> "" ->
  event_wait_key (event_scope (get_ "scope" payload)) name (str_opt session')
    (str_opt (either "workflow_id" "workflowId" payload)) (str_opt (either "run_id" "runId" payload)) = Ok key ->
  event_waiters key w = Some (Ok listeners) -> is_durable payload = true ->
  (exists n w', 0 <= n <= Z.of_nat (length listeners) /\
     apply_emit_event t payload session client_id w =
     match deliver_durable_event t name envelope w' with
     | (Ok m, w'') => (Ok (mk_receivers n m), w'')
     | (Raise e, w'') => (Raise e, w'')
     end) /\
  (forall r n w, is_paused_vars (vars r) = true \/ is_pause_wait (waiting r) (run_id r) = true ->
     emit_one key envelope n r w = (Ok n, w)).
Proof.
  intros name session' envelope Hn Hk Hl Hd. split.
  - unfold apply_emit_event. fold name session' envelope. destruct (String.eqb_spec name ""); [done|].
    unfold mbind_ at 1, of_res. rewrite Hk. unfold mbind_ at 1, get. rewrite Hl. unfold mbind_.
    destruct (emit_loop_ok key envelope listeners 0 w) as (k & w' & -> & Hb). rewrite Hd.
    exists k, w'. split; [lia|]. by destruct (deliver_durable_event t name envelope w') as [[|] ?].
  - intros r m w' Hp. unfold emit_one. destruct (waiting r) as [wt|] eqn:Ew; [|done].
    destruct (negb _); [done|]. destruct (is_pause_wait (Some wt) (run_id r)); [done|].
    destruct Hp as [-> | ?]; done.
Qed.
End Isolation.

(** ** Witnesses *)

Definition empty_box : dict := [("events_inbox", VList []); ("events_inbox_seq", VInt 0)].
Definition one_event : dict := [("event_id", VStr "e1"); ("name", VStr "mail")].
Lemma durable_delivery_witness :
  exists v', inbox_append one_event empty_box = Some v' /\
    mailbox v' [VDict (dset "seq" (VInt 1) one_event)] 1 0 /\ inbox_append one_event v' = None.
Proof.
  destruct (proj2 (durable_delivery one_event empty_box [] 0 0
    ltac:(split_and!; try done; intros i e Hi; by rewrite lookup_nil in Hi)) (or_intror eq_refl)) as (v' & Hv & Hm & Hi).
  exists v'. split_and!; [exact Hv|exact Hm|apply Hi; done].
Defined.

Definition listener (i : string) (paused : bool) : run :=
  set_vars (VDict ([("events_mailbox", VStr "mail")] ++
      if paused then [("_runtime", VDict [("control", VDict [("paused", VBool true)])])] else []))
    (sample_run i WAITING (Some (mk_wait EVENT (Some "evt:session:s1:mail") None VNone)) None).
Definition mail_payload : dict :=
  [("name", VStr "mail"); ("session_id", VStr "s1"); ("durable", VBool true); ("event_id", VStr "e1")].
(** One listener resumes, a paused one and an unresolvable one do not; all three
    mailboxes receive the event. *)
Definition mail_world : mem :=
  mk_mem [listener "a" false; listener "p" true; listener "u" false] [] [] {["u"]} None.
Lemma emit_event_isolation_witness :
  fst (apply_emit_event 0 mail_payload VNone VNone mail_world) = Ok (mk_receivers 1 3) /\
  emit_one "evt:session:s1:mail" (event_envelope mail_payload "mail" (VStr "s1") VNone) 0 (listener "p" true) mail_world =
    (Ok 0, mail_world).
Proof.
  split; [vm_compute; reflexivity|].
  refine (proj2 (emit_event_isolation 0 mail_payload VNone VNone mail_world "evt:session:s1:mail"
    [listener "a" false; listener "p" true; listener "u" false] _ eq_refl eq_refl eq_refl) _ _ _ _); [done|by left].
Defined.
