(* ===== verification/RunnerCommands.v ===== *)
(** * Commands

    [runner.py]: the poll of the durable command inbox ([_poll_commands]), the
    dispatch of one command ([_apply_command]) and the handlers of its types. The
    handlers act on the world only; the sets of the runner are changed by the
    dispatch. Durations are in microseconds; the amount of an interval is read
    as an exact decimal. *)

From S2P Require Import Prelude PyStr PyVal PyNum IsoTime RunStore MemoryHost RunnerState RunnerEvents.

(** ** Command types ([automation_command_types.py]) *)

Definition LEGACY_COMMAND_TYPES : list string :=
  ["pause"; "resume"; "cancel"; "conclude"; "emit_event"; "update_schedule"; "compact_memory"; "inject_guidance"].
Definition AUTOMATION_COMMAND_TYPES : list string :=
  ["automation.revise"; "automation.pause"; "automation.resume"; "automation.run_now";
   "automation.stop_current"; "automation.archive"; "automation.unarchive"].
Definition COMMAND_TYPES : list string := LEGACY_COMMAND_TYPES ++ AUTOMATION_COMMAND_TYPES.
Definition is_automation_command_type (value : string) : bool := bool_decide (value ∈ AUTOMATION_COMMAND_TYPES).
(** The types whose run id names a run to tick first. *)
Definition PRIORITY_TYPES : list string := ["resume"; "cancel"; "inject_guidance"; "conclude"; "update_schedule"].

(** [CommandRecord]. *)
Record command := mk_command {
  command_id : string;
  c_seq : Z;
  c_type : string;
  c_run_id : string;
  c_payload : dict;
  client_id : val;
}.

(** What the command handlers ask of the runtime, of the stores and of the host. *)
Class CommandOps (W : Type) `{HostOps W} := {
  (** [CommandStore.list_after]: the records and the next cursor. *)
  list_after : Z -> Z -> W -> res (list command * Z);
  (** [CommandCursorStore.save]. *)
  save_cursor : Z -> M W unit;
  (** Whether the runtime has the durable steer sidecar. *)
  steer_sidecar : bool;
  (** [Runtime.steer]: the run, the message, the keyword arguments. *)
  steer : string -> val -> dict -> M W unit;
  apply_automation : handle -> command -> dict -> val -> option string -> M W dict;
  record_automation_result : command -> string -> M W unit;
  stream_wake_cancelled : string -> M W unit;
  resolve_covered_waits : string -> val -> M W unit;
  command_listeners : list (string -> string -> M W unit);
  plane_owner_user : option string;
  load_dynamic_visualflow : option (string -> W -> res (option dict));
  upsert_dynamic_visualflow : option (dict -> M W unit);
  arm_kill_switch : string -> list string -> M W unit;
  has_user_stream : bool;
  (** [_apply_compact_memory], not modelled. *)
  apply_compact_memory : dict -> string -> string -> M W unit;
}.

(** ** Intervals *)

Definition unit_us (u : string) : option Z :=
  if String.eqb u "ms" then Some 1000 else if String.eqb u "s" then Some second
  else if String.eqb u "m" then Some minute else if String.eqb u "h" then Some hour
  else if String.eqb u "d" then Some day else None.

(** The longest run of digits, and the rest. *)
Fixpoint span_digits (s : string) : string * string :=
  match s with
  | c ::s s' => if is_digit c then let '(d, r) := span_digits s' in (c ::s d, r) else ("", s)
  | "" => ("", "")
  end.

(** [_parse_interval_seconds]: the amount as (mantissa, number of decimals) and
    the unit in microseconds. *)
Definition parse_interval (raw : string) : option (Z * Z * Z) :=
  let '(whole, rest) := span_digits (strip raw) in
  match digits_val whole with
  | None => None
  | Some w =>
      let amount :=
        match rest with
        | "."%char ::s r =>
            let '(frac, rest) := span_digits r in
            match digits_val (whole +:+ frac) with
            | Some m => if String.eqb frac "" then None else Some (m, len frac, rest)
            | None => None
            end
        | _ => Some (w, 0, rest)
        end in
      match amount with
      | Some (m, decimals, rest) =>
          match unit_us (lower (lstrip rest)) with
          | Some u => Some (m, decimals, u)
          | None => None
          end
      | None => None
      end
  end.
(** The duration rounded to the microsecond, half to even as [timedelta]. *)
Definition round_half_even (n d : Z) : Z :=
  let q := n / d in let r := n mod d in
  if 2 * r <? d then q else if d <? 2 * r then q + 1 else if Z.even q then q else q + 1.
Definition interval_us (i : Z * Z * Z) : Z := let '(m, decimals, u) := i in round_half_even (m * u) (10 ^ decimals).

(** [_mutate_schedule_interval_in_visualflow]: the flow and whether it changed. *)
Definition is_wait_interval (n : val) : bool :=
  match n with VDict d => String.eqb (str_or (get_ "id" d) "") "wait_interval" | _ => false end.
Definition set_node_schedule (interval : string) (n : val) : val :=
  match n with
  | VDict d =>
      let data := dict_or_empty (get_ "data" d) in
      let cfg := dict_or_empty (get_ "eventConfig" data) in
      VDict (dset "data" (VDict (dset "eventConfig" (VDict (dset "schedule" (VStr interval) cfg)) data)) d)
  | v => v
  end.
Definition mutate_schedule_interval (raw : dict) (interval : string) : dict * bool :=
  match get_ "nodes" raw with
  | VList nodes =>
      if existsb is_wait_interval nodes
      then (dset "nodes" (VList (map (fun n => if is_wait_interval n then set_node_schedule interval n else n) nodes)) raw, true)
      else (raw, false)
  | _ => (raw, false)
  end.

Section Commands.
Context {W : Type} `{H : HostOps W} `{C : !CommandOps W}.
Context (cfg : config) (fuel : nat).
Abbreviation R := (rstate W).

(** [_list_descendant_run_ids] as a call; the fuel stands for the walk's end. *)
Definition descendants (root : string) : M W (list string) := fun w =>
  match list_descendant_run_ids fuel w root with
  | Some l => (Ok l, w)
  | None => (Raise (OtherError "the walk does not end"), w)
  end.
Definition scheduled_root (r : run) : M W (option run) := fun w =>
  match find_scheduled_root fuel w r with
  | Some a => (a, w)
  | None => (Raise (OtherError "the walk does not end"), w)
  end.

(** A run that can be steered: live, with a [_runtime] namespace. *)
Definition steerable (r : run) : bool :=
  negb (is_terminal (status r)) &&
  match vars r with VDict v => is_dict (get_ "_runtime" v) | _ => false end.

(** The loop of [_apply_inject_guidance] and of [_apply_conclude]: (applied,
    found, refusals). *)
Definition steer_loop (send : string -> M W unit) (targets : list string) : M W (Z * bool * list string) :=
  fold_ targets (0, false, []) (fun '(applied, found, refusals) rid =>
    w <- get ;;
    loaded <- of_res (load rid w) ;;
    match loaded with
    | Some r =>
        if negb (steerable r) then ret (applied, found, refusals)
        else fun w =>
          match send rid w with
          | (Ok _, w) => (Ok (applied + 1, true, refusals), w)
          | (Raise (PermissionError m), w) => (Ok (applied, true, refusals ++ [m]), w)
          | (Raise (ValueError _ | StaleResumeError _), w) => (Ok (applied, true, refusals), w)
          | (Raise e, w) => (Raise e, w)
          end
    | None => ret (applied, found, refusals)
    end).
Definition steer_outcome (missing : string) (o : Z * bool * list string) : M W unit :=
  let '(applied, found, refusals) := o in
  if negb (bool_decide (refusals = [])) && (applied =? 0) then raise (PermissionError (join "; " refusals))
  else if (applied =? 0) && negb found then raise (KeyError missing)
  else ret tt.

(** [_apply_inject_guidance_legacy]. *)
Definition append_inbox (guidance : string) (v : dict) : dict :=
  let ns := dict_or_empty (get_ "_runtime" v) in
  let inbox := default [] (as_list (get_ "inbox" ns)) in
  dset "_runtime" (VDict (dset "inbox" (VList (inbox ++
    [VDict [("role", VStr "system"); ("content", VStr guidance)]])) ns)) v.
Definition apply_inject_guidance_legacy (guidance : string) (targets : list string) (rid : string) : M W unit :=
  o <- fold_ targets (0, false) (fun '(applied, found) i =>
    w <- get ;;
    loaded <- of_res (load i w) ;;
    match loaded with
    | Some r =>
        if negb (steerable r) then ret (applied, found)
        else
          w <- get ;;
          latest <- of_res (load i w) ;;
          match latest with
          | Some q =>
              if is_terminal (status q) then ret (applied, true)
              else save (set_vars (VDict (append_inbox guidance (dict_or_empty (vars r)))) r) ;;; ret (applied + 1, true)
          | None => save (set_vars (VDict (append_inbox guidance (dict_or_empty (vars r)))) r) ;;; ret (applied + 1, true)
          end
    | None => ret (applied, found)
    end) ;;
  (if (fst o =? 0) && negb (snd o)
   then raise (KeyError ("No inbox-bearing run found for '" +:+ rid +:+ "' to inject guidance into"))
   else ret tt).

(** [_apply_inject_guidance]. *)
Definition guidance_text (payload : dict) : option string :=
  match nonblank (get_ "guidance" payload) with
  | Some s => Some (strip s)
  | None => match nonblank (get_ "text" payload) with Some s => Some (strip s) | None => None end
  end.
Definition apply_inject_guidance (payload : dict) (rid : string) (client_message_id : string) : M W unit :=
  match guidance_text payload with
  | None => raise (ValueError "inject_guidance requires payload.guidance (non-empty string)")
  | Some guidance =>
      targets <- descendants rid ;;
      if negb steer_sidecar then apply_inject_guidance_legacy guidance targets rid
      else
        o <- steer_loop (fun i =>
          if String.eqb i rid && negb (is_none (get_ "display_text" payload))
          then steer i (VStr guidance)
                 [("display_text", get_ "display_text" payload);
                  ("speaker", VStr (str_or (get_ "_public_speaker" payload) "person:operator"));
                  ("client_message_id", VStr client_message_id)]
          else steer i (VStr guidance) []) targets ;;
        steer_outcome ("No inbox-bearing run found for '" +:+ rid +:+ "' to inject guidance into") o
  end.

(** [_apply_conclude]. *)
Definition conclude_directive : string :=
  "The operator asked you to conclude now. Stop working and give your best answer " +:+
  "from everything you have done so far.".
Definition newline : ascii := ascii_of_nat 10.
Definition conclude_message (payload : dict) : dict :=
  let note := match get_ "note" payload with VStr s => strip s | _ => "" end in
  [("role", VStr "system"); ("kind", VStr "conclude");
   ("content", VStr (if String.eqb note "" then conclude_directive
                     else conclude_directive +:+ newline ::s newline ::s note));
   ("note", VStr note)].
Definition apply_conclude (payload : dict) (rid : string) : M W unit :=
  if negb steer_sidecar
  then raise (RuntimeError "conclude requires the durable steer sidecar")
  else
    targets <- descendants rid ;;
    o <- steer_loop (fun i => steer i (VDict (conclude_message payload)) []) targets ;;
    steer_outcome ("No live agent run found for '" +:+ rid +:+ "' to conclude") o.

(** [_maybe_trigger_scheduled_wait_now]. *)
Definition maybe_trigger_scheduled_wait_now (t : Z) (rid : string) : M W unit :=
  w <- get ;;
  loaded <- of_res (load rid w) ;;
  match loaded with
  | None => ret tt
  | Some r =>
      root <- (if is_scheduled_parent_run r then ret (Some r) else scheduled_root r) ;;
      match root with
      | Some root =>
          if negb (scheduled_parent_is_recurrent root) then ret tt else
          match status root, waiting root with
          | WAITING, Some wt =>
              match w_reason wt, w_until wt with
              | UNTIL, Some u =>
                  if String.eqb (strip u) "" then ret tt
                  else
                    let now := utc_now_iso t in
                    save (set_updated_at now
                      (set_waiting (Some (mk_wait UNTIL (w_key wt) (Some now) (w_details wt))) root))
              | _, _ => ret tt
              end
          | _, _ => ret tt
          end
      | None => ret tt
      end
  end.

(** [_apply_run_control]. *)
Definition control_one (typ : string) (payload : dict) (reason : option string) (rid : string) : M W unit :=
  if String.eqb typ "pause" then pause_run rid reason
  else if String.eqb typ "resume" then
    match dget "payload" payload with
    | Some (VDict p) =>
        let key := match nonblank (py_or (get_ "wait_key" payload) (get_ "waitKey" payload)) with
                   | Some k => Some (strip k) | None => None end in
        h <- resolve rid ;; rt_resume h rid key p
    | Some _ => raise (ValueError "resume command requires payload.payload to be an object")
    | None => resume_run rid
    end
  else cancel_run rid (default "Cancelled" reason).
Definition apply_run_control (t : Z) (typ rid : string) (payload : dict) (apply_to_tree : bool) : M W unit :=
  let reason := match nonblank (get_ "reason" payload) with Some r => Some (strip r) | None => None end in
  targets <- (if apply_to_tree then descendants rid else ret [rid]) ;;
  for_ targets (control_one typ payload reason) ;;;
  (if String.eqb typ "cancel" then
     (if has_user_stream then
        for_ targets (fun i => try_ (w <- get ;;
          loaded <- of_res (load i w) ;;
          match loaded with Some r => stream_run r | None => ret tt end) (fun _ => ret tt))
      else ret tt) ;;;
     try_ (arm_kill_switch rid targets) (fun _ => ret tt)
   else ret tt) ;;;
  (if String.eqb typ "resume" && apply_to_tree && negb (dmem "payload" payload)
   then try_ (maybe_trigger_scheduled_wait_now t rid) (fun _ => ret tt)
   else ret tt).

(** [_apply_update_schedule]: the checks, then the three writes. *)
Definition with_schedule (interval now : string) (v : val) : dict :=
  let v := dict_or_empty v in
  let meta := dict_or_empty (get_ "_meta" v) in
  let sched := dict_or_empty (get_ "schedule" meta) in
  dset "_meta" (VDict (dset "schedule"
    (VDict (dset "updated_at" (VStr now) (dset "interval" (VStr interval) sched))) meta)) v.
Definition schedule_marker (cid interval now requested root : string) (v : dict) : dict :=
  dset "_runtime" (VDict (dset "last_schedule_update"
    (VDict [("command_id", VStr cid); ("interval", VStr interval); ("updated_at", VStr now);
            ("requested_run_id", VStr requested); ("scheduled_root_run_id", VStr root)])
    (dict_or_empty (get_ "_runtime" v)))) v.
Definition max_instant : Z := days_from_civil 10000 1 1 * day.
Definition rearm (t : Z) (us : Z) (parent : run) : M W run :=
  match status parent, waiting parent with
  | WAITING, Some wt =>
      if bool_decide (w_reason wt = UNTIL) && String.eqb (current_node parent) "wait_interval" then
        if max_instant <=? t + us then raise (OverflowError "date value out of range")
        else
          let p := set_updated_at (utc_now_iso t)
            (set_waiting (Some (mk_wait UNTIL (w_key wt) (Some (isoformat (t + us))) (w_details wt))) parent) in
          save p ;;; ret p
      else ret parent
  | _, _ => ret parent
  end.
Definition schedule_root_of (rid : string) : M W run :=
  w <- get ;;
  loaded <- of_res (load rid w) ;;
  match loaded with
  | None => raise (KeyError ("Run '" +:+ rid +:+ "' not found"))
  | Some r =>
      if is_scheduled_parent_run r then ret r
      else
        root <- scheduled_root r ;;
        match root with
        | None => raise (ValueError "update_schedule is only supported for scheduled runs (or runs inside a scheduled run tree)")
        | Some p => ret p
        end
  end.
Definition update_flow (workflow interval : string) : M W unit :=
  match load_dynamic_visualflow, upsert_dynamic_visualflow with
  | Some load_raw, Some upsert =>
      w <- get ;;
      raw <- of_res (load_raw workflow w) ;;
      match raw with
      | None => raise (RuntimeError ("Dynamic wrapper flow not found on disk for workflow_id=" +:+ workflow))
      | Some raw =>
          match mutate_schedule_interval raw interval with
          | (flow, true) => upsert flow
          | (_, false) => raise (RuntimeError "Failed to locate wait_interval node in scheduled wrapper flow")
          end
      end
  | _, _ => raise (RuntimeError "Host does not support editing dynamic workflows (load_dynamic_visualflow/upsert_dynamic_visualflow)")
  end.
Definition update_schedule_interval (payload : dict) : string :=
  strip (str_or (match get_ "interval" payload with VNone => get_ "schedule" payload | v => v end) "").
Definition apply_update_schedule (t : Z) (payload : dict) (rid cid : string) : M W unit :=
  let interval := update_schedule_interval payload in
  if String.eqb interval "" then raise (ValueError "update_schedule requires payload.interval") else
  match parse_interval interval with
  | None => raise (ValueError "update_schedule interval must be a relative duration like '20m', '1h', '0.5s'")
  | Some i =>
      let '(m, _, _) := i in
      if m <=? 0 then raise (ValueError "update_schedule interval must be a relative duration like '20m', '1h', '0.5s'")
      else
        parent <- schedule_root_of rid ;;
        if negb (scheduled_parent_is_recurrent parent)
        then raise (ValueError "update_schedule requires a recurrent scheduled run (interval must be set)")
        else if String.eqb (strip (workflow_id parent)) "" then raise (ValueError "Scheduled run missing workflow_id")
        else
          let now := utc_now_iso t in
          let parent := set_updated_at now (set_vars (VDict (with_schedule interval now (vars parent))) parent) in
          save parent ;;;
          update_flow (workflow_id parent) interval ;;;
          parent <- (if match get_ "apply_immediately" payload with VNone => true | v => truthy v end
                     then rearm t (interval_us i) parent else ret parent) ;;
          try_ (save (set_vars (VDict (schedule_marker cid interval now (strip rid) (run_id parent)
                  (dict_or_empty (vars parent)))) parent)) (fun _ => ret tt)
  end.

(** [_automation_owner]. *)
Definition automation_owner (automation_id : string) : M W (option string) :=
  w <- get ;;
  loaded <- of_res (load automation_id w) ;;
  ret match loaded with
      | Some r =>
          match vars r with
          | VDict v => match get_ "_meta" v with VDict m => nonblank (get_ "automation_owner" m) | _ => None end
          | _ => None
          end
      | None => None
      end.

(** [_apply_automation_command], after the priority mark. *)
Definition is_applied (result : dict) : bool :=
  match get_ "status" result with VStr s => String.eqb s "applied" | _ => false end &&
  negb (truthy (get_ "duplicate" result)).
Definition owner_user (owner : option string) : option string :=
  match owner with
  | Some o => match split1 ":" o with Some (_, u) => Some u | None => plane_owner_user end
  | None => plane_owner_user
  end.
Definition revise_followup (rec : command) (automation_id : string) : M W unit :=
  owner <- automation_owner automation_id ;;
  let actor := strip (str_or (client_id rec) "") in
  let foreign := match owner_user owner with
                 | Some u => negb (String.eqb actor "") && negb (String.eqb u "") && negb (String.eqb actor u)
                 | None => false
                 end in
  if foreign then ret tt
  else try_ (resolve_covered_waits automation_id (client_id rec)) (fun _ => ret tt).
Definition apply_automation_command (rec : command) (typ automation_id : string) (payload : dict) : M W unit :=
  fun w =>
    match (h <- resolve automation_id ;;
           owner <- automation_owner automation_id ;;
           apply_automation h rec (dpop "expected_revision" payload) (get_ "expected_revision" payload) owner) w with
    | (Raise e, w) =>
        match record_automation_result rec typ w with
        | (Ok _, w) => (Ok tt, w)
        | (Raise _, w) => (Raise (CommandNotRecorded (command_id rec)), w)
        end
    | (Ok result, w) =>
        (if is_applied result then
           (if String.eqb typ "automation.archive" then stream_wake_cancelled automation_id else ret tt) ;;;
           (if String.eqb typ "automation.revise" then revise_followup rec automation_id else ret tt) ;;;
           for_ command_listeners (fun f => try_ (f typ automation_id) (fun _ => ret tt))
         else ret tt) w
    end.

(** [_apply_command]. *)
Definition mark_priority (rid : string) : M R unit := modify (fun s => put_priority ({[rid]} ∪ priority s) s).
Definition apply_command (rec : command) : M R unit := fun s =>
  let typ := lower (strip (c_type rec)) in
  let payload := c_payload rec in
  let rid := strip (c_run_id rec) in
  let t := now s in
  (if negb (bool_decide (typ ∈ COMMAND_TYPES)) then raise (ValueError ("Unknown command type '" +:+ typ +:+ "'"))
   else if String.eqb rid "" then raise (ValueError "Command.run_id is required")
   else if bool_decide (typ ∈ AUTOMATION_COMMAND_TYPES) then
     mark_priority rid ;;; on_world (apply_automation_command rec typ rid payload)
   else
     (if bool_decide (typ ∈ PRIORITY_TYPES) then mark_priority rid else ret tt) ;;;
     if String.eqb typ "pause" || String.eqb typ "cancel" then on_world (apply_run_control t typ rid payload true)
     else if String.eqb typ "resume" then on_world (apply_run_control t typ rid payload (negb (dmem "payload" payload)))
     else if String.eqb typ "emit_event" then
       on_world (apply_emit_event t payload (VStr rid) (client_id rec) ;;; ret tt)
     else if String.eqb typ "update_schedule" then on_world (apply_update_schedule t payload rid (command_id rec))
     else if String.eqb typ "compact_memory" then on_world (apply_compact_memory payload rid (command_id rec))
     else if String.eqb typ "inject_guidance" then on_world (apply_inject_guidance payload rid (command_id rec))
     else if String.eqb typ "conclude" then on_world (apply_conclude payload rid)
     else ret tt) s.

(** The loop of [_poll_commands]: the cursor, and whether the loop stopped at a
    command that could not be recorded. *)
Fixpoint poll_items (items : list command) (cur : Z) (s : R) : Z * bool * R :=
  match items with
  | [] => (cur, false, s)
  | rec :: items =>
      match apply_command rec s with
      | (Raise (CommandNotRecorded _), s) => (cur, true, put_scan_force true s)
      | (_, s) =>
          let cur := Z.max cur (if c_seq rec =? 0 then cur else c_seq rec) in
          poll_items items cur (exec (on_world (save_cursor cur)) s)
      end
  end.

(** [_poll_commands]. *)
Definition poll_commands (cursor : Z) : M R Z := fun s =>
  match list_after cursor (command_batch_limit cfg) (world s) with
  | Raise e => (Raise e, s)
  | Ok (items, next) =>
      match items with
      | [] => (Ok cursor, s)
      | _ =>
          match poll_items items cursor s with
          | (cur, true, s) => (Ok cur, s)
          | (cur, false, s) => (Ok (Z.max next cur), put_scan_force true s)
          end
      end
  end.

(** [_resolve_compaction_target_run_id]. *)
Definition has_messages (r : run) : bool :=
  match vars r with
  | VDict v => match get_ "context" v with
               | VDict c => match get_ "messages" c with VList (_ :: _) => true | _ => false end
               | _ => false
               end
  | _ => false
  end.
Fixpoint follow_chain (n : nat) (w : W) (cur : run) (seen : gset string) : option (res (option string)) :=
  match n with
  | O => None
  | S n =>
      let rid := run_id cur in
      if String.eqb rid "" || bool_decide (rid ∈ seen) then Some (Ok None)
      else
        match waiting cur with
        | Some wt =>
            match w_details wt with
            | VDict d =>
                match nonblank (get_ "sub_run_id" d) with
                | Some sub =>
                    match load (strip sub) w with
                    | Ok (Some nxt) => if has_messages nxt then Some (Ok (Some (run_id nxt)))
                                       else follow_chain n w nxt ({[rid]} ∪ seen)
                    | Ok None => Some (Ok None)
                    | Raise e => Some (Raise e)
                    end
                | None => Some (Ok None)
                end
            | _ => Some (Ok None)
            end
        | None => Some (Ok None)
        end
  end.
Definition child_stamp (r : run) : string :=
  if String.eqb (updated_at r) "" then created_at r else updated_at r.
Fixpoint resolve_compaction_target (n : nat) (w : W) (root : string) : option (res (option string)) :=
  match n with
  | O => None
  | S n =>
      match load root w with
      | Raise e => Some (Raise e)
      | Ok None => Some (Ok None)
      | Ok (Some cur) =>
          if has_messages cur then Some (Ok (Some (run_id cur)))
          else match follow_chain (S n) w cur ∅ with
               | Some (Ok None) =>
                   let children := match list_children with
                                   | Some f => match f root w with Ok l => l | Raise _ => [] end
                                   | None => []
                                   end in
                   fold_left (fun acc c =>
                     match acc with
                     | Some (Ok None) =>
                         if String.eqb (run_id c) "" then acc else
                         match resolve_compaction_target n w (run_id c) with
                         | Some (Ok (Some target)) => if String.eqb target "" then Some (Ok None) else Some (Ok (Some target))
                         | answer => answer
                         end
                     | _ => acc
                     end) (py_sorted (fun a b => str_leb (child_stamp b) (child_stamp a)) children) (Some (Ok None))
               | answer => answer
               end
      end
  end.
End Commands.
