(* ===== verification/RunnerCommandsFacts.v ===== *)
(** * Commands: what the poll and the handlers guarantee

    Theorems on RunnerCommands, and a host on which they are applied. *)

From S2P Require Import Prelude PyStr PyVal PyNum IsoTime RunStore MemoryHost RunnerState RunnerEvents RunnerCommands.

Section Poll.
Context {W : Type} `{H : HostOps W} `{C : !CommandOps W}.
Context (cfg : config) (fuel : nat).
Abbreviation R := (rstate W).

(** The command's failure could not even be recorded. *)
Definition unrecorded (r : res unit) : Prop := exists i, r = Raise (CommandNotRecorded i).

(** An automation command: what the runtime answers it, and that it was answered, in
    the automation's ledger where the host failed. *)
Definition automation_answer (rec : command) (w : W) : res dict * W :=
  let rid := strip (c_run_id rec) in
  (h <- resolve rid ;; owner <- automation_owner rid ;;
   apply_automation h rec (dpop "expected_revision" (c_payload rec)) (get_ "expected_revision" (c_payload rec)) owner) w.
Definition is_automation (rec : command) : bool :=
  bool_decide (lower (strip (c_type rec)) ∈ AUTOMATION_COMMAND_TYPES) && negb (String.eqb (strip (c_run_id rec)) "").
Definition answered (rec : command) (w : W) : Prop :=
  match automation_answer rec w with
  | (Ok _, _) => True
  | (Raise _, w') => exists u, fst (record_automation_result rec (lower (strip (c_type rec))) w') = Ok u
  end.

(** The commands were handled one after the other, the cursor saved after each: each
    had its effect on the state the earlier ones left, none raised that it is
    unrecorded, and an automation command was answered. *)
Inductive handled : list command -> R -> R -> Prop :=
  | handled_none s : handled [] s s
  | handled_one rec l s s' :
      ~ unrecorded (fst (apply_command fuel rec s)) -> (is_automation rec = true -> answered rec (world s)) ->
      handled l (exec (on_world (save_cursor (c_seq rec))) (snd (apply_command fuel rec s))) s' ->
      handled (rec :: l) s s'.

Lemma automation_types_known t : t ∈ AUTOMATION_COMMAND_TYPES -> t ∈ COMMAND_TYPES.
Proof. intros Ht. apply elem_of_app. by right. Qed.
(** An automation command that is not answered stops the poll. *)
Lemma automation_recorded (rec : command) (s : R) : is_automation rec = true ->
  ~ unrecorded (fst (apply_command fuel rec s)) -> answered rec (world s).
Proof.
  unfold is_automation, answered, automation_answer. intros [Ht Hr]%andb_true_iff. apply bool_decide_eq_true in Ht.
  unfold apply_command. cbv zeta. rewrite (bool_decide_true _ (automation_types_known _ Ht)), (bool_decide_true _ Ht).
  apply negb_true_iff in Hr. rewrite Hr. cbn [negb]. unfold mbind_ at 1, mark_priority, modify, on_world, apply_automation_command. cbn [world put_priority].
  intros Hn. match goal with |- match ?a with _ => _ end => destruct a as [[v|e] w] end; [done|]. cbn [fst snd] in *.
  destruct (record_automation_result rec _ w) as [[u|e'] w']; [by exists u|]. exfalso. apply Hn. by eexists.
Qed.

(** Sequence numbers increase, and are above the cursor. *)
Fixpoint increasing (cur : Z) (items : list command) : Prop :=
  match items with [] => True | rec :: l => cur < c_seq rec /\ increasing (c_seq rec) l end.
(** The number of the last one. *)
Fixpoint last_seq (cur : Z) (items : list command) : Z :=
  match items with [] => cur | rec :: l => last_seq (c_seq rec) l end.

Lemma increasing_app cur pre post : increasing cur (pre ++ post) <-> increasing cur pre /\ increasing (last_seq cur pre) post.
Proof. revert cur. induction pre as [|rec pre IH]; intros cur; simpl; [tauto|]. rewrite IH. tauto. Qed.
Lemma increasing_above cur items rec : increasing cur items -> rec ∈ items -> cur < c_seq rec /\ c_seq rec <= last_seq cur items.
Proof.
  revert cur. induction items as [|r l IH]; intros cur Hi Hin; [by apply elem_of_nil in Hin|]. destruct Hi as [? Hi].
  assert (forall l c, increasing c l -> c <= last_seq c l) as Hle by (clear; induction l as [|r l IH]; intros c; simpl; [lia|]; intros [? ?%IH]; lia).
  apply elem_of_cons in Hin as [->|Hin]; cbn; [specialize (Hle l _ Hi); lia|]. destruct (IH _ Hi Hin). lia.
Qed.

(** The loop: it handles a prefix, and ends with the batch or at a command that could
    not be recorded. *)
Lemma poll_items_spec items cur (s : R) :
  0 <= cur -> increasing cur items ->
  let '(cur', stopped, s') := poll_items fuel items cur s in
  exists pre post s0, items = pre ++ post /\ handled pre s s0 /\ cur' = last_seq cur pre /\
    (stopped = false -> post = [] /\ s' = s0) /\
    (stopped = true -> exists rec post', post = rec :: post' /\ unrecorded (fst (apply_command fuel rec s0)) /\
       s' = put_scan_force true (snd (apply_command fuel rec s0))).
Proof.
  revert cur s. induction items as [|rec items IH]; intros cur s Hc Hi; simpl.
  - exists [], [], s. split_and!; try done. constructor.
  - destruct Hi as [Hlt Hi]. destruct (decide (c_seq rec = 0)) as [?|Hnz]; [lia|]. apply Z.eqb_neq in Hnz. rewrite Hnz.
    replace (Z.max cur (c_seq rec)) with (c_seq rec) by lia.
    destruct (apply_command fuel rec s) as [r s1] eqn:E. set (s2 := exec (on_world (save_cursor (c_seq rec))) s1).
    assert (~ unrecorded r -> let '(cur', stopped, s') := poll_items fuel items (c_seq rec) s2 in
      exists pre post s0, rec :: items = pre ++ post /\ handled pre s s0 /\ cur' = last_seq cur pre /\
      (stopped = false -> post = [] /\ s' = s0) /\
      (stopped = true -> exists q post', post = q :: post' /\ unrecorded (fst (apply_command fuel q s0)) /\
         s' = put_scan_force true (snd (apply_command fuel q s0)))) as Hgo.
    { intros Hr. specialize (IH (c_seq rec) s2 ltac:(lia) Hi).
      destruct (poll_items fuel items (c_seq rec) s2) as [[cur' st] s']. destruct IH as (pre & post & s0 & -> & Hh & Hcur & Hst).
      exists (rec :: pre), post, s0. split_and!; [done| |done|apply Hst..].
      constructor; rewrite ?E; [done| |done]. intros Ha. apply automation_recorded; [done|]. by rewrite E. }
    destruct r as [u|e]; [apply Hgo; by intros [? ?]|]. destruct e; try (apply Hgo; by intros [? ?]).
    exists [], (rec :: items), s. split_and!; try done; [constructor|].
    intros _. exists rec, items. rewrite E. split_and!; [done|by eexists|done].
Qed.

(** C3: the command inbox makes progress and drops nothing: a poll handles a prefix
    of the batch, in order and each command once: every command of it is applied to
    the state the earlier ones left, whatever it raises, the cursor is saved after it,
    and an automation command of it was answered by the runtime or its failure
    recorded in the automation's ledger. The poll ends with the batch, or stops at
    the first command that raises that it could not be recorded: the cursor is then
    the last handled one's number, below that command and all the later ones, so the
    next poll sees them again. The next scheduling pass is forced. *)
Theorem poll_commands_progress (cursor : Z) (s : R) (items : list command) (next : Z) :
  0 <= cursor -> list_after cursor (command_batch_limit cfg) (world s) = Ok (items, next) ->
  items <> [] -> increasing cursor items ->
  exists pre post cur s0 s', items = pre ++ post /\ poll_commands cfg fuel cursor s = (Ok cur, s') /\ handled pre s s0 /\
    cursor <= cur /\ (forall rec, rec ∈ pre -> c_seq rec <= cur) /\ scan_force s' = true /\
    match post with
    | [] => s' = put_scan_force true s0 /\ cur = Z.max next (last_seq cursor items)
    | rec :: _ => unrecorded (fst (apply_command fuel rec s0)) /\ s' = put_scan_force true (snd (apply_command fuel rec s0)) /\
        cur = last_seq cursor pre /\ forall rec, rec ∈ post -> cur < c_seq rec
    end.
Proof.
  intros Hc Hl Hne Hi. unfold poll_commands. rewrite Hl. destruct items as [|rec items]; [done|].
  pose proof (poll_items_spec (rec :: items) cursor s Hc Hi) as Hp.
  destruct (poll_items fuel (rec :: items) cursor s) as [[cur stopped] s1].
  destruct Hp as (pre & post & s0 & E & Hh & -> & Hst0 & Hst1). rewrite E in *. apply increasing_app in Hi as [Hpre Hpost].
  assert (cursor <= last_seq cursor pre /\ forall q, q ∈ pre -> c_seq q <= last_seq cursor pre) as [Hle Hall].
  { split; [|intros q Hq; by eapply increasing_above]. destruct pre as [|q pre]; [done|].
    destruct (increasing_above cursor (q :: pre) q Hpre (list_elem_of_here _ _)). lia. }
  destruct stopped.
  - destruct (Hst1 eq_refl) as (q & post' & -> & Hu & ->). exists pre, (q :: post'), (last_seq cursor pre), s0, (put_scan_force true (snd (apply_command fuel q s0))).
    split_and!; try done. intros r Hr. by eapply increasing_above.
  - destruct (Hst0 eq_refl) as [-> ->]. rewrite app_nil_r in *. exists pre, [], (Z.max next (last_seq cursor pre)), s0, (put_scan_force true s0).
    rewrite app_nil_r. split_and!; try done; try lia. intros q Hq. specialize (Hall q Hq). lia.
Qed.

(** A command the runner knows, with a target. *)
Definition well_formed (rec : command) : bool :=
  bool_decide (lower (strip (c_type rec)) ∈ COMMAND_TYPES) && negb (String.eqb (strip (c_run_id rec)) "").
(** Its run id names a run the command lane ticks first. *)
Definition prioritized (rec : command) : bool :=
  well_formed rec &&
  bool_decide (lower (strip (c_type rec)) ∈ PRIORITY_TYPES ++ AUTOMATION_COMMAND_TYPES).

Lemma on_world_frame {A} (m : M W A) (s : R) : snd (on_world m s) = put_world (world (snd (on_world m s))) s.
Proof. unfold on_world. by destruct (m (world s)). Qed.

(** the dispatch marks for a priority tick exactly the runs a command names
    directly (resume, cancel, guidance, conclude, schedule, automation), never
    the session an event is for nor anything of a refused command; it touches
    nothing else of the runner's memory, whatever the handlers do, and a command
    of an unknown type or without a target is refused before any effect. *)
Theorem apply_command_routing (rec : command) (s : R) :
  snd (apply_command fuel rec s) =
    put_world (world (snd (apply_command fuel rec s)))
      (if prioritized rec then put_priority ({[strip (c_run_id rec)]} ∪ priority s) s else s) /\
  (well_formed rec = false -> exists m, apply_command fuel rec s = (Raise (ValueError m), s)) /\
  (lower (strip (c_type rec)) = "emit_event" -> priority (snd (apply_command fuel rec s)) = priority s).
Proof.
  assert (snd (apply_command fuel rec s) =
    put_world (world (snd (apply_command fuel rec s)))
      (if prioritized rec then put_priority ({[strip (c_run_id rec)]} ∪ priority s) s else s)) as Hmain.
  { unfold prioritized, well_formed, apply_command. set (typ := lower (strip (c_type rec))). cbv zeta.
    destruct (bool_decide (typ ∈ COMMAND_TYPES)); cbn [negb andb]; [|by destruct s].
    destruct (String.eqb (strip (c_run_id rec)) ""); cbn [negb andb]; [by destruct s|].
    destruct (decide (typ ∈ AUTOMATION_COMMAND_TYPES)) as [Ha|Ha].
    - rewrite (bool_decide_true _ Ha), bool_decide_true by (apply elem_of_app; by right).
      unfold mbind_, mark_priority, modify. apply on_world_frame.
    - rewrite (bool_decide_false _ Ha).
      destruct (decide (typ ∈ PRIORITY_TYPES)) as [Hp|Hp].
      + rewrite (bool_decide_true _ Hp), (bool_decide_true (typ ∈ PRIORITY_TYPES ++ _)) by (apply elem_of_app; by left).
        unfold mbind_ at 1 3, mark_priority, modify.
        repeat (match goal with |- context[if ?b then _ else _] => destruct b end; try apply on_world_frame). done.
      + rewrite (bool_decide_false _ Hp), (bool_decide_false (typ ∈ PRIORITY_TYPES ++ _)) by (rewrite elem_of_app; tauto).
        unfold mbind_ at 1 3, ret.
        repeat (match goal with |- context[if ?b then _ else _] => destruct b end; try apply on_world_frame). by destruct s. }
  split; [exact Hmain|]. split.
  - unfold well_formed, apply_command. cbv zeta. destruct (bool_decide _); simpl; [|by eexists].
    destruct (String.eqb _ ""); simpl; [by eexists|done].
  - intros He. rewrite Hmain. unfold prioritized. rewrite He. by destruct (well_formed rec).
Qed.
End Poll.

Section Tree.
Context {W : Type} `{H : HostOps W} `{C : !CommandOps W}.
Context (fuel : nat).

Lemma cancel_loop (P : string -> W -> Prop) payload reason l (w : W) :
  (forall i r w, fst (cancel_run i r w) = Ok tt /\ P i (snd (cancel_run i r w)) /\
     forall j, P j w -> P j (snd (cancel_run i r w))) ->
  exists w', for_ l (control_one "cancel" payload reason) w = (Ok tt, w') /\
    (forall j, P j w -> P j w') /\ forall i, i ∈ l -> P i w'.
Proof.
  intros Hc. revert w. induction l as [|i l IH]; intros w.
  - exists w. split_and!; [done|done|]. intros i Hi. by apply elem_of_nil in Hi.
  - simpl. unfold mbind_, control_one at 1. simpl.
    destruct (Hc i (default "Cancelled" reason) w) as (Ho & Hi & Hk).
    destruct (cancel_run i _ w) as [[[]|] w1]; [|done]. simpl in *.
    destruct (IH w1) as (w' & -> & Hkeep & Hall). exists w'. split_and!; [done|auto|].
    intros j [->|Hj]%elem_of_cons; auto.
Qed.

(** a cancel command reaches the whole run tree: on a store whose child
    links stay in a finite set, when cancelling a run takes effect and is not
    undone by what follows, every run reachable from the target is cancelled,
    shared children and cycles included, and the kill switch and the streams
    cannot make the command fail. *)
Theorem cancel_reaches_the_tree (P : string -> W -> Prop) (t : Z) (root : string) (payload : dict)
    (w : W) (U : list string) :
  NoDup U -> root ∈ U -> (forall u, u ∈ U -> child_ids w u ⊆ U) ->
  (1 + list_sum (map (fun u => length (child_ids w u)) U) <= fuel)%nat ->
  (forall i r w, fst (cancel_run i r w) = Ok tt /\ P i (snd (cancel_run i r w)) /\
     forall j, P j w -> P j (snd (cancel_run i r w))) ->
  (forall r w j, P j w -> P j (snd (stream_run r w))) ->
  (forall r l w j, P j w -> P j (snd (arm_kill_switch r l w))) ->
  exists w', apply_run_control fuel t "cancel" root payload true w = (Ok tt, w') /\
    forall x, reachable (child_ids w) root x -> P x w'.
Proof.
  intros Hnd Hroot Hcl Hf Hc Hs Ha.
  destruct (descendants_go_total (child_ids w) U fuel [root] ∅ []) as [l Hl];
    [done|done|by intros x ->%list_elem_of_singleton| |].
  { rewrite pending_empty. simpl. lia. }
  pose proof Hl as Hl'. apply (descendants_go_spec (child_ids w) root) in Hl' as [_ Hiff].
  2: constructor.
  2: { intros x. split; intros Hx; exfalso; [by apply elem_of_nil in Hx|set_solver +Hx]. }
  2: { intros x [Hx | ->%list_elem_of_singleton]; [set_solver +Hx|constructor]. }
  2: { intros x c Hx. set_solver +Hx. }
  2: { right. by left. }
  unfold apply_run_control, mbind_ at 1, descendants, list_descendant_run_ids. rewrite Hl.
  unfold mbind_ at 1. destruct (cancel_loop P payload
    (match nonblank (get_ "reason" payload) with Some r => Some (strip r) | None => None end) l w Hc)
    as (w1 & -> & _ & Hall). simpl.
  set (Q := fun w => forall x, x ∈ l -> P x w).
  assert (Q w1) as HQ by done.
  unfold mbind_ at 1 2.
  set (streams := if has_user_stream then _ else ret tt).
  assert (exists w2, streams w1 = (Ok tt, w2) /\ Q w2) as (w2 & -> & HQ2).
  { subst streams. destruct has_user_stream; [|eauto].
    match goal with |- context[for_ l ?b w1] => pose proof (for_ok l b w1) as Hok; pose proof (for_inv Q l b w1) as Hinv end.
    destruct (for_ _ _ w1) as [r w2]. exists w2. split.
    - f_equal. apply Hok. intros x v. unfold try_, mbind_, get, of_res.
      destruct (load x v) as [[q|]|]; [destruct (stream_run q v) as [[[]|] ?]|..]; done.
    - apply Hinv; [|done]. intros x v Hv. unfold try_, mbind_, get, of_res.
      destruct (load x v) as [[q|]|]; [|done..]. pose proof (fun j => Hs q v j) as Hq.
      destruct (stream_run q v) as [[[]|] ?]; simpl in *; intros y Hy; auto. }
  unfold try_. pose proof (fun j => Ha root l w2 j) as Hk.
  destruct (arm_kill_switch root l w2) as [[[]|] w3]; simpl in *; (eexists; split; [done|]);
    intros x Hx; apply Hk, HQ2, Hiff, Hx.
Qed.
End Tree.

(** the edit of a schedule's wrapper flow is exact: it reports a change
    exactly when the flow has a node [wait_interval], every such node then carries
    the interval as its event schedule, and every other node and every other field
    of the flow is what it was. *)
Theorem mutate_schedule_interval_spec (raw : dict) (interval : string) (nodes : list val) :
  get_ "nodes" raw = VList nodes ->
  let '(flow, changed) := mutate_schedule_interval raw interval in
  changed = existsb is_wait_interval nodes /\
  (forall k, k <> "nodes" -> dget k flow = dget k raw) /\
  exists nodes', get_ "nodes" flow = VList nodes' /\ length nodes' = length nodes /\
    forall i n n', nodes !! i = Some n -> nodes' !! i = Some n' ->
      (is_wait_interval n = false -> n' = n) /\
      (is_wait_interval n = true -> exists d data cfg, n' = VDict d /\ get_ "data" d = VDict data /\
         get_ "eventConfig" data = VDict cfg /\ get_ "schedule" cfg = VStr interval /\ is_wait_interval n' = true).
Proof.
  intros Hn. unfold mutate_schedule_interval. rewrite Hn. destruct (existsb is_wait_interval nodes) eqn:E.
  - split; [done|]. split; [intros k Hk; by rewrite dget_dset_ne|].
    eexists. dict_simp. split; [done|]. split; [by rewrite length_map|].
    intros i n n' Hi Hi'. rewrite list_lookup_fmap, Hi in Hi'. simpl in Hi'. injection Hi' as <-. split; [by intros ->|].
    intros Hw. rewrite Hw. destruct n as [| | | | | |d]; try done. simpl in *. do 3 eexists.
    split; [reflexivity|]. dict_simp. split_and!; [done..|]. by dict_simp.
  - split; [done|]. split; [done|]. exists nodes. split_and!; [done..|]. intros i n n' Hi Hi'. simplify_eq. split; [done|].
    intros Hw. assert (existsb is_wait_interval nodes = true) as Ht; [|congruence].
    apply existsb_exists. exists n. split; [|done]. apply list_elem_of_In. by eapply list_elem_of_lookup_2.
Qed.

(** ** Witnesses *)

(** The commands' part of a host: an inbox, and whether a failure can be
    recorded. *)
Definition sample_ops {W} (h : HostOps W) (inbox : list command) (recordable : bool) : @CommandOps W h := {|
  list_after cursor limit _ := Ok (List.filter (fun c => cursor <? c_seq c) inbox, 0);
  save_cursor _ w := (Ok tt, w);
  steer_sidecar := true;
  steer _ _ _ w := (Ok tt, w);
  apply_automation _ _ _ _ _ w := (Raise (RuntimeError "down"), w);
  record_automation_result c _ w := (if recordable then Ok tt else Raise (OtherError "disk"), w);
  stream_wake_cancelled _ w := (Ok tt, w);
  resolve_covered_waits _ _ w := (Ok tt, w);
  command_listeners := [];
  plane_owner_user := None;
  load_dynamic_visualflow := None;
  upsert_dynamic_visualflow := None;
  arm_kill_switch _ _ w := (Ok tt, w);
  has_user_stream := true;
  apply_compact_memory _ _ _ w := (Ok tt, w);
|}.

(** A failing command, a good one, an automation command that cannot be
    recorded, and a last one. *)
Definition inbox4 : list command :=
  [ mk_command "c1" 1 "cancel" "nobody" [] VNone; mk_command "c2" 2 "cancel" "a" [] VNone;
    mk_command "c3" 5 "automation.pause" "a" [] VNone; mk_command "c4" 6 "pause" "a" [] VNone ].
Definition one_running : mem := mem_of [sample_run "a" RUNNING None None].

Lemma poll_commands_progress_witness :
  let ops := sample_ops mem_host inbox4 false in
  fst (poll_commands (C := ops) default_config 5 0 (init_rstate one_running 0)) = Ok 2 /\
  exists pre post cur s0 s', inbox4 = pre ++ post /\
    poll_commands (C := ops) default_config 5 0 (init_rstate one_running 0) = (Ok cur, s') /\
    handled (C := ops) 5 pre (init_rstate one_running 0) s0 /\ scan_force s' = true.
Proof.
  split; [vm_compute; reflexivity|].
  destruct (poll_commands_progress (C := sample_ops mem_host inbox4 false) default_config 5 0
    (init_rstate one_running 0) inbox4 0) as (pre & post & cur & s0 & s' & ? & ? & ? & ? & ? & ? & _).
  - done.
  - vm_compute. reflexivity.
  - done.
  - simpl. lia.
  - exists pre, post, cur, s0, s'. by split_and!.
Defined.

Definition cancelled_host : HostOps (gset string) :=
  static_host (fun i (w : gset string) => {[i]} ∪ w) cycle_runs.
Lemma cancel_reaches_the_tree_witness :
  exists w', apply_run_control (H := cancelled_host) (C := sample_ops cancelled_host [] true) 3 0 "cancel" "a" [] true ∅ =
    (Ok tt, w') /\ forall x, reachable (child_ids (H := cancelled_host) ∅) "a" x -> x ∈ w'.
Proof.
  apply (cancel_reaches_the_tree (H := cancelled_host) (C := sample_ops cancelled_host [] true) 3
    (fun i w => i ∈ w) 0 "a" [] ∅ ["a"; "b"]).
  - by apply (bool_decide_unpack (NoDup ["a"; "b"])).
  - apply list_elem_of_here.
  - intros u Hu. apply elem_of_cons in Hu as [->|Hu]; [|apply list_elem_of_singleton in Hu as ->];
      intros x Hx; vm_compute in Hx; set_solver.
  - vm_compute. lia.
  - intros i r w. simpl. split_and!; [done|set_solver +|set_solver +].
  - done.
  - done.
Defined.

Definition wrapper_flow : dict :=
  [("id", VStr "f"); ("nodes", VList [VDict [("id", VStr "start")]; VDict [("id", VStr "wait_interval")]])].
Lemma mutate_schedule_interval_spec_witness :
  snd (mutate_schedule_interval wrapper_flow "20m") = true /\ dget "id" (fst (mutate_schedule_interval wrapper_flow "20m")) = Some (VStr "f").
Proof.
  pose proof (mutate_schedule_interval_spec wrapper_flow "20m" _ eq_refl) as Hs.
  destruct (mutate_schedule_interval wrapper_flow "20m") as [flow changed]. destruct Hs as (-> & Hk & _).
  split; [done|]. simpl. by rewrite Hk.
Defined.

Example parse_interval_sample : interval_us <$> parse_interval " 0.5 S" = Some 500000.
Proof. vm_compute. reflexivity. Qed.
