(* ===== verification/RunnerLock.v ===== *)
(** * The singleton lock: processes competing to tick one data directory

    [runner.py]: the kernel lock ([_acquire_singleton_lock],
    [_release_singleton_lock]), the takeover handshake, the drain, [start] and
    [stop], and the life of the worker threads ([_run]), as a step relation on a
    set of processes that share the lock and the takeover file. A process is
    named by its pid and has one runner for the directory. [stop] runs beside the
    worker: it waits for it for a bounded time and goes on whether or not it has
    ended, so a runner may have worker threads left over from before. *)

From S2P Require Import Prelude PyStr PyVal.

(** What a worker thread of a process is doing. *)
Inductive phase :=
  | Idle          (** ended *)
  | Acquiring     (** at the head of [_run]'s loop, or in one of its waits *)
  | Trying        (** past the check of [_stop], before the attempt *)
  | Looping       (** in [_loop] *)
  | YieldDrain    (** [_loop] returned true: draining before the release *)
  | CrashDrain.   (** an exception left [_loop]: the recovery's bounded drain *)
#[global] Instance phase_eq_dec : EqDecision phase.
Proof. solve_decision. Defined.

(** [inflight] counts the entries of [_inflight], [running] the ticks the executors
    run or will run: a submission to executors that were shut down raises after its
    entry was made, and leaves the entry. *)
Record proc := mk_proc {
  alive : bool;
  threads : list phase;          (** every worker started *)
  current : option nat;          (** [_thread] *)
  stop_set : bool;
  stopped_deliberately : bool;
  executors_open : bool;
  stops_joining : nat;           (** calls of [stop] that wait for the worker *)
  stops_draining : nat;          (** calls of [stop] past the executors' shutdown *)
  lock_held : bool;
  lock_refused : bool;
  lock_holder_pid : option Z;
  ever_held : bool;              (** [_lock_acquired_at is not None] *)
  takeover_requested : bool;
  yielded_to_pid : option Z;
  loop_running : bool;
  loop_restarts : Z;
  inflight : nat;
  running : nat;
}.
Definition new_proc : proc :=
  mk_proc true [] None false false true 0 0 false false None false false None false 0 0 0.

(** The takeover file. *)
Inductive request_file := NoFile | Garbage | Request (pid : Z).

(** [flock] is the kernel's holder; the lock file's text only names a pid. *)
Record sys := mk_sys {
  flock : option Z;
  lock_file_pid : option Z;
  takeover_file : request_file;
  procs : Z -> proc;
  requesters : gset Z;   (** who wrote a request so far *)
  yields : nat;          (** how many times a loop that held the lock gave way so far *)
}.
Definition init_sys (f : request_file) : sys := mk_sys None None f (fun _ => new_proc) ∅ 0.

Definition upd (p : Z) (f : proc -> proc) (s : sys) : sys :=
  mk_sys (flock s) (lock_file_pid s) (takeover_file s) (fun q => if decide (q = p) then f (procs s p) else procs s q)
    (requesters s) (yields s).
Definition with_flock (l : option Z) (s : sys) : sys :=
  mk_sys l (lock_file_pid s) (takeover_file s) (procs s) (requesters s) (yields s).
Definition with_lock_file (l : option Z) (s : sys) : sys :=
  mk_sys (flock s) l (takeover_file s) (procs s) (requesters s) (yields s).
Definition with_takeover (f : request_file) (s : sys) : sys :=
  mk_sys (flock s) (lock_file_pid s) f (procs s) (requesters s) (yields s).

(** Writes of groups of fields: the threads, the calls of [stop], the lock's fields
    and the ticks. *)
Definition put_threads (l : list phase) (c : option nat) (x : proc) : proc :=
  mk_proc (alive x) l c (stop_set x) (stopped_deliberately x) (executors_open x) (stops_joining x) (stops_draining x)
    (lock_held x) (lock_refused x) (lock_holder_pid x) (ever_held x) (takeover_requested x) (yielded_to_pid x)
    (loop_running x) (loop_restarts x) (inflight x) (running x).
Definition put_stop (stop deliberate open : bool) (j d : nat) (x : proc) : proc :=
  mk_proc (alive x) (threads x) (current x) stop deliberate open j d
    (lock_held x) (lock_refused x) (lock_holder_pid x) (ever_held x) (takeover_requested x) (yielded_to_pid x)
    (loop_running x) (loop_restarts x) (inflight x) (running x).
Definition put_lock (held refused : bool) (holder : option Z) (ever requested : bool) (yielded : option Z) (loop : bool)
    (restarts : Z) (x : proc) : proc :=
  mk_proc (alive x) (threads x) (current x) (stop_set x) (stopped_deliberately x) (executors_open x) (stops_joining x)
    (stops_draining x) held refused holder ever requested yielded loop restarts (inflight x) (running x).
Definition put_ticks (n k : nat) (x : proc) : proc :=
  mk_proc (alive x) (threads x) (current x) (stop_set x) (stopped_deliberately x) (executors_open x) (stops_joining x)
    (stops_draining x) (lock_held x) (lock_refused x) (lock_holder_pid x) (ever_held x) (takeover_requested x)
    (yielded_to_pid x) (loop_running x) (loop_restarts x) n k.

Definition go (i : nat) (t : phase) (x : proc) : proc := put_threads (<[i := t]> (threads x)) (current x) x.
Definition set_loop (b : bool) (x : proc) : proc :=
  put_lock (lock_held x) (lock_refused x) (lock_holder_pid x) (ever_held x) (takeover_requested x) (yielded_to_pid x) b (loop_restarts x) x.
Definition set_refused (holder : option Z) (x : proc) : proc :=
  put_lock false true holder (ever_held x) (takeover_requested x) (yielded_to_pid x) (loop_running x) (loop_restarts x) x.
Definition set_acquired (p : Z) (x : proc) : proc :=
  put_lock true false (Some p) true (takeover_requested x) None (loop_running x) (loop_restarts x) x.
Definition set_released (x : proc) : proc :=
  put_lock false (lock_refused x) (lock_holder_pid x) (ever_held x) (takeover_requested x) (yielded_to_pid x) (loop_running x) (loop_restarts x) x.
Definition set_requested (x : proc) : proc :=
  put_lock (lock_held x) (lock_refused x) (lock_holder_pid x) (ever_held x) true (yielded_to_pid x) (loop_running x) (loop_restarts x) x.
Definition set_yielded (pid : Z) (x : proc) : proc :=
  put_lock (lock_held x) (lock_refused x) (lock_holder_pid x) (ever_held x) (takeover_requested x) (Some pid) (loop_running x) (loop_restarts x) x.
Definition set_crashed (x : proc) : proc :=
  put_lock (lock_held x) (lock_refused x) (lock_holder_pid x) (ever_held x) (takeover_requested x) (yielded_to_pid x) false (loop_restarts x + 1) x.
(** The fields [stop] leaves behind. *)
Definition set_quiet (x : proc) : proc :=
  put_lock (lock_held x) false (lock_holder_pid x) (ever_held x) (takeover_requested x) (yielded_to_pid x) false (loop_restarts x) x.

(** [start] past its guard, [stop] up to the wait for the worker, and [stop] once that
    wait is over: the executors take no more, and [k] ticks of theirs that had not
    begun are cancelled. *)
Definition start_worker (x : proc) : proc :=
  put_stop false false (executors_open x) (stops_joining x) (stops_draining x)
    (put_threads (threads x ++ [Acquiring]) (Some (length (threads x))) x).
Definition stop_begins (x : proc) : proc :=
  put_stop true true (executors_open x) (S (stops_joining x)) (stops_draining x) x.
Definition stop_shuts (k : nat) (x : proc) : proc :=
  put_stop (stop_set x) (stopped_deliberately x) false (Nat.pred (stops_joining x)) (S (stops_draining x))
    (put_ticks (inflight x - k) (running x - k) (put_threads (threads x) None x)).
Definition stop_ends (x : proc) : proc :=
  put_stop (stop_set x) (stopped_deliberately x) (executors_open x) (stops_joining x) (Nat.pred (stops_draining x)) (set_quiet x).
(** [_submit_tick] of a run that has no entry. *)
Definition submit (x : proc) : proc := put_ticks (S (inflight x)) (if executors_open x then S (running x) else running x) x.

(** The process exits: the kernel frees its locks, its threads end. *)
Definition set_dead (x : proc) : proc :=
  mk_proc false (map (fun _ => Idle) (threads x)) (current x) (stop_set x) (stopped_deliberately x) false 0 0 false (lock_refused x) (lock_holder_pid x)
    (ever_held x) (takeover_requested x) (yielded_to_pid x) false (loop_restarts x) 0 0.

(** [_pid_alive]. *)
Definition pid_alive (s : sys) (pid : Z) : bool := (0 <? pid) && alive (procs s pid).

(** [_acquire_singleton_lock]: refused while any descriptor holds the lock. *)
Definition acquire_singleton_lock (p : Z) (s : sys) : bool * sys :=
  match flock s with
  | Some _ => (false, upd p (set_refused (lock_file_pid s)) s)
  | None => (true, upd p (set_acquired p) (with_lock_file (Some p) (with_flock (Some p) s)))
  end.

(** [_release_singleton_lock]: nothing to unlock without an open descriptor. *)
Definition release_singleton_lock (p : Z) (s : sys) : sys :=
  upd p set_released (if bool_decide (flock s = Some p) then with_flock None s else s).

(** [_request_takeover_once]. *)
Definition request_takeover_once (p : Z) (s : sys) : sys :=
  if takeover_requested (procs s p) then s
  else
    let s := with_takeover (Request p) (upd p set_requested s) in
    mk_sys (flock s) (lock_file_pid s) (takeover_file s) (procs s) ({[p]} ∪ requesters s) (yields s).

(** [_read_takeover_request]: garbage is removed. *)
Definition read_takeover_request (s : sys) : option Z * sys :=
  match takeover_file s with
  | NoFile => (None, s)
  | Garbage => (None, with_takeover NoFile s)
  | Request pid => (if 0 <? pid then Some pid else None, s)
  end.

(** [_clear_takeover_request]. *)
Definition clear_takeover_request (only_pid : option Z) (s : sys) : sys :=
  match only_pid with
  | None => with_takeover NoFile s
  | Some me =>
      match read_takeover_request s with
      | (Some pid, s) => if pid =? me then with_takeover NoFile s else s
      | (None, s) => with_takeover NoFile s
      end
  end.

(** [_takeover_yield_requested]. *)
Definition takeover_yield_requested (p : Z) (s : sys) : bool * sys :=
  match read_takeover_request s with
  | (None, s) => (false, s)
  | (Some pid, s) =>
      if pid =? p then (false, clear_takeover_request (Some pid) s)
      else if negb (pid_alive s pid) then (false, clear_takeover_request (Some pid) s)
      else (true, upd p (set_yielded pid) s)
  end.

(** One turn of the acquire-retry part of [_run], by thread [i]. *)
Definition attempt (p : Z) (i : nat) (s : sys) : sys :=
  match acquire_singleton_lock p s with
  | (true, s) => upd p (fun x => set_loop true (go i Looping x)) (clear_takeover_request None s)
  | (false, s) =>
      let s := upd p (go i Acquiring) s in
      match lock_file_pid s with
      | Some holder =>
          if negb (holder =? p) && pid_alive s holder && negb (ever_held (procs s p))
          then request_takeover_once p s else s
      | None => s
      end
  end.

(** The check of [_loop]: it ends when another process asks for the lock. *)
Definition loop_check (p : Z) (i : nat) (s : sys) : sys :=
  match takeover_yield_requested p s with
  | (false, s) => s
  | (true, s) =>
      let s := upd p (fun x => set_loop false (go i YieldDrain x)) s in
      mk_sys (flock s) (lock_file_pid s) (takeover_file s) (procs s) (requesters s)
        (if bool_decide (flock s = Some p) then S (yields s) else yields s)
  end.

(** Whether [start] makes a worker. *)
Definition worker_gone (x : proc) : bool :=
  match current x with Some i => bool_decide (threads x !! i = Some Idle) | None => true end.

(** The steps; [thread_at] names the thread that moves. The boolean tells whether a
    release left ticks running: the yield path stops draining when [stop] is called
    meanwhile, and the recovery from a crash bounds its drain; both release in any
    case. *)
Definition thread_at (p : Z) (i : nat) (t : phase) (s : sys) : Prop := threads (procs s p) !! i = Some t.
Inductive step : bool -> sys -> sys -> Prop :=
  | SStart p s : alive (procs s p) = true -> worker_gone (procs s p) = true -> step true s (upd p start_worker s)
  | SGo p i s : thread_at p i Acquiring s -> stop_set (procs s p) = false -> step true s (upd p (go i Trying) s)
  | SAttempt p i s : thread_at p i Trying s -> step true s (attempt p i s)
  | SExit p i s : thread_at p i Acquiring s -> stop_set (procs s p) = true -> step true s (upd p (go i Idle) s)
  | SSubmit p i s : thread_at p i Looping s -> step true s (upd p submit s)
  | SDone p s n : running (procs s p) = S n -> step true s (upd p (fun x => put_ticks (inflight x - 1) n x) s)
  | SCheck p i s : thread_at p i Looping s -> step true s (loop_check p i s)
  | SYieldRelease p i s : thread_at p i YieldDrain s -> inflight (procs s p) = 0%nat ->
      step true s (upd p (go i Acquiring) (release_singleton_lock p s))
  | SYieldInterrupted p i s : thread_at p i YieldDrain s -> stop_set (procs s p) = true ->
      step (running (procs s p) =? 0)%nat s (upd p (go i Acquiring) (release_singleton_lock p s))
  | SLoopStop p i s : thread_at p i Looping s -> stop_set (procs s p) = true ->
      step true s (upd p (fun x => set_loop false (go i Idle x)) s)
  | SCrash p i s : thread_at p i Looping s -> step true s (upd p (fun x => set_crashed (go i CrashDrain x)) s)
  | SCrashRelease p i s : thread_at p i CrashDrain s ->
      step (running (procs s p) =? 0)%nat s (upd p (go i Acquiring) (release_singleton_lock p s))
  (** [stop]: it begins; the worker has ended or the wait for it has; it has drained,
      or its bounded drain is over. *)
  | SStop p s : alive (procs s p) = true -> step true s (upd p stop_begins s)
  | SStopShuts p s k : stops_joining (procs s p) <> 0%nat -> (k <= running (procs s p))%nat -> step true s (upd p (stop_shuts k) s)
  | SStopRelease p s : stops_draining (procs s p) <> 0%nat -> inflight (procs s p) = 0%nat ->
      step true s (upd p stop_ends (release_singleton_lock p s))
  | SStopTimeout p s : stops_draining (procs s p) <> 0%nat -> step true s (upd p stop_ends s)
  | SDie p s : step true s (upd p set_dead (if bool_decide (flock s = Some p) then with_flock None s else s)).

(** Every release drained first. *)
Definition orderly : relation sys := step true.
Definition any_step : relation sys := fun s t => exists b, step b s t.

(** [runner_status]'s [status] field, over the fields it reads. *)
Definition runner_status (enabled held running paused refused heartbeat_fresh thread_alive thread_ref deliberate : bool)
  : string :=
  if negb enabled then "disabled"
  else if held && running && paused then "paused"
  else if held && running then "active"
  else if refused && heartbeat_fresh then "standby_peer_active"
  else if refused then "degraded_no_ticker"
  else if thread_alive then "starting"
  else if thread_ref && negb deliberate then "dead_worker"
  else "inactive".

(** ** Invariants *)

(** Threads that hold the lock, while their runner was not shut down. *)
Definition holding (t : phase) : bool := match t with Looping | YieldDrain | CrashDrain => true | _ => false end.

(** One runner: its only worker is the current one and holds the lock where it should,
    until [stop] has shut its executors down. *)
Record proc_inv (l : option Z) (p : Z) (x : proc) : Prop := {
  pi_ticks : (running x <= inflight x)%nat;
  pi_drain : stops_draining x <> 0%nat -> executors_open x = false;
  pi_sole : executors_open x = true -> forall i t, threads x !! i = Some t -> t <> Idle -> current x = Some i;
  pi_holds : executors_open x = true -> forall i t, threads x !! i = Some t -> holding t = true -> l = Some p;
}.
Definition lock_inv (s : sys) : Prop := forall p, proc_inv (flock s) p (procs s p).
Definition drained_inv (s : sys) : Prop := forall p, running (procs s p) <> 0%nat -> flock s = Some p.

Lemma procs_upd p f s q : procs (upd p f s) q = if decide (q = p) then f (procs s p) else procs s q.
Proof. done. Qed.
Lemma procs_upd_eq p f s : procs (upd p f s) p = f (procs s p).
Proof. rewrite procs_upd. by rewrite decide_True. Qed.

(** What a step does to the other processes: nothing. *)
Lemma procs_clear o s : procs (clear_takeover_request o s) = procs s /\ flock (clear_takeover_request o s) = flock s /\
  requesters (clear_takeover_request o s) = requesters s /\ yields (clear_takeover_request o s) = yields s.
Proof.
  unfold clear_takeover_request, read_takeover_request. destruct o as [me|]; [|done].
  destruct (takeover_file s); [done..|]. repeat case_match; done.
Qed.
Lemma release_spec p s :
  procs (release_singleton_lock p s) = procs (upd p set_released s) /\
  flock (release_singleton_lock p s) = (if bool_decide (flock s = Some p) then None else flock s) /\
  takeover_file (release_singleton_lock p s) = takeover_file s /\
  requesters (release_singleton_lock p s) = requesters s /\ yields (release_singleton_lock p s) = yields s.
Proof. unfold release_singleton_lock. by case_bool_decide. Qed.

(** The effect of an attempt: the lock is taken, or it is refused and at most a
    request is written, by a process that never held the lock. *)
Lemma attempt_spec p i s :
  (flock s = None /\ flock (attempt p i s) = Some p /\ takeover_file (attempt p i s) = NoFile /\
   requesters (attempt p i s) = requesters s /\ yields (attempt p i s) = yields s /\
   (forall q, procs (attempt p i s) q = if decide (q = p) then set_loop true (go i Looping (set_acquired p (procs s p))) else procs s q)) \/
  (is_Some (flock s) /\ flock (attempt p i s) = flock s /\ yields (attempt p i s) = yields s /\
   ((requesters (attempt p i s) = requesters s /\ takeover_file (attempt p i s) = takeover_file s /\
     forall q, procs (attempt p i s) q = if decide (q = p) then go i Acquiring (set_refused (lock_file_pid s) (procs s p)) else procs s q) \/
    (takeover_requested (procs s p) = false /\ ever_held (procs s p) = false /\
     requesters (attempt p i s) = {[p]} ∪ requesters s /\
     forall q, procs (attempt p i s) q =
       if decide (q = p) then set_requested (go i Acquiring (set_refused (lock_file_pid s) (procs s p))) else procs s q))).
Proof.
  unfold attempt, acquire_singleton_lock. destruct (flock s) as [h|] eqn:E.
  - right. set (s1 := upd p (go i Acquiring) (upd p (set_refused (lock_file_pid s)) s)).
    assert (forall q, procs s1 q = if decide (q = p) then go i Acquiring (set_refused (lock_file_pid s) (procs s p)) else procs s q) as Hq.
    { intros q. subst s1. rewrite procs_upd. destruct (decide (q = p)) as [->|Hne]; [by rewrite procs_upd_eq|]. rewrite procs_upd. by rewrite decide_False. }
    assert (procs s1 p = go i Acquiring (set_refused (lock_file_pid s) (procs s p))) as Hp by (rewrite Hq; by rewrite decide_True).
    assert (is_Some (Some h)) as Hs by eauto. assert (flock s1 = Some h /\ yields s1 = yields s /\ requesters s1 = requesters s /\ takeover_file s1 = takeover_file s) as (H1 & H2 & H3 & H4) by done.
    clearbody s1. assert (lock_file_pid s1 = lock_file_pid s1) as _ by done.
    destruct (lock_file_pid s1) as [holder|]; [|split_and!; [done|done|done|left; by split_and!]].
    destruct (negb (holder =? p) && pid_alive s1 holder && negb (ever_held (procs s1 p))) eqn:Ec; [|split_and!; [done|done|done|left; by split_and!]].
    unfold request_takeover_once. destruct (takeover_requested (procs s1 p)) eqn:Et; [split_and!; [done|done|done|left; by split_and!]|].
    bool_to_prop. rewrite Hp in *. split_and!; [done|done|done|]. right. split_and!; [done|done|cbn; by rewrite H3|].
    intros q. cbn. destruct (decide (q = p)) as [->|Hne]; [by rewrite Hp|by rewrite Hq, decide_False].
  - left. set (s1 := upd p (set_acquired p) _). assert (procs s1 p = set_acquired p (procs s p)) as Hp by (subst s1; by rewrite procs_upd_eq).
    destruct (procs_clear None s1) as (Hc & Hf & Hr & Hy). split_and!; [done|by cbn; rewrite ?Hf|done|done|done|].
    intros q. rewrite procs_upd, Hc. destruct (decide (q = p)) as [->|Hne]; [by rewrite Hp|]. subst s1. by rewrite procs_upd, decide_False.
Qed.

(** The effect of a check: nothing but on the file, or one yield. *)
Lemma loop_check_spec p i s :
  flock (loop_check p i s) = flock s /\ requesters (loop_check p i s) = requesters s /\
  ((yields (loop_check p i s) = yields s /\ procs (loop_check p i s) = procs s /\
    (takeover_file (loop_check p i s) = takeover_file s \/ takeover_file (loop_check p i s) = NoFile)) \/
   (exists pid, pid <> p /\ takeover_file s = Request pid /\ pid_alive s pid = true /\
    yields (loop_check p i s) = (if bool_decide (flock s = Some p) then S (yields s) else yields s) /\
    takeover_file (loop_check p i s) = takeover_file s /\
    forall q, procs (loop_check p i s) q = if decide (q = p) then set_loop false (go i YieldDrain (set_yielded pid (procs s p))) else procs s q)).
Proof.
  unfold loop_check, takeover_yield_requested, read_takeover_request.
  destruct (takeover_file s) as [| |pid] eqn:E; [split_and!; [done..|left; by split_and!; auto]|
    split_and!; [done..|left; split_and!; auto]|].
  destruct (0 <? pid); [|split_and!; [done..|left; split_and!; auto]].
  assert (forall o, takeover_file (clear_takeover_request o s) = takeover_file s \/
    takeover_file (clear_takeover_request o s) = NoFile) as Hcl.
  { intros o. unfold clear_takeover_request, read_takeover_request. destruct o as [me|]; [|by right].
    rewrite E. repeat case_match; simpl; auto. }
  destruct (procs_clear (Some pid) s) as (Hp & Hf & Hr & Hy).
  specialize (Hcl (Some pid)). rewrite E in Hcl.
  destruct (Z.eqb_spec pid p); [split_and!; [done..|left; by split_and!]|].
  destruct (pid_alive s pid) eqn:Ea; cbn [negb]; [|split_and!; [done..|left; by split_and!]].
  split_and!; [done..|]. right. exists pid. split_and!; try done.
  intros q. cbn. destruct (decide (q = p)) as [->|Hne]; [by rewrite decide_True|done].
Qed.

(** A step concerns one process: its record, and the lock only if it takes or frees it. *)
Definition lock_moves (p : Z) (l l' : option Z) : Prop := l' = l \/ (l = None /\ l' = Some p) \/ (l = Some p /\ l' = None).
Definition moves (p : Z) (s s' : sys) : Prop := (forall q, q <> p -> procs s' q = procs s q) /\ lock_moves p (flock s) (flock s').
Lemma freed_moves p (l : option Z) : lock_moves p l (if bool_decide (l = Some p) then None else l).
Proof. case_bool_decide; [by right; right|by left]. Qed.
Lemma upd_moves p f s s' : moves p s s' -> moves p s (upd p f s').
Proof. intros [H1 H2]. split; [|done]. intros q Hq. rewrite procs_upd, decide_False by done. by apply H1. Qed.
Lemma release_moves p s : moves p s (release_singleton_lock p s).
Proof.
  destruct (release_spec p s) as (Hp & Hf & _). split; [|rewrite Hf; apply freed_moves].
  intros q Hq. by rewrite Hp, procs_upd, decide_False.
Qed.
Lemma moves_refl p s : moves p s s.
Proof. split; [done|by left]. Qed.
Create HintDb moves_db.
#[local] Hint Resolve upd_moves release_moves moves_refl : moves_db.
Lemma attempt_moves p i s : moves p s (attempt p i s).
Proof.
  destruct (attempt_spec p i s) as [(H1 & H2 & _ & _ & _ & Hp)|(_ & H2 & _ & [(_ & _ & Hp)|(_ & _ & _ & Hp)])];
    (split; [intros q Hq; rewrite Hp; by rewrite decide_False|]); [right; by left|by left|by left].
Qed.
Lemma check_moves p i s : moves p s (loop_check p i s).
Proof.
  destruct (loop_check_spec p i s) as (Hf & _ & [(_ & Hp & _)|(pid & _ & _ & _ & _ & _ & Hp)]); (split; [|by left]); intros q Hq; rewrite Hp; [done|by rewrite decide_False].
Qed.
Lemma die_moves p s : moves p s (if bool_decide (flock s = Some p) then with_flock None s else s).
Proof. case_bool_decide as E; [|apply moves_refl]. split; [done|]. rewrite E. right. by right. Qed.
#[local] Hint Resolve attempt_moves check_moves die_moves : moves_db.
Lemma others_keep p q l l' : q <> p -> lock_moves p l l' -> (l = Some q -> l' = Some q).
Proof. intros Hne [->|[[-> ->]|[-> ->]]] H; [done|done|congruence]. Qed.
Lemma proc_inv_lock l l' p x : (l = Some p -> l' = Some p) -> proc_inv l p x -> proc_inv l' p x.
Proof. intros Hl [H1 H2 H3 H4]. split; [done|done|done|]. intros Ho i t Hi Ht. by eapply Hl, H4. Qed.

(** ** The runner that moves *)

Lemma insert_at (l : list phase) i t j u : <[i := t]> l !! j = Some u -> (j = i /\ u = t) \/ (j <> i /\ l !! j = Some u).
Proof.
  intros H. destruct (decide (j = i)) as [->|Hne]; [|rewrite list_lookup_insert_ne in H by done; by right].
  left. split; [done|]. apply list_lookup_insert_Some in H as [(_ & -> & _)|(? & _)]; done.
Qed.
(** Another phase for a thread: fine when it may be there, and holds if it should. *)
Lemma inv_go l p x y i t u : proc_inv l p x -> threads x !! i = Some t -> t <> Idle ->
  (holding u = true -> executors_open x = true -> l = Some p) ->
  threads y = <[i := u]> (threads x) -> current y = current x -> executors_open y = executors_open x ->
  stops_draining y = stops_draining x -> running y = running x -> inflight y = inflight x -> proc_inv l p y.
Proof.
  intros [H1 H2 H3 H4] Hi Hne Hu Ht Hc Ho Hd Hr Hn. split; rewrite ?Hr, ?Hn, ?Hd, ?Ho; try done; intros Hop j v; rewrite Ht; intros [[-> ->]|[Hji Hj]]%insert_at Hv.
  - rewrite Hc. by eapply H3.
  - rewrite Hc. by eapply H3.
  - by apply Hu.
  - by eapply H4.
Qed.
(** A release by the thread that drained: no other of an open runner holds the lock. *)
Lemma inv_release l l' p x y i t : proc_inv l p x -> threads x !! i = Some t -> t <> Idle ->
  threads y = <[i := Acquiring]> (threads x) -> current y = current x -> executors_open y = executors_open x ->
  stops_draining y = stops_draining x -> running y = running x -> inflight y = inflight x -> proc_inv l' p y.
Proof.
  intros [H1 H2 H3 H4] Hi Hne Ht Hc Ho Hd Hr Hn. split; rewrite ?Hr, ?Hn, ?Hd, ?Ho; try done; intros Hop j v; rewrite Ht; intros [[-> ->]|[Hji Hj]]%insert_at Hv.
  - rewrite Hc. by eapply H3.
  - rewrite Hc. by eapply H3.
  - done.
  - assert (v <> Idle) as Hv' by (by intros ->). assert (current x = Some j) by (by eapply H3). assert (current x = Some i) by (by eapply H3). congruence.
Qed.
Lemma inv_same l p x y : proc_inv l p x -> threads y = threads x -> current y = current x -> executors_open y = executors_open x ->
  (stops_draining y = stops_draining x) -> (running y <= inflight y)%nat -> proc_inv l p y.
Proof. intros [H1 H2 H3 H4] Ht Hc Ho Hd Hr. split; rewrite ?Hd, ?Ho, ?Ht, ?Hc; done. Qed.
Lemma inv_closed l p y : executors_open y = false -> (running y <= inflight y)%nat -> proc_inv l p y.
Proof. intros Ho Hr. split; [done|done|by rewrite Ho|by rewrite Ho]. Qed.
Lemma worker_gone_idle l p x i t : proc_inv l p x -> executors_open x = true -> worker_gone x = true -> threads x !! i = Some t -> t = Idle.
Proof.
  intros [_ _ H3 _] Ho Hw Hi. destruct (decide (t = Idle)) as [->|Hne]; [done|]. pose proof (H3 Ho i t Hi Hne) as Hc.
  unfold worker_gone in Hw. rewrite Hc in Hw. apply bool_decide_eq_true in Hw. congruence.
Qed.
Lemma inv_start l p x : proc_inv l p x -> worker_gone x = true -> proc_inv l p (start_worker x).
Proof.
  intros Hx Hw. pose proof Hx as [H1 H2 H3 H4]. split; [done|done| |]; intros Ho i t Hi Ht; cbn in *; apply lookup_app_Some in Hi as [Hi|[Hge Hi]].
  - by rewrite (worker_gone_idle _ _ _ _ _ Hx Ho Hw Hi) in Ht.
  - apply list_lookup_singleton_Some in Hi as [Hi _]. f_equal. lia.
  - by eapply H4.
  - by apply list_lookup_singleton_Some in Hi as [_ <-].
Qed.
(** What a step does to the process it concerns. *)
Record own (b : bool) (p : Z) (s s' : sys) : Prop := {
  ow_moves : moves p s s';
  ow_inv : proc_inv (flock s') p (procs s' p);
  ow_ticks : b = true -> (running (procs s p) <> 0%nat -> flock s = Some p) -> running (procs s' p) <> 0%nat -> flock s' = Some p;
  ow_shut : executors_open (procs s p) = false -> executors_open (procs s' p) = false /\ (running (procs s' p) <= running (procs s p))%nat;
}.
Lemma released_procs p f s : procs (upd p f (release_singleton_lock p s)) p = f (set_released (procs s p)).
Proof. rewrite procs_upd_eq. destruct (release_spec p s) as (-> & _). by rewrite procs_upd_eq. Qed.
Lemma own_upd p f s : proc_inv (flock s) p (procs s p) -> proc_inv (flock s) p (f (procs s p)) -> (running (f (procs s p)) <= running (procs s p))%nat ->
  executors_open (f (procs s p)) = executors_open (procs s p) \/ executors_open (f (procs s p)) = false -> own true p s (upd p f s).
Proof.
  intros H H' Hr Ho. split; [auto with moves_db|by rewrite procs_upd_eq| |]; rewrite procs_upd_eq.
  - intros _ Hd Hn. cbn. apply Hd. lia.
  - intros Hc. split; [|done]. destruct Ho as [->| ->]; done.
Qed.
(** A release by a worker. *)
Lemma own_release b p i t s : lock_inv s -> thread_at p i t s -> t <> Idle ->
  (b = true -> running (procs s p) = 0%nat) -> own b p s (upd p (go i Acquiring) (release_singleton_lock p s)).
Proof.
  intros Hi Ht Hne Hb. split; [auto with moves_db| | |]; rewrite released_procs; [|by intros Hb' _ Hn; cbn in Hn; rewrite Hb in Hn|done].
  by eapply (inv_release (flock s) _ p (procs s p)); [apply Hi|exact Ht|exact Hne|..].
Qed.

Lemma step_own b s s' : lock_inv s -> step b s s' -> exists p, own b p s s'.
Proof.
  intros Hi Hs. destruct Hs as [p s Ha Hw|p i s Ht Hns|p i s Ht|p i s Ht Hst|p i s Ht|p s n Hn|p i s Ht|p i s Ht Hn|p i s Ht Hst|p i s Ht Hst|p i s Ht|p i s Ht
    |p s Ha|p s k Hj Hk|p s Hd Hn|p s Hd|p s]; exists p; pose proof (Hi p) as Hp; pose proof Hp as [H1 H2 H3 H4].
  - apply own_upd; [done|by apply inv_start|done|by left].
  - apply own_upd; [done| |done|by left]. by eapply (inv_go _ _ _ _ i Acquiring Trying).
  - destruct (attempt_spec p i s) as [(Hf & Hf' & _ & _ & _ & Hq)|(_ & Hf' & _ & [(_ & _ & Hq)|(_ & _ & _ & Hq)])];
      specialize (Hq p); rewrite decide_True in Hq by done; (split; [auto with moves_db|rewrite Hq, Hf'|rewrite Hq, Hf'|rewrite Hq]); try done; try (by intros _ H Hr; apply H).
    + apply (proc_inv_lock (Some p)); [done|]. eapply (inv_go _ _ (procs s p) _ i Trying Looping); [|exact Ht|done..]. by apply (proc_inv_lock (flock s)).
    + by eapply (inv_go _ _ (procs s p) _ i Trying Acquiring); [|exact Ht|..].
    + by eapply (inv_go _ _ (procs s p) _ i Trying Acquiring); [|exact Ht|..].
  - apply own_upd; [done| |done|by left]. by eapply (inv_go _ _ _ _ i Acquiring Idle).
  - split; [auto with moves_db| | |]; rewrite procs_upd_eq; cbn [flock upd].
    + eapply inv_same; [exact Hp|done|done|done|done|]. cbn. destruct (executors_open _); lia.
    + intros _ Hd. cbn. destruct (executors_open (procs s p)) eqn:Ho; [|exact Hd]. intros _. by eapply H4.
    + cbn. by intros ->.
  - apply own_upd; [done| |cbn; lia|by left]. eapply inv_same; [exact Hp|done|done|done|done|cbn; lia].
  - destruct (loop_check_spec p i s) as (Hf & _ & [(_ & Hq & _)|(pid & _ & _ & _ & _ & _ & Hq)]).
    + split; [auto with moves_db|by rewrite Hq, Hf|rewrite Hq, Hf; auto|by rewrite Hq].
    + specialize (Hq p). rewrite decide_True in Hq by done. split; [auto with moves_db|rewrite Hq, Hf|rewrite Hq, Hf; auto|by rewrite Hq].
      eapply (inv_go _ _ (procs s p) _ i Looping YieldDrain); [done|exact Ht|done|intros _ Ho; by eapply H4|done..].
  - eapply own_release; [done|exact Ht|done|]. intros _. lia.
  - eapply own_release; [done|exact Ht|done|]. intros Hb. by apply Nat.eqb_eq in Hb.
  - apply own_upd; [done| |done|by left]. by eapply (inv_go _ _ _ _ i Looping Idle).
  - apply own_upd; [done| |done|by left]. eapply (inv_go _ _ _ _ i Looping CrashDrain); [done|exact Ht|done|intros _ Ho; by eapply H4|done..].
  - eapply own_release; [done|exact Ht|done|]. intros Hb. by apply Nat.eqb_eq in Hb.
  - apply own_upd; [done| |done|by left]. eapply inv_same; [exact Hp|done..].
  - apply own_upd; [done| |cbn; lia|by right]. apply inv_closed; [done|]. cbn. lia.
  - split; [auto with moves_db| | |]; rewrite released_procs.
    + apply inv_closed; [by apply H2|done].
    + intros _ _ Hr. cbn in Hr. lia.
    + done.
  - apply own_upd; [done| |done|by left]. apply inv_closed; [by apply H2|done].
  - split; [auto with moves_db| | |]; rewrite procs_upd_eq; [by apply inv_closed|done|]. intros _. split; [done|]. cbn. lia.
Qed.
Lemma lock_inv_step b s s' : lock_inv s -> step b s s' -> lock_inv s'.
Proof.
  intros Hi Hs q. destruct (step_own b s s' Hi Hs) as (p & [[Ho Hl] Hp _ _]). destruct (decide (q = p)) as [->|Hne]; [done|].
  rewrite Ho by done. eapply proc_inv_lock; [by eapply others_keep|apply Hi].
Qed.
Lemma drained_inv_step s s' : lock_inv s -> drained_inv s -> orderly s s' -> drained_inv s'.
Proof.
  intros Hi Hd Hs q Hq. destruct (step_own true s s' Hi Hs) as (p & [[Ho Hl] _ Ht _]). destruct (decide (q = p)) as [->|Hne]; [by apply Ht; [|apply Hd|]|].
  rewrite Ho in Hq by done. eapply others_keep; [exact Hne|exact Hl|by apply Hd].
Qed.
Lemma shut_step b s s' q : lock_inv s -> step b s s' -> executors_open (procs s q) = false ->
  executors_open (procs s' q) = false /\ (running (procs s' q) <= running (procs s q))%nat.
Proof.
  intros Hi Hs Ho. destruct (step_own b s s' Hi Hs) as (p & [[Hoth _] _ _ Hsh]). destruct (decide (q = p)) as [->|Hne]; [by apply Hsh|]. by rewrite Hoth.
Qed.
Lemma init_inv f : lock_inv (init_sys f) /\ drained_inv (init_sys f).
Proof.
  split; [|by intros p Hp; destruct Hp]. intros p. split; [cbn; lia|done|..]; intros _ i t Hi; cbn in Hi; by rewrite lookup_nil in Hi.
Qed.
Lemma reach_inv f s : rtc any_step (init_sys f) s -> lock_inv s.
Proof.
  intros Hr. refine (rtc_preserves _ lock_inv _ _ _ _ Hr); [|apply init_inv]. intros a b [c Hs] Hl. by eapply lock_inv_step.
Qed.

(** ** Mutual exclusion *)

(** C1: Two processes never run ticks at the same time, as long as every release was
    drained: in any interleaving of starts, lock attempts, takeovers, yields,
    crashes, deaths and stops, those included whose wait for the worker timed out, a
    process whose executors run a tick is the one the kernel says holds the lock, so
    there is at most one. Releases drained or not, a worker in its loop or draining
    holds the lock, so there is at most one such process, until [stop] has shut the
    executors of its runner down; and from then on that runner begins no tick. *)
Theorem lock_mutual_exclusion (f : request_file) (s : sys) :
  (rtc orderly (init_sys f) s ->
     (forall p, running (procs s p) <> 0%nat -> flock s = Some p) /\
     forall p q, running (procs s p) <> 0%nat -> running (procs s q) <> 0%nat -> p = q) /\
  (rtc any_step (init_sys f) s ->
     (forall p i t, executors_open (procs s p) = true -> thread_at p i t s -> holding t = true -> flock s = Some p) /\
     forall p s', executors_open (procs s p) = false -> rtc any_step s s' -> (running (procs s' p) <= running (procs s p))%nat).
Proof.
  split.
  - intros Hr. assert (lock_inv s /\ drained_inv s) as [_ Hd].
    { refine (rtc_preserves _ (fun s => lock_inv s /\ drained_inv s) _ _ _ (init_inv f) Hr).
      intros a b Hs [Hl Hd]. split; [by eapply lock_inv_step|by eapply drained_inv_step]. }
    split; [exact Hd|]. intros p q Hp Hq. apply Hd in Hp, Hq. congruence.
  - intros Hr. pose proof (reach_inv f s Hr) as Hl. split; [intros p i t Ho Ht Hh; by eapply (pi_holds _ _ _ (Hl p))|].
    intros p s' Ho Hr'. assert (lock_inv s' /\ executors_open (procs s' p) = false /\ (running (procs s' p) <= running (procs s p))%nat) as (_ & _ & H); [|done].
    refine (rtc_preserves _ (fun u => lock_inv u /\ executors_open (procs u p) = false /\ (running (procs u p) <= running (procs s p))%nat) _ _ _ _ Hr'); [|done].
    intros a b [c Hs] (Hla & Hoa & Hra). split; [by eapply lock_inv_step|]. destruct (shut_step c a b p Hla Hs Hoa) as [Hob Hrb]. split; [done|lia].
Qed.

(** ** Takeovers *)

(** A pending request can cost the loop that holds the lock one yield, a spent one none. *)
Record request_inv (s : sys) : Prop := {
  ri_asked : forall p, p ∈ requesters s -> takeover_requested (procs s p) = true;
  ri_yields : (yields s <= size (requesters s))%nat;
  ri_pending : forall p i q, takeover_file s = Request q -> flock s = Some p -> thread_at p i Looping s -> (yields s < size (requesters s))%nat;
}.
Definition single (s : sys) : Prop := forall p, (length (threads (procs s p)) <= 1)%nat.

(** A step that moves no file, no lock but to free it, and starts no loop. *)
Record calm (s s' : sys) : Prop := {
  ca_requesters : requesters s' = requesters s;
  ca_yields : yields s' = yields s;
  ca_file : takeover_file s' = takeover_file s \/ takeover_file s' = NoFile;
  ca_lock : forall p, flock s' = Some p -> flock s = Some p;
  ca_asked : forall p, takeover_requested (procs s' p) = takeover_requested (procs s p);
  ca_loops : forall p i, thread_at p i Looping s' -> thread_at p i Looping s;
}.
Lemma request_calm s s' : calm s s' -> request_inv s -> request_inv s'.
Proof.
  intros [Hr Hy Hf Hl Ha Ht] [H1 H2 H3]. split; rewrite ?Hr, ?Hy; [intros p; rewrite Ha; apply H1|done|].
  intros p i q Hq Hp Hi. destruct Hf as [Hf|Hf]; rewrite Hf in Hq; [|done]. eapply H3; [exact Hq|by apply Hl|by apply Ht].
Qed.
Lemma calm_upd p f s s' : calm s s' -> takeover_requested (f (procs s' p)) = takeover_requested (procs s' p) ->
  (forall i, threads (f (procs s' p)) !! i = Some Looping -> threads (procs s' p) !! i = Some Looping) -> calm s (upd p f s').
Proof.
  intros [Hr Hy Hf Hl Ha Ht] Hq Hi. split; try done.
  - intros q. rewrite procs_upd. destruct (decide (q = p)) as [->|]; [by rewrite Hq|done].
  - intros q i. unfold thread_at in *. rewrite procs_upd. destruct (decide (q = p)) as [->|]; [intros H; apply Ht, Hi, H|apply Ht].
Qed.
Lemma calm_refl s : calm s s.
Proof. split; try done. by left. Qed.
Lemma calm_release p s : calm s (release_singleton_lock p s).
Proof.
  destruct (release_spec p s) as (Hp & Hf & Ht & Hr & Hy). split; [done|done|by left| | |].
  - intros q. rewrite Hf. by case_bool_decide.
  - intros q. rewrite Hp, procs_upd. by destruct (decide (q = p)) as [->|].
  - intros q i. unfold thread_at. rewrite Hp, procs_upd. by destruct (decide (q = p)) as [->|].
Qed.
Lemma go_loops i t j (l : list phase) : t <> Looping -> <[i := t]> l !! j = Some Looping -> l !! j = Some Looping.
Proof. intros Ht [[-> E]|[_ H]]%insert_at; [by symmetry in E|done]. Qed.
Lemma request_inv_step b s s' : request_inv s -> step b s s' -> single s' -> request_inv s'.
Proof.
  intros Hi Hs Hone. pose proof Hi as [Hr Hy Hlt].
  destruct Hs as [p s Ha Hw|p i s Ht Hns|p i s Ht|p i s Ht Hst|p i s Ht|p s n Hn|p i s Ht|p i s Ht Hn|p i s Ht Hst|p i s Ht Hst|p i s Ht|p i s Ht
    |p s Ha|p s k Hj Hk|p s Hd Hn|p s Hd|p s].
  3: { destruct (attempt_spec p i s) as [(Hf & Hf' & Hto & Hrq & Hye & Hp)|(_ & Hf' & Hye & [(Hrq & Hto & Hp)|(Htr & _ & Hrq & Hp)])]; split; rewrite ?Hrq, ?Hye, ?Hto; try done.
    - intros q Hq. rewrite Hp. destruct (decide (q = p)) as [->|]; [by apply Hr|by apply Hr].
    - intros q Hq. rewrite Hp. destruct (decide (q = p)) as [->|]; [by apply Hr|by apply Hr].
    - intros q j r Hq Hl Hj. rewrite Hf' in Hl. apply (Hlt q j r Hq Hl). revert Hj. unfold thread_at. rewrite Hp. destruct (decide (q = p)) as [->|]; [by apply go_loops|done].
    - intros q Hq. rewrite Hp. destruct (decide (q = p)) as [->|]; [done|]. apply Hr. set_solver.
    - assert (p ∉ requesters s) as Hni by (intros Hin; apply Hr in Hin; congruence). rewrite size_union by set_solver. rewrite size_singleton. lia.
    - intros q j r _ _ _. assert (p ∉ requesters s) as Hni by (intros Hin; apply Hr in Hin; congruence). rewrite size_union by set_solver. rewrite size_singleton. lia. }
  6: { destruct (loop_check_spec p i s) as (Hf & Hrq & [(Hye & Hp & Hto)|(pid & _ & Hto & _ & Hye & Hto' & Hp)]).
    - apply (request_calm s); [|done]. split; rewrite ?Hf, ?Hp; try done. unfold thread_at. by rewrite Hp.
    - assert (forall q j, thread_at q j Looping (loop_check p i s) -> q <> p /\ thread_at q j Looping s) as Hno.
      { intros q j Hj. pose proof (Hone p) as Hlen. unfold thread_at in Hj. rewrite Hp in *. destruct (decide (q = p)) as [->|Hne]; [|done]. rewrite decide_True in Hlen by done.
        exfalso. cbn in Hj, Hlen. rewrite length_insert in Hlen. assert (i < length (threads (procs s p)))%nat by (by eapply lookup_lt_Some).
        assert (j < length (<[i:=YieldDrain]> (threads (procs s p))))%nat as Hj' by (by eapply lookup_lt_Some). rewrite length_insert in Hj'.
        assert (j = i) as -> by lia. by apply list_lookup_insert_Some in Hj as [(_ & ? & _)|(? & _)]. }
      split; rewrite ?Hrq, ?Hye.
      + intros q Hq. rewrite Hp. destruct (decide (q = p)) as [->|]; by apply Hr.
      + case_bool_decide as E; [|done]. pose proof (Hlt p i pid Hto E Ht). lia.
      + intros q j r Hq Hl Hj. destruct (Hno q j Hj) as [Hne Hj']. rewrite Hf in Hl. rewrite bool_decide_false by congruence. rewrite Hto' in Hq. by eapply Hlt. }
  all: apply (request_calm s); [|done].
  all: repeat first [apply calm_upd; [first [apply calm_refl|apply calm_release|idtac]|done|cbn; try (intros j; first [done|by apply go_loops])]].
  - intros j [Hj|[_ [_ Hj]%list_lookup_singleton_Some]]%lookup_app_Some; done.
  - split; case_bool_decide; try done; by left.
  - intros j Hj. rewrite list_lookup_fmap in Hj. by destruct (_ !! j).
Qed.
Lemma threads_grow b s s' p : step b s s' -> (length (threads (procs s p)) <= length (threads (procs s' p)))%nat.
Proof.
  intros Hs. destruct Hs as [q s Ha Hw|q i s Ht Hns|q i s Ht|q i s Ht Hst|q i s Ht|q s n Hn|q i s Ht|q i s Ht Hn|q i s Ht Hst|q i s Ht Hst|q i s Ht|q i s Ht
    |q s Ha|q s k Hj Hk|q s Hd Hn|q s Hd|q s].
  3: { destruct (attempt_spec q i s) as [(_ & _ & _ & _ & _ & Hp)|(_ & _ & _ & [(_ & _ & Hp)|(_ & _ & _ & Hp)])]; rewrite Hp; destruct (decide (p = q)) as [->|]; cbn; rewrite ?length_insert; done. }
  6: { destruct (loop_check_spec q i s) as (_ & _ & [(_ & Hp & _)|(pid & _ & _ & _ & _ & _ & Hp)]); rewrite Hp; [done|]; destruct (decide (p = q)) as [->|]; cbn; rewrite ?length_insert; done. }
  all: rewrite procs_upd; try (destruct (release_spec q s) as (Hp & _); rewrite !Hp, !procs_upd).
  all: try case_bool_decide; destruct (decide (p = q)) as [->|]; cbn; rewrite ?decide_True by done; cbn; rewrite ?length_insert, ?length_app, ?length_map; cbn; try lia.
Qed.
Lemma reach_requests f s : rtc any_step (init_sys f) s -> single s -> request_inv s.
Proof.
  intros Hr. apply rtc_ind_r with (P := fun s => single s -> request_inv s) in Hr; [done| |].
  - intros _. split; [by intros p Hp%not_elem_of_empty|done|]. intros p i q _ _ Hi. unfold thread_at in Hi. cbn in Hi. by rewrite lookup_nil in Hi.
  - intros a b _ [c Hs] IH Hone. eapply request_inv_step; [|exact Hs|done]. apply IH. intros p. pose proof (threads_grow c a b p Hs). specialize (Hone p). lia.
Qed.

(** ownership cannot ping-pong while no runner is started after a stop: whatever
    else happens (crashes, interrupted drains and deaths included), a loop that holds
    the lock gives way at most once per process that asked, each process asks at most
    once, and only one that never held the lock asks; so once no new process asks,
    the holder keeps the lock until it stops. *)
Theorem takeover_is_bounded (f : request_file) (s : sys) :
  rtc any_step (init_sys f) s -> single s ->
  (yields s <= size (requesters s))%nat /\
  (forall b s', step b s s' -> requesters s' <> requesters s ->
     exists p, requesters s' = {[p]} ∪ requesters s /\ (p ∉ requesters s) /\ ever_held (procs s p) = false).
Proof.
  intros Hr Hone. pose proof (reach_requests f s Hr Hone) as [Hreq Hy _].
  split; [done|]. intros b s' Hs Hne. destruct Hs; try done.
  all: try (by destruct (release_spec p s) as (_ & _ & _ & Hq & _)).
  - destruct (attempt_spec p i s) as [(_ & _ & _ & Hq & _)|(_ & _ & _ & [(Hq & _)|(Hn & He & Hq & _)])]; try done.
    exists p. split_and!; [done| |done]. intros Hin. apply Hreq in Hin. congruence.
  - by destruct (loop_check_spec p i s) as (_ & Hq & _).
Qed.

(** ** Runs *)

(** Process 1 ticks and gives the lock up to process 2; it is told to stop while its
    yield drains a tick. *)
Definition holder_ticks : sys := upd 1 submit (attempt 1 0 (upd 1 (go 0 Trying) (upd 1 start_worker (init_sys NoFile)))).
Lemma holder_ticks_reached : rtc orderly (init_sys NoFile) holder_ticks.
Proof.
  eapply rtc_l; [by apply (SStart 1)|]. eapply rtc_l; [by apply (SGo 1 0)|]. eapply rtc_l; [by apply (SAttempt 1 0)|].
  apply rtc_once. unfold holder_ticks. apply (SSubmit 1 0). by vm_compute.
Qed.
Definition asked : sys := attempt 2 0 (upd 2 (go 0 Trying) (upd 2 start_worker holder_ticks)).
Lemma asked_reached : rtc orderly holder_ticks asked.
Proof.
  eapply rtc_l; [apply (SStart 2 holder_ticks); by vm_compute|].
  eapply rtc_l; [apply (SGo 2 0 (upd 2 start_worker holder_ticks)); by vm_compute|].
  apply rtc_once. unfold asked. apply (SAttempt 2 0). by vm_compute.
Qed.
Definition stopped_draining : sys := upd 1 stop_begins (loop_check 1 0 asked).
Lemma stopped_draining_reached : rtc orderly (init_sys NoFile) stopped_draining.
Proof.
  etrans; [apply holder_ticks_reached|]. etrans; [apply asked_reached|].
  eapply rtc_l; [apply (SCheck 1 0 asked); by vm_compute|]. apply rtc_once. unfold stopped_draining. apply (SStop 1). by vm_compute.
Qed.
Definition interrupted : sys := upd 1 (go 0 Acquiring) (release_singleton_lock 1 stopped_draining).

(** The yield path's drain ends as soon as [stop] is called, and the lock is released
    with the tick still running: both processes run one. *)
Theorem stop_during_yield_breaks_exclusion :
  exists s : sys, rtc orderly (init_sys NoFile) stopped_draining /\ step false stopped_draining interrupted /\
    rtc orderly interrupted s /\ running (procs s 1) = 1%nat /\ running (procs s 2) = 1%nat.
Proof.
  set (a := upd 2 (go 0 Trying) interrupted). set (b := attempt 2 0 a).
  exists (upd 2 submit b). split_and!; [apply stopped_draining_reached| | |by vm_compute|by vm_compute].
  - change false with (running (procs stopped_draining 1) =? 0)%nat. apply (SYieldInterrupted 1 0 stopped_draining); by vm_compute.
  - eapply rtc_l; [apply (SGo 2 0 interrupted); by vm_compute|].
    eapply rtc_l; [apply (SAttempt 2 0 a); by vm_compute|]. apply rtc_once. apply (SSubmit 2 0 b). by vm_compute.
Qed.

(** A worker that was past its check of [_stop] when [stop] stopped waiting for it may
    take the lock after [stop] released it: the runner keeps it for good, with no
    worker left to release it. *)
Theorem late_worker_keeps_the_lock :
  exists s : sys, rtc orderly (init_sys NoFile) s /\ flock s = Some 1 /\ running (procs s 1) = 0%nat /\
    threads (procs s 1) = [Idle] /\ current (procs s 1) = None /\ stops_joining (procs s 1) = 0%nat /\ stops_draining (procs s 1) = 0%nat.
Proof.
  set (a0 := init_sys NoFile). set (a1 := upd 1 start_worker a0). set (a2 := upd 1 (go 0 Trying) a1). set (a3 := upd 1 stop_begins a2).
  set (a4 := upd 1 (stop_shuts 0) a3). set (a5 := upd 1 stop_ends (release_singleton_lock 1 a4)). set (a6 := attempt 1 0 a5).
  exists (upd 1 (fun x => set_loop false (go 0 Idle x)) a6). split_and!; [|by vm_compute..].
  eapply rtc_l; [apply (SStart 1 a0); by vm_compute|]. eapply rtc_l; [apply (SGo 1 0 a1); by vm_compute|].
  eapply rtc_l; [apply (SStop 1 a2); by vm_compute|]. eapply rtc_l; [apply (SStopShuts 1 a3 0); [by vm_compute|lia]|].
  eapply rtc_l; [apply (SStopRelease 1 a4); by vm_compute|]. eapply rtc_l; [apply (SAttempt 1 0 a5); by vm_compute|].
  apply rtc_once. apply (SLoopStop 1 0 a6); by vm_compute.
Qed.

(** Process 1 runs a tick while its [stop] has given up the wait for the worker. *)
Definition timed_out : sys := upd 1 (stop_shuts 0) (upd 1 stop_begins holder_ticks).
Lemma lock_mutual_exclusion_witness : running (procs timed_out 1) = 1%nat /\ thread_at 1 0 Looping timed_out /\ flock timed_out = Some 1.
Proof.
  split; [by vm_compute|]. split; [by vm_compute|]. apply (lock_mutual_exclusion NoFile timed_out); [|by vm_compute].
  etrans; [apply holder_ticks_reached|]. eapply rtc_l; [apply (SStop 1); by vm_compute|].
  apply rtc_once. unfold timed_out. apply (SStopShuts 1); [by vm_compute|lia].
Defined.
