(* ===== verification/OrdDict.v ===== *)
(** * Ordered dictionaries

    A Python dict whose insertion order the code reads: an association list in
    which a key occurs once; assigning to a present key keeps its place. *)

From S2P Require Import Prelude.

Section OrdDict.
Context {K V : Type} `{EqDecision K}.

Abbreviation odict := (list (K * V)).

Fixpoint oget (k : K) (d : odict) : option V :=
  match d with
  | [] => None
  | (k', v) :: d => if decide (k = k') then Some v else oget k d
  end.

(** [d[k] = v] *)
Fixpoint oset (k : K) (v : V) (d : odict) : odict :=
  match d with
  | [] => [(k, v)]
  | (k', v') :: d => if decide (k = k') then (k, v) :: d else (k', v') :: oset k v d
  end.

(** [d.pop(k, None)] *)
Definition opop (k : K) (d : odict) : odict := List.filter (fun kv => negb (bool_decide (k = fst kv))) d.

(** [for k in ks: d.pop(k, None)] *)
Definition opops (ks : list K) (d : odict) : odict := fold_left (fun d k => opop k d) ks d.

Definition okeys (d : odict) : list K := map fst d.

Lemma oget_oset_eq k v d : oget k (oset k v d) = Some v.
Proof.
  induction d as [|[k' v'] d IH]; simpl; [by rewrite decide_True|].
  destruct (decide (k = k')); simpl; [by rewrite decide_True|by rewrite decide_False].
Qed.
Lemma oget_oset_ne k k' v d : k <> k' -> oget k' (oset k v d) = oget k' d.
Proof.
  intros Hne. induction d as [|[j w] d IH]; simpl; [by rewrite decide_False by congruence|].
  destruct (decide (k = j)) as [->|]; simpl; [by rewrite !decide_False by congruence|].
  by destruct (decide (k' = j)).
Qed.
Lemma oset_oset k v w d : oset k v (oset k w d) = oset k v d.
Proof.
  induction d as [|[j u] d IH]; simpl; [by rewrite decide_True|].
  destruct (decide (k = j)) eqn:E; simpl; [by rewrite decide_True|]. by rewrite E, IH.
Qed.
Lemma length_oset_present k v d : is_Some (oget k d) -> length (oset k v d) = length d.
Proof.
  induction d as [|[j w] d IH]; simpl; [by intros [? ?]|]. destruct (decide (k = j)); simpl; [done|].
  intros H. by rewrite IH.
Qed.
Lemma oget_opop_eq k d : oget k (opop k d) = None.
Proof.
  induction d as [|[j w] d IH]; simpl; [done|]. case_bool_decide; simpl; [done|]. by rewrite decide_False.
Qed.
Lemma oget_opop_ne k k' d : k <> k' -> oget k' (opop k d) = oget k' d.
Proof.
  intros Hne. induction d as [|[j w] d IH]; simpl; [done|]. case_bool_decide as E; simpl.
  - subst j. by rewrite decide_False by congruence.
  - by rewrite IH.
Qed.
Lemma oget_opop_None k d : oget k d = None -> opop k d = d.
Proof.
  induction d as [|[j w] d IH]; simpl; [done|]. destruct (decide (k = j)); [done|]. intros H.
  rewrite bool_decide_eq_false_2 by done. simpl. by rewrite IH.
Qed.

Lemma oget_opops ks k d : oget k (opops ks d) = if bool_decide (k ∈ ks) then None else oget k d.
Proof.
  revert d. induction ks as [|j ks IH]; intros d; [done|].
  change (opops (j :: ks) d) with (opops ks (opop j d)). rewrite IH. destruct (decide (j = k)) as [->|Hne].
  - rewrite oget_opop_eq, (bool_decide_eq_true_2 (k ∈ k :: ks)) by constructor. by destruct (bool_decide _).
  - rewrite oget_opop_ne by done. repeat case_bool_decide; set_solver.
Qed.

Lemma length_opop k d : (length (opop k d) <= length d)%nat.
Proof. apply length_lfilter_le. Qed.
Lemma length_opops ks d : (length (opops ks d) <= length d)%nat.
Proof.
  revert d. induction ks as [|k ks IH]; intros d; simpl; [done|]. etrans; [apply IH|apply length_opop].
Qed.
Lemma length_oset k v d : (length (oset k v d) <= S (length d))%nat.
Proof.
  induction d as [|[j w] d IH]; simpl; [done|]. destruct (decide (k = j)); simpl; lia.
Qed.
Lemma oget_Some_elem k v d : oget k d = Some v -> (k, v) ∈ d.
Proof.
  induction d as [|[j w] d IH]; simpl; [done|]. destruct (decide (k = j)) as [->|].
  - intros [= ->]. constructor.
  - intros H. constructor. auto.
Qed.
Lemma oget_None_elem k v d : oget k d = None -> (k, v) ∉ d.
Proof.
  induction d as [|[j w] d IH]; simpl; [intros _; apply not_elem_of_nil|]. destruct (decide (k = j)); [done|].
  intros H [[= -> ->]|Hin]%elem_of_cons; [done|]. by apply IH.
Qed.
Lemma oget_opop_None_any k j d : oget j d = None -> oget j (opop k d) = None.
Proof. intros H. destruct (decide (k = j)) as [->|]; [apply oget_opop_eq|by rewrite oget_opop_ne]. Qed.
Lemma opops_elem ks kv d : kv ∈ opops ks d <-> kv ∈ d /\ kv.1 ∉ ks.
Proof.
  revert d. induction ks as [|k ks IH]; intros d; simpl.
  - split; [intros; split; [done|apply not_elem_of_nil]|by intros [? _]].
  - rewrite IH. unfold opop. rewrite elem_of_lfilter, negb_true_iff, bool_decide_eq_false.
    rewrite not_elem_of_cons. naive_solver.
Qed.
Lemma NoDup_okeys_oset k v d : NoDup (okeys d) -> NoDup (okeys (oset k v d)).
Proof.
  induction d as [|[j w] d IH]; simpl; intros Hd; [constructor; [apply not_elem_of_nil|constructor]|].
  destruct (decide (k = j)) as [->|Hne]; [done|]. apply NoDup_cons in Hd as [Hj Hd]. simpl.
  apply NoDup_cons. split; [|by apply IH]. intros Hin. apply Hj. revert Hin. clear -Hne.
  induction d as [|[i u] d IH]; simpl; [intros ?%list_elem_of_singleton; congruence|].
  destruct (decide (k = i)) as [->|]; [done|]. simpl. rewrite !elem_of_cons. naive_solver.
Qed.
Lemma NoDup_okeys_opop k d : NoDup (okeys d) -> NoDup (okeys (opop k d)).
Proof.
  unfold okeys, opop. induction d as [|[j w] d IH]; simpl; intros Hd; [constructor|].
  apply NoDup_cons in Hd as [Hj Hd]. destruct (negb _); simpl; [|by apply IH].
  apply NoDup_cons. split; [|by apply IH]. intros Hin. apply Hj.
  apply list_elem_of_fmap in Hin as (kv & -> & Hkv). apply elem_of_lfilter in Hkv as [? _].
  by apply (list_elem_of_fmap_2 fst).
Qed.
Lemma NoDup_oget k v d : NoDup (okeys d) -> (k, v) ∈ d -> oget k d = Some v.
Proof.
  induction d as [|[j w] d IH]; simpl; intros Hd Hin; [by apply not_elem_of_nil in Hin|].
  apply NoDup_cons in Hd as [Hj Hd]. apply elem_of_cons in Hin as [[= -> ->]|Hin]; [by rewrite decide_True|].
  rewrite decide_False; [auto|]. intros ->. apply Hj. by apply (list_elem_of_fmap_2 fst _ (j, v)).
Qed.
Lemma elem_okeys_opop k j d : j ∈ okeys (opop k d) <-> j ∈ okeys d /\ j <> k.
Proof.
  unfold okeys, opop. split.
  - intros (kv & -> & Hin)%list_elem_of_fmap. apply elem_of_lfilter in Hin as [Hin Hne].
    apply negb_true_iff, bool_decide_eq_false in Hne. split; [by apply list_elem_of_fmap_2|congruence].
  - intros [(kv & -> & Hin)%list_elem_of_fmap Hne]. apply list_elem_of_fmap_2, elem_of_lfilter.
    split; [done|]. apply negb_true_iff, bool_decide_eq_false. congruence.
Qed.
Lemma length_opop_present k d : NoDup (okeys d) -> k ∈ okeys d -> S (length (opop k d)) = length d.
Proof.
  induction d as [|[j w] d IH]; simpl; intros Hd Hin; [by apply not_elem_of_nil in Hin|].
  apply NoDup_cons in Hd as [Hj Hd]. apply elem_of_cons in Hin as [->|Hin].
  - rewrite bool_decide_eq_true_2 by done. simpl. f_equal. unfold opop. f_equal. apply lfilter_all.
    intros kv Hkv. apply negb_true_iff, bool_decide_eq_false. intros ->. apply Hj. by apply (list_elem_of_fmap_2 fst).
  - rewrite bool_decide_eq_false_2 by (by intros ->). simpl. f_equal. auto.
Qed.
Lemma length_opops_present ks d :
  NoDup (okeys d) -> NoDup ks -> (forall k, k ∈ ks -> k ∈ okeys d) -> (length (opops ks d) + length ks = length d)%nat.
Proof.
  revert d. induction ks as [|k ks IH]; intros d Hd Hks Hin; [simpl; lia|].
  apply NoDup_cons in Hks as [Hk Hks]. change (opops (k :: ks) d) with (opops ks (opop k d)). simpl.
  pose proof (length_opop_present k d Hd (Hin k (list_elem_of_here _ _))) as Hlen.
  assert (length (opops ks (opop k d)) + length ks = length (opop k d))%nat; [|lia].
  apply IH; [by apply NoDup_okeys_opop|done|]. intros j Hj. apply elem_okeys_opop.
  split; [apply Hin; by constructor|]. intros ->. done.
Qed.
Lemma NoDup_okeys_opops ks d : NoDup (okeys d) -> NoDup (okeys (opops ks d)).
Proof. revert d. induction ks as [|k ks IH]; intros d; simpl; [done|]. intros Hd. by apply IH, NoDup_okeys_opop. Qed.
Lemma elem_of_oset kv k v d : kv ∈ oset k v d -> kv = (k, v) \/ kv ∈ d.
Proof.
  induction d as [|[j w] d IH]; simpl; [rewrite list_elem_of_singleton; by left|].
  destruct (decide (k = j)); rewrite !elem_of_cons; naive_solver.
Qed.
Lemma oset_new k v d : oget k d = None -> oset k v d = d ++ [(k, v)].
Proof.
  induction d as [|[j w] d IH]; simpl; [done|]. destruct (decide (k = j)); [done|]. intros H. by rewrite IH.
Qed.
Lemma oget_None k d : oget k d = None <-> k ∉ okeys d.
Proof.
  split.
  - intros H ([j v] & -> & Hin)%list_elem_of_fmap. by eapply oget_None_elem.
  - intros Hn. destruct (oget k d) as [v|] eqn:E; [|done]. exfalso. apply Hn.
    apply oget_Some_elem in E. by apply (list_elem_of_fmap_2 fst _ (k, v)).
Qed.
Lemma oget_oset k j v d : oget j (oset k v d) = if decide (j = k) then Some v else oget j d.
Proof. destruct (decide (j = k)) as [->|]; [apply oget_oset_eq|by apply oget_oset_ne]. Qed.
Lemma oget_opop k j d : oget j (opop k d) = if decide (j = k) then None else oget j d.
Proof. destruct (decide (j = k)) as [->|]; [apply oget_opop_eq|by apply oget_opop_ne]. Qed.
End OrdDict.

(** ** Reading a rearranged dict, merging, filtering *)
Section Rearranged.
Context {K V : Type} `{EqDecision K}.

Lemma oget_perm (k : K) (d d' : list (K * V)) : NoDup (okeys d) -> d ≡ₚ d' -> oget k d = oget k d'.
Proof.
  intros Hn Hp. assert (NoDup (okeys d')) as Hn' by (unfold okeys in *; by rewrite <- Hp).
  destruct (oget k d') as [v|] eqn:E.
  - apply NoDup_oget; [done|]. rewrite Hp. by apply oget_Some_elem.
  - apply oget_None. apply oget_None in E. unfold okeys in *. by rewrite Hp.
Qed.

(** [{**a, **b}] *)
Definition omerge (a b : list (K * V)) : list (K * V) := fold_left (fun d kv => oset kv.1 kv.2 d) b a.
Lemma oget_omerge k a b : NoDup (okeys b) -> oget k (omerge a b) = match oget k b with Some v => Some v | None => oget k a end.
Proof.
  unfold omerge. revert a. induction b as [|[j v] b IH]; intros a Hn; [done|]. apply NoDup_cons in Hn as [Hj Hn].
  simpl. rewrite IH by done. destruct (decide (k = j)) as [->|].
  - assert (oget j b = None) as -> by (by apply oget_None). by rewrite oget_oset_eq.
  - by rewrite oget_oset_ne by congruence.
Qed.
Lemma NoDup_omerge a b : NoDup (okeys a) -> NoDup (okeys (omerge a b)).
Proof. unfold omerge. revert a. induction b as [|[j v] b IH]; intros a Hn; [done|]. simpl. by apply IH, NoDup_okeys_oset. Qed.

(** [d.setdefault(k, v)] *)
Definition osetdefault (k : K) (v : V) (d : list (K * V)) : list (K * V) := match oget k d with Some _ => d | None => oset k v d end.
Lemma oget_osetdefault k j v d : oget j (osetdefault k v d) = match oget j d with Some w => Some w | None => if decide (j = k) then Some v else None end.
Proof.
  unfold osetdefault. destruct (oget k d) as [w|] eqn:E.
  - destruct (oget j d) eqn:Ej; [done|]. destruct (decide (j = k)) as [->|]; [congruence|done].
  - rewrite oget_oset. destruct (decide (j = k)) as [->|]; [by rewrite E|]. by destruct (oget j d).
Qed.
Lemma NoDup_osetdefault k v d : NoDup (okeys d) -> NoDup (okeys (osetdefault k v d)).
Proof. unfold osetdefault. destruct (oget k d); [done|]. apply NoDup_okeys_oset. Qed.

(** Popping the keys a test names. *)
Definition oreject (f : K -> bool) (d : list (K * V)) : list (K * V) := List.filter (fun kv => negb (f kv.1)) d.
Lemma oget_oreject f k d : oget k (oreject f d) = if f k then None else oget k d.
Proof.
  unfold oreject. induction d as [|[j v] d IH]; simpl; [by destruct (f k)|].
  destruct (f j) eqn:Ej; simpl; destruct (decide (k = j)) as [->|]; rewrite ?IH, ?Ej; done.
Qed.
Lemma NoDup_oreject f d : NoDup (okeys d) -> NoDup (okeys (oreject f d)).
Proof. apply NoDup_map_filter. Qed.

(** A loop that assigns one value to the keys of the rows that pass a test. *)
Lemma oget_assign {W} (f : W -> bool) (v : V) (l : list (K * W)) k acc : NoDup (okeys l) ->
  oget k (fold_left (fun d kw => if f kw.2 then oset kw.1 v d else d) l acc) =
  match oget k l with Some w => if f w then Some v else oget k acc | None => oget k acc end.
Proof.
  revert acc. induction l as [|[j w] l IH]; intros acc Hn; [done|]. apply NoDup_cons in Hn as [Hj Hn]. simpl. rewrite IH by done.
  destruct (decide (k = j)) as [->|].
  - assert (oget j l = None) as -> by (by apply oget_None). destruct (f w); [by rewrite oget_oset_eq|done].
  - destruct (oget k l); destruct (f w); by rewrite ?oget_oset_ne by congruence.
Qed.
Lemma NoDup_assign {W} (f : W -> bool) (v : V) (l : list (K * W)) acc : NoDup (okeys acc) ->
  NoDup (okeys (fold_left (fun d kw => if f kw.2 then oset kw.1 v d else d) l acc)).
Proof. revert acc. induction l as [|[j w] l IH]; intros acc Hn; [done|]. simpl. apply IH. destruct (f w); [by apply NoDup_okeys_oset|done]. Qed.
End Rearranged.
