(* ===== verification/Regex.v ===== *)
(** * Regular expressions

    The part of Python's [re] the gateway's tables use: literals, [[^c]], the
    one-or-more operator, groups and alternation, between [^] and [$]. A pattern
    text is parsed to an expression; matching is by derivatives and is proved
    against the language the expression denotes. *)

From S2P Require Import Prelude PyStr.

Inductive cls := CLit (c : ascii) | CNot (c : ascii).
Definition cls_in (k : cls) (d : ascii) : bool :=
  match k with CLit c => Ascii.eqb c d | CNot c => negb (Ascii.eqb c d) end.

Inductive rx :=
  | RNone
  | REps
  | RCls (k : cls)
  | RSeq (a b : rx)
  | RAlt (a b : rx)
  | RPlus (a : rx).

(** The language of an expression. *)
Inductive lang : rx -> string -> Prop :=
  | LEps : lang REps ""
  | LCls k c : cls_in k c = true -> lang (RCls k) (c ::s "")
  | LSeq a b s t : lang a s -> lang b t -> lang (RSeq a b) (s +:+ t)
  | LAltL a b s : lang a s -> lang (RAlt a b) s
  | LAltR a b s : lang b s -> lang (RAlt a b) s
  | LPlusOne a s : lang a s -> lang (RPlus a) s
  | LPlusMore a s t : lang a s -> lang (RPlus a) t -> lang (RPlus a) (s +:+ t).

Fixpoint nullable (r : rx) : bool :=
  match r with
  | RNone | RCls _ => false
  | REps => true
  | RSeq a b => nullable a && nullable b
  | RAlt a b => nullable a || nullable b
  | RPlus a => nullable a
  end.

Fixpoint deriv (c : ascii) (r : rx) : rx :=
  match r with
  | RNone | REps => RNone
  | RCls k => if cls_in k c then REps else RNone
  | RSeq a b => if nullable a then RAlt (RSeq (deriv c a) b) (deriv c b) else RSeq (deriv c a) b
  | RAlt a b => RAlt (deriv c a) (deriv c b)
  | RPlus a => RAlt (deriv c a) (RSeq (deriv c a) (RPlus a))
  end.

Fixpoint rmatch (r : rx) (s : string) : bool :=
  match s with
  | "" => nullable r
  | c ::s s => rmatch (deriv c r) s
  end.

(** [re.search] of an expression between [^] and [$]: [$] also stands before a
    final newline. *)
Definition final_newline : ascii := ascii_of_nat 10.
Definition search_anchored (r : rx) (s : string) : bool :=
  rmatch r s ||
  match rsplit1 final_newline s with Some (t, "") => rmatch r t | _ => false end.

(** ** Parsing a pattern *)

Definition is_meta (c : ascii) : bool := has_char c "()[]|+*?^$\.{}".

Fixpoint parse_alt (n : nat) (s : string) : option (rx * string) :=
  match n with
  | O => None
  | S n =>
      match parse_seq n s with
      | Some (r, "|"%char ::s s) =>
          match parse_alt n s with Some (r', s) => Some (RAlt r r', s) | None => None end
      | answer => answer
      end
  end
with parse_seq (n : nat) (s : string) : option (rx * string) :=
  match n with
  | O => None
  | S n =>
      match s with
      | "" | ")"%char ::s _ | "|"%char ::s _ => Some (REps, s)
      | _ =>
          match parse_atom n s with
          | Some (a, s) =>
              let '(a, s) := match s with "+"%char ::s s => (RPlus a, s) | _ => (a, s) end in
              match parse_seq n s with Some (r, s) => Some (RSeq a r, s) | None => None end
          | None => None
          end
      end
  end
with parse_atom (n : nat) (s : string) : option (rx * string) :=
  match n with
  | O => None
  | S n =>
      match s with
      | "("%char ::s s =>
          let s := match s with "?"%char ::s ":"%char ::s s => s | _ => s end in
          match parse_alt n s with
          | Some (r, ")"%char ::s s) => Some (r, s)
          | _ => None
          end
      | "["%char ::s "^"%char ::s c ::s "]"%char ::s s => Some (RCls (CNot c), s)
      | c ::s s => if is_meta c then None else Some (RCls (CLit c), s)
      | "" => None
      end
  end.

(** A whole pattern [^...$]; nothing when it is not of the supported form. *)
Definition parse_pattern (p : string) : option rx :=
  match p with
  | "^"%char ::s p =>
      match rsplit1 "$" p with
      | Some (body, "") =>
          match parse_alt (3 * String.length p + 3) body with
          | Some (r, "") => Some r
          | _ => None
          end
      | _ => None
      end
  | _ => None
  end.

(** [re.search(pattern, s)] *)
Definition re_search (pattern s : string) : bool :=
  match parse_pattern pattern with Some r => search_anchored r s | None => false end.

(** ** Correctness *)

Lemma app_cons_inv s t c u : s +:+ t = c ::s u -> (s = "" /\ t = c ::s u) \/ exists s', s = c ::s s' /\ u = s' +:+ t.
Proof. destruct s as [|d s]; simpl; [by left|]. intros [= -> <-]. right. eauto. Qed.

Lemma nullable_spec r : nullable r = true <-> lang r "".
Proof.
  split.
  - induction r as [| |k|a IHa b IHb|a IHa b IHb|a IHa]; simpl; intros Hn; try done.
    + constructor.
    + apply andb_true_iff in Hn as [Ha Hb]. change "" with ("" +:+ ""). constructor; auto.
    + apply orb_true_iff in Hn as [Ha|Hb]; [by apply LAltL, IHa|by apply LAltR, IHb].
    + by apply LPlusOne, IHa.
  - intros Hl. remember "" as e eqn:He. induction Hl; simpl; try done.
    + apply andb_true_iff. destruct s; [|done]. simpl in He. auto.
    + rewrite IHHl by done. done.
    + rewrite IHHl by done. apply orb_true_r.
    + auto.
    + destruct s; [auto|done].
Qed.

Lemma deriv_sound c r s : lang (deriv c r) s -> lang r (c ::s s).
Proof.
  revert s. induction r as [| |k|a IHa b IHb|a IHa b IHb|a IHa]; intros s Hl; simpl in Hl.
  - inversion Hl.
  - inversion Hl.
  - destruct (cls_in k c) eqn:E; inversion Hl; subst. by constructor.
  - assert (forall s, lang (RSeq (deriv c a) b) s -> lang (RSeq a b) (c ::s s)) as Hs.
    { intros u Hu. inversion Hu as [| |? ? u1 u2 H1 H2| | | |]; subst.
      change (c ::s u1 +:+ u2) with ((c ::s u1) +:+ u2). constructor; auto. }
    destruct (nullable a) eqn:E; [|auto]. inversion Hl; subst; [auto|].
    change (c ::s s) with ("" +:+ c ::s s). constructor; [by apply nullable_spec|auto].
  - inversion Hl; subst; [apply LAltL|apply LAltR]; auto.
  - inversion Hl as [| | |? ? ? H1|? ? ? H1| |]; subst; [by apply LPlusOne, IHa|].
    inversion H1 as [| |? ? u1 u2 H2 H3| | | |]; subst.
    change (c ::s u1 +:+ u2) with ((c ::s u1) +:+ u2). apply LPlusMore; auto.
Qed.

Lemma deriv_complete c r s : lang r (c ::s s) -> lang (deriv c r) s.
Proof.
  intros Hl. remember (c ::s s) as t eqn:Ht. revert s Ht.
  induction Hl as [|k d Hk|a b u1 u2 H1 IH1 H2 IH2|a b u H1 IH1|a b u H1 IH1|a u H1 IH1|a u1 u2 H1 IH1 H2 IH2];
    intros s Ht; simpl.
  - done.
  - injection Ht as -> <-. rewrite Hk. constructor.
  - apply app_cons_inv in Ht as [[-> ->]|(u & -> & ->)].
    + rewrite (proj2 (nullable_spec a) H1). apply LAltR. auto.
    + destruct (nullable a); [apply LAltL|]; constructor; auto.
  - apply LAltL. auto.
  - apply LAltR. auto.
  - apply LAltL. auto.
  - apply app_cons_inv in Ht as [[-> ->]|(u & -> & ->)].
    + apply IH2. done.
    + apply LAltR. constructor; auto.
Qed.

(** The matcher decides the language: an expression matches a text exactly
    when the text is in the language the expression denotes. *)
Theorem rmatch_correct (r : rx) (s : string) : rmatch r s = true <-> lang r s.
Proof.
  revert r. induction s as [|c s IH]; intros r; simpl; [apply nullable_spec|].
  rewrite IH. split; [apply deriv_sound|apply deriv_complete].
Qed.

Example parse_sample : re_search "^/a/[^/]+/(b|c)$" "/a/xy/c" = true /\ re_search "^/a/[^/]+/(b|c)$" "/a/x/y/c" = false.
Proof. vm_compute. done. Qed.
