(* ===== verification/Principal.v ===== *)
(** * Principals

    [security/principal.py]: the authenticated principal of a request, the two
    principals the gateway makes itself, and the reduction of an identity to a
    path component. *)

From S2P Require Import Prelude PyStr PyVal.

(** [GatewayPrincipal]. *)
Record GatewayPrincipal := mk_principal {
  user_id : string;
  tenant_id : string;
  roles : list string;
  scopes : list string;
  token_fingerprint : string;
  runtime_id : string;
  p_source : string;
}.

Definition is_admin (p : GatewayPrincipal) : bool := bool_decide ("admin" ∈ roles p).

Definition public_dict (p : GatewayPrincipal) : dict :=
  [ ("user_id", VStr (user_id p)); ("tenant_id", VStr (tenant_id p));
    ("roles", VList (map VStr (roles p))); ("scopes", VList (map VStr (scopes p)));
    ("token_fingerprint", VStr (token_fingerprint p));
    ("runtime_id", VStr (if String.eqb (runtime_id p) "" then user_id p else runtime_id p));
    ("source", VStr (p_source p)); ("admin", VBool (is_admin p)) ].

(** [local_admin_principal], [local_readonly_principal]. *)
Definition local_admin_principal (fingerprint : string) : GatewayPrincipal :=
  mk_principal "admin" "default" ["admin"; "user"] ["*"] fingerprint "default" "legacy-token".
Definition local_readonly_principal : GatewayPrincipal :=
  mk_principal "loopback-readonly" "local" ["readonly"] ["gateway:read"] "" "loopback-readonly" "loopback-dev-read".

(** ** [safe_principal_component] *)

Definition safe_char (c : ascii) : bool := is_alnum_ascii c || has_char c "_.@-".

(** [_SAFE_COMPONENT_RE.sub("_", s)]: one underscore per run of unsafe
    characters; [inside] when the previous character was unsafe. *)
Fixpoint sub_unsafe (inside : bool) (s : string) : string :=
  match s with
  | "" => ""
  | c ::s s =>
      if safe_char c then c ::s sub_unsafe false s
      else if inside then sub_unsafe true s else "_"%char ::s sub_unsafe true s
  end.
Definition dot_or_underscore (c : ascii) : bool := has_char c "._".

Definition safe_principal_component (value : val) (dflt : option string) : string :=
  let fallback := default "default" dflt in
  let raw := strip (str_or value "") in
  let raw := if String.eqb raw "" then fallback else raw in
  let cleaned := strip_by dot_or_underscore (sub_unsafe false raw) in
  if String.eqb cleaned "" then fallback else cleaned.

(** ** Correctness *)

Lemma sub_unsafe_safe b s : forall_chars safe_char (sub_unsafe b s) = true.
Proof.
  revert b. induction s as [|c s IH]; intros b; simpl; [done|].
  destruct (safe_char c) eqn:E; simpl; [by rewrite E, IH|]. destruct b; simpl; auto.
Qed.

Lemma sub_unsafe_id s : forall_chars safe_char s = true -> forall b, sub_unsafe b s = s.
Proof.
  induction s as [|c s IH]; intros Hs b; simpl in *; [done|].
  apply andb_true_iff in Hs as [-> Hs]. by rewrite IH.
Qed.

Lemma safe_not_space c : safe_char c = true -> is_space c = false.
Proof. destruct c as [[] [] [] [] [] [] [] []]; vm_compute; done. Qed.

(** A text that starts with no character of [f], or is empty. *)
Definition clean_head (f : ascii -> bool) (s : string) : Prop :=
  s = "" \/ exists c s', s = c ::s s' /\ f c = false.

Lemma lstrip_by_head f s : clean_head f (lstrip_by f s).
Proof.
  induction s as [|c s IH]; simpl; [by left|]. destruct (f c) eqn:E; [done|]. right. eauto.
Qed.
Lemma lstrip_by_clean f s : clean_head f s -> lstrip_by f (rstrip_by f s) = rstrip_by f s.
Proof.
  intros [->|(c & s' & -> & Hc)]; [done|]. simpl. rewrite Hc, andb_false_r. simpl. by rewrite Hc.
Qed.
Lemma strip_by_idemp f s : strip_by f (strip_by f s) = strip_by f s.
Proof. unfold strip_by. rewrite lstrip_by_clean by apply lstrip_by_head. apply rstrip_by_idemp. Qed.

(** A fallback that is itself a reduced component. *)
Definition good_fallback (s : string) : bool :=
  negb (String.eqb s "") && forall_chars safe_char s && String.eqb (strip_by dot_or_underscore s) s.

Lemma safe_component_shape (value : val) (dflt : option string) :
  good_fallback (default "default" dflt) = true -> good_fallback (safe_principal_component value dflt) = true.
Proof.
  intros Hf. unfold safe_principal_component. match goal with |- context[strip_by _ ?t] => set (raw := t) end.
  destruct (String.eqb_spec (strip_by dot_or_underscore raw) ""); [done|].
  unfold good_fallback. rewrite strip_by_idemp, String.eqb_refl, andb_true_r. apply andb_true_iff. split.
  - by destruct (String.eqb_spec (strip_by dot_or_underscore raw) "").
  - apply forall_chars_strip_by, sub_unsafe_safe.
Qed.

Lemma safe_component_id (s : string) (dflt : option string) :
  good_fallback s = true -> safe_principal_component (VStr s) dflt = s.
Proof.
  unfold good_fallback. rewrite !andb_true_iff, negb_true_iff, String.eqb_eq. intros [[Hne Hs] Hst].
  unfold safe_principal_component, str_or, py_or. simpl. rewrite Hne. simpl.
  rewrite strip_no_space by (eapply forall_chars_weaken; [|exact Hs]; intros c Hc; by rewrite safe_not_space).
  rewrite Hne, sub_unsafe_id by done. by rewrite Hst, Hne.
Qed.

Lemma forall_chars_no f c s : forall_chars f s = true -> f c = false -> has_char c s = false.
Proof.
  unfold has_char. intros Hs Hc. induction s as [|d s IH]; simpl in *; [done|].
  apply andb_true_iff in Hs as [Hd Hs]. destruct (Ascii.eqb_spec c d) as [->|]; [congruence|]. auto.
Qed.

(** An identity component is a safe path component: for a fallback
    that is one itself (the default one is), whatever the value, the result is not empty and
    holds only ASCII letters, digits and [_.@-], so no separator; it is never [.]
    or [..]; and reducing it again gives it back. *)
Theorem safe_principal_component_spec (value : val) (dflt : option string) :
  let fallback := default "default" dflt in
  let out := safe_principal_component value dflt in
  good_fallback fallback = true ->
  out <> "" /\ forall_chars safe_char out = true /\ has_char "/" out = false /\
  out <> "." /\ out <> ".." /\ safe_principal_component (VStr out) dflt = out.
Proof.
  intros fallback out Hf. pose proof (safe_component_shape value dflt Hf) as Ho. fold out in Ho.
  pose proof (safe_component_id out dflt Ho) as Hid. clearbody out. unfold good_fallback in Ho.
  rewrite !andb_true_iff, negb_true_iff in Ho. destruct Ho as [[Hne Hs] Hst].
  split_and!; [by intros ->|done|by eapply forall_chars_no| | |done]; intros ->; by vm_compute in Hst.
Qed.
Lemma safe_principal_component_spec_witness :
  let out := safe_principal_component (VStr " ../../etc/passwd ") None in
  out = "etc_passwd" /\ out <> "" /\ has_char "/" out = false.
Proof.
  split; [by vm_compute|].
  destruct (safe_principal_component_spec (VStr " ../../etc/passwd ") None) as (? & ? & ? & _); [by vm_compute|]. by split.
Defined.
