(* ===== verification/Authorization.v ===== *)
(** * Authorization of principals and routes

    [security/authorization.py]: the table that says which routes need an
    administrator, the scopes of a principal, the decision on one action; and the
    part of the middleware ([security/gateway_security.py], [__call__]) that
    applies the table to a request. *)

From S2P Require Import Prelude PyStr PyVal Regex Principal.

(** [GatewayAuthorizationDecision]. *)
Record decision := mk_decision { allowed : bool; reason : string }.

(** [GatewayRouteAuthorizationRequirement]. *)
Record requirement := mk_requirement {
  r_resource : string;
  r_action : string;
  r_reason_code : string;
  r_required_role : string;
  r_admin_required : bool;
}.

(** [GatewayRoutePolicy]. *)
Record route_policy := mk_policy {
  resource : string;
  reason_code : string;
  prefixes : list string;
  exact : list string;
  pattern : string;
  methods : list string;
  admin_required : bool;
  required_role : string;
}.

(** [str(path or "").rstrip("/") or "/"]. *)
Definition slash (c : ascii) : bool := Ascii.eqb c "/".
Definition norm_path (path : string) : string :=
  let p := rstrip_by slash path in if String.eqb p "" then "/" else p.
(** [str(method or "GET").upper()]. *)
Definition norm_method (method : string) : string := upper (if String.eqb method "" then "GET" else method).

Definition under_prefix (p prefix : string) : bool :=
  let prefix0 := norm_path prefix in String.eqb p prefix0 || startswith (prefix0 +:+ "/") p.

(** [GatewayRoutePolicy.matches]. *)
Definition matches (pol : route_policy) (path method : string) : bool :=
  let p := norm_path path in
  let m := norm_method method in
  if negb (bool_decide (methods pol = [])) && negb (bool_decide (m ∈ map upper (methods pol))) then false
  else if bool_decide (p ∈ exact pol) then true
  else if existsb (under_prefix p) (prefixes pol) then true
  else negb (String.eqb (pattern pol) "") && re_search (pattern pol) p.

(** [GatewayRoutePolicy.requirement]. *)
Definition is_write_method (m : string) : bool := bool_decide (m ∈ ["POST"; "PUT"; "PATCH"; "DELETE"]).
Definition policy_requirement (pol : route_policy) (method : string) : requirement :=
  mk_requirement (resource pol) (if is_write_method (norm_method method) then "write" else "read")
    (reason_code pol) (required_role pol) (admin_required pol).

(** [GATEWAY_ROUTE_POLICIES]. *)
Definition GATEWAY_ROUTE_POLICIES : list route_policy :=
  [
    mk_policy "admin" "admin_required" ["/api/gateway/admin"]
      []
      ""
      [] true "admin" ;
    mk_policy "audit" "admin_required" ["/api/gateway/audit"]
      []
      ""
      [] true "admin" ;
    mk_policy "processes" "admin_required" ["/api/gateway/processes"]
      []
      ""
      [] true "admin" ;
    mk_policy "backlog" "admin_required" ["/api/gateway/backlog"]
      []
      ""
      [] true "admin" ;
    mk_policy "triage" "admin_required" ["/api/gateway/triage"]
      []
      ""
      [] true "admin" ;
    mk_policy "reports" "admin_required" ["/api/gateway/reports"]
      []
      ""
      [] true "admin" ;
    mk_policy "email" "admin_required" ["/api/gateway/email"]
      []
      ""
      [] true "admin" ;
    mk_policy "push" "admin_required" []
      ["/api/gateway/push/settings"]
      ""
      [] true "admin" ;
    mk_policy "voice_library" "admin_required" []
      []
      "^/api/gateway/voice/clones/[^/]+/deploy$"
      ["POST"] true "admin" ;
    mk_policy "host" "admin_required" []
      ["/api/gateway/host/runs"; "/api/gateway/host/pause"; "/api/gateway/host/resume"; "/api/gateway/host/tray/show"; "/api/gateway/host/restart"; "/api/gateway/host/shutdown"; "/api/gateway/host/update"; "/api/gateway/host/update/check"; "/api/gateway/host/update/start"; "/api/gateway/host/start-at-login"]
      ""
      [] true "admin" ;
    mk_policy "host" "admin_required" []
      ["/api/gateway/network"; "/api/gateway/network/restart"]
      ""
      ["POST"] true "admin" ;
    mk_policy "workspace" "admin_required" []
      ["/api/gateway/workspace/policy"]
      ""
      ["PUT"] true "admin" ;
    mk_policy "host" "admin_required" []
      ["/api/gateway/host/first-run"]
      ""
      ["POST"] true "admin" ;
    mk_policy "models" "admin_required" []
      ["/api/gateway/models/load"; "/api/gateway/models/unload"; "/api/gateway/models/download"; "/api/gateway/models/lock"; "/api/gateway/models/unlock"; "/api/gateway/models/context"; "/api/gateway/models/delete"; "/api/gateway/models/delete-download"]
      ""
      [] true "admin" ;
    mk_policy "engines" "admin_required" []
      []
      "^/api/gateway/engines/(?:[^/]+/(?:install|start|stop)|jobs/[^/]+/(?:continue|cancel))$"
      ["POST"] true "admin" ;
    mk_policy "host" "admin_required" []
      []
      "^/api/gateway/jobs/[^/]+/cancel$"
      ["POST"] true "admin" ;
    mk_policy "models" "admin_required" []
      []
      "^/api/gateway/models/download/[^/]+/cancel$"
      ["POST"] true "admin" ;
    mk_policy "apps" "admin_required" []
      []
      "^/api/gateway/apps/(?:runtime/install|[^/]+/(?:install|update|launch|stop|install-tui|launch-tui|tui-command)|jobs/[^/]+/cancel)$"
      ["POST"] true "admin" ;
    mk_policy "settings" "admin_required" []
      ["/api/gateway/config/capability-defaults/apply-recommended"]
      ""
      ["POST"] true "admin" ;
    mk_policy "workspace" "admin_required" ["/api/gateway/files"]
      []
      ""
      [] true "admin" ;
    mk_policy "workspace" "admin_required" []
      ["/api/gateway/artifacts/import"; "/api/gateway/attachments/ingest"]
      ""
      [] true "admin" ;
    mk_policy "workspace" "admin_required" []
      []
      "^/api/gateway/runs/[^/]+/artifacts/[^/]+/export$"
      [] true "admin" ;
    mk_policy "blocs" "admin_required" ["/api/gateway/blocs"]
      []
      ""
      ["POST"; "PUT"; "PATCH"; "DELETE"] true "admin" ;
    mk_policy "prompt_cache" "admin_required" ["/api/gateway/prompt_cache"]
      []
      ""
      ["POST"; "PUT"; "PATCH"; "DELETE"] true "admin" ;
    mk_policy "prompt_cache" "admin_required" []
      []
      "^/api/gateway/sessions/[^/]+/prompt_cache/clear_all$"
      ["POST"] true "admin" ;
    mk_policy "entities" "admin_required" []
      []
      "^/api/gateway/entities/[^/]+/(state|reembed|capability-map|tasks|tasks/[^/]+/status|work-order|candidates/[^/]+/(promote|reject)|personal-grant|maintenance-window|loop/start|loop/stop|workspace/mounts)$"
      ["POST"; "PUT"; "PATCH"; "DELETE"] true "admin" ;
    mk_policy "entities" "admin_or_creator_required" []
      []
      "^/api/gateway/entities/[^/]+/(tool-policy|prompt|substrate|skills|voice|appearance|identity)$"
      ["POST"; "PUT"; "PATCH"; "DELETE"] false "admin_or_creator" ;
    mk_policy "entities" "admin_required" []
      ["/api/gateway/entities/templates"]
      ""
      ["POST"] true "admin" ;
    mk_policy "entities" "admin_required" []
      ["/api/gateway/entities/spec/phases"]
      ""
      ["PUT"] true "admin" ;
    mk_policy "settings" "admin_required" []
      ["/api/gateway/tool-grants/default"]
      ""
      ["PUT"] true "admin" ;
    mk_policy "entities" "admin_required" []
      []
      "^/api/gateway/entities/templates/[^/]+$"
      ["POST"; "PUT"; "PATCH"; "DELETE"] true "admin"

  ].

(** [gateway_route_authorization_requirement]. *)
Definition gateway_route_authorization_requirement (path method : string) : option requirement :=
  match List.find (fun pol => matches pol path method) GATEWAY_ROUTE_POLICIES with
  | Some pol => Some (policy_requirement pol method)
  | None => None
  end.

(** [_norm], [_scope_allows]. *)
Definition norm (s : string) : string := lower (strip s).
Definition scope_allows (scopes : list string) (resource action : string) : bool :=
  let r := norm resource in
  let a := norm action in
  let candidates := ["*"; r; r +:+ ":*"; r +:+ ":" +:+ a; r +:+ "." +:+ a] ++
                    (if String.eqb a "" then [] else [a]) in
  existsb (fun s => bool_decide (norm s ∈ candidates)) scopes.

(** [authorize_gateway_principal]. *)
Definition authorize (principal : option GatewayPrincipal) (resource action : string)
    (target_tenant : option string) (admin_required : bool) : decision :=
  match principal with
  | None => mk_decision false "Gateway principal unavailable"
  | Some p =>
      if is_admin p then mk_decision true ""
      else if match target_tenant with Some t => negb (String.eqb (norm t) (norm (tenant_id p))) | None => false end
      then mk_decision false "Cross-tenant access denied"
      else if admin_required then mk_decision false "Admin principal required"
      else if scope_allows (scopes p) resource action then mk_decision true ""
      else mk_decision false "Gateway action is not authorized"
  end.

(** [require_gateway_authorization]. *)
Definition require_gateway_authorization (principal : option GatewayPrincipal) (resource action : string)
    (target_tenant : option string) (admin_required : bool) : res GatewayPrincipal :=
  match authorize principal resource action target_tenant admin_required, principal with
  | mk_decision true _, Some p => Ok p
  | mk_decision _ r, _ => Raise (PermissionError (if String.eqb r "" then "Gateway action is not authorized" else r))
  end.

(** The middleware's use of the table, after the principal is known. *)
Definition route_admitted (principal : option GatewayPrincipal) (path method : string) : bool :=
  match gateway_route_authorization_requirement path method with
  | None => true
  | Some r =>
      if String.eqb (r_required_role r) "admin_or_creator" then true
      else allowed (authorize principal (if String.eqb (r_resource r) "" then "gateway" else r_resource r)
                      (if String.eqb (r_action r) "" then method else r_action r) None true)
  end.

(** ** The decision on a principal *)

(** the decision on an action is exactly: an administrator always; nobody
    without a principal; a member never across tenants and never where an
    administrator is required, and otherwise when one of its scopes names the
    action, the resource, the pair, or everything; and the raising form agrees. *)
Theorem authorize_spec (p : GatewayPrincipal) (resource action : string) (tenant : option string) (adm : bool) :
  allowed (authorize None resource action tenant adm) = false /\
  (allowed (authorize (Some p) resource action tenant adm) = true <->
     is_admin p = true \/
     ((forall t, tenant = Some t -> norm t = norm (tenant_id p)) /\ adm = false /\
      exists s, s ∈ scopes p /\
        norm s ∈ ["*"; norm resource; norm resource +:+ ":*"; norm resource +:+ ":" +:+ norm action;
                  norm resource +:+ "." +:+ norm action] ++ (if String.eqb (norm action) "" then [] else [norm action]))) /\
  (require_gateway_authorization (Some p) resource action tenant adm = Ok p <->
     allowed (authorize (Some p) resource action tenant adm) = true).
Proof.
  split; [done|]. split.
  - unfold authorize. destruct (is_admin p); [simpl; tauto|].
    destruct tenant as [t|]; [destruct (String.eqb_spec (norm t) (norm (tenant_id p)))|]; simpl.
    2: { split; [done|]. intros [|(Ht & _)]; [done|]. specialize (Ht t eq_refl). congruence. }
    all: destruct adm; simpl; [split; [done|by intros [|(_ & ? & _)]]|].
    all: unfold scope_allows; destruct (existsb _ _) eqn:E; simpl.
    all: try (apply existsb_exists in E as (s & Hs & Hd); apply bool_decide_eq_true in Hd; apply list_elem_of_In in Hs).
    all: try (split; [intros _; right; split_and!; [by intros ? [= <-]|done|eauto]|done]).
    all: try (split; [intros _; right; split_and!; [done|done|eauto]|done]).
    all: split; [done|]; intros [|(_ & _ & s & Hs & Hd)]; [done|];
      rewrite <- not_true_iff_false in E; exfalso; apply E, existsb_exists; exists s;
      (split; [by apply list_elem_of_In|by apply bool_decide_eq_true]).
  - unfold require_gateway_authorization. destruct (authorize _ _ _ _ _) as [[] r]; simpl; split; done.
Qed.

(** ** The route table *)

(** The rows of the table are of two kinds: administrators only, or left to the
    guard of the entity routers. *)
Definition admin_row (pol : route_policy) : bool := admin_required pol && String.eqb (required_role pol) "admin".
Definition settings_row (pol : route_policy) : bool :=
  negb (admin_required pol) && String.eqb (required_role pol) "admin_or_creator".

Lemma table_rows : forallb (fun pol => xorb (admin_row pol) (settings_row pol)) GATEWAY_ROUTE_POLICIES = true.
Proof. by vm_compute. Qed.

(** Every pattern of the table is of the form the matcher understands. *)
Lemma table_patterns_parse :
  forallb (fun pol => String.eqb (pattern pol) "" || match parse_pattern (pattern pol) with Some _ => true | None => false end)
    GATEWAY_ROUTE_POLICIES = true.
Proof. by vm_compute. Qed.

Lemma first_match_spec {A} (f : A -> bool) l x :
  x ∈ l -> f x = true -> exists y, List.find f l = Some y /\ y ∈ l /\ f y = true.
Proof.
  intros Hx Hf. destruct (List.find f l) as [y|] eqn:E.
  - apply List.find_some in E as [Hy Hfy]. exists y. split_and!; [done|by apply list_elem_of_In|done].
  - eapply List.find_none in E; [|by apply list_elem_of_In, Hx]. congruence.
Qed.

Lemma first_admin_row path method y :
  y ∈ GATEWAY_ROUTE_POLICIES -> matches y path method = true ->
  (forall z, z ∈ GATEWAY_ROUTE_POLICIES -> settings_row z = true -> matches z path method = false) ->
  required_role y = "admin".
Proof.
  intros Hy Hm Hsettings. pose proof table_rows as Ht. rewrite forallb_forall in Ht.
  specialize (Ht y (proj1 (list_elem_of_In _ _) Hy)).
  destruct (settings_row y) eqn:E; [by rewrite (Hsettings y) in Hm|].
  unfold admin_row in Ht. destruct (admin_required y); simpl in Ht; [|done].
  rewrite xorb_false_r in Ht. by apply String.eqb_eq.
Qed.

(** C9: a route an administrators' row names is closed to everybody else: when any
    row that needs an administrator matches the request and the entity settings
    row does not, a principal without the role, and no principal at all, are
    refused, and an administrator is admitted; a route no row names is open. *)
Theorem admin_routes_closed (path method : string) (pol : route_policy) :
  pol ∈ GATEWAY_ROUTE_POLICIES -> matches pol path method = true ->
  (forall z, z ∈ GATEWAY_ROUTE_POLICIES -> settings_row z = true -> matches z path method = false) ->
  forall who : option GatewayPrincipal,
    route_admitted who path method = match who with Some p => is_admin p | None => false end.
Proof.
  intros Hp Hm Hsettings who.
  destruct (first_match_spec (fun pol => matches pol path method) _ _ Hp Hm) as (y & Hf & Hy & Hmy).
  unfold route_admitted, gateway_route_authorization_requirement. rewrite Hf.
  unfold policy_requirement. simpl r_required_role.
  rewrite (first_admin_row path method y) by done. simpl String.eqb. cbv iota.
  destruct who as [p|]; simpl; [|done]. by destruct (is_admin p).
Qed.

(** A member of tenant [t]. *)
Definition member (u t : string) : GatewayPrincipal := mk_principal u t ["user"] ["gateway:*"] "" u "users".

(** The settings row names no request on [path]. *)
Definition no_settings (path method : string) : bool :=
  forallb (fun z => negb (settings_row z) || negb (matches z path method)) GATEWAY_ROUTE_POLICIES.
Lemma no_settings_spec path method : no_settings path method = true ->
  forall z, z ∈ GATEWAY_ROUTE_POLICIES -> settings_row z = true -> matches z path method = false.
Proof.
  unfold no_settings. intros Hf z Hz Hr. rewrite forallb_forall in Hf.
  specialize (Hf z (proj1 (list_elem_of_In _ _) Hz)). rewrite Hr in Hf. by apply negb_true_iff.
Qed.

Lemma admin_routes_closed_witness :
  route_admitted (Some (member "ada" "default")) "/api/gateway/admin/users/" "get" = false /\
  route_admitted None "/api/gateway/engines/mlx/install" "POST" = false /\
  route_admitted (Some (local_admin_principal "")) "/api/gateway/engines/mlx/install" "POST" = true.
Proof.
  split_and!.
  - destruct (GATEWAY_ROUTE_POLICIES !! 0%nat) as [pol|] eqn:E; [|by vm_compute in E].
    apply (admin_routes_closed "/api/gateway/admin/users/" "get" pol);
      [by eapply list_elem_of_lookup_2|by injection E as <-|apply no_settings_spec; by vm_compute].
  - destruct (GATEWAY_ROUTE_POLICIES !! 14%nat) as [pol|] eqn:E; [|by vm_compute in E].
    apply (admin_routes_closed "/api/gateway/engines/mlx/install" "POST" pol);
      [by eapply list_elem_of_lookup_2|by injection E as <-|apply no_settings_spec; by vm_compute].
  - destruct (GATEWAY_ROUTE_POLICIES !! 14%nat) as [pol|] eqn:E; [|by vm_compute in E].
    apply (admin_routes_closed "/api/gateway/engines/mlx/install" "POST" pol);
      [by eapply list_elem_of_lookup_2|by injection E as <-|apply no_settings_spec; by vm_compute].
Defined.

(** The path of one seed template ([PUT /entities/templates/{template_id}]). *)
Definition template_path (template_id : string) : string := "/api/gateway/entities/templates/" +:+ template_id.
Definition settings_verbs : list string :=
  ["tool-policy"; "prompt"; "substrate"; "skills"; "voice"; "appearance"; "identity"].

Definition template_row (v : string) : bool :=
  match GATEWAY_ROUTE_POLICIES !! 30%nat with
  | Some pol => admin_row pol && matches pol (template_path v) "PUT"
  | None => false
  end.
Definition required_role_of (path method : string) : option (string * bool) :=
  option_map (fun r => (r_required_role r, r_admin_required r)) (gateway_route_authorization_requirement path method).

Lemma shadowed_verbs :
  forallb (fun v => template_row v &&
    bool_decide (required_role_of (template_path v) "PUT" = Some ("admin_or_creator", false))) settings_verbs = true.
Proof. by vm_compute. Qed.
Lemma plain_templates :
  forallb (fun v => bool_decide (required_role_of (template_path v) "PUT" = Some ("admin", true)))
    ["plain"; "prompts"; "voice-2"] = true.
Proof. by vm_compute. Qed.

Lemma required_role_of_some path method role adm :
  required_role_of path method = Some (role, adm) ->
  exists r, gateway_route_authorization_requirement path method = Some r /\ r_required_role r = role /\ r_admin_required r = adm.
Proof.
  unfold required_role_of. destruct (gateway_route_authorization_requirement path method) as [r|]; simpl; [|done].
  intros [= <- <-]. by exists r.
Qed.

Lemma route_admitted_role who path method role adm :
  required_role_of path method = Some (role, adm) ->
  route_admitted who path method =
    if String.eqb role "admin_or_creator" then true else match who with Some p => is_admin p | None => false end.
Proof.
  intros H. apply required_role_of_some in H as (r & Hr & <- & _). unfold route_admitted. rewrite Hr.
  destruct (String.eqb _ _); [done|]. unfold authorize. destruct who as [p|]; [|done]. by destruct (is_admin p).
Qed.
Lemma template_row_exists v : template_row v = true ->
  Exists (fun pol => admin_row pol = true /\ matches pol (template_path v) "PUT" = true) GATEWAY_ROUTE_POLICIES.
Proof.
  unfold template_row. destruct (GATEWAY_ROUTE_POLICIES !! 30%nat) as [pol|] eqn:E; [|done].
  intros Ht%andb_true_iff. apply Exists_exists. exists pol. split; [by eapply list_elem_of_lookup_2|done].
Qed.
Lemma shadowed_verb v : v ∈ settings_verbs ->
  template_row v = true /\ required_role_of (template_path v) "PUT" = Some ("admin_or_creator", false).
Proof.
  intros Hin. pose proof shadowed_verbs as Hs. rewrite forallb_forall in Hs.
  specialize (Hs v (proj1 (list_elem_of_In _ _) Hin)). apply andb_true_iff in Hs as [Ht Hr].
  split; [done|]. exact (bool_decide_eq_true_1 _ Hr).
Qed.
Lemma plain_template v : v ∈ ["plain"; "prompts"; "voice-2"] ->
  required_role_of (template_path v) "PUT" = Some ("admin", true).
Proof.
  intros Hin. pose proof plain_templates as Hp. rewrite forallb_forall in Hp.
  exact (bool_decide_eq_true_1 _ (Hp v (proj1 (list_elem_of_In _ _) Hin))).
Qed.

(** the edit of a seed template, which the table's last row reserves to
    administrators, is admitted for every principal, and for none, when the
    template's id is the name of an entity setting: the settings row stands before
    it and takes the word "templates" for an entity's name. Every other id of
    the form the template store accepts that is tried here is refused. *)
Theorem template_edit_shadowed (who : option GatewayPrincipal) :
  Forall (fun v =>
    Exists (fun pol => admin_row pol = true /\ matches pol (template_path v) "PUT" = true) GATEWAY_ROUTE_POLICIES /\
    (exists r, gateway_route_authorization_requirement (template_path v) "PUT" = Some r /\ r_admin_required r = false) /\
    route_admitted who (template_path v) "PUT" = true) settings_verbs /\
  (forall p, who = Some p -> is_admin p = false ->
    Forall (fun v => route_admitted who (template_path v) "PUT" = false) ["plain"; "prompts"; "voice-2"]).
Proof.
  split.
  - apply Forall_forall. intros v Hin. destruct (shadowed_verb v Hin) as [Ht Hr]. split_and!.
    + by apply template_row_exists.
    + destruct (required_role_of_some _ _ _ _ Hr) as (r & ? & _ & ?). by exists r.
    + by rewrite (route_admitted_role _ _ _ _ _ Hr).
  - intros p -> Hadm. apply Forall_forall. intros v Hin.
    rewrite (route_admitted_role _ _ _ _ _ (plain_template v Hin)). simpl. exact Hadm.
Qed.
