(* ===== verification/EntityAccess.v ===== *)
(** * Who sees and who configures an entity

    [entities.py] ([entity_slug]), [entity_access.py] and
    [entity_settings_access.py]: names, the creator an entity records, who may see
    it, who may change its settings, and the two dependencies of the entity
    routers that enforce it.

    The homes of the caller's plane are a function from a slug to the
    [created_by] of its manifest ([manifest_creator]: nothing when there is no
    home, [None] when the manifest cannot be read); whether the gateway has user
    accounts ([gateway_multi_user_enabled]) is an argument. *)

From S2P Require Import Prelude PyStr PyVal Regex Principal Authorization.

(** ** Names *)

Definition slug_head (c : ascii) : bool := is_digit c || ((97 <=? code c) && (code c <=? 122)).
Definition slug_char (c : ascii) : bool := slug_head c || has_char c "_-".
(** [_SLUG_RE] *)
Definition slug_re (s : string) : bool :=
  match s with
  | "" => false
  | c ::s t => slug_head c && forall_chars slug_char t && (len t <=? 63)
  end.
Definition RESERVED_ENTITY_NAMES : list string :=
  ["auth"; "meets"; "templates"; "inventory"; "creation-defaults"; "spec"].
Definition space_to_dash (c : ascii) : ascii := if Ascii.eqb c " " then "-"%char else c.

Definition entity_slug (name : string) : res string :=
  let raw := strip name in
  if String.eqb raw "" then Raise (ValueError "entity name is required")
  else
    let slug := smap space_to_dash (lower raw) in
    if negb (slug_re slug) then
      Raise (ValueError ("entity name " +:+ repr_str raw +:+
        " does not normalize to a valid slug (lowercase letters/digits/hyphen/underscore, max 64 chars, must start alphanumeric; got "
        +:+ repr_str slug +:+ ")"))
    else if bool_decide (slug ∈ RESERVED_ENTITY_NAMES) then
      Raise (ValueError ("entity name " +:+ repr_str raw +:+
        " is reserved (a literal API path segment under /entities — an entity named " +:+ repr_str slug +:+
        " would be unreachable); pick another name"))
    else Ok slug.

(** ** Creators *)

Definition or_default (s : string) : val := py_or (VStr s) (VStr "default").

Definition creator_of (principal : option GatewayPrincipal) : option val :=
  match principal with
  | Some p =>
      if String.eqb (strip (user_id p)) "" then None
      else Some (VDict [("tenant_id", VStr (safe_principal_component (or_default (tenant_id p)) (Some "default")));
                        ("user_id", VStr (strip (user_id p)))])
  | None => None
  end.

Definition sees_every_entity (multi_user : bool) (principal : option GatewayPrincipal) : bool :=
  match principal with None => true | Some p => is_admin p || negb multi_user end.

Definition creator_id (d : dict) : string := strip (str_or (get_ "user_id" d) "").

Definition same_account (p : GatewayPrincipal) (created_by : dict) : bool :=
  String.eqb (creator_id created_by) (strip (user_id p)) &&
  String.eqb (safe_principal_component (py_or (get_ "tenant_id" created_by) (VStr "default")) (Some "default"))
             (safe_principal_component (or_default (tenant_id p)) (Some "default")).

Definition is_entity_principal (p : GatewayPrincipal) : bool :=
  bool_decide ("entity" ∈ map (fun r => lower (strip r)) (roles p)).

Definition entity_visible_to (multi_user : bool) (principal : option GatewayPrincipal) (slug : string) (created_by : val) : bool :=
  if sees_every_entity multi_user principal then true
  else match principal with
       | None => false
       | Some p =>
           if is_entity_principal p && String.eqb (user_id p) slug then true
           else match created_by with
                | VDict d => if String.eqb (creator_id d) "" then false else same_account p d
                | _ => false
                end
       end.

(** [name_taken_detail]: [door] is the kind of the account of that name, if any. *)
Definition name_taken_detail (multi_user : bool) (caller : option GatewayPrincipal) (homes : string -> option val)
    (door : string -> option string) (slug : string) : option string :=
  match homes slug with
  | Some created_by =>
      if entity_visible_to multi_user caller slug created_by then None
      else Some ("That name is taken: another account already has an entity called " +:+ repr_str slug +:+ ". Pick another name.")
  | None =>
      match door slug with
      | None => None
      | Some kind =>
          if String.eqb kind "entity"
          then Some ("That name is taken: another account already has an entity called " +:+ repr_str slug +:+ ". Pick another name.")
          else Some ("That name is taken: an account is already called " +:+ repr_str slug +:+ ". Pick another name.")
      end
  end.

(** [entity_home_dir]: the first of the gateway's entity directories in which
    the component of the name has a manifest. *)
Definition entity_home_dir (entities_dirs : list string) (manifest_in : string -> string -> bool) (slug : string) : option (string * string) :=
  let key := safe_principal_component (VStr slug) (Some "") in
  if String.eqb key "" then None
  else option_map (fun dir => (dir, key)) (List.find (fun dir => manifest_in dir key) entities_dirs).

(** ** Settings *)

Definition SETTING_VERBS : list (string * string) :=
  [ ("substrate", "change its mind"); ("voice", "change its voice"); ("appearance", "change its appearance");
    ("identity", "change its identity"); ("tool-policy", "change its tools"); ("prompt", "change its instructions");
    ("skills", "change its skills"); ("unarchive", "unarchive it"); ("archive", "archive it");
    ("active", "turn it on or off"); ("settings", "change its settings") ].
Definition setting_verb (setting : string) : option string :=
  option_map snd (List.find (fun kv => String.eqb (fst kv) setting) SETTING_VERBS).
Definition refusal (name setting : string) : string :=
  "Only an admin or " +:+ name +:+ "'s creator can " +:+
  default "change its settings" (setting_verb setting) +:+ ".".

Inductive role := ROLE_ADMIN | ROLE_CREATOR.
#[global] Instance role_eq_dec : EqDecision role.
Proof. solve_decision. Defined.

Definition configure_role (principal : option GatewayPrincipal) (created_by : val) : option role :=
  match principal with
  | None => None
  | Some p =>
      if is_admin p then Some ROLE_ADMIN
      else if is_entity_principal p then None
      else match created_by with
           | VDict d =>
               if String.eqb (creator_id d) "" then None
               else if same_account p d then Some ROLE_CREATOR else None
           | _ => None
           end
  end.

(** [str(path or "").rstrip("/").rsplit("/", 1)[-1] or "settings"] *)
Definition route_setting (path : string) : string :=
  let p := rstrip_by slash path in
  let seg := match rsplit1 "/" p with Some (_, s) => s | None => p end in
  if String.eqb seg "" then "settings" else seg.

(** ** The dependencies of the entity routers *)

(** What a guard answers: it lets the handler run, or raises an HTTP error. *)
Inductive verdict := Pass | Http (status : Z) (detail : string).
#[global] Instance verdict_eq_dec : EqDecision verdict.
Proof. solve_decision. Defined.

(** The body [_reject_forbidden_route] sends. *)
Definition forbidden_route : verdict := Http 403 "Admin principal required".

Definition not_found_detail (entities_dir slug : string) : string :=
  "entity " +:+ repr_str slug +:+ " not found under " +:+ entities_dir.

(** [entity_name_guard] and [require_entity_visible]; [name] is the route's
    [{name}] parameter, when it has one. *)
Definition entity_name_guard (multi_user : bool) (entities_dir : string) (homes : string -> option val)
    (principal : option GatewayPrincipal) (name : option string) : verdict :=
  match name with
  | None => Pass
  | Some name =>
      if sees_every_entity multi_user principal then Pass
      else match entity_slug name with
           | Raise _ => Pass
           | Ok slug =>
               match homes slug with
               | Some created_by =>
                   if entity_visible_to multi_user principal slug created_by then Pass
                   else Http 404 (not_found_detail entities_dir slug)
               | None => Pass
               end
           end
  end.

(** [entity_settings_guard]. *)
Definition entity_settings_guard (homes : string -> option val) (principal : option GatewayPrincipal)
    (path method : string) (name : option string) : verdict :=
  match gateway_route_authorization_requirement path method with
  | None => Pass
  | Some r =>
      if negb (String.eqb (r_required_role r) "admin_or_creator") then Pass
      else match name with
           | None => Pass
           | Some name =>
               let p := default (local_admin_principal "") principal in
               match entity_slug name with
               | Raise _ => Pass
               | Ok slug =>
                   match homes slug with
                   | None => Pass
                   | Some created_by =>
                       match configure_role (Some p) created_by with
                       | Some _ => Pass
                       | None => Http 403 (refusal slug (route_setting path))
                       end
                   end
               end
           end
  end.

(** A request to an entity route: the middleware's table, then the two guards in
    the order the routers declare them. *)
Definition entity_route (multi_user : bool) (entities_dir : string) (homes : string -> option val)
    (principal : option GatewayPrincipal) (path method : string) (name : option string) : verdict :=
  if negb (route_admitted principal path method) then forbidden_route
  else match entity_name_guard multi_user entities_dir homes principal name with
       | Pass => entity_settings_guard homes principal path method name
       | v => v
       end.

(** ** Names *)

#[local] Arguments slug_char : simpl never.
#[local] Arguments slug_head : simpl never.
#[local] Arguments safe_char : simpl never.
#[local] Arguments dot_or_underscore : simpl never.

Lemma slug_char_lower c : slug_char c = true -> lower_ascii c = c.
Proof. destruct c as [[] [] [] [] [] [] [] []]; vm_compute; done. Qed.
Lemma slug_char_dash c : slug_char c = true -> space_to_dash c = c.
Proof. destruct c as [[] [] [] [] [] [] [] []]; vm_compute; done. Qed.
Lemma slug_char_safe c : slug_char c = true -> safe_char c = true.
Proof. destruct c as [[] [] [] [] [] [] [] []]; vm_compute; done. Qed.
Lemma slug_char_dot c : slug_char c = true -> dot_or_underscore c = Ascii.eqb c "_".
Proof. destruct c as [[] [] [] [] [] [] [] []]; vm_compute; done. Qed.
Lemma slug_head_char c : slug_head c = true -> slug_char c = true /\ dot_or_underscore c = false.
Proof. destruct c as [[] [] [] [] [] [] [] []]; vm_compute; done. Qed.

Lemma smap_id (f : ascii -> ascii) (P : ascii -> bool) s :
  (forall c, P c = true -> f c = c) -> forall_chars P s = true -> smap f s = s.
Proof.
  intros Hf. induction s as [|c s IH]; simpl; [done|]. intros Hs%andb_true_iff. destruct Hs as [Hc Hs].
  by rewrite Hf, IH.
Qed.

Lemma slug_re_chars s : slug_re s = true -> forall_chars slug_char s = true /\ s <> "" /\ len s <= 64.
Proof.
  destruct s as [|c t]; simpl; [done|]. rewrite !andb_true_iff. intros [[Hc Ht] Hl].
  apply slug_head_char in Hc as [Hc _]. split_and!; [exact Hc|exact Ht|done|].
  apply Z.leb_le in Hl. unfold len in *. simpl. lia.
Qed.

Lemma slug_no_space s : slug_re s = true -> strip s = s.
Proof.
  intros Hs. apply strip_no_space. eapply forall_chars_weaken; [|exact (proj1 (slug_re_chars s Hs))].
  intros c Hc. by rewrite (safe_not_space c (slug_char_safe c Hc)).
Qed.

(** The last character of a text. *)
Fixpoint ends_in (c : ascii) (s : string) : bool :=
  match s with "" => false | d ::s "" => Ascii.eqb d c | _ ::s t => ends_in c t end.

Lemma rstrip_by_ends (f : ascii -> bool) c s :
  forall_chars (fun d => Bool.eqb (f d) (Ascii.eqb d c)) s = true ->
  (rstrip_by f s = s <-> ends_in c s = false).
Proof.
  induction s as [|d s IH]; simpl; [done|]. intros Hs%andb_true_iff. destruct Hs as [Hd Hs]. specialize (IH Hs).
  apply eqb_prop in Hd. destruct s as [|e s].
  - simpl. rewrite Hd. destruct (Ascii.eqb d c); simpl; split; done.
  - assert ((let s' := rstrip_by f (e ::s s) in if String.eqb s' "" && f d then "" else d ::s s') = d ::s e ::s s
            <-> rstrip_by f (e ::s s) = e ::s s) as Heq.
    { cbv zeta. destruct (String.eqb_spec (rstrip_by f (e ::s s)) "") as [->|]; simpl.
      - destruct (f d); split; done.
      - split; [by intros [=]|by intros ->]. }
    simpl ends_in. rewrite <- IH, <- Heq. done.
Qed.

Lemma slug_component_fix s : slug_re s = true ->
  (safe_principal_component (VStr s) (Some "") = s <-> ends_in "_" s = false).
Proof.
  intros Hs. destruct (slug_re_chars s Hs) as (Hc & Hne & _).
  assert (strip_by dot_or_underscore s = rstrip_by dot_or_underscore s) as Hstrip.
  { unfold strip_by. destruct s as [|c t]; [done|]. simpl in Hs. rewrite !andb_true_iff in Hs. destruct Hs as [[Hh _] _].
    simpl lstrip_by. by rewrite (proj2 (slug_head_char c Hh)). }
  rewrite <- (rstrip_by_ends dot_or_underscore).
  2: { eapply forall_chars_weaken; [|exact Hc]. intros c Hd. rewrite (slug_char_dot c Hd). apply eqb_reflx. }
  unfold safe_principal_component, str_or, py_or. simpl.
  destruct (String.eqb_spec s ""); [done|]. simpl. rewrite slug_no_space by done.
  destruct (String.eqb_spec s ""); [done|].
  rewrite sub_unsafe_id by (eapply forall_chars_weaken; [apply slug_char_safe|exact Hc]).
  rewrite Hstrip. destruct (String.eqb_spec (rstrip_by dot_or_underscore s) "") as [->|]; split; congruence.
Qed.

(** a name is accepted as an entity's only through one normal form: the slug
    is non-empty, at most 64 of [a-z0-9_-], not a reserved word of the API and
    accepted unchanged when given again; and the gateway finds the home of that
    name (and knows the name's account) exactly when the slug does not end in an
    underscore, which the slug's grammar allows and the path component drops. *)
Theorem entity_slug_spec (name s : string) (dirs : list string) (manifest_in : string -> string -> bool) :
  entity_slug name = Ok s ->
  s <> "" /\ len s <= 64 /\ forall_chars slug_char s = true /\ has_char "/" s = false /\
  (s ∉ RESERVED_ENTITY_NAMES) /\ entity_slug s = Ok s /\
  (safe_principal_component (VStr s) (Some "") = s <-> ends_in "_" s = false) /\
  (ends_in "_" s = false -> forall dir, dir ∈ dirs -> manifest_in dir s = true ->
     exists dir', entity_home_dir dirs manifest_in s = Some (dir', s) /\ manifest_in dir' s = true) /\
  (ends_in "_" s = true -> forall dir', entity_home_dir dirs manifest_in s <> Some (dir', s)).
Proof.
  intros He. unfold entity_slug in He. destruct (String.eqb (strip name) ""); [done|].
  destruct (slug_re _) eqn:Hs; [|done]. simpl in He. destruct (bool_decide_reflect (smap space_to_dash (lower (strip name)) ∈ RESERVED_ENTITY_NAMES)) as [|Hr]; [done|].
  injection He as He. rewrite He in Hs, Hr. destruct (slug_re_chars s Hs) as (Hc & Hne & Hlen).
  pose proof (slug_component_fix s Hs) as Hfix.
  split_and!; [done|done|done|by eapply forall_chars_no|done| |done| |].
  - unfold entity_slug. rewrite slug_no_space by done. destruct (String.eqb_spec s ""); [done|].
    unfold lower. rewrite (smap_id _ _ _ slug_char_lower Hc), (smap_id _ _ _ slug_char_dash Hc), Hs. simpl.
    by rewrite bool_decide_eq_false_2.
  - intros Hend dir Hdir Hm. unfold entity_home_dir. rewrite (proj2 Hfix Hend).
    destruct (String.eqb_spec s ""); [done|].
    destruct (first_match_spec (fun d => manifest_in d s) dirs dir Hdir Hm) as (d' & -> & _ & ?). by exists d'.
  - intros Hend dir'. unfold entity_home_dir. destruct (String.eqb _ ""); [done|].
    destruct (List.find _ dirs) as [d|]; simpl; [|done]. intros [= _ Heq]. apply Hfix in Heq. congruence.
Qed.
Lemma entity_slug_spec_witness :
  entity_slug "Bob_" = Ok "bob_" /\ len "bob_" <= 64 /\
  entity_home_dir ["/data/entities"] (fun _ slug => String.eqb slug "bob_") "bob_" <> Some ("/data/entities", "bob_") /\
  (exists d, entity_home_dir ["/data/entities"] (fun _ slug => String.eqb slug "castor") "castor" = Some (d, "castor")).
Proof.
  split; [by vm_compute|].
  destruct (entity_slug_spec "Bob_" "bob_" ["/data/entities"] (fun _ slug => String.eqb slug "bob_"))
    as (_ & Hl & _ & _ & _ & _ & _ & _ & Hno); [by vm_compute|].
  split; [done|]. split; [by apply Hno|].
  destruct (entity_slug_spec " Castor" "castor" ["/data/entities"] (fun _ slug => String.eqb slug "castor"))
    as (_ & _ & _ & _ & _ & _ & _ & Hyes & _); [by vm_compute|].
  destruct (Hyes eq_refl "/data/entities") as (d & Hd & _); [by constructor|done|]. by exists d.
Defined.

(** ** Creators *)

Lemma or_default_str s : or_default s = VStr (if String.eqb s "" then "default" else s).
Proof. unfold or_default, py_or. simpl. by destruct (String.eqb s ""). Qed.

Lemma tenant_component_good v : good_fallback (safe_principal_component v (Some "default")) = true.
Proof. apply safe_component_shape. by vm_compute. Qed.

(** The account that creates an entity. *)
Definition tenant_of (p : GatewayPrincipal) : string := safe_principal_component (or_default (tenant_id p)) (Some "default").

Lemma same_account_creator p q created_by :
  creator_of (Some p) = Some created_by ->
  exists d, created_by = VDict d /\ creator_id d <> "" /\
    same_account q d = String.eqb (strip (user_id p)) (strip (user_id q)) && String.eqb (tenant_of p) (tenant_of q).
Proof.
  unfold creator_of. destruct (String.eqb_spec (strip (user_id p)) "") as [|Hne]; [done|]. intros [= <-].
  eexists. split; [done|].
  assert (forall d, get_ "user_id" d = VStr (strip (user_id p)) -> creator_id d = strip (user_id p)) as Hid.
  { intros d Hd. unfold creator_id. rewrite Hd. unfold str_or, py_or. simpl.
    destruct (String.eqb_spec (strip (user_id p)) ""); [done|]. simpl. apply strip_idemp. }
  rewrite Hid by done. split; [done|]. unfold same_account. rewrite Hid by done. f_equal. f_equal.
  unfold get_, py_or. simpl. fold (tenant_of p).
  pose proof (tenant_component_good (or_default (tenant_id p))) as Hg. fold (tenant_of p) in Hg.
  assert (String.eqb (tenant_of p) "" = false) as ->.
  { unfold good_fallback in Hg. by destruct (String.eqb (tenant_of p) ""). }
  simpl. by apply safe_component_id.
Qed.

Lemma configure_visible multi_user p slug created_by :
  configure_role (Some p) created_by <> None -> entity_visible_to multi_user (Some p) slug created_by = true.
Proof.
  unfold configure_role, entity_visible_to, sees_every_entity. destruct (is_admin p); [done|].
  destruct (is_entity_principal p); [done|]. destruct created_by as [| | | | | |d]; try done.
  destruct (String.eqb (creator_id d) ""); [done|]. destruct (same_account p d); [|done]. intros _.
  by destruct multi_user.
Qed.

(** the creator configures its entity, and of the others only administrators:
    for an entity whose manifest records the creator [p], a principal [q]
    configures it as administrator exactly when it is one, as creator exactly
    when it is a member with the creator's id (spaces aside) and tenant
    component, and not at all otherwise, entities included; whoever configures
    it sees it; and a manifest without a creator leaves it to administrators. *)
Theorem creator_configures (p q : GatewayPrincipal) (created_by : val) (multi_user : bool) (slug : string) :
  creator_of (Some p) = Some created_by ->
  let same := strip (user_id p) = strip (user_id q) /\ tenant_of p = tenant_of q in
  (configure_role (Some q) created_by = Some ROLE_ADMIN <-> is_admin q = true) /\
  (configure_role (Some q) created_by = Some ROLE_CREATOR <->
     is_admin q = false /\ is_entity_principal q = false /\ same) /\
  (configure_role (Some q) created_by <> None -> entity_visible_to multi_user (Some q) slug created_by = true) /\
  (entity_visible_to true (Some q) slug created_by = true <->
     is_admin q = true \/ (is_entity_principal q = true /\ user_id q = slug) \/ same) /\
  (forall legacy, as_dict legacy = None -> configure_role (Some q) legacy <> None -> is_admin q = true).
Proof.
  intros Hc same. destruct (same_account_creator p q created_by Hc) as (d & -> & Hne & Hsame).
  assert (same_account q d = true <-> same) as Hs.
  { rewrite Hsame, andb_true_iff, !String.eqb_eq. done. }
  clear Hsame Hc. split_and!.
  - unfold configure_role. destruct (is_admin q); [done|]. destruct (is_entity_principal q); [done|].
    destruct (String.eqb (creator_id d) ""), (same_account q d); split; done.
  - unfold configure_role. destruct (is_admin q); [by split; [|intros (? & _)]|].
    destruct (is_entity_principal q); [by split; [|intros (_ & ? & _)]|].
    destruct (String.eqb_spec (creator_id d) ""); [done|].
    destruct (same_account q d); split; try done; [intros _; split_and!; try done; by apply Hs|].
    intros (_ & _ & H). apply Hs in H. done.
  - apply configure_visible.
  - unfold entity_visible_to, sees_every_entity. rewrite orb_false_r.
    destruct (is_admin q); [split; [by left|done]|].
    destruct (String.eqb_spec (creator_id d) ""); [done|]. rewrite <- Hs.
    destruct (is_entity_principal q); simpl; [destruct (String.eqb_spec (user_id q) slug)|]; naive_solver.
  - intros legacy Hl. unfold configure_role. destruct (is_admin q); [done|]. destruct (is_entity_principal q); [done|].
    by destruct legacy.
Qed.
Lemma creator_configures_witness :
  configure_role (Some (member "ada" "")) (VDict [("tenant_id", VStr "default"); ("user_id", VStr "ada")]) = Some ROLE_CREATOR /\
  configure_role (Some (member "bob" "default")) (VDict [("tenant_id", VStr "default"); ("user_id", VStr "ada")]) <> Some ROLE_CREATOR.
Proof.
  split.
  - apply (creator_configures (member " ada" "default") (member "ada" "") _ true "castor"); [by vm_compute|].
    split_and!; by vm_compute.
  - intros H. apply (creator_configures (member " ada" "default") (member "bob" "default") _ true "castor") in H;
      [|by vm_compute]. destruct H as (_ & _ & H & _). by vm_compute in H.
Defined.

(** ** The routes of an entity *)

Lemma entity_name_guard_spec multi_user entities_dir homes who name slug created_by :
  entity_slug name = Ok slug -> homes slug = Some created_by ->
  entity_name_guard multi_user entities_dir homes who (Some name) =
    if entity_visible_to multi_user who slug created_by then Pass else Http 404 (not_found_detail entities_dir slug).
Proof.
  intros Hslug Hhome. unfold entity_name_guard. rewrite Hslug, Hhome.
  destruct (sees_every_entity multi_user who) eqn:Hsee; [|done]. unfold entity_visible_to. by rewrite Hsee.
Qed.

(** a settings route of an existing entity runs exactly for those who may
    configure it, whatever the middleware and the two guards each let through:
    a caller who may not see the entity is answered as for a missing one, and
    one who sees but may not configure it is refused with the sentence. *)
Theorem settings_route_guarded (multi_user : bool) (entities_dir : string) (homes : string -> option val)
    (who : option GatewayPrincipal) (path method name slug : string) (created_by : val) :
  required_role_of path method = Some ("admin_or_creator", false) ->
  entity_slug name = Ok slug -> homes slug = Some created_by ->
  let out := entity_route multi_user entities_dir homes who path method (Some name) in
  let p := default (local_admin_principal "") who in
  (out = Pass <-> configure_role (Some p) created_by <> None) /\
  (entity_visible_to multi_user who slug created_by = false -> out = Http 404 (not_found_detail entities_dir slug)) /\
  (entity_visible_to multi_user who slug created_by = true -> configure_role (Some p) created_by = None ->
     out = Http 403 (refusal slug (route_setting path))).
Proof.
  intros Hrole Hslug Hhome out p.
  assert (out = if entity_visible_to multi_user who slug created_by then
      match configure_role (Some p) created_by with Some _ => Pass | None => Http 403 (refusal slug (route_setting path)) end
    else Http 404 (not_found_detail entities_dir slug)) as Hout.
  { subst out. unfold entity_route. rewrite (route_admitted_role who _ _ _ _ Hrole), String.eqb_refl. cbn [negb].
    assert (entity_settings_guard homes who path method (Some name) =
      match configure_role (Some p) created_by with Some _ => Pass | None => Http 403 (refusal slug (route_setting path)) end) as ->.
    { destruct (required_role_of_some _ _ _ _ Hrole) as (r & Hr & Hrr & _). unfold entity_settings_guard.
      by rewrite Hr, Hrr, Hslug, Hhome. }
    rewrite (entity_name_guard_spec _ _ _ _ _ _ _ Hslug Hhome). by destruct (entity_visible_to _ _ _ _). }
  rewrite Hout. clearbody out. split_and!.
  - destruct (entity_visible_to multi_user who slug created_by) eqn:Hv.
    + destruct (configure_role (Some p) created_by); split; done.
    + split; [done|]. intros Hconf. destruct who as [q|]; [|done].
      apply (configure_visible multi_user q slug) in Hconf. simpl in p. congruence.
  - by intros ->.
  - by intros -> ->.
Qed.
Lemma settings_route_guarded_witness :
  entity_route true "/data/entities" (fun s => if String.eqb s "castor" then Some (VDict [("user_id", VStr "ada")]) else None)
    (Some (member "ada" "default")) "/api/gateway/entities/Castor/prompt" "PUT" (Some "Castor") = Pass /\
  entity_route true "/data/entities" (fun s => if String.eqb s "castor" then Some (VDict [("user_id", VStr "ada")]) else None)
    (Some (member "bob" "default")) "/api/gateway/entities/Castor/prompt" "PUT" (Some "Castor")
  = Http 404 "entity 'castor' not found under /data/entities" /\
  entity_route false "/data/entities" (fun s => if String.eqb s "castor" then Some (VDict [("user_id", VStr "ada")]) else None)
    (Some (member "bob" "default")) "/api/gateway/entities/Castor/prompt" "PUT" (Some "Castor")
  = Http 403 "Only an admin or castor's creator can change its instructions.".
Proof.
  split_and!.
  - apply (settings_route_guarded true "/data/entities" _ (Some (member "ada" "default")) "/api/gateway/entities/Castor/prompt" "PUT"
      "Castor" "castor" (VDict [("user_id", VStr "ada")])); by vm_compute.
  - apply (settings_route_guarded true "/data/entities" _ (Some (member "bob" "default")) "/api/gateway/entities/Castor/prompt" "PUT"
      "Castor" "castor" (VDict [("user_id", VStr "ada")])); by vm_compute.
  - apply (settings_route_guarded false "/data/entities" _ (Some (member "bob" "default")) "/api/gateway/entities/Castor/prompt" "PUT"
      "Castor" "castor" (VDict [("user_id", VStr "ada")])); by vm_compute.
Defined.
