(* ===== verification/Lockout.v ===== *)
(** * The lockout of credential guessing

    [security/gateway_security.py], [_AuthLockoutTracker], and the branch of the
    middleware ([__call__]) that answers a presented and invalid credential.

    Times are microseconds since the epoch and durations microseconds. A lock
    duration is exact; what a double cannot hold is the code's own exception: an
    integer power of two past the largest double, and an infinite duration. *)

From S2P Require Import Prelude PyStr OrdDict IsoTime.

Record entry := mk_entry { fails : Z; until : Z; last_failure : Z }.
Abbreviation tracker_state := (list (string * entry)).

Record tracker := mk_tracker {
  after : Z;
  base : Z;
  max_lock : Z;
  max_entries : Z;
  decay : Z;
}.

(** [__init__], with its clamps. *)
Definition new_tracker (after_failures base_s max_s entries decay_s : Z) : tracker :=
  mk_tracker (Z.max 1 after_failures) (Z.max 0 base_s) (Z.max 0 max_s) (Z.max 100 entries) (Z.max 0 decay_s).
Definition default_tracker : tracker := new_tracker 10 (1 * second) (60 * second) 10000 (900 * second).

Definition no_entry : entry := mk_entry 0 0 0.

Section Tracker.
Context (tr : tracker).

(** [_decayed] *)
Definition decayed (ip : string) (now : Z) : M tracker_state entry := fun st =>
  let e := default no_entry (oget ip st) in
  if (0 <? decay tr) && (0 <? last_failure e) && (decay tr <? now - last_failure e) && (until e <=? now)
  then (Ok no_entry, opop ip st)
  else (Ok e, st).

(** [int(seconds)] of a duration. *)
Definition whole_seconds (d : Z) : Z := Z.quot d second.

Definition check_locked (ip : string) (now : Z) : M tracker_state (option Z) :=
  e <- decayed ip now ;;
  ret (if now <? until e then Some (whole_seconds (Z.max 0 (until e - now))) else None).

(** [self._base * (2**exp) if self._base > 0 else 0.0], capped. A double holds a
    power of two up to 2^1023; the product may be infinite. *)
Definition backoff (exp : Z) : res Z :=
  if 0 <? base tr then
    if 1024 <=? exp then Raise (OverflowError "int too large to convert to float")
    else Ok (if 0 <? max_lock tr then Z.min (base tr * 2 ^ exp) (max_lock tr) else base tr * 2 ^ exp)
  else Ok (if 0 <? max_lock tr then Z.min 0 (max_lock tr) else 0).
Definition infinite (d : Z) : bool := 2 ^ 1024 * second <=? d.

Definition prune (st : tracker_state) : tracker_state :=
  if max_entries tr <? Z.of_nat (length st) then opops (take 1000 (okeys st)) st else st.

Definition record_failure (ip : string) (now : Z) : M tracker_state (option Z) :=
  modify prune ;;;
  e <- decayed ip now ;;
  let fc := fails e + 1 in
  if fc <? after tr then modify (oset ip (mk_entry fc 0 now)) ;;; ret None
  else
    lock_s <- of_res (backoff (Z.max 0 (fc - after tr))) ;;
    modify (oset ip (mk_entry fc (now + lock_s) now)) ;;;
    if infinite lock_s then raise (OverflowError "cannot convert float infinity to integer")
    else ret (Some (whole_seconds lock_s)).

Definition record_success (ip : string) : M tracker_state unit := modify (opop ip).

(** The answer to a presented and invalid credential: 429 with the seconds to
    wait, or 401. The two calls read the clock one after the other. *)
Definition reject_invalid (ip : string) (now now' : Z) : M tracker_state (option Z) :=
  locked_now <- check_locked ip now ;;
  lock <- record_failure ip now' ;;
  let wait := Z.max (default 0 locked_now) (default 0 lock) in
  ret (if 0 <? wait then Some wait else None).

(** ** The schedule of locks *)

(** The duration of the lock after the [n]-th consecutive failure. *)
Definition lock_after (n : Z) : Z :=
  if n <? after tr then 0 else match backoff (n - after tr) with Ok d => d | Raise _ => 0 end.
Definition answer_after (n : Z) : option Z := if n <? after tr then None else Some (whole_seconds (lock_after n)).
Definition entry_after (n t : Z) : entry := mk_entry n (if n <? after tr then 0 else t + lock_after n) t.

(** Failures at the given times, one after the other. *)
Definition failures (ip : string) (ts : list Z) : M tracker_state unit :=
  for_ ts (fun t => record_failure ip t ;;; ret tt).

(** Consecutive failures: none before the epoch, no quiet window between two. *)
Fixpoint consecutive (prev : option Z) (ts : list Z) : bool :=
  match ts with
  | [] => true
  | t :: ts =>
      (0 <? t) && match prev with Some p => (p <=? t) && (t - p <=? decay tr) | None => true end &&
      consecutive (Some t) ts
  end.

(** A tracker as its constructor makes it, that caps its locks. *)
Definition well_formed : Prop := 1 <= after tr /\ 0 <= base tr /\ 0 < max_lock tr /\ max_lock tr < 2 ^ 1024 * second /\
  0 <= decay tr /\ 0 <= max_entries tr.

Lemma prune_small st : Z.of_nat (length st) <= max_entries tr -> prune st = st.
Proof. intros H. unfold prune. by rewrite (proj2 (Z.ltb_ge _ _)). Qed.

Lemma backoff_ok n : well_formed -> 0 <= n < 1024 -> exists d, backoff n = Ok d /\ 0 <= d <= max_lock tr /\
  d = Z.min (base tr * 2 ^ n) (max_lock tr).
Proof.
  intros (_ & Hb & Hm & _) Hn. unfold backoff. rewrite (proj2 (Z.ltb_lt 0 (max_lock tr))) by done.
  assert (0 < 2 ^ n) by (apply Z.pow_pos_nonneg; lia).
  destruct (Z.ltb_spec 0 (base tr)).
  - rewrite (proj2 (Z.leb_gt 1024 n)) by lia. eexists. split; [done|]. nia.
  - assert (base tr = 0) as -> by lia. eexists. split; [done|]. rewrite Z.mul_0_l. lia.
Qed.

Lemma record_failure_step ip now n t st :
  well_formed -> Z.of_nat (length st) <= max_entries tr -> 0 <= n ->
  oget ip st = (if n =? 0 then None else Some (entry_after n t)) ->
  (n <> 0 -> t <= now /\ now - t <= decay tr) -> n + 1 < after tr + 1024 ->
  record_failure ip now st = (Ok (answer_after (n + 1)), oset ip (entry_after (n + 1) now) st).
Proof.
  intros Hwf Hlen Hn Hget Hgap Hmax. unfold record_failure, modify, mbind_. rewrite prune_small by done.
  assert (decayed ip now st = (Ok (default no_entry (oget ip st)), st)) as ->.
  { unfold decayed. rewrite Hget. destruct (Z.eqb_spec n 0) as [->|Hne]; simpl; [by rewrite andb_false_r|].
    rewrite (proj2 (Z.ltb_ge (decay tr) _)) by lia. by rewrite andb_false_r. }
  assert (fails (default no_entry (oget ip st)) = n) as Hf.
  { rewrite Hget. by destruct (Z.eqb_spec n 0) as [->|]. }
  rewrite Hf. unfold answer_after, entry_after, lock_after.
  destruct (Z.ltb_spec (n + 1) (after tr)); [done|].
  replace (Z.max 0 (n + 1 - after tr)) with (n + 1 - after tr) by lia.
  destruct (backoff_ok (n + 1 - after tr) Hwf) as (d & -> & Hd & _); [lia|]. simpl.
  destruct Hwf as (_ & _ & _ & Hfin & _). unfold infinite.
  by rewrite (proj2 (Z.leb_gt (2 ^ 1024 * second) d)) by lia.
Qed.

Definition last_time (t : Z) (ts : list Z) : Z := default t (last ts).

Lemma failures_cons ip now ts st a st' : record_failure ip now st = (Ok a, st') ->
  failures ip (now :: ts) st = failures ip ts st'.
Proof. intros H. unfold failures. simpl. unfold mbind_ at 1 2. by rewrite H. Qed.

Lemma failures_run ip ts : forall n t st,
  well_formed -> 0 <= n -> Z.of_nat (length st) + (if n =? 0 then 1 else 0) <= max_entries tr ->
  oget ip st = (if n =? 0 then None else Some (entry_after n t)) ->
  consecutive (if n =? 0 then None else Some t) ts = true -> n + Z.of_nat (length ts) < after tr + 1024 ->
  failures ip ts st =
    (Ok tt, if bool_decide (ts = []) then st
            else oset ip (entry_after (n + Z.of_nat (length ts)) (last_time t ts)) st).
Proof.
  induction ts as [|now ts IH]; intros n t st Hwf Hn Hlen Hget Hc Hmax; [done|].
  simpl in Hc. rewrite !andb_true_iff in Hc. destruct Hc as [[Hpos Hgap] Hc].
  assert (record_failure ip now st = (Ok (answer_after (n + 1)), oset ip (entry_after (n + 1) now) st)) as Hstep.
  { apply (record_failure_step ip now n t); [done|destruct (n =? 0); lia|done|done| |simpl in Hmax; lia].
    intros Hne. rewrite (proj2 (Z.eqb_neq n 0)) in Hgap by done. lia. }
  rewrite (failures_cons _ _ _ _ _ _ Hstep).
  assert (failures ip ts (oset ip (entry_after (n + 1) now) st) =
    (Ok tt, if bool_decide (ts = []) then oset ip (entry_after (n + 1) now) st
            else oset ip (entry_after (n + 1 + Z.of_nat (length ts)) (last_time now ts)) (oset ip (entry_after (n + 1) now) st))) as Hrec.
  { apply IH; rewrite ?(proj2 (Z.eqb_neq (n + 1) 0)) by lia; [done|lia| | |done|simpl in Hmax; lia].
    - destruct (Z.eqb_spec n 0).
      + pose proof (length_oset ip (entry_after (n + 1) now) st). lia.
      + rewrite length_oset_present by (rewrite Hget; eauto). lia.
    - by rewrite oget_oset_eq. }
  etrans; [exact Hrec|]. rewrite (bool_decide_eq_false_2 (now :: ts = [])) by done. f_equal.
  destruct ts as [|now' ts]; [by rewrite bool_decide_eq_true_2|].
  rewrite bool_decide_eq_false_2 by done. rewrite oset_oset. f_equal.
  f_equal; [simpl; lia|]. unfold last_time. rewrite !last_cons. by destruct (last ts).
Qed.

Lemma consecutive_app p ts now : consecutive p (ts ++ [now]) = true ->
  consecutive p ts = true /\ 0 < now /\
  match (match last ts with Some t => Some t | None => p end) with
  | Some t => t <= now /\ now - t <= decay tr
  | None => True
  end.
Proof.
  revert p. induction ts as [|t ts IH]; intros p; simpl.
  - destruct p; lia.
  - rewrite !andb_true_iff. intros [Ht H]. apply IH in H as (H & Hn & Hl). rewrite H.
    split; [done|]. split; [done|].
    rewrite last_cons. by destruct (last ts).
Qed.

(** The state after consecutive failures of an address that had none. *)
Lemma failures_fresh ip ts t st :
  well_formed -> oget ip st = None -> Z.of_nat (length st) < max_entries tr ->
  consecutive None ts = true -> Z.of_nat (length ts) < after tr + 1024 -> last ts = Some t ->
  exec (failures ip ts) st = oset ip (entry_after (Z.of_nat (length ts)) t) st.
Proof.
  intros Hwf Hget Hlen Hc Hmax Hlast. unfold exec.
  rewrite (failures_run ip ts 0 0 st) by (done || (simpl; lia)). simpl.
  rewrite bool_decide_eq_false_2 by (by intros ->). unfold last_time. by rewrite Hlast.
Qed.

(** the lock an address is given doubles with its consecutive failures: for an
    address with no recorded failure, the [n]-th failure with no quiet window
    between two of them is answered without a lock below the threshold and from
    it with [base * 2^(n - threshold)] capped at the configured maximum; the
    address is then locked for exactly that long, no other address is touched,
    and a valid credential clears it at once. *)
Theorem lockout_schedule (ip : string) (ts : list Z) (now : Z) (st : tracker_state) :
  let n := Z.of_nat (length ts) + 1 in
  well_formed -> oget ip st = None -> Z.of_nat (length st) < max_entries tr ->
  consecutive None (ts ++ [now]) = true -> n < after tr + 1024 ->
  let before := exec (failures ip ts) st in
  let st' := snd (record_failure ip now before) in
  let lock := if n <? after tr then 0 else Z.min (base tr * 2 ^ (n - after tr)) (max_lock tr) in
  fst (record_failure ip now before) = Ok (if n <? after tr then None else Some (whole_seconds lock)) /\
  (forall later, now <= later <= now + decay tr -> fst (check_locked ip later st') =
     Ok (if later <? now + lock then Some (whole_seconds (now + lock - later)) else None)) /\
  (forall other, other <> ip -> oget other st' = oget other st) /\
  (forall later, 0 <= later -> fst (check_locked ip later (exec (record_success ip) st')) = Ok None).
Proof.
  intros n Hwf Hget Hlen Hc Hn before st' lock.
  pose proof (consecutive_app None ts now Hc) as (Hts & Hpos & Hlast).
  assert ((n <? after tr) = false -> exists d, backoff (n - after tr) = Ok d /\ d = lock /\ 0 <= d) as Hlock.
  { intros E. destruct (backoff_ok (n - after tr) Hwf) as (d & Hd & ? & ->); [lia|]. subst lock. rewrite E. eauto with lia. }
  assert (record_failure ip now before = (Ok (answer_after n), oset ip (entry_after n now) st)) as Hstep.
  { subst before. destruct (last ts) as [t|] eqn:El.
    - rewrite (failures_fresh ip ts t st) by (done || lia).
      rewrite (record_failure_step ip now (Z.of_nat (length ts)) t);
        [by rewrite oset_oset|done| |lia| |lia|lia].
      + pose proof (length_oset ip (entry_after (Z.of_nat (length ts)) t) st). lia.
      + rewrite oget_oset_eq. by destruct ts.
    - apply last_None in El. subst ts. apply (record_failure_step ip now 0 0); (done || lia). }
  subst st'. rewrite Hstep. simpl fst. simpl snd. split_and!.
  - unfold answer_after, lock_after. destruct (n <? after tr) eqn:E; [done|].
    destruct (Hlock eq_refl) as (d & -> & -> & _). done.
  - intros later Hl. unfold check_locked, mbind_, decayed. rewrite oget_oset_eq. simpl.
    rewrite (proj2 (Z.ltb_ge (decay tr) (later - now))) by lia. rewrite andb_false_r. simpl.
    destruct (n <? after tr) eqn:E.
    + subst lock. rewrite Z.add_0_r, (proj2 (Z.ltb_ge later 0)) by lia. by rewrite (proj2 (Z.ltb_ge later now)) by lia.
    + unfold lock_after. rewrite E. destruct (Hlock eq_refl) as (d & -> & -> & _). simpl.
      destruct (Z.ltb_spec later (now + lock)); [|done]. unfold ret. do 2 f_equal. f_equal. lia.
  - intros other Hne. by rewrite oget_oset_ne by congruence.
  - intros later Hl.
    unfold check_locked, mbind_, decayed, exec, record_success, modify. simpl.
    rewrite oget_opop_eq. simpl. rewrite andb_false_r. simpl. by rewrite (proj2 (Z.ltb_ge later 0)).
Qed.

(** the count of failures has an end: from the failure number [threshold + 1024]
    of an address on, with no quiet window between two, counting the failure
    raises [OverflowError] instead of answering, so the middleware's refusal is
    never sent; nothing is recorded, so every further guess raises too, until a
    quiet window after the last recorded one, when the count restarts at one. *)
Theorem lockout_overflow (ip : string) (ts : list Z) (t now : Z) (st : tracker_state) :
  well_formed -> 0 < base tr -> 0 < decay tr -> max_lock tr <= decay tr ->
  oget ip st = None -> Z.of_nat (length st) < max_entries tr ->
  consecutive None ts = true -> Z.of_nat (length ts) = after tr + 1023 -> last ts = Some t -> t <= now ->
  let before := exec (failures ip ts) st in
  (now - t <= decay tr ->
     record_failure ip now before = (Raise (OverflowError "int too large to convert to float"), before) /\
     fst (reject_invalid ip now now before) = Raise (OverflowError "int too large to convert to float")) /\
  (decay tr < now - t -> exists st', record_failure ip now before = (Ok (answer_after 1), st') /\
     oget ip st' = Some (entry_after 1 now)).
Proof.
  intros Hwf Hb Hd Hm Hget Hlen Hc Hn Hlast Hnow before.
  assert (before = oset ip (entry_after (Z.of_nat (length ts)) t) st) as Hbefore.
  { apply failures_fresh; (done || lia). }
  assert (0 < t) as Ht.
  { destruct (exists_last (l := ts)) as (ts' & t' & ->); [by intros ->|].
    rewrite last_snoc in Hlast. injection Hlast as ->. by apply consecutive_app in Hc as (_ & ? & _). }
  clearbody before. rewrite Hn in Hbefore. subst before.
  pose proof (length_oset ip (entry_after (after tr + 1023) t) st) as Hlen'.
  assert (forall e st', decayed ip now (oset ip (entry_after (after tr + 1023) t) st) = (Ok e, st') ->
    fails e = after tr + 1023 -> st' = oset ip (entry_after (after tr + 1023) t) st ->
    record_failure ip now (oset ip (entry_after (after tr + 1023) t) st) =
    (Raise (OverflowError "int too large to convert to float"), oset ip (entry_after (after tr + 1023) t) st)) as Hraise.
  { intros e st' He Hf ->. unfold record_failure, modify, mbind_. rewrite prune_small by lia. rewrite He, Hf.
    rewrite (proj2 (Z.ltb_ge _ (after tr))) by lia.
    replace (Z.max 0 (after tr + 1023 + 1 - after tr)) with 1024 by lia.
    unfold backoff. by rewrite (proj2 (Z.ltb_lt 0 (base tr))). }
  split.
  - intros Hgap. assert (decayed ip now (oset ip (entry_after (after tr + 1023) t) st) =
      (Ok (entry_after (after tr + 1023) t), oset ip (entry_after (after tr + 1023) t) st)) as Hdec.
    { unfold decayed. rewrite oget_oset_eq. simpl.
      rewrite (proj2 (Z.ltb_ge (decay tr) _)) by lia. by rewrite andb_false_r. }
    pose proof (Hraise _ _ Hdec eq_refl eq_refl) as Hr. split; [done|].
    unfold reject_invalid, check_locked, mbind_. rewrite Hdec. simpl. by rewrite Hr.
  - intros Hgap. unfold record_failure, modify, mbind_. rewrite prune_small by lia.
    assert (until (entry_after (after tr + 1023) t) <= now) as Hun.
    { unfold entry_after. simpl. rewrite (proj2 (Z.ltb_ge _ (after tr))) by lia. unfold lock_after.
      rewrite (proj2 (Z.ltb_ge _ (after tr))) by lia.
      destruct (backoff_ok (after tr + 1023 - after tr) Hwf) as (d & -> & ? & _); lia. }
    unfold decayed. rewrite oget_oset_eq. simpl default. simpl last_failure.
    rewrite (proj2 (Z.ltb_lt 0 (decay tr))), (proj2 (Z.ltb_lt 0 t)), (proj2 (Z.ltb_lt (decay tr) (now - t))),
      (proj2 (Z.leb_le _ now)) by (done || lia). cbn [andb].
    pose proof (record_failure_step ip now 0 0 (opop ip (oset ip (entry_after (after tr + 1023) t) st)) Hwf) as Hstep.
    pose proof (length_opop ip (oset ip (entry_after (after tr + 1023) t) st)) as Hl.
    eexists. split.
    + etrans; [|apply Hstep; [lia|lia|by rewrite oget_opop_eq|done|destruct Hwf; lia]].
      unfold record_failure, modify, mbind_. rewrite prune_small by lia. unfold decayed.
      rewrite oget_opop_eq. simpl default. by rewrite andb_false_r.
    + by rewrite oget_oset_eq.
Qed.
End Tracker.

(** One failure a second. *)
Definition every_second (n : nat) : list Z := map (fun k => Z.of_nat (S k) * second) (seq 0 n).

Lemma lockout_schedule_witness :
  fst (record_failure default_tracker "10.0.0.9" (12 * second) (exec (failures default_tracker "10.0.0.9" (every_second 11)) [])) =
    Ok (Some 4) /\
  fst (check_locked default_tracker "10.0.0.9" (15 * second)
    (snd (record_failure default_tracker "10.0.0.9" (12 * second) (exec (failures default_tracker "10.0.0.9" (every_second 11)) [])))) =
    Ok (Some 1).
Proof.
  destruct (lockout_schedule default_tracker "10.0.0.9" (every_second 11) (12 * second) []) as (H1 & H2 & _);
    [by vm_compute|by vm_compute|by vm_compute|by vm_compute|by vm_compute|].
  cbv zeta in H1, H2. split; [rewrite H1; clear; vm_compute; reflexivity|clear H1].
  rewrite H2; clear; vm_compute; [reflexivity|split; discriminate].
Defined.

Lemma lockout_overflow_witness :
  fst (reject_invalid default_tracker "10.0.0.9" (1034 * second) (1034 * second)
    (exec (failures default_tracker "10.0.0.9" (every_second 1033)) []))
  = Raise (OverflowError "int too large to convert to float").
Proof.
  apply (lockout_overflow default_tracker "10.0.0.9" (every_second 1033) (1033 * second) (1034 * second) []);
    by vm_compute.
Defined.
