(* ===== verification/SignInLimiter.v ===== *)
(** * The limits on sign-in attempts

    [passwords.py], [SignInLimiter]: counters of refused attempts per client
    address, per account and address, per account, and for the whole gateway.

    Times are microseconds since the epoch. The unit an address limit counts
    ([address_key], the standard library's [ipaddress]), the loopback test on it
    and the digest an account's name is kept as are arguments. *)

From S2P Require Import Prelude PyStr OrdDict IsoTime.

(** The configuration ([__init__]). *)
Record limits := mk_limits {
  ip_failures : Z;
  window_s : Z;
  ip_lock_s : Z;
  account_after : Z;
  account_base_s : Z;
  account_max_s : Z;
  account_total : Z;
  account_total_max_s : Z;
  trusted_s : Z;
  global_failures : Z;
  max_entries : Z;
}.
Definition PASSWORD_LIMITER : limits :=
  mk_limits 10 (900 * second) (900 * second) 5 (30 * second) (900 * second) 20 (86400 * second) (30 * 86400 * second) 0 20000.
Definition ONBOARDING_LIMITER : limits :=
  mk_limits 5 (900 * second) (900 * second) (10 ^ 6) (30 * second) (900 * second) (10 ^ 6) (86400 * second)
    (30 * 86400 * second) 20 20000.

Record ip_row := mk_ip { i_times : list Z; i_until : Z }.
Record pair_row := mk_pair { p_n : Z; p_until : Z; p_last : Z }.
Record acct_row := mk_acct { a_times : list Z; a_until : Z; a_level : Z; a_last : Z }.

Record counters := mk_counters {
  c_ip : list (string * ip_row);
  c_pair : list ((string * string) * pair_row);
  c_acct : list (string * acct_row);
  c_trusted : list ((string * string) * Z);
  c_global : list Z;
  c_global_locked : Z;
}.
Definition no_counters : counters := mk_counters [] [] [] [] [] 0.

Section Limiter.
Context (cfg : limits) (address_key : string -> string) (digest : string -> string) (is_loopback_key : string -> bool).

Definition account_key (account : string) : string := if String.eqb account "" then "" else digest account.

(** ** [_prune] *)

Section Shrink.
Context {K V : Type} `{EqDecision K}.

(** [shrink(d, live)]: expired entries first, then the oldest unlocked ones. *)
Definition shrink (live locked : V -> bool) (d : list (K * V)) : list (K * V) :=
  if Z.of_nat (length d) <=? max_entries cfg then d
  else
    let d := opops (okeys (List.filter (fun kv => negb (live kv.2)) d)) d in
    if max_entries cfg <? Z.of_nat (length d)
    then opops (take (Z.to_nat (Z.of_nat (length d) - max_entries cfg)) (okeys (List.filter (fun kv => negb (locked kv.2)) d))) d
    else d.
End Shrink.

Definition recent (now : Z) (ts : list Z) : list Z := List.filter (fun t => now - t <? window_s cfg) ts.

Definition ip_locked (now : Z) (v : ip_row) : bool := now <? i_until v.
Definition pair_locked (now : Z) (v : pair_row) : bool := now <? p_until v.
Definition acct_locked (now : Z) (v : acct_row) : bool := now <? a_until v.

Definition prune (now : Z) (st : counters) : counters :=
  mk_counters
    (shrink (fun v => ip_locked now v || existsb (fun t => now - t <? window_s cfg) (i_times v)) (ip_locked now) (c_ip st))
    (shrink (fun v => pair_locked now v || (now - p_last v <? window_s cfg)) (pair_locked now) (c_pair st))
    (shrink (fun v => acct_locked now v || (now - a_last v <? 2 * window_s cfg)) (acct_locked now) (c_acct st))
    (shrink (fun v => now - v <? trusted_s cfg) (fun _ => false) (c_trusted st))
    (c_global st) (c_global_locked st).

(** ** [check], [failure], [success] *)

Definition ip_of (st : counters) (addr : string) : ip_row := default (mk_ip [] 0) (oget addr (c_ip st)).
Definition pair_of (st : counters) (acct addr : string) : pair_row := default (mk_pair 0 0 0) (oget (acct, addr) (c_pair st)).
Definition acct_of (st : counters) (acct : string) : acct_row := default (mk_acct [] 0 0 0) (oget acct (c_acct st)).
Definition trusted (now : Z) (st : counters) (acct addr : string) : bool :=
  negb (is_loopback_key addr) &&
  (now - default (- 10 ^ 18 * second) (oget (acct, addr) (c_trusted st)) <? trusted_s cfg).

Definition wait_for (now until : Z) : Z := (until - now) / second + 1.

Definition check (now : Z) (ip account : string) (exempt_global : bool) (st : counters) : option (string * Z) :=
  let addr := address_key ip in
  let acct := account_key account in
  if negb exempt_global && (now <? c_global_locked st) then Some ("everyone", wait_for now (c_global_locked st))
  else if now <? i_until (ip_of st addr) then Some ("address", wait_for now (i_until (ip_of st addr)))
  else if String.eqb acct "" then None
  else if now <? p_until (pair_of st acct addr) then Some ("account", wait_for now (p_until (pair_of st acct addr)))
  else if (now <? a_until (acct_of st acct)) && negb (trusted now st acct addr)
  then Some ("account", wait_for now (a_until (acct_of st acct)))
  else None.

(** [base * (2 ** exp)] of a double and an integer. *)
Definition doubled (base exp : Z) : res Z :=
  if 1024 <=? exp then Raise (OverflowError "int too large to convert to float") else Ok (base * 2 ^ exp).

Definition fail_ip (now : Z) (addr : string) (st : counters) : counters :=
  let row := ip_of st addr in
  let rows := recent now (i_times row) ++ [now] in
  let row := if ip_failures cfg <=? Z.of_nat (length rows) then mk_ip [] (now + ip_lock_s cfg) else mk_ip rows (i_until row) in
  mk_counters (oset addr row (c_ip st)) (c_pair st) (c_acct st) (c_trusted st) (c_global st) (c_global_locked st).

Definition fail_pair (now : Z) (acct addr : string) : M counters unit :=
  row <- gets (fun st => pair_of st acct addr) ;;
  let n := if negb (p_last row =? 0) && (window_s cfg <=? now - p_last row) then 0 else p_n row in
  let n := n + 1 in
  lock_until <- (if account_after cfg <=? n then
                   d <- of_res (doubled (account_base_s cfg) (n - account_after cfg)) ;;
                   ret (now + Z.min (account_max_s cfg) d)
                 else ret 0) ;;
  modify (fun st => mk_counters (c_ip st) (oset (acct, addr) (mk_pair n lock_until now) (c_pair st)) (c_acct st)
                      (c_trusted st) (c_global st) (c_global_locked st)).

Definition fail_acct (now : Z) (acct : string) : M counters unit :=
  row <- gets (fun st => acct_of st acct) ;;
  let level := if negb (a_last row =? 0) && (2 * window_s cfg <=? now - Z.max (a_last row) (a_until row)) then 0 else a_level row in
  let times := recent now (a_times row) ++ [now] in
  row' <- (if account_total cfg <=? Z.of_nat (length times) then
             d <- of_res (doubled (ip_lock_s cfg) level) ;;
             ret (mk_acct [] (now + Z.min (account_total_max_s cfg) d) (level + 1) now)
           else ret (mk_acct times (a_until row) level now)) ;;
  modify (fun st => mk_counters (c_ip st) (c_pair st) (oset acct row' (c_acct st)) (c_trusted st) (c_global st) (c_global_locked st)).

Definition fail_global (now : Z) (st : counters) : counters :=
  if global_failures cfg =? 0 then st
  else
    let g := recent now (c_global st) ++ [now] in
    if global_failures cfg <=? Z.of_nat (length g)
    then mk_counters (c_ip st) (c_pair st) (c_acct st) (c_trusted st) [] (now + ip_lock_s cfg)
    else mk_counters (c_ip st) (c_pair st) (c_acct st) (c_trusted st) g (c_global_locked st).

Definition failure (now : Z) (ip account : string) : M counters unit :=
  let addr := address_key ip in
  let acct := account_key account in
  modify (prune now) ;;;
  modify (fail_ip now addr) ;;;
  (if String.eqb acct "" then ret tt else fail_pair now acct addr ;;; fail_acct now acct) ;;;
  modify (fail_global now).

Definition success (now : Z) (ip account : string) (st : counters) : counters :=
  let addr := address_key ip in
  let acct := account_key account in
  let st := mk_counters (opop addr (c_ip st)) (c_pair st) (c_acct st) (c_trusted st) (c_global st) (c_global_locked st) in
  if String.eqb acct "" then st
  else prune now (mk_counters (c_ip st) (opop (acct, addr) (c_pair st)) (c_acct st) (oset (acct, addr) now (c_trusted st))
                    (c_global st) (c_global_locked st)).

Definition reset (st : counters) : counters := no_counters.
End Limiter.

(** [limit_message] *)
Definition limit_message (scope : string) (retry_after_s : Z) : string :=
  let minutes := Z.max 1 ((retry_after_s + 59) / 60) in
  let when := str_of_Z minutes +:+ " minute" +:+ (if minutes =? 1 then "" else "s") in
  if String.eqb scope "account" then "Too many wrong passwords for this account. Try again in " +:+ when +:+ "."
  else if String.eqb scope "everyone" then "Too many refused attempts on this gateway. Try again in " +:+ when +:+ "."
  else "Too many refused attempts from this address. Try again in " +:+ when +:+ ".".

(** ** Pruning *)

Section Facts.
Context (cfg : limits) (address_key : string -> string) (digest : string -> string) (is_loopback_key : string -> bool).

Section ShrinkFacts.
Context {K V : Type} `{EqDecision K} (live locked : V -> bool) (Hlive : forall v, locked v = true -> live v = true).

Lemma elem_okeys_filter (f : V -> bool) k (d : list (K * V)) :
  k ∈ okeys (List.filter (fun kv => f kv.2) d) -> exists v, (k, v) ∈ d /\ f v = true.
Proof.
  unfold okeys. intros ([k' v] & -> & Hin)%list_elem_of_fmap. apply elem_of_lfilter in Hin as [Hin Hf]. eauto.
Qed.

Lemma NoDup_shrink (d : list (K * V)) : NoDup (okeys d) -> NoDup (okeys (shrink cfg live locked d)).
Proof.
  intros Hd. unfold shrink. destruct (_ <=? _); [done|]. cbv zeta.
  destruct (_ <? _); repeat apply NoDup_okeys_opops; done.
Qed.

(** What the pruning keeps of an entry: a locked one always, any other as it is or not at all. *)
Lemma oget_shrink k (d : list (K * V)) : NoDup (okeys d) ->
  (forall v, oget k d = Some v -> locked v = true -> oget k (shrink cfg live locked d) = Some v) /\
  (oget k (shrink cfg live locked d) = oget k d \/ oget k (shrink cfg live locked d) = None).
Proof.
  intros Hd. unfold shrink. destruct (_ <=? _); [by split; [|left]|]. cbv zeta.
  set (d1 := opops _ d).
  assert (forall v, oget k d = Some v -> locked v = true -> oget k d1 = Some v) as H1.
  { intros v Hv Hl. subst d1. rewrite oget_opops. case_bool_decide as Hin; [|done].
    apply (elem_okeys_filter (fun v => negb (live v))) in Hin as (w & Hw & Hn). apply NoDup_oget in Hw; [|done]. assert (w = v) as -> by congruence.
    by rewrite (Hlive v Hl) in Hn. }
  assert (oget k d1 = oget k d \/ oget k d1 = None) as H2.
  { subst d1. rewrite oget_opops. case_bool_decide; [by right|by left]. }
  assert (NoDup (okeys d1)) as Hd1 by (by apply NoDup_okeys_opops).
  clearbody d1. destruct (_ <? _); [|done]. split.
  - intros v Hv Hl. specialize (H1 v Hv Hl). rewrite oget_opops. case_bool_decide as Hin; [|done].
    apply elem_of_take in Hin as (i & Hi & _). apply list_elem_of_lookup_2, (elem_okeys_filter (fun v => negb (locked v))) in Hi as (w & Hw & Hn).
    apply NoDup_oget in Hw; [|done]. assert (w = v) as -> by congruence. by rewrite Hl in Hn.
  - rewrite oget_opops. case_bool_decide; [by right|done].
Qed.

(** Over the limit, only locked entries are left. *)
Lemma length_shrink (d : list (K * V)) : NoDup (okeys d) -> 0 <= max_entries cfg ->
  Z.of_nat (length (shrink cfg live locked d)) <= max_entries cfg \/
  Forall (fun kv => locked kv.2 = true) (shrink cfg live locked d).
Proof.
  intros Hd Hmax. unfold shrink. destruct (Z.leb_spec (Z.of_nat (length d)) (max_entries cfg)); [by left|]. cbv zeta.
  set (d1 := opops _ d). assert (NoDup (okeys d1)) as Hd1 by (by apply NoDup_okeys_opops). clearbody d1.
  destruct (Z.ltb_spec (max_entries cfg) (Z.of_nat (length d1))); [|by left].
  set (un := okeys (List.filter _ d1)). set (n := Z.to_nat _).
  assert (NoDup un) as Hun.
  { subst un. clear -Hd1. unfold okeys in *. induction d1 as [|[k v] d IH]; simpl in *; [constructor|].
    apply NoDup_cons in Hd1 as [Hk Hd]. destruct (negb (locked v)); simpl; [|by apply IH].
    apply NoDup_cons. split; [|by apply IH]. intros Hin. apply Hk.
    apply (elem_okeys_filter (fun v => negb (locked v))) in Hin as (w & Hw & _). by apply (list_elem_of_fmap_2 fst _ (k, w)). }
  assert (forall k, k ∈ un -> k ∈ okeys d1) as Hsub.
  { intros k (w & Hw & _)%(elem_okeys_filter (fun v => negb (locked v))). by apply (list_elem_of_fmap_2 fst _ (k, w)). }
  assert (length (opops (take n un) d1) + length (take n un) = length d1)%nat as Hlen.
  { apply length_opops_present; [done| |].
    { rewrite <- (take_drop n un) in Hun. by apply NoDup_app in Hun as [? _]. } intros k (i & Hi & _)%elem_of_take. apply Hsub. by apply list_elem_of_lookup_2 with i. }
  rewrite length_take in Hlen. destruct (decide (n <= length un)%nat); [left; lia|right].
  apply Forall_forall. intros [k v] (Hin & Hk)%opops_elem. simpl in *. destruct (locked v) eqn:E; [done|].
  exfalso. apply Hk. rewrite take_ge by lia. subst un. apply (list_elem_of_fmap_2 fst _ (k, v)), elem_of_lfilter.
  by simpl; rewrite E.
Qed.
End ShrinkFacts.

(** The maps of the state are dicts. *)
Record wf (st : counters) : Prop := {
  wf_ip : NoDup (okeys (c_ip st));
  wf_pair : NoDup (okeys (c_pair st));
  wf_acct : NoDup (okeys (c_acct st));
  wf_trusted : NoDup (okeys (c_trusted st));
}.

Lemma locked_live (a b : bool) : a = true -> a || b = true.
Proof. by intros ->. Qed.

(** An entry's lock is the same after pruning. *)
Lemma until_shrink {K V} `{EqDecision K} (live locked : V -> bool) (u : V -> Z) (dflt : V) (now : Z) k (d : list (K * V)) :
  (forall v, locked v = (now <? u v)) -> (forall v, locked v = true -> live v = true) -> u dflt <= now -> NoDup (okeys d) ->
  let old := u (default dflt (oget k d)) in
  let new := u (default dflt (oget k (shrink cfg live locked d))) in
  (now <? new) = (now <? old) /\ ((now <? old) = true -> new = old).
Proof.
  intros Hlocked Hlive Hd Hnd. destruct (oget_shrink live locked Hlive k d Hnd) as [Hkeep Hor].
  destruct (oget k d) as [v|] eqn:E; simpl.
  - destruct (locked v) eqn:El; [by rewrite (Hkeep v eq_refl El)|].
    rewrite Hlocked in El. rewrite El. destruct Hor as [->| ->]; simpl; [by rewrite El|].
    split; [by apply Z.ltb_ge|done].
  - destruct Hor as [->| ->]; simpl; by split.
Qed.

(** the memory the limiter keeps is bounded without ever unlocking anyone:
    whoever is locked when the counters are pruned stays locked, for the same
    reason and as long; and afterwards a map over the limit holds locked entries
    only. *)
Theorem prune_keeps_locks (now : Z) (ip account : string) (exempt : bool) (st : counters) (r : string * Z) :
  wf st -> 0 <= now -> 0 <= max_entries cfg -> trusted_s cfg <= 10 ^ 18 * second ->
  check cfg address_key digest is_loopback_key now ip account exempt st = Some r ->
  let st' := prune cfg now st in
  check cfg address_key digest is_loopback_key now ip account exempt st' = Some r /\ wf st' /\
  (Z.of_nat (length (c_ip st')) <= max_entries cfg \/ Forall (fun kv => ip_locked now kv.2 = true) (c_ip st')) /\
  (Z.of_nat (length (c_pair st')) <= max_entries cfg \/ Forall (fun kv => pair_locked now kv.2 = true) (c_pair st')) /\
  (Z.of_nat (length (c_acct st')) <= max_entries cfg \/ Forall (fun kv => acct_locked now kv.2 = true) (c_acct st')) /\
  Z.of_nat (length (c_trusted st')) <= max_entries cfg.
Proof.
  intros [Wi Wp Wa Wt] Hnow Hmax Htr Hc st'. split_and!; try (apply length_shrink; done).
  2: { split; apply NoDup_shrink; done. }
  2: { destruct (length_shrink (fun v => now - v <? trusted_s cfg) (fun _ => false) (c_trusted st) Wt Hmax) as [?|Hf]; [done|].
       subst st'. unfold prune. cbn [c_trusted]. destruct (shrink _ _ _ (c_trusted st)) as [|kv d]; [done|].
       apply Forall_cons in Hf as [? _]. done. }
  set (addr := address_key ip) in *. set (acct := account_key digest account) in *.
  destruct (until_shrink (fun v => ip_locked now v || existsb (fun t => now - t <? window_s cfg) (i_times v)) (ip_locked now)
    i_until (mk_ip [] 0) now addr (c_ip st)) as [Ei Ei']; [done|intros v; apply locked_live|done|done|].
  destruct (until_shrink (fun v => pair_locked now v || (now - p_last v <? window_s cfg)) (pair_locked now)
    p_until (mk_pair 0 0 0) now (acct, addr) (c_pair st)) as [Ep Ep']; [done|intros v; apply locked_live|done|done|].
  destruct (until_shrink (fun v => acct_locked now v || (now - a_last v <? 2 * window_s cfg)) (acct_locked now)
    a_until (mk_acct [] 0 0 0) now acct (c_acct st)) as [Ea Ea']; [done|intros v; apply locked_live|done|done|].
  assert (trusted cfg is_loopback_key now st acct addr = false -> trusted cfg is_loopback_key now st' acct addr = false) as Ht.
  { unfold trusted, st', prune. cbn [c_trusted]. destruct (is_loopback_key addr); [done|]. simpl negb. simpl andb.
    destruct (oget_shrink (fun v => now - v <? trusted_s cfg) (fun _ => false) (fun v H => False_ind _ (diff_false_true H))
      (acct, addr) (c_trusted st) Wt) as [_ [->| ->]]; [done|]. intros _. simpl.
    apply Z.ltb_ge. lia. }
  revert Hc. unfold check. fold addr acct. change (c_global_locked st') with (c_global_locked st).
  destruct (negb exempt && (now <? c_global_locked st)); [done|].
  unfold ip_of, pair_of, acct_of.
  change (c_ip st') with (shrink cfg (fun v => ip_locked now v || existsb (fun t => now - t <? window_s cfg) (i_times v)) (ip_locked now) (c_ip st)).
  change (c_pair st') with (shrink cfg (fun v => pair_locked now v || (now - p_last v <? window_s cfg)) (pair_locked now) (c_pair st)).
  change (c_acct st') with (shrink cfg (fun v => acct_locked now v || (now - a_last v <? 2 * window_s cfg)) (acct_locked now) (c_acct st)).
  rewrite Ei, Ep, Ea.
  destruct (now <? i_until _) eqn:Xi in Ei' |- *; [by rewrite Ei'|].
  destruct (String.eqb acct ""); [done|].
  destruct (now <? p_until _) eqn:Xp in Ep' |- *; [by rewrite Ep'|].
  destruct (now <? a_until _) eqn:Xa in Ea' |- *; [|done]. rewrite Ea' by done.
  destruct (trusted cfg is_loopback_key now st acct addr) eqn:Xt; [done|]. by rewrite Ht.
Qed.

(** ** Sequences of attempts *)

(** An attempt that was refused or accepted at a time; a refusal whose counting
    raises leaves what it had written. *)
Inductive attempt := Refused (now : Z) (ip account : string) | Accepted (now : Z) (ip account : string).
Definition attempt_time (a : attempt) : Z := match a with Refused t _ _ | Accepted t _ _ => t end.
Definition attempt_step (st : counters) (a : attempt) : counters :=
  match a with
  | Refused now ip account => exec (failure cfg address_key digest now ip account) st
  | Accepted now ip account => success cfg address_key digest now ip account st
  end.
Definition run_attempts (l : list attempt) : counters := fold_left attempt_step l no_counters.

(** The longest lock of the configuration. *)
Definition longest : Z := Z.max (ip_lock_s cfg) (Z.max (account_max_s cfg) (account_total_max_s cfg)).

(** Every lock ends at most [longest] after [now]. *)
Record bounded (now : Z) (st : counters) : Prop := {
  b_wf : wf st;
  b_ip : forall k, i_until (ip_of st k) <= now + longest;
  b_pair : forall k k', p_until (pair_of st k k') <= now + longest;
  b_acct : forall k, a_until (acct_of st k) <= now + longest;
  b_global : c_global_locked st <= now + longest;
}.

Context (Hlongest : 0 <= ip_lock_s cfg).

Lemma longest_pos : 0 <= longest.
Proof. unfold longest. lia. Qed.

Lemma bounded_later now now' st : now <= now' -> bounded now st -> bounded now' st.
Proof.
  intros Hle [W I P A G]. split; [done| | | |lia].
  - intros k. specialize (I k). lia.
  - intros k k'. specialize (P k k'). lia.
  - intros k. specialize (A k). lia.
Qed.

Lemma bounded_init now : 0 <= now -> bounded now no_counters.
Proof.
  pose proof longest_pos. intros Hn. split; try (intros; simpl; lia). split; constructor.
Qed.

Lemma bounded_prune now now' st : 0 <= now -> bounded now st -> bounded now (prune cfg now' st).
Proof.
  intros Hn [[Wi Wp Wa Wt] I P A G]. pose proof longest_pos as Hl.
  split; [split; apply NoDup_shrink; done| | | |done].
  - intros k. unfold ip_of, prune. cbn [c_ip].
    destruct (oget_shrink (fun v => ip_locked now' v || existsb (fun t => now' - t <? window_s cfg) (i_times v)) (ip_locked now')
      (fun v => locked_live _ _) k (c_ip st) Wi) as [_ [->| ->]]; [apply I|simpl; lia].
  - intros k k'. unfold pair_of, prune. cbn [c_pair].
    destruct (oget_shrink (fun v => pair_locked now' v || (now' - p_last v <? window_s cfg)) (pair_locked now')
      (fun v => locked_live _ _) (k, k') (c_pair st) Wp) as [_ [->| ->]]; [apply P|simpl; lia].
  - intros k. unfold acct_of, prune. cbn [c_acct].
    destruct (oget_shrink (fun v => acct_locked now' v || (now' - a_last v <? 2 * window_s cfg)) (acct_locked now')
      (fun v => locked_live _ _) k (c_acct st) Wa) as [_ [->| ->]]; [apply A|simpl; lia].
Qed.

Lemma default_oget_oset {K V} `{EqDecision K} (P : V -> Prop) k j v dflt (d : list (K * V)) :
  P v -> P (default dflt (oget j d)) -> P (default dflt (oget j (oset k v d))).
Proof.
  intros Hv Hd. destruct (decide (k = j)) as [->|]; [by rewrite oget_oset_eq|by rewrite oget_oset_ne].
Qed.
Lemma default_oget_opop {K V} `{EqDecision K} (P : V -> Prop) k j dflt (d : list (K * V)) :
  P dflt -> P (default dflt (oget j d)) -> P (default dflt (oget j (opop k d))).
Proof.
  intros Hv Hd. destruct (decide (k = j)) as [->|]; [by rewrite oget_opop_eq|by rewrite oget_opop_ne].
Qed.

Lemma bounded_fail_ip now addr st : bounded now st -> bounded now (fail_ip cfg now addr st).
Proof.
  intros [[Wi Wp Wa Wt] I P A G]. unfold fail_ip. cbv zeta.
  split; [split; try done; by apply NoDup_okeys_oset| |done|done|done].
  intros k. unfold ip_of at 1. cbn [c_ip].
  apply (default_oget_oset (fun v => i_until v <= now + longest)); [|apply I].
  destruct (_ <=? _); simpl; [unfold longest; lia|apply I].
Qed.

Lemma bounded_fail_pair now acct addr st : 0 <= now -> bounded now st -> bounded now (exec (fail_pair cfg now acct addr) st).
Proof.
  intros Hnow HB. unfold exec, fail_pair, mbind_, gets, of_res, ret, modify, doubled. cbv beta iota zeta.
  set (n := _ + 1). destruct (account_after cfg <=? n).
  1: destruct (1024 <=? n - account_after cfg); [done|].
  all: destruct HB as [[Wi Wp Wa Wt] I P A G]; split; [split; try done; by apply NoDup_okeys_oset|done| |done|done].
  all: intros k k'; unfold pair_of; cbn [c_pair];
    apply (default_oget_oset (fun v => p_until v <= now + longest)); [simpl|apply P].
  - unfold longest. lia.
  - pose proof longest_pos. lia.
Qed.

Lemma bounded_fail_acct now acct st : bounded now st -> bounded now (exec (fail_acct cfg now acct) st).
Proof.
  intros HB. unfold exec, fail_acct, mbind_, gets, of_res, ret, modify, doubled. cbv beta iota zeta.
  destruct (account_total cfg <=? _).
  1: destruct (1024 <=? _); [done|].
  all: destruct HB as [[Wi Wp Wa Wt] I P A G]; split; [split; try done; by apply NoDup_okeys_oset|done|done| |done].
  all: intros k; unfold acct_of at 1; cbn [c_acct];
    apply (default_oget_oset (fun v => a_until v <= now + longest)); [simpl|apply A].
  - unfold longest. lia.
  - apply A.
Qed.

Lemma bounded_fail_global now st : bounded now st -> bounded now (fail_global cfg now st).
Proof.
  intros HB. unfold fail_global. cbv zeta. destruct (_ =? _); [done|]. destruct (_ <=? _);
    destruct HB as [[Wi Wp Wa Wt] I P A G]; (split; [by split|done|done|done|]); [|done].
  cbn [c_global_locked]. unfold longest. lia.
Qed.

Lemma exec_bind {S A B} (m : M S A) (f : A -> M S B) (s : S) (P : S -> Prop) :
  P (exec m s) -> (forall a s', m s = (Ok a, s') -> P s' -> P (exec (f a) s')) -> P (exec (mbind_ m f) s).
Proof. unfold exec, mbind_. destruct (m s) as [[a|e] s'] eqn:E; simpl; [|done]. intros Hp Hf. by apply (Hf a s'). Qed.

Lemma bounded_failure now ip account st : 0 <= now -> bounded now st ->
  bounded now (exec (failure cfg address_key digest now ip account) st).
Proof.
  intros Hn HB. unfold failure. apply exec_bind; [by apply bounded_prune|intros [] s1 _ H1].
  apply exec_bind; [by apply bounded_fail_ip|intros [] s2 _ H2].
  apply exec_bind; [|intros [] s3 _ H3; by apply bounded_fail_global].
  destruct (String.eqb _ ""); [done|].
  apply exec_bind; [by apply bounded_fail_pair|intros [] s4 _ H4; by apply bounded_fail_acct].
Qed.

Lemma bounded_success now ip account st : 0 <= now -> bounded now st ->
  bounded now (success cfg address_key digest now ip account st).
Proof.
  intros Hn HB. pose proof longest_pos. unfold success. cbv zeta.
  assert (forall addr, bounded now (mk_counters (opop addr (c_ip st)) (c_pair st) (c_acct st) (c_trusted st) (c_global st)
    (c_global_locked st))) as H1.
  { intros addr. destruct HB as [[Wi Wp Wa Wt] I P A G]. split; [split; try done; by apply NoDup_okeys_opop| |done|done|done].
    intros k. unfold ip_of at 1. cbn [c_ip]. apply (default_oget_opop (fun v : ip_row => i_until v <= now + longest)); [simpl; lia|apply I]. }
  destruct (String.eqb _ ""); [apply H1|]. apply bounded_prune; [done|].
  destruct (H1 (address_key ip)) as [[Wi Wp Wa Wt] I P A G].
  split; [split; try done; [by apply NoDup_okeys_opop|by apply NoDup_okeys_oset]|done| |done|done].
  intros k k'. unfold pair_of at 1. cbn [c_pair].
  apply (default_oget_opop (fun v : pair_row => p_until v <= now + longest)); [simpl; lia|apply P].
Qed.

Lemma bounded_run l last : Forall (fun a => 0 <= attempt_time a <= last) l ->
  (forall i a b, l !! i = Some a -> l !! S i = Some b -> attempt_time a <= attempt_time b) -> 0 <= last ->
  bounded last (run_attempts l).
Proof.
  intros Hall Hmono Hlast. unfold run_attempts.
  assert (forall st t, 0 <= t <= last -> bounded t st ->
    (forall a, head l = Some a -> t <= attempt_time a) -> bounded last (fold_left attempt_step l st)) as H.
  { induction l as [|a l IH]; intros st t Ht HB Hhd; simpl; [apply (bounded_later t); [lia|done]|].
    apply Forall_cons in Hall as [Ha Hall]. apply (IH Hall) with (t := attempt_time a); [|done| |].
    - intros i x y Hx Hy. by apply (Hmono (S i)).
    - apply (bounded_later t (attempt_time a)) in HB; [|by apply Hhd].
      destruct a; simpl in *; [apply bounded_failure; [lia|done]|apply bounded_success; [lia|done]].
    - intros b Hb. apply (Hmono 0%nat); [done|]. by destruct l. }
  apply (H _ 0); [lia|by apply bounded_init|]. intros a Ha. destruct l as [|b l]; [done|].
  injection Ha as ->. apply Forall_cons in Hall as [? _]. lia.
Qed.

(** no lock lasts for ever, and none longer than configured: after any
    sequence of refused and accepted attempts in time order, whatever their
    addresses and accounts, a caller who is told to wait is told a positive wait
    that ends at most the longest configured lock after the last attempt; and
    once that long has passed without an attempt, nobody is locked. *)
Theorem locks_end (l : list attempt) (last now : Z) (ip account : string) (exempt : bool) :
  Forall (fun a => 0 <= attempt_time a <= last) l ->
  (forall i a b, l !! i = Some a -> l !! S i = Some b -> attempt_time a <= attempt_time b) ->
  0 <= last <= now ->
  (forall scope wait,
     check cfg address_key digest is_loopback_key now ip account exempt (run_attempts l) = Some (scope, wait) ->
     1 <= wait /\ (wait - 1) * second <= last + longest - now) /\
  (last + longest <= now -> check cfg address_key digest is_loopback_key now ip account exempt (run_attempts l) = None).
Proof.
  intros Hall Hmono Hlast. destruct (bounded_run l last Hall Hmono) as [_ I P A G]; [lia|].
  generalize dependent (run_attempts l). intros st I P A G. unfold check.
  assert (forall u, u <= last + longest -> now < u ->
    1 <= wait_for now u /\ (wait_for now u - 1) * second <= last + longest - now) as Hw.
  { intros u Hu Hn. unfold wait_for. assert (0 <= (u - now) / second) by (apply Z.div_pos; unfold second; lia).
    pose proof (Z.mul_div_le (u - now) second ltac:(unfold second; lia)). unfold second in *. lia. }
  split.
  - intros scope wait.
    destruct (negb exempt && (now <? c_global_locked st)) eqn:E1.
    { intros [= _ <-]. apply andb_true_iff in E1 as [_ E1]. apply Hw; [apply G|by apply Z.ltb_lt]. }
    destruct (now <? i_until _) eqn:E2; [intros [= _ <-]; apply Hw; [apply I|by apply Z.ltb_lt]|].
    destruct (String.eqb _ ""); [done|].
    destruct (now <? p_until _) eqn:E3; [intros [= _ <-]; apply Hw; [apply P|by apply Z.ltb_lt]|].
    destruct (now <? a_until _) eqn:E4; cbn [andb]; [|done]. destruct (negb (trusted _ _ _ _ _ _)); [|done].
    intros [= _ <-]. apply Hw; [apply A|by apply Z.ltb_lt].
  - intros Hend. pose proof (I (address_key ip)). pose proof (P (account_key digest account) (address_key ip)).
    pose proof (A (account_key digest account)).
    rewrite (proj2 (Z.ltb_ge now (c_global_locked st))), (proj2 (Z.ltb_ge now (i_until _))), (proj2 (Z.ltb_ge now (p_until _))),
      (proj2 (Z.ltb_ge now (a_until _))), andb_false_r by lia. by destruct (String.eqb _ "").
Qed.
End Facts.

(** Twenty refusals of one account from one address, one a second. *)
Definition guesses (n : nat) : list attempt := map (fun k => Refused (Z.of_nat (S k) * second) "10.0.0.9" "ada") (seq 0 n).
Definition same (s : string) : string := s.
Definition not_loopback (s : string) : bool := false.

(** A limiter that keeps one entry per map. *)
Definition small_limits : limits :=
  mk_limits 2 (900 * second) (900 * second) 5 (30 * second) (900 * second) 20 (86400 * second) (30 * 86400 * second) 0 1.
Definition crowded : counters :=
  run_attempts small_limits same same
    [Refused second "a" ""; Refused (2 * second) "a" ""; Refused (3 * second) "b" ""; Refused (4 * second) "c" ""].

Lemma prune_keeps_locks_witness :
  length (c_ip crowded) = 2%nat /\
  length (c_ip (prune small_limits (5 * second) crowded)) = 1%nat /\
  check small_limits same same not_loopback (5 * second) "a" "" false (prune small_limits (5 * second) crowded)
  = Some ("address", 898).
Proof.
  split; [by vm_compute|]. split; [by vm_compute|].
  apply (prune_keeps_locks small_limits same same not_loopback (5 * second) "a" "" false crowded ("address", 898));
    [|by vm_compute|by vm_compute|by vm_compute|by vm_compute].
  split; vm_compute; repeat constructor; set_solver.
Defined.

Lemma locks_end_witness :
  check PASSWORD_LIMITER same same not_loopback (10 * second) "10.0.0.9" "ada" false
    (run_attempts PASSWORD_LIMITER same same (guesses 10)) = Some ("address", 901) /\
  (901 - 1) * second <= 10 * second + longest PASSWORD_LIMITER - 10 * second /\
  check PASSWORD_LIMITER same same not_loopback (10 * second + 86400 * second) "10.0.0.9" "ada" false
    (run_attempts PASSWORD_LIMITER same same (guesses 10)) = None.
Proof.
  assert (Forall (fun a => 0 <= attempt_time a <= 10 * second) (guesses 10)) as H1.
  { unfold guesses. simpl. repeat constructor; vm_compute; discriminate. }
  assert (forall i a b, guesses 10 !! i = Some a -> guesses 10 !! S i = Some b -> attempt_time a <= attempt_time b) as H2.
  { intros i a b Ha Hb. unfold guesses in *. rewrite list_lookup_fmap in Ha, Hb.
    destruct (seq 0 10 !! i) as [x|] eqn:Ex; [|done]. destruct (seq 0 10 !! S i) as [y|] eqn:Ey; [|done].
    apply lookup_seq in Ex, Ey. injection Ha as <-. injection Hb as <-. cbn [attempt_time]. unfold second. lia. }
  assert (0 <= ip_lock_s PASSWORD_LIMITER) as H0 by (vm_compute; discriminate).
  assert (0 <= 10 * second <= 10 * second) as Ha by (split; vm_compute; discriminate).
  assert (0 <= 10 * second <= 10 * second + 86400 * second) as Hb by (split; vm_compute; discriminate).
  assert (check PASSWORD_LIMITER same same not_loopback (10 * second) "10.0.0.9" "ada" false
    (run_attempts PASSWORD_LIMITER same same (guesses 10)) = Some ("address", 901)) as H3 by (vm_compute; reflexivity).
  split; [exact H3|]. split.
  - destruct (locks_end PASSWORD_LIMITER same same not_loopback H0 (guesses 10) (10 * second) (10 * second)
      "10.0.0.9" "ada" false H1 H2 Ha) as [Hw _].
    destruct (Hw "address" 901 H3) as [_ He]. exact He.
  - destruct (locks_end PASSWORD_LIMITER same same not_loopback H0 (guesses 10) (10 * second)
      (10 * second + 86400 * second) "10.0.0.9" "ada" false H1 H2 Hb) as [_ Hw].
    apply Hw. clear. vm_compute. discriminate.
Defined.
