(* ===== verification/Sessions.v ===== *)
(** * Browser sessions

    [security/sessions.py]: the cookie of a session, the record a session is kept
    as, and [GatewaySessionStore]: the sessions file, what each gateway process
    keeps of it in memory, and the operations on both. The account a session
    stands for is [users.py]'s record.

    The keyed digest of a session id ([_sign]), the digest of a CSRF token and of
    an account's credentials ([hashlib], [hmac]) and the users file are arguments.
    Reading and writing the file do not fail here; the identity of the file
    ([_file_identity]) is new at each write. *)

From S2P Require Import Prelude PyStr PyVal OrdDict IsoTime Principal.

(** ** Accounts *)

(** [GatewayUserRecord], the fields a session reads. *)
Record user := mk_user {
  u_user_id : string;
  u_tenant_id : string;
  u_roles : list string;
  u_scopes : list string;
  u_enabled : bool;
  u_runtime_id : string;
  u_token_hash : string;
  u_archived : bool;
  u_password_hash : string;
}.
Definition or_else (a b : string) : string := if String.eqb a "" then b else a.
Definition to_principal (u : user) (fp : string) : GatewayPrincipal :=
  mk_principal (u_user_id u) (u_tenant_id u) (u_roles u) (u_scopes u) fp (or_else (u_runtime_id u) (u_user_id u)) "user-registry".
(** The key of an account ([get_user], [_registry_user]). *)
Definition user_key (user_id tenant_id : string) : string :=
  safe_principal_component (VStr tenant_id) (Some "default") +:+ ":" +:+ safe_principal_component (VStr user_id) (Some "").

(** ** Records *)

Record session := mk_session {
  session_id : string;
  s_user_id : string;
  s_tenant_id : string;
  s_roles : list string;
  s_scopes : list string;
  s_runtime_id : string;
  s_source : string;
  s_token_fingerprint : string;
  credential_fingerprint : string;
  csrf_hash : string;
  created_at : string;
  expires_at : string;
  last_seen_at : string;
}.
#[global] Instance session_eq_dec : EqDecision session.
Proof. solve_decision. Defined.

Definition to_storage_dict (r : session) : dict :=
  [ ("session_id", VStr (session_id r)); ("user_id", VStr (s_user_id r)); ("tenant_id", VStr (s_tenant_id r));
    ("roles", VList (map VStr (s_roles r))); ("scopes", VList (map VStr (s_scopes r)));
    ("runtime_id", VStr (s_runtime_id r)); ("source", VStr (s_source r));
    ("token_fingerprint", VStr (s_token_fingerprint r)); ("credential_fingerprint", VStr (credential_fingerprint r));
    ("csrf_hash", VStr (csrf_hash r)); ("created_at", VStr (created_at r)); ("expires_at", VStr (expires_at r));
    ("last_seen_at", VStr (last_seen_at r)) ].

Definition principal_of (r : session) : GatewayPrincipal :=
  mk_principal (s_user_id r) (s_tenant_id r) (s_roles r) (s_scopes r) (s_token_fingerprint r) (s_runtime_id r) (s_source r).

(** [_tuple] of [_normalize_record]. *)
Definition text_or_empty (v : val) : string := strip (str_or v "").
Definition str_tuple (v : val) : list string :=
  match v with
  | VList l => map (fun x => strip (py_str x)) (List.filter (fun x => negb (String.eqb (text_or_empty x) "")) l)
  | _ => if String.eqb (text_or_empty v) "" then [] else split_char "," (str_or v "")
  end.

Definition normalize_record (now : Z) (raw : dict) : option session :=
  let sid := text_or_empty (get_ "session_id" raw) in
  let user_id := text_or_empty (get_ "user_id" raw) in
  if String.eqb sid "" || String.eqb user_id "" then None
  else Some (mk_session sid user_id (str_or (get_ "tenant_id" raw) "default")
    (str_tuple (get_ "roles" raw)) (str_tuple (get_ "scopes" raw))
    (str_or (get_ "runtime_id" raw) user_id) (str_or (get_ "source" raw) "local")
    (str_or (get_ "token_fingerprint" raw) "") (str_or (get_ "credential_fingerprint" raw) "")
    (str_or (get_ "csrf_hash" raw) "") (str_or (get_ "created_at" raw) (isoformat now))
    (str_or (get_ "expires_at" raw) (isoformat now)) (str_or (get_ "last_seen_at" raw) (isoformat now))).

Abbreviation records := (list (string * session)).

(** [_parse]; a text that is not JSON is any value that is not an object. *)
Definition parse_row (now : Z) (out : records) (item : val) : records :=
  match item with
  | VDict d => match normalize_record now d with Some r => oset (session_id r) r out | None => out end
  | _ => out
  end.
Definition parse_file (now : Z) (data : val) : records :=
  match data with
  | VDict d => match get_ "sessions" d with VList rows => fold_left (parse_row now) rows [] | _ => [] end
  | _ => []
  end.

(** [_parse_dt] *)
Definition parse_dt (s : string) : option Z :=
  let raw := strip s in
  if String.eqb raw "" then None
  else iso_instant (if endswith "Z" raw then stake (String.length raw - 1) raw +:+ "+00:00" else raw).

(** ** Cookies *)

Section Sessions.
Context (sign digest : string -> string) (users : string -> option user) (user_auth : bool) (max_sessions : Z).

Definition encode_cookie (sid : string) : string := "agws_" +:+ sid +:+ "." +:+ sign sid.

Definition decode_cookie (value : string) : res (option string) :=
  let raw := strip value in
  if negb (startswith "agws_" raw) || negb (has_char "." raw) then Ok None
  else match rsplit1 "." (sdrop 5 raw) with
       | Some (sid, sig) =>
           if String.eqb sid "" || String.eqb sig "" then Ok None
           else same <== compare_digest (sign sid) sig; Ok (if same then Some sid else None)
       | None => Ok None
       end.

Definition session_id_from_value (value : string) : res (option string) :=
  let raw := strip value in
  if String.eqb raw "" then Ok None
  else decoded <== decode_cookie raw;
       Ok (match decoded with
           | Some sid => Some sid
           | None => if negb (has_char "." raw) && (16 <=? len raw) then Some raw else None
           end).

(** ** Who may hold a session *)

Definition registry_credential_fingerprint (u : user) : string :=
  stake 12 (digest (u_token_hash u +:+ (if String.eqb (u_password_hash u) "" then "" else "|password|" +:+ u_password_hash u))).

Definition legacy_principal_still_valid (p : GatewayPrincipal) (fps : list string) : bool :=
  if negb (String.eqb (p_source p) "legacy-token") then true
  else let fp := strip (token_fingerprint p) in negb (String.eqb fp "") && bool_decide (fp ∈ fps).

Definition barred_from_shared_runtime (p : GatewayPrincipal) : bool :=
  if negb (String.eqb (p_source p) "user-registry") then false
  else if user_auth then false else negb (is_admin p).

Definition registry_user (user_id tenant_id : string) : option user := users (user_key user_id tenant_id).

(** ** The file and the memory of each process *)

Record memory := mk_memory { m_ident : option Z; m_records : records; m_checked : Z }.

(** The file (its identity and content), the identity the next write gives it,
    what each process remembers, and the row writes handed to the worker pools. *)
Record world := mk_world {
  file : option (Z * val);
  next_ident : Z;
  memory_of : nat -> option memory;
  submitted : list (nat * session);
}.

(** Seconds of the monotonic clock are microseconds here as well. *)
Definition SESSION_CACHE_TTL_S : Z := 2 * second.
Definition SESSION_TOUCH_INTERVAL_S : Z := 60 * second.

Definition set_memory (p : nat) (m : memory) (w : world) : world :=
  mk_world (file w) (next_ident w) (fun q => if bool_decide (q = p) then Some m else memory_of w q) (submitted w).

Definition file_ident (w : world) : option Z := option_map fst (file w).
Definition file_records (now : Z) (w : world) : records :=
  match file w with Some (_, data) => parse_file now data | None => [] end.

(** [_load_unlocked]; [mono] is the monotonic clock. *)
Definition load (p : nat) (fresh : bool) (now mono : Z) : M world records := fun w =>
  let hit := memory_of w p in
  match hit with
  | Some m =>
      if negb fresh && (mono - m_checked m <? SESSION_CACHE_TTL_S) then (Ok (m_records m), w)
      else if bool_decide (m_ident m = file_ident w)
      then (Ok (m_records m), set_memory p (mk_memory (file_ident w) (m_records m) mono) w)
      else let rs := file_records now w in (Ok rs, set_memory p (mk_memory (file_ident w) rs mono) w)
  | None => let rs := file_records now w in (Ok rs, set_memory p (mk_memory (file_ident w) rs mono) w)
  end.

Definition is_live (now : Z) (r : session) : bool :=
  match parse_dt (expires_at r) with Some e => now <? e | None => true end.
Definition newest_first (a b : session) : bool := str_leb (last_seen_at b) (last_seen_at a).
Definition kept (now : Z) (rs : records) : list session :=
  take (Z.to_nat max_sessions) (py_sorted newest_first (List.filter (is_live now) (map snd rs))).
Definition file_of (now : Z) (l : list session) : val :=
  VDict [("version", VInt 1); ("updated_at", VStr (isoformat now)); ("sessions", VList (map (fun r => VDict (to_storage_dict r)) l))].
Definition by_id (l : list session) : records := fold_left (fun out r => oset (session_id r) r out) l [].

(** [_save_unlocked] *)
Definition save (p : nat) (rs : records) (now mono : Z) : M world unit := fun w =>
  let l := kept now rs in
  let w := mk_world (Some (next_ident w, file_of now l)) (next_ident w + 1) (memory_of w) (submitted w) in
  (Ok tt, set_memory p (mk_memory (file_ident w) (by_id l) mono) w).

(** ** Operations *)

(** The lifetime of a session in seconds: the caller's, or the configured one
    ([gateway_session_ttl_s]), within its bounds. *)
Definition session_ttl (configured : Z) (ttl_s : option Z) : Z :=
  match ttl_s with
  | None => Z.max 60 (Z.min (7 * 24 * 60 * 60) configured)
  | Some t => Z.max 60 (Z.min (90 * 24 * 60 * 60) t)
  end.

Definition user_accounts_off_sign_in_refusal (user_id : string) : string :=
  let who := if String.eqb (strip user_id) "" then "this account" else "'" +:+ user_id +:+ "'" in
  "This gateway runs with user accounts off, so only admin accounts can sign in: " +:+ who +:+
  " is not an admin, and without user accounts every signed-in person shares the operator's own runtime and settings. Two ways out: the gateway operator turns user accounts on (each user then gets their own runtime), or you sign in with an admin account.".

Definition session_credential (pr : GatewayPrincipal) : res string :=
  if String.eqb (p_source pr) "user-registry" then
    match registry_user (user_id pr) (tenant_id pr) with
    | None => Raise (ValueError "Gateway user is disabled or unavailable")
    | Some u =>
        if negb (u_enabled u) || u_archived u then Raise (ValueError "Gateway user is disabled or unavailable")
        else if barred_from_shared_runtime (to_principal u "")
        then Raise (ValueError (user_accounts_off_sign_in_refusal (user_id pr)))
        else Ok (registry_credential_fingerprint u)
    end
  else Ok "".

Definition csrf_text (token : string) : string := "agcsrf_" +:+ token.
Definition new_session (pr : GatewayPrincipal) (cred sid token : string) (ttl now : Z) : session :=
  mk_session sid (user_id pr) (tenant_id pr) (roles pr) (scopes pr) (or_else (runtime_id pr) (user_id pr)) (p_source pr)
    (token_fingerprint pr) cred (digest (csrf_text token)) (isoformat now) (isoformat (now + ttl * second)) (isoformat now).

(** [create_session]; [sid] and [token] are the random parts. *)
Definition create_session (p : nat) (pr : GatewayPrincipal) (sid token : string) (configured : Z) (ttl_s : option Z)
    (now mono : Z) : M world (string * string * session) :=
  cred <- of_res (session_credential pr) ;;
  let r := new_session pr cred sid token (session_ttl configured ttl_s) now in
  rs <- load p true now mono ;;
  save p (oset sid r rs) now mono ;;;
  ret (encode_cookie sid, csrf_text token, r).

(** [_drop_unlocked] *)
Definition drop (p : nat) (sid : string) (now mono : Z) : M world unit :=
  rs <- load p true now mono ;;
  match oget sid rs with
  | Some _ => save p (opop sid rs) now mono
  | None => ret tt
  end.

(** The checks of [authenticate_session] on a record: the principal it stands for. *)
Definition session_principal (r : session) (fps : list string) (now : Z) : option GatewayPrincipal :=
  if match parse_dt (expires_at r) with Some e => e <=? now | None => false end then None
  else
    let pr := principal_of r in
    if String.eqb (p_source pr) "user-registry" then
      match registry_user (user_id pr) (tenant_id pr) with
      | None => None
      | Some u =>
          if negb (u_enabled u) || u_archived u then None
          else if negb (String.eqb (credential_fingerprint r) "") &&
                  negb (String.eqb (credential_fingerprint r) (registry_credential_fingerprint u)) then None
          else let pr := to_principal u (s_token_fingerprint r) in
               if barred_from_shared_runtime pr then None else Some pr
      end
    else if legacy_principal_still_valid pr fps then Some pr else None.

Definition touched (r : session) (pr : GatewayPrincipal) (now : Z) : session :=
  let stale := match parse_dt (last_seen_at r) with
               | None => true
               | Some seen => SESSION_TOUCH_INTERVAL_S <=? now - seen
               end in
  mk_session (session_id r) (user_id pr) (tenant_id pr) (roles pr) (scopes pr) (or_else (runtime_id pr) (user_id pr)) (p_source pr)
    (s_token_fingerprint r) (credential_fingerprint r) (csrf_hash r) (created_at r) (expires_at r)
    (if stale then isoformat now else last_seen_at r).

(** Memory first, the file in a worker. *)
Definition touch (p : nat) (sid : string) (r : session) : M world unit :=
  modify (fun w =>
    let w := match memory_of w p with
             | Some m => set_memory p (mk_memory (m_ident m) (oset sid r (m_records m)) (m_checked m)) w
             | None => w
             end in
    mk_world (file w) (next_ident w) (memory_of w) (submitted w ++ [(p, r)])).

Definition authenticate_session (p : nat) (session_id : string) (fps : list string) (now mono : Z) :
    M world (option GatewayPrincipal) :=
  let sid := strip session_id in
  if String.eqb sid "" then ret None
  else
    rs <- load p false now mono ;;
    match oget sid rs with
    | None => ret None
    | Some r =>
        match session_principal r fps now with
        | None => drop p sid now mono ;;; ret None
        | Some pr =>
            let r' := touched r pr now in
            (if bool_decide (r' = r) then ret tt else touch p sid r') ;;;
            ret (Some pr)
        end
    end.

(** [_persist_record], in its two parts: what it read, and what it writes. *)
Definition persist_read (p : nat) (r : session) (now mono : Z) : M world (option records) :=
  rs <- load p true now mono ;;
  ret (match oget (session_id r) rs with Some _ => Some (oset (session_id r) r rs) | None => None end).
Definition persist_write (p : nat) (rs : option records) (now mono : Z) : M world unit :=
  match rs with Some rs => save p rs now mono | None => ret tt end.
Definition persist_record (p : nat) (r : session) (now mono : Z) : M world unit :=
  rs <- persist_read p r now mono ;; persist_write p rs now mono.

(** A worker takes the [k]-th write handed to it. *)
Definition run_submitted (k : nat) (now mono : Z) : M world unit := fun w =>
  match submitted w !! k with
  | Some (p, r) =>
      persist_record p r now mono (mk_world (file w) (next_ident w) (memory_of w) (delete k (submitted w)))
  | None => (Ok tt, w)
  end.

Definition verify_csrf_token (p : nat) (value token : string) (now mono : Z) : M world bool :=
  let token := strip token in
  sid <- of_res (session_id_from_value value) ;;
  match sid with
  | None => ret false
  | Some sid =>
      if String.eqb token "" then ret false
      else
        rs <- load p false now mono ;;
        ret (match oget sid rs with
             | None => false
             | Some r => if String.eqb (csrf_hash r) "" then false else String.eqb (csrf_hash r) (digest token)
             end)
  end.

Definition is_session_of (user_id tenant_id keep : string) (kv : string * session) : bool :=
  String.eqb (s_user_id kv.2) user_id && String.eqb (or_else (s_tenant_id kv.2) "default") (or_else tenant_id "default") &&
  negb (String.eqb kv.1 keep).
Definition delete_sessions_for (p : nat) (user_id tenant_id keep_session_id : string) (now mono : Z) : M world Z :=
  keep <- of_res (session_id_from_value keep_session_id) ;;
  let keep := default keep_session_id keep in
  rs <- load p true now mono ;;
  let gone := okeys (List.filter (is_session_of user_id tenant_id keep) rs) in
  (if bool_decide (gone = []) then ret tt else save p (opops gone rs) now mono) ;;;
  ret (Z.of_nat (length gone)).

Definition delete_session (p : nat) (value : string) (now mono : Z) : M world bool :=
  sid <- of_res (session_id_from_value value) ;;
  match sid with
  | None => ret false
  | Some sid =>
      rs <- load p true now mono ;;
      save p (opop sid rs) now mono ;;;
      ret (match oget sid rs with Some _ => true | None => false end)
  end.
End Sessions.
