(* ===== verification/SessionFacts.v ===== *)
(** * Correctness of the sessions

    The cookie, the checks of a session, the life of a session from its creation
    to its end, over any number of gateway processes. *)

From S2P Require Import Prelude PyStr PyVal OrdDict IsoTime Principal Sessions.

(** ** Texts *)

Lemma rsplit1_spec c s a b : rsplit1 c s = Some (a, b) -> s = a +:+ (c ::s b) /\ has_char c b = false.
Proof.
  revert a b. induction s as [|d s IH]; intros a b; simpl; [done|].
  destruct (rsplit1 c s) as [[a' b']|] eqn:E.
  - intros [= <- <-]. destruct (IH a' b' eq_refl) as [-> Hb]. by split.
  - destruct (Ascii.eqb_spec c d) as [->|Hne]; [|done]. intros [= <- <-]. split; [done|].
    clear IH. induction s as [|e s IH]; [done|]. simpl in E. unfold has_char. simpl.
    destruct (rsplit1 d s) as [[? ?]|] eqn:Es; [done|]. destruct (Ascii.eqb_spec d e); [done|]. by apply IH.
Qed.

Lemma sdrop_agws s : sdrop 5 ("agws_" +:+ s) = s.
Proof. exact (sdrop_app "agws_" s). Qed.

Section Facts.
Context (sign digest : string -> string) (users : string -> option user) (user_auth : bool) (max_sessions : Z).

(** A signature is text of a hexadecimal digest. *)
Definition hex_like (s : string) : Prop := s <> "" /\ forall_chars (fun c => (code c <? 128) && negb (is_space c || Ascii.eqb "." c)) s = true.

(** the cookie of a session names it and nothing else is taken for one: for
    signatures that are hexadecimal text, a value decodes to an id exactly when,
    stripped, it is the cookie of that id, and the cookie of an id decodes to
    it; so an id that is not the one signed is refused. *)
Theorem cookie_roundtrip (v sid : string) :
  (forall s, hex_like (sign s)) -> sid <> "" ->
  (decode_cookie sign v = Ok (Some sid) <-> strip v = encode_cookie sign sid) /\
  session_id_from_value sign (encode_cookie sign sid) = Ok (Some sid).
Proof.
  intros Hhex Hne.
  assert (forall s, has_char "." (sign s) = false) as Hdot.
  { intros s. eapply forall_chars_no; [exact (proj2 (Hhex s))|by vm_compute]. }
  assert (forall s, String.eqb (sign s) "" = false) as Hsne.
  { intros s. by destruct (String.eqb_spec (sign s) ""), (Hhex s). }
  assert (forall s, is_ascii (sign s) = true) as Hasc.
  { intros s. eapply forall_chars_weaken; [|exact (proj2 (Hhex s))]. by intros c [? _]%andb_true_iff. }
  assert (decode_cookie sign (encode_cookie sign sid) = Ok (Some sid) /\ strip (encode_cookie sign sid) = encode_cookie sign sid)
    as [Hdec Hstrip].
  { assert (strip (encode_cookie sign sid) = encode_cookie sign sid) as Hst.
    { unfold strip, encode_cookie. change (lstrip ("agws_" +:+ sid +:+ "." +:+ sign sid)) with ("agws_" +:+ sid +:+ "." +:+ sign sid).
      unfold rstrip. rewrite <- !sapp_assoc. destruct (Hhex sid) as [? Hc]. apply rstrip_by_app; [done|].
      apply rstrip_by_none. eapply forall_chars_weaken; [|exact Hc]. intros c [_ Hd]%andb_true_iff. apply negb_true_iff in Hd. apply orb_false_iff in Hd as [Hd _]. by rewrite Hd. }
    split; [|done]. unfold decode_cookie. rewrite Hst. unfold encode_cookie.
    rewrite (prefix_app "agws_"), has_char_app. cbn [negb orb].
    rewrite !has_char_app, sdrop_agws. change (has_char "." ".") with true. rewrite !orb_true_r. cbn [negb].
    change ("." +:+ sign sid) with ("."%char ::s sign sid). rewrite rsplit1_app by done.
    rewrite (proj2 (String.eqb_neq sid "")), Hsne by done. simpl. unfold compare_digest. rewrite (Hasc sid). cbn [andb rbind]. by rewrite String.eqb_refl. }
  split; [split|].
  - unfold decode_cookie. destruct (startswith "agws_" (strip v)) eqn:Ep; cbn [negb orb]; [|done].
    destruct (has_char "." (strip v)); cbn [negb]; [|done].
    apply prefix_spec in Ep as (r & Hr). rewrite Hr, sdrop_agws. destruct (rsplit1 "." r) as [[a b]|] eqn:Er; [|done].
    apply rsplit1_spec in Er as [-> _]. destruct (String.eqb a "" || String.eqb b ""); [done|].
    unfold compare_digest. destruct (_ && _); [|done]. cbn [rbind].
    destruct (String.eqb_spec (sign a) b) as [<-|]; [|done]. by intros [= ->].
  - intros Hv. unfold decode_cookie in *. by rewrite Hv, <- Hstrip.
  - unfold session_id_from_value. rewrite Hstrip, Hdec. by destruct (String.eqb_spec (encode_cookie sign sid) "").
Qed.

(** ** The records of a file *)

(** A dict of sessions under their own, stripped, ids. *)
Definition id_ok (kv : string * session) : Prop := kv.1 = session_id kv.2 /\ strip kv.1 = kv.1.
Definition keys_ok (rs : records) : Prop := Forall id_ok rs /\ NoDup (okeys rs).

Lemma keys_ok_nil : keys_ok [].
Proof. split; constructor. Qed.
Lemma keys_ok_elem k r rs : keys_ok rs -> (k, r) ∈ rs -> k = session_id r /\ strip k = k.
Proof. intros [H _] Hin. rewrite Forall_forall in H. exact (H _ Hin). Qed.
Lemma keys_ok_oset k r rs : k = session_id r -> strip k = k -> keys_ok rs -> keys_ok (oset k r rs).
Proof.
  intros Hk Hs [Hf Hn]. split; [|by apply NoDup_okeys_oset]. clear Hn.
  induction Hf as [|[j u] rs Hj Hf IH]; simpl; [by repeat constructor|].
  destruct (decide (k = j)); constructor; done.
Qed.
Lemma keys_ok_opop k rs : keys_ok rs -> keys_ok (opop k rs).
Proof.
  intros [Hf Hn]. split; [|by apply NoDup_okeys_opop]. rewrite Forall_forall in *.
  intros kv (Hin & _)%elem_of_lfilter. by apply Hf.
Qed.
Lemma keys_ok_opops ks rs : keys_ok rs -> keys_ok (opops ks rs).
Proof. revert rs. induction ks as [|k ks IH]; intros rs H; simpl; [done|]. by apply IH, keys_ok_opop. Qed.

Lemma normalize_id now d r : normalize_record now d = Some r -> strip (session_id r) = session_id r.
Proof.
  unfold normalize_record. destruct (_ || _); [done|]. intros [= <-]. simpl. apply strip_idemp.
Qed.
Lemma parse_row_ok now out item : keys_ok out -> keys_ok (parse_row now out item).
Proof.
  intros H. unfold parse_row. destruct item as [| | | | | |d]; try done.
  destruct (normalize_record now d) as [r|] eqn:E; [|done]. apply keys_ok_oset; [done| |done]. by eapply normalize_id.
Qed.
Lemma parse_file_ok now data : keys_ok (parse_file now data).
Proof.
  unfold parse_file. destruct data as [| | | | | |d]; try apply keys_ok_nil.
  destruct (get_ "sessions" d) as [| | | | |rows|]; try apply keys_ok_nil.
  generalize keys_ok_nil. generalize (@nil (string * session)).
  induction rows as [|row rows IH]; intros out Hout; simpl; [done|]. by apply IH, parse_row_ok.
Qed.
Lemma by_id_ok l : Forall (fun r => strip (session_id r) = session_id r) l -> keys_ok (by_id l).
Proof.
  unfold by_id. generalize keys_ok_nil. generalize (@nil (string * session)).
  induction l as [|r l IH]; intros out Hout Hl; simpl; [done|]. apply Forall_cons in Hl as [? Hl].
  apply IH; [by apply keys_ok_oset|done].
Qed.

Lemma elem_kept now rs r : r ∈ kept max_sessions now rs -> exists k, (k, r) ∈ rs.
Proof.
  unfold kept. intros (i & Hi & _)%elem_of_take. apply list_elem_of_lookup_2, elem_of_py_sorted, elem_of_lfilter in Hi as [Hi _].
  apply list_elem_of_fmap in Hi as ([k r'] & -> & Hin). by exists k.
Qed.
Lemma kept_ids now rs : keys_ok rs -> Forall (fun r => strip (session_id r) = session_id r) (kept max_sessions now rs).
Proof.
  intros H. apply Forall_forall. intros r (k & Hk)%elem_kept. destruct (keys_ok_elem k r rs H Hk). congruence.
Qed.
Lemma kept_without sid now rs r : keys_ok rs -> oget sid rs = None -> r ∈ kept max_sessions now rs -> session_id r <> sid.
Proof.
  intros H Hn (k & Hk)%elem_kept. destruct (keys_ok_elem k r rs H Hk) as [-> _]. intros <-. by eapply oget_None_elem in Hk.
Qed.

Lemma oget_by_id_None sid l : (forall r, r ∈ l -> session_id r <> sid) -> oget sid (by_id l) = None.
Proof.
  unfold by_id. assert (oget sid (@nil (string * session)) = None) as Hn by done. revert Hn. generalize (@nil (string * session)).
  induction l as [|r l IH]; intros out Hout Hl; simpl; [done|]. apply IH.
  - rewrite oget_oset_ne; [done|]. apply Hl. constructor.
  - intros r' Hr'. apply Hl. by constructor.
Qed.
Lemma parse_file_of now t l :
  parse_file now (file_of t l) = fold_left (fun out r => parse_row now out (VDict (to_storage_dict r))) l [].
Proof.
  unfold parse_file, file_of. simpl. generalize (@nil (string * session)).
  induction l as [|r l IH]; intros out; simpl; [done|]. apply IH.
Qed.
Lemma storage_id now r r' : normalize_record now (to_storage_dict r) = Some r' -> session_id r' = strip (session_id r).
Proof.
  unfold normalize_record. destruct (_ || _); [done|]. intros [= <-]. simpl. unfold text_or_empty, str_or, py_or, get_. simpl.
  destruct (String.eqb_spec (session_id r) "") as [->|]; done.
Qed.
Lemma oget_file_None sid now t l :
  (forall r, r ∈ l -> strip (session_id r) <> sid) -> oget sid (parse_file now (file_of t l)) = None.
Proof.
  rewrite parse_file_of. assert (oget sid (@nil (string * session)) = None) as Hn by done. revert Hn.
  generalize (@nil (string * session)). induction l as [|r l IH]; intros out Hout Hl; simpl; [done|]. apply IH.
  - destruct (normalize_record now (to_storage_dict r)) as [r'|] eqn:E; [|done]. rewrite oget_oset_ne; [done|].
    rewrite (storage_id _ _ _ E). apply Hl. constructor.
  - intros r' Hr'. apply Hl. by constructor.
Qed.

(** ** Worlds *)

(** What the gateway's processes hold: dicts under their ids, and identities of
    the file that were given out. *)
Definition memory_ok (next : Z) (m : memory) : Prop :=
  keys_ok (m_records m) /\ match m_ident m with Some i => i < next | None => True end.
Record wf (w : world) : Prop := {
  wf_memory : forall p m, memory_of w p = Some m -> memory_ok (next_ident w) m;
  wf_file : match file_ident w with Some i => i < next_ident w | None => True end;
}.

(** The file has no session [sid], nor has a memory that is the file's. *)
Record gone (sid : string) (w : world) : Prop := {
  gone_file : forall now, oget sid (file_records now w) = None;
  gone_memory : forall p m, memory_of w p = Some m -> m_ident m = file_ident w -> oget sid (m_records m) = None;
}.
(** A process that knows it. *)
Definition aware (sid : string) (p : nat) (w : world) : Prop :=
  forall m, memory_of w p = Some m -> oget sid (m_records m) = None.

Lemma memory_set p q m w : memory_of (set_memory p m w) q = if bool_decide (q = p) then Some m else memory_of w q.
Proof. done. Qed.

Lemma set_memory_wf p m w : wf w -> memory_ok (next_ident w) m -> wf (set_memory p m w).
Proof.
  intros [Hm Hf] Hok. split; [|done]. intros q m'. rewrite memory_set. case_bool_decide; [by intros [= <-]|apply Hm].
Qed.
Lemma set_memory_gone sid p m w : gone sid w -> oget sid (m_records m) = None -> gone sid (set_memory p m w).
Proof.
  intros [Hf Hm] Hn. split; [done|]. intros q m'. rewrite memory_set. case_bool_decide; [by intros [= <-]|apply Hm].
Qed.
Lemma set_memory_aware sid p q m w : aware sid p w -> oget sid (m_records m) = None -> aware sid p (set_memory q m w).
Proof. intros Ha Hn m'. rewrite memory_set. case_bool_decide; [by intros [= <-]|apply Ha]. Qed.

(** What reading the sessions does. *)
Lemma load_spec p fresh now mono w : wf w -> exists rs,
  load p fresh now mono w = (Ok rs, snd (load p fresh now mono w)) /\ keys_ok rs /\ wf (snd (load p fresh now mono w)) /\
  (forall sid, gone sid w -> gone sid (snd (load p fresh now mono w)) /\
     (fresh = true \/ aware sid p w -> oget sid rs = None)) /\
  (forall sid q, gone sid w -> aware sid q w -> aware sid q (snd (load p fresh now mono w))).
Proof.
  intros Hwf. destruct Hwf as [Hm Hf].
  assert (memory_ok (next_ident w) (mk_memory (file_ident w) (file_records now w) mono)) as Hnew.
  { split; [|exact Hf]. unfold file_records. simpl. destruct (file w) as [[i data]|]; [apply parse_file_ok|apply keys_ok_nil]. }
  unfold load. destruct (memory_of w p) as [m|] eqn:Em.
  - destruct (Hm p m Em) as [Hk Hi]. destruct (negb fresh && _) eqn:Efresh; [|case_bool_decide as Eid]; eexists; split; try reflexivity; simpl.
    + split_and!; [done|by split| |done]. intros sid Hg. split; [done|]. intros [->|Ha]; [done|by apply Ha].
    + split_and!; [done|apply set_memory_wf; [by split|by split]| |].
      * intros sid Hg. pose proof (gone_memory _ _ Hg p m Em Eid). by split; [apply set_memory_gone|].
      * intros sid q Hg Ha. apply set_memory_aware; [done|]. by apply (gone_memory _ _ Hg p m).
    + split_and!; [apply Hnew|by apply set_memory_wf| |].
      * intros sid Hg. pose proof (gone_file _ _ Hg now). by split; [apply set_memory_gone|].
      * intros sid q Hg Ha. apply set_memory_aware; [done|]. apply (gone_file _ _ Hg now).
  - eexists; split; [reflexivity|]; simpl. split_and!; [apply Hnew|by apply set_memory_wf| |].
    + intros sid Hg. pose proof (gone_file _ _ Hg now). by split; [apply set_memory_gone|].
    + intros sid q Hg Ha. apply set_memory_aware; [done|]. apply (gone_file _ _ Hg now).
Qed.

(** What writing the sessions does. *)
Lemma save_spec p rs now mono w : wf w -> keys_ok rs ->
  wf (exec (save max_sessions p rs now mono) w) /\
  (forall sid, oget sid rs = None -> gone sid (exec (save max_sessions p rs now mono) w) /\
     aware sid p (exec (save max_sessions p rs now mono) w)) /\
  (forall sid q, oget sid rs = None -> aware sid q w -> aware sid q (exec (save max_sessions p rs now mono) w)).
Proof.
  intros [Hm Hf] Hk. unfold exec, save. cbv zeta. cbn [snd]. set (l := kept max_sessions now rs).
  set (w1 := mk_world _ _ _ _).
  assert (wf w1) as Hw1.
  { split; [|simpl; lia]. intros q m Hq. destruct (Hm q m Hq) as [? Hi]. split; [done|].
    simpl. destruct (m_ident m); lia. }
  assert (forall sid, oget sid rs = None -> oget sid (by_id l) = None) as Hby.
  { intros sid Hn. apply oget_by_id_None. intros r Hr. by eapply kept_without. }
  split_and!.
  - apply set_memory_wf; [done|]. split; simpl; [by apply by_id_ok, kept_ids|lia].
  - intros sid Hn. split.
    + apply set_memory_gone; [|by apply Hby]. split.
      * intros now'. apply oget_file_None. intros r Hr. pose proof (kept_ids now rs Hk) as Hid. rewrite Forall_forall in Hid.
        rewrite (Hid r Hr). by eapply kept_without.
      * intros q m Hq Hi. destruct (Hm q m Hq) as [_ Hlt]. rewrite Hi in Hlt. simpl in Hlt. lia.
    + intros m. rewrite memory_set, bool_decide_eq_true_2 by done. intros [= <-]. by apply Hby.
  - intros sid q Hn Ha. apply set_memory_aware; [done|by apply Hby].
Qed.

(** ** A deleted session *)

(** A computation after which a session that is gone is still gone, to every
    process that knew. *)
Definition stays (sid : string) (w w' : world) : Prop :=
  wf w' /\ gone sid w' /\ forall q, aware sid q w -> aware sid q w'.

Lemma stays_refl sid w : wf w -> gone sid w -> stays sid w w.
Proof. done. Qed.
Lemma stays_trans sid w1 w2 w3 : stays sid w1 w2 -> stays sid w2 w3 -> stays sid w1 w3.
Proof. intros (? & ? & H1) (? & ? & H2). split_and!; auto. Qed.

Lemma stays_save sid p rs now mono w : wf w -> gone sid w -> keys_ok rs -> oget sid rs = None ->
  stays sid w (exec (save max_sessions p rs now mono) w).
Proof.
  intros Hwf Hg Hk Hn. destruct (save_spec p rs now mono w Hwf Hk) as (? & Hs & Ha).
  split_and!; [done|by apply Hs|]. intros q. by apply Ha.
Qed.

(** A computation that reads freshly and then writes what it read, changed. *)
Lemma stays_load {A} sid p fresh now mono (k : records -> M world A) w :
  wf w -> gone sid w ->
  (forall rs w', keys_ok rs -> (fresh = true \/ aware sid p w -> oget sid rs = None) -> wf w' -> gone sid w' -> stays sid w' (exec (k rs) w')) ->
  stays sid w (exec (mbind_ (load p fresh now mono) k) w).
Proof.
  intros Hwf Hg Hk. destruct (load_spec p fresh now mono w Hwf) as (rs & Hl & Hrs & Hwf' & Hgone & Haware).
  assert (exec (mbind_ (load p fresh now mono) k) w = exec (k rs) (snd (load p fresh now mono w))) as ->.
  { unfold exec, mbind_. by rewrite Hl. }
  destruct (Hgone sid Hg) as [Hg' Hn]. eapply stays_trans; [|by apply Hk].
  split_and!; [done|done|]. intros q. by apply Haware.
Qed.

Lemma exec_seq {S A B} (m : M S A) (f : A -> M S B) (s : S) a s' :
  m s = (Ok a, s') -> exec (mbind_ m f) s = exec (f a) s'.
Proof. intros H. unfold exec, mbind_. by rewrite H. Qed.

Lemma exec_of_res {S A B} (r : res A) (f : A -> M S B) (s : S) :
  exec (mbind_ (of_res r) f) s = match r with Ok a => exec (f a) s | Raise _ => s end.
Proof. unfold exec, mbind_, of_res. by destruct r. Qed.

Lemma stays_create sid us ua p pr new token conf ttl now mono w :
  wf w -> gone sid w -> strip new = new -> new <> sid ->
  stays sid w (exec (create_session sign digest us ua max_sessions p pr new token conf ttl now mono) w).
Proof.
  intros Hwf Hg Hs Hne. unfold create_session. unfold exec at 1, mbind_ at 1, of_res.
  destruct (session_credential digest us ua pr) as [cred|e]; [|by apply stays_refl].
  apply (stays_load sid p true now mono); [done|done|]. intros rs w' Hk Hn Hwf' Hg'.
  rewrite (exec_seq _ _ _ tt (exec (save max_sessions p (oset new _ rs) now mono) w')) by done.
  apply (stays_save sid p _ now mono w' Hwf' Hg'); [by apply keys_ok_oset|].
  rewrite oget_oset_ne by done. apply Hn. by left.
Qed.

Lemma stays_drop sid p other now mono w : wf w -> gone sid w ->
  stays sid w (exec (drop max_sessions p other now mono) w).
Proof.
  intros Hwf Hg. unfold drop. apply stays_load; [done|done|]. intros rs w' Hk Hn Hwf' Hg'.
  destruct (oget other rs); [|by apply stays_refl]. apply stays_save; [done|done|by apply keys_ok_opop|].
  apply oget_opop_None_any, Hn. by left.
Qed.

Lemma stays_touch sid p other r w : wf w -> gone sid w ->
  (forall m, memory_of w p = Some m -> other = session_id r /\ strip other = other /\ oget other (m_records m) <> None) ->
  stays sid w (exec (touch p other r) w).
Proof.
  intros Hwf Hg Hkeys. unfold exec, touch, modify. cbn [snd].
  assert (stays sid w (match memory_of w p with
     | Some m => set_memory p (mk_memory (m_ident m) (oset other r (m_records m)) (m_checked m)) w | None => w end)) as (W & [G1 G2] & A).
  { destruct (memory_of w p) as [m|] eqn:Em; [|by apply stays_refl]. destruct (Hkeys m eq_refl) as (He & Hst & Hin).
    destruct (wf_memory _ Hwf p m Em) as [Hk Hi].
    assert (oget sid (m_records m) = None -> other <> sid) as Hdiff by (intros Hn ->; done).
    split_and!.
    - apply set_memory_wf; [done|]. split; [by apply keys_ok_oset|done].
    - split; [apply Hg|]. intros q m'. rewrite memory_set. case_bool_decide; [|by apply Hg].
      intros [= <-] Hid. simpl in *. pose proof (gone_memory _ _ Hg p m Em Hid) as Hn.
      by rewrite oget_oset_ne by auto.
    - intros q Ha m'. rewrite memory_set. case_bool_decide as E; [|apply Ha]. intros [= <-]. simpl. subst q.
      pose proof (Ha m Em) as Hn. by rewrite oget_oset_ne by auto. }
  split_and!; [by destruct W|by split|]. intros q Ha. by apply A.
Qed.

Lemma load_memory p fresh now mono w rs w' : load p fresh now mono w = (Ok rs, w') ->
  exists m, memory_of w' p = Some m /\ m_records m = rs.
Proof.
  unfold load. destruct (memory_of w p) as [m|] eqn:Em.
  - destruct (negb fresh && _); [intros [= <- <-]; by exists m|].
    case_bool_decide; intros [= <- <-]; rewrite memory_set, bool_decide_eq_true_2 by done; eauto.
  - intros [= <- <-]. rewrite memory_set, bool_decide_eq_true_2 by done; eauto.
Qed.

Lemma stays_auth sid us ua p value fps now mono w : wf w -> gone sid w ->
  stays sid w (exec (authenticate_session digest us ua max_sessions p value fps now mono) w).
Proof.
  intros Hwf Hg. unfold authenticate_session. cbv zeta. destruct (String.eqb _ ""); [by apply stays_refl|].
  destruct (load_spec p false now mono w Hwf) as (rs & Hl & Hrs & Hwf' & Hgone & Haware).
  destruct (load_memory _ _ _ _ _ _ _ Hl) as (m & Hm & Hmr).
  rewrite (exec_seq _ _ _ _ _ Hl). destruct (Hgone sid Hg) as [Hg' _].
  apply (stays_trans sid w (snd (load p false now mono w))); [split_and!; [done|done|intros q; by apply Haware]|].
  set (w' := snd _) in *. clearbody w'. destruct (oget (strip value) rs) as [r|] eqn:Er; [|by apply stays_refl].
  assert (strip value = session_id r /\ strip (strip value) = strip value) as [Hid Hst].
  { apply oget_Some_elem in Er. by apply (keys_ok_elem _ _ rs). }
  destruct (session_principal digest us ua r fps now) as [pr|].
  - case_bool_decide; [by apply stays_refl|].
    rewrite (exec_seq _ _ _ tt (exec (touch p (strip value) (touched r pr now)) w')) by done.
    apply stays_touch; [done|done|]. intros m' Hm'. rewrite Hm in Hm'. injection Hm' as <-. rewrite Hmr, Er. done.
  - pose proof (stays_drop sid p (strip value) now mono w' Hwf' Hg') as Hd.
    unfold exec in *. unfold mbind_ at 1. by destruct (drop _ _ _ _ _ w') as [[] ?].
Qed.

Lemma stays_persist sid p r now mono w : wf w -> gone sid w ->
  stays sid w (exec (persist_record max_sessions p r now mono) w).
Proof.
  intros Hwf Hg. unfold persist_record, persist_read.
  assert (exec (mbind_ (mbind_ (load p true now mono) (fun rs => ret (match oget (session_id r) rs with
      Some _ => Some (oset (session_id r) r rs) | None => None end))) (fun rs => persist_write max_sessions p rs now mono)) w =
    exec (mbind_ (load p true now mono) (fun rs => persist_write max_sessions p (match oget (session_id r) rs with
      Some _ => Some (oset (session_id r) r rs) | None => None end) now mono)) w) as ->.
  { unfold exec, mbind_. destruct (load p true now mono w) as [[rs|e] w']; done. }
  apply stays_load; [done|done|]. intros rs w' Hk Hn Hwf' Hg'.
  destruct (oget (session_id r) rs) as [old|] eqn:Eo; simpl; [|by apply stays_refl].
  assert (session_id r <> sid) as Hne by (intros E; rewrite E, (Hn (or_introl eq_refl)) in Eo; done).
  apply stays_save; [done|done| |rewrite oget_oset_ne by done; apply Hn; by left].
  apply keys_ok_oset; [done| |done]. apply oget_Some_elem in Eo. by apply (keys_ok_elem _ _ rs Hk) in Eo as [_ ?].
Qed.

Lemma stays_worker sid k now mono w : wf w -> gone sid w ->
  stays sid w (exec (run_submitted max_sessions k now mono) w).
Proof.
  intros Hwf Hg. unfold exec, run_submitted. destruct (submitted w !! k) as [[p r]|]; [|by apply stays_refl].
  set (w1 := mk_world _ _ _ _). assert (wf w1) as H1 by (destruct Hwf; by split).
  assert (gone sid w1) as H2 by (destruct Hg; by split).
  destruct (stays_persist sid p r now mono w1 H1 H2) as (? & ? & Ha). split_and!; [done|done|]. intros q Hq. by apply Ha.
Qed.

Lemma stays_csrf sid p value token now mono w : wf w -> gone sid w ->
  stays sid w (exec (verify_csrf_token sign digest p value token now mono) w).
Proof.
  intros Hwf Hg. unfold verify_csrf_token. cbv zeta. rewrite exec_of_res.
  destruct (session_id_from_value sign value) as [[s|]|]; [|by apply stays_refl|by apply stays_refl].
  destruct (String.eqb _ ""); [by apply stays_refl|]. apply stays_load; [done|done|].
  intros rs w' _ _ Hwf' Hg'. by apply stays_refl.
Qed.

Lemma stays_delete_for sid p user_id tenant_id keep now mono w : wf w -> gone sid w ->
  stays sid w (exec (delete_sessions_for sign max_sessions p user_id tenant_id keep now mono) w).
Proof.
  intros Hwf Hg. unfold delete_sessions_for. rewrite exec_of_res.
  destruct (session_id_from_value sign keep) as [k|]; [|by apply stays_refl]. cbv zeta. apply stays_load; [done|done|]. intros rs w' Hk Hn Hwf' Hg'.
  case_bool_decide; [by apply stays_refl|]. apply (stays_save sid p); [done|done|by apply keys_ok_opops|].
  rewrite oget_opops. case_bool_decide; [done|]. apply Hn. by left.
Qed.

Lemma stays_delete sid p value now mono w : wf w -> gone sid w ->
  stays sid w (exec (delete_session sign max_sessions p value now mono) w).
Proof.
  intros Hwf Hg. unfold delete_session. rewrite exec_of_res.
  destruct (session_id_from_value sign value) as [[s|]|]; [|by apply stays_refl|by apply stays_refl].
  apply stays_load; [done|done|]. intros rs w' Hk Hn Hwf' Hg'. apply (stays_save sid p); [done|done|by apply keys_ok_opop|].
  apply oget_opop_None_any, Hn. by left.
Qed.

(** What the gateway's processes do with sessions, each whole operation at once. *)
Inductive action :=
  | ACreate (us : string -> option user) (ua : bool) (p : nat) (pr : GatewayPrincipal) (new token : string) (conf : Z) (ttl : option Z) (now mono : Z)
  | AAuth (us : string -> option user) (ua : bool) (p : nat) (value : string) (fps : list string) (now mono : Z)
  | AWorker (k : nat) (now mono : Z)
  | ACsrf (p : nat) (value token : string) (now mono : Z)
  | ADelete (p : nat) (value : string) (now mono : Z)
  | ADeleteFor (p : nat) (user_id tenant_id keep : string) (now mono : Z).
Definition act (w : world) (a : action) : world :=
  match a with
  | ACreate us ua p pr new token conf ttl now mono =>
      exec (create_session sign digest us ua max_sessions p pr new token conf ttl now mono) w
  | AAuth us ua p value fps now mono => exec (authenticate_session digest us ua max_sessions p value fps now mono) w
  | AWorker k now mono => exec (run_submitted max_sessions k now mono) w
  | ACsrf p value token now mono => exec (verify_csrf_token sign digest p value token now mono) w
  | ADelete p value now mono => exec (delete_session sign max_sessions p value now mono) w
  | ADeleteFor p user_id tenant_id keep now mono =>
      exec (delete_sessions_for sign max_sessions p user_id tenant_id keep now mono) w
  end.
Definition creates_other (sid : string) (a : action) : Prop :=
  match a with ACreate _ _ _ _ new _ _ _ _ _ => strip new = new /\ new <> sid | _ => True end.

Lemma stays_act sid a w : wf w -> gone sid w -> creates_other sid a -> stays sid w (act w a).
Proof.
  intros Hwf Hg Hc. destruct a; simpl in *.
  - apply stays_create; try done; apply Hc.
  - by apply stays_auth.
  - by apply stays_worker.
  - by apply stays_csrf.
  - by apply stays_delete.
  - by apply stays_delete_for.
Qed.
Lemma stays_run sid l w : wf w -> gone sid w -> Forall (creates_other sid) l -> stays sid w (fold_left act l w).
Proof.
  revert w. induction l as [|a l IH]; intros w Hwf Hg Hl; simpl; [by apply stays_refl|].
  apply Forall_cons in Hl as [Ha Hl]. destruct (stays_act sid a w Hwf Hg Ha) as (H1 & H2 & H3).
  apply (stays_trans sid w (act w a)); [done|by apply IH].
Qed.

Lemma auth_none us ua p value fps now mono w rs w' :
  load p false now mono w = (Ok rs, w') -> oget (strip value) rs = None ->
  fst (authenticate_session digest us ua max_sessions p value fps now mono w) = Ok None.
Proof.
  intros Hl Hn. unfold authenticate_session. cbv zeta. destruct (String.eqb _ ""); [done|].
  unfold mbind_ at 1. by rewrite Hl, Hn.
Qed.

(** C10: a session that was ended stays ended: after [delete_session] in one of any
    number of processes, whatever they do next, each operation whole and none
    creating that id again (row writes submitted before included), the sessions
    file never holds it; the process that ended it refuses it from then on; and
    so does every other process whose memory of the file is no longer fresh. *)
Theorem deleted_session_stays_deleted (p q : nat) (value sid : string) (l : list action) (w : world)
    (now mono now' mono' : Z) (us : string -> option user) (ua : bool) (fps : list string) :
  wf w -> session_id_from_value sign value = Ok (Some sid) -> strip sid = sid -> Forall (creates_other sid) l ->
  let w' := fold_left act l (exec (delete_session sign max_sessions p value now mono) w) in
  let answer := fun q => fst (authenticate_session digest us ua max_sessions q sid fps now' mono' w') in
  (forall t, oget sid (file_records t w') = None) /\
  answer p = Ok None /\
  (match memory_of w' q with Some m => SESSION_CACHE_TTL_S <= mono' - m_checked m | None => True end -> answer q = Ok None).
Proof.
  intros Hwf Hv Hst Hl w' answer.
  destruct (load_spec p true now mono w Hwf) as (rs & Hload & Hk & Hwf1 & _).
  set (w1 := snd (load p true now mono w)) in *.
  assert (exec (delete_session sign max_sessions p value now mono) w = exec (save max_sessions p (opop sid rs) now mono) w1) as Hd.
  { unfold delete_session. rewrite exec_of_res, Hv, (exec_seq _ _ _ _ _ Hload). done. }
  destruct (save_spec p (opop sid rs) now mono w1 Hwf1 (keys_ok_opop _ _ Hk)) as (Hwf2 & Hs & _).
  destruct (Hs sid (oget_opop_eq _ _)) as [Hgone Haware]. rewrite <- Hd in *.
  destruct (stays_run sid l _ Hwf2 Hgone Hl) as (Hwf' & Hgone' & Haw'). fold w' in Hwf', Hgone', Haw'.
  assert (forall r, (forall rs w1, load r false now' mono' w' = (Ok rs, w1) -> oget sid rs = None) -> answer r = Ok None) as Hans.
  { intros r Hr. destruct (load_spec r false now' mono' w' Hwf') as (rs' & Hl' & _).
    apply (auth_none us ua r sid fps now' mono' w' rs' _ Hl'). rewrite Hst. by eapply Hr. }
  split_and!; [apply Hgone'| |].
  - apply Hans. intros rs' w2 Hl'. destruct (load_spec p false now' mono' w' Hwf') as (rs2 & Hl2 & _ & _ & Hg2 & _).
    rewrite Hl2 in Hl'. injection Hl' as <- _. apply Hg2; [done|]. right. by apply Haw'.
  - intros Hold. apply Hans. intros rs' w2. unfold load. destruct (memory_of w' q) as [m|] eqn:Em.
    + rewrite (proj2 (Z.ltb_ge _ _)) by lia. cbn [negb andb]. case_bool_decide as Eid; intros [= <- _].
      * by apply (gone_memory _ _ Hgone' q m).
      * apply (gone_file _ _ Hgone').
    + intros [= <- _]. apply (gone_file _ _ Hgone').
Qed.

(** A record the file gives back as it was. *)
Definition storable (r : session) : Prop := forall now, normalize_record now (to_storage_dict r) = Some r.

Lemma parse_one now t r : storable r -> parse_file now (file_of t [r]) = [(session_id r, r)].
Proof. intros Hr. rewrite parse_file_of. simpl. by rewrite Hr. Qed.
Lemma kept_nil now : kept max_sessions now [] = [].
Proof. unfold kept. simpl. apply take_nil. Qed.
Lemma kept_one now k r : is_live now r = true -> 1 <= max_sessions -> kept max_sessions now [(k, r)] = [r].
Proof.
  intros Hl Hm. unfold kept. simpl. rewrite Hl. simpl.
  replace (Z.to_nat max_sessions) with (S (Z.to_nat (max_sessions - 1))) by lia. simpl. by rewrite take_nil.
Qed.

(** whole operations are needed for that: a row write that has read the file
    when another process ends the session writes the session back, and it is in
    the file again; the lock that makes an operation whole is the process's own,
    so two gateway processes on one data directory can do this. *)
Theorem torn_write_resurrects (r : session) (t : Z) :
  let sid := session_id r in
  storable r -> session_id_from_value sign sid = Ok (Some sid) -> is_live t r = true -> 1 <= max_sessions ->
  let w0 := mk_world (Some (0, file_of t [r])) 1 (fun _ => None) [(0%nat, r)] in
  let '(read, w1) := persist_read 0%nat r t t w0 in
  let w2 := exec (delete_session sign max_sessions 1%nat sid t t) w1 in
  let w3 := exec (persist_write max_sessions 0%nat (match read with Ok x => x | Raise _ => None end) t t) w2 in
  wf w0 /\ oget sid (file_records t w0) = Some r /\ oget sid (file_records t w2) = None /\ oget sid (file_records t w3) = Some r.
Proof.
  intros sid Hr Hv Hlive Hmax w0.
  assert (oget sid [(session_id r, r)] = Some r) as Hone by (simpl; by rewrite decide_True).
  assert (persist_read 0%nat r t t w0 = (Ok (Some [(sid, r)]), set_memory 0%nat (mk_memory (Some 0) [(sid, r)] t) w0)) as ->.
  { unfold persist_read, mbind_, load, ret. cbn [memory_of w0]. unfold file_records. cbn [file w0].
    rewrite parse_one by done. simpl. rewrite !decide_True by done. done. }
  assert (exec (delete_session sign max_sessions 1%nat sid t t) (set_memory 0%nat (mk_memory (Some 0) [(sid, r)] t) w0) =
    exec (save max_sessions 1%nat [] t t) (set_memory 1%nat (mk_memory (Some 0) [(sid, r)] t) (set_memory 0%nat (mk_memory (Some 0) [(sid, r)] t) w0))) as ->.
  { unfold delete_session. rewrite exec_of_res, Hv. unfold exec, mbind_, load. cbn [memory_of set_memory]. simpl (bool_decide (1%nat = 0%nat)).
    cbn [memory_of w0]. unfold file_records. cbn [file set_memory w0]. rewrite parse_one by done. simpl.
    rewrite bool_decide_eq_true_2 by done. done. }
  cbv zeta. split_and!.
  - split; [done|simpl; lia].
  - unfold file_records. cbn [file w0]. by rewrite parse_one.
  - unfold exec, save. cbv zeta. by rewrite kept_nil.
  - unfold persist_write, exec, save. cbv zeta. rewrite (kept_one _ _ _ Hlive Hmax).
    unfold file_records. cbn [snd set_memory file]. by rewrite parse_one.
Qed.

(** ** The life of a session *)

Definition clean (s : string) : Prop := strip s = s /\ s <> "".
Record good_record (r : session) : Prop := {
  good_id : clean (session_id r);
  good_user : clean (s_user_id r);
  good_texts : s_tenant_id r <> "" /\ s_runtime_id r <> "" /\ s_source r <> "" /\
    created_at r <> "" /\ expires_at r <> "" /\ last_seen_at r <> "";
  good_roles : Forall clean (s_roles r);
  good_scopes : Forall clean (s_scopes r);
}.

Lemma str_tuple_clean l : Forall clean l -> str_tuple (VList (map VStr l)) = l.
Proof.
  intros H. unfold str_tuple. induction H as [|s l [Hs Hne] Hl IH]; simpl; [done|].
  unfold text_or_empty at 1. rewrite str_or_self, Hs. destruct (String.eqb_spec s ""); [done|]. simpl. by rewrite Hs, IH.
Qed.

#[local] Arguments str_tuple : simpl never.
#[local] Arguments str_or : simpl never.

(** A clean record is given back by the file as it was. *)
Lemma good_storable r : good_record r -> storable r.
Proof.
  intros [[Hi Hi'] [Hu Hu'] (Ht & Hrt & Hsrc & Hc & He & Hl) Hr Hs] now.
  destruct r as [sid uid tid rs ss rid src tfp cfp csrf cr ex la]. simpl in *.
  unfold normalize_record, get_. simpl. unfold text_or_empty. rewrite !str_or_self, Hi, Hu.
  destruct (String.eqb_spec sid ""); [done|]. destruct (String.eqb_spec uid ""); [done|]. simpl.
  by rewrite !str_or_str, !str_tuple_clean by done.
Qed.

Lemma parse_dt_isoformat t : in_calendar t -> parse_dt (isoformat t) = Some t.
Proof.
  intros Ht. destruct (isoformat_chars t Ht) as [Hc Hne]. unfold parse_dt. rewrite (iso_char_strip _ Hc).
  destruct (String.eqb_spec (isoformat t) ""); [done|]. rewrite endswith_char; [by apply iso_instant_isoformat|].
  eapply forall_chars_no; [exact Hc|by vm_compute].
Qed.

(** The record of an id among the rows of a file, and in what a writer remembers. *)
Lemma oget_by_id sid l r : r ∈ l -> session_id r = sid -> (forall r', r' ∈ l -> session_id r' = sid -> r' = r) ->
  oget sid (by_id l) = Some r.
Proof.
  intros Hin Hr Huniq. unfold by_id. generalize (@nil (string * session)).
  induction l as [|x l IH] using rev_ind; intros out; [by apply not_elem_of_nil in Hin|].
  rewrite fold_left_app. simpl. destruct (decide (session_id x = sid)) as [Hx|Hx].
  - rewrite <- Hx at 1. rewrite oget_oset_eq. f_equal. apply Huniq; [|done]. apply elem_of_app. right. by constructor.
  - rewrite oget_oset_ne by done. apply IH; [|intros r' Hr'; apply Huniq, elem_of_app; by left].
    apply elem_of_app in Hin as [|Hin]; [done|]. apply list_elem_of_singleton in Hin. congruence.
Qed.
Lemma oget_file sid now t l r : r ∈ l -> session_id r = sid -> storable r ->
  (forall r', r' ∈ l -> strip (session_id r') = sid -> r' = r) -> oget sid (parse_file now (file_of t l)) = Some r.
Proof.
  intros Hin Hr Hst Huniq. rewrite parse_file_of. generalize (@nil (string * session)).
  induction l as [|x l IH] using rev_ind; intros out; [by apply not_elem_of_nil in Hin|].
  rewrite fold_left_app. simpl. destruct (decide (strip (session_id x) = sid)) as [Hx|Hx].
  - assert (x = r) as -> by (apply Huniq; [apply elem_of_app; right; by constructor|done]).
    rewrite Hst, <- Hr. apply oget_oset_eq.
  - assert (oget sid (fold_left (fun out r => parse_row now out (VDict (to_storage_dict r))) l out) = Some r) as Hl.
    { apply IH; [|intros r' Hr'; apply Huniq, elem_of_app; by left].
      apply elem_of_app in Hin as [|Hin]; [done|]. apply list_elem_of_singleton in Hin. subst x.
      destruct Hx. rewrite <- Hr. specialize (Hst now). by apply normalize_id in Hst. }
    destruct (normalize_record now (to_storage_dict x)) as [x'|] eqn:Ex; [|done].
    rewrite oget_oset_ne; [done|]. by rewrite (storage_id _ _ _ Ex).
Qed.

Lemma drop_clears p sid now mono w : wf w ->
  (forall m, memory_of w p = Some m -> m_ident m = file_ident w -> oget sid (m_records m) <> None) ->
  exists w', drop max_sessions p sid now mono w = (Ok tt, w') /\ oget sid (file_records now w') = None.
Proof.
  intros Hwf Hm. destruct (load_spec p true now mono w Hwf) as (rs & Hl & Hk & Hwf' & _).
  unfold drop, mbind_. rewrite Hl. destruct (oget sid rs) as [r|] eqn:Er.
  - destruct (save_spec p (opop sid rs) now mono _ Hwf' (keys_ok_opop _ _ Hk)) as (_ & Hs & _).
    destruct (Hs sid (oget_opop_eq _ _)) as [[Hf _] _]. eexists. split; [reflexivity|]. apply Hf.
  - eexists. split; [reflexivity|]. revert Hl. unfold load.
    destruct (memory_of w p) as [m|] eqn:Em; [|by intros [= <-]].
    cbn [negb andb]. case_bool_decide as Eid; intros [= E]; [|by rewrite <- E in Er].
    exfalso. apply (Hm m eq_refl Eid). congruence.
Qed.

Lemma session_principal_spec us ua r fps now pr : session_principal digest us ua r fps now = Some pr ->
  (forall e, parse_dt (expires_at r) = Some e -> now < e) /\
  (s_source r = "user-registry" -> exists u, us (user_key (s_user_id r) (s_tenant_id r)) = Some u /\
     u_enabled u = true /\ u_archived u = false /\
     (credential_fingerprint r = "" \/ credential_fingerprint r = registry_credential_fingerprint digest u) /\
     pr = to_principal u (s_token_fingerprint r) /\ (ua = true \/ is_admin pr = true)) /\
  (s_source r <> "user-registry" -> pr = principal_of r /\
     (s_source r = "legacy-token" -> strip (s_token_fingerprint r) ∈ fps)).
Proof.
  unfold session_principal. destruct (match parse_dt (expires_at r) with Some e => e <=? now | None => false end) eqn:Ee; [done|].
  intros Hs. split; [intros e He; rewrite He in Ee; by apply Z.leb_gt|]. revert Hs. cbv zeta. unfold principal_of. cbn [p_source user_id tenant_id].
  destruct (String.eqb_spec (s_source r) "user-registry") as [Hsrc|Hsrc]; (split; [intros H|intros H]); try done.
  - unfold registry_user in Hs. destruct (us _) as [u|]; [|done]. exists u. split; [done|].
    destruct (u_enabled u), (u_archived u); try done. cbn [negb orb] in Hs. split_and!; try done.
    + destruct (String.eqb_spec (credential_fingerprint r) ""); [by left|].
      destruct (String.eqb_spec (credential_fingerprint r) (registry_credential_fingerprint digest u)); [by right|done].
    + destruct (negb _ && negb _) in Hs; [done|]. destruct (barred_from_shared_runtime _ _) in Hs; by simplify_eq.
    + destruct (negb _ && negb _) in Hs; [done|]. destruct (barred_from_shared_runtime _ _) eqn:Eb in Hs; [done|].
      injection Hs as <-. change ((if ua then false else negb (is_admin (to_principal u (s_token_fingerprint r)))) = false) in Eb.
      destruct ua; [by left|right; by apply negb_false_iff].
  - unfold legacy_principal_still_valid in Hs. cbn [p_source token_fingerprint] in Hs.
    destruct (String.eqb_spec (s_source r) "legacy-token") as [Hl|Hl]; simpl in Hs; [|by simplify_eq].
    destruct (negb _); simpl in Hs; [|done]. case_bool_decide; by simplify_eq.
Qed.

(** C12: a session answers only for who it still stands for: when
    [authenticate_session] returns a principal, the process's view of the file
    holds a record of that id that has not expired; a registered account is still
    there, enabled, not archived, with the credentials the session was made with,
    allowed a session in the current mode, and the principal has its present
    roles; a session of the operator's token needs that token still configured.
    When a held record fails, nothing is answered and the file no longer has it. *)
Theorem authenticate_sound (us : string -> option user) (ua : bool) (p : nat) (value : string) (fps : list string)
    (now mono : Z) (w : world) :
  wf w ->
  let out := authenticate_session digest us ua max_sessions p value fps now mono w in
  exists rs w1, load p false now mono w = (Ok rs, w1) /\
  (forall pr, fst out = Ok (Some pr) -> exists r, oget (strip value) rs = Some r /\
     (forall e, parse_dt (expires_at r) = Some e -> now < e) /\
     (s_source r = "user-registry" -> exists u, us (user_key (s_user_id r) (s_tenant_id r)) = Some u /\
        u_enabled u = true /\ u_archived u = false /\
        (credential_fingerprint r = "" \/ credential_fingerprint r = registry_credential_fingerprint digest u) /\
        pr = to_principal u (s_token_fingerprint r) /\ (ua = true \/ is_admin pr = true)) /\
     (s_source r <> "user-registry" -> pr = principal_of r /\
        (s_source r = "legacy-token" -> strip (s_token_fingerprint r) ∈ fps))) /\
  (forall r, oget (strip value) rs = Some r -> strip value <> "" -> session_principal digest us ua r fps now = None ->
     fst out = Ok None /\ oget (strip value) (file_records now (snd out)) = None).
Proof.
  intros Hwf out. destruct (load_spec p false now mono w Hwf) as (rs & Hl & _ & Hwf1 & _).
  destruct (load_memory _ _ _ _ _ _ _ Hl) as (m & Hm & Hmr).
  exists rs, (snd (load p false now mono w)). split; [exact Hl|]. set (w1 := snd _) in *. clearbody w1.
  assert (out = if String.eqb (strip value) "" then (Ok None, w) else
    match oget (strip value) rs with
    | None => (Ok None, w1)
    | Some r => match session_principal digest us ua r fps now with
                | None => (drop max_sessions p (strip value) now mono ;;; ret None) w1
                | Some pr => ((if bool_decide (touched r pr now = r) then ret tt else touch p (strip value) (touched r pr now)) ;;;
                              ret (Some pr)) w1
                end
    end) as Hout.
  { subst out. unfold authenticate_session. cbv zeta. destruct (String.eqb _ ""); [done|]. unfold mbind_ at 1. rewrite Hl.
    destruct (oget _ rs); [|done]. by destruct (session_principal _ _ _ _ _ _). }
  clearbody out. subst out. split.
  - intros pr. destruct (String.eqb _ ""); [done|]. destruct (oget (strip value) rs) as [r|]; [|done].
    destruct (session_principal digest us ua r fps now) as [pr'|] eqn:Es.
    + intros Ho. exists r. split; [done|]. apply session_principal_spec.
      assert (pr' = pr) as ->; [|done]. revert Ho. unfold mbind_, ret. case_bool_decide; simpl; by intros [= ->].
    + unfold mbind_. by destruct (drop _ _ _ _ _ w1) as [[]].
  - intros r Hr Hne Hs. destruct (String.eqb_spec (strip value) ""); [done|]. rewrite Hr, Hs.
    destruct (drop_clears p (strip value) now mono w1 Hwf1) as (w2 & Hd & Hgone).
    { intros m' Hm' _. rewrite Hm in Hm'. injection Hm' as <-. by rewrite Hmr, Hr. }
    unfold mbind_. by rewrite Hd.
Qed.

(** ** From creation to expiry *)

Lemma auth_answer us ua p sid fps now mono w rs w' r :
  wf w -> strip sid = sid -> sid <> "" -> load p false now mono w = (Ok rs, w') -> oget sid rs = Some r ->
  let out := authenticate_session digest us ua max_sessions p sid fps now mono w in
  fst out = Ok (session_principal digest us ua r fps now) /\
  (session_principal digest us ua r fps now = None -> oget sid (file_records now (snd out)) = None).
Proof.
  intros Hwf Hst Hne Hl Hr. destruct (load_spec p false now mono w Hwf) as (rs' & Hl' & _ & Hwf1 & _).
  rewrite Hl in Hl', Hwf1. injection Hl' as <-. cbn [snd] in *.
  destruct (load_memory _ _ _ _ _ _ _ Hl) as (m & Hm & Hmr).
  assert (authenticate_session digest us ua max_sessions p sid fps now mono w =
    match session_principal digest us ua r fps now with
    | None => (drop max_sessions p sid now mono ;;; ret None) w'
    | Some pr => ((if bool_decide (touched r pr now = r) then ret tt else touch p sid (touched r pr now)) ;;; ret (Some pr)) w'
    end) as ->.
  { unfold authenticate_session. rewrite Hst. destruct (String.eqb_spec sid ""); [done|]. cbv zeta. unfold mbind_ at 1.
    rewrite Hl, Hr. by destruct (session_principal _ _ _ _ _ _). }
  destruct (session_principal digest us ua r fps now) as [pr|].
  - split; [|done]. unfold mbind_. by destruct (bool_decide _).
  - destruct (drop_clears p sid now mono w' Hwf1) as (w2 & Hd & Hgone).
    { intros m' Hm' _. rewrite Hm in Hm'. injection Hm' as <-. by rewrite Hmr, Hr. }
    unfold mbind_. by rewrite Hd.
Qed.

Lemma kept_new sid r rs now : keys_ok rs -> session_id r = sid -> is_live now r = true ->
  Z.of_nat (length rs) < max_sessions -> r ∈ kept max_sessions now (oset sid r rs).
Proof.
  intros Hk Hid Hlive Hlen. unfold kept. set (l := py_sorted _ _).
  assert (length l <= S (length rs))%nat as Hl.
  { subst l. rewrite length_py_sorted. etrans; [apply length_lfilter_le|]. rewrite length_map. apply length_oset. }
  rewrite take_ge by lia. subst l. apply elem_of_py_sorted, elem_of_lfilter. split; [|done].
  apply (list_elem_of_fmap_2 snd _ (sid, r)), oget_Some_elem, oget_oset_eq.
Qed.
Lemma kept_unique sid r rs now r' : keys_ok (oset sid r rs) -> r' ∈ kept max_sessions now (oset sid r rs) ->
  session_id r' = sid -> r' = r.
Proof.
  intros Hk (k & Hin)%elem_kept Hid. destruct (keys_ok_elem _ _ _ Hk Hin) as [-> _]. rewrite Hid in Hin.
  apply NoDup_oget in Hin; [|by apply Hk]. rewrite oget_oset_eq in Hin. congruence.
Qed.

(** A process that made the last write, or does not go on with what it read without
    looking at the file: it has read nothing yet, or not for the cache's lifetime. *)
Definition looks (p q : nat) (mono : Z) (w : world) : Prop :=
  q = p \/ forall m, memory_of w q = Some m -> SESSION_CACHE_TTL_S <= mono - m_checked m.
(** The sessions such a process sees right after one was made. *)
Lemma load_after_save p q rs sid r now mono later mono' w : wf w -> keys_ok rs -> session_id r = sid -> strip sid = sid ->
  storable r -> is_live now r = true -> Z.of_nat (length rs) < max_sessions ->
  let w' := exec (save max_sessions p (oset sid r rs) now mono) w in
  looks p q mono' w' -> exists rs' w2, load q false later mono' w' = (Ok rs', w2) /\ oget sid rs' = Some r.
Proof.
  intros Hwf Hk Hid Hst Hstor Hlive Hlen w' Hq.
  assert (keys_ok (oset sid r rs)) as Hk' by (by apply keys_ok_oset).
  pose proof (kept_new sid r rs now Hk Hid Hlive Hlen) as Hin.
  assert (oget sid (by_id (kept max_sessions now (oset sid r rs))) = Some r) as Hby.
  { apply oget_by_id; [done|done|]. intros r' Hr' Hid'. by eapply kept_unique. }
  assert (oget sid (file_records later w') = Some r) as Hfile.
  { unfold file_records, w', exec, save. cbn [snd file set_memory]. apply oget_file; [done|done|done|].
    intros r' Hr' Hid'. apply (kept_unique sid r rs now); [done|done|].
    pose proof (kept_ids now _ Hk') as Hids. rewrite Forall_forall in Hids. by rewrite <- (Hids r' Hr'). }
  unfold load. destruct (memory_of w' q) as [m|] eqn:Em; [|by eexists _, _].
  destruct (decide (q = p)) as [->|Hne].
  - assert (oget sid (m_records m) = Some r) as Hm.
    { revert Em. unfold w', exec, save. cbn [snd]. rewrite memory_set, bool_decide_eq_true_2 by done. by intros [= <-]. }
    destruct (_ && _); [by eexists _, _|]. case_bool_decide; by eexists _, _.
  - destruct Hq as [?|Hold]; [done|]. specialize (Hold m Em). rewrite (proj2 (Z.ltb_ge _ _) Hold), andb_false_r.
    rewrite bool_decide_eq_false_2; [by eexists _, _|]. revert Em. unfold w', exec, save. cbn [snd]. rewrite memory_set, bool_decide_eq_false_2 by done.
    intros Em. destruct (wf_memory w Hwf q m Em) as [_ Hi]. cbn. intros E. rewrite E in Hi. lia.
Qed.

(** Whom the session of [pr] stands for while its account is as [us] has it. *)
Definition holder (us : string -> option user) (pr : GatewayPrincipal) (who : GatewayPrincipal) : Prop :=
  if String.eqb (p_source pr) "user-registry"
  then exists u, registry_user us (user_id pr) (tenant_id pr) = Some u /\ who = to_principal u (token_fingerprint pr)
  else who = mk_principal (user_id pr) (tenant_id pr) (roles pr) (scopes pr) (token_fingerprint pr) (or_else (runtime_id pr) (user_id pr)) (p_source pr).
(** An account that could be given the session now answers for it until it expires. *)
Lemma unexpired_answers us ua pr cred sid token ttl now fps later e :
  let r := new_session digest pr cred sid token ttl now in
  parse_dt (expires_at r) = Some e -> later < e -> session_credential digest us ua pr = Ok cred -> legacy_principal_still_valid pr fps = true ->
  exists who, session_principal digest us ua r fps later = Some who /\ holder us pr who.
Proof.
  intros r He Hlt Hc Hl. unfold session_principal, holder. rewrite He, (proj2 (Z.leb_gt _ _) Hlt). cbv zeta. cbn [principal_of p_source r new_session s_source].
  unfold session_credential in Hc. destruct (String.eqb (p_source pr) "user-registry") eqn:Es.
  - cbn [user_id tenant_id principal_of s_user_id s_tenant_id r new_session]. destruct (registry_user us (user_id pr) (tenant_id pr)) as [u|]; [|done].
    destruct (negb (u_enabled u) || u_archived u); [done|]. change (barred_from_shared_runtime ua (to_principal u (s_token_fingerprint r))) with (barred_from_shared_runtime ua (to_principal u "")).
    destruct (barred_from_shared_runtime ua (to_principal u "")); [done|]. injection Hc as <-. cbn [credential_fingerprint r new_session]. rewrite String.eqb_refl, andb_false_r. eexists. split; [reflexivity|]. by exists u.
  - unfold legacy_principal_still_valid in *. cbn [p_source token_fingerprint principal_of r new_session s_source s_token_fingerprint] in *. rewrite Hl. eauto.
Qed.

(** C11: a session lives exactly as long as configured: for an account that may hold
    one, while the file is below its limit, [create_session] answers the cookie and
    the CSRF token of a record that expires [ttl] later. As long as the file is not
    written again, every process (the making one at once, another one as soon as it
    last looked at the file two seconds ago, or never did) then answers the account's
    principal for it at every time before the expiry at which the account could still
    be given the session, and whatever the accounts say refuses it from the expiry on
    and removes it from the file; and of all texts only those with the digest of the
    CSRF token pass as it. *)
Theorem session_lifetime (us us' : string -> option user) (ua ua' : bool) (p q : nat) (pr : GatewayPrincipal)
    (cred sid token : string) (configured : Z) (ttl_s : option Z) (now mono later mono' : Z) (fps : list string) (w : world) :
  let ttl := session_ttl configured ttl_s in
  let made := create_session sign digest us ua max_sessions p pr sid token configured ttl_s now mono w in
  let w' := snd made in
  let answer := authenticate_session digest us' ua' max_sessions q sid fps later mono' w' in
  wf w -> session_credential digest us ua pr = Ok cred -> good_record (new_session digest pr cred sid token ttl now) ->
  in_calendar now -> in_calendar (now + ttl * second) ->
  (forall rs w1, load p true now mono w = (Ok rs, w1) -> Z.of_nat (length rs) < max_sessions) ->
  looks p q mono' w' ->
  (exists r, fst made = Ok (encode_cookie sign sid, csrf_text token, r) /\ parse_dt (expires_at r) = Some (now + ttl * second)) /\
  (later < now + ttl * second -> session_credential digest us' ua' pr = Ok cred -> legacy_principal_still_valid pr fps = true ->
     exists who, fst answer = Ok (Some who) /\ holder us' pr who) /\
  (now + ttl * second <= later -> fst answer = Ok None /\ oget sid (file_records later (snd answer)) = None) /\
  (session_id_from_value sign sid = Ok (Some sid) -> forall text, strip text <> "" -> digest (csrf_text token) <> "" ->
     fst (verify_csrf_token sign digest q sid text later mono' w') =
     Ok (bool_decide (digest (strip text) = digest (csrf_text token)))).
Proof.
  intros ttl made w' answer Hwf Hcred Hgood Hnow Hexp Hlen Hq. set (r := new_session digest pr cred sid token ttl now) in *.
  assert (0 < ttl) as Httl by (unfold ttl, session_ttl; destruct ttl_s; lia).
  destruct (load_spec p true now mono w Hwf) as (rs & Hl & Hk & Hwf1 & _). specialize (Hlen _ _ Hl).
  assert (session_id r = sid) as Hid by done.
  destruct (good_id _ Hgood) as [Hst Hne]. change (session_id r) with sid in Hst, Hne.
  assert (parse_dt (expires_at r) = Some (now + ttl * second)) as Hdt by (by apply parse_dt_isoformat).
  assert (is_live now r = true) as Hlive.
  { unfold is_live. rewrite Hdt. apply Z.ltb_lt. assert (0 < second) by done. nia. }
  assert (made = (Ok (encode_cookie sign sid, csrf_text token, r),
    exec (save max_sessions p (oset sid r rs) now mono) (snd (load p true now mono w)))) as Hmade.
  { unfold made, create_session. unfold mbind_ at 1, of_res. rewrite Hcred. unfold mbind_ at 1. rewrite Hl. done. }
  assert (w' = exec (save max_sessions p (oset sid r rs) now mono) (snd (load p true now mono w))) as Hw' by (unfold w'; by rewrite Hmade).
  assert (wf w') as Hwf'. { rewrite Hw'. apply save_spec; [done|by apply keys_ok_oset]. }
  destruct (load_after_save p q rs sid r now mono later mono' (snd (load p true now mono w)) Hwf1 Hk Hid Hst (good_storable r Hgood) Hlive Hlen)
    as (rs' & w2 & Hload & Hget); [by rewrite <- Hw'|]. rewrite <- Hw' in Hload.
  destruct (auth_answer us' ua' q sid fps later mono' w' rs' w2 r Hwf' Hst Hne Hload Hget) as [Hans Hgone].
  split_and!; [exists r; by rewrite Hmade| | |].
  - intros Hearly Hc Hleg. destruct (unexpired_answers us' ua' pr cred sid token ttl now fps later _ Hdt Hearly Hc Hleg) as (who & Hwho & Hh).
    exists who. by rewrite <- Hwho.
  - intros Hlate. assert (session_principal digest us' ua' r fps later = None) as Hnone.
    { unfold session_principal. rewrite Hdt. by rewrite (proj2 (Z.leb_le _ _)). }
    rewrite Hnone in Hans. split; [done|by apply Hgone].
  - intros Hv text Htext Hdig. unfold verify_csrf_token. unfold mbind_ at 1, of_res. rewrite Hv. destruct (String.eqb_spec (strip text) ""); [done|].
    unfold mbind_. rewrite Hload, Hget. change (csrf_hash r) with (digest (csrf_text token)). unfold ret. cbn [fst].
    destruct (String.eqb_spec (digest (csrf_text token)) ""); [done|].
    destruct (String.eqb_spec (digest (csrf_text token)) (digest (strip text))) as [<-|];
      [by rewrite bool_decide_eq_true_2|by rewrite bool_decide_eq_false_2].
Qed.

(** ** What a process sees *)

(** The records a process goes by at a moment: of its memory, or fresh from the file. *)
Definition view (p : nat) (fresh : bool) (now mono : Z) (w : world) : records :=
  match (load p fresh now mono w).1 with Ok rs => rs | Raise _ => [] end.
Lemma load_view p fresh now mono w : load p fresh now mono w = (Ok (view p fresh now mono w), (load p fresh now mono w).2).
Proof. unfold view, load. destruct (memory_of w p) as [m|]; [|done]. destruct (_ && _); [done|]. by case_bool_decide. Qed.
Lemma view_memory p now mono w m : memory_of w p = Some m -> mono - m_checked m < SESSION_CACHE_TTL_S -> view p false now mono w = m_records m.
Proof. intros Hm Hc. unfold view, load. rewrite Hm. by rewrite (proj2 (Z.ltb_lt _ _) Hc). Qed.
Lemma just_checked mono : mono - mono < SESSION_CACHE_TTL_S.
Proof. rewrite Z.sub_diag. by vm_compute. Qed.
(** A read leaves the process seeing what it read. *)
Lemma load_recent p fresh now mono w : exists m, memory_of (load p fresh now mono w).2 p = Some m /\ m_records m = view p fresh now mono w /\
  (fresh = true -> m_checked m = mono) /\ mono - m_checked m < SESSION_CACHE_TTL_S.
Proof.
  pose proof (just_checked mono). unfold view, load. destruct (memory_of w p) as [m|] eqn:Em.
  - destruct (negb fresh && _) eqn:E.
    + apply andb_true_iff in E as [Hf Hc]. apply Z.ltb_lt in Hc. exists m. split_and!; [done|done|by intros ->|done].
    + case_bool_decide; cbn [fst snd]; rewrite memory_set, bool_decide_eq_true_2 by done; eexists; by split_and!.
  - cbn [fst snd]. rewrite memory_set, bool_decide_eq_true_2 by done. eexists; by split_and!.
Qed.
Lemma view_again p fresh now mono w : view p false now mono (load p fresh now mono w).2 = view p fresh now mono w.
Proof. destruct (load_recent p fresh now mono w) as (m & Hm & Hr & _ & Hc). by rewrite (view_memory _ _ _ _ m). Qed.
Lemma view_fresh_again p now mono w : view p true now mono (load p false now mono w).2 = view p true now mono w.
Proof.
  unfold view, load. destruct (memory_of w p) as [m|] eqn:Em; cbn [negb andb].
  - destruct (mono - m_checked m <? SESSION_CACHE_TTL_S); cbn [snd]; [by rewrite Em|].
    case_bool_decide as E; cbn [fst snd]; rewrite memory_set, bool_decide_eq_true_2 by done; cbn [m_ident m_records];
      change (file_ident (set_memory _ _ w)) with (file_ident w); by rewrite bool_decide_eq_true_2.
  - cbn [snd]. rewrite memory_set, bool_decide_eq_true_2 by done. cbn [m_ident m_records].
    change (file_ident (set_memory _ _ w)) with (file_ident w). by rewrite bool_decide_eq_true_2.
Qed.

Lemma oget_by_id_elem sid l r : oget sid (by_id l) = Some r -> r ∈ l /\ session_id r = sid.
Proof.
  unfold by_id. induction l as [|x l IH] using rev_ind; [done|]. rewrite fold_left_app. cbn [fold_left]. rewrite oget_oset.
  destruct (decide (sid = session_id x)) as [->|Hne]; [intros [= ->]; split; [|done]; set_solver|]. intros H. apply IH in H as [H1 H2]. split; [set_solver|done].
Qed.
(** After a session was dropped, the process sees no record that was not in the file. *)
Lemma drop_view p sid now mono w sid' r : wf w -> oget sid' (view p false now mono (drop max_sessions p sid now mono w).2) = Some r ->
  oget sid' (view p true now mono w) = Some r.
Proof.
  intros Hwf. destruct (load_spec p true now mono w Hwf) as (rs & Hl & Hk & _). unfold drop, mbind_. rewrite load_view in *.
  injection Hl as Hrs. rewrite Hrs in *. destruct (oget sid rs) as [x|] eqn:Ex.
  2:{ unfold ret. cbn [snd]. by rewrite view_again, Hrs. }
  set (w1 := (load p true now mono w).2). unfold save. cbv zeta. cbn [snd]. set (l := kept max_sessions now (opop sid rs)). set (w2 := mk_world _ _ _ _).
  rewrite (view_memory _ _ _ _ (mk_memory (file_ident w2) (by_id l) mono)); [|by rewrite memory_set, bool_decide_eq_true_2|apply just_checked].
  cbn [m_records]. intros [Hin Hid]%oget_by_id_elem. apply elem_kept in Hin as (k & Hin).
  destruct (keys_ok_elem _ _ _ (keys_ok_opop sid rs Hk) Hin) as [-> _]. rewrite Hid in Hin. apply NoDup_oget in Hin; [|by apply keys_ok_opop].
  rewrite oget_opop in Hin. by case_decide.
Qed.

(** What an authentication answers, and what the process sees after it. *)
Lemma auth_seen us ua p sid fps now mono w o w' : wf w ->
  authenticate_session digest us ua max_sessions p sid fps now mono w = (Ok o, w') ->
  match o with
  | Some pr => exists r, oget (strip sid) (view p false now mono w) = Some r /\ session_principal digest us ua r fps now = Some pr /\
      exists r', oget (strip sid) (view p false now mono w') = Some r' /\ csrf_hash r' = csrf_hash r
  | None => forall sid' r, oget sid' (view p false now mono w') = Some r -> exists fresh, oget sid' (view p fresh now mono w) = Some r
  end.
Proof.
  intros Hwf. unfold authenticate_session. destruct (String.eqb (strip sid) "").
  { unfold ret. intros [= <- <-] sid' r Hr. by exists false. }
  cbv zeta. unfold mbind_ at 1. rewrite load_view. set (w1 := (load p false now mono w).2).
  assert (wf w1) as Hwf1 by (destruct (load_spec p false now mono w Hwf) as (? & _ & _ & H & _); exact H).
  destruct (oget (strip sid) (view p false now mono w)) as [r|] eqn:Er.
  2:{ unfold ret. intros E. injection E as <- <-. intros sid' r. unfold w1. rewrite view_again. by exists false. }
  destruct (session_principal digest us ua r fps now) as [pr|] eqn:Ep.
  - unfold mbind_. destruct (load_recent p false now mono w) as (m & Hm & Hr & _ & Hc). fold w1 in Hm. case_bool_decide; unfold ret, touch, modify; intros [= <- <-];
      exists r; (split; [done|]); (split; [done|]).
    + exists r. split; [|done]. unfold w1. by rewrite view_again.
    + rewrite Hm. exists (touched r pr now). split; [|done]. set (w2 := mk_world _ _ _ _).
      rewrite (view_memory _ _ _ _ (mk_memory (m_ident m) (oset (strip sid) (touched r pr now) (m_records m)) (m_checked m))); [|by unfold w2; cbn; rewrite bool_decide_eq_true_2|done].
      cbn [m_records]. apply oget_oset_eq.
  - unfold mbind_. intros E. destruct (drop max_sessions p (strip sid) now mono w1) as [[u|x] w2] eqn:Ed; [|done]. injection E as <- <-. intros sid' r' Hr'.
    exists true. rewrite <- view_fresh_again. fold w1. eapply (drop_view p (strip sid)); [done|]. by rewrite Ed.
Qed.
Lemma drop_wf p sid now mono w : wf w -> wf (drop max_sessions p sid now mono w).2.
Proof.
  intros Hwf. destruct (load_spec p true now mono w Hwf) as (rs & Hl & Hk & Hwf1 & _). unfold drop, mbind_. rewrite Hl.
  destruct (oget sid rs) as [r|]; [|done]. apply (save_spec p (opop sid rs) now mono _ Hwf1). by apply keys_ok_opop.
Qed.
Lemma auth_refused_wf us ua p sid fps now mono w w' : wf w ->
  authenticate_session digest us ua max_sessions p sid fps now mono w = (Ok None, w') -> wf w'.
Proof.
  intros Hwf. unfold authenticate_session. destruct (String.eqb (strip sid) ""); [unfold ret; intros E; by injection E as <-|].
  cbv zeta. unfold mbind_ at 1. destruct (load_spec p false now mono w Hwf) as (rs & Hl & _ & Hwf1 & _). rewrite Hl.
  destruct (oget (strip sid) rs) as [r|]; [|unfold ret; intros E; by injection E as <-].
  destruct (session_principal digest us ua r fps now) as [pr|]; unfold mbind_; [by destruct (bool_decide _)|].
  pose proof (drop_wf p (strip sid) now mono _ Hwf1) as Hd. destruct (drop max_sessions p (strip sid) now mono _) as [[u|x] w2]; [|done].
  unfold ret. intros E. by injection E as <-.
Qed.
(** A token that passes is the one of the session the process sees. *)
Lemma verify_seen p value token now mono w w' : verify_csrf_token sign digest p value token now mono w = (Ok true, w') ->
  exists sid r, session_id_from_value sign value = Ok (Some sid) /\ strip token <> "" /\ oget sid (view p false now mono w) = Some r /\
    csrf_hash r <> "" /\ csrf_hash r = digest (strip token).
Proof.
  unfold verify_csrf_token, mbind_ at 1, of_res. destruct (session_id_from_value sign value) as [[sid|]|x]; [|done..].
  destruct (String.eqb_spec (strip token) ""); [done|]. unfold mbind_. rewrite load_view. unfold ret.
  destruct (oget sid _) as [r|] eqn:Er; [|done]. destruct (String.eqb_spec (csrf_hash r) ""); [done|].
  destruct (String.eqb_spec (csrf_hash r) (digest (strip token))) as [Heq|]; [|done]. intros _. by exists sid, r.
Qed.
(** The ids the gateway draws ([secrets.token_urlsafe]) have no dot and are long. *)
Definition plain_id (sid : string) : Prop := has_char "." sid = false /\ 16 <= len sid.
Lemma plain_own sid : plain_id (strip sid) -> session_id_from_value sign sid = Ok (Some (strip sid)).
Proof.
  intros [Hd Hl]. unfold session_id_from_value, decode_cookie. rewrite strip_idemp, Hd, orb_true_r, (proj2 (Z.leb_le _ _) Hl).
  destruct (String.eqb_spec (strip sid) "") as [E|]; [by rewrite E in Hl|done].
Qed.
End Facts.

(** ** A concrete gateway *)

Definition sample_sign (s : string) : string := "5ad1".
Definition sample_digest (s : string) : string := "d" +:+ s.
Definition ada : user := mk_user "ada" "default" ["user"] [] true "ada" "tok" false "".
Definition accounts (k : string) : option user := if String.eqb k "default:ada" then Some ada else None.
Definition no_world : world := mk_world None 0 (fun _ => None) [].
Definition ada_id : string := "u7Fq2-sessionid-000".
(** 2026-01-01 00:00:00 UTC. *)
Definition new_year : Z := 1767225600 * second.
Definition ada_session : session :=
  new_session sample_digest (to_principal ada "") (registry_credential_fingerprint sample_digest ada) ada_id "t0" 3600 new_year.
Definition ada_world : world :=
  exec (create_session sample_sign sample_digest accounts true 10 0 (to_principal ada "") ada_id "t0" 3600 None new_year 0) no_world.

Lemma no_world_wf : wf no_world.
Proof. split; [done|exact I]. Qed.
Lemma ada_session_good : good_record ada_session.
Proof. split; repeat constructor; try (by vm_compute); vm_compute; discriminate. Qed.
Lemma ada_world_wf : wf ada_world.
Proof.
  split.
  - intros [|p] m Hm; [|done]. vm_compute in Hm. injection Hm as <-.
    split; [split; [repeat constructor|repeat constructor; apply not_elem_of_nil]|by vm_compute].
  - by vm_compute.
Qed.

Lemma cookie_roundtrip_witness :
  decode_cookie sample_sign " agws_u7.Fq2.5ad1" = Ok (Some "u7.Fq2") /\
  session_id_from_value sample_sign (encode_cookie sample_sign "u7.Fq2") = Ok (Some "u7.Fq2").
Proof.
  destruct (cookie_roundtrip sample_sign " agws_u7.Fq2.5ad1" "u7.Fq2") as [H1 H2]; [by split|done|].
  split; [apply H1; by vm_compute|exact H2].
Defined.

(** Another process, that read the file before the session was made. *)
Definition ada_stale : world := exec (load 1 false (new_year - second) (- second)) no_world.
Lemma ada_stale_wf : wf ada_stale.
Proof. split; [|exact I]. intros [|[|p]] m Hm; [done| |done]. vm_compute in Hm. injection Hm as <-. split; [apply keys_ok_nil|done]. Qed.
Lemma session_lifetime_witness :
  let w' := exec (create_session sample_sign sample_digest accounts true 10 0 (to_principal ada "") ada_id "t0" 3600 None new_year 0) ada_stale in
  let answer t := fst (authenticate_session sample_digest accounts true 10 1 ada_id [] (new_year + t * second) (second + second) w') in
  is_Some (memory_of w' 1) /\ (exists who, answer 3599 = Ok (Some who) /\ holder accounts (to_principal ada "") who) /\ answer 3600 = Ok None.
Proof.
  assert (forall rs w1, load 0 true new_year 0 ada_stale = (Ok rs, w1) -> Z.of_nat (length rs) < 10) as Hlen by (by intros rs w1 [= <- _]).
  assert (in_calendar new_year) as H1 by (split; by vm_compute).
  assert (in_calendar (new_year + 3600 * second)) as H2 by (split; by vm_compute).
  assert (looks 0 1 (second + second) (snd (create_session sample_sign sample_digest accounts true 10 0 (to_principal ada "") ada_id "t0" 3600 None new_year 0 ada_stale))) as Hlook.
  { right. intros m Hm. vm_compute in Hm. injection Hm as <-. by vm_compute. }
  assert (session_credential sample_digest accounts true (to_principal ada "") = Ok (registry_credential_fingerprint sample_digest ada)) as Hc by (by vm_compute).
  split; [clear; vm_compute; by eexists|]. split.
  - destruct (session_lifetime sample_sign sample_digest 10 accounts accounts true true 0 1 (to_principal ada "")
      (registry_credential_fingerprint sample_digest ada) ada_id "t0" 3600 None new_year 0 (new_year + 3599 * second) (second + second) [] ada_stale
      ada_stale_wf Hc ada_session_good H1 H2 Hlen Hlook) as (_ & H & _).
    apply H; [by vm_compute|exact Hc|by vm_compute].
  - destruct (session_lifetime sample_sign sample_digest 10 accounts accounts true true 0 1 (to_principal ada "")
      (registry_credential_fingerprint sample_digest ada) ada_id "t0" 3600 None new_year 0 (new_year + 3600 * second) (second + second) [] ada_stale
      ada_stale_wf Hc ada_session_good H1 H2 Hlen Hlook) as (_ & _ & H & _).
    apply H. apply Z.le_refl.
Defined.

Lemma authenticate_sound_witness :
  fst (authenticate_session sample_digest accounts true 10 0 ada_id [] (new_year + 10 * second) 5 ada_world)
  = Ok (Some (to_principal ada "")) /\
  (exists r e, parse_dt (expires_at r) = Some e /\ new_year + 10 * second < e).
Proof.
  destruct (authenticate_sound sample_digest 10 accounts true 0 ada_id [] (new_year + 10 * second) 5 ada_world ada_world_wf)
    as (rs & w1 & _ & H & _).
  assert (fst (authenticate_session sample_digest accounts true 10 0 ada_id [] (new_year + 10 * second) 5 ada_world)
    = Ok (Some (to_principal ada ""))) as Ha by (clear; vm_compute; reflexivity).
  split; [exact Ha|]. destruct (H _ Ha) as (r & Hr & He & Hu & _).
  exists ada_session, (new_year + 3600 * second). clear. split; by vm_compute.
Defined.

Lemma deleted_session_stays_deleted_witness :
  let w' := fold_left (act sample_sign sample_digest 10)
    [AAuth accounts true 1 ada_id [] (new_year + 100 * second) 9; AWorker 0 (new_year + 101 * second) 9]
    (exec (delete_session sample_sign 10 0 ada_id (new_year + 99 * second) 9) ada_world) in
  oget ada_id (file_records 0 ada_world) = Some ada_session /\
  oget ada_id (file_records 0 w') = None /\
  fst (authenticate_session sample_digest accounts true 10 0 ada_id [] (new_year + 102 * second) 9 w') = Ok None.
Proof.
  intros w'. split; [clear; vm_compute; reflexivity|].
  destruct (deleted_session_stays_deleted sample_sign sample_digest 10 0 1 ada_id ada_id
    [AAuth accounts true 1 ada_id [] (new_year + 100 * second) 9; AWorker 0 (new_year + 101 * second) 9] ada_world
    (new_year + 99 * second) 9 (new_year + 102 * second) 9 accounts true []) as (Hf & Hp & _);
    [exact ada_world_wf|by vm_compute|by vm_compute|by repeat constructor|].
  split; [apply Hf|exact Hp].
Defined.

Lemma torn_write_resurrects_witness :
  let '(read, w1) := persist_read 0 ada_session new_year new_year
    (mk_world (Some (0, file_of new_year [ada_session])) 1 (fun _ => None) [(0%nat, ada_session)]) in
  let w2 := exec (delete_session sample_sign 10 1 ada_id new_year new_year) w1 in
  oget ada_id (file_records new_year w2) = None /\
  oget ada_id (file_records new_year
    (exec (persist_write 10 0 (match read with Ok x => x | Raise _ => None end) new_year new_year) w2)) = Some ada_session.
Proof.
  pose proof (torn_write_resurrects sample_sign 10 ada_session new_year (good_storable _ ada_session_good) eq_refl
    (eq_refl : is_live new_year ada_session = true) (proj1 (Z.leb_le 1 10) eq_refl)) as H.
  change (session_id ada_session) with ada_id in H. cbv zeta in H.
  destruct (persist_read 0 ada_session new_year new_year _) as [read w1]. destruct H as (_ & _ & H1 & H2).
  split; [exact H1|exact H2].
Defined.
