(* ===== verification/PyNet.v ===== *)
(** * Python's [fnmatch] and [urllib.parse]

    [fnmatch.fnmatchcase] and the parts of [urlsplit] the gateway reads: scheme,
    netloc, path, query, fragment, hostname and port, with the [ValueError]s they
    raise. The reading of a bracketed host ([ipaddress]) is an argument. Netlocs
    beyond Latin-1 are not represented; no Latin-1 character normalises to one of
    [/?#@:], so the check of [urlsplit] for them never raises. *)

From S2P Require Import Prelude PyStr PyNum.

(** ** Glob patterns *)

(** An element of a pattern: any text, any character, one of a set, a literal. *)
Inductive glob := GAny | GOne | GSet (negated : bool) (chunks : list string) | GLit (c : ascii).

(** The text up to the bracket that closes a set, and what follows. A first [!]
    and a first closing bracket belong to the set. *)
Fixpoint until_bracket (s : string) : option (string * string) :=
  match s with
  | "" => None
  | c ::s s => if Ascii.eqb c "]" then Some ("", s)
               else match until_bracket s with Some (a, b) => Some (c ::s a, b) | None => None end
  end.
Definition set_text (s : string) : option (string * string) :=
  let '(bang, s) := match s with c ::s r => if Ascii.eqb c "!" then ("!", r) else ("", s) | "" => ("", s) end in
  let '(close, s) := match s with c ::s r => if Ascii.eqb c "]" then ("]", r) else ("", s) | "" => ("", s) end in
  match until_bracket s with
  | Some (a, b) => Some (bang +:+ close +:+ a, b)
  | None => None
  end.

(** The chunks between the hyphens that make ranges: a hyphen counts from the
    second character of a chunk on, and the next one three places further. *)
Fixpoint find_hyphen (skip : nat) (s : string) : option (string * string) :=
  match s with
  | "" => None
  | c ::s s =>
      match skip with
      | S k => match find_hyphen k s with Some (a, b) => Some (c ::s a, b) | None => None end
      | O => if Ascii.eqb c "-" then Some ("", s)
             else match find_hyphen O s with Some (a, b) => Some (c ::s a, b) | None => None end
      end
  end.
Fixpoint chunks_of (fuel : nat) (skip : nat) (s : string) : list string :=
  match fuel with
  | O => [s]
  | S fuel => match find_hyphen skip s with
              | Some (a, b) => a :: chunks_of fuel 2 b
              | None => [s]
              end
  end.
(** A last chunk that is empty gives its hyphen to the one before. *)
Fixpoint close_last (l : list string) : list string :=
  match l with
  | [a; ""] => [a +:+ "-"]
  | a :: l => a :: close_last l
  | [] => []
  end.
Fixpoint last_char (s : string) : option ascii :=
  match s with "" => None | c ::s "" => Some c | _ ::s s => last_char s end.
Definition drop_last (s : string) : string := stake (String.length s - 1) s.
(** Empty ranges are dropped, from the last to the first. *)
Fixpoint drop_empty_ranges (l : list string) : list string :=
  match l with
  | [] => []
  | a :: l =>
      match drop_empty_ranges l with
      | b :: r =>
          match last_char a, b with
          | Some x, y ::s b' => if code y <? code x then (drop_last a +:+ b') :: r else a :: b :: r
          | _, _ => a :: b :: r
          end
      | [] => [a]
      end
  end.
Definition set_chunks (stuff : string) : list string :=
  if has_char "-" stuff then
    drop_empty_ranges (close_last (chunks_of (String.length stuff) (if startswith "!" stuff then 2 else 1) stuff))
  else [stuff].
Definition set_glob (stuff : string) : glob :=
  match set_chunks stuff with
  | ("!" :: l) as all => match l with [] => GOne | _ => GSet true ("" :: l) end
  | (c ::s s) :: l => if Ascii.eqb c "!" then GSet true (s :: l) else GSet false ((c ::s s) :: l)
  | l => GSet false l
  end.

Fixpoint glob_of (fuel : nat) (s : string) : list glob :=
  match fuel with
  | O => []
  | S fuel =>
      match s with
      | "" => []
      | c ::s r =>
          if Ascii.eqb c "*" then GAny :: glob_of fuel r
          else if Ascii.eqb c "?" then GOne :: glob_of fuel r
          else if Ascii.eqb c "[" then
            match set_text r with
            | Some (stuff, r) => set_glob stuff :: glob_of fuel r
            | None => GLit "[" :: glob_of fuel r
            end
          else GLit c :: glob_of fuel r
      end
  end.

(** The characters of a set: those of its chunks, and the ranges between the last
    of one and the first of the next. *)
Fixpoint in_chunks (l : list string) (c : ascii) : bool :=
  match l with
  | [] => false
  | a :: l =>
      has_char c a ||
      match last_char a, l with
      | Some x, (y ::s _) :: _ => (code x <=? code c) && (code c <=? code y)
      | _, _ => false
      end || in_chunks l c
  end.

Fixpoint glob_match (l : list glob) : string -> bool :=
  match l with
  | [] => fun s => String.eqb s ""
  | GAny :: l => fix any s := glob_match l s || match s with "" => false | _ ::s s => any s end
  | GOne :: l => fun s => match s with "" => false | _ ::s s => glob_match l s end
  | GSet neg k :: l => fun s => match s with "" => false | c ::s s => xorb neg (in_chunks k c) && glob_match l s end
  | GLit d :: l => fun s => match s with "" => false | c ::s s => Ascii.eqb c d && glob_match l s end
  end.
Definition fnmatchcase (s pattern : string) : bool := glob_match (glob_of (String.length pattern) pattern) s.

Example fnmatch_port : fnmatchcase "http://localhost:3000" "http://localhost:*" = true.
Proof. reflexivity. Qed.
Example fnmatch_sub : fnmatchcase "https://a.ngrok-free.app.evil.com" "https://*.ngrok-free.app" = false.
Proof. reflexivity. Qed.
Example fnmatch_set : map (fun s => fnmatchcase s "h[a-c!]x[!0-9]") ["hbxq"; "h!x_"; "hdxq"; "hax7"; "hax"] = [true; true; false; false; false].
Proof. reflexivity. Qed.
Example fnmatch_odd : map (fun p => fnmatchcase "a-]" p) ["a[x-]]]"; "a[a-]]"; "[b-a]-]"; "[!b-a]-]"; "a-["; "a-[]]"] = [false; true; false; true; false; true].
Proof. reflexivity. Qed.

(** ** [urlsplit] *)

Record url := mk_url { u_scheme : string; u_netloc : string; u_path : string; u_query : string; u_fragment : string }.

Definition is_alpha (c : ascii) : bool := is_alnum_ascii c && negb (is_digit c).
Definition scheme_char (c : ascii) : bool := is_alnum_ascii c || has_char c "+-.".
Definition control_or_space (c : ascii) : bool := code c <=? 32.
Definition unsafe_byte (c : ascii) : bool := (code c =? 9) || (code c =? 10) || (code c =? 13).
Fixpoint remove_chars (f : ascii -> bool) (s : string) : string :=
  match s with "" => "" | c ::s s => if f c then remove_chars f s else c ::s remove_chars f s end.
(** [_splitnetloc]: up to the first of [/?#]. *)
Fixpoint split_netloc (s : string) : string * string :=
  match s with
  | "" => ("", "")
  | c ::s r => if has_char c "/?#" then ("", s) else let '(a, b) := split_netloc r in (c ::s a, b)
  end.

Section Url.
Context (bracket_host_ok : string -> bool).

(** [_check_bracketed_netloc] of a netloc with both brackets. *)
Definition rpartition_at (s : string) : string := match rsplit1 "@" s with Some (_, b) => b | None => s end.
Definition partition (c : ascii) (s : string) : string * bool * string :=
  match split1 c s with Some (a, b) => (a, true, b) | None => (s, false, "") end.
Definition check_bracketed (netloc : string) : bool :=
  let '(before, open_, bracketed) := partition "[" (rpartition_at netloc) in
  if open_ then
    let '(hostname, _, port) := partition "]" bracketed in
    String.eqb before "" && (String.eqb port "" || startswith ":" port) && bracket_host_ok hostname
  else
    let '(hostname, _, _) := partition ":" (rpartition_at netloc) in bracket_host_ok hostname.

Definition urlsplit (s : string) : res url :=
  let s := remove_chars unsafe_byte (lstrip_by control_or_space s) in
  let '(scheme, s) :=
    match split1 ":" s with
    | Some ((c ::s _) as a, b) => if is_alpha c && forall_chars scheme_char a then (lower a, b) else ("", s)
    | _ => ("", s)
    end in
  netloc_rest <==
    (if startswith "//" s then
       let '(netloc, rest) := split_netloc (sdrop 2 s) in
       let o := has_char "[" netloc in
       let c := has_char "]" netloc in
       if negb (Bool.eqb o c) then Raise (ValueError "Invalid IPv6 URL")
       else if o && c && negb (check_bracketed netloc) then Raise (ValueError "Invalid IPv6 URL")
       else Ok (netloc, rest)
     else Ok ("", s));
  let '(netloc, s) := netloc_rest in
  let '(s, fragment) := match split1 "#" s with Some (a, b) => (a, b) | None => (s, "") end in
  let '(s, query) := match split1 "?" s with Some (a, b) => (a, b) | None => (s, "") end in
  Ok (mk_url scheme netloc s query fragment).
End Url.

(** [_hostinfo]: the host and the text of the port. *)
Definition hostinfo (u : url) : string * string :=
  let hi := rpartition_at (u_netloc u) in
  let '(_, open_, bracketed) := partition "[" hi in
  if open_ then
    let '(hostname, _, port) := partition "]" bracketed in
    let '(_, _, port) := partition ":" port in (hostname, port)
  else
    let '(hostname, _, port) := partition ":" hi in (hostname, port).
(** [hostname], the empty one for [None]. *)
Definition hostname (u : url) : string :=
  let '(h, percent, zone) := partition "%" (fst (hostinfo u)) in
  lower h +:+ (if percent then "%" else "") +:+ zone.
Definition port (u : url) : res (option Z) :=
  let p := snd (hostinfo u) in
  if String.eqb p "" then Ok None
  else match digits_val p with
       | Some n => if (0 <=? n) && (n <=? 65535) then Ok (Some n) else Raise (ValueError "Port out of range 0-65535")
       | None => Raise (ValueError "Port could not be cast to integer value")
       end.

Definition no_brackets (_ : string) : bool := false.
Example urlsplit_origin :
  urlsplit no_brackets "HTTPS://Me@Host.Example:8443" = Ok (mk_url "https" "Me@Host.Example:8443" "" "" "") /\
  hostname (mk_url "https" "Me@Host.Example:8443" "" "" "") = "host.example" /\
  port (mk_url "https" "Me@Host.Example:8443" "" "" "") = Ok (Some 8443).
Proof. repeat split. Qed.
Example urlsplit_rest : urlsplit no_brackets "http://h/p?q=1#f" = Ok (mk_url "http" "h" "/p" "q=1" "f").
Proof. reflexivity. Qed.
Example urlsplit_null : urlsplit no_brackets "null" = Ok (mk_url "" "" "null" "" "").
Proof. reflexivity. Qed.
