(* ===== verification/Middleware.v ===== *)
(** * The security middleware

    [security/gateway_security.py], [GatewaySecurityMiddleware]: what a request
    to the gateway has to pass before the application sees it. The addresses and
    origins, the credentials with their cache, the cross-site token of browser
    sessions, the route table, the size of a body, and the two pools of
    connections. The audit log and the headers added to an answer are left out.

    Of the request's surroundings, [env] is what the gateway reads at that moment:
    the clocks, the accounts' registry, the stored network settings. *)

From S2P Require Import Prelude PyStr PyVal PyNum OrdDict IsoTime PyNet Principal Authorization Lockout Sessions.

(** ** Configuration, request, surroundings *)

(** [GatewayAuthPolicy]: the fields a request meets. *)
Record policy := mk_auth_policy {
  enabled : bool;
  tokens : list string;
  user_auth_enabled : bool;
  protect_read_endpoints : bool;
  protect_write_endpoints : bool;
  dev_reads_on_loopback : bool;
  allowed_origins : list string;
  max_body_bytes : Z;
  max_upload_body_bytes : Z;
  max_attachment_bytes : Z;
  max_bundle_bytes : Z;
  trust_proxy : bool;
}.

(** The ASGI scope of a request. A header value that is not UTF-8 is [None]. *)
Record http_request := mk_http {
  h_path : string;
  h_method : string;
  h_scheme : string;
  h_headers : list (string * option string);
  h_client : option string;
  h_port : option Z;
  h_query : string;
}.
(** [_header]: the first header of that name. *)
Definition header (r : http_request) (name : string) : option string :=
  match List.find (fun kv => String.eqb (fst kv) name) (h_headers r) with Some (_, v) => v | None => None end.
Definition method_of (r : http_request) : string := upper (if String.eqb (h_method r) "" then "GET" else h_method r).
Definition is_read (r : http_request) : bool := bool_decide (method_of r ∈ ["GET"; "HEAD"]).
Definition is_write (r : http_request) : bool := bool_decide (method_of r ∈ ["POST"; "PUT"; "PATCH"; "DELETE"]).

(** A named API key and its account. *)
Record named_key := mk_key { k_principal : GatewayPrincipal; k_active : bool; k_label : string; k_fingerprint : string }.

Record env := mk_env {
  e_now : Z;
  e_now' : Z;
  e_mono : Z;
  e_users : string -> option user;
  e_user_auth : bool;
  e_registry_id : string;
  e_registry_auth : string -> res (option GatewayPrincipal);
  e_key_owner : string -> res (option named_key);
  (** [live_reverse_proxy]: the stored origins and the trust; [None] when the
      settings cannot be read. *)
  e_live : option (list string * bool);
  (** [detected_hosts]: the hosts and the https hosts. *)
  e_detected : res (list string * list string);
}.

(** The middleware's own state, and the sessions it reads. *)
Record mw := mk_mw {
  m_lockouts : tracker_state;
  m_cache : list (string * (string * GatewayPrincipal));
  m_keys : list (string * (string * named_key));
  m_ephemeral : list (string * (string * option GatewayPrincipal));
  m_sessions : world;
  m_free : Z;
  m_sse_free : Z;
}.
Definition put_lockouts (l : tracker_state) (s : mw) : mw := mk_mw l (m_cache s) (m_keys s) (m_ephemeral s) (m_sessions s) (m_free s) (m_sse_free s).
Definition put_cache (c : list (string * (string * GatewayPrincipal))) (s : mw) : mw := mk_mw (m_lockouts s) c (m_keys s) (m_ephemeral s) (m_sessions s) (m_free s) (m_sse_free s).
Definition put_keys (k : list (string * (string * named_key))) (s : mw) : mw := mk_mw (m_lockouts s) (m_cache s) k (m_ephemeral s) (m_sessions s) (m_free s) (m_sse_free s).
Definition put_ephemeral (e : list (string * (string * option GatewayPrincipal))) (s : mw) : mw := mk_mw (m_lockouts s) (m_cache s) (m_keys s) e (m_sessions s) (m_free s) (m_sse_free s).
Definition put_sessions (w : world) (s : mw) : mw := mk_mw (m_lockouts s) (m_cache s) (m_keys s) (m_ephemeral s) w (m_free s) (m_sse_free s).
Definition put_pools (f sse : Z) (s : mw) : mw := mk_mw (m_lockouts s) (m_cache s) (m_keys s) (m_ephemeral s) (m_sessions s) f sse.

Definition on_lockouts {A} (m : M tracker_state A) : M mw A := fun s => let '(r, l) := m (m_lockouts s) in (r, put_lockouts l s).
Definition on_sessions {A} (m : M world A) : M mw A := fun s => let '(r, w) := m (m_sessions s) in (r, put_sessions w s).

(** ** Answers *)

Inductive denial :=
  | OriginRefused
  | NoTokenConfigured
  | EndpointOnlyKey
  | LockedOut (wait : Z)
  | Unauthorized
  | CsrfRequired
  | AdminRequired (reason_code resource action : string)
  | TooLarge (size limit : Z)
  | Busy
  | ApiOriginRefused
  | ApiLockedOut (wait : Z)
  | Internal (e : exn).
Definition status_of (d : denial) : Z :=
  match d with
  | OriginRefused | ApiOriginRefused | CsrfRequired | AdminRequired _ _ _ => 403
  | NoTokenConfigured => 503
  | EndpointOnlyKey | Unauthorized => 401
  | LockedOut _ | ApiLockedOut _ | Busy => 429
  | TooLarge _ _ => 413
  | Internal _ => 500
  end.
(** The [Retry-After] of a denial. *)
Definition retry_after (d : denial) : option Z :=
  match d with LockedOut n | ApiLockedOut n => Some n | Busy => Some 1 | _ => None end.

Inductive verdict :=
  | Denied (d : denial)
  (** The application is called with the scope as it came. *)
  | Through
  (** The application runs for a principal and a session, over the body read
      before (when one was), from one of the two pools. *)
  | Run (principal : option GatewayPrincipal) (sid : string) (body : option string) (sse : bool)
  (** [/v1]: the application runs for the account of a key. *)
  | RunApi (principal : option GatewayPrincipal) (key : option named_key) (counted : bool).

(** The configuration, and what the middleware calls outside the gateway:
    [_sign] and [sha256]; [ipaddress.ip_address(h).is_loopback], [None] for its
    [ValueError]; the hosts [urlsplit] accepts between brackets;
    [parse_qs(query)["access_token"]]; the session cookie of a cookie header
    ([SimpleCookie]). [process] is the process of the gateway among those that
    share the sessions file. *)
Class Setup := {
  sign : string -> string;
  digest : string -> string;
  max_sessions : Z;
  process : nat;
  ip_loopback : string -> option bool;
  bracket_host_ok : string -> bool;
  access_tokens : string -> res (list string);
  cookie_value : string -> res (option string);
  session_header : string;
  csrf_header : string;
  pol : policy;
  tr : tracker;
}.

Section Middleware.
Context {C : Setup}.

(** ** Addresses *)

Definition unmapped (h : string) : string := if startswith "::ffff:" h then sdrop 7 h else h.
(** [_is_loopback_address], [_is_loopback_ip]. *)
Definition is_loopback_address (host : string) : bool :=
  default false (ip_loopback (unmapped (lower (strip host)))).
Definition is_loopback_ip (host : string) : bool :=
  let h := lower (strip host) in
  bool_decide (h ∈ ["localhost"; "testclient"]) || default false (ip_loopback (unmapped h)).

Definition socket_peer_ip (r : http_request) : string := default "unknown" (h_client r).
Definition effective_trust_proxy (e : env) : bool :=
  match e_live e with None => trust_proxy pol | Some (_, trust) => trust end.
(** [_client_ip]. *)
Definition client_ip (e : env) (r : http_request) : string :=
  let forwarded :=
    match header r "x-forwarded-for" with
    | Some xff =>
        if negb (String.eqb xff "") && (is_loopback_address (socket_peer_ip r) || effective_trust_proxy e)
        then strip (hd "" (split_char "," xff)) else ""
    | None => ""
    end in
  if String.eqb forwarded "" then socket_peer_ip r else forwarded.

(** ** Origins *)

Definition effective_allowed_origins (e : env) : list string :=
  match e_live e with
  | Some (extra, _) => allowed_origins pol ++ List.filter (fun o => negb (bool_decide (o ∈ allowed_origins pol))) extra
  | None => allowed_origins pol
  end.
Definition origin_matches (o p : string) : bool :=
  let p := strip p in
  if String.eqb p "" then false
  else if String.eqb p "*" then true
  else if exists_char (fun c => has_char c "*?[") p then fnmatchcase o p
  else String.eqb o p.
(** [_origin_allowed]. *)
Definition origin_allowed (e : env) (origin : string) : bool :=
  let o := strip origin in
  String.eqb o "" || existsb (origin_matches o) (effective_allowed_origins e).

Definition norm_netloc (n : string) : string :=
  let n := lower n in if endswith ":443" n then stake (String.length n - 4) n else n.
(** The origin carries an address only: no path, query or fragment. *)
Definition bare (u : url) : bool := String.eqb (u_path u) "" && String.eqb (u_query u) "" && String.eqb (u_fragment u) "".
(** [_https_same_origin]. *)
Definition https_same_origin (r : http_request) (origin : string) : bool :=
  bool_decide (lower (h_scheme r) ∈ ["https"; "wss"]) &&
  match urlsplit bracket_host_ok (strip origin) with
  | Raise _ => false
  | Ok o =>
      String.eqb (u_scheme o) "https" && negb (String.eqb (u_netloc o) "") && bare o &&
      let host := lower (strip (default "" (header r "host"))) in
      negb (String.eqb host "") && String.eqb (norm_netloc (u_netloc o)) (norm_netloc host)
  end.

(** [port or d]. *)
Definition port_or (p : option Z) (d : Z) : Z := match p with Some n => if n =? 0 then d else n | None => d end.
(** [_detected_origin]. *)
Definition detected_origin (e : env) (r : http_request) (origin : string) : bool :=
  match urlsplit bracket_host_ok (strip origin) with
  | Raise _ => false
  | Ok o =>
      match port o with
      | Raise _ => false
      | Ok prt =>
          let host := lower (hostname o) in
          negb (String.eqb host "") && bare o &&
          match e_detected e with
          | Raise _ => false
          | Ok (hosts, https_hosts) =>
              if String.eqb (u_scheme o) "http" then
                bool_decide (host ∈ hosts) && match h_port r with Some n => port_or prt 80 =? n | None => false end
              else if String.eqb (u_scheme o) "https" then bool_decide (host ∈ https_hosts) && (port_or prt 443 =? 443)
              else false
          end
      end
  end.
Definition origin_accepted (e : env) (r : http_request) (origin : string) : bool :=
  origin_allowed e origin || https_same_origin r origin || detected_origin e r origin.

(** ** Credentials *)

(** [register_ephemeral_loopback_token], [revoke_ephemeral_loopback_token]. *)
Definition register_ephemeral (token label : string) (principal : option GatewayPrincipal) : M mw unit :=
  let tok := strip token in
  if len tok <? 16 then raise (ValueError "ephemeral loopback tokens must be at least 16 characters")
  else modify (fun s => put_ephemeral (oset tok (if String.eqb label "" then "ephemeral" else label, principal) (m_ephemeral s)) s).
Definition revoke_ephemeral (token : string) : M mw unit :=
  modify (fun s => put_ephemeral (opop (strip token) (m_ephemeral s)) s).

(** [ephemeral_loopback_identity]. *)
Definition ephemeral_identity (held : list (string * (string * option GatewayPrincipal))) (token peer : string) :
    res (option (string * option GatewayPrincipal)) :=
  if String.eqb token "" || negb (is_loopback_ip peer) then Ok None
  else rfold (fun found kv => same <== compare_digest token (fst kv); Ok (if same : bool then Some (snd kv) else found)) None held.

(** [_token_valid]: the comparison stops at the first equal token. *)
Fixpoint token_valid (l : list string) (token : string) : res bool :=
  match l with
  | [] => Ok false
  | t :: l => same <== compare_digest token t; if same : bool then Ok true else token_valid l token
  end.

Definition AUTH_CACHE_MAX : Z := 256.
Definition with_identity (fp source : string) (p : GatewayPrincipal) : GatewayPrincipal :=
  mk_principal (user_id p) (tenant_id p) (roles p) (Principal.scopes p) fp (runtime_id p) source.
Definition fingerprint_of (token : string) : string := stake 12 (digest token).
Definition accounts_on (e : env) : bool := user_auth_enabled pol || e_user_auth e.

Definition remember {A} (key : string) (v : A) (cache : list (string * A)) : list (string * A) :=
  oset key v (if AUTH_CACHE_MAX <=? Z.of_nat (length cache) then [] else cache).

(** The registry, then the operator's tokens; a success is remembered. *)
Definition check_token (e : env) (token key registry_id : string) : M mw (option GatewayPrincipal) :=
  let known := if accounts_on e then match e_registry_auth e token with Ok p => p | Raise _ => None end else None in
  found <- (match known with
            | Some p => ret (Some p)
            | None =>
                ok <- of_res (token_valid (tokens pol) token) ;;
                ret (if ok : bool then Some (local_admin_principal (fingerprint_of token)) else None)
            end) ;;
  match found with
  | Some p => modify (fun s => put_cache (remember key (registry_id, p) (m_cache s)) s) ;;; ret (Some p)
  | None => ret None
  end.

(** [_authenticate_token]. *)
Definition authenticate_token (e : env) (token peer : string) : M mw (option GatewayPrincipal) :=
  if String.eqb token "" then ret None
  else
    s <- get ;;
    found <- of_res (ephemeral_identity (m_ephemeral s) token peer) ;;
    match found with
    | Some (label, Some bound) => ret (Some (with_identity (fingerprint_of token) ("loopback-ephemeral:" +:+ label) bound))
    | Some (_, None) =>
        ret (Some (with_identity (fingerprint_of token) "loopback-ephemeral:desktop-tray" (local_admin_principal (fingerprint_of token))))
    | None =>
        let key := digest token in
        let registry_id := if accounts_on e then e_registry_id e else "no-user-auth" in
        match oget key (m_cache s) with
        | Some (id, p) => if String.eqb id registry_id then ret (Some p) else check_token e token key registry_id
        | None => check_token e token key registry_id
        end
    end.

(** [_openai_key_owner]. *)
Definition openai_key_owner (e : env) (token : string) : M mw (option named_key) :=
  if String.eqb token "" || String.eqb (e_registry_id e) "absent" then ret None
  else
    s <- get ;;
    let key := digest token in
    let look := match e_key_owner e token with
                | Ok (Some k) => modify (fun s => put_keys (remember key (e_registry_id e, k) (m_keys s)) s) ;;; ret (Some k)
                | _ => ret None
                end in
    match oget key (m_keys s) with
    | Some (id, k) => if String.eqb id (e_registry_id e) then ret (Some k) else look
    | None => look
    end.

(** The session of a header's value or of a cookie header. *)
Definition legacy_fingerprints : list string :=
  map fingerprint_of (List.filter (fun t => negb (String.eqb (strip t) "")) (tokens pol)).
Definition session_of (e : env) (sid : option string) : M mw (option (GatewayPrincipal * string)) :=
  match sid with
  | None => ret None
  | Some sid =>
      p <- on_sessions (authenticate_session digest (e_users e) (e_user_auth e) max_sessions process sid legacy_fingerprints (e_now e) (e_mono e)) ;;
      ret (match p with Some p => Some (p, sid) | None => None end)
  end.
(** [gateway_session_id_from_cookie_header]. *)
Definition cookie_session_id (cookie : option string) : option string :=
  match cookie with
  | None => None
  | Some c =>
      if String.eqb c "" then None
      else match cookie_value c with
           | Ok (Some v) => match session_id_from_value sign v with Ok s => s | Raise _ => None end
           | _ => None
           end
  end.
Definition authenticate_session_header (e : env) (value : option string) : M mw (option (GatewayPrincipal * string)) :=
  sid <- of_res (session_id_from_value sign (default "" value)) ;; session_of e sid.
Definition authenticate_session_cookie (e : env) (cookie : option string) : M mw (option (GatewayPrincipal * string)) :=
  session_of e (cookie_session_id cookie).

(** ** Paths that need no credential *)

(** [_signed_webhook_path]. *)
Definition signed_webhook_path (path method : string) : bool :=
  let p := rstrip_by (Ascii.eqb "/") path in
  let prefix := "/api/gateway/triggers/webhooks/" in
  let rest := sdrop (String.length prefix) p in
  String.eqb method "POST" && startswith prefix p && negb (has_char "/" rest) && negb (String.eqb rest "").
(** [_public_auth_path]. *)
Definition public_auth_path (path method : string) : bool :=
  let p := rstrip_by (Ascii.eqb "/") path in
  String.eqb method "POST" && bool_decide (p ∈ ["/api/gateway/session/login"; "/api/gateway/session/claim"]) ||
  String.eqb method "POST" && bool_decide (p ∈ ["/api/gateway/session/recovery/request"; "/api/gateway/session/recovery/redeem"]) ||
  String.eqb p "/api/gateway/session/onboarding" && bool_decide (method ∈ ["GET"; "HEAD"; "POST"]) ||
  bool_decide (method ∈ ["GET"; "HEAD"]) && String.eqb p "/api/gateway/session/recovery" ||
  String.eqb method "POST" && String.eqb p "/api/gateway/apps/desktop-handover" ||
  bool_decide (method ∈ ["GET"; "HEAD"]) && String.eqb p "/api/gateway/about" ||
  signed_webhook_path p method.

(** Does the request need a credential? *)
Definition dev_read (e : env) (r : http_request) : bool := dev_reads_on_loopback pol && is_loopback_ip (client_ip e r).
Definition auth_required (e : env) (r : http_request) : bool :=
  let public := public_auth_path (h_path r) (method_of r) in
  is_write r && protect_write_endpoints pol && negb public ||
  is_read r && protect_read_endpoints pol && negb public && negb (dev_read e r).

(** The bearer token of the header, else, on a read, of the query. *)
Definition bearer (auth : string) : string :=
  if startswith "bearer " (lower auth) then match split1 " " auth with Some (_, t) => strip t | None => "" end else "".
Definition presented_token (r : http_request) : string :=
  let t := bearer (default "" (header r "authorization")) in
  if String.eqb t "" && is_read r then
    match access_tokens (h_query r) with Ok (v :: _) => strip v | _ => "" end
  else t.
Definition presented_credential (r : http_request) : bool :=
  negb (String.eqb (presented_token r) "") ||
  negb (String.eqb (default "" (header r session_header)) "") ||
  match cookie_session_id (header r "cookie") with Some _ => true | None => false end.

(** ** Bodies *)

Definition upload_cap (path : string) : option Z :=
  let p := rstrip_by (Ascii.eqb "/") path in
  if endswith "/attachments/upload" p then Some (max_attachment_bytes pol)
  else if endswith "/bundles/upload" p then Some (max_bundle_bytes pol)
  else if endswith "/voice/clones" p then Some (25 * 1024 * 1024)
  else None.
Definition body_limit (path : string) : Z :=
  match upload_cap path with
  | None => max_body_bytes pol
  | Some cap =>
      let limit := Z.max 0 (cap + 2 * 1024 * 1024) in
      if 0 <? max_upload_body_bytes pol then Z.min limit (max_upload_body_bytes pol) else limit
  end.

(** What [receive] answers: a part of the body and whether more follows, or
    another message ([http.disconnect]). *)
Inductive message := Part (body : string) (more : bool) | OtherMessage.
(** The loop that reads a body without a declared length: the [n]-th call answers
    [receive n]. [None] when the fuel runs out. *)
Fixpoint read_body (fuel : nat) (limit : Z) (receive : nat -> message) (n : nat) (chunks : string) : option (string + Z) :=
  match fuel with
  | O => None
  | S fuel =>
      match receive n with
      | OtherMessage => read_body fuel limit receive (S n) chunks
      | Part body more =>
          let chunks := chunks +:+ body in
          if negb (String.eqb body "") && (limit <? len chunks) then Some (inr (len chunks))
          else if more then read_body fuel limit receive (S n) chunks
          else Some (inl chunks)
      end
  end.

(** The size check of a write: a denial, or the body when it was read. *)
Definition check_body (fuel : nat) (r : http_request) (receive : nat -> message) : option (denial + option string) :=
  let limit := body_limit (h_path r) in
  if is_write r && (0 <? limit) then
    match header r "content-length" with
    | Some cl =>
        Some (match int_of_str cl with
              | Some n => if limit <? n then inl (TooLarge n limit) else inr None
              | None => inr None
              end)
    | None =>
        match read_body fuel limit receive 0 "" with
        | Some (inl body) => Some (inr (Some body))
        | Some (inr size) => Some (inl (TooLarge size limit))
        | None => None
        end
    end
  else Some (inr None).

(** ** The decision *)

(** The answer to a refused credential. *)
Definition reject_credential (e : env) (r : http_request) : M mw denial :=
  if presented_credential r then
    wait <- on_lockouts (reject_invalid tr (client_ip e r) (e_now e) (e_now' e)) ;;
    ret (match wait with Some n => LockedOut n | None => Unauthorized end)
  else ret Unauthorized.

(** Who asks: a denial, or the principal, the session and whether the session
    authenticated it. *)
Definition who := (option GatewayPrincipal * string * bool)%type.
Definition credential (e : env) (r : http_request) : M mw (option (GatewayPrincipal * string * bool)) :=
  let token := presented_token r in
  if String.eqb token "" then
    s <- authenticate_session_header e (header r session_header) ;;
    s <- (match s with Some _ => ret s | None => authenticate_session_cookie e (header r "cookie") end) ;;
    ret (match s with Some (p, sid) => Some (p, sid, true) | None => None end)
  else
    p <- authenticate_token e token (socket_peer_ip r) ;;
    ret (match p with Some p => Some (p, "", false) | None => None end).
Definition identify (e : env) (r : http_request) : M mw (denial + who) :=
  if auth_required e r then
    if bool_decide (tokens pol = []) && negb (accounts_on e) then ret (inl NoTokenConfigured)
    else
      let token := presented_token r in
      found <- credential e r ;;
      match found with
      | Some (p, sid, by_session) => on_lockouts (record_success (client_ip e r)) ;;; ret (inr (Some p, sid, by_session))
      | None =>
          owner <- (if String.eqb token "" then ret None else openai_key_owner e token) ;;
          match owner with
          | Some _ => ret (inl EndpointOnlyKey)
          | None => d <- reject_credential e r ;; ret (inl d)
          end
      end
  else
    ret (inr (if public_auth_path (h_path r) (method_of r) then None
              else if is_read r && dev_read e r then Some local_readonly_principal
              else Some (local_admin_principal ""), "", false)).

(** The pool of a path. *)
Definition is_sse (path : string) : bool :=
  endswith "/ledger/stream" path || endswith "/view/stream" path || endswith "/voice/tts/stream" path.
Definition acquire (sse : bool) : M mw bool :=
  s <- get ;;
  if 0 <? (if sse then m_sse_free s else m_free s) then
    modify (fun s => if sse then put_pools (m_free s) (m_sse_free s - 1) s else put_pools (m_free s - 1) (m_sse_free s) s) ;;;
    ret true
  else ret false.
Definition release (sse : bool) (s : mw) : mw :=
  if sse then put_pools (m_free s) (m_sse_free s + 1) s else put_pools (m_free s + 1) (m_sse_free s) s.

(** The denial of the route table. *)
Definition route_denial (principal : option GatewayPrincipal) (path method : string) : option denial :=
  if route_admitted principal path method then None
  else match gateway_route_authorization_requirement path method with
       | Some q => Some (AdminRequired (let c := r_reason_code q in if String.eqb c "" then "admin_required" else c)
                          (let c := r_resource q in if String.eqb c "" then "gateway" else c) (r_action q))
       | None => None
       end.

(** The guarded part of [__call__], up to the call of the application; [None]
    when the reading of the body does not end within the fuel. *)
Definition origin_refused (e : env) (r : http_request) : bool :=
  match header r "origin" with
  | Some o => negb (signed_webhook_path (h_path r) (method_of r)) && negb (origin_accepted e r o)
  | None => false
  end.
Definition csrf_passed (e : env) (r : http_request) (sid : string) (by_session : bool) : M mw bool :=
  if by_session && is_write r then
    on_sessions (verify_csrf_token sign digest process sid (default "" (header r csrf_header)) (e_now e) (e_mono e))
  else ret true.
Definition guarded (fuel : nat) (e : env) (r : http_request) (receive : nat -> message) : M mw (option verdict) :=
  if origin_refused e r then ret (Some (Denied OriginRefused))
  else if String.eqb (method_of r) "OPTIONS" then ret (Some Through)
  else
    who <- identify e r ;;
    match who with
    | inl d => ret (Some (Denied d))
    | inr (p, sid, by_session) =>
        ok <- csrf_passed e r sid by_session ;;
        if negb ok then ret (Some (Denied CsrfRequired))
        else
          match route_denial p (h_path r) (method_of r) with
          | Some d => ret (Some (Denied d))
          | None =>
              match check_body fuel r receive with
              | None => ret None
              | Some (inl d) => ret (Some (Denied d))
              | Some (inr body) =>
                  got <- acquire (is_sse (h_path r)) ;;
                  ret (Some (if got : bool then Run p sid body (is_sse (h_path r)) else Denied Busy))
              end
          end
    end.

(** [_serve_openai_api], before the application runs and after it answered. *)
Definition openai_admit (e : env) (r : http_request) : M mw (option verdict) :=
  let token := bearer (default "" (header r "authorization")) in
  named <- (if String.eqb token "" then ret None else openai_key_owner e token) ;;
  principal <- (match named with
                | Some k => ret (if k_active k then Some (with_identity (k_fingerprint k) "openai-key" (k_principal k)) else None)
                | None => if String.eqb token "" then ret None else authenticate_token e token (socket_peer_ip r)
                end) ;;
  let counted := negb (String.eqb token "") && negb (bool_decide (is_Some principal)) && negb (bool_decide (is_Some named)) in
  wait <- (if counted then on_lockouts (check_locked tr (client_ip e r) (e_now e)) else ret None) ;;
  match wait with
  | Some n => if n =? 0 then ret (Some (RunApi principal named counted)) else ret (Some (Denied (ApiLockedOut n)))
  | None => ret (Some (RunApi principal named counted))
  end.
Definition openai_finish (e : env) (r : http_request) (principal : option GatewayPrincipal) (counted : bool) (status : Z) : M mw unit :=
  if counted && (status =? 401) then on_lockouts (record_failure tr (client_ip e r) (e_now' e)) ;;; ret tt
  else match principal with
       | Some _ => on_lockouts (record_success (client_ip e r))
       | None => ret tt
       end.

(** [__call__] of an http request. An exception of the guarded part is answered
    with a 500; one of [/v1] leaves the middleware. *)
Definition open_api_path (path : string) : bool := startswith "/core/" path || String.eqb path "/v1" || startswith "/v1/" path.
Definition call (fuel : nat) (e : env) (r : http_request) (receive : nat -> message) : M mw (option verdict) :=
  let path := h_path r in
  if open_api_path path then
    let keyed := startswith "bearer " (lower (default "" (header r "authorization"))) in
    let refused := match header r "origin" with Some o => negb keyed && negb (origin_accepted e r o) | None => false end in
    if refused then ret (Some (Denied (if startswith "/core/" path then OriginRefused else ApiOriginRefused)))
    else if startswith "/core/" path then ret (Some Through)
    else openai_admit e r
  else if negb (startswith "/api/gateway" path) then ret (Some Through)
  else if negb (enabled pol) then ret (Some Through)
  else try_ (guarded fuel e r receive) (fun x => ret (Some (Denied (Internal x)))).
End Middleware.
