(* ===== verification/MiddlewareFacts.v ===== *)
(** * The security middleware, correctness

    What a request that reaches the application has shown; whom the lockout can
    and cannot refuse; the verified-token cache against the check it replaces;
    bodies within their limit; and the requests that are let in, answered or held
    otherwise than the code says. *)

From S2P Require Import Prelude PyStr PyVal PyNum OrdDict IsoTime PyNet Principal Authorization Lockout Sessions SessionFacts Middleware.

Create HintDb quiet.

Section Facts.
Context {C : Setup}.
Implicit Types (e : env) (r : http_request) (s : mw).

(** ** Reading a computation backwards *)

Lemma bind_Ok {S A B} (m : M S A) (f : A -> M S B) (s0 : S) (b : B) (s2 : S) :
  mbind_ m f s0 = (Ok b, s2) -> exists a (s1 : S), m s0 = (Ok a, s1) /\ f a s1 = (Ok b, s2).
Proof. unfold mbind_. destruct (m s0) as [[a|x] s1]; [by eauto|done]. Qed.

Lemma bind_match {S A B} (m : M S A) (f : A -> M S B) (s0 : S) :
  mbind_ m f s0 = match m s0 with (Ok a, s1) => f a s1 | (Raise x, s1) => (Raise x, s1) end.
Proof. done. Qed.

Lemma on_lockouts_Ok {A} (m : M tracker_state A) s a s' :
  on_lockouts m s = (Ok a, s') -> fst (m (m_lockouts s)) = Ok a /\ s' = put_lockouts (snd (m (m_lockouts s))) s.
Proof. unfold on_lockouts. destruct (m (m_lockouts s)). by intros [= -> <-]. Qed.
Lemma on_sessions_Ok {A} (m : M world A) s a s' :
  on_sessions m s = (Ok a, s') -> fst (m (m_sessions s)) = Ok a /\ s' = put_sessions (snd (m (m_sessions s))) s.
Proof. unfold on_sessions. destruct (m (m_sessions s)). by intros [= -> <-]. Qed.

(** ** Bodies *)

(** Messages of which the [k]-th is the last part. *)
Definition parts (receive : nat -> message) (k : nat) (bodies : nat -> string) : Prop :=
  (forall n, (n < k)%nat -> receive n = Part (bodies n) true) /\ receive k = Part (bodies k) false.
Fixpoint upto (bodies : nat -> string) (k : nat) : string :=
  match k with O => "" | S k => upto bodies k +:+ bodies k end.

Lemma len_app a b : len (a +:+ b) = len a + len b.
Proof. unfold len. induction a as [|x a IH]; [done|]. rewrite scons_app. simpl. lia. Qed.

Lemma read_body_parts fuel limit receive k bodies n :
  parts receive k bodies -> (n <= k)%nat -> (k - n < fuel)%nat -> len (upto bodies n) <= limit ->
  exists o, read_body fuel limit receive n (upto bodies n) = Some o /\
    match o with
    | inl body => body = upto bodies (S k) /\ len body <= limit
    | inr size => limit < size <= len (upto bodies (S k))
    end.
Proof.
  intros [Hp Hk]. revert n. induction fuel as [|fuel IH]; intros n Hn Hf Hl; [lia|].
  assert (forall j m, (j <= m)%nat -> len (upto bodies j) <= len (upto bodies m)) as Hmono.
  { intros j m. induction 1; [lia|]. cbn [upto]. rewrite len_app. unfold len in *. lia. }
  cbn [read_body]. change (upto bodies n +:+ bodies n) with (upto bodies (S n)) in *.
  assert (limit < len (upto bodies (S n)) \/ len (upto bodies (S n)) <= limit) as Hcases by lia.
  destruct (Nat.lt_ge_cases n k) as [Hlt|Hge].
  - rewrite Hp by done. change (upto bodies n +:+ bodies n) with (upto bodies (S n)).
    destruct (negb (String.eqb (bodies n) "") && (limit <? len (upto bodies (S n)))) eqn:E.
    + bool_to_prop. eexists. split; [done|]. split; [done|]. apply Hmono. lia.
    + apply IH; [lia|lia|]. apply andb_false_iff in E as [E|E]; bool_to_prop; [|done].
      cbn [upto]. by rewrite E, sapp_nil.
  - assert (n = k) as -> by lia. rewrite Hk. change (upto bodies k +:+ bodies k) with (upto bodies (S k)).
    destruct (negb (String.eqb (bodies k) "") && (limit <? len (upto bodies (S k)))) eqn:E.
    + bool_to_prop. eexists. split; [done|]. simpl. done.
    + eexists. split; [done|]. split; [done|]. apply andb_false_iff in E as [E|E]; bool_to_prop; [|done].
      cbn [upto]. by rewrite E, sapp_nil.
Qed.

(** The body of a write that declares no length is read to its end or refused:
    when the client sends it in full, the loop ends within one step per part, with
    the whole body when it is within the limit, and otherwise with a refusal that
    names a size over the limit. *)
Theorem body_read_or_refused (limit : Z) receive k bodies fuel :
  parts receive k bodies -> (k < fuel)%nat -> 0 <= limit ->
  exists o, read_body fuel limit receive 0 "" = Some o /\
    match o with
    | inl body => body = upto bodies (S k) /\ len body <= limit
    | inr size => limit < size <= len (upto bodies (S k))
    end.
Proof. intros Hp Hf Hl. apply (read_body_parts fuel limit receive k bodies 0 Hp); simpl; unfold len; simpl; lia. Qed.

(** The client leaves before its last part: from then on every call answers that
    it left. *)
Definition leaves (receive : nat -> message) (k : nat) (bodies : nat -> string) : Prop :=
  (forall n, (n < k)%nat -> receive n = Part (bodies n) true) /\ forall n, (k <= n)%nat -> receive n = OtherMessage.

Lemma read_body_spins fuel limit receive n chunks :
  (forall m, (n <= m)%nat -> receive m = OtherMessage) -> read_body fuel limit receive n chunks = None.
Proof.
  revert n chunks. induction fuel as [|fuel IH]; intros n chunks Hm; [done|]. cbn [read_body]. rewrite Hm by lia. apply IH. intros. apply Hm. lia.
Qed.

Lemma read_body_leaves fuel limit receive k bodies n :
  leaves receive k bodies -> (n <= k)%nat -> len (upto bodies k) <= limit ->
  read_body fuel limit receive n (upto bodies n) = None.
Proof.
  intros [Hp Hk] Hn Hl. revert n Hn. induction fuel as [|fuel IH]; intros n Hn; [done|].
  destruct (Nat.lt_ge_cases n k) as [Hlt|Hge]; [|apply read_body_spins; intros; apply Hk; lia].
  cbn [read_body]. rewrite Hp by done. change (upto bodies n +:+ bodies n) with (upto bodies (S n)).
  assert (len (upto bodies (S n)) <= limit) as Hle.
  { etrans; [|exact Hl]. clear -Hlt. induction Hlt; [lia|]. cbn [upto] in *. rewrite (len_app (upto bodies m)). unfold len in *. lia. }
  rewrite (proj2 (Z.ltb_ge _ _) Hle), andb_false_r. by apply IH.
Qed.

(** A client that leaves during a body without a declared length is never
    noticed: with the parts sent within the limit, the loop asks for the next
    message for ever, and it answers at once each time. No credential is needed on
    a public path. *)
Theorem disconnect_never_ends r receive k bodies :
  leaves receive k bodies -> is_write r = true -> header r "content-length" = None ->
  0 < body_limit (h_path r) -> len (upto bodies k) <= body_limit (h_path r) ->
  forall fuel, check_body fuel r receive = None.
Proof.
  intros Hlv Hw Hc Hl Hlen fuel. unfold check_body. rewrite Hw, Hc, (proj2 (Z.ltb_lt _ _) Hl). cbn [andb].
  pose proof (read_body_leaves fuel _ _ k bodies 0 Hlv (Nat.le_0_l _) Hlen) as Hr. cbn [upto] in Hr. by rewrite Hr.
Qed.

(** ** The lockout *)

(** The locks are looked at and counted only for a presented credential that
    nothing accepts; an accepted one forgets the address's failures. *)
Lemma reject_credential_quiet e r s d s' :
  presented_credential r = false -> reject_credential e r s = (Ok d, s') -> d = Unauthorized /\ s' = s.
Proof. intros Hp. unfold reject_credential. rewrite Hp. by intros [= <- <-]. Qed.
Lemma reject_credential_denial e r s d s' :
  reject_credential e r s = (Ok d, s') -> d = Unauthorized \/ exists n, d = LockedOut n /\ 0 < n /\ presented_credential r = true.
Proof.
  unfold reject_credential. destruct (presented_credential r); [|by intros [= <- _]; left].
  intros (w & s1 & Hw & Hd)%bind_Ok. apply on_lockouts_Ok in Hw as [Hw _]. injection Hd as <- _.
  destruct w as [n|]; [|by left]. right. exists n. split; [done|]. split; [|done].
  unfold reject_invalid in Hw. destruct (mbind_ _ _ _) as [x l] eqn:E. simpl in Hw. subst x.
  apply bind_Ok in E as (a & t1 & _ & E). apply bind_Ok in E as (b & t2 & _ & E). cbv zeta in E. unfold ret in E.
  destruct (Z.ltb_spec 0 (Z.max (default 0 a) (default 0 b))); [|done]. injection E as <- _. done.
Qed.

(** A computation that leaves the lockouts alone. *)
Definition quiet {A} (m : M mw A) : Prop := forall s, m_lockouts (snd (m s)) = m_lockouts s.
Lemma quiet_ret {A} (a : A) : quiet (ret a).
Proof. done. Qed.
Lemma quiet_of_res {A} (x : res A) : quiet (of_res x).
Proof. done. Qed.
Lemma quiet_bind {A B} (m : M mw A) (f : A -> M mw B) : quiet m -> (forall a, quiet (f a)) -> quiet (mbind_ m f).
Proof. intros Hm Hf s. unfold mbind_. specialize (Hm s). destruct (m s) as [[a|x] s1]; simpl in *; [by rewrite Hf|done]. Qed.
Lemma quiet_get {B} (f : mw -> M mw B) : (forall s, quiet (f s)) -> quiet (mbind_ get f).
Proof. intros Hf. by apply quiet_bind. Qed.
Lemma quiet_sessions {A} (m : M world A) : quiet (on_sessions m).
Proof. intros s. unfold on_sessions. by destruct (m (m_sessions s)). Qed.
Lemma quiet_cache c : quiet (modify (fun s => put_cache (c s) s)).
Proof. done. Qed.
Lemma quiet_keys c : quiet (modify (fun s => put_keys (c s) s)).
Proof. done. Qed.
#[local] Hint Resolve quiet_ret quiet_of_res quiet_sessions quiet_cache quiet_keys : quiet.
Ltac quiet :=
  repeat match goal with
  | |- quiet (mbind_ get _) => apply quiet_get; intros ?
  | |- quiet (mbind_ _ _) => apply quiet_bind; [|intros ?]
  | |- quiet (match ?x with _ => _ end) => destruct x
  | |- quiet _ => solve [auto with quiet]
  end.

Lemma check_token_quiet e token key id : quiet (check_token e token key id).
Proof. unfold check_token. cbv zeta. quiet. Qed.
#[local] Hint Resolve check_token_quiet : quiet.
Lemma authenticate_token_quiet e token peer : quiet (authenticate_token e token peer).
Proof. unfold authenticate_token. cbv zeta. quiet. Qed.
Lemma session_of_quiet e sid : quiet (session_of e sid).
Proof. unfold session_of. quiet. Qed.
#[local] Hint Resolve authenticate_token_quiet session_of_quiet : quiet.
Lemma credential_quiet e r : quiet (credential e r).
Proof. unfold credential, authenticate_session_header, authenticate_session_cookie. cbv zeta. quiet. Qed.
Lemma openai_key_owner_quiet e token : quiet (openai_key_owner e token).
Proof. unfold openai_key_owner. cbv zeta. quiet. Qed.

(** The lockout refuses guesses only. Where a credential is required and one
    can be configured: an accepted credential goes through whatever the locks say,
    and forgets the failures of its address; a request that presents none is asked
    for one, and counts for nothing; a wait is only ever answered to a presented
    credential that nothing accepted; and an exception while checking counts for
    nothing either. *)
Theorem lockout_only_guesses e r s :
  auth_required e r = true -> tokens pol <> [] \/ accounts_on e = true ->
  let ip := client_ip e r in
  match credential e r s with
  | (Ok (Some (p, sid, by_session)), s1) =>
      identify e r s = (Ok (inr (Some p, sid, by_session)), put_lockouts (opop ip (m_lockouts s)) s1)
  | (Ok None, s1) =>
      (presented_credential r = false -> fst (identify e r s) = Ok (inl Unauthorized) /\ m_lockouts (snd (identify e r s)) = m_lockouts s) /\
      (forall o, fst (identify e r s) = Ok o -> exists d, o = inl d /\
         (d = EndpointOnlyKey \/ d = Unauthorized \/ exists n, d = LockedOut n /\ 0 < n /\ presented_credential r = true))
  | (Raise x, s1) => identify e r s = (Raise x, s1) /\ m_lockouts s1 = m_lockouts s
  end.
Proof.
  intros Ha Hc ip. set (token := presented_token r).
  set (F := fun found : option (GatewayPrincipal * string * bool) => match found with
      | Some (p, sid, by_session) => on_lockouts (record_success ip) ;;; ret (inr (Some p, sid, by_session) : denial + who)
      | None =>
          owner <- (if String.eqb token "" then ret None else openai_key_owner e token) ;;
          match owner with
          | Some _ => ret (inl EndpointOnlyKey)
          | None => d <- reject_credential e r ;; ret (inl d)
          end
      end).
  assert (identify e r s = mbind_ (credential e r) F s) as ->.
  { unfold identify. rewrite Ha. assert (bool_decide (tokens pol = []) && negb (accounts_on e) = false) as ->; [|done].
    apply andb_false_iff. destruct Hc as [?| ->]; [left; by apply bool_decide_eq_false|by right]. }
  pose proof (credential_quiet e r s) as Hq. rewrite bind_match.
  destruct (credential e r s) as [[[[[p sid] b]|]|x] s1] eqn:Ec; simpl in Hq.
  - unfold F, mbind_, on_lockouts, record_success, modify. by rewrite Hq.
  - unfold F. set (owner := if String.eqb token "" then _ else _).
    assert (quiet owner) as Hqo by (unfold owner; destruct (String.eqb _ _); [apply quiet_ret|apply openai_key_owner_quiet]).
    split.
    + intros Hp. assert (owner = ret None) as ->.
      { unfold owner. unfold presented_credential in Hp. apply orb_false_iff in Hp as [[Hp _]%orb_false_iff _].
        apply negb_false_iff in Hp. fold token in Hp. by rewrite Hp. }
      unfold mbind_, ret. unfold reject_credential. rewrite Hp. split; [done|exact Hq].
    + intros o Ho. unfold mbind_ in Ho. destruct (owner s1) as [[[k|]|x] s2]; simpl in Ho; [simplify_eq; by eauto| |done].
      destruct (reject_credential e r s2) as [[d|x] s3] eqn:Er; simpl in Ho; [|done]. simplify_eq.
      apply reject_credential_denial in Er as [->|Hd]; eauto 8.
  - done.
Qed.

(** ** The verified-token cache *)

(** What a token is worth with no cache: the registry's answer, else the
    operator's tokens. *)
Definition token_answer e (token : string) : res (option GatewayPrincipal) :=
  match (if accounts_on e then match e_registry_auth e token with Ok p => p | Raise _ => None end else None) with
  | Some p => Ok (Some p)
  | None => ok <== token_valid (tokens pol) token;
            Ok (if ok : bool then Some (local_admin_principal (fingerprint_of token)) else None)
  end.
Definition registry_id_of e : string := if accounts_on e then e_registry_id e else "no-user-auth".

Lemma check_token_spec e token key id s :
  check_token e token key id s =
  (token_answer e token, match token_answer e token with Ok (Some p) => put_cache (remember key (id, p) (m_cache s)) s | _ => s end).
Proof.
  unfold check_token, token_answer. cbv zeta. destruct (if accounts_on e then _ else _) as [p|]; [done|].
  unfold mbind_ at 1 2, of_res. destruct (token_valid (tokens pol) token) as [[]|x]; done.
Qed.

Section Cache.
Context (known : env -> Prop).

(** An entry of the cache is an answer of the check, for a token of that digest
    and the registry file of that identity. *)
Definition cache_sound s : Prop :=
  Z.of_nat (length (m_cache s)) <= AUTH_CACHE_MAX /\
  forall key id p, oget key (m_cache s) = Some (id, p) ->
    exists e token, known e /\ digest token = key /\ registry_id_of e = id /\ token_answer e token = Ok (Some p).

Lemma cache_sound_remember s e token p :
  cache_sound s -> known e -> token_answer e token = Ok (Some p) ->
  cache_sound (put_cache (remember (digest token) (registry_id_of e, p) (m_cache s)) s).
Proof.
  intros [Hl Hc] He Ht. unfold remember. split; cbn [m_cache put_cache].
  - unfold AUTH_CACHE_MAX in *. case_match eqn:E; bool_to_prop; (etrans; [apply inj_le, length_oset|]); simpl; lia.
  - intros key id q. rewrite oget_oset. destruct (decide _) as [->|Hne].
    + intros [= <- <-]. eauto 6.
    + case_match; [done|apply Hc].
Qed.
End Cache.

(** The cache of verified tokens changes no answer. While the identity of the
    registry's file determines whether accounts are on and what the registry
    answers, and digests do not collide, a token presented at any time gets exactly
    what the full check of it at that time gives (an ephemeral one by its own
    rule), so a revoked token is refused at the next request; and the cache stays
    sound and within its bound. *)
Theorem token_cache_transparent (known : env -> Prop) e (token peer : string) s :
  (forall a b, digest a = digest b -> a = b) ->
  (forall e1 e2, known e1 -> known e2 -> registry_id_of e1 = registry_id_of e2 ->
     accounts_on e1 = accounts_on e2 /\ forall t, e_registry_auth e1 t = e_registry_auth e2 t) ->
  known e -> cache_sound known s ->
  let '(answer, s') := authenticate_token e token peer s in
  cache_sound known s' /\
  answer = (if String.eqb token "" then Ok None
            else found <== ephemeral_identity (m_ephemeral s) token peer;
                 match found with
                 | Some (label, bound) =>
                     Ok (Some (match bound with
                               | Some p => with_identity (fingerprint_of token) ("loopback-ephemeral:" +:+ label) p
                               | None => with_identity (fingerprint_of token) "loopback-ephemeral:desktop-tray" (local_admin_principal (fingerprint_of token))
                               end))
                 | None => token_answer e token
                 end).
Proof.
  intros Hinj Hcoh He Hs. unfold authenticate_token. destruct (String.eqb token ""); [done|].
  unfold mbind_ at 1, get. unfold mbind_ at 1, of_res.
  destruct (ephemeral_identity (m_ephemeral s) token peer) as [[[label [p|]]|]|x]; [done|done| |done]. cbn [rbind]. cbv zeta.
  fold (registry_id_of e).
  assert (cache_sound known (match token_answer e token with
     | Ok (Some p) => put_cache (remember (digest token) (registry_id_of e, p) (m_cache s)) s | _ => s end)) as Hnew.
  { destruct (token_answer e token) as [[p|]|] eqn:Et; [|done|done]. by apply cache_sound_remember. }
  destruct (oget (digest token) (m_cache s)) as [[id p]|] eqn:Ec; [|by rewrite check_token_spec].
  destruct (String.eqb_spec id (registry_id_of e)) as [->|]; [|by rewrite check_token_spec]. split; [done|].
  destruct Hs as [_ Hc]. destruct (Hc _ _ _ Ec) as (e' & token' & He' & Hd & Hid & Ht). apply Hinj in Hd as ->.
  destruct (Hcoh e' e He' He Hid) as [Ha Hr]. unfold token_answer in *. by rewrite <-Ha, <-Hr.
Qed.

(** ** What reaches the application *)

Lemma read_body_bounded fuel limit receive n chunks b :
  read_body fuel limit receive n chunks = Some (inl b) -> len chunks <= limit -> len b <= limit.
Proof.
  revert n chunks. induction fuel as [|fuel IH]; intros n chunks; [done|]. cbn [read_body].
  destruct (receive n) as [body more|]; [|by apply IH]. intros H Hl.
  destruct (negb (String.eqb body "") && (limit <? len (chunks +:+ body))) eqn:E; [done|].
  assert (len (chunks +:+ body) <= limit) as Hle.
  { apply andb_false_iff in E as [E|E]; bool_to_prop; [|done]. by rewrite E, sapp_nil. }
  destruct more; [by eapply IH|]. by injection H as <-.
Qed.

Lemma gateway_path_guarded path : startswith "/api/gateway" path = true -> open_api_path path = false.
Proof.
  unfold startswith. intros Hp. apply prefix_spec in Hp as [q ->]. unfold open_api_path, startswith.
  destruct q; reflexivity.
Qed.

Lemma guarded_call fuel e r receive :
  startswith "/api/gateway" (h_path r) = true -> enabled pol = true ->
  call fuel e r receive = try_ (guarded fuel e r receive) (fun x => ret (Some (Denied (Internal x)))).
Proof. intros Hp He. unfold call. by rewrite gateway_path_guarded, Hp, He. Qed.

(** The process sees a session, in the state the request finds: in what it remembers
    of the file, or in the file. *)
Definition seen (fresh : bool) e s : records := view process fresh (e_now e) (e_mono e) (m_sessions s).
Definition sees e s (sid : string) (x : session) : Prop := exists fresh, oget sid (seen fresh e s) = Some x.
(** The principal a seen session stands for now; its record is then seen by the rest
    of the request with the same cross-site token. *)
Definition stands_for e (x : session) (p : GatewayPrincipal) : Prop :=
  session_principal digest (e_users e) (e_user_auth e) x legacy_fingerprints (e_now e) = Some p.
Definition still_seen e s (sid : string) (x : session) : Prop := exists y, oget (strip sid) (seen false e s) = Some y /\ csrf_hash y = csrf_hash x.

Lemma session_of_seen e sid s o s' : wf (m_sessions s) -> session_of e sid s = (Ok o, s') ->
  match o with
  | Some (p, i) => sid = Some i /\ exists x, oget (strip i) (seen false e s) = Some x /\ stands_for e x p /\ still_seen e s' i x
  | None => (forall i x, oget i (seen false e s') = Some x -> sees e s i x) /\ wf (m_sessions s')
  end.
Proof.
  intros Hwf. unfold session_of. destruct sid as [sid|].
  2:{ unfold ret. intros E. injection E as <- <-. split; [|done]. intros i x Hx. by exists false. }
  intros (q & s1 & Hq & Hr)%bind_Ok. unfold ret in Hr. unfold on_sessions in Hq.
  destruct (authenticate_session _ _ _ _ _ _ _ _ _ (m_sessions s)) as [[q'|e'] w] eqn:Ea; [|done]. injection Hq as -> <-.
  pose proof (auth_seen digest max_sessions _ _ _ _ _ _ _ _ _ _ Hwf Ea) as Hs. destruct q as [p|]; injection Hr as <- <-.
  - split; [done|]. destruct Hs as (x & Hx & Hp & y & Hy & Hc). exists x. split_and!; [done|done|by exists y].
  - split; [exact Hs|]. by eapply auth_refused_wf.
Qed.

(** What the credential of a request is: a token the check accepts, or a session the
    header or the cookie names, that the process sees and that stands for the
    principal; a write then carries its cross-site token. *)
Definition names r (sid : string) : Prop :=
  session_id_from_value sign (default "" (header r session_header)) = Ok (Some sid) \/ cookie_session_id (header r "cookie") = Some sid.
Definition own_token r (x : session) : Prop :=
  let t := strip (default "" (header r csrf_header)) in t <> "" /\ csrf_hash x <> "" /\ csrf_hash x = digest t.
Definition shown e r s (p : GatewayPrincipal) (sid : string) (by_session : bool) : Prop :=
  if by_session then presented_token r = "" /\ names r sid /\
    exists x, sees e s (strip sid) x /\ stands_for e x p /\ (is_write r = true -> own_token r x)
  else presented_token r <> "" /\ sid = "" /\ fst (authenticate_token e (presented_token r) (socket_peer_ip r) s) = Ok (Some p).

(** The same before the cross-site token is looked at. *)
Definition presented e r s s' (p : GatewayPrincipal) (sid : string) (by_session : bool) : Prop :=
  if by_session then presented_token r = "" /\ names r sid /\ exists x, sees e s (strip sid) x /\ stands_for e x p /\ still_seen e s' sid x
  else presented_token r <> "" /\ sid = "" /\ fst (authenticate_token e (presented_token r) (socket_peer_ip r) s) = Ok (Some p).
Lemma credential_presented e r s p sid b s' : wf (m_sessions s) ->
  credential e r s = (Ok (Some (p, sid, b)), s') -> presented e r s s' p sid b.
Proof.
  intros Hwf. unfold credential. cbv zeta. destruct (String.eqb_spec (presented_token r) "") as [Ht|Ht].
  - intros (a & s1 & Ha & H)%bind_Ok. apply bind_Ok in H as (c & s2 & Hc & H).
    destruct c as [[q j]|]; [|done]. injection H as -> -> <- ->. split; [done|].
    unfold authenticate_session_header in Ha. apply bind_Ok in Ha as (i & s0 & Hi & Ha). injection Hi as Hi <-.
    apply session_of_seen in Ha; [|done]. destruct a as [[q j]|].
    + injection Hc as -> -> <-. destruct Ha as (-> & x & Hx & Hp & Hs). split; [by left|]. exists x. split_and!; [by exists false|done|done].
    + destruct Ha as [Hback Hwf1]. apply session_of_seen in Hc as (Hi' & x & Hx & Hp & Hs); [|done]. split; [by right|].
      exists x. split_and!; [by apply Hback|done|done].
  - intros (a & s1 & Ha & H)%bind_Ok. destruct a as [a|]; [|done]. injection H as -> <- <- _.
    split; [done|]. split; [done|]. by rewrite Ha.
Qed.

Lemma identify_Ok e r s p sid b s' : wf (m_sessions s) ->
  identify e r s = (Ok (inr (p, sid, b)), s') ->
  if auth_required e r then exists pr, p = Some pr /\ presented e r s s' pr sid b
  else sid = "" /\ b = false /\
       p = if public_auth_path (h_path r) (method_of r) then None
           else if is_read r && dev_read e r then Some local_readonly_principal else Some (local_admin_principal "").
Proof.
  intros Hwf. unfold identify. destruct (auth_required e r); [|by intros [= <- <- <- _]].
  destruct (_ && _); [done|]. cbv zeta. intros (found & s1 & Hf & H)%bind_Ok.
  destruct found as [[[q j] c]|].
  - apply bind_Ok in H as (? & s2 & Hl & H). injection H as <- <- <- <-. exists q. split; [done|].
    apply on_lockouts_Ok in Hl as [_ ->]. apply credential_presented in Hf; [|done]. exact Hf.
  - apply bind_Ok in H as (o & s2 & _ & H). destruct o; [done|]. apply bind_Ok in H as (d & ? & _ & H). done.
Qed.

(** The token that passes is the session's own. *)
Lemma csrf_own e r s s1 sid x s2 : still_seen e s1 sid x -> plain_id (strip sid) -> is_write r = true ->
  csrf_passed e r sid true s1 = (Ok true, s2) -> sees e s (strip sid) x -> own_token r x.
Proof.
  intros (y & Hy & Hc) Hid Hw. unfold csrf_passed. rewrite Hw. cbn [andb]. unfold on_sessions.
  destruct (verify_csrf_token _ _ _ _ _ _ _ (m_sessions s1)) as [v w] eqn:E. intros [= -> _] _.
  apply verify_seen in E as (i & z & Hi & Ht & Hz & Hne & Hh). rewrite plain_own in Hi by done. injection Hi as <-.
  unfold seen in Hy. rewrite Hy in Hz. injection Hz as ->. unfold own_token. by rewrite <- Hc.
Qed.

Lemma check_body_Ok fuel r receive body :
  check_body fuel r receive = Some (inr body) -> is_write r = true -> 0 < body_limit (h_path r) ->
  match body with
  | Some b => len b <= body_limit (h_path r)
  | None => exists cl, header r "content-length" = Some cl /\ forall n, int_of_str cl = Some n -> n <= body_limit (h_path r)
  end.
Proof.
  unfold check_body. intros H Hw Hl. rewrite Hw, (proj2 (Z.ltb_lt _ _) Hl) in H. cbn [andb] in H.
  destruct (header r "content-length") as [cl|].
  - destruct (int_of_str cl) as [n|] eqn:En.
    + destruct (Z.ltb_spec (body_limit (h_path r)) n); [done|]. injection H as <-. exists cl. split; [done|]. intros m Hm. congruence.
    + injection H as <-. exists cl. split; [done|]. by rewrite En.
  - destruct (read_body _ _ _ _ _) as [[b|z]|] eqn:Er; [|done|done]. injection H as <-.
    eapply read_body_bounded; [exact Er|]. unfold len. simpl. lia.
Qed.

(** C28: What a request under [/api/gateway] has shown when the application runs
    for it. Its origin is accepted (or it sent none, or signs a webhook); the route
    table admits its principal; where a credential is required, the principal is
    the one the presented token answers for, or the one that a session stands for
    which the header or the cookie names and this process sees in the state the
    request finds, and then a write carried that session's own cross-site token; where
    none is required, there is no principal on a public path and a read-only one for
    the development reads; and a write's body is within the limit of its path, read or
    declared. (The sessions' dicts are keyed by their ids, which have the shape the
    gateway draws them in.) *)
Theorem admitted_request fuel e r receive s p sid body sse s' :
  startswith "/api/gateway" (h_path r) = true -> enabled pol = true ->
  wf (m_sessions s) -> (forall i x, sees e s i x -> plain_id i) ->
  call fuel e r receive s = (Ok (Some (Run p sid body sse)), s') ->
  origin_refused e r = false /\
  route_admitted p (h_path r) (method_of r) = true /\
  (if auth_required e r then exists pr by_session, p = Some pr /\ shown e r s pr sid by_session
   else sid = "" /\
     p = if public_auth_path (h_path r) (method_of r) then None
         else if is_read r && dev_read e r then Some local_readonly_principal else Some (local_admin_principal "")) /\
  (is_write r = true -> 0 < body_limit (h_path r) ->
     match body with
     | Some b => len b <= body_limit (h_path r)
     | None => exists cl, header r "content-length" = Some cl /\ forall n, int_of_str cl = Some n -> n <= body_limit (h_path r)
     end).
Proof.
  intros Hp He Hwf Hids. rewrite guarded_call by done. unfold try_. destruct (guarded fuel e r receive s) as [[v|x] s1] eqn:Eg; [|done].
  intros [= -> <-]. unfold guarded in Eg. destruct (origin_refused e r); [done|]. destruct (String.eqb _ "OPTIONS"); [done|].
  apply bind_Ok in Eg as (w & s2 & Hw & Eg). destruct w as [d|[[q j] b]]; [done|].
  apply bind_Ok in Eg as (ok & s3 & Hcs & Eg). destruct ok; [cbn [negb] in Eg|done].
  destruct (route_denial q (h_path r) (method_of r)) as [d|] eqn:Ed; [done|].
  destruct (check_body fuel r receive) as [[d|bd]|] eqn:Eb; [done| |done].
  apply bind_Ok in Eg as (got & s4 & _ & Eg). destruct got; [|done]. injection Eg as -> -> -> _ _.
  split; [done|]. split; [|split].
  - unfold route_denial in Ed. destruct (route_admitted p _ _) eqn:Er; [done|].
    unfold route_admitted in Er. by destruct (gateway_route_authorization_requirement _ _).
  - apply identify_Ok in Hw; [|done]. destruct (auth_required e r).
    + destruct Hw as (pr & -> & Hsh). exists pr, b. split; [done|]. destruct b; [|exact Hsh].
      destruct Hsh as (Ht & Hn & x & Hx & Hpr & Hs). split; [done|]. split; [done|]. exists x. split_and!; [done|done|].
      intros Hwr. eapply csrf_own; [exact Hs|by eapply Hids|exact Hwr|exact Hcs|exact Hx].
    + by destruct Hw as (? & _ & ?).
  - intros. by eapply check_body_Ok.
Qed.

(** ** Origins *)

(** A page that reached the gateway under a name of its own is refused: an
    [http] origin whose host is none the gateway detects on this machine, and that
    no pattern of the effective list matches, is accepted by none of the three
    rules, whatever the [Host] header and the scheme of the request say. *)
Theorem rebound_origin_refused e r (o : string) u :
  urlsplit bracket_host_ok (strip o) = Ok u -> u_scheme u = "http" ->
  (forall hosts https_hosts, e_detected e = Ok (hosts, https_hosts) -> ~ lower (hostname u) ∈ hosts) ->
  (forall p, p ∈ effective_allowed_origins e -> origin_matches (strip o) p = false) ->
  origin_accepted e r o = false.
Proof.
  intros Hu Hs Hd Hl. unfold origin_accepted, origin_allowed, https_same_origin, detected_origin. rewrite Hu, Hs. cbn [String.eqb].
  assert (String.eqb (strip o) "" = false) as ->.
  { destruct (String.eqb_spec (strip o) "") as [E|]; [|done]. rewrite E in Hu. simpl in Hu. by injection Hu as <-. }
  assert (existsb (origin_matches (strip o)) (effective_allowed_origins e) = false) as ->.
  { apply not_true_is_false. intros (p & Hp & Hm)%existsb_exists. apply list_elem_of_In in Hp. by rewrite Hl in Hm. }
  simpl. rewrite andb_false_r. destruct (port u) as [prt|]; [|done]. destruct (e_detected e) as [[hosts hh]|]; [|by rewrite andb_false_r].
  rewrite bool_decide_eq_false_2 by (by eapply Hd). by rewrite !andb_false_r.
Qed.

(** ** Requests that are let in or answered otherwise *)

Lemma admin_admitted p path method : is_admin p = true -> route_admitted (Some p) path method = true.
Proof.
  intros Ha. unfold route_admitted. destruct (gateway_route_authorization_requirement path method) as [q|]; [|done].
  destruct (String.eqb (r_required_role q) "admin_or_creator"); [done|]. unfold authorize. by rewrite Ha.
Qed.

(** A request whose method is none of the six the middleware knows, and not
    OPTIONS, needs no credential: whatever the configuration and whoever sends it,
    the application runs for it as the local administrator, on every path under
    [/api/gateway]. *)
Theorem unknown_method_is_admin fuel e r receive s :
  startswith "/api/gateway" (h_path r) = true -> enabled pol = true -> header r "origin" = None ->
  ~ method_of r ∈ ["GET"; "HEAD"; "POST"; "PUT"; "PATCH"; "DELETE"; "OPTIONS"] -> 0 < m_free s -> 0 < m_sse_free s ->
  fst (call fuel e r receive s) = Ok (Some (Run (Some (local_admin_principal "")) "" None (is_sse (h_path r)))).
Proof.
  intros Hp He Ho Hm Hf Hs. rewrite guarded_call by done. unfold guarded, origin_refused. rewrite Ho.
  assert (forall m, m ∈ ["GET"; "HEAD"; "POST"; "PUT"; "PATCH"; "DELETE"; "OPTIONS"] -> String.eqb (method_of r) m = false) as Hne.
  { intros m Hin. destruct (String.eqb_spec (method_of r) m) as [<-|]; done. }
  rewrite (Hne "OPTIONS") by set_solver.
  assert (is_read r = false) as Hr by (apply bool_decide_eq_false; set_solver).
  assert (is_write r = false) as Hw by (apply bool_decide_eq_false; set_solver).
  assert (public_auth_path (h_path r) (method_of r) = false) as Hpub.
  { unfold public_auth_path, signed_webhook_path. cbv zeta. rewrite (Hne "POST") by set_solver. simpl.
    rewrite (bool_decide_eq_false_2 (method_of r ∈ ["GET"; "HEAD"; "POST"])) by set_solver.
    rewrite (bool_decide_eq_false_2 (method_of r ∈ ["GET"; "HEAD"])) by set_solver. by rewrite !andb_false_r. }
  assert (identify e r = ret (inr (Some (local_admin_principal ""), "", false))) as ->.
  { unfold identify, auth_required. by rewrite Hr, Hw, Hpub. }
  unfold try_, mbind_ at 1, ret at 1. unfold csrf_passed. cbn [andb]. unfold mbind_ at 1, ret at 1. cbn [negb].
  unfold route_denial. rewrite admin_admitted by done. unfold check_body. rewrite Hw. cbn [andb].
  unfold acquire, mbind_, get. destruct (is_sse (h_path r)); [rewrite (proj2 (Z.ltb_lt _ _) Hs)|rewrite (proj2 (Z.ltb_lt _ _) Hf)]; done.
Qed.

(** A presented token with a character that is not ASCII is not refused but
    answered with an internal error, and is not counted as a guess: comparing it
    with the operator's tokens raises. *)
Theorem non_ascii_token_internal fuel e r receive s :
  startswith "/api/gateway" (h_path r) = true -> enabled pol = true -> header r "origin" = None -> is_read r = true ->
  auth_required e r = true -> is_ascii (presented_token r) = false -> tokens pol <> [] ->
  m_ephemeral s = [] -> oget (digest (presented_token r)) (m_cache s) = None ->
  (forall p, e_registry_auth e (presented_token r) <> Ok (Some p)) ->
  exists x s', call fuel e r receive s = (Ok (Some (Denied (Internal (TypeError x)))), s') /\ m_lockouts s' = m_lockouts s.
Proof.
  intros Hp He Ho Hrd Ha Hna Ht Hep Hc Hreg. rewrite guarded_call by done. unfold guarded, origin_refused. rewrite Ho.
  assert (String.eqb (method_of r) "OPTIONS" = false) as ->.
  { destruct (String.eqb_spec (method_of r) "OPTIONS") as [E|]; [|done]. unfold is_read in Hrd. by rewrite E in Hrd. }
  assert (presented_token r <> "") as Hne by (intros E; by rewrite E in Hna).
  assert (exists x, credential e r s = (Raise (TypeError x), s)) as [x Hcr].
  { unfold credential. cbv zeta. rewrite (proj2 (String.eqb_neq _ _) Hne). unfold mbind_ at 1, authenticate_token.
    rewrite (proj2 (String.eqb_neq _ _) Hne).
    assert (ephemeral_identity [] (presented_token r) (socket_peer_ip r) = Ok None) as Hei by (unfold ephemeral_identity; by destruct (_ || _)).
    unfold mbind_ at 1, get. unfold mbind_ at 1, of_res. rewrite Hep, Hei. cbv zeta. rewrite Hc, check_token_spec.
    assert (exists x, token_answer e (presented_token r) = Raise (TypeError x)) as [x ->]; [|by eexists]. unfold token_answer.
    assert ((if accounts_on e then match e_registry_auth e (presented_token r) with Ok p => p | Raise _ => None end else None) = None) as ->.
    { destruct (accounts_on e); [|done]. destruct (e_registry_auth e (presented_token r)) as [[p|]|] eqn:Er; [by destruct (Hreg p)|done|done]. }
    destruct (tokens pol) as [|t l]; [done|]. simpl. unfold compare_digest. rewrite Hna, andb_false_l. by eexists. }
  exists x, s. split; [|done]. unfold try_, mbind_ at 1, identify. rewrite Ha.
  assert (bool_decide (tokens pol = []) && negb (accounts_on e) = false) as -> by (by rewrite bool_decide_eq_false_2).
  cbv zeta. unfold mbind_ at 1. by rewrite Hcr.
Qed.
End Facts.

(** ** The theorems at a concrete gateway *)

Definition sample_policy : policy :=
  mk_auth_policy true ["operator-token"] false true true false ["http://localhost:*"; "http://127.0.0.1:*"]
    1000 0 25000 75000 false.
#[local] Instance sample_setup : Setup := {
  sign s := "5ad1";
  digest s := "d" +:+ s;
  max_sessions := 10;
  process := 0%nat;
  ip_loopback h := Some (String.eqb h "127.0.0.1");
  bracket_host_ok _ := false;
  access_tokens _ := Ok [];
  cookie_value c := Ok (Some c);
  session_header := "x-abstractgateway-session";
  csrf_header := "x-abstractgateway-csrf";
  pol := sample_policy;
  tr := default_tracker;
}.
Definition sample_env : env :=
  mk_env (1700000000 * second) (1700000000 * second) 0 (fun _ => None) false "f1" (fun _ => Ok None) (fun _ => Ok None)
    (Some ([], false)) (Ok (["mini.local"; "192.168.1.9"], [])).
Definition fresh : mw := mk_mw [] [] [] [] (mk_world None 0 (fun _ => None) []) 64 32.
Definition request_of (method path : string) (headers : list (string * option string)) : http_request :=
  mk_http path method "http" headers (Some "192.168.1.20") (Some 8080) "".
Definition one_part (body : string) : nat -> message := fun _ => Part body false.
Definition post_run : http_request :=
  request_of "POST" "/api/gateway/runs" [("authorization", Some "Bearer operator-token"); ("origin", Some "http://localhost:3000")].

Lemma body_read_or_refused_witness :
  parts (one_part "hello") 0 (fun _ => "hello") /\
  exists o, read_body 1 3 (one_part "hello") 0 "" = Some o /\
    match o with inl body => body = "hello" /\ len body <= 3 | inr size => 3 < size <= len "hello" end.
Proof.
  split; [split; [intros; lia|done]|].
  apply (body_read_or_refused 3 (one_part "hello") 0 (fun _ => "hello") 1); [split; [intros; lia|done]|lia|lia].
Defined.

Definition goes_away : nat -> message := fun n => match n with O => Part "half" true | _ => OtherMessage end.
Lemma disconnect_never_ends_witness :
  let r := request_of "POST" "/api/gateway/session/login" [] in
  auth_required sample_env r = false /\ forall fuel, check_body fuel r goes_away = None.
Proof.
  split; [by vm_compute|].
  apply (disconnect_never_ends (C := sample_setup) (request_of "POST" "/api/gateway/session/login" []) goes_away 1 (fun _ => "half"));
    [|by vm_compute|by vm_compute|by vm_compute|by vm_compute].
  split; [intros [|n] Hn; [done|lia]|intros [|n] Hn; [lia|done]].
Defined.

Lemma lockout_only_guesses_witness :
  let locked := put_lockouts [("192.168.1.20", mk_entry 30 (1700000060 * second) (1700000000 * second))] fresh in
  fst (identify sample_env post_run locked) = Ok (inr (Some (local_admin_principal "doperator-to"), "", false)) /\
  m_lockouts (snd (identify sample_env post_run locked)) = [].
Proof.
  intros locked.
  pose proof (lockout_only_guesses (C := sample_setup) sample_env post_run locked ltac:(vm_compute; reflexivity) ltac:(left; discriminate)) as H.
  assert (fst (credential sample_env post_run locked) = Ok (Some (local_admin_principal "doperator-to", "", false))) as Hc by (vm_compute; reflexivity).
  assert (m_lockouts (snd (credential sample_env post_run locked)) = m_lockouts locked) as Hl by (vm_compute; reflexivity).
  destruct (credential sample_env post_run locked) as [c s1]. simpl in Hc, Hl. subst c. rewrite H. split; [done|].
  vm_compute. reflexivity.
Defined.

Lemma cache_sound_empty known s : m_cache s = [] -> cache_sound known s.
Proof. intros H. split; rewrite H; [by vm_compute|done]. Qed.
Lemma token_cache_transparent_witness :
  fst (authenticate_token sample_env "operator-token" "192.168.1.20" fresh) = token_answer sample_env "operator-token" /\
  token_answer sample_env "operator-token" = Ok (Some (local_admin_principal "doperator-to")).
Proof.
  pose proof (token_cache_transparent (C := sample_setup) (fun e => e = sample_env) sample_env "operator-token" "192.168.1.20" fresh
    ltac:(intros a b [= H]; exact H) ltac:(intros ? ? -> -> _; done) eq_refl (cache_sound_empty _ fresh eq_refl)) as H.
  destruct (authenticate_token _ _ _ _) as [a s']. destruct H as [_ ->]. split; vm_compute; reflexivity.
Defined.

(** A browser's write, with a session and its cross-site token; without it the same
    write is refused. *)
Definition browser_env : env :=
  mk_env (new_year + 10 * second) (new_year + 10 * second) 5 accounts true "f1" (fun _ => Ok None) (fun _ => Ok None)
    (Some ([], false)) (Ok (["mini.local"; "192.168.1.9"], [])).
Definition browser_state : mw := put_sessions ada_world fresh.
Definition browser_run (token : string) : http_request :=
  request_of "POST" "/api/gateway/runs" [("x-abstractgateway-session", Some ada_id); ("x-abstractgateway-csrf", Some token); ("origin", Some "http://localhost:3000")].
Lemma browser_ids i x : sees browser_env browser_state i x -> plain_id i.
Proof. intros [[|] H]; vm_compute in H; (destruct (decide (i = ada_id)) as [->|Hne]; [by split|]); revert H; vm_compute; repeat case_match; done. Qed.
Lemma admitted_request_witness :
  fst (call 3 browser_env (browser_run "agcsrf_t1") (one_part "{}") browser_state) = Ok (Some (Denied CsrfRequired)) /\
  exists s', call 3 browser_env (browser_run "agcsrf_t0") (one_part "{}") browser_state = (Ok (Some (Run (Some (to_principal ada "")) ada_id (Some "{}") false)), s') /\
    exists pr by_session, Some (to_principal ada "") = Some pr /\ shown browser_env (browser_run "agcsrf_t0") browser_state pr ada_id by_session.
Proof.
  split; [vm_compute; reflexivity|].
  destruct (call 3 browser_env (browser_run "agcsrf_t0") (one_part "{}") browser_state) as [v s'] eqn:E. exists s'.
  assert (v = Ok (Some (Run (Some (to_principal ada "")) ada_id (Some "{}") false))) as ->.
  { change v with (fst (v, s')). rewrite <-E. vm_compute. reflexivity. }
  split; [done|].
  destruct (admitted_request (C := sample_setup) 3 browser_env (browser_run "agcsrf_t0") (one_part "{}") browser_state _ _ _ _ s'
    ltac:(vm_compute; reflexivity) ltac:(vm_compute; reflexivity) ada_world_wf browser_ids E) as (_ & _ & H & _).
  exact H.
Defined.

Lemma rebound_origin_refused_witness :
  let r := request_of "POST" "/api/gateway/session/login" [("origin", Some "http://evil.example:8080"); ("host", Some "evil.example:8080")] in
  origin_accepted sample_env r "http://evil.example:8080" = false.
Proof.
  apply (rebound_origin_refused (C := sample_setup) sample_env _ "http://evil.example:8080" (mk_url "http" "evil.example:8080" "" "" ""));
    [by vm_compute|done| |].
  - intros hosts hh [= <- <-]. vm_compute. intros H. by repeat (apply elem_of_cons in H as [H|H]; [discriminate|]); apply elem_of_nil in H.
  - intros p Hp. vm_compute in Hp. by repeat (apply elem_of_cons in Hp as [->|Hp]; [vm_compute; reflexivity|]); apply elem_of_nil in Hp.
Defined.

Lemma unknown_method_is_admin_witness :
  fst (call 1 sample_env (request_of "PURGE" "/api/gateway/admin/users" []) (one_part "") fresh) =
  Ok (Some (Run (Some (local_admin_principal "")) "" None false)).
Proof.
  apply (unknown_method_is_admin (C := sample_setup) 1 sample_env (request_of "PURGE" "/api/gateway/admin/users" []) (one_part "") fresh);
    [by vm_compute|done|done| |done|done].
  intros H. vm_compute in H. by repeat (apply elem_of_cons in H as [H|H]; [discriminate|]); apply elem_of_nil in H.
Defined.

Definition accented : http_request := request_of "GET" "/api/gateway/runs" [("authorization", Some ("Bearer caf" +:+ String (ascii_of_nat 233) ""))].
Lemma non_ascii_token_internal_witness :
  exists x s', call 1 sample_env accented (one_part "") fresh = (Ok (Some (Denied (Internal (TypeError x)))), s') /\ m_lockouts s' = [].
Proof.
  apply (non_ascii_token_internal (C := sample_setup) 1 sample_env accented (one_part "") fresh);
    [by vm_compute|done|done|by vm_compute|by vm_compute|by vm_compute|done|done|done|done].
Defined.
