(* ===== verification/UserRegistry.v ===== *)
(** * The user registry

    [users.py]: the accounts of the gateway, their tokens, named keys and
    passwords, the runtimes they own, and the file that holds them. Every
    operation of [GatewayUserRegistry] reads the file, works on the records and
    writes the file back, under one lock: each is one step here.

    The state is the file and how often the clock was read. The clock, the
    digests ([hashlib]) and the random parts ([secrets]) are arguments; a digest
    takes the text whose UTF-8 bytes the code digests. Writing the file does not
    fail. The order of the keys in the file's text ([sort_keys]) is not kept:
    records are read by key. *)

From S2P Require Import Prelude PyStr PyVal PyNum PyText OrdDict IsoTime Principal Sessions.

(** ** Settings and texts *)

(** [_as_bool] *)
Definition as_bool (raw : val) (dflt : bool) : bool :=
  match raw with
  | VNone => dflt
  | VBool b => b
  | _ =>
      let value := lower (strip (py_str raw)) in
      if String.eqb value "" then dflt
      else if bool_decide (value ∈ ["1"; "true"; "yes"; "on"]) then true
      else if bool_decide (value ∈ ["0"; "false"; "no"; "off"]) then false
      else dflt
  end.

(** [gateway_user_auth_enabled]; [env] is the environment, [present] whether the
    registry's file exists. *)
Definition env_val (env : string -> option string) (k : string) : val :=
  match env k with Some s => VStr s | None => VNone end.
Definition gateway_user_auth_enabled (env : string -> option string) (present : bool) : bool :=
  let raw := py_or (py_or (env_val env "ABSTRACTGATEWAY_USER_AUTH") (env_val env "ABSTRACTGATEWAY_MULTI_USER"))
               (env_val env "ABSTRACTFLOW_GATEWAY_USER_AUTH") in
  if negb (is_none raw) then as_bool raw false
  else
    let mode := lower (strip (str_or (env_val env "ABSTRACTGATEWAY_AUTH_MODE") "")) in
    if bool_decide (mode ∈ ["user"; "users"; "multi-user"; "multi_user"; "hosted"]) then true
    else if bool_decide (mode ∈ ["legacy"; "single"; "single-user"; "single_user"; "local"]) then false
    else as_bool (env_val env "ABSTRACTGATEWAY_USER_AUTH_AUTO") false && present.

(** [_split_csv] *)
Definition nonempty (s : string) : bool := negb (String.eqb s "").
Definition split_csv (raw : val) : list string :=
  if is_none raw then [] else List.filter nonempty (map strip (split_char "," (py_str raw))).

(** [_normalize_email] *)
Definition normalize_email (value : val) : res string :=
  let raw := strip (str_or value "") in
  if String.eqb raw "" then Ok ""
  else if (254 <? len raw) || negb (Nat.eqb (count_char "@" raw) 1)
  then Raise (ValueError "email must be empty or ONE plain email address")
  else if exists_char (fun c => has_char c ",; <>") raw
  then Raise (ValueError "email must be empty or ONE plain email address (no lists or display names)")
  else
    let '(local, domain) := default (raw, "") (split1 "@" raw) in
    if String.eqb (strip local) "" || negb (has_char "." (strip domain))
    then Raise (ValueError "email must be empty or a valid email address")
    else Ok (lower raw).

Definition DISPLAY_NAME_MAX : nat := 80.
Definition normalize_display_name (value : val) : string :=
  stake DISPLAY_NAME_MAX (sfilter is_printable (join " " (words (str_or value "")))).

Definition OPENAI_KEY_LABEL_MAX : nat := 80.
#[global] Arguments DISPLAY_NAME_MAX : simpl never.
#[global] Arguments OPENAI_KEY_LABEL_MAX : simpl never.

(** ** Records *)

(** [OpenAIKeyRecord] *)
Record OpenAIKeyRecord := mk_key {
  k_label : string;
  k_key_hash : string;
  k_fingerprint : string;
  k_created_at : string;
  k_created_by : string;
  k_sealed : bool;
}.
Definition key_storage (k : OpenAIKeyRecord) : dict :=
  [ ("label", VStr (k_label k)); ("key_hash", VStr (k_key_hash k)); ("fingerprint", VStr (k_fingerprint k));
    ("created_at", VStr (k_created_at k)); ("created_by", VStr (k_created_by k)) ]
  ++ (if k_sealed k then [("sealed", VBool true)] else []).
Definition or_none (s : string) : val := if String.eqb s "" then VNone else VStr s.
Definition key_public (k : OpenAIKeyRecord) : dict :=
  [ ("label", VStr (k_label k)); ("fingerprint", VStr (k_fingerprint k));
    ("created_at", or_none (k_created_at k)); ("created_by", or_none (k_created_by k)) ].

(** [_normalize_openai_keys] *)
Definition normalize_openai_key (seen : list string) (item : val) : option OpenAIKeyRecord :=
  match item with
  | VDict d =>
      let key_hash := str_or (get_ "key_hash" d) "" in
      let fp := str_or (get_ "fingerprint" d) "" in
      if String.eqb key_hash "" || String.eqb fp "" || bool_decide (fp ∈ seen) then None
      else Some (mk_key (stake OPENAI_KEY_LABEL_MAX (str_or (get_ "label" d) "")) key_hash fp
        (str_or (get_ "created_at" d) "") (str_or (get_ "created_by" d) "")
        (match get_ "sealed" d with VBool true => true | _ => false end))
  | _ => None
  end.
Fixpoint normalize_openai_items (seen : list string) (l : list val) : list OpenAIKeyRecord :=
  match l with
  | [] => []
  | item :: l =>
      match normalize_openai_key seen item with
      | Some k => k :: normalize_openai_items (k_fingerprint k :: seen) l
      | None => normalize_openai_items seen l
      end
  end.
Definition normalize_openai_keys (raw : val) : list OpenAIKeyRecord :=
  match raw with VList l => normalize_openai_items [] l | _ => [] end.

(** [GatewayUserRecord] *)
Record GatewayUserRecord := mk_account {
  a_user_id : string;
  a_tenant_id : string;
  a_email : string;
  a_roles : list string;
  a_scopes : list string;
  a_enabled : bool;
  a_runtime_id : string;
  a_token_hash : string;
  a_token_fingerprint : string;
  a_created_at : string;
  a_updated_at : string;
  a_archived : bool;
  a_archived_at : string;
  a_archived_by : string;
  a_openai_api : option bool;
  a_openai_keys : list OpenAIKeyRecord;
  a_password_hash : string;
  a_password_set_at : string;
  a_display_name : string;
}.

(** The key of a tenant and a name ([key] of both records). *)
Definition pair_key (tenant name : string) : string := tenant +:+ ":" +:+ name.
Definition account_key (a : GatewayUserRecord) : string := pair_key (a_tenant_id a) (a_user_id a).
(** [rec.runtime_id or rec.user_id] *)
Definition runtime_of (a : GatewayUserRecord) : string := or_else (a_runtime_id a) (a_user_id a).

Definition is_entity (a : GatewayUserRecord) : bool :=
  bool_decide ("entity" ∈ map (fun r => lower (strip r)) (a_roles a)).
Definition principal_kind (a : GatewayUserRecord) : string := if is_entity a then "entity" else "human".

Definition openai_api_allowed (a : GatewayUserRecord) : bool :=
  if is_entity a || a_archived a then false
  else match a_openai_api a with Some b => b | None => a_enabled a end.

Definition storage_core (a : GatewayUserRecord) : dict :=
  [ ("user_id", VStr (a_user_id a)); ("tenant_id", VStr (a_tenant_id a)); ("email", VStr (a_email a));
    ("roles", VList (map VStr (a_roles a))); ("scopes", VList (map VStr (a_scopes a)));
    ("enabled", VBool (a_enabled a)); ("runtime_id", VStr (runtime_of a));
    ("token_hash", VStr (a_token_hash a)); ("token_fingerprint", VStr (a_token_fingerprint a));
    ("created_at", VStr (a_created_at a)); ("updated_at", VStr (a_updated_at a)) ].
Definition account_storage (a : GatewayUserRecord) : dict :=
  storage_core a
  ++ (if a_archived a || nonempty (a_archived_at a)
      then [("archived", VBool (a_archived a)); ("archived_at", VStr (a_archived_at a)); ("archived_by", VStr (a_archived_by a))]
      else [])
  ++ (match a_openai_api a with Some b => [("openai_api", VBool b)] | None => [] end)
  ++ (match a_openai_keys a with [] => [] | ks => [("openai_keys", VList (map (fun k => VDict (key_storage k)) ks))] end)
  ++ (if nonempty (a_password_hash a)
      then [("password_hash", VStr (a_password_hash a)); ("password_set_at", VStr (a_password_set_at a))] else [])
  ++ (if nonempty (a_display_name a) then [("display_name", VStr (a_display_name a))] else []).

Definition account_public (a : GatewayUserRecord) : dict :=
  [ ("user_id", VStr (a_user_id a)); ("tenant_id", VStr (a_tenant_id a)); ("email", VStr (a_email a));
    ("roles", VList (map VStr (a_roles a))); ("scopes", VList (map VStr (a_scopes a)));
    ("enabled", VBool (a_enabled a)); ("runtime_id", VStr (runtime_of a));
    ("principal_kind", VStr (principal_kind a)); ("archived", VBool (a_archived a));
    ("archived_at", or_none (a_archived_at a)); ("created_at", VStr (a_created_at a)); ("updated_at", VStr (a_updated_at a));
    ("password_set", VBool (nonempty (a_password_hash a))); ("display_name", or_none (a_display_name a)) ].

(** [to_principal] *)
Definition account_principal (a : GatewayUserRecord) (fp : string) : GatewayPrincipal :=
  mk_principal (a_user_id a) (a_tenant_id a) (a_roles a) (a_scopes a) fp (runtime_of a) "user-registry".

(** [dataclasses.replace] on the groups of fields the operations change. *)
Definition with_archive (archived : bool) (at_ by_ now : string) (a : GatewayUserRecord) : GatewayUserRecord :=
  mk_account (a_user_id a) (a_tenant_id a) (a_email a) (a_roles a) (a_scopes a) false (a_runtime_id a)
    (a_token_hash a) (a_token_fingerprint a) (a_created_at a) now archived at_ by_
    (a_openai_api a) (a_openai_keys a) (a_password_hash a) (a_password_set_at a) (a_display_name a).
Definition with_openai_api (b : bool) (a : GatewayUserRecord) : GatewayUserRecord :=
  mk_account (a_user_id a) (a_tenant_id a) (a_email a) (a_roles a) (a_scopes a) (a_enabled a) (a_runtime_id a)
    (a_token_hash a) (a_token_fingerprint a) (a_created_at a) (a_updated_at a) (a_archived a) (a_archived_at a) (a_archived_by a)
    (Some b) (a_openai_keys a) (a_password_hash a) (a_password_set_at a) (a_display_name a).
Definition with_openai_keys (ks : list OpenAIKeyRecord) (updated : string) (a : GatewayUserRecord) : GatewayUserRecord :=
  mk_account (a_user_id a) (a_tenant_id a) (a_email a) (a_roles a) (a_scopes a) (a_enabled a) (a_runtime_id a)
    (a_token_hash a) (a_token_fingerprint a) (a_created_at a) updated (a_archived a) (a_archived_at a) (a_archived_by a)
    (a_openai_api a) ks (a_password_hash a) (a_password_set_at a) (a_display_name a).
Definition with_password (hash set_at name now : string) (a : GatewayUserRecord) : GatewayUserRecord :=
  mk_account (a_user_id a) (a_tenant_id a) (a_email a) (a_roles a) (a_scopes a) (a_enabled a) (a_runtime_id a)
    (a_token_hash a) (a_token_fingerprint a) (a_created_at a) now (a_archived a) (a_archived_at a) (a_archived_by a)
    (a_openai_api a) (a_openai_keys a) hash set_at name.

(** [GatewayRuntimeReservation] *)
Record GatewayRuntimeReservation := mk_reservation {
  r_tenant_id : string;
  r_runtime_id : string;
  r_owner_key : string;
  r_owner_user_id : string;
  r_reason : string;
  r_created_at : string;
  r_updated_at : string;
}.
Definition reservation_key (r : GatewayRuntimeReservation) : string := pair_key (r_tenant_id r) (r_runtime_id r).
(** [to_storage_dict] and [public_dict] *)
Definition reservation_storage (r : GatewayRuntimeReservation) : dict :=
  [ ("tenant_id", VStr (r_tenant_id r)); ("runtime_id", VStr (r_runtime_id r)); ("owner_key", VStr (r_owner_key r));
    ("owner_user_id", VStr (r_owner_user_id r)); ("reason", VStr (r_reason r));
    ("created_at", VStr (r_created_at r)); ("updated_at", VStr (r_updated_at r)) ].

Definition safe_tenant (t : string) : string := safe_principal_component (VStr t) (Some "default").
Definition safe_name (u : string) : string := safe_principal_component (VStr u) (Some "").
(** [_runtime_reservation_key] *)
Definition runtime_reservation_key (tenant runtime : string) : string := pair_key (safe_tenant tenant) (safe_name runtime).

#[global] Instance key_eq_dec : EqDecision OpenAIKeyRecord.
Proof. solve_decision. Defined.
#[global] Instance account_eq_dec : EqDecision GatewayUserRecord.
Proof. solve_decision. Defined.
#[global] Instance reservation_eq_dec : EqDecision GatewayRuntimeReservation.
Proof. solve_decision. Defined.

(** ** The state *)

(** The text of the file: the JSON of a value, or no JSON. *)
Inductive content := Json (v : val) | NotJson (error : string).
Record registry := mk_registry { users_file : option content; clock_reads : nat }.

Abbreviation accounts := (list (string * GatewayUserRecord)).
Abbreviation reservations := (list (string * GatewayRuntimeReservation)).

Section UserRegistry.
Context (clk : nat -> Z) (sha256_hex : string -> string) (pbkdf2 : string -> string -> Z -> res string).

Definition now_utc_iso : M registry string := fun w =>
  (Ok (isoformat (clk (clock_reads w))), mk_registry (users_file w) (S (clock_reads w))).

(** ** Tokens *)

Definition token_fingerprint (token : string) : string := stake 12 (sha256_hex token).
Definition PBKDF2_ITERATIONS : Z := 260000.

Definition hash_gateway_token (token salt : string) : res string :=
  digest <== pbkdf2 token salt PBKDF2_ITERATIONS;
  Ok ("pbkdf2_sha256$" +:+ str_of_Z PBKDF2_ITERATIONS +:+ "$" +:+ hex salt +:+ "$" +:+ hex digest).

(** Any exception of the body answers [False]. *)
Definition verify_gateway_token (token token_hash : string) : bool :=
  match splitn 3 "$" token_hash with
  | [scheme; iterations_raw; salt_hex; digest_hex] =>
      if negb (String.eqb scheme "pbkdf2_sha256") then false
      else
        match int_of_str iterations_raw, fromhex salt_hex, fromhex digest_hex with
        | Some iterations, Some salt, Some expected =>
            match pbkdf2 token salt iterations with Ok actual => String.eqb actual expected | Raise _ => false end
        | _, _, _ => false
        end
  | _ => false
  end.

(** [generate_gateway_token], [generate_openai_api_key] *)
Definition generate_gateway_token (random : string) : string := "agw_" +:+ random.
Definition generate_openai_api_key (random : string) : string := "sk-agw-" +:+ random.

(** ** Reading records *)

(** [_normalize_str_list] *)
Definition normalize_str_list (value : val) : list string :=
  match value with
  | VList l => List.filter nonempty (map (fun item => strip (str_or item "")) l)
  | _ => split_csv value
  end.

(** [str(raw.get(k) or _now_utc_iso())] *)
Definition text_or_now (v : val) : M registry string :=
  if truthy v then ret (py_str v) else now_utc_iso.

(** [_normalize_record] *)
Definition normalize_account (raw : dict) : M registry GatewayUserRecord :=
  let user_id := safe_principal_component (get_ "user_id" raw) (Some "") in
  let tenant_id := safe_principal_component (get_ "tenant_id" raw) (Some "default") in
  if String.eqb user_id "" then raise (ValueError "user_id is required")
  else
    let roles := normalize_str_list (get_ "roles" raw) in
    let scopes := normalize_str_list (get_ "scopes" raw) in
    created_at <- text_or_now (get_ "created_at" raw) ;;
    let updated_at := str_or (get_ "updated_at" raw) created_at in
    email <- of_res (normalize_email (get_ "email" raw)) ;;
    ret (mk_account user_id tenant_id email
      (match roles with [] => ["user"] | _ => roles end) scopes
      (truthy (default (VBool true) (dget "enabled" raw)))
      (safe_principal_component (py_or (get_ "runtime_id" raw) (VStr user_id)) (Some user_id))
      (str_or (get_ "token_hash" raw) "") (str_or (get_ "token_fingerprint" raw) "")
      created_at updated_at
      (truthy (default (VBool false) (dget "archived" raw)))
      (str_or (get_ "archived_at" raw) "") (str_or (get_ "archived_by" raw) "")
      (match get_ "openai_api" raw with VBool b => Some b | _ => None end)
      (normalize_openai_keys (get_ "openai_keys" raw))
      (str_or (get_ "password_hash" raw) "") (str_or (get_ "password_set_at" raw) "")
      (normalize_display_name (get_ "display_name" raw))).

(** [_normalize_runtime_reservation] *)
Definition normalize_runtime_reservation (raw : dict) : M registry GatewayRuntimeReservation :=
  let tenant_id := safe_principal_component (get_ "tenant_id" raw) (Some "default") in
  let runtime_id := safe_principal_component (get_ "runtime_id" raw) (Some "") in
  let owner_user_id := safe_principal_component (get_ "owner_user_id" raw) (Some "") in
  let owner_key := strip (str_or (get_ "owner_key" raw) "") in
  let owner_key := if String.eqb owner_key "" && nonempty owner_user_id then pair_key tenant_id owner_user_id else owner_key in
  if String.eqb runtime_id "" || String.eqb owner_key ""
  then raise (ValueError "runtime reservation requires runtime_id and owner_key")
  else
    let owner_user_id :=
      match split1 ":" owner_key with
      | Some (_, name) => if String.eqb owner_user_id "" then safe_name name else owner_user_id
      | None => owner_user_id
      end in
    created_at <- text_or_now (get_ "created_at" raw) ;;
    ret (mk_reservation tenant_id runtime_id owner_key owner_user_id (str_or (get_ "reason" raw) "deleted-user")
      created_at (str_or (get_ "updated_at" raw) created_at)).

(** The two loops of [_load_store_unlocked]. A record that is no reservation is
    left out; one that is no account raises. *)
Definition load_reservation (out : reservations) (item : val) : M registry reservations :=
  match item with
  | VDict d =>
      try_ (r <- normalize_runtime_reservation d ;; ret (oset (reservation_key r) r out))
           (fun e => match e with ValueError _ => ret out | _ => raise e end)
  | _ => ret out
  end.
Definition load_account (out : accounts) (item : val) : M registry accounts :=
  match item with
  | VDict d => a <- normalize_account d ;; ret (oset (account_key a) a out)
  | _ => ret out
  end.
Definition field (k : string) (data : val) : val := match data with VDict d => get_ k d | _ => VNone end.
Definition load_data (data : val) : M registry (accounts * reservations) :=
  rv <- (match field "runtime_reservations" data with
         | VList items => fold_ items [] load_reservation
         | _ => ret []
         end) ;;
  match field "users" data with
  | VList items => rs <- fold_ items [] load_account ;; ret (rs, rv)
  | _ => ret ([], rv)
  end.
(** [_load_store_unlocked] *)
Definition load_store : M registry (accounts * reservations) := fun w =>
  match users_file w with
  | None => (Ok ([], []), w)
  | Some (NotJson e) => (Raise (RuntimeError ("Invalid Gateway user registry: " +:+ e)), w)
  | Some (Json data) => load_data data w
  end.

(** [sorted(..., key=lambda r: (r.tenant_id, ...))] *)
Definition pair_leb (a b : string * string) : bool :=
  str_ltb a.1 b.1 || (String.eqb a.1 b.1 && str_leb a.2 b.2).
Definition account_leb (a b : GatewayUserRecord) : bool := pair_leb (a_tenant_id a, a_user_id a) (a_tenant_id b, a_user_id b).
Definition reservation_leb (a b : GatewayRuntimeReservation) : bool :=
  pair_leb (r_tenant_id a, r_runtime_id a) (r_tenant_id b, r_runtime_id b).
Definition sorted_accounts (rs : accounts) : list GatewayUserRecord := py_sorted account_leb (map snd rs).
Definition sorted_reservations (rv : reservations) : list GatewayRuntimeReservation := py_sorted reservation_leb (map snd rv).

Definition REGISTRY_VERSION : Z := 2.
Definition payload (rs : accounts) (rv : reservations) (now : string) : val :=
  VDict [ ("version", VInt REGISTRY_VERSION); ("updated_at", VStr now);
          ("runtime_reservations", VList (map (fun r => VDict (reservation_storage r)) (sorted_reservations rv)));
          ("users", VList (map (fun a => VDict (account_storage a)) (sorted_accounts rs))) ].
(** [_save_store_unlocked] *)
Definition save_store (rs : accounts) (rv : reservations) : M registry unit :=
  now <- now_utc_iso ;;
  modify (fun w => mk_registry (Some (Json (payload rs rv now))) (clock_reads w)).

(** ** Runtimes *)

Definition runtime_taken (rs : accounts) (owner tenant runtime : string) : bool :=
  existsb (fun kv => negb (String.eqb (account_key kv.2) owner) && String.eqb (a_tenant_id kv.2) tenant &&
                     String.eqb (runtime_of kv.2) runtime) rs.
(** [_require_runtime_available_unlocked] *)
Definition require_runtime_available (rs : accounts) (rv : reservations) (tenant runtime owner : string) : res unit :=
  let tenant0 := safe_tenant tenant in
  let runtime0 := safe_name runtime in
  if String.eqb runtime0 "" then Raise (ValueError "runtime_id is required")
  else if runtime_taken rs owner tenant0 runtime0
  then Raise (ValueError ("Gateway runtime already assigned in tenant " +:+ tenant0 +:+ ": " +:+ runtime0))
  else match oget (runtime_reservation_key tenant0 runtime0) rv with
       | Some r =>
           if negb (String.eqb (r_owner_key r) owner)
           then Raise (ValueError ("Gateway runtime already assigned or retained in tenant " +:+ tenant0 +:+ ": " +:+ runtime0))
           else Ok tt
       | None => Ok tt
       end.

(** [_reserve_runtime_unlocked] *)
Definition reserve_runtime (rv : reservations) (a : GatewayUserRecord) (reason : string) : M registry reservations :=
  let tenant := safe_tenant (a_tenant_id a) in
  let runtime := safe_principal_component (VStr (runtime_of a)) (Some (a_user_id a)) in
  if String.eqb runtime "" then ret rv
  else
    now <- now_utc_iso ;;
    let key := runtime_reservation_key tenant runtime in
    let created_at := match oget key rv with Some r => r_created_at r | None => now end in
    ret (oset key (mk_reservation tenant runtime (account_key a) (a_user_id a) reason created_at now) rv).

(** ** Reads *)

Definition list_users : M registry (list GatewayUserRecord) :=
  '(rs, _) <- load_store ;; ret (sorted_accounts rs).
Definition list_runtime_reservations : M registry (list GatewayRuntimeReservation) :=
  '(_, rv) <- load_store ;; ret (sorted_reservations rv).
Definition get_runtime_reservation (tenant runtime : string) : M registry (option GatewayRuntimeReservation) :=
  '(_, rv) <- load_store ;; ret (oget (runtime_reservation_key tenant runtime) rv).
(** The key of a caller's names. *)
Definition asked_key (tenant user : string) : string := pair_key (safe_tenant tenant) (safe_name user).
Definition get_user (user tenant : string) : M registry (option GatewayUserRecord) :=
  '(rs, _) <- load_store ;; ret (oget (asked_key tenant user) rs).

(** ** Accounts *)

Definition opt_list (l : option (list string)) : list string := default [] l.

(** The record [create_user] makes. *)
Definition new_account (user_id tenant_id email : string) (roles scopes : option (list string)) (enabled : bool)
    (runtime : option string) (token_hash fp now : string) : GatewayUserRecord :=
  mk_account user_id tenant_id email (match opt_list roles with [] => ["user"] | l => l end) (opt_list scopes) enabled
    (safe_principal_component (VStr (or_else (default "" runtime) user_id)) (Some user_id))
    token_hash fp now now false "" "" None [] "" "" "".

(** [create_user]; [random] and [salt] are the random parts. *)
Definition create_user (user tenant : string) (roles scopes : option (list string)) (enabled : bool)
    (runtime : option string) (email : val) (token : option string) (random salt : string) :
    M registry (GatewayUserRecord * string) :=
  let user_id := safe_name user in
  let tenant_id := safe_tenant tenant in
  if String.eqb user_id "" then raise (ValueError "user_id is required")
  else
    let issued := or_else (strip (default "" token)) (generate_gateway_token random) in
    now <- now_utc_iso ;;
    email <- of_res (normalize_email email) ;;
    token_hash <- of_res (hash_gateway_token issued salt) ;;
    let a := new_account user_id tenant_id email roles scopes enabled runtime token_hash (token_fingerprint issued) now in
    '(rs, rv) <- load_store ;;
    match oget (account_key a) rs with
    | Some _ => raise (ValueError ("Gateway user already exists: " +:+ tenant_id +:+ "/" +:+ user_id))
    | None =>
        of_res (require_runtime_available rs rv (a_tenant_id a) (runtime_of a) (account_key a)) ;;;
        save_store (oset (account_key a) a rs) (opop (runtime_reservation_key (a_tenant_id a) (runtime_of a)) rv) ;;;
        ret (a, issued)
    end.

Definition user_not_found (tenant user : string) : exn :=
  KeyError ("Gateway user not found: " +:+ tenant +:+ "/" +:+ user).

(** [update_user]; [None] leaves a field. *)
Definition update_user (user tenant : string) (roles scopes : option (list string)) (enabled : option bool)
    (runtime : option string) (email : option string) (token : option string) (openai_api : option bool)
    (random salt : string) : M registry (GatewayUserRecord * option string) :=
  let key := asked_key tenant user in
  '(rs, rv) <- load_store ;;
  match oget key rs with
  | None => raise (user_not_found tenant user)
  | Some a =>
      if is_entity a && (bool_decide (is_Some token) || bool_decide (is_Some roles) || bool_decide (is_Some runtime))
      then raise (EntityPrincipalGuardError ("this principal belongs to summoned entity '" +:+ a_user_id a +:+ "'"))
      else if a_archived a && default false enabled then raise (AccountArchivedError (a_user_id a))
      else
        let issued := option_map (fun t => or_else (strip t) (generate_gateway_token random)) token in
        token_hash <- of_res (match issued with Some t => hash_gateway_token t salt | None => Ok (a_token_hash a) end) ;;
        let token_fp := match issued with Some t => token_fingerprint t | None => a_token_fingerprint a end in
        email <- of_res (match email with Some e => normalize_email (VStr e) | None => Ok (a_email a) end) ;;
        now <- now_utc_iso ;;
        let updated := mk_account (a_user_id a) (a_tenant_id a) email (default (a_roles a) roles) (default (a_scopes a) scopes)
          (default (a_enabled a) enabled)
          (safe_principal_component (VStr (or_else (default "" runtime) (a_runtime_id a))) (Some (a_user_id a)))
          token_hash token_fp (a_created_at a) now (a_archived a) (a_archived_at a) (a_archived_by a)
          (match openai_api with Some b => Some b | None => a_openai_api a end) (a_openai_keys a)
          (a_password_hash a) (a_password_set_at a) (a_display_name a) in
        of_res (require_runtime_available rs rv (a_tenant_id updated) (runtime_of updated) (account_key updated)) ;;;
        rv <- (if String.eqb (runtime_of a) (runtime_of updated) then ret rv
               else reserve_runtime rv a "runtime-reassigned") ;;
        save_store (oset key updated rs) (opop (runtime_reservation_key (a_tenant_id updated) (runtime_of updated)) rv) ;;;
        ret (updated, issued)
  end.

(** A change of one record: [records[key] = f(rec)], then the write. *)
Definition put_account (key : string) (a : GatewayUserRecord) (rs : accounts) (rv : reservations) : M registry unit :=
  save_store (oset key a rs) rv.

Definition set_archived (user tenant : string) (archived : bool) (actor : string) : M registry GatewayUserRecord :=
  let key := asked_key tenant user in
  '(rs, rv) <- load_store ;;
  match oget key rs with
  | None => raise (user_not_found tenant user)
  | Some a =>
      now <- now_utc_iso ;;
      let updated := if archived then with_archive true now actor now a else with_archive false "" "" now a in
      put_account key updated rs rv ;;; ret updated
  end.

(** [migrate_openai_api_default] *)
Definition lacks_openai_api (a : GatewayUserRecord) : bool :=
  negb (is_entity a) && bool_decide (a_openai_api a = None).
Definition migrated (a : GatewayUserRecord) : GatewayUserRecord :=
  if lacks_openai_api a then with_openai_api (a_enabled a && negb (a_archived a)) a else a.
Definition map_accounts (f : GatewayUserRecord -> GatewayUserRecord) (rs : accounts) : accounts :=
  map (fun kv => (kv.1, f kv.2)) rs.
Definition migrate_openai_api_default : M registry Z :=
  '(rs, rv) <- load_store ;;
  let changed := Z.of_nat (length (List.filter (fun kv => lacks_openai_api kv.2) rs)) in
  (if changed =? 0 then ret tt else save_store (map_accounts migrated rs) rv) ;;;
  ret changed.

(** [transfer_runtime_reservation] *)
Definition transfer_runtime_reservation (tenant runtime target : string) :
    M registry (GatewayUserRecord * GatewayRuntimeReservation * string) :=
  let tenant0 := safe_tenant tenant in
  let runtime0 := safe_name runtime in
  let target0 := safe_name target in
  if String.eqb runtime0 "" then raise (ValueError "runtime_id is required")
  else if String.eqb target0 "" then raise (ValueError "target_user_id is required")
  else
    let rkey := runtime_reservation_key tenant0 runtime0 in
    '(rs, rv) <- load_store ;;
    match oget rkey rv with
    | None => raise (KeyError ("Gateway runtime reservation not found: " +:+ tenant0 +:+ "/" +:+ runtime0))
    | Some r =>
        if String.eqb (r_reason r) "purging"
        then raise (ValueError ("Gateway runtime purge is already in progress: " +:+ tenant0 +:+ "/" +:+ runtime0))
        else
          match oget (pair_key tenant0 target0) rs with
          | None => raise (user_not_found tenant0 target0)
          | Some t =>
              if is_entity t
              then raise (EntityPrincipalGuardError ("target principal belongs to summoned entity '" +:+ a_user_id t +:+ "'"))
              else if runtime_taken rs (account_key t) tenant0 runtime0
              then raise (ValueError ("Gateway runtime already assigned in tenant " +:+ tenant0 +:+ ": " +:+ runtime0))
              else
                let previous := safe_principal_component (VStr (runtime_of t)) (Some (a_user_id t)) in
                now <- now_utc_iso ;;
                let updated := mk_account (a_user_id t) (a_tenant_id t) (a_email t) (a_roles t) (a_scopes t) (a_enabled t)
                  runtime0 (a_token_hash t) (a_token_fingerprint t) (a_created_at t) now
                  (a_archived t) (a_archived_at t) (a_archived_by t) (a_openai_api t) (a_openai_keys t)
                  (a_password_hash t) (a_password_set_at t) (a_display_name t) in
                rv <- (if String.eqb previous runtime0 then ret rv else reserve_runtime rv t "runtime-transferred") ;;
                save_store (oset (account_key t) updated rs) (opop rkey rv) ;;;
                ret (updated, r, previous)
          end
    end.

(** ** Named keys *)

Definition account_not_found (user : string) : exn :=
  OpenAIKeyError 404 "account_not_found" ("There is no account named " +:+ repr_str user +:+ " on this gateway.").
Definition live_fingerprints (rs : accounts) : list string :=
  flat_map (fun kv => map k_fingerprint (a_openai_keys kv.2)) rs.

(** [create_openai_key]; [seal] is the caller's key store. *)
Definition create_openai_key (user tenant label created_by : string)
    (seal : option (string -> string -> list string -> res bool)) (random salt : string) :
    M registry (OpenAIKeyRecord * string) :=
  let text := join " " (words label) in
  if String.eqb text "" then raise (OpenAIKeyError 400 "label_required" "Give the key a name, for example the app that will use it.")
  else if Z.of_nat OPENAI_KEY_LABEL_MAX <? len text
  then raise (OpenAIKeyError 400 "label_too_long" "A key name has at most 80 characters.")
  else
    let key := asked_key tenant user in
    '(rs, rv) <- load_store ;;
    match oget key rs with
    | None => raise (account_not_found user)
    | Some a =>
        if is_entity a then raise (OpenAIKeyError 409 "entity_no_key" "Entities never use the OpenAI API, so they have no API keys.")
        else if a_archived a then raise (OpenAIKeyError 409 "archived" (a_user_id a +:+ " is archived: unarchive it first."))
        else if existsb (fun k => String.eqb (casefold (k_label k)) (casefold text)) (a_openai_keys a)
        then raise (OpenAIKeyError 409 "label_taken" ("There is already a key named " +:+ repr_str text +:+ ": choose another name."))
        else
          let issued := generate_openai_api_key random in
          let fp := token_fingerprint issued in
          sealed <- of_res (match seal with Some f => f fp issued (fp :: live_fingerprints rs) | None => Ok false end) ;;
          key_hash <- of_res (hash_gateway_token issued salt) ;;
          created_at <- now_utc_iso ;;
          let item := mk_key text key_hash fp created_at created_by sealed in
          now <- now_utc_iso ;;
          put_account key (with_openai_keys (a_openai_keys a ++ [item]) now a) rs rv ;;;
          ret (item, issued)
    end.

Definition is_key (fp : string) (k : OpenAIKeyRecord) : bool := String.eqb (k_fingerprint k) fp.
Definition revoke_openai_key (user tenant fingerprint : string) : M registry OpenAIKeyRecord :=
  let key := asked_key tenant user in
  let fp := lower (strip fingerprint) in
  '(rs, rv) <- load_store ;;
  match oget key rs with
  | None => raise (account_not_found user)
  | Some a =>
      match List.find (is_key fp) (a_openai_keys a) with
      | None => raise (OpenAIKeyError 404 "key_not_found" "There is no such key on this account (already revoked?).")
      | Some gone =>
          now <- now_utc_iso ;;
          put_account key (with_openai_keys (List.filter (fun k => negb (is_key fp k)) (a_openai_keys a)) now a) rs rv ;;;
          ret gone
      end
  end.

Definition unsealed_key (k : OpenAIKeyRecord) : OpenAIKeyRecord :=
  mk_key (k_label k) (k_key_hash k) (k_fingerprint k) (k_created_at k) (k_created_by k) false.
Definition unsealed (a : GatewayUserRecord) : GatewayUserRecord :=
  if existsb k_sealed (a_openai_keys a) then with_openai_keys (map unsealed_key (a_openai_keys a)) (a_updated_at a) a else a.
Definition clear_openai_key_seals : M registry Z :=
  '(rs, rv) <- load_store ;;
  let changed := Z.of_nat (length (List.filter k_sealed (flat_map (fun kv => a_openai_keys kv.2) rs))) in
  (if changed =? 0 then ret tt else save_store (map_accounts unsealed rs) rv) ;;;
  ret changed.

Definition openai_key_fingerprints : M registry (list string) :=
  '(rs, _) <- load_store ;; ret (live_fingerprints rs).

(** The first record, in the order of the file, with a key or token that verifies. *)
Definition find_key (key : string) (a : GatewayUserRecord) : option OpenAIKeyRecord :=
  List.find (fun k => is_key (token_fingerprint key) k && verify_gateway_token key (k_key_hash k)) (a_openai_keys a).
Fixpoint find_key_owner (key : string) (rs : accounts) : option (GatewayUserRecord * OpenAIKeyRecord) :=
  match rs with
  | [] => None
  | (_, a) :: rs => match find_key key a with Some k => Some (a, k) | None => find_key_owner key rs end
  end.
Definition openai_key_owner (key : string) : M registry (option (GatewayUserRecord * OpenAIKeyRecord)) :=
  if String.eqb key "" then ret None
  else '(rs, _) <- load_store ;; ret (find_key_owner key rs).

(** ** Passwords and names *)

Definition set_password (user tenant hash : string) (name : option string) : M registry GatewayUserRecord :=
  let key := asked_key tenant user in
  '(rs, rv) <- load_store ;;
  match oget key rs with
  | None => raise (user_not_found tenant user)
  | Some a =>
      if is_entity a
      then raise (EntityPrincipalGuardError ("'" +:+ a_user_id a +:+ "' is a summoned entity: entities sign in through their door, never with a password"))
      else
        now <- now_utc_iso ;;
        let updated := with_password hash (if String.eqb hash "" then "" else now)
          (match name with Some n => normalize_display_name (VStr n) | None => a_display_name a end) now a in
        put_account key updated rs rv ;;; ret updated
  end.

Definition set_display_name (user tenant name : string) : M registry GatewayUserRecord :=
  let key := asked_key tenant user in
  '(rs, rv) <- load_store ;;
  match oget key rs with
  | None => raise (user_not_found tenant user)
  | Some a =>
      now <- now_utc_iso ;;
      let updated := with_password (a_password_hash a) (a_password_set_at a) (normalize_display_name (VStr name)) now a in
      put_account key updated rs rv ;;; ret updated
  end.

Definition named (tenant wanted : string) (a : GatewayUserRecord) : bool :=
  String.eqb (a_tenant_id a) tenant && negb (is_entity a) && nonempty (a_display_name a) &&
  String.eqb (casefold (a_display_name a)) wanted.
Definition find_sign_in_account (account tenant : string) : M registry (option GatewayUserRecord) :=
  let text := strip account in
  if String.eqb text "" then ret None
  else
    let tenant0 := safe_tenant tenant in
    '(rs, _) <- load_store ;;
    let user0 := safe_name text in
    let by_id := if String.eqb user0 "" then None else oget (pair_key tenant0 user0) rs in
    let by_name :=
      match List.filter (named tenant0 (casefold (normalize_display_name (VStr text)))) (map snd rs) with
      | [a] => Some a
      | _ => None
      end in
    ret (match by_id with
         | Some a => if is_entity a then by_name else Some a
         | None => by_name
         end).

(** ** Tokens presented *)

Definition is_active (a : GatewayUserRecord) : bool := a_enabled a && negb (a_archived a).
Definition token_opens (token : string) (a : GatewayUserRecord) : bool :=
  is_active a && nonempty (a_token_hash a) && verify_gateway_token token (a_token_hash a).
Definition authenticate (token : string) : M registry (option GatewayPrincipal) :=
  if String.eqb token "" then ret None
  else
    '(rs, _) <- load_store ;;
    ret (option_map (fun a => account_principal a (token_fingerprint token)) (List.find (token_opens token) (map snd rs))).

Definition inactive_owner (token : string) (a : GatewayUserRecord) : bool :=
  negb (is_active a) && nonempty (a_token_hash a) && String.eqb (a_token_fingerprint a) (token_fingerprint token) &&
  verify_gateway_token token (a_token_hash a).
Definition inactive_record_for (token : string) : M registry (option GatewayUserRecord) :=
  if String.eqb token "" then ret None
  else '(rs, _) <- load_store ;; ret (List.find (inactive_owner token) (map snd rs)).
End UserRegistry.
