(* ===== verification/UserRegistryFile.v ===== *)
(** * The user registry: what is written is read back

    The stored form of records and its reading, the invariant of what a file
    gives ([store_ok]), and the hash of a token. *)

From S2P Require Import Prelude PyStr PyVal PyNum PyText OrdDict IsoTime Principal Sessions UserRegistry.

(** ** Texts *)

Lemma isoformat_nonempty t : isoformat t <> "".
Proof. unfold isoformat. by destruct (civil_from_days _) as [[y m] d]. Qed.

Lemma safe_component_empty_or_good v s :
  safe_principal_component v (Some "") = s -> s = "" \/ good_fallback s = true.
Proof.
  intros <-. unfold safe_principal_component. cbn [default].
  match goal with |- context[strip_by _ ?t] => set (raw := t) end.
  destruct (String.eqb_spec (strip_by dot_or_underscore raw) "") as [|Hne]; [by left|right].
  unfold good_fallback. rewrite strip_by_idemp, String.eqb_refl, andb_true_r. apply andb_true_iff. split.
  - by destruct (String.eqb_spec (strip_by dot_or_underscore raw) "").
  - apply forall_chars_strip_by, sub_unsafe_safe.
Qed.
Lemma safe_tenant_good t : good_fallback (safe_tenant t) = true.
Proof. by apply safe_component_shape. Qed.
Lemma safe_tenant_id t : good_fallback t = true -> safe_tenant t = t.
Proof. apply safe_component_id. Qed.
Lemma safe_name_id u : good_fallback u = true -> safe_name u = u.
Proof. apply safe_component_id. Qed.
Lemma safe_name_good u : safe_name u <> "" -> good_fallback (safe_name u) = true.
Proof. intros H. by destruct (safe_component_empty_or_good (VStr u) _ eq_refl). Qed.
Lemma safe_component_fallback u : good_fallback u = true -> safe_principal_component (VStr "") (Some u) = u.
Proof.
  intros H. change (safe_principal_component (VStr "") (Some u)) with
    (let cleaned := strip_by dot_or_underscore (sub_unsafe false u) in if String.eqb cleaned "" then u else cleaned).
  unfold good_fallback in H. rewrite !andb_true_iff, negb_true_iff, String.eqb_eq in H. destruct H as [[Hne Hs] Hst].
  cbv zeta. rewrite sub_unsafe_id, Hst by done. by rewrite Hne.
Qed.
Lemma good_nonempty s : good_fallback s = true -> s <> "".
Proof. by intros H ->. Qed.
Lemma good_no_colon s : good_fallback s = true -> has_char ":" s = false.
Proof. unfold good_fallback. rewrite !andb_true_iff. intros [[_ Hs] _]. by eapply forall_chars_no. Qed.

Lemma pair_key_split t n : has_char ":" t = false -> split1 ":" (pair_key t n) = Some (t, n).
Proof. intros. by apply split1_app. Qed.
Lemma pair_key_inj t n t' n' :
  good_fallback t = true -> good_fallback t' = true -> pair_key t n = pair_key t' n' -> t = t' /\ n = n'.
Proof.
  intros Ht Ht' He. pose proof (pair_key_split t n (good_no_colon t Ht)) as H1.
  rewrite He, pair_key_split in H1 by (by apply good_no_colon). by simplify_eq.
Qed.
Lemma pair_key_strip t n : good_fallback t = true -> good_fallback n = true -> strip (pair_key t n) = pair_key t n.
Proof.
  intros Ht Hn. apply strip_no_space. unfold good_fallback in Ht, Hn. rewrite !andb_true_iff in Ht, Hn.
  unfold pair_key. rewrite !forall_chars_app.
  assert (forall s, forall_chars safe_char s = true -> forall_chars (fun c => negb (is_space c)) s = true) as Hs.
  { intros s. apply forall_chars_weaken. intros x Hx. by rewrite safe_not_space. }
  by rewrite (Hs t), (Hs n) by tauto.
Qed.
Lemma pair_key_nonempty t n : good_fallback t = true -> pair_key t n <> "".
Proof. intros H. by destruct t. Qed.
Lemma or_else_nonempty a b : a <> "" -> or_else a b = a.
Proof. unfold or_else. by destruct (String.eqb_spec a ""). Qed.
Lemma py_or_str s v : s <> "" -> py_or (VStr s) v = VStr s.
Proof. intros H. unfold py_or. simpl. by destruct (String.eqb_spec s ""). Qed.

Lemma nonempty_true s : nonempty s = true <-> s <> "".
Proof. unfold nonempty. rewrite negb_true_iff. apply String.eqb_neq. Qed.
Lemma nonempty_false s : nonempty s = false <-> s = "".
Proof. unfold nonempty. rewrite negb_false_iff. apply String.eqb_eq. Qed.

(** ** The email address *)

Lemma exists_char_forall f s : exists_char f s = negb (forall_chars (fun c => negb (f c)) s).
Proof. induction s as [|c s IH]; simpl; [done|]. rewrite IH. by destruct (f c). Qed.
Lemma exists_char_lower f s : (forall c, f (lower_ascii c) = f c) -> exists_char f (lower s) = exists_char f s.
Proof. intros Hf. unfold lower. induction s as [|c s IH]; simpl; [done|]. by rewrite Hf, IH. Qed.
Lemma split1_lower s : split1 "@" (lower s) = (fun p => (lower p.1, lower p.2)) <$> split1 "@" s.
Proof.
  unfold lower. induction s as [|c s IH]; [done|]. cbn [smap split1].
  assert (Ascii.eqb "@" (lower_ascii c) = Ascii.eqb "@" c) as -> by (by destruct c as [[] [] [] [] [] [] [] []]).
  destruct (Ascii.eqb "@" c); [done|]. rewrite IH. by destruct (split1 "@" s) as [[a b]|].
Qed.
Lemma lower_nil s : String.eqb (lower s) "" = String.eqb s "".
Proof. by destruct s. Qed.

(** An accepted address is its own normal form. *)
Lemma normalize_email_stable v e : normalize_email v = Ok e -> normalize_email (VStr e) = Ok e.
Proof.
  unfold normalize_email. set (raw := strip (str_or v "")).
  assert (strip raw = raw) as Hraw by apply strip_idemp. clearbody raw.
  destruct (String.eqb raw "") eqn:E0; [by intros [= <-]|].
  destruct ((254 <? len raw) || _) eqn:E1; [done|].
  destruct (exists_char _ raw) eqn:E2; [done|].
  destruct (default _ _) as [local domain] eqn:E3. destruct (String.eqb (strip local) "" || _) eqn:E4; [done|]. intros [= <-].
  assert (str_or (VStr (lower raw)) "" = lower raw) as -> by apply str_or_self.
  rewrite strip_lower, Hraw, lower_nil, E0.
  assert (len (lower raw) = len raw) as -> by (unfold len, lower; by rewrite length_smap).
  rewrite count_char_lower, E1, exists_char_lower by (by intros [[] [] [] [] [] [] [] []]).
  rewrite E2, split1_lower.
  assert (default (lower raw, "") ((fun p => (lower p.1, lower p.2)) <$> split1 "@" raw) = (lower local, lower domain)) as ->.
  { destruct (split1 "@" raw) as [[]|]; simpl in *; by simplify_eq. }
  rewrite !strip_lower, lower_nil. unfold has_char in *. rewrite exists_char_lower by (by intros [[] [] [] [] [] [] [] []]).
  by rewrite E4, lower_idemp.
Qed.

(** ** The display name *)

Lemma display_name_settled v :
  let n := fun s => normalize_display_name (VStr s) in
  n (n (normalize_display_name v)) = n (normalize_display_name v).
Proof.
  cbv zeta. unfold normalize_display_name at 3 5. set (t := stake _ (sfilter _ (join _ (words (str_or v ""))))).
  assert (forall_chars is_printable t = true) as Hp by apply forall_chars_stake, forall_chars_sfilter.
  assert (String.length t <= 80)%nat as Hl by apply length_stake. clearbody t. clear v.
  assert (forall s, forall_chars is_printable s = true -> (String.length s <= 80)%nat ->
    normalize_display_name (VStr s) = join " " (words s)) as Hn.
  { intros s Hs Hsl. unfold normalize_display_name. rewrite str_or_self, sfilter_id.
    - apply stake_all. etrans; [apply length_join_words|]. done.
    - apply forall_chars_join; [done|]. eapply Forall_impl; [by apply (words_from_Forall is_printable)|]. by intros w [_ ?]. }
  rewrite (Hn t) by done. rewrite Hn, words_join; [done|apply words_words| |].
  - apply forall_chars_join; [done|]. eapply Forall_impl; [by apply (words_from_Forall is_printable)|]. by intros w [_ ?].
  - etrans; [apply length_join_words|]. done.
Qed.

(** ** What a record becomes when it is written and read *)

(** Of two keys with one fingerprint the first is kept. *)
Definition canon_keys (ks : list OpenAIKeyRecord) : list OpenAIKeyRecord :=
  normalize_openai_items [] (map (fun k => VDict (key_storage k)) ks).
Definition norm_texts (l : list string) : list string := List.filter nonempty (map strip l).
Definition canon (a : GatewayUserRecord) : GatewayUserRecord :=
  let shelved := a_archived a || nonempty (a_archived_at a) in
  mk_account (a_user_id a) (a_tenant_id a) (a_email a)
    (match norm_texts (a_roles a) with [] => ["user"] | l => l end) (norm_texts (a_scopes a)) (a_enabled a)
    (runtime_of a) (a_token_hash a) (a_token_fingerprint a) (a_created_at a) (a_updated_at a)
    (a_archived a) (if shelved then a_archived_at a else "") (if shelved then a_archived_by a else "")
    (a_openai_api a) (canon_keys (a_openai_keys a))
    (a_password_hash a) (if nonempty (a_password_hash a) then a_password_set_at a else "")
    (normalize_display_name (VStr (a_display_name a))).

Definition key_ok (k : OpenAIKeyRecord) : Prop :=
  k_key_hash k <> "" /\ k_fingerprint k <> "" /\ (String.length (k_label k) <= OPENAI_KEY_LABEL_MAX)%nat.
Definition keys_ok (ks : list OpenAIKeyRecord) : Prop := Forall key_ok ks /\ NoDup (map k_fingerprint ks).

(** A record the file keeps. *)
Record storable (a : GatewayUserRecord) : Prop := {
  st_user : good_fallback (a_user_id a) = true;
  st_tenant : good_fallback (a_tenant_id a) = true;
  st_runtime : good_fallback (runtime_of a) = true;
  st_email : normalize_email (VStr (a_email a)) = Ok (a_email a);
  st_created : a_created_at a <> "";
  st_updated : a_updated_at a <> "";
}.
Record storable_reservation (r : GatewayRuntimeReservation) : Prop := {
  sr_tenant : good_fallback (r_tenant_id r) = true;
  sr_runtime : good_fallback (r_runtime_id r) = true;
  sr_owner : r_owner_key r <> "" /\ strip (r_owner_key r) = r_owner_key r;
  sr_owner_user : (r_owner_user_id r = "" /\ forall t n, split1 ":" (r_owner_key r) = Some (t, n) -> safe_name n = "") \/
                  good_fallback (r_owner_user_id r) = true;
  sr_reason : r_reason r <> "";
  sr_created : r_created_at r <> "";
  sr_updated : r_updated_at r <> "";
}.

Lemma strip_of_item s : strip (str_or (VStr s) "") = strip s.
Proof. by rewrite str_or_self. Qed.
Lemma normalize_str_list_strs l : normalize_str_list (VList (map VStr l)) = norm_texts l.
Proof.
  unfold normalize_str_list, norm_texts. rewrite map_map. f_equal. apply map_ext. intros s. apply strip_of_item.
Qed.

Lemma get_key_storage k :
  get_ "key_hash" (key_storage k) = VStr (k_key_hash k) /\ get_ "fingerprint" (key_storage k) = VStr (k_fingerprint k) /\
  get_ "label" (key_storage k) = VStr (k_label k) /\ get_ "created_at" (key_storage k) = VStr (k_created_at k) /\
  get_ "created_by" (key_storage k) = VStr (k_created_by k) /\
  match get_ "sealed" (key_storage k) with VBool true => true | _ => false end = k_sealed k.
Proof. by destruct k as [? ? ? ? ? []]. Qed.

Lemma normalize_openai_storage ks seen :
  Forall key_ok ks -> NoDup (map k_fingerprint ks) -> (forall k, k ∈ ks -> k_fingerprint k ∉ seen) ->
  normalize_openai_items seen (map (fun k => VDict (key_storage k)) ks) = ks.
Proof.
  intros Hok Hnd. revert seen. induction Hok as [|k ks (Hh & Hf & Hl) Hks IH]; intros seen Hseen; [done|].
  cbn [map normalize_openai_items normalize_openai_key].
  destruct (get_key_storage k) as (-> & -> & -> & -> & -> & ->). cbn [map] in Hnd. apply NoDup_cons in Hnd as [Hk Hnd].
  rewrite !str_or_self, stake_all by done.
  rewrite !(proj2 (String.eqb_neq _ _)) by done. rewrite bool_decide_eq_false_2 by (apply Hseen; constructor). cbn [orb].
  replace (mk_key (k_label k) (k_key_hash k) (k_fingerprint k) (k_created_at k) (k_created_by k) (k_sealed k)) with k by (by destruct k).
  rewrite IH; [done|done|]. intros j Hj. apply not_elem_of_cons. split; [|apply Hseen; by constructor].
  intros He. apply Hk. rewrite <- He. by apply list_elem_of_fmap_2.
Qed.

Lemma dget_skip k l d : dget k l = None -> dget k (l ++ d) = dget k d.
Proof. intros H. by rewrite dget_app, H. Qed.

(** Keys that are well-formed are read as they are; what is read is, and comes from
    what was written. *)
Lemma canon_keys_id ks : keys_ok ks -> canon_keys ks = ks.
Proof. intros [Hok Hnd]. apply normalize_openai_storage; [done|done|]. intros. apply not_elem_of_nil. Qed.

(** Reading a field of a stored record. *)
Lemma get_account_storage a :
  let d := account_storage a in
  let shelved := a_archived a || nonempty (a_archived_at a) in
  (get_ "user_id" d = VStr (a_user_id a) /\ get_ "tenant_id" d = VStr (a_tenant_id a) /\ get_ "email" d = VStr (a_email a) /\
   get_ "roles" d = VList (map VStr (a_roles a)) /\ get_ "scopes" d = VList (map VStr (a_scopes a)) /\
   dget "enabled" d = Some (VBool (a_enabled a)) /\ get_ "runtime_id" d = VStr (runtime_of a) /\
   get_ "token_hash" d = VStr (a_token_hash a) /\ get_ "token_fingerprint" d = VStr (a_token_fingerprint a) /\
   get_ "created_at" d = VStr (a_created_at a) /\ get_ "updated_at" d = VStr (a_updated_at a)) /\
  truthy (default (VBool false) (dget "archived" d)) = a_archived a /\
  str_or (get_ "archived_at" d) "" = (if shelved then a_archived_at a else "") /\
  str_or (get_ "archived_by" d) "" = (if shelved then a_archived_by a else "") /\
  (match get_ "openai_api" d with VBool b => Some b | _ => None end) = a_openai_api a /\
  normalize_openai_keys (get_ "openai_keys" d) = canon_keys (a_openai_keys a) /\
  str_or (get_ "password_hash" d) "" = a_password_hash a /\
  str_or (get_ "password_set_at" d) "" = (if nonempty (a_password_hash a) then a_password_set_at a else "") /\
  normalize_display_name (get_ "display_name" d) = normalize_display_name (VStr (a_display_name a)).
Proof.
  cbv zeta. split; [by split_and!|]. unfold get_, account_storage.
  split_and!; repeat (rewrite dget_skip by (first [reflexivity|case_match; reflexivity]));
    destruct a as [? ? ? ? ? ? ? ? ? ? ? arch arch_at arch_by api keys hash set_at name].
  1-3: destruct arch, arch_at; first [reflexivity|apply str_or_self|destruct api as [[]|], keys, hash, name; reflexivity].
  - by destruct api as [[]|], keys, hash, name.
  - by destruct keys, hash, name.
  - destruct hash, name; try reflexivity; apply str_or_self.
  - destruct hash, name; try reflexivity; apply str_or_self.
  - by destruct name.
Qed.

(** ** One record *)

Section File.
Context (clk : nat -> Z).

Lemma text_or_now_str s w : s <> "" -> text_or_now clk (VStr s) w = (Ok s, w).
Proof. intros H. unfold text_or_now. simpl. by destruct (String.eqb_spec s ""). Qed.

(** A stored account is read as its canonical form; the clock is not read. *)
Lemma normalize_account_storage a w :
  storable a -> normalize_account clk (account_storage a) w = (Ok (canon a), w).
Proof.
  intros [Hu Ht Hr He Hc Hup].
  destruct (get_account_storage a) as
    ((E1 & E2 & E3 & E4 & E5 & E6 & E7 & E8 & E9 & E10 & E11) & E12 & E13 & E14 & E15 & E16 & E17 & E18 & E19).
  unfold normalize_account. rewrite E1, E2, E3, E4, E5, E6, E7, E8, E9, E10, E11, E12, E13, E14, E15, E16, E17, E18, E19.
  rewrite !safe_component_id by done. rewrite (proj2 (String.eqb_neq _ _)) by (by apply good_nonempty).
  unfold mbind_. rewrite text_or_now_str, He by done. unfold of_res, ret. rewrite !normalize_str_list_strs.
  rewrite py_or_str by (by apply good_nonempty). rewrite safe_component_id, !str_or_self, str_or_str by done. unfold canon. by destruct (norm_texts (a_roles a)).
Qed.

Lemma get_reservation_storage r :
  let d := reservation_storage r in
  get_ "tenant_id" d = VStr (r_tenant_id r) /\ get_ "runtime_id" d = VStr (r_runtime_id r) /\
  get_ "owner_key" d = VStr (r_owner_key r) /\ get_ "owner_user_id" d = VStr (r_owner_user_id r) /\
  get_ "reason" d = VStr (r_reason r) /\ get_ "created_at" d = VStr (r_created_at r) /\ get_ "updated_at" d = VStr (r_updated_at r).
Proof. by split_and!. Qed.

Lemma normalize_reservation_storage r w :
  storable_reservation r -> normalize_runtime_reservation clk (reservation_storage r) w = (Ok r, w).
Proof.
  intros [Ht Hr [Ho Hos] Hou Hre Hc Hup]. destruct r as [t rt owner user reason created updated].
  cbn [r_tenant_id r_runtime_id r_owner_key r_owner_user_id r_reason r_created_at r_updated_at] in *.
  unfold normalize_runtime_reservation.
  destruct (get_reservation_storage (mk_reservation t rt owner user reason created updated)) as (-> & -> & -> & -> & -> & -> & ->).
  cbn [r_tenant_id r_runtime_id r_owner_key r_owner_user_id r_reason r_created_at r_updated_at].
  rewrite (safe_component_id t), (safe_component_id rt), !str_or_self, Hos by done.
  assert (safe_principal_component (VStr user) (Some "") = user) as ->.
  { destruct Hou as [[-> _]|]; [done|by apply safe_component_id]. }
  rewrite (proj2 (String.eqb_neq owner "")), (proj2 (String.eqb_neq rt "")) by (done || by apply good_nonempty). cbn [andb orb].
  assert (match split1 ":" owner with Some (_, name) => if String.eqb user "" then safe_name name else user | None => user end = user) as ->.
  { destruct (split1 ":" owner) as [[t' n]|] eqn:E; [|done]. destruct Hou as [[-> Hn]|Hg]; [by apply (Hn t')|].
    by rewrite (proj2 (String.eqb_neq user "")) by (by apply good_nonempty). }
  cbn match. rewrite (proj2 (String.eqb_neq owner "")) by done. unfold mbind_. rewrite text_or_now_str by done. by rewrite !str_or_str.
Qed.

(** A JSON value; a float has a text. *)
Definition is_real (v : val) : Prop := match v with VFloat r => r <> "" | _ => True end.

Lemma pretty_N_go_nonempty x s : s <> "" -> pretty_N_go x s <> "".
Proof.
  revert s. induction (N.lt_wf_0 x) as [x _ IH]; intros s Hs.
  destruct (decide (x = 0)%N) as [->|Hx]; [by rewrite pretty_N_go_0|].
  rewrite pretty_N_go_step by lia. apply IH; [apply N.div_lt; lia|done].
Qed.
Lemma str_of_Z_nonempty z : str_of_Z z <> "".
Proof.
  unfold str_of_Z, pretty, pretty_Z. destruct z as [|p|p]; [done| |done].
  change (pretty_N (Npos p) <> ""). unfold pretty_N. rewrite decide_False by done. rewrite pretty_N_go_step by lia.
  apply pretty_N_go_nonempty. done.
Qed.
Lemma py_str_truthy v : truthy v = true -> is_real v -> py_str v <> "".
Proof.
  destruct v as [|[]|z|r|s|l|d]; simpl; try done.
  - intros _ _. apply str_of_Z_nonempty.
  - intros H _ ->. done.
Qed.
Lemma str_or_nonempty v d : is_real v -> d <> "" -> str_or v d <> "".
Proof. intros Hv Hd. unfold str_or, py_or. destruct (truthy v) eqn:E; [by apply py_str_truthy|done]. Qed.
Lemma text_or_now_spec v w :
  is_real v -> exists s w', text_or_now clk v w = (Ok s, w') /\ s <> "" /\ users_file w' = users_file w.
Proof.
  intros Hv. unfold text_or_now. destruct (truthy v) eqn:E.
  - do 2 eexists. split; [done|]. split; [by apply py_str_truthy|done].
  - do 2 eexists. split; [done|]. split; [apply isoformat_nonempty|done].
Qed.

Lemma normalize_items_ok l : forall seen,
  Forall key_ok (normalize_openai_items seen l) /\ NoDup (map k_fingerprint (normalize_openai_items seen l)) /\
  forall k, k ∈ normalize_openai_items seen l -> k_fingerprint k ∉ seen.
Proof.
  induction l as [|item l IH]; intros seen; cbn [normalize_openai_items].
  { split_and!; [constructor|constructor|]. intros k Hk. by apply not_elem_of_nil in Hk. }
  destruct (normalize_openai_key seen item) as [k|] eqn:E; [|apply IH].
  destruct (IH (k_fingerprint k :: seen)) as (Hok & Hnd & Hseen).
  destruct item as [| | | | | |d]; try done. cbn [normalize_openai_key] in E.
  destruct (String.eqb _ "" || String.eqb _ "" || bool_decide _) eqn:Eb; [done|]. bool_to_prop. apply (inj Some) in E. subst k.
  cbn [k_fingerprint map] in *.
  split_and!.
  - constructor; [|done]. split_and!; [done|done|]. apply length_stake.
  - apply NoDup_cons. split; [|done]. intros (j & Hj & Hin)%list_elem_of_fmap.
    apply (Hseen j Hin). rewrite <- Hj. constructor.
  - intros j [->|Hj]%elem_of_cons; [done|]. intros Hin. apply (Hseen j Hj). by constructor.
Qed.
Lemma normalize_keys_ok v : keys_ok (normalize_openai_keys v).
Proof.
  destruct v as [| | | | |l|]; try (split; constructor). by destruct (normalize_items_ok l []) as (? & ? & _).
Qed.

Lemma canon_keys_sub ks k : k ∈ canon_keys ks -> exists k', k' ∈ ks /\ k_key_hash k = k_key_hash k' /\ k_fingerprint k = k_fingerprint k'.
Proof.
  unfold canon_keys. generalize (@nil string). induction ks as [|j ks IH]; intros seen; cbn [map normalize_openai_items].
  { by intros ?%not_elem_of_nil. }
  destruct (normalize_openai_key seen (VDict (key_storage j))) as [j'|] eqn:E.
  - intros [->|Hk]%elem_of_cons.
    + exists j. split; [constructor|]. cbn [normalize_openai_key] in E. destruct (get_key_storage j) as (E1 & E2 & _).
      rewrite E1, E2, !str_or_self in E. destruct (_ || _ || _) in E; [done|]. apply (inj Some) in E. by subst j'.
    + destruct (IH _ Hk) as (k' & ? & ?). exists k'. split; [by constructor|done].
  - intros Hk. destruct (IH _ Hk) as (k' & ? & ?). exists k'. split; [by constructor|done].
Qed.

(** What is read from a record is kept by the file. *)
Lemma normalize_account_spec raw w :
  (forall k, is_real (get_ k raw)) ->
  exists r w', normalize_account clk raw w = (r, w') /\ users_file w' = users_file w /\
    match r with Ok a => storable a | Raise _ => True end.
Proof.
  intros Hreal. unfold normalize_account.
  destruct (String.eqb_spec (safe_principal_component (get_ "user_id" raw) (Some "")) "") as [Hu|Hu]; [by do 2 eexists|].
  destruct (text_or_now_spec (get_ "created_at" raw) w (Hreal _)) as (c & w' & Hc & Hne & Hf).
  unfold mbind_. rewrite Hc. unfold of_res, ret, raise.
  destruct (normalize_email (get_ "email" raw)) as [e|] eqn:He; [|by do 2 eexists].
  do 2 eexists. split; [done|]. split; [done|].
  destruct (safe_component_empty_or_good (get_ "user_id" raw) _ eq_refl) as [|Hg]; [done|].
  split; cbn.
  - done.
  - by apply safe_component_shape.
  - unfold runtime_of. cbn. rewrite or_else_nonempty; [by apply safe_component_shape|].
    by apply good_nonempty, safe_component_shape.
  - by eapply normalize_email_stable.
  - done.
  - by apply str_or_nonempty.
Qed.

Lemma normalize_reservation_spec raw w :
  (forall k, is_real (get_ k raw)) ->
  exists r w', normalize_runtime_reservation clk raw w = (r, w') /\ users_file w' = users_file w /\
    match r with Ok a => storable_reservation a | Raise e => exists m, e = ValueError m end.
Proof.
  intros Hreal. unfold normalize_runtime_reservation. cbv zeta.
  set (rt := safe_principal_component (get_ "runtime_id" raw) (Some "")).
  set (t := safe_principal_component (get_ "tenant_id" raw) (Some "default")).
  set (user := safe_principal_component (get_ "owner_user_id" raw) (Some "")).
  set (owner := if _ && nonempty user then _ else _).
  destruct (String.eqb rt "" || String.eqb owner "") eqn:E; [do 2 eexists; split_and!; [done|done|by eexists]|]. bool_to_prop.
  destruct (text_or_now_spec (get_ "created_at" raw) w (Hreal _)) as (c & w' & Hc & Hne & Hf).
  unfold mbind_. rewrite Hc. do 2 eexists. split; [done|]. split; [done|].
  assert (user = "" \/ good_fallback user = true) as Hu by (by eapply safe_component_empty_or_good).
  assert (good_fallback t = true) as Ht by (by apply safe_component_shape).
  split; cbn; try done.
  - by destruct (safe_component_empty_or_good (get_ "runtime_id" raw) _ eq_refl).
  - split; [done|]. unfold owner. destruct (_ && nonempty user) eqn:Eo; [|apply strip_idemp].
    apply andb_true_iff in Eo as [_ Eu%nonempty_true]. destruct Hu as [|Hu]; [done|]. by apply pair_key_strip.
  - destruct Hu as [Hu|Hu].
    + rewrite Hu. cbn. destruct (split1 ":" owner) as [[t' n]|] eqn:Es; [|left; split; [done|done]].
      destruct (String.eqb_spec (safe_name n) "") as [Hn|Hn].
      * left. split; [done|]. intros t1 n1 [= <- <-]. done.
      * right. by apply safe_name_good.
    + right. destruct (split1 ":" owner) as [[t' n]|]; [|done]. by rewrite (proj2 (String.eqb_neq user "")) by (by apply good_nonempty).
  - by apply str_or_nonempty.
  - by apply str_or_nonempty.
Qed.

(** ** The whole file *)

(** What the loaded dicts satisfy: every record is under its own key, and the file
    keeps it. *)
Definition accounts_ok (rs : accounts) : Prop :=
  NoDup (okeys rs) /\ forall k a, (k, a) ∈ rs -> k = account_key a /\ storable a.
Definition reservations_ok (rv : reservations) : Prop :=
  NoDup (okeys rv) /\ forall k r, (k, r) ∈ rv -> k = reservation_key r /\ storable_reservation r.
Definition store_ok (rs : accounts) (rv : reservations) : Prop := accounts_ok rs /\ reservations_ok rv.

Lemma accounts_ok_oset a rs : storable a -> accounts_ok rs -> accounts_ok (oset (account_key a) a rs).
Proof.
  intros Ha [Hnd Hok]. split; [by apply NoDup_okeys_oset|]. intros k b Hin.
  apply elem_of_oset in Hin as [[= -> ->]|Hin]; auto.
Qed.
Lemma reservations_ok_oset r rv : storable_reservation r -> reservations_ok rv -> reservations_ok (oset (reservation_key r) r rv).
Proof.
  intros Hr [Hnd Hok]. split; [by apply NoDup_okeys_oset|]. intros k b Hin.
  apply elem_of_oset in Hin as [[= -> ->]|Hin]; auto.
Qed.
Lemma reservations_ok_opop k rv : reservations_ok rv -> reservations_ok (opop k rv).
Proof.
  intros [Hnd Hok]. split; [by apply NoDup_okeys_opop|]. intros j r Hin. apply Hok.
  unfold opop in Hin. by apply elem_of_lfilter in Hin as [? _].
Qed.
Lemma accounts_ok_get rs k a : accounts_ok rs -> oget k rs = Some a -> k = account_key a /\ storable a.
Proof. intros [_ H] Hg. apply H. by apply oget_Some_elem. Qed.

(** Only the file of a state. *)
Definition still {A} (m : M registry A) : Prop := forall w, users_file (m w).2 = users_file w.
Lemma still_bind {A B} (m : M registry A) (f : A -> M registry B) :
  still m -> (forall a, still (f a)) -> still (mbind_ m f).
Proof.
  intros Hm Hf w. unfold mbind_. specialize (Hm w). destruct (m w) as [[a|e] w']; cbn in *; [|done].
  by rewrite Hf.
Qed.
Lemma still_fold {A B} (l : list A) (acc : B) (body : B -> A -> M registry B) :
  (forall b a, still (body b a)) -> still (fold_ l acc body).
Proof.
  intros Hb. revert acc. induction l as [|x l IH]; intros acc; [done|]. by apply still_bind.
Qed.
Lemma still_text_or_now v : still (text_or_now clk v).
Proof. intros w. unfold text_or_now. by destruct (truthy v). Qed.
Lemma still_normalize_account raw : still (normalize_account clk raw).
Proof.
  unfold normalize_account. cbv zeta. destruct (String.eqb _ ""); [done|].
  apply still_bind; [apply still_text_or_now|]. intros c. by apply still_bind.
Qed.
Lemma still_load_account out item : still (load_account clk out item).
Proof. destruct item; try done. apply still_bind; [apply still_normalize_account|done]. Qed.
Lemma still_load_reservation out item : still (load_reservation clk out item).
Proof.
  destruct item as [| | | | | |d]; try done. unfold load_reservation.
  assert (still (r <- normalize_runtime_reservation clk d ;; ret (oset (reservation_key r) r out))) as Hs.
  { apply still_bind; [|done]. unfold normalize_runtime_reservation. cbv zeta. destruct (_ || _); [done|].
    apply still_bind; [apply still_text_or_now|done]. }
  intros w. specialize (Hs w). unfold try_. destruct (mbind_ _ _ w) as [[r|e] w']; cbn in *; [done|]. by destruct e.
Qed.
Lemma still_load : still (load_store clk).
Proof.
  intros w. unfold load_store. destruct (users_file w) as [[data|e]|] eqn:E; [|done|done].
  rewrite <- E. revert w E. intros w _. revert w. change (still (load_data clk data)). unfold load_data.
  apply still_bind.
  - destruct (field "runtime_reservations" data); try done. apply still_fold. intros. apply still_load_reservation.
  - intros rv. destruct (field "users" data); try done. apply still_bind; [|done]. apply still_fold. intros. apply still_load_account.
Qed.

(** An invariant of the accumulator, for a loop that ended well. *)
Lemma fold_ok {A B} (I : B -> Prop) (l : list A) (body : B -> A -> M registry B) :
  (forall b a w b' w', a ∈ l -> I b -> body b a w = (Ok b', w') -> I b') ->
  forall acc w b w', I acc -> fold_ l acc body w = (Ok b, w') -> I b.
Proof.
  induction l as [|x l IH]; intros Hb acc w b w' HI; cbn [fold_]; [by intros [= <- _]|].
  unfold mbind_. destruct (body acc x w) as [[b1|e] w1] eqn:E; [|done]. apply IH.
  - intros. eapply Hb; eauto. by constructor.
  - eapply Hb; [|exact HI|exact E]. constructor.
Qed.

Definition real_rows (v : val) : Prop := forall l d k, v = VList l -> VDict d ∈ l -> is_real (get_ k d).
Definition real_file (w : registry) : Prop :=
  match users_file w with
  | Some (Json data) => real_rows (field "users" data) /\ real_rows (field "runtime_reservations" data)
  | _ => True
  end.

(** Whatever the file holds, what is loaded from it is well-formed. *)
Lemma load_store_ok w rs rv w' : real_file w -> load_store clk w = (Ok (rs, rv), w') -> store_ok rs rv.
Proof.
  assert (accounts_ok [] /\ reservations_ok []) as [Ha Hr].
  { split; (split; [constructor|intros ? ? H; by apply not_elem_of_nil in H]). }
  unfold real_file, load_store. destruct (users_file w) as [[data|e]|]; [|done|by intros _ [= <- <- _]].
  intros [Hus Hrs]. unfold load_data, mbind_ at 1.
  set (m0 := match field "runtime_reservations" data with VList items => fold_ items [] (load_reservation clk) | _ => ret [] end).
  destruct (m0 w) as [[rv0|e] w0] eqn:E0; [|done]. unfold m0 in E0.
  assert (reservations_ok rv0) as Hrv.
  { destruct (field "runtime_reservations" data) as [| | | | |l|]; try by injection E0 as <- _.
    eapply (fold_ok reservations_ok); [|exact Hr|exact E0]. clear -Hrs. intros b a w b' w' Hin Hb.
    destruct a as [| | | | | |d]; try by intros [= <- _]. unfold load_reservation, try_, mbind_.
    destruct (normalize_reservation_spec d w) as (r & w1 & -> & _ & Hr); [intros k; by eapply Hrs|].
    destruct r as [r|e]; [intros [= <- _]; by apply reservations_ok_oset|].
    destruct Hr as [m ->]. by intros [= <- _]. }
  destruct (field "users" data) as [| | | | |l|]; try by intros [= <- <- _].
  unfold mbind_. destruct (fold_ l [] (load_account clk) w0) as [[rs0|e] w1] eqn:E1; [|done]. intros [= <- <- _].
  split; [|done]. eapply (fold_ok accounts_ok); [|exact Ha|exact E1]. clear -Hus. intros b a w b' w' Hin Hb.
  destruct a as [| | | | | |d]; try by intros [= <- _]. unfold load_account, mbind_.
  destruct (normalize_account_spec d w) as (r & w1 & -> & _ & Hr); [intros k; by eapply Hus|].
  destruct r as [r|e]; [intros [= <- _]; by apply accounts_ok_oset|done].
Qed.

(** ** Writing and reading *)

Definition reload_accounts (rs : accounts) : accounts := map (fun a => (account_key a, canon a)) (sorted_accounts rs).
Definition reload_reservations (rv : reservations) : reservations :=
  map (fun r => (reservation_key r, r)) (sorted_reservations rv).

(** Rows read one after the other, each under a new key. *)
Lemma fold_rows {A B} (row : A -> val) (key : A -> string) (f : A -> B) (body : list (string * B) -> val -> M registry (list (string * B)))
    (l : list A) w :
  (forall a out w, a ∈ l -> body out (row a) w = (Ok (oset (key a) (f a) out), w)) ->
  forall out, NoDup (okeys out ++ map key l) ->
  fold_ (map row l) out body w = (Ok (out ++ map (fun a => (key a, f a)) l), w).
Proof.
  induction l as [|a l IH]; intros Hb out Hnd; cbn [map fold_].
  { unfold ret. by rewrite app_nil_r. }
  unfold mbind_. rewrite Hb by constructor. rewrite NoDup_app in Hnd. destruct Hnd as (Hout & Hdis & Hl).
  apply NoDup_cons in Hl as [Ha Hl].
  assert (oget (key a) out = None) as Hnew.
  { apply oget_None. intros Hin. apply (Hdis _ Hin). constructor. }
  rewrite oset_new by done. rewrite IH.
  - by rewrite <- app_assoc.
  - intros. apply Hb. by constructor.
  - unfold okeys in *. rewrite map_app. apply NoDup_app. split_and!; [|intros k|done].
    + apply NoDup_app. split_and!; [done| |repeat constructor; apply not_elem_of_nil].
      intros k Hk ->%list_elem_of_singleton. apply (Hdis _ Hk). constructor.
    + intros [Hk| ->%list_elem_of_singleton]%elem_of_app; [|done]. intros Hin. apply (Hdis _ Hk). by constructor.
Qed.

Lemma sorted_keys {A} (leb : A -> A -> bool) (key : A -> string) (d : list (string * A)) :
  (forall k a, (k, a) ∈ d -> k = key a) -> map key (py_sorted leb (map snd d)) ≡ₚ okeys d.
Proof.
  intros Hk. rewrite py_sorted_perm. rewrite map_map. apply reflexive_eq, map_ext_in.
  intros [k a] Hin%list_elem_of_In. symmetry. by apply Hk.
Qed.

Lemma load_saved rs rv now w :
  store_ok rs rv -> users_file w = Some (Json (payload rs rv now)) ->
  load_store clk w = (Ok (reload_accounts rs, reload_reservations rv), w).
Proof.
  intros [[Hnd Hok] [Hndv Hokv]] Hf. unfold load_store. rewrite Hf. unfold load_data, mbind_.
  change (field "runtime_reservations" (payload rs rv now)) with (VList (map (fun r => VDict (reservation_storage r)) (sorted_reservations rv))).
  change (field "users" (payload rs rv now)) with (VList (map (fun a => VDict (account_storage a)) (sorted_accounts rs))). cbn match.
  rewrite (fold_rows _ reservation_key (fun r => r)).
  - rewrite (fold_rows _ account_key canon); [done| |].
    + intros a out w0 Ha. unfold load_account, mbind_.
      apply elem_of_py_sorted, list_elem_of_fmap in Ha as ([k a'] & -> & Hin). destruct (Hok k a' Hin) as [_ Hst].
      by rewrite normalize_account_storage.
    + cbn. unfold sorted_accounts. rewrite sorted_keys; [done|]. intros k a Hin. by apply Hok.
  - intros r out w0 Hr. unfold load_reservation, try_, mbind_.
    apply elem_of_py_sorted, list_elem_of_fmap in Hr as ([k r'] & -> & Hin). destruct (Hokv k r' Hin) as [_ Hst].
    by rewrite normalize_reservation_storage.
  - cbn. unfold sorted_reservations. rewrite sorted_keys; [done|]. intros k r Hin. by apply Hokv.
Qed.
End File.
