(* ===== verification/UserRegistryOps.v ===== *)
(** * The user registry: what an operation changes

    The writing operations as one type, and the abstract effect each of them has
    on the loaded records ([change]): an account is added, edited, or moved to
    another runtime; nothing is ever removed but a reservation. *)

From S2P Require Import Prelude PyStr PyVal PyText OrdDict IsoTime Principal Sessions UserRegistry UserRegistryFile.

(** ** Reading what was written *)

Lemma oget_map_values {A B} (f : A -> B) (d : list (string * A)) k : oget k (map (fun kv => (kv.1, f kv.2)) d) = f <$> oget k d.
Proof. induction d as [|[j a] d IH]; simpl; [done|]. by destruct (decide (k = j)). Qed.
Lemma okeys_map_values {A B} (f : A -> B) (d : list (string * A)) : okeys (map (fun kv => (kv.1, f kv.2)) d) = okeys d.
Proof. unfold okeys. by rewrite map_map. Qed.

Lemma oget_sorted {A B} (leb : A -> A -> bool) (key : A -> string) (f : A -> B) (d : list (string * A)) k :
  NoDup (okeys d) -> (forall j a, (j, a) ∈ d -> j = key a) ->
  oget k (map (fun a => (key a, f a)) (py_sorted leb (map snd d))) = f <$> oget k d.
Proof.
  intros Hnd Hk. set (l := map _ _).
  assert (NoDup (okeys l)) as Hl.
  { subst l. unfold okeys. rewrite map_map. cbn. rewrite (sorted_keys leb key) by done. done. }
  destruct (oget k d) as [a|] eqn:E; cbn.
  - apply NoDup_oget; [done|]. apply oget_Some_elem in E. rewrite (Hk _ _ E).
    subst l. apply (list_elem_of_fmap_2 (fun a => (key a, f a))), elem_of_py_sorted. by apply (list_elem_of_fmap_2 snd _ (k, a)).
  - apply oget_None in E. apply oget_None. intros Hin. apply E.
    unfold okeys in Hin. subst l. rewrite map_map in Hin. cbn in Hin.
    by rewrite (sorted_keys leb key) in Hin.
Qed.

Lemma oget_reload rs k : accounts_ok rs -> oget k (reload_accounts rs) = canon <$> oget k rs.
Proof. intros [Hnd Hok]. apply oget_sorted; [done|]. intros j a Hin. by apply Hok. Qed.
Lemma oget_reload_reservations rv k : reservations_ok rv -> oget k (reload_reservations rv) = oget k rv.
Proof.
  intros [Hnd Hok]. unfold reload_reservations, sorted_reservations.
  rewrite (oget_sorted reservation_leb reservation_key (fun r => r)); [by destruct (oget k rv)|done|].
  intros j r Hin. by apply Hok.
Qed.

(** ** What the canonical form keeps *)

Lemma canon_key a : account_key (canon a) = account_key a.
Proof. done. Qed.
Lemma canon_runtime a : good_fallback (runtime_of a) = true -> runtime_of (canon a) = runtime_of a.
Proof. intros H. unfold runtime_of at 1. cbn. by apply or_else_nonempty, good_nonempty. Qed.

Lemma norm_texts_entity l :
  bool_decide ("entity" ∈ map (fun r => lower (strip r)) (norm_texts l)) = bool_decide ("entity" ∈ map (fun r => lower (strip r)) l).
Proof.
  apply bool_decide_ext. unfold norm_texts. split.
  - intros (r & He & [(s & -> & Hs)%list_elem_of_fmap _]%elem_of_lfilter)%list_elem_of_fmap.
    rewrite strip_idemp in He. rewrite He. by apply (list_elem_of_fmap_2 (fun r => lower (strip r))).
  - intros (s & He & Hs)%list_elem_of_fmap.
    apply list_elem_of_fmap. exists (strip s). rewrite strip_idemp. split; [done|]. apply elem_of_lfilter. split.
    + by apply list_elem_of_fmap_2.
    + apply nonempty_true. intros Hn. by rewrite Hn in He.
Qed.
Lemma canon_entity a : is_entity (canon a) = is_entity a.
Proof.
  unfold is_entity. rewrite <- (norm_texts_entity (a_roles a)). unfold canon. cbn [a_roles].
  destruct (norm_texts (a_roles a)); [by vm_compute|done].
Qed.
Lemma canon_storable a : storable a -> storable (canon a).
Proof.
  intros [Hu Ht Hr He Hc Hup]. split; cbn; try done. rewrite canon_runtime; done.
Qed.
Lemma accounts_ok_reload rs : accounts_ok rs -> accounts_ok (reload_accounts rs).
Proof.
  intros [Hnd Hok]. split.
  - unfold okeys, reload_accounts. rewrite map_map. cbn. unfold sorted_accounts. rewrite sorted_keys; [done|]. intros k a Hin. by apply Hok.
  - intros k a Hin. unfold reload_accounts in Hin. apply list_elem_of_fmap in Hin as (b & [= -> ->] & Hb).
    apply elem_of_py_sorted, list_elem_of_fmap in Hb as ([j b'] & -> & Hj). destruct (Hok j b' Hj) as [_ Hs].
    split; [done|]. by apply canon_storable.
Qed.
Lemma reservations_ok_reload rv : reservations_ok rv -> reservations_ok (reload_reservations rv).
Proof.
  intros [Hnd Hok]. split.
  - unfold okeys, reload_reservations. rewrite map_map. cbn. unfold sorted_reservations. rewrite sorted_keys; [done|]. intros k a Hin. by apply Hok.
  - intros k a Hin. unfold reload_reservations in Hin. apply list_elem_of_fmap in Hin as (b & [= -> ->] & Hb).
    apply elem_of_py_sorted, list_elem_of_fmap in Hb as ([j b'] & -> & Hj). by destruct (Hok j b' Hj) as [_ Hs].
Qed.

(** ** The operations *)

Inductive op :=
  | Create (user tenant : string) (roles scopes : option (list string)) (enabled : bool) (runtime : option string)
      (email : val) (token : option string) (random salt : string)
  | Update (user tenant : string) (roles scopes : option (list string)) (enabled : option bool) (runtime email token : option string)
      (openai_api : option bool) (random salt : string)
  | SetArchived (user tenant : string) (archived : bool) (actor : string)
  | MigrateApi
  | Transfer (tenant runtime target : string)
  | CreateKey (user tenant label created_by : string) (seal : option (string -> string -> list string -> res bool)) (random salt : string)
  | RevokeKey (user tenant fingerprint : string)
  | ClearSeals
  | SetPassword (user tenant hash : string) (name : option string)
  | SetDisplayName (user tenant name : string).

(** What an operation takes part in: the end of an archive, the transfer of a
    reserved runtime. *)
Definition unarchives (o : op) (k : string) : bool :=
  match o with SetArchived u t false _ => String.eqb (asked_key t u) k | _ => false end.
Definition transfers (o : op) (t r : string) : Prop :=
  match o with Transfer t' r' _ => safe_tenant t' = t /\ safe_name r' = r | _ => False end.

Definition rkey (a : GatewayUserRecord) : string := pair_key (a_tenant_id a) (runtime_of a).

(** What an operation says of three fields of the account at a key. *)
Definition says_enabled (o : op) (k : string) (a : GatewayUserRecord) : bool :=
  match o with
  | Update u t _ _ e _ _ _ _ _ _ => if String.eqb (asked_key t u) k then default (a_enabled a) e else a_enabled a
  | SetArchived u t _ _ => if String.eqb (asked_key t u) k then false else a_enabled a
  | _ => a_enabled a
  end.
Definition says_roles (o : op) (k : string) (a : GatewayUserRecord) : list string :=
  match o with
  | Update u t roles _ _ _ _ _ _ _ _ => if String.eqb (asked_key t u) k then default (a_roles a) roles else a_roles a
  | _ => a_roles a
  end.
Definition says_archived (o : op) (k : string) (a : GatewayUserRecord) : bool :=
  match o with
  | SetArchived u t b _ => if String.eqb (asked_key t u) k then b else a_archived a
  | _ => a_archived a
  end.

(** How an operation may change the account at a key. *)
Record edits (o : op) (k : string) (a b : GatewayUserRecord) : Prop := {
  ed_user : a_user_id b = a_user_id a;
  ed_tenant : a_tenant_id b = a_tenant_id a;
  ed_created : a_created_at b = a_created_at a;
  ed_entity : is_entity a = true ->
    a_roles b = a_roles a /\ runtime_of b = runtime_of a /\ a_token_hash b = a_token_hash a /\
    a_token_fingerprint b = a_token_fingerprint a /\ a_password_hash b = a_password_hash a /\
    (forall h, h ∈ map k_key_hash (a_openai_keys b) -> h ∈ map k_key_hash (a_openai_keys a));
  ed_archived : a_archived a = true -> unarchives o k = false ->
    a_archived b = true /\ (a_enabled b = true -> a_enabled a = true);
  ed_says : a_enabled b = says_enabled o k a /\ a_roles b = says_roles o k a /\ a_archived b = says_archived o k a;
}.

(** The runtime of [b] may go to the account at [k]. *)
Definition free (o : op) (rs : accounts) (rv : reservations) (k : string) (b : GatewayUserRecord) : Prop :=
  runtime_taken rs k (a_tenant_id b) (runtime_of b) = false /\
  forall r, oget (rkey b) rv = Some r -> r_owner_key r = k \/ transfers o (a_tenant_id b) (runtime_of b).

Inductive change (o : op) (rs : accounts) (rv : reservations) : accounts -> reservations -> Prop :=
  | change_add a :
      oget (account_key a) rs = None -> storable a -> a_archived a = false -> free o rs rv (account_key a) a ->
      change o rs rv (oset (account_key a) a rs) (opop (rkey a) rv)
  | change_edit k a b :
      oget k rs = Some a -> edits o k a b -> runtime_of b = runtime_of a -> storable b ->
      change o rs rv (oset k b rs) rv
  | change_move k a b rv1 :
      oget k rs = Some a -> edits o k a b -> storable b -> free o rs rv k b ->
      (runtime_of b = runtime_of a /\ rv1 = rv) \/
      (runtime_of b <> runtime_of a /\
       exists r, storable_reservation r /\ reservation_key r = rkey a /\ r_owner_key r = k /\ rv1 = oset (rkey a) r rv) ->
      change o rs rv (oset k b rs) (opop (rkey b) rv1)
  | change_all f :
      (forall k a, oget k rs = Some a -> edits o k a (f a) /\ runtime_of (f a) = runtime_of a /\ (storable a -> storable (f a))) ->
      change o rs rv (map_accounts f rs) rv.

(** A change keeps the records well-formed. *)
Lemma change_ok o rs rv rs' rv' : change o rs rv rs' rv' -> store_ok rs rv -> store_ok rs' rv'.
Proof.
  intros Hc [Hrs Hrv]. assert (forall k a b, oget k rs = Some a -> edits o k a b -> k = account_key b) as Hkey.
  { intros k a b Hg [Hu Ht _ _ _ _]. destruct (accounts_ok_get rs k a Hrs Hg) as [-> _]. unfold account_key. by rewrite Hu, Ht. }
  destruct Hc as [a Hn Ha _ _|k a b Hg He Hr Hb|k a b rv1 Hg He Hb Hf Hrv1|f Hf].
  - split; [by apply accounts_ok_oset|by apply reservations_ok_opop].
  - split; [|done]. rewrite (Hkey k a b) by done. by apply accounts_ok_oset.
  - split; [rewrite (Hkey k a b) by done; by apply accounts_ok_oset|]. apply reservations_ok_opop.
    destruct Hrv1 as [[_ ->]|(_ & r & Hr & <- & _ & ->)]; [done|]. by apply reservations_ok_oset.
  - split; [|done]. destruct Hrs as [Hnd Hok]. split; [unfold map_accounts; by rewrite okeys_map_values|].
    intros k b Hin. apply list_elem_of_fmap in Hin as ([j a] & [= -> ->] & Hin).
    destruct (Hok j a Hin) as [Hj Ha]. destruct (Hf j a) as ([Hu Ht _ _ _ _] & _ & Hs); [by apply NoDup_oget|].
    split; [|auto]. rewrite Hj. unfold account_key. by rewrite Hu, Ht.
Qed.

Section Ops.
Context (clk : nat -> Z) (sha256_hex : string -> string) (pbkdf2 : string -> string -> Z -> res string).

Definition run_op (o : op) : M registry unit :=
  match o with
  | Create u t roles scopes e rt email tok rnd salt => create_user clk sha256_hex pbkdf2 u t roles scopes e rt email tok rnd salt ;;; ret tt
  | Update u t roles scopes e rt email tok api rnd salt =>
      update_user clk sha256_hex pbkdf2 u t roles scopes e rt email tok api rnd salt ;;; ret tt
  | SetArchived u t b actor => set_archived clk u t b actor ;;; ret tt
  | MigrateApi => migrate_openai_api_default clk ;;; ret tt
  | Transfer t rt target => transfer_runtime_reservation clk t rt target ;;; ret tt
  | CreateKey u t label by_ seal rnd salt => create_openai_key clk sha256_hex pbkdf2 u t label by_ seal rnd salt ;;; ret tt
  | RevokeKey u t fp => revoke_openai_key clk u t fp ;;; ret tt
  | ClearSeals => clear_openai_key_seals clk ;;; ret tt
  | SetPassword u t hash name => set_password clk u t hash name ;;; ret tt
  | SetDisplayName u t name => set_display_name clk u t name ;;; ret tt
  end.

(** [m], run on the file [f], leaves it, or ends well having written records that
    satisfy [P]. *)
Definition saves {A} (f : option content) (m : M registry A) (P : accounts -> reservations -> Prop) : Prop :=
  forall w r w', users_file w = f -> m w = (r, w') ->
    users_file w' = f \/
    is_ok r = true /\ exists rs rv now, P rs rv /\ users_file w' = Some (Json (payload rs rv now)).

Lemma saves_still {A} f (m : M registry A) P : still m -> saves f m P.
Proof. intros Hm w r w' Hf E. left. specialize (Hm w). rewrite E in Hm. cbn in Hm. congruence. Qed.
Lemma saves_bind {A B} f (m : M registry A) (g : A -> M registry B) P :
  still m -> (forall a w w', m w = (Ok a, w') -> saves f (g a) P) -> saves f (mbind_ m g) P.
Proof.
  intros Hm Hg w r w' Hf. unfold mbind_. specialize (Hm w). destruct (m w) as [[a|e] w1] eqn:E; cbn in Hm.
  - apply (Hg a w w1 E). congruence.
  - intros [= <- <-]. left. congruence.
Qed.
Lemma saves_load {B} f (g : accounts * reservations -> M registry B) P :
  (forall rs rv w w', users_file w = f -> load_store clk w = (Ok (rs, rv), w') -> saves f (g (rs, rv)) P) ->
  saves f (mbind_ (load_store clk) g) P.
Proof.
  intros Hg w r w' Hf. unfold mbind_. pose proof (still_load clk w) as Hs.
  destruct (load_store clk w) as [[[rs rv]|e] w1] eqn:E; cbn in Hs.
  - apply (Hg rs rv w w1 Hf E). congruence.
  - intros [= <- <-]. left. congruence.
Qed.
Lemma saves_done {B} f rs rv (b : B) P : P rs rv -> saves f (save_store clk rs rv ;;; ret b) P.
Proof. intros HP w r w' Hf [= <- <-]. right. split; [done|]. by do 3 eexists. Qed.
Lemma saves_then {A B} f (m : M registry A) (b : B) P : saves f m P -> saves f (m ;;; ret b) P.
Proof.
  intros Hm w r w' Hf. unfold mbind_. destruct (m w) as [[a|e] w1] eqn:E; intros [= <- <-].
  - by apply (Hm w (Ok a) w1).
  - by apply (Hm w (Raise e) w1).
Qed.

(** ** Each operation has its effect *)

Definition after (o : op) (f : option content) (rs' : accounts) (rv' : reservations) : Prop :=
  exists rs rv w w', users_file w = f /\ load_store clk w = (Ok (rs, rv), w') /\ store_ok rs rv /\ change o rs rv rs' rv'.

Lemma load_ok f w rs rv w' w0 :
  real_file w0 -> users_file w0 = f -> users_file w = f -> load_store clk w = (Ok (rs, rv), w') -> store_ok rs rv.
Proof.
  intros Hr H0 Hf. apply load_store_ok. unfold real_file in *. by rewrite Hf, <- H0.
Qed.

Lemma of_res_Ok {A} (r : res A) (a : A) (w w' : registry) : of_res r w = (Ok a, w') -> r = Ok a.
Proof. unfold of_res. by intros [= -> _]. Qed.

Lemma require_ok rs rv t r k :
  good_fallback t = true -> good_fallback r = true -> require_runtime_available rs rv t r k = Ok tt ->
  runtime_taken rs k t r = false /\ forall v, oget (pair_key t r) rv = Some v -> r_owner_key v = k.
Proof.
  intros Ht Hr. unfold require_runtime_available, runtime_reservation_key. rewrite !safe_tenant_id, !safe_name_id by done.
  rewrite (proj2 (String.eqb_neq r "")) by (by apply good_nonempty).
  destruct (runtime_taken rs k t r); [done|]. destruct (oget (pair_key t r) rv) as [v|]; [|done].
  destruct (String.eqb_spec (r_owner_key v) k); [|done]. intros _. split; [done|]. by intros ? [= <-].
Qed.

Lemma reserve_spec rv a reason w rv1 w' :
  storable a -> reservations_ok rv -> reason <> "" -> reserve_runtime clk rv a reason w = (Ok rv1, w') ->
  exists r, storable_reservation r /\ reservation_key r = rkey a /\ r_owner_key r = account_key a /\ rv1 = oset (rkey a) r rv.
Proof.
  intros [Hu Ht Hr _ _ _] Hrv Hre. unfold reserve_runtime. rewrite safe_tenant_id by done.
  rewrite safe_component_id by done. rewrite (proj2 (String.eqb_neq (runtime_of a) "")) by (by apply good_nonempty). cbn match.
  unfold mbind_, now_utc_iso, ret, runtime_reservation_key. rewrite safe_tenant_id, safe_name_id by done. fold (rkey a).
  intros [= <- _].
  match goal with |- context[oset _ ?r rv = _] => exists r end. split_and!; [|done|done|done]. split; cbn; try done.
  - split; [by apply pair_key_nonempty|by apply pair_key_strip].
  - by right.
  - destruct (oget (rkey a) rv) as [r|] eqn:E; [|apply isoformat_nonempty].
    destruct Hrv as [_ Hok]. by destruct (Hok _ _ (oget_Some_elem _ _ _ E)) as [_ []].
Qed.

Lemma new_account_storable u t email roles scopes e rt th fp now :
  safe_name u <> "" -> normalize_email (VStr email) = Ok email ->
  storable (new_account (safe_name u) (safe_tenant t) email roles scopes e rt th fp (isoformat now)).
Proof.
  intros Hu%safe_name_good Hem.
  assert (good_fallback (safe_principal_component (VStr (or_else (default "" rt) (safe_name u))) (Some (safe_name u))) = true) as Hr
    by (by apply safe_component_shape).
  split; cbn -[safe_principal_component]; [done|apply safe_tenant_good| |done|apply isoformat_nonempty|apply isoformat_nonempty].
  unfold runtime_of. cbn -[safe_principal_component]. rewrite or_else_nonempty; [done|by apply good_nonempty].
Qed.

Context (w0 : registry) (Hreal : real_file w0).
Abbreviation f0 := (users_file w0).

Lemma create_saves u t roles scopes e rt email tok rnd salt :
  saves f0 (create_user clk sha256_hex pbkdf2 u t roles scopes e rt email tok rnd salt)
    (after (Create u t roles scopes e rt email tok rnd salt) f0).
Proof.
  unfold create_user. cbv zeta. destruct (String.eqb_spec (safe_name u) "") as [|Hu]; [by apply saves_still|].
  apply saves_bind; [done|]. intros now wa wb Hnow. apply saves_bind; [done|]. intros email' wc wd Hem%of_res_Ok.
  apply saves_bind; [done|]. intros th we wf _. injection Hnow as <- _.
  apply saves_load. intros rs rv w w' Hf Hl. pose proof (load_ok f0 w rs rv w' w0 Hreal eq_refl Hf Hl) as Hok.
  match goal with |- context[oget (account_key ?x) rs] => set (a := x) end.
  assert (storable a) as Ha by (by eapply new_account_storable, normalize_email_stable).
  assert (a_archived a = false) as Har by done. clearbody a. destruct (oget (account_key a) rs) eqn:Hn; [by apply saves_still|].
  apply saves_bind; [done|]. intros [] ? ? Hreq%of_res_Ok. destruct Ha as [H1 H2 H3 H4 H5 H6].
  apply require_ok in Hreq as [Hfr Hrs]; [|done|done]. apply saves_done.
  exists rs, rv, w, w'. split_and!; [done|done|done|]. unfold runtime_reservation_key.
  rewrite safe_tenant_id, safe_name_id by done. constructor; [done|by split|exact Har|]. split; [done|]. intros r Hg. left. auto.
Qed.

(** The operations that change one account in place. *)
Lemma edit_saves {A} o rs rv w w' k a b (x : A) :
  users_file w = f0 -> load_store clk w = (Ok (rs, rv), w') -> store_ok rs rv -> oget k rs = Some a ->
  edits o k a b -> runtime_of b = runtime_of a -> (storable a -> storable b) ->
  saves f0 (put_account clk k b rs rv ;;; ret x) (after o f0).
Proof.
  intros Hf Hl Hok Hg He Hr Hs. apply saves_done. exists rs, rv, w, w'. split_and!; [done|done|done|].
  eapply change_edit; eauto. apply Hs. destruct Hok as [Hrs _]. by destruct (accounts_ok_get rs k a Hrs Hg).
Qed.

Lemma set_archived_saves u t b actor : saves f0 (set_archived clk u t b actor) (after (SetArchived u t b actor) f0).
Proof.
  apply saves_load. intros rs rv w w' Hf Hl. pose proof (load_ok f0 w rs rv w' w0 Hreal eq_refl Hf Hl) as Hok.
  destruct (oget (asked_key t u) rs) as [a|] eqn:Hg; [|by apply saves_still].
  apply saves_bind; [done|]. intros now ? ? Hnow. injection Hnow as <- _.
  eapply edit_saves; eauto; destruct b; try done.
  - split; try done; cbn; rewrite String.eqb_refl; by split_and!.
  - split; try done; cbn; rewrite ?String.eqb_refl; first [done|by intros _; split_and!|by split_and!].
  - intros []; split; first [done|apply isoformat_nonempty].
  - intros []; split; first [done|apply isoformat_nonempty].
Qed.

Lemma set_password_saves u t hash name : saves f0 (set_password clk u t hash name) (after (SetPassword u t hash name) f0).
Proof.
  apply saves_load. intros rs rv w w' Hf Hl. pose proof (load_ok f0 w rs rv w' w0 Hreal eq_refl Hf Hl) as Hok.
  destruct (oget (asked_key t u) rs) as [a|] eqn:Hg; [|by apply saves_still].
  destruct (is_entity a) eqn:He; [by apply saves_still|].
  apply saves_bind; [done|]. intros now ? ? Hnow. injection Hnow as <- _. eapply edit_saves; eauto.
  - split; try done. congruence.
  - intros []; split; first [done|apply isoformat_nonempty].
Qed.

Lemma set_display_name_saves u t name : saves f0 (set_display_name clk u t name) (after (SetDisplayName u t name) f0).
Proof.
  apply saves_load. intros rs rv w w' Hf Hl. pose proof (load_ok f0 w rs rv w' w0 Hreal eq_refl Hf Hl) as Hok.
  destruct (oget (asked_key t u) rs) as [a|] eqn:Hg; [|by apply saves_still].
  apply saves_bind; [done|]. intros now ? ? Hnow. injection Hnow as <- _. eapply edit_saves; eauto.
  - split; try done; intros _; by split_and!.
  - intros []; split; first [done|apply isoformat_nonempty].
Qed.

Lemma create_key_saves u t label by_ seal rnd salt :
  saves f0 (create_openai_key clk sha256_hex pbkdf2 u t label by_ seal rnd salt) (after (CreateKey u t label by_ seal rnd salt) f0).
Proof.
  unfold create_openai_key. cbv zeta. destruct (String.eqb _ ""); [by apply saves_still|].
  destruct (_ <? _); [by apply saves_still|].
  apply saves_load. intros rs rv w w' Hf Hl. pose proof (load_ok f0 w rs rv w' w0 Hreal eq_refl Hf Hl) as Hok.
  destruct (oget (asked_key t u) rs) as [a|] eqn:Hg; [|by apply saves_still].
  destruct (is_entity a) eqn:He; [by apply saves_still|]. destruct (a_archived a) eqn:Ha; [by apply saves_still|].
  destruct (existsb _ _); [by apply saves_still|].
  do 3 (apply saves_bind; [done|]; intros ? ? ? _). apply saves_bind; [done|]. intros now ? ? Hnow. injection Hnow as <- _.
  eapply edit_saves; eauto.
  - split; try done; congruence.
  - intros []; split; first [done|apply isoformat_nonempty].
Qed.

Lemma revoke_key_saves u t fp : saves f0 (revoke_openai_key clk u t fp) (after (RevokeKey u t fp) f0).
Proof.
  apply saves_load. intros rs rv w w' Hf Hl. pose proof (load_ok f0 w rs rv w' w0 Hreal eq_refl Hf Hl) as Hok.
  destruct (oget (asked_key t u) rs) as [a|] eqn:Hg; [|by apply saves_still].
  destruct (List.find _ _); [|by apply saves_still].
  apply saves_bind; [done|]. intros now ? ? Hnow. injection Hnow as <- _. eapply edit_saves; eauto.
  - split; try done. intros _. split_and!; try done. intros h (k & -> & Hk)%list_elem_of_fmap.
    apply list_elem_of_fmap_2. by apply elem_of_lfilter in Hk as [? _].
  - intros []; split; first [done|apply isoformat_nonempty].
Qed.

(** The two that go over every account. *)
Lemma all_saves {A} o rs rv w w' f (x : A) (b : bool) :
  users_file w = f0 -> load_store clk w = (Ok (rs, rv), w') -> store_ok rs rv ->
  (forall k a, edits o k a (f a) /\ runtime_of (f a) = runtime_of a /\ (storable a -> storable (f a))) ->
  saves f0 ((if b then ret tt else save_store clk (map_accounts f rs) rv) ;;; ret x) (after o f0).
Proof.
  intros Hf Hl Hok He. destruct b; [by apply saves_still|]. apply saves_done.
  exists rs, rv, w, w'. split_and!; [done|done|done|]. apply change_all. intros k a _. apply He.
Qed.
Lemma migrate_saves : saves f0 (migrate_openai_api_default clk) (after MigrateApi f0).
Proof.
  apply saves_load. intros rs rv w w' Hf Hl. pose proof (load_ok f0 w rs rv w' w0 Hreal eq_refl Hf Hl) as Hok.
  eapply all_saves; eauto. intros k a. unfold migrated, lacks_openai_api.
  destruct (is_entity a) eqn:He; cbn [negb andb]; [by split_and!|].
  destruct (bool_decide (a_openai_api a = None)); [|by split_and!].
  split_and!; [split; try done; congruence|done|]. by intros [].
Qed.
Lemma clear_seals_saves : saves f0 (clear_openai_key_seals clk) (after ClearSeals f0).
Proof.
  apply saves_load. intros rs rv w w' Hf Hl. pose proof (load_ok f0 w rs rv w' w0 Hreal eq_refl Hf Hl) as Hok.
  eapply all_saves; eauto. intros k a. unfold unsealed. destruct (existsb k_sealed (a_openai_keys a)); [|by split_and!].
  split_and!; [|done|by intros []]. split; try done. intros _. split_and!; try done.
  intros h. cbn. by rewrite map_map.
Qed.

(** The operations that may move an account to another runtime. *)
Lemma move_saves {A} o rs rv rv1 w w' k a b (x : A) :
  users_file w = f0 -> load_store clk w = (Ok (rs, rv), w') -> store_ok rs rv -> oget k rs = Some a ->
  edits o k a b -> storable b -> free o rs rv k b ->
  (runtime_of b = runtime_of a /\ rv1 = rv) \/
  (runtime_of b <> runtime_of a /\
   exists r, storable_reservation r /\ reservation_key r = rkey a /\ r_owner_key r = account_key a /\ rv1 = oset (rkey a) r rv) ->
  saves f0 (save_store clk (oset k b rs) (opop (rkey b) rv1) ;;; ret x) (after o f0).
Proof.
  intros Hf Hl Hok Hg He Hb Hfr Hrv. apply saves_done. exists rs, rv, w, w'. split_and!; [done|done|done|].
  eapply change_move; eauto. destruct Hrv as [?|(Hne & r & Hr1 & Hr2 & Hr3 & ->)]; [by left|right].
  split; [done|]. exists r. split_and!; try done. destruct Hok as [Hrs _]. by destruct (accounts_ok_get rs k a Hrs Hg) as [-> _].
Qed.

Lemma still_reserve rv a reason : still (reserve_runtime clk rv a reason).
Proof. unfold reserve_runtime. cbv zeta. by destruct (String.eqb _ ""). Qed.

Lemma update_saves u t roles scopes e rt email tok api rnd salt :
  saves f0 (update_user clk sha256_hex pbkdf2 u t roles scopes e rt email tok api rnd salt)
    (after (Update u t roles scopes e rt email tok api rnd salt) f0).
Proof.
  apply saves_load. intros rs rv w w' Hf Hl. pose proof (load_ok f0 w rs rv w' w0 Hreal eq_refl Hf Hl) as Hok.
  destruct (oget (asked_key t u) rs) as [a|] eqn:Hg; [|by apply saves_still].
  destruct (is_entity a && _) eqn:He; [by apply saves_still|]. destruct (a_archived a && _) eqn:Ha; [by apply saves_still|].
  cbv zeta. apply saves_bind; [done|]. intros th w1 w2 Hth%of_res_Ok. apply saves_bind; [done|]. intros em w3 w4 Hem%of_res_Ok.
  apply saves_bind; [done|]. intros now w5 w6 Hnow. injection Hnow as <- _.
  destruct Hok as [Hrs Hrv]. destruct (accounts_ok_get rs _ a Hrs Hg) as [Hk Hst].
  match goal with |- context[oset _ ?x rs] => set (b := x) end.
  assert (good_fallback (safe_principal_component (VStr (or_else (default "" rt) (a_runtime_id a))) (Some (a_user_id a))) = true) as Hgr
    by (apply safe_component_shape; apply Hst).
  assert (runtime_of b = safe_principal_component (VStr (or_else (default "" rt) (a_runtime_id a))) (Some (a_user_id a))) as Hrb.
  { unfold runtime_of, b. cbn -[safe_principal_component]. by rewrite or_else_nonempty by (by apply good_nonempty). }
  assert (storable b) as Hb.
  { destruct Hst as [H1 H2 H3 H4 H5 H6]. split; [done|done|by rewrite Hrb| |done|apply isoformat_nonempty].
    cbn. destruct email as [x|]; [by eapply normalize_email_stable|by injection Hem as <-]. }
  assert (edits (Update u t roles scopes e rt email tok api rnd salt) (asked_key t u) a b) as Hed.
  { split; [done|done|done| | |by cbn; rewrite String.eqb_refl].
    - intros Hen. rewrite Hen in He. cbn in He. rewrite !orb_false_iff, !bool_decide_eq_false, <- !eq_None_not_Some in He.
      destruct He as [[-> ->] ->]. rewrite Hrb. cbn [default]. injection Hth as <-. split_and!; try done. cbn.
      unfold runtime_of, or_else. destruct Hst as [_ _ Hgr' _ _ _]. unfold runtime_of, or_else in Hgr'.
      destruct (String.eqb_spec (a_runtime_id a) "") as [E|]; [rewrite E; by apply safe_component_fallback|by rewrite safe_component_id].
    - intros Har _. rewrite Har in Ha. cbn. destruct e as [[]|]; done. }
  clearbody b. apply saves_bind; [done|]. intros [] w7 w8 Hreq%of_res_Ok. destruct Hb as [B1 B2 B3 B4 B5 B6].
  apply require_ok in Hreq as [Hfr Hrs']; [|done|done].
  assert (account_key b = asked_key t u) as Hkb by (rewrite Hk; unfold account_key; by rewrite (ed_user _ _ _ _ Hed), (ed_tenant _ _ _ _ Hed)).
  rewrite Hkb in *. unfold runtime_reservation_key. rewrite safe_tenant_id, safe_name_id by done. fold (rkey b).
  destruct (String.eqb_spec (runtime_of a) (runtime_of b)) as [Hsame|Hdiff].
  - apply saves_bind; [done|]. intros rv1 w9 w10 Hrv1. injection Hrv1 as <- _. eapply move_saves; eauto.
    + by split. + by split. + split; [done|]. intros r Hr. left. auto.
  - apply saves_bind; [apply still_reserve|]. intros rv1 w9 w10 Hrv1.
    apply reserve_spec in Hrv1 as (r & ? & ? & ? & ->); [|done|done|done]. eapply move_saves; eauto.
    + by split. + by split. + split; [done|]. intros v Hv. left. auto. + right. split; [done|]. by exists r.
Qed.

Lemma transfer_saves t rt target :
  saves f0 (transfer_runtime_reservation clk t rt target) (after (Transfer t rt target) f0).
Proof.
  unfold transfer_runtime_reservation. cbv zeta. destruct (String.eqb_spec (safe_name rt) "") as [|Hrt]; [by apply saves_still|].
  destruct (String.eqb_spec (safe_name target) "") as [|Htg]; [by apply saves_still|].
  apply safe_name_good in Hrt, Htg.
  apply saves_load. intros rs rv w w' Hf Hl. pose proof (load_ok f0 w rs rv w' w0 Hreal eq_refl Hf Hl) as Hok.
  destruct (oget (runtime_reservation_key _ _) rv) as [r|] eqn:Hr; [|by apply saves_still].
  destruct (String.eqb (r_reason r) "purging"); [by apply saves_still|].
  destruct (oget (pair_key _ _) rs) as [a|] eqn:Hg; [|by apply saves_still].
  destruct (is_entity a) eqn:He; [by apply saves_still|]. destruct (runtime_taken rs _ _ _) eqn:Htk; [by apply saves_still|].
  apply saves_bind; [done|]. intros now w1 w2 Hnow. injection Hnow as <- _.
  destruct Hok as [Hrs Hrv]. destruct (accounts_ok_get rs _ a Hrs Hg) as [Hk Hst]. pose proof Hst as [H1 H2 H3 H4 H5 H6].
  match goal with |- context[oset _ ?x rs] => set (b := x) end.
  assert (runtime_of b = safe_name rt) as Hrb by (apply or_else_nonempty; by apply good_nonempty).
  assert (a_tenant_id a = safe_tenant t) as Hta.
  { unfold account_key in Hk. apply pair_key_inj in Hk as [<- _]; [done|apply safe_tenant_good|done]. }
  assert (storable b) as Hb.
  { split; [done|done|by rewrite Hrb|done|done|apply isoformat_nonempty]. }
  assert (edits (Transfer t rt target) (account_key a) a b) as Hed by (split; try done; congruence).
  assert (free (Transfer t rt target) rs rv (account_key a) b) as Hfr.
  { unfold free. change (a_tenant_id b) with (a_tenant_id a). rewrite Hta, Hrb. split; [done|]. intros v _. right. done. }
  assert (runtime_reservation_key (safe_tenant t) (safe_name rt) = rkey b) as ->.
  { unfold runtime_reservation_key, rkey. rewrite safe_tenant_id by apply safe_tenant_good. rewrite safe_name_id by done.
    change (a_tenant_id b) with (a_tenant_id a). by rewrite Hta, Hrb. }
  rewrite safe_component_id by done. rewrite <- Hrb. clearbody b. rewrite Hk in Hg.
  destruct (String.eqb_spec (runtime_of a) (runtime_of b)) as [Hsame|Hdiff].
  - apply saves_bind; [done|]. intros rv1 w9 w10 Hrv1. injection Hrv1 as <- _. eapply move_saves; eauto. by split.
  - apply saves_bind; [apply still_reserve|]. intros rv1 w9 w10 Hrv1.
    apply reserve_spec in Hrv1 as (r' & ? & ? & ? & ->); [|done|done|done]. eapply move_saves; eauto; [by split|].
    right. split; [done|]. by exists r'.
Qed.

(** An operation leaves the file, or ends well with the effect [change]. *)
Lemma run_op_saves o : saves f0 (run_op o) (after o f0).
Proof.
  destruct o; apply saves_then; [apply create_saves|apply update_saves|apply set_archived_saves|apply migrate_saves
    |apply transfer_saves|apply create_key_saves|apply revoke_key_saves|apply clear_seals_saves|apply set_password_saves
    |apply set_display_name_saves].
Qed.
End Ops.
