(* ===== verification/UserRegistryFacts.v ===== *)
(** * The user registry: correctness

    What holds over any sequence of operations: a runtime stays with its account,
    an entity keeps its shape, an archived account stays shut; and what a made
    account gets. *)

From S2P Require Import Prelude PyStr PyVal PyNum PyText OrdDict IsoTime Principal Sessions UserRegistry UserRegistryFile UserRegistryOps.

(** ** What is read of an account by the sessions *)

Definition session_user (a : GatewayUserRecord) : user :=
  mk_user (a_user_id a) (a_tenant_id a) (a_roles a) (a_scopes a) (a_enabled a) (a_runtime_id a) (a_token_hash a)
    (a_archived a) (a_password_hash a).

Section Facts.
Context (clk : nat -> Z) (sha256_hex : string -> string) (pbkdf2 : string -> string -> Z -> res string).

(** A sequence of operations; one that raises leaves its state behind. *)
Definition run_ops (os : list op) (w : registry) : registry :=
  fold_left (fun w o => (run_op clk sha256_hex pbkdf2 o w).2) os w.

(** The file is read as these records, whatever the clock says. *)
Record settled (w : registry) (rs : accounts) (rv : reservations) : Prop := {
  se_ok : store_ok rs rv;
  se_real : real_file w;
  se_load : forall w', users_file w' = users_file w -> load_store clk w' = (Ok (rs, rv), w');
}.

Lemma settled_file w w' rs rv : settled w rs rv -> users_file w' = users_file w -> settled w' rs rv.
Proof.
  intros [Hok Hr Hl] Hf. split; [done|unfold real_file in *; by rewrite Hf|]. intros w2 H2. apply Hl. congruence.
Qed.
Lemma settled_empty w : users_file w = None -> settled w [] [].
Proof.
  intros Hf. split.
  - split; (split; [constructor|intros ? ? H; by apply not_elem_of_nil in H]).
  - unfold real_file. by rewrite Hf.
  - intros w' Hf'. unfold load_store. by rewrite Hf', Hf.
Qed.

Lemma is_real_get k d : Forall (fun kv => is_real kv.2) d -> is_real (get_ k d).
Proof. unfold get_. induction 1 as [|[j v] d Hv Hd IH]; simpl in *; [done|]. by destruct (String.eqb k j). Qed.
Lemma account_storage_real a : Forall (fun kv => is_real kv.2) (account_storage a).
Proof.
  unfold account_storage, storage_core. rewrite !Forall_app. split_and!; repeat case_match; repeat constructor.
Qed.
Lemma reservation_storage_real r : Forall (fun kv => is_real kv.2) (reservation_storage r).
Proof. repeat constructor. Qed.

Lemma settled_saved w rs rv now :
  store_ok rs rv -> users_file w = Some (Json (payload rs rv now)) -> settled w (reload_accounts rs) (reload_reservations rv).
Proof.
  intros [Hrs Hrv] Hf. split.
  - split; [by apply accounts_ok_reload|by apply reservations_ok_reload].
  - unfold real_file. rewrite Hf. split; intros l d k [= <-] Hin; apply is_real_get.
    + apply list_elem_of_fmap in Hin as (a & [= ->] & _). apply account_storage_real.
    + apply list_elem_of_fmap in Hin as (r & [= ->] & _). apply reservation_storage_real.
  - intros w' Hf'. apply (load_saved clk rs rv now); [done|congruence].
Qed.

(** One operation on a settled file. *)
Lemma settled_step o w rs rv :
  settled w rs rv ->
  let w' := (run_op clk sha256_hex pbkdf2 o w).2 in
  settled w' rs rv \/
  exists rs' rv', change o rs rv rs' rv' /\ store_ok rs' rv' /\ settled w' (reload_accounts rs') (reload_reservations rv').
Proof.
  intros Hs w'. destruct (run_op clk sha256_hex pbkdf2 o w) as [r w1] eqn:E. subst w'. cbn.
  destruct (run_op_saves clk sha256_hex pbkdf2 w (se_real _ _ _ Hs) o w r w1 eq_refl E) as [Hf|[_ (rs' & rv' & now & Haf & Hf)]].
  - left. by eapply settled_file.
  - right. destruct Haf as (rs0 & rv0 & w2 & w3 & Hf2 & Hl & Hok & Hc).
    rewrite (se_load _ _ _ Hs) in Hl by done. injection Hl as <- <- _.
    assert (store_ok rs' rv') as Hok' by (by eapply change_ok). exists rs', rv'. split; [done|]. split; [done|].
    by eapply settled_saved.
Qed.

(** A property of the records that changes and rewriting keep, holds after any
    sequence of operations. *)
Lemma settled_ops (allowed : op -> Prop) (I : accounts -> reservations -> Prop) os w rs rv :
  (forall o rs rv rs' rv', allowed o -> store_ok rs rv -> change o rs rv rs' rv' -> store_ok rs' rv' -> I rs rv ->
     I (reload_accounts rs') (reload_reservations rv')) ->
  settled w rs rv -> Forall allowed os -> I rs rv ->
  exists rs' rv', settled (run_ops os w) rs' rv' /\ I rs' rv'.
Proof.
  intros Hstep. revert w rs rv. induction os as [|o os IH]; intros w rs rv Hs Ha HI; cbn.
  { by exists rs, rv. }
  apply Forall_cons in Ha as [Ho Ha]. pose proof (settled_step o w rs rv Hs) as [Hs'|(rs' & rv' & Hc & Hok & Hs')].
  - by eapply IH.
  - eapply IH; [exact Hs'|done|]. apply (Hstep o rs rv); eauto. apply Hs.
Qed.

(** ** One account over time *)

(** The account at a key after a change. *)
Lemma change_get o rs rv rs' rv' k a :
  store_ok rs rv -> change o rs rv rs' rv' -> oget k rs = Some a -> exists b, oget k rs' = Some b /\ (b = a \/ edits o k a b).
Proof.
  intros Hok Hc Hg. destruct Hc as [n Hn Hst _ _|k0 a0 b Hg0 He Hr Hb|k0 a0 b rv1 Hg0 He Hb Hf _|f Hf].
  - rewrite oget_oset. destruct (decide (k = account_key n)) as [->|]; [congruence|]. eauto.
  - rewrite oget_oset. destruct (decide (k = k0)) as [->|]; [|eauto]. simplify_eq. eauto.
  - rewrite oget_oset. destruct (decide (k = k0)) as [->|]; [|eauto]. simplify_eq. eauto.
  - unfold map_accounts. rewrite oget_map_values, Hg. cbn. destruct (Hf k a Hg) as [? _]. eauto.
Qed.
Lemma reload_get o rs rv rs' rv' k a :
  store_ok rs rv -> change o rs rv rs' rv' -> store_ok rs' rv' -> oget k rs = Some a ->
  exists b, oget k (reload_accounts rs') = Some (canon b) /\ (b = a \/ edits o k a b) /\ storable b.
Proof.
  intros Hok Hc [Hrs' _] Hg. destruct (change_get o rs rv rs' rv' k a Hok Hc Hg) as (b & Hb & He).
  exists b. rewrite oget_reload by done. rewrite Hb. split_and!; [done|done|]. by destruct (accounts_ok_get rs' k b Hrs' Hb).
Qed.

(** ** Runtimes *)

Definition exclusive (rs : accounts) (rv : reservations) : Prop :=
  (forall k1 a1 k2 a2, oget k1 rs = Some a1 -> oget k2 rs = Some a2 -> a_tenant_id a1 = a_tenant_id a2 ->
     runtime_of a1 = runtime_of a2 -> k1 = k2) /\
  (forall k a, oget k rs = Some a -> oget (rkey a) rv = None).
(** The runtime [r] of the tenant [t] is the account's at [k]: in use, or kept for
    it. *)
Definition owned (rs : accounts) (rv : reservations) (t r k : string) : Prop :=
  (exists a, oget k rs = Some a /\ a_tenant_id a = t /\ runtime_of a = r) \/
  (exists v, oget (pair_key t r) rv = Some v /\ r_owner_key v = k).

Lemma not_taken rs k t r k' a :
  accounts_ok rs -> runtime_taken rs k t r = false -> oget k' rs = Some a -> a_tenant_id a = t -> runtime_of a = r -> k' = k.
Proof.
  intros Hok Ht Hg <- <-. destruct (accounts_ok_get rs k' a Hok Hg) as [-> _].
  destruct (decide (account_key a = k)) as [|Hne]; [done|exfalso].
  assert (runtime_taken rs k (a_tenant_id a) (runtime_of a) = true) as Hc; [|congruence].
  apply existsb_exists. exists (account_key a, a). split; [apply list_elem_of_In; by apply oget_Some_elem|]. cbn.
  rewrite !String.eqb_refl, !andb_true_r. apply negb_true_iff. by apply String.eqb_neq.
Qed.
Lemma rkey_inj a b : storable a -> storable b -> rkey a = rkey b -> a_tenant_id a = a_tenant_id b /\ runtime_of a = runtime_of b.
Proof. intros [] []. by apply pair_key_inj. Qed.

(** The accounts after a change: all with their runtimes, or all but one, which has
    a runtime that was free. *)
Lemma change_back o rs rv rs' rv' :
  change o rs rv rs' rv' ->
  (rv' = rv /\ forall k b, oget k rs' = Some b -> exists a, oget k rs = Some a /\ a_tenant_id b = a_tenant_id a /\ runtime_of b = runtime_of a) \/
  (exists k0 b0 rv1, oget k0 rs' = Some b0 /\ free o rs rv k0 b0 /\ rv' = opop (rkey b0) rv1 /\
     (forall k b, k <> k0 -> oget k rs' = Some b -> oget k rs = Some b) /\
     (forall a, oget k0 rs = Some a -> a_tenant_id b0 = a_tenant_id a) /\
     ((rv1 = rv /\ forall a, oget k0 rs = Some a -> runtime_of b0 = runtime_of a) \/
      exists a r, oget k0 rs = Some a /\ runtime_of b0 <> runtime_of a /\ r_owner_key r = k0 /\ rv1 = oset (rkey a) r rv)).
Proof.
  destruct 1 as [n Hn Hst Hf|k0 a0 b0 Hg0 He Hr Hb|k0 a0 b0 rv1 Hg0 He Hb Hf Hrv1|f Hf].
  - right. exists (account_key n), n, rv. split_and!; [apply oget_oset_eq|done|done| |congruence|left; split; congruence].
    intros k b Hne. by rewrite oget_oset_ne.
  - left. split; [done|]. intros k b. rewrite oget_oset. destruct (decide (k = k0)) as [->|]; [|eauto].
    intros [= <-]. exists a0. split_and!; [done|by apply He|done].
  - right. exists k0, b0, rv1. split_and!; [apply oget_oset_eq|done|done| | |].
    + intros k b Hne. by rewrite oget_oset_ne.
    + intros a Ha. simplify_eq. by apply He.
    + destruct Hrv1 as [[Hsame ->]|(Hne & r & _ & _ & Ho & ->)]; [left|right; by exists a0, r].
      split; [done|]. intros a Ha. by simplify_eq.
  - left. split; [done|]. intros k b. unfold map_accounts. rewrite oget_map_values.
    destruct (oget k rs) as [a|] eqn:Hg; [|done]. intros [= <-]. exists a.
    destruct (Hf k a Hg) as (He & Hr & _). split_and!; [done|by apply He|done].
Qed.

(** A runtime still has one account, and none that is in use is reserved. *)
Lemma exclusive_change o rs rv rs' rv' :
  store_ok rs rv -> change o rs rv rs' rv' -> store_ok rs' rv' -> exclusive rs rv -> exclusive rs' rv'.
Proof.
  intros [Hrs Hrv] Hc [Hrs' _] [H1 H2].
  destruct (change_back _ _ _ _ _ Hc) as [[-> Hb]|(k0 & b0 & rv1 & Hg0 & [Hfr _] & -> & Hother & Ht0 & Hrv1)].
  - assert (forall k b, oget k rs' = Some b -> exists a, oget k rs = Some a /\ rkey b = rkey a) as Hr.
    { intros k b Hg. destruct (Hb k b Hg) as (a & Ha & Ht & Hr). exists a. unfold rkey. by rewrite Ht, Hr. }
    split; [|intros k b Hg; destruct (Hr k b Hg) as (a & Ha & ->); eauto].
    intros k1 b1 k2 b2 Hg1 Hg2 Ht Hrt. destruct (Hb k1 b1 Hg1) as (a1 & Ha1 & ? & ?), (Hb k2 b2 Hg2) as (a2 & Ha2 & ? & ?).
    apply (H1 k1 a1 k2 a2); congruence.
  - split.
    + intros k1 b1 k2 b2 Hg1 Hg2 Ht Hrt. destruct (decide (k1 = k0)) as [->|Hn1], (decide (k2 = k0)) as [->|Hn2]; [done| | |eauto].
      * simplify_eq. symmetry. apply (not_taken rs k0 _ _ k2 b2 Hrs Hfr); [by apply Hother|congruence|congruence].
      * simplify_eq. apply (not_taken rs k0 _ _ k1 b1 Hrs Hfr); [by apply Hother|congruence|congruence].
    + intros k b Hg. rewrite oget_opop. destruct (decide (rkey b = rkey b0)) as [|Hne]; [done|].
      destruct (decide (k = k0)) as [->|Hk]; [congruence|]. pose proof (Hother k b Hk Hg) as Hold.
      destruct Hrv1 as [[-> _]|(a & r & Ha & _ & _ & ->)]; [by eapply H2|].
      rewrite oget_oset_ne; [by eapply H2|]. intros He. apply Hk.
      destruct (accounts_ok_get rs k b Hrs Hold) as [_ Hsb], (accounts_ok_get rs k0 a Hrs Ha) as [_ Hsa].
      apply (rkey_inj a b Hsa Hsb) in He as [? ?]. by apply (H1 k b k0 a).
Qed.
Lemma exclusive_reload rs rv : store_ok rs rv -> exclusive rs rv -> exclusive (reload_accounts rs) (reload_reservations rv).
Proof.
  intros [Hrs Hrv] [H1 H2].
  assert (forall k c, oget k (reload_accounts rs) = Some c -> exists a, oget k rs = Some a /\ a_tenant_id c = a_tenant_id a /\ runtime_of c = runtime_of a) as Hc.
  { intros k c. rewrite oget_reload by done. destruct (oget k rs) as [a|] eqn:Hg; [|done]. intros [= <-].
    exists a. split_and!; [done|done|]. apply canon_runtime. destruct (accounts_ok_get rs k a Hrs Hg) as [_ []]. done. }
  split.
  - intros k1 c1 k2 c2 Hg1 Hg2 Ht Hr. destruct (Hc k1 c1 Hg1) as (a1 & ? & ? & ?), (Hc k2 c2 Hg2) as (a2 & ? & ? & ?).
    apply (H1 k1 a1 k2 a2); congruence.
  - intros k c Hg. destruct (Hc k c Hg) as (a & Ha & Ht & Hr). rewrite oget_reload_reservations by done.
    unfold rkey. rewrite Ht, Hr. by apply (H2 k).
Qed.

(** A runtime keeps its owner but for a transfer of it. *)
Lemma owned_change o rs rv rs' rv' t r k :
  good_fallback t = true -> ~ transfers o t r -> store_ok rs rv -> change o rs rv rs' rv' -> exclusive rs rv ->
  owned rs rv t r k -> owned rs' rv' t r k.
Proof.
  intros Hgt Hnt Hok Hc [H1 H2] Hown.
  destruct (change_back _ _ _ _ _ Hc) as [[-> Hb]|(k0 & b0 & rv1 & Hg0 & [Hfr Hres] & -> & Hother & Ht0 & Hrv1)].
  - destruct Hown as [(a & Ha & Ht & Hr)|Hres]; [left|by right].
    destruct (change_get o rs rv rs' rv k a Hok Hc Ha) as (b & Hgb & _). destruct (Hb k b Hgb) as (a' & Ha' & Ht' & Hr').
    exists b. split_and!; [done|congruence|congruence].
  - destruct Hown as [(a & Ha & Ht & Hr)|(v & Hv & Ho)].
    + destruct (change_get o rs rv rs' _ k a Hok Hc Ha) as (b & Hgb & _).
      destruct (decide (k = k0)) as [->|Hne]; [|left; exists b; rewrite (Hother k b Hne Hgb) in Ha; simplify_eq; done].
      simplify_eq. destruct Hrv1 as [[_ Hsame]|(a' & v & Ha' & Hdiff & Ho & ->)].
      * left. exists b0. split_and!; [done|by apply Ht0|by apply Hsame].
      * simplify_eq. right. exists v. split; [|done]. rewrite oget_opop_ne, oget_oset_eq; [done|].
        intros He. apply Hdiff. unfold rkey in He. apply pair_key_inj in He as [_ ?]; [done| |done].
        by rewrite (Ht0 a') by done.
    + destruct (decide (rkey b0 = pair_key t r)) as [He|Hne].
      * left. unfold rkey in He. assert (a_tenant_id b0 = t /\ runtime_of b0 = r) as [<- <-].
        { destruct (accounts_ok_get rs' k0 b0) as [_ [_ Hgb _ _ _ _]]; [by eapply change_ok|done|]. by apply pair_key_inj. }
        destruct (Hres v Hv) as [<-|]; [|done]. exists b0. rewrite Ho in Hg0. done.
      * right. exists v. rewrite oget_opop_ne by done. split; [|done].
        destruct Hrv1 as [[-> _]|(a & v' & Ha & _ & _ & ->)]; [done|]. rewrite oget_oset_ne; [done|].
        intros He. specialize (H2 k0 a Ha). rewrite He in H2. congruence.
Qed.
Lemma owned_reload rs rv t r k : store_ok rs rv -> owned rs rv t r k -> owned (reload_accounts rs) (reload_reservations rv) t r k.
Proof.
  intros [Hrs Hrv] [(a & Ha & Ht & Hr)|(v & Hv & Ho)].
  - left. exists (canon a). rewrite oget_reload, Ha by done. split_and!; [done|done|]. rewrite canon_runtime; [done|].
    destruct (accounts_ok_get rs k a Hrs Ha) as [_ []]. done.
  - right. exists v. by rewrite oget_reload_reservations.
Qed.

(** C22: A runtime belongs to one account. Whatever operations run on the registry, and
    whichever of them fail: as long as the runtime is not transferred, the account
    it belongs to keeps it, in use or reserved for it; no other account ever gets
    it, and no runtime is ever in use by two accounts of a tenant. *)
Theorem runtime_ownership_final os w rs rv t r k :
  settled w rs rv -> exclusive rs rv -> good_fallback t = true -> owned rs rv t r k ->
  Forall (fun o => ~ transfers o t r) os ->
  exists rs' rv', settled (run_ops os w) rs' rv' /\ exclusive rs' rv' /\ owned rs' rv' t r k /\
    forall k' a, oget k' rs' = Some a -> a_tenant_id a = t -> runtime_of a = r -> k' = k.
Proof.
  intros Hs Hex Ht Hown Hos.
  destruct (settled_ops (fun o => ~ transfers o t r) (fun rs rv => exclusive rs rv /\ owned rs rv t r k) os w rs rv)
    as (rs' & rv' & Hs' & Hex' & Hown'); [|done|done|done|].
  { intros o rs0 rv0 rs1 rv1 Ho Hok Hc Hok' [He Hw]. split.
    - apply exclusive_reload; [done|]. by eapply (exclusive_change o rs0 rv0).
    - apply owned_reload; [done|]. by eapply (owned_change o rs0 rv0). }
  exists rs', rv'. split_and!; [done|done|done|]. intros k' a Hg Hta Hra.
  destruct Hex' as [H1 H2]. destruct Hown' as [(b & Hb & Htb & Hrb)|(v & Hv & _)].
  - apply (H1 k' a k b); congruence.
  - specialize (H2 k' a Hg). unfold rkey in H2. rewrite Hta, Hra in H2. congruence.
Qed.

(** ** Accounts over time *)

(** The invariants of one account, as its later forms are compared to the first. *)
Lemma account_ops (allowed : op -> Prop) (I : GatewayUserRecord -> Prop) os w rs rv k a :
  (forall o a b, allowed o -> edits o k a b -> I a -> I b) ->
  (forall a, storable a -> I a -> I (canon a)) ->
  settled w rs rv -> oget k rs = Some a -> I a -> Forall allowed os ->
  exists rs' rv' b, settled (run_ops os w) rs' rv' /\ oget k rs' = Some b /\ I b.
Proof.
  intros Hed Hcanon Hs Hg HI Hos.
  destruct (settled_ops allowed (fun rs _ => exists b, oget k rs = Some b /\ I b) os w rs rv)
    as (rs' & rv' & Hs' & b & Hb & HIb); [|done|done|by exists a|by exists rs', rv', b].
  intros o rs0 rv0 rs1 rv1 Ho Hok Hc Hok' (b & Hb & HIb).
  destruct (reload_get o rs0 rv0 rs1 rv1 k b Hok Hc Hok' Hb) as (c & Hgc & Hbc & Hst).
  exists (canon c). split; [done|]. apply Hcanon; [done|]. destruct Hbc as [->|He]; [done|]. by eapply Hed.
Qed.

(** The shape of an entity principal. *)
Record same_entity (a b : GatewayUserRecord) : Prop := {
  en_key : account_key b = account_key a;
  en_created : a_created_at b = a_created_at a;
  en_entity : is_entity b = true;
  en_roles : norm_texts (a_roles b) = norm_texts (a_roles a);
  en_runtime : runtime_of b = runtime_of a;
  en_token : a_token_hash b = a_token_hash a /\ a_token_fingerprint b = a_token_fingerprint a;
  en_password : a_password_hash b = a_password_hash a;
  en_keys : forall h, h ∈ map k_key_hash (a_openai_keys b) -> h ∈ map k_key_hash (a_openai_keys a);
}.

Lemma norm_texts_idemp l : norm_texts (norm_texts l) = norm_texts l.
Proof.
  unfold norm_texts. induction l as [|s l IH]; [done|]. cbn. destruct (nonempty (strip s)) eqn:E; [|done].
  cbn. by rewrite strip_idemp, E, IH.
Qed.
Lemma entity_roles_nonempty a : is_entity a = true -> norm_texts (a_roles a) <> [].
Proof.
  unfold is_entity. rewrite <- norm_texts_entity. intros H%bool_decide_eq_true Hn. rewrite Hn in H.
  by apply not_elem_of_nil in H.
Qed.

(** An entity's principal is not shaped here. Whatever operations run on the
    registry, an account with the role of an entity keeps its identity, its roles,
    its runtime, its token and its password (none, as it was made), and gets no
    named key. *)
Theorem entity_identity_fixed os w rs rv k a :
  settled w rs rv -> oget k rs = Some a -> is_entity a = true ->
  exists rs' rv' b, settled (run_ops os w) rs' rv' /\ oget k rs' = Some b /\ same_entity a b.
Proof.
  intros Hs Hg He. apply (account_ops (fun _ => True) (same_entity a) os w rs rv k a); try done.
  - intros o b c _ [Hu Ht Hc Hen _ _] [E1 E2 E3 E4 E5 [E6 E7] E8 E9]. destruct (Hen E3) as (H1 & H2 & H3 & H4 & H5 & H6).
    split; try congruence.
    + unfold account_key in *. congruence.
    + unfold is_entity in *. by rewrite H1.
    + split; congruence.
    + auto.
  - intros b [_ _ Hr _ _ _] [E1 E2 E3 E4 E5 E6 E7 E8]. split; try done.
    + by rewrite canon_entity.
    + pose proof (entity_roles_nonempty b E3) as Hn. unfold canon. cbn [a_roles].
      destruct (norm_texts (a_roles b)) as [|r l] eqn:E; [done|]. rewrite <- E, norm_texts_idemp. congruence.
    + by rewrite canon_runtime.
    + intros h (x & -> & Hx)%list_elem_of_fmap. apply canon_keys_sub in Hx as (y & Hy & -> & _). apply E8. by apply list_elem_of_fmap_2.
  - by apply Forall_true.
Qed.

(** ** Archived accounts *)

Definition find_principal (token : string) (rs : accounts) : option GatewayPrincipal :=
  option_map (fun a => account_principal a (token_fingerprint sha256_hex token)) (List.find (token_opens pbkdf2 token) (map snd rs)).
Lemma authenticate_settled token w rs rv :
  settled w rs rv -> authenticate clk sha256_hex pbkdf2 token w = (Ok (if String.eqb token "" then None else find_principal token rs), w).
Proof.
  intros Hs. unfold authenticate. destruct (String.eqb token ""); [done|]. unfold mbind_. by rewrite (se_load _ _ _ Hs).
Qed.
Lemma find_principal_spec token rs p :
  accounts_ok rs -> find_principal token rs = Some p ->
  exists a, oget (pair_key (tenant_id p) (user_id p)) rs = Some a /\ is_active a = true /\
    a_token_hash a <> "" /\ verify_gateway_token pbkdf2 token (a_token_hash a) = true /\
    p = account_principal a (token_fingerprint sha256_hex token).
Proof.
  intros [Hnd Hok]. unfold find_principal. destruct (List.find _ _) as [a|] eqn:E; [|done]. intros [= <-].
  apply find_some in E as [Hin%list_elem_of_In Hop]. apply list_elem_of_fmap in Hin as ([k a'] & -> & Hin).
  destruct (Hok k a' Hin) as [-> _]. exists a'. unfold token_opens in Hop. bool_to_prop.
  split_and!; [by apply NoDup_oget|done|by apply nonempty_true|done|done].
Qed.

(** The sessions' view of the registry. *)
Definition session_users (rs : accounts) (key : string) : option user := session_user <$> oget key rs.

(** C23: An archived account is shut until it is unarchived: after any operations but
    that one it is archived, no token opens a door as it, none of its named keys is
    allowed, and no browser session stands for it. *)
Theorem archived_is_shut os w rs rv k a :
  settled w rs rv -> oget k rs = Some a -> a_archived a = true ->
  Forall (fun o => unarchives o k = false) os ->
  exists rs' rv' b, settled (run_ops os w) rs' rv' /\ oget k rs' = Some b /\ a_archived b = true /\ openai_api_allowed b = false /\
    (forall token p, fst (authenticate clk sha256_hex pbkdf2 token (run_ops os w)) = Ok (Some p) ->
       pair_key (tenant_id p) (user_id p) <> k) /\
    (forall digest user_auth r fps now, s_source r = "user-registry" -> user_key (s_user_id r) (s_tenant_id r) = k ->
       session_principal digest (session_users rs') user_auth r fps now = None).
Proof.
  intros Hs Hg Ha Hos.
  destruct (account_ops (fun o => unarchives o k = false) (fun b => a_archived b = true) os w rs rv k a)
    as (rs' & rv' & b & Hs' & Hb & Hab); try done.
  { intros o b c Ho [_ _ _ _ Hed _] Hb. by apply Hed. }
  exists rs', rv', b. split_and!; [done|done|done| | |].
  - unfold openai_api_allowed. by rewrite Hab, orb_true_r.
  - intros token p. rewrite (authenticate_settled token _ _ _ Hs'). cbn. destruct (String.eqb token ""); [done|]. intros [= Hp] <-.
    apply find_principal_spec in Hp as (c & Hc & Hact & _); [|apply Hs']. unfold is_active in Hact. bool_to_prop. congruence.
  - intros digest ua r fps now Hsrc Hk. unfold session_principal. destruct (match parse_dt _ with Some e => e <=? now | None => false end); [done|].
    cbn. rewrite Hsrc. unfold registry_user, session_users. cbn. rewrite Hk, Hb. cbn. by rewrite Hab, orb_true_r.
Qed.

(** ** Tokens *)

Lemma int_of_iterations : int_of_str (str_of_Z PBKDF2_ITERATIONS) = Some PBKDF2_ITERATIONS.
Proof. by vm_compute. Qed.

(** A hash is checked against what was hashed: a token passes the hash of another
    exactly when their digests with its salt agree; its own always does. *)
Theorem token_hash_verifies token salt h :
  hash_gateway_token pbkdf2 token salt = Ok h ->
  verify_gateway_token pbkdf2 token h = true /\
  forall t, verify_gateway_token pbkdf2 t h = true <-> pbkdf2 t salt PBKDF2_ITERATIONS = pbkdf2 token salt PBKDF2_ITERATIONS.
Proof.
  unfold hash_gateway_token. destruct (pbkdf2 token salt PBKDF2_ITERATIONS) as [d|e] eqn:Hd; [|done]. cbn [rbind]. intros [= <-].
  assert (forall t, verify_gateway_token pbkdf2 t ("pbkdf2_sha256$" +:+ str_of_Z PBKDF2_ITERATIONS +:+ "$" +:+ hex salt +:+ "$" +:+ hex d) =
    match pbkdf2 t salt PBKDF2_ITERATIONS with Ok actual => String.eqb actual d | Raise _ => false end) as Hv.
  { intros t. unfold verify_gateway_token. cbn [splitn].
    assert (forall x, split1 "$" ("pbkdf2_sha256$" +:+ x) = Some ("pbkdf2_sha256", x)) as H1
      by (intros x; by apply (split1_app "$" "pbkdf2_sha256")).
    assert (forall s x, has_char "$" s = false -> split1 "$" (s +:+ "$" +:+ x) = Some (s, x)) as H2
      by (intros s x; apply split1_app).
    rewrite H1, H2, H2 by (apply hex_no_dollar || by vm_compute).
    rewrite int_of_iterations, !fromhex_hex. done. }
  split.
  - rewrite Hv, Hd. apply String.eqb_refl.
  - intros t. rewrite Hv. destruct (pbkdf2 t salt PBKDF2_ITERATIONS) as [d'|]; [|done].
    rewrite String.eqb_eq. split; [by intros ->|by intros [= ->]].
Qed.

(** ** A new account *)

Lemma find_unique {A} (f : A -> bool) (l : list A) x :
  x ∈ l -> f x = true -> (forall y, y ∈ l -> f y = true -> y = x) -> List.find f l = Some x.
Proof.
  intros Hx Hf Hu. destruct (List.find f l) as [y|] eqn:E.
  - apply find_some in E as [Hy%list_elem_of_In Hfy]. by rewrite (Hu y Hy Hfy).
  - apply list_elem_of_In in Hx. rewrite (find_none f l E x Hx) in Hf. done.
Qed.

(** What a registration that ended well wrote. *)
Lemma create_inv u t roles scopes e rt email tok rnd salt w rs rv a issued w' :
  settled w rs rv ->
  create_user clk sha256_hex pbkdf2 u t roles scopes e rt email tok rnd salt w = (Ok (a, issued), w') ->
  account_key a = asked_key t u /\ a_enabled a = e /\ a_archived a = false /\ storable a /\
  issued = or_else (strip (default "" tok)) (generate_gateway_token rnd) /\
  hash_gateway_token pbkdf2 issued salt = Ok (a_token_hash a) /\ oget (account_key a) rs = None /\
  exists now, users_file w' = Some (Json (payload (oset (account_key a) a rs) (opop (rkey a) rv) now)).
Proof.
  intros Hs. unfold create_user. cbv zeta. destruct (String.eqb_spec (safe_name u) "") as [|Hu]; [done|].
  set (iss := or_else _ _). unfold mbind_ at 1. unfold now_utc_iso at 1. unfold mbind_ at 1. unfold of_res at 1.
  destruct (normalize_email email) as [em|] eqn:Hem; [|done]. unfold mbind_ at 1, of_res at 1.
  destruct (hash_gateway_token pbkdf2 iss salt) as [th|] eqn:Hth; [|done].
  unfold mbind_ at 1. rewrite (se_load _ _ _ Hs) by done.
  set (n := new_account _ _ _ _ _ _ _ _ _ _). destruct (oget (account_key n) rs) eqn:Hn; [done|].
  unfold mbind_ at 1, of_res at 1. destruct (require_runtime_available _ _ _ _ _); [|done].
  unfold mbind_, save_store, now_utc_iso, modify, ret. cbn. intros Heq.
  assert (storable n) as Hst by (by eapply new_account_storable, normalize_email_stable). pose proof Hst as [S1 S2 S3 _ _ _].
  unfold runtime_reservation_key in Heq. rewrite safe_tenant_id, safe_name_id in Heq by done. fold (rkey n) in Heq.
  assert (a = n /\ issued = iss /\ w' = mk_registry (Some (Json (payload (oset (account_key n) n rs) (opop (rkey n) rv)
    (isoformat (clk (S (clock_reads w))))))) (S (S (clock_reads w)))) as (-> & -> & ->) by (by inversion Heq).
  split_and!; try done. by eexists.
Qed.

(** A registration gives an account and a token for it: the account is read back
    under its name, every other account as before, and the token signs in as it
    when the account is enabled and the token opens no other. *)
Theorem created_account_signs_in u t roles scopes e rt email tok rnd salt w rs rv a issued w' :
  settled w rs rv ->
  create_user clk sha256_hex pbkdf2 u t roles scopes e rt email tok rnd salt w = (Ok (a, issued), w') ->
  get_user clk u t w' = (Ok (Some (canon a)), w') /\
  (exists rs' rv', settled w' rs' rv' /\ forall k, k <> asked_key t u -> oget k rs' = canon <$> oget k rs) /\
  (e = true -> (forall k b, oget k rs = Some b -> token_opens pbkdf2 issued b = false) ->
   authenticate clk sha256_hex pbkdf2 issued w' =
     (Ok (Some (account_principal (canon a) (token_fingerprint sha256_hex issued))), w')).
Proof.
  intros Hs Hc. destruct (create_inv _ _ _ _ _ _ _ _ _ _ _ _ _ _ _ _ Hs Hc) as
    (Hk & He & Har & Hst & Hiss & Hth & Hn & now & Hf). rewrite <- Hk.
  assert (store_ok (oset (account_key a) a rs) (opop (rkey a) rv)) as Hok.
  { destruct (se_ok _ _ _ Hs) as [? ?]. split; [by apply accounts_ok_oset|by apply reservations_ok_opop]. }
  pose proof (settled_saved _ _ _ _ Hok Hf) as Hs'. set (rs' := reload_accounts _) in *.
  assert (forall k, oget k rs' = canon <$> oget k (oset (account_key a) a rs)) as Hget by (intros; apply oget_reload, Hok).
  split_and!.
  - unfold get_user, mbind_. rewrite (se_load _ _ _ Hs') by done. unfold ret. rewrite <- Hk, Hget, oget_oset_eq. done.
  - eexists _, _. split; [exact Hs'|]. intros k Hne. by rewrite Hget, oget_oset_ne.
  - intros -> Hother. rewrite (authenticate_settled issued _ _ _ Hs').
    assert (String.eqb issued "" = false) as ->.
    { subst issued. unfold or_else. by destruct (String.eqb_spec (strip (default "" tok)) ""); [|apply String.eqb_neq]. }
    unfold find_principal. rewrite (find_unique _ _ (canon a)); [done| | |].
    + apply (list_elem_of_fmap_2 snd _ (account_key a, canon a)), oget_Some_elem. by rewrite Hget, oget_oset_eq.
    + unfold token_opens, is_active. cbn. rewrite He, Har. destruct (token_hash_verifies _ _ _ Hth) as [-> _].
      rewrite andb_true_r. apply nonempty_true. intros E. rewrite E in Hth.
      unfold hash_gateway_token in Hth. by destruct (pbkdf2 issued salt PBKDF2_ITERATIONS).
    + intros c ([k c'] & -> & Hin)%list_elem_of_fmap Hop. destruct (se_ok _ _ _ Hs') as [[Hnd _] _].
      apply (NoDup_oget _ _ _ Hnd) in Hin. rewrite Hget, oget_oset in Hin. destruct (decide (k = account_key a)); [by injection Hin as <-|].
      destruct (oget k rs) as [b|] eqn:Hb; [|done]. injection Hin as <-.
      assert (token_opens pbkdf2 issued b = true) as Hyes by exact Hop. by rewrite (Hother k b Hb) in Hyes.
Qed.

(** ** The file *)

Lemma pair_leb_total a b : pair_leb a b = true \/ pair_leb b a = true.
Proof.
  destruct a as [a1 a2], b as [b1 b2]. unfold pair_leb, str_ltb. cbn.
  destruct (String.eqb_spec a1 b1) as [->|Hne].
  - rewrite String.eqb_refl, str_leb_refl. cbn. apply str_leb_total.
  - destruct (str_leb_total a1 b1) as [H|H]; [left|right].
    + destruct (str_leb b1 a1) eqn:E; [|done]. by destruct Hne; apply str_leb_antisym.
    + destruct (str_leb a1 b1) eqn:E; [|done]. by destruct Hne; apply str_leb_antisym.
Qed.
Lemma str_ltb_trans a b c : str_ltb a b = true -> str_ltb b c = true -> str_ltb a c = true.
Proof.
  unfold str_ltb. rewrite !negb_true_iff. intros H1 H2. destruct (str_leb c a) eqn:E; [|done].
  assert (str_leb a b = true) as Hab by (by destruct (str_leb_total a b); [|congruence]).
  rewrite (str_leb_trans c a b E Hab) in H2. done.
Qed.
Lemma pair_leb_trans a b c : pair_leb a b = true -> pair_leb b c = true -> pair_leb a c = true.
Proof.
  destruct a as [a1 a2], b as [b1 b2], c as [c1 c2]. unfold pair_leb. cbn.
  rewrite !orb_true_iff, !andb_true_iff, !String.eqb_eq.
  intros [H1|[-> H1]] [H2|[-> H2]]; [left; by eapply str_ltb_trans|by left|by left|right; split; [done|by eapply str_leb_trans]].
Qed.
Lemma sorted_sorted {A} (leb : A -> A -> bool) (f : A -> A) (l : list A) :
  (forall x y, leb x y = true \/ leb y x = true) -> (forall x y z, leb x y = true -> leb y z = true -> leb x z = true) ->
  (forall x y, leb (f x) (f y) = leb x y) -> py_sorted leb (map f (py_sorted leb l)) = map f (py_sorted leb l).
Proof.
  intros Ht Htr Hf. apply py_sorted_id. pose proof (py_sorted_sorted leb Ht Htr l) as Hs.
  induction Hs as [|x l' Hx Hl IH]; cbn; [constructor|]. constructor; [|done].
  apply Forall_fmap. eapply Forall_impl; [exact Hx|]. intros y. cbn. by rewrite Hf.
Qed.

(** C24: What is saved is read back: every account as itself in canonical form (its
    texts trimmed, of two keys with one fingerprint the first), every reservation
    as it was, each in the order of tenants and names, whatever the clock says; so
    no file the registry writes can fail to load. *)
Theorem file_roundtrip rs rv w :
  store_ok rs rv ->
  let w' := (save_store clk rs rv w).2 in
  list_users clk w' = (Ok (map canon (sorted_accounts rs)), w') /\
  list_runtime_reservations clk w' = (Ok (sorted_reservations rv), w') /\
  (forall u t, get_user clk u t w' = (Ok (canon <$> oget (asked_key t u) rs), w')) /\
  (forall t r, get_runtime_reservation clk t r w' = (Ok (oget (runtime_reservation_key t r) rv), w')).
Proof.
  intros Hok w'. pose proof (load_saved clk rs rv _ w' Hok eq_refl) as Hl. destruct Hok as [Hrs Hrv].
  unfold list_users, list_runtime_reservations, get_user, get_runtime_reservation, mbind_. rewrite Hl. unfold ret. clearbody w'. split_and!.
  - do 2 f_equal. unfold sorted_accounts at 1, reload_accounts. rewrite map_map. cbn. apply sorted_sorted; [| |done].
    + intros. apply pair_leb_total. + intros x y z. apply pair_leb_trans.
  - do 2 f_equal. unfold sorted_reservations at 1, reload_reservations. rewrite map_map. cbn. rewrite map_id.
    apply py_sorted_id, py_sorted_sorted.
    + intros. apply pair_leb_total. + intros x y z. apply pair_leb_trans.
  - intros u t. by rewrite oget_reload.
  - intros t r. by rewrite oget_reload_reservations.
Qed.
End Facts.
