(* ===== verification/UserRegistryRuns.v ===== *)
(** * The user registry: concrete runs

    A registry with toy digests, the inputs at which the theorems of
    UserRegistryFacts are applied, and two runs in which the registry does
    something else than its documentation says. *)

From S2P Require Import Prelude PyStr PyVal PyText OrdDict IsoTime Principal Sessions UserRegistry UserRegistryFile UserRegistryOps UserRegistryFacts.

Definition sample_clk (n : nat) : Z := 1735689600000000 + Z.of_nat n * second.
Definition sample_sha (s : string) : string := hex s +:+ "000000000000".
Definition sample_pbkdf2 (t salt : string) (n : Z) : res string := Ok (t +:+ salt).

Abbreviation run os := (run_ops sample_clk sample_sha sample_pbkdf2 os (mk_registry None 0)).
Definition person (name token : string) : op :=
  Create name "default" None None true None VNone (Some token) "" "salt".
Definition change_roles (name : string) (roles : list string) : op :=
  Update name "default" (Some roles) None None None None None None "" "".
Definition change_runtime (name runtime : string) : op :=
  Update name "default" None None None (Some runtime) None None None "" "".

(** Two accounts; the state after their registration. *)
Definition people_ops : list op := [person "alice" "token-a"; person "bob" "token-b"].
Abbreviation people := (run people_ops).
Definition loaded (w : registry) : accounts * reservations :=
  match load_store sample_clk w with (Ok p, _) => p | _ => ([], []) end.
Definition at_key (k : string) (w : registry) : option GatewayUserRecord := oget k (loaded w).1.

Lemma at_field {A} (f : GatewayUserRecord -> A) k w v :
  f <$> at_key k w = Some v -> exists a, oget k (loaded w).1 = Some a /\ f a = v.
Proof. unfold at_key. destruct (oget k (loaded w).1) as [a|]; [|done]. intros [= <-]. by exists a. Qed.

Lemma existsb_oget (f : GatewayUserRecord -> bool) (d : accounts) k b :
  existsb f (map snd d) = false -> oget k d = Some b -> f b = false.
Proof.
  intros Hf Hb%oget_Some_elem. destruct (f b) eqn:E; [|done].
  assert (existsb f (map snd d) = true); [|congruence]. apply existsb_exists. exists b. split; [|done].
  apply list_elem_of_In. by apply (list_elem_of_fmap_2 snd _ (k, b)).
Qed.
Lemma at_key_settled w rs rv k : settled sample_clk w rs rv -> at_key k w = oget k rs.
Proof. intros Hs. unfold at_key, loaded. by rewrite (se_load _ _ _ _ Hs). Qed.

(** A file written by operations is settled. *)
Lemma run_settled os :
  exists rs rv, settled sample_clk (run os) rs rv /\ loaded (run os) = (rs, rv) /\ exclusive rs rv.
Proof.
  destruct (settled_ops sample_clk sample_sha sample_pbkdf2 (fun _ => True) exclusive os (mk_registry None 0) [] [])
    as (rs & rv & Hs & Hex).
  - intros o rs rv rs' rv' _ Hok Hc Hok' He. apply exclusive_reload; [done|]. by eapply (exclusive_change o rs rv).
  - by apply settled_empty.
  - by apply Forall_true.
  - split; [intros ? ? ? ? H|intros ? ? H]; done.
  - exists rs, rv. split_and!; [done| |done]. unfold loaded. by rewrite (se_load _ _ _ _ Hs).
Qed.
Lemma loaded_settled os :
  settled sample_clk (run os) (loaded (run os)).1 (loaded (run os)).2 /\ exclusive (loaded (run os)).1 (loaded (run os)).2.
Proof. destruct (run_settled os) as (rs & rv & Hs & -> & He). by split. Qed.

(** ** The theorems on concrete inputs *)

(** Alice leaves her runtime for another; Bob cannot have it. *)
Lemma runtime_ownership_final_witness :
  let os := [change_runtime "alice" "lab"; change_runtime "bob" "alice"; person "alice2" "t"] in
  exists rs rv, settled sample_clk (run_ops sample_clk sample_sha sample_pbkdf2 os people) rs rv /\
    owned rs rv "default" "alice" "default:alice" /\ a_runtime_id <$> oget "default:alice" rs = Some "lab".
Proof.
  intros os. destruct (loaded_settled people_ops) as [Hs He].
  destruct (runtime_ownership_final sample_clk sample_sha sample_pbkdf2 os people _ _ "default" "alice" "default:alice" Hs He)
    as (rs & rv & Hs' & _ & Ho & _).
  - by vm_compute.
  - left. destruct (at_field (fun a => (a_tenant_id a, runtime_of a)) "default:alice" people ("default", "alice")) as (a & Ha & Hf);
      [by vm_compute|]. exists a. injection Hf as H1 H2. split; [exact Ha|split; assumption].
  - repeat (apply Forall_cons; split; [by intros []|]). done.
  - exists rs, rv. split; [exact Hs'|]. split; [exact Ho|].
    rewrite <- (at_key_settled _ _ _ _ Hs'). vm_compute. reflexivity.
Defined.

(** An entity's principal, as the entities' lane makes it. *)
Definition entity_ops : list op :=
  [Create "sage" "default" (Some ["entity"]) (Some ["entity:sage"]) true (Some "sage") VNone None "discarded" "salt"].
Abbreviation entity_world := (run entity_ops).
Lemma entity_identity_fixed_witness :
  let os := [change_roles "sage" ["admin"]; Update "sage" "default" None None None None None (Some "") None "r" "s";
             Transfer "default" "lab" "sage"; SetPassword "sage" "default" "hash" None] in
  exists rs rv b, settled sample_clk (run_ops sample_clk sample_sha sample_pbkdf2 os entity_world) rs rv /\
    oget "default:sage" rs = Some b /\ is_entity b = true /\ a_password_hash b = "".
Proof.
  intros os. destruct (loaded_settled entity_ops) as [Hs _].
  destruct (at_field (fun a => (is_entity a, a_password_hash a)) "default:sage" entity_world (true, "")) as (a & Ha & Hf); [by vm_compute|].
  injection Hf as Hen Hpw.
  destruct (entity_identity_fixed sample_clk sample_sha sample_pbkdf2 os entity_world _ _ "default:sage" a Hs Ha Hen)
    as (rs & rv & b & Hs' & Hb & Hsame).
  exists rs, rv, b. split_and!; [exact Hs'|exact Hb|apply Hsame|]. rewrite (en_password _ _ Hsame). exact Hpw.
Defined.

(** Alice is archived; then she asks for a new token, and an administrator tries to
    switch her on. *)
Lemma archived_is_shut_witness :
  let w := run (people_ops ++ [SetArchived "alice" "default" true "bob"]) in
  let os := [Update "alice" "default" None None (Some true) None None None None "r" "s";
             Update "alice" "default" None None None None None (Some "new") None "r" "s"] in
  exists rs rv b, settled sample_clk (run_ops sample_clk sample_sha sample_pbkdf2 os w) rs rv /\
    oget "default:alice" rs = Some b /\ a_archived b = true /\
    fst (authenticate sample_clk sample_sha sample_pbkdf2 "new" (run_ops sample_clk sample_sha sample_pbkdf2 os w)) = Ok None.
Proof.
  intros w os. destruct (loaded_settled (people_ops ++ [SetArchived "alice" "default" true "bob"])) as [Hs _]. fold w in Hs.
  destruct (at_field a_archived "default:alice" w true) as (a & Ha & Har); [by vm_compute|].
  destruct (archived_is_shut sample_clk sample_sha sample_pbkdf2 os w _ _ "default:alice" a Hs Ha Har)
    as (rs & rv & b & Hs' & Hb & Hbar & _ & Hauth & _).
  - repeat (apply Forall_cons; split; [done|]). done.
  - exists rs, rv, b. split_and!; [exact Hs'|exact Hb|exact Hbar|]. by vm_compute.
Defined.

Lemma token_hash_verifies_witness :
  hash_gateway_token sample_pbkdf2 "token-a" "salt" = Ok "pbkdf2_sha256$260000$73616c74$746f6b656e2d6173616c74" /\
  verify_gateway_token sample_pbkdf2 "token-a" "pbkdf2_sha256$260000$73616c74$746f6b656e2d6173616c74" = true /\
  verify_gateway_token sample_pbkdf2 "token-b" "pbkdf2_sha256$260000$73616c74$746f6b656e2d6173616c74" <> true.
Proof.
  split; [by vm_compute|].
  destruct (token_hash_verifies sample_pbkdf2 "token-a" "salt" "pbkdf2_sha256$260000$73616c74$746f6b656e2d6173616c74") as [H1 H2];
    [by vm_compute|]. split; [exact H1|]. rewrite H2. by vm_compute.
Defined.

Abbreviation carol_created :=
  (create_user sample_clk sample_sha sample_pbkdf2 " Carol " "default" None None true None (VStr "Carol@Example.org") None "xyz" "pepper" people).
Lemma created_account_signs_in_witness :
  exists a issued, carol_created.1 = Ok (a, issued) /\ issued = "agw_xyz" /\ a_email a = "carol@example.org" /\
    get_user sample_clk " Carol " "default" carol_created.2 = (Ok (Some (canon a)), carol_created.2) /\
    fst (authenticate sample_clk sample_sha sample_pbkdf2 issued carol_created.2) =
      Ok (Some (account_principal (canon a) (token_fingerprint sample_sha issued))).
Proof.
  destruct (loaded_settled people_ops) as [Hs _].
  assert (match carol_created.1 with Ok (a, i) => Some (a_email a, i) | _ => None end = Some ("carol@example.org", "agw_xyz")) as Hx by (by vm_compute).
  destruct carol_created as [[[a issued]|e] w'] eqn:E; [|discriminate Hx]. cbn [fst] in Hx. injection Hx as Hem ->.
  destruct (created_account_signs_in sample_clk sample_sha sample_pbkdf2 " Carol " "default" None None true None (VStr "Carol@Example.org") None
    "xyz" "pepper" people _ _ a "agw_xyz" w' Hs E) as (Hget & _ & Hauth).
  exists a, "agw_xyz". split_and!; [reflexivity|reflexivity|exact Hem|exact Hget|]. cbn [snd]. rewrite Hauth; [reflexivity|reflexivity|].
  intros k b Hb. refine (existsb_oget (token_opens sample_pbkdf2 "agw_xyz") _ k b _ Hb). vm_compute. reflexivity.
Defined.

Lemma file_roundtrip_witness :
  let rs := (loaded people).1 in
  let w' := (save_store sample_clk rs [] people).2 in
  store_ok rs [] /\ list_users sample_clk w' = (Ok (map canon (sorted_accounts rs)), w') /\ length rs = 2%nat.
Proof.
  destruct (loaded_settled people_ops) as [Hs _].
  assert (store_ok (loaded people).1 []) as Hok.
  { destruct (se_ok _ _ _ _ Hs) as [? _]. split; [done|]. split; [constructor|by intros ? ? ?%not_elem_of_nil]. }
  split; [exact Hok|]. split; [|by vm_compute].
  destruct (file_roundtrip sample_clk (loaded people).1 [] people Hok) as [H _]. exact H.
Defined.

(** ** What the documentation says otherwise *)

Definition refused_by_entity_guard {A} (r : res A) : bool :=
  match r with Raise (EntityPrincipalGuardError _) => true | _ => false end.

(** An entity's bearer "BY DESIGN must not exist". An administrator who gives a
    person the role of an entity makes one: her token and named keys stay, the token
    opens the gateway as a principal with the role of an entity, and from then on
    neither a new token, nor other roles, nor a password is accepted for it. *)
Theorem entity_bearer_minted :
  let w := run (people_ops ++ [change_roles "alice" ["entity"]]) in
  (exists p, fst (authenticate sample_clk sample_sha sample_pbkdf2 "token-a" w) = Ok (Some p) /\ roles p = ["entity"] /\ user_id p = "alice") /\
  refused_by_entity_guard (fst (update_user sample_clk sample_sha sample_pbkdf2 "alice" "default" None None None None None (Some "") None "r" "s" w)) = true /\
  refused_by_entity_guard (fst (update_user sample_clk sample_sha sample_pbkdf2 "alice" "default" (Some ["user"]) None None None None None None "r" "s" w)) = true /\
  refused_by_entity_guard (fst (set_password sample_clk "alice" "default" "" None w)) = true.
Proof. cbv zeta. split; [eexists; split; [by vm_compute|by split]|]. by split_and!; vm_compute. Qed.

(** A display name is "one line, trimmed, at most 80 characters": cut after the
    trimming, it may end in a space, which the next reading of the file removes. The
    person who gave it cannot sign in under the text she gave. *)
Definition long_name : string :=
  join "" (repeat "ab" 39) +:+ "c" +:+ " " +:+ "junior".
Theorem display_name_misses_itself :
  let w := run (people_ops ++ [SetDisplayName "alice" "default" long_name]) in
  endswith " " (normalize_display_name (VStr long_name)) = true /\
  fst (find_sign_in_account sample_clk long_name "default" w) = Ok None /\
  (a_user_id <$> match fst (find_sign_in_account sample_clk (join "" (repeat "ab" 39) +:+ "c") "default" w) with Ok o => o | _ => None end) = Some "alice".
Proof. by vm_compute. Qed.
