(* ===== verification/RecoveryCodes.v ===== *)
(** * Account recovery by e-mail

    [mail/recovery.py]: the codes e-mailed to an account's own address, their
    file with the counters of requests, and the three operations: the count of a
    request, the issue of a code, its redemption.

    The file is written by this module alone; its document is a record here, and
    the order of a dict's keys, which the file's text sorts, is not read. The
    HMAC under the gateway's key is an argument, a function of the signed text;
    both texts [compare_digest] is given are its hexadecimal digests, on which it
    is equality. Times are microseconds since the epoch. What an operation reads
    of the rest of the gateway is [outside]: the switch of the administrator, the
    records of the user registry, the accounts' mode and each principal's
    mailbox. *)

From S2P Require Import Prelude PyStr PyVal PyText OrdDict IsoTime Principal Sessions UserRegistry.

Definition PURPOSES : list string := ["sign_in"; "reset_token"].
Definition CODE_TTL_S : Z := 600 * second.
Definition MAX_ATTEMPTS : Z := 5.
Definition ACCOUNT_WINDOW_S : Z := 900 * second.
Definition ACCOUNT_MAX_REQUESTS : Z := 3.
Definition IP_WINDOW_S : Z := 900 * second.
Definition IP_MAX_REQUESTS : Z := 10.

(** ** The document *)

Record code_row := mk_code {
  c_id : string;
  c_account : string;
  c_purpose : string;
  c_hash : string;
  c_issued_at : Z;
  c_expires_at : Z;
  c_attempts : Z;
  c_used : bool;
}.
Record document := mk_document {
  d_codes : list code_row;
  d_account : list (string * list Z);
  d_ip : list (string * list Z);
}.
(** [_load] of a missing or unreadable file. *)
Definition no_document : document := mk_document [] [] [].

(** What is audited, with whom it is about. *)
Record subject := mk_subject { s_tenant : string; s_user : string; s_purpose : string; s_ip : string }.
Inductive audit :=
  | CodeRefused (reason : string) (b : subject)
  | CodeIssued (b : subject)
  | CodeUsed (accepted : bool) (reason : string) (b : subject).

(** The file and the audit log. *)
Record vault := mk_vault { v_doc : document; v_audit : list audit }.

Definition audit_event (a : audit) : M vault unit := modify (fun v => mk_vault (v_doc v) (v_audit v ++ [a])).
Definition save_doc (d : document) : M vault unit := modify (fun v => mk_vault d (v_audit v)).
Definition load_doc : M vault document := gets v_doc.

(** [_prune] *)
Definition within (window now : Z) (t : Z) : bool := now - t <? window.
Definition prune_bucket (window now : Z) (rows : list (string * list Z)) : list (string * list Z) :=
  map (fun kv => (kv.1, List.filter (within window now) kv.2)) (List.filter (fun kv => existsb (within window now) kv.2) rows).
Definition code_live (now : Z) (c : code_row) : bool := (now <? c_expires_at c) && negb (c_used c).
Definition prune (now : Z) (d : document) : document :=
  mk_document (List.filter (code_live now) (d_codes d)) (prune_bucket ACCOUNT_WINDOW_S now (d_account d))
    (prune_bucket IP_WINDOW_S now (d_ip d)).

(** ** The rest of the gateway *)

(** A mailbox: the address its owner is written to, and whether it is connected
    and on ([self_address], [email_usable]). *)
Record mailbox := mk_mailbox { box_address : string; box_usable : bool }.
Record outside := mk_outside {
  recovery_enabled : bool;
  registry_accounts : accounts;
  user_auth : bool;
  plane_for_principal : GatewayPrincipal -> option mailbox;
}.

(** [str(tenant_id or "default").strip() or "default"] *)
Definition tenant_or_default (t : string) : string := or_else (strip (or_else t "default")) "default".

(** [account_for] *)
Definition registered_as (tenant want : string) (a : GatewayUserRecord) : bool :=
  String.eqb (a_tenant_id a) tenant && a_enabled a && negb (String.eqb (principal_kind a) "entity") &&
  String.eqb (lower (a_email a)) want.
Definition account_for (o : outside) (identifier tenant : string) : string :=
  let ident := strip identifier in
  if negb (has_char "@" ident) then ident
  else
    match map a_user_id (List.filter (registered_as (tenant_or_default tenant) (lower ident)) (sorted_accounts (registry_accounts o))) with
    | [u] => u
    | _ => ident
    end.

(** [_eligible_principal] *)
Definition eligible_principal (o : outside) (user tenant : string) : option GatewayPrincipal :=
  match oget (asked_key (tenant_or_default tenant) (strip user)) (registry_accounts o) with
  | None => None
  | Some a =>
      if negb (a_enabled a) || String.eqb (principal_kind a) "entity" then None
      else let p := account_principal a "" in
           if barred_from_shared_runtime (user_auth o) p then None else Some p
  end.

(** [_recipient]: the address, or why there is none. *)
Inductive refusal := NoEmailAddress | NoMailbox.
Definition recipient (o : outside) (b : subject) : M vault (string + refusal) :=
  match eligible_principal o (s_user b) (s_tenant b) with
  | None => audit_event (CodeRefused "no_eligible_account" b) ;;; ret (inr NoEmailAddress)
  | Some p =>
      match plane_for_principal o p with
      | None => audit_event (CodeRefused "no_eligible_account" b) ;;; ret (inr NoEmailAddress)
      | Some box =>
          if String.eqb (box_address box) "" then audit_event (CodeRefused "no_email_address" b) ;;; ret (inr NoEmailAddress)
          else if negb (box_usable box) then audit_event (CodeRefused "email_not_configured" b) ;;; ret (inr NoMailbox)
          else ret (inl (box_address box))
      end
  end.

(** ** The count of a request *)

(** [round] of a number of microseconds, to seconds, ties to even. *)
Definition round_s (us : Z) : Z :=
  let q := us / second in
  let r := us mod second in
  if 2 * r <? second then q else if second <? 2 * r then q + 1 else if Z.even q then q else q + 1.
(** [_retry_after] *)
Definition oldest_of (rows : list Z) (now : Z) : Z :=
  match rows with [] => now | t :: rows => fold_left Z.min rows t end.
Definition retry_after (rows : list Z) (window now : Z) : Z :=
  Z.max 1 (round_s (window - (now - oldest_of rows now) + 499900)).

Definition key_of (b : subject) : string := s_tenant b +:+ ":" +:+ s_user b.
Definition rows_of (k : string) (d : list (string * list Z)) : list Z := default [] (oget k d).

Inductive bucket := Client | Account.
#[global] Instance bucket_eq_dec : EqDecision bucket.
Proof. solve_decision. Defined.
(** [_rate_admit] *)
Definition rate_admit (now : Z) (b : subject) : M vault (option (bucket * Z)) :=
  d <- load_doc ;;
  let d := prune now d in
  let ip_rows := rows_of (s_ip b) (d_ip d) in
  let acct_rows := rows_of (key_of b) (d_account d) in
  let with_rows (acct ip : list Z) := mk_document (d_codes d) (oset (key_of b) acct (d_account d)) (oset (s_ip b) ip (d_ip d)) in
  if IP_MAX_REQUESTS <=? Z.of_nat (length ip_rows) then
    save_doc (with_rows acct_rows ip_rows) ;;;
    audit_event (CodeRefused "rate_limited_client" b) ;;;
    ret (Some (Client, retry_after ip_rows IP_WINDOW_S now))
  else if ACCOUNT_MAX_REQUESTS <=? Z.of_nat (length acct_rows) then
    save_doc (with_rows acct_rows (ip_rows ++ [now])) ;;;
    audit_event (CodeRefused "rate_limited_account" b) ;;;
    ret (Some (Account, retry_after acct_rows ACCOUNT_WINDOW_S now))
  else
    save_doc (with_rows (acct_rows ++ [now]) (ip_rows ++ [now])) ;;;
    ret None.

(** ** The issue of a code *)

Section Recovery.
Context (hmac : string -> string).

(** [_digest] *)
Definition digest (tenant user purpose code : string) : string := hmac (join "|" [tenant; user; purpose; code]).

Definition is_for (b : subject) (c : code_row) : bool :=
  String.eqb (c_account c) (key_of b) && String.eqb (c_purpose c) (s_purpose b).
Definition without (b : subject) (d : document) : document :=
  mk_document (List.filter (fun c => negb (is_for b c)) (d_codes d)) (d_account d) (d_ip d).
Definition with_code (c : code_row) (d : document) : document := mk_document (d_codes d ++ [c]) (d_account d) (d_ip d).
Definition new_code (b : subject) (now : Z) (id code : string) : code_row :=
  mk_code id (key_of b) (s_purpose b) (digest (s_tenant b) (s_user b) (s_purpose b) code) now (now + CODE_TTL_S) 0 false.

(** [_issue] up to the mail, whether a code was stored; [now] is the clock at its
    start, [later] in its lock. *)
Definition issue_store (o : outside) (b : subject) (now later : Z) (id code : string) : M vault bool :=
  if negb (recovery_enabled o) then audit_event (CodeRefused "recovery_turned_off" b) ;;; ret false
  else
    match eligible_principal o (s_user b) (s_tenant b) with
    | None => audit_event (CodeRefused "no_eligible_account" b) ;;; ret false
    | Some p =>
        match plane_for_principal o p with
        | None => audit_event (CodeRefused "no_eligible_account" b) ;;; ret false
        | Some box =>
            if negb (box_usable box) then audit_event (CodeRefused "email_not_configured" b) ;;; ret false
            else
              d <- load_doc ;;
              save_doc (with_code (new_code b now id code) (without b (prune later d))) ;;;
              ret true
        end
    end.

(** The mail left, was refused with an [EmailError], or another exception ended
    the worker. *)
Inductive delivery := Delivered | MailRefused | Crashed.
#[global] Instance delivery_eq_dec : EqDecision delivery.
Proof. solve_decision. Defined.
Inductive sent_result := ResultSent | ResultFailed.
(** [_issue] from the mail on, and the outcome it leaves. *)
Definition issue_finish (b : subject) (how : delivery) : M vault (option sent_result) :=
  match how with
  | Delivered => audit_event (CodeIssued b) ;;; ret (Some ResultSent)
  | MailRefused =>
      d <- load_doc ;;
      save_doc (without b d) ;;;
      audit_event (CodeRefused "send_failed" b) ;;;
      ret (Some ResultFailed)
  | Crashed => ret None
  end.

(** [request_code]: its answers, and the call itself; [how] is [None] for a mail
    still on its way when the wait ends. *)
Inductive answer :=
  | Sent (to : string)
  | NoEmailAnswer
  | NoMailboxAnswer
  | SendFailed
  | TooManyRequests (who : bucket) (retry_after_s : Z).
(** [mask_address] without its fixed ending. *)
Definition masked (address : string) : string :=
  stake 1 (match split1 "@" (strip address) with Some (local, _) => local | None => strip address end).
Definition request_subject (o : outside) (user tenant purpose ip : string) : subject :=
  mk_subject (or_else tenant "default") (account_for o user (or_else tenant "default"))
    (or_else (strip purpose) "sign_in") (or_else ip "unknown").
Definition known_purpose (p : string) : bool := bool_decide (p ∈ PURPOSES).
Definition request_code (o : outside) (user tenant purpose ip : string) (now later : Z) (id code : string)
    (how : option delivery) : M vault answer :=
  let b := request_subject o user tenant purpose ip in
  if negb (known_purpose (s_purpose b)) then raise (ValueError "purpose must be one of: sign_in, reset_token")
  else
    refused <- rate_admit now b ;;
    match refused with
    | Some (who, s) => ret (TooManyRequests who s)
    | None =>
        to <- recipient o b ;;
        match to with
        | inr NoMailbox => ret NoMailboxAnswer
        | inr NoEmailAddress => ret NoEmailAnswer
        | inl address =>
            stored <- issue_store o b now later id code ;;
            result <- (match how with
                       | Some how => if stored then issue_finish b how else ret None
                       | None => ret None
                       end) ;;
            ret (match result with Some ResultFailed => SendFailed | _ => Sent (masked address) end)
        end
    end.

(** ** The redemption of a code *)

(** [str.isdigit] of one character. *)
Definition is_digit_char (c : ascii) : bool :=
  is_digit c || (code c =? 178) || (code c =? 179) || (code c =? 185).
Definition digits_of (s : string) : string := sfilter is_digit_char s.

Inductive verdict := NoActiveCode | WrongCode | TooManyAttempts | RightCode.
#[global] Instance verdict_eq_dec : EqDecision verdict.
Proof. solve_decision. Defined.

(** The first row of the account and purpose, replaced by [f] of it. *)
Fixpoint update_first {A} (p : A -> bool) (f : A -> A) (l : list A) : list A :=
  match l with [] => [] | x :: l => if p x then f x :: l else x :: update_first p f l end.
Definition with_attempts (n : Z) (used : bool) (c : code_row) : code_row :=
  mk_code (c_id c) (c_account c) (c_purpose c) (c_hash c) (c_issued_at c) (c_expires_at c) n used.

(** The locked part of [redeem_code]; [given] is the digest of the digits given,
    [None] when they are not eight. *)
Definition redeem_check (now : Z) (b : subject) (given : option string) : M vault verdict :=
  d <- load_doc ;;
  let d := prune now d in
  match List.find (is_for b) (d_codes d) with
  | None =>
      save_doc d ;;;
      audit_event (CodeUsed false "no_active_code" b) ;;;
      ret NoActiveCode
  | Some m =>
      let ok := match given with Some h => String.eqb (c_hash m) h | None => false end in
      let attempts := if ok then c_attempts m else c_attempts m + 1 in
      let spent := ok || (MAX_ATTEMPTS <=? attempts) in
      save_doc (prune now (mk_document (update_first (is_for b) (with_attempts attempts (c_used m || spent)) (d_codes d)) (d_account d) (d_ip d))) ;;;
      if ok then ret RightCode
      else
        audit_event (CodeUsed false (if spent then "too_many_attempts" else "wrong_code") b) ;;;
        ret (if spent then TooManyAttempts else WrongCode)
  end.

Definition redeem_subject (o : outside) (user tenant purpose ip : string) : subject :=
  mk_subject (tenant_or_default tenant) (account_for o (strip user) (tenant_or_default tenant)) (strip purpose) (or_else ip "unknown").
Definition given_digest (b : subject) (text : string) : option string :=
  let given := digits_of text in
  if len given =? 8 then Some (digest (s_tenant b) (s_user b) (s_purpose b) given) else None.

(** [redeem_code] *)
Definition redeem_code (o : outside) (user tenant purpose text ip : string) (now : Z) : M vault (option GatewayPrincipal) :=
  let b := redeem_subject o user tenant purpose ip in
  if negb (known_purpose (s_purpose b)) then ret None
  else if negb (recovery_enabled o) then audit_event (CodeUsed false "recovery_turned_off" b) ;;; ret None
  else
    verdict <- redeem_check now b (given_digest b text) ;;
    match verdict with
    | RightCode =>
        match eligible_principal o (s_user b) (s_tenant b) with
        | None => audit_event (CodeUsed false "no_eligible_account" b) ;;; ret None
        | Some p => audit_event (CodeUsed true "" b) ;;; ret (Some p)
        end
    | _ => ret None
    end.

(** [recovery_available] *)
Definition recovery_available (o : outside) (multi_user : bool) : bool :=
  recovery_enabled o &&
  existsb (fun a =>
    a_enabled a && negb (String.eqb (principal_kind a) "entity") &&
    (multi_user || is_admin (account_principal a "")) &&
    match plane_for_principal o (account_principal a "") with Some box => box_usable box | None => false end)
    (sorted_accounts (registry_accounts o)).
End Recovery.
