(* ===== verification/RecoverySpec.v ===== *)
(** * Account recovery: what the file promises

    An abstract account of the recovery codes ([spec]): at most one active code
    per account and purpose, with its digest, expiry and wrong tries, and the
    times of the admitted requests of every account and client address. The
    operations on the file implement it ([refines]). *)

From S2P Require Import Prelude PyStr PyVal OrdDict IsoTime Principal Sessions UserRegistry RecoveryCodes.

(** ** The specification *)

Record active := mk_active { x_hash : string; x_expires : Z; x_fails : Z }.
Record spec := mk_spec {
  x_codes : gmap (string * string) active;
  x_asked : gmap string (list Z);
  x_from : gmap string (list Z);
}.
Definition no_codes : spec := mk_spec ∅ ∅ ∅.

Definition times (k : string) (m : gmap string (list Z)) : list Z := default [] (m !! k).
Definition recent (window now : Z) (l : list Z) : list Z := List.filter (within window now) l.
Definition note_time (k : string) (now : Z) (m : gmap string (list Z)) : gmap string (list Z) := <[k := times k m ++ [now]]> m.

#[global] Arguments rows_of : simpl never.
#[global] Arguments times : simpl never.
#[global] Arguments recent : simpl never.
#[global] Arguments note_time : simpl never.
#[global] Arguments IP_MAX_REQUESTS : simpl never.
#[global] Arguments ACCOUNT_MAX_REQUESTS : simpl never.
#[global] Arguments MAX_ATTEMPTS : simpl never.
#[global] Arguments IP_WINDOW_S : simpl never.
#[global] Arguments ACCOUNT_WINDOW_S : simpl never.
#[global] Arguments CODE_TTL_S : simpl never.

(** A request that read the clock at [read] and is counted at [now], and its answer: it
    is refused only for a window that was full at [read], admitted only when there is
    room at [now]; when the two are one time, the answer is a function of it. *)
Definition asked_since (now : Z) (k : string) (s : spec) : Z := Z.of_nat (length (recent ACCOUNT_WINDOW_S now (times k (x_asked s)))).
Definition from_since (now : Z) (ip : string) (s : spec) : Z := Z.of_nat (length (recent IP_WINDOW_S now (times ip (x_from s)))).
Definition spec_admits (read now : Z) (k ip : string) (s : spec) (r : option bucket) (s' : spec) : Prop :=
  match r with
  | Some Client => IP_MAX_REQUESTS <= from_since read ip s /\ s' = s
  | Some Account => from_since now ip s < IP_MAX_REQUESTS /\ ACCOUNT_MAX_REQUESTS <= asked_since read k s /\
      s' = mk_spec (x_codes s) (x_asked s) (note_time ip read (x_from s))
  | None => from_since now ip s < IP_MAX_REQUESTS /\ asked_since now k s < ACCOUNT_MAX_REQUESTS /\
      s' = mk_spec (x_codes s) (note_time k read (x_asked s)) (note_time ip read (x_from s))
  end.
Lemma spec_admits_function now k ip s r r' s1 s2 : spec_admits now now k ip s r s1 -> spec_admits now now k ip s r' s2 -> r = r' /\ s1 = s2.
Proof. unfold spec_admits. destruct r as [[|]|], r' as [[|]|]; intros H H'; split; try done; try lia; try (destruct H, H'; congruence); destruct H as (? & ? & ->), H' as (? & ? & ->); done. Qed.
Definition spec_store (kp : string * string) (hash : string) (expires : Z) (s : spec) : spec :=
  mk_spec (<[kp := mk_active hash expires 0]> (x_codes s)) (x_asked s) (x_from s).
Definition spec_drop (kp : string * string) (s : spec) : spec := mk_spec (delete kp (x_codes s)) (x_asked s) (x_from s).
Definition spec_try (now : Z) (kp : string * string) (given : option string) (s : spec) : verdict * spec :=
  match x_codes s !! kp with
  | Some a =>
      if negb (now <? x_expires a) then (NoActiveCode, s)
      else if bool_decide (given = Some (x_hash a)) then (RightCode, spec_drop kp s)
      else if MAX_ATTEMPTS <=? x_fails a + 1 then (TooManyAttempts, spec_drop kp s)
      else (WrongCode, mk_spec (<[kp := mk_active (x_hash a) (x_expires a) (x_fails a + 1)]> (x_codes s)) (x_asked s) (x_from s))
  | None => (NoActiveCode, s)
  end.
(** A redemption is tried at one of its two times. *)
Definition spec_tries (read now : Z) (kp : string * string) (given : option string) (s : spec) (v : verdict) (s' : spec) : Prop :=
  exists t, (t = read \/ t = now) /\ spec_try t kp given s = (v, s').

(** ** Lists with one row per key *)

Section FirstRow.
Context {A K : Type} `{EqDecision K} (key : A -> K).

Definition row_at (k : K) (l : list A) : option A := List.find (fun x => bool_decide (key x = k)) l.

Lemma row_at_None k l : row_at k l = None <-> k ∉ map key l.
Proof.
  induction l as [|x l IH]; simpl; [set_solver|]. case_bool_decide; [set_solver|]. rewrite IH. set_solver.
Qed.
Lemma row_at_elem k l x : row_at k l = Some x -> x ∈ l /\ key x = k.
Proof.
  unfold row_at. intros [Hin Hk]%List.find_some. apply bool_decide_eq_true in Hk. by rewrite list_elem_of_In.
Qed.
Lemma row_at_filter k f l : NoDup (map key l) -> row_at k (List.filter f l) = x ← row_at k l; if f x : bool then Some x else None.
Proof.
  unfold row_at. induction l as [|x l IH]; simpl; [done|]. intros [Hx Hnd]%NoDup_cons. specialize (IH Hnd).
  case_bool_decide as E; simpl.
  - destruct (f x) eqn:Ef; simpl; [by rewrite bool_decide_true|]. rewrite IH.
    destruct (List.find _ l) as [y|] eqn:Ey; [|done]. apply row_at_elem in Ey as [Hy <-]. exfalso. apply Hx.
    rewrite E. by apply list_elem_of_fmap_2.
  - destruct (f x); simpl; [by rewrite bool_decide_false|done].
Qed.
Lemma row_at_one k x : row_at k [x] = if bool_decide (key x = k) then Some x else None.
Proof. done. Qed.
Lemma row_at_app k l1 l2 : row_at k (l1 ++ l2) = match row_at k l1 with Some x => Some x | None => row_at k l2 end.
Proof. unfold row_at. induction l1 as [|x l1 IH]; simpl; [done|]. by case_bool_decide. Qed.
Lemma keys_update k f l : (forall x, key (f x) = key x) -> map key (update_first (fun x => bool_decide (key x = k)) f l) = map key l.
Proof. intros Hf. induction l as [|x l IH]; simpl; [done|]. case_bool_decide; simpl; by rewrite ?Hf, ?IH. Qed.
Lemma row_at_update k j f l : (forall x, key (f x) = key x) ->
  row_at j (update_first (fun x => bool_decide (key x = k)) f l) = if decide (j = k) then f <$> row_at j l else row_at j l.
Proof.
  intros Hf. unfold row_at. induction l as [|x l IH]; simpl; [by destruct (decide (j = k))|].
  case_bool_decide as E; simpl; rewrite ?Hf.
  - case_bool_decide as E'; subst; [by rewrite decide_True|]. destruct (decide (j = key x)); [congruence|done].
  - rewrite IH. case_bool_decide as E'; [|done]. destruct (decide (j = k)); [congruence|done].
Qed.
End FirstRow.
#[global] Arguments row_at : simpl never.

Lemma update_first_ext {A} (p q : A -> bool) f l : (forall x, p x = q x) -> update_first p f l = update_first q f l.
Proof. intros He. induction l as [|x l IH]; simpl; [done|]. by rewrite He, IH. Qed.
Lemma find_ext {A} (p q : A -> bool) l : (forall x, p x = q x) -> List.find p l = List.find q l.
Proof. intros He. induction l as [|x l IH]; simpl; [done|]. by rewrite He, IH. Qed.
Lemma lfilter_same {A} (p q : A -> bool) l : (forall x, p x = q x) -> List.filter p l = List.filter q l.
Proof. intros He. induction l as [|x l IH]; simpl; [done|]. by rewrite He, IH. Qed.

Definition code_key (c : code_row) : string * string := (c_account c, c_purpose c).
Definition for_key (b : subject) : string * string := (key_of b, s_purpose b).
Lemma is_for_key b c : is_for b c = bool_decide (code_key c = for_key b).
Proof.
  unfold is_for, code_key, for_key. apply eq_true_iff_eq. rewrite andb_true_iff, !String.eqb_eq, bool_decide_eq_true.
  split; [by intros [-> ->]|by intros [= -> ->]].
Qed.
Lemma find_row_at b l : List.find (is_for b) l = row_at code_key (for_key b) l.
Proof. apply find_ext, is_for_key. Qed.

(** ** The correspondence *)

Definition seen_as (c : code_row) : active := mk_active (c_hash c) (c_expires_at c) (c_attempts c).

(** At a time not before any use of the file: one row per account and purpose,
    unused; what the specification has and the file has not is expired; the counters
    agree on the windows that end now, and hold no time the specification has not. *)
Definition no_more (l l' : list Z) : Prop := forall f : Z -> bool, (length (List.filter f l) <= length (List.filter f l'))%nat.
Record refines (now : Z) (d : document) (s : spec) : Prop := {
  rf_keys : NoDup (map code_key (d_codes d));
  rf_fresh : Forall (fun c => c_used c = false) (d_codes d);
  rf_there : forall kp c, row_at code_key kp (d_codes d) = Some c -> x_codes s !! kp = Some (seen_as c);
  rf_gone : forall kp a, row_at code_key kp (d_codes d) = None -> x_codes s !! kp = Some a -> x_expires a <= now;
  rf_account_keys : NoDup (okeys (d_account d));
  rf_ip_keys : NoDup (okeys (d_ip d));
  rf_account : forall k, recent ACCOUNT_WINDOW_S now (rows_of k (d_account d)) = recent ACCOUNT_WINDOW_S now (times k (x_asked s));
  rf_ip : forall k, recent IP_WINDOW_S now (rows_of k (d_ip d)) = recent IP_WINDOW_S now (times k (x_from s));
  rf_account_sub : forall k, no_more (rows_of k (d_account d)) (times k (x_asked s));
  rf_ip_sub : forall k, no_more (rows_of k (d_ip d)) (times k (x_from s));
}.

Lemma recent_recent window now later l : now <= later -> recent window later (recent window now l) = recent window later l.
Proof.
  intros Hle. unfold recent. induction l as [|t l IH]; simpl; [done|].
  destruct (within window now t) eqn:E; simpl; rewrite IH; [done|].
  destruct (within window later t) eqn:E'; [|done]. unfold within in *. bool_to_prop. lia.
Qed.

Lemma recent_later window now later l1 l2 :
  now <= later -> recent window now l1 = recent window now l2 -> recent window later l1 = recent window later l2.
Proof. intros Hle He. by rewrite <- (recent_recent _ now later l1), He, recent_recent. Qed.

Lemma refines_later now later d s : now <= later -> refines now d s -> refines later d s.
Proof.
  intros Hle [H1 H2 H3 H4 H5 H6 H7 H8 H9 H10]. split; try done.
  - intros kp a Hn Hs. specialize (H4 kp a Hn Hs). lia.
  - intros k. by eapply recent_later.
  - intros k. by eapply recent_later.
Qed.

Lemma refines_start now : refines now no_document no_codes.
Proof. split; try done; try constructor; by intros k f. Qed.

Lemma no_more_filter g l l' : no_more l l' -> no_more (List.filter g l) l'.
Proof.
  intros H f. etrans; [|apply (H f)]. clear. induction l as [|a l IH]; simpl; [done|]. destruct (g a); simpl; destruct (f a); simpl; lia.
Qed.
Lemma no_more_snoc l l' t : no_more l l' -> no_more (l ++ [t]) (l' ++ [t]).
Proof. intros H f. rewrite !List.filter_app, !length_app. specialize (H f). lia. Qed.

Lemma rows_of_prune window now k d : NoDup (okeys d) -> rows_of k (prune_bucket window now d) = recent window now (rows_of k d).
Proof.
  unfold rows_of, prune_bucket. induction d as [|[j l] d IH]; simpl; [done|]. intros [Hj Hnd]%NoDup_cons. specialize (IH Hnd).
  destruct (existsb (within window now) l) eqn:E; simpl.
  - by destruct (decide (k = j)).
  - rewrite IH. destruct (decide (k = j)) as [->|]; [|done].
    apply oget_None in Hj. rewrite Hj. simpl. symmetry. apply lfilter_none. intros t Ht.
    apply not_true_iff_false. intros Hw. assert (existsb (within window now) l = true); [|congruence].
    apply existsb_exists. exists t. by rewrite <- list_elem_of_In.
Qed.
Lemma okeys_prune window now d : NoDup (okeys d) -> NoDup (okeys (prune_bucket window now d)).
Proof.
  intros Hnd. unfold okeys, prune_bucket. rewrite map_map. cbn. by apply (NoDup_map_filter fst).
Qed.

Lemma Forall_lfilter {A} (P : A -> Prop) (f : A -> bool) l : Forall P l -> Forall P (List.filter f l).
Proof. rewrite !Forall_forall. intros H x [Hx _]%elem_of_lfilter. auto. Qed.

(** Pruning keeps the correspondence, whenever its clock was read. *)
Lemma refines_prune read now d s : read <= now -> refines now d s -> refines now (prune read d) s.
Proof.
  intros Hrd [H1 H2 H3 H4 H5 H6 H7 H8 H9 H10]. split; cbn [prune d_codes d_account d_ip].
  - by apply NoDup_map_filter.
  - by apply Forall_lfilter.
  - intros kp c. rewrite row_at_filter by done. destruct (row_at code_key kp (d_codes d)) as [c'|] eqn:E; simpl; [|done].
    destruct (code_live read c'); [|done]. intros [= <-]. auto.
  - intros kp a. rewrite row_at_filter by done. destruct (row_at code_key kp (d_codes d)) as [c|] eqn:E; simpl.
    + destruct (code_live read c) eqn:El; [done|]. intros _ Hs. rewrite (H3 _ _ E) in Hs. injection Hs as <-. simpl.
      unfold code_live in El. apply row_at_elem in E as [Hin _]. rewrite Forall_forall in H2. rewrite (H2 _ Hin) in El. simpl in El.
      rewrite andb_true_r in El. apply Z.ltb_ge in El. lia.
    + intros _ Hs. eauto.
  - by apply okeys_prune.
  - by apply okeys_prune.
  - intros k. rewrite rows_of_prune by done. rewrite recent_recent by lia. apply H7.
  - intros k. rewrite rows_of_prune by done. rewrite recent_recent by lia. apply H8.
  - intros k. rewrite rows_of_prune by done. apply no_more_filter, H9.
  - intros k. rewrite rows_of_prune by done. apply no_more_filter, H10.
Qed.

Lemma times_note k j now m : times j (note_time k now m) = if decide (j = k) then times k m ++ [now] else times j m.
Proof. unfold times, note_time. destruct (decide (j = k)) as [->|]; [by rewrite lookup_insert_eq|by rewrite lookup_insert_ne by done]. Qed.
Lemma rows_of_oset k j l d : rows_of j (oset k l d) = if decide (j = k) then l else rows_of j d.
Proof. unfold rows_of. rewrite oget_oset. by destruct (decide (j = k)). Qed.
Lemma recent_app window now l1 l2 : recent window now (l1 ++ l2) = recent window now l1 ++ recent window now l2.
Proof. apply List.filter_app. Qed.

(** ** The operations *)

(** Counting a request on pruned counters. *)
Lemma refines_note now d s k ip acct ips asked from :
  refines now d s ->
  recent ACCOUNT_WINDOW_S now acct = recent ACCOUNT_WINDOW_S now (times k asked) -> no_more acct (times k asked) ->
  recent IP_WINDOW_S now ips = recent IP_WINDOW_S now (times ip from) -> no_more ips (times ip from) ->
  (forall j, j <> k -> times j asked = times j (x_asked s)) ->
  (forall j, j <> ip -> times j from = times j (x_from s)) ->
  refines now (mk_document (d_codes d) (oset k acct (d_account d)) (oset ip ips (d_ip d))) (mk_spec (x_codes s) asked from).
Proof.
  intros [H1 H2 H3 H4 H5 H6 H7 H8 H9 H10] Ha Sa Hi Si Ha' Hi'. split; try done; cbn [d_codes d_account d_ip x_codes x_asked x_from].
  - by apply NoDup_okeys_oset.
  - by apply NoDup_okeys_oset.
  - intros j. rewrite rows_of_oset. destruct (decide (j = k)) as [->|]; [done|]. rewrite Ha' by done. apply H7.
  - intros j. rewrite rows_of_oset. destruct (decide (j = ip)) as [->|]; [done|]. rewrite Hi' by done. apply H8.
  - intros j. rewrite rows_of_oset. destruct (decide (j = k)) as [->|]; [done|]. rewrite Ha' by done. apply H9.
  - intros j. rewrite rows_of_oset. destruct (decide (j = ip)) as [->|]; [done|]. rewrite Hi' by done. apply H10.
Qed.
Lemma length_pruned window now k d s_rows : NoDup (okeys d) ->
  recent window now (rows_of k d) = recent window now s_rows ->
  rows_of k (prune_bucket window now d) = recent window now s_rows.
Proof. intros Hnd He. by rewrite rows_of_prune. Qed.
(** The rows counted lie between the two windows. *)
Lemma counted_between window read now l l' : read <= now -> recent window now l = recent window now l' -> no_more l l' ->
  (length (recent window now l') <= length (recent window read l))%nat /\ (length (recent window read l) <= length (recent window read l'))%nat.
Proof.
  intros Hrd Hn Hm. split; [|apply Hm]. rewrite <- Hn. rewrite <- (recent_recent window read now l) by done. apply length_lfilter_le.
Qed.

(** The answer of [_rate_admit] is one of the specification's, and so is what it
    counts. *)
Lemma rate_admit_refines read now b v s : read <= now -> refines now (v_doc v) s ->
  exists r s' v', rate_admit read b v = (Ok r, v') /\ spec_admits read now (key_of b) (s_ip b) s (option_map fst r) s' /\
    refines now (v_doc v') s'.
Proof.
  intros Hrd Hr. pose proof (refines_prune read _ _ _ Hrd Hr) as Hp. pose proof Hp as [_ _ _ _ _ _ Ha Hi Sa Si].
  pose proof (rows_of_prune IP_WINDOW_S read (s_ip b) _ (rf_ip_keys _ _ _ Hr)) as Hip.
  pose proof (rows_of_prune ACCOUNT_WINDOW_S read (key_of b) _ (rf_account_keys _ _ _ Hr)) as Hac.
  specialize (Ha (key_of b)). specialize (Hi (s_ip b)). specialize (Sa (key_of b)). specialize (Si (s_ip b)). cbn [prune d_account d_ip] in Ha, Hi, Sa, Si.
  destruct (counted_between IP_WINDOW_S read now _ _ Hrd (rf_ip _ _ _ Hr (s_ip b)) (rf_ip_sub _ _ _ Hr (s_ip b))) as [I1 I2].
  destruct (counted_between ACCOUNT_WINDOW_S read now _ _ Hrd (rf_account _ _ _ Hr (key_of b)) (rf_account_sub _ _ _ Hr (key_of b))) as [A1 A2].
  unfold rate_admit, load_doc, save_doc, audit_event, mbind_, gets, modify, ret. cbn. rewrite <- Hip in I1, I2. rewrite <- Hac in A1, A2.
  set (ips := rows_of (s_ip b) (prune_bucket _ _ _)) in *. set (acct := rows_of (key_of b) (prune_bucket _ _ _)) in *.
  destruct (Z.leb_spec IP_MAX_REQUESTS (Z.of_nat (length ips))); [|destruct (Z.leb_spec ACCOUNT_MAX_REQUESTS (Z.of_nat (length acct)))];
    cbn; eexists _, _, _; (split; [reflexivity|]); cbn [option_map fst spec_admits]; unfold from_since, asked_since.
  - split; [split; [lia|reflexivity]|]. destruct s as [sc sa sf]. by apply (refines_note now (prune read (v_doc v)) (mk_spec sc sa sf)).
  - split; [split_and!; [lia|lia|reflexivity]|]. cbn. apply (refines_note now (prune read (v_doc v)) s); try done.
    + rewrite times_note, decide_True by done. by rewrite !recent_app, Hi.
    + rewrite times_note, decide_True by done. by apply no_more_snoc.
    + intros j Hj. by rewrite times_note, decide_False.
  - split; [split_and!; [lia|lia|reflexivity]|]. cbn. apply (refines_note now (prune read (v_doc v)) s); try done.
    + rewrite times_note, decide_True by done. by rewrite !recent_app, Ha.
    + rewrite times_note, decide_True by done. by apply no_more_snoc.
    + rewrite times_note, decide_True by done. by rewrite !recent_app, Hi.
    + rewrite times_note, decide_True by done. by apply no_more_snoc.
    + intros j Hj. by rewrite times_note, decide_False.
    + intros j Hj. by rewrite times_note, decide_False.
Qed.

Lemma row_at_without kp b d : NoDup (map code_key (d_codes d)) ->
  row_at code_key kp (d_codes (without b d)) = if decide (kp = for_key b) then None else row_at code_key kp (d_codes d).
Proof.
  intros Hnd. unfold without. cbn [d_codes]. rewrite row_at_filter by done. destruct (row_at code_key kp (d_codes d)) as [c|] eqn:E; simpl; [|by case_decide].
  apply row_at_elem in E as [_ <-]. rewrite is_for_key. case_bool_decide; simpl; by case_decide.
Qed.

Lemma refines_without now b d s : refines now d s -> refines now (without b d) (spec_drop (for_key b) s).
Proof.
  intros [H1 H2 H3 H4 H5 H6 H7 H8 H9 H10]. split; try done; cbn [spec_drop x_codes].
  - by apply NoDup_map_filter.
  - by apply Forall_lfilter.
  - intros kp c. rewrite row_at_without by done. case_decide; [done|]. intros Hc. rewrite lookup_delete_ne by congruence. auto.
  - intros kp a. rewrite row_at_without by done. case_decide; [subst; by rewrite lookup_delete_eq|].
    intros Hn. rewrite lookup_delete_ne by congruence. eauto.
Qed.

Lemma refines_store now b d s c : refines now d s -> code_key c = for_key b -> c_used c = false -> c_attempts c = 0 ->
  refines now (with_code c (without b d)) (spec_store (for_key b) (c_hash c) (c_expires_at c) s).
Proof.
  intros Hr Hk Hu Ha. pose proof (refines_without now b d s Hr) as [H1 H2 H3 H4 H5 H6 H7 H8 H9 H10].
  pose proof (row_at_without (for_key b) b d (rf_keys _ _ _ Hr)) as Hn. rewrite decide_True in Hn by done.
  split; try done; cbn [with_code d_codes spec_store x_codes d_account d_ip x_asked x_from].
  - rewrite map_app. simpl. apply NoDup_app. split_and!; [done| |apply NoDup_singleton]. intros kp Hkp ->%list_elem_of_singleton.
    rewrite Hk in Hkp. by apply row_at_None in Hn.
  - apply Forall_app. split; [done|]. by constructor.
  - intros kp c'. rewrite row_at_app. destruct (row_at code_key kp (d_codes (without b d))) as [c0|] eqn:E.
    + intros [= <-]. pose proof (H3 _ _ E) as H. cbn in H. destruct (decide (kp = for_key b)) as [->|]; [congruence|].
      rewrite lookup_insert_ne by done. by rewrite lookup_delete_ne in H.
    + rewrite row_at_one. case_bool_decide as Ek; [|done]. intros [= <-]. rewrite <- Ek, Hk, lookup_insert_eq. unfold seen_as. by rewrite Ha.
  - intros kp a. rewrite row_at_app. destruct (row_at code_key kp (d_codes (without b d))) as [c0|] eqn:E; [done|].
    rewrite row_at_one. case_bool_decide as Ek; [done|]. intros _. rewrite Hk in Ek. rewrite lookup_insert_ne by done.
    intros Hs. apply (H4 kp a E). cbn. by rewrite lookup_delete_ne.
Qed.

(** A try on the row of an account and purpose: a spent row goes, another keeps
    its count. *)
Definition tried (kp : string * string) (c : code_row) (n : Z) (spent : bool) (s : spec) : spec :=
  if spent then spec_drop kp s
  else mk_spec (<[kp := mk_active (c_hash c) (c_expires_at c) n]> (x_codes s)) (x_asked s) (x_from s).

Lemma refines_tried read now b d s c n spent : read <= now ->
  refines now d s -> row_at code_key (for_key b) (d_codes d) = Some c -> read < c_expires_at c ->
  refines now (prune read (mk_document (update_first (is_for b) (with_attempts n spent) (d_codes d)) (d_account d) (d_ip d)))
    (tried (for_key b) c n spent s).
Proof.
  intros Hrd Hr Hc Hl. pose proof (refines_prune read _ _ _ Hrd Hr) as [_ _ _ _ P5 P6 P7 P8 P9 P10]. destruct Hr as [H1 H2 H3 H4 H5 H6 H7 H8 H9 H10].
  rewrite (update_first_ext _ _ _ _ (is_for_key b)).
  assert (forall k, row_at code_key k (List.filter (code_live read) (update_first (fun c => bool_decide (code_key c = for_key b)) (with_attempts n spent) (d_codes d))) =
    if decide (k = for_key b) then (if spent then None else Some (with_attempts n spent c))
    else x ← row_at code_key k (d_codes d); if code_live read x then Some x else None) as Hrow.
  { intros k. rewrite row_at_filter by (by rewrite keys_update). rewrite row_at_update by done.
    destruct (decide (k = for_key b)) as [->|]; [|done]. rewrite Hc. simpl. unfold code_live. cbn.
    destruct (Z.ltb_spec read (c_expires_at c)); [|lia]. by destruct spent. }
  split; cbn [prune d_codes d_account d_ip].
  - apply NoDup_map_filter. by rewrite keys_update.
  - rewrite Forall_forall. intros x [_ Hx]%elem_of_lfilter. unfold code_live in Hx. bool_to_prop. done.
  - intros kp x. rewrite Hrow. unfold tried. destruct (decide (kp = for_key b)) as [->|Hne].
    + destruct spent; [done|]. intros [= <-]. cbn. by rewrite lookup_insert_eq.
    + destruct (row_at code_key kp (d_codes d)) as [y|] eqn:E; simpl; [|done]. destruct (code_live read y); [|done].
      intros [= <-]. specialize (H3 _ _ E). destruct spent; cbn; [by rewrite lookup_delete_ne|by rewrite lookup_insert_ne].
  - intros kp a. rewrite Hrow. unfold tried. destruct (decide (kp = for_key b)) as [->|Hne].
    + destruct spent; [|done]. intros _. cbn. by rewrite lookup_delete_eq.
    + intros Hn Hs. assert (x_codes s !! kp = Some a) as Hs'.
      { destruct spent; cbn in Hs; [by rewrite lookup_delete_ne in Hs|by rewrite lookup_insert_ne in Hs]. }
      destruct (row_at code_key kp (d_codes d)) as [y|] eqn:E; simpl in Hn; [|eauto].
      destruct (code_live read y) eqn:Ey; [done|]. rewrite (H3 _ _ E) in Hs'. injection Hs' as <-. cbn.
      apply row_at_elem in E as [Hin _]. rewrite Forall_forall in H2. unfold code_live in Ey. rewrite (H2 _ Hin) in Ey. cbn in Ey.
      rewrite andb_true_r in Ey. apply Z.ltb_ge in Ey. lia.
  - done.
  - done.
  - intros k. unfold tried. destruct spent; apply P7.
  - intros k. unfold tried. destruct spent; apply P8.
  - intros k. unfold tried. destruct spent; apply P9.
  - intros k. unfold tried. destruct spent; apply P10.
Qed.

(** The locked part of [redeem_code] is the specification's try. *)
Lemma redeem_check_refines read now b given v s : read <= now -> refines now (v_doc v) s ->
  exists r s' v', redeem_check read b given v = (Ok r, v') /\ spec_tries read now (for_key b) given s r s' /\ refines now (v_doc v') s'.
Proof.
  intros Hrd Hr. pose proof (refines_prune read _ _ _ Hrd Hr) as Hp. unfold redeem_check, load_doc, save_doc, audit_event, mbind_, gets, modify, ret, spec_tries.
  rewrite find_row_at. destruct (row_at code_key (for_key b) (d_codes (prune read (v_doc v)))) as [m|] eqn:E; cbv zeta beta.
  - pose proof (rf_there _ _ _ Hp _ _ E) as Hs. pose proof E as [Hin _]%row_at_elem. pose proof (rf_fresh _ _ _ Hp) as Hf. rewrite Forall_forall in Hf.
    specialize (Hf _ Hin). unfold prune in Hin. cbn [d_codes] in Hin. apply elem_of_lfilter in Hin as [_ Hlive]. unfold code_live in Hlive. apply andb_true_iff in Hlive as [Hlt _].
    assert (spec_try read (for_key b) given s = if bool_decide (given = Some (c_hash m)) then (RightCode, spec_drop (for_key b) s)
      else if MAX_ATTEMPTS <=? c_attempts m + 1 then (TooManyAttempts, spec_drop (for_key b) s)
      else (WrongCode, mk_spec (<[for_key b := mk_active (c_hash m) (c_expires_at m) (c_attempts m + 1)]> (x_codes s)) (x_asked s) (x_from s))) as Htry.
    { unfold spec_try. rewrite Hs. cbn [seen_as x_fails x_hash x_expires]. by rewrite Hlt. }
    apply Z.ltb_lt in Hlt. rewrite Hf. cbn [orb].
    assert (match given with Some h => String.eqb (c_hash m) h | None => false end = bool_decide (given = Some (c_hash m))) as ->.
    { destruct given as [h|]; [|by rewrite bool_decide_false]. destruct (String.eqb_spec (c_hash m) h); case_bool_decide; congruence. }
    case_bool_decide; cbn [orb]; [|destruct (MAX_ATTEMPTS <=? c_attempts m + 1)]; eexists _, _, _; (split; [reflexivity|]);
      (split; [exists read; split; [by left|exact Htry]|]); cbn [v_doc snd].
    + exact (refines_tried read now b _ s m (c_attempts m) true Hrd Hp E Hlt).
    + exact (refines_tried read now b _ s m (c_attempts m + 1) true Hrd Hp E Hlt).
    + exact (refines_tried read now b _ s m (c_attempts m + 1) false Hrd Hp E Hlt).
  - eexists _, s, _. split; [reflexivity|]. split; [|done]. exists now. split; [by right|]. unfold spec_try.
    destruct (x_codes s !! for_key b) as [a|] eqn:Es; [|done].
    pose proof (rf_gone _ _ _ Hp _ _ E Es). by destruct (Z.ltb_spec now (x_expires a)); [lia|].
Qed.

(** The issue of a code. *)
Section Issue.
Context (hmac : string -> string).

Definition stored_hash (b : subject) (code : string) : string := digest hmac (s_tenant b) (s_user b) (s_purpose b) code.

Lemma issue_store_refines o b now later id code v s : refines later (v_doc v) s ->
  exists stored v', issue_store hmac o b now later id code v = (Ok stored, v') /\
    refines later (v_doc v')
      (if stored then spec_store (for_key b) (stored_hash b code) (now + CODE_TTL_S) s else s) /\
    (stored = true -> exists p box, eligible_principal o (s_user b) (s_tenant b) = Some p /\ plane_for_principal o p = Some box /\ box_usable box = true).
Proof.
  intros Hr. unfold issue_store, load_doc, save_doc, audit_event, mbind_, gets, modify, ret.
  destruct (recovery_enabled o); cbn [negb]; [|by eexists false, _].
  destruct (eligible_principal o (s_user b) (s_tenant b)) as [p|]; [|by eexists false, _].
  destruct (plane_for_principal o p) as [box|] eqn:Ep; [|by eexists false, _].
  destruct (box_usable box) eqn:Eb; cbn [negb]; [|by eexists false, _].
  eexists true, _. split; [reflexivity|]. split; [|eauto]. cbn [v_doc snd].
  pose proof (refines_store later b (prune later (v_doc v)) s (new_code hmac b now id code)) as H. apply H; [by apply refines_prune; [lia|]|done..].
Qed.

Lemma issue_finish_refines now b how v s : refines now (v_doc v) s ->
  exists r v', issue_finish b how v = (Ok r, v') /\
    refines now (v_doc v') (if decide (how = MailRefused) then spec_drop (for_key b) s else s).
Proof.
  intros Hr. unfold issue_finish, load_doc, save_doc, audit_event, mbind_, gets, modify, ret.
  destruct how; eexists _, _; (split; [reflexivity|]); cbn [v_doc snd]; [done| |done].
  by apply refines_without.
Qed.
End Issue.
