(* ===== verification/RecoveryFacts.v ===== *)
(** * Account recovery: any interleaving of requests, workers and redemptions

    The operations as steps of one world (the request thread up to the start of a
    worker, a worker's write of the code, the end of its mail, a redemption), in the
    order in which they take the lock; a request and a redemption read the clock
    before they take it, as much earlier as the schedule has it. The trace they
    leave, and what holds of every trace. *)

From S2P Require Import Prelude PyStr PyVal PyText OrdDict IsoTime Principal Sessions UserRegistry RecoveryCodes RecoverySpec.

(** ** Bursts

    Times, the latest first, of which every window has at most [n]. *)
Section Bursts.
Context (n window : Z).

Inductive spaced : list Z -> Prop :=
  | spaced_nil : spaced []
  | spaced_cons t ts : spaced ts -> Forall (fun a => a <= t) ts -> Z.of_nat (length (recent window t ts)) < n -> spaced (t :: ts).

Lemma length_recent_filter now f ts : (length (recent window now (List.filter f ts)) <= length (recent window now ts))%nat.
Proof. unfold recent. induction ts as [|a ts IH]; simpl; [lia|]. destruct (f a), (within window now a) eqn:E; simpl; rewrite ?E; simpl; lia. Qed.
Lemma spaced_filter f ts : spaced ts -> spaced (List.filter f ts).
Proof.
  induction 1 as [|t ts Hs IH Hle Hn]; simpl; [constructor|]. destruct (f t); [|done]. constructor; [done|by apply Forall_lfilter|].
  pose proof (length_recent_filter t f ts). lia.
Qed.

Lemma length_split (f : Z -> bool) ts : length ts = (length (List.filter f ts) + length (List.filter (fun x => negb (f x)) ts))%nat.
Proof. induction ts as [|a ts IH]; simpl; [done|]. destruct (f a); simpl; lia. Qed.

(** No more than [n] for every window begun. *)
Lemma spaced_bound ts start finish : 0 < window -> 0 < n -> spaced ts -> start <= finish ->
  Forall (fun a => start <= a <= finish) ts -> Z.of_nat (length ts) <= n * ((finish - start) / window + 1).
Proof.
  intros Hw Hn. remember (length ts) as m eqn:Em. revert ts finish Em. induction (lt_wf m) as [m _ IH]. intros ts finish Em Hs Hsf Hf.
  destruct Hs as [|t ts Hs Hle Hr].
  { subst. simpl. assert (0 <= (finish - start) / window) by (apply Z.div_pos; lia). nia. }
  apply Forall_cons in Hf as [Ht Hf]. set (old := List.filter (fun a => negb (within window t a)) ts).
  pose proof (length_split (within window t) ts) as Hl. fold (recent window t ts) in Hl. fold old in Hl.
  assert ((t - start) / window <= (finish - start) / window) as Hmono by (apply Z.div_le_mono; lia).
  destruct old as [|a old'] eqn:Eo.
  { simpl in Hl. assert (0 <= (finish - start) / window) by (apply Z.div_pos; lia). subst m. simpl. nia. }
  assert (Forall (fun a => start <= a <= t - window) old) as Hold.
  { subst old. rewrite Forall_forall in Hf |- *. intros x [Hx Hw']%elem_of_lfilter. specialize (Hf x Hx). unfold within in Hw'. bool_to_prop. lia. }
  assert (start <= t - window) as Hst.
  { rewrite Eo in Hold. apply Forall_cons in Hold as [? _]. lia. }
  assert (spaced old) as Hso by (by apply spaced_filter).
  specialize (IH (length old)). rewrite Eo in IH. rewrite <- Eo in IH.
  assert (Z.of_nat (length old) <= n * ((t - window - start) / window + 1)) as Hlo.
  { apply (IH ltac:(subst m; simpl; rewrite Eo; lia) old (t - window)); [done|done|lia|done]. }
  replace (t - window - start) with ((t - start) + (-1) * window) in Hlo by lia. rewrite Z.div_add in Hlo by lia.
  subst m. simpl. rewrite Eo in Hlo. nia.
Qed.
(** Nor has any window later. *)
Lemma spaced_recent ts now : 0 <= n -> spaced ts -> Forall (fun a => a <= now) ts -> Z.of_nat (length (recent window now ts)) <= n.
Proof.
  intros Hn [|t ts' _ Hle Hr] Hf; [done|]. apply Forall_cons in Hf as [Ht _].
  assert (length (recent window now ts') <= length (recent window t ts'))%nat.
  { rewrite <- (recent_recent window t now ts') by done. apply length_lfilter_le. }
  unfold recent in *. simpl. destruct (within window now t); simpl; lia.
Qed.
End Bursts.

(** ** Interleavings *)

Section World.
Context (hmac : string -> string).

(** The file, the workers that have not stored their code yet, and those whose
    mail is on its way. *)
Record world := mk_world { w_vault : vault; w_workers : list subject; w_sending : list subject }.
Definition new_world : world := mk_world (mk_vault no_document []) [] [].

(** [read], [began]: when the thread read the clock, before it took the lock. *)
Inductive op :=
  | Ask (read : Z) (o : outside) (user tenant purpose ip : string)
  | Put (n : nat) (o : outside) (began : Z) (id code : string)
  | Finish (n : nat) (how : delivery)
  | Redeem (read : Z) (o : outside) (user tenant purpose text ip : string).

(** What happened, by account and purpose. *)
Inductive event :=
  | Asked (read : Z) (k ip : string) (refused : option bucket)
  | Stored (kp : string * string) (hash : string) (expires : Z)
  | Withdrawn (kp : string * string)
  | Tried (read : Z) (kp : string * string) (given : option string) (v : verdict).

Definition without_nth {A} (n : nat) (l : list A) : list A := firstn n l ++ skipn (S n) l.

(** The request thread: the count, the address, the start of the worker. *)
Definition ask (read : Z) (o : outside) (b : subject) : M vault (option bucket * bool) :=
  refused <- rate_admit read b ;;
  match refused with
  | Some (who, _) => ret (Some who, false)
  | None => to <- recipient o b ;; ret (None, match to with inl _ => true | inr _ => false end)
  end.

Definition step (now : Z) (p : op) (w : world) : option event * world :=
  match p with
  | Ask read o user tenant purpose ip =>
      let b := request_subject o user tenant purpose ip in
      if negb (known_purpose (s_purpose b)) then (None, w)
      else match ask read o b (w_vault w) with
           | (Ok (refused, started), v) =>
               (Some (Asked read (key_of b) (s_ip b) refused), mk_world v (w_workers w ++ (if started then [b] else [])) (w_sending w))
           | (Raise _, v) => (None, mk_world v (w_workers w) (w_sending w))
           end
  | Put n o began id code =>
      match w_workers w !! n with
      | None => (None, w)
      | Some b =>
          match issue_store hmac o b began now id code (w_vault w) with
          | (Ok true, v) =>
              (Some (Stored (for_key b) (stored_hash hmac b code) (began + CODE_TTL_S)), mk_world v (without_nth n (w_workers w)) (w_sending w ++ [b]))
          | (_, v) => (None, mk_world v (without_nth n (w_workers w)) (w_sending w))
          end
      end
  | Finish n how =>
      match w_sending w !! n with
      | None => (None, w)
      | Some b =>
          (if decide (how = MailRefused) then Some (Withdrawn (for_key b)) else None,
           mk_world (exec (issue_finish b how) (w_vault w)) (w_workers w) (without_nth n (w_sending w)))
      end
  | Redeem read o user tenant purpose text ip =>
      let b := redeem_subject o user tenant purpose ip in
      let given := given_digest hmac b text in
      (if known_purpose (s_purpose b) && recovery_enabled o
       then match redeem_check read b given (w_vault w) with (Ok v, _) => Some (Tried read (for_key b) given v) | _ => None end
       else None,
       mk_world (exec (redeem_code hmac o user tenant purpose text ip read) (w_vault w)) (w_workers w) (w_sending w))
  end.

Abbreviation trace := (list (Z * event)).
Definition record_event (now : Z) (e : option event) (tr : trace) : trace := match e with Some e => (now, e) :: tr | None => tr end.
(** The trace, the latest event first. *)
Fixpoint run (ops : list (Z * op)) (tr : trace) (w : world) : trace * world :=
  match ops with
  | [] => (tr, w)
  | (now, p) :: ops => let '(e, w) := step now p w in run ops (record_event now e tr) w
  end.

(** The clock does not go back: the lock is taken in the order of time, after the
    thread read the clock. *)
Definition began_before (now : Z) (p : op) : Prop :=
  match p with Put _ _ t _ _ | Ask t _ _ _ _ _ | Redeem t _ _ _ _ _ _ => t <= now | Finish _ _ => True end.
Fixpoint timed (last : Z) (ops : list (Z * op)) (finish : Z) : Prop :=
  match ops with
  | [] => last <= finish
  | (now, p) :: ops => last <= now /\ began_before now p /\ timed now ops finish
  end.

Lemma timed_le ops last finish : timed last ops finish -> last <= finish.
Proof. revert last. induction ops as [|[now p] ops IH]; intros last; simpl; [done|]. intros (Hl & _ & H). specialize (IH _ H). lia. Qed.

(** ** The trace is one of the specification *)

Definition spec_event (now : Z) (e : event) (s s' : spec) : Prop :=
  match e with
  | Asked read k ip r => spec_admits read now k ip s r s'
  | Stored kp hash expires => s' = spec_store kp hash expires s
  | Withdrawn kp => s' = spec_drop kp s
  | Tried read kp given v => spec_tries read now kp given s v s'
  end.
Inductive replays : trace -> spec -> Prop :=
  | replays_nil : replays [] no_codes
  | replays_cons now e tr s s' : replays tr s -> spec_event now e s s' -> replays ((now, e) :: tr) s'.

Lemma recipient_doc o b v : exists r v', recipient o b v = (Ok r, v') /\ v_doc v' = v_doc v.
Proof.
  unfold recipient, audit_event, modify, mbind_, ret. destruct (eligible_principal o _ _) as [p|]; [|by eexists _, _].
  destruct (plane_for_principal o p) as [box|]; [|by eexists _, _].
  destruct (String.eqb (box_address box) ""); [by eexists _, _|]. destruct (box_usable box); by eexists _, _.
Qed.

Lemma ask_refines read now o b v s : read <= now -> refines now (v_doc v) s ->
  exists r started s' v', ask read o b v = (Ok (r, started), v') /\ spec_admits read now (key_of b) (s_ip b) s r s' /\ refines now (v_doc v') s'.
Proof.
  intros Hrd Hr. destruct (rate_admit_refines read now b v s Hrd Hr) as (r & s' & v1 & H1 & Hr1 & Hd). unfold ask, mbind_, ret. rewrite H1.
  destruct r as [[who sec]|]; cbn in Hr1.
  - by eexists _, _, s', _.
  - destruct (recipient_doc o b v1) as (to & v2 & H2 & Hd2). rewrite H2. eexists _, _, s', _. split; [reflexivity|].
    by rewrite Hd2.
Qed.

Lemma redeem_code_doc o user tenant purpose text ip now v :
  let b := redeem_subject o user tenant purpose ip in
  v_doc (exec (redeem_code hmac o user tenant purpose text ip now) v) =
  if known_purpose (s_purpose b) && recovery_enabled o then v_doc (exec (redeem_check now b (given_digest hmac b text)) v) else v_doc v.
Proof.
  intros b. subst b. unfold redeem_code, exec, audit_event, modify, mbind_, ret. set (b := redeem_subject _ _ _ _ _).
  destruct (known_purpose (s_purpose b)); cbn [negb andb]; [|done]. destruct (recovery_enabled o); cbn [negb]; [|done].
  destruct (redeem_check now b (given_digest hmac b text) v) as [[verdict|] v']; [|done].
  destruct verdict; try done. by destruct (eligible_principal o _ _).
Qed.

(** A step leaves an event of the specification. *)
Lemma step_refines now p w s : refines now (v_doc (w_vault w)) s -> began_before now p ->
  exists s', match (step now p w).1 with Some e => spec_event now e s s' | None => s' = s end /\
    refines now (v_doc (w_vault (step now p w).2)) s'.
Proof.
  intros Hr Hb. destruct p as [read o user tenant purpose ip|n o began id code|n how|read o user tenant purpose text ip]; cbn [step].
  - set (b := request_subject _ _ _ _ _). destruct (known_purpose (s_purpose b)); cbn [negb fst snd]; [|by exists s].
    destruct (ask_refines read now o b (w_vault w) s Hb Hr) as (r & started & s' & v' & -> & Hs & Hr'). by exists s'.
  - destruct (w_workers w !! n) as [b|]; [|by exists s].
    destruct (issue_store_refines hmac o b began now id code (w_vault w) s Hr) as (stored & v' & -> & Hr' & _).
    destruct stored; eexists; by split.
  - destruct (w_sending w !! n) as [b|]; [|by exists s].
    destruct (issue_finish_refines now b how (w_vault w) s Hr) as (r & v' & He & Hr').
    cbn [fst snd w_vault]. unfold exec. rewrite He. cbn [snd]. destruct (decide (how = MailRefused)); eexists; by split.
  - set (b := redeem_subject _ _ _ _ _). cbn [fst snd w_vault]. rewrite redeem_code_doc. fold b.
    destruct (known_purpose (s_purpose b) && recovery_enabled o); [|by exists s].
    destruct (redeem_check_refines read now b (given_digest hmac b text) (w_vault w) s Hb Hr) as (r & s' & v' & He & Hs & Hr').
    unfold exec. rewrite He. by exists s'.
Qed.

(** What every step keeps, every run keeps. *)
Lemma run_induct (I : Z -> trace -> world -> Prop) ops last finish tr w :
  (forall now later tr w, now <= later -> I now tr w -> I later tr w) ->
  (forall now p tr w, I now tr w -> began_before now p -> I now (record_event now (step now p w).1 tr) (step now p w).2) ->
  timed last ops finish -> I last tr w -> I finish (run ops tr w).1 (run ops tr w).2.
Proof.
  intros Hlater Hstep. revert last tr w. induction ops as [|[now p] ops IH]; intros last tr w; cbn [run timed fst snd].
  - intros Hle HI. by eapply Hlater.
  - intros (Hle & Hb & Ht) HI. pose proof (Hstep now p tr w (Hlater _ _ _ _ Hle HI) Hb) as HI'.
    destruct (step now p w) as [e w'] eqn:E. by apply (IH now).
Qed.

Fixpoint ordered (tr : trace) : Prop :=
  match tr with [] => True | (now, _) :: tr => Forall (fun e => e.1 <= now) tr /\ ordered tr end.
Definition linked (now : Z) (tr : trace) (w : world) : Prop :=
  exists s, replays tr s /\ refines now (v_doc (w_vault w)) s /\ Forall (fun e => e.1 <= now) tr /\ ordered tr.

Lemma linked_step now p tr w : linked now tr w -> began_before now p ->
  linked now (record_event now (step now p w).1 tr) (step now p w).2.
Proof.
  intros (s & Hs & Hr & Ht & Ho) Hb. destruct (step_refines now p w s Hr Hb) as (s' & He & Hr').
  exists s'. destruct (step now p w).1 as [e|]; cbn [record_event].
  - split_and!; [by econstructor|done| |by split]. constructor; [simpl; lia|done].
  - by subst.
Qed.
Lemma linked_later now later tr w : now <= later -> linked now tr w -> linked later tr w.
Proof.
  intros Hle (s & Hs & Hr & Ht & Ho). exists s. split_and!; [done|by eapply refines_later| |done].
  eapply Forall_impl; [exact Ht|]. simpl. lia.
Qed.
Lemma linked_run ops start finish : timed start ops finish ->
  linked finish (run ops [] new_world).1 (run ops [] new_world).2.
Proof.
  intros Ht. apply (run_induct linked ops start); [intros; by eapply linked_later|intros; by apply linked_step|done|].
  exists no_codes. split_and!; [constructor|apply refines_start|constructor|done].
Qed.

(** ** What a trace counts *)

Definition when (f : event -> bool) (e : Z * event) : option Z := if f e.2 then Some e.1 else None.
Definition occurrences (f : event -> bool) (tr : trace) : list Z := omap (when f) tr.
Definition is_admitted (k : string) (e : event) : bool := match e with Asked _ j _ None => String.eqb j k | _ => false end.
Definition is_stored_for (k : string) (e : event) : bool := match e with Stored kp _ _ => String.eqb kp.1 k | _ => false end.
Definition is_stored (kp : string * string) (e : event) : bool := match e with Stored kp' _ _ => bool_decide (kp' = kp) | _ => false end.
(** A try that was compared with an active code; one it did not match; one it did. *)
Definition is_guess (kp : string * string) (e : event) : bool :=
  match e with Tried _ kp' _ v => bool_decide (kp' = kp) && negb (bool_decide (v = NoActiveCode)) | _ => false end.
Definition is_wrong (kp : string * string) (e : event) : bool :=
  match e with Tried _ kp' _ v => bool_decide (kp' = kp) && bool_decide (v = WrongCode) | _ => false end.
(** What ends an active code. *)
Definition ends (kp : string * string) (e : event) : bool :=
  match e with
  | Tried _ kp' _ v => bool_decide (kp' = kp) && (bool_decide (v = RightCode) || bool_decide (v = TooManyAttempts))
  | Withdrawn kp' => bool_decide (kp' = kp)
  | Stored kp' _ _ => bool_decide (kp' = kp)
  | Asked _ _ _ _ => false
  end.
Definition count (f : event -> bool) (tr : trace) : Z := Z.of_nat (length (occurrences f tr)).

Lemma occurrences_cons f now e tr : occurrences f ((now, e) :: tr) = (if f e then [now] else []) ++ occurrences f tr.
Proof. unfold occurrences, when. simpl. by destruct (f e). Qed.
Lemma count_cons f now e tr : count f ((now, e) :: tr) = (if f e then 1 else 0) + count f tr.
Proof. unfold count. rewrite occurrences_cons, length_app. destruct (f e); simpl; lia. Qed.
Lemma count_nonneg f tr : 0 <= count f tr.
Proof. unfold count. lia. Qed.
Lemma count_mono f g tr : (forall e, f e = true -> g e = true) -> count f tr <= count g tr.
Proof.
  intros Hfg. induction tr as [|[now e] tr IH]; [done|]. rewrite !count_cons.
  destruct (f e) eqn:E; [rewrite (Hfg _ E)|destruct (g e)]; lia.
Qed.
Lemma occurrences_Forall f (P : Z -> Prop) tr : Forall (fun e => P e.1) tr -> Forall P (occurrences f tr).
Proof.
  induction 1 as [|[now e] tr Hp _ IH]; [constructor|]. rewrite occurrences_cons. apply Forall_app. split; [|done].
  destruct (f e); by constructor.
Qed.

(** The requests took the lock at most [stall] after they read the clock. *)
Definition prompt (stall : Z) (e : Z * event) : Prop := match e.2 with Asked read _ _ _ => e.1 - read <= stall | _ => True end.
(** The counters hold the admitted requests that are recent for any delay, and no window shortened by the delay has
    too many. *)
Lemma replay_account k stall tr s : replays tr s -> ordered tr -> Forall (prompt stall) tr -> 0 <= stall ->
  let asked := occurrences (is_admitted k) tr in
  (forall t, (length (recent (ACCOUNT_WINDOW_S - stall) t asked) <= length (recent ACCOUNT_WINDOW_S t (times k (x_asked s))))%nat) /\
  spaced ACCOUNT_MAX_REQUESTS (ACCOUNT_WINDOW_S - stall) asked.
Proof.
  intros Hrep. induction Hrep as [|now e tr s s' Hrep IH He]; cbn [ordered].
  { intros _ _ _. split; [done|constructor]. }
  intros [Hle Ho] [Hp Hps]%Forall_cons Hst. destruct (IH Ho Hps Hst) as [Ht Hsp]. cbv zeta. rewrite occurrences_cons.
  assert (x_asked s' = x_asked s -> is_admitted k e = false -> let asked := (if is_admitted k e then [now] else []) ++ occurrences (is_admitted k) tr in
    (forall t, (length (recent (ACCOUNT_WINDOW_S - stall) t asked) <= length (recent ACCOUNT_WINDOW_S t (times k (x_asked s'))))%nat) /\
    spaced ACCOUNT_MAX_REQUESTS (ACCOUNT_WINDOW_S - stall) asked) as Hsame by (by intros -> ->).
  destruct e as [read j ip r|kp h x|kp|read kp g v]; cbn [spec_event] in He.
  - destruct r as [[|]|]; cbn [spec_admits] in He; [apply Hsame; [by destruct He as [_ ->]|done]|apply Hsame; [by destruct He as (_ & _ & ->)|done]|].
    destruct He as (_ & Hn & ->). cbn [is_admitted x_asked]. cbn in Hp. destruct (String.eqb_spec j k) as [->|Hne]; cbn [app].
    + split.
      * intros t. rewrite times_note, decide_True by done. rewrite recent_app, length_app. specialize (Ht t). unfold recent in *. cbn [List.filter].
        destruct (within (ACCOUNT_WINDOW_S - stall) t now) eqn:Ew; cbn [length]; [|lia].
        assert (within ACCOUNT_WINDOW_S t read = true) as -> by (unfold within in *; bool_to_prop; lia). simpl. lia.
      * constructor; [done|by apply occurrences_Forall|]. specialize (Ht now). unfold asked_since in Hn. lia.
    + split; [|done]. intros t. by rewrite times_note, decide_False.
  - subst s'. by apply Hsame.
  - subst s'. by apply Hsame.
  - destruct He as (t & _ & He). apply Hsame; [|done]. unfold spec_try in He. repeat case_match; by simplify_eq/=.
Qed.

Definition left_tries (kp : string * string) (s : spec) : Z := match x_codes s !! kp with Some a => MAX_ATTEMPTS - x_fails a | None => 0 end.

(** Every active code has tries left, and every code stored pays for five. *)
Lemma replay_guesses kp tr s : replays tr s ->
  (forall a, x_codes s !! kp = Some a -> 0 <= x_fails a < MAX_ATTEMPTS) /\
  count (is_guess kp) tr + left_tries kp s <= MAX_ATTEMPTS * count (is_stored kp) tr.
Proof.
  unfold left_tries. induction 1 as [|now e tr s0 s _ [Ha Hc] He]; [by split|]. rewrite !count_cons.
  destruct e as [read j ip r|kp' h x|kp'|read kp' g v]; cbn [spec_event is_guess is_stored] in *.
  - assert (x_codes s = x_codes s0) as ->; [|by rewrite !Z.add_0_l].
    destruct r as [[|]|]; cbn [spec_admits] in He; [by destruct He as [_ ->]|by destruct He as (_ & _ & ->)..].
  - subst s. cbn. case_bool_decide; [subst; rewrite lookup_insert_eq|rewrite lookup_insert_ne by done; by rewrite !Z.add_0_l].
    split; [intros a [= <-]; unfold MAX_ATTEMPTS; simpl; lia|]. simpl.
    destruct (x_codes s0 !! kp) as [a|] eqn:E; [specialize (Ha a eq_refl)|]; unfold MAX_ATTEMPTS in *; lia.
  - subst s. cbn. destruct (decide (kp' = kp)) as [->|]; [rewrite lookup_delete_eq|rewrite lookup_delete_ne by done; by rewrite !Z.add_0_l].
    split; [done|]. destruct (x_codes s0 !! kp) as [a|] eqn:E; [specialize (Ha a eq_refl)|]; lia.
  - destruct He as (t & _ & He). unfold spec_try in He. destruct (decide (kp' = kp)) as [->|Hne].
    + rewrite bool_decide_true by done. cbn [andb]. destruct (x_codes s0 !! kp) as [a|] eqn:E.
      2:{ simplify_eq/=. rewrite E. split; [done|lia]. }
      specialize (Ha a eq_refl). destruct (negb (t <? x_expires a)).
      { simplify_eq/=. rewrite E. split; [by intros ? [= <-]|lia]. }
      case_bool_decide.
      { simplify_eq/=. rewrite lookup_delete_eq. split; [done|lia]. }
      destruct (Z.leb_spec MAX_ATTEMPTS (x_fails a + 1)).
      { simplify_eq/=. rewrite lookup_delete_eq. split; [done|lia]. }
      simplify_eq/=. rewrite lookup_insert_eq. split; [intros ? [= <-]; simpl; lia|simpl; lia].
    + rewrite bool_decide_false by done. rewrite !Z.add_0_l. assert (x_codes s !! kp = x_codes s0 !! kp) as ->; [|done].
      repeat case_match; simplify_eq/=; by rewrite ?lookup_delete_ne, ?lookup_insert_ne by congruence.
Qed.

(** ** A code stored has its admitted request *)

Definition waiting (k : string) (w : world) : Z := Z.of_nat (length (List.filter (fun b => String.eqb (key_of b) k) (w_workers w))).
Lemma filter_without_nth {A} (f : A -> bool) n l x : l !! n = Some x ->
  length (List.filter f l) = (length (List.filter f (without_nth n l)) + if f x then 1 else 0)%nat.
Proof.
  intros Hx. unfold without_nth. rewrite <- (take_drop_middle l n x Hx) at 1. rewrite !List.filter_app, !length_app. simpl.
  destruct (f x); simpl; lia.
Qed.

Definition paid (tr : trace) (w : world) : Prop :=
  forall k, count (is_stored_for k) tr + waiting k w <= count (is_admitted k) tr.

Lemma ask_started read o b v r started v' : ask read o b v = (Ok (r, started), v') -> r <> None -> started = false.
Proof.
  unfold ask, mbind_, ret. destruct (rate_admit read b v) as [[[[who sec]|]|] v1]; [by intros [= <- <- <-]| |done].
  destruct (recipient o b v1) as [[to|] v2]; [|done]. by intros [= <- <- <-].
Qed.

Lemma paid_step now p tr w : paid tr w -> paid (record_event now (step now p w).1 tr) (step now p w).2.
Proof.
  intros HP k. specialize (HP k). destruct p as [read o user tenant purpose ip|n o began id code|n how|read o user tenant purpose text ip]; cbn [step].
  - set (b := request_subject _ _ _ _ _). destruct (known_purpose (s_purpose b)); cbn [negb fst snd record_event]; [|done].
    destruct (ask read o b (w_vault w)) as [[[r started]|] v] eqn:E; cbn [fst snd record_event]; [|done].
    rewrite !count_cons. cbn [is_stored_for is_admitted]. unfold waiting in *. cbn [w_workers]. rewrite List.filter_app, length_app.
    destruct r as [who|].
    + rewrite (ask_started _ _ _ _ _ _ _ E) by done. simpl. lia.
    + destruct started; simpl; destruct (String.eqb (key_of b) k); simpl; lia.
  - destruct (w_workers w !! n) as [b|] eqn:E; [|done].
    pose proof (filter_without_nth (fun b => String.eqb (key_of b) k) n _ _ E) as Hl. unfold waiting in *.
    destruct (issue_store hmac o b began now id code (w_vault w)) as [[[|]|] v]; cbn [fst snd record_event w_workers]; rewrite ?count_cons; cbn [is_stored_for is_admitted for_key fst]; [|lia..].
    destruct (String.eqb (key_of b) k); lia.
  - destruct (w_sending w !! n) as [b|]; [|done]. cbn [fst snd]. unfold waiting in *. cbn [w_workers].
    destruct (decide (how = MailRefused)); cbn [record_event]; rewrite ?count_cons; cbn [is_stored_for is_admitted]; lia.
  - cbn [fst snd]. unfold waiting in *. cbn [w_workers]. destruct (known_purpose _ && _); [|done].
    destruct (redeem_check _ _ _ _) as [[v|] ?]; cbn [record_event]; rewrite ?count_cons; cbn [is_stored_for is_admitted]; lia.
Qed.
Lemma paid_run ops start finish : timed start ops finish -> paid (run ops [] new_world).1 (run ops [] new_world).2.
Proof.
  intros Ht. apply (run_induct (fun _ => paid) ops start finish); [done|intros; by apply paid_step|done|].
  intros k. done.
Qed.

(** The times of a run. *)
Lemma started_run ops start finish : timed start ops finish -> Forall (fun e => start <= e.1) (run ops [] new_world).1.
Proof.
  intros Ht. apply (run_induct (fun now tr _ => start <= now /\ Forall (fun e => start <= e.1) tr) ops start finish).
  - intros now later tr w Hle [? ?]. split; [lia|done].
  - intros now p tr w [Hn Hf] _. split; [done|]. destruct (step now p w).1; [|done]. by constructor.
  - done.
  - split; [lia|constructor].
Qed.

(** Every request of a run took the lock soon after it read the clock. *)
Definition prompt_op (stall : Z) (p : Z * op) : Prop := match p.2 with Ask read _ _ _ _ _ => p.1 - read <= stall | _ => True end.
Lemma prompt_run stall ops tr w : Forall (prompt_op stall) ops -> Forall (prompt stall) tr -> Forall (prompt stall) (run ops tr w).1.
Proof.
  intros Hops. revert tr w. induction Hops as [|[now p] ops Hp _ IH]; intros tr w Htr; cbn [run]; [done|].
  destruct (step now p w) as [e w'] eqn:E. apply IH. destruct e as [e|]; [|done]. constructor; [|done].
  destruct p as [read o user tenant purpose ip|n o began id code|n how|read o user tenant purpose text ip]; cbn [step] in E.
  - destruct (negb _); [done|]. destruct (ask _ _ _ _) as [[[r started]|] v]; by simplify_eq/=.
  - destruct (w_workers w !! n) as [b|]; [|done]. destruct (issue_store _ _ _ _ _ _ _ _) as [[[|]|] v]; by simplify_eq/=.
  - destruct (w_sending w !! n) as [b|]; [|done]. destruct (decide _); by simplify_eq/=.
  - destruct (_ && _); [|done]. destruct (redeem_check _ _ _ _) as [[v|] ?]; by simplify_eq/=.
Qed.

(** The requests of an account that are admitted: at most three for every
    shortened quarter of an hour begun. *)
Lemma admitted_bound ops start finish stall k : timed start ops finish -> Forall (prompt_op stall) ops -> 0 <= stall < ACCOUNT_WINDOW_S ->
  count (is_admitted k) (run ops [] new_world).1 <= ACCOUNT_MAX_REQUESTS * ((finish - start) / (ACCOUNT_WINDOW_S - stall) + 1).
Proof.
  intros Ht Hp Hst. destruct (linked_run _ _ _ Ht) as (s & Hs & _ & Hle & Ho).
  destruct (replay_account k stall _ _ Hs Ho (prompt_run _ _ _ _ Hp (Forall_nil_2 _))) as [_ Hsp]; [lia|].
  apply (spaced_bound ACCOUNT_MAX_REQUESTS (ACCOUNT_WINDOW_S - stall)); [lia|by vm_compute|done|by eapply timed_le|].
  apply occurrences_Forall. pose proof (started_run _ _ _ Ht) as Hs'. rewrite Forall_forall in *. intros e He. specialize (Hs' e He). specialize (Hle e He). lia.
Qed.

Lemma stored_for_key kp tr : count (is_stored kp) tr <= count (is_stored_for kp.1) tr.
Proof.
  apply count_mono. intros [| kp' h x | |] H; try done. simpl in *. apply bool_decide_eq_true in H as ->. apply String.eqb_refl.
Qed.

(** C27: In any interleaving of requests, workers and redemptions over a time [T] in
    which a request takes the lock at most [stall] after it read the clock, at most
    fifteen guesses are compared with the codes of an account name and purpose for
    every quarter of an hour less [stall] begun. *)
Theorem guesses_bounded ops start T stall kp : timed start ops (start + T) -> Forall (prompt_op stall) ops -> 0 <= stall < ACCOUNT_WINDOW_S ->
  count (is_guess kp) (run ops [] new_world).1 <= 15 * (T / (ACCOUNT_WINDOW_S - stall) + 1).
Proof.
  intros Ht Hpr Hst. destruct (linked_run _ _ _ Ht) as (s & Hs & _). destruct (replay_guesses kp _ _ Hs) as [Ha Hg].
  pose proof (admitted_bound _ _ _ stall kp.1 Ht Hpr Hst) as Hb. replace (start + T - start) with T in Hb by lia.
  pose proof (paid_run _ _ _ Ht kp.1) as Hp. pose proof (stored_for_key kp (run ops [] new_world).1).
  assert (0 <= left_tries kp s) by (unfold left_tries; destruct (x_codes s !! kp) as [a|]; [specialize (Ha a eq_refl); lia|lia]).
  unfold waiting, MAX_ATTEMPTS, ACCOUNT_MAX_REQUESTS in *. lia.
Qed.

(** ** Where an active code comes from *)

Lemma count_app f tr1 tr2 : count f (tr1 ++ tr2) = count f tr1 + count f tr2.
Proof. unfold count, occurrences. rewrite omap_app, length_app. lia. Qed.

Definition origin (kp : string * string) (a : active) (tr : trace) : Prop :=
  exists post t pre, tr = post ++ (t, Stored kp (x_hash a) (x_expires a)) :: pre /\
    count (ends kp) post = 0 /\ count (is_wrong kp) post = x_fails a.

Lemma origin_cons kp a now e tr : origin kp a tr -> ends kp e = false -> is_wrong kp e = false -> origin kp a ((now, e) :: tr).
Proof.
  intros (post & t & pre & -> & He & Hw) Hx Hy. exists ((now, e) :: post), t, pre. split; [done|]. rewrite !count_cons, Hx, Hy. lia.
Qed.
Lemma wrong_ends read kp g : ends kp (Tried read kp g WrongCode) = false.
Proof. apply andb_false_r. Qed.
Lemma wrong_is_wrong read kp g : is_wrong kp (Tried read kp g WrongCode) = true.
Proof. cbn. by rewrite bool_decide_true. Qed.
Lemma replay_origin kp tr s a : replays tr s -> x_codes s !! kp = Some a -> origin kp a tr.
Proof.
  intros Hrep. revert a. induction Hrep as [|now e tr s0 s Hrep IH He]; intros a Ha; [done|].
  destruct e as [read j ip r|kp' h x|kp'|read kp' g v]; cbn [spec_event] in He.
  - apply origin_cons; [|done..]. apply IH. rewrite <- Ha. f_equal.
    destruct r as [[|]|]; cbn [spec_admits] in He; [by destruct He as [_ ->]|by destruct He as (_ & _ & ->)..].
  - simplify_eq/=. destruct (decide (kp' = kp)) as [->|Hne].
    + rewrite lookup_insert_eq in Ha. injection Ha as <-. exists [], now, tr. done.
    + rewrite lookup_insert_ne in Ha by done. apply origin_cons; [by apply IH|cbn; rewrite ?bool_decide_false by done; done..].
  - simplify_eq/=. destruct (decide (kp' = kp)) as [->|Hne]; [by rewrite lookup_delete_eq in Ha|].
    rewrite lookup_delete_ne in Ha by done. apply origin_cons; [by apply IH|cbn; rewrite ?bool_decide_false by done; done..].
  - destruct He as (t' & _ & E). destruct (decide (kp' = kp)) as [->|Hne].
    + unfold spec_try in E. destruct (x_codes s0 !! kp) as [a0|] eqn:Ea.
      2:{ by simplify_eq/=. }
      destruct (negb _); [simplify_eq/=; apply origin_cons; [by apply IH|cbn; rewrite ?(bool_decide_false (NoActiveCode = _)) by done; apply andb_false_r..]|].
      case_bool_decide; [simplify_eq/=; by rewrite lookup_delete_eq in Ha|].
      destruct (MAX_ATTEMPTS <=? _); [simplify_eq/=; by rewrite lookup_delete_eq in Ha|].
      simplify_eq/=. rewrite lookup_insert_eq in Ha. injection Ha as <-. destruct (IH a0 eq_refl) as (post & t & pre & -> & He & Hw).
      eexists (_ :: post), t, pre. split; [reflexivity|]. rewrite !count_cons, wrong_ends, wrong_is_wrong. cbn. lia.
    + apply origin_cons; [|cbn; rewrite ?bool_decide_false by done; done..]. apply IH. rewrite <- Ha.
      unfold spec_try in E. repeat case_match; simplify_eq/=; by rewrite ?lookup_delete_ne, ?lookup_insert_ne by congruence.
Qed.

(** Every code stored was made for an eligible account with a usable mailbox, and
    lives at most its lifetime from the time it is stored. *)
Definition genuine (e : Z * event) : Prop :=
  match e.2 with
  | Stored kp h x => exists o b code p box, kp = for_key b /\ h = stored_hash hmac b code /\ x <= e.1 + CODE_TTL_S /\
      eligible_principal o (s_user b) (s_tenant b) = Some p /\ plane_for_principal o p = Some box /\ box_usable box = true
  | _ => True
  end.
Lemma genuine_run ops start finish : timed start ops finish -> Forall genuine (run ops [] new_world).1.
Proof.
  intros Ht. apply (run_induct (fun now tr w => linked now tr w /\ Forall genuine tr) ops start finish).
  - intros now later tr w Hle [Hl Hg]. split; [by eapply linked_later|done].
  - intros now p tr w [Hl Hg] Hb. split; [by apply linked_step|]. destruct Hl as (s & _ & Hr & _).
    destruct p as [read o user tenant purpose ip|n o began id code|n how|read o user tenant purpose text ip]; cbn [step].
    + destruct (negb _); [done|]. destruct (ask _ _ _ _) as [[[r started]|] v]; [|done]. by constructor.
    + destruct (w_workers w !! n) as [b|]; [|done].
      destruct (issue_store_refines hmac o b began now id code (w_vault w) s Hr) as (stored & v' & -> & _ & Hst).
      destruct stored; cbn [fst record_event]; [|done]. constructor; [|done]. destruct (Hst eq_refl) as (p & box & H1 & H2 & H3).
      cbn. exists o, b, code, p, box. cbn in Hb. split_and!; try done. lia.
    + destruct (w_sending w !! n) as [b|]; [|done]. cbn [fst]. destruct (decide _); [|done]. by constructor.
    + cbn [fst]. destruct (_ && _); [|done]. destruct (redeem_check _ _ _ _) as [[v|] ?]; [|done]. by constructor.
  - done.
  - split; [|constructor]. exists no_codes. split_and!; [constructor|apply refines_start|constructor|done].
Qed.

(** What [redeem_code] accepts, in terms of its locked part. *)
Lemma redeem_code_accepts o user tenant purpose text ip now v pr v' :
  redeem_code hmac o user tenant purpose text ip now v = (Ok (Some pr), v') ->
  let b := redeem_subject o user tenant purpose ip in
  (known_purpose (s_purpose b) && recovery_enabled o = true) /\
  (exists v1, redeem_check now b (given_digest hmac b text) v = (Ok RightCode, v1) /\ v_doc v' = v_doc v1) /\
  eligible_principal o (s_user b) (s_tenant b) = Some pr.
Proof.
  intros H b. subst b. unfold redeem_code, audit_event, modify, mbind_, ret in H. set (b := redeem_subject _ _ _ _ _) in *.
  destruct (known_purpose (s_purpose b)); cbn [negb andb] in *; [|done]. destruct (recovery_enabled o); cbn [negb] in *; [|done].
  destruct (redeem_check now b (given_digest hmac b text) v) as [[verdict|] v1]; [|done].
  destruct verdict; try done. destruct (eligible_principal o (s_user b) (s_tenant b)) as [p|]; [|done].
  injection H as <- <-. split_and!; [done| |done]. by exists v1.
Qed.

Lemma eligible_spec o user tenant pr : eligible_principal o user tenant = Some pr ->
  exists a, oget (asked_key (tenant_or_default tenant) (strip user)) (registry_accounts o) = Some a /\
    a_enabled a = true /\ is_entity a = false /\ pr = account_principal a "" /\ (user_auth o = true \/ is_admin pr = true).
Proof.
  unfold eligible_principal. destruct (oget _ _) as [a|]; [|done]. intros H. exists a. split; [done|].
  destruct (a_enabled a); cbn [negb orb] in H; [|done]. unfold principal_kind in H. destruct (is_entity a); [done|]. cbn in H.
  unfold barred_from_shared_runtime in H. cbn in H. destruct (user_auth o).
  - injection H as <-. split_and!; auto.
  - destruct (is_admin _) eqn:E in H; cbn in H; [|done]. injection H as <-. split_and!; auto.
Qed.

Definition nothing_accepted (o : outside) (user tenant purpose ip : string) (v : vault) : Prop :=
  forall text read, (redeem_code hmac o user tenant purpose text ip read v).1 = Ok None.

(** A try when there is no active code. *)
Lemma redeem_code_none o user tenant purpose text ip read now v s : read <= now ->
  refines now (v_doc v) s -> x_codes s !! for_key (redeem_subject o user tenant purpose ip) = None ->
  (redeem_code hmac o user tenant purpose text ip read v).1 = Ok None.
Proof.
  intros Hrd Hr Hn. unfold redeem_code, audit_event, modify, mbind_, ret. set (b := redeem_subject _ _ _ _ _) in *.
  destruct (known_purpose _); cbn [negb]; [|done]. destruct (recovery_enabled o); cbn [negb]; [|done].
  destruct (redeem_check_refines read now b (given_digest hmac b text) v s Hrd Hr) as (r & s' & v1 & -> & (t & _ & Ht) & _).
  unfold spec_try in Ht. rewrite Hn in Ht. by injection Ht as <- _.
Qed.

(** C25: A redemption that answers a principal was given the eight digits of a code
    stored for that account and purpose less than ten minutes before it read the
    clock, the last one stored, neither used, withdrawn nor spent since, with fewer
    than five wrong tries; the principal is an enabled person's account of the
    registry that may hold a session; and the code is used: nothing is accepted for
    the account and purpose until another is stored, whenever the clock was read. *)
Theorem redeem_sound ops start finish o user tenant purpose text ip now pr v' :
  timed start ops finish ->
  redeem_code hmac o user tenant purpose text ip now (w_vault (run ops [] new_world).2) = (Ok (Some pr), v') ->
  let b := redeem_subject o user tenant purpose ip in
  (exists post t x pre b0 code, (run ops [] new_world).1 = post ++ (t, Stored (for_key b) (stored_hash hmac b0 code) x) :: pre /\
    for_key b0 = for_key b /\ now < x <= t + CODE_TTL_S /\ count (ends (for_key b)) post = 0 /\ count (is_wrong (for_key b)) post < MAX_ATTEMPTS /\
    len (digits_of text) = 8 /\ stored_hash hmac b (digits_of text) = stored_hash hmac b0 code) /\
  (exists a, oget (asked_key (tenant_or_default (s_tenant b)) (strip (s_user b))) (registry_accounts o) = Some a /\
    a_enabled a = true /\ is_entity a = false /\ pr = account_principal a "" /\ (user_auth o = true \/ is_admin pr = true)) /\
  nothing_accepted o user tenant purpose ip v'.
Proof.
  intros Ht Hacc b. set (lock := Z.max finish now). destruct (linked_later finish lock _ _ ltac:(lia) (linked_run _ _ _ Ht)) as (s & Hs & Hr & _).
  destruct (redeem_code_accepts _ _ _ _ _ _ _ _ _ _ Hacc) as (_ & (v1 & Hc & Hd) & He). fold b in Hc, He.
  destruct (redeem_check_refines now lock b (given_digest hmac b text) _ s ltac:(lia) Hr) as (v & s1 & v2 & Hc' & (t0 & Ht0 & Hv) & Hr1). rewrite Hc in Hc'. injection Hc' as <- <-.
  unfold spec_try in Hv. destruct (x_codes s !! for_key b) as [a|] eqn:Ea; [|done].
  destruct (Z.ltb_spec t0 (x_expires a)) as [Hlt|]; cbn [negb] in Hv; [|done]. case_bool_decide as Hg; [|by case_match]. injection Hv as <-. split_and!.
  - destruct (replay_origin _ _ _ _ Hs Ea) as (post & t & pre & Htr & Hends & Hwrong).
    destruct (replay_guesses (for_key b) _ _ Hs) as [Hf _]. specialize (Hf a Ea).
    pose proof (genuine_run _ _ _ Ht) as Hgen. rewrite Htr, Forall_app, Forall_cons in Hgen. destruct Hgen as (_ & Hgen & _).
    destruct Hgen as (o0 & b0 & code & p & box & Hk & Hh & Hx & _). cbn [fst] in Hx.
    unfold given_digest in Hg. destruct (Z.eqb_spec (len (digits_of text)) 8) as [H8|]; [|done]. injection Hg as Hg.
    exists post, t, (x_expires a), pre, b0, code. rewrite <- Hh, Hwrong. assert (now <= t0) by (destruct Ht0; lia). split_and!; [done|done|lia|lia|done|lia|done|done].
  - by apply eligible_spec.
  - intros text2 read. apply (redeem_code_none _ _ _ _ _ _ _ (Z.max lock read) _ (spec_drop (for_key b) s)); [lia| |cbn; by rewrite lookup_delete_eq].
    rewrite Hd. apply (refines_later lock); [lia|done].
Qed.
End World.
