(* ===== verification/RecoveryRuns.v ===== *)
(** * Account recovery: the answers of a request

    When a refused request may come back, what each answer of [request_code]
    means, and a concrete gateway on which the theorems of the component are
    applied. *)

From S2P Require Import Prelude PyStr PyVal PyText OrdDict IsoTime Principal Sessions UserRegistry RecoveryCodes RecoverySpec RecoveryFacts.

(** ** The time a refused request is told to wait *)

Lemma round_s_near us : 2 * us - second <= 2 * (round_s us * second) <= 2 * us + second.
Proof.
  unfold round_s. pose proof (Z.div_mod us second ltac:(done)) as Hd. pose proof (Z.mod_pos_bound us second ltac:(done)) as Hm.
  destruct (Z.ltb_spec (2 * (us mod second)) second); [lia|]. destruct (Z.ltb_spec second (2 * (us mod second))); [lia|].
  destruct (Z.even (us / second)); lia.
Qed.

Lemma fold_min_spec l t : fold_left Z.min l t ∈ t :: l /\ (forall x, x ∈ t :: l -> fold_left Z.min l t <= x).
Proof.
  revert t. induction l as [|a l IH]; intros t; simpl.
  - split; [set_solver|]. intros x ->%list_elem_of_singleton. lia.
  - destruct (IH (Z.min t a)) as [Hin Hle]. split.
    + apply elem_of_cons in Hin as [->|Hin]; [|set_solver]. destruct (Z.min_spec t a) as [[_ ->]|[_ ->]]; set_solver.
    + intros x Hx. assert (Z.min t a <= x \/ x ∈ l) as [H|H].
      { apply elem_of_cons in Hx as [->|Hx]; [left; lia|]. apply elem_of_cons in Hx as [->|Hx]; [left; lia|by right]. }
      * specialize (Hle (Z.min t a) ltac:(set_solver)). lia.
      * apply Hle. set_solver.
Qed.
Lemma oldest_spec rows now : rows <> [] -> oldest_of rows now ∈ rows /\ forall x, x ∈ rows -> oldest_of rows now <= x.
Proof. destruct rows as [|t rows]; [done|]. intros _. apply fold_min_spec. Qed.

(** The oldest request of the window has left it a ten-thousandth of a second
    after the time told. *)
Lemma retry_after_spec rows window now : rows <> [] -> (forall x, x ∈ rows -> x <= now) ->
  0 < window -> (second | window) ->
  1 <= retry_after rows window now <= Z.max 1 (window / second) /\
  window <= now + retry_after rows window now * second + 100 - oldest_of rows now.
Proof.
  intros Hne Hle Hw [q Hq]. destruct (oldest_spec rows now Hne) as [Hin _]. specialize (Hle _ Hin).
  unfold retry_after. set (x := window - (now - oldest_of rows now) + 499900). pose proof (round_s_near x) as Hr.
  assert (second = 1000000) as Hs by done. subst window. rewrite Z.div_mul by done. subst x. split; [split; [lia|]|lia].
  apply Z.max_le_compat_l. nia.
Qed.

(** A window loses a request when its oldest has left it. *)
Lemma recent_shrinks rows window now later : rows <> [] -> now <= later ->
  (forall x, x ∈ rows -> within window now x = true) -> window <= later - oldest_of rows now ->
  (length (recent window later rows) < length rows)%nat.
Proof.
  intros Hne Hle Hall Hold. destruct (oldest_spec rows now Hne) as [Hin _].
  assert (within window later (oldest_of rows now) = false) as Hout by (unfold within; apply Z.ltb_ge; lia).
  revert Hin Hout. generalize (oldest_of rows now) as o. clear. intros o Hin Hout. unfold recent. induction rows as [|a rows IH]; [set_solver|]. simpl. apply elem_of_cons in Hin as [He|Hin].
  - rewrite <- He, Hout. pose proof (length_lfilter_le (within window later) rows). lia.
  - specialize (IH Hin). destruct (within window later a); simpl; lia.
Qed.

Section Answers.
Context (hmac : string -> string).

(** The time a refusal names is that of the window's oldest request. *)
Lemma rate_admit_refused now b v s who sec v' : refines now (v_doc v) s -> rate_admit now b v = (Ok (Some (who, sec)), v') ->
  let '(limit, window, all) := match who with
    | Client => (IP_MAX_REQUESTS, IP_WINDOW_S, times (s_ip b) (x_from s))
    | Account => (ACCOUNT_MAX_REQUESTS, ACCOUNT_WINDOW_S, times (key_of b) (x_asked s))
    end in
  limit <= Z.of_nat (length (recent window now all)) /\ sec = retry_after (recent window now all) window now.
Proof.
  intros Hr H.
  pose proof (length_pruned IP_WINDOW_S now (s_ip b) _ _ (rf_ip_keys _ _ _ Hr) (rf_ip _ _ _ Hr (s_ip b))) as Hip.
  pose proof (length_pruned ACCOUNT_WINDOW_S now (key_of b) _ _ (rf_account_keys _ _ _ Hr) (rf_account _ _ _ Hr (key_of b))) as Hac.
  unfold rate_admit, load_doc, save_doc, audit_event, mbind_, gets, modify, ret in H. cbn in H. rewrite Hip, Hac in H.
  destruct (Z.leb_spec IP_MAX_REQUESTS (Z.of_nat (length (recent IP_WINDOW_S now (times (s_ip b) (x_from s)))))); [by simplify_eq|].
  destruct (Z.leb_spec ACCOUNT_MAX_REQUESTS (Z.of_nat (length (recent ACCOUNT_WINDOW_S now (times (key_of b) (x_asked s)))))); by simplify_eq.
Qed.

(** Waiting it out frees a place. *)
Lemma wait_enough limit window all now later sec : 0 < limit -> 0 < window -> (second | window) ->
  limit <= Z.of_nat (length (recent window now all)) <= limit -> (forall t, t ∈ all -> t <= now) ->
  sec = retry_after (recent window now all) window now -> now + sec * second + 100 <= later ->
  1 <= sec <= Z.max 1 (window / second) /\ Z.of_nat (length (recent window later all)) < limit.
Proof.
  intros Hl Hw Hd Hlen Hle -> Hlater. set (rows := recent window now all) in *.
  assert (rows <> []) as Hne by (intros He; rewrite He in Hlen; simpl in Hlen; lia).
  assert (forall x, x ∈ rows -> x ∈ all /\ within window now x = true) as Hrows by (intros x Hx; by apply elem_of_lfilter).
  destruct (retry_after_spec rows window now Hne) as [Hb Hold]; [intros x Hx; apply Hle, Hrows, Hx|done|done|]. split; [done|].
  assert (0 < second) by done. assert (now <= later) by nia.
  rewrite <- (recent_recent window now later all) by done. fold rows.
  pose proof (recent_shrinks rows window now later Hne ltac:(done) (fun x Hx => proj2 (Hrows x Hx)) ltac:(lia)). lia.
Qed.

(** A request refused for the account or for the client address, on counters that
    are within their limits and hold no later time, is told between one second and a
    quarter of an hour; a request that comes back after that time (and a
    ten-thousandth of a second) is not refused for the same reason, when no other was
    counted meanwhile. *)
Theorem retry_after_enough now b v s who sec v' : refines now (v_doc v) s ->
  asked_since now (key_of b) s <= ACCOUNT_MAX_REQUESTS -> from_since now (s_ip b) s <= IP_MAX_REQUESTS ->
  (forall t, t ∈ times (key_of b) (x_asked s) -> t <= now) -> (forall t, t ∈ times (s_ip b) (x_from s) -> t <= now) ->
  rate_admit now b v = (Ok (Some (who, sec)), v') ->
  1 <= sec <= 900 /\
  forall later, now + sec * second + 100 <= later ->
    exists r v2, rate_admit later b v' = (Ok r, v2) /\ option_map fst r <> Some who.
Proof.
  intros Hr Ha Hi Ta Ti H. unfold asked_since, from_since in *.
  pose proof (rate_admit_refused now b _ s who sec v' Hr H) as Hw.
  destruct (rate_admit_refines now now b _ s (Z.le_refl _) Hr) as (r & s1 & v1 & H1 & Hs1 & Hr1). rewrite H in H1. injection H1 as <- <-. cbn [option_map fst] in Hs1.
  assert (forall later, now + sec * second + 100 <= later -> 1 <= sec <= 900 /\
    forall s2, ~ spec_admits later later (key_of b) (s_ip b) s1 (Some who) s2) as Hgoal.
  - intros later Hl. destruct who; cbn in Hw, Hs1; destruct Hw as [Hlen Hsec].
    + destruct (wait_enough IP_MAX_REQUESTS IP_WINDOW_S _ now later sec ltac:(done) ltac:(done) ltac:(by exists 900) (conj Hlen Hi) Ti Hsec Hl) as [Hb Hn].
      split; [exact Hb|]. destruct Hs1 as [_ ->]. intros s2 [Hf _]. unfold from_since in Hf. lia.
    + destruct (wait_enough ACCOUNT_MAX_REQUESTS ACCOUNT_WINDOW_S _ now later sec ltac:(done) ltac:(done) ltac:(by exists 900) (conj Hlen Ha) Ta Hsec Hl) as [Hb Hn].
      split; [exact Hb|]. destruct Hs1 as (_ & _ & ->). intros s2 (_ & Hf & _). unfold asked_since in Hf. cbn [x_asked] in Hf. lia.
  - split; [by apply (Hgoal (now + sec * second + 100))|]. intros later Hl.
    assert (now <= later) as Hnl by (destruct (Hgoal later Hl) as [Hb _]; assert (0 < second) by done; nia).
    destruct (rate_admit_refines later later b v' _ (Z.le_refl _) (refines_later _ _ _ _ Hnl Hr1)) as (r & s2 & v2 & H2 & Hs2 & _).
    exists r, v2. split; [done|]. intros E. rewrite E in Hs2. destruct (Hgoal later Hl) as [_ Hno]. by eapply Hno.
Qed.

(** ** The answers of a request *)

Lemma find_without b d : List.find (is_for b) (d_codes (without b d)) = None.
Proof.
  cbn. induction (d_codes d) as [|c l IH]; simpl; [done|]. destruct (is_for b c) eqn:E; simpl; [done|]. by rewrite E.
Qed.
Lemma find_with_code b d c : is_for b c = true -> List.find (is_for b) (d_codes (with_code c (without b d))) = Some c.
Proof.
  intros Hc. pose proof (find_without b d) as H. cbn in *. induction (List.filter _ _) as [|x l IH]; simpl in *; [by rewrite Hc|].
  destruct (is_for b x); [done|auto].
Qed.
Lemma is_for_new b now id code : is_for b (new_code hmac b now id code) = true.
Proof. rewrite is_for_key. by apply bool_decide_eq_true. Qed.

Lemma rate_admit_codes now b v : exists r v', rate_admit now b v = (Ok r, v') /\ d_codes (v_doc v') = List.filter (code_live now) (d_codes (v_doc v)).
Proof.
  unfold rate_admit, load_doc, save_doc, audit_event, mbind_, gets, modify, ret. cbn.
  destruct (IP_MAX_REQUESTS <=? _); [|destruct (ACCOUNT_MAX_REQUESTS <=? _)]; by eexists _, _.
Qed.

(** With sign-in by e-mail on, an answer that a code was sent names the first
    character of the address of an eligible account with a usable mailbox, and
    the file holds exactly that new code for the account and purpose; a refused
    mail is answered as such and leaves no code; the other answers leave the
    active codes as they were. *)
Theorem request_code_answers o user tenant purpose ip now later id code how v ans v' :
  recovery_enabled o = true ->
  request_code hmac o user tenant purpose ip now later id code how v = (Ok ans, v') ->
  let b := request_subject o user tenant purpose ip in
  match ans with
  | Sent to => how <> Some MailRefused /\
      (exists p box, eligible_principal o (s_user b) (s_tenant b) = Some p /\ plane_for_principal o p = Some box /\
         box_usable box = true /\ box_address box <> "" /\ to = masked (box_address box)) /\
      List.find (is_for b) (d_codes (v_doc v')) = Some (new_code hmac b now id code)
  | SendFailed => how = Some MailRefused /\ List.find (is_for b) (d_codes (v_doc v')) = None
  | NoEmailAnswer | NoMailboxAnswer | TooManyRequests _ _ => d_codes (v_doc v') = List.filter (code_live now) (d_codes (v_doc v))
  end.
Proof.
  intros Hon H b. unfold request_code in H. fold b in H. destruct (known_purpose (s_purpose b)); cbn [negb] in H; [|done].
  unfold mbind_ at 1 in H. destruct (rate_admit_codes now b v) as (r & v1 & H1 & Hd). rewrite H1 in H.
  destruct r as [[who sec]|]; [by injection H as <- <-|].
  unfold recipient, issue_store, issue_finish, audit_event, load_doc, save_doc, mbind_, gets, modify, ret in H. rewrite Hon in H. cbn [negb] in H.
  destruct (eligible_principal o (s_user b) (s_tenant b)) as [p|]; [|by injection H as <- <-].
  destruct (plane_for_principal o p) as [box|] eqn:Ep; [|by injection H as <- <-].
  destruct (String.eqb_spec (box_address box) "") as [|Hne]; [by injection H as <- <-|].
  destruct (box_usable box) eqn:Eu; cbn [negb] in H; [|by injection H as <- <-].
  assert (exists p0 box0, Some p = Some p0 /\ plane_for_principal o p0 = Some box0 /\ box_usable box0 = true /\ box_address box0 <> "" /\
    masked (box_address box) = masked (box_address box0)) as Hbox by (by exists p, box).
  pose proof (find_with_code b (prune later (v_doc v1)) _ (is_for_new b now id code)) as Hfind.
  destruct how as [[| |]|]; injection H as <- <-; split_and!; try done; apply find_without.
Qed.
End Answers.

(** ** A concrete gateway *)

Definition plain (s : string) : string := s.
Definition alice_account : GatewayUserRecord :=
  mk_account "alice" "default" "alice@example.org" ["user"] [] true "alice" "h" "f" "t" "t" false "" "" None [] "" "" "".
Definition alice_principal : GatewayPrincipal := account_principal alice_account "".
Definition sample_outside : outside :=
  mk_outside true [("default:alice", alice_account)] true (fun _ => Some (mk_mailbox "alice@example.org" true)).
Abbreviation ask_for t name := (Ask t sample_outside name "default" "sign_in" "10.0.0.9").

(** One request, its code, and its redemption by the address. *)
Abbreviation one_code := [(0, ask_for 0 "alice@example.org"); (second, Put 0 sample_outside second "id" "12345678"); (2 * second, Finish 0 Delivered)].
Abbreviation sample_redeem := (redeem_code plain sample_outside "alice" "" "sign_in" "1234 5678" "10.0.0.7" (60 * second)).
Abbreviation one_code_world := (w_vault (run plain one_code [] new_world).2).

Lemma one_code_timed : timed 0 one_code (2 * second).
Proof. cbn. unfold second. lia. Qed.
Lemma redeem_sound_witness :
  fst (sample_redeem one_code_world) = Ok (Some alice_principal) /\
  nothing_accepted plain sample_outside "alice" "" "sign_in" "10.0.0.7" (snd (sample_redeem one_code_world)).
Proof.
  assert (fst (sample_redeem one_code_world) = Ok (Some alice_principal)) as H by (vm_compute; reflexivity).
  split; [exact H|].
  exact (proj2 (proj2 (redeem_sound plain one_code 0 (2 * second) sample_outside "alice" "" "sign_in" "1234 5678" "10.0.0.7" (60 * second)
    alice_principal _ one_code_timed
    (eq_trans (surjective_pairing _) (f_equal2 pair H eq_refl))))).
Defined.

(** Five wrong codes end it. *)
Abbreviation wrong_try t := (Redeem t sample_outside "alice" "" "sign_in" "00000000" "10.0.0.7").
Abbreviation guessing := (one_code ++ map (fun t => (Z.of_nat t * second, wrong_try ((Z.of_nat t - 1) * second))) (seq 3 6)).
Lemma guessing_timed : timed 0 guessing (0 + 60 * second).
Proof. cbn. unfold second. lia. Qed.
Lemma guessing_prompt : Forall (prompt_op (100 * second)) guessing.
Proof. cbn. repeat (constructor; [try done|]). constructor. Qed.
Lemma guesses_bounded_witness :
  count (is_guess ("default:alice", "sign_in")) (run plain guessing [] new_world).1 = 5 /\
  count (is_guess ("default:alice", "sign_in")) (run plain guessing [] new_world).1 <= 15 * (60 * second / (ACCOUNT_WINDOW_S - 100 * second) + 1).
Proof.
  split; [vm_compute; reflexivity|].
  apply (guesses_bounded plain guessing 0 (60 * second) (100 * second) ("default:alice", "sign_in") guessing_timed guessing_prompt). split; by vm_compute.
Defined.

Abbreviation alice_subject := (mk_subject "default" "alice" "sign_in" "10.0.0.9").
Abbreviation many_asks := (map (fun t => (Z.of_nat t * second, ask_for (Z.of_nat t * second) "alice")) (seq 0 3)).
Abbreviation fourth := (rate_admit (10 * second) alice_subject (w_vault (run plain many_asks [] new_world).2)).
Lemma fourth_refused : fst fourth = Ok (Some (Account, 890)).
Proof. vm_compute. reflexivity. Qed.

(** Three requests of an account, then two that read the clock at the same time as the
    third: the one that takes the lock at once is refused; the other takes it after
    another account's request of a quarter of an hour later has emptied the window,
    and is admitted. *)
Theorem stalled_request_admitted :
  timed 0 (many_asks ++ [(3 * second, ask_for (2 * second) "alice"); (902 * second, ask_for (902 * second) "bob");
    (903 * second, ask_for (2 * second) "alice")]) (903 * second) /\
  firstn 3 (run plain (many_asks ++ [(3 * second, ask_for (2 * second) "alice"); (902 * second, ask_for (902 * second) "bob");
    (903 * second, ask_for (2 * second) "alice")]) [] new_world).1 =
  [(903 * second, Asked (2 * second) "default:alice" "10.0.0.9" None); (902 * second, Asked (902 * second) "default:bob" "10.0.0.9" None);
   (3 * second, Asked (2 * second) "default:alice" "10.0.0.9" (Some Account))].
Proof. split; [cbn; unfold second; lia|vm_compute; reflexivity]. Qed.

Abbreviation sample_request how :=
  (request_code plain sample_outside "alice" "default" "sign_in" "10.0.0.9" 0 second "id" "12345678" how (mk_vault no_document [])).
Lemma request_code_answers_witness :
  fst (sample_request (Some MailRefused)) = Ok SendFailed /\
  List.find (is_for alice_subject) (d_codes (v_doc (snd (sample_request (Some MailRefused))))) = None.
Proof.
  assert (fst (sample_request (Some MailRefused)) = Ok SendFailed) as H by (vm_compute; reflexivity).
  split; [exact H|].
  exact (proj2 (request_code_answers plain sample_outside "alice" "default" "sign_in" "10.0.0.9" 0 second "id" "12345678" (Some MailRefused)
    (mk_vault no_document []) SendFailed _ eq_refl (eq_trans (surjective_pairing _) (f_equal2 pair H eq_refl)))).
Defined.

(** A worker that ends with another exception than an [EmailError] has sent
    nothing, and the answer is that the code is on its way. *)
Lemma unsent_answered_sent : fst (sample_request (Some Crashed)) = Ok (Sent "a").
Proof. vm_compute. reflexivity. Qed.

(** ** Spellings of one name

    The counters go by the name as typed; the registry reduces it. *)
Definition spellings : list string :=
  ["alice"; "alice!"; "!alice"; "alice."; ".alice"; "_alice"; "alice_"; "alice?"; "(alice)"; "alice+"].
Abbreviation spelled_asks := (map (fun name => (0, ask_for 0 name)) spellings).
Abbreviation spelled_puts := (map (fun _ => (0, Put 0 sample_outside 0 "id" "12345678")) spellings).

(** There is a run of one instant in which ten requests by ten spellings of one
    account's name are all admitted, although an account has three in a quarter
    of an hour, and ten codes for that account are active at once. *)
Theorem spellings_evade_the_account_limit :
  Forall (fun name => eligible_principal sample_outside name "default" = Some alice_principal) spellings /\
  (run plain (spelled_asks ++ spelled_puts) [] new_world).1 =
    rev (map (fun name => (0, Asked 0 ("default:" +:+ name) "10.0.0.9" None)) spellings ++
         map (fun name => (0, Stored ("default:" +:+ name, "sign_in") ("default|" +:+ name +:+ "|sign_in|12345678") CODE_TTL_S)) spellings) /\
  length (d_codes (v_doc (w_vault (run plain (spelled_asks ++ spelled_puts) [] new_world).2))) = 10%nat.
Proof.
  split; [|split; vm_compute; reflexivity].
  unfold spellings. repeat (constructor; [vm_compute; reflexivity|]). constructor.
Qed.

(** C26: The file with its rows, windows and flags refines the short specification
    of recovery codes. Take any interleaving of request threads, workers and
    redemptions, each of which reads the clock at any time before it takes the lock:
    in the order of the lock, event by event, what the gateway did is what the
    specification does, and the file is left representing its state. There a request
    is refused only for a window that was full when it read the clock, and admitted
    only with room when it took the lock; a redemption is answered as of one of its
    two times. *)
Theorem recovery_refines_spec hmac ops start finish : timed start ops finish ->
  exists s, replays (run hmac ops [] new_world).1 s /\ refines finish (v_doc (w_vault (run hmac ops [] new_world).2)) s /\
    ordered (run hmac ops [] new_world).1.
Proof.
  intros Ht. destruct (linked_run hmac ops start finish Ht) as (s & Hs & Hr & _ & Ho). by exists s.
Qed.
Lemma recovery_refines_spec_witness :
  length (run plain guessing [] new_world).1 = 8%nat /\
  exists s, replays (run plain guessing [] new_world).1 s /\
    refines (60 * second) (v_doc (w_vault (run plain guessing [] new_world).2)) s /\ ordered (run plain guessing [] new_world).1.
Proof. split; [vm_compute; reflexivity|]. exact (recovery_refines_spec plain guessing 0 (60 * second) guessing_timed). Defined.
