(* ===== verification/ToolGrants.v ===== *)
(** * The default tool grant

    [tool_grants.py]: the vocabulary of tiers, the store of the gateway's default
    grant and its ledger, and the injection of the grant into a run that brings no
    tool policy of its own.

    The state is the two files. The store's lock makes a write one step; writing
    the store does not fail, appending to the ledger may. A file that does not
    parse as JSON is [Unreadable]. The texts of the refusals are shortened. *)

From S2P Require Import Prelude PyStr PyVal PyNum.

(** ** The vocabulary *)

Definition TIER_RANKS : list (string * Z) := [("observe", 1); ("act", 2); ("outreach", 3); ("destroy", 4)].
Definition rank_by_id (tier : string) : option Z := snd <$> List.find (fun t => String.eqb (fst t) tier) TIER_RANKS.
Definition DEFAULT_TIER_ID : string := "act".

(** ** The store *)

Inductive store_file := Absent | Unreadable | Json (v : val).
Record grants := mk_grants { g_store : store_file; g_ledger : list dict }.

(** [_read_grants] *)
Definition read_grants (g : grants) : dict :=
  match g_store g with
  | Json (VDict d) => d
  | Json _ | Absent => []
  | Unreadable => [("_corrupt", VBool true)]
  end.

(** [dict(v or {})] of a value of a JSON document: an object, or a sequence of
    pairs. *)
Definition pair_of (v : val) : res (string * val) :=
  match v with
  | VList [k; w] => match k with VList _ | VDict _ => Raise (TypeError "unhashable type") | _ => Ok (py_str k, w) end
  | VStr (c ::s (d ::s "")) => Ok (c ::s "", VStr (d ::s ""))
  | VDict [(k, _); (k', _)] => Ok (k, VStr k')
  | VList _ | VStr _ | VDict _ => Raise (ValueError "dictionary update sequence element has the wrong length")
  | _ => Raise (TypeError "cannot convert dictionary update sequence element to a sequence")
  end.
Definition dict_of (v : val) : res dict :=
  if negb (truthy v) then Ok []
  else match v with
       | VDict d => Ok d
       | VList l => rfold (fun d x => kv <== pair_of x; Ok (dset kv.1 kv.2 d)) [] l
       | VStr _ => Raise (ValueError "dictionary update sequence element #0 has length 1; 2 is required")
       | _ => Raise (TypeError "object is not iterable")
       end.

(** [read_tool_grants]: the default grant, its source, the overrides, and whether
    a warning is served. *)
Record posture := mk_posture { p_default : dict; p_source : string; p_overrides : dict; p_warns : bool }.
Definition builtin_grant : dict := [("mode", VStr "preset"); ("tier_id", VStr DEFAULT_TIER_ID)].
Definition read_tool_grants (g : grants) : res posture :=
  let stored := read_grants g in
  let '(default_grant, source) := match get_ "default" stored with
    | VDict ((_ :: _) as d) => (d, "stored")
    | _ => (builtin_grant, "builtin-default")
    end in
  overrides <== dict_of (get_ "app_overrides" stored);
  Ok (mk_posture default_grant source overrides (truthy (get_ "_corrupt" stored))).

(** [_validate_grant]; the [ToolGrantError] it raises is a [ValueError]. *)
Definition folded (v : val) : string := lower (strip (str_or v "")).
Definition is_name (v : val) : bool := match v with VStr s => negb (String.eqb (strip s) "") | _ => false end.
Definition names_of (l : list val) : list string := map strip (omap as_str l).
Definition validate_grant (grant : val) : res dict :=
  match grant with
  | VDict d =>
      let mode := folded (get_ "mode" d) in
      if String.eqb mode "preset" then
        let tier_id := folded (get_ "tier_id" d) in
        match rank_by_id tier_id with
        | None => Raise (ValueError ("unknown tier_id " +:+ repr (get_ "tier_id" d)))
        | Some rank =>
            if 4 <=? rank then Raise (ValueError "the destroy tier cannot be a standing default grant")
            else Ok [("mode", VStr mode); ("tier_id", VStr tier_id)]
        end
      else if String.eqb mode "custom" then
        match get_ "tools" d with
        | VList l =>
            if negb (forallb is_name l) then Raise (ValueError "custom mode requires tools: [non-empty tool names]")
            else if 200 <? Z.of_nat (length l) then Raise (ValueError "custom grant lists cap at 200 names")
            else Ok [("mode", VStr mode); ("tools", VList (map VStr (sorted_set (names_of l))))]
        | _ => Raise (ValueError "custom mode requires tools: [non-empty tool names]")
        end
      else Raise (ValueError ("unknown grant mode " +:+ repr (get_ "mode" d) +:+ " (preset | custom)"))
  | _ => Raise (ValueError "grant must be an object {mode, tier_id?, tools?}")
  end.

(** [write_default_grant]; [appends] is whether the ledger takes the entry. The
    answer is the posture served, with whether the ledger failed. *)
Definition former_grant (stored : dict) : val :=
  match get_ "default" stored with
  | VNone => VDict (builtin_grant ++ [("source", VStr "builtin-default")])
  | v => v
  end.
Definition ledger_entry (ts actor surface : string) (old : val) (new : dict) : dict :=
  [("ts", VStr ts); ("scope", VStr "default"); ("old", old); ("new", VDict new);
   ("actor", VStr (if String.eqb actor "" then "unknown" else actor)); ("surface", VStr (if String.eqb surface "" then "api" else surface))].
Definition write_default_grant (grant : val) (actor surface ts : string) (appends : bool) : M grants (posture * bool) :=
  clean <- of_res (validate_grant grant) ;;
  stored <- gets read_grants ;;
  if truthy (get_ "_corrupt" stored) then raise (ValueError "tool_grants store is unreadable")
  else
    modify (fun g => mk_grants (Json (VDict (dset "default" (VDict clean) stored)))
      (g_ledger g ++ (if appends then [ledger_entry ts actor surface (former_grant stored) clean] else []))) ;;;
    fun g => (rbind (read_tool_grants g) (fun p => Ok (p, negb appends)), g).

(** [grant_ceiling_rank] *)
Definition grant_ceiling_rank (g : grants) : res (option Z) :=
  p <== read_tool_grants g;
  Ok (match get_ "mode" (p_default p) with VStr "preset" => rank_by_id (str_or (get_ "tier_id" (p_default p)) "") | _ => None end).

(** ** The injection *)

(** The policy and the note of a grant. *)
Definition injected (grant : dict) : option (dict * string) :=
  let receipt := [("source", VStr "gateway-default"); ("grant_mode", VStr (py_str (get_ "mode" grant)))] in
  match get_ "mode" grant with
  | VStr "preset" =>
      match rank_by_id (str_or (get_ "tier_id" grant) "") with
      | None => None
      | Some rank =>
          Some (("auto_approve_max_risk_rank", VInt rank) :: receipt,
                "gateway-default:" +:+ py_str (get_ "tier_id" grant) +:+ " (tier ceiling " +:+ str_of_Z rank +:+ ")")
      end
  | VStr "custom" =>
      match get_ "tools" grant with
      | VList l =>
          match omap as_str l with
          | [] => None
          | tools => Some (("auto_approve_tools", VList (map VStr tools)) :: receipt,
                           "gateway-default:custom (" +:+ str_of_Z (Z.of_nat (length tools)) +:+ " tools)")
          end
      | VStr s => match s with
                  | "" => None
                  | _ => let tools := map (fun c => VStr (c ::s "")) (String.list_ascii_of_string s) in
                         Some (("auto_approve_tools", VList tools) :: receipt,
                               "gateway-default:custom (" +:+ str_of_Z (Z.of_nat (length tools)) +:+ " tools)")
                  end
      | VDict kvs => match kvs with
                     | [] => None
                     | _ => Some (("auto_approve_tools", VList (map (fun kv => VStr kv.1) kvs)) :: receipt,
                                  "gateway-default:custom (" +:+ str_of_Z (Z.of_nat (length kvs)) +:+ " tools)")
                     end
      | _ => None
      end
  | _ => None
  end.
(** [inject_default_grant] on the run's [_runtime] values: the note, and the
    values after it. *)
Definition inject_default_grant (g : grants) (rt_ns : dict) : option string * dict :=
  if dmem "tool_policy" rt_ns then (None, rt_ns)
  else
    match read_tool_grants g with
    | Raise _ => (None, rt_ns)
    | Ok p =>
        if negb (String.eqb (p_source p) "stored") || p_warns p then (None, rt_ns)
        else match injected (p_default p) with
             | Some (policy, note) => (Some note, dset "tool_policy" (VDict policy) rt_ns)
             | None => (None, rt_ns)
             end
    end.


(** ** What a validated grant is *)

Definition standing (clean : dict) : Prop :=
  (exists tier rank, clean = [("mode", VStr "preset"); ("tier_id", VStr tier)] /\ rank_by_id tier = Some rank /\ 1 <= rank <= 3) \/
  (exists names, clean = [("mode", VStr "custom"); ("tools", VList (map VStr names))] /\
     SortedBy str_leb names /\ NoDup names /\ Forall (fun n => n <> "" /\ strip n = n) names /\ (length names <= 200)%nat).

Lemma rank_by_id_bounds tier rank : rank_by_id tier = Some rank -> 1 <= rank <= 4.
Proof.
  unfold rank_by_id. destruct (List.find _ _) as [[t r]|] eqn:E; [|done]. intros [= <-]. simpl.
  apply List.find_some in E as [Hin _]. simpl in Hin. naive_solver lia.
Qed.

Lemma names_of_spec l n : forallb is_name l = true -> n ∈ names_of l -> n <> "" /\ strip n = n.
Proof.
  intros Hall (s & -> & Hs)%list_elem_of_fmap. split; [|apply strip_idemp].
  apply list_elem_of_omap in Hs as (v & Hv & Hv'). rewrite forallb_forall in Hall. apply list_elem_of_In, Hall in Hv.
  destruct v; simplify_eq/=. by apply String.eqb_neq, negb_true_iff.
Qed.

Lemma as_str_cons v l : omap as_str (v :: l) = match as_str v with Some s => s :: omap as_str l | None => omap as_str l end.
Proof. done. Qed.
Lemma length_names_of l : (length (names_of l) <= length l)%nat.
Proof. unfold names_of. rewrite length_map. induction l as [|v l IH]; [done|]. rewrite as_str_cons. destruct (as_str v); simpl; lia. Qed.

Lemma validate_grant_standing grant clean : validate_grant grant = Ok clean -> standing clean.
Proof.
  unfold validate_grant. destruct grant as [| | | | | |d]; try done.
  destruct (String.eqb_spec (folded (get_ "mode" d)) "preset") as [->|].
  - destruct (rank_by_id _) as [rank|] eqn:E; [|done]. destruct (Z.leb_spec 4 rank); [done|]. intros [= <-].
    left. exists (folded (get_ "tier_id" d)), rank. apply rank_by_id_bounds in E as ?. split_and!; [done|done|lia|lia].
  - destruct (String.eqb_spec (folded (get_ "mode" d)) "custom") as [->|]; [|done].
    destruct (get_ "tools" d) as [| | | | |l|]; try done. destruct (forallb is_name l) eqn:Ef; [|done]. cbn [negb].
    destruct (Z.ltb_spec 200 (Z.of_nat (length l))); [done|]. intros [= <-]. right. exists (sorted_set (names_of l)).
    split_and!; [done|apply sorted_set_sorted|apply sorted_set_NoDup| |].
    + rewrite Forall_forall. intros t Ht. apply (names_of_spec l t Ef). by apply sorted_set_elem.
    + pose proof (length_sorted_set (names_of l)). pose proof (length_names_of l). lia.
Qed.

(** Validating a clean grant changes nothing. *)
Lemma as_str_texts l : omap as_str (map VStr l) = l.
Proof. induction l as [|x l IH]; [done|]. rewrite map_cons, as_str_cons. simpl as_str. by rewrite IH. Qed.
Lemma map_strip_id l : Forall (fun n => n <> "" /\ strip n = n) l -> map strip l = l.
Proof. induction 1 as [|n l [_ Hs] _ IH]; [done|]. simpl. by rewrite Hs, IH. Qed.

Lemma rank_by_id_known tier rank : rank_by_id tier = Some rank -> tier ∈ ["observe"; "act"; "outreach"; "destroy"].
Proof.
  unfold rank_by_id. destruct (List.find _ _) as [[t r]|] eqn:E; [|done]. intros _.
  apply List.find_some in E as [Hin Ht]. apply String.eqb_eq in Ht as <-. simpl in *. set_solver.
Qed.
Lemma standing_fixed clean : standing clean -> validate_grant (VDict clean) = Ok clean.
Proof.
  intros [(tier & rank & -> & Hr & Hb)|(names & -> & Hs & Hn & Hf & Hl)].
  - pose proof (rank_by_id_known _ _ Hr) as Hin. set_unfold in Hin. destruct Hin as [->|[->|[->|[->|[]]]]]; try (vm_compute; reflexivity).
    vm_compute in Hr. injection Hr as <-. lia.
  - unfold validate_grant. cbn [get_ dget String.eqb]. change (folded (get_ "mode" [("mode", VStr "custom"); ("tools", VList (map VStr names))])) with "custom".
    change (get_ "tools" [("mode", VStr "custom"); ("tools", VList (map VStr names))]) with (VList (map VStr names)). cbn [String.eqb].
    assert (forallb is_name (map VStr names) = true) as ->.
    { apply forallb_forall. intros v (n & <- & Hin)%in_map_iff. rewrite Forall_forall in Hf. apply list_elem_of_In, Hf in Hin as [Hne Hst].
      simpl. rewrite Hst. by apply negb_true_iff, String.eqb_neq. }
    rewrite length_map. destruct (Z.ltb_spec 200 (Z.of_nat (length names))); [lia|]. cbn.
    unfold names_of. by rewrite as_str_texts, map_strip_id, sorted_set_id.
Qed.

(** ** Runs of writes *)

Record write := mk_write { w_grant : val; w_actor : string; w_surface : string; w_ts : string; w_appends : bool }.
Definition do_write (g : grants) (w : write) : grants := exec (write_default_grant (w_grant w) (w_actor w) (w_surface w) (w_ts w) (w_appends w)) g.
Definition do_writes (ws : list write) (g : grants) : grants := fold_left do_write ws g.

(** What a write does: a refused one nothing; another stores the clean grant. *)
Lemma do_write_spec g w :
  (do_write g w = g /\ (is_ok (validate_grant (w_grant w)) = false \/ truthy (get_ "_corrupt" (read_grants g)) = true)) \/
  exists clean, validate_grant (w_grant w) = Ok clean /\ truthy (get_ "_corrupt" (read_grants g)) = false /\
    do_write g w = mk_grants (Json (VDict (dset "default" (VDict clean) (read_grants g))))
      (g_ledger g ++ (if w_appends w then [ledger_entry (w_ts w) (w_actor w) (w_surface w) (former_grant (read_grants g)) clean] else [])).
Proof.
  unfold do_write, exec, write_default_grant, mbind_, of_res, gets, modify, raise.
  destruct (validate_grant (w_grant w)) as [clean|e]; [|left; auto]. destruct (truthy (get_ "_corrupt" (read_grants g))); [left; auto|].
  right. by exists clean.
Qed.

(** A store the module alone has written: none yet, or a clean default and
    nothing else. *)
Definition own_store (g : grants) : Prop :=
  g_store g = Absent \/ exists clean, g_store g = Json (VDict [("default", VDict clean)]) /\ standing clean.
Lemma own_store_write g w : own_store g -> own_store (do_write g w).
Proof.
  intros Ho. destruct (do_write_spec g w) as [[-> _]|(clean & Hv & _ & ->)]; [done|]. right. exists clean. cbn. split; [|by eapply validate_grant_standing].
  unfold read_grants. by destruct Ho as [->|(old & -> & _)].
Qed.
Lemma own_store_writes ws g : own_store g -> own_store (do_writes ws g).
Proof. unfold do_writes. revert g. induction ws as [|w ws IH]; intros g Hg; [done|]. simpl. by apply IH, own_store_write. Qed.

Lemma read_own_store g : own_store g ->
  exists p, read_tool_grants g = Ok p /\ p_warns p = false /\
    ((g_store g = Absent /\ p_source p = "builtin-default") \/
     exists clean, g_store g = Json (VDict [("default", VDict clean)]) /\ standing clean /\ p_source p = "stored" /\ p_default p = clean).
Proof.
  intros [H|(clean & H & Hst)]; unfold read_tool_grants, read_grants; rewrite H.
  - eexists. split; [reflexivity|]. split; [done|]. left. done.
  - destruct clean as [|kv d]; [by destruct Hst as [(? & ? & ? & ?)|(? & ? & ?)]|].
    eexists. split; [reflexivity|]. split; [done|]. right. eexists. split; [done|]. done.
Qed.

(** The policy a clean grant injects. *)
Lemma injected_standing clean : standing clean ->
  (exists tier rank, clean = [("mode", VStr "preset"); ("tier_id", VStr tier)] /\ 1 <= rank <= 3 /\
     fst <$> injected clean = Some [("auto_approve_max_risk_rank", VInt rank); ("source", VStr "gateway-default"); ("grant_mode", VStr "preset")]) \/
  (exists names, clean = [("mode", VStr "custom"); ("tools", VList (map VStr names))] /\ Forall (fun n => n <> "") names /\
     fst <$> injected clean = if bool_decide (names = []) then None
       else Some [("auto_approve_tools", VList (map VStr names)); ("source", VStr "gateway-default"); ("grant_mode", VStr "custom")]).
Proof.
  intros [(tier & rank & -> & Hr & Hb)|(names & -> & _ & _ & Hf & _)].
  - left. exists tier, rank. split; [done|]. split; [done|].
    assert (str_or (VStr tier) "" = tier) as Ht by apply str_or_self.
    unfold injected. change (get_ "tier_id" [("mode", VStr "preset"); ("tier_id", VStr tier)]) with (VStr tier).
    change (get_ "mode" [("mode", VStr "preset"); ("tier_id", VStr tier)]) with (VStr "preset"). lazy beta iota zeta. by rewrite Ht, Hr.
  - right. exists names. split; [done|]. split; [by eapply Forall_impl; [exact Hf|]; intros n [? _]|].
    unfold injected. change (get_ "tools" [("mode", VStr "custom"); ("tools", VList (map VStr names))]) with (VList (map VStr names)).
    change (get_ "mode" [("mode", VStr "custom"); ("tools", VList (map VStr names))]) with (VStr "custom"). lazy beta iota zeta.
    rewrite as_str_texts. by destruct names.
Qed.

(** ** The ledger and the injection *)

(** Each entry starts from the grant the one before it left. *)
Fixpoint chain (old : val) (l : list dict) (final : val) : Prop :=
  match l with
  | [] => final = old
  | e :: l => get_ "old" e = old /\ chain (get_ "new" e) l final
  end.
Lemma chain_snoc old l mid e : chain old l mid -> get_ "old" e = mid -> chain old (l ++ [e]) (get_ "new" e).
Proof.
  revert old. induction l as [|x l IH]; intros old; simpl; [by intros -> ->|]. intros [? ?] ?. split; [done|auto].
Qed.

Definition no_grants : grants := mk_grants Absent [].
Definition builtin_act : val := VDict (builtin_grant ++ [("source", VStr "builtin-default")]).

Lemma chain_write g w : w_appends w = true -> own_store g ->
  chain builtin_act (g_ledger g) (former_grant (read_grants g)) ->
  chain builtin_act (g_ledger (do_write g w)) (former_grant (read_grants (do_write g w))).
Proof.
  intros Ha Ho Hc. destruct (do_write_spec g w) as [[-> _]|(clean & Hv & _ & ->)]; [done|]. rewrite Ha. cbn [g_ledger].
  assert (former_grant (read_grants (mk_grants (Json (VDict (dset "default" (VDict clean) (read_grants g)))) (g_ledger g ++ [ledger_entry (w_ts w) (w_actor w) (w_surface w) (former_grant (read_grants g)) clean]))) =
    get_ "new" (ledger_entry (w_ts w) (w_actor w) (w_surface w) (former_grant (read_grants g)) clean)) as ->.
  { unfold read_grants at 1. cbn [g_store]. unfold former_grant at 1. by rewrite get_dset_eq. }
  by eapply chain_snoc.
Qed.

(** While the ledger takes every entry, it is the history of the default grant:
    each entry starts from the grant the one before left (the first from the
    built-in one, named as such), and the last one's is the grant in force. *)
Theorem ledger_is_the_history ws : Forall (fun w => w_appends w = true) ws ->
  chain builtin_act (g_ledger (do_writes ws no_grants)) (former_grant (read_grants (do_writes ws no_grants))).
Proof.
  intros Hw. unfold do_writes.
  assert (own_store no_grants) as Ho by (by left).
  assert (chain builtin_act (g_ledger no_grants) (former_grant (read_grants no_grants))) as Hc by done.
  revert Ho Hc. generalize no_grants. induction Hw as [|w ws Ha _ IH]; intros g Ho Hc; [done|]. simpl.
  apply IH; [by apply own_store_write|by apply chain_write].
Qed.

Definition accepted (w : write) : bool := is_ok (validate_grant (w_grant w)).
Lemma own_store_not_corrupt g : own_store g -> truthy (get_ "_corrupt" (read_grants g)) = false.
Proof. unfold read_grants. by intros [->|(old & -> & _)]. Qed.
Lemma own_store_accepts g w clean : own_store g -> validate_grant (w_grant w) = Ok clean ->
  g_store (do_write g w) = Json (VDict [("default", VDict clean)]).
Proof.
  intros Ho Hv. destruct (do_write_spec g w) as [[_ [H|H]]|(clean' & Hv' & _ & ->)].
  - by rewrite Hv in H.
  - by rewrite own_store_not_corrupt in H.
  - rewrite Hv in Hv'. injection Hv' as <-. cbn. unfold read_grants. by destruct Ho as [->|(old & -> & _)].
Qed.

(** The last grant accepted. *)
Definition last_grant (ws : list write) : option dict :=
  fold_left (fun acc w => match validate_grant (w_grant w) with Ok clean => Some clean | Raise _ => acc end) ws None.
Lemma last_grant_stored ws :
  g_store (do_writes ws no_grants) = match last_grant ws with Some clean => Json (VDict [("default", VDict clean)]) | None => Absent end /\
  match last_grant ws with Some clean => standing clean | None => True end.
Proof.
  induction ws as [|w ws [IH IHs]] using rev_ind; [done|]. unfold do_writes, last_grant in *. rewrite !fold_left_app. cbn [fold_left].
  destruct (validate_grant (w_grant w)) as [clean|e] eqn:Hv.
  - split; [|by eapply validate_grant_standing]. apply own_store_accepts; [|done]. apply own_store_writes. by left.
  - destruct (do_write_spec (fold_left do_write ws no_grants) w) as [[-> _]|(clean & Hv' & _)]; [done|congruence].
Qed.

(** What a run is given: an approval of one of the first three tiers, or of a
    list of names. *)
Definition modest (policy : dict) : Prop :=
  (exists rank, 1 <= rank <= 3 /\ policy = [("auto_approve_max_risk_rank", VInt rank); ("source", VStr "gateway-default"); ("grant_mode", VStr "preset")]) \/
  (exists names, names <> [] /\ Forall (fun n => n <> "") names /\
     policy = [("auto_approve_tools", VList (map VStr names)); ("source", VStr "gateway-default"); ("grant_mode", VStr "custom")]).
Lemma injected_modest clean policy note : standing clean -> injected clean = Some (policy, note) -> modest policy.
Proof.
  intros Hs Hi. destruct (injected_standing clean Hs) as [(tier & rank & _ & Hr & He)|(names & _ & Hf & He)]; rewrite Hi in He; cbn in He.
  - injection He as ->. left. by exists rank.
  - case_bool_decide; [done|]. injection He as ->. right. by exists names.
Qed.

(** Whatever was written to the default grant, a run that brings a tool policy
    of its own keeps it; a run that brings none gets nothing until a grant was
    accepted and then exactly the policy of the last one accepted, which approves
    names it lists or one of the first three tiers, never the destroy tier. *)
Theorem injection_is_the_last_act ws rt :
  inject_default_grant (do_writes ws no_grants) rt =
    (if dmem "tool_policy" rt then (None, rt)
     else match last_grant ws ≫= injected with
          | Some (policy, note) => (Some note, dset "tool_policy" (VDict policy) rt)
          | None => (None, rt)
          end) /\
  forall policy note, last_grant ws ≫= injected = Some (policy, note) -> modest policy.
Proof.
  destruct (last_grant_stored ws) as [Hst Hs]. split.
  - unfold inject_default_grant. destruct (dmem "tool_policy" rt); [done|].
    assert (own_store (do_writes ws no_grants)) as Ho by (apply own_store_writes; by left).
    destruct (read_own_store _ Ho) as (p & -> & Hw & [(Ha & Hsrc)|(clean & Hc & _ & Hsrc & Hd)]); rewrite Hsrc, Hw.
    + rewrite Ha in Hst. by destruct (last_grant ws).
    + rewrite Hc in Hst. destruct (last_grant ws) as [clean'|]; [|done]. injection Hst as <-. cbn. by rewrite Hd.
  - intros policy note. destruct (last_grant ws) as [clean|]; [|done]. cbn. by apply injected_modest.
Qed.

(** A store that cannot be read is not written and injects nothing. *)
Theorem unreadable_store_frozen ledger w rt :
  do_write (mk_grants Unreadable ledger) w = mk_grants Unreadable ledger /\
  is_ok (fst (write_default_grant (w_grant w) (w_actor w) (w_surface w) (w_ts w) (w_appends w) (mk_grants Unreadable ledger))) = false /\
  inject_default_grant (mk_grants Unreadable ledger) rt = (None, rt).
Proof.
  unfold do_write, exec, write_default_grant, mbind_, of_res, gets, modify, raise. split_and!.
  - by destruct (validate_grant (w_grant w)).
  - by destruct (validate_grant (w_grant w)).
  - unfold inject_default_grant. by destruct (dmem "tool_policy" rt).
Qed.

(** Validating what validation returned returns it again. *)
Theorem validate_grant_idempotent grant clean : validate_grant grant = Ok clean -> validate_grant (VDict clean) = Ok clean.
Proof. intros H. by apply standing_fixed, (validate_grant_standing grant). Qed.
Lemma validate_grant_idempotent_witness :
  validate_grant (VDict [("mode", VStr " Custom"); ("tools", VList [VStr "b "; VStr "a"; VStr "b"])]) =
    Ok [("mode", VStr "custom"); ("tools", VList [VStr "a"; VStr "b"])] /\
  validate_grant (VDict [("mode", VStr "custom"); ("tools", VList [VStr "a"; VStr "b"])]) =
    Ok [("mode", VStr "custom"); ("tools", VList [VStr "a"; VStr "b"])].
Proof.
  split; [vm_compute; reflexivity|].
  exact (validate_grant_idempotent (VDict [("mode", VStr " Custom"); ("tools", VList [VStr "b "; VStr "a"; VStr "b"])]) _ eq_refl).
Defined.

Abbreviation act_then_names := [mk_write (VDict [("mode", VStr "preset"); ("tier_id", VStr "outreach")]) "ann" "api" "t1" true;
  mk_write (VDict [("mode", VStr "preset"); ("tier_id", VStr "destroy")]) "ann" "api" "t2" true;
  mk_write (VDict [("mode", VStr "custom"); ("tools", VList [VStr "web_search"])]) "" "" "t3" true].
Lemma ledger_is_the_history_witness :
  length (g_ledger (do_writes act_then_names no_grants)) = 2%nat /\
  chain builtin_act (g_ledger (do_writes act_then_names no_grants)) (former_grant (read_grants (do_writes act_then_names no_grants))).
Proof.
  split; [vm_compute; reflexivity|]. apply ledger_is_the_history. repeat (constructor; [reflexivity|]). constructor.
Defined.

(** ** A store edited by hand *)

Lemma hand_edited_destroy :
  inject_default_grant (mk_grants (Json (VDict [("default", VDict [("mode", VStr "preset"); ("tier_id", VStr "destroy")])])) []) [] =
  (Some "gateway-default:destroy (tier ceiling 4)",
   [("tool_policy", VDict [("auto_approve_max_risk_rank", VInt 4); ("source", VStr "gateway-default"); ("grant_mode", VStr "preset")])]).
Proof. vm_compute. reflexivity. Qed.

(** [read_tool_grants] raises on overrides that are no object: every read fails,
    and a write is applied and answered with the exception. *)
Lemma reading_can_raise :
  let g := mk_grants (Json (VDict [("app_overrides", VStr "none")])) [] in
  let w := write_default_grant (VDict [("mode", VStr "preset"); ("tier_id", VStr "act")]) "ann" "api" "t" true g in
  is_ok (read_tool_grants g) = false /\ is_ok w.1 = false /\ length (g_ledger w.2) = 1%nat.
Proof. vm_compute. done. Qed.
