(* ===== verification/ToolPolicy.v ===== *)
(** * The tool policy of a conversation

    [session_tool_policy.py] and the writes of [routes/session_tool_policy.py]:
    the canonical request, its expansion and clamping to the tools the caller is
    authorized for, the merge of policies, and the guarded read-merge-write.

    The store is the runtime's: a class of its operations with the laws the route
    relies on. The tool inventory is the rows the discovery answers, an argument.
    A rank that is an infinite float is left aside, and the texts of the refusals
    are shortened. *)

From S2P Require Import Prelude PyStr PyVal PyNum OrdDict.

Definition MAX_NAMES : Z := 512.
Definition DEFAULT_UNRANKED : Z := 4.

(** ** The request *)

Record selection := mk_selection {
  q_tools : list string;
  q_kinds : list string;
  q_all : bool;
  q_rank : option Z;
  q_deny_tools : list string;
  q_deny_kinds : list string;
  q_ask : list string;
}.

(** [PolicyRequestError] is a [ValueError]. *)
Definition invalid {A} (m : string) : res A := Raise (ValueError m).
(** [_names] *)
Definition names (value : val) (field : string) : res (list string) :=
  match value with
  | VNone => Ok []
  | VList l =>
      if negb (forallb is_str l) then invalid (field +:+ " must be a list of strings")
      else let out := sorted_set (List.filter (fun s => negb (String.eqb s "")) (map strip (omap as_str l))) in
           if MAX_NAMES <? Z.of_nat (length out) then invalid (field +:+ " lists more than 512 names") else Ok out
  | _ => invalid (field +:+ " must be a list of strings")
  end.
Definition only_fields (d : dict) (known : list string) : bool := forallb (fun k => bool_decide (k ∈ known)) (dkeys d).

(** [normalize_request] *)
Definition normalize_request (body : val) : res selection :=
  match body with
  | VDict b =>
      if negb (only_fields b ["approve"; "deny"; "ask"; "client"; "if_revision"]) then invalid "unknown field(s)"
      else
        match py_or (get_ "approve" b) (VDict []), py_or (get_ "deny" b) (VDict []) with
        | VDict a, VDict d =>
            if negb (only_fields a ["tools"; "kinds"; "all"; "max_risk_rank"]) then invalid "unknown approve field(s)"
            else if negb (only_fields d ["tools"; "kinds"]) then invalid "unknown deny field(s)"
            else
              match default (VBool false) (dget "all" a) with
              | VBool all =>
                  rank <== (match get_ "max_risk_rank" a with
                            | VNone => Ok None
                            | VInt r => if (1 <=? r) && (r <=? 4) then Ok (Some r) else invalid "approve.max_risk_rank must be an integer from 1 to 4"
                            | _ => invalid "approve.max_risk_rank must be an integer from 1 to 4"
                            end);
                  tools <== names (get_ "tools" a) "approve.tools";
                  kinds <== names (get_ "kinds" a) "approve.kinds";
                  deny_tools <== names (get_ "tools" d) "deny.tools";
                  deny_kinds <== names (get_ "kinds" d) "deny.kinds";
                  ask <== names (get_ "ask" b) "ask";
                  Ok (mk_selection tools kinds all rank deny_tools deny_kinds ask)
              | _ => invalid "approve.all must be a boolean"
              end
        | _, _ => invalid "approve and deny must be objects"
        end
  | _ => invalid "body must be an object"
  end.

(** [split_client]: the label and the caller's revision guard. *)
Definition split_client (body : val) : res (option string * option Z) :=
  match body with
  | VDict b =>
      client <== (match get_ "client" b with
                  | VNone => Ok None
                  | VStr c => if 64 <? len c then invalid "client must be a string of at most 64 characters"
                              else Ok (if String.eqb (strip c) "" then None else Some (strip c))
                  | _ => invalid "client must be a string of at most 64 characters"
                  end);
      rev <== (match get_ "if_revision" b with
               | VNone => Ok None
               | VInt r => if r <? 0 then invalid "if_revision must be a non-negative integer" else Ok (Some r)
               | _ => invalid "if_revision must be a non-negative integer"
               end);
      Ok (client, rev)
  | _ => Ok (None, None)
  end.

(** [merge_requests] *)
Definition union (a b : list string) : list string := sorted_set (a ++ b).
Definition merge_requests (old : option selection) (new : selection) : selection :=
  match old with
  | None => new
  | Some o =>
      mk_selection (union (q_tools o) (q_tools new)) (union (q_kinds o) (q_kinds new)) (q_all o || q_all new)
        (match q_rank new, q_rank o with Some n, Some m => Some (Z.max n m) | _, _ => None end)
        (union (q_deny_tools o) (q_deny_tools new)) (union (q_deny_kinds o) (q_deny_kinds new)) (union (q_ask o) (q_ask new))
  end.

(** ** The policy *)

Record clamp := mk_clamp { x_selector : string; x_name : string; x_reason : string }.
Record author := mk_author { by_tenant : string; by_user : string; by_client : option string }.
Record policy := mk_policy {
  p_approve : list (string * string);
  p_deny : list (string * string);
  p_ask : list string;
  p_request : selection;
  p_clamped : list clamp;
  p_set_by : author;
  p_set_at : string;
}.

Definition sorted_items {V} (d : list (string * V)) : list (string * V) := py_sorted (fun a b => str_leb a.1 b.1) d.

(** The rows of the inventory with a name, under it. *)
Definition named_row (v : val) : option (string * dict) :=
  match v with
  | VDict r => match get_ "name" r with
               | VStr n => if String.eqb (strip n) "" then None else Some (strip n, r)
               | _ => None
               end
  | _ => None
  end.
Definition all_rows (rows : list val) : list (string * dict) := omap named_row rows.
Definition enabled (r : dict) : bool := match get_ "enabled" r with VBool true => true | _ => false end.
Definition authorized (rows : list val) : list (string * dict) :=
  fold_left (fun d nr => if enabled nr.2 then oset nr.1 nr.2 d else d) (all_rows rows) [].
Definition kind_of (r : dict) : string := str_or (get_ "toolset" r) "".
Definition known_kinds (rows : list val) : list string :=
  List.filter (fun k => negb (String.eqb k "")) (map (fun nr => kind_of nr.2) (all_rows rows)).
(** [_rank] *)
Definition rank_of (r : dict) : Z :=
  match get_ "risk_rank" r with
  | VNone | VBool _ => DEFAULT_UNRANKED
  | v => default DEFAULT_UNRANKED (py_int v)
  end.
Definition within (ceiling : option Z) (r : dict) : bool := match ceiling with None => true | Some c => rank_of r <=? c end.

Definition approve_all (q : selection) (auth : list (string * dict)) : list (string * string) :=
  if q_all q then fold_left (fun a nr => if within (q_rank q) nr.2 then osetdefault nr.1 "all" a else a) (sorted_items auth) [] else [].
Definition approve_kind (q : selection) (rows : list val) (acc : list (string * string) * list clamp) (kind : string) :
    list (string * string) * list clamp :=
  let members := List.filter (fun nr => String.eqb (kind_of nr.2) kind) (sorted_items (authorized rows)) in
  match members with
  | [] => (acc.1, acc.2 ++ [mk_clamp "kinds" kind (if bool_decide (kind ∈ known_kinds rows) then "not_authorized" else "unknown_kind")])
  | _ => (fold_left (fun a nr => if within (q_rank q) nr.2 then oset nr.1 ("kind:" +:+ kind) a else a) members acc.1, acc.2)
  end.
Definition approve_tool (auth : list (string * dict)) (acc : list (string * string) * list clamp) (name : string) :
    list (string * string) * list clamp :=
  match oget name auth with
  | Some _ => (oset name "tool" acc.1, acc.2)
  | None => (acc.1, acc.2 ++ [mk_clamp "tools" name "not_authorized"])
  end.
Definition deny_named (q : selection) : list (string * string) := fold_left (fun d n => oset n "tool" d) (q_deny_tools q) [].
Definition deny_kind (rows : list val) (acc : list (string * string)) (kind : string) : list (string * string) :=
  fold_left (fun d nr => if String.eqb (kind_of nr.2) kind then osetdefault nr.1 ("kind:" +:+ kind) d else d) (all_rows rows) acc.
Definition denials (q : selection) (rows : list val) : list (string * string) := fold_left (deny_kind rows) (q_deny_kinds q) (deny_named q).
Definition has_key {V} (k : string) (d : list (string * V)) : bool := match oget k d with Some _ => true | None => false end.
Definition overruled {V} (deny : list (string * V)) (ask : list string) (name : string) : bool := has_key name deny || bool_decide (name ∈ ask).

(** [build_policy] *)
Definition build_policy (q : selection) (rows : list val) (set_by : author) (now : string) : policy :=
  let auth := authorized rows in
  let '(approve, clamped) := fold_left (approve_tool auth) (q_tools q) (fold_left (approve_kind q rows) (q_kinds q) (approve_all q auth, [])) in
  let deny := denials q rows in
  mk_policy (sorted_items (oreject (overruled deny (q_ask q)) approve)) (sorted_items deny) (q_ask q) q clamped set_by now.

(** [merge_policies] *)
Definition merge_policies (current : option policy) (new : policy) (q : selection) : policy :=
  match current with
  | None => mk_policy (p_approve new) (p_deny new) (p_ask new) q (p_clamped new) (p_set_by new) (p_set_at new)
  | Some c =>
      let approve := omerge (p_approve c) (p_approve new) in
      let deny := omerge (p_deny c) (p_deny new) in
      let ask := union (p_ask c) (p_ask new) in
      mk_policy (sorted_items (oreject (overruled deny ask) approve)) (sorted_items deny) ask q (p_clamped new) (p_set_by new) (p_set_at new)
  end.
