(* ===== verification/ToolPolicyFacts.v ===== *)
(** * The tool policy of a conversation: what it approves

    The policy of a request in closed form, the merge of two policies, what every
    approved tool goes back to over any sequence of writes, and that the guarded
    merge loses no concurrent write. *)

From S2P Require Import Prelude PyStr PyVal PyNum OrdDict ToolPolicy.

(** ** Sorted items *)

Section Items.
Context {V : Type}.
Implicit Types d : list (string * V).

Lemma sorted_items_perm d : sorted_items d ≡ₚ d.
Proof. apply py_sorted_perm. Qed.
Lemma NoDup_sorted_items d : NoDup (okeys d) -> NoDup (okeys (sorted_items d)).
Proof. intros H. unfold okeys in *. by rewrite sorted_items_perm. Qed.
Lemma oget_sorted_items k d : NoDup (okeys d) -> oget k (sorted_items d) = oget k d.
Proof. intros H. apply oget_perm; [by apply NoDup_sorted_items|apply sorted_items_perm]. Qed.
Lemma has_key_elem k d : has_key k d = bool_decide (k ∈ okeys d).
Proof.
  unfold has_key. destruct (oget k d) as [v|] eqn:E.
  - symmetry. apply bool_decide_eq_true. apply oget_Some_elem in E. by apply (list_elem_of_fmap_2 fst _ (k, v)).
  - symmetry. apply bool_decide_eq_false. by apply oget_None.
Qed.
End Items.

Lemma elem_of_omap_named rows n r : (n, r) ∈ all_rows rows -> exists v, v ∈ rows /\ named_row v = Some (n, r).
Proof. unfold all_rows. intros H. by apply list_elem_of_omap in H. Qed.

Lemma NoDup_authorized rows : NoDup (okeys (authorized rows)).
Proof.
  unfold authorized. assert (NoDup (okeys (@nil (string * dict)))) as H by constructor. revert H.
  generalize (@nil (string * dict)) as acc. induction (all_rows rows) as [|[n r] l IH]; intros acc H; [done|]. simpl.
  apply IH. destruct (enabled r); [by apply NoDup_okeys_oset|done].
Qed.
(** An authorized tool is an enabled row of the inventory. *)
Lemma authorized_enabled rows n r : oget n (authorized rows) = Some r -> (n, r) ∈ all_rows rows /\ enabled r = true.
Proof.
  unfold authorized. assert (forall n r, oget n (@nil (string * dict)) = Some r -> (n, r) ∈ all_rows rows /\ enabled r = true) as H by done. revert H.
  assert (forall nr, nr ∈ all_rows rows -> nr ∈ all_rows rows) as Hsub by done. revert Hsub.
  generalize (@nil (string * dict)) as acc. generalize (all_rows rows) at 1 4 as l. intros l. induction l as [|[m s] l IH]; intros acc Hsub H; simpl; [apply H|].
  apply IH; [set_solver|]. intros n' r'. destruct (enabled s) eqn:Es; [|apply H]. rewrite oget_oset.
  destruct (decide (n' = m)) as [->|]; [|apply H]. intros [= <-]. split; [apply Hsub; set_solver|done].
Qed.

(** ** A request in closed form *)

Definition denied (q : selection) (rows : list val) (name : string) : bool :=
  bool_decide (name ∈ q_deny_tools q) ||
  existsb (fun nr => String.eqb nr.1 name && bool_decide (kind_of nr.2 ∈ q_deny_kinds q)) (all_rows rows).
Definition approved_as (q : selection) (row : dict) (name : string) : option string :=
  if bool_decide (name ∈ q_tools q) then Some "tool"
  else if bool_decide (kind_of row ∈ q_kinds q) && within (q_rank q) row then Some ("kind:" +:+ kind_of row)
  else if q_all q && within (q_rank q) row then Some "all" else None.
Definition no_member (rows : list val) (kind : string) : bool :=
  forallb (fun nr => negb (String.eqb (kind_of nr.2) kind)) (authorized rows).

Lemma has_key_osetdefault {V} n k (v : V) d : has_key n (osetdefault k v d) = has_key n d || String.eqb k n.
Proof.
  unfold has_key. rewrite oget_osetdefault. destruct (oget n d); [done|]. simpl.
  destruct (decide (n = k)) as [->|Hne]; [by rewrite String.eqb_refl|]. symmetry. apply String.eqb_neq. congruence.
Qed.
Lemma has_key_deny_kind rows acc kind n :
  has_key n (deny_kind rows acc kind) = has_key n acc || existsb (fun nr => String.eqb nr.1 n && String.eqb (kind_of nr.2) kind) (all_rows rows).
Proof.
  unfold deny_kind. revert acc. induction (all_rows rows) as [|[m r] l IH]; intros acc; simpl; [by rewrite orb_false_r|].
  rewrite IH. destruct (String.eqb (kind_of r) kind); simpl.
  - rewrite has_key_osetdefault, andb_true_r. by rewrite <- !orb_assoc.
  - by rewrite andb_false_r.
Qed.
Lemma has_key_deny_named q n : has_key n (deny_named q) = bool_decide (n ∈ q_deny_tools q).
Proof.
  unfold deny_named. assert (forall d, has_key n (fold_left (fun d n => oset n "tool" d) (q_deny_tools q) d) = has_key n d || bool_decide (n ∈ q_deny_tools q)) as H; [|by rewrite H].
  induction (q_deny_tools q) as [|m l IH]; intros d; simpl; [by rewrite orb_false_r|]. rewrite IH. unfold has_key. rewrite oget_oset.
  destruct (decide (n = m)) as [->|Hne].
  - rewrite (bool_decide_true (m ∈ m :: l)) by set_solver. by destruct (oget m d).
  - rewrite (bool_decide_ext (n ∈ m :: l) (n ∈ l)) by set_solver. done.
Qed.
Lemma has_key_denials q rows n : has_key n (denials q rows) = denied q rows n.
Proof.
  unfold denials, denied. rewrite <- has_key_deny_named. generalize (deny_named q) as acc.
  induction (q_deny_kinds q) as [|k l IH]; intros acc; cbn [fold_left]; apply eq_true_iff_eq.
  - rewrite orb_true_iff, existsb_elem. split; [auto|]. intros [H|(x & _ & H)]; [done|]. rewrite bool_decide_false, andb_false_r in H by set_solver. done.
  - rewrite IH, has_key_deny_kind, !orb_true_iff, !existsb_elem.
    setoid_rewrite andb_true_iff. setoid_rewrite bool_decide_eq_true. setoid_rewrite String.eqb_eq. setoid_rewrite elem_of_cons. naive_solver.
Qed.

(** *** Approvals *)

Lemma oget_approve_all q rows n : oget n (approve_all q (authorized rows)) =
  if q_all q then r ← oget n (authorized rows); if within (q_rank q) r then Some "all" else None else None.
Proof.
  unfold approve_all. destruct (q_all q); [|done]. rewrite <- (oget_sorted_items n (authorized rows)) by apply NoDup_authorized.
  pose proof (NoDup_sorted_items _ (NoDup_authorized rows)) as Hn.
  assert (forall acc, (forall m, m ∈ okeys (sorted_items (authorized rows)) -> oget m acc = None) ->
    oget n (fold_left (fun a nr => if within (q_rank q) nr.2 then osetdefault nr.1 "all" a else a) (sorted_items (authorized rows)) acc) =
    match oget n (sorted_items (authorized rows)) with Some r => if within (q_rank q) r then Some "all" else oget n acc | None => oget n acc end) as H.
  - induction (sorted_items (authorized rows)) as [|[m r] l IH]; intros acc Hacc; [done|]. apply NoDup_cons in Hn as [Hm Hn]. simpl.
    rewrite IH; [|done|].
    + destruct (decide (n = m)) as [->|Hne].
      * assert (oget m l = None) as -> by (by apply oget_None). destruct (within (q_rank q) r); [|done].
        rewrite oget_osetdefault, Hacc by set_solver. by rewrite decide_True.
      * assert (oget n (if within (q_rank q) r then osetdefault m "all" acc else acc) = oget n acc) as ->; [|done].
        destruct (within (q_rank q) r); [|done]. rewrite oget_osetdefault, decide_False by done. by destruct (oget n acc).
    + intros m' Hm'. destruct (within (q_rank q) r); [|apply Hacc; set_solver]. rewrite oget_osetdefault, Hacc by set_solver.
      rewrite decide_False; [done|]. intros ->. done.
  - rewrite H by done. destruct (oget n (sorted_items (authorized rows))) as [r|]; [|done]. simpl. by destruct (within (q_rank q) r).
Qed.

Lemma oget_filter_pair {V} (f : V -> bool) (d : list (string * V)) k : NoDup (okeys d) ->
  oget k (List.filter (fun kv => f kv.2) d) = v ← oget k d; if f v then Some v else None.
Proof.
  induction d as [|[j v] d IH]; [done|]. intros [Hj Hn]%NoDup_cons. specialize (IH Hn). simpl.
  destruct (decide (k = j)) as [->|Hne]; cbn.
  - destruct (f v) eqn:E; simpl; [by rewrite decide_True|]. rewrite IH. by assert (oget j d = None) as -> by (by apply oget_None).
  - destruct (f v); simpl; [by rewrite decide_False|done].
Qed.
Lemma approve_kind_oget q rows acc kind n :
  oget n (approve_kind q rows acc kind).1 =
  match oget n (authorized rows) with
  | Some r => if String.eqb (kind_of r) kind && within (q_rank q) r then Some ("kind:" +:+ kind) else oget n acc.1
  | None => oget n acc.1
  end.
Proof.
  pose proof (NoDup_sorted_items _ (NoDup_authorized rows)) as Hn.
  pose proof (oget_filter_pair (fun r => String.eqb (kind_of r) kind) _ n Hn) as Hf. rewrite oget_sorted_items in Hf by apply NoDup_authorized.
  pose proof (NoDup_map_filter fst (fun nr => String.eqb (kind_of nr.2) kind) _ Hn) as Hnf.
  unfold approve_kind. destruct (List.filter _ (sorted_items (authorized rows))) as [|nr l] eqn:E.
  - destruct (oget n (authorized rows)) as [r|]; [|done]. simpl in Hf. by destruct (String.eqb (kind_of r) kind).
  - cbn [fst]. rewrite oget_assign by done. rewrite Hf. destruct (oget n (authorized rows)) as [r|]; simpl; [|done].
    by destruct (String.eqb (kind_of r) kind).
Qed.
Lemma approve_kinds_oget q rows kinds acc n :
  oget n (fold_left (approve_kind q rows) kinds acc).1 =
  match oget n (authorized rows) with
  | Some r => if bool_decide (kind_of r ∈ kinds) && within (q_rank q) r then Some ("kind:" +:+ kind_of r) else oget n acc.1
  | None => oget n acc.1
  end.
Proof.
  revert acc. induction kinds as [|k kinds IH]; intros acc; cbn [fold_left]; [by destruct (oget n (authorized rows))|].
  rewrite IH, approve_kind_oget. destruct (oget n (authorized rows)) as [r|]; [|done].
  destruct (String.eqb_spec (kind_of r) k) as [->|Hne]; cbn [andb].
  - rewrite (bool_decide_true (k ∈ k :: kinds)) by set_solver. cbn [andb]. destruct (within (q_rank q) r); [|by rewrite andb_false_r].
    by destruct (bool_decide (k ∈ kinds)).
  - by rewrite (bool_decide_ext (kind_of r ∈ k :: kinds) (kind_of r ∈ kinds)) by set_solver.
Qed.
Lemma approve_tools_oget auth tools acc n :
  oget n (fold_left (approve_tool auth) tools acc).1 =
  match oget n auth with
  | Some _ => if bool_decide (n ∈ tools) then Some "tool" else oget n acc.1
  | None => oget n acc.1
  end.
Proof.
  revert acc. induction tools as [|t tools IH]; intros acc; cbn [fold_left]; [by destruct (oget n auth)|].
  rewrite IH. unfold approve_tool. destruct (decide (n = t)) as [->|Hne].
  - destruct (oget t auth) as [r|] eqn:E; [|done]. cbn [fst]. rewrite oget_oset_eq. rewrite (bool_decide_true (t ∈ t :: tools)) by set_solver.
    by destruct (bool_decide (t ∈ tools)).
  - rewrite (bool_decide_ext (n ∈ t :: tools) (n ∈ tools)) by set_solver.
    destruct (oget t auth); cbn [fst]; rewrite ?oget_oset_ne by congruence; done.
Qed.

Lemma approved_NoDup q rows tools kinds :
  NoDup (okeys (fold_left (approve_tool (authorized rows)) tools (fold_left (approve_kind q rows) kinds (approve_all q (authorized rows), []))).1).
Proof.
  assert (NoDup (okeys (approve_all q (authorized rows)))) as H0.
  { unfold approve_all. destruct (q_all q); [|constructor]. generalize (NoDup_nil_2 (A:=string)). change (@nil string) with (okeys (@nil (string * string))).
    generalize (@nil (string * string)) as acc. induction (sorted_items (authorized rows)) as [|[m r] l IH]; intros acc H; [done|]. simpl. apply IH.
    destruct (within (q_rank q) r); [by apply NoDup_osetdefault|done]. }
  assert (forall acc, NoDup (okeys acc.1) -> NoDup (okeys (fold_left (approve_kind q rows) kinds acc).1)) as H1.
  { induction kinds as [|k kinds IH]; intros acc H; [done|]. cbn [fold_left]. apply IH. unfold approve_kind. destruct (List.filter _ _); [done|].
    cbn [fst]. by apply NoDup_assign. }
  specialize (H1 (approve_all q (authorized rows), []) H0). revert H1. generalize (fold_left (approve_kind q rows) kinds (approve_all q (authorized rows), [])) as acc.
  induction tools as [|t tools IH]; intros acc H; [done|]. cbn [fold_left]. apply IH. unfold approve_tool.
  destruct (oget t (authorized rows)); [cbn [fst]; by apply NoDup_okeys_oset|done].
Qed.

(** A policy approves exactly the authorized tools the request selects by
    name, by kind or all together (these two within the ceiling), less those it
    denies, by name or through any row of a denied kind, or asks about; the
    reason recorded is the most specific. *)
Theorem build_policy_approves q rows set_by now n :
  oget n (p_approve (build_policy q rows set_by now)) =
  if denied q rows n || bool_decide (n ∈ q_ask q) then None
  else r ← oget n (authorized rows); approved_as q r n.
Proof.
  unfold build_policy. pose proof (approved_NoDup q rows (q_tools q) (q_kinds q)) as Hn.
  pose proof (approve_tools_oget (authorized rows) (q_tools q) (fold_left (approve_kind q rows) (q_kinds q) (approve_all q (authorized rows), [])) n) as Ho.
  destruct (fold_left (approve_tool (authorized rows)) _ _) as [approve clamped]. cbn [p_approve fst] in *.
  rewrite oget_sorted_items by (by apply NoDup_oreject). rewrite oget_oreject. unfold overruled. rewrite has_key_denials.
  destruct (denied q rows n || _); [done|]. rewrite Ho, approve_kinds_oget. cbn [fst]. rewrite oget_approve_all. unfold approved_as.
  destruct (oget n (authorized rows)) as [r|]; cbn; [|by destruct (q_all q)].
  destruct (bool_decide (n ∈ q_tools q)); [done|]. destruct (bool_decide (kind_of r ∈ q_kinds q) && within (q_rank q) r); [done|].
  by destruct (q_all q).
Qed.

(** *** What is clamped *)

Lemma members_none rows kind :
  List.filter (fun nr => String.eqb (kind_of nr.2) kind) (sorted_items (authorized rows)) = [] <-> no_member rows kind = true.
Proof.
  unfold no_member. rewrite forallb_forall. split.
  - intros H nr Hin. apply negb_true_iff, not_true_iff_false. intros Hk.
    assert (nr ∈ List.filter (fun nr => String.eqb (kind_of nr.2) kind) (sorted_items (authorized rows))) as Hf.
    { apply elem_of_lfilter. split; [|done]. rewrite sorted_items_perm. by apply list_elem_of_In. }
    rewrite H in Hf. by apply elem_of_nil in Hf.
  - intros H. apply lfilter_none. intros nr Hin. rewrite sorted_items_perm in Hin. apply negb_true_iff, H. by apply list_elem_of_In.
Qed.
Lemma approve_kinds_clamped q rows kinds acc :
  (fold_left (approve_kind q rows) kinds acc).2 = acc.2 ++
    map (fun k => mk_clamp "kinds" k (if bool_decide (k ∈ known_kinds rows) then "not_authorized" else "unknown_kind")) (List.filter (no_member rows) kinds).
Proof.
  revert acc. induction kinds as [|k kinds IH]; intros acc; cbn [fold_left]; [simpl; by rewrite app_nil_r|]. rewrite IH. unfold approve_kind.
  pose proof (members_none rows k) as Hm. simpl. destruct (List.filter _ (sorted_items (authorized rows))) as [|x l].
  - rewrite (proj1 Hm eq_refl). cbn. by rewrite <- app_assoc.
  - destruct (no_member rows k); [|done]. by pose proof (proj2 Hm eq_refl).
Qed.
Lemma approve_tools_clamped auth tools acc :
  (fold_left (approve_tool auth) tools acc).2 = acc.2 ++ map (fun t => mk_clamp "tools" t "not_authorized") (List.filter (fun t => negb (has_key t auth)) tools).
Proof.
  revert acc. induction tools as [|t tools IH]; intros acc; cbn [fold_left]; [simpl; by rewrite app_nil_r|]. rewrite IH. unfold approve_tool, has_key. simpl.
  destruct (oget t auth); cbn; [done|]. by rewrite <- app_assoc.
Qed.

(** Nothing asked for is dropped without a trace: [clamped] lists, in order,
    the kinds without an authorized tool and the named tools that are not
    authorized, and nothing else. *)
Theorem build_policy_clamped q rows set_by now :
  p_clamped (build_policy q rows set_by now) =
  map (fun k => mk_clamp "kinds" k (if bool_decide (k ∈ known_kinds rows) then "not_authorized" else "unknown_kind")) (List.filter (no_member rows) (q_kinds q)) ++
  map (fun t => mk_clamp "tools" t "not_authorized") (List.filter (fun t => negb (has_key t (authorized rows))) (q_tools q)).
Proof.
  unfold build_policy.
  pose proof (approve_tools_clamped (authorized rows) (q_tools q) (fold_left (approve_kind q rows) (q_kinds q) (approve_all q (authorized rows), []))) as H.
  destruct (fold_left (approve_tool (authorized rows)) _ _) as [approve clamped]. cbn [p_clamped snd] in *. rewrite H, approve_kinds_clamped. done.
Qed.

(** ** Merges *)

Definition well_keyed (p : policy) : Prop := NoDup (okeys (p_approve p)) /\ NoDup (okeys (p_deny p)).

Lemma deny_NoDup q rows : NoDup (okeys (denials q rows)).
Proof.
  unfold denials. assert (NoDup (okeys (deny_named q))) as H.
  { unfold deny_named. assert (forall d, NoDup (okeys d) -> NoDup (okeys (fold_left (fun d n => oset n "tool" d) (q_deny_tools q) d))) as H; [|apply H; constructor].
    induction (q_deny_tools q) as [|n l IH]; intros d Hd; [done|]. simpl. by apply IH, NoDup_okeys_oset. }
  revert H. generalize (deny_named q) as acc. induction (q_deny_kinds q) as [|k l IH]; intros acc H; [done|]. cbn [fold_left]. apply IH.
  unfold deny_kind. revert acc H. induction (all_rows rows) as [|[m r] rs IHr]; intros acc H; [done|]. simpl. apply IHr.
  destruct (String.eqb (kind_of r) k); [by apply NoDup_osetdefault|done].
Qed.
Lemma build_well_keyed q rows set_by now : well_keyed (build_policy q rows set_by now).
Proof.
  unfold build_policy. pose proof (approved_NoDup q rows (q_tools q) (q_kinds q)) as Hn.
  destruct (fold_left (approve_tool (authorized rows)) _ _) as [approve clamped]. split; cbn; apply NoDup_sorted_items; [by apply NoDup_oreject|apply deny_NoDup].
Qed.
Lemma merge_well_keyed c new q : (forall p, c = Some p -> well_keyed p) -> well_keyed new -> well_keyed (merge_policies c new q).
Proof.
  intros Hc [Ha Hd]. destruct c as [p|]; [|done]. destruct (Hc p eq_refl) as [Hpa Hpd]. split; cbn; apply NoDup_sorted_items.
  - by apply NoDup_oreject, NoDup_omerge.
  - by apply NoDup_omerge.
Qed.

Lemma merge_approves p new q n : well_keyed p -> well_keyed new ->
  oget n (p_approve (merge_policies (Some p) new q)) =
  if has_key n (p_deny new) || has_key n (p_deny p) || bool_decide (n ∈ p_ask p) || bool_decide (n ∈ p_ask new) then None
  else match oget n (p_approve new) with Some w => Some w | None => oget n (p_approve p) end.
Proof.
  intros [Hpa Hpd] [Hna Hnd]. cbn [merge_policies p_approve]. rewrite oget_sorted_items by (by apply NoDup_oreject, NoDup_omerge).
  rewrite oget_oreject, oget_omerge by done. unfold overruled.
  assert (has_key n (omerge (p_deny p) (p_deny new)) = has_key n (p_deny new) || has_key n (p_deny p)) as ->.
  { unfold has_key. rewrite oget_omerge by done. destruct (oget n (p_deny new)); [done|]. by destruct (oget n (p_deny p)). }
  assert (bool_decide (n ∈ union (p_ask p) (p_ask new)) = bool_decide (n ∈ p_ask p) || bool_decide (n ∈ p_ask new)) as ->.
  { apply eq_true_iff_eq. rewrite orb_true_iff, !bool_decide_eq_true. unfold union. rewrite sorted_set_elem. set_solver. }
  by rewrite !orb_assoc.
Qed.
Lemma merge_denies p new q n : well_keyed p -> well_keyed new ->
  has_key n (p_deny (merge_policies (Some p) new q)) = has_key n (p_deny new) || has_key n (p_deny p).
Proof.
  intros [Hpa Hpd] [Hna Hnd]. cbn [merge_policies p_deny]. unfold has_key. rewrite oget_sorted_items by (by apply NoDup_omerge). rewrite oget_omerge by done.
  destruct (oget n (p_deny new)); [done|]. by destruct (oget n (p_deny p)).
Qed.

(** ** Sequences of writes *)

Inductive write :=
  | Replace (q : selection) (rows : list val) (by_ : author) (now : string)
  | Merge (q : selection) (rows : list val) (by_ : author) (now : string)
  | Reset.
Definition build_of (q : selection) (rows : list val) (by_ : author) (now : string) : policy := build_policy q rows by_ now.
Definition apply_write (current : option policy) (w : write) : option policy :=
  match w with
  | Replace q rows by_ now => Some (build_policy q rows by_ now)
  | Merge q rows by_ now => Some (merge_policies current (build_policy q rows by_ now) (merge_requests (p_request <$> current) q))
  | Reset => None
  end.
Definition apply_writes (ws : list write) : option policy := fold_left apply_write ws None.

(** What a write asks for a tool. *)
Definition grants (w : write) (n : string) : Prop :=
  match w with
  | Replace q rows _ _ | Merge q rows _ _ => exists r, oget n (authorized rows) = Some r /\ approved_as q r n <> None
  | Reset => False
  end.
Definition overrules (w : write) (n : string) : bool :=
  match w with
  | Replace q rows _ _ | Merge q rows _ _ => denied q rows n || bool_decide (n ∈ q_ask q)
  | Reset => true
  end.
Definition is_merge (w : write) : bool := match w with Merge _ _ _ _ => true | _ => false end.

Lemma writes_well_keyed ws p : apply_writes ws = Some p -> well_keyed p.
Proof.
  revert p. induction ws as [|w ws IH] using rev_ind; intros p; [done|]. unfold apply_writes in *. rewrite fold_left_app. simpl.
  destruct w as [q rows a now|q rows a now|]; simpl; [intros [= <-]; apply build_well_keyed| |done].
  intros [= <-]. apply merge_well_keyed; [done|apply build_well_keyed].
Qed.

Lemma build_grants q rows a now n : is_Some (oget n (p_approve (build_policy q rows a now))) ->
  (exists r, oget n (authorized rows) = Some r /\ approved_as q r n <> None) /\ denied q rows n || bool_decide (n ∈ q_ask q) = false.
Proof.
  rewrite build_policy_approves. destruct (denied q rows n || _); [by intros [? ?]|]. intros [w Hw]. split; [|done].
  destruct (oget n (authorized rows)) as [r|]; [|done]. exists r. split; [done|]. simpl in Hw. congruence.
Qed.

(** C29: However a policy was replaced, merged and reset, a tool it approves was
    authorized for the caller, and selected, at some write since the last
    replacement or reset, and no write from then on denied it or asked about it:
    a merge never adds tools that were enabled later. *)
Theorem approved_goes_back_to_a_grant ws p n : apply_writes ws = Some p -> is_Some (oget n (p_approve p)) ->
  exists pre w post, ws = pre ++ w :: post /\ grants w n /\ overrules w n = false /\
    Forall (fun x => is_merge x = true /\ overrules x n = false) post.
Proof.
  revert p. induction ws as [|w ws IH] using rev_ind; intros p; [done|]. unfold apply_writes in *. rewrite fold_left_app. cbn [fold_left].
  destruct w as [q rows a now|q rows a now|]; cbn [apply_write]; [| |done].
  - intros [= <-] [Hg Ho]%build_grants. exists ws, (Replace q rows a now), []. done.
  - destruct (fold_left apply_write ws None) as [c|] eqn:Ec; intros Hp Hn; apply (inj Some) in Hp as <-.
    + pose proof (writes_well_keyed ws c Ec) as Hc. rewrite merge_approves in Hn by (done || apply build_well_keyed).
      destruct (has_key n (p_deny (build_policy q rows a now)) || _ || _ || _) eqn:Eo; [by destruct Hn|]. bool_to_prop.
      assert (overrules (Merge q rows a now) n = false) as Hov.
      { cbn. rewrite <- has_key_denials. unfold build_policy in *. destruct (fold_left (approve_tool (authorized rows)) _ _) as [approve clamped]. cbn in *.
        apply orb_false_iff. split; [|by apply bool_decide_eq_false]. rewrite <- H. unfold has_key. by rewrite oget_sorted_items by apply deny_NoDup. }
      destruct (oget n (p_approve (build_policy q rows a now))) as [why|] eqn:Ea.
      * destruct (build_grants q rows a now n) as [Hg _]; [by rewrite Ea|]. exists ws, (Merge q rows a now), []. done.
      * destruct (IH c eq_refl Hn) as (pre & w & post & -> & Hg & Ho & Hf). exists pre, w, (post ++ [Merge q rows a now]).
        split_and!; [by rewrite <- app_assoc|done|done|]. apply Forall_app. split; [done|]. by constructor.
    + cbn in Hn. apply build_grants in Hn as [Hg Ho]. exists ws, (Merge q rows a now), []. done.
Qed.
