(* ===== verification/ToolPolicyStore.v ===== *)
(** * The tool policy of a conversation: the guarded write

    [routes/session_tool_policy.py], [_write]: the read, merge and write of a
    conversation's policy, guarded by the revision it read, with the writes of
    other devices between the read and the write.

    The store is the runtime's ([SqliteSessionToolPolicyStore]): a class of the
    operations the route calls, and the laws it relies on. *)

From S2P Require Import Prelude PyStr PyVal PyNum OrdDict ToolPolicy ToolPolicyFacts.

(** [get_with_revision] and [put]; [None] is [SessionToolPolicyConflict]. *)
Class PolicyStore (S : Type) := {
  get_with_revision : string -> S -> Z * option policy;
  put : string -> policy -> option Z -> S -> option S;
}.
Class PolicyStoreLaws (S : Type) `{PolicyStore S} := {
  put_stores sid p g (s s' : S) : put sid p g s = Some s' -> snd (get_with_revision sid s') = Some p;
  put_elsewhere sid sid' p g (s s' : S) : put sid p g s = Some s' -> sid' <> sid -> get_with_revision sid' s' = get_with_revision sid' s;
  put_guard sid p g (s s' : S) : put sid p (Some g) s = Some s' -> fst (get_with_revision sid s) = g;
  put_accepts sid p (s : S) : is_Some (put sid p (Some (fst (get_with_revision sid s))) s);
}.

Section Write.
Context {S : Type} `{PolicyStoreLaws S}.

(** What the other writers did between two states: a revision is not used again
    for another policy. *)
Definition moved (sid : string) (s s' : S) : Prop :=
  fst (get_with_revision sid s') = fst (get_with_revision sid s) -> snd (get_with_revision sid s') = snd (get_with_revision sid s).

Inductive outcome := Written (p : policy) | RevisionConflict.

(** The loop of [_write]; [others i] is what the other writers do in its [i]-th
    round between the read and the write. *)
Fixpoint write_rounds (n i : nat) (sid : string) (merge : bool) (q : selection) (built : policy) (if_revision : option Z)
    (others : nat -> S -> S) (s : S) : outcome * S :=
  match n with
  | O => (RevisionConflict, s)
  | Datatypes.S n =>
      let '(revision, current) := get_with_revision sid s in
      let p := if merge then merge_policies current built (merge_requests (p_request <$> current) q) else built in
      let guard := if merge then Some (default revision if_revision) else if_revision in
      let s := others i s in
      match put sid p guard s with
      | Some s' => (Written p, s')
      | None =>
          if negb merge || negb (bool_decide (if_revision = None)) then (RevisionConflict, s)
          else write_rounds n (Datatypes.S i) sid merge q built if_revision others s
      end
  end.
Definition ATTEMPTS : nat := 5.

(** [_sid] *)
Definition session_char (c : ascii) : bool := is_alnum_ascii c || has_char c "_.:-".
Definition clean_sid (session_id : string) : option string :=
  let sid := strip session_id in
  if forall_chars session_char sid && (1 <=? len sid) && (len sid <=? 256) then Some sid else None.

(** [_write]: the answer's status and reason, or the stored policy. [inventory]
    is the rows of the discovery, or its error. *)
Inductive answer := Stored (sid : string) (p : policy) | Refused (status : Z) (reason : string).
Definition write_route (session_id : string) (body : val) (inventory : string + list val) (tenant user now : string) (merge : bool)
    (others : nat -> S -> S) (s : S) : answer * S :=
  match clean_sid session_id with
  | None => (Refused 422 "invalid_request", s)
  | Some sid =>
      match split_client body, normalize_request body with
      | Ok (client, if_revision), Ok q =>
          match inventory with
          | inl _ => (Refused 503 "tool_inventory_unavailable", s)
          | inr rows =>
              let built := build_policy q rows (mk_author tenant user client) now in
              match write_rounds ATTEMPTS 0 sid merge q built if_revision others s with
              | (Written p, s') => (Stored sid p, s')
              | (RevisionConflict, s') => (Refused 409 "revision_conflict", s')
              end
          end
      | _, _ => (Refused 422 "invalid_request", s)
      end
  end.

(** The state the last round wrote to. *)
Lemma rounds_written n i sid q built others s p s' :
  (forall i s, moved sid s (others i s)) ->
  write_rounds n i sid true q built None others s = (Written p, s') ->
  exists s1, let current := snd (get_with_revision sid s1) in
    p = merge_policies current built (merge_requests (p_request <$> current) q) /\
    put sid p (Some (fst (get_with_revision sid s1))) s1 = Some s'.
Proof.
  intros Ho. revert i s. induction n as [|n IH]; intros i s; simpl; [done|].
  destruct (get_with_revision sid s) as [revision current] eqn:E. cbn [default].
  destruct (put sid _ _ (others i s)) as [s2|] eqn:Ep.
  - intros [= <- <-]. exists (others i s). cbn zeta. pose proof (put_guard _ _ _ _ _ Ep) as Hg.
    pose proof (Ho i s) as Hm. unfold moved in Hm. rewrite E in Hm. cbn [fst snd] in Hm. rewrite (Hm Hg). split; [done|]. rewrite Hg. done.
  - apply IH.
Qed.

(** A merge that is answered as stored was made with the policy in force when
    it was written, whatever the other devices wrote meanwhile: a tool somebody
    denied or asked about before that moment is not approved by it, and every
    denial stays; other conversations are untouched. *)
Theorem merge_loses_no_write session_id body inventory tenant user now others s sid p s' :
  (forall i s, moved sid s (others i s)) ->
  split_client body = Ok (None, None) ->
  write_route session_id body inventory tenant user now true others s = (Stored sid p, s') ->
  snd (get_with_revision sid s') = Some p /\
  exists s1, put sid p (Some (fst (get_with_revision sid s1))) s1 = Some s' /\
    (forall sid', sid' <> sid -> get_with_revision sid' s' = get_with_revision sid' s1) /\
    forall c, snd (get_with_revision sid s1) = Some c -> well_keyed c ->
      forall n, (has_key n (p_deny c) = true -> has_key n (p_deny p) = true) /\
        (has_key n (p_deny c) = true \/ n ∈ p_ask c -> oget n (p_approve p) = None).
Proof.
  intros Ho Hc H1. unfold write_route in H1. destruct (clean_sid session_id) as [sid0|]; [|done]. rewrite Hc in H1.
  destruct (normalize_request body) as [q|]; [|done]. destruct inventory as [err|rows]; [done|]. cbv zeta in H1.
  pose proof (build_well_keyed q rows (mk_author tenant user None) now) as Hbk. set (built := build_policy _ _ _ _) in *.
  destruct (write_rounds _ _ _ _ _ _ _ _ _) as [[p0|] s0] eqn:E; [|done]. injection H1 as -> -> ->.
  apply rounds_written in E as (s1 & -> & Hput); [|done]. split; [by eapply put_stores|]. exists s1. split; [done|].
  split; [intros sid' Hne; by eapply put_elsewhere|]. intros c Hcur Hck n. rewrite Hcur. split.
  - intros Hd. rewrite merge_denies by done. by rewrite Hd, orb_true_r.
  - intros Hn. rewrite merge_approves by done. destruct Hn as [->| Hn]; [by rewrite orb_true_r|]. rewrite (bool_decide_true _ Hn). by rewrite orb_true_r.
Qed.

(** Alone, a merge is stored in its first round. *)
Theorem undisturbed_merge_is_stored session_id body rows tenant user now s sid client q :
  clean_sid session_id = Some sid -> split_client body = Ok (client, None) -> normalize_request body = Ok q ->
  exists p s', write_route session_id body (inr rows) tenant user now true (fun _ s => s) s = (Stored sid p, s') /\
    snd (get_with_revision sid s') = Some p.
Proof.
  intros Hs Hc Hq. unfold write_route. rewrite Hs, Hc, Hq. unfold ATTEMPTS. cbn [write_rounds].
  destruct (get_with_revision sid s) as [revision current] eqn:E. cbn [default].
  pose proof (put_accepts sid (merge_policies current (build_policy q rows (mk_author tenant user client) now) (merge_requests (p_request <$> current) q)) s) as [s' Hp].
  rewrite E in Hp. cbn [fst] in Hp. rewrite Hp. eexists _, s'. split; [reflexivity|]. by eapply put_stores.
Qed.
End Write.

(** ** A store in memory

    Policies and revisions by conversation, every write a new revision. *)
Abbreviation shelf := (list (string * (Z * option policy))).
Definition shelf_get (sid : string) (s : shelf) : Z * option policy := default (0, None) (oget sid s).
Definition shelf_put (sid : string) (p : policy) (g : option Z) (s : shelf) : option shelf :=
  match g with
  | Some g => if fst (shelf_get sid s) =? g then Some (oset sid (g + 1, Some p) s) else None
  | None => Some (oset sid (fst (shelf_get sid s) + 1, Some p) s)
  end.
#[global] Instance shelf_store : PolicyStore shelf := { get_with_revision := shelf_get; put := shelf_put }.
#[global] Instance shelf_laws : PolicyStoreLaws shelf.
Proof.
  split; cbn; unfold shelf_put, shelf_get.
  - intros sid p [g|] s s'; [destruct (_ =? g); [|done]|]; intros [= <-]; by rewrite oget_oset_eq.
  - intros sid sid' p [g|] s s'; [destruct (_ =? g); [|done]|]; intros [= <-] Hne; by rewrite oget_oset_ne by congruence.
  - intros sid p g s s'. by destruct (Z.eqb_spec (fst (default (0, None) (oget sid s))) g).
  - intros sid p s. rewrite Z.eqb_refl. eauto.
Qed.

Definition sample_rows : list val :=
  [VDict [("name", VStr "read_file"); ("enabled", VBool true); ("toolset", VStr "files"); ("risk_rank", VInt 1)];
   VDict [("name", VStr "write_file"); ("enabled", VBool true); ("toolset", VStr "files"); ("risk_rank", VInt 2)];
   VDict [("name", VStr "send_email"); ("enabled", VBool false); ("toolset", VStr "mail"); ("risk_rank", VInt 3)]].
Definition approve_files : val :=
  VDict [("approve", VDict [("kinds", VList [VStr "files"]); ("tools", VList [VStr "send_email"])])].
Definition deny_write : selection := mk_selection [] [] false None ["write_file"] [] [].
(** Another device denies a tool between the read and the write of the first
    round. *)
Definition meddling (i : nat) (s : shelf) : shelf :=
  match i with
  | O => oset "chat" (fst (shelf_get "chat" s) + 1, Some (build_policy deny_write sample_rows (mk_author "default" "ann" None) "t0")) s
  | _ => s
  end.
Lemma meddling_moves sid i s : moved sid s (meddling i s).
Proof.
  unfold moved, meddling. destruct i as [|i]; [|done]. cbn. unfold shelf_get. rewrite oget_oset. destruct (decide (sid = "chat")) as [->|]; [|done]. cbn. lia.
Qed.
Abbreviation merged := (write_route "chat" approve_files (inr sample_rows) "default" "ann" "t1" true meddling ([] : shelf)).
Abbreviation merged_policy :=
  (mk_policy [("read_file", "kind:files")] [("write_file", "tool")] []
     (mk_selection ["send_email"] ["files"] false None ["write_file"] [] []) [mk_clamp "tools" "send_email" "not_authorized"]
     (mk_author "default" "ann" None) "t1").
Lemma merge_loses_no_write_witness :
  fst merged = Stored "chat" merged_policy /\ snd (get_with_revision "chat" (snd merged)) = Some merged_policy.
Proof.
  assert (fst merged = Stored "chat" merged_policy) as H by (vm_compute; reflexivity).
  split; [exact H|].
  exact (proj1 (merge_loses_no_write "chat" approve_files (inr sample_rows) "default" "ann" "t1" meddling [] "chat" merged_policy _
    (meddling_moves "chat") eq_refl (eq_trans (surjective_pairing _) (f_equal2 pair H eq_refl)))).
Defined.
Lemma undisturbed_merge_is_stored_witness :
  exists p s', write_route "chat" approve_files (inr sample_rows) "default" "ann" "t1" true (fun _ s => s) ([] : shelf) = (Stored "chat" p, s') /\
    snd (get_with_revision "chat" s') = Some p.
Proof.
  exact (undisturbed_merge_is_stored "chat" approve_files sample_rows "default" "ann" "t1" [] "chat" None
    (mk_selection ["send_email"] ["files"] false None [] [] []) eq_refl eq_refl ltac:(vm_compute; reflexivity)).
Defined.

Abbreviation sample_writes := [Replace (mk_selection [] [] true (Some 2) [] [] []) sample_rows (mk_author "default" "ann" None) "t1";
  Merge deny_write [] (mk_author "default" "ann" None) "t2"].
Lemma approved_goes_back_to_a_grant_witness :
  (exists p, apply_writes sample_writes = Some p /\ p_approve p = [("read_file", "all")]) /\
  exists pre w post, sample_writes = pre ++ w :: post /\ grants w "read_file" /\ overrules w "read_file" = false /\
    Forall (fun x => is_merge x = true /\ overrules x "read_file" = false) post.
Proof.
  split; [eexists; split; vm_compute; reflexivity|].
  refine (approved_goes_back_to_a_grant sample_writes _ "read_file" eq_refl _). vm_compute. by eexists.
Defined.
