(* ===== verification/WorkspacePaths.v ===== *)
(** * Workspace paths and rows

    [workspace_policy.py]: real paths, the row that decides a path ([_rule],
    [rows_refuse]), and the file routes' use of them ([routes/gateway.py]).

    A [Path] is the tuple of its [parts]. The file system is the class
    [FileSystem]; that a real path is its own real path is its law
    [RealPaths]. *)

From S2P Require Import Prelude PyStr PyVal.

(** ** Paths ([pathlib], POSIX) *)

Abbreviation path := (list string).

Definition path_root (s : string) : path :=
  if startswith "//" s && negb (startswith "///" s) then ["//"]
  else if startswith "/" s then ["/"] else [].

(** [Path(s).parts]. *)
Definition Path (s : string) : path :=
  path_root s ++ List.filter (fun c => negb (String.eqb c "" || String.eqb c ".")) (split_char "/"%char s).

Definition is_root (c : string) : bool := String.eqb c "/" || String.eqb c "//".
Definition is_absolute (p : path) : bool := match p with c :: _ => is_root c | [] => false end.

(** [str(p)]. *)
Definition str_path (p : path) : string :=
  match p with
  | [] => "."
  | c :: l => if is_root c then c +:+ join "/" l else join "/" p
  end.

(** [p / s]. *)
Definition path_join (p : path) (s : string) : path :=
  if is_absolute (Path s) then Path s else p ++ Path s.

(** [child.relative_to(parent).parts], [None] for its [ValueError]. *)
Fixpoint relative_to (child parent : path) {struct parent} : option path :=
  match parent, child with
  | [], _ => Some child
  | a :: parent, b :: child => if String.eqb a b then relative_to child parent else None
  | _ :: _, [] => None
  end.

(** ** The file system of the gateway's computer

    [realpath] and [resolve] answer [None] where Python raises. *)
Class FileSystem := {
  expanduser : path -> path;
  realpath : path -> option path;
  resolve : path -> option path;
  exists_ : path -> bool;
  is_dir : path -> bool;
}.

(** [_real]. *)
Definition real `{FileSystem} (p : path) : path := default (expanduser p) (realpath (expanduser p)).

(** The parts of an absolute path with nothing to clean up. *)
Definition clean_part (c : string) : bool :=
  negb (String.eqb c "" || String.eqb c ".") && negb (has_char "/" c).
Definition clean (p : path) : bool :=
  match p with c :: l => String.eqb c "/" && forallb clean_part l | [] => false end.

(** [os.path.realpath]: a real path is absolute and clean, and names no further link. *)
Class RealPaths `{FileSystem} := {
  real_idem : forall p, real (real p) = real p;
  real_clean : forall p, clean (real p) = true;
}.

Section Paths.
Context `{FS : FileSystem}.

(** [_under], [_under_any]. *)
Definition under (child parent : path) : bool :=
  match relative_to (real child) (real parent) with Some _ => true | None => false end.
Fixpoint under_any (child : path) (parents : list path) : option path :=
  match parents with
  | [] => None
  | parent :: parents => if under child parent then Some parent else under_any child parents
  end.

(** [len(p.parts)]. *)
Definition depth (p : path) : Z := Z.of_nat (length p).
End Paths.

(** ** Modes and rows *)

Inductive mode := deny | ro | rw.
#[global] Instance mode_eq_dec : EqDecision mode.
Proof. solve_decision. Defined.

(** [_RANK], [_min]. *)
Definition RANK (m : mode) : Z := match m with deny => 0 | ro => 1 | rw => 2 end.
Definition min_mode (a b : mode) : mode := if RANK a <=? RANK b then a else b.

Definition mode_str (m : mode) : string := match m with deny => "deny" | ro => "ro" | rw => "rw" end.
Definition mode_of (v : val) : option mode :=
  match v with
  | VStr s =>
      if String.eqb s "ro" then Some ro else if String.eqb s "rw" then Some rw
      else if String.eqb s "deny" then Some deny else None
  | _ => None
  end.

(** A listed workspace [{path, mode}]. *)
Record row := mk_row { r_path : string; r_mode : mode }.
#[global] Instance row_eq_dec : EqDecision row.
Proof. solve_decision. Defined.

Section Rows.
Context `{FS : FileSystem}.

(** [_rule]: the loop keeps the best row and its length. *)
Definition rule_step (p : path) (best : option row * Z) (r : row) : option row * Z :=
  if under p (Path (r_path r)) then
    let n := depth (real (Path (r_path r))) in
    if snd best <? n then (Some r, n) else best
  else best.
Definition rule (rows : list row) (p : path) : option mode :=
  option_map r_mode (fst (fold_left (rule_step p) rows (None, -1))).

(** [rows_refuse]: the loop keeps the best length and whether it is refused. *)
Definition refuse_step (rp : path) (is_refused : bool) (best : Z * bool) (w : path) : Z * bool :=
  let r := real w in
  if bool_decide (rp = r) || under rp r then
    let n := depth r in
    if (fst best <? n) || ((n =? fst best) && is_refused) then (n, is_refused) else best
  else best.
Definition rows_refuse (p : path) (refused reachable : list path) : bool :=
  let rp := real p in
  let best := fold_left (refuse_step rp true) refused (-1, false) in
  snd (fold_left (refuse_step rp false) reachable best).
End Rows.

(** ** What decides a path

    A generic scan keeps the first element of greatest key. *)
Section Best.
Context {A : Type} (key : A -> option Z).
Context (key_nonneg : forall x n, key x = Some n -> 0 <= n).

Definition best_step (b : option A * Z) (x : A) : option A * Z :=
  match key x with
  | Some n => if snd b <? n then (Some x, n) else b
  | None => b
  end.
Definition best (l : list A) : option A * Z := fold_left best_step l (None, -1).

(** [x] is the first of the elements of greatest key. *)
Definition first_best (l : list A) (x : A) : Prop :=
  exists n l1 l2, l = l1 ++ x :: l2 /\ key x = Some n /\
    (forall y m, y ∈ l1 -> key y = Some m -> m < n) /\
    (forall y m, y ∈ l2 -> key y = Some m -> m <= n).

Lemma best_inv l :
  match best l with
  | (None, n) => n = -1 /\ forall x, x ∈ l -> key x = None
  | (Some x, n) => key x = Some n /\ first_best l x
  end.
Proof using key_nonneg.
  unfold best. induction l as [|x l IH] using rev_ind; [split; [done|intros y Hy; by apply elem_of_nil in Hy]|].
  rewrite fold_left_app. simpl. destruct (fold_left best_step l (None, -1)) as [[b|] n].
  - destruct IH as [Hb (n' & l1 & l2 & -> & Hb' & H1 & H2)].
      unfold best_step. simpl. destruct (key x) as [m|] eqn:Ex; [destruct (Z.ltb_spec n m)|]; simpl.
      * split; [done|]. exists m, (l1 ++ b :: l2), []. split; [done|]. split; [done|].
        split; [|intros y ? Hy; by apply elem_of_nil in Hy].
        intros y k Hy Hk. rewrite elem_of_app, elem_of_cons in Hy. destruct Hy as [Hy|[->|Hy]].
        -- specialize (H1 y k Hy Hk). simplify_eq. lia.
        -- simplify_eq. lia.
        -- specialize (H2 y k Hy Hk). simplify_eq. lia.
      * split; [done|]. exists n', l1, (l2 ++ [x]). split; [by rewrite <-app_assoc|]. split; [done|]. split; [done|].
        intros y k Hy Hk. rewrite elem_of_app, list_elem_of_singleton in Hy. destruct Hy as [Hy| ->]; [eauto|]. simplify_eq. lia.
      * split; [done|]. exists n', l1, (l2 ++ [x]). split; [by rewrite <-app_assoc|]. split; [done|]. split; [done|].
        intros y k Hy Hk. rewrite elem_of_app, list_elem_of_singleton in Hy. destruct Hy as [Hy| ->]; [eauto|]. simplify_eq.
  - destruct IH as [-> Hn]. unfold best_step. simpl. destruct (key x) as [m|] eqn:Ex.
      * pose proof (key_nonneg x m Ex). rewrite (proj2 (Z.ltb_lt (-1) m)) by lia. split; [done|].
        exists m, l, []. split; [done|]. split; [done|]. split; [|intros y ? Hy; by apply elem_of_nil in Hy].
        intros y k Hy Hk. by rewrite Hn in Hk.
      * split; [done|]. intros y Hy. rewrite elem_of_app, list_elem_of_singleton in Hy. destruct Hy as [Hy| ->]; auto.
Qed.
End Best.

Lemma best_ext {A} (key key' : A -> option Z) l :
  (forall x, x ∈ l -> key x = key' x) -> best key l = best key' l.
Proof.
  unfold best. generalize (@None A, -1). induction l as [|x l IH]; intros b Hk; simpl; [done|].
  rewrite <-IH by set_solver. unfold best_step. by rewrite Hk by set_solver.
Qed.

(** ** Printing and parsing *)

Lemma split_char_no c s : has_char c s = false -> split_char c s = [s].
Proof.
  unfold has_char. induction s as [|d s IH]; simpl; [done|]. intros [-> Hs]%orb_false_iff. by rewrite IH.
Qed.
Lemma split_char_app c s t : has_char c s = false -> split_char c (s +:+ c ::s t) = s :: split_char c t.
Proof.
  unfold has_char. induction s as [|d s IH]; simpl.
  - by rewrite Ascii.eqb_refl.
  - intros [Hd Hs]%orb_false_iff. rewrite ?scons_app. simpl. rewrite Hd. by rewrite IH.
Qed.
Lemma split_char_join l :
  forallb clean_part l = true -> l <> [] -> split_char "/" (join "/" l) = l.
Proof.
  induction l as [|x l IH]; [done|]. simpl forallb. intros [Hx Hl]%andb_true_iff _.
  assert (has_char "/" x = false) as Hn by (unfold clean_part in Hx; bool_to_prop; done).
  destruct l as [|y l]; [by apply split_char_no|]. change (join "/" (x :: y :: l)) with (x +:+ "/"%char ::s join "/" (y :: l)).
  rewrite split_char_app by done. by rewrite IH.
Qed.
Lemma clean_filter l :
  forallb clean_part l = true -> List.filter (fun c => negb (String.eqb c "" || String.eqb c ".")) l = l.
Proof.
  intros Hl. apply lfilter_all. intros x Hx. rewrite forallb_forall in Hl. apply list_elem_of_In in Hx.
  specialize (Hl x Hx). unfold clean_part in Hl. by apply andb_true_iff in Hl as [-> _].
Qed.

(** A clean path is read back from its text. *)
Lemma Path_str_path p : clean p = true -> Path (str_path p) = p.
Proof.
  destruct p as [|c l]; [done|]. simpl. intros [Hc Hl]%andb_true_iff. apply String.eqb_eq in Hc as ->. simpl.
  unfold Path. change ("/" +:+ join "/" l) with ("/"%char ::s join "/" l).
  assert (path_root ("/"%char ::s join "/" l) = ["/"]) as ->.
  { destruct l as [|x l]; [done|]. simpl in Hl. apply andb_true_iff in Hl as [Hx _].
    unfold path_root. destruct x as [|d x]; [done|]. unfold clean_part in Hx.
    apply andb_true_iff in Hx as [_ Hx%negb_true_iff]. unfold has_char in Hx. simpl in Hx.
    apply orb_false_iff in Hx as [Hd _].
    destruct (Ascii.ascii_dec "/" d) as [<-|Hne]; [by rewrite Ascii.eqb_refl in Hd|].
    assert (exists t, join "/" ((d ::s x) :: l) = d ::s t) as [t ->] by (destruct l as [|y l]; [by exists x|by exists (x +:+ "/" +:+ join "/" (y :: l))]).
    unfold startswith. cbn [String.prefix]. clear Hd. repeat (case_match; simplify_eq/=; try congruence). }
  change (split_char "/" ("/"%char ::s join "/" l)) with ("" :: split_char "/" (join "/" l)).
  simpl. f_equal. destruct l as [|x l]; [done|]. rewrite split_char_join by done. by apply clean_filter.
Qed.

Section PathFacts.
Context `{FS : FileSystem}.

Lemma relative_to_prefix child parent : is_Some (relative_to child parent) <-> parent `prefix_of` child.
Proof.
  revert child. induction parent as [|a parent IH]; intros child; simpl.
  - split; intros _; [apply prefix_nil|eauto].
  - destruct child as [|b child].
    + split; [by intros [? ?]|]. by intros ?%prefix_nil_not.
    + destruct (String.eqb_spec a b) as [->|Hne].
      * rewrite IH. split; [apply prefix_cons|apply prefix_cons_inv_2].
      * split; [by intros [? ?]|]. intros ?%prefix_cons_inv_1. done.
Qed.

Lemma under_spec child parent : under child parent = true <-> real parent `prefix_of` real child.
Proof.
  unfold under. rewrite <-relative_to_prefix. destruct (relative_to _ _); split; eauto; [done|by intros [? ?]].
Qed.
Lemma under_trans a b c : under a b = true -> under b c = true -> under a c = true.
Proof. rewrite !under_spec. intros ??. by etrans. Qed.

Lemma under_any_Some child parents b :
  under_any child parents = Some b -> b ∈ parents /\ under child b = true.
Proof.
  induction parents as [|a l IH]; simpl; [done|]. destruct (under child a) eqn:E.
  - intros [= ->]. split; [set_solver|done].
  - intros H. destruct (IH H). split; [set_solver|done].
Qed.
Lemma under_any_None child parents :
  under_any child parents = None <-> forall b, b ∈ parents -> under child b = false.
Proof.
  induction parents as [|a l IH]; simpl; [split; [set_solver|done]|]. destruct (under child a) eqn:E.
  - split; [done|]. intros H. rewrite (H a) in E by set_solver. done.
  - rewrite IH. set_solver.
Qed.

(** *** The deciding row *)

Definition row_key (p : path) (r : row) : option Z :=
  if under p (Path (r_path r)) then Some (depth (real (Path (r_path r)))) else None.
Lemma row_key_nonneg p r n : row_key p r = Some n -> 0 <= n.
Proof. unfold row_key, depth. case_match; intros; simplify_eq; lia. Qed.

Lemma rule_best rows p : rule rows p = option_map r_mode (fst (best (row_key p) rows)).
Proof.
  unfold rule, best. do 2 f_equal. apply fold_left_eq. intros b r. unfold rule_step, best_step, row_key.
  by destruct (under p (Path (r_path r))).
Qed.

Lemma rule_ext rows p q :
  (forall r, r ∈ rows -> under p (Path (r_path r)) = under q (Path (r_path r))) -> rule rows p = rule rows q.
Proof.
  intros He. rewrite !rule_best. do 2 f_equal. apply best_ext. intros r Hr. unfold row_key. by rewrite He.
Qed.

Lemma rule_Some rows p m :
  rule rows p = Some m -> exists r, r ∈ rows /\ r_mode r = m /\ under p (Path (r_path r)) = true.
Proof.
  rewrite rule_best. pose proof (best_inv (row_key p) (row_key_nonneg p) rows) as Hb.
  destruct (best (row_key p) rows) as [[r|] n]; simpl; [|done]. destruct Hb as [Hk (? & l1 & l2 & -> & _)].
  intros [= <-]. exists r. split; [set_solver|]. split; [done|]. unfold row_key in Hk. by destruct (under p _).
Qed.
Lemma rule_None rows p :
  rule rows p = None <-> forall r, r ∈ rows -> under p (Path (r_path r)) = false.
Proof.
  rewrite rule_best. pose proof (best_inv (row_key p) (row_key_nonneg p) rows) as Hb.
  destruct (best (row_key p) rows) as [[r|] n]; simpl.
  - destruct Hb as [Hk (? & l1 & l2 & -> & _)]. split; [done|]. intros H.
    unfold row_key in Hk. rewrite H in Hk by set_solver. done.
  - destruct Hb as [_ Hb]. split; [|done]. intros _ r Hr. specialize (Hb r Hr). unfold row_key in Hb.
    by destruct (under p _).
Qed.

(** *** The flattened rows *)

(** The depth of the deepest of [ws] that contains [p]; -1 for none. *)
Fixpoint max_depth (p : path) (ws : list path) : Z :=
  match ws with
  | [] => -1
  | w :: ws => if under p w then Z.max (depth (real w)) (max_depth p ws) else max_depth p ws
  end.

Lemma max_depth_ge p ws : -1 <= max_depth p ws.
Proof. induction ws as [|w ws IH]; simpl; [lia|]. case_match; lia. Qed.
Lemma max_depth_elem p ws w : w ∈ ws -> under p w = true -> depth (real w) <= max_depth p ws.
Proof.
  induction ws as [|v ws IH]; intros Hw Hu; [by apply elem_of_nil in Hw|]. simpl.
  apply elem_of_cons in Hw as [<-|Hw]; [rewrite Hu; lia|]. specialize (IH Hw Hu). case_match; lia.
Qed.
Lemma max_depth_inv p ws :
  0 <= max_depth p ws -> exists w, w ∈ ws /\ under p w = true /\ depth (real w) = max_depth p ws.
Proof.
  induction ws as [|v ws IH]; simpl; [lia|]. destruct (under p v) eqn:E.
  - intros _. destruct (Z.max_spec (depth (real v)) (max_depth p ws)) as [[Hl ->]|[Hl ->]].
    + destruct IH as (w & ? & ? & ?); [unfold depth in *; lia|]. exists w. split; [set_solver|done].
    + exists v. split; [set_solver|done].
  - intros H. destruct (IH H) as (w & ? & ? & ?). exists w. split; [set_solver|done].
Qed.
End PathFacts.

(** Decide every comparison of integers in a goal between booleans. *)
Ltac compare_z :=
  repeat match goal with |- context [?a <=? ?b] => destruct (Z.leb_spec a b) end; simpl; first [done | lia].

Section RealFacts.
Context `{FS : FileSystem} `{RP : !RealPaths}.

Lemma under_real_l child parent : under (real child) parent = under child parent.
Proof using RP. unfold under. by rewrite real_idem. Qed.
Lemma under_real_r child parent : under child (real parent) = under child parent.
Proof using RP. unfold under. by rewrite real_idem. Qed.
Lemma under_refl p : under p p = true.
Proof. apply under_spec. done. Qed.

Lemma rule_real rows p : rule rows (real p) = rule rows p.
Proof using RP. apply rule_ext. intros. apply under_real_l. Qed.

Lemma refuse_step_eq p flag best w :
  refuse_step (real p) flag best w =
  if under p w then
    if (fst best <? depth (real w)) || ((depth (real w) =? fst best) && flag) then (depth (real w), flag) else best
  else best.
Proof using RP.
  unfold refuse_step. rewrite under_real_l, under_real_r.
  destruct (under p w) eqn:E; [by rewrite orb_true_r|]. rewrite orb_false_r.
  rewrite bool_decide_eq_false_2; [done|]. intros Hr. unfold under in E. rewrite Hr in E.
  destruct (relative_to (real w) (real w)) eqn:E2; [done|].
  assert (is_Some (relative_to (real w) (real w))) as [? ?] by (by apply relative_to_prefix). congruence.
Qed.

Lemma refused_loop p ws n b :
  -1 <= n ->
  fold_left (refuse_step (real p) true) ws (n, b) =
  (Z.max n (max_depth p ws), b || ((0 <=? max_depth p ws) && (n <=? max_depth p ws))).
Proof using RP.
  revert n b. induction ws as [|w ws IH]; intros n b Hn; simpl fold_left.
  - simpl. rewrite orb_false_r. f_equal. lia.
  - rewrite refuse_step_eq. simpl max_depth. destruct (under p w); [|by apply IH]. simpl.
    assert (0 <= depth (real w)) by (unfold depth; lia). pose proof (max_depth_ge p ws).
    destruct (Z.ltb_spec n (depth (real w))), (Z.eqb_spec (depth (real w)) n); simpl;
      rewrite IH by lia; (f_equal; [lia|]); destruct b; compare_z.
Qed.

Lemma reachable_loop p ws n b :
  -1 <= n ->
  fold_left (refuse_step (real p) false) ws (n, b) =
  (Z.max n (max_depth p ws), b && (max_depth p ws <=? n)).
Proof using RP.
  revert n b. induction ws as [|w ws IH]; intros n b Hn; simpl fold_left.
  - simpl. rewrite (proj2 (Z.leb_le (-1) n)), andb_true_r by lia. f_equal. lia.
  - rewrite refuse_step_eq. simpl max_depth. destruct (under p w); [|by apply IH]. simpl.
    assert (0 <= depth (real w)) by (unfold depth; lia). rewrite andb_false_r, orb_false_r.
    destruct (Z.ltb_spec n (depth (real w))); simpl; rewrite IH by lia; (f_equal; [lia|]); destruct b; compare_z.
Qed.

(** The two loops compare the deepest refused row with the deepest reachable one. *)
Lemma rows_refuse_depth p refused reachable :
  rows_refuse p refused reachable =
  (0 <=? max_depth p refused) && (max_depth p reachable <=? max_depth p refused).
Proof using RP.
  unfold rows_refuse. rewrite refused_loop by lia. pose proof (max_depth_ge p refused).
  rewrite reachable_loop by lia. simpl. rewrite (proj2 (Z.leb_le (-1) _)), andb_true_r by lia.
  f_equal. f_equal. lia.
Qed.

(** A row as deep as any that contains [p] is contained in the same rows as [p]. *)
Lemma deepest_same_rows p w v :
  under p w = true -> (under p v = true -> depth (real v) <= depth (real w)) -> under p v = under w v.
Proof.
  intros Hw Hd. destruct (under p v) eqn:Ev; symmetry.
  - specialize (Hd eq_refl). apply under_spec in Hw, Ev. apply under_spec.
    destruct (prefix_weak_total _ _ _ Ev Hw) as [|Hp]; [done|].
    pose proof (prefix_length _ _ Hp). unfold depth in Hd.
    rewrite (prefix_length_eq _ _ Hp) by lia. done.
  - destruct (under w v) eqn:E; [|done]. by rewrite (under_trans _ _ _ Hw E) in Ev.
Qed.
End RealFacts.

(** ** A file system without links, for concrete examples

    Every directory is where its text says; a path that is not clean is the root. *)
Definition plain_fs (dirs : list path) : FileSystem := {|
  expanduser := fun p => p;
  realpath := fun p => Some (if clean p then p else ["/"]);
  resolve := fun p => Some (if clean p then p else ["/"]);
  exists_ := fun p => bool_decide (p ∈ dirs);
  is_dir := fun p => bool_decide (p ∈ dirs);
|}.
Lemma plain_real dirs : @RealPaths (plain_fs dirs).
Proof.
  split; intros p; unfold real; simpl; destruct (clean p) eqn:E; simpl; try done. by rewrite E.
Qed.
