(* ===== verification/WorkspacePolicy.v ===== *)
(** * The workspace policy: stored shapes, caps and the effective scope

    [workspace_policy.py]: which workspaces an account's agents may use. The
    gateway's list gives the cap of a path ([Caps]); an account, a session or a
    run chooses a layer within it ([_Resolver]); the result is flattened into
    rows for enforcement ([EffectiveScope]). The file system and the accounts
    file are arguments. *)

From S2P Require Import Prelude PyStr PyVal OrdDict Principal WorkspacePaths.

(** ** Stored shapes *)

Inductive posture := allowed_only | any_except_denied.
#[global] Instance posture_eq_dec : EqDecision posture.
Proof. solve_decision. Defined.

Definition posture_str (p : posture) : string :=
  match p with allowed_only => "allowed_only" | any_except_denied => "any_except_denied" end.
Definition POSTURE_LABELS (p : posture) : string :=
  match p with
  | allowed_only => "Deny everything, allow listed workspaces"
  | any_except_denied => "Allow everything, refuse listed workspaces"
  end.
Definition posture_of (v : val) : option posture :=
  match v with
  | VStr s =>
      if String.eqb s "allowed_only" then Some allowed_only
      else if String.eqb s "any_except_denied" then Some any_except_denied else None
  | _ => None
  end.
(** ["ro" if raw == "ro" else "rw"] *)
Definition stored_default (v : val) : mode := if bool_decide (v = VStr "ro") then ro else rw.

(** [{posture, default_mode, folders}] of an account, a session or a run. *)
Record layer := mk_layer { l_posture : posture; l_default : mode; l_folders : list row }.
#[global] Instance layer_eq_dec : EqDecision layer.
Proof. solve_decision. Defined.

(** [for item in raw or []]. *)
Definition py_iter (v : val) : res (list val) :=
  if truthy v then
    match v with
    | VList l => Ok l
    | VDict d => Ok (map (fun kv => VStr (fst kv)) d)
    | VStr s => Ok (map (fun c => VStr (c ::s "")) (String.list_ascii_of_string s))
    | _ => Raise (TypeError "object is not iterable")
    end
  else Ok [].

(** [_rows]. *)
Definition stored_row (item : val) : option row :=
  match item with
  | VDict d =>
      match nonblank (get_ "path" d), mode_of (get_ "mode" d) with
      | Some p, Some m => Some (mk_row p m)
      | _, _ => None
      end
  | _ => None
  end.
Definition rows (raw : val) : res (list row) :=
  items <== py_iter raw; Ok (omap stored_row items).

(** [stored_layer]. *)
Definition stored_layer (raw : val) : res (option layer) :=
  match raw with
  | VDict d =>
      match posture_of (get_ "posture" d) with
      | Some p =>
          folders <== rows (get_ "folders" d);
          Ok (Some (mk_layer p (stored_default (get_ "default_mode" d)) folders))
      | None => Ok None
      end
  | _ => Ok None
  end.

Definition POLICY_KEY : string := "workspace_policy".
Definition ACCOUNTS_KEY : string := "account_workspace_policies".

(** [_stored_gateway]. *)
Definition stored_gateway (stored : dict) : res layer :=
  let raw := dict_or_empty (get_ POLICY_KEY stored) in
  folders <== rows (get_ "folders" raw);
  Ok (mk_layer (default any_except_denied (posture_of (get_ "posture" raw)))
               (stored_default (get_ "default_mode" raw)) folders).

(** [_stored_accounts]. *)
Definition stored_accounts (stored : dict) : res (list (string * layer)) :=
  match get_ ACCOUNTS_KEY stored with
  | VDict raw =>
      rfold (fun out kv => l <== stored_layer (snd kv);
                           Ok match l with Some l => oset (fst kv) l out | None => out end) [] raw
  | _ => Ok []
  end.

(** [account_key]: the text of the account, ["tenant:user"]. *)
Definition account_key (tenant_id user_id : val) : res string :=
  let tenant := strip (str_or tenant_id "default") in
  let tenant := if String.eqb tenant "" then "default" else tenant in
  let user := strip (str_or user_id "") in
  if String.eqb user "" then Raise (WorkspacePolicyError "An account is required." None)
  else Ok (tenant +:+ ":" +:+ user).

(** ** The gateway's policy *)

Record gateway := mk_gateway {
  g_posture : posture;
  g_default : mode;
  g_folders : list row;
  builtin_refused : list string;
  g_summary : string;
}.

(** [" · ".join(parts)] *)
Definition dot_sep : string := " " +:+ ascii_of_nat 183 ::s " ".

(** [_summary_line]. *)
Definition summary_line (p : posture) (dflt : mode) (folders : list row) : string :=
  join dot_sep
    ((POSTURE_LABELS p +:+ match p with any_except_denied => " (" +:+ mode_str dflt +:+ ")" | _ => "" end)
     :: map (fun f => r_path f +:+ " (" +:+ match r_mode f with deny => "refused" | m => mode_str m end +:+ ")") folders).

(** [BUILTIN_DENY_HOME_RELPATHS] ([workspace_browse.py]). *)
Definition BUILTIN_DENY_HOME_RELPATHS : list string :=
  [".ssh"; ".aws"; ".gnupg"; ".config/gcloud"; ".kube"; "Library/Keychains"; ".abstractgateway";
   ".abstractcode"; ".abstractassistant"; ".abstractcontinuum"; ".abstractcore"].

Section Policy.
Context `{FS : FileSystem}.

(** [builtin_deny_paths]: the account's credential folders, then the data folder. *)
Definition builtin_deny_paths (data_root home : path) : list path :=
  map (fun rel => real (path_join home rel)) BUILTIN_DENY_HOME_RELPATHS ++ [real data_root].

(** [resolve_workspace_builtin_deny_enabled] ([runtime_config.py]). *)
Definition builtin_deny_enabled (stored : dict) : bool :=
  match get_ "workspace_builtin_deny" stored with VBool b => b | _ => true end.

(** [gateway_policy]. *)
Definition gateway_policy (stored : dict) (data_dir home : path) : res gateway :=
  g <== stored_gateway stored;
  Ok (mk_gateway (l_posture g) (l_default g) (l_folders g)
        (if builtin_deny_enabled stored then map str_path (builtin_deny_paths data_dir home) else [])
        (summary_line (l_posture g) (l_default g) (l_folders g))).

(** ** Planes and conversation folders *)

(** [account_plane]. [registry user tenant] is the accounts file: the runtime id
    of the account, or the exception reading it ended with. *)
Definition account_plane (registry : string -> string -> res (option string))
    (data_dir : path) (tenant_id user_id : string) : path * list path :=
  let base := real data_dir in
  let tenant := if String.eqb tenant_id "" then "default" else tenant_id in
  let user := if String.eqb user_id "" then "admin" else user_id in
  if String.eqb tenant "default" && String.eqb user "admin" then (base, [path_join base "users"])
  else
    let '(tenant, runtime_id) :=
      match registry user tenant with
      | Raise _ => (tenant, user)
      | Ok rec =>
          let runtime_id := match rec with Some r => if String.eqb (strip r) "" then user else r | None => user end in
          (safe_principal_component (VStr tenant) (Some "default"),
           safe_principal_component (VStr runtime_id) (Some user))
      end in
    (path_join (path_join (path_join base "users") tenant) runtime_id, []).

(** [in_own_plane]. *)
Definition in_own_plane registry (p data_dir : path) (tenant_id user_id : string) : bool :=
  let '(plane, others) := account_plane registry data_dir tenant_id user_id in
  under p plane && negb (bool_decide (is_Some (under_any p others))).

(** [conversation_folder]. *)
Definition conversation_folder (p data_dir : path) : bool :=
  match relative_to (real p) (real data_dir) with
  | None => false
  | Some parts =>
      if (2 <=? depth parts) && bool_decide (parts !! 0%nat = Some "workspaces") then true
      else (6 <=? depth parts) && bool_decide (parts !! 0%nat = Some "users") &&
           bool_decide (parts !! 3%nat = Some "runtime") && bool_decide (parts !! 4%nat = Some "workspaces")
  end.

(** [builtin_hit]. *)
Definition builtin_hit (p : path) (builtins : list path) (data_dir : path) : option path :=
  match under_any p builtins with
  | None => None
  | Some hit => if conversation_folder p data_dir then None else Some (real hit)
  end.

(** ** The cap of a path ([class Caps]) *)

Record Caps := mk_caps {
  c_g : gateway;
  c_data_dir : path;
  c_any : bool;
  c_builtin : list path;
  c_rows : list row;
}.

(** [Caps.__init__] with [_row_usable]. *)
Definition row_usable registry (data_dir : path) (tenant user : string) (r : row) : bool :=
  negb (under (Path (r_path r)) data_dir && negb (in_own_plane registry (Path (r_path r)) data_dir tenant user)).
Definition make_caps registry (g : gateway) (data_dir : path) (tenant user : string) : Caps :=
  mk_caps g data_dir (bool_decide (g_posture g = any_except_denied))
    (map (fun p => real (Path p)) (builtin_refused g))
    (List.filter (row_usable registry data_dir tenant user) (g_folders g)).

(** [Caps.cap]. *)
Definition cap (c : Caps) (p : path) : mode :=
  let rp := real p in
  match under_any rp (c_builtin c) with
  | Some hit =>
      match builtin_hit rp (c_builtin c) (c_data_dir c) with
      | Some _ => deny
      | None =>
          let inside := List.filter (fun r => negb (bool_decide (r_mode r = deny)) && under rp (Path (r_path r))
                                             && under (Path (r_path r)) hit) (c_rows c) in
          match inside with
          | [] => deny
          | _ => default deny (rule (c_rows c) rp)
          end
      end
  | None =>
      match rule (c_rows c) rp with
      | Some m => m
      | None => if c_any c then g_default (c_g c) else deny
      end
  end.

(** [_layer_mode]. *)
Definition layer_mode (l : layer) (p : path) : mode :=
  match rule (l_folders l) p with
  | Some m => m
  | None => match l_posture l with any_except_denied => l_default l | allowed_only => deny end
  end.

(** [_Resolver.mode]. *)
Record Resolver := mk_resolver { res_caps : Caps; res_layer : option layer }.
Definition resolver_mode (rs : Resolver) (p : path) : mode :=
  let rp := real p in
  let c := cap (res_caps rs) rp in
  match res_layer rs with
  | None => c
  | Some l => min_mode c (layer_mode l rp)
  end.

(** ** The effective rows *)

(** A row of the effective payload: [{path, mode, cap, source}]. *)
Record eff_row := mk_eff { e_path : string; e_mode : mode; e_cap : mode; e_source : string }.

Definition eff_of (rs : Resolver) (source : string) (r : row) : eff_row :=
  let p := Path (r_path r) in
  mk_eff (r_path r) (resolver_mode rs p) (cap (res_caps rs) p) source.

(** A gateway row the layer's posture implies. *)
Definition omitted (rs : Resolver) (l : option layer) (reachable : list path) (r : row) : bool :=
  match l with
  | None => false
  | Some l => negb (bool_decide (l_posture l = any_except_denied)) &&
              bool_decide (resolver_mode rs (Path (r_path r)) = deny) &&
              negb (bool_decide (is_Some (under_any (Path (r_path r)) reachable)))
  end.

(** [_folders]: the layer's rows, then the gateway's that are not listed yet. *)
Definition folder_step (rs : Resolver) (l : option layer) (reachable : list path)
    (st : list eff_row * list string) (r : row) : list eff_row * list string :=
  let '(out, seen) := st in
  if bool_decide (r_path r ∈ seen) then st
  else if omitted rs l reachable r then st
  else (out ++ [eff_of rs "gateway" r], seen ++ [r_path r]).
Definition folders_ (c : Caps) (rs : Resolver) (l : option layer) (source : string) : list eff_row :=
  let out := match l with Some l => map (eff_of rs source) (l_folders l) | None => [] end in
  let seen := match l with Some l => map r_path (l_folders l) | None => [] end in
  let reachable := map (fun f => Path (e_path f)) (List.filter (fun f => negb (bool_decide (e_mode f = deny))) out) in
  fst (fold_left (folder_step rs l reachable) (c_rows c) (out, seen)).

(** [_effective_dict]. *)
Record effective := mk_effective {
  eff_account : string;
  eff_session_id : option string;
  eff_level : string;
  eff_posture : posture;
  eff_default : mode;
  eff_folders : list eff_row;
  eff_summary : string;
  eff_gateway_summary : string;
}.
Definition effective_dict (g : gateway) (c : Caps) (l : option layer) (level account : string)
    (session_id : option string) : effective * Resolver :=
  let rs := mk_resolver c l in
  let folders := folders_ c rs l level in
  let '(p, d) :=
    match l with
    | None => (g_posture g, g_default g)
    | Some l =>
        (l_posture l,
         if bool_decide (l_posture l = any_except_denied) && bool_decide (g_posture g = any_except_denied)
         then min_mode (l_default l) (g_default g) else l_default l)
    end in
  (mk_effective account session_id level p d folders
     (summary_line p d (map (fun f => mk_row (e_path f) (e_mode f)) folders)) (g_summary g), rs).

(** ** The enforcement scope ([class EffectiveScope], [_scope_from]) *)

Record EffectiveScope := mk_scope {
  s_posture : posture;
  s_default_mode : option mode;
  s_reach : list path;
  s_read_only : list path;
  s_writable : list path;
  s_deny : list path;
  s_builtin : list path;
  s_plane_allow : list path;
  s_resolver : Resolver;
  s_level : string;
  s_layer : option layer;
  s_summary : string;
}.

Definition rows_with (f : mode -> bool) (folders : list eff_row) : list path :=
  map (fun e => real (Path (e_path e))) (List.filter (fun e => f (e_mode e)) folders).
Definition reaches (m : mode) : bool := negb (bool_decide (m = deny)).

Definition scope_from (eff : effective) (g : gateway) (rs : Resolver) (l : option layer) (data_dir : path) : EffectiveScope :=
  let reach := rows_with reaches (eff_folders eff) in
  let everything := bool_decide (g_posture g = any_except_denied) &&
    match l with None => true | Some l => bool_decide (l_posture l = any_except_denied) end in
  mk_scope (if everything then any_except_denied else allowed_only)
    (if everything then Some (eff_default eff) else None)
    reach
    (rows_with (fun m => bool_decide (m = ro)) (eff_folders eff))
    (rows_with (fun m => bool_decide (m = rw)) (eff_folders eff))
    (rows_with (fun m => bool_decide (m = deny)) (eff_folders eff))
    (map Path (builtin_refused g))
    (List.filter (fun p => under p data_dir) reach)
    rs (eff_level eff) l (eff_summary eff).

(** [EffectiveScope.any_folder], [EffectiveScope.mode]. *)
Definition any_folder (s : EffectiveScope) : bool := bool_decide (s_posture s = any_except_denied).
Definition scope_mode (s : EffectiveScope) (p : path) : mode := resolver_mode (s_resolver s) (real p).

(** [EffectiveScope.refusal]: why the run does not reach a path. *)
Definition refusal (s : EffectiveScope) (p : path) : option string :=
  let rp := real p in
  match under_any rp (s_plane_allow s) with
  | Some _ => None
  | None =>
      match under_any rp (s_builtin s) with
      | Some hit => Some (str_path rp +:+ " is inside " +:+ str_path hit +:+
          ", which is protected (the gateway's data directory or a credential directory).")
      | None =>
          if bool_decide (cap (res_caps (s_resolver s)) rp = deny)
          then Some (str_path rp +:+ " is outside the workspaces the gateway allows (" +:+
                     g_summary (c_g (res_caps (s_resolver s))) +:+ ").")
          else if bool_decide (scope_mode s rp = deny)
          then Some (str_path rp +:+ " is not one of this run's workspaces (" +:+ s_summary s +:+ ").")
          else None
      end
  end.

(** The end of [resolve_effective], for the chosen layer. *)
Definition scope_of (c : Caps) (l : option layer) (level account : string) (session_id : option string)
    : effective * EffectiveScope :=
  let '(eff, rs) := effective_dict (c_g c) c l level account session_id in
  (eff, scope_from eff (c_g c) rs l (c_data_dir c)).

(** ** The file routes' rows ([routes/gateway.py]) *)

(** [_is_under_allowed_roots]. *)
Definition resolve_or_self (p : path) : path := default p (resolve p).
Definition is_under_allowed_roots (p : path) (allowed_roots : list path) : bool :=
  existsb (fun root => bool_decide (is_Some (relative_to (resolve_or_self p) (resolve_or_self root)))) allowed_roots.

(** [_policy_row_rules]: the refused rows, and the reachable rows nested in one. *)
Definition policy_row_rules (s : EffectiveScope) : list path * list path :=
  (s_deny s, List.filter (fun p => existsb (fun d => is_under_allowed_roots p [d]) (s_deny s)) (s_reach s)).

(** [_blocked_workspace_path]: [absolute] are the plain paths of the tuple. *)
Definition blocked_workspace_path (p : path) (absolute refused reachable : list path) : bool :=
  (negb (bool_decide (absolute = [])) && is_under_allowed_roots p absolute) ||
  (negb (bool_decide (refused = []) && bool_decide (reachable = [])) && rows_refuse p refused reachable).
End Policy.
