(* ===== verification/WorkspaceScopeFacts.v ===== *)
(** * What the effective scope decides

    The specification is the resolver ([_Resolver.mode]): the most specific row of
    each list, the gateway's capping the layer's. Enforcement works on flattened
    rows: when they decide as the resolver does, and when they do not. *)

From S2P Require Import Prelude PyStr PyVal WorkspacePaths WorkspacePolicy.

Section Facts.
Context `{FS : FileSystem} `{RP : !RealPaths}.

(** ** The row that decides *)

Lemma rule_deepest rows p m :
  rule rows p = Some m ->
  exists r, r ∈ rows /\ r_mode r = m /\ under p (Path (r_path r)) = true /\
    forall v, v ∈ rows -> under p (Path (r_path v)) = true ->
      depth (real (Path (r_path v))) <= depth (real (Path (r_path r))).
Proof.
  rewrite rule_best. pose proof (best_inv (row_key p) (row_key_nonneg p) rows) as Hb.
  destruct (best (row_key p) rows) as [[r|] n]; simpl; [|done].
  destruct Hb as [Hk (n' & l1 & l2 & -> & Hk' & H1 & H2)]. intros [= <-]. exists r. unfold row_key in Hk, Hk', H1, H2.
  destruct (under p (Path (r_path r))) eqn:E; [|done]. simplify_eq.
  split; [set_solver|]. split; [done|]. split; [done|]. intros v Hv Hu.
  rewrite elem_of_app, elem_of_cons in Hv. destruct Hv as [Hv|[->|Hv]]; [|lia|].
  - enough (depth (real (Path (r_path v))) < depth (real (Path (r_path r)))) by lia.
    apply (H1 v); [done|by rewrite Hu].
  - apply (H2 v); [done|by rewrite Hu].
Qed.

(** A path as deep as every row that contains [p] has the mode of [p]. *)
Lemma rule_same rows p w :
  under p w = true ->
  (forall r, r ∈ rows -> under p (Path (r_path r)) = true -> depth (real (Path (r_path r))) <= depth (real w)) ->
  rule rows p = rule rows w.
Proof using RP. intros Hw Hd. apply rule_ext. intros r Hr. apply deepest_same_rows; auto. Qed.

Definition layer_rows (l : option layer) : list row := match l with Some l => l_folders l | None => [] end.

Lemma cap_outside c p :
  under_any p (c_builtin c) = None ->
  cap c p = match rule (c_rows c) p with Some m => m | None => if c_any c then g_default (c_g c) else deny end.
Proof using RP.
  intros Hb. unfold cap. rewrite rule_real.
  replace (under_any (real p) (c_builtin c)) with (@None path); [done|]. symmetry.
  apply under_any_None. intros b Hin. rewrite under_real_l. by eapply under_any_None.
Qed.

Lemma layer_mode_real l p : layer_mode l (real p) = layer_mode l p.
Proof using RP. unfold layer_mode. by rewrite rule_real. Qed.
Lemma cap_real c p : cap c (real p) = cap c p.
Proof using RP. unfold cap. by rewrite real_idem. Qed.
Lemma resolver_mode_eq rs p :
  resolver_mode rs p =
  match res_layer rs with Some l => min_mode (cap (res_caps rs) p) (layer_mode l p) | None => cap (res_caps rs) p end.
Proof using RP. unfold resolver_mode. destruct (res_layer rs); [|apply cap_real]. by rewrite cap_real, layer_mode_real. Qed.

Lemma outside_up p w bs : under p w = true -> under_any p bs = None -> under_any w bs = None.
Proof.
  intros Hw Hn. apply under_any_None. intros b Hb. destruct (under w b) eqn:E; [|done].
  eapply under_any_None in Hn; [|exact Hb]. by rewrite (under_trans _ _ _ Hw E) in Hn.
Qed.

Lemma mode_same c l p w :
  under_any p (c_builtin c) = None -> under p w = true ->
  (forall r, r ∈ c_rows c ++ layer_rows l -> under p (Path (r_path r)) = true ->
     depth (real (Path (r_path r))) <= depth (real w)) ->
  resolver_mode (mk_resolver c l) p = resolver_mode (mk_resolver c l) w.
Proof using RP.
  intros Hb Hw Hd. rewrite !resolver_mode_eq. simpl.
  rewrite (cap_outside c p), (cap_outside c w) by eauto using outside_up.
  rewrite (rule_same (c_rows c) p w) by (try done; intros; apply Hd; set_solver).
  destruct l as [l|]; [|done]. f_equal. unfold layer_mode.
  by rewrite (rule_same (l_folders l) p w) by (try done; intros; apply Hd; set_solver).
Qed.

(** ** The emitted rows *)

Section Folders.
Context (c : Caps) (l : option layer) (source : string).
Let rs := mk_resolver c l.

Definition emitted (e : eff_row) : Prop := e ∈ folders_ c rs l source.

(** Every emitted row is a row of one of the lists with its effective mode. *)
Lemma folders_sound e :
  emitted e -> exists r, r ∈ c_rows c ++ layer_rows l /\ e_path e = r_path r /\
                         e_mode e = resolver_mode rs (Path (e_path e)).
Proof.
  unfold emitted, folders_. set (out0 := match l with Some l0 => _ | None => [] end).
  set (seen0 := match l with Some l0 => map r_path _ | None => [] end). set (reachable := map _ _).
  assert (Hout : forall e, e ∈ out0 -> exists r, r ∈ c_rows c ++ layer_rows l /\ e_path e = r_path r /\
                         e_mode e = resolver_mode rs (Path (e_path e))).
  { subst out0. destruct l as [l0|]; [|set_solver]. intros e' (r & -> & Hr)%list_elem_of_fmap.
    exists r. split; [set_solver|done]. }
  assert (Hsub : forall r, r ∈ c_rows c -> r ∈ c_rows c ++ layer_rows l) by set_solver.
  revert Hsub. generalize (c_rows c) at 1 3. intros todo. clearbody reachable. clearbody out0 seen0. revert out0 seen0 Hout.
  induction todo as [|r todo IH]; intros out0 seen0 Hout Hsub; simpl; [apply Hout|].
  case_bool_decide; [apply IH; set_solver|]. case_match; [apply IH; set_solver|]. apply IH; [|set_solver].
  intros e' [He| ->%list_elem_of_singleton]%elem_of_app; [by apply Hout|]. exists r. split; [apply Hsub; set_solver|done].
Qed.

Definition reachable_rows : list path :=
  map (fun f => Path (e_path f))
    (List.filter (fun f => negb (bool_decide (e_mode f = deny))) (map (eff_of rs source) (layer_rows l))).

(** Every row that is not omitted is emitted, with its path. *)
Lemma folders_complete r :
  r ∈ layer_rows l \/ r ∈ c_rows c /\ omitted rs l reachable_rows r = false ->
  exists e, emitted e /\ e_path e = r_path r.
Proof.
  unfold emitted, folders_. set (out0 := match l with Some l0 => _ | None => [] end).
  set (seen0 := match l with Some l0 => map r_path _ | None => [] end).
  assert (Hrr : map (fun f => Path (e_path f)) (List.filter (fun f => negb (bool_decide (e_mode f = deny))) out0) = reachable_rows).
  { unfold reachable_rows, layer_rows. subst out0. by destruct l. }
  rewrite Hrr. clear Hrr. generalize reachable_rows. intros reachable.
  assert (Hseen : forall s, s ∈ seen0 -> exists e, e ∈ out0 /\ e_path e = s).
  { subst out0 seen0. destruct l as [l0|]; [|set_solver]. intros s (r' & -> & Hr)%list_elem_of_fmap.
    exists (eff_of rs source r'). split; [|done]. apply list_elem_of_fmap. eauto. }
  intros [Hr|[Hr Ho]].
  - assert (exists e, e ∈ out0 /\ e_path e = r_path r) as (e & He & Hp).
    { apply Hseen. subst seen0. destruct l as [l0|]; [|set_solver]. apply list_elem_of_fmap. eauto. }
    exists e. split; [|done]. clear Hr Hseen. clearbody out0 seen0. revert out0 seen0 He.
    induction (c_rows c) as [|r' todo IH]; intros out0 seen0 He; simpl; [done|].
    case_bool_decide; [by apply IH|]. case_match; [by apply IH|]. apply IH. set_solver.
  - clearbody out0 seen0. revert out0 seen0 Hseen.
    assert (Hkeep : forall todo out seen e, e ∈ out -> e ∈ fst (fold_left (folder_step rs l reachable) todo (out, seen))).
    { clear. induction todo as [|r' todo IH]; intros out seen e He; simpl; [done|].
      case_bool_decide; [by apply IH|]. case_match; [by apply IH|]. apply IH. set_solver. }
    induction (c_rows c) as [|r' todo IH]; intros out0 seen0 Hseen; [by apply elem_of_nil in Hr|].
    apply elem_of_cons in Hr as [<-|Hr]; simpl.
    + case_bool_decide as Hs; [destruct (Hseen _ Hs) as (e & ? & ?); eauto|].
      rewrite Ho. exists (eff_of rs "gateway" r). split; [|done]. apply Hkeep. set_solver.
    + case_bool_decide as Hs; [by apply IH|]. case_match; [by apply IH|]. apply IH; [done|].
      intros s [Hin| ->%list_elem_of_singleton]%elem_of_app.
      * destruct (Hseen s Hin) as (e & ? & ?). exists e. set_solver.
      * exists (eff_of rs "gateway" r'). set_solver.
Qed.

(** A row that is not emitted is a gateway row of mode [deny], outside every
    reachable row of a layer that denies everything else. *)
Lemma not_emitted r :
  r ∈ c_rows c ++ layer_rows l -> (forall e, emitted e -> e_path e <> r_path r) ->
  resolver_mode rs (Path (r_path r)) = deny /\
  (exists lay, l = Some lay /\ l_posture lay = allowed_only) /\
  forall w, w ∈ reachable_rows -> under (Path (r_path r)) w = false.
Proof.
  intros Hr Hn. assert (omitted rs l reachable_rows r = true) as Ho.
  { destruct (omitted rs l reachable_rows r) eqn:E; [done|]. apply elem_of_app in Hr.
    destruct (folders_complete r) as (e & He & Hp); [tauto|]. by destruct (Hn e). }
  revert Ho. unfold omitted. case_eq l; [intros lay El|done]. intros Ho. bool_to_prop.
  split; [done|]. split; [exists lay; split; [done|]; destruct (l_posture lay); done|].
  apply under_any_None. by apply eq_None_not_Some.
Qed.

(** No row of the layer that admits a path is one the gateway refuses now. *)
Definition within_caps : Prop :=
  forall r, r ∈ layer_rows l -> r_mode r <> deny -> cap c (Path (r_path r)) <> deny.

(** A path the layer's rows admit lies in a reachable row of the layer. *)
Lemma admitted_reachable w :
  within_caps -> (exists lay, l = Some lay /\ l_posture lay = allowed_only) ->
  resolver_mode rs w <> deny -> exists v, v ∈ reachable_rows /\ under w v = true.
Proof using RP.
  intros Hc (lay & El & Hp) Hm. rewrite resolver_mode_eq in Hm. simpl in Hm. rewrite El in Hm.
  assert (layer_mode lay w <> deny) as Hl by (destruct (cap c w), (layer_mode lay w); by vm_compute in Hm).
  unfold layer_mode in Hl. rewrite Hp in Hl. destruct (rule (l_folders lay) w) as [m|] eqn:Er; [|done].
  pose proof Er as Er'. apply rule_deepest in Er as (r & Hr & <- & Hu & Hd). exists (Path (r_path r)). split; [|done].
  assert (r ∈ layer_rows l) as Hrl by (by rewrite El). specialize (Hc r Hrl Hl).
  unfold reachable_rows. apply list_elem_of_fmap. exists (eff_of rs source r). split; [done|].
  apply elem_of_lfilter. split; [apply list_elem_of_fmap; eauto|]. apply negb_true_iff, bool_decide_eq_false. simpl.
  rewrite resolver_mode_eq. simpl. rewrite El.
  assert (layer_mode lay (Path (r_path r)) = r_mode r) as ->.
  { unfold layer_mode. by rewrite <-(rule_same (l_folders lay) w (Path (r_path r))), Er' by done. }
  unfold min_mode. by case_match.
Qed.

Definition covers (p : path) (e : eff_row) : bool := under p (Path (e_path e)).

(** The deepest emitted row that contains a path has the path's mode. *)
Lemma emitted_mode p e :
  within_caps -> under_any p (c_builtin c) = None -> emitted e -> covers p e = true ->
  (forall v, emitted v -> covers p v = true -> depth (real (Path (e_path v))) <= depth (real (Path (e_path e)))) ->
  e_mode e = resolver_mode rs p.
Proof using RP.
  intros Hc Hb He Hu Hd. destruct (folders_sound e He) as (re & Hre & Hpe & ->).
  set (all := map (fun r => Path (r_path r)) (c_rows c ++ layer_rows l)).
  assert (Hall : forall r, r ∈ c_rows c ++ layer_rows l -> Path (r_path r) ∈ all).
  { intros r Hr. apply list_elem_of_fmap. eauto. }
  destruct (max_depth_inv p all) as (w & Hw & Huw & Hdw).
  { assert (under p (Path (r_path re)) = true) as Hur by (by rewrite <-Hpe).
    pose proof (max_depth_elem p all _ (Hall _ Hre) Hur). unfold depth in *. lia. }
  assert (Hmax : forall r, r ∈ c_rows c ++ layer_rows l -> under p (Path (r_path r)) = true ->
                 depth (real (Path (r_path r))) <= depth (real w)).
  { intros r Hr Hur. rewrite Hdw. by apply max_depth_elem; [apply Hall|]. }
  destruct (decide (depth (real w) <= depth (real (Path (e_path e))))) as [Hle|Hgt].
  - symmetry. apply mode_same; [done|done|]. intros r Hr Hur. specialize (Hmax r Hr Hur). lia.
  - apply list_elem_of_fmap in Hw as (rw' & -> & Hrw).
    destruct (not_emitted rw' Hrw) as (Hden & Hlay & Hout).
    { intros v Hv Hpv. specialize (Hd v Hv). unfold covers in Hd. rewrite Hpv in Hd. specialize (Hd Huw). lia. }
    assert (resolver_mode rs p = resolver_mode rs (Path (r_path rw'))) as -> by (by apply mode_same). rewrite Hden.
    destruct (decide (resolver_mode rs (Path (e_path e)) = deny)) as [|Hne]; [done|exfalso].
    destruct (admitted_reachable _ Hc Hlay Hne) as (v & Hv & Huv).
    assert (under (Path (r_path rw')) (Path (e_path e)) = true) as Hwe.
    { rewrite <-(deepest_same_rows p (Path (r_path rw')) (Path (e_path e))); [done|done|]. intros _. lia. }
    specialize (Hout v Hv). by rewrite (under_trans _ _ _ Hwe Huv) in Hout.
Qed.

(** A path in no emitted row has the mode of unlisted paths. *)
Lemma uncovered_mode p :
  under_any p (c_builtin c) = None -> (forall e, emitted e -> covers p e = false) ->
  resolver_mode rs p =
  match l with
  | None => if c_any c then g_default (c_g c) else deny
  | Some lay => match l_posture lay with
                | any_except_denied => min_mode (if c_any c then g_default (c_g c) else deny) (l_default lay)
                | allowed_only => deny
                end
  end.
Proof using RP.
  intros Hb Hn.
  set (all := map (fun r => Path (r_path r)) (c_rows c ++ layer_rows l)).
  destruct (Z.leb_spec 0 (max_depth p all)) as [H|H].
  - destruct (max_depth_inv p all H) as (w & Hw & Huw & Hdw). apply list_elem_of_fmap in Hw as (r & -> & Hr).
    destruct (not_emitted r Hr) as (Hden & (lay & El & Ep) & _).
    { intros v Hv Hpv. specialize (Hn v Hv). unfold covers in Hn. rewrite Hpv in Hn. congruence. }
    rewrite El, Ep. rewrite <-Hden. apply mode_same; [done..|]. intros v Hv Huv. rewrite Hdw.
    apply max_depth_elem; [|done]. apply list_elem_of_fmap. eauto.
  - assert (Hnone : forall r, r ∈ c_rows c ++ layer_rows l -> under p (Path (r_path r)) = false).
    { intros r Hr. destruct (under p (Path (r_path r))) eqn:E; [|done].
      pose proof (max_depth_elem p all (Path (r_path r))) as Hm. unfold depth in Hm.
      exfalso. enough (0 <= max_depth p all) by lia. etrans; [|apply Hm]; [lia| |done]. apply list_elem_of_fmap. eauto. }
    rewrite resolver_mode_eq, cap_outside by done. simpl. clear H. revert Hnone. clear -Hb. intros Hnone.
    rewrite (proj2 (rule_None (c_rows c) p)) by (intros; apply Hnone; set_solver).
    destruct l as [lay|]; [|done]. unfold layer_mode.
    rewrite (proj2 (rule_None (l_folders lay) p)) by (intros; apply Hnone; set_solver).
    destruct (l_posture lay); [|done]. unfold min_mode. by destruct (if c_any c then _ else _).
Qed.
End Folders.

(** ** The flattened rows *)

Lemma max_depth_rows p f folders :
  max_depth p (rows_with f folders) =
  max_depth p (map (fun e => Path (e_path e)) (List.filter (fun e => f (e_mode e)) folders)).
Proof using RP.
  unfold rows_with. induction (List.filter _ folders) as [|e es IH]; simpl; [done|].
  by rewrite under_real_r, real_idem, IH.
Qed.

Lemma rows_with_inv p f folders :
  0 <= max_depth p (rows_with f folders) ->
  exists e, e ∈ folders /\ f (e_mode e) = true /\ covers p e = true /\
            depth (real (Path (e_path e))) = max_depth p (rows_with f folders).
Proof using RP.
  rewrite max_depth_rows. intros H. destruct (max_depth_inv _ _ H) as (w & Hw & Hu & Hd).
  apply list_elem_of_fmap in Hw as (e & -> & [? ?]%elem_of_lfilter). eauto.
Qed.
Lemma rows_with_elem p f folders e :
  e ∈ folders -> f (e_mode e) = true -> covers p e = true ->
  depth (real (Path (e_path e))) <= max_depth p (rows_with f folders).
Proof using RP.
  intros He Hf Hu. rewrite max_depth_rows. apply max_depth_elem; [|done].
  apply list_elem_of_fmap. exists e. split; [done|]. by apply elem_of_lfilter.
Qed.

(** Rows whose deepest ones over [p] all have one mode refuse [p] exactly when it is [deny]. *)
Lemma rows_refuse_mode p folders m :
  (forall e, e ∈ folders -> covers p e = true ->
     (forall v, v ∈ folders -> covers p v = true -> depth (real (Path (e_path v))) <= depth (real (Path (e_path e)))) ->
     e_mode e = m) ->
  rows_refuse p (rows_with (fun m => bool_decide (m = deny)) folders) (rows_with reaches folders) =
  existsb (covers p) folders && bool_decide (m = deny).
Proof using RP.
  intros Hm. rewrite rows_refuse_depth. set (D := max_depth p _). set (R := max_depth p _).
  pose proof (max_depth_ge p (rows_with reaches folders)) as HR1. fold R in HR1.
  pose proof (max_depth_ge p (rows_with (fun m => bool_decide (m = deny)) folders)) as HD1. fold D in HD1.
  assert (Hle : forall v, v ∈ folders -> covers p v = true -> depth (real (Path (e_path v))) <= Z.max D R).
  { intros v Hv Hu. destruct (decide (e_mode v = deny)) as [Hv'|Hv'].
    - enough (depth (real (Path (e_path v))) <= D) by lia. apply rows_with_elem; [done| |done]. by rewrite Hv'.
    - enough (depth (real (Path (e_path v))) <= R) by lia. apply rows_with_elem; [done| |done].
      unfold reaches. by rewrite bool_decide_eq_false_2. }
  destruct (existsb (covers p) folders) eqn:Ex; simpl.
  - apply existsb_exists in Ex as (v & Hv & Hu). apply list_elem_of_In in Hv. pose proof (Hle v Hv Hu) as Hv'.
    assert (0 <= depth (real (Path (e_path v)))) by (unfold depth; lia).
    destruct (Z.leb_spec R D).
    + destruct (rows_with_inv p _ folders (ltac:(fold D; lia) : 0 <= D)) as (e & He & Hf & Hc & Hd). fold D in Hd.
      rewrite (proj2 (Z.leb_le 0 D)) by lia. bool_to_prop.
      rewrite <-(Hm e He Hc), Hf; [done|]. intros w Hw Huw. specialize (Hle w Hw Huw). lia.
    + destruct (rows_with_inv p _ folders (ltac:(fold R; lia) : 0 <= R)) as (e & He & Hf & Hc & Hd). fold R in Hd.
      rewrite andb_false_r. unfold reaches in Hf. symmetry. apply negb_true_iff in Hf.
      rewrite <-(Hm e He Hc); [done|]. intros w Hw Huw. specialize (Hle w Hw Huw). lia.
  - apply andb_false_iff. left. apply Z.leb_gt. destruct (Z.leb_spec 0 D) as [HD|]; [|done].
    destruct (rows_with_inv p _ folders HD) as (e & He & _ & Hc & _).
    assert (existsb (covers p) folders = true); [|congruence]. apply existsb_exists. exists e. by rewrite <-list_elem_of_In.
Qed.
End Facts.
