(* ===== verification/WorkspaceEnforcement.v ===== *)
(** * The workspace policy: what enforcement decides

    The flattened rows refine the resolver when the layer's rows are within the
    gateway's caps; two cases in which enforcement reaches what the most specific
    row refuses; and what of the gateway's data folder can be reached at all. *)

From S2P Require Import Prelude PyStr PyVal WorkspacePaths WorkspacePolicy WorkspaceScopeFacts.

(** ** The flattened rows *)

Section Refinement.
Context `{FS : FileSystem} `{RP : !RealPaths}.

Lemma flattened_rows registry (g : gateway) (data_dir : path) tenant user
    (l : option layer) level account sid (p : path) :
  let c := make_caps registry g data_dir tenant user in
  let '(eff, s) := scope_of c l level account sid in
  within_caps c l -> under_any p (c_builtin c) = None ->
  (forall e, e ∈ eff_folders eff -> covers p e = true ->
     (forall v, v ∈ eff_folders eff -> covers p v = true ->
        depth (real (Path (e_path v))) <= depth (real (Path (e_path e)))) ->
     e_mode e = scope_mode s p) /\
  rows_refuse p (s_deny s) (s_reach s) =
    existsb (covers p) (eff_folders eff) && bool_decide (scope_mode s p = deny) /\
  (existsb (covers p) (eff_folders eff) = false -> scope_mode s p = default deny (s_default_mode s)).
Proof using RP.
  intros c. unfold scope_of, effective_dict, scope_from.
  destruct (match l with Some l0 => _ | None => _ end) as [po d] eqn:Epd. simpl.
  unfold scope_mode. simpl. intros Hc Hb.
  assert (resolver_mode (mk_resolver c l) (real p) = resolver_mode (mk_resolver c l) p) as ->.
  { rewrite !resolver_mode_eq. simpl. by rewrite cap_real; destruct l; rewrite ?layer_mode_real. }
  assert (He : forall e, e ∈ folders_ c (mk_resolver c l) l level -> covers p e = true ->
    (forall v, v ∈ folders_ c (mk_resolver c l) l level -> covers p v = true ->
       depth (real (Path (e_path v))) <= depth (real (Path (e_path e)))) ->
    e_mode e = resolver_mode (mk_resolver c l) p).
  { intros e He Hu Hd. by apply (emitted_mode c l level p e). }
  split; [done|]. split; [by apply rows_refuse_mode|]. intros Hn.
  rewrite (uncovered_mode c l level p Hb); [|intros e Hin; destruct (covers p e) eqn:E; [|done]].
  - subst c. simpl. destruct l as [lay|]; simplify_eq; [destruct (l_posture lay)|]; simpl;
      destruct (g_posture g) eqn:Eg; simpl; rewrite ?bool_decide_eq_true_2, ?bool_decide_eq_false_2 by done; simpl; try done.
    unfold min_mode; simpl; repeat case_match; bool_to_prop; simpl in *; try done; try lia.
    all: by destruct (g_default g), (l_default lay); simpl in *; try lia.
  - assert (existsb (covers p) (folders_ c (mk_resolver c l) l level) = true); [|congruence].
    apply existsb_exists. exists e. by rewrite <-list_elem_of_In.
Qed.

(** C30: The flattened rows refine the resolver. For a layer none of whose ro or
    rw rows is refused by the gateway now, and a path outside the built-in
    refusals: the deepest emitted row that contains the path has the path's
    effective mode; the rows refuse the path exactly when an emitted row contains
    it and its effective mode is [deny]; and a path in no emitted row has the
    scope's default, or [deny] when the scope has none. *)
Theorem flattened_scope_exact registry (g : gateway) (data_dir : path) tenant user
    (l : option layer) level account sid (p : path) :
  let c := make_caps registry g data_dir tenant user in
  let '(eff, s) := scope_of c l level account sid in
  within_caps c l -> under_any p (c_builtin c) = None ->
  (forall e, e ∈ eff_folders eff -> covers p e = true ->
     (forall v, v ∈ eff_folders eff -> covers p v = true ->
        depth (real (Path (e_path v))) <= depth (real (Path (e_path e)))) ->
     e_mode e = scope_mode s p) /\
  rows_refuse p (s_deny s) (s_reach s) =
    existsb (covers p) (eff_folders eff) && bool_decide (scope_mode s p = deny) /\
  (existsb (covers p) (eff_folders eff) = false -> scope_mode s p = default deny (s_default_mode s)).
Proof using RP. by apply flattened_rows. Qed.

(** The file routes pass on only the refused rows and the reachable rows
    inside one; they refuse exactly the paths the whole flattened set refuses. *)
Theorem policy_row_rules_exact (c : Caps) (l : option layer) level account sid (p : path)
    (Hresolve : forall q, resolve (real q) = Some (real q)) :
  let s := snd (scope_of c l level account sid) in
  blocked_workspace_path p [] (fst (policy_row_rules s)) (snd (policy_row_rules s)) =
  rows_refuse p (s_deny s) (s_reach s).
Proof using RP.
  intros s. unfold blocked_workspace_path, policy_row_rules. simpl.
  assert (Hreal : forall w, w ∈ s_reach s \/ w ∈ s_deny s -> exists q, w = real q).
  { subst s. unfold scope_of. destruct (effective_dict _ _ _ _ _ _) as [eff rs]. simpl. unfold rows_with.
    intros w [(e & -> & _)%list_elem_of_fmap|(e & -> & _)%list_elem_of_fmap]; eauto. }
  rewrite !rows_refuse_depth. set (D := max_depth p (s_deny s)).
  destruct (Z.leb_spec 0 D) as [HD|HD]; simpl; [|by rewrite andb_false_r].
  destruct (max_depth_inv p _ HD) as (d & Hd & Hud & Hdd). fold D in Hdd.
  rewrite (bool_decide_eq_false_2 (s_deny s = [])) by (intros E; rewrite E in Hd; by apply elem_of_nil in Hd). simpl.
  set (nested := List.filter _ (s_reach s)).
  apply eq_true_iff_eq. rewrite !Z.leb_le. split; intros HR.
  - destruct (Z.leb_spec (max_depth p (s_reach s)) D) as [|Hgt]; [done|].
    destruct (max_depth_inv p (s_reach s)) as (w & Hw & Huw & Hdw); [lia|].
    enough (w ∈ nested) as Hn by (pose proof (max_depth_elem p nested w Hn Huw); lia).
    apply elem_of_lfilter. split; [done|]. apply existsb_exists. exists d. rewrite <-list_elem_of_In. split; [done|].
    assert (under w d = true) as Hwd.
    { rewrite <-(deepest_same_rows p w d); [done|done|]. intros _. lia. }
    destruct (Hreal w) as [q ->]; [by left|]. destruct (Hreal d) as [q' ->]; [by right|].
    simpl. unfold resolve_or_self. rewrite !Hresolve. simpl. rewrite orb_false_r. apply bool_decide_eq_true.
    rewrite under_real_l, under_real_r in Hwd. unfold under in Hwd. by destruct (relative_to (real q) (real q')).
  - destruct (Z.leb_spec 0 (max_depth p nested)) as [Hn|]; [|lia].
    destruct (max_depth_inv p nested Hn) as (w & [Hw _]%elem_of_lfilter & Huw & Hdw).
    pose proof (max_depth_elem p _ w Hw Huw). lia.
Qed.

(** The row that decides a path is the first of the deepest rows that
    contain it, whatever its mode, refusals included; without such a row no row
    decides. *)
Theorem rule_most_specific (rs : list row) (p : path) :
  match rule rs p with
  | Some m => exists l1 r l2, rs = l1 ++ r :: l2 /\ r_mode r = m /\ under p (Path (r_path r)) = true /\
      (forall v, v ∈ l1 -> under p (Path (r_path v)) = true ->
         depth (real (Path (r_path v))) < depth (real (Path (r_path r)))) /\
      (forall v, v ∈ l2 -> under p (Path (r_path v)) = true ->
         depth (real (Path (r_path v))) <= depth (real (Path (r_path r))))
  | None => forall r, r ∈ rs -> under p (Path (r_path r)) = false
  end.
Proof.
  destruct (rule rs p) as [m|] eqn:E; [|by apply rule_None]. rewrite rule_best in E.
  pose proof (best_inv (row_key p) (row_key_nonneg p) rs) as Hb.
  destruct (best (row_key p) rs) as [[r|] n]; [|done]. simplify_eq/=.
  destruct Hb as [_ (n' & l1 & l2 & -> & Hk & H1 & H2)]. exists l1, r, l2. unfold row_key in Hk, H1, H2.
  destruct (under p (Path (r_path r))); [|done]. simplify_eq. repeat split; [| ].
  - intros v Hv Hu. apply (H1 v); [done|by rewrite Hu].
  - intros v Hv Hu. apply (H2 v); [done|by rewrite Hu].
Qed.

(** ** The gateway's data folder *)

Lemma conversation_folder_real p data_dir : conversation_folder (real p) data_dir = conversation_folder p data_dir.
Proof using RP. unfold conversation_folder. by rewrite real_idem. Qed.

Lemma conversation_folder_down p w data_dir :
  under p w = true -> conversation_folder w data_dir = true -> conversation_folder p data_dir = true.
Proof.
  intros [t Ht]%under_spec. unfold conversation_folder.
  destruct (relative_to (real w) (real data_dir)) as [parts|] eqn:Ew; [|done].
  assert (relative_to (real p) (real data_dir) = Some (parts ++ t)) as ->.
  { rewrite Ht. revert Ew. generalize (real w). induction (real data_dir) as [|a b IH]; intros [|x y]; simpl; try done;
      try (intros [= <-]; done). destruct (String.eqb a x); [apply IH|done]. }
  assert (Hd : depth parts <= depth (parts ++ t)) by (unfold depth; rewrite length_app; lia).
  assert (Hl : forall i x, parts !! i = Some x -> (parts ++ t) !! i = Some x) by (intros; by apply lookup_app_l_Some).
  destruct ((2 <=? depth parts) && _) eqn:E2; intros Hc.
  - bool_to_prop. rewrite (proj2 (Z.leb_le 2 _)) by lia. rewrite bool_decide_eq_true_2; [done|]. by apply Hl.
  - case_match; [done|]. bool_to_prop. rewrite (proj2 (Z.leb_le 6 _)) by lia.
    by rewrite !bool_decide_eq_true_2 by (by apply Hl).
Qed.

(** What every write of the gateway's list makes sure of ([check_builtin_rows]). *)
Definition rows_admitted (c : Caps) : Prop :=
  forall r, r ∈ g_folders (c_g c) -> r_mode r <> deny -> builtin_hit (Path (r_path r)) (c_builtin c) (c_data_dir c) = None.

(** A listed conversation folder of the account's own plane that contains [p]. *)
Definition own_conversation registry (g : gateway) (data_dir : path) tenant user (p : path) : Prop :=
  conversation_folder p data_dir = true /\
  exists r, r ∈ g_folders g /\ r_mode r <> deny /\ under p (Path (r_path r)) = true /\
    conversation_folder (Path (r_path r)) data_dir = true /\
    in_own_plane registry (Path (r_path r)) data_dir tenant user = true.

Lemma under_any_in p bs b : b ∈ bs -> under p b = true -> is_Some (under_any p bs).
Proof.
  intros Hb Hu. destruct (under_any p bs) eqn:E; [eauto|]. eapply under_any_None in E; [|exact Hb]. congruence.
Qed.

Lemma builtin_cap registry g data_dir tenant user p :
  let c := make_caps registry g data_dir tenant user in
  rows_admitted c -> is_Some (under_any p (c_builtin c)) -> cap c p <> deny ->
  own_conversation registry g data_dir tenant user p.
Proof using RP.
  intros c Ha [b Hb] Hcap. apply under_any_Some in Hb as [Hb Hpb]. unfold cap in Hcap.
  destruct (under_any (real p) (c_builtin c)) as [hit|] eqn:Eh.
  2: { eapply under_any_None in Eh; [|exact Hb]. by rewrite under_real_l, Hpb in Eh. }
  unfold builtin_hit in Hcap. rewrite Eh, conversation_folder_real in Hcap.
  change (c_data_dir c) with data_dir in Hcap.
  destruct (conversation_folder p data_dir) eqn:Ec; [|done].
  apply under_any_Some in Eh as [Hh _]. split; [done|].
  destruct (List.filter _ (c_rows c)) as [|r rest] eqn:Ei; [done|].
  assert (r ∈ r :: rest) as Hr by set_solver. rewrite <-Ei in Hr. apply elem_of_lfilter in Hr as [Hr Hin].
  bool_to_prop. subst c. simpl in Hr. apply elem_of_lfilter in Hr as [Hg Hus]. exists r.
  assert (under p (Path (r_path r)) = true) as Hpr by (rewrite <-under_real_l; by bool_to_prop).
  assert (conversation_folder (Path (r_path r)) data_dir = true) as Hcr.
  { specialize (Ha r Hg). unfold builtin_hit in Ha. simpl in Ha.
    destruct (under_any_in (Path (r_path r)) _ hit Hh) as [w Hw]; [done|]. simpl in Hw. rewrite Hw in Ha.
    destruct (conversation_folder (Path (r_path r)) data_dir); [done|]. by specialize (Ha ltac:(done)). }
  repeat split; try done. unfold row_usable in Hus. apply negb_true_iff, andb_false_iff in Hus as [Hu|Hu].
  - unfold conversation_folder in Hcr. unfold under in Hu. by destruct (relative_to _ _).
  - by apply negb_false_iff in Hu.
Qed.

(** C31: While the stored built-in rule is on and every ro or rw row of the gateway's
    list is one its writes admit (none in a built-in refusal, conversation folders
    aside: [rows_admitted]), a path of the data folder is reached, by the resolver or
    by the refusal check, only inside a conversation folder that the gateway lists and
    that lies in the account's own plane, whatever layer the account, the session or
    the run chose. *)
Theorem data_folder_closed registry (stored : dict) (g : gateway) (data_dir home : path) tenant user
    (l : option layer) level account sid (p : path)
    (Hg : gateway_policy stored data_dir home = Ok g) (Hon : builtin_deny_enabled stored = true) :
  let c := make_caps registry g data_dir tenant user in
  let s := snd (scope_of c l level account sid) in
  rows_admitted c -> under p data_dir = true ->
  scope_mode s p <> deny \/ refusal s p = None ->
  own_conversation registry g data_dir tenant user p.
Proof using RP.
  intros c s Ha Hp Hreach.
  assert (real data_dir ∈ c_builtin c) as Hd.
  { assert (builtin_refused g = map str_path (builtin_deny_paths data_dir home)) as Hbr.
    { unfold gateway_policy in Hg. rewrite Hon in Hg. destruct (stored_gateway stored); by simplify_eq/=. }
    unfold c, make_caps, c_builtin. rewrite Hbr.
    apply list_elem_of_fmap. exists (str_path (real data_dir)).
    split; [by rewrite Path_str_path, real_idem by apply real_clean|].
    apply list_elem_of_fmap. exists (real data_dir). split; [done|]. apply elem_of_app. right. set_solver. }
  assert (Hb : forall q, under q data_dir = true -> is_Some (under_any q (c_builtin c))).
  { intros q Hq. apply (under_any_in q _ (real data_dir)); [done|]. by rewrite under_real_r. }
  assert (Hmode : forall q, under q data_dir = true -> resolver_mode (mk_resolver c l) q <> deny ->
                  own_conversation registry g data_dir tenant user q).
  { intros q Hq Hm. apply builtin_cap; [done|by apply Hb|]. rewrite resolver_mode_eq in Hm. simpl in Hm. fold c.
    intros Hc. rewrite Hc in Hm. destruct l; [|done]. apply Hm. unfold min_mode. by destruct (layer_mode _ _). }
  assert (s_resolver s = mk_resolver c l /\ s_builtin s = map Path (builtin_refused g) /\
          s_plane_allow s = List.filter (fun q => under q data_dir) (rows_with reaches (folders_ c (mk_resolver c l) l level)))
    as (Hs1 & Hs2 & Hs3).
  { subst s. unfold scope_of, effective_dict. by destruct (match l with Some l0 => _ | None => _ end). }
  destruct Hreach as [Hm|Hr].
  - apply Hmode; [done|]. unfold scope_mode in Hm. rewrite Hs1, resolver_mode_eq in Hm. rewrite resolver_mode_eq.
    simpl in *. rewrite cap_real in Hm. destruct l; [by rewrite layer_mode_real in Hm|done].
  - unfold refusal in Hr. destruct (under_any (real p) (s_plane_allow s)) as [w|] eqn:Ew.
    + apply under_any_Some in Ew as [Hw Hpw]. rewrite under_real_l in Hpw.
      rewrite Hs3 in Hw. apply elem_of_lfilter in Hw as [Hw Hwd].
      apply list_elem_of_fmap in Hw as (e & -> & [He Hre]%elem_of_lfilter).
      destruct (folders_sound c l level e He) as (r & _ & _ & Hem).
      rewrite under_real_l in Hwd. rewrite under_real_r in Hpw.
      destruct (Hmode (Path (e_path e)) Hwd) as (Hcw & v & Hv & Hvm & Huv & Hcv & Hown).
      { rewrite <-Hem. unfold reaches in Hre. by bool_to_prop. }
      split; [by eapply conversation_folder_down|]. exists v. repeat split; try done. by eapply under_trans.
    + rewrite Hs2 in Hr. destruct (Hb p Hp) as [b Hbp]. apply under_any_Some in Hbp as [Hin Hub].
      subst c. simpl in Hin. apply list_elem_of_fmap in Hin as (x & -> & Hx).
      rewrite under_real_r in Hub.
      destruct (under_any_in (real p) (map Path (builtin_refused g)) (Path x)) as [y Hy].
      * apply list_elem_of_fmap. eauto.
      * by rewrite under_real_l.
      * by rewrite Hy in Hr.
Qed.
End Refinement.

(** ** Concrete gateways *)

#[local] Existing Instance plain_real.
Definition links_free : FileSystem := plain_fs [].
Definition no_accounts (user tenant : string) : res (option string) := Ok None.
Definition data_folder : path := Path "/srv/data".
Definition gateway_of (p : posture) (rows : list row) : dict :=
  [(POLICY_KEY, VDict [("posture", VStr (posture_str p)); ("default_mode", VStr "rw");
     ("folders", VList (map (fun r => VDict [("path", VStr (r_path r)); ("mode", VStr (mode_str (r_mode r)))]) rows))])].
Definition the_gateway (p : posture) (rows : list row) : gateway :=
  match @gateway_policy links_free (gateway_of p rows) data_folder (Path "/home/g") with
  | Ok g => g
  | Raise _ => mk_gateway p rw [] [] ""
  end.

(** Every row of a concrete list, by evaluation. *)
Lemma within_caps_dec `{FileSystem} c l :
  forallb (fun r => bool_decide (r_mode r = deny) || negb (bool_decide (cap c (Path (r_path r)) = deny))) (layer_rows l) = true ->
  within_caps c l.
Proof.
  rewrite forallb_forall. intros Hf r Hr Hm. apply list_elem_of_In in Hr. specialize (Hf r Hr).
  rewrite bool_decide_eq_false_2, orb_false_l in Hf by done. by bool_to_prop.
Qed.
Lemma rows_admitted_dec `{FileSystem} c :
  forallb (fun r => bool_decide (r_mode r = deny) ||
     bool_decide (builtin_hit (Path (r_path r)) (c_builtin c) (c_data_dir c) = None)) (g_folders (c_g c)) = true ->
  rows_admitted c.
Proof.
  rewrite forallb_forall. intros Hf r Hr Hm. apply list_elem_of_In in Hr. specialize (Hf r Hr).
  rewrite bool_decide_eq_false_2, orb_false_l in Hf by done. by bool_to_prop.
Qed.

(** A refused folder inside an allowed one, with a read-only folder inside it. *)
Definition nested_gateway : gateway :=
  the_gateway any_except_denied [mk_row "/work" rw; mk_row "/work/private" deny; mk_row "/work/private/shared" ro].
Definition nested_layer : layer := mk_layer allowed_only rw [mk_row "/work" rw].
Definition nested_caps : Caps := @make_caps links_free no_accounts nested_gateway data_folder "default" "ada".
Definition nested_scope : effective * EffectiveScope :=
  @scope_of links_free nested_caps (Some nested_layer) "account" "default:ada" None.

Lemma flattened_scope_exact_witness :
  let s := snd nested_scope in
  rows_refuse (FS := links_free) (Path "/work/private/key") (s_deny s) (s_reach s) = true /\
  rows_refuse (FS := links_free) (Path "/work/private/shared/f") (s_deny s) (s_reach s) = false.
Proof.
  assert (Hc : within_caps (FS := links_free) nested_caps (Some nested_layer)).
  { apply within_caps_dec. vm_compute. reflexivity. }
  pose proof (fun p => flattened_scope_exact (FS := links_free) no_accounts nested_gateway data_folder "default" "ada"
    (Some nested_layer) "account" "default:ada" None p Hc) as H.
  split.
  - destruct (H (Path "/work/private/key")) as (_ & Hr & _); [vm_compute; reflexivity|].
    etransitivity; [exact Hr|]. vm_compute. reflexivity.
  - destruct (H (Path "/work/private/shared/f")) as (_ & Hr & _); [vm_compute; reflexivity|].
    etransitivity; [exact Hr|]. vm_compute. reflexivity.
Defined.

Lemma policy_row_rules_exact_witness :
  let s := snd nested_scope in
  blocked_workspace_path (FS := links_free) (Path "/work/private/key") []
    (fst (policy_row_rules (FS := links_free) s)) (snd (policy_row_rules (FS := links_free) s)) = true.
Proof.
  etransitivity.
  - apply (policy_row_rules_exact (FS := links_free) nested_caps (Some nested_layer) "account" "default:ada" None (Path "/work/private/key")).
    intros q. unfold real. simpl. destruct (clean q) eqn:E; simpl; [by rewrite E|done].
  - vm_compute. reflexivity.
Defined.

(** An account chose [/a]; then the administrator denies everything but [/a/b],
    and refuses [/a/b/c] inside it. *)
Definition earlier_gateway : gateway := the_gateway any_except_denied [].
Definition later_gateway : gateway := the_gateway allowed_only [mk_row "/a/b" rw; mk_row "/a/b/c" deny].
Definition chosen_layer : layer := mk_layer allowed_only rw [mk_row "/a" rw].
Definition caps_under (g : gateway) : Caps := @make_caps links_free no_accounts g data_folder "default" "ada".
Definition chosen_scope (g : gateway) : EffectiveScope :=
  snd (@scope_of links_free (caps_under g) (Some chosen_layer) "account" "default:ada" None).

(** A stored layer that was within the caps when it was written keeps its
    rows when the administrator narrows the gateway; the refused row inside the
    newly allowed folder is then left out of the flattened set, whose rows reach
    what the resolver, and the gateway's most specific row, refuse. *)
Theorem stale_layer_reaches_refused :
  let s := chosen_scope later_gateway in
  let p := Path "/a/b/c/key" in
  within_caps (FS := links_free) (caps_under earlier_gateway) (Some chosen_layer) /\
  rule (FS := links_free) (g_folders later_gateway) p = Some deny /\
  scope_mode (FS := links_free) s p = deny /\
  Path "/a/b" ∈ s_reach s /\ ~ Path "/a/b/c" ∈ s_deny s /\
  rows_refuse (FS := links_free) p (s_deny s) (s_reach s) = false.
Proof.
  split; [apply within_caps_dec; vm_compute; reflexivity|].
  split; [vm_compute; reflexivity|]. split; [vm_compute; reflexivity|].
  assert (s_reach (chosen_scope later_gateway) = [Path "/a/b"]) as -> by (vm_compute; reflexivity).
  assert (s_deny (chosen_scope later_gateway) = [Path "/a"]) as -> by (vm_compute; reflexivity).
  split; [set_solver|]. split; [|vm_compute; reflexivity]. by intros H%list_elem_of_singleton.
Qed.

(** The operator lists a conversation folder and refuses a folder inside it. *)
Definition conversation_gateway : gateway :=
  the_gateway any_except_denied [mk_row "/srv/data/workspaces/s1" rw; mk_row "/srv/data/workspaces/s1/secret" deny].
Definition operator_caps : Caps := @make_caps links_free no_accounts conversation_gateway data_folder "default" "admin".
Definition operator_scope : EffectiveScope :=
  snd (@scope_of links_free operator_caps None "gateway" "default:admin" None).

(** Inside a reachable conversation folder the refusal check admits a path
    that the most specific row refuses: the check stops at the folder. *)
Theorem conversation_refusal_ignores_rows :
  let s := operator_scope in
  let p := Path "/srv/data/workspaces/s1/secret/key" in
  scope_mode (FS := links_free) s p = deny /\
  rows_refuse (FS := links_free) p (s_deny s) (s_reach s) = true /\
  refusal (FS := links_free) s p = None.
Proof. vm_compute. repeat split. Qed.

Lemma data_folder_closed_witness :
  own_conversation (FS := links_free) no_accounts conversation_gateway data_folder "default" "admin"
    (Path "/srv/data/workspaces/s1/notes").
Proof.
  apply (data_folder_closed (FS := links_free) no_accounts
    (gateway_of any_except_denied (g_folders conversation_gateway)) conversation_gateway data_folder (Path "/home/g")
    "default" "admin" None "gateway" "default:admin" None).
  - vm_compute. reflexivity.
  - vm_compute. reflexivity.
  - apply rows_admitted_dec. vm_compute. reflexivity.
  - vm_compute. reflexivity.
  - right. vm_compute. reflexivity.
Defined.
