(* ===== verification/WorkspaceLayers.v ===== *)
(** * The workspace policy: writes, one-off layers and resolution

    [workspace_policy.py]: [validate_layer] refuses a layer the gateway does not
    allow, [clamp_layer] narrows it instead; the writes of the gateway's and of an
    account's policy; [resolve_effective]. [session_workspaces.py]: the layer of a
    conversation. [runtime_config.check_workspace_path]: a typed folder. *)

From S2P Require Import Prelude PyStr PyVal OrdDict WorkspacePaths WorkspacePolicy.

(** The text of a list of strings. *)
Definition repr_strs (l : list string) : string := repr (VList (map VStr l)).

(** [type(v).__name__]. *)
Definition type_name (v : val) : string :=
  match v with
  | VNone => "NoneType" | VBool _ => "bool" | VInt _ => "int" | VFloat _ => "float"
  | VStr _ => "str" | VList _ => "list" | VDict _ => "dict"
  end.

(** [WorkspacePolicyError(m)]. *)
Definition refused {A} (m : string) : res A := Raise (WorkspacePolicyError m None).
Definition refused_at {A} (m p : string) : res A := Raise (WorkspacePolicyError m (Some p)).

Definition GATEWAY_FIELDS : list string := ["posture"; "default_mode"; "folders"].
Definition LAYER_FIELDS : list string := ["posture"; "default_mode"; "folders"].
Definition LEGACY_STORE_KEYS : list string :=
  ["workspace_root"; "workspace_mounts"; "workspace_blocked_paths"; "client_workspace_scope_overrides";
   "trust_client_launch_folder"; "workspace_default_mode"; "user_workspace_policies"].
Definition LEGACY_WRITE_KEYS : list string := LEGACY_STORE_KEYS ++ ["workspace_allowed_paths"].
Definition DRAFT_FIELDS : list string :=
  ["allowed_folders"; "never_allowed"; "allow_any_folder"; "launch_folder_trust"; "enabled_folders"; "own_folders";
   "other_sessions"; "mode"].
Definition SHARED_REMOVED_SENTENCE : string :=
  "shared_workspace no longer exists: list it as a workspace (folders: [{path, mode: " +:+ quoted "rw" +:+
  "}]). Nothing was saved.".
Definition READ_ONLY_CAP_SENTENCE : string := "The gateway allows this workspace read-only".

Section Layers.
Context `{FS : FileSystem}.

(** ** A typed folder *)

Record path_check := mk_check { k_path : string; k_normalized : string; k_absolute : bool; k_exists : bool;
                                k_is_dir : bool; k_valid : bool; k_sentence : string }.
(** [check_workspace_path]. *)
Definition check_workspace_path (raw : val) : path_check :=
  let text := strip (str_or raw "") in
  if String.eqb text "" then mk_check text "" false false false false "Type a directory path."
  else
    let p := expanduser (Path text) in
    if negb (is_absolute p) then
      mk_check text "" false false false false
        "Use a full path that starts with / (or ~ for the gateway's home directory)."
    else match resolve p with
    | None => mk_check text "" true false false false "This path can't be read on the gateway's computer."
    | Some resolved =>
        if negb (exists_ resolved) then
          mk_check text (str_path resolved) true false false false "No directory at this path on the gateway's computer."
        else if negb (is_dir resolved) then
          mk_check text (str_path resolved) true true false false "This is a file, not a directory."
        else mk_check text (str_path resolved) true true true true ""
    end.

(** [str(_real(Path(out["normalized"])))]. *)
Definition checked_folder (out : path_check) : string := str_path (real (Path (k_normalized out))).
Definition or_text (s dflt : string) : string := if String.eqb s "" then dflt else s.

(** [_check_folder]. *)
Definition check_folder (raw : val) (what : string) : res string :=
  match raw with
  | VStr s =>
      let out := check_workspace_path raw in
      if k_valid out then Ok (checked_folder out)
      else refused_at (what +:+ " " +:+ repr_str (strip s) +:+ ": " +:+ or_text (k_sentence out) "not a directory.") (strip s)
  | _ => refused (what +:+ ": a workspace path (text) is required, got " +:+ type_name raw +:+ ".")
  end.

(** ** Written rows ([_check_rows]) *)

Definition ALLOWED_TXT : string :=
  quoted "ro" +:+ " (read-only) or " +:+ quoted "rw" +:+ " (read & write) or " +:+ quoted "deny" +:+ " (refused)".
Definition check_row (what : string) (out : list row) (item : val) : res (list row) :=
  match item with
  | VDict d =>
      let unknown := sort_str (List.filter (fun k => negb (bool_decide (k ∈ ["path"; "mode"; "cap"; "source"]))) (dkeys d)) in
      match unknown with
      | _ :: _ => refused (what +:+ ": unknown row field(s) " +:+ repr_strs unknown +:+ "; a row is {path, mode}.")
      | [] =>
          match mode_of (get_ "mode" d) with
          | None =>
              Raise (WorkspacePolicyError
                (what +:+ ": mode must be " +:+ ALLOWED_TXT +:+ "; got " +:+ repr (get_ "mode" d) +:+ ".")
                (let p := str_or (get_ "path" d) "" in if String.eqb p "" then None else Some p))
          | Some m =>
              path <== check_folder (get_ "path" d) (what +:+ " entry");
              if existsb (fun r => String.eqb (r_path r) path) out
              then refused_at (what +:+ ": " +:+ repr_str path +:+ " is listed twice; nothing was saved.") path
              else Ok (out ++ [mk_row path m])
          end
      end
  | _ => refused (what +:+ ": each row is {path, mode} with mode " +:+ ALLOWED_TXT +:+ ".")
  end.
Definition check_rows (raw : val) (what : string) : res (list row) :=
  match raw with
  | VNone => Ok []
  | VList items => rfold (check_row what) [] items
  | _ => refused (what +:+ " must be a list of rows {path, mode}.")
  end.

(** [builtin_sentence], [check_builtin_rows]. *)
Definition builtin_sentence (p : string) (hit : path) : string :=
  "'" +:+ p +:+ "' is inside the built-in refused workspace '" +:+ str_path hit +:+ "'.".
Fixpoint check_builtin_rows (rows : list row) (builtins : list path) (data_dir : path) (what : string) : res unit :=
  match rows with
  | [] => Ok tt
  | r :: rows =>
      if bool_decide (r_mode r = deny) then check_builtin_rows rows builtins data_dir what
      else match builtin_hit (Path (r_path r)) builtins data_dir with
           | Some hit => refused_at (what +:+ ": " +:+ builtin_sentence (r_path r) hit) (r_path r)
           | None => check_builtin_rows rows builtins data_dir what
           end
  end.

(** ** Fields *)

(** [_refuse_unknown]. *)
Definition refuse_unknown (changes : dict) (fields : list string) (what : string) : res unit :=
  if dmem "shared_workspace" changes then refused SHARED_REMOVED_SENTENCE
  else
    let unknown := sort_str (List.filter (fun k => negb (bool_decide (k ∈ fields))) (dkeys changes)) in
    match unknown with
    | [] => Ok tt
    | _ =>
        let old := List.filter (fun k => bool_decide (k ∈ LEGACY_WRITE_KEYS) || bool_decide (k ∈ DRAFT_FIELDS)
                                         || String.eqb k "workspace_access_mode") unknown in
        let hint := match old with
          | [] => ""
          | _ => " Two dimensions only: the posture with its workspace rows {path, mode}, and each workspace's mode. " +:+
                 "Separate allowed and refused lists, launch-folder trust, the access modes and " +:+
                 quoted "Any folder (old clients)" +:+ " no longer exist."
          end in
        refused ("Unknown " +:+ what +:+ " field(s) " +:+ repr_strs unknown +:+ "; nothing was saved. Accepted: " +:+
                 repr_strs fields +:+ "." +:+ hint)
    end.

(** [_check_posture], [_check_default]. *)
Definition check_posture (raw : val) : res posture :=
  match posture_of raw with
  | Some p => Ok p
  | None => refused ("posture must be " +:+ quoted "allowed_only" +:+ " (Deny everything, allow listed workspaces) or " +:+
      quoted "any_except_denied" +:+ " (Allow everything, refuse listed workspaces); got " +:+ repr raw +:+ ".")
  end.
Definition check_default (raw : val) : res mode :=
  match mode_of raw with
  | Some ro => Ok ro
  | Some rw => Ok rw
  | _ => refused ("default_mode must be " +:+ quoted "ro" +:+ " or " +:+ quoted "rw" +:+ "; got " +:+ repr raw +:+ ".")
  end.

(** ** [validate_layer] *)

Definition TOLERATED : list string :=
  ["ok"; "account"; "session_id"; "configured"; "level"; "summary"; "gateway_summary"; "cap"; "source"].

Fixpoint check_caps (c : Caps) (rows : list row) : res unit :=
  match rows with
  | [] => Ok tt
  | r :: rows =>
      if bool_decide (r_mode r = deny) then check_caps c rows
      else
        let m := cap c (Path (r_path r)) in
        if bool_decide (m = deny) then
          refused_at (r_path r +:+ " is outside the workspaces the gateway allows (" +:+ g_summary (c_g c) +:+ ").") (r_path r)
        else if RANK m <? RANK (r_mode r) then
          refused_at (READ_ONLY_CAP_SENTENCE +:+ ": " +:+ r_path r +:+ ".") (r_path r)
        else check_caps c rows
  end.

Definition is_read_only_default (c : Caps) (p : posture) : bool :=
  bool_decide (p = any_except_denied) && bool_decide (g_posture (c_g c) = any_except_denied) &&
  bool_decide (g_default (c_g c) = ro).

Definition validate_layer (c : Caps) (raw : val) (what : string) (base : option layer) : res layer :=
  match raw with
  | VDict d =>
      let changes := List.filter (fun kv => negb (bool_decide (fst kv ∈ TOLERATED))) d in
      _ <== refuse_unknown changes LAYER_FIELDS what;
      let base := default (mk_layer (g_posture (c_g c)) (g_default (c_g c)) []) base in
      posture <== (match dget "posture" changes with Some v => check_posture v | None => Ok (l_posture base) end);
      default_mode <== (match dget "default_mode" changes with Some v => check_default v | None => Ok (l_default base) end);
      folders <== (match dget "folders" changes with
                   | Some v =>
                       rows <== check_rows v "Workspaces";
                       _ <== check_builtin_rows rows (c_builtin c) (c_data_dir c) "Workspaces";
                       Ok rows
                   | None => Ok (l_folders base)
                   end);
      if bool_decide (default_mode = rw) && is_read_only_default c posture && dmem "default_mode" changes
      then refused "The gateway allows unlisted workspaces read-only, so the default cannot be read & write."
      else
        _ <== check_caps c folders;
        Ok (mk_layer posture default_mode folders)
  | _ => refused (what +:+ " must be an object {posture, default_mode, folders: [{path, mode}]}.")
  end.

(** ** [clamp_layer] *)

(** An entry of [clamped]: [{path, asked, got, sentence}]. *)
Record note := mk_note { n_path : val; n_asked : val; n_got : option mode; n_sentence : string }.

Definition item_field (k : string) (item : val) : val := match item with VDict d => get_ k d | _ => VNone end.

Definition clamp_row (c : Caps) (st : list row * list note) (item : val) : list row * list note :=
  let '(rows, notes) := st in
  match mode_of (item_field "mode" item), item_field "path" item with
  | Some asked, VStr p =>
      let checked := check_workspace_path (VStr p) in
      if negb (k_valid checked) then
        (rows, notes ++ [mk_note (VStr p) (VStr (mode_str asked)) None
                           (p +:+ ": " +:+ or_text (k_sentence checked) "not a directory.")])
      else
        let real_ := checked_folder checked in
        if existsb (fun r => String.eqb (r_path r) real_) rows then st
        else if bool_decide (asked = deny) then (rows ++ [mk_row real_ asked], notes)
        else match builtin_hit (Path real_) (c_builtin c) (c_data_dir c) with
        | Some hit => (rows, notes ++ [mk_note (VStr real_) (VStr (mode_str asked)) None (builtin_sentence real_ hit)])
        | None =>
            let m := cap c (Path real_) in
            if bool_decide (m = deny) then
              (rows, notes ++ [mk_note (VStr real_) (VStr (mode_str asked)) None
                 (real_ +:+ " is outside the workspaces the gateway allows (" +:+ g_summary (c_g c) +:+ ").")])
            else if RANK m <? RANK asked then
              (rows ++ [mk_row real_ m],
               notes ++ [mk_note (VStr real_) (VStr (mode_str asked)) (Some m) (READ_ONLY_CAP_SENTENCE +:+ ": " +:+ real_ +:+ ".")])
            else (rows ++ [mk_row real_ asked], notes)
        end
  | _, _ =>
      (rows, notes ++ [mk_note (item_field "path" item) (item_field "mode" item) None
                         "This row is not {path, mode: ro|rw|deny}; it was dropped."])
  end.

Definition clamp_layer (c : Caps) (raw : val) : res (option layer * list note) :=
  match raw, posture_of (item_field "posture" raw) with
  | VDict d, Some p =>
      let read_only := bool_decide (p = any_except_denied) && c_any c && bool_decide (g_default (c_g c) = ro) in
      let notes := if read_only && bool_decide (get_ "default_mode" d = VStr "rw")
        then [mk_note VNone (VStr "rw") (Some ro)
                "The gateway allows unlisted workspaces read-only, so the default is read-only."]
        else [] in
      items <== py_iter (get_ "folders" d);
      let '(rows, notes) := fold_left (clamp_row c) items ([], notes) in
      Ok (Some (mk_layer p (if read_only then ro else stored_default (get_ "default_mode" d)) rows), notes)
  | VNone, _ => Ok (None, [])
  | _, _ =>
      Ok (None, [mk_note VNone VNone None
        "The run's workspace object was malformed and was ignored; the run follows the next level."])
  end.

(** [legacy_paths_to_layer]. *)
Definition legacy_row (c : Caps) (rows : list row) (item : val) : list row :=
  let text := strip (str_or item "") in
  if String.eqb text "" || negb (is_absolute (expanduser (Path text))) then rows
  else
    let real_ := str_path (real (Path text)) in
    if negb (is_dir (Path real_)) || existsb (fun r => String.eqb (r_path r) real_) rows then rows
    else match cap c (Path real_) with deny => rows | m => rows ++ [mk_row real_ m] end.
Definition legacy_paths_to_layer (c : Caps) (paths : list val) : layer :=
  mk_layer allowed_only rw (fold_left (legacy_row c) paths []).
End Layers.

(** ** The workspace policy: stores, writes and resolution

    [workspace_policy.py] writes the gateway's and the accounts' policy into the
    runtime configuration; [session_workspaces.py] keeps a conversation's layer in
    a file of the owner's plane; [resolve_effective] reads all of them. A store
    that was migrated is the dict of the configuration file. *)

(** ** Layers as stored *)

Definition row_val (r : row) : val := VDict [("path", VStr (r_path r)); ("mode", VStr (mode_str (r_mode r)))].
Definition layer_val (l : layer) : val :=
  VDict [("posture", VStr (posture_str (l_posture l))); ("default_mode", VStr (mode_str (l_default l)));
         ("folders", VList (map row_val (l_folders l)))].

(** [key.partition(":")], without the separator. *)
Definition partition_key (key : string) : string * string :=
  match split1 ":" key with Some (a, b) => (a, b) | None => (key, "") end.

(** ** [session_workspaces.py] *)

Definition SCHEMA : string := "gateway_session_workspaces_v1".

(** The file of a plane: absent, not JSON, or a document. *)
Inductive sessions_file := Missing | NotJson | Document (v : val).

Definition load_sessions (f : sessions_file) : res dict :=
  match f with
  | Missing => Ok [("schema", VStr SCHEMA); ("sessions", VDict []); ("history", VList [])]
  | NotJson => Raise (RuntimeError "session_workspaces.json is not readable")
  | Document (VDict d) =>
      if bool_decide (get_ "schema" d = VStr SCHEMA) && is_dict (get_ "sessions" d)
      then Ok (setdefault "history" (VList []) d)
      else Raise (RuntimeError "session_workspaces.json is not a gateway_session_workspaces_v1 file")
  | Document _ => Raise (RuntimeError "session_workspaces.json is not a gateway_session_workspaces_v1 file")
  end.

(** [session_layer]. *)
Definition session_layer (f : sessions_file) (session_id : string) : res (option layer) :=
  data <== load_sessions f;
  stored_layer (get_ session_id (dict_or_empty (get_ "sessions" data))).

(** [set_session_layer]; [now_] is the time text, [account] and [by_] the caller's. *)
Definition session_entry (l : layer) (account by_ now_ : string) : val :=
  VDict [("account", VStr account); ("posture", VStr (posture_str (l_posture l)));
         ("default_mode", VStr (mode_str (l_default l))); ("folders", VList (map row_val (l_folders l)));
         ("updated_at", VStr now_); ("updated_by", VStr by_)].
Definition set_session_layer (f : sessions_file) (session_id : string) (l : option layer)
    (account by_ now_ : string) : res sessions_file :=
  data <== load_sessions f;
  let sessions := dict_or_empty (get_ "sessions" data) in
  let sessions := match l with
                  | None => dpop session_id sessions
                  | Some l => dset session_id (session_entry l account by_ now_) sessions
                  end in
  match get_ "history" data with
  | VList h =>
      let entry := VDict [("session_id", VStr session_id); ("at", VStr now_); ("by", VStr by_);
                          ("configured", VBool (bool_decide (is_Some l)))] in
      Ok (Document (VDict (dset "history" (VList (h ++ [entry])) (dset "sessions" (VDict sessions) data))))
  | _ => Raise (AttributeError "append")
  end.

Section Store.
Context `{FS : FileSystem} (registry : string -> string -> res (option string)).

(** ** Writes *)

(** [_configured_flag]. *)
Definition configured_flag (changes : dict) : res (option bool) :=
  match dget "configured" changes with
  | None => Ok None
  | Some (VBool b) =>
      if negb b && existsb (fun k => dmem k changes) LAYER_FIELDS then
        refused "configured: false follows the level above; send it without posture, default_mode or folders."
      else Ok (Some b)
  | Some raw => refused ("configured must be true or false; got " +:+ repr raw +:+ ".")
  end.

(** [write_layer]. *)
Definition write_layer (c : Caps) (current : option layer) (changes : dict) (what : string) : res (option layer) :=
  flag <== configured_flag changes;
  match flag with
  | Some false => Ok None
  | _ =>
      let rest := dpop "configured" changes in
      if bool_decide (rest = []) && bool_decide (flag = None) then Ok current
      else l <== validate_layer c (VDict rest) what current; Ok (Some l)
  end.

(** [caps_for]. *)
Definition caps_for (stored : dict) (data_dir home : path) (tenant_id user_id : val) : res Caps :=
  g <== gateway_policy stored data_dir home;
  key <== account_key (py_or tenant_id (VStr "default")) (py_or user_id (VStr "admin"));
  let '(tenant, user) := partition_key key in
  Ok (make_caps registry g data_dir tenant user).

Definition stamped (stored : dict) (actor now_ : string) : dict :=
  dset "_last_changed_at" (VStr now_) (dset "_last_changed_by" (VStr actor) stored).

(** [write_account_policy] up to the write: the store it writes. [seen] is the
    store the caps were read from, [stored] the one read under the lock. *)
Definition write_account_policy (seen stored : dict) (data_dir home : path) (tenant_id user_id : val)
    (changes : dict) (actor now_ : string) : res dict :=
  key <== account_key tenant_id user_id;
  let changes := dpop "account" (dpop "ok" changes) in
  c <== caps_for seen data_dir home tenant_id user_id;
  accounts <== stored_accounts stored;
  new <== write_layer c (oget key accounts) changes "account workspaces";
  let accounts := match new with None => opop key accounts | Some l => oset key l accounts end in
  let stored := match accounts with
                | [] => dpop ACCOUNTS_KEY stored
                | _ => dset ACCOUNTS_KEY (VDict (map (fun kv => (fst kv, layer_val (snd kv))) accounts)) stored
                end in
  Ok (stamped stored actor now_).

(** [_credential_folders]. *)
Definition credential_folders (data_dir home : path) : list path :=
  List.filter (fun p => negb (bool_decide (real p = real data_dir)))
    (map (fun s => Path s) (map str_path (builtin_deny_paths data_dir home))).

(** [write_gateway_policy] up to the write. *)
Definition write_gateway_policy (stored : dict) (data_dir home : path) (changes : dict) (actor now_ : string) : res dict :=
  let changes := fold_left (fun d k => dpop k d)
    ["ok"; "builtin_refused"; "builtin_refused_hidden"; "max_attachment_bytes"; "summary"] changes in
  _ <== refuse_unknown changes GATEWAY_FIELDS "gateway workspace policy";
  g <== stored_gateway stored;
  posture <== (match dget "posture" changes with Some v => check_posture v | None => Ok (l_posture g) end);
  default_mode <== (match dget "default_mode" changes with Some v => check_default v | None => Ok (l_default g) end);
  folders <== (match dget "folders" changes with Some v => check_rows v "Workspaces" | None => Ok (l_folders g) end);
  let builtins := if builtin_deny_enabled stored
    then map (fun s => Path s) (map str_path (builtin_deny_paths data_dir home))
    else credential_folders data_dir home in
  _ <== (if dmem "folders" changes then check_builtin_rows folders builtins data_dir "Workspaces" else Ok tt);
  Ok (stamped (dset POLICY_KEY (layer_val (mk_layer posture default_mode folders)) stored) actor now_).

(** ** [resolve_effective] *)

(** The layer of the first level that has one: the run's, the session's, the
    account's; none is the gateway's. *)
Definition chosen_layer (c : Caps) (stored : dict) (key : string) (plane : option sessions_file)
    (sid : option string) (one_off : option val) : res (option layer * string) :=
  run <== (match one_off with
           | Some v => if is_none v then Ok None else l <== validate_layer c v "workspace" None; Ok (Some l)
           | None => Ok None
           end);
  match run with
  | Some l => Ok (Some l, "run")
  | None =>
      session <== (match sid, plane with Some s, Some f => session_layer f s | _, _ => Ok None end);
      match session with
      | Some l => Ok (Some l, "session")
      | None =>
          accounts <== stored_accounts stored;
          match oget key accounts with
          | Some l => Ok (Some l, "account")
          | None => Ok (None, "gateway")
          end
      end
  end.

Definition resolve_effective (stored : dict) (data_dir home : path) (tenant_id user_id : val)
    (plane : option sessions_file) (session_id : val) (one_off : option val) : res (effective * EffectiveScope) :=
  g <== gateway_policy stored data_dir home;
  key <== account_key (py_or tenant_id (VStr "default")) (py_or user_id (VStr "admin"));
  let '(tenant, user) := partition_key key in
  let c := make_caps registry g data_dir tenant user in
  let sid := let s := strip (str_or session_id "") in if String.eqb s "" then None else Some s in
  choice <== chosen_layer c stored key plane sid one_off;
  Ok (scope_of c (fst choice) (snd choice) key sid).

(** [account_policy]'s layer. *)
Definition account_layer (stored : dict) (tenant_id user_id : val) : res (option layer) :=
  key <== account_key tenant_id user_id;
  accounts <== stored_accounts stored;
  Ok (oget key accounts).
End Store.
