(* ===== verification/WorkspaceStoreFacts.v ===== *)
(** * The workspace policy: layers and stores, correctness

    The two doors of a one-off layer agree; the layers they admit are within the
    gateway's caps; what a write stores is what the next read resolves. *)

From S2P Require Import Prelude PyStr PyVal OrdDict WorkspacePaths WorkspacePolicy WorkspaceScopeFacts WorkspaceEnforcement WorkspaceLayers.

(** ** Dicts and filtered fields *)

Lemma dget_filter k (f : string * val -> bool) (d : dict) :
  (forall v, f (k, v) = true) -> dget k (List.filter f d) = dget k d.
Proof.
  intros Hf. induction d as [|[k' v] d IH]; simpl; [done|].
  destruct (f (k', v)) eqn:E; simpl; rewrite IH; [done|].
  destruct (String.eqb_spec k k') as [->|]; [|done]. by rewrite Hf in E.
Qed.

Lemma mode_of_Some v m : mode_of v = Some m <-> v = VStr (mode_str m).
Proof.
  split; [|intros ->; by destruct m]. destruct v as [| | | |s| |]; try done. unfold mode_of.
  destruct (String.eqb_spec s "ro") as [->|]; [by intros [= <-]|].
  destruct (String.eqb_spec s "rw") as [->|]; [by intros [= <-]|].
  destruct (String.eqb_spec s "deny") as [->|]; [by intros [= <-]|done].
Qed.
Lemma posture_of_Some v p : posture_of v = Some p <-> v = VStr (posture_str p).
Proof.
  split; [|intros ->; by destruct p]. destruct v as [| | | |s| |]; try done. unfold posture_of.
  destruct (String.eqb_spec s "allowed_only") as [->|]; [by intros [= <-]|].
  destruct (String.eqb_spec s "any_except_denied") as [->|]; [by intros [= <-]|done].
Qed.

Section Facts.
Context `{FS : FileSystem}.

(** ** Written rows *)

(** The row an item asks for. *)
Definition asked_row (item : val) (r : row) : Prop :=
  exists d p, item = VDict d /\ get_ "path" d = VStr p /\ mode_of (get_ "mode" d) = Some (r_mode r) /\
    k_valid (check_workspace_path (VStr p)) = true /\ r_path r = checked_folder (check_workspace_path (VStr p)).

Lemma check_row_Ok what out item out' :
  check_row what out item = Ok out' ->
  exists r, out' = out ++ [r] /\ asked_row item r /\ existsb (fun v => String.eqb (r_path v) (r_path r)) out = false.
Proof.
  unfold check_row. destruct item as [| | | | | |d]; try done. case_match; [|done].
  destruct (mode_of (get_ "mode" d)) as [m|] eqn:Em; [|done]. intros (path & Hp & Ho)%rbind_Ok.
  destruct (existsb _ out) eqn:Ex; [done|]. injection Ho as <-.
  unfold check_folder in Hp. destruct (get_ "path" d) as [| | | |s| |] eqn:Es; try done.
  destruct (k_valid (check_workspace_path (VStr s))) eqn:Ek; [|done]. injection Hp as <-.
  exists (mk_row (checked_folder (check_workspace_path (VStr s))) m). split; [done|]. split; [|done].
  exists d, s. done.
Qed.

Lemma rfold_check_row_prefix what items out final :
  rfold (check_row what) out items = Ok final -> exists t, final = out ++ t.
Proof.
  intros H. apply (rfold_inv (fun o => exists t, o = out ++ t) (check_row what) items out final); [|exists []; by rewrite app_nil_r|done].
  intros b a b' _ [t ->] (r & -> & _)%check_row_Ok. exists (t ++ [r]). by rewrite app_assoc.
Qed.

Lemma check_builtin_rows_Ok rows builtins data_dir what :
  check_builtin_rows rows builtins data_dir what = Ok tt ->
  forall r, r ∈ rows -> r_mode r <> deny -> builtin_hit (Path (r_path r)) builtins data_dir = None.
Proof.
  induction rows as [|r rows IH]; simpl; intros H v Hv Hm; [by apply elem_of_nil in Hv|].
  case_bool_decide as Hd; [apply elem_of_cons in Hv as [->|Hv]; [done|by apply IH]|].
  destruct (builtin_hit (Path (r_path r)) builtins data_dir) eqn:E; [done|].
  apply elem_of_cons in Hv as [->|Hv]; [done|by apply IH].
Qed.

Lemma check_caps_Ok c rows :
  check_caps c rows = Ok tt ->
  forall r, r ∈ rows -> r_mode r <> deny ->
    cap c (Path (r_path r)) <> deny /\ RANK (r_mode r) <= RANK (cap c (Path (r_path r))).
Proof.
  induction rows as [|r rows IH]; simpl; intros H v Hv Hm; [by apply elem_of_nil in Hv|].
  case_bool_decide as Hd; [apply elem_of_cons in Hv as [->|Hv]; [done|by apply IH]|].
  case_bool_decide; [done|]. case_match eqn:E; [done|]. apply Z.ltb_ge in E.
  apply elem_of_cons in Hv as [->|Hv]; [done|by apply IH].
Qed.

(** ** Admissible layers *)

(** Each ro or rw row is outside the built-in refusals, eligible, and at most its cap. *)
Definition admissible_row (c : Caps) (r : row) : Prop :=
  r_mode r <> deny ->
  builtin_hit (Path (r_path r)) (c_builtin c) (c_data_dir c) = None /\
  cap c (Path (r_path r)) <> deny /\ RANK (r_mode r) <= RANK (cap c (Path (r_path r))).
Definition admissible (c : Caps) (l : layer) : Prop :=
  NoDup (map r_path (l_folders l)) /\ forall r, r ∈ l_folders l -> admissible_row c r.

Lemma admissible_within c l : admissible c l -> within_caps c (Some l).
Proof. intros [_ H] r Hr Hm. by apply H. Qed.

Lemma not_listed (out : list row) p :
  existsb (fun v => String.eqb (r_path v) p) out = false -> p ∉ map r_path out.
Proof.
  intros He (v & -> & Hv)%list_elem_of_fmap. apply not_true_iff_false in He. apply He, existsb_exists.
  exists v. by rewrite <-list_elem_of_In, String.eqb_refl.
Qed.
Lemma NoDup_paths_snoc out r :
  NoDup (map r_path out) -> existsb (fun v => String.eqb (r_path v) (r_path r)) out = false ->
  NoDup (map r_path (out ++ [r])).
Proof.
  intros Hn He%not_listed. rewrite map_app. apply NoDup_app. split; [done|]. split; [|apply NoDup_singleton].
  intros x Hx ->%list_elem_of_singleton. done.
Qed.

Lemma check_rows_NoDup raw what rows : check_rows raw what = Ok rows -> NoDup (map r_path rows).
Proof.
  destruct raw as [| | | | |items|]; simpl; try done; [by intros [= <-]; constructor|].
  apply (rfold_inv (fun o => NoDup (map r_path o))); [|constructor].
  intros b a b' _ Hn (r & -> & _ & He)%check_row_Ok. by apply NoDup_paths_snoc.
Qed.

(** ** [clamp_layer] keeps what [validate_layer] admits *)

Lemma clamp_row_asked c out notes item r :
  asked_row item r -> existsb (fun v => String.eqb (r_path v) (r_path r)) out = false -> admissible_row c r ->
  clamp_row c (out, notes) item = (out ++ [r], notes).
Proof.
  destruct r as [rp m]. intros (d & p & -> & Hp & Hm & Hk & Hc) He Ha. unfold admissible_row in Ha. simpl in *.
  unfold clamp_row. simpl. rewrite Hm, Hp, Hk. simpl. subst rp. rewrite He.
  destruct (decide (m = deny)) as [->|Hne]; [by rewrite bool_decide_eq_true_2|].
  rewrite bool_decide_eq_false_2 by done. destruct Ha as (-> & Hd & Hr); [done|].
  rewrite bool_decide_eq_false_2 by done. by rewrite (proj2 (Z.ltb_ge _ _)) by done.
Qed.

Lemma clamp_rows_valid c what items out notes final :
  rfold (check_row what) out items = Ok final -> (forall r, r ∈ final -> admissible_row c r) ->
  fold_left (clamp_row c) items (out, notes) = (final, notes).
Proof.
  revert out. induction items as [|item items IH]; intros out; [by intros [= <-]|].
  cbn [rfold fold_left]. intros (out' & Hr & Hf)%rbind_Ok Ha.
  apply check_row_Ok in Hr as (r & -> & Hask & He). rewrite (clamp_row_asked c out notes item r); [by apply IH|done|done|].
  apply Ha. apply rfold_check_row_prefix in Hf as [t ->]. set_solver.
Qed.

(** What [validate_layer] has made sure of. *)
Lemma validate_layer_Ok c d what base l :
  validate_layer c (VDict d) what base = Ok l ->
  let changes := List.filter (fun kv => negb (bool_decide (fst kv ∈ TOLERATED))) d in
  let base := default (mk_layer (g_posture (c_g c)) (g_default (c_g c)) []) base in
  (match dget "posture" d with Some v => posture_of v = Some (l_posture l) | None => l_posture l = l_posture base end) /\
  (match dget "default_mode" d with
   | Some v => v = VStr (mode_str (l_default l)) /\ l_default l <> deny /\
               (l_default l = rw -> is_read_only_default c (l_posture l) = false)
   | None => l_default l = l_default base
   end) /\
  (match dget "folders" d with
   | Some v => check_rows v "Workspaces" = Ok (l_folders l) /\
               check_builtin_rows (l_folders l) (c_builtin c) (c_data_dir c) "Workspaces" = Ok tt
   | None => l_folders l = l_folders base
   end) /\
  check_caps c (l_folders l) = Ok tt.
Proof.
  intros H changes base'. unfold validate_layer in H. fold changes in H.
  assert (Hg : forall k, k ∉ TOLERATED -> dget k changes = dget k d).
  { intros k Hk. apply dget_filter. intros v. simpl. by rewrite bool_decide_eq_false_2. }
  unfold dmem in H. rewrite !Hg in H by (vm_compute; set_solver). rinv H.
  destruct (bool_decide (x1 = rw) && _ && _) eqn:Ero; [done|]. rinv H. injection H as <-. simpl.
  assert (Hc : check_caps c x2 = Ok tt) by (by destruct x3). split.
  { destruct (dget "posture" d); [|by injection Hx0 as <-]. unfold check_posture in Hx0. by destruct (posture_of v); simplify_eq. }
  split; [|split; [|done]].
  - destruct (dget "default_mode" d) as [v|]; [|by injection Hx1 as <-].
    unfold check_default in Hx1. destruct (mode_of v) as [[]|] eqn:Em; try done; injection Hx1 as <-;
      (split; [|split; [done|]]).
    1,3: by apply mode_of_Some.
    + done.
    + intros _. by rewrite bool_decide_eq_true_2, andb_true_r, andb_true_l in Ero.
  - destruct (dget "folders" d); [|by injection Hx2 as <-]. rinv Hx2. injection Hx2 as <-. by repeat match goal with u : unit |- _ => destruct u end.
Qed.

(** A layer validated from nothing lists admissible rows; one based on a stored
    layer does when it names its rows. *)
Lemma validated_admissible c d what base l :
  validate_layer c (VDict d) what base = Ok l -> is_Some (dget "folders" d) \/ base = None -> admissible c l.
Proof.
  intros (_ & _ & Hf & Hc)%validate_layer_Ok Hb. unfold admissible.
  destruct (dget "folders" d) as [v|] eqn:E.
  - destruct Hf as [Hr Hbu]. split; [by eapply check_rows_NoDup|]. intros r Hr' Hm.
    destruct (check_caps_Ok c _ Hc r Hr' Hm). split; [|done]. by eapply check_builtin_rows_Ok.
  - destruct Hb as [[? ?]| ->]; [done|]. simpl in Hf. rewrite Hf. split; [constructor|]. intros r Hr. by apply elem_of_nil in Hr.
Qed.

Lemma clamp_row_admissible c st item :
  NoDup (map r_path (fst st)) /\ (forall r, r ∈ fst st -> admissible_row c r) ->
  NoDup (map r_path (fst (clamp_row c st item))) /\ (forall r, r ∈ fst (clamp_row c st item) -> admissible_row c r).
Proof.
  destruct st as [out notes]. intros [Hn Ha]. unfold clamp_row.
  destruct (mode_of (item_field "mode" item)) as [asked|]; [|done].
  destruct (item_field "path" item) as [| | | |p| |]; try done.
  destruct (k_valid (check_workspace_path (VStr p))); simpl; [|done].
  set (real_ := checked_folder _). destruct (existsb _ out) eqn:Ex; [done|].
  assert (Hsnoc : forall m, admissible_row c (mk_row real_ m) ->
    NoDup (map r_path (out ++ [mk_row real_ m])) /\ (forall r, r ∈ out ++ [mk_row real_ m] -> admissible_row c r)).
  { intros m Hm. split; [by apply NoDup_paths_snoc|]. by intros r [Hr| ->%list_elem_of_singleton]%elem_of_app; [apply Ha|]. }
  case_bool_decide as Hd; [by apply Hsnoc; intros ?|].
  destruct (builtin_hit _ _ _) eqn:Eb; [done|]. case_bool_decide as Hcap; [done|].
  destruct (Z.ltb_spec (RANK (cap c (Path real_))) (RANK asked)); apply Hsnoc; intros _; simpl; repeat split; try done; lia.
Qed.

Lemma clamped_admissible c raw l notes : clamp_layer c raw = Ok (Some l, notes) -> admissible c l.
Proof.
  unfold clamp_layer. destruct raw as [| | | | | |d]; try done; destruct (posture_of _) as [p|]; try done.
  intros (items & _ & H)%rbind_Ok. set (notes0 := if _ && _ then _ else _) in H.
  destruct (fold_left (clamp_row c) items ([], notes0)) as [rows ns] eqn:Ef. injection H as <- _.
  unfold admissible. simpl.
  assert (forall st, NoDup (map r_path (fst st)) /\ (forall r, r ∈ fst st -> admissible_row c r) ->
    NoDup (map r_path (fst (fold_left (clamp_row c) items st))) /\
    (forall r, r ∈ fst (fold_left (clamp_row c) items st) -> admissible_row c r)) as Hi.
  { clear. induction items as [|i items IH]; intros st Hst; [done|]. simpl. by apply IH, clamp_row_admissible. }
  specialize (Hi ([], notes0)). rewrite Ef in Hi. apply Hi. split; [constructor|]. intros r Hr. by apply elem_of_nil in Hr.
Qed.

(** The two doors of a one-off layer agree: a layer that names its posture and
    its default and that the HTTP door admits goes through the host's door
    unchanged and without a note. *)
Theorem clamp_keeps_valid registry (g : gateway) (data_dir : path) tenant user d what l :
  let c := make_caps registry g data_dir tenant user in
  validate_layer c (VDict d) what None = Ok l -> dmem "posture" d = true -> dmem "default_mode" d = true ->
  clamp_layer c (VDict d) = Ok (Some l, []).
Proof.
  intros c Hv Hp Hm. pose proof (validated_admissible c d what None l Hv (or_intror eq_refl)) as [_ Ha].
  apply validate_layer_Ok in Hv as (H1 & H2 & H3 & _). unfold dmem in Hp, Hm.
  destruct (dget "posture" d) as [vp|] eqn:Ep; [|done]. destruct (dget "default_mode" d) as [vm|] eqn:Em; [|done].
  destruct H2 as (-> & Hdd & Hro). unfold clamp_layer. simpl. unfold get_ at 1. rewrite Ep. simpl. rewrite H1.
  assert (get_ "default_mode" d = VStr (mode_str (l_default l))) as Hgd by (unfold get_; by rewrite Em).
  rewrite Hgd. change (bool_decide (g_posture g = any_except_denied)) with (bool_decide (g_posture (c_g c) = any_except_denied)).
  change (g_default g) with (g_default (c_g c)). fold (is_read_only_default c (l_posture l)).
  assert ((if is_read_only_default c (l_posture l) && bool_decide (VStr (mode_str (l_default l)) = VStr "rw")
           then [mk_note VNone (VStr "rw") (Some ro)
                   "The gateway allows unlisted workspaces read-only, so the default is read-only."] else []) = []) as ->.
  { destruct (l_default l); [done| |]; [by rewrite bool_decide_eq_false_2, andb_false_r by done|]. by rewrite Hro. }
  assert (exists items, py_iter (get_ "folders" d) = Ok items /\ rfold (check_row "Workspaces") [] items = Ok (l_folders l)) as (items & -> & Hf).
  { unfold get_. destruct (dget "folders" d) as [v|]; simpl; [|exists []; by rewrite H3].
    destruct H3 as [Hr _]. destruct v as [| | | | |items|]; simpl in Hr; try done; [exists []; split; [done|]; simpl; congruence|].
    exists items. by destruct items. }
  simpl. rewrite (clamp_rows_valid c _ items [] [] _ Hf) by done. do 3 f_equal.
  destruct l as [po df rs]. simpl in *. f_equal.
  destruct df; [done| |]; [by destruct (is_read_only_default c po)|]. by rewrite Hro.
Qed.
End Facts.

(** ** The workspace policy: stored layers, correctness

    What a write stores is what the next read resolves, for accounts and for
    sessions; the gateway's write keeps its rows out of the built-in refusals; the
    effective scope of a one-off layer is exact. *)

(** ** Round trips of the stored forms *)

(** A type whose stored form is read back. *)
Class Stored (A : Type) := { to_val : A -> val; of_val : val -> res (option A); storable : A -> Prop;
                             of_to_val : forall a, storable a -> of_val (to_val a) = Ok (Some a) }.

Definition good_row (r : row) : Prop := strip (r_path r) <> "".
Definition good_layer (l : layer) : Prop := l_default l <> deny /\ Forall good_row (l_folders l).

Lemma stored_row_val r : good_row r -> stored_row (row_val r) = Some r.
Proof.
  unfold good_row. destruct r as [p m]. simpl. intros Hg. unfold get_. simpl.
  destruct (String.eqb_spec (strip p) ""); [done|]. by destruct m.
Qed.
Lemma rows_vals l : Forall good_row l -> rows (VList (map row_val l)) = Ok l.
Proof.
  intros Hg. unfold rows, py_iter. assert (omap stored_row (map row_val l) = l) as Ho.
  { induction Hg as [|r l Hr Hl IH]; [done|]. cbn [map omap list_omap]. rewrite stored_row_val by done. by f_equal. }
  destruct l; [done|]. simpl truthy. cbn [rbind map] in *. by rewrite Ho.
Qed.
(** A document with a layer's three fields. *)
Lemma stored_layer_fields d l :
  good_layer l -> get_ "posture" d = VStr (posture_str (l_posture l)) ->
  get_ "default_mode" d = VStr (mode_str (l_default l)) -> get_ "folders" d = VList (map row_val (l_folders l)) ->
  stored_layer (VDict d) = Ok (Some l).
Proof.
  intros [Hd Hg] Hp Hm Hf. unfold stored_layer. rewrite Hp, Hm, Hf.
  rewrite (proj2 (posture_of_Some _ (l_posture l))) by done. rewrite rows_vals by done. simpl.
  destruct l as [p m f]. simpl in *. by destruct m.
Qed.
Lemma stored_layer_val l : good_layer l -> stored_layer (layer_val l) = Ok (Some l).
Proof. intros Hl. by apply stored_layer_fields. Qed.
Lemma stored_gateway_val stored l : good_layer l -> get_ POLICY_KEY stored = layer_val l -> stored_gateway stored = Ok l.
Proof.
  intros [Hd Hg] Hs. unfold stored_gateway. rewrite Hs. unfold layer_val, dict_or_empty. cbn [as_dict default id].
  set (d := [_; _; _]).
  change (get_ "folders" d) with (VList (map row_val (l_folders l))).
  change (get_ "posture" d) with (VStr (posture_str (l_posture l))).
  change (get_ "default_mode" d) with (VStr (mode_str (l_default l))).
  rewrite rows_vals by done. rewrite (proj2 (posture_of_Some _ (l_posture l))) by done.
  destruct l as [p m f]. simpl in *. by destruct m.
Qed.
#[export] Instance layer_stored : Stored layer :=
  {| to_val := layer_val; of_val := stored_layer; storable := good_layer; of_to_val := stored_layer_val |}.

(** What is read from a store can be stored again. *)
Lemma stored_row_good v r : stored_row v = Some r -> good_row r.
Proof.
  unfold stored_row. destruct v; try done. destruct (nonblank _) as [p|] eqn:E; [|done].
  case_match; intros [= <-]. unfold good_row, nonblank in *. simpl. repeat case_match; simplify_eq. by bool_to_prop.
Qed.
Lemma rows_good v l : rows v = Ok l -> Forall good_row l.
Proof.
  intros (items & _ & H)%rbind_Ok. injection H as <-. apply Forall_forall. intros r Hr.
  apply list_elem_of_omap in Hr as (v' & _ & Hv). by eapply stored_row_good.
Qed.
Lemma stored_default_ok v : stored_default v <> deny.
Proof. unfold stored_default. by case_bool_decide. Qed.
Lemma stored_layer_good v l : stored_layer v = Ok (Some l) -> good_layer l.
Proof.
  unfold stored_layer. destruct v as [| | | | | |d]; try done. destruct (posture_of _); [|done].
  intros (f & Hf & H)%rbind_Ok. injection H as <-. split; [apply stored_default_ok|by eapply rows_good].
Qed.

Definition good_accounts (a : list (string * layer)) : Prop :=
  NoDup (okeys a) /\ forall kv, kv ∈ a -> good_layer (snd kv).

Lemma stored_accounts_good stored a : stored_accounts stored = Ok a -> good_accounts a.
Proof.
  unfold stored_accounts.
  assert (Hnil : good_accounts []) by (split; [constructor|intros kv Hk; by apply elem_of_nil in Hk]).
  destruct (get_ ACCOUNTS_KEY stored) as [| | | | | |raw]; try by intros [= <-].
  apply (rfold_inv good_accounts); [|done]. intros b kv b' _ [Hn Hg] (l & Hl & H)%rbind_Ok. injection H as <-.
  destruct l as [l|]; [|done]. split; [by apply NoDup_okeys_oset|].
  intros kv' [->|Hk]%elem_of_oset; [by eapply stored_layer_good|by apply Hg].
Qed.

Lemma stored_accounts_val stored a :
  good_accounts a -> get_ ACCOUNTS_KEY stored = VDict (map (fun kv => (fst kv, layer_val (snd kv))) a) ->
  stored_accounts stored = Ok a.
Proof.
  intros [Hn Hg] Hs. unfold stored_accounts. rewrite Hs.
  enough (forall acc, NoDup (okeys (acc ++ a)) ->
    rfold (fun out kv => l <== stored_layer (snd kv); Ok match l with Some l => oset (fst kv) l out | None => out end) acc
      (map (fun kv => (fst kv, layer_val (snd kv))) a) = Ok (acc ++ a)) as H by (by apply (H [])).
  clear Hn Hs. induction a as [|[k l] a IH]; intros acc Hn; cbn [map rfold fst snd]; [by rewrite app_nil_r|].
  rewrite stored_layer_val by (apply (Hg (k, l)); constructor). simpl.
  assert (oget k acc = None) as Hk.
  { apply oget_None. unfold okeys in *. rewrite map_app in Hn. apply NoDup_app in Hn as (_ & Hd & _).
    intros Hin. apply (Hd k Hin). constructor. }
  rewrite oset_new by done. rewrite (IH ltac:(intros; apply Hg; by constructor)); rewrite <-app_assoc; done.
Qed.

Section Facts.
Context `{FS : FileSystem} `{RP : !RealPaths}.

Lemma checked_folder_good k m : good_row (mk_row (checked_folder k) m).
Proof using RP.
  unfold good_row, checked_folder. simpl. pose proof (real_clean (Path (k_normalized k))) as Hc.
  destruct (real _) as [|c l]; [done|]. simpl in Hc. apply andb_true_iff in Hc as [Hc _].
  apply String.eqb_eq in Hc as ->. by apply strip_visible.
Qed.

Lemma check_rows_good raw what rows : check_rows raw what = Ok rows -> Forall good_row rows.
Proof using RP.
  destruct raw as [| | | | |items|]; simpl; try done; [by intros [= <-]|].
  apply (rfold_inv (Forall good_row)); [|constructor]. intros b a b' _ Hb (r & -> & (d & p & _ & _ & _ & _ & Hr) & _)%check_row_Ok.
  apply Forall_app. split; [done|]. constructor; [|constructor]. destruct r as [rp m]. simpl in Hr. subst rp. apply checked_folder_good.
Qed.

Lemma validated_good c d what base l :
  validate_layer c (VDict d) what base = Ok l -> match base with Some b => good_layer b | None => g_default (c_g c) <> deny end ->
  good_layer l.
Proof using RP.
  intros (_ & Hm & Hf & _)%validate_layer_Ok Hb. split.
  - destruct (dget "default_mode" d); [by destruct Hm as (_ & ? & _)|]. rewrite Hm. destruct base; [apply Hb|done].
  - destruct (dget "folders" d); [destruct Hf; by eapply check_rows_good|]. rewrite Hf. destruct base; [apply Hb|constructor].
Qed.

Lemma gateway_policy_default stored data_dir home g : gateway_policy stored data_dir home = Ok g -> g_default g <> deny.
Proof.
  unfold gateway_policy, stored_gateway. intros (l & (f & _ & Hl)%rbind_Ok & H)%rbind_Ok.
  injection Hl as <-. injection H as <-. apply stored_default_ok.
Qed.

(** ** The account's layer *)

Lemma write_layer_good c current changes what new :
  write_layer c current changes what = Ok new -> g_default (c_g c) <> deny ->
  (forall l, current = Some l -> good_layer l) -> forall l, new = Some l -> good_layer l.
Proof using RP.
  unfold write_layer. intros (flag & _ & H)%rbind_Ok Hg Hc l ->.
  destruct flag as [[]|]; try done; case_match; try (injection H as ->; by apply Hc);
    apply rbind_Ok in H as (l' & Hv & H); injection H as <-; eapply validated_good; [exact Hv| |exact Hv|];
    destruct current; auto.
Qed.

(** What an account's write stores is what the next read answers: the layer
    the write computed (none for [configured: false]), under that account; every
    other account's layer and the gateway's own policy are untouched. *)
Theorem account_write_read registry seen stored data_dir home tenant_id user_id changes actor now_ stored' :
  write_account_policy registry seen stored data_dir home tenant_id user_id changes actor now_ = Ok stored' ->
  exists key c accounts new accounts',
    account_key tenant_id user_id = Ok key /\
    caps_for registry seen data_dir home tenant_id user_id = Ok c /\
    stored_accounts stored = Ok accounts /\
    write_layer c (oget key accounts) (dpop "account" (dpop "ok" changes)) "account workspaces" = Ok new /\
    stored_accounts stored' = Ok accounts' /\
    (forall k, oget k accounts' = if decide (k = key) then new else oget k accounts) /\
    account_layer stored' tenant_id user_id = Ok new /\
    stored_gateway stored' = stored_gateway stored.
Proof using RP.
  unfold write_account_policy. intros (key & Hk & H)%rbind_Ok. rinv H. rename x into c, x0 into accounts, x1 into new.
  set (accounts' := match new with None => _ | Some l => _ end) in H.
  exists key, c, accounts, new, accounts'.
  assert (Hg : good_accounts accounts') .
  { pose proof (stored_accounts_good _ _ Hx0) as [Hn Ha].
    assert (g_default (c_g c) <> deny) as Hd.
    { unfold caps_for in Hx. rinv Hx. destruct (partition_key _). injection Hx as <-. by eapply gateway_policy_default. }
    subst accounts'. destruct new as [l|].
    - split; [by apply NoDup_okeys_oset|]. intros kv [->|Hin]%elem_of_oset; [|by apply Ha].
      eapply write_layer_good; [exact Hx1|done| |done]. intros l' Hl'%oget_Some_elem. by apply (Ha _ Hl').
    - split; [by apply NoDup_okeys_opop|]. intros kv [Hin _]%elem_of_lfilter. by apply Ha. }
  assert (Hs : stored_accounts stored' = Ok accounts').
  { injection H as <-. destruct accounts' as [|kv a] eqn:E; unfold stamped.
    - unfold stored_accounts. rewrite !get_dset_ne by done. unfold get_. by rewrite dget_dpop_eq.
    - apply stored_accounts_val; [done|]. rewrite !get_dset_ne by done. by rewrite get_dset_eq. }
  assert (Ho : forall k, oget k accounts' = if decide (k = key) then new else oget k accounts).
  { intros k. subst accounts'. destruct new; [apply oget_oset|apply oget_opop]. }
  repeat split; try done.
  - unfold account_layer. rewrite Hk. simpl. rewrite Hs. simpl. by rewrite Ho, decide_True.
  - assert (get_ POLICY_KEY stored' = get_ POLICY_KEY stored) as Hp; [|unfold stored_gateway; by rewrite Hp].
    injection H as <-. unfold stamped. rewrite !get_dset_ne by done.
    destruct accounts'; [unfold get_; by rewrite dget_dpop_ne|by rewrite get_dset_ne].
Qed.

(** ** The gateway's write *)

Lemma builtin_hit_real p bs data_dir :
  builtin_hit p (map (fun b => real b) bs) data_dir = builtin_hit p bs data_dir.
Proof using RP.
  unfold builtin_hit. induction bs as [|b bs IH]; [done|]. simpl. rewrite under_real_r.
  destruct (under p b); [by rewrite real_idem|done].
Qed.

(** C32: A gateway write that names its rows leaves, while the built-in rule is on,
    no ro or rw row inside a built-in refusal, conversation folders excepted: the
    state [data_folder_closed] starts from. *)
Theorem gateway_write_admits registry stored data_dir home changes actor now_ stored' g tenant user :
  write_gateway_policy stored data_dir home changes actor now_ = Ok stored' ->
  dmem "folders" changes = true -> builtin_deny_enabled stored = true ->
  gateway_policy stored' data_dir home = Ok g ->
  rows_admitted (make_caps registry g data_dir tenant user).
Proof using RP.
  intros H Hf Hon Hg. unfold write_gateway_policy in H. set (ch := fold_left _ _ changes) in H.
  assert (dget "folders" ch = dget "folders" changes) as Hdf by (subst ch; cbn [fold_left]; by rewrite !dget_dpop_ne).
  rinv H. rewrite Hon in Hx4. unfold dmem in Hf, Hx4. rewrite Hdf in Hx3, Hx4.
  destruct (dget "folders" changes) as [v|]; [|done].
  assert (check_builtin_rows x3 (map (fun s => Path s) (map str_path (builtin_deny_paths data_dir home))) data_dir "Workspaces" = Ok tt)
    as Hb by (by destruct x4).
  assert (g_folders g = x3 /\ builtin_refused g = map str_path (builtin_deny_paths data_dir home)) as [Hgf Hgb].
  { injection H as <-. unfold gateway_policy in Hg.
    match type of Hg with context [stored_gateway ?s] => assert (stored_gateway s = Ok (mk_layer x1 x2 x3)) as Hsg end.
    { apply stored_gateway_val; [|unfold stamped; by rewrite !get_dset_ne, get_dset_eq by done].
      split; [simpl|by eapply check_rows_good].
      destruct (dget "default_mode" ch) as [w|]; [unfold check_default in Hx2; by destruct (mode_of w) as [[]|]; simplify_eq|].
      injection Hx2 as <-. unfold stored_gateway in Hx0. rinv Hx0. injection Hx0 as <-. apply stored_default_ok. }
    rewrite Hsg in Hg. simpl in Hg. injection Hg as <-. simpl. split; [done|].
    unfold builtin_deny_enabled, stamped in *. rewrite !get_dset_ne by done. by rewrite Hon. }
  intros r Hr Hm. unfold make_caps in *. cbn [c_g c_builtin c_data_dir] in *. rewrite Hgf in Hr. rewrite Hgb.
  pose proof (check_builtin_rows_Ok _ _ _ _ Hb r Hr Hm) as Hh. rewrite <-builtin_hit_real in Hh.
  revert Hh. by rewrite !map_map.
Qed.

(** ** A one-off layer *)

(** A run that names its own workspaces is resolved at the level "run" with an
    admissible layer, and for it the flattened rows are exact on every path
    outside the built-in refusals, whatever the gateway's rows became since. *)
Theorem one_off_scope_exact registry stored data_dir home tenant_id user_id plane session_id v eff s :
  resolve_effective registry stored data_dir home tenant_id user_id plane session_id (Some v) = Ok (eff, s) ->
  is_none v = false ->
  s_level s = "run" /\
  (exists l, s_layer s = Some l /\ admissible (res_caps (s_resolver s)) l) /\
  forall p, under_any p (c_builtin (res_caps (s_resolver s))) = None ->
    rows_refuse p (s_deny s) (s_reach s) =
    existsb (covers p) (eff_folders eff) && bool_decide (scope_mode s p = deny).
Proof using RP.
  unfold resolve_effective. intros (g & _ & H)%rbind_Ok Hv. apply rbind_Ok in H as (key & _ & H).
  destruct (partition_key key) as [tenant user]. apply rbind_Ok in H as ([lo level] & Hc & H). simpl in H.
  unfold chosen_layer in Hc. rewrite Hv in Hc. apply rbind_Ok in Hc as (r & (l & Hl & Hr)%rbind_Ok & Hc).
  injection Hr as <-. injection Hc as <- <-. destruct v as [| | | | | |d]; try done.
  pose proof (validated_admissible _ _ _ _ _ Hl (or_intror eq_refl)) as Ha.
  set (sid := if String.eqb _ "" then None else _) in H.
  pose proof (fun p => flattened_rows registry g data_dir tenant user (Some l) "run" key sid p) as Hf.
  unfold scope_of, effective_dict in *. simpl in *. injection H as <- <-. simpl in *.
  split; [done|]. split; [by exists l|]. intros p Hp.
  destruct (Hf p) as (_ & Hr & _); [by apply admissible_within|done|done].
Qed.

(** ** The session's layer *)

(** The workspaces chosen for a conversation are what its next read answers,
    and no other conversation's choice changes; clearing it leaves none. *)
Theorem session_layer_roundtrip (f f' : sessions_file) sid (l : option layer) account by_ now_ :
  set_session_layer f sid l account by_ now_ = Ok f' -> (forall l', l = Some l' -> good_layer l') ->
  session_layer f' sid = Ok l /\ forall other, other <> sid -> session_layer f' other = session_layer f other.
Proof using Type.
  unfold set_session_layer. intros (data & Hd & H)%rbind_Ok Hg.
  set (sessions := match l with None => _ | Some l0 => _ end) in H.
  destruct (get_ "history" data) as [| | | | |h|] eqn:Eh; try done. injection H as <-.
  assert (Hs : get_ "schema" data = VStr SCHEMA).
  { destruct f as [| |[| | | | | |d]]; try done; simpl in Hd; [by injection Hd as <-|].
    case_match eqn:E; [|done]. injection Hd as <-. bool_to_prop. unfold get_ in *. rewrite dget_setdefault.
    by destruct (dget "schema" d). }
  assert (Hl : forall other, session_layer (Document (VDict (dset "history" (VList (h ++
      [VDict [("session_id", VStr sid); ("at", VStr now_); ("by", VStr by_); ("configured", VBool (bool_decide (is_Some l)))]]))
      (dset "sessions" (VDict sessions) data)))) other = stored_layer (get_ other sessions)).
  { intros other. unfold session_layer, load_sessions. rewrite !get_dset_ne, Hs, get_dset_eq by done.
    rewrite bool_decide_eq_true_2 by done. simpl rbind. f_equal. f_equal.
    unfold get_. rewrite dget_setdefault, dget_dset_ne, dget_dset_eq by done. done. }
  rewrite Hl. split.
  - subst sessions. destruct l as [l|]; [|unfold get_; by rewrite dget_dpop_eq].
    rewrite get_dset_eq. by apply stored_layer_fields; [apply Hg| | |].
  - intros other Hne. rewrite Hl. unfold session_layer. rewrite Hd. simpl. f_equal. subst sessions.
    destruct l as [l|]; [by rewrite get_dset_ne|]. unfold get_. by rewrite dget_dpop_ne.
Qed.
End Facts.

(** ** Concrete stores *)

#[local] Existing Instance plain_real.
Definition work_fs : FileSystem := plain_fs [Path "/work"; Path "/work/notes"; Path "/srv/data/workspaces/s1"].
Definition work_dict (p : posture) (rows : list row) : dict :=
  [("posture", VStr (posture_str p)); ("default_mode", VStr "rw"); ("folders", VList (map row_val rows))].
Definition work_store : dict := gateway_of any_except_denied [mk_row "/work/notes" ro].
Definition work_gateway : gateway :=
  match @gateway_policy work_fs work_store data_folder (Path "/home/g") with
  | Ok g => g
  | Raise _ => mk_gateway any_except_denied rw [] [] ""
  end.
Definition work_caps : Caps := @make_caps work_fs no_accounts work_gateway data_folder "default" "ada".
Definition work_layer : layer := mk_layer allowed_only rw [mk_row "/work" rw; mk_row "/work/notes" ro].

Lemma clamp_keeps_valid_witness :
  clamp_layer (FS := work_fs) work_caps (VDict (work_dict allowed_only (l_folders work_layer))) = Ok (Some work_layer, []).
Proof.
  apply (clamp_keeps_valid (FS := work_fs) no_accounts work_gateway data_folder "default" "ada" _ "workspace" work_layer);
    vm_compute; reflexivity.
Defined.

Definition ok_or {A} (r : res A) (d : A) : A := match r with Ok a => a | Raise _ => d end.
Definition written_store : dict :=
  ok_or (write_account_policy (FS := work_fs) no_accounts work_store work_store data_folder (Path "/home/g") VNone (VStr "ada")
    (work_dict allowed_only (l_folders work_layer)) "ada" "2026-10-08T00:00:00+00:00") [].

Lemma account_write_read_witness :
  account_layer written_store VNone (VStr "ada") = Ok (Some work_layer).
Proof.
  destruct (account_write_read (FS := work_fs) no_accounts work_store work_store data_folder (Path "/home/g") VNone (VStr "ada")
    (work_dict allowed_only (l_folders work_layer)) "ada" "2026-10-08T00:00:00+00:00" written_store)
    as (key & c & accounts & new & accounts' & Hk & Hc & Ha & Hw & _ & _ & Hr & _); [vm_compute; reflexivity|].
  etransitivity; [exact Hr|]. clear Hr. vm_compute in Hk. injection Hk as <-.
  vm_compute in Ha. injection Ha as <-.
  assert (c = work_caps) as -> by (apply (f_equal (fun r => ok_or r c)) in Hc; symmetry in Hc; etransitivity; [exact Hc|]; vm_compute; reflexivity).
  rewrite <-Hw. vm_compute. reflexivity.
Defined.

Definition gateway_store : dict :=
  ok_or (write_gateway_policy (FS := work_fs) [] data_folder (Path "/home/g")
    (work_dict any_except_denied [mk_row "/work" ro; mk_row "/srv/data/workspaces/s1" rw]) "admin" "2026-10-08T00:00:00+00:00") [].
Definition gateway_stored : gateway :=
  ok_or (gateway_policy (FS := work_fs) gateway_store data_folder (Path "/home/g")) (mk_gateway allowed_only ro [] [] "").

Lemma gateway_write_admits_witness :
  g_folders gateway_stored = [mk_row "/work" ro; mk_row "/srv/data/workspaces/s1" rw] /\
  rows_admitted (FS := work_fs) (make_caps (FS := work_fs) no_accounts gateway_stored data_folder "default" "admin").
Proof.
  split; [vm_compute; reflexivity|].
  apply (gateway_write_admits (FS := work_fs) no_accounts [] data_folder (Path "/home/g")
    (work_dict any_except_denied [mk_row "/work" ro; mk_row "/srv/data/workspaces/s1" rw]) "admin" "2026-10-08T00:00:00+00:00"
    gateway_store gateway_stored "default" "admin"); vm_compute; reflexivity.
Defined.

Definition run_object : val := VDict (work_dict allowed_only (l_folders work_layer)).
Definition run_resolved : effective * EffectiveScope :=
  ok_or (resolve_effective (FS := work_fs) no_accounts work_store data_folder (Path "/home/g") VNone (VStr "ada") None VNone (Some run_object))
    (scope_of (FS := work_fs) work_caps None "" "" None).

Lemma one_off_scope_exact_witness :
  s_level (snd run_resolved) = "run" /\
  rows_refuse (FS := work_fs) (Path "/work/notes/today") (s_deny (snd run_resolved)) (s_reach (snd run_resolved)) = false.
Proof.
  destruct (one_off_scope_exact (FS := work_fs) no_accounts work_store data_folder (Path "/home/g") VNone (VStr "ada") None VNone
    run_object (fst run_resolved) (snd run_resolved)) as (Hl & _ & Hr); [vm_compute; reflexivity|reflexivity|].
  split; [exact Hl|]. etransitivity; [apply Hr; vm_compute; reflexivity|]. vm_compute. reflexivity.
Defined.

Lemma session_layer_roundtrip_witness :
  exists f', set_session_layer Missing "s1" (Some work_layer) "default:ada" "ada" "2026-10-08T00:00:00Z" = Ok f' /\
             session_layer f' "s1" = Ok (Some work_layer) /\ session_layer f' "s2" = Ok None.
Proof.
  eexists. split; [vm_compute; reflexivity|].
  match goal with |- session_layer ?f _ = _ /\ _ =>
    destruct (session_layer_roundtrip Missing f "s1" (Some work_layer) "default:ada" "ada" "2026-10-08T00:00:00Z") as [H1 H2];
      [vm_compute; reflexivity| |split; [exact H1|]] end.
  - intros l [= <-]. split; [discriminate|]. repeat constructor; vm_compute; discriminate.
  - etransitivity; [apply H2; discriminate|]. vm_compute. reflexivity.
Defined.
