(* ===== verification/EntitySeat.v ===== *)
(** * The conversation seat of an entity

    [entity_seat.py]: the record of who talks to an entity, its liveness, the
    priority of the door, and the cancellation of a run tree. Instants are
    microseconds; the run store is the class [HostOps]. *)

From S2P Require Import Prelude PyStr PyVal PyNum IsoTime RunStore.

Definition SEAT_IDLE_TTL_S : Z := 300.
Definition LIVE_RUN_RETRY_HINT_S : Z := 15.
Definition TERMINAL : list string := ["completed"; "failed"; "cancelled"].

(** [_parse_iso]. *)
Definition parse_iso (v : val) : option Z :=
  let s := strip (str_or v "") in if String.eqb s "" then None else iso_instant s.

(** What [read_seat] answers: the document when the file holds an object. *)
Abbreviation seat_file := (option dict).

(** The document [record_seat] writes at the instant [now]. *)
Definition record_seat (now : Z) (run_id session_id holder holder_kind client : string) (held_since : option string) : dict :=
  let now := isoformat now in
  [("run_id", VStr run_id); ("session_id", VStr session_id); ("recorded_at", VStr now); ("holder", VStr holder);
   ("holder_kind", VStr holder_kind); ("client", VStr client);
   ("held_since", VStr (match held_since with Some h => if String.eqb h "" then now else h | None => now end));
   ("renewed_at", VStr now); ("idle_ttl_s", VInt SEAT_IDLE_TTL_S)].

(** The held seat block. *)
Record seat := mk_seat {
  st_run_id : string;
  st_session_id : string;
  st_status : string;
  st_run_live : bool;
  st_holder : string;
  st_holder_kind : string;
  st_client : string;
  st_held_since : string;
  st_renewed_at : string;
  st_idle_ttl_s : Z;
  st_ttl_remaining_s : Z;
}.

(** [_run_status] of a status text the store answered. *)
Definition run_status (raw : option string) (rid : string) : option string :=
  if String.eqb rid "" then None
  else match raw with
       | Some t => let s := lower (strip t) in if String.eqb s "" then None else Some s
       | None => None
       end.

(** [max(0, ceil((anchor + ttl - now).total_seconds()))]. *)
Definition ttl_remaining (anchor : option Z) (ttl_s now : Z) : Z :=
  match anchor with
  | Some a => Z.max 0 (- ((now - (a + ttl_s * second)) / second))
  | None => 0
  end.

(** [seat_occupancy]. [status_of] is the store's status text of a run. *)
Definition seat_occupancy (status_of : string -> option string) (f : seat_file) (now : Z) : res (option seat) :=
  match f with
  | None => Ok None
  | Some d =>
      let rid := strip (str_or (get_ "run_id" d) "") in
      let status := run_status (status_of rid) rid in
      let run_live := match status with Some s => negb (bool_decide (s ∈ TERMINAL)) | None => false end in
      match py_int (py_or (get_ "idle_ttl_s" d) (VInt SEAT_IDLE_TTL_S)) with
      | None => Raise (ValueError "invalid literal for int()")
      | Some ttl_s =>
          let anchor := match parse_iso (get_ "renewed_at" d) with Some a => Some a | None => parse_iso (get_ "recorded_at" d) end in
          let remaining := ttl_remaining anchor ttl_s now in
          if negb run_live && (remaining <=? 0) then Ok None
          else Ok (Some (mk_seat rid (str_or (get_ "session_id" d) "") (default "unknown" status) run_live
            (str_or (get_ "holder" d) "") (str_or (get_ "holder_kind" d) "unknown") (str_or (get_ "client" d) "")
            (str_or (py_or (get_ "held_since" d) (get_ "recorded_at" d)) "")
            (str_or (py_or (get_ "renewed_at" d) (get_ "recorded_at" d)) "") ttl_s remaining))
      end
  end.

(** [normalize_caller_kind]: is the caller a human? *)
Definition normalize_caller_kind (v : val) : string :=
  if String.eqb (lower (strip (str_or v ""))) "human" then "human" else "agent".

(** [retry_after_s]. *)
Definition retry_after_s (s : seat) : Z :=
  if st_run_live s then LIVE_RUN_RETRY_HINT_S else Z.max 1 (st_ttl_remaining_s s).

(** [door_decision]. *)
Inductive action := Take | Slide | Preempt | Refuse (retry_after : Z).
#[global] Instance action_eq_dec : EqDecision action.
Proof. solve_decision. Defined.

Definition door_decision (st : option seat) (caller caller_kind session_id : string) : action :=
  match st with
  | None => Take
  | Some s =>
      let same_holder := negb (String.eqb caller "") && String.eqb (st_holder s) caller in
      if same_holder && String.eqb (st_session_id s) session_id then Slide
      else if String.eqb (normalize_caller_kind (VStr caller_kind)) "human" then
        if negb (String.eqb (st_holder_kind s) "human") then Preempt
        else if same_holder && negb (st_run_live s) then Take
        else Refuse (retry_after_s s)
      else Refuse (retry_after_s s)
  end.

Section Cancel.
Context {W : Type} `{H : HostOps W}.

(** [str(status.value)] of a run, as the runtime names them. *)
Definition status_text (st : RunStatus) : string :=
  match st with
  | RUNNING => "running" | WAITING => "waiting" | COMPLETED => "completed"
  | FAILED => "failed" | CANCELLED => "cancelled"
  end.
Definition status_of (w : W) (rid : string) : option string :=
  match load rid w with Ok (Some r) => Some (status_text (status r)) | _ => None end.

(** The children ids queued by the walk; nothing when the call raises. *)
Definition tree_children (w : W) (rid : string) : list string :=
  match list_children with
  | None => []
  | Some f => match f rid w with Ok l => List.filter (fun i => negb (String.eqb i "")) (map run_id l) | Raise _ => [] end
  end.

(** [cancel_run_tree]: [None] when the fuel runs out. *)
Fixpoint cancel_tree_go (fuel : nat) (reason : string) (queue : list string) (seen : gset string)
    (cancelled : list string) (w : W) : option (list string * W) :=
  match queue with
  | [] => Some (cancelled, w)
  | rid :: queue =>
      match fuel with
      | O => None
      | S fuel =>
          if bool_decide (rid ∈ seen) then cancel_tree_go fuel reason queue seen cancelled w
          else
            let seen := {[rid]} ∪ seen in
            let before := run_status (status_of w rid) rid in
            match cancel_run rid reason w with
            | (Raise (KeyError _), w) => cancel_tree_go fuel reason queue seen cancelled w
            | (r, w) =>
                let cancelled :=
                  match r, before with
                  | Ok _, Some s => if bool_decide (s ∈ TERMINAL) then cancelled else cancelled ++ [rid]
                  | _, _ => cancelled
                  end in
                cancel_tree_go fuel reason (queue ++ tree_children w rid) seen cancelled w
            end
      end
  end.
Definition cancel_run_tree (fuel : nat) (root reason : string) (w : W) : option (list string * W) :=
  cancel_tree_go fuel reason [root] ∅ [] w.
End Cancel.

(** [build_summon_seat_probe]: the seat when its run is live. *)
Definition summon_seat_probe (status_of : string -> option string) (f : seat_file) (now : Z) : res (option seat) :=
  match seat_occupancy status_of f now with
  | Ok (Some s) => Ok (if st_run_live s then Some s else None)
  | r => r
  end.

(** ** Correctness *)

Lemma ttl_remaining_pos a ttl_s now : 0 < ttl_remaining (Some a) ttl_s now <-> now < a + ttl_s * second.
Proof.
  unfold ttl_remaining, second. split; intros H.
  - enough (now - (a + ttl_s * 1000000) < 0) by lia.
    destruct (Z.lt_ge_cases (now - (a + ttl_s * 1000000)) 0); [done|].
    assert (0 <= (now - (a + ttl_s * 1000000)) / 1000000) by (apply Z.div_pos; lia). lia.
  - assert ((now - (a + ttl_s * 1000000)) / 1000000 < 0) by (apply Z.div_lt_upper_bound; lia). lia.
Qed.

Lemma retry_after_pos s : 1 <= retry_after_s s.
Proof. unfold retry_after_s, LIVE_RUN_RETRY_HINT_S. case_match; lia. Qed.

(** The document a summon writes is read back as a seat exactly while its run is
    not known to have ended or the idle time has not passed. *)
Lemma occupancy_recorded status_of t now rid sid holder kind client held :
  in_calendar t -> strip rid = rid -> rid <> "" -> kind <> "" ->
  seat_occupancy status_of (Some (record_seat t rid sid holder kind client held)) now =
  Ok (let status := run_status (status_of rid) rid in
      let live := match status with Some s => negb (bool_decide (s ∈ TERMINAL)) | None => false end in
      let left_ := ttl_remaining (Some t) SEAT_IDLE_TTL_S now in
      if negb live && (left_ <=? 0) then None
      else Some (mk_seat rid sid (default "unknown" status) live holder kind client
             (match held with Some h => if String.eqb h "" then isoformat t else h | None => isoformat t end)
             (isoformat t) SEAT_IDLE_TTL_S left_)).
Proof.
  intros Ht Hrs Hr Hk. destruct (isoformat_chars t Ht) as [Hc Hne].
  assert (Hor : forall s d, str_or (VStr s) d = if String.eqb s "" then d else s).
  { intros s d. unfold str_or, py_or. simpl. by destruct (String.eqb_spec s ""). }
  assert (Hiso : parse_iso (VStr (isoformat t)) = Some t).
  { unfold parse_iso. rewrite Hor. rewrite (proj2 (String.eqb_neq _ _) Hne), iso_char_strip by done.
    rewrite (proj2 (String.eqb_neq _ _) Hne). by apply iso_instant_isoformat. }
  set (hs := match held with Some h => _ | None => _ end).
  assert (Hhs : hs <> "") by (subst hs; destruct held as [h|]; [by destruct (String.eqb_spec h "")|done]).
  unfold seat_occupancy, record_seat. fold hs.
  set (d := [_; _; _; _; _; _; _; _; _]).
  assert (get_ "run_id" d = VStr rid /\ get_ "idle_ttl_s" d = VInt SEAT_IDLE_TTL_S /\
    get_ "renewed_at" d = VStr (isoformat t) /\ get_ "recorded_at" d = VStr (isoformat t) /\
    get_ "session_id" d = VStr sid /\ get_ "holder" d = VStr holder /\ get_ "holder_kind" d = VStr kind /\
    get_ "client" d = VStr client /\ get_ "held_since" d = VStr hs) as (-> & -> & -> & -> & -> & -> & -> & -> & ->) by done.
  rewrite !Hor, Hiso, (proj2 (String.eqb_neq _ _) Hr), Hrs, (proj2 (String.eqb_neq _ _) Hk). simpl py_int. cbv zeta.
  assert (Hpo : forall a b, a <> "" -> py_or (VStr a) b = VStr a).
  { intros a b Ha. unfold py_or. simpl. by rewrite (proj2 (String.eqb_neq _ _) Ha). }
  rewrite !Hpo, !Hor by done. rewrite (proj2 (String.eqb_neq _ _) Hhs), (proj2 (String.eqb_neq _ _) Hne).
  assert (He : forall s, (if String.eqb s "" then "" else s) = s) by (intros s; by destruct (String.eqb_spec s "")).
  rewrite !He. by case_match.
Qed.

(** The door's whole decision. A free seat is taken. The same conversation
    (same holder, same session) slides. Otherwise an agent always waits, whoever
    holds the seat; a human takes the seat from a holder that is not a declared
    human, waits for another human, and takes back its own seat exactly when no
    run of its own is live there. A wait is at least one second. *)
Theorem door_decision_spec (s : seat) (caller kind sid : string) :
  let human := String.eqb (normalize_caller_kind (VStr kind)) "human" in
  let mine := negb (String.eqb caller "") && String.eqb (st_holder s) caller in
  let same := mine && String.eqb (st_session_id s) sid in
  door_decision None caller kind sid = Take /\
  (door_decision (Some s) caller kind sid = Slide <-> same = true) /\
  (door_decision (Some s) caller kind sid = Preempt <->
     same = false /\ human = true /\ st_holder_kind s <> "human") /\
  (door_decision (Some s) caller kind sid = Take <->
     same = false /\ human = true /\ st_holder_kind s = "human" /\ mine = true /\ st_run_live s = false) /\
  (forall n, door_decision (Some s) caller kind sid = Refuse n ->
     1 <= n /\ same = false /\
     (human = false \/ st_holder_kind s = "human" /\ (mine = false \/ st_run_live s = true))).
Proof.
  intros human mine same. split; [done|]. unfold door_decision. fold human mine same.
  pose proof (retry_after_pos s) as Hr. destruct (String.eqb_spec (st_holder_kind s) "human") as [Hk|Hk]; simpl;
    destruct same eqn:Es, human, mine eqn:Em, (st_run_live s); simpl; repeat split; try done; try naive_solver lia.
Qed.

(** A seat's holder keeps it: while its run lives, and for its idle time after. *)
Lemma refused_agent s caller kind sid :
  normalize_caller_kind (VStr kind) = "agent" -> st_holder s <> caller ->
  door_decision (Some s) caller kind sid = Refuse (retry_after_s s).
Proof.
  intros Hk Hh. unfold door_decision. rewrite Hk. rewrite (proj2 (String.eqb_neq _ _) Hh), andb_false_r. done.
Qed.
