(* ===== verification/EntityQueue.v ===== *)
(** * The visit queue of an entity

    [entity_queue.py]: the entries that wait at an entity's door, their order,
    the reaping of silent pollers and the pruning of finished entries. An entry
    has the shape [new_entry] writes; a text of the file that is not that shape
    is [Corrupt]. *)

From S2P Require Import Prelude PyStr PyVal IsoTime.

Definition QUEUE_POLL_REAP_S : Z := 120.
Definition QUEUE_MAX_PER_HOME : Z := 20.
Definition TERMINAL_KEEP : nat := 50.

Inductive qstate := queued | admitting | admitted | stepped_away | reaped | failed.
#[global] Instance qstate_eq_dec : EqDecision qstate.
Proof. solve_decision. Defined.
(** [_TERMINAL_STATES]. *)
Definition terminal_state (s : qstate) : bool :=
  match s with admitted | stepped_away | reaped | failed => true | queued | admitting => false end.

(** The summon request a queue entry stores ([SummonEntityRequest]): the fields
    the door reads; [q_rest] is the others. *)
Record request := mk_request {
  q_prompt : string;
  q_session_id : option string;
  q_caller_kind : option string;
  q_queue : bool;
  q_park : bool;
  q_rest : dict;
}.
#[global] Instance request_eq_dec : EqDecision request.
Proof. solve_decision. Defined.

Record entry := mk_entry {
  queue_id : string;
  payload : request;
  caller : string;
  caller_kind : string;
  park : bool;
  state : qstate;
  enqueued_at : string;
  last_poll_at : string;
  attempts : Z;
  last_attempt_at : option string;
  waiting_behind : option string;
  admitted_run_id : option string;
  admitted_session_id : option string;
  failed_reason : option string;
}.
#[global] Instance entry_eq_dec : EqDecision entry.
Proof. solve_decision. Defined.

(** The fields the door writes. *)
Definition set_state (s : qstate) (e : entry) : entry :=
  mk_entry (queue_id e) (payload e) (caller e) (caller_kind e) (park e) s (enqueued_at e) (last_poll_at e) (attempts e)
    (last_attempt_at e) (waiting_behind e) (admitted_run_id e) (admitted_session_id e) (failed_reason e).
Definition set_poll (t : string) (e : entry) : entry :=
  mk_entry (queue_id e) (payload e) (caller e) (caller_kind e) (park e) (state e) (enqueued_at e) t (attempts e)
    (last_attempt_at e) (waiting_behind e) (admitted_run_id e) (admitted_session_id e) (failed_reason e).
Definition set_attempt (n : Z) (t : string) (e : entry) : entry :=
  mk_entry (queue_id e) (payload e) (caller e) (caller_kind e) (park e) (state e) (enqueued_at e) (last_poll_at e) n
    (Some t) (waiting_behind e) (admitted_run_id e) (admitted_session_id e) (failed_reason e).
Definition set_behind (b : option string) (e : entry) : entry :=
  mk_entry (queue_id e) (payload e) (caller e) (caller_kind e) (park e) (state e) (enqueued_at e) (last_poll_at e) (attempts e)
    (last_attempt_at e) b (admitted_run_id e) (admitted_session_id e) (failed_reason e).
Definition set_admitted_ids (rid sid : string) (e : entry) : entry :=
  mk_entry (queue_id e) (payload e) (caller e) (caller_kind e) (park e) (state e) (enqueued_at e) (last_poll_at e) (attempts e)
    (last_attempt_at e) (waiting_behind e) (Some rid) (Some sid) (failed_reason e).
Definition set_reason (r : string) (e : entry) : entry :=
  mk_entry (queue_id e) (payload e) (caller e) (caller_kind e) (park e) (state e) (enqueued_at e) (last_poll_at e) (attempts e)
    (last_attempt_at e) (waiting_behind e) (admitted_run_id e) (admitted_session_id e) (Some r).

(** [new_entry]; the id is [secrets.token_hex]'s. *)
Definition new_entry (qid : string) (p : request) (who kind : string) (parked : bool) (now_ : string) : entry :=
  mk_entry qid p who kind parked queued now_ now_ 0 None None None None None.

(** ** The file *)

Inductive queue_file := Absent | Corrupt | Entries (l : list entry).

(** [read_queue]: the entries, and the file left behind (a corrupt one is moved
    aside). *)
Definition read_queue (f : queue_file) : list entry * queue_file :=
  match f with
  | Absent => ([], Absent)
  | Corrupt => ([], Absent)
  | Entries l => (l, f)
  end.

(** [sorted(terminal, key=enqueued_at)[:n]] of the entries with their places. *)
Definition older (a b : nat * entry) : bool := str_leb (enqueued_at (snd a)) (enqueued_at (snd b)).
Definition numbered (l : list entry) : list (nat * entry) := imap pair l.
Definition pruned_places (l : list entry) : list nat :=
  let terminal := List.filter (fun ie => terminal_state (state (snd ie))) (numbered l) in
  map fst (take (length terminal - TERMINAL_KEEP) (py_sorted older terminal)).
(** The entries [write_queue] writes. *)
Definition prune (l : list entry) : list entry :=
  let drop := pruned_places l in
  map snd (List.filter (fun ie => negb (bool_decide (fst ie ∈ drop))) (numbered l)).
Definition write_queue (l : list entry) : queue_file := Entries (prune l).

(** ** Reads *)

Definition is_queued (e : entry) : bool := bool_decide (state e = queued).
Definition queued_entries (l : list entry) : list entry := List.filter is_queued l.
Definition queue_depth (f : queue_file) : Z := Z.of_nat (length (queued_entries (fst (read_queue f)))).

(** [position_of]: the loop with its counter. *)
Fixpoint position_go (pos : Z) (l : list entry) (qid : string) : option Z :=
  match l with
  | [] => None
  | e :: l =>
      if is_queued e then
        if String.eqb (queue_id e) qid then Some (pos + 1) else position_go (pos + 1) l qid
      else position_go pos l qid
  end.
Definition position_of (l : list entry) (qid : string) : option Z := position_go 0 l qid.

Definition find_entry (l : list entry) (qid : string) : option entry := List.find (fun e => String.eqb (queue_id e) qid) l.
Definition head_entry (l : list entry) : option entry := head (queued_entries l).

(** A change of the first entry with an id, in place. *)
Fixpoint update_entry (qid : string) (f : entry -> entry) (l : list entry) : list entry :=
  match l with
  | [] => []
  | e :: l => if String.eqb (queue_id e) qid then f e :: l else e :: update_entry qid f l
  end.

(** ** [reap_poll_silent] *)

Definition poll_silent (now : Z) (e : entry) : bool :=
  is_queued e && negb (park e) &&
  match iso_instant (if String.eqb (last_poll_at e) "" then enqueued_at e else last_poll_at e) with
  | Some last => QUEUE_POLL_REAP_S * second <? now - last
  | None => false
  end.
Definition reap (e : entry) : entry :=
  set_reason "poll-silent for more than 120s (client gone)" (set_state reaped e).
Definition reap_poll_silent (now : Z) (l : list entry) : list entry * list entry :=
  (map (fun e => if poll_silent now e then reap e else e) l, map reap (List.filter (poll_silent now) l)).

(** ** Correctness *)

Lemma snd_numbered l : map snd (numbered l) = l.
Proof.
  unfold numbered. assert (forall (f : nat -> nat) (l : list entry), map snd (imap (fun i e => (f i, e)) l) = l) as H; [|apply (H id)].
  clear. intros f l. revert f. induction l as [|e l IH]; intros f; [done|]. cbn [imap map snd]. f_equal. apply (IH (f ∘ S)).
Qed.
Lemma numbered_elem l i e : (i, e) ∈ numbered l <-> l !! i = Some e.
Proof.
  unfold numbered. split.
  - intros (j & x & Heq & Hl)%elem_of_lookup_imap. by simplify_eq.
  - intros H. apply elem_of_lookup_imap. eauto.
Qed.
Lemma fst_numbered_inj l a b : a ∈ numbered l -> b ∈ numbered l -> fst a = fst b -> a = b.
Proof.
  destruct a as [i x], b as [j y]. rewrite !numbered_elem. simpl. intros Hx Hy ->. congruence.
Qed.
Lemma NoDup_numbered l : NoDup (numbered l).
Proof.
  apply NoDup_alt. intros i j x. unfold numbered. rewrite !list_lookup_imap, !fmap_Some.
  intros (a & _ & ->) (b & _ & [= -> _]). done.
Qed.

Lemma lfilter_map_snd (f : entry -> bool) (l : list (nat * entry)) :
  List.filter f (map snd l) = map snd (List.filter (fun ie => f (snd ie)) l).
Proof. induction l as [|ie l IH]; [done|]. simpl. destruct (f (snd ie)); simpl; by rewrite IH. Qed.
Lemma lfilter_lfilter {A} (f g : A -> bool) l : List.filter f (List.filter g l) = List.filter (fun x => g x && f x) l.
Proof. induction l as [|x l IH]; [done|]. simpl. destruct (g x); simpl; [|done]. destruct (f x); by rewrite IH. Qed.
Lemma lfilter_ext {A} (f g : A -> bool) l : (forall x, x ∈ l -> f x = g x) -> List.filter f l = List.filter g l.
Proof. induction l as [|x l IH]; intros H; [done|]. simpl. rewrite H, IH by set_solver. done. Qed.
Lemma lfilter_perm {A} (f : A -> bool) l1 l2 : l1 ≡ₚ l2 -> List.filter f l1 ≡ₚ List.filter f l2.
Proof.
  induction 1 as [| x l1 l2 _ IH | x y l | l1 l2 l3 _ IH1 _ IH2]; simpl; [done| | |by etrans].
  - destruct (f x); by rewrite IH.
  - destruct (f x), (f y); try done. apply Permutation_swap.
Qed.

(** Pruning keeps the order. *)
Lemma prune_sublist l : prune l `sublist_of` l.
Proof.
  trans (map snd (numbered l)); [|by rewrite snd_numbered]. unfold prune. cbv zeta. apply (fmap_sublist snd).
  generalize (pruned_places l). intros drop. induction (numbered l) as [|ie n IH]; [done|]. simpl.
  destruct (negb _); [by apply sublist_skip|by apply sublist_cons].
Qed.

Section Prune.
Context (l : list entry).
Let terminal := List.filter (fun ie => terminal_state (state (snd ie))) (numbered l).
Let sorted := py_sorted older terminal.
Let k := (length terminal - TERMINAL_KEEP)%nat.

Lemma sorted_numbered a : a ∈ sorted -> a ∈ numbered l /\ terminal_state (state (snd a)) = true.
Proof. unfold sorted. rewrite elem_of_py_sorted. unfold terminal. by rewrite elem_of_lfilter. Qed.

Lemma pruned_place a : a ∈ numbered l -> (fst a ∈ pruned_places l <-> a ∈ take k sorted).
Proof.
  intros Ha. unfold pruned_places. fold terminal sorted k. rewrite list_elem_of_fmap. split.
  - intros (b & Hf & Hb). assert (b ∈ sorted) as Hs by (by eapply subseteq_take).
    apply sorted_numbered in Hs as [Hb' _]. by rewrite (fst_numbered_inj l a b).
  - intros H. by exists a.
Qed.

(** The entries that still wait are all kept. *)
Lemma prune_keeps_waiting :
  List.filter (fun e => negb (terminal_state (state e))) (prune l) = List.filter (fun e => negb (terminal_state (state e))) l.
Proof.
  unfold prune. rewrite lfilter_map_snd, lfilter_lfilter. rewrite <-(snd_numbered l) at 2. rewrite lfilter_map_snd. f_equal.
  apply lfilter_ext. intros a Ha. destruct (terminal_state (state (snd a))) eqn:E; [by rewrite andb_false_r|].
  rewrite andb_true_r. apply negb_true_iff, bool_decide_eq_false. intros Hp%pruned_place; [|done].
  apply subseteq_take, sorted_numbered in Hp as [_ Ht]. congruence.
Qed.

Lemma kept_terminal :
  List.filter (fun e => terminal_state (state e)) (prune l) ≡ₚ map snd (drop k sorted).
Proof.
  unfold prune. rewrite lfilter_map_snd, lfilter_lfilter. apply fmap_Permutation.
  transitivity (List.filter (fun ie => negb (bool_decide (fst ie ∈ pruned_places l))) terminal).
  { unfold terminal. rewrite lfilter_lfilter. apply reflexive_eq, lfilter_ext. intros a _. apply andb_comm. }
  transitivity (List.filter (fun ie => negb (bool_decide (fst ie ∈ pruned_places l))) sorted).
  { apply lfilter_perm. symmetry. apply py_sorted_perm. }
  apply reflexive_eq. rewrite <-(take_drop k sorted) at 1. rewrite List.filter_app.
  assert (NoDup sorted) as Hnd.
  { unfold sorted. rewrite py_sorted_perm. unfold terminal. clear. pose proof (NoDup_numbered l) as Hn.
    induction Hn as [|a n Ha Hn IH]; [constructor|]. simpl. destruct (terminal_state _); [|done].
    constructor; [|done]. intros [? _]%elem_of_lfilter. done. }
  rewrite lfilter_none, lfilter_all; [done| |].
  - intros a Ha. apply negb_true_iff, bool_decide_eq_false. intros Hp%pruned_place.
    + rewrite <-(take_drop k sorted) in Hnd. apply NoDup_app in Hnd as (_ & Hd & _). by apply (Hd a).
    + apply sorted_numbered. by eapply subseteq_drop.
  - intros a Ha. apply negb_false_iff, bool_decide_eq_true, pruned_place; [|done]. apply sorted_numbered. by eapply subseteq_take.
Qed.

Lemma prune_terminal_count :
  length (List.filter (fun e => terminal_state (state e)) (prune l)) =
  Nat.min (length (List.filter (fun e => terminal_state (state e)) l)) TERMINAL_KEEP.
Proof.
  rewrite kept_terminal, length_map, length_drop. unfold k, sorted. rewrite length_py_sorted.
  assert (length terminal = length (List.filter (fun e => terminal_state (state e)) l)) as ->; [|lia].
  unfold terminal. rewrite <-(snd_numbered l) at 2. by rewrite lfilter_map_snd, length_map.
Qed.

Lemma older_total a b : older a b = true \/ older b a = true.
Proof. apply str_leb_total. Qed.
Lemma older_trans a b c : older a b = true -> older b c = true -> older a c = true.
Proof. apply str_leb_trans. Qed.

(** What is dropped is terminal and at most as recent as every terminal entry kept. *)
Lemma prune_drops_oldest a e :
  a ∈ numbered l -> fst a ∈ pruned_places l -> e ∈ prune l -> terminal_state (state e) = true ->
  terminal_state (state (snd a)) = true /\ str_leb (enqueued_at (snd a)) (enqueued_at e) = true.
Proof.
  intros Ha Hp He Ht. apply pruned_place in Hp; [|done].
  split; [by apply sorted_numbered; eapply subseteq_take|].
  assert (e ∈ map snd (drop k sorted)) as Hd by (rewrite <-kept_terminal; by apply elem_of_lfilter).
  apply list_elem_of_fmap in Hd as (b & -> & Hb).
  assert (SortedBy older sorted) as Hs by (apply py_sorted_sorted; [apply older_total|apply older_trans]).
  change (older a b = true). revert Hs Hp Hb. rewrite <-(take_drop k sorted) at 1. generalize (take k sorted) (drop k sorted). clear.
  intros t d. induction t as [|x t IH]; simpl; intros Hs Ha Hb; [by apply elem_of_nil in Ha|].
  inversion Hs as [|? ? Hx Hs']; subst. apply elem_of_cons in Ha as [->|Ha]; [|by apply IH].
  rewrite Forall_forall in Hx. apply Hx. set_solver.
Qed.

(** Up to [TERMINAL_KEEP] finished entries nothing is dropped. *)
Lemma prune_within : (length (List.filter (fun e => terminal_state (state e)) l) <= TERMINAL_KEEP)%nat -> prune l = l.
Proof.
  intros Hl. unfold prune.
  assert (k = 0%nat) as Hk.
  { unfold k, terminal. rewrite <-(snd_numbered l) in Hl. rewrite lfilter_map_snd, length_map in Hl. lia. }
  rewrite lfilter_all; [apply snd_numbered|]. intros a Ha. apply negb_true_iff, bool_decide_eq_false.
  intros Hp%pruned_place; [|done]. rewrite Hk in Hp. by apply elem_of_nil in Hp.
Qed.
End Prune.

(** A write of the queue drops only finished entries, and only beyond the
    fifty it keeps: the waiting entries stay, all of them and in their order, the
    number of finished ones afterwards is the smaller of what there was and
    fifty, and each one dropped was enqueued no later than every one kept. *)
Theorem write_queue_spec (l : list entry) :
  exists l', write_queue l = Entries l' /\ l' `sublist_of` l /\
    List.filter (fun e => negb (terminal_state (state e))) l' = List.filter (fun e => negb (terminal_state (state e))) l /\
    length (List.filter (fun e => terminal_state (state e)) l') =
      Nat.min (length (List.filter (fun e => terminal_state (state e)) l)) TERMINAL_KEEP /\
    (forall i e, l !! i = Some e -> i ∈ pruned_places l ->
       terminal_state (state e) = true /\
       forall v, v ∈ l' -> terminal_state (state v) = true -> str_leb (enqueued_at e) (enqueued_at v) = true).
Proof.
  exists (prune l). split; [done|]. split; [apply prune_sublist|]. split; [apply prune_keeps_waiting|].
  split; [apply prune_terminal_count|]. intros i e Hi Hp. apply numbered_elem in Hi. split.
  - apply (pruned_place l _ Hi) in Hp. by apply subseteq_take, sorted_numbered in Hp as [_ ?].
  - intros v Hv Ht. by eapply (prune_drops_oldest l (i, e)).
Qed.

(** The reaper marks exactly the waiting entries that are not parked and whose
    last poll is more than two minutes old, answers them, and leaves every other
    entry, its order and its words as they were. *)
Theorem reap_spec (now : Z) (l : list entry) :
  let '(l', gone) := reap_poll_silent now l in
  length l' = length l /\
  (forall i e, l !! i = Some e ->
     l' !! i = Some (if poll_silent now e then reap e else e)) /\
  (forall e, poll_silent now e = true <->
     state e = queued /\ park e = false /\
     exists last, iso_instant (if String.eqb (last_poll_at e) "" then enqueued_at e else last_poll_at e) = Some last /\
                  last + 120 * second < now) /\
  (forall e, e ∈ gone <-> exists v, v ∈ l /\ poll_silent now v = true /\ e = reap v) /\
  map payload l' = map payload l.
Proof.
  simpl. split; [apply length_map|]. split; [|split; [|split]].
  - intros i e Hi. by rewrite list_lookup_fmap, Hi.
  - intros e. unfold poll_silent, is_queued, QUEUE_POLL_REAP_S. rewrite !andb_true_iff, bool_decide_eq_true, negb_true_iff. split.
    + intros [[Hs Hp] H]. split; [done|]. split; [done|]. case_match; [|done]. eexists. split; [done|]. bool_to_prop. lia.
    + intros (Hs & Hp & last_ & -> & Hl). split; [done|]. apply Z.ltb_lt. lia.
  - intros e. rewrite list_elem_of_fmap. split.
    + intros (v & -> & [? ?]%elem_of_lfilter). eauto.
    + intros (v & Hv & Hp & ->). exists v. split; [done|]. by apply elem_of_lfilter.
  - rewrite map_map. apply map_ext. intros e. by destruct (poll_silent now e).
Qed.

(** The position counts the waiting entries before the entry. *)
Lemma position_go_spec pos l qid n :
  position_go pos l qid = Some n ->
  exists l1 e l2, l = l1 ++ e :: l2 /\ queue_id e = qid /\ is_queued e = true /\
    n = pos + Z.of_nat (length (queued_entries l1)) + 1 /\ forall v, v ∈ queued_entries l1 -> queue_id v <> qid.
Proof.
  revert pos. induction l as [|e l IH]; intros pos; [done|]. simpl. destruct (is_queued e) eqn:Eq.
  - destruct (String.eqb_spec (queue_id e) qid) as [He|Hne].
    + intros [= <-]. exists [], e, l. split; [done|]. split; [done|]. split; [done|]. split; [simpl; lia|].
      intros v Hv. by apply elem_of_nil in Hv.
    + intros (l1 & v & l2 & -> & Hv & Hq & -> & Hn)%IH. exists (e :: l1), v, l2. split; [done|].
      split; [done|]. split; [done|]. unfold queued_entries. simpl. rewrite Eq. simpl. split; [lia|].
      intros x [->|Hx]%elem_of_cons; [done|]. by apply Hn.
  - intros (l1 & v & l2 & -> & Hv & Hq & -> & Hn)%IH. exists (e :: l1), v, l2. unfold queued_entries. simpl. by rewrite Eq.
Qed.
