(* ===== verification/EntityDoor.v ===== *)
(** * The door of an entity

    [routes/entities.py]: the summon ([_summon_core]), the queue at the door, the
    admission of its head, the poll, the step-away and the sweep. The seat's and
    the queue's files are in the state; the run store is [HostOps]; what the
    summon asks of the rest of the gateway is the class [DoorOps]. Everything
    between the check of the seat and its record runs under one lock per entity,
    as does every change of the queue. *)

From S2P Require Import Prelude PyStr PyVal PyNum IsoTime RunStore RunnerExec EntitySeat EntityQueue.

(** What the summon asks of the gateway around the door. *)
Class DoorOps (W : Type) := {
  (** [refuse_if_entity_archived]: the sentence of the refusal. *)
  archived : W -> option string;
  (** [home.spark()]: the error of an unreadable attested spark. *)
  spark_error : W -> option string;
  (** [render_summon_prelude]: the warnings and the spark's version of a refused
      prelude. *)
  prelude_refused : request -> W -> option (list string * val);
  (** The workspace policy and the substrate: a status and a detail when they refuse. *)
  prepare : request -> string -> W -> option (Z * val);
  (** [host.start_run] under the parked actor. *)
  start_run : request -> string -> M W string;
  (** [finalize_summon_stamp] of the minted stamp: bound to the run. *)
  final_stamp : request -> string -> string -> W -> dict;
  (** [write_entity_state] of the word [awake] with a reason, and the state read
      back from the home. *)
  write_awake : string -> dict -> dict;
  (** [SummonEntityRequest] of a stored payload: the error it raises. *)
  payload_error : request -> option string;
}.

Section Door.
Context {W : Type} `{H : HostOps W} `{D : DoorOps W}.

(** [d_life] is what [registry.state_of] answers; [d_marks] are the host markers
    (kind and subject) in the order they are written. *)
Record door := mk_door {
  d_world : W;
  d_seat : seat_file;
  d_queue : queue_file;
  d_life : dict;
  d_now : Z;
  d_marks : list (string * string);
}.
Definition put_world (w : W) (s : door) : door := mk_door w (d_seat s) (d_queue s) (d_life s) (d_now s) (d_marks s).
Definition put_seat (f : seat_file) (s : door) : door := mk_door (d_world s) f (d_queue s) (d_life s) (d_now s) (d_marks s).
Definition put_queue (q : queue_file) (s : door) : door := mk_door (d_world s) (d_seat s) q (d_life s) (d_now s) (d_marks s).
Definition put_life (l : dict) (s : door) : door := mk_door (d_world s) (d_seat s) (d_queue s) l (d_now s) (d_marks s).
Definition put_mark (m : string * string) (s : door) : door :=
  mk_door (d_world s) (d_seat s) (d_queue s) (d_life s) (d_now s) (d_marks s ++ [m]).

(** An effect on the run store. *)
Definition in_world {A} (m : M W A) : M door A := fun s => let '(r, w) := m (d_world s) in (r, put_world w s).
(** [seat_occupancy] of the door's files at its clock. *)
Definition occupancy : M door (option seat) := fun s => (seat_occupancy (status_of (d_world s)) (d_seat s) (d_now s), s).

Definition now_text (s : door) : string := isoformat (d_now s).

(** ** Answers *)

Inductive answer :=
  | Started (run_id session_id : string)
  | Enqueued (queue_id : string) (position : Z)
  | HttpError (code : Z) (detail : val).

Definition refused_detail (entity_id : string) (reasons : list string) : val :=
  VDict [("refused", VBool true); ("reasons", VList (map VStr reasons)); ("entity_id", VStr entity_id)].
Definition prelude_detail (entity_id : string) (reasons : list string) (version : val) : val :=
  VDict [("refused", VBool true); ("reasons", VList (map VStr reasons)); ("entity_id", VStr entity_id); ("spark_version", version)].
(** The detail of the kill switch: it carries the state it read. *)
Definition paused_detail (entity_id : string) (st : dict) : val :=
  VDict [("refused", VBool true);
    ("reasons", VList [VStr ("#REFUSED summon: " +:+ entity_id +:+ " is paused — the kill switch" +:+
       (if truthy (get_ "reason" st) then " (" +:+ py_str (get_ "reason" st) +:+ ")" else "") +:+
       "; an entity can only perform while alive (wake requires the operator)")]);
    ("entity_id", VStr entity_id); ("state", VDict st)].
(** The detail of a refusal for the held seat. *)
Definition held_detail (entity_id reason : string) (s : seat) (retry : Z) : val :=
  VDict ([("refused", VBool true); ("reasons", VList [VStr reason]); ("entity_id", VStr entity_id);
          ("lane", VStr "summon"); ("live_run_id", VStr (st_run_id s)); ("live_session_id", VStr (st_session_id s));
          ("retry_after_s", if retry =? 0 then VNone else VInt retry)]).

(** [_is_contention_refusal]. *)
Definition is_contention_refusal (detail : val) : option string :=
  match detail with
  | VDict d => if String.eqb (str_or (get_ "lane" d) "") "summon" then Some "seat"
               else let text := lower (py_str detail) in
                    if contains "visit is open" text || contains "visiting posture" text then Some "visit" else None
  | _ => let text := lower (py_str detail) in
         if contains "visit is open" text || contains "visiting posture" text then Some "visit" else None
  end.

(** ** [_enqueue_summon] *)

Definition with_session (sid : string) (r : request) : request :=
  mk_request (q_prompt r) (Some sid) (q_caller_kind r) (q_queue r) (q_park r) (q_rest r).
Definition enqueue_summon (entity_id fresh_session fresh_id : string) (req : request) (caller_id kind : string) : M door answer :=
  fun s =>
    let '(entries, f) := read_queue (d_queue s) in
    let s := put_queue f s in
    if QUEUE_MAX_PER_HOME <=? Z.of_nat (length (queued_entries entries)) then
      (Ok (HttpError 409 (refused_detail entity_id
        ["the door queue for " +:+ entity_id +:+ " is full (20 waiting) — retry later or leave the queue to the operator"])), s)
    else
      let stored := if String.eqb (strip (default "" (q_session_id req))) "" then with_session fresh_session req else req in
      let e := new_entry fresh_id stored caller_id kind (q_park req) (now_text s) in
      let entries := entries ++ [e] in
      let s := put_queue (write_queue entries) s in
      let pos := match position_of entries fresh_id with Some p => p | None => Z.of_nat (length (queued_entries entries)) end in
      (Ok (Enqueued fresh_id pos), put_mark ("queue_enqueued", fresh_id) s).

(** ** [_summon_core] *)

(** The identities one call draws: [secrets.token_hex]. *)
Record tokens := mk_tokens { t_session : string; t_queue_id : string }.

(** Up to the lock: the fast refusal of a queued attempt, the liveness gate, the
    prelude, and what the request asks for. [None] lets the summon go on. *)
Definition summon_gates (name entity_id : string) (req : request) (caller_id kind : string) (from_queue : bool)
    : M door (option answer) :=
  if String.eqb (strip (q_prompt req)) "" then
    ret (Some (HttpError 422 (VStr "summon prompt must not be empty or whitespace-only")))
  else
  pre <- (if from_queue then
            seat <- occupancy ;;
            match seat, door_decision seat caller_id kind (strip (default "" (q_session_id req))) with
            | Some st, Refuse n =>
                ret (Some (HttpError 409 (held_detail entity_id
                  "seat still held — the queued entry stays at head (attempt-not-grant)" st n)))
            | _, _ => ret None
            end
          else ret None) ;;
  match pre with
  | Some a => ret (Some a)
  | None =>
      s <- get ;;
      match archived (d_world s) with
      | Some m => ret (Some (HttpError 409 (VDict [("refused", VBool true); ("reason_code", VStr "entity_archived");
                                                    ("message", VStr m); ("reasons", VList [VStr m])])))
      | None =>
          let word := str_or (get_ "state" (d_life s)) "awake" in
          if String.eqb word "paused" then
            ret (Some (HttpError 409 (paused_detail entity_id (d_life s))))
          else if String.eqb word "asleep" && String.eqb (str_or (get_ "mode" (d_life s)) "") "visiting" then
            ret (Some (HttpError 409 (VStr ("a visit is open (or opening) on " +:+ name +:+
              " — visiting posture set; a summon and a visit never overlap (the phases are mutually exclusive); retry after the visit ends"))))
          else
            (if String.eqb word "asleep" then modify (put_life (write_awake ("woken by summon from person:" +:+ caller_id) (d_life s))) else ret tt) ;;;
            s <- get ;;
            match spark_error (d_world s) with
            | Some err => ret (Some (HttpError 500 (VStr ("attested spark unreadable: " +:+ err))))
            | None =>
                match prelude_refused req (d_world s) with
                | Some (reasons, version) =>
                    modify (put_mark ("prelude_refused", "")) ;;; ret (Some (HttpError 409 (prelude_detail entity_id reasons version)))
                | None =>
                    match prepare req caller_id (d_world s) with
                    | Some (code, detail) => ret (Some (HttpError code detail))
                    | None => ret None
                    end
                end
            end
      end
  end.

(** Inside the lock, after the decision: the run is started parked, stamped and
    unparked, and the seat is recorded last. *)
Definition is_quote (c : ascii) : bool := Ascii.eqb c squote || Ascii.eqb c dquote.
Definition start_parked (req : request) (session_id : string) : M door (string + answer) :=
  fun s =>
    match in_world (start_run req session_id) s with
    | (Ok rid, s) => (Ok (inl rid), s)
    | (Raise (KeyError k), s) => (Ok (inr (HttpError 404 (VStr (strip_by is_quote (repr_str k))))), s)
    | (Raise e, s) => (Ok (inr (HttpError 400 (VStr ("Failed to start summoned run: " +:+ exn_msg e)))), s)
    end.
(** The loop over [to_unpark]: each run that loads is stamped, flipped to the actor
    the runner ticks, and saved. *)
Definition set_actor (a : string) (r : run) : run :=
  mk_run (run_id r) (workflow_id r) (status r) (current_node r) (vars r) (waiting r) (output r) (error r)
    (created_at r) (updated_at r) (Some a) (session_id r) (parent_run_id r).
Definition stamped (stamp : dict) (v : val) : val :=
  let v := dict_or_empty v in
  let ns := dict_or_empty (get_ "_runtime" v) in
  VDict (dset "_runtime" (VDict (dset "run_mode" (VStr "summon") (dset "entity" (VDict stamp) ns))) v).
Definition unpark_run (stamp : dict) (now : Z) (rid : string) : M W unit := fun w =>
  match load rid w with
  | Raise x => (Raise x, w)
  | Ok None => (Ok tt, w)
  | Ok (Some r) => save (set_updated_at (utc_now_iso now) (set_actor "gateway" (set_vars (stamped stamp (vars r)) r))) w
  end.
Definition unpark (req : request) (session_id : string) (now : Z) (rid : string) : M W unit := fun w =>
  let stamp := final_stamp req session_id rid w in
  for_ (rid :: tree_children w rid) (unpark_run stamp now) w.
Definition take_seat (req : request) (caller_id session_id rid : string) (held_since : option string) : M door unit :=
  fun s => (Ok tt, put_seat (Some (record_seat (d_now s) rid session_id caller_id
    (match q_caller_kind req with Some k => if String.eqb k "" then "unknown" else k | None => "unknown" end) "" held_since)) s).

(** The cancellation of a live holder's run tree. *)
Definition preempt_holder (fuel : nat) (st : seat) (caller_id entity_id : string) : M door unit :=
  fun s =>
    let cancel :=
      if st_run_live st then
        cancel_run_tree fuel (st_run_id st)
          ("preempted: human summon by " +:+ caller_id +:+ " on " +:+ entity_id +:+ " (seat holder " +:+
           (if String.eqb (st_holder st) "" then "unknown" else st_holder st) +:+ "/" +:+ st_holder_kind st +:+ ")") (d_world s)
      else Some ([], d_world s) in
    match cancel with
    | Some (_, w) => (Ok tt, put_mark ("seat_preempted", st_run_id st) (put_world w s))
    | None => (Raise (OtherError "the walk does not end"), s)
    end.

Definition held_reason (entity_id : string) (st : seat) : string :=
  "one life, one summon: " +:+ entity_id +:+ "'s seat is held by " +:+
  (if String.eqb (st_holder st) "" then "unknown" else st_holder st) +:+ " (" +:+ st_holder_kind st +:+ ") — session " +:+
  st_session_id st +:+ ", " +:+
  (if st_run_live st then "live run" else "idle, seat held " +:+ str_of_Z (st_ttl_remaining_s st) +:+ "s more") +:+
  "; retry after retry_after_s (humans may preempt an agent-held seat by declaring caller_kind=human, or wait in line by declaring queue=true)".

Definition summon_locked (fuel : nat) (entity_id : string) (tk : tokens) (req : request) (caller_id kind session_id : string)
    (from_queue : bool) : M door answer :=
  seat <- occupancy ;;
  match seat, door_decision seat caller_id kind session_id with
  | Some st, Refuse n =>
      if q_queue req && negb from_queue then
        enqueue_summon entity_id (t_session tk) (t_queue_id tk) req caller_id kind
      else
        (if from_queue then ret tt else modify (put_mark ("summon_refused", session_id))) ;;;
        ret (HttpError 409 (held_detail entity_id (held_reason entity_id st) st n))
  | _, dec =>
      (match seat, dec with Some st, Preempt => preempt_holder fuel st caller_id entity_id | _, _ => ret tt end) ;;;
      started <- start_parked req session_id ;;
      match started with
      | inr a => ret a
      | inl rid =>
          s <- get ;;
          in_world (unpark req session_id (d_now s) rid) ;;;
          take_seat req caller_id session_id rid
            (match seat, dec with
             | Some st, Slide => if String.eqb (st_held_since st) "" then None else Some (st_held_since st)
             | _, _ => None
             end) ;;;
          modify (put_mark ("summon", rid)) ;;;
          ret (Started rid session_id)
      end
  end.

Definition session_of (req : request) (tk : tokens) : string :=
  let s := strip (default "" (q_session_id req)) in if String.eqb s "" then t_session tk else s.

Definition summon_core (fuel : nat) (name entity_id : string) (tk : tokens) (req : request) (caller_id kind : string)
    (from_queue : bool) : M door answer :=
  gate <- summon_gates name entity_id req caller_id kind from_queue ;;
  match gate with
  | Some a => ret a
  | None => summon_locked fuel entity_id tk req caller_id kind (session_of req tk) from_queue
  end.

(** [summon_entity]: the request of a signed-in caller. *)
Definition summon_entity (fuel : nat) (name entity_id : string) (tk : tokens) (req : request) (caller_id : string) : M door answer :=
  summon_core fuel name entity_id tk req caller_id
    (normalize_caller_kind (match q_caller_kind req with Some k => VStr k | None => VNone end)) false.

(** ** [_attempt_queue_admission] *)

(** An entry an earlier attempt left in [admitting], else the first that waits,
    with its place. *)
Definition find_place (f : entry -> bool) (l : list entry) : option (nat * entry) := List.find (fun ie => f (snd ie)) (numbered l).
Definition admission_head (l : list entry) : option (nat * entry) :=
  match find_place (fun e => bool_decide (state e = admitting)) l with
  | Some h => Some h
  | None => find_place is_queued l
  end.

(** Does the seat carry the entry's session and holder? *)
Definition seat_matches (st : option seat) (e : entry) : bool :=
  let stored := default "" (q_session_id (payload e)) in
  match st with
  | Some s => negb (String.eqb stored "") && String.eqb (st_session_id s) stored && String.eqb (st_holder s) (caller e)
  | None => false
  end.

(** Write the head's new value at its place in the entries read. *)
Definition write_head (i : nat) (e : entry) (entries : list entry) : M door unit :=
  modify (put_queue (write_queue (<[i := e]> entries))).

(** [_mark_admitted]. *)
Definition mark_admitted (i : nat) (e : entry) (entries : list entry) (rid sid : string) : M door unit :=
  write_head i (set_behind None (set_admitted_ids rid sid (set_state admitted e))) entries ;;;
  modify (put_mark ("queue_admitted", queue_id e)).

Definition unqueued (r : request) : request :=
  mk_request (q_prompt r) (q_session_id r) (q_caller_kind r) false false (q_rest r).

(** The head as the intent write leaves it. *)
Definition intent (e : entry) (now_ : string) : entry := set_state admitting (set_attempt (attempts e + 1) now_ e).

(** After the intent write: run the summon and write what became of the head. *)
Definition execute_head (fuel : nat) (name entity_id : string) (tk : tokens) (i : nat) (e : entry) (entries : list entry) : M door unit :=
  fun s =>
    match summon_core fuel name entity_id tk (unqueued (payload e))
            (if String.eqb (caller e) "" then "operator" else caller e)
            (if String.eqb (caller_kind e) "" then "agent" else caller_kind e) true s with
    | (Ok (HttpError code detail), s) =>
        match is_contention_refusal detail with
        | Some c =>
            write_head i (set_behind (if String.eqb c "visit" then Some "visit" else None) (set_state queued e)) entries s
        | None =>
            (write_head i (set_reason (py_str detail) (set_state failed e)) entries ;;;
             modify (put_mark ("queue_reaped", queue_id e))) s
        end
    | (Ok (Started rid sid), s) => mark_admitted i e entries rid sid s
    | (Ok (Enqueued _ _), s) => mark_admitted i e entries "" "" s
    | (Raise x, s) => (write_head i (set_state queued e) entries ;;; raise x) s
    end.

Definition attempt_queue_admission (fuel : nat) (name entity_id : string) (tk : tokens) : M door unit :=
  fun s0 =>
    let '(entries, f) := read_queue (d_queue s0) in
    let s := put_queue f s0 in
    match admission_head entries with
    | None => (Ok tt, s)
    | Some (i, e) =>
        let go :=
          match payload_error (payload e) with
          | Some err =>
              write_head i (set_reason ("stored payload no longer parses: " +:+ err) (set_state failed e)) entries ;;;
              modify (put_mark ("queue_reaped", queue_id e))
          | None =>
              let e := intent e (now_text s) in
              write_head i e entries ;;; execute_head fuel name entity_id tk i e entries
          end in
        if bool_decide (state e = admitting) then
          match seat_occupancy (status_of (d_world s)) (d_seat s) (d_now s) with
          | Raise x => (Raise x, s)
          | Ok st =>
              if seat_matches st e then
                mark_admitted i e entries (match st with Some x => st_run_id x | None => "" end)
                  (default "" (q_session_id (payload e))) s
              else go s
          end
        else go s
    end.

(** ** The poll, the step-away and the sweep *)

Record view := mk_view { v_state : qstate; v_position : option Z; v_run_id : option string; v_reason : option string }.
Definition entry_view (entries : list entry) (e : entry) : view :=
  mk_view (state e) (position_of entries (queue_id e))
    (match admitted_run_id e with Some r => if String.eqb r "" then None else Some r | None => None end)
    (failed_reason e).

(** [poll_queue_entry]; [None] is the 404. *)
Definition poll_queue_entry (fuel : nat) (name entity_id : string) (tk : tokens) (qid : string) : M door (option view) :=
  fun s0 =>
    let '(entries, f) := read_queue (d_queue s0) in
    let s := put_queue f s0 in
    match find_entry entries qid with
    | None => (Ok None, s)
    | Some e =>
        let s := if is_queued e then put_queue (write_queue (update_entry qid (set_poll (now_text s)) entries)) s else s in
        let s := snd (attempt_queue_admission fuel name entity_id tk s) in
        let '(entries, f) := read_queue (d_queue s) in
        let s := put_queue f s in
        match find_entry entries qid with
        | None => (Ok None, s)
        | Some e =>
            match seat_occupancy (status_of (d_world s)) (d_seat s) (d_now s) with
            | Raise x => (Raise x, s)
            | Ok _ => (Ok (Some (entry_view entries e)), s)
            end
        end
    end.

(** [leave_queue]. *)
Definition leave_queue (qid : string) : M door (option view) :=
  fun s0 =>
    let '(entries, f) := read_queue (d_queue s0) in
    let s := put_queue f s0 in
    match find_entry entries qid with
    | None => (Ok None, s)
    | Some e =>
        if is_queued e then
          let entries := update_entry qid (set_state stepped_away) entries in
          let s := put_mark ("queue_stepped_away", qid) (put_queue (write_queue entries) s) in
          (Ok (Some (entry_view entries (set_state stepped_away e))), s)
        else (Ok (Some (entry_view entries e)), s)
    end.

(** [_queue_sweep], the lock acquired. *)
Definition queue_sweep (fuel : nat) (name entity_id : string) (tk : tokens) : M door unit :=
  fun s0 =>
    let '(entries, f) := read_queue (d_queue s0) in
    let s := put_queue f s0 in
    let '(entries', gone) := reap_poll_silent (d_now s) entries in
    let s := match gone with
             | [] => s
             | _ => fold_left (fun s e => put_mark ("queue_reaped", queue_id e) s) gone (put_queue (write_queue entries') s)
             end in
    attempt_queue_admission fuel name entity_id tk s.
End Door.
Arguments door W : clear implicits.
