(* ===== verification/EntityDoorFacts.v ===== *)
(** * The door of an entity, correctness

    Who may take the seat; what an admission attempt changes of the queue; and the
    executions in which the seat or the queue forgets a run. *)

From S2P Require Import Prelude PyStr PyVal PyNum IsoTime RunStore MemoryHost EntitySeat EntityQueue EntityDoor.

Section Facts.
Context {W : Type} `{H : HostOps W} `{D : DoorOps W}.
Implicit Types (s : door W) (req : request).

(** What the gates leave alone. *)
Definition same_files (s s' : door W) : Prop :=
  d_world s' = d_world s /\ d_seat s' = d_seat s /\ d_queue s' = d_queue s /\ d_now s' = d_now s.
Definition is_error (a : answer) : Prop := match a with HttpError _ _ => True | _ => False end.
(** A gate changes none of it, and only ever answers an error. *)
Definition gate_ok s (o : res (option answer) * door W) : Prop :=
  same_files s (snd o) /\ match fst o with Ok (Some a) => is_error a | _ => True end.

(** One rewriting of a step that reads or writes the state. *)
Ltac door_step := unfold mbind_, ret, get, modify, occupancy; cbn beta iota.

Lemma fast_path_files eid who kind sid s :
  gate_ok s ((seat <- occupancy ;;
            match seat, door_decision seat who kind sid with
            | Some st, Refuse n =>
                ret (Some (HttpError 409 (held_detail eid
                  "seat still held — the queued entry stays at head (attempt-not-grant)" st n)))
            | _, _ => ret None
            end) s).
Proof. door_step. destruct (seat_occupancy _ _ _) as [[st|]|]; [destruct (door_decision _ _ _ _)| |]; done. Qed.

Lemma gate_rest_files (req : request) who s (l : dict) eid :
  gate_ok s ((s <- get ;;
     match spark_error (d_world s) with
     | Some err => ret (Some (HttpError 500 (VStr ("attested spark unreadable: " +:+ err))))
     | None =>
         match prelude_refused req (d_world s) with
         | Some (reasons, version) =>
             modify (put_mark ("prelude_refused", "")) ;;; ret (Some (HttpError 409 (prelude_detail eid reasons version)))
         | None =>
             match prepare req who (d_world s) with
             | Some (code, detail) => ret (Some (HttpError code detail))
             | None => ret None
             end
         end
     end) s).
Proof.
  door_step. destruct (spark_error _); [done|]. destruct (prelude_refused _ _) as [[??]|]; [done|].
  destruct (prepare _ _ _) as [[??]|]; done.
Qed.
Lemma summon_gates_files name eid req who kind fq s :
  gate_ok s (summon_gates name eid req who kind fq s).
Proof.
  unfold summon_gates. destruct (String.eqb _ ""); [done|]. unfold mbind_ at 1.
  set (fast := if fq then _ else _).
  assert (gate_ok s (fast s)) as Hf by (unfold fast; destruct fq; [apply fast_path_files|done]).
  destruct (fast s) as [[[a|]|x] s1]; [exact Hf| |exact Hf]. clear fast.
  unfold mbind_ at 1, get. destruct (archived _); [done|]. cbv zeta.
  destruct (String.eqb _ "paused"); [done|]. destruct (_ && _); [done|].
  unfold mbind_ at 1. set (woken := if String.eqb _ "asleep" then _ else _).
  assert (exists l, woken s1 = (Ok tt, put_life l s1)) as [l Hw].
  { unfold woken. destruct (String.eqb _ _); [by eexists|]. exists (d_life s1). by destruct s1. }
  rewrite Hw. destruct (gate_rest_files req who (put_life l s1) l eid) as [(?&?&?&?) Ha].
  destruct Hf as [(?&?&?&?) _]. split; [|exact Ha]. repeat split; (etrans; [eassumption|]); done.
Qed.

Lemma occupancy_same s s' : same_files s s' -> fst (occupancy s') = fst (occupancy s).
Proof. intros (Hw & Hs & _ & Hn). unfold occupancy. simpl. by rewrite Hw, Hs, Hn. Qed.

Lemma in_world_files {A} (m : M W A) s :
  d_seat (snd (in_world m s)) = d_seat s /\ d_queue (snd (in_world m s)) = d_queue s /\ d_now (snd (in_world m s)) = d_now s.
Proof. unfold in_world. by destruct (m (d_world s)). Qed.

(** What a queued request leaves: an error, or one more entry at the end. *)
Lemma enqueue_summon_spec eid tk req who kind s :
  let entries := fst (read_queue (d_queue s)) in
  exists a s', enqueue_summon eid (t_session tk) (t_queue_id tk) req who kind s = (Ok a, s') /\
    d_world s' = d_world s /\ d_seat s' = d_seat s /\
    match a with
    | HttpError _ _ => 20 <= Z.of_nat (length (queued_entries entries)) /\ d_queue s' = snd (read_queue (d_queue s))
    | Enqueued qid pos =>
        Z.of_nat (length (queued_entries entries)) < 20 /\ qid = t_queue_id tk /\
        exists e, d_queue s' = write_queue (entries ++ [e]) /\
          e = new_entry qid (payload e) who kind (q_park req) (isoformat (d_now s)) /\
          q_prompt (payload e) = q_prompt req /\
          (strip (t_session tk) <> "" -> strip (default "" (q_session_id (payload e))) <> "")
    | Started _ _ => False
    end.
Proof.
  unfold enqueue_summon, QUEUE_MAX_PER_HOME. destruct (read_queue _) as [entries f]. simpl.
  destruct (Z.leb_spec 20 (Z.of_nat (length (queued_entries entries)))) as [Hn|Hn];
    [do 2 eexists; repeat split; done|].
  do 2 eexists. split; [done|]. simpl. repeat split; [lia|]. eexists. split; [done|]. simpl. split; [done|].
  destruct (String.eqb_spec (strip (default "" (q_session_id req))) ""); simpl; done.
Qed.

(** The decision and the act under the lock. *)
Definition took s (who kind sid : string) (rid : string) (s' : door W) : Prop :=
  exists st k h, fst (occupancy s) = Ok st /\ (forall n, door_decision st who kind sid <> Refuse n) /\
    d_seat s' = Some (record_seat (d_now s) rid sid who k "" h) /\ d_queue s' = d_queue s /\
    (door_decision st who kind sid = Slide -> h = match st with Some st => if String.eqb (st_held_since st) "" then None else Some (st_held_since st) | None => None end) /\
    (door_decision st who kind sid <> Slide -> h = None).
Definition refused s (who kind sid : string) (st : seat) : Prop :=
  fst (occupancy s) = Ok (Some st) /\ exists n, door_decision (Some st) who kind sid = Refuse n.

Lemma preempt_files fuel st who eid s :
  d_seat (snd (preempt_holder fuel st who eid s)) = d_seat s /\ d_queue (snd (preempt_holder fuel st who eid s)) = d_queue s /\
  d_now (snd (preempt_holder fuel st who eid s)) = d_now s.
Proof. unfold preempt_holder. destruct (st_run_live st); [destruct (cancel_run_tree _ _ _ _) as [[??]|]|]; done. Qed.
Lemma start_parked_files req sid s :
  d_seat (snd (start_parked req sid s)) = d_seat s /\ d_queue (snd (start_parked req sid s)) = d_queue s /\
  d_now (snd (start_parked req sid s)) = d_now s /\
  match fst (start_parked req sid s) with Ok (inr a) => is_error a | Ok (inl _) => True | Raise _ => False end.
Proof.
  unfold start_parked. destruct (in_world_files (start_run req sid) s) as (?&?&?).
  destruct (in_world (start_run req sid) s) as [[r|[]] s1]; done.
Qed.
(** What a summon may answer and leave behind. *)
Definition queued_up s (req : request) (tk : tokens) (who kind qid : string) (s' : door W) : Prop :=
  d_world s' = d_world s /\ d_seat s' = d_seat s /\ qid = t_queue_id tk /\
  let entries := fst (read_queue (d_queue s)) in
  Z.of_nat (length (queued_entries entries)) < 20 /\
  exists e, d_queue s' = write_queue (entries ++ [e]) /\
    e = new_entry qid (payload e) who kind (q_park req) (isoformat (d_now s)) /\
    q_prompt (payload e) = q_prompt req /\
    (strip (t_session tk) <> "" -> strip (default "" (q_session_id (payload e))) <> "").
Definition left_alone s (who kind sid : string) (s' : door W) : Prop :=
  d_seat s' = d_seat s /\ (d_queue s' = d_queue s \/ d_queue s' = snd (read_queue (d_queue s))) /\
  forall st, refused s who kind sid st -> d_world s' = d_world s.
Definition door_outcome s (req : request) (tk : tokens) (who kind sid : string) (fq : bool) (o : res answer * door W) : Prop :=
  match fst o with
  | Ok (Started rid sid') => sid' = sid /\ took s who kind sid rid (snd o)
  | Ok (Enqueued qid _) =>
      q_queue req = true /\ fq = false /\ (exists st, refused s who kind sid st) /\ queued_up s req tk who kind qid (snd o)
  | Ok (HttpError _ _) | Raise _ => left_alone s who kind sid (snd o)
  end.

(** Once the decision is not a refusal: the run, the stamp, the seat. *)
Lemma seat_taken fuel eid tk req who kind sid fq s st dec :
  fst (occupancy s) = Ok st -> dec = door_decision st who kind sid -> (forall n, dec <> Refuse n) ->
  door_outcome s req tk who kind sid fq
    (((match st, dec with Some st, Preempt => preempt_holder fuel st who eid | _, _ => ret tt end) ;;;
      started <- start_parked req sid ;;
      match started with
      | inr a => ret a
      | inl rid =>
          s <- get ;;
          in_world (unpark req sid (d_now s) rid) ;;;
          take_seat req who sid rid
            (match st, dec with
             | Some st, Slide => if String.eqb (st_held_since st) "" then None else Some (st_held_since st)
             | _, _ => None
             end) ;;;
          modify (put_mark ("summon", rid)) ;;;
          ret (Started rid sid)
      end) s).
Proof.
  intros Ho Hd Hr.
  assert (forall s', d_seat s' = d_seat s -> d_queue s' = d_queue s -> left_alone s who kind sid s') as Hla.
  { intros s' Hs Hq. split; [done|]. split; [by left|]. intros x [Hx [n Hn]]. rewrite Ho in Hx. simplify_eq. by destruct (Hr n). }
  unfold mbind_ at 1. set (pre := match st with Some _ => _ | None => _ end).
  assert (d_seat (snd (pre s)) = d_seat s /\ d_queue (snd (pre s)) = d_queue s /\ d_now (snd (pre s)) = d_now s) as (Hs1 & Hq1 & Hn1).
  { unfold pre. destruct st as [st|]; [|done]. destruct dec; try done. apply preempt_files. }
  destruct (pre s) as [[[]|x] s1]; simpl in *; [|by apply Hla]. clear pre.
  unfold mbind_ at 1. destruct (start_parked_files req sid s1) as (Hs2 & Hq2 & Hn2 & Ha).
  destruct (start_parked req sid s1) as [[[rid|a]|x] s2]; simpl in *; [| |done].
  2: { destruct a; try done. apply Hla; simpl; congruence. }
  unfold mbind_ at 1, get. unfold mbind_ at 1.
  destruct (in_world_files (unpark req sid (d_now s2) rid) s2) as (Hs3 & Hq3 & Hn3).
  destruct (in_world _ s2) as [[[]|x] s3]; simpl in *; [|apply Hla; simpl; congruence].
  split; [done|]. exists st. do 2 eexists. split; [done|]. split; [congruence|].
  simpl. rewrite Hn3, Hn2, Hn1. split; [done|]. split; [congruence|]. rewrite <-Hd.
  split; [intros ->; by destruct st|intros ?; by destruct st, dec].
Qed.

Lemma summon_locked_spec fuel eid tk req who kind sid fq s :
  door_outcome s req tk who kind sid fq (summon_locked fuel eid tk req who kind sid fq s).
Proof.
  unfold summon_locked. unfold mbind_ at 1. unfold occupancy at 1.
  destruct (seat_occupancy _ _ _) as [st|x] eqn:Eo.
  2: { split; [done|]. split; [by left|]. done. }
  assert (fst (occupancy s) = Ok st) as Ho by done. clear Eo.
  pose proof (fun dec => seat_taken fuel eid tk req who kind sid fq s st dec Ho) as Ht.
  destruct st as [st|]; [|by apply (Ht Take)].
  destruct (door_decision (Some st) who kind sid) as [| | |n] eqn:Ed; [by apply (Ht Take)|by apply (Ht Slide)|by apply (Ht Preempt)|].
  assert (refused s who kind sid st) as Hrf by (split; [done|by eexists]).
  destruct (q_queue req && negb fq) eqn:Eq.
  - apply andb_true_iff in Eq as [Hq Hf%negb_true_iff].
    destruct (enqueue_summon_spec eid tk req who kind s) as (a & s' & -> & Hw & Hs & Ha).
    destruct a as [|qid pos|]; [done| |]; unfold door_outcome; simpl.
    + destruct Ha as (Hn & -> & Ha). repeat split; try done. by eexists.
    + destruct Ha as [_ Ha]. split; [done|]. split; [by right|]. done.
  - destruct fq; (split; [done|]; split; [by left|]; done).
Qed.

(** The door of an entity. A summon that starts a run found the seat free, its
    own, or a human's to take from a machine: exactly where the decision does not
    refuse; it leaves the seat recorded for its run, session and caller at the
    present instant, keeping since when a continued conversation holds it. A
    summon that is queued was refused the seat, asked to wait, found fewer than
    twenty waiting, and adds one entry at the end with its prompt and a session.
    Every other answer, exceptions included, leaves the seat as it was; and a
    caller the seat refuses starts, stamps and cancels nothing. *)
Theorem summon_core_spec fuel name eid tk req who kind fq s :
  door_outcome s req tk who kind (session_of req tk) fq (summon_core fuel name eid tk req who kind fq s).
Proof.
  unfold summon_core. unfold mbind_ at 1. destruct (summon_gates_files name eid req who kind fq s) as [Hsame Ha].
  destruct (summon_gates _ _ _ _ _ _ _) as [[[a|]|x] s1]; simpl in *; pose proof Hsame as (Hw & Hs & Hq & Hn).
  - destruct a; try done. split; [done|]. split; [by left|]. done.
  - pose proof (summon_locked_spec fuel eid tk req who kind (session_of req tk) fq s1) as H1.
    pose proof (occupancy_same _ _ Hsame) as Ho. unfold door_outcome, took, queued_up, left_alone, refused in *.
    rewrite Ho, Hw, Hs, Hq, Hn in H1. exact H1.
  - split; [done|]. split; [by left|]. done.
Qed.

(** The run of a seat is known to the store and has not ended. *)
Definition run_lives s (rid : string) : bool :=
  match run_status (status_of (d_world s) rid) rid with Some x => negb (bool_decide (x ∈ TERMINAL)) | None => false end.

(** C33: The run a seat records keeps it. From the record of a started run on, while
    that run, the last one recorded, has not ended or five minutes have not passed, a
    caller that is not a declared human and not the recorded holder is never given a
    run: nothing is started, stamped or cancelled in the store, and the seat stays as
    recorded. *)
Theorem seat_protects fuel name eid tk req other kind fq s t rid sid who k h :
  d_seat s = Some (record_seat t rid sid who k "" h) -> in_calendar t -> strip rid = rid -> rid <> "" -> k <> "" ->
  run_lives s rid = true \/ d_now s < t + 300 * second ->
  normalize_caller_kind (VStr kind) = "agent" -> who <> other ->
  let '(r, s') := summon_core fuel name eid tk req other kind fq s in
  (forall i j, r <> Ok (Started i j)) /\ d_world s' = d_world s /\ d_seat s' = d_seat s.
Proof.
  intros Hseat Ht Hs Hr Hk Hlive Hag Hne.
  assert (exists st, fst (occupancy s) = Ok (Some st) /\ st_holder st = who) as (st & Ho & Hh).
  { unfold occupancy. cbn [fst]. rewrite Hseat, occupancy_recorded by done. cbv zeta. fold (run_lives s rid).
    assert (negb (run_lives s rid) && (ttl_remaining (Some t) SEAT_IDLE_TTL_S (d_now s) <=? 0) = false) as ->; [|eexists; split; reflexivity].
    destruct Hlive as [->|Hlt]; [done|]. apply andb_false_iff. right. apply Z.leb_gt. by apply ttl_remaining_pos. }
  assert (refused s other kind (session_of req tk) st) as Hrf.
  { split; [done|]. eexists. by apply refused_agent; congruence. }
  pose proof (summon_core_spec fuel name eid tk req other kind fq s) as Hspec.
  destruct (summon_core _ _ _ _ _ _ _ _ _) as [r s']. unfold door_outcome in Hspec. simpl in Hspec.
  destruct r as [[i j|qid pos|code d]|x].
  - destruct Hspec as [_ (st' & _ & _ & Ho' & Hd & _)]. destruct Hrf as [_ [n Hn]]. rewrite Ho in Ho'. simplify_eq. by destruct (Hd n).
  - destruct Hspec as (_ & _ & _ & Hw & Hq & _). done.
  - destruct Hspec as (Hq & _ & Hw). split; [done|]. split; [by eapply Hw|done].
  - destruct Hspec as (Hq & _ & Hw). split; [done|]. split; [by eapply Hw|done].
Qed.

(** ** The cancellation of a run tree *)

(** The walk ends when the ids it can meet are finitely many: each is walked once,
    and only then are its children queued. *)
Lemma cancel_tree_go_total (P : W -> Prop) (U : gset string) (B : nat) reason :
  (forall w rid, P w -> P (snd (cancel_run rid reason w))) ->
  (forall w rid, P w -> (forall c, c ∈ tree_children w rid -> c ∈ U) /\ (length (tree_children w rid) <= B)%nat) ->
  forall fuel queue seen cancelled w,
  P w -> (forall c, c ∈ queue -> c ∈ U) -> (size (U ∖ seen) * B + length queue <= fuel)%nat ->
  exists r, cancel_tree_go fuel reason queue seen cancelled w = Some r.
Proof.
  intros HP HU fuel. induction fuel as [|fuel IH]; intros [|rid queue] seen cancelled w Hw Hq Hf; simpl in *;
    [by eexists|lia|by eexists|].
  destruct (bool_decide_reflect (rid ∈ seen)) as [Hs|Hs]; [apply IH; [done|set_solver|lia]|].
  assert (size (U ∖ seen) = S (size (U ∖ ({[rid]} ∪ seen)))) as Hsz.
  { replace (U ∖ seen) with ({[rid]} ∪ U ∖ ({[rid]} ∪ seen) : gset string).
    - rewrite size_union, size_singleton by set_solver. lia.
    - apply leibniz_equiv. intros x. destruct (decide (x = rid)) as [->|]; set_solver. }
  assert (forall w', P w' -> (size (U ∖ ({[rid]} ∪ seen)) * B + length (queue ++ tree_children w' rid) <= fuel)%nat) as Hlen.
  { intros w' Hw'. destruct (HU w' rid Hw'). rewrite length_app. lia. }
  assert (forall w' c, P w' -> c ∈ queue ++ tree_children w' rid -> c ∈ U) as Hin.
  { intros w' c Hw' [?|?]%elem_of_app; [set_solver|by apply (proj1 (HU w' rid Hw'))]. }
  assert (forall w', P w' -> exists r, cancel_tree_go fuel reason queue ({[rid]} ∪ seen) cancelled w' = Some r) as Hgone.
  { intros w' Hw'. apply IH; [done|set_solver|]. specialize (Hlen w' Hw'). rewrite length_app in Hlen. lia. }
  pose proof (HP w rid Hw) as Hw'.
  destruct (cancel_run rid reason w) as [[[]|[]] w']; simpl in Hw';
    first [by apply Hgone | apply IH; [done|intros c; by apply Hin|by apply Hlen]].
Qed.

(** The cancellation of a holder's run tree ends, with the fuel of one step per
    run and per child named. *)
Theorem cancel_run_tree_total (P : W -> Prop) (U : gset string) (B fuel : nat) root reason w :
  (forall w rid, P w -> P (snd (cancel_run rid reason w))) ->
  (forall w rid, P w -> (forall c, c ∈ tree_children w rid -> c ∈ U) /\ (length (tree_children w rid) <= B)%nat) ->
  P w -> root ∈ U -> (size U * B + 1 <= fuel)%nat ->
  exists ids w', cancel_run_tree fuel root reason w = Some (ids, w').
Proof.
  intros HP HU Hw Hr Hf. destruct (cancel_tree_go_total P U B reason HP HU fuel [root] ∅ [] w) as [[ids w'] Hg]; [done|set_solver| |by do 2 eexists].
  by rewrite difference_empty_L.
Qed.

(** ** The admission *)

Lemma find_place_go (f : entry -> bool) l k i e :
  List.find (fun ie => f (snd ie)) (imap (fun n x => (k + n, x)%nat) l) = Some (i, e) ->
  exists j, i = (k + j)%nat /\ l !! j = Some e /\ f e = true /\ forall m x, (m < j)%nat -> l !! m = Some x -> f x = false.
Proof.
  revert k. induction l as [|x l IH]; intros k; [done|]. cbn [imap List.find]. simpl. destruct (f x) eqn:E.
  - intros [= <- <-]. exists 0%nat. split; [done|]. split; [done|]. split; [done|]. intros; lia.
  - intros Hf. replace (imap _ l) with (imap (fun n y => (S k + n, y)%nat) l) in Hf
      by (apply imap_ext; intros; simpl; by rewrite Nat.add_succ_r).
    apply IH in Hf as (j & -> & Hj & He & Hm). exists (S j). split; [lia|]. split; [done|]. split; [done|].
    intros [|m] y Hlt Hy; simpl in Hy; [congruence|]. apply (Hm m); [lia|done].
Qed.
Lemma find_place_spec f l i e :
  find_place f l = Some (i, e) -> l !! i = Some e /\ f e = true /\ forall m x, (m < i)%nat -> l !! m = Some x -> f x = false.
Proof. intros H'. apply (find_place_go f l 0) in H' as (j & -> & ? & ? & ?). done. Qed.
Lemma find_place_none f l e : find_place f l = None -> e ∈ l -> f e = false.
Proof.
  intros H' [i Hi]%list_elem_of_lookup_1. apply (find_none _ _ H' (i, e)).
  apply list_elem_of_In. by apply numbered_elem.
Qed.

(** The head: an attempt that was interrupted, else the first that waits. *)
Definition is_head (l : list entry) (i : nat) (e : entry) : Prop :=
  l !! i = Some e /\
  (state e = admitting \/
   state e = queued /\ (forall v, v ∈ l -> state v <> admitting) /\ forall m v, (m < i)%nat -> l !! m = Some v -> state v <> queued).
Lemma admission_head_spec l i e : admission_head l = Some (i, e) -> is_head l i e.
Proof.
  unfold admission_head. destruct (find_place _ _) as [[j v]|] eqn:E.
  - intros [= <- <-]. apply find_place_spec in E as (? & ?%bool_decide_eq_true & _). split; [done|by left].
  - intros (Hi & Hq%bool_decide_eq_true & Hb)%find_place_spec. split; [done|]. right. split; [done|]. split.
    + intros v Hv. by eapply find_place_none in E; [apply bool_decide_eq_false in E|].
    + intros m v Hm Hv. by eapply Hb, bool_decide_eq_false in Hv.
Qed.
(** The same ticket: what an attempt never changes of an entry. *)
Definition same_ticket (e e' : entry) : Prop :=
  queue_id e' = queue_id e /\ payload e' = payload e /\ caller e' = caller e /\ caller_kind e' = caller_kind e /\
  park e' = park e /\ enqueued_at e' = enqueued_at e /\ last_poll_at e' = last_poll_at e.

(** What an attempt writes at the place of the head, from the state [s]. *)
Definition head_after s (e : entry) (o : res unit * door W) (e' : entry) : Prop :=
  same_ticket e e' /\
  match state e' with
  | admitted =>
      fst o = Ok tt /\ exists rid sid, admitted_run_id e' = Some rid /\ admitted_session_id e' = Some sid /\
        ((state e = admitting /\ d_seat (snd o) = d_seat s /\ d_world (snd o) = d_world s /\
          exists st, fst (occupancy s) = Ok (Some st) /\ st_run_id st = rid /\ st_session_id st = sid /\ st_holder st = caller e)
         \/ exists who k h, who = (if String.eqb (caller e) "" then "operator" else caller e) /\
              d_seat (snd o) = Some (record_seat (d_now s) rid sid who k "" h))
  | queued => d_seat (snd o) = d_seat s /\ attempts e' = attempts e + 1
  | failed => fst o = Ok tt /\ d_seat (snd o) = d_seat s /\ failed_reason e' <> None
  | _ => False
  end.

Lemma execute_head_spec fuel name eid tk i e0 entries s :
  exists e', d_queue (snd (execute_head fuel name eid tk i (intent e0 (isoformat (d_now s))) entries s)) = write_queue (<[i := e']> entries) /\
    head_after s e0 (execute_head fuel name eid tk i (intent e0 (isoformat (d_now s))) entries s) e'.
Proof.
  unfold execute_head. set (e := intent e0 _).
  pose proof (summon_core_spec fuel name eid tk (unqueued (payload e)) (if String.eqb (caller e) "" then "operator" else caller e)
    (if String.eqb (caller_kind e) "" then "agent" else caller_kind e) true s) as Ho.
  destruct (summon_core _ _ _ _ _ _ _ _ _) as [[[rid sid|qid pos|code detail]|x] s1]; unfold door_outcome in Ho; simpl in Ho.
  - destruct Ho as [-> (st & k & h & _ & _ & Hseat & _)].
    eexists. split; [done|]. repeat split; try done. do 2 eexists. split; [done|]. split; [done|]. right. by do 3 eexists.
  - by destruct Ho as (? & _).
  - destruct Ho as (Hseat & _ & _). destruct (is_contention_refusal detail) as [c|].
    + eexists. split; [done|]. repeat split; done.
    + eexists. split; [done|]. repeat split; done.
  - destruct Ho as (Hseat & _ & _). eexists. split; [done|]. repeat split; done.
Qed.
(** An admission attempt concerns one entry: the one an earlier attempt left
    half way, else the first that waits. Nothing else of the queue changes, and of
    that entry neither the ticket nor its place. It ends admitted, and then with
    the run and session the seat is recorded with for its caller (or, half way,
    already was); or waiting again, one attempt counted; or failed with a reason;
    and unless it is admitted the seat is as it was. *)
Theorem admission_spec fuel name eid tk s :
  let entries := fst (read_queue (d_queue s)) in
  let o := attempt_queue_admission fuel name eid tk s in
  match admission_head entries with
  | None => fst o = Ok tt /\ d_world (snd o) = d_world s /\ d_seat (snd o) = d_seat s /\ d_queue (snd o) = snd (read_queue (d_queue s))
  | Some (i, e) =>
      is_head entries i e /\
      ((d_world (snd o) = d_world s /\ d_seat (snd o) = d_seat s /\ d_queue (snd o) = snd (read_queue (d_queue s)) /\
        exists x, fst (occupancy s) = Raise x) \/
       exists e', d_queue (snd o) = write_queue (<[i := e']> entries) /\ head_after s e o e')
  end.
Proof.
  unfold attempt_queue_admission. destruct (read_queue (d_queue s)) as [entries f]. simpl.
  destruct (admission_head entries) as [[i e]|] eqn:Eh; [|done]. split; [by apply admission_head_spec|].
  set (go := match payload_error (payload e) with Some _ => _ | None => _ end).
  assert (exists e', d_queue (snd (go (put_queue f s))) = write_queue (<[i := e']> entries) /\ head_after s e (go (put_queue f s)) e') as Hgo.
  { unfold go. destruct (payload_error (payload e)) as [err|].
    - eexists. split; [done|]. repeat split; done.
    - set (s1 := put_queue (write_queue (<[i := intent e (isoformat (d_now s))]> entries)) s).
      exact (execute_head_spec fuel name eid tk i e entries s1). }
  destruct (bool_decide_reflect (state e = admitting)) as [Ha|]; [|by right].
  unfold occupancy. simpl. destruct (seat_occupancy _ _ _) as [st|x] eqn:Eo; [|by left; eauto].
  destruct (seat_matches st e) eqn:Em; [|by right]. right. eexists. split; [done|].
  destruct st as [st|]; [|done]. unfold seat_matches in Em. bool_to_prop.
  repeat split; try done. do 2 eexists. split; [done|]. split; [done|]. left.
  split; [done|]. split; [done|]. split; [done|]. exists st. unfold occupancy. simpl. rewrite Eo. done.
Qed.
End Facts.

(** ** The door of an entity, executions

    A concrete gateway around the door, over the in-memory host, and executions of
    it: a conversation that continues while its previous run still lives, an
    admission interrupted before the seat is recorded, an interrupted admission
    whose caller came by another way, and a poll after a long wait. *)

Definition started_run (sid : string) (prompt : string) (m : mem) : run :=
  mk_run ("run-" +:+ str_of_Z (Z.of_nat (length (m_runs m)))) "wf" RUNNING "start" (VDict [("prompt", VStr prompt)]) None VNone None
    "t" "t" (Some "gateway:summon-pending") (Some sid) None.

#[export] Instance demo_door : DoorOps mem := {
  archived _ := None;
  spark_error _ := None;
  prelude_refused _ _ := None;
  prepare _ _ _ := None;
  start_run req sid m := let r := started_run sid (q_prompt req) m in (Ok (run_id r), mem_save r m);
  final_stamp req sid rid m := [("run_id", VStr rid)];
  write_awake reason d := dset "state" (VStr "awake") d;
  payload_error _ := None;
}.

Definition ask (prompt sid : string) : request := mk_request prompt (Some sid) None false false [].
Definition line_up (prompt sid : string) : request := mk_request prompt (Some sid) None true false [].
Definition t0 : Z := 1750000000 * second.
Definition door0 : door mem := mk_door (mem_of []) None Absent [] t0 [].
Definition at_ (now : Z) (s : door mem) : door mem := mk_door (d_world s) (d_seat s) (d_queue s) (d_life s) now (d_marks s).
Definition summon (prompt sid who : string) : M (door mem) answer :=
  summon_entity 50 "ada" "ada" (mk_tokens "fresh" "q0") (ask prompt sid) who.
Definition finish (rid : string) (s : door mem) : door mem :=
  put_world (match mem_find rid (m_runs (d_world s)) with Some r => mem_save (with_status COMPLETED r) (d_world s) | None => d_world s end) s.

(** A run that lives and that the runner ticks. *)
Definition lives (rid : string) (s : door mem) : bool :=
  match mem_find rid (m_runs (d_world s)) with
  | Some r => bool_decide (status r = RUNNING) && gateway_owned r
  | None => false
  end.

(** One life, one summon, is not kept across the turns of a conversation: the
    second summon of a conversation is let in while the run of the first lives,
    and the seat then only knows the second. When that one has ended and the idle
    time has passed, another caller's summon is let in, and its run lives beside
    the first. *)
Theorem slide_forgets_live_run :
  let '(a1, s1) := summon "one" "S" "bot" door0 in
  let '(a2, s2) := summon "two" "S" "bot" s1 in
  let '(a3, s3) := summon "three" "T" "other" (at_ (t0 + 301 * second) (finish "run-1" s2)) in
  a1 = Ok (Started "run-0" "S") /\ a2 = Ok (Started "run-1" "S") /\ lives "run-0" s2 = true /\ lives "run-1" s2 = true /\
  a3 = Ok (Started "run-2" "T") /\ lives "run-0" s3 = true /\ lives "run-2" s3 = true.
Proof. vm_compute. repeat split. Qed.

(** ** Interrupted admissions *)

(** The entry of a caller that waits. *)
Definition waiter : entry := new_entry "q1" (line_up "stored" "S") "bot" "agent" false (isoformat t0).
Definition door1 : door mem := put_queue (Entries [waiter]) door0.
(** The admission up to the end of the unparking, and no further: the process
    dies before it records the seat. *)
Definition admission_prefix : M (door mem) unit :=
  write_head 0 (intent waiter (isoformat t0)) [waiter] ;;;
  started <- start_parked (unqueued (payload waiter)) "S" ;;
  match started with
  | inl rid => in_world (unpark (unqueued (payload waiter)) "S" t0 rid)
  | inr _ => ret tt
  end.
Definition attempt (s : door mem) : res unit * door mem := attempt_queue_admission 50 "ada" "ada" (mk_tokens "fresh" "q0") s.
Definition prompts (s : door mem) : list val :=
  map (fun r => get_ "prompt" (dict_or_empty (vars r))) (m_runs (d_world s)).
Definition states (s : door mem) : list (qstate * option string) :=
  map (fun e => (state e, admitted_run_id e)) (fst (read_queue (d_queue s))).

(** The stored prompt of a queued summon can run twice: when the process ends
    after the run was given to the runner and before the seat was recorded, the
    next attempt finds no seat that matches and starts the prompt again, while the
    first run lives. *)
Theorem interrupted_admission_runs_twice :
  let '(_, s1) := admission_prefix door1 in
  let '(r, s2) := attempt s1 in
  states s1 = [(admitting, None)] /\ lives "run-0" s1 = true /\ d_seat s1 = None /\
  r = Ok tt /\ states s2 = [(admitted, Some "run-1")] /\
  prompts s2 = [VStr "stored"; VStr "stored"] /\ lives "run-0" s2 = true /\ lives "run-1" s2 = true.
Proof. vm_compute. repeat split. Qed.

(** The stored prompt of a queued summon can be reported as admitted and never
    run: when the process ends right after the intent is written, and the caller
    then summons the same conversation directly, the next attempt takes the seat of
    the direct summon for the entry's own and marks the entry admitted with it. *)
Theorem interrupted_admission_never_runs :
  let s1 := snd (write_head 0 (intent waiter (isoformat t0)) [waiter] door1) in
  let '(a, s2) := summon "direct" "S" "bot" s1 in
  let '(r, s3) := attempt s2 in
  states s1 = [(admitting, None)] /\ a = Ok (Started "run-0" "S") /\
  r = Ok tt /\ states s3 = [(admitted, Some "run-0")] /\ prompts s3 = [VStr "direct"].
Proof. vm_compute. repeat split. Qed.

(** ** A long wait *)

(** Fifty later callers that stepped away. *)
Definition passer (n : nat) : entry :=
  set_state stepped_away (new_entry ("p" +:+ str_of_Z (Z.of_nat n)) (line_up "x" "X") "bot" "agent" false (isoformat (t0 + second))).
Definition long_wait : door mem := at_ (t0 + 2 * second) (put_queue (Entries (waiter :: map passer (seq 0 50))) door0).

(** The poll that admits an entry can answer that there is no such entry: the
    write of the admission drops it as the oldest finished one beyond fifty. Its
    run was started, and no later poll names it. *)
Theorem poll_loses_admitted_entry :
  let '(v, s) := poll_queue_entry 50 "ada" "ada" (mk_tokens "fresh" "q0") "q1" long_wait in
  v = Ok None /\ prompts s = [VStr "stored"] /\ lives "run-0" s = true /\ find_entry (fst (read_queue (d_queue s))) "q1" = None /\
  fst (poll_queue_entry 50 "ada" "ada" (mk_tokens "fresh" "q0") "q1" s) = Ok None.
Proof. vm_compute. repeat split. Qed.

(** ** The theorems at concrete doors *)

(** Just under five minutes after a run that has ended. *)
Definition idle_door : door mem := at_ (t0 + 299 * second) (finish "run-0" (snd (summon "one" "S" "bot" door0))).
Lemma seat_protects_witness :
  d_seat idle_door = Some (record_seat t0 "run-0" "S" "bot" "unknown" "" None) /\ run_lives idle_door "run-0" = false /\
  let '(r, s') := summon_core 50 "ada" "ada" (mk_tokens "fresh" "q0") (ask "two" "T") "other" "agent" false idle_door in
  (forall i j, r <> Ok (Started i j)) /\ d_world s' = d_world idle_door /\ d_seat s' = d_seat idle_door.
Proof.
  split; [by vm_compute|]. split; [by vm_compute|].
  apply (seat_protects 50 "ada" "ada" (mk_tokens "fresh" "q0") (ask "two" "T") "other" "agent" false idle_door t0 "run-0" "S" "bot" "unknown" None);
    try done; right; by vm_compute.
Defined.

Definition family : HostOps unit := const_host [sample_run "r" RUNNING None None; sample_run "c" RUNNING None (Some "r")].
Lemma cancel_run_tree_total_witness :
  exists ids w', cancel_run_tree (H := family) 3 "r" "why" tt = Some (ids, w').
Proof.
  apply (cancel_run_tree_total (H := family) (fun _ => True) {["r"; "c"]} 1 3 "r" "why" tt); try done.
  intros [] rid _. assert (tree_children (H := family) tt rid = if String.eqb rid "r" then ["c"] else []) as ->.
  { unfold tree_children. cbn. rewrite bool_decide_false by done. by destruct (String.eqb_spec rid "r") as [->|]; [|rewrite bool_decide_false by congruence]. }
  destruct (String.eqb rid "r"); set_solver by lia.
Defined.
