(* ===== verification/Retention.v ===== *)
(** * The purge of draft runs

    [run_retention.py]: the names and marks of the folders the gateway makes for
    runs, the run tree a purge collects, the folders it may delete, and the purge
    of expired draft tests.

    The run store is the runner's ([HostOps]); what a purge asks besides of the
    stores, of the runtime and of the disk is the class [PurgeOps]. Times are
    microseconds since the epoch. *)

From S2P Require Import Prelude PyStr PyVal PyNum IsoTime RunStore WorkspacePaths.

Definition TERMINAL_RUN_STATUSES : list string := ["completed"; "failed"; "cancelled"].
Definition DEFAULT_DRAFT_RUN_TTL_S : Z := 7 * 24 * 60 * 60.
Definition GATEWAY_WORKSPACE_MARKER : string := ".abstractgateway-workspace.json".
Definition SESSION_WORKSPACE_PREFIX : string := "session-".
Definition COLLECT_LIMIT : Z := 2000.

(** [run.status.value] *)
Definition status_text (st : RunStatus) : string :=
  match st with RUNNING => "running" | WAITING => "waiting" | COMPLETED => "completed" | FAILED => "failed" | CANCELLED => "cancelled" end.

(** A marker file: absent, not JSON, or its value. *)
Inductive marker_file := NoMarker | BadMarker | Marker (v : val).

Class PurgeOps (W : Type) := {
  run_delete : option (string -> M W bool);
  ledger_delete : option (string -> M W Z);
  command_delete_by_run : option (string -> M W Z);
  artifact_delete_by_run : option (string -> M W Z);
  artifact_gc : option (M W unit);
  (** [list_run_index] of the root runs of a workflow and a session, and
      [list_runs] of a workflow in any status. *)
  list_run_index : option (option string -> option string -> Z -> W -> res (list dict));
  list_any_runs : option (option string -> Z -> W -> res (list run));
  (** The runtime's [extract_run_lifecycle]. *)
  extract_run_lifecycle : val -> val;
  (** The store's [base_dir], and the disk. *)
  base_dir : string;
  marker_at : path -> W -> marker_file;
  path_is_dir : path -> W -> bool;
  path_exists : path -> W -> bool;
  rmtree : path -> M W unit;
  unlink : path -> M W unit;
}.

(** ** Names *)

(** [_SESSION_SLUG_RE.sub("-", s)]: one dash per run of other characters. *)
Definition slug_char (c : ascii) : bool := is_alnum_ascii c || has_char c "._-".
Fixpoint sub_slug (inside : bool) (s : string) : string :=
  match s with
  | "" => ""
  | c ::s s => if slug_char c then c ::s sub_slug false s else if inside then sub_slug true s else "-"%char ::s sub_slug true s
  end.
Definition trim_slug (s : string) : string := strip_by (fun c => has_char c "-._") s.
Definition unit_separator : ascii := ascii_of_nat 31.
(** [session_workspace_dirname]; [sha256] is the hexadecimal digest of a text. *)
Definition session_workspace_dirname (sha256 : string -> string) (session_id tenant_id user_id : val) : option string :=
  let sid := strip (str_or session_id "") in
  if String.eqb sid "" then None
  else
    let key := str_or tenant_id "" +:+ unit_separator ::s (str_or user_id "" +:+ unit_separator ::s sid) in
    let digest := stake 12 (sha256 key) in
    let slug := trim_slug (stake 40 (trim_slug (sub_slug false sid))) in
    Some (if String.eqb slug "" then SESSION_WORKSPACE_PREFIX +:+ digest
          else SESSION_WORKSPACE_PREFIX +:+ slug +:+ "-" +:+ digest).

(** [resolve_gateway_run_workspace]: the folder, and whether it is a
    conversation's; [fresh] is the new name of a run without a conversation. *)
Definition resolve_gateway_run_workspace (sha256 : string -> string) (data_dir : path) (session_id tenant_id user_id : val) (fresh : string) : path * bool :=
  match session_workspace_dirname sha256 session_id tenant_id user_id with
  | Some name => (path_join (path_join data_dir "workspaces") name, true)
  | None => (path_join (path_join data_dir "workspaces") fresh, false)
  end.

(** [write_gateway_workspace_marker]: the marker it writes, if it writes one. *)
Definition workspace_marker (run_id : string) (session_id : val) (session_scoped is_a_dir marked : bool) (now : string) : option dict :=
  let rid := strip run_id in
  if String.eqb rid "" || negb is_a_dir then None
  else if session_scoped then
    if marked then None
    else Some [("owner", VStr "abstractgateway"); ("kind", VStr "session_workspace"); ("session_id", VStr (strip (str_or session_id "")));
               ("first_run_id", VStr rid); ("created_at", VStr now)]
  else Some [("owner", VStr "abstractgateway"); ("kind", VStr "run_workspace"); ("run_id", VStr rid); ("created_at", VStr now)].

(** ** Expiry *)

(** [default_draft_run_ttl_s] of the two variables' values. *)
Fixpoint first_ttl (raws : list (option string)) : Z :=
  match raws with
  | Some raw :: raws =>
      if String.eqb (strip raw) "" then first_ttl raws
      else match int_of_str (strip raw) with Some n => Z.max 0 n | None => DEFAULT_DRAFT_RUN_TTL_S end
  | None :: raws => first_ttl raws
  | [] => DEFAULT_DRAFT_RUN_TTL_S
  end.
Definition default_draft_run_ttl_s (env : string -> option string) : Z :=
  first_ttl (map env ["ABSTRACTGATEWAY_DRAFT_RUN_RETENTION_TTL_S"; "ABSTRACTGATEWAY_DRAFT_RUN_TTL_S"]).

Definition representable (t : Z) : bool := (first_day * day <=? t) && (t <? (last_day + 1) * day).
Definition in_range (t : Z) : res Z := if representable t then Ok t else Raise (OverflowError "date value out of range").
(** [_parse_iso_datetime] *)
Definition parse_iso_datetime (v : val) : res (option Z) :=
  match v with
  | VStr s =>
      let raw := strip s in
      if String.eqb raw "" then Ok None
      else match iso_instant (if endswith "Z" raw then stake (String.length raw - 1) raw +:+ "+00:00" else raw) with
           | None => Ok None
           | Some t => t <== in_range t; Ok (Some t)
           end
  | _ => Ok None
  end.
Definition retention_of (summary : dict) : val :=
  match get_ "run_lifecycle" summary with VDict l => get_ "retention" l | _ => VNone end.
(** [_effective_expires_at] *)
Definition own_ttl (raw : val) : option Z :=
  match raw with
  | VNone | VBool _ => None
  | _ => let ttl := default 0 (py_int raw) in if 0 <? ttl then Some ttl else None
  end.
Definition effective_expires_at (summary : dict) (default_ttl_s : Z) : res (option Z) :=
  match retention_of summary with
  | VDict retention =>
      explicit <== parse_iso_datetime (get_ "expires_at" retention);
      match explicit with
      | Some t => Ok (Some t)
      | None =>
          let ttl := default default_ttl_s (own_ttl (get_ "ttl_s" retention)) in
          if ttl <=? 0 then Ok None
          else
            updated <== parse_iso_datetime (get_ "updated_at" summary);
            base <== (match updated with Some t => Ok (Some t) | None => parse_iso_datetime (get_ "created_at" summary) end);
            match base with
            | None => Ok None
            | Some t => t <== in_range (t + ttl * second); Ok (Some t)
            end
      end
  | _ => Ok None
  end.

(** [is_draft_run_lifecycle], [_is_ephemeral_draft_lifecycle] *)
Definition is_draft_run_lifecycle (lifecycle : val) : bool :=
  match lifecycle with
  | VDict l => match get_ "purpose" l with VStr p => String.eqb (strip p) "draft_test" | _ => false end
  | _ => false
  end.
Definition is_ephemeral_draft_lifecycle (lifecycle : val) : bool :=
  is_draft_run_lifecycle lifecycle &&
  match lifecycle with
  | VDict l => match get_ "retention" l with VDict r => String.eqb (lower (strip (str_or (get_ "mode" r) ""))) "ephemeral" | _ => false end
  | _ => false
  end.

Section Purge.
Context {W : Type} `{HH : HostOps W} `{PP : PurgeOps W} `{FS : FileSystem} (fuel : nat).

(** ** The run tree *)

Definition kids (w : W) (rid : string) : res (list string) :=
  match list_children with
  | None => Ok []
  | Some f => l <== f rid w; Ok (List.filter (fun i => negb (String.eqb i "")) (map run_id l))
  end.
(** [collect_run_tree]; [seen] of the code holds the ids of [out]. *)
Fixpoint collect_go (children : string -> res (list string)) (limit : Z) (fuel : nat) (queue out : list string) : option (res (list string)) :=
  match queue with
  | [] => Some (Ok out)
  | q :: queue =>
      if limit <=? Z.of_nat (length out) then Some (Ok out)
      else match fuel with
           | O => None
           | S fuel =>
               let rid := strip q in
               if String.eqb rid "" || bool_decide (rid ∈ out) then collect_go children limit fuel queue out
               else
                 let out := out ++ [rid] in
                 match children rid with
                 | Raise e => Some (Raise e)
                 | Ok cs => collect_go children limit fuel (queue ++ List.filter (fun c => negb (bool_decide (c ∈ out))) cs) out
                 end
           end
  end.
Definition collect_run_tree (w : W) (root : string) (limit : Z) : res (list string) :=
  match collect_go (kids w) limit fuel [root] [] with
  | Some r => r
  | None => Raise (OtherError "the walk does not end")
  end.

(** ** The folders a purge may delete *)

Definition hex_char (c : ascii) : bool := is_digit c || has_char c "abcdefABCDEF".
(** [_HEX_WORKSPACE_RE.match]: its [$] also matches before a last newline. *)
Definition hex_name (s : string) : bool :=
  let s := if endswith (ascii_of_nat 10 ::s "") s then stake (String.length s - 1) s else s in
  (len s =? 32) && forall_chars hex_char s.
Definition name_of (p : path) : string := default "" (last p).

(** [_gateway_owned_workspace_path] *)
Definition gateway_owned_workspace_path (w : W) (raw : val) (run_id : string) (run_tree_ids : list string) : option path :=
  match raw with
  | VStr raw =>
      if String.eqb (strip raw) "" then None
      else
        match resolve (expanduser (path_join (Path base_dir) "workspaces")) with
        | None => None
        | Some base =>
            let p := expanduser (Path raw) in
            let p := if is_absolute p then p else expanduser (Path base_dir) ++ p in
            match resolve p with
            | None => None
            | Some resolved =>
                match relative_to resolved base with
                | None => None
                | Some _ =>
                    if bool_decide (resolved = base) then None
                    else if startswith SESSION_WORKSPACE_PREFIX (name_of resolved) then None
                    else
                      match marker_at (path_join resolved GATEWAY_WORKSPACE_MARKER) w with
                      | BadMarker => None
                      | Marker (VDict m) =>
                          if negb (bool_decide (get_ "owner" m = VStr "abstractgateway")) then None
                          else if bool_decide (get_ "kind" m = VStr "session_workspace") then None
                          else
                            let rid := strip (str_or (get_ "run_id" m) "") in
                            if negb (String.eqb rid "") && bool_decide (rid ∈ run_tree_ids) then Some resolved else None
                      | Marker _ => None
                      | NoMarker => if hex_name (name_of resolved) && negb (String.eqb (strip run_id) "") then Some resolved else None
                      end
                end
            end
        end
  | _ => None
  end.
Definition workspace_root_of (r : run) : val := match vars r with VDict v => get_ "workspace_root" v | _ => VNone end.
(** [_owned_workspace_paths] *)
Definition owned_workspace_paths (w : W) (loaded : list (string * run)) : list path :=
  fold_left (fun out kv =>
    match gateway_owned_workspace_path w (workspace_root_of kv.2) kv.1 (map fst loaded) with
    | Some p => if bool_decide (str_path p ∈ map str_path out) then out else out ++ [p]
    | None => out
    end) loaded [].
(** [_delete_owned_workspace] *)
Definition delete_owned_workspace (p : path) : M W bool :=
  w <- get ;;
  if path_is_dir p w then rmtree p ;;; ret true
  else if path_exists p w then unlink p ;;; ret true
  else ret false.

(** ** [purge_run_tree] *)

Record deleted := mk_deleted { n_runs : Z; n_ledger : Z; n_commands : Z; n_artifacts : Z; n_workspaces : Z }.
Inductive purge_result :=
  | ActiveTree (run_ids active : list string)
  | WouldDelete (run_ids : list string) (workspaces : Z)
  | Deleted (run_ids : list string) (n : deleted).

Definition loaded_runs (w : W) (ids : list string) : list (string * run) :=
  omap (fun rid => match load rid w with Ok (Some r) => Some (rid, r) | _ => None end) ids.
Definition active_of (loaded : list (string * run)) : list string :=
  map fst (List.filter (fun kv => negb (is_terminal (status kv.2))) loaded).
Definition when_op {A} (enabled : bool) (o : option (string -> M W A)) (dflt : A) (rid : string) : M W A :=
  match o with Some f => if enabled then f rid else ret dflt | None => ret dflt end.
Definition purge_one (delete_artifacts : bool) (n : deleted) (rid : string) : M W deleted :=
  a <- when_op delete_artifacts artifact_delete_by_run 0 rid ;;
  c <- when_op true command_delete_by_run 0 rid ;;
  l <- when_op true ledger_delete 0 rid ;;
  r <- when_op true run_delete false rid ;;
  ret (mk_deleted (n_runs n + if r : bool then 1 else 0) (n_ledger n + l) (n_commands n + c) (n_artifacts n + a) (n_workspaces n)).

Definition purge_run_tree (root : string) (dry_run include_active delete_artifacts delete_workspaces : bool) : M W purge_result :=
  if negb dry_run && (negb (bool_decide (is_Some run_delete)) || negb (bool_decide (is_Some ledger_delete)))
  then raise (RuntimeError "Configured Runtime stores do not support run purge")
  else
    w <- get ;;
    run_ids <- of_res (collect_run_tree w root COLLECT_LIMIT) ;;
    let loaded := loaded_runs w run_ids in
    let active := active_of loaded in
    if negb (bool_decide (active = [])) && negb include_active then ret (ActiveTree run_ids active)
    else
      let workspaces := owned_workspace_paths w loaded in
      if dry_run then ret (WouldDelete run_ids (if delete_workspaces then Z.of_nat (length workspaces) else 0))
      else
        n <- fold_ (rev run_ids) (mk_deleted 0 0 0 0 0) (purge_one delete_artifacts) ;;
        ws <- (if delete_workspaces
               then fold_ workspaces 0 (fun n p => d <- delete_owned_workspace p ;; ret (n + if d : bool then 1 else 0))
               else ret 0) ;;
        (if delete_artifacts then match artifact_gc with Some gc => try_ gc (fun _ => ret tt) | None => ret tt end else ret tt) ;;;
        ret (Deleted run_ids (mk_deleted (n_runs n) (n_ledger n) (n_commands n) (n_artifacts n) ws)).

(** ** [purge_ephemeral_draft_runs] *)

Record options := mk_options {
  o_dry_run : bool;
  o_limit : Z;
  o_session_id : option string;
  o_workflow_id : option string;
  o_run_ids : list string;
  o_force : bool;
  o_include_active : bool;
  o_delete_artifacts : bool;
  o_delete_workspaces : bool;
}.
(** The fields of [run_summary] a purge reads. *)
Definition opt_str (o : option string) : val := match o with Some s => VStr s | None => VNone end.
Definition run_summary (r : run) : dict :=
  [ ("run_id", VStr (run_id r)); ("workflow_id", VStr (workflow_id r)); ("status", VStr (status_text (status r)));
    ("created_at", VStr (created_at r)); ("updated_at", VStr (updated_at r)); ("actor_id", opt_str (actor_id r));
    ("session_id", opt_str (session_id r)); ("parent_run_id", opt_str (parent_run_id r));
    ("run_lifecycle", extract_run_lifecycle (vars r)) ].
(** [_summary_from_index_row] *)
Definition summary_from_index_row (row : dict) : dict :=
  [ ("run_id", get_ "run_id" row); ("workflow_id", get_ "workflow_id" row); ("status", VStr (strip (str_or (get_ "status" row) "")));
    ("created_at", get_ "created_at" row); ("updated_at", get_ "updated_at" row); ("actor_id", get_ "actor_id" row);
    ("session_id", get_ "session_id" row); ("parent_run_id", get_ "parent_run_id" row);
    ("run_lifecycle", match get_ "run_lifecycle" row with VDict l => VDict l | _ => VNone end) ].

(** The loops that keep the drafts among the rows, up to [limit]: what they keep
    and how many rows they looked at. *)
Fixpoint keep_drafts (limit : Z) (rows : list (option dict)) (out : list dict) (scanned : Z) : list dict * Z :=
  match rows with
  | [] => (out, scanned)
  | None :: rows => keep_drafts limit rows out (scanned + 1)
  | Some s :: rows =>
      if is_ephemeral_draft_lifecycle (get_ "run_lifecycle" s) then
        let out := out ++ [s] in
        if limit <=? Z.of_nat (length out) then (out, scanned + 1) else keep_drafts limit rows out (scanned + 1)
      else keep_drafts limit rows out (scanned + 1)
  end.
Definition some_text (o : option string) : option string :=
  match o with Some s => if String.eqb (strip s) "" then None else Some (strip s) | None => None end.
Fixpoint rmap {A B} (f : A -> res B) (l : list A) : res (list B) :=
  match l with [] => Ok [] | x :: l => y <== f x; ys <== rmap f l; Ok (y :: ys) end.
(** [l[:n]] *)
Definition slice_to {A} (n : Z) (l : list A) : list A :=
  take (Z.to_nat (if 0 <=? n then n else Z.of_nat (length l) + n)) l.
(** [_load_candidate_roots] *)
Definition load_candidate_roots (o : options) (w : W) : res (list dict * Z) :=
  let exact := List.filter (fun s => negb (String.eqb s "")) (map strip (o_run_ids o)) in
  match exact with
  | _ :: _ =>
      rows <== rmap (fun rid => r <== load rid w;
                 Ok (match r with Some r => run_summary r | None => [("run_id", VStr rid); ("missing", VBool true)] end))
               (slice_to (o_limit o) exact);
      Ok (rows, Z.of_nat (length rows))
  | [] =>
      let wid := some_text (o_workflow_id o) in
      let sid := some_text (o_session_id o) in
      let scan_limit := Z.max (o_limit o) (Z.min 5000 (o_limit o * 5)) in
      match list_run_index with
      | Some index =>
          rows <== index wid sid scan_limit w;
          Ok ((keep_drafts (o_limit o) (map (fun r => Some (summary_from_index_row r)) rows) [] 0).1, Z.of_nat (length rows))
      | None =>
          match list_any_runs with
          | None => Raise (RuntimeError "Run store does not support listing runs")
          | Some f =>
              runs <== f wid scan_limit w;
              Ok (keep_drafts (o_limit o)
                    (map (fun r =>
                       if match sid with Some s => negb (String.eqb (strip (default "" (session_id r))) s) | None => false end then None
                       else if negb (String.eqb (strip (default "" (parent_run_id r))) "") then None
                       else Some (run_summary r)) runs) [] 0)
          end
      end
  end.

Record item := mk_item { i_run_id : string; i_reason : option string; i_purge : option purge_result }.
(** What is done with one candidate. *)
Definition consider (o : options) (now ttl : Z) (summary : dict) : M W item :=
  let rid := strip (str_or (get_ "run_id" summary) "") in
  let skip reason := mk_item rid (Some reason) None in
  if String.eqb rid "" || bool_decide (get_ "missing" summary = VBool true) then ret (skip "missing")
  else if negb (is_ephemeral_draft_lifecycle (get_ "run_lifecycle" summary)) then ret (skip "not_ephemeral_draft")
  else if negb (bool_decide (lower (strip (str_or (get_ "status" summary) "")) ∈ TERMINAL_RUN_STATUSES)) && negb (o_include_active o)
  then ret (skip "active_run")
  else
    expires <- of_res (effective_expires_at summary ttl) ;;
    if negb (o_force o) && (match expires with None => true | Some _ => false end) then ret (skip "no_effective_expiration")
    else if negb (o_force o) && (match expires with Some t => now <? t | None => false end) then ret (skip "not_expired")
    else
      r <- purge_run_tree rid (o_dry_run o) (o_include_active o) (o_delete_artifacts o) (o_delete_workspaces o) ;;
      ret (match r with ActiveTree _ _ => mk_item rid (Some "active_run_tree") (Some r) | _ => mk_item rid None (Some r) end).

Record report := mk_report { r_scanned : Z; r_eligible : Z; r_purged : Z; r_skipped : Z; r_items : list item }.
Definition purge_ephemeral_draft_runs (o : options) (now ttl : Z) : M W report :=
  w <- get ;;
  '(roots, scanned) <- of_res (load_candidate_roots o w) ;;
  items <- fold_ roots [] (fun acc s => i <- consider o now ttl s ;; ret (acc ++ [i])) ;;
  let eligible := Z.of_nat (length (List.filter (fun i => match i_reason i with None => true | Some _ => false end) items)) in
  ret (mk_report scanned eligible (if o_dry_run o then 0 else eligible) (Z.of_nat (length items) - eligible) items).
End Purge.
