(* ===== verification/RetentionFacts.v ===== *)
(** * The purge of draft runs: what it may delete

    The collected tree, the runs and folders a purge deletes, and two runs of it
    that do not do what it means to. *)

From S2P Require Import Prelude PyStr PyVal PyNum IsoTime RunStore WorkspacePaths Retention.

(** ** The walk *)

Section Collect.
Context (children : string -> res (list string)) (limit : Z) (root : string).

Definition edge (p c : string) : Prop := c <> "" /\ exists cs raw, children p = Ok cs /\ raw ∈ cs /\ strip raw = c.
Inductive in_tree : string -> Prop :=
  | tree_root : strip root <> "" -> in_tree (strip root)
  | tree_child p c : in_tree p -> edge p c -> in_tree c.

(** Every run listed is the root or a child of one listed before it. *)
Definition parents_first (out : list string) : Prop :=
  forall i x, out !! i = Some x -> x = strip root \/ exists j p, (j < i)%nat /\ out !! j = Some p /\ edge p x.
Lemma parents_first_snoc out x : parents_first out -> (x = strip root \/ exists p, p ∈ out /\ edge p x) -> parents_first (out ++ [x]).
Proof.
  intros Hp Hx i y Hy. apply lookup_app_Some in Hy as [Hy|[Hi Hy]].
  - destruct (Hp i y Hy) as [?|(j & p & Hj & Hl & He)]; [by left|]. right. exists j, p. split_and!; [done|by apply lookup_app_l_Some|done].
  - apply list_lookup_singleton_Some in Hy as [Hz <-]. destruct Hx as [?|(p & Hp' & He)]; [by left|]. right.
    apply list_elem_of_lookup_1 in Hp' as [j Hj]. exists j, p. pose proof (lookup_lt_Some _ _ _ Hj). split_and!; [lia|by apply lookup_app_l_Some|done].
Qed.

Record walk_inv (queue out : list string) : Prop := {
  wi_nodup : NoDup out;
  wi_strip : Forall (fun x => strip x = x /\ x <> "") out;
  wi_len : Z.of_nat (length out) <= Z.max 0 limit;
  wi_tree : Forall in_tree out;
  wi_queue : forall q, q ∈ queue -> strip q <> "" -> strip q = strip root \/ exists p, p ∈ out /\ edge p (strip q);
  wi_order : parents_first out;
  wi_closed : forall p c, p ∈ out -> edge p c -> c ∈ out \/ exists q, q ∈ queue /\ strip q = c;
  wi_root : strip root <> "" -> strip root ∈ out \/ exists q, q ∈ queue /\ strip q = strip root;
}.

Lemma walk_skip q queue out : walk_inv (q :: queue) out -> strip q = "" \/ strip q ∈ out -> walk_inv queue out.
Proof.
  intros [H1 H2 H3 H4 H5 H6 H7 H8] Hs. split; try done.
  - intros q' Hq. apply H5. by apply list_elem_of_further.
  - intros p c Hp He. destruct (H7 p c Hp He) as [?|(q' & [->|?]%elem_of_cons & Hq)]; [by left| |right; eauto].
    left. destruct Hs as [Hs|Hs]; [|congruence]. destruct He as [Hne _]. congruence.
  - intros Hr. destruct (H8 Hr) as [?|(q' & [->|?]%elem_of_cons & Hq)]; [by left| |right; eauto].
    left. destruct Hs; congruence.
Qed.
Lemma walk_visit q queue out cs : walk_inv (q :: queue) out -> Z.of_nat (length out) < limit ->
  strip q <> "" -> strip q ∉ out -> children (strip q) = Ok cs ->
  walk_inv (queue ++ List.filter (fun c => negb (bool_decide (c ∈ out ++ [strip q]))) cs) (out ++ [strip q]).
Proof.
  intros [H1 H2 H3 H4 H5 H6 H7 H8] Hl Hne Hni Hcs.
  assert (strip q = strip root \/ exists p, p ∈ out /\ edge p (strip q)) as Hq by (apply H5; [apply list_elem_of_here|done]).
  assert (Forall (fun x => strip x = x /\ x <> "") (out ++ [strip q])) as H2'.
  { apply Forall_app. split; [done|]. constructor; [|constructor]. by rewrite strip_idemp. }
  split.
  - apply NoDup_app. split_and!; [done| |apply NoDup_singleton]. by intros x Hx ->%list_elem_of_singleton.
  - done.
  - rewrite length_app. simpl. lia.
  - apply Forall_app. split; [done|]. constructor; [|constructor]. destruct Hq as [Hq|(p & Hp & He)].
    + rewrite Hq. constructor. congruence.
    + apply (tree_child p); [|done]. rewrite Forall_forall in H4. auto.
  - intros q' [Hq'|[Hq' _]%elem_of_lfilter]%elem_of_app Hn.
    + destruct (H5 q' (list_elem_of_further _ _ _ Hq') Hn) as [?|(p & Hp & He)]; [by left|right]. exists p. split; [|done]. apply elem_of_app. by left.
    + right. exists (strip q). split; [apply elem_of_app; right; apply list_elem_of_here|]. split; [done|]. by exists cs, q'.
  - by apply parents_first_snoc.
  - intros p c [Hp| ->%list_elem_of_singleton]%elem_of_app He.
    + destruct (H7 p c Hp He) as [?|(q' & [->|?]%elem_of_cons & Hc)].
      * left. apply elem_of_app. by left.
      * left. apply elem_of_app. right. rewrite <- Hc. apply list_elem_of_here.
      * right. exists q'. split; [apply elem_of_app; by left|done].
    + destruct He as (Hc & cs' & raw & Hcs' & Hraw & Hs). rewrite Hcs in Hcs'. injection Hcs' as <-.
      destruct (decide (raw ∈ out ++ [strip q])) as [Hin|Hn].
      * left. rewrite Forall_forall in H2'. destruct (H2' raw Hin) as [Hraw' _]. by rewrite <- Hs, Hraw'.
      * right. exists raw. split; [|done]. apply elem_of_app. right. apply elem_of_lfilter. split; [done|]. by rewrite bool_decide_false.
  - intros Hr. destruct (H8 Hr) as [?|(q' & [->|?]%elem_of_cons & Hc)].
    + left. apply elem_of_app. by left.
    + left. apply elem_of_app. right. rewrite <- Hc. apply list_elem_of_here.
    + right. exists q'. split; [apply elem_of_app; by left|done].
Qed.

Lemma collect_go_inv fuel queue out l : walk_inv queue out -> collect_go children limit fuel queue out = Some (Ok l) ->
  exists queue', walk_inv queue' l /\ (queue' = [] \/ limit <= Z.of_nat (length l)).
Proof.
  revert queue out. induction fuel as [|fuel IH]; intros [|q queue] out Hi; simpl.
  - intros [= <-]. exists []. auto.
  - destruct (Z.leb_spec limit (Z.of_nat (length out))); [|done]. intros [= <-]. eauto.
  - intros [= <-]. exists []. auto.
  - destruct (Z.leb_spec limit (Z.of_nat (length out))); [intros [= <-]; eauto|].
    destruct (String.eqb_spec (strip q) "") as [He|He]; cbn [orb]; [apply IH; eapply walk_skip; eauto|].
    case_bool_decide; [apply IH; eapply walk_skip; eauto|].
    destruct (children (strip q)) as [cs|e] eqn:Ec; [|done]. apply IH. by apply walk_visit.
Qed.

Lemma walk_start : walk_inv [root] [].
Proof.
  split; [constructor|constructor|simpl; lia|constructor| |by intros i x|by intros p c Hp%elem_of_nil|].
  - intros q ->%list_elem_of_singleton _. by left.
  - intros _. right. exists root. split; [apply list_elem_of_here|done].
Qed.

(** More fuel gives the same answer. *)
Lemma collect_go_more fuel fuel' queue out r : collect_go children limit fuel queue out = Some r -> (fuel <= fuel')%nat ->
  collect_go children limit fuel' queue out = Some r.
Proof.
  revert fuel' queue out. induction fuel as [|fuel IH]; intros fuel' [|q queue] out; destruct fuel' as [|fuel']; simpl; try done; try lia.
  - by destruct (limit <=? _).
  - intros Hr Hle. destruct (limit <=? _); [done|]. destruct (_ || _); [apply IH; [done|lia]|]. destruct (children (strip q)); [apply IH; [done|lia]|done].
Qed.

(** The walk ends: a round lists a run, of which there are at most [limit], or
    shortens the queue. *)
Lemma collect_go_ends queue out : exists fuel r, collect_go children limit fuel queue out = Some r.
Proof.
  remember (Z.to_nat (limit - Z.of_nat (length out))) as n eqn:En. revert queue out En.
  induction (lt_wf n) as [n _ IHn]. intros queue. induction queue as [|q queue IHq]; intros out En; [by exists 0%nat, (Ok out)|].
  destruct (Z.leb_spec limit (Z.of_nat (length out))) as [Hl|Hl].
  { exists 0%nat, (Ok out). simpl. by destruct (Z.leb_spec limit (Z.of_nat (length out))); [|lia]. }
  destruct (String.eqb (strip q) "" || bool_decide (strip q ∈ out)) eqn:Es.
  - destruct (IHq out En) as (fuel & r & Hr). exists (S fuel), r. simpl. destruct (Z.leb_spec limit (Z.of_nat (length out))); [lia|]. by rewrite Es.
  - destruct (children (strip q)) as [cs|e] eqn:Ec.
    + destruct (IHn (Z.to_nat (limit - Z.of_nat (length (out ++ [strip q])))) ltac:(rewrite length_app; simpl; lia)
        (queue ++ List.filter (fun c => negb (bool_decide (c ∈ out ++ [strip q]))) cs) (out ++ [strip q]) eq_refl) as (fuel & r & Hr).
      exists (S fuel), r. simpl. destruct (Z.leb_spec limit (Z.of_nat (length out))); [lia|]. by rewrite Es, Ec.
    + exists 1%nat, (Raise e). simpl. destruct (Z.leb_spec limit (Z.of_nat (length out))); [lia|]. by rewrite Es, Ec.
Qed.
End Collect.

Lemma collect_go_raise children limit fuel queue out e : collect_go children limit fuel queue out = Some (Raise e) -> exists p, children p = Raise e.
Proof.
  revert queue out. induction fuel as [|fuel IH]; intros [|q queue] out; simpl; try done.
  - by destruct (limit <=? _).
  - destruct (limit <=? _); [done|]. destruct (_ || _); [apply IH|]. destruct (children (strip q)) as [cs|e'] eqn:Ec; [apply IH|].
    intros [= ->]. eauto.
Qed.

(** What the walk answers. *)
Definition tree_listed (children : string -> res (list string)) (limit : Z) (root : string) (l : list string) : Prop :=
  NoDup l /\ Z.of_nat (length l) <= limit /\ Forall (in_tree children root) l /\ parents_first children root l /\
  (Z.of_nat (length l) < limit -> forall x, in_tree children root x -> x ∈ l).

Lemma collect_go_listed children limit root fuel l : 0 <= limit ->
  collect_go children limit fuel [root] [] = Some (Ok l) -> tree_listed children limit root l.
Proof.
  intros Hl H. destruct (collect_go_inv children limit root fuel [root] [] l (walk_start _ _ _) H) as (queue & [H1 H2 H3 H4 H5 H6 H7 H8] & Hq).
  split_and!; [done|lia|done|done|]. intros Hlt x. destruct Hq as [->|]; [|lia]. induction 1 as [Hr|p c _ IH He].
  - destruct (H8 Hr) as [?|(q & Hq & _)]; [done|]. by apply elem_of_nil in Hq.
  - destruct (H7 p c IH He) as [?|(q & Hq & _)]; [done|]. by apply elem_of_nil in Hq.
Qed.

Section Host.
Context {W : Type} `{HH : HostOps W}.

(** Collecting a run tree ends, cycles and shared children included: with
    enough steps it lists runs of the tree, each once and after one of its
    parents, at most [limit] of them and all of them when there are fewer, or it
    fails because the store failed to list the children of a run. *)
Theorem collect_run_tree_ends (w : W) root limit : 0 <= limit ->
  exists n, forall fuel, (n <= fuel)%nat ->
    match collect_run_tree fuel w root limit with
    | Ok l => tree_listed (kids w) limit root l
    | Raise e => exists p, kids w p = Raise e
    end.
Proof.
  intros Hl. destruct (collect_go_ends (kids w) limit [root] []) as (n & r & Hr). exists n. intros fuel Hf. unfold collect_run_tree.
  rewrite (collect_go_more _ _ _ _ _ _ _ Hr Hf). destruct r as [l|e]; [by eapply collect_go_listed|by eapply collect_go_raise].
Qed.

(** ** What a purge leaves *)

Context `{PP : PurgeOps W} `{FS : FileSystem}.

Definition keeps (rid : string) (w w' : W) : Prop := load rid w' = load rid w.
Definition frames {A} (m : M W A) (P : string -> Prop) : Prop := forall w rid, P rid -> keeps rid w (exec m w).

(** The deletions of the stores: a run's checkpoint goes and no other, and what
    goes with it is no checkpoint. *)
Class PurgeLaws := {
  run_delete_only f rid : run_delete = Some f -> frames (f rid) (fun i => i <> rid);
  run_delete_gone f rid w b w' : run_delete = Some f -> f rid w = (Ok b, w') -> load rid w' = Ok None;
  ledger_frames f rid : ledger_delete = Some f -> frames (f rid) (fun _ => True);
  command_frames f rid : command_delete_by_run = Some f -> frames (f rid) (fun _ => True);
  artifact_frames f rid : artifact_delete_by_run = Some f -> frames (f rid) (fun _ => True);
  gc_frames m : artifact_gc = Some m -> frames m (fun _ => True);
  rmtree_frames p : frames (rmtree p) (fun _ => True);
  unlink_frames p : frames (unlink p) (fun _ => True);
}.
Context `{PL : PurgeLaws}.

Lemma frames_weaken {A} (m : M W A) (P Q : string -> Prop) : frames m P -> (forall i, Q i -> P i) -> frames m Q.
Proof. intros H Hq w rid Hi. apply H. auto. Qed.
Lemma frames_ret {A} (a : A) P : frames (ret a) P.
Proof. done. Qed.
Lemma frames_bind {A B} (m : M W A) (k : A -> M W B) P : frames m P -> (forall a, frames (k a) P) -> frames (mbind_ m k) P.
Proof.
  intros Hm Hk w rid Hi. unfold keeps, exec, mbind_ in *. specialize (Hm w rid Hi). unfold keeps, exec in Hm.
  destruct (m w) as [[a|e] w']; [|done]. simpl in Hm. rewrite <- Hm. apply (Hk a w' rid Hi).
Qed.
Lemma frames_get {B} (k : W -> M W B) P : (forall w, frames (k w) P) -> frames (mbind_ get k) P.
Proof. intros Hk. apply frames_bind; [done|done]. Qed.
Lemma frames_of_res {A} (r : res A) P : frames (of_res r) P.
Proof. done. Qed.
Lemma frames_fold {A B} (l : list A) (acc : B) (body : B -> A -> M W B) P :
  (forall acc x, x ∈ l -> frames (body acc x) P) -> frames (fold_ l acc body) P.
Proof.
  revert acc. induction l as [|x l IH]; intros acc Hb; [apply frames_ret|]. simpl. apply frames_bind; [apply Hb; set_solver|].
  intros a. apply IH. intros acc' y Hy. apply Hb. set_solver.
Qed.
Lemma frames_when {A} enabled (o : option (string -> M W A)) dflt rid P : (forall f, o = Some f -> frames (f rid) P) -> frames (when_op enabled o dflt rid) P.
Proof. intros H. unfold when_op. destruct o as [f|]; [|done]. destruct enabled; [by apply H|done]. Qed.

Lemma purge_one_frames d n rid : frames (purge_one d n rid) (fun i => i <> rid).
Proof.
  unfold purge_one. repeat (apply frames_bind; [|intros ?]); try apply frames_ret; apply frames_when; intros f Hf.
  - eapply frames_weaken; [by apply artifact_frames|done].
  - eapply frames_weaken; [by apply command_frames|done].
  - eapply frames_weaken; [by apply ledger_frames|done].
  - by apply run_delete_only.
Qed.
Lemma delete_owned_frames p : frames (delete_owned_workspace p) (fun _ => True).
Proof.
  unfold delete_owned_workspace. apply frames_get. intros w. destruct (path_is_dir p w); [|destruct (path_exists p w)]; try apply frames_ret.
  - apply frames_bind; [apply rmtree_frames|intros; apply frames_ret].
  - apply frames_bind; [apply unlink_frames|intros; apply frames_ret].
Qed.
Lemma gc_frames_try (d : bool) :
  frames (if d then match artifact_gc with Some gc => try_ gc (fun _ => ret tt) | None => ret tt end else ret tt) (fun _ => True).
Proof.
  destruct d; [|done]. destruct artifact_gc as [gc|] eqn:E; [|done]. intros w rid _. pose proof (gc_frames gc E w rid I) as H.
  unfold keeps, exec, try_ in *. by destruct (gc w) as [[a|e] w'].
Qed.

(** *** One tree *)

Lemma purge_run_tree_frames fuel root dry inc da dw w rid :
  (forall ids, collect_run_tree fuel w root COLLECT_LIMIT = Ok ids -> rid ∉ ids) ->
  keeps rid w (exec (purge_run_tree fuel root dry inc da dw) w).
Proof.
  intros Hn. unfold purge_run_tree. destruct (_ && _); [done|]. unfold exec. unfold mbind_ at 1, get. cbv beta iota.
  unfold mbind_ at 1, of_res. destruct (collect_run_tree fuel w root COLLECT_LIMIT) as [ids|e] eqn:Ec; [|done]. specialize (Hn ids eq_refl).
  destruct (_ && _); [done|]. destruct dry; [done|].
  match goal with |- keeps rid w (snd (?m w)) => enough (frames m (fun i => i = rid)) as Hf by (by apply (Hf w rid)) end.
  apply frames_bind; [|intros n; apply frames_bind; [|intros ws; apply frames_bind; [|intros; apply frames_ret]]].
  - apply frames_fold. intros acc x Hx. eapply frames_weaken; [apply purge_one_frames|]. intros i ->. intros ->. apply Hn. by apply list_elem_of_In, in_rev, list_elem_of_In in Hx.
  - destruct dw; [|apply frames_ret]. apply frames_fold. intros acc x _. apply frames_bind; [|intros; apply frames_ret].
    eapply frames_weaken; [apply delete_owned_frames|done].
  - eapply frames_weaken; [apply gc_frames_try|done].
Qed.

(** A dry run, and a tree with an active run in it, change nothing. *)
Lemma purge_run_tree_quiet fuel root dry inc da dw w :
  dry = true \/ (inc = false /\ exists ids, collect_run_tree fuel w root COLLECT_LIMIT = Ok ids /\ active_of (loaded_runs w ids) <> []) ->
  exec (purge_run_tree fuel root dry inc da dw) w = w.
Proof.
  intros H. unfold purge_run_tree. destruct (_ && _); [done|]. unfold exec. unfold mbind_ at 1, get. cbv beta iota.
  unfold mbind_ at 1, of_res. destruct (collect_run_tree fuel w root COLLECT_LIMIT) as [ids|e] eqn:Ec; [|done].
  destruct H as [->|(-> & ids' & Heq & Ha)]; [by destruct (_ && _)|]. injection Heq as <-. by rewrite bool_decide_false.
Qed.

(** The runs of a deleted tree are gone. *)
Lemma purge_loop_gone d ids n n' w w' : fold_ ids n (purge_one d) w = (Ok n', w') -> is_Some run_delete ->
  forall rid, rid ∈ ids -> load rid w' = Ok None.
Proof.
  intros H [f Hf]. revert n w H. induction ids as [|x ids IH]; intros n w H rid Hin; [by apply elem_of_nil in Hin|].
  simpl in H. unfold mbind_ in H. destruct (purge_one d n x w) as [[m|e] w1] eqn:E; [|done].
  destruct (decide (rid ∈ ids)) as [Hin'|Hni]; [by apply (IH m w1)|]. apply elem_of_cons in Hin as [->|?]; [|done].
  assert (load x w' = load x w1) as ->.
  { assert (frames (fold_ ids m (purge_one d)) (fun i => i = x)) as Hfr.
    { apply frames_fold. intros acc y Hy. eapply frames_weaken; [apply purge_one_frames|]. by intros i -> ->. }
    specialize (Hfr w1 x eq_refl). unfold keeps, exec in Hfr. by rewrite H in Hfr. }
  unfold purge_one in E. minv E. injection E as _ <-. unfold when_op in Hx2. rewrite Hf in Hx2. by eapply run_delete_gone.
Qed.

Lemma purge_run_tree_gone fuel root inc da dw w ids n w1 rid : is_Some run_delete -> is_Some ledger_delete ->
  collect_run_tree fuel w root COLLECT_LIMIT = Ok ids -> active_of (loaded_runs w ids) = [] ->
  fold_ (rev ids) (mk_deleted 0 0 0 0 0) (purge_one da) w = (Ok n, w1) -> rid ∈ ids ->
  load rid (exec (purge_run_tree fuel root false inc da dw) w) = Ok None.
Proof.
  intros Hr Hl Hc Ha Hf Hin. unfold purge_run_tree. rewrite (bool_decide_true _ Hr), (bool_decide_true _ Hl). cbn [negb orb andb].
  unfold exec. unfold mbind_ at 1, get. cbv beta iota. unfold mbind_ at 1, of_res. rewrite Hc, (bool_decide_true _ Ha). cbn [negb andb].
  unfold mbind_ at 1. rewrite Hf.
  assert (load rid w1 = Ok None) as Hg by (apply (purge_loop_gone _ _ _ _ _ _ Hf Hr); by apply list_elem_of_In, in_rev; rewrite rev_involutive; apply list_elem_of_In).
  rewrite <- Hg. match goal with |- load rid (snd (?m w1)) = _ => enough (frames m (fun _ => True)) as H by (by apply (H w1 rid)) end.
  apply frames_bind; [|intros ws; apply frames_bind; [apply gc_frames_try|intros; apply frames_ret]].
  destruct dw; [|apply frames_ret]. apply frames_fold. intros acc x _. apply frames_bind; [apply delete_owned_frames|intros; apply frames_ret].
Qed.

(** *** The whole purge *)

Lemma fold_first_change {A B} (l : list A) (acc : B) (body : B -> A -> M W B) w rid :
  ~ keeps rid w (exec (fold_ l acc body) w) ->
  exists x acc' w1, x ∈ l /\ keeps rid w w1 /\ ~ keeps rid w1 (exec (body acc' x) w1).
Proof.
  revert acc w. induction l as [|x l IH]; intros acc w Hn; [by destruct Hn|].
  destruct (decide (load rid (exec (body acc x) w) = load rid w)) as [Hk|Hk].
  - simpl in Hn. unfold exec in *. unfold mbind_ in Hn. destruct (body acc x w) as [[a|e] w1]; [|done]. simpl in Hk.
    destruct (IH a w1) as (y & acc' & w2 & Hy & H1 & H2); [unfold keeps in *; congruence|].
    exists y, acc', w2. split_and!; [by apply list_elem_of_further|unfold keeps in *; congruence|done].
  - exists x, acc, w. split_and!; [apply list_elem_of_here|done|done].
Qed.

(** The summary of a run that may be purged. *)
Definition purgeable (o : options) (now ttl : Z) (summary : dict) : Prop :=
  is_ephemeral_draft_lifecycle (get_ "run_lifecycle" summary) = true /\
  (o_include_active o = true \/ lower (strip (str_or (get_ "status" summary) "")) ∈ TERMINAL_RUN_STATUSES) /\
  (o_force o = true \/ exists t, effective_expires_at summary ttl = Ok (Some t) /\ t <= now).
Definition summary_id (summary : dict) : string := strip (str_or (get_ "run_id" summary) "").

Lemma exec_bind_ret {A B} (m : M W A) (f : A -> B) w : exec (mbind_ m (fun a => ret (f a))) w = exec m w.
Proof. unfold exec, mbind_, ret. by destruct (m w) as [[a|e] w']. Qed.

Lemma consider_changes fuel o now ttl s w rid : ~ keeps rid w (exec (consider fuel o now ttl s) w) ->
  purgeable o now ttl s /\ ~ keeps rid w (exec (purge_run_tree fuel (summary_id s) (o_dry_run o) (o_include_active o) (o_delete_artifacts o) (o_delete_workspaces o)) w).
Proof.
  intros Hn. unfold consider in Hn. destruct (_ || _) in Hn; [by destruct Hn|].
  destruct (is_ephemeral_draft_lifecycle (get_ "run_lifecycle" s)) eqn:El; cbn [negb] in Hn; [|by destruct Hn].
  destruct (negb (bool_decide _) && negb (o_include_active o)) eqn:Es; [by destruct Hn|].
  unfold exec, mbind_ at 1, of_res in Hn. destruct (effective_expires_at s ttl) as [expires|e] eqn:Ee; [|by destruct Hn].
  destruct (negb (o_force o) && match expires with None => true | Some _ => false end) eqn:E1; [by destruct Hn|].
  destruct (negb (o_force o) && match expires with Some t => now <? t | None => false end) eqn:E2; [by destruct Hn|].
  split.
  - split_and!; [done| |].
    + destruct (o_include_active o); [by left|]. right. rewrite andb_true_r in Es. apply negb_false_iff, bool_decide_eq_true in Es. done.
    + destruct (o_force o); [by left|]. right. destruct expires as [t|]; [|done]. cbn in E2. apply Z.ltb_ge in E2. eauto.
  - intros Hk. apply Hn. unfold keeps in *. rewrite <- Hk. unfold exec. unfold mbind_, summary_id, ret.
    by destruct (purge_run_tree _ _ _ _ _ _ w) as [[[]|e] w'].
Qed.

(** A candidate that may be purged is. *)
Lemma consider_purges fuel o now ttl s w : purgeable o now ttl s -> summary_id s <> "" -> get_ "missing" s <> VBool true ->
  o_force o = false -> exec (consider fuel o now ttl s) w =
    exec (purge_run_tree fuel (summary_id s) (o_dry_run o) (o_include_active o) (o_delete_artifacts o) (o_delete_workspaces o)) w.
Proof.
  intros (Hd & Hs & [?|(t & He & Ht)]) Hid Hm Hf; [congruence|]. unfold consider. fold (summary_id s). apply String.eqb_neq in Hid. rewrite Hid, (bool_decide_false _ Hm), Hd, Hf.
  cbn [orb negb]. replace (negb _ && negb (o_include_active o)) with false.
  2:{ destruct Hs as [->|Hs]; [by rewrite andb_false_r|by rewrite (bool_decide_true _ Hs)]. }
  unfold exec. unfold mbind_ at 1, of_res. rewrite He. cbn [andb]. replace (now <? t) with false by (symmetry; by apply Z.ltb_ge).
  unfold mbind_. by destruct (purge_run_tree _ _ _ _ _ _ w) as [[a|e] w'].
Qed.

(** C34: A run the purge deletes (or changes at all) belongs to the collected tree
    of a candidate that is an ephemeral draft test, that had expired unless the purge
    is forced, and that had ended unless it includes active runs; and the run itself
    had ended, unless it includes active runs. A dry run deletes nothing. *)
Theorem purge_deletes_only_expired_drafts fuel o now ttl w rid :
  load rid (exec (purge_ephemeral_draft_runs fuel o now ttl) w) <> load rid w ->
  o_dry_run o = false /\
  exists roots scanned summary w1 ids, load_candidate_roots o w = Ok (roots, scanned) /\ summary ∈ roots /\ purgeable o now ttl summary /\
    collect_run_tree fuel w1 (summary_id summary) COLLECT_LIMIT = Ok ids /\ rid ∈ ids /\
    (o_include_active o = true \/ forall r, load rid w = Ok (Some r) -> is_terminal (status r) = true).
Proof.
  intros Hn. unfold purge_ephemeral_draft_runs in Hn. unfold exec, mbind_ at 1, get in Hn. cbv beta iota in Hn.
  unfold mbind_ at 1, of_res in Hn. destruct (load_candidate_roots o w) as [[roots scanned]|e] eqn:El; [|done].
  match type of Hn with load rid (snd (mbind_ ?m ?k w)) <> _ => assert (exec (mbind_ m k) w = exec m w) as He by apply exec_bind_ret end.
  unfold exec in He at 1. rewrite He in Hn. apply fold_first_change in Hn as (s & acc & w1 & Hs & Hk & Hc).
  assert (~ keeps rid w1 (exec (consider fuel o now ttl s) w1)) as Hc' by (intros H; apply Hc; rewrite exec_bind_ret; exact H).
  destruct (consider_changes _ _ _ _ _ _ _ Hc') as [Hp Hpt]. split.
  - destruct (o_dry_run o) eqn:Ed; [|done]. exfalso. apply Hpt. rewrite purge_run_tree_quiet by (by left). done.
  - destruct (collect_run_tree fuel w1 (summary_id s) COLLECT_LIMIT) as [ids|e] eqn:Ec.
    2:{ exfalso. apply Hpt, purge_run_tree_frames. intros ids. congruence. }
    destruct (decide (rid ∈ ids)) as [Hin|Hni].
    2:{ exfalso. apply Hpt, purge_run_tree_frames. intros ids' Hids. rewrite Ec in Hids. by injection Hids as <-. }
    exists roots, scanned, s, w1, ids. split_and!; try done. destruct (o_include_active o) eqn:Ei; [by left|right]. intros r Hr.
    destruct (decide (active_of (loaded_runs w1 ids) = [])) as [Ha|Ha].
    2:{ exfalso. apply Hpt. rewrite purge_run_tree_quiet; [done|]. right. eauto. }
    destruct (is_terminal (status r)) eqn:Et; [done|]. exfalso.
    assert (rid ∈ active_of (loaded_runs w1 ids)) as Hin'; [|rewrite Ha in Hin'; by apply elem_of_nil in Hin'].
    unfold active_of. apply (list_elem_of_fmap_2 fst _ (rid, r)). apply elem_of_lfilter. split; [|simpl; by rewrite Et].
    apply list_elem_of_omap. exists rid. split; [done|]. unfold keeps in Hk. by rewrite Hk, Hr.
Qed.
End Host.
