(* ===== verification/RetentionRuns.v ===== *)
(** * The purge of draft runs on a store in memory

    The folder of a conversation, the theorems on the runner's in-memory host, and
    two runs in which the purge does not do what it means to. *)

From S2P Require Import Prelude PyStr PyVal PyNum PyText IsoTime RunStore WorkspacePaths MemoryHost Retention RetentionFacts.

(** ** The folder of a conversation *)

Lemma sapp_tail (a b s t : string) : String.length s = String.length t -> a +:+ s = b +:+ t -> a = b /\ s = t.
Proof.
  intros Hl He. assert (String.length a = String.length b) as Hab.
  { apply (f_equal String.length) in He. rewrite !length_sapp in He. lia. }
  revert b Hab He. induction a as [|c a IH]; intros [|d b] Hab He; try done.
  rewrite !scons_app in He. injection He as -> He. apply IH in He as [-> ->]; [done|simpl in Hab; lia].
Qed.
Lemma stake_length n s : (n <= String.length s)%nat -> String.length (stake n s) = n.
Proof. revert s. induction n as [|n IH]; intros [|c s]; simpl; try done; [lia|]. intros H. by rewrite IH by lia. Qed.

Lemma length_lstrip_by f s : (String.length (lstrip_by f s) <= String.length s)%nat.
Proof. induction s as [|c s IH]; simpl; [lia|]. destruct (f c); simpl; lia. Qed.
Lemma length_rstrip_by f s : (String.length (rstrip_by f s) <= String.length s)%nat.
Proof. induction s as [|c s IH]; simpl; [lia|]. destruct (String.eqb (rstrip_by f s) "" && f c); simpl; lia. Qed.

Lemma hex_slug c : hex_char c = true -> slug_char c = true.
Proof. destruct c as [[] [] [] [] [] [] [] []]; vm_compute; done. Qed.
Lemma slug_no_slash s : forall_chars slug_char s = true -> has_char "/" s = false.
Proof.
  unfold has_char. induction s as [|c s IH]; simpl; [done|]. intros [Hs Hss]%andb_true_iff. rewrite IH by done. rewrite orb_false_r.
  destruct (Ascii.eqb_spec "/" c) as [<-|]; [by vm_compute in Hs|done].
Qed.
(** A name that begins with another letter is no hexadecimal name. *)
Lemma hex_name_first c d s : hex_char c = false -> hex_name (c ::s d ::s s) = false.
Proof.
  intros Hc. unfold hex_name. destruct (endswith _ _).
  - simpl. rewrite Hc. by rewrite andb_false_r.
  - simpl. rewrite Hc. by rewrite andb_false_r.
Qed.

Lemma sub_slug_chars b s : forall_chars slug_char (sub_slug b s) = true.
Proof.
  revert b. induction s as [|c s IH]; intros b; simpl; [done|]. destruct (slug_char c) eqn:E; simpl; [by rewrite E, IH|]. by destruct b; simpl; rewrite ?IH.
Qed.
Lemma trim_slug_chars f s : forall_chars f s = true -> forall_chars f (trim_slug s) = true.
Proof. apply forall_chars_strip_by. Qed.

Definition folder_key (session_id tenant_id user_id : val) : string :=
  str_or tenant_id "" +:+ unit_separator ::s (str_or user_id "" +:+ unit_separator ::s strip (str_or session_id "")).

Section Folder.
Context (sha256 : string -> string).
Context (Hlong : forall s, (12 <= String.length (sha256 s))%nat) (Hhex : forall s, forall_chars hex_char (sha256 s) = true).

Lemma folder_shape sid tenant user name : session_workspace_dirname sha256 sid tenant user = Some name ->
  exists slug, forall_chars slug_char slug = true /\ (String.length slug <= 41)%nat /\
    name = (SESSION_WORKSPACE_PREFIX +:+ slug) +:+ stake 12 (sha256 (folder_key sid tenant user)).
Proof.
  unfold session_workspace_dirname. destruct (String.eqb (strip (str_or sid "")) ""); [done|]. cbv zeta. intros Hn. apply (inj Some) in Hn as <-. fold (folder_key sid tenant user).
  set (slug := trim_slug (stake 40 (trim_slug (sub_slug false (strip (str_or sid "")))))).
  assert (forall_chars slug_char slug = true) as Hc by (apply trim_slug_chars, forall_chars_stake, trim_slug_chars, sub_slug_chars).
  assert (String.length slug <= 40)%nat as Hl.
  { subst slug. unfold trim_slug, strip_by. etrans; [apply length_rstrip_by|]. etrans; [apply length_lstrip_by|]. apply length_stake. }
  destruct (String.eqb slug "").
  - exists "". split_and!; [done|simpl; lia|]. by rewrite sapp_nil.
  - exists (slug +:+ "-"). split_and!; [by rewrite forall_chars_app, Hc|rewrite length_sapp; simpl; lia|]. by rewrite !sapp_assoc.
Qed.

(** The folder of a conversation is one plain path component of at most 61
    characters that begins with [session-], is never taken for the folder of a
    single run, and two conversations (of any accounts) have the same one only if
    the first twelve digits of their digests agree. *)
Theorem session_folder_names sid tenant user name : session_workspace_dirname sha256 sid tenant user = Some name ->
  clean_part name = true /\ startswith SESSION_WORKSPACE_PREFIX name = true /\ (String.length name <= 61)%nat /\ hex_name name = false /\
  forall sid' tenant' user', session_workspace_dirname sha256 sid' tenant' user' = Some name ->
    stake 12 (sha256 (folder_key sid tenant user)) = stake 12 (sha256 (folder_key sid' tenant' user')).
Proof.
  intros H. destruct (folder_shape sid tenant user name H) as (slug & Hc & Hl & ->).
  set (d := stake 12 (sha256 (folder_key sid tenant user))).
  assert (forall_chars hex_char d = true) as Hd by (by apply forall_chars_stake).
  assert (String.length d = 12%nat) as Hdl by (by apply stake_length).
  assert (has_char "/" d = false) as Hds.
  { apply slug_no_slash. revert Hd. apply forall_chars_weaken, hex_slug. }
  split_and!.
  - unfold clean_part. rewrite !has_char_app, Hds, (slug_no_slash slug Hc). by cbn.
  - unfold startswith. rewrite sapp_assoc. apply prefix_app.
  - rewrite !length_sapp, Hdl. cbn. lia.
  - rewrite sapp_assoc. by apply hex_name_first.
  - intros sid' tenant' user' (slug' & _ & _ & He)%folder_shape. apply sapp_tail in He as [_ He]; [done|]. by rewrite Hdl, stake_length.
Qed.
End Folder.

Lemma session_folder_names_witness :
  let sha := fun _ => "0123456789abcdef0123456789abcdef0123456789abcdef0123456789abcdef" in
  session_workspace_dirname sha (VStr "chat one") (VStr "default") (VStr "ann") = Some "session-chat-one-0123456789ab" /\
  clean_part "session-chat-one-0123456789ab" = true.
Proof.
  intros sha. split; [vm_compute; reflexivity|].
  exact (proj1 (session_folder_names sha ltac:(intros s; cbn; lia) ltac:(intros s; reflexivity) (VStr "chat one") (VStr "default") (VStr "ann") _
    ltac:(vm_compute; reflexivity))).
Defined.

(** ** Folders a purge may delete *)

Section Owned.
Context {W : Type} `{HH : HostOps W} `{PP : PurgeOps W} `{FS : FileSystem}.

Lemma relative_to_nil p q : relative_to p q = Some [] -> p = q.
Proof.
  revert p. induction q as [|b q IH]; intros [|a p]; simpl; try done. destruct (String.eqb_spec b a) as [->|]; [|done].
  intros H. f_equal. auto.
Qed.
Lemma gateway_owned_spec w raw rid ids p : gateway_owned_workspace_path w raw rid ids = Some p ->
  exists base c rest, WorkspacePaths.resolve (expanduser (path_join (Path base_dir) "workspaces")) = Some base /\ relative_to p base = Some (c :: rest) /\
    startswith SESSION_WORKSPACE_PREFIX (name_of p) = false /\
    ((exists m, marker_at (path_join p GATEWAY_WORKSPACE_MARKER) w = Marker (VDict m) /\ get_ "owner" m = VStr "abstractgateway" /\
        get_ "kind" m <> VStr "session_workspace" /\ strip (str_or (get_ "run_id" m) "") ∈ ids) \/
     (marker_at (path_join p GATEWAY_WORKSPACE_MARKER) w = NoMarker /\ hex_name (name_of p) = true)).
Proof.
  unfold gateway_owned_workspace_path. destruct raw as [| | | |raw| |]; try done. destruct (String.eqb (strip raw) ""); [done|].
  destruct (WorkspacePaths.resolve (expanduser (path_join (Path base_dir) "workspaces"))) as [base|]; [|done]. cbv zeta.
  destruct (WorkspacePaths.resolve _) as [q|]; [|done]. destruct (relative_to q base) as [rest|] eqn:Er; [|done].
  case_bool_decide as Hb; [done|]. destruct (startswith _ _) eqn:Es; [done|].
  assert (exists c rest', rest = c :: rest') as (c & rest' & ->).
  { destruct rest as [|c rest']; [by apply relative_to_nil in Er|eauto]. }
  destruct (marker_at (path_join q GATEWAY_WORKSPACE_MARKER) w) as [| |v] eqn:Em.
  - destruct (hex_name (name_of q)) eqn:Eh; [|done]. destruct (_ && _); [|done]. intros [= <-]. exists base, c, rest'. split_and!; auto.
  - done.
  - destruct v as [| | | | | |m]; try done. case_bool_decide as Ho; [|done]. cbn [negb]. case_bool_decide as Hk; [done|].
    destruct (negb _ && _) eqn:Ei; [|done]. intros [= <-]. apply andb_true_iff in Ei as [_ Ei%bool_decide_eq_true].
    exists base, c, rest'. split_and!; try done. left. eauto.
Qed.

Lemma owned_paths_from w loaded p : p ∈ owned_workspace_paths w loaded ->
  exists rid r, (rid, r) ∈ loaded /\ gateway_owned_workspace_path w (workspace_root_of r) rid (map fst loaded) = Some p.
Proof.
  unfold owned_workspace_paths. set (ids := map fst loaded).
  assert (forall l acc, (forall q, q ∈ acc -> exists rid r, (rid, r) ∈ loaded /\ gateway_owned_workspace_path w (workspace_root_of r) rid ids = Some q) ->
    (forall kv, kv ∈ l -> kv ∈ loaded) ->
    forall q, q ∈ fold_left (fun out kv => match gateway_owned_workspace_path w (workspace_root_of kv.2) kv.1 ids with
      | Some p => if bool_decide (str_path p ∈ map str_path out) then out else out ++ [p] | None => out end) l acc ->
    exists rid r, (rid, r) ∈ loaded /\ gateway_owned_workspace_path w (workspace_root_of r) rid ids = Some q) as H.
  - intros l. induction l as [|[rid r] l IH]; intros acc Hacc Hl; [done|]. cbn [fold_left fst snd]. apply IH; [|set_solver].
    intros q. destruct (gateway_owned_workspace_path w (workspace_root_of r) rid ids) as [p'|] eqn:E; [|apply Hacc].
    case_bool_decide; [apply Hacc|]. intros [?| ->%list_elem_of_singleton]%elem_of_app; [auto|]. exists rid, r. split; [apply Hl; set_solver|done].
  - apply (H loaded []); [by intros q Hq%elem_of_nil|done].
Qed.

(** A folder a purge may delete is the working folder of a run of the tree,
    lies strictly inside the gateway's folder of workspaces, is not the folder of
    a conversation by its name or its mark, and is marked as the folder of a run
    of the tree, or bears no mark and a name of 32 hexadecimal digits. *)
Theorem purged_folders_are_the_runs_own w loaded p : p ∈ owned_workspace_paths w loaded ->
  (exists rid r, (rid, r) ∈ loaded /\ workspace_root_of r <> VNone) /\
  exists base c rest, WorkspacePaths.resolve (expanduser (path_join (Path base_dir) "workspaces")) = Some base /\ relative_to p base = Some (c :: rest) /\
    startswith SESSION_WORKSPACE_PREFIX (name_of p) = false /\
    ((exists m, marker_at (path_join p GATEWAY_WORKSPACE_MARKER) w = Marker (VDict m) /\ get_ "owner" m = VStr "abstractgateway" /\
        get_ "kind" m <> VStr "session_workspace" /\ strip (str_or (get_ "run_id" m) "") ∈ map fst loaded) \/
     (marker_at (path_join p GATEWAY_WORKSPACE_MARKER) w = NoMarker /\ hex_name (name_of p) = true)).
Proof.
  intros (rid & r & Hin & Ho)%owned_paths_from. split; [|by eapply gateway_owned_spec]. exists rid, r. split; [done|].
  intros Hn. by rewrite Hn in Ho.
Qed.
End Owned.

(** ** A store in memory *)

Definition mem_drop (i : string) (m : mem) : mem :=
  mk_mem (List.filter (fun r => negb (String.eqb (run_id r) i)) (m_runs m)) (m_ledger m) (m_log m) (m_unresolvable m) (m_tick_fails m).
#[export] Instance mem_purge : PurgeOps mem := {
  run_delete := Some (fun i m => (Ok (bool_decide (is_Some (mem_find i (m_runs m)))), mem_drop i m));
  ledger_delete := Some (fun i => ret 0);
  command_delete_by_run := None;
  artifact_delete_by_run := None;
  artifact_gc := None;
  list_run_index := None;
  list_any_runs := Some (fun wf limit m =>
    Ok (take (Z.to_nat limit) (List.filter (fun r => match wf with Some w => String.eqb (workflow_id r) w | None => true end) (m_runs m))));
  extract_run_lifecycle v := match v with VDict d => get_ "_run_lifecycle" d | _ => VNone end;
  base_dir := "/data";
  marker_at p m := NoMarker;
  path_is_dir p m := true;
  path_exists p m := true;
  rmtree p := modify (mem_note ("rmtree " +:+ str_path p));
  unlink p := modify (mem_note ("unlink " +:+ str_path p));
}.
Lemma mem_find_drop i j l : mem_find i (List.filter (fun r => negb (String.eqb (run_id r) j)) l) = if String.eqb i j then None else mem_find i l.
Proof.
  unfold mem_find. induction l as [|r l IH]; simpl; [by destruct (String.eqb i j)|].
  destruct (String.eqb_spec (run_id r) j) as [<-|Hne]; simpl.
  - rewrite IH. destruct (String.eqb_spec i (run_id r)) as [->|Hi]; [done|].
    destruct (String.eqb_spec (run_id r) i); [congruence|done].
  - destruct (String.eqb_spec (run_id r) i) as [<-|]; [|done]. destruct (String.eqb_spec (run_id r) j); [done|done].
Qed.
#[export] Instance mem_purge_laws : PurgeLaws (W := mem).
Proof.
  split.
  - intros f rid [= <-] m i Hi. unfold keeps, exec. cbn [load mem_host mem_drop m_runs snd m_tick_fails]. rewrite mem_find_drop. by destruct (String.eqb_spec i rid).
  - intros f rid m b m' [= <-] [= <- <-]. cbn [load mem_host mem_drop m_runs]. by rewrite mem_find_drop, String.eqb_refl.
  - by intros f rid [= <-] m i _.
  - done.
  - done.
  - done.
  - by intros p m i _.
  - by intros p m i _.
Qed.

Definition draft_vars (retention : dict) : val :=
  VDict [("_run_lifecycle", VDict [("purpose", VStr "draft_test"); ("retention", VDict (("mode", VStr "ephemeral") :: retention))]);
         ("workspace_root", VStr "/data/workspaces/0123456789abcdef0123456789abcdef")].
Definition draft_run (i : string) (retention : dict) : run := set_vars (draft_vars retention) (sample_run i COMPLETED None None).
Definition all_drafts : options := mk_options false 200 None None [] false false true true.
Definition plain_disk : FileSystem := plain_fs [].
#[local] Existing Instance plain_disk.
(** A month after the sample runs were updated. *)
Definition later_on : Z := 1738368000 * second.
Abbreviation purge_sample runs :=
  (@purge_ephemeral_draft_runs mem _ mem_purge plain_disk 3000 all_drafts later_on DEFAULT_DRAFT_RUN_TTL_S (mem_of runs)).

Abbreviation two_runs := [draft_run "d1" []; sample_run "r1" COMPLETED None None].
Lemma purge_deletes_only_expired_drafts_witness :
  load "d1" (exec (fun m => purge_sample two_runs) (mem_of two_runs)) = Ok None /\
  load "r1" (exec (fun m => purge_sample two_runs) (mem_of two_runs)) = load "r1" (mem_of two_runs) /\
  m_log (exec (fun m => purge_sample two_runs) (mem_of two_runs)) = ["rmtree /data/workspaces/0123456789abcdef0123456789abcdef"] /\
  o_dry_run all_drafts = false.
Proof.
  assert (load "d1" (exec (purge_ephemeral_draft_runs 3000 all_drafts later_on DEFAULT_DRAFT_RUN_TTL_S) (mem_of two_runs)) = Ok None) as H by (vm_compute; reflexivity).
  split; [vm_compute; reflexivity|]. split; [vm_compute; reflexivity|]. split; [vm_compute; reflexivity|].
  refine (proj1 (purge_deletes_only_expired_drafts 3000 all_drafts later_on DEFAULT_DRAFT_RUN_TTL_S (mem_of two_runs) "d1" _)).
  rewrite H. vm_compute. discriminate.
Defined.

Lemma collect_run_tree_ends_witness :
  0 <= COLLECT_LIMIT /\ exists n, forall fuel, (n <= fuel)%nat ->
    match collect_run_tree fuel (mem_of two_runs) "d1" COLLECT_LIMIT with
    | Ok l => tree_listed (kids (mem_of two_runs)) COLLECT_LIMIT "d1" l
    | Raise e => exists p, kids (mem_of two_runs) p = Raise e
    end.
Proof. split; [vm_compute; discriminate|]. apply (collect_run_tree_ends (mem_of two_runs) "d1" COLLECT_LIMIT). vm_compute. discriminate. Defined.

Abbreviation d1_folder := (Path "/data/workspaces/0123456789abcdef0123456789abcdef").
Lemma purged_folders_are_the_runs_own_witness :
  d1_folder ∈ owned_workspace_paths (mem_of two_runs) [("d1", draft_run "d1" [])] /\
  exists rid r, (rid, r) ∈ [("d1", draft_run "d1" [])] /\ workspace_root_of r <> VNone.
Proof.
  assert (owned_workspace_paths (mem_of two_runs) [("d1", draft_run "d1" [])] = [d1_folder]) as H by (vm_compute; reflexivity).
  assert (d1_folder ∈ owned_workspace_paths (mem_of two_runs) [("d1", draft_run "d1" [])]) as Hin by (rewrite H; apply list_elem_of_here).
  split; [exact Hin|]. exact (proj1 (purged_folders_are_the_runs_own (mem_of two_runs) [("d1", draft_run "d1" [])] d1_folder Hin)).
Defined.

(** *** Two runs *)

(** A draft whose retention lies beyond the calendar ends the whole purge with
    an [OverflowError], and no other expired draft is deleted. *)
Theorem one_far_expiry_blocks_the_purge o now ttl s roots scanned w fuel :
  load_candidate_roots o w = Ok (s :: roots, scanned) ->
  summary_id s <> "" -> get_ "missing" s <> VBool true -> is_ephemeral_draft_lifecycle (get_ "run_lifecycle" s) = true ->
  lower (strip (str_or (get_ "status" s) "")) ∈ TERMINAL_RUN_STATUSES ->
  effective_expires_at s ttl = Raise (OverflowError "date value out of range") ->
  @purge_ephemeral_draft_runs mem _ mem_purge plain_disk fuel o now ttl w = (Raise (OverflowError "date value out of range"), w).
Proof.
  intros Hc Hid Hm Hd Hs He. unfold purge_ephemeral_draft_runs, mbind_, get, of_res. rewrite Hc. cbn [fold_]. unfold mbind_.
  unfold consider. fold (summary_id s). apply String.eqb_neq in Hid. rewrite Hid, (bool_decide_false _ Hm), Hd, (bool_decide_true _ Hs). cbn [orb negb andb].
  unfold mbind_, of_res. by rewrite He.
Qed.
Definition far_draft : run := draft_run "d0" [("ttl_s", VInt (10 ^ 12))].
Lemma one_far_expiry_blocks_the_purge_witness :
  effective_expires_at (run_summary far_draft) DEFAULT_DRAFT_RUN_TTL_S = Raise (OverflowError "date value out of range") /\
  purge_sample [far_draft; draft_run "d1" []] = (Raise (OverflowError "date value out of range"), mem_of [far_draft; draft_run "d1" []]).
Proof.
  assert (effective_expires_at (run_summary far_draft) DEFAULT_DRAFT_RUN_TTL_S = Raise (OverflowError "date value out of range")) as H by (vm_compute; reflexivity).
  split; [exact H|].
  refine (one_far_expiry_blocks_the_purge all_drafts later_on DEFAULT_DRAFT_RUN_TTL_S (run_summary far_draft) [run_summary (draft_run "d1" [])] 2
    (mem_of [far_draft; draft_run "d1" []]) 3000 _ _ _ _ _ H).
  - vm_compute. reflexivity.
  - vm_compute. discriminate.
  - vm_compute. discriminate.
  - vm_compute. reflexivity.
  - apply (bool_decide_unpack _). vm_compute. exact I.
Defined.

(** *** A tree wider than the walk *)

Section Wide.
Context (cs : list string) (last : string).
Context (Hcs : Forall (fun c => strip c = c /\ c <> "" /\ c <> "root") (cs ++ [last])) (Hnd : NoDup (cs ++ [last])).

Definition leaf (c : string) : run := sample_run c COMPLETED None (Some "root").
Definition wide_tree : list run := draft_run "root" [] :: map leaf cs ++ [sample_run last RUNNING None (Some "root")].

Lemma leaf_ok c : c ∈ cs ++ [last] -> strip c = c /\ c <> "" /\ c <> "root".
Proof. rewrite Forall_forall in Hcs. apply Hcs. Qed.
Lemma leaf_parent r : r ∈ map leaf cs ++ [sample_run last RUNNING None (Some "root")] -> parent_run_id r = Some "root".
Proof. rewrite elem_of_app. intros [(c & -> & _)%list_elem_of_fmap| ->%list_elem_of_singleton]; done. Qed.

Lemma wide_kids c : kids (mem_of wide_tree) c = Ok (if String.eqb c "root" then cs ++ [last] else []).
Proof.
  unfold kids. cbn [list_children mem_host]. unfold rbind. f_equal. cbn [m_runs mem_of wide_tree List.filter].
  rewrite (bool_decide_false (parent_run_id (draft_run "root" []) = Some c)) by done. destruct (String.eqb_spec c "root") as [->|Hne].
  - rewrite (lfilter_all _ (map leaf cs ++ _)) by (intros r ->%leaf_parent; by apply bool_decide_true). rewrite map_app, map_map. cbn [map]. unfold leaf, sample_run. cbn [run_id]. rewrite map_id.
    apply lfilter_all. intros x Hx. destruct (String.eqb_spec x ""); [by apply leaf_ok in Hx as (_ & ? & _)|done].
  - rewrite (lfilter_none _ (map leaf cs ++ _)); [done|]. intros r ->%leaf_parent. apply bool_decide_false. congruence.
Qed.

Lemma walk_leaves children limit fuel queue out : (length queue <= fuel)%nat ->
  (forall c, c ∈ queue -> children c = Ok [] /\ strip c = c /\ c <> "") -> NoDup (out ++ queue) -> (length out <= limit)%nat ->
  collect_go children (Z.of_nat limit) fuel queue out = Some (Ok (out ++ take (limit - length out) queue)).
Proof.
  revert fuel out. induction queue as [|q queue IH]; intros fuel out Hf Hq Hn Hl.
  { rewrite take_nil, app_nil_r. by destruct fuel. }
  destruct fuel as [|fuel]; [simpl in Hf; lia|]. destruct (Hq q ltac:(set_solver)) as (Hk & Hs & Hne). simpl.
  destruct (Z.leb_spec (Z.of_nat limit) (Z.of_nat (length out))) as [Hle|Hgt].
  { replace (limit - length out)%nat with 0%nat by lia. simpl. by rewrite app_nil_r. }
  rewrite Hs. apply String.eqb_neq in Hne. rewrite Hne. rewrite bool_decide_false by (intros Hin; apply NoDup_app in Hn as (_ & Hd & _); apply (Hd q Hin); set_solver).
  cbn [orb]. rewrite Hk. cbn [List.filter]. rewrite app_nil_r. rewrite IH.
  - rewrite length_app. simpl. rewrite <- app_assoc. cbn [app]. replace (limit - length out)%nat with (S (limit - (length out + 1))) by lia. done.
  - simpl in Hf. lia.
  - intros c Hc. apply Hq. set_solver.
  - by rewrite <- app_assoc.
  - rewrite length_app. simpl. lia.
Qed.

Lemma wide_walk limit fuel : (0 < limit)%nat -> (length (cs ++ [last]) < fuel)%nat ->
  collect_run_tree fuel (mem_of wide_tree) "root" (Z.of_nat limit) = Ok ("root" :: take (limit - 1) (cs ++ [last])).
Proof.
  intros Hl Hf. unfold collect_run_tree. destruct fuel as [|fuel]; [lia|]. cbn [collect_go length].
  destruct (Z.leb_spec (Z.of_nat limit) (Z.of_nat 0)); [lia|]. change (strip "root") with "root". cbv zeta. cbn [app].
  rewrite (bool_decide_false ("root" ∈ [])) by set_solver. change (String.eqb "root" "") with false. cbn [orb]. rewrite wide_kids. change (String.eqb "root" "root") with true.
  cbn [app]. rewrite lfilter_all by (intros c (_ & _ & Hc)%leaf_ok; rewrite bool_decide_false by set_solver; done).
  rewrite (walk_leaves _ limit fuel (cs ++ [last]) ["root"]); [done|lia| | |simpl; lia].
  - intros c Hc. destruct (leaf_ok c Hc) as (? & ? & Hr). apply String.eqb_neq in Hr. by rewrite wide_kids, Hr.
  - cbn [app]. constructor; [|done]. by intros (_ & _ & ?)%leaf_ok.
Qed.

Lemma wide_terminal ids : last ∉ ids -> active_of (loaded_runs (mem_of wide_tree) ids) = [].
Proof.
  intros Hl. unfold active_of. rewrite lfilter_none; [done|]. intros [i r] Hin. unfold loaded_runs in Hin.
  apply list_elem_of_omap in Hin as (rid & Hrid & Hr). cbn [load mem_host m_runs mem_of] in Hr. destruct (mem_find rid wide_tree) as [q|] eqn:Eq; [|done].
  injection Hr as -> ->. unfold mem_find in Eq. apply List.find_some in Eq as [Hq Hi%String.eqb_eq]. apply list_elem_of_In in Hq. cbn [snd].
  unfold wide_tree in Hq. apply elem_of_cons in Hq as [->|[(c & -> & _)%list_elem_of_fmap| ->%list_elem_of_singleton]%elem_of_app]; [done|done|].
  cbn in Hi. by subst.
Qed.

Lemma keep_drafts_none limit rows out k : Forall (fun r => r = None) rows -> (keep_drafts limit rows out k).1 = out.
Proof. intros H. revert k. induction H as [|x rows -> _ IH]; intros k; simpl; [done|apply IH]. Qed.
Lemma wide_candidates : exists n, load_candidate_roots all_drafts (mem_of wide_tree) = Ok ([run_summary (draft_run "root" [])], n).
Proof.
  unfold load_candidate_roots. cbn [o_run_ids all_drafts map List.filter o_workflow_id o_session_id some_text list_run_index mem_purge list_any_runs o_limit].
  unfold rbind. change (Z.to_nat _) with 1000%nat. rewrite lfilter_all by done. unfold wide_tree at 1. cbn [m_runs mem_of].
  change (take 1000 (?x :: ?l)) with (x :: take 999 l). set (rows := take 999 _). cbn [map].
  assert (forall r, r ∈ rows -> parent_run_id r = Some "root") as Hp.
  { intros r Hr. apply leaf_parent. subst rows. by eapply subseteq_take in Hr. }
  clearbody rows. match goal with |- context [keep_drafts 200 (?h :: ?rs) [] 0] =>
    change (keep_drafts 200 (h :: rs) [] 0) with (keep_drafts 200 rs [run_summary (draft_run "root" [])] 1) end.
  match goal with |- context [keep_drafts 200 ?rs ?o 1] => exists (keep_drafts 200 rs o 1).2; pose proof (keep_drafts_none 200 rs o 1) as H end.
  rewrite (surjective_pairing (keep_drafts _ _ _ _)). rewrite H; [done|]. apply Forall_map, Forall_forall. intros r Hr. by rewrite (Hp r Hr).
Qed.
End Wide.

Lemma root_purgeable : purgeable all_drafts later_on DEFAULT_DRAFT_RUN_TTL_S (run_summary (draft_run "root" [])).
Proof.
  split_and!; [by vm_compute|right|right].
  - apply (bool_decide_unpack _). by vm_compute.
  - destruct (effective_expires_at (run_summary (draft_run "root" [])) DEFAULT_DRAFT_RUN_TTL_S) as [[t|]|e] eqn:E; vm_compute in E; try done.
    exists t. split; [done|]. injection E as <-. by vm_compute.
Qed.
Lemma root_alone fuel w n : load_candidate_roots all_drafts w = Ok ([run_summary (draft_run "root" [])], n) ->
  exec (@purge_ephemeral_draft_runs mem _ mem_purge plain_disk fuel all_drafts later_on DEFAULT_DRAFT_RUN_TTL_S) w =
  exec (@purge_run_tree mem _ mem_purge plain_disk fuel "root" false false true true) w.
Proof.
  intros Hc. pose proof (@consider_purges mem _ mem_purge plain_disk fuel all_drafts later_on DEFAULT_DRAFT_RUN_TTL_S (run_summary (draft_run "root" [])) w
    root_purgeable ltac:(discriminate) ltac:(discriminate) eq_refl) as H.
  change (summary_id _) with "root" in H. cbn [o_dry_run o_include_active o_delete_artifacts o_delete_workspaces all_drafts] in H. rewrite <- H. clear H.
  unfold purge_ephemeral_draft_runs. unfold exec at 1. unfold mbind_ at 1, get. cbv beta iota. unfold mbind_ at 1, of_res. rewrite Hc.
  cbn [fold_]. unfold exec. unfold mbind_, ret. by destruct (consider fuel _ _ _ _ w) as [[a|e] w'].
Qed.
Lemma mem_purge_loop d ids n w : exists n' w', fold_ ids n (purge_one d) w = (Ok n', w').
Proof.
  revert n w. induction ids as [|i ids IH]; intros n w; [by eexists _, _|]. cbn [fold_]. unfold mbind_ at 1.
  destruct (purge_one d n i w) as [[m|e] w1] eqn:E; [apply IH|]. destruct d; done.
Qed.
Lemma wide_last cs last : Forall (fun c => strip c = c /\ c <> "" /\ c <> "root") (cs ++ [last]) -> last ∉ cs ->
  mem_find last (wide_tree cs last) = Some (sample_run last RUNNING None (Some "root")).
Proof.
  intros Hcs Hl. unfold mem_find, wide_tree. cbn [List.find]. destruct (String.eqb_spec (run_id (draft_run "root" [])) last) as [<-|_].
  { apply Forall_app in Hcs as [_ H]. apply Forall_cons in H as [(_ & _ & H) _]. done. }
  clear Hcs. induction cs as [|c cs IH]; cbn [map app List.find].
  - destruct (String.eqb_spec (run_id (sample_run last RUNNING None (Some "root"))) last) as [_|H]; [done|by destruct H].
  - destruct (String.eqb_spec (run_id (leaf c)) last) as [<-|_]; [set_solver|]. apply IH. set_solver.
Qed.
(** The names of the children. *)
Definition child_name (n : nat) : string := "c" +:+ (str_of_Z (Z.of_nat n) +:+ "e").
#[local] Instance child_name_inj : Inj (=) (=) child_name.
Proof.
  intros a b He. unfold child_name in He. apply (inj (String.append "c")) in He. apply sapp_tail in He as [He _]; [|done].
  unfold str_of_Z in He. apply (inj pretty) in He. lia.
Qed.
Lemma child_name_ok n : strip (child_name n) = child_name n /\ child_name n <> "" /\ child_name n <> "root".
Proof.
  split_and!; [|done|done]. unfold strip, rstrip. assert (lstrip (child_name n) = child_name n) as -> by done.
  unfold child_name. rewrite <- sapp_assoc. by apply rstrip_by_app.
Qed.
Definition children_of_root : list string := map child_name (seq 1 2000).
Lemma children_ok : Forall (fun c => strip c = c /\ c <> "" /\ c <> "root") (children_of_root ++ ["last"]).
Proof.
  apply Forall_app. split; [|repeat constructor; done]. apply Forall_forall. intros c (n & -> & _)%list_elem_of_fmap. apply child_name_ok.
Qed.
Lemma children_distinct : NoDup (children_of_root ++ ["last"]).
Proof.
  apply NoDup_app. split_and!; [|intros c (n & -> & _)%list_elem_of_fmap Hl%list_elem_of_singleton; done|apply NoDup_singleton].
  unfold children_of_root. apply (NoDup_fmap_2 child_name), NoDup_ListNoDup, seq_NoDup.
Qed.

Lemma number_of_children : length children_of_root = 2000%nat.
Proof. unfold children_of_root. by rewrite length_map, length_seq. Qed.
Lemma enough_fuel : (length (children_of_root ++ ["last"]) < 3000)%nat.
Proof. rewrite length_app, number_of_children. apply Nat.ltb_lt. by vm_compute. Qed.
Abbreviation walked := ("root" :: take (2000 - 1) (children_of_root ++ ["last"])).
Lemma root_tree fuel : (length (children_of_root ++ ["last"]) < fuel)%nat ->
  collect_run_tree fuel (mem_of (wide_tree children_of_root "last")) "root" COLLECT_LIMIT = Ok walked.
Proof.
  intros Hf. replace COLLECT_LIMIT with (Z.of_nat 2000) by (vm_compute; reflexivity).
  apply (wide_walk _ _ children_ok children_distinct); [apply Nat.ltb_lt; by vm_compute|done].
Qed.
Lemma last_no_child : "last" ∉ children_of_root.
Proof. by intros (m & Hm & _)%list_elem_of_fmap. Qed.
Lemma last_beyond : "last" ∉ walked.
Proof.
  rewrite take_app_le by (rewrite number_of_children; apply Nat.le_sub_l).
  intros [?|Hin]%elem_of_cons; [done|]. by apply (subseteq_take _ children_of_root), last_no_child in Hin.
Qed.

(** There is a run in which a purge that does not include active runs deletes
    the root of two thousand and one other runs while one of them is running: the
    walk stops at two thousand runs and the running one is not looked at. *)
Theorem truncated_tree_hides_an_active_run :
  let w := exec (@purge_ephemeral_draft_runs mem _ mem_purge plain_disk 3000 all_drafts later_on DEFAULT_DRAFT_RUN_TTL_S)
             (mem_of (wide_tree children_of_root "last")) in
  o_include_active all_drafts = false /\
  load "root" w = Ok None /\ load "last" w = Ok (Some (sample_run "last" RUNNING None (Some "root"))).
Proof.
  cbv zeta. split; [done|]. destruct (wide_candidates children_of_root "last") as (n & Hc).
  pose proof (wide_last children_of_root "last" children_ok last_no_child) as Hlast.
  pose proof (root_tree _ enough_fuel) as Hw. pose proof last_beyond as Hl. pose proof (wide_terminal _ _ children_ok children_distinct _ Hl) as Ha.
  generalize dependent 3000%nat. intros fuel Hw. set (w := mem_of _) in *. rewrite (root_alone fuel w n Hc). clear Hc n. set (ids := _ :: _) in *. assert ("root" ∈ ids) as Hroot by apply list_elem_of_here. clearbody ids. split.
  - destruct (mem_purge_loop true (rev ids) (mk_deleted 0 0 0 0 0) w) as (n' & w1 & Hp).
    eapply purge_run_tree_gone; [done|done|exact Hw|exact Ha|exact Hp|exact Hroot].
  - rewrite (purge_run_tree_frames fuel "root" false false true true w "last") by (rewrite Hw; by intros ids' [= <-]).
    cbn [load mem_host]. by rewrite <- Hlast.
Qed.
