(* ===== verification/LedgerTail.v ===== *)
(** * The incremental readers of a run's ledger

    [ledger_tail.py]: the reader of a JSONL file by byte offset, the reader by the
    store's sequence numbers, and the reader that slices the whole list, with the
    interface through which the stream of a ledger uses any of them. *)

From S2P Require Import Prelude PyStr PyVal.

Abbreviation bytes := (list ascii).
Definition LF : ascii := ascii_of_nat 10.

(** What the readers use of Python's text codec and of [json]: [loads] of a text
    ([None] for a [JSONDecodeError]), and [raw_decode] at the head of a text with
    what is left after the value. *)
Class JsonOps := {
  decode_utf8 : bytes -> string;
  json_loads : string -> option val;
  raw_decode : string -> option (val * string);
}.
(** A line feed is never inside the encoding of a character, and a value that is
    decoded takes at least one character. *)
Class JsonLaws `{JsonOps} := {
  decode_nil : decode_utf8 [] = "";
  decode_lf a b : decode_utf8 (a ++ LF :: b) = decode_utf8 a +:+ LF ::s decode_utf8 b;
  raw_decode_progress s v rest : raw_decode s = Some (v, rest) -> (String.length rest < String.length s)%nat;
}.

(** ** One line *)

Section Lines.
Context `{JsonOps}.

Definition dicts_of (v : val) : list dict := match v with VDict d => [d] | _ => [] end.
(** The loop that recovers the objects written one after another on a line. *)
Fixpoint recovered (fuel : nat) (line : string) : list dict :=
  match fuel with
  | O => []
  | S fuel =>
      let line := lstrip line in
      if String.eqb line "" then []
      else match raw_decode line with
           | None => []
           | Some (obj, rest) => dicts_of obj ++ recovered fuel rest
           end
  end.
(** [_parse_ledger_line] *)
Definition parse_ledger_line (line : string) : list dict :=
  let line := strip line in
  if String.eqb line "" then []
  else match json_loads line with
       | Some record => dicts_of record
       | None => recovered (S (String.length line)) line
       end.
(** The records of a text, line by line. *)
Definition text_records (text : string) : list dict :=
  concat (map (fun line => if String.eqb (strip line) "" then [] else parse_ledger_line line) (split_char LF text)).
Definition chunk_records (chunk : bytes) : list dict := text_records (decode_utf8 chunk).
End Lines.

(** ** The reader of a file *)

(** [JsonlLedgerTail] *)
Record tail := mk_tail { offset : Z; index : Z; skip : Z; window : Z; caught_up : bool; progressed : bool }.
Definition READ_MAX_BYTES : Z := 8 * 1024 * 1024.
Definition start (start_index : Z) : tail := mk_tail 0 0 (Z.max 0 start_index) READ_MAX_BYTES false false.

(** [buf[: buf.rfind(LF) + 1]]: the complete lines; empty when there is no line feed. *)
Fixpoint complete (b : bytes) : bytes :=
  match b with
  | [] => []
  | c :: b =>
      match complete b with
      | [] => if Ascii.eqb LF c then [c] else []
      | p => c :: p
      end
  end.
(** A record keeps its own [seq], or gets its position. *)
Definition stamp (i : Z) (r : dict) : dict := match get_ "seq" r with VInt _ => r | _ => dset "seq" (VInt i) r end.
(** The loop over the records of a chunk: those served, and what is left to skip
    with the new position. *)
Fixpoint consume (skip index : Z) (rs : list dict) : list (Z * dict) * (Z * Z) :=
  match rs with
  | [] => ([], (skip, index))
  | r :: rs =>
      if 0 <? skip then consume (skip - 1) (index + 1) rs
      else let '(out, s) := consume skip (index + 1) rs in ((index + 1, stamp (index + 1) r) :: out, s)
  end.

Section Jsonl.
Context `{JsonOps}.

(** [read_new] past the size of the file. *)
Definition read_from (b : bytes) (t : tail) : list (Z * dict) * tail :=
  let size := Z.of_nat (length b) in
  if size =? offset t then ([], mk_tail (offset t) (index t) (skip t) (window t) (skip t =? 0) (progressed t))
  else
    let left := size - offset t in
    let buf := take (Z.to_nat (Z.min left (window t))) (drop (Z.to_nat (offset t)) b) in
    match complete buf with
    | [] =>
        if (window t <=? Z.of_nat (length buf)) && (window t <? left)
        then ([], mk_tail (offset t) (index t) (skip t) (Z.min (window t * 2) (Z.max left (window t * 2))) false true)
        else ([], mk_tail (offset t) (index t) (skip t) (window t) false (progressed t))
    | chunk =>
        let '(out, (sk, ix)) := consume (skip t) (index t) (chunk_records chunk) in
        let off := offset t + Z.of_nat (length chunk) in
        (out, mk_tail off ix sk READ_MAX_BYTES ((off =? size) && (sk =? 0)) true)
    end.
(** [read_new]; a file that is not there is [None]. *)
Definition read_new (f : option bytes) (t : tail) : list (Z * dict) * tail :=
  match f with
  | None => ([], mk_tail (offset t) (index t) (skip t) (window t) (skip t =? 0) false)
  | Some b =>
      if Z.of_nat (length b) <? offset t
      then read_from b (mk_tail 0 0 0 READ_MAX_BYTES (caught_up t) true)
      else read_from b (mk_tail (offset t) (index t) (skip t) (window t) (caught_up t) false)
  end.
End Jsonl.

(** ** The reader by sequence number *)

(** [SeqLedgerTail] over [list_after(run_id, after, limit)]: the page and the next
    cursor. *)
Record seq_tail := mk_seq_tail { sq_cursor : Z; sq_caught_up : bool; sq_progressed : bool }.
Definition SEQ_LIMIT : Z := 1000.
Definition MAX_RECORDS : Z := 10000.
Definition seq_start (start_index : Z) : seq_tail := mk_seq_tail (Z.max 0 start_index) false false.
(** The records with the positions after [i]. *)
Fixpoint numbered (i : Z) (rs : list dict) : list (Z * dict) :=
  match rs with [] => [] | r :: rs => (i + 1, r) :: numbered (i + 1) rs end.
Definition seq_read {W} (list_after : W -> Z -> Z -> list dict * Z) (w : W) (t : seq_tail) : list (Z * dict) * seq_tail :=
  let lim := Z.min MAX_RECORDS SEQ_LIMIT in
  let '(records, next) := list_after w (sq_cursor t) lim in
  let n := Z.of_nat (length records) in
  (numbered (sq_cursor t) records,
   mk_seq_tail (Z.max (sq_cursor t + n) next) (n <? lim) (negb (n =? 0))).

(** ** The reader by slices *)

(** [ListSliceTail] over [list(run_id)] and, when the store has it, [count]. *)
Record slice_tail := mk_slice_tail { sl_cursor : Z; sl_caught_up : bool; sl_progressed : bool }.
Definition slice_start (start_index : Z) : slice_tail := mk_slice_tail (Z.max 0 start_index) false false.
Definition slice_read {W} (count : option (W -> res Z)) (list_ : W -> list dict) (w : W) (t : slice_tail) : list (Z * dict) * slice_tail :=
  let gate := match count with
              | Some f => match f w with Ok n => n <=? sl_cursor t | Raise _ => false end
              | None => false
              end in
  if gate then ([], mk_slice_tail (sl_cursor t) true false)
  else
    let ledger := list_ w in
    let page := take (Z.to_nat MAX_RECORDS) (drop (Z.to_nat (sl_cursor t)) ledger) in
    let cursor := sl_cursor t + Z.of_nat (length page) in
    (numbered (sl_cursor t) page, mk_slice_tail cursor (Z.of_nat (length ledger) <=? cursor) (negb (Z.of_nat (length page) =? 0))).

(** ** The interface *)

(** What the stream of a ledger uses of a reader of the world [W]. *)
Class TailReader (W T : Type) := {
  tail_start : Z -> T;
  tail_read : W -> T -> list (Z * dict) * T;
  tail_index : T -> Z;
  tail_progressed : T -> bool;
}.
(** What a reader promises. [entries] is what the ledger holds, with the positions
    it is served under; the ledger only grows. [reading k w t n]: a reader
    started after [k] records has passed the first [n] of [w]. A read passes some
    more and serves them; one that serves nothing and makes no progress has
    passed them all; and reads of a ledger at rest come to such a one. *)
Class TailLaws (W T : Type) `{TailReader W T} := {
  entries : W -> list (Z * dict);
  grows : W -> W -> Prop;
  reading : nat -> W -> T -> nat -> Prop;
  left_to_read : W -> T -> nat;
  entries_grow w w' : grows w w' -> entries w `prefix_of` entries w';
  entries_numbered w i c r : entries w !! i = Some (c, r) -> c = Z.of_nat (S i);
  reading_start k w : reading k w (tail_start (Z.of_nat k)) 0;
  reading_grow k w w' t n : grows w w' -> reading k w t n -> reading k w' t n;
  reading_le k w t n : reading k w t n -> (n <= length (entries w))%nat;
  reading_read k w t n out t' : reading k w t n -> tail_read w t = (out, t') ->
    exists n', (n <= n')%nat /\ reading k w t' n' /\ out = drop (k `max` n) (take n' (entries w)) /\
      (out = [] -> tail_progressed t' = false ->
         n' = length (entries w) /\ ((k <= n')%nat -> tail_index t' = Z.of_nat n')) /\
      (out <> [] \/ tail_progressed t' = true -> (left_to_read w t' < left_to_read w t)%nat) /\
      (left_to_read w t' <= left_to_read w t)%nat;
}.

(** What was served, then what is: one after the other. *)
Lemma drop_take_join {A} (k n n' : nat) (l : list A) : (n <= n')%nat ->
  drop k (take n l) ++ drop (k `max` n) (take n' l) = drop k (take n' l).
Proof.
  intros Hle. destruct (decide (k <= n)%nat) as [Hk|Hk].
  - rewrite Nat.max_r by done. rewrite !skipn_firstn_comm.
    rewrite <- (take_drop (n - k) (take (n' - k) (drop k l))) at 1.
    rewrite take_take, skipn_firstn_comm, drop_drop.
    replace ((n - k) `min` (n' - k))%nat with (n - k)%nat by lia. replace (k + (n - k))%nat with n by lia. f_equal. f_equal. lia.
  - rewrite Nat.max_l by lia. rewrite (drop_ge (take n l)) by (rewrite length_take; lia). done.
Qed.
