(* ===== verification/LedgerTailFacts.v ===== *)
(** * The readers of a ledger keep their promise

    The three readers of LedgerTail are instances of its interface: over a file
    that is only appended to, line by line or torn, over a store that pages by
    dense sequence numbers, and over a store that only lists. *)

From S2P Require Import Prelude PyStr PyVal LedgerTail.

(** ** Slices *)

Lemma numbered_length i rs : length (numbered i rs) = length rs.
Proof. revert i. induction rs as [|r rs IH]; intros i; simpl; [done|by rewrite IH]. Qed.
Lemma numbered_app i rs rs' : numbered i (rs ++ rs') = numbered i rs ++ numbered (i + Z.of_nat (length rs)) rs'.
Proof.
  revert i. induction rs as [|r rs IH]; intros i; simpl; [by rewrite Z.add_0_r|]. rewrite IH. do 3 f_equal. lia.
Qed.
Lemma numbered_drop i n rs : (n <= length rs)%nat -> numbered (i + Z.of_nat n) (drop n rs) = drop n (numbered i rs).
Proof.
  intros Hn. rewrite <- (take_drop n rs) at 2. rewrite numbered_app.
  rewrite drop_app_length' by (rewrite numbered_length, length_take; lia). do 2 f_equal. rewrite length_take. lia.
Qed.
Lemma numbered_take i n rs : numbered i (take n rs) = take n (numbered i rs).
Proof. revert i n. induction rs as [|r rs IH]; intros i [|n]; simpl; [done..|by rewrite IH]. Qed.
Lemma numbered_prefix i rs rs' : rs `prefix_of` rs' -> numbered i rs `prefix_of` numbered i rs'.
Proof. intros [l ->]. rewrite numbered_app. by apply prefix_app_r. Qed.
Lemma numbered_lookup i rs j c r : numbered i rs !! j = Some (c, r) -> c = i + Z.of_nat (S j).
Proof.
  revert i j. induction rs as [|x rs IH]; intros i [|j]; simpl; try done; [intros [= <- _]; lia|]. intros ->%IH. lia.
Qed.
Lemma skip_page {A} (c m : nat) (l : list A) : take m (drop c l) = drop c (take (c + length (take m (drop c l))) l).
Proof.
  rewrite skipn_firstn_comm. rewrite length_take, length_drop. replace (c + m `min` (length l - c) - c)%nat with (m `min` length (drop c l))%nat by (rewrite length_drop; lia).
  by rewrite <- take_take, firstn_all.
Qed.

(** ** Complete lines *)

Lemma complete_spec b : exists rest, b = complete b ++ rest /\ ~ (LF ∈ rest) /\ (complete b = [] \/ (exists p, complete b = p ++ [LF])).
Proof.
  induction b as [|c b (rest & Hb & Hr & Hp)]; [exists []; split_and!; [done|set_solver|by left]|]. simpl.
  destruct (complete b) as [|d p] eqn:E.
  - destruct (Ascii.eqb_spec LF c) as [<-|Hne].
    + exists rest. split_and!; [by rewrite Hb at 1|done|right; by exists []].
    + exists (c :: rest). simpl in Hb. subst b. split_and!; [done|set_solver|by left].
  - exists rest. split_and!; [by rewrite Hb at 1|done|]. right. destruct Hp as [?|[q Hq]]; [done|]. exists (c :: q). by rewrite Hq.
Qed.
Lemma complete_none rest : LF ∉ rest -> complete rest = [].
Proof.
  induction rest as [|c rest IH]; intros Hn; [done|]. simpl. rewrite IH by set_solver.
  destruct (Ascii.eqb_spec LF c) as [<-|]; [set_solver|done].
Qed.
Lemma complete_cons c b : complete b <> [] -> complete (c :: b) = c :: complete b.
Proof. intros H. simpl. by destruct (complete b). Qed.
(** What follows a line feed is complete by itself. *)
Lemma complete_after p b : complete ((p ++ [LF]) ++ b) = (p ++ [LF]) ++ complete b.
Proof.
  induction p as [|c p IH].
  - simpl. destruct (complete b) eqn:E; [|done]. by rewrite (bool_decide_true (LF = LF)) || done.
  - change (complete (c :: ((p ++ [LF]) ++ b)) = c :: (p ++ [LF]) ++ complete b). rewrite complete_cons, IH; [done|].
    rewrite IH. by destruct p.
Qed.

(** Whole lines: nothing, or what ends in a line feed. *)
Definition whole (b : bytes) : Prop := b = [] \/ (exists p, b = p ++ [LF]).
Lemma complete_whole b : whole (complete b).
Proof. destruct (complete_spec b) as (rest & _ & _ & H). exact H. Qed.
Lemma complete_app a b : whole a -> complete (a ++ b) = a ++ complete b.
Proof. intros [->|[p ->]]; [done|apply complete_after]. Qed.
Lemma whole_app a b : whole a -> whole b -> whole (a ++ b).
Proof. intros Ha [->|[p ->]]; [by rewrite app_nil_r|]. right. exists (a ++ p). by rewrite app_assoc. Qed.
Lemma complete_prefix b b' : b `prefix_of` b' -> complete b `prefix_of` complete b'.
Proof.
  intros [l ->]. destruct (complete_spec b) as (rest & Hb & _ & _). rewrite Hb at 2. rewrite <- app_assoc, complete_app by apply complete_whole.
  by apply prefix_app_r.
Qed.

(** ** Records *)

Section Records.
Context `{HJ : JsonOps} {HL : JsonLaws}.

Lemma split_char_lf s t : split_char LF (s +:+ LF ::s t) = split_char LF s ++ split_char LF t.
Proof.
  induction s as [|c s IH]; [done|]. rewrite scons_app. simpl. rewrite IH. destruct (Ascii.eqb LF c); [done|].
  destruct (split_char LF s) as [|h l] eqn:E; [|done]. by destruct s as [|d s]; simpl in E; [|destruct (Ascii.eqb LF d), (split_char LF s)].
Qed.
Lemma text_records_lf s t : text_records (s +:+ LF ::s t) = text_records s ++ text_records t.
Proof. unfold text_records. by rewrite split_char_lf, map_app, concat_app. Qed.
Lemma chunk_records_app a b : whole a -> chunk_records (a ++ b) = chunk_records a ++ chunk_records b.
Proof.
  unfold chunk_records. intros [->|[p ->]]; [by rewrite decode_nil|]. rewrite <- app_assoc. cbn [app]. rewrite !decode_lf, !text_records_lf, decode_nil.
  change (text_records "") with (@nil dict). by rewrite app_nil_r.
Qed.

(** The fuel of the recovery is enough: every value takes a character. *)
Lemma length_lstrip s : (String.length (lstrip s) <= String.length s)%nat.
Proof. induction s as [|c s IH]; simpl; [lia|]. destruct (is_space c); simpl; lia. Qed.
Lemma recovered_enough n m line : (String.length line < n)%nat -> (String.length line < m)%nat -> recovered n line = recovered m line.
Proof.
  revert m line. induction n as [|n IH]; intros [|m] line Hn Hm; simpl; try lia. pose proof (length_lstrip line).
  destruct (String.eqb (lstrip line) ""); [done|]. destruct (raw_decode (lstrip line)) as [[v rest]|] eqn:E; [|done].
  apply raw_decode_progress in E. f_equal. apply IH; lia.
Qed.
End Records.

(** ** The reader of a file *)

Definition stamped (i : Z) (rs : list dict) : list (Z * dict) := map (fun e => (e.1, stamp e.1 e.2)) (numbered i rs).
Lemma stamped_app i rs rs' : stamped i (rs ++ rs') = stamped i rs ++ stamped (i + Z.of_nat (length rs)) rs'.
Proof. unfold stamped. by rewrite numbered_app, map_app. Qed.
Lemma stamped_length i rs : length (stamped i rs) = length rs.
Proof. unfold stamped. by rewrite length_map, numbered_length. Qed.
Lemma consume_spec s i rs : consume (Z.of_nat s) i rs =
  (drop s (stamped i rs), (Z.of_nat (s - length rs), i + Z.of_nat (length rs))).
Proof.
  revert s i. induction rs as [|r rs IH]; intros s i; simpl.
  - unfold stamped. cbn [numbered map]. rewrite drop_nil. repeat f_equal; lia.
  - destruct s as [|s].
    + change (0 <? Z.of_nat 0) with false. cbv iota. change 0 with (Z.of_nat 0). rewrite IH. unfold stamped. cbn [numbered map drop length fst snd].
      f_equal. f_equal; lia.
    + destruct (Z.ltb_spec 0 (Z.of_nat (S s))); [|lia]. replace (Z.of_nat (S s) - 1) with (Z.of_nat s) by lia. rewrite IH. unfold stamped. cbn [numbered map drop length].
      f_equal. f_equal; lia.
Qed.

Section JsonlReader.
Context `{HJ : JsonOps} {HL : JsonLaws}.

Definition contents (f : option bytes) : bytes := default [] f.
(** What [list()] of the store serves of the file's complete lines. *)
Definition file_entries (f : option bytes) : list (Z * dict) := stamped 0 (chunk_records (complete (contents f))).
(** The file is there from some time on, and is only appended to. *)
Definition file_grows (f f' : option bytes) : Prop :=
  match f, f' with None, _ => True | Some b, Some b' => b `prefix_of` b' | Some _, None => False end.

Record at_line (k : nat) (f : option bytes) (t : tail) (n : nat) : Prop := {
  al_offset : 0 <= offset t <= Z.of_nat (length (contents f));
  al_whole : whole (take (Z.to_nat (offset t)) (contents f));
  al_index : index t = Z.of_nat n;
  al_records : n = length (chunk_records (take (Z.to_nat (offset t)) (contents f)));
  al_skip : skip t = Z.of_nat (k - n);
  al_window : 0 < window t;
}.

Lemma no_records s i : drop s (stamped i (chunk_records [])) = [].
Proof. unfold chunk_records. rewrite decode_nil. apply drop_nil. Qed.
Lemma file_grows_contents f f' : file_grows f f' -> contents f `prefix_of` contents f'.
Proof. destruct f as [b|], f' as [b'|]; simpl; try done. intros _. apply prefix_nil. Qed.

Lemma at_line_split k f t n : at_line k f t n ->
  let P := take (Z.to_nat (offset t)) (contents f) in
  let rest := drop (Z.to_nat (offset t)) (contents f) in
  contents f = P ++ rest /\ whole P /\ length P = Z.to_nat (offset t) /\
  file_entries f = stamped 0 (chunk_records P) ++ stamped (Z.of_nat n) (chunk_records (complete rest)).
Proof.
  intros [Ho Hw Hi Hr Hs _] P rest. assert (contents f = P ++ rest) as Hc by (symmetry; apply take_drop).
  split_and!; [done|done|unfold P; rewrite length_take; lia|]. unfold file_entries.
  replace (complete (contents f)) with (P ++ complete rest) by (by rewrite Hc, complete_app).
  rewrite chunk_records_app, stamped_app by done. unfold P at 2. rewrite <- Hr. done.
Qed.

Lemma at_line_le k f t n : at_line k f t n -> (n <= length (file_entries f))%nat.
Proof.
  intros H. destruct (at_line_split k f t n H) as (_ & _ & _ & ->). rewrite length_app, !stamped_length. rewrite (al_records _ _ _ _ H). lia.
Qed.
Lemma at_line_start k f : at_line k f (start (Z.of_nat k)) 0.
Proof. split; cbn; [lia|by left|done|unfold chunk_records; by rewrite decode_nil|lia|reflexivity]. Qed.
Lemma at_line_grow k f f' t n : file_grows f f' -> at_line k f t n -> at_line k f' t n.
Proof.
  intros Hg H. destruct (file_grows_contents f f' Hg) as [l Hl]. destruct H as [Ho Hw Hi Hr Hs Hd].
  assert (take (Z.to_nat (offset t)) (contents f') = take (Z.to_nat (offset t)) (contents f)) as E by (rewrite Hl; apply take_app_le; lia).
  split; try done; [rewrite Hl, length_app; lia|by rewrite E|by rewrite E].
Qed.

(** A read of a file that has not shrunk: it stays, or its window grows, or it
    passes the complete lines of the window. *)
Lemma read_new_cases k f t n : at_line k f t n ->
  let left := Z.of_nat (length (contents f)) - offset t in
  let rest := drop (Z.to_nat (offset t)) (contents f) in
  let chunk := complete (take (Z.to_nat (Z.min left (window t))) rest) in
  exists t', read_new f t = (drop (k - n) (stamped (Z.of_nat n) (chunk_records chunk)), t') /\
    match chunk with
    | [] => offset t' = offset t /\ index t' = index t /\ skip t' = skip t /\
        ((progressed t' = false /\ window t' = window t /\ complete rest = []) \/
         (progressed t' = true /\ window t < left /\ window t' = 2 * window t))
    | _ => offset t' = offset t + Z.of_nat (length chunk) /\ index t' = index t + Z.of_nat (length (chunk_records chunk)) /\
        skip t' = Z.of_nat (k - n - length (chunk_records chunk)) /\ progressed t' = true /\ window t' = READ_MAX_BYTES
    end.
Proof.
  intros H left rest chunk. destruct H as [Ho Hw Hi Hr Hs Hd]. unfold read_new. destruct f as [b|].
  2:{ change (contents None) with (@nil ascii) in *. assert (rest = []) as Hrest by (unfold rest; apply drop_nil). assert (chunk = []) as -> by (unfold chunk; by rewrite Hrest, take_nil).
      rewrite no_records. eexists. split; [done|]. cbn. split_and!; try done. left. by rewrite Hrest. }
  change (contents (Some b)) with b in *. destruct (Z.ltb_spec (Z.of_nat (length b)) (offset t)); [lia|]. unfold read_from. cbn [offset index skip window progressed].
  destruct (Z.eqb_spec (Z.of_nat (length b)) (offset t)) as [He|Hne].
  { assert (rest = []) as Hrest by (unfold rest; rewrite <- He, Nat2Z.id; by apply drop_all).
    assert (chunk = []) as -> by (unfold chunk; by rewrite Hrest, take_nil). rewrite no_records. eexists. split; [done|]. cbn. split_and!; try done. left. by rewrite Hrest. }
  fold left rest. cbv zeta. fold chunk. set (buf := take (Z.to_nat (Z.min left (window t))) rest) in *.
  assert (length rest = Z.to_nat left) as Hlr by (unfold rest, left; rewrite length_drop; lia).
  assert (Z.of_nat (length buf) = Z.min left (window t)) as Hlb by (unfold buf; rewrite length_take; lia).
  destruct chunk as [|c p] eqn:Ec.
  - rewrite no_records.
    destruct (Z.leb_spec (window t) (Z.of_nat (length buf))) as [Hb|Hb]; cbn [andb].
    + destruct (Z.ltb_spec (window t) left) as [Hl|Hl].
      * eexists. split; [done|]. cbn. split_and!; try done. right. split_and!; [done|done|lia].
      * eexists. split; [done|]. cbn. split_and!; try done. left. split_and!; try done. rewrite <- Ec. unfold chunk, buf.
        rewrite take_ge by lia. done.
    + eexists. split; [done|]. cbn. split_and!; try done. left. split_and!; try done. rewrite <- Ec. unfold chunk, buf. rewrite take_ge by lia. done.
  - rewrite Hs, consume_spec, Hi. eexists. split; [done|]. cbn [offset index skip progressed window]. split_and!; try done.
Qed.

(** The complete lines of a window: more lines after those passed, on both sides
    of which the ledger splits. *)
Lemma chunk_entries k f t n m : at_line k f t n ->
  let P := take (Z.to_nat (offset t)) (contents f) in
  let rest := drop (Z.to_nat (offset t)) (contents f) in
  let chunk := complete (take m rest) in
  take (Z.to_nat (offset t) + length chunk) (contents f) = P ++ chunk /\
  exists after, file_entries f = stamped 0 (chunk_records P) ++ stamped (Z.of_nat n) (chunk_records chunk) ++ after.
Proof.
  intros H P rest chunk. destruct (at_line_split k f t n H) as (Hc & Hw & Hl & He). fold P rest in Hc, Hw, Hl, He.
  assert (exists r, rest = chunk ++ r) as [r Hr].
  { destruct (complete_spec (take m rest)) as (r & Hr & _ & _). fold chunk in Hr. exists (r ++ drop m rest). by rewrite app_assoc, <- Hr, take_drop. }
  split.
  - rewrite Hc, <- Hl, Hr. rewrite app_assoc. apply take_app_length'. by rewrite length_app.
  - rewrite He, Hr. rewrite complete_app by apply complete_whole. rewrite chunk_records_app by apply complete_whole. rewrite stamped_app. eauto.
Qed.

(** A read terminates the work left, or reduces it. *)
Definition bytes_left (f : option bytes) (t : tail) : nat :=
  let size := length (contents f) in
  let left := (size - Z.to_nat (offset t))%nat in
  (left * (size + 1) + (left - Z.to_nat (window t)))%nat.

#[export] Instance jsonl_reader : TailReader (option bytes) tail := {
  tail_start := start; tail_read f t := read_new f t; tail_index := index; tail_progressed := progressed }.

Lemma at_line_stay k f t t' n : at_line k f t n -> offset t' = offset t -> index t' = index t -> skip t' = skip t -> 0 < window t' -> at_line k f t' n.
Proof. intros [Ho Hw Hi Hr Hs Hd] E1 E2 E3 Hd'. split; rewrite ?E1, ?E2, ?E3; done. Qed.
Lemma at_line_read k f t n out t' : at_line k f t n -> read_new f t = (out, t') ->
  exists n', (n <= n')%nat /\ at_line k f t' n' /\ out = drop (k `max` n) (take n' (file_entries f)) /\
    (out = [] -> progressed t' = false -> n' = length (file_entries f) /\ ((k <= n')%nat -> index t' = Z.of_nat n')) /\
    (out <> [] \/ progressed t' = true -> (bytes_left f t' < bytes_left f t)%nat) /\
    (bytes_left f t' <= bytes_left f t)%nat.
Proof.
  intros H Hread. destruct (read_new_cases k f t n H) as (t0 & Hread0 & Hcase). rewrite Hread in Hread0. injection Hread0 as -> <-.
  pose proof (chunk_entries k f t n (Z.to_nat (Z.min (Z.of_nat (length (contents f)) - offset t) (window t))) H) as [Htake [after He]].
  destruct (at_line_split k f t n H) as (_ & HwP & HlP & Hsplit). pose proof H as [Ho Hw Hi Hr Hs Hd].
  destruct (complete _) as [|c p] eqn:Ec in Hread, Hcase, He, Htake |- *.
  - destruct Hcase as (Eo & Ei & Es & Hcase). exists n. rewrite no_records in *.
    assert (at_line k f t' n) as H' by (destruct Hcase as [(_ & Hwin & _)|(_ & _ & Hwin)]; apply (at_line_stay k f t); try done; lia).
    split_and!; [done|done|rewrite drop_ge; [done|rewrite length_take; lia]| | |].
    + intros _ Hp. destruct Hcase as [(_ & _ & Hrest)|(Hp' & _)]; [|congruence]. split; [|by rewrite Ei].
      rewrite Hsplit, Hrest, length_app, !stamped_length. unfold chunk_records at 2. rewrite decode_nil. cbn. lia.
    + intros [?|Hp]; [done|]. destruct Hcase as [(Hp' & _)|(_ & Hlt & Hwin)]; [congruence|]. unfold bytes_left. rewrite Eo, Hwin. nia.
    + unfold bytes_left. rewrite Eo. destruct Hcase as [(_ & -> & _)|(_ & _ & ->)]; nia.
  - destruct Hcase as (Eo & Ei & Es & Hp & Hwin).
    assert (whole (c :: p)) as Hwc by (rewrite <- Ec; apply complete_whole).
    set (chunk := c :: p) in *. assert (0 < length chunk)%nat as Hpos by (simpl; lia). clearbody chunk.
    set (rs := chunk_records chunk) in *. exists (n + length rs)%nat.
    assert (Z.to_nat (offset t') = (Z.to_nat (offset t) + length chunk)%nat) as Eo' by lia.
    assert (length (contents f) = (Z.to_nat (offset t) + length (drop (Z.to_nat (offset t)) (contents f)))%nat) as Hlen by (rewrite length_drop; lia).
    assert (Z.to_nat (offset t) + length chunk <= length (contents f))%nat as Hfit.
    { apply (f_equal length) in Htake. rewrite length_take, length_app, HlP in Htake. lia. }
    assert (bytes_left f t' < bytes_left f t)%nat as Hless by (unfold bytes_left; rewrite Eo'; nia).
    split_and!; [lia| | | |done|lia].
    + split; [lia|rewrite Eo', Htake; by apply whole_app|lia| |lia|rewrite Hwin; reflexivity].
      rewrite Eo', Htake, chunk_records_app, length_app by done. by rewrite <- Hr.
    + rewrite He, app_assoc. rewrite take_app_length' by (rewrite length_app, !stamped_length, <- Hr; done).
      rewrite drop_app, stamped_length, <- Hr. rewrite (drop_ge (stamped 0 _)) by (rewrite stamped_length, <- Hr; lia).
      replace (k `max` n - n)%nat with (k - n)%nat by lia. done.
    + intros _. congruence.
Qed.

#[export] Program Instance jsonl_laws : TailLaws (option bytes) tail := {
  entries := file_entries; grows := file_grows; reading := at_line; left_to_read := bytes_left }.
Next Obligation.
  intros f f' Hg. unfold file_entries. apply file_grows_contents, complete_prefix in Hg as [l Hl].
  rewrite Hl. rewrite chunk_records_app by apply complete_whole. rewrite stamped_app. by apply prefix_app_r.
Qed.
Next Obligation.
  intros f i c r Hl. unfold file_entries, stamped in Hl. apply list_lookup_fmap_Some in Hl as ([c' r'] & [= -> _] & Hl). by apply numbered_lookup in Hl.
Qed.
Next Obligation. apply at_line_start. Qed.
Next Obligation. intros. by eapply at_line_grow. Qed.
Next Obligation. intros. by eapply at_line_le. Qed.
Next Obligation. intros. by eapply at_line_read. Qed.
End JsonlReader.

(** ** The readers of a store *)

(** A page from position [c] on passes [m] records at most. *)
Lemma page_entries c m (rs : list dict) : numbered (Z.of_nat c) (take m (drop c rs)) =
  drop c (take (c + length (take m (drop c rs))) (numbered 0 rs)).
Proof.
  destruct (decide (c <= length rs)%nat) as [Hc|Hc].
  - rewrite skip_page at 1. rewrite <- numbered_take. change (Z.of_nat c) with (0 + Z.of_nat c). apply numbered_drop. rewrite length_take. lia.
  - rewrite (drop_ge rs) by lia. rewrite take_nil. rewrite drop_ge; [done|]. rewrite length_take, numbered_length. simpl. lia.
Qed.

(** Where a reader started after [k] records that has passed [n] stands. *)
Definition stands (k n : nat) (cursor : Z) : Prop := cursor = Z.of_nat (k `max` n).
Lemma page_read k n (rs : list dict) cursor m : stands k n cursor -> (n <= length rs)%nat -> (0 < m)%nat ->
  let page := take m (drop (Z.to_nat cursor) rs) in
  let n' := if decide (k < length rs)%nat then (Z.to_nat cursor + length page)%nat else length rs in
  (n <= n' <= length rs)%nat /\ stands k n' (cursor + Z.of_nat (length page)) /\
  numbered cursor page = drop (k `max` n) (take n' (numbered 0 rs)) /\
  (page = [] -> n' = length rs) /\ (page <> [] -> (n < n')%nat).
Proof.
  intros Hc Hn Hm. unfold stands in *. subst cursor. rewrite Nat2Z.id. set (page := take m _). set (n' := if decide _ then _ else _). cbv zeta.
  assert (length page = m `min` (length rs - k `max` n))%nat as Hp by (unfold page; by rewrite length_take, length_drop).
  assert (page = [] <-> length page = 0%nat) as Hnil by (split; [by intros ->|apply nil_length_inv]).
  subst n'. destruct (decide (k < length rs)%nat) as [Hk|Hk]; split_and!; try lia.
  - apply page_entries.
  - intros He%Hnil. lia.
  - intros Hne. assert (length page <> 0%nat) by (intros He%Hnil; done). lia.
  - rewrite (proj2 Hnil) by lia. rewrite drop_ge; [done|]. rewrite length_take, numbered_length. lia.
  - intros Hne. destruct Hne. apply Hnil. lia.
Qed.

Section SeqReader.
Context {W : Type} (records_of : W -> list dict) (list_after : W -> Z -> Z -> list dict * Z).
(** [list_after] pages by dense sequence numbers: a page is the records after the
    position, and the cursor it answers is not past it. *)
Context (Hpage : forall w after limit page next, 0 <= after -> list_after w after limit = (page, next) ->
  page = take (Z.to_nat limit) (drop (Z.to_nat after) (records_of w)) /\ next <= after + Z.of_nat (length page)).

#[local] Instance seq_reader : TailReader W seq_tail := {
  tail_start := seq_start; tail_read w t := seq_read list_after w t; tail_index := sq_cursor; tail_progressed := sq_progressed }.
#[local] Program Instance seq_laws : TailLaws W seq_tail := {
  entries w := numbered 0 (records_of w);
  grows w w' := records_of w `prefix_of` records_of w';
  reading k w t n := (n <= length (records_of w))%nat /\ stands k n (sq_cursor t);
  left_to_read w t := (length (records_of w) - Z.to_nat (sq_cursor t))%nat }.
Next Obligation. intros w w' H. by apply numbered_prefix. Qed.
Next Obligation. intros w i c r Hl. by apply numbered_lookup in Hl. Qed.
Next Obligation. intros k w. split; [lia|]. unfold stands. cbn. lia. Qed.
Next Obligation. intros k w w' t n H [Hn Hs]. split; [|done]. apply prefix_length in H. lia. Qed.
Next Obligation. intros k w t n [Hn _]. by rewrite numbered_length. Qed.
Next Obligation.
  intros k w t n out t' [Hn Hs] H. unfold tail_read, seq_reader, seq_read in H. rewrite numbered_length.
  destruct (list_after w (sq_cursor t) _) as [page next] eqn:E. apply Hpage in E as [-> Hnext]; [|unfold stands in Hs; lia].
  pose proof (page_read k n (records_of w) (sq_cursor t) (Z.to_nat (MAX_RECORDS `min` SEQ_LIMIT)) Hs Hn ltac:(vm_compute; lia)) as (Hle & Hs' & Hout & Hend & Hmore).
  set (page := take _ _) in *. injection H as <- <-. cbn [sq_cursor sq_progressed tail_index tail_progressed seq_reader].
  eexists. split; [apply Hle|]. split; [split; [apply Hle|]|split; [exact Hout|split]].
  - rewrite Z.max_l by done. exact Hs'.
  - intros Ho _. assert (page = []) as Hp by (destruct page; done). split; [auto|]. intros Hk. rewrite Z.max_l by done. unfold stands in Hs'. rewrite Hs'. f_equal. by apply Nat.max_r.
  - split; [|rewrite Z.max_l by done; lia]. intros Ho. assert (page <> []) as Hp.
    { intros Hp. rewrite Hp in Ho. destruct Ho as [?|?]; done. }
    rewrite Z.max_l by done. assert (0 < length page)%nat by (destruct page; [done|simpl; lia]).
    assert (length page <= length (records_of w) - Z.to_nat (sq_cursor t))%nat by (unfold page; rewrite length_take, length_drop; lia).
    unfold stands in Hs. lia.
Qed.
End SeqReader.

Section SliceReader.
Context {W : Type} (count : option (W -> res Z)) (list_ : W -> list dict).
(** A count is of the records that are listed, at least. *)
Context (Hcount : forall f w n, count = Some f -> f w = Ok n -> Z.of_nat (length (list_ w)) <= n).

#[local] Instance slice_reader : TailReader W slice_tail := {
  tail_start := slice_start; tail_read w t := slice_read count list_ w t; tail_index := sl_cursor; tail_progressed := sl_progressed }.
#[local] Program Instance slice_laws : TailLaws W slice_tail := {
  entries w := numbered 0 (list_ w);
  grows w w' := list_ w `prefix_of` list_ w';
  reading k w t n := (n <= length (list_ w))%nat /\ stands k n (sl_cursor t);
  left_to_read w t := (length (list_ w) - Z.to_nat (sl_cursor t))%nat }.
Next Obligation. intros w w' H. by apply numbered_prefix. Qed.
Next Obligation. intros w i c r Hl. by apply numbered_lookup in Hl. Qed.
Next Obligation. intros k w. split; [lia|]. unfold stands. cbn. lia. Qed.
Next Obligation. intros k w w' t n H [Hn Hs]. split; [|done]. apply prefix_length in H. lia. Qed.
Next Obligation. intros k w t n [Hn _]. by rewrite numbered_length. Qed.
Next Obligation.
  intros k w t n out t' [Hn Hs] H. unfold tail_read, slice_reader, slice_read in H. rewrite numbered_length.
  set (gate := match count with Some f => _ | None => false end) in H. destruct gate eqn:Hg.
  - subst gate. destruct count as [f|] eqn:Ef; [|done]. destruct (f w) as [c|] eqn:Ec; [|done]. apply (Hcount f) in Ec; [|done]. apply Z.leb_le in Hg.
    injection H as <- <-. unfold stands in *. cbn [sl_cursor sl_progressed tail_index tail_progressed slice_reader]. exists (length (list_ w)).
    split_and!; [lia|lia|lia|rewrite drop_ge by (rewrite length_take, numbered_length; lia); done|intros _ _; split; [done|lia]|intros [?|?]; done|lia].
  - clear Hg gate.
    pose proof (page_read k n (list_ w) (sl_cursor t) (Z.to_nat MAX_RECORDS) Hs Hn ltac:(vm_compute; lia)) as (Hle & Hs' & Hout & Hend & Hmore).
    set (page := take _ _) in *. injection H as <- <-. cbn [sl_cursor sl_progressed tail_index tail_progressed slice_reader].
    eexists. split; [apply Hle|]. split; [split; [apply Hle|exact Hs']|split; [exact Hout|split]].
    + intros Ho _. assert (page = []) as Hp by (destruct page; done). split; [auto|]. intros Hk. unfold stands in Hs'. rewrite Hs'. f_equal. by apply Nat.max_r.
    + split; [|lia]. intros Ho. assert (page <> []) as Hp.
      { intros Hp. rewrite Hp in Ho. destruct Ho as [?|?]; done. }
      assert (0 < length page)%nat by (destruct page; [done|simpl; lia]).
      assert (length page <= length (list_ w) - Z.to_nat (sl_cursor t))%nat by (unfold page; rewrite length_take, length_drop; lia).
      unfold stands in Hs. lia.
Qed.
End SliceReader.
