(* ===== verification/LedgerStream.v ===== *)
(** * The stream of a run's ledger

    The loop of [stream_ledger] ([routes/gateway.py]) over any reader of LedgerTail:
    what it serves, when it says that the run is done, and what a client that
    comes back gets. *)

From S2P Require Import Prelude PyStr PyVal PyNum LedgerTail.

(** [_SSE_SETTLE_CHECKS] *)
Definition SSE_SETTLE_CHECKS : Z := 3.
(** The position a stream starts after: the query parameter, or the last event the
    client saw. *)
Definition start_index (after : Z) (last_event_id : string) : Z :=
  if after <=? 0 then
    let raw := strip last_event_id in
    if String.eqb raw "" then after
    else match int_of_str raw with Some n => Z.max 0 n | None => 0 end
  else after.

Section Stream.
Context {W T : Type} `{TR : TailReader W T}.

(** The variables of the loop, the [step] frames sent and the cursor of the [done]
    frame. *)
Record stream := mk_stream { s_tail : T; s_dirty : bool; s_terminal : bool; s_settle : Z; s_sent : list (Z * dict); s_done : option Z }.
Definition open_stream (start : Z) (terminal : bool) : stream := mk_stream (tail_start start) true terminal 0 [] None.

(** What one pass meets: whether a signal (an append, a closed call) came before
    it looked at the flag, the ledger it reads, whether one came after, whether
    the status is due, what its load answers ([None]: it fails) and the ledger
    at that time, and whether the wait ended with the flag set. *)
Record seen := mk_seen { p_before : bool; p_read : W; p_during : bool; p_idle : bool; p_status : option bool; p_later : W; p_woken : bool }.

Definition is_nil {A} (l : list A) : bool := match l with [] => true | _ => false end.
(** One pass of [_gen]'s loop. The records of one read are sent in several writes;
    a client that is cut off has a part of them (a prefix of [s_sent]:
    [v_received] of LedgerStreamFacts). *)
Definition pass (e : seen) (s : stream) : stream :=
  match s_done s with
  | Some _ => s
  | None =>
      let '(new, t, progress, dirty) :=
        if s_dirty s || p_before e then
          let '(out, t) := tail_read (p_read e) (s_tail s) in (out, t, tail_progressed t, p_during e || negb (is_nil out))
        else ([], s_tail s, false, p_during e) in
      if negb (is_nil new) then mk_stream t dirty (s_terminal s) SSE_SETTLE_CHECKS (s_sent s ++ new) None
      else if progress then mk_stream t true (s_terminal s) (s_settle s) (s_sent s) None
      else if s_terminal s then mk_stream t dirty true (s_settle s) (s_sent s) (Some (tail_index t))
      else
        let settling := 0 <? s_settle s in
        let '(terminal, settle) :=
          if settling || p_idle e
          then (default false (p_status e), if settling then s_settle s - 1 else s_settle s)
          else (false, s_settle s) in
        if terminal then mk_stream t true true settle (s_sent s) None
        else mk_stream t (dirty || p_woken e) false settle (s_sent s) None
  end.
Definition passes (es : list seen) (s : stream) : stream := fold_left (fun s e => pass e s) es s.

(** ** What is served *)

Context `{TL : !TailLaws W T}.

(** The ledger grows from read to load and from pass to pass. *)
Fixpoint at_rest_or_growing (w : W) (es : list seen) : Prop :=
  match es with
  | [] => True
  | e :: es => grows w (p_read e) /\ grows (p_read e) (p_later e) /\ at_rest_or_growing (p_later e) es
  end.
Fixpoint last_world (w : W) (es : list seen) : W := match es with [] => w | e :: es => last_world (p_later e) es end.

Record served (k : nat) (w : W) (s : stream) (n : nat) : Prop := {
  sv_reading : reading k w (s_tail s) n;
  sv_sent : s_sent s = drop k (take n (entries w));
  sv_awake : s_terminal s = true -> s_done s = None -> s_dirty s = true;
}.

Lemma served_grow k w w' s n : grows w w' -> served k w s n -> served k w' s n.
Proof.
  intros Hg [Hr Hs Ha]. split; [by eapply reading_grow| |done]. rewrite Hs. f_equal.
  destruct (entries_grow w w' Hg) as [l ->]. apply reading_le in Hr. by rewrite take_app_le.
Qed.

(** A pass keeps it, at the ledger it read; the [done] frame comes after a read
    that found everything passed. *)
Lemma pass_served k e s n : served k (p_read e) s n ->
  exists n', (n <= n')%nat /\ served k (p_read e) (pass e s) n' /\
    (s_done s = None -> forall c, s_done (pass e s) = Some c ->
       s_terminal s = true /\ n' = length (entries (p_read e)) /\ ((k <= n')%nat -> c = Z.of_nat n')).
Proof.
  intros [Hr Hs Ha]. unfold pass. destruct (s_done s) as [c0|] eqn:Ed; [exists n; split_and!; [done|split; congruence|done]|].
  destruct (s_dirty s || p_before e) eqn:Edirty.
  - destruct (tail_read (p_read e) (s_tail s)) as [out t] eqn:Er.
    destruct (reading_read k _ _ n out t Hr Er) as (n' & Hle & Hr' & -> & Hend & _ & _).
    assert (s_sent s ++ drop (k `max` n) (take n' (entries (p_read e))) = drop k (take n' (entries (p_read e)))) as Hsent by (rewrite Hs; by apply drop_take_join).
    set (out := drop (k `max` n) _) in *. exists n'. split; [done|].
    destruct (is_nil out) eqn:Enil; cbn [negb orb].
    + assert (out = []) as Ho by (by destruct out). rewrite Ho, app_nil_r in Hsent. destruct (tail_progressed t) eqn:Ep; [by split; [split|]|].
      destruct (s_terminal s) eqn:Et.
      * split; [by split|]. intros _ c [= <-]. destruct (Hend Ho eq_refl) as [-> Hc]. done.
      * destruct (if (0 <? s_settle s) || p_idle e then _ else _) as [[|] settle]; (split; [by split|done]).
    + split; [|done]. split; [done|done|]. intros _ _. by rewrite orb_true_r.
  - apply orb_false_iff in Edirty as [Edirty _]. exists n. split; [done|]. cbn [is_nil negb].
    destruct (s_terminal s) eqn:Et; [by rewrite Ha in Edirty|].
    destruct (if (0 <? s_settle s) || p_idle e then _ else _) as [[|] settle]; (split; [by split|done]).
Qed.
Lemma served_open k w terminal : served k w (open_stream (Z.of_nat k) terminal) 0.
Proof. split; [apply reading_start|by rewrite take_0, drop_nil|done]. Qed.
Lemma served_passes k w es s n : at_rest_or_growing w es -> served k w s n ->
  exists n', (n <= n')%nat /\ served k (last_world w es) (passes es s) n'.
Proof.
  revert w s n. induction es as [|e es IH]; intros w s n Hg Hs; [by exists n|]. destruct Hg as (H1 & H2 & Hg).
  destruct (pass_served k e s n (served_grow _ _ _ _ _ H1 Hs)) as (n' & Hle & Hs' & _).
  destruct (IH (p_later e) (pass e s) n' Hg (served_grow _ _ _ _ _ H2 Hs')) as (n2 & Hle2 & Hs2). by exists n2; split; [lia|].
Qed.

Lemma passes_done s es c : s_done s = Some c -> passes es s = s.
Proof.
  intros Hd. unfold passes. induction es as [|e es IH]; [done|]. cbn [fold_left]. replace (pass e s) with s; [done|]. unfold pass. by rewrite Hd.
Qed.
Lemma passes_app es es' s : passes (es ++ es') s = passes es' (passes es s).
Proof. unfold passes. apply fold_left_app. Qed.
Lemma growing_app w es es' : at_rest_or_growing w (es ++ es') <-> at_rest_or_growing w es /\ at_rest_or_growing (last_world w es) es'.
Proof. revert w. induction es as [|e es IH]; intros w; simpl; [tauto|]. rewrite IH. tauto. Qed.
Lemma last_world_grows w es : at_rest_or_growing w es -> entries w `prefix_of` entries (last_world w es).
Proof.
  revert w. induction es as [|e es IH]; intros w; simpl; [done|]. intros (H1 & H2 & Hg).
  etrans; [by apply entries_grow|]. etrans; [by apply entries_grow|]. by apply IH.
Qed.

(** The run was found ended by a load before, the first one included. *)
Definition found_ended (terminal : bool) (w : W) (es : list seen) (later : W) : Prop :=
  (terminal = true /\ entries w `prefix_of` entries later) \/
  (exists e, e ∈ es /\ p_status e = Some true /\ entries (p_later e) `prefix_of` entries later).

Lemma terminal_pass e s : s_terminal (pass e s) = true -> s_terminal s = true \/ p_status e = Some true.
Proof.
  unfold pass. destruct (s_done s); [by left|]. destruct (if s_dirty s || p_before e then _ else _) as [[[new t] progress] dirty].
  destruct (is_nil new); cbn [negb]; [|by left]. destruct progress; [by left|]. destruct (s_terminal s); [by left|].
  destruct ((0 <? s_settle s) || p_idle e); [|done]. destruct (p_status e) as [[|]|]; [by right|done|done].
Qed.
Lemma terminal_passes w es s : at_rest_or_growing w es -> s_terminal (passes es s) = true ->
  s_terminal s = true \/ (exists e, e ∈ es /\ p_status e = Some true /\ entries (p_later e) `prefix_of` entries (last_world w es)).
Proof.
  revert w s. induction es as [|e es IH]; intros w s Hg Ht; [by left|]. destruct Hg as (H1 & H2 & Hg). cbn [passes fold_left last_world] in *.
  destruct (IH (p_later e) (pass e s) Hg Ht) as [Hp|(e' & Hin & He' & Hpre)].
  - apply terminal_pass in Hp as [?|?]; [by left|]. right. exists e. split_and!; [apply list_elem_of_here|done|by apply last_world_grows].
  - right. exists e'. split_and!; [by apply list_elem_of_further|done|done].
Qed.

(** The pass that sends [done]. *)
Lemma done_at es s c : s_done s = None -> s_done (passes es s) = Some c ->
  exists pre e post, es = pre ++ e :: post /\ s_done (passes pre s) = None /\ s_done (pass e (passes pre s)) = Some c /\
    passes es s = pass e (passes pre s).
Proof.
  intros Hn. induction es as [|e es IH] using rev_ind; [intros Hd; cbn in Hd; congruence|]. rewrite passes_app. cbn [passes fold_left].
  fold (passes es s). intros Hd. destruct (s_done (passes es s)) as [c'|] eqn:Ed.
  - assert (pass e (passes es s) = passes es s) as Hsame by (unfold pass; by rewrite Ed). rewrite Hsame in Hd |- *.
    destruct IH as (pre & e' & post & -> & H1 & H2 & H3); [congruence|]. exists pre, e', (post ++ [e]). split_and!; [by rewrite <- app_assoc|done|done|done].
  - exists es, e, []. by split_and!.
Qed.
End Stream.
