(* ===== verification/LedgerStreamFacts.v ===== *)
(** * What a client of a ledger's stream receives

    Every record once and in order, over disconnections and torn appends (the
    client comes back with [after] or [Last-Event-ID]); the whole ledger before the [done] frame; and that frame, once the run has ended
    and its ledger is at rest. On a file in memory, and on the three readers. *)

From S2P Require Import Prelude PyStr PyVal PyNum LedgerTail LedgerTailFacts LedgerStream.

(** ** The text of an event's id *)

(** The loop of [int_digits]. *)
Definition int_go : Z -> bool -> string -> option Z := fix go acc (after_digit : bool) s :=
  match s with
  | "" => if after_digit then Some acc else None
  | c ::s s =>
      if is_digit c then go (10 * acc + (code c - 48)) true s
      else if Ascii.eqb c "_" && after_digit then go acc false s else None
  end.
Lemma digit_char x : (x < 10)%N -> is_digit (pretty.pretty_N_char x) = true /\ code (pretty.pretty_N_char x) - 48 = Z.of_N x.
Proof.
  intros Hx. assert (x = 0 \/ x = 1 \/ x = 2 \/ x = 3 \/ x = 4 \/ x = 5 \/ x = 6 \/ x = 7 \/ x = 8 \/ x = 9)%N as H by lia.
  repeat (destruct H as [->|H]; [by split|]). by subst.
Qed.
Lemma int_go_pretty x b s : (0 < x)%N -> int_go 0 b (pretty.pretty_N_go x s) = int_go (Z.of_N x) true s.
Proof.
  revert b s. induction (N.lt_wf_0 x) as [x _ IH]; intros b s Hx. rewrite pretty.pretty_N_go_step by done.
  destruct (digit_char (x mod 10)) as [Hd Hc]; [by apply N.mod_lt|]. pose proof (N.div_mod x 10 ltac:(done)) as Hdm.
  assert (forall a b, int_go a b (pretty.pretty_N_char (x mod 10) ::s s) = int_go (10 * a + Z.of_N (x mod 10)) true s) as Hstep by (intros; cbn [int_go]; by rewrite Hd, Hc).
  destruct (decide (x `div` 10 = 0)%N) as [Hz|Hnz].
  - rewrite Hz, pretty.pretty_N_go_0, Hstep. rewrite Hz in Hdm. by replace (10 * 0 + Z.of_N (x mod 10)) with (Z.of_N x) by lia.
  - assert (0 < x / 10)%N by (by apply N.neq_0_lt_0). assert (x / 10 < x)%N by (by apply N.div_lt). rewrite IH by done. rewrite Hstep. by replace (10 * Z.of_N (x / 10) + Z.of_N (x mod 10)) with (Z.of_N x) by lia.
Qed.
Lemma pretty_digits x s : forall_chars is_digit s = true -> forall_chars is_digit (pretty.pretty_N_go x s) = true.
Proof.
  revert s. induction (N.lt_wf_0 x) as [x _ IH]; intros s Hs. destruct (decide (x = 0)%N) as [->|Hx]; [by rewrite pretty.pretty_N_go_0|].
  rewrite pretty.pretty_N_go_step by lia. apply IH; [apply N.div_lt; lia|]. cbn. destruct (digit_char (x mod 10)) as [-> _]; [by apply N.mod_lt|done].
Qed.
(** The text of a positive number is read as the number. *)
Lemma str_of_positive n : 0 < n -> strip (str_of_Z n) = str_of_Z n /\ str_of_Z n <> "" /\ int_of_str (str_of_Z n) = Some n.
Proof.
  intros Hn. destruct n as [|x|x]; [lia| |lia]. change (str_of_Z (Z.pos x)) with (pretty (Npos x)). unfold pretty, pretty.pretty_N. rewrite decide_False by done.
  set (t := pretty.pretty_N_go (Npos x) ""). assert (forall_chars is_digit t = true) as Hd by (by apply pretty_digits).
  assert (int_go 0 false t = Some (Z.pos x)) as Hv by (unfold t; by rewrite int_go_pretty). clearbody t.
  assert (strip t = t) as Hs.
  { apply strip_no_space. eapply forall_chars_weaken; [|exact Hd]. intros c Hc. unfold is_digit, is_space in *. bool_to_prop. lia. }
  destruct t as [|c t]; [done|]. split; [done|]. split; [done|]. unfold int_of_str. rewrite Hs. cbn in Hd. apply andb_true_iff in Hd as [Hc _].
  assert (signed (c ::s t) = (false, c ::s t)) as ->; [|change (int_digits (c ::s t)) with (int_go 0 false (c ::s t)); by rewrite Hv].
  unfold signed. destruct (Ascii.eqb_spec c "-") as [->|]; [done|]. by destruct (Ascii.eqb_spec c "+") as [->|].
Qed.

Section Clients.
Context {W T : Type} `{TR : TailReader W T} `{TL : !TailLaws W T}.

(** ** A client that comes back *)

(** One connection: what the server found when it opened the stream, the passes of
    the stream, and how many of the frames it was sending the client received before
    the connection was cut; the client opened it with [after] set to the id of the
    last event it saw, or, as a browser does, with its address unchanged and that id
    as [Last-Event-ID]. *)
Record connection := mk_connection { v_terminal : bool; v_passes : list (seen (W := W)); v_received : nat; v_explicit : bool }.
(** The two texts of its request, after the frames [got] of the earlier ones; the
    very first has those of the client. *)
Definition request_of (after : Z) (header : string) (got : list (Z * dict)) (explicit : bool) : Z * string :=
  match last got with
  | None => (after, header)
  | Some (c, _) => if explicit then (c, "") else (after, str_of_Z c)
  end.
Definition frames_of (after : Z) (header : string) (got : list (Z * dict)) (v : connection) : list (Z * dict) :=
  let '(a, h) := request_of after header got (v_explicit v) in
  take (v_received v) (s_sent (passes (v_passes v) (open_stream (start_index a h) (v_terminal v)))).
Fixpoint received (after : Z) (header : string) (got : list (Z * dict)) (vs : list connection) : list (Z * dict) :=
  match vs with
  | [] => got
  | v :: vs => received after header (got ++ frames_of after header got v) vs
  end.
Definition all_passes (vs : list connection) : list seen := concat (map v_passes vs).

Lemma start_index_id c a : 0 < c -> start_index c "" = c /\ (a <= 0 -> start_index a (str_of_Z c) = c).
Proof.
  intros Hc. unfold start_index. destruct (str_of_positive c Hc) as (Hs & Hne & Hi). split.
  - by destruct (Z.leb_spec c 0); [lia|].
  - intros Ha. rewrite (proj2 (Z.leb_le _ _) Ha), Hs. cbv zeta. rewrite (proj2 (String.eqb_neq _ _) Hne), Hi. lia.
Qed.
Lemma last_sent k n w c r : (n <= length (entries w))%nat -> last (drop k (take n (entries w))) = Some (c, r) -> (k < n)%nat /\ c = Z.of_nat n.
Proof.
  intros Hn E. rewrite last_lookup, length_drop, length_take, lookup_drop in E. apply lookup_take_Some in E as [H Hlt]. apply entries_numbered in H as ->. lia.
Qed.
(** The next connection starts where the client is. *)
Lemma resumed after header got explicit k n w : start_index after header = Z.of_nat k -> after = 0 \/ explicit = true ->
  got = drop k (take n (entries w)) -> (n <= length (entries w))%nat -> let '(a, h) := request_of after header got explicit in
  start_index a h = Z.of_nat (k `max` n) \/ start_index a h = Z.of_nat k /\ got = [].
Proof.
  intros Hk Ha Hgot Hn. unfold request_of. destruct (last got) as [[c r]|] eqn:E.
  - rewrite Hgot in E. apply last_sent in E as [Hlt ->]; [|done]. destruct (start_index_id (Z.of_nat n) after) as [H1 H2]; [lia|].
    destruct explicit; left; [rewrite H1; lia|]. destruct Ha as [->|]; [|done]. rewrite H2 by lia. lia.
  - right. split; [done|]. by apply last_None in E.
Qed.
(** Frames that were received, and some of those from there on. *)
Lemma frames_join {A} (l : list A) k n n2 m : let big := (k `max` n)%nat in
  exists n3, (n <= n3)%nat /\ drop k (take n l) ++ take m (drop big (take n2 l)) = drop k (take n3 l) /\ (n <= length l -> n2 <= length l -> n3 <= length l)%nat.
Proof.
  intros big. rewrite take_drop_commute, take_take. set (n' := ((big + m) `min` n2)%nat). destruct (decide (n <= n')%nat) as [Hle|Hle].
  - exists n'. split; [done|]. split; [by apply drop_take_join|lia].
  - exists n. split; [done|]. split; [|done]. rewrite (drop_ge (take n' l)) by (rewrite length_take; lia). by rewrite app_nil_r.
Qed.

Lemma received_exact after header vs k w got n : start_index after header = Z.of_nat k ->
  Forall (fun v => after = 0 \/ v_explicit v = true) vs -> at_rest_or_growing w (all_passes vs) ->
  got = drop k (take n (entries w)) -> (n <= length (entries w))%nat ->
  exists n', (n <= n')%nat /\ received after header got vs = drop k (take n' (entries (last_world w (all_passes vs)))).
Proof.
  intros Hk Hvs. revert w got n. induction Hvs as [|v vs Hv _ IH]; intros w got n Hg Hgot Hn; [by exists n|].
  unfold all_passes in *. cbn [map concat received] in *. apply growing_app in Hg as [Hg Hg']. set (w1 := last_world w (v_passes v)) in *.
  assert (last_world w (v_passes v ++ concat (map v_passes vs)) = last_world w1 (concat (map v_passes vs))) as ->.
  { subst w1. clear. generalize (v_passes v) as es. intros es. revert w. induction es as [|e es IH]; intros w; [done|apply IH]. }
  destruct (last_world_grows w (v_passes v) Hg) as [l Hl]. fold w1 in Hl.
  assert (got = drop k (take n (entries w1))) as Hgot1 by (rewrite Hgot, Hl; f_equal; by rewrite take_app_le).
  assert (n <= length (entries w1))%nat as Hn1 by (rewrite Hl, length_app; lia).
  assert (exists n', (n <= n')%nat /\ got ++ frames_of after header got v = drop k (take n' (entries w1)) /\ (n' <= length (entries w1))%nat) as (n' & Hle & Heq & Hn').
  { unfold frames_of. pose proof (resumed after header got (v_explicit v) k n w1 Hk Hv Hgot1 Hn1) as Hstart. destruct (request_of after header got (v_explicit v)) as [a h].
    assert (start_index a h = Z.of_nat (k `max` n) \/ start_index a h = Z.of_nat (k `max` 0) /\ got = []) as [-> |[-> ->]] by (by rewrite Nat.max_0_r).
    - destruct (served_passes (k `max` n) w (v_passes v) _ 0 Hg (served_open (k `max` n) w (v_terminal v))) as (n2 & _ & [Hr -> _]). fold w1.
      apply reading_le in Hr. fold w1 in Hr. rewrite Hgot1. destruct (frames_join (entries w1) k n n2 (v_received v)) as (n3 & ? & ? & ?). exists n3. split_and!; [done|done|lia].
    - destruct (served_passes (k `max` 0) w (v_passes v) _ 0 Hg (served_open (k `max` 0) w (v_terminal v))) as (n2 & _ & [Hr -> _]). fold w1.
      apply reading_le in Hr. fold w1 in Hr. cbn [app]. destruct (frames_join (entries w1) k 0 n2 (v_received v)) as (n3 & H1 & H2 & H3). rewrite take_0, drop_nil in H2. cbn [app] in H2.
      exists (n `max` n3)%nat. split; [lia|]. split; [|lia]. rewrite H2. destruct (decide (n <= n3)%nat); [by rewrite Nat.max_r|].
      rewrite Nat.max_l by lia. rewrite <- Hgot1. apply drop_ge. rewrite length_take. symmetry in Hgot1. apply (f_equal length) in Hgot1. rewrite length_drop, length_take in Hgot1. simpl in Hgot1. lia. }
  rewrite Heq. destruct (IH w1 _ n' Hg' eq_refl Hn') as (n2 & Hle2 & H2). exists n2. split; [lia|done].
Qed.

(** C35: A client of a ledger's stream, over any number of connections. It starts
    after [k] records (its [after], or its [Last-Event-ID] when that is absent), each
    connection is cut after any number of frames, those of an unfinished pass
    included, and it comes back with the id of the last event it saw: as [after], or,
    where it had asked for none, as the [Last-Event-ID] of the same request. Then it
    has received the records of the ledger from the [k]-th on, each once, in order
    and under its position, up to some point: nothing is lost, repeated or torn by
    the appends that went on. *)
Theorem reconnect_exactly_once after header vs w : 0 <= after ->
  Forall (fun v => after = 0 \/ v_explicit v = true) vs -> at_rest_or_growing w (all_passes vs) ->
  let k := Z.to_nat (start_index after header) in
  exists n, received after header [] vs = drop k (take n (entries (last_world w (all_passes vs)))).
Proof.
  intros Ha Hvs Hg k. assert (start_index after header = Z.of_nat k) as Hk.
  { subst k. rewrite Z2Nat.id; [done|]. unfold start_index. destruct (after <=? 0); [|done]. cbv zeta. destruct (String.eqb _ ""); [done|]. destruct (int_of_str _); lia. }
  destruct (received_exact after header vs k w [] 0 Hk Hvs Hg) as (n & _ & Hn); [by rewrite take_0, drop_nil|lia|]. by exists n.
Qed.

(** When a stream says that the run is done, a load had found the run ended,
    and the client has received every record the ledger held then, and every one
    the last read found: all records from the [k]-th on, each once; the cursor
    of the frame is the number of the ledger's records. *)
Theorem done_serves_everything k w terminal es c : at_rest_or_growing w es ->
  s_done (passes es (open_stream (Z.of_nat k) terminal)) = Some c ->
  exists pre e post, es = pre ++ e :: post /\ found_ended terminal w pre (p_read e) /\
    s_sent (passes es (open_stream (Z.of_nat k) terminal)) = drop k (entries (p_read e)) /\
    ((k <= length (entries (p_read e)))%nat -> c = Z.of_nat (length (entries (p_read e)))).
Proof.
  intros Hg Hd. destruct (done_at es (open_stream (Z.of_nat k) terminal) c eq_refl Hd) as (pre & e & post & -> & Hn & Hc & ->). exists pre, e, post. split; [done|].
  apply growing_app in Hg as [Hg (H1 & _ & _)].
  destruct (served_passes k w pre _ 0 Hg (served_open k w terminal)) as (n & _ & Hs).
  destruct (pass_served k e _ n (served_grow _ _ _ _ _ H1 Hs)) as (n' & _ & [_ Hsent _] & Hdone).
  destruct (Hdone Hn c Hc) as (Ht & -> & Hcur). split; [|split; [by rewrite Hsent, firstn_all|done]].
  pose proof (entries_grow _ _ H1) as Hlast.
  destruct (terminal_passes w pre _ Hg Ht) as [Ht0|(e' & Hin & He' & Hpre)].
  - left. split; [done|]. etrans; [by apply last_world_grows|done].
  - right. exists e'. split_and!; [done|done|by etrans].
Qed.

(** ** The end of a stream *)

(** The passes of an environment, one after the other. *)
Fixpoint pass_many (env : nat -> seen) (n : nat) (s : stream) : stream :=
  match n with O => s | S n => pass_many (fun i => env (S i)) n (pass (env 0%nat) s) end.

(** The ledger is at rest, every load finds the run ended, and the status comes
    due again and again. *)
Record at_rest (w : W) (env : nat -> seen) : Prop := {
  ar_read i : p_read (env i) = w;
  ar_status i : p_status (env i) = Some true;
  ar_due i : exists j, (i <= j)%nat /\ p_idle (env j) = true;
}.
Lemma at_rest_next w env : at_rest w env -> at_rest w (fun i => env (S i)).
Proof.
  intros [H1 H2 H3]. split; [intros i; apply H1|intros i; apply H2|]. intros i. destruct (H3 (S i)) as ([|j] & Hj & Hd); [lia|]. exists j. split; [lia|done].
Qed.

(** Once the run is known to have ended, the reads come to an end. *)
Lemma ends_when_known k w env s n : at_rest w env -> served k w s n -> s_terminal s = true -> s_done s = None ->
  exists m, is_Some (s_done (pass_many env m s)).
Proof.
  remember (left_to_read w (s_tail s)) as x eqn:Ex. revert env s n Ex. induction (lt_wf x) as [x _ IH]. intros env s n Ex He Hs Ht Hd.
  pose proof (sv_awake _ _ _ _ Hs Ht Hd) as Hdirty. destruct (tail_read w (s_tail s)) as [out t] eqn:Er.
  destruct (reading_read k w _ n out t (sv_reading _ _ _ _ Hs) Er) as (n' & _ & _ & _ & _ & Hless & _).
  assert (p_read (env 0%nat) = w) as Hw by apply (ar_read _ _ He).
  destruct (pass_served k (env 0%nat) s n ltac:(by rewrite Hw)) as (n2 & _ & Hs2 & _). rewrite Hw in Hs2.
  destruct (is_nil out && negb (tail_progressed t)) eqn:Eq.
  - apply andb_true_iff in Eq as [Eo Ep%negb_true_iff]. exists 1%nat. cbn [pass_many]. unfold pass. rewrite Hd, Hdirty, Hw, Er. cbn [orb].
    rewrite Eo, Ep, Ht. by eexists.
  - assert (s_tail (pass (env 0%nat) s) = t /\ s_terminal (pass (env 0%nat) s) = true /\ s_done (pass (env 0%nat) s) = None) as (E1 & E2 & E3).
    { unfold pass. rewrite Hd, Hdirty, Hw, Er. cbn [orb]. destruct (is_nil out); cbn [negb andb] in *; [|done]. by destruct (tail_progressed t). }
    destruct (IH (left_to_read w t)) with (env := fun i => env (S i)) (s := pass (env 0%nat) s) (n := n2) as [m Hm].
    + subst x. apply Hless. destruct out; [right|by left]. by destruct (tail_progressed t).
    + by rewrite E1.
    + by apply at_rest_next.
    + done.
    + done.
    + done.
    + by exists (S m).
Qed.
(** A pass before that: it reads on, or it looks at the status when it is due, or
    it waits. *)
Lemma waiting_pass k w e s n : served k w s n -> p_read e = w -> p_status e = Some true -> s_terminal s = false -> s_done s = None ->
  s_done (pass e s) = None /\ (left_to_read w (s_tail (pass e s)) <= left_to_read w (s_tail s))%nat /\
  ((left_to_read w (s_tail (pass e s)) < left_to_read w (s_tail s))%nat \/ (p_idle e = true -> s_terminal (pass e s) = true)).
Proof.
  intros Hs Hw Hst Ht Hd. unfold pass. rewrite Hd, Hw, Ht, Hst.
  set (r := if s_dirty s || p_before e then _ else _).
  assert (exists new t progress dirty, r = (new, t, progress, dirty) /\ (left_to_read w t <= left_to_read w (s_tail s))%nat /\
    (new <> [] \/ progress = true -> (left_to_read w t < left_to_read w (s_tail s))%nat)) as (new & t & progress & dirty & -> & Hle & Hlt).
  { subst r. destruct (s_dirty s || p_before e); [|eexists _, _, _, _; split_and!; [done|done|by intros [?|?]]].
    destruct (tail_read w (s_tail s)) as [out t] eqn:Er.
    destruct (reading_read k w _ n out t (sv_reading _ _ _ _ Hs) Er) as (n' & _ & _ & _ & _ & Hlt & Hle). by eexists _, _, _, _. }
  destruct new as [|x new]; cbn [is_nil negb]; [|split_and!; [done|done|left; apply Hlt; by left]].
  destruct progress; [split_and!; [done|done|left; apply Hlt; by right]|].
  destruct ((0 <? s_settle s) || p_idle e) eqn:Edue; cbn [default id].
  - split_and!; [done|done|by right].
  - apply orb_false_iff in Edue as [_ Edue]. split_and!; [done|done|right; congruence].
Qed.
Lemma ends_when_due j k w env s n : at_rest w env -> served k w s n -> s_done s = None -> p_idle (env j) = true ->
  exists m, is_Some (s_done (pass_many env m s)).
Proof.
  remember (left_to_read w (s_tail s)) as x eqn:Ex. revert j env s n Ex. induction (lt_wf x) as [x _ IH]. intros j.
  induction j as [|j IHj]; intros env s n Ex He Hs Hd Hj; destruct (s_terminal s) eqn:Ht; try by eapply ends_when_known.
  all: destruct (waiting_pass k w (env 0%nat) s n Hs (ar_read _ _ He 0%nat) (ar_status _ _ He 0%nat) Ht Hd) as (Hd2 & Hle & Hor).
  all: destruct (pass_served k (env 0%nat) s n ltac:(by rewrite (ar_read _ _ He))) as (n2 & _ & Hs2 & _); rewrite (ar_read _ _ He) in Hs2.
  all: pose proof (at_rest_next _ _ He) as He'.
  all: enough (exists m, is_Some (s_done (pass_many (fun i => env (S i)) m (pass (env 0%nat) s)))) as [m Hm] by (by exists (S m)).
  - destruct Hor as [Hlt|Hdue]; [|exact (ends_when_known k w _ _ n2 He' Hs2 (Hdue Hj) Hd2)]. destruct (ar_due _ _ He' 0%nat) as (j & _ & Hdue).
    eapply (IH _ ltac:(rewrite Ex; exact Hlt) j); done.
  - destruct (decide (left_to_read w (s_tail (pass (env 0%nat) s)) = x)) as [Heq|Hne].
    + by eapply (IHj (fun i => env (S i))).
    + destruct (ar_due _ _ He' 0%nat) as (j' & _ & Hdue). eapply (IH (left_to_read w (s_tail (pass (env 0%nat) s)))  ltac:(lia) j'); done.
Qed.

(** C36: A stream of a run that has ended, and whose ledger is at rest, says that it
    is done after finitely many passes, whatever it had served and read before:
    growing windows, skipped records and torn ends do not hold it up. *)
Theorem stream_ends k w w' terminal es env : at_rest_or_growing w' es -> last_world w' es = w -> at_rest w env ->
  exists m, is_Some (s_done (pass_many env m (passes es (open_stream (Z.of_nat k) terminal)))).
Proof.
  intros Hg <- He. destruct (served_passes k w' es _ 0 Hg (served_open k w' terminal)) as (n & _ & Hs).
  destruct (s_done (passes es (open_stream (Z.of_nat k) terminal))) as [c|] eqn:Hd; [exists 0%nat; cbn [pass_many]; by rewrite Hd|].
  destruct (ar_due _ _ He 0%nat) as (j & _ & Hj). by eapply ends_when_due.
Qed.
End Clients.

(** ** Streams of a small ledger

    The theorems on streams, on a file that is created, appended to and torn. The
    documents of its lines are read by a reader that keeps their text. *)

(** A decoder and a parser of this kind. *)
#[local] Instance text_json : JsonOps := {
  decode_utf8 := String.string_of_list_ascii;
  json_loads s := if startswith "{" s && endswith "}" s then Some (VDict [("text", VStr s)]) else None;
  raw_decode s := None;
}.
#[local] Instance text_json_laws : JsonLaws.
Proof.
  split; [done| |done]. intros a b. cbn [decode_utf8 text_json]. induction a as [|c a IH]; [done|].
  change (c ::s String.string_of_list_ascii (a ++ LF :: b) = c ::s (String.string_of_list_ascii a +:+ LF ::s String.string_of_list_ascii b)). by rewrite IH.
Qed.

Definition torn : option bytes := Some (String.list_ascii_of_string "{a}" ++ LF :: String.list_ascii_of_string "{b").
Definition two_lines : option bytes := Some (String.list_ascii_of_string "{a}" ++ LF :: String.list_ascii_of_string "{b}" ++ [LF]).
Abbreviation record_of text i := (Z.of_nat i, [("text", VStr text); ("seq", VInt (Z.of_nat i))]).
Abbreviation sees f status := (mk_seen false f false true status f true).
Abbreviation ledger_stream := (@open_stream (option bytes) tail _).

Lemma appended : at_rest_or_growing None [sees torn (Some false); sees two_lines (Some true); sees two_lines None].
Proof. cbn. split_and!; try done. by eexists. Qed.

Lemma appended_twice : at_rest_or_growing None
  [sees torn (Some false); sees two_lines (Some true); sees two_lines None; sees two_lines (Some true); sees two_lines None].
Proof. cbn. split_and!; try done. by eexists. Qed.

(** A browser that is cut off when the file is torn; one pass then sends two
    records of which it receives one; it comes back twice, its address unchanged. *)
Definition three_lines : option bytes := Some (String.list_ascii_of_string "{a}" ++ LF :: String.list_ascii_of_string "{b}" ++ LF :: String.list_ascii_of_string "{c}" ++ [LF]).
Definition browser : list (connection (W := option bytes)) :=
  [mk_connection false [sees torn (Some false)] 1 false;
   mk_connection false [sees three_lines (Some true)] 1 false;
   mk_connection true [sees three_lines None] 7 false].
Lemma browser_grows : at_rest_or_growing None (all_passes browser).
Proof. cbn. split_and!; try done; by eexists. Qed.
Lemma reconnect_exactly_once_witness :
  received 0 "" [] browser = [record_of "{a}" 1%nat; record_of "{b}" 2%nat; record_of "{c}" 3%nat] /\
  exists n, received 0 "" [] browser = drop 0 (take n (file_entries three_lines)).
Proof.
  split; [vm_compute; reflexivity|].
  refine (reconnect_exactly_once 0 "" browser None _ _ browser_grows); [lia|repeat constructor].
Defined.
(** With [after] set in the address the code does not look at the header: a browser
    that comes back by itself is sent again what it has. *)
Definition pinned : list (connection (W := option bytes)) :=
  [mk_connection false [sees two_lines (Some false)] 1 false; mk_connection false [sees two_lines (Some false)] 1 false].
Lemma pinned_browser_is_sent_again : received 1 "" [] pinned = [record_of "{b}" 2%nat; record_of "{b}" 2%nat].
Proof. vm_compute. reflexivity. Qed.
Lemma done_serves_everything_witness :
  let es := [sees torn (Some false); sees two_lines (Some true); sees two_lines None; sees two_lines (Some true); sees two_lines None] in
  s_done (passes es (ledger_stream (Z.of_nat 0) false)) = Some 2 /\
  exists pre e post, es = pre ++ e :: post /\ found_ended false None pre (p_read e) /\
    s_sent (passes es (ledger_stream (Z.of_nat 0) false)) = drop 0 (file_entries (p_read e)) /\
    ((0 <= length (file_entries (p_read e)))%nat -> 2 = Z.of_nat (length (file_entries (p_read e)))).
Proof.
  intros es. assert (s_done (passes es (ledger_stream (Z.of_nat 0) false)) = Some 2) as H by (vm_compute; reflexivity).
  split; [exact H|]. exact (done_serves_everything 0 None false es 2 appended_twice H).
Defined.
Lemma ended_at_rest : at_rest two_lines (fun _ => sees two_lines (Some true)).
Proof. split; [done|done|]. intros i. by exists i. Qed.
Lemma appended_more : at_rest_or_growing None [sees torn (Some false); sees two_lines None].
Proof. cbn. split_and!; try done. by eexists. Qed.
(** One that asks for more than the ledger has. *)
Lemma stream_ends_witness :
  s_done (pass_many (fun _ => sees two_lines (Some true)) 2 (passes [sees torn (Some false); sees two_lines None] (ledger_stream (Z.of_nat 7) false))) = Some 2 /\
  exists m, is_Some (s_done (pass_many (fun _ => sees two_lines (Some true)) m (passes [sees torn (Some false); sees two_lines None] (ledger_stream (Z.of_nat 7) false)))).
Proof.
  split; [vm_compute; reflexivity|].
  exact (stream_ends 7 two_lines None false [sees torn (Some false); sees two_lines None] _ appended_more eq_refl ended_at_rest).
Defined.
