(* ===== verification/PyCodec.v ===== *)
(** * Base64 and JSON

    What the code uses of [base64.urlsafe_b64encode], [urlsafe_b64decode] and of
    [json]: texts are printed with [ensure_ascii], and documents are parsed
    whole. A JSON string with a character beyond Latin-1 is not one of the model's
    strings, and is refused. The interpreter's limits on nesting and on the digits
    of an integer are not modelled; the text [repr] gives for a double is an
    argument ([float_repr]). *)

From S2P Require Import Prelude PyStr PyVal PyText.

(** ** Base64 *)

Definition B64_ALPHABET : string := "ABCDEFGHIJKLMNOPQRSTUVWXYZabcdefghijklmnopqrstuvwxyz0123456789-_".
Definition chr (n : Z) : ascii := ascii_of_nat (Z.to_nat n).
Definition b64_char (n : Z) : ascii := default "A"%char (String.get (Z.to_nat n) B64_ALPHABET).
(** A byte string in groups of three. *)
Fixpoint b64encode (s : string) : string :=
  match s with
  | "" => ""
  | a ::s "" => b64_char (code a / 4) ::s b64_char (code a mod 4 * 16) ::s "=="
  | a ::s b ::s "" =>
      b64_char (code a / 4) ::s b64_char (code a mod 4 * 16 + code b / 16) ::s b64_char (code b mod 16 * 4) ::s "="
  | a ::s b ::s c ::s s =>
      b64_char (code a / 4) ::s b64_char (code a mod 4 * 16 + code b / 16) ::s
      b64_char (code b mod 16 * 4 + code c / 64) ::s b64_char (code c mod 64) ::s b64encode s
  end.

(** The value of a character; [+] and [/] are taken for [-] and [_]. *)
Definition b64_val (c : ascii) : option Z :=
  let n := code c in
  if (65 <=? n) && (n <=? 90) then Some (n - 65)
  else if (97 <=? n) && (n <=? 122) then Some (n - 71)
  else if (48 <=? n) && (n <=? 57) then Some (n + 4)
  else if (n =? 45) || (n =? 43) then Some 62
  else if (n =? 95) || (n =? 47) then Some 63
  else None.
(** [binascii.a2b_base64], not strict: other characters are skipped, and padding
    that completes a group ends the text. *)
Fixpoint b64decode_from (quad left pads : Z) (s : string) : option string :=
  match s with
  | "" => if quad =? 0 then Some "" else None
  | c ::s s =>
      if Ascii.eqb c "=" then
        if (2 <=? quad) && (4 <=? quad + (pads + 1)) then Some ""
        else b64decode_from quad left (if 2 <=? quad then pads + 1 else pads) s
      else match b64_val c with
           | None => b64decode_from quad left pads s
           | Some v =>
               if quad =? 0 then b64decode_from 1 v 0 s
               else if quad =? 1 then String.String (chr (left * 4 + v / 16)) <$> b64decode_from 2 (v mod 16) 0 s
               else if quad =? 2 then String.String (chr (left * 16 + v / 4)) <$> b64decode_from 3 (v mod 4) 0 s
               else String.String (chr (left * 64 + v)) <$> b64decode_from 0 0 0 s
           end
  end.
Definition b64decode (s : string) : option string := b64decode_from 0 0 0 s.

(** ** JSON, printed *)

Definition quote : ascii := chr 34.
Definition backslash : ascii := chr 92.
Definition hex4 (n : Z) : string := hex_digit 0 ::s hex_digit 0 ::s hex_digit (n / 16) ::s hex_digit (n mod 16) ::s "".
Definition escape (c : ascii) : string :=
  let n := code c in
  if (n =? 34) || (n =? 92) then backslash ::s c ::s ""
  else if n =? 10 then backslash ::s "n"
  else if n =? 13 then backslash ::s "r"
  else if n =? 9 then backslash ::s "t"
  else if n =? 12 then backslash ::s "f"
  else if n =? 8 then backslash ::s "b"
  else if (32 <=? n) && (n <=? 126) then c ::s ""
  else backslash ::s "u" +:+ hex4 n.
Fixpoint escaped (s : string) : string := match s with "" => "" | c ::s s => escape c +:+ escaped s end.
(** [json.dumps] of a string. *)
Definition dumps_str (s : string) : string := quote ::s (escaped s +:+ quote ::s "").

(** ** JSON, parsed *)

Definition json_space (c : ascii) : bool := let n := code c in (n =? 32) || (n =? 9) || (n =? 10) || (n =? 13).
Definition skip_ws (s : string) : string := lstrip_by json_space s.

Definition unescape (c : ascii) : option ascii :=
  let n := code c in
  if (n =? 34) || (n =? 92) || (n =? 47) then Some c
  else if n =? 98 then Some (chr 8) else if n =? 102 then Some (chr 12) else if n =? 110 then Some (chr 10)
  else if n =? 114 then Some (chr 13) else if n =? 116 then Some (chr 9) else None.
(** The rest of a string after its quote. *)
Fixpoint string_body (s : string) : option (string * string) :=
  match s with
  | "" => None
  | c ::s s =>
      if Ascii.eqb c quote then Some ("", s)
      else if Ascii.eqb c backslash then
        match s with
        | "" => None
        | e ::s s =>
            match unescape e with
            | Some d => '(t, rest) ← string_body s; Some (d ::s t, rest)
            | None =>
                if Ascii.eqb e "u" then
                  match s with
                  | h1 ::s h2 ::s h3 ::s h4 ::s s =>
                      a ← hex_val h1; b ← hex_val h2; d ← hex_val h3; f ← hex_val h4;
                      if (a =? 0) && (b =? 0) then '(t, rest) ← string_body s; Some (chr (16 * d + f) ::s t, rest) else None
                  | _ => None
                  end
                else None
            end
        end
      else if code c <? 32 then None
      else '(t, rest) ← string_body s; Some (c ::s t, rest)
  end.

(** The longest prefix of digits, and the rest. *)
Fixpoint span_digits (s : string) : string * string :=
  match s with
  | "" => ("", "")
  | c ::s t => if is_digit c then let '(d, rest) := span_digits t in (c ::s d, rest) else ("", s)
  end.
Fixpoint digits_val (acc : Z) (s : string) : Z := match s with "" => acc | c ::s s => digits_val (10 * acc + (code c - 48)) s end.
Definition int_part (s : string) : option (string * string) :=
  match s with
  | c ::s t => if Ascii.eqb c "0" then Some ("0", t) else if is_digit c then Some (span_digits s) else None
  | "" => None
  end.
Definition frac_part (s : string) : string * string :=
  match s with
  | c ::s t => if Ascii.eqb c "." then match span_digits t with ("", _) => ("", s) | (d, rest) => ("." +:+ d, rest) end else ("", s)
  | "" => ("", s)
  end.
Definition exp_part (s : string) : string * string :=
  match s with
  | c ::s t =>
      if Ascii.eqb c "e" || Ascii.eqb c "E" then
        let '(sign, t) := match t with d ::s u => if Ascii.eqb d "+" || Ascii.eqb d "-" then (d ::s "", u) else ("", t) | "" => ("", t) end in
        match span_digits t with ("", _) => ("", s) | (d, rest) => ("e" +:+ sign +:+ d, rest) end
      else ("", s)
  | "" => ("", s)
  end.
Section Parse.
(** The [repr] of the double a literal denotes. *)
Context (float_repr : string -> string).

(** A number. *)
Definition json_number (s : string) : option (val * string) :=
  let '(neg, t) := match s with c ::s t => if Ascii.eqb c "-" then (true, t) else (false, s) | "" => (false, s) end in
  '(i, rest) ← int_part t;
  let '(f, rest) := frac_part rest in
  let '(e, rest) := exp_part rest in
  Some (if String.eqb f "" && String.eqb e "" then VInt (if neg then - digits_val 0 i else digits_val 0 i)
        else VFloat (float_repr ((if neg then "-" else "") +:+ i +:+ f +:+ e)), rest).

Definition literal (word : string) (v : val) (s : string) : option (val * string) :=
  if startswith word s then Some (v, sdrop (String.length word) s) else None.
Definition json_literal (s : string) : option (val * string) :=
  match literal "null" VNone s with Some r => Some r | None =>
  match literal "true" (VBool true) s with Some r => Some r | None =>
  match literal "false" (VBool false) s with Some r => Some r | None =>
  match literal "NaN" (VFloat "nan") s with Some r => Some r | None =>
  match literal "Infinity" (VFloat "inf") s with Some r => Some r | None =>
  literal "-Infinity" (VFloat "-inf") s end end end end end.

(** [scan_once]: a value at the head of the text. [json_value_enough]: fuel beyond
    twice the length of the text changes nothing. *)
Fixpoint json_value (fuel : nat) (s : string) : option (val * string) :=
  match fuel with
  | O => None
  | S fuel =>
      match s with
      | "" => None
      | c ::s t =>
          if Ascii.eqb c quote then '(x, rest) ← string_body t; Some (VStr x, rest)
          else if Ascii.eqb c "[" then
            match skip_ws t with
            | "" => None
            | d ::s u => if Ascii.eqb d "]" then Some (VList [], u) else '(l, rest) ← json_items fuel (d ::s u); Some (VList l, rest)
            end
          else if Ascii.eqb c "{" then
            match skip_ws t with
            | "" => None
            | d ::s u => if Ascii.eqb d "}" then Some (VDict [], u) else '(m, rest) ← json_members fuel [] (d ::s u); Some (VDict m, rest)
            end
          else match json_literal s with Some r => Some r | None => json_number s end
      end
  end
with json_items (fuel : nat) (s : string) : option (list val * string) :=
  match fuel with
  | O => None
  | S fuel =>
      '(v, rest) ← json_value fuel s;
      match skip_ws rest with
      | "" => None
      | c ::s t =>
          if Ascii.eqb c "]" then Some ([v], t)
          else if Ascii.eqb c "," then '(l, rest) ← json_items fuel (skip_ws t); Some (v :: l, rest)
          else None
      end
  end
with json_members (fuel : nat) (acc : dict) (s : string) : option (dict * string) :=
  match fuel with
  | O => None
  | S fuel =>
      match s with
      | q ::s t =>
          if negb (Ascii.eqb q quote) then None
          else
            '(k, rest) ← string_body t;
            match skip_ws rest with
            | "" => None
            | c ::s t =>
                if negb (Ascii.eqb c ":") then None
                else
                  '(v, rest) ← json_value fuel (skip_ws t);
                  let acc := dset k v acc in
                  match skip_ws rest with
                  | "" => None
                  | c ::s t =>
                      if Ascii.eqb c "}" then Some (acc, t)
                      else if Ascii.eqb c "," then json_members fuel acc (skip_ws t)
                      else None
                  end
            end
      | "" => None
      end
  end.
(** [json.loads] *)
Definition json_loads_text (s : string) : option val :=
  '(v, rest) ← json_value (2 * String.length s + 1) (skip_ws s);
  if String.eqb (skip_ws rest) "" then Some v else None.
End Parse.

(** ** Lemmas: Base64 *)

Definition b64_ok (n : Z) : bool :=
  match b64_val (b64_char n) with Some v => v =? n | None => false end && negb (Ascii.eqb (b64_char n) "=").
Lemma b64_char_val n : 0 <= n < 64 -> b64_val (b64_char n) = Some n /\ Ascii.eqb (b64_char n) "=" = false.
Proof.
  intros Hn. assert (b64_ok n = true) as H by (apply (forallb_below b64_ok 64); [by vm_compute|lia]).
  unfold b64_ok in H. destruct (b64_val (b64_char n)); bool_to_prop; by subst.
Qed.
Lemma chr_code c n : n = code c -> chr n = c.
Proof. intros ->. unfold chr, code. rewrite Nat2Z.id. apply ascii_nat_embedding. Qed.

Lemma dec0 n p s : 0 <= n < 64 -> b64decode_from 0 0 p (b64_char n ::s s) = b64decode_from 1 n 0 s.
Proof. intros Hn. cbn [b64decode_from]. destruct (b64_char_val n Hn) as [-> ->]. done. Qed.
Lemma dec1 l n s : 0 <= n < 64 -> b64decode_from 1 l 0 (b64_char n ::s s) = String.String (chr (l * 4 + n / 16)) <$> b64decode_from 2 (n mod 16) 0 s.
Proof. intros Hn. cbn [b64decode_from]. destruct (b64_char_val n Hn) as [-> ->]. done. Qed.
Lemma dec2 l n s : 0 <= n < 64 -> b64decode_from 2 l 0 (b64_char n ::s s) = String.String (chr (l * 16 + n / 4)) <$> b64decode_from 3 (n mod 4) 0 s.
Proof. intros Hn. cbn [b64decode_from]. destruct (b64_char_val n Hn) as [-> ->]. done. Qed.
Lemma dec3 l n s : 0 <= n < 64 -> b64decode_from 3 l 0 (b64_char n ::s s) = String.String (chr (l * 64 + n)) <$> b64decode_from 0 0 0 s.
Proof. intros Hn. cbn [b64decode_from]. destruct (b64_char_val n Hn) as [-> ->]. done. Qed.
Lemma pad2 l : b64decode_from 2 l 0 "==" = Some "".
Proof. reflexivity. Qed.
Lemma pad3 l : b64decode_from 3 l 0 "=" = Some "".
Proof. reflexivity. Qed.

(** Arithmetic with quotients and remainders. *)
Ltac div_lia := Z.to_euclidean_division_equations; lia.

(** The sixths of two bytes and of one. *)
Lemma sixth_bounds a b : 0 <= a < 256 -> 0 <= b < 256 ->
  0 <= a / 4 < 64 /\ 0 <= a mod 4 * 16 + b / 16 < 64 /\ 0 <= b mod 16 * 4 + a / 64 < 64 /\ 0 <= a mod 64 < 64 /\ 0 <= a mod 4 * 16 < 64 /\ 0 <= b mod 16 * 4 < 64.
Proof. intros Ha Hb. repeat split; div_lia. Qed.

(** What is encoded is decoded. *)
Theorem b64_roundtrip s : b64decode (b64encode s) = Some s.
Proof.
  unfold b64decode. enough (forall n s, (String.length s <= n)%nat -> b64decode_from 0 0 0 (b64encode s) = Some s) as H by (by apply (H (String.length s))).
  clear s. intros n. induction n as [|n IH]; intros s Hl; [destruct s; [reflexivity|simpl in Hl; lia]|].
  destruct s as [|a [|b [|c s]]]; [reflexivity| | |].
  - pose proof (code_bounds a) as Ha. destruct (sixth_bounds (code a) 0 Ha ltac:(lia)) as (H1 & _ & _ & _ & H2 & _).
    cbn [b64encode]. rewrite dec0, dec1, pad2 by done. cbn [fmap option_fmap option_map]. do 2 f_equal. apply chr_code. div_lia.
  - pose proof (code_bounds a) as Ha. pose proof (code_bounds b) as Hb. destruct (sixth_bounds (code a) (code b) Ha Hb) as (H1 & H2 & _ & _ & _ & H3).
    cbn [b64encode]. rewrite dec0, dec1, dec2, pad3 by done. cbn [fmap option_fmap option_map]. f_equal. f_equal; [|f_equal]; apply chr_code; div_lia.
  - pose proof (code_bounds a) as Ha. pose proof (code_bounds b) as Hb. pose proof (code_bounds c) as Hc.
    destruct (sixth_bounds (code a) (code b) Ha Hb) as (H1 & H2 & _). destruct (sixth_bounds (code c) (code b) Hc Hb) as (_ & _ & H3 & H4 & _).
    cbn [b64encode]. rewrite dec0, dec1, dec2, dec3 by done. rewrite IH by (simpl in Hl; lia). cbn [fmap option_fmap option_map].
    f_equal. f_equal; [|f_equal; [|f_equal]]; apply chr_code; div_lia.
Qed.

(** ** Lemmas: strings of JSON *)

Lemma string_body_plain c s : Ascii.eqb c quote = false -> Ascii.eqb c backslash = false -> (code c <? 32) = false ->
  string_body (c ::s s) = '(t, rest) ← string_body s; Some (c ::s t, rest).
Proof. intros H1 H2 H3. cbn [string_body]. by rewrite H1, H2, H3. Qed.
Lemma string_body_escape e d s : unescape e = Some d ->
  string_body (backslash ::s e ::s s) = '(t, rest) ← string_body s; Some (d ::s t, rest).
Proof. intros H. cbn [string_body]. change (Ascii.eqb backslash quote) with false. change (Ascii.eqb backslash backslash) with true. cbv iota. by rewrite H. Qed.
Lemma string_body_hex n s : 0 <= n < 256 ->
  string_body (backslash ::s "u"%char ::s (hex4 n +:+ s)) = '(t, rest) ← string_body s; Some (chr n ::s t, rest).
Proof.
  intros Hn. unfold hex4. rewrite !scons_app. change (string_body (backslash ::s "u"%char ::s ?x)) with
    (match x with
     | h1 ::s h2 ::s h3 ::s h4 ::s s => a ← hex_val h1; b ← hex_val h2; d ← hex_val h3; f ← hex_val h4;
         if (a =? 0) && (b =? 0) then '(t, rest) ← string_body s; Some (chr (16 * d + f) ::s t, rest) else None
     | _ => None end).
  destruct (hex_digit_val (n / 16)) as (-> & _); [div_lia|]. destruct (hex_digit_val (n mod 16)) as (-> & _); [div_lia|].
  cbn [mbind option_bind]. change (hex_val (hex_digit 0)) with (Some 0). cbn [mbind option_bind]. change ((0 =? 0) && (0 =? 0)) with true. cbv iota.
  replace (16 * (n / 16) + n mod 16) with n by div_lia. done.
Qed.

(** The characters by class, checked one by one. *)
Inductive escape_spec (c : ascii) : Prop :=
  | EscPlain : escape c = c ::s "" -> Ascii.eqb c quote = false -> Ascii.eqb c backslash = false -> (code c <? 32) = false -> escape_spec c
  | EscShort e : escape c = backslash ::s e ::s "" -> unescape e = Some c -> escape_spec c
  | EscHex : escape c = backslash ::s "u" +:+ hex4 (code c) -> escape_spec c.
Lemma escape_cases c : escape_spec c.
Proof.
  destruct (decide (code c ∈ [34; 92; 10; 13; 9; 12; 8])) as [Hin|Hni].
  - assert (c = chr (code c)) as -> by (symmetry; by apply chr_code). set_unfold in Hin.
    repeat destruct Hin as [->|Hin]; try done; eapply EscShort; reflexivity.
  - assert (forall n, n ∈ [34; 92; 10; 13; 9; 12; 8] -> (code c =? n) = false) as Hne by (intros n Hn; apply Z.eqb_neq; intros Heq; apply Hni; by rewrite Heq).
    destruct ((32 <=? code c) && (code c <=? 126)) eqn:E; [apply EscPlain|apply EscHex].
    1,5: unfold escape; rewrite !Hne by set_solver; by rewrite E.
    + destruct (Ascii.eqb_spec c quote) as [->|]; [by destruct Hni; set_solver|done].
    + destruct (Ascii.eqb_spec c backslash) as [->|]; [by destruct Hni; set_solver|done].
    + bool_to_prop. lia.
Qed.
Lemma string_body_one c s : string_body (escape c +:+ s) = '(t, rest) ← string_body s; Some (c ::s t, rest).
Proof.
  destruct (escape_cases c) as [-> H1 H2 H3|e -> He| ->].
  - rewrite scons_app. by apply string_body_plain.
  - rewrite !scons_app. by apply string_body_escape.
  - rewrite scons_app, sapp_assoc, (scons_app "u"), snil_app. rewrite string_body_hex by apply code_bounds. by rewrite (chr_code c).
Qed.
(** A printed string is read back, whatever follows. *)
Lemma string_body_escaped s rest : string_body (escaped s +:+ quote ::s rest) = Some (s, rest).
Proof.
  induction s as [|c s IH]; [done|]. cbn [escaped]. rewrite sapp_assoc, string_body_one, IH. done.
Qed.

(** ** Lemmas: the parser ends *)

Abbreviation shorter rest s := (String.length rest < String.length s)%nat.
Lemma string_body_shorter s t rest : string_body s = Some (t, rest) -> shorter rest s.
Proof.
  enough (forall n s t rest, (String.length s <= n)%nat -> string_body s = Some (t, rest) -> shorter rest s) as H by (by apply (H (String.length s))).
  clear s t rest. intros n. induction n as [|n IH]; intros s t rest Hl H; [by destruct s; [|simpl in Hl; lia]|].
  destruct s as [|c s]; [done|]. cbn [string_body] in H. simpl in Hl |- *.
  destruct (Ascii.eqb c quote); [injection H as _ ->; lia|].
  destruct (Ascii.eqb c backslash).
  - destruct s as [|e s]; [done|]. simpl in Hl |- *. destruct (unescape e).
    + apply bind_Some in H as ([t' rest'] & H & [= _ ->]). apply IH in H; lia.
    + destruct (Ascii.eqb e "u"); [|done]. destruct s as [|h1 [|h2 [|h3 [|h4 s]]]]; try done. simpl in Hl |- *.
      repeat (apply bind_Some in H as (? & _ & H)). destruct (_ && _); [|done].
      apply bind_Some in H as ([t' rest'] & H & [= _ ->]). apply IH in H; lia.
  - destruct (code c <? 32); [done|]. apply bind_Some in H as ([t' rest'] & H & [= _ ->]). apply IH in H; lia.
Qed.
Lemma skip_ws_le s : (String.length (skip_ws s) <= String.length s)%nat.
Proof. unfold skip_ws. induction s as [|c s IH]; simpl; [lia|]. destruct (json_space c); simpl; lia. Qed.
Lemma span_digits_le s d rest : span_digits s = (d, rest) -> (String.length rest <= String.length s)%nat.
Proof.
  revert d rest. induction s as [|c s IH]; intros d rest; simpl; [intros [= _ <-]; done|].
  destruct (is_digit c); [|intros [= _ <-]; simpl; lia]. destruct (span_digits s) as [d' rest']. intros [= _ <-]. specialize (IH d' rest' eq_refl). lia.
Qed.
Lemma int_part_shorter s i rest : int_part s = Some (i, rest) -> shorter rest s.
Proof.
  destruct s as [|c s]; [done|]. cbn [int_part]. destruct (Ascii.eqb c "0"); [intros [= _ ->]; simpl; lia|].
  destruct (is_digit c) eqn:E; [|done]. cbn [span_digits]. rewrite E. destruct (span_digits s) as [d rest'] eqn:Es. intros [= _ ->].
  apply span_digits_le in Es. simpl. lia.
Qed.
Lemma frac_part_le s f rest : frac_part s = (f, rest) -> (String.length rest <= String.length s)%nat.
Proof.
  destruct s as [|c s]; [intros [= _ <-]; done|]. cbn [frac_part]. destruct (Ascii.eqb c "."); [|intros [= _ <-]; done].
  destruct (span_digits s) as [[|d0 d] rest'] eqn:Es; intros [= _ <-]; [done|]. apply span_digits_le in Es. simpl. lia.
Qed.
Lemma exp_part_le s e rest : exp_part s = (e, rest) -> (String.length rest <= String.length s)%nat.
Proof.
  destruct s as [|c s]; [intros [= _ <-]; done|]. cbn [exp_part]. destruct (_ || _); [|intros [= _ <-]; done].
  set (st := match s with d ::s u => _ | "" => _ end). assert (String.length st.2 <= String.length s)%nat as Hst.
  { subst st. destruct s as [|d u]; [done|]. destruct (_ || _); simpl; lia. }
  destruct st as [sign t]. destruct (span_digits t) as [[|d0 d] rest'] eqn:Es; intros [= _ <-]; [done|].
  apply span_digits_le in Es. simpl in *. lia.
Qed.
Section ParseEnds.
Context (float_repr : string -> string).
#[local] Abbreviation json_number := (json_number float_repr).
#[local] Abbreviation json_value := (json_value float_repr).
#[local] Abbreviation json_items := (json_items float_repr).
#[local] Abbreviation json_members := (json_members float_repr).

Lemma json_number_shorter s v rest : json_number s = Some (v, rest) -> shorter rest s.
Proof.
  unfold json_number. set (nt := match s with c ::s t => _ | "" => _ end). assert (String.length nt.2 <= String.length s)%nat as Hnt.
  { subst nt. destruct s as [|c t]; [done|]. destruct (Ascii.eqb c "-"); simpl; lia. }
  destruct nt as [neg t]. intros H. apply bind_Some in H as ([i r1] & H1 & H). destruct (frac_part r1) as [f r2] eqn:H2. destruct (exp_part r2) as [e r3] eqn:H3.
  injection H as _ <-. apply int_part_shorter in H1. apply frac_part_le in H2. apply exp_part_le in H3. simpl in Hnt. lia.
Qed.
Lemma length_sdrop n s : (String.length (sdrop n s) = String.length s - n)%nat.
Proof. revert s. induction n as [|n IH]; intros [|c s]; simpl; try done; lia. Qed.
Lemma literal_shorter word v s v' rest : word <> "" -> literal word v s = Some (v', rest) -> shorter rest s.
Proof.
  unfold literal. intros Hw. destruct (startswith word s) eqn:E; [|done]. intros [= _ <-]. rewrite length_sdrop.
  apply prefix_spec in E as [t ->]. rewrite length_sapp. destruct word; [done|]. simpl. lia.
Qed.
Lemma json_literal_shorter s v rest : json_literal s = Some (v, rest) -> shorter rest s.
Proof.
  unfold json_literal. repeat (match goal with |- context [literal ?w ?x s] => destruct (literal w x s) as [[v' r']|] eqn:?E end; [intros [= <- <-]; eapply literal_shorter; [|eassumption]; done|]).
  done.
Qed.

Lemma json_shorter fuel :
  (forall s v rest, json_value fuel s = Some (v, rest) -> shorter rest s) /\
  (forall s l rest, json_items fuel s = Some (l, rest) -> shorter rest s) /\
  (forall acc s m rest, json_members fuel acc s = Some (m, rest) -> shorter rest s).
Proof.
  induction fuel as [|fuel (IHv & IHi & IHm)]; [done|]. split_and!.
  - intros [|c t] v rest H; [done|]. cbn [json_value] in H. destruct (Ascii.eqb c quote).
    { apply bind_Some in H as ([x r] & H & [= _ <-]). apply string_body_shorter in H. simpl. lia. }
    pose proof (skip_ws_le t). destruct (Ascii.eqb c "[").
    { destruct (skip_ws t) as [|d u] eqn:E; [done|]. destruct (Ascii.eqb d "]"); [injection H as _ <-; simpl in *; lia|].
      apply bind_Some in H as ([x r] & H & [= _ <-]). apply IHi in H. simpl in *. lia. }
    destruct (Ascii.eqb c "{").
    { destruct (skip_ws t) as [|d u] eqn:E; [done|]. destruct (Ascii.eqb d "}"); [injection H as _ <-; simpl in *; lia|].
      apply bind_Some in H as ([x r] & H & [= _ <-]). apply IHm in H. simpl in *. lia. }
    destruct (json_literal (c ::s t)) as [[v' r']|] eqn:E; [injection H as _ <-; by eapply json_literal_shorter|]. by eapply json_number_shorter.
  - intros s l rest H. cbn [json_items] in H. apply bind_Some in H as ([v r] & H1 & H). apply IHv in H1. pose proof (skip_ws_le r).
    destruct (skip_ws r) as [|c t]; [done|]. destruct (Ascii.eqb c "]"); [injection H as _ <-; simpl in *; lia|].
    destruct (Ascii.eqb c ","); [|done]. apply bind_Some in H as ([l' r'] & H & [= _ <-]). apply IHi in H. pose proof (skip_ws_le t). simpl in *. lia.
  - intros acc [|q t] m rest H; [done|]. cbn [json_members] in H. destruct (negb _); [done|]. apply bind_Some in H as ([k r] & H1 & H).
    apply string_body_shorter in H1. pose proof (skip_ws_le r). destruct (skip_ws r) as [|c u]; [done|]. destruct (negb _); [done|].
    apply bind_Some in H as ([v r2] & H2 & H). apply IHv in H2. pose proof (skip_ws_le u). pose proof (skip_ws_le r2).
    destruct (skip_ws r2) as [|c' w]; [done|]. destruct (Ascii.eqb c' "}"); [injection H as _ <-; simpl in *; lia|].
    destruct (Ascii.eqb c' ","); [|done]. apply IHm in H. pose proof (skip_ws_le w). simpl in *. lia.
Qed.

(** Fuel beyond twice the length changes nothing. *)
Lemma json_enough n : forall fuel fuel',
  (forall s, (2 * String.length s < n)%nat -> (2 * String.length s < fuel)%nat -> (2 * String.length s < fuel')%nat -> json_value fuel s = json_value fuel' s) /\
  (forall s, (2 * String.length s + 1 < n)%nat -> (2 * String.length s + 1 < fuel)%nat -> (2 * String.length s + 1 < fuel')%nat -> json_items fuel s = json_items fuel' s) /\
  (forall acc s, (2 * String.length s + 1 < n)%nat -> (2 * String.length s + 1 < fuel)%nat -> (2 * String.length s + 1 < fuel')%nat -> json_members fuel acc s = json_members fuel' acc s).
Proof.
  induction n as [|n IH]; intros fuel fuel'; [split_and!; intros; lia|]. destruct fuel as [|fuel]; [split_and!; intros; lia|].
  destruct fuel' as [|fuel']; [split_and!; intros; lia|]. destruct (IH fuel fuel') as (IHv & IHi & IHm). split_and!.
  - intros [|c t] Hn Hf Hf'; [done|]. simpl in Hn, Hf, Hf'. cbn [json_value]. pose proof (skip_ws_le t).
    destruct (Ascii.eqb c quote); [done|]. destruct (Ascii.eqb c "[").
    { destruct (skip_ws t) as [|d u] eqn:E; [done|]. destruct (Ascii.eqb d "]"); [done|]. simpl in *. rewrite IHi by (simpl; lia). done. }
    destruct (Ascii.eqb c "{"); [|done]. destruct (skip_ws t) as [|d u] eqn:E; [done|]. destruct (Ascii.eqb d "}"); [done|]. simpl in *. rewrite IHm by (simpl; lia). done.
  - intros s Hn Hf Hf'. cbn [json_items]. rewrite (IHv s) by lia. destruct (json_value fuel' s) as [[v r]|] eqn:E; [|done]. cbn [mbind option_bind].
    apply (proj1 (json_shorter fuel')) in E. pose proof (skip_ws_le r). destruct (skip_ws r) as [|c t]; [done|].
    destruct (Ascii.eqb c "]"); [done|]. destruct (Ascii.eqb c ","); [|done]. pose proof (skip_ws_le t). simpl in *. rewrite IHi by lia. done.
  - intros acc [|q t] Hn Hf Hf'; [done|]. simpl in Hn, Hf, Hf'. cbn [json_members]. destruct (negb _); [done|].
    destruct (string_body t) as [[k r]|] eqn:E; [|done]. apply string_body_shorter in E. cbn [mbind option_bind]. pose proof (skip_ws_le r).
    destruct (skip_ws r) as [|c u]; [done|]. destruct (negb _); [done|]. pose proof (skip_ws_le u). simpl in *. rewrite IHv by lia.
    destruct (json_value fuel' (skip_ws u)) as [[v r2]|] eqn:E2; [|done]. cbn [mbind option_bind]. apply (proj1 (json_shorter fuel')) in E2. pose proof (skip_ws_le r2).
    destruct (skip_ws r2) as [|c' w]; [done|]. destruct (Ascii.eqb c' "}"); [done|]. destruct (Ascii.eqb c' ","); [|done]. pose proof (skip_ws_le w). simpl in *. rewrite IHm by lia. done.
Qed.
Lemma json_value_enough fuel s : (2 * String.length s < fuel)%nat -> json_value fuel s = json_value (2 * String.length s + 1) s.
Proof. intros Hf. apply (proj1 (json_enough (S (2 * String.length s)) fuel (2 * String.length s + 1))); lia. Qed.
End ParseEnds.
