(* ===== verification/AutomationPages.v ===== *)
(** * The order of automations

    [automation_order.py]: the section of an automation, the key of its row, the
    order of the listing, its cursor and its pages. A cursor's payload that is not
    plain ASCII goes through the decoding [json.loads] chooses by its first bytes,
    which is the argument [decode_other]. *)

From S2P Require Import Prelude PyStr PyVal IsoTime PyText PyCodec.

(** ** Sections and keys *)

Definition SECTIONS : list string := ["active"; "paused"; "archived"].
Definition automation_section (status : string) : string :=
  if String.eqb status "archived" then "archived"
  else if String.eqb status "paused" then "paused"
  else "active".
(** [_RANK] *)
Definition RANK (section : string) : Z :=
  if String.eqb section "archived" then 2 else if String.eqb section "paused" then 1 else 0.

Abbreviation order_key_t := (Z * string * string)%type.
Definition order_key (status : string) (last_activity_at automation_id : val) : order_key_t :=
  (RANK (automation_section status), str_or last_activity_at "", py_str automation_id).

(** ** The order

    A position is a tuple of integers; Python compares tuples item by item, the
    shorter one first. *)
Abbreviation position := (Z * list Z * list Z)%type.
Definition negated (s : string) : list Z := map (fun c => - code c) (String.list_ascii_of_string s) ++ [1].
Definition sort_position (key : order_key_t) : position :=
  let '(rank, at_, aid) := key in (rank, negated at_, negated aid).

Fixpoint tuple_cmp (x y : list Z) : comparison :=
  match x, y with
  | [], [] => Eq
  | [], _ => Lt
  | _, [] => Gt
  | a :: x, b :: y => match a ?= b with Eq => tuple_cmp x y | c => c end
  end.
Definition position_cmp (p q : position) : comparison :=
  let '(r, a, i) := p in
  let '(r', a', i') := q in
  match r ?= r' with
  | Eq => match tuple_cmp a a' with Eq => tuple_cmp i i' | c => c end
  | c => c
  end.
Definition position_leb (p q : position) : bool := match position_cmp p q with Gt => false | _ => true end.
Definition position_gtb (p q : position) : bool := match position_cmp p q with Gt => true | _ => false end.

Section Entries.
Context {T : Type}.
Abbreviation entry := (order_key_t * T)%type.

Definition entry_leb (x y : entry) : bool := position_leb (sort_position x.1) (sort_position y.1).
Definition ordered (entries : list entry) : list entry := py_sorted entry_leb entries.
End Entries.

(** ** The cursor *)

Definition CURSOR_PREFIX : string := "auto2:".
(** [json.dumps([rank, at, id])] without spaces. *)
Definition cursor_payload (key : order_key_t) : string :=
  let '(rank, at_, aid) := key in
  "[" +:+ str_of_Z rank +:+ "," +:+ dumps_str at_ +:+ "," +:+ dumps_str aid +:+ "]".
Definition encode_cursor (key : order_key_t) : string := CURSOR_PREFIX +:+ b64encode (cursor_payload key).

(** The integer a rank is compared as; [None]: not an [int]. *)
Definition as_int (v : val) : option Z :=
  match v with VInt z => Some z | VBool b => Some (if b then 1 else 0) | _ => None end.
Definition InvalidOrderCursor (cursor : string) : exn := ValueError ("invalid automations cursor " +:+ repr_str cursor).

Section Cursor.
Context (float_repr : string -> string) (decode_other : string -> option string).

Definition plain_char (c : ascii) : bool := (1 <=? code c) && (code c <? 128).
(** The text [json.loads] reads in a byte string. *)
Definition payload_text (raw : string) : option string :=
  if forall_chars plain_char raw then Some raw else decode_other raw.
Definition cursor_key (cursor : string) : option order_key_t :=
  if negb (startswith CURSOR_PREFIX cursor) then None
  else
    let body := removeprefix_len CURSOR_PREFIX cursor in
    if negb (is_ascii body) then None
    else
      raw ← b64decode body;
      text ← payload_text raw;
      v ← json_loads_text float_repr text;
      match v with
      | VList [rank; at_; aid] =>
          r ← as_int rank;
          if (0 <=? r) && (r <=? 2) then Some (r, py_str at_, py_str aid) else None
      | _ => None
      end.
Definition decode_cursor (cursor : string) : res order_key_t :=
  match cursor_key cursor with Some key => Ok key | None => Raise (InvalidOrderCursor cursor) end.

(** ** Pages *)

Definition page {T} (entries : list (order_key_t * T)) (cursor : option string) (limit : Z)
  : res (list (order_key_t * T) * option string) :=
  rest <== match cursor with
           | None | Some "" => Ok entries
           | Some c =>
               key <== decode_cursor c;
               Ok (List.filter (fun e => position_gtb (sort_position e.1) (sort_position key)) entries)
           end;
  let lim := Z.to_nat (Z.max 1 limit) in
  let out := take lim rest in
  let more := (lim <? length rest)%nat in
  Ok (out, if more then (fun e => encode_cursor e.1) <$> last out else None).
End Cursor.

(** [section_counts]: the counts of the sections, in their order. *)
Fixpoint bump (name : string) (counts : list (string * Z)) : list (string * Z) :=
  match counts with
  | [] => []
  | (n, k) :: l => if String.eqb n name then (n, k + 1) :: l else (n, k) :: bump name l
  end.
Definition section_counts (statuses : list string) : list (string * Z) :=
  fold_left (fun counts status => bump (automation_section status) counts) statuses (map (fun name => (name, 0)) SECTIONS).

(** ** Lemmas: the comparison of tuples *)

Lemma tuple_cmp_eq x y : tuple_cmp x y = Eq <-> x = y.
Proof.
  revert y. induction x as [|a x IH]; intros [|b y]; simpl; try done. destruct (Z.compare_spec a b) as [->|H|H].
  - rewrite IH. split; [by intros ->|by intros [= ->]].
  - split; [done|intros [= -> ->]; lia].
  - split; [done|intros [= -> ->]; lia].
Qed.
Lemma tuple_cmp_antisym x y : tuple_cmp y x = CompOpp (tuple_cmp x y).
Proof. revert y. induction x as [|a x IH]; intros [|b y]; simpl; try done. rewrite (Z.compare_antisym a b). destruct (a ?= b); simpl; auto. Qed.
Lemma tuple_cmp_trans x y z : tuple_cmp x y <> Gt -> tuple_cmp y z <> Gt -> tuple_cmp x z <> Gt.
Proof.
  revert y z. induction x as [|a x IH]; intros [|b y] [|c z]; simpl; try done.
  destruct (Z.compare_spec a b) as [->|H|H]; [|intros _|done].
  - destruct (Z.compare_spec b c) as [->|H'|H']; [apply IH|done|done].
  - destruct (Z.compare_spec b c) as [->|H'|H']; [|intros _|done].
    + by rewrite (proj2 (Z.compare_lt_iff a c) H).
    + by rewrite (proj2 (Z.compare_lt_iff a c) ltac:(lia)).
Qed.
Lemma position_cmp_eq p q : position_cmp p q = Eq <-> p = q.
Proof.
  destruct p as [[r a] i], q as [[r' a'] i']. simpl. destruct (Z.compare_spec r r') as [->|H|H].
  - destruct (tuple_cmp a a') eqn:E.
    + apply tuple_cmp_eq in E as ->. rewrite tuple_cmp_eq. split; [by intros ->|by intros [= ->]].
    + split; [done|intros [= -> ->]]. by rewrite (proj2 (tuple_cmp_eq a' a') eq_refl) in E.
    + split; [done|intros [= -> ->]]. by rewrite (proj2 (tuple_cmp_eq a' a') eq_refl) in E.
  - split; [done|intros [= -> -> ->]; lia].
  - split; [done|intros [= -> -> ->]; lia].
Qed.
Lemma position_cmp_antisym p q : position_cmp q p = CompOpp (position_cmp p q).
Proof.
  destruct p as [[r a] i], q as [[r' a'] i']. simpl. rewrite (Z.compare_antisym r r'). destruct (r ?= r'); [|done|done]. simpl.
  rewrite (tuple_cmp_antisym a a'). destruct (tuple_cmp a a'); [|done|done]. apply tuple_cmp_antisym.
Qed.
Lemma position_gtb_leb p q : position_gtb p q = negb (position_leb p q).
Proof. unfold position_gtb, position_leb. by destruct (position_cmp p q). Qed.
Lemma position_leb_total p q : position_leb p q = true \/ position_leb q p = true.
Proof. unfold position_leb. rewrite (position_cmp_antisym p q). destruct (position_cmp p q); simpl; auto. Qed.
Lemma position_leb_antisym p q : position_leb p q = true -> position_leb q p = true -> p = q.
Proof. unfold position_leb. rewrite (position_cmp_antisym p q). intros H1 H2. apply position_cmp_eq. by destruct (position_cmp p q). Qed.

(** ** Lemmas: positions and strings *)

Lemma negated_cons c s : negated (c ::s s) = - code c :: negated s.
Proof. done. Qed.
(** Negating the code points turns the order of strings around. *)
Lemma negated_leb s t : match tuple_cmp (negated s) (negated t) with Gt => false | _ => true end = str_leb t s.
Proof.
  revert t. induction s as [|c s IH]; intros [|d t].
  - done.
  - pose proof (code_bounds d). rewrite negated_cons. cbn [negated String.list_ascii_of_string map app tuple_cmp str_leb]. by rewrite (proj2 (Z.compare_gt_iff 1 (- code d)) ltac:(lia)).
  - pose proof (code_bounds c). rewrite negated_cons. cbn [negated String.list_ascii_of_string map app tuple_cmp str_leb]. by rewrite (proj2 (Z.compare_lt_iff (- code c) 1) ltac:(lia)).
  - rewrite !negated_cons. cbn [tuple_cmp str_leb]. destruct (Z.compare_spec (- code c) (- code d)) as [H|H|H].
    + rewrite IH. assert (code d = code c) as -> by lia. by rewrite Z.ltb_irrefl, Z.eqb_refl.
    + assert ((code d <? code c) = true) as -> by (apply Z.ltb_lt; lia). done.
    + assert ((code d <? code c) = false) as -> by (apply Z.ltb_ge; lia). assert ((code d =? code c) = false) as -> by (apply Z.eqb_neq; lia). done.
Qed.
Lemma negated_inj s t : negated s = negated t -> s = t.
Proof.
  intros H. assert (tuple_cmp (negated s) (negated t) = Eq) as E by by apply tuple_cmp_eq.
  apply str_leb_antisym; rewrite <- negated_leb; [rewrite tuple_cmp_antisym|]; by rewrite E.
Qed.
Lemma sort_position_inj k k' : sort_position k = sort_position k' -> k = k'.
Proof. destruct k as [[r a] i], k' as [[r' a'] i']. by intros [= -> ->%negated_inj ->%negated_inj]. Qed.

(** The order in words: section first, then the later activity, then the greater id. *)
Definition listed_before (k k' : order_key_t) : Prop :=
  let '(r, a, i) := k in
  let '(r', a', i') := k' in
  r < r' \/ r = r' /\ (a <> a' /\ str_leb a' a = true \/ a = a' /\ str_leb i' i = true).
Lemma position_leb_spec k k' : position_leb (sort_position k) (sort_position k') = true <-> listed_before k k'.
Proof.
  destruct k as [[r a] i], k' as [[r' a'] i']. unfold position_leb, listed_before. cbn [sort_position position_cmp].
  destruct (Z.compare_spec r r') as [->|H|H]; [|split; [by left|done]|split; [done|intros [?|[? _]]; lia]].
  pose proof (negated_leb a a') as Ha. pose proof (negated_leb i i') as Hi. destruct (tuple_cmp (negated a) (negated a')) eqn:E.
  - apply tuple_cmp_eq, negated_inj in E as ->. rewrite Hi. split; [by right; split; [|right]|]. intros [?|[_ [[? _]|[_ ?]]]]; [lia|done|done].
  - assert (a <> a') as Hne by (intros ->; by rewrite (proj2 (tuple_cmp_eq _ _) eq_refl) in E). split; [|done]. intros _. right. split; [done|]. by left.
  - assert (a <> a') as Hne by (intros ->; by rewrite (proj2 (tuple_cmp_eq _ _) eq_refl) in E). split; [done|]. intros [?|[_ [[_ ?]|[? _]]]]; [lia|congruence|done].
Qed.
Lemma listed_before_trans k k' k'' : listed_before k k' -> listed_before k' k'' -> listed_before k k''.
Proof.
  destruct k as [[r a] i], k' as [[r' a'] i'], k'' as [[r'' a''] i'']. unfold listed_before.
  intros [H|[-> H]] [H'|[-> H']]; try (left; lia). right. split; [done|].
  destruct H as [[Hn H]|[-> H]], H' as [[Hn' H']|[-> H']].
  - left. split; [|by eapply str_leb_trans]. intros ->. apply Hn. by apply str_leb_antisym.
  - by left.
  - by left.
  - right. split; [done|]. by eapply str_leb_trans.
Qed.

Section Order.
Context {T : Type}.
Implicit Types e : order_key_t * T.

Lemma entry_leb_total e e' : entry_leb e e' = true \/ entry_leb e' e = true.
Proof. apply position_leb_total. Qed.
Lemma entry_leb_trans (e e' e'' : order_key_t * T) : entry_leb e e' = true -> entry_leb e' e'' = true -> entry_leb e e'' = true.
Proof. unfold entry_leb. rewrite !position_leb_spec. apply listed_before_trans. Qed.
Lemma ordered_sorted (l : list (order_key_t * T)) : SortedBy entry_leb (ordered l).
Proof. apply py_sorted_sorted; [apply entry_leb_total|apply entry_leb_trans]. Qed.

(** The listing is ordered by section, active before paused before archived,
    then by last activity, newest first, then by id, descending; and it holds
    exactly the rows it was given. *)
Theorem listing_order (l : list (order_key_t * T)) :
  ordered l ≡ₚ l /\ forall i j e e', ordered l !! i = Some e -> ordered l !! j = Some e' -> (i < j)%nat -> listed_before e.1 e'.1.
Proof.
  split; [apply py_sorted_perm|]. generalize (ordered_sorted l). generalize (ordered l). clear l. intros l.
  induction 1 as [|x l Hx Hl IH]; intros i j e e' Hi Hj Hlt; [done|]. destruct j as [|j]; [lia|]. simpl in Hj. destruct i as [|i].
  - simpl in Hi. injection Hi as <-. apply position_leb_spec. rewrite Forall_forall in Hx. apply (Hx e'). by eapply list_elem_of_lookup_2.
  - eapply IH; [exact Hi|exact Hj|lia].
Qed.
End Order.

(** ** The pages of automations: lemmas

    A cursor is read back as the key it was made from, and reading from the first
    page to the last serves the whole listing. *)

(** ** Printed documents are plain *)

Lemma ascii_all (f : ascii -> bool) : forallb (fun n => f (chr (Z.of_nat n))) (seq 0 256) = true -> forall c, f c = true.
Proof.
  intros H c. rewrite <- (chr_code c (code c) eq_refl). pose proof (code_bounds c). rewrite forallb_forall in H.
  specialize (H (Z.to_nat (code c))). rewrite Z2Nat.id in H by lia. apply H. apply in_seq. lia.
Qed.
Lemma escape_plain c : forall_chars plain_char (escape c) = true.
Proof. revert c. apply ascii_all. by vm_compute. Qed.
Lemma dumps_str_plain s : forall_chars plain_char (dumps_str s) = true.
Proof.
  unfold dumps_str. cbn [forall_chars]. rewrite forall_chars_app. rewrite andb_true_iff. split; [done|]. rewrite andb_true_iff. split; [|done].
  induction s as [|c s IH]; [done|]. cbn [escaped]. by rewrite forall_chars_app, escape_plain, IH.
Qed.
Lemma b64_char_ascii n : (code (b64_char n) <? 128) = true.
Proof.
  unfold b64_char. assert (forall m, (code (default "A"%char (String.get m B64_ALPHABET)) <? 128) = true) as H; [|apply H].
  intros m. destruct (decide (m < 64)%nat) as [Hm|Hm].
  - assert (forallb (fun m => code (default "A"%char (String.get m B64_ALPHABET)) <? 128) (seq 0 64) = true) as Hall by (by vm_compute).
    rewrite forallb_forall in Hall. apply Hall, in_seq. lia.
  - assert (String.get m B64_ALPHABET = None) as ->; [|done]. do 64 (destruct m as [|m]; [lia|]). done.
Qed.
Lemma b64encode_ascii s : is_ascii (b64encode s) = true.
Proof.
  unfold is_ascii. enough (forall n s, (String.length s <= n)%nat -> forall_chars (fun c => code c <? 128) (b64encode s) = true) as H by by apply (H (String.length s)).
  clear s. intros n. induction n as [|n IH]; intros s Hl; [destruct s; [done|simpl in Hl; lia]|].
  destruct s as [|a [|b [|c s]]]; [done| | |]; cbn [b64encode forall_chars]; rewrite !b64_char_ascii; [done|done|].
  rewrite IH by (simpl in Hl; lia). done.
Qed.

(** ** The cursor is read back *)

Section Cursor.
Context (float_repr : string -> string) (decode_other : string -> option string).

Lemma items_str fuel s c rest : json_space c = false ->
  json_items float_repr (S (S fuel)) (dumps_str s +:+ c ::s rest) =
  (if Ascii.eqb c "]" then Some ([VStr s], rest)
   else if Ascii.eqb c "," then '(l, rest) ← json_items float_repr (S fuel) (skip_ws rest); Some (VStr s :: l, rest) else None).
Proof.
  intros Hc. unfold dumps_str. rewrite scons_app, sapp_assoc. cbn [json_items json_value]. change (Ascii.eqb quote quote) with true. cbv iota.
  rewrite scons_app, snil_app, string_body_escaped. cbn [mbind option_bind]. unfold skip_ws at 1. cbn [lstrip_by]. by rewrite Hc.
Qed.
Lemma skip_ws_dumps s t : skip_ws (dumps_str s +:+ t) = dumps_str s +:+ t.
Proof. done. Qed.
Lemma head_item n c d tail : (c = "0" \/ c = "1" \/ c = "2")%char -> digits_val 0 (c ::s "") = d ->
  json_value float_repr (8 + n) ("["%char ::s c ::s ","%char ::s tail) = '(l, rest) ← json_items float_repr (6 + n) (skip_ws tail); Some (VList (VInt d :: l), rest).
Proof.
  intros Hc <-. change (8 + n)%nat with (S (S (6 + n))).
  destruct Hc as [->|[->| ->]]; cbn [json_value json_items]; change (6 + n)%nat with (S (5 + n)); remember (json_items float_repr (S (5 + n))) as f; simpl; by destruct (f (skip_ws tail)) as [[? ?]|].
Qed.
Lemma payload_read rank at_ aid : 0 <= rank <= 2 ->
  json_loads_text float_repr (cursor_payload (rank, at_, aid)) = Some (VList [VInt rank; VStr at_; VStr aid]).
Proof.
  intros Hr. assert (exists c, str_of_Z rank = c ::s "" /\ (c = "0" \/ c = "1" \/ c = "2")%char /\ digits_val 0 (c ::s "") = rank) as (c & Hs & Hc & Hd).
  { assert (rank = 0 \/ rank = 1 \/ rank = 2) as [->|[->| ->]] by lia; [exists "0"%char|exists "1"%char|exists "2"%char]; repeat split; auto. }
  unfold json_loads_text, cursor_payload. rewrite Hs. set (tail := dumps_str at_ +:+ "," +:+ dumps_str aid +:+ "]").
  set (fuel := (2 * _ + 1)%nat). assert (exists n, fuel = (8 + n)%nat) as [n ->].
  { exists (fuel - 8)%nat. subst fuel tail. rewrite !length_sapp. unfold dumps_str. simpl. lia. }
  change (skip_ws ("[" +:+ (c ::s "") +:+ "," +:+ tail)) with ("["%char ::s c ::s ","%char ::s tail).
  assert (json_value float_repr (8 + n) ("["%char ::s c ::s ","%char ::s tail) = '(l, rest) ← json_items float_repr (6 + n) (skip_ws tail); Some (VList (VInt rank :: l), rest)) as ->.
  { by apply head_item. }
  subst tail. change (dumps_str at_ +:+ "," +:+ dumps_str aid +:+ "]") with (dumps_str at_ +:+ ","%char ::s (dumps_str aid +:+ "]")).
  rewrite skip_ws_dumps. change (6 + n)%nat with (S (S (4 + n))). rewrite items_str by done.
  rewrite skip_ws_dumps. change (dumps_str aid +:+ "]") with (dumps_str aid +:+ "]"%char ::s "").
  change (S (4 + n)) with (S (S (3 + n))). change (Ascii.eqb "," "]") with false. change (Ascii.eqb "," ",") with true. cbv iota.
  by rewrite items_str.
Qed.

Lemma decode_encode rank at_ aid : 0 <= rank <= 2 -> decode_cursor float_repr decode_other (encode_cursor (rank, at_, aid)) = Ok (rank, at_, aid).
Proof.
  intros Hr. unfold decode_cursor, cursor_key, encode_cursor. unfold startswith. rewrite prefix_app. unfold removeprefix_len. rewrite sdrop_app, b64encode_ascii.
  cbn [negb]. rewrite b64_roundtrip. cbn [mbind option_bind]. unfold payload_text.
  assert (forall_chars plain_char (cursor_payload (rank, at_, aid)) = true) as ->.
  { assert (rank = 0 \/ rank = 1 \/ rank = 2) as [->|[->| ->]] by lia; cbn [cursor_payload]; rewrite !forall_chars_app, !dumps_str_plain; reflexivity. }
  cbn [mbind option_bind]. rewrite payload_read by done. cbn [mbind option_bind as_int].
  assert ((0 <=? rank) && (rank <=? 2) = true) as -> by (apply andb_true_iff; split; apply Z.leb_le; lia). done.
Qed.
End Cursor.

(** A key the listing makes: its rank is one of the three sections'. *)
Lemma order_key_rank status at_ aid : 0 <= (order_key status at_ aid).1.1 <= 2.
Proof. cbn [order_key fst]. unfold RANK. repeat case_match; lia. Qed.

(** Every cursor the listing issues is read back as the key of the row it names,
    whatever the texts of the activity and of the id. *)
Theorem cursor_roundtrip float_repr decode_other status at_ aid :
  decode_cursor float_repr decode_other (encode_cursor (order_key status at_ aid)) = Ok (order_key status at_ aid).
Proof. pose proof (order_key_rank status at_ aid). unfold order_key in *. by apply decode_encode. Qed.

(** ** From the first page to the last *)

Lemma lfilter_app {A} (f : A -> bool) l l' : List.filter f (l ++ l') = List.filter f l ++ List.filter f l'.
Proof. apply List.filter_app. Qed.

Section Walk.
Context {T : Type} (float_repr : string -> string) (decode_other : string -> option string).
Abbreviation entry := (order_key_t * T)%type.

(** A client that reads pages until no cursor is given. *)
Fixpoint walk (fuel : nat) (entries : list entry) (cursor : option string) (limit : Z) : res (list (list entry)) :=
  match fuel with
  | O => Raise (RuntimeError "more pages")
  | S fuel =>
      answer <== page float_repr decode_other entries cursor limit;
      match answer with
      | (out, None) => Ok [out]
      | (out, Some next) => pages <== walk fuel entries (Some next) limit; Ok (out :: pages)
      end
  end.

Definition listed_rank (e : entry) : Prop := 0 <= e.1.1.1 <= 2.

Lemma after_app (pre post : list entry) x : SortedBy entry_leb (pre ++ x :: post) -> NoDup (map fst (pre ++ x :: post)) ->
  List.filter (fun e => position_gtb (sort_position e.1) (sort_position x.1)) (pre ++ x :: post) = post.
Proof.
  intros Hs Hn. assert ((forall e, e ∈ pre -> entry_leb e x = true) /\ SortedBy entry_leb (x :: post)) as [Hpre Hpost].
  { clear Hn. induction pre as [|p pre IH]; [split; [set_solver|done]|]. inversion Hs as [|? ? Hp Hs']; subst. apply IH in Hs' as [H1 H2].
    split; [|done]. intros e [->|He]%elem_of_cons; [|by apply H1]. rewrite Forall_forall in Hp. apply Hp. set_solver. }
  inversion Hpost as [|? ? Hx _]; subst. rewrite lfilter_app. cbn [List.filter]. rewrite lfilter_none, lfilter_all, position_gtb_leb.
  - unfold position_leb. by rewrite (proj2 (position_cmp_eq _ _) eq_refl).
  - intros e He. rewrite position_gtb_leb. apply negb_true_iff, not_true_is_false. intros Hle. rewrite Forall_forall in Hx. specialize (Hx _ He).
    assert (e.1 = x.1) as Heq by (apply sort_position_inj; by apply position_leb_antisym).
    rewrite map_app in Hn. apply NoDup_app in Hn as (_ & _ & Hn). apply NoDup_cons in Hn as [Hn _]. apply Hn. rewrite <- Heq.
    apply list_elem_of_fmap. by exists e.
  - intros e He. rewrite position_gtb_leb. apply negb_false_iff. by apply Hpre.
Qed.

(** The page that starts after [pre]. *)
Lemma page_app limit (pre post : list entry) : SortedBy entry_leb (pre ++ post) -> NoDup (map fst (pre ++ post)) -> Forall listed_rank pre ->
  page float_repr decode_other (pre ++ post) ((fun e => encode_cursor e.1) <$> last pre) limit =
  Ok (take (Z.to_nat (Z.max 1 limit)) post, if (Z.to_nat (Z.max 1 limit) <? length post)%nat then (fun e => encode_cursor e.1) <$> last (take (Z.to_nat (Z.max 1 limit)) post) else None).
Proof.
  intros Hs Hn Hr. destruct pre as [|p pre _] using rev_ind; [done|]. rewrite last_snoc. cbn [fmap option_fmap option_map].
  rewrite <- app_assoc in *. cbn [app] in *. unfold page. destruct p as [[[rank at_] aid] v]. cbn [fst].
  apply Forall_app in Hr as [_ Hr]. inversion Hr as [|? ? Hr' _]; subst. pose proof (decode_encode float_repr decode_other rank at_ aid Hr') as Hd.
  destruct (encode_cursor (rank, at_, aid)) as [|c cs] eqn:E; [done|]. rewrite Hd. cbn [rbind].
  pose proof (after_app pre post _ Hs Hn) as Ha. cbn [fst] in Ha. by rewrite Ha.
Qed.

Lemma walk_app limit fuel : forall (pre post : list entry), SortedBy entry_leb (pre ++ post) -> NoDup (map fst (pre ++ post)) -> Forall listed_rank (pre ++ post) ->
  (length post < fuel)%nat ->
  exists pages, walk fuel (pre ++ post) ((fun e => encode_cursor e.1) <$> last pre) limit = Ok pages /\ concat pages = post /\
    Forall (fun out => Z.of_nat (length out) <= Z.max 1 limit) pages.
Proof.
  induction fuel as [|fuel IH]; intros pre post Hs Hn Hr Hf; [lia|]. set (lim := Z.to_nat (Z.max 1 limit)). cbn [walk].
  rewrite page_app by (try done; by apply Forall_app in Hr as [? _]). cbn [rbind]. fold lim.
  assert (Z.of_nat (length (take lim post)) <= Z.max 1 limit) as Hlen by (rewrite length_take; lia).
  destruct (Nat.ltb_spec lim (length post)) as [Hm|Hm].
  - assert (last (take lim post) = last (pre ++ take lim post)) as Hl.
    { rewrite last_app. destruct (last (take lim post)) eqn:E; [done|]. apply last_None in E. destruct post; [simpl in Hm; lia|].
      assert (lim <> 0)%nat by lia. by destruct lim. }
    destruct (last (take lim post)) as [e|] eqn:E; [|by symmetry in Hl; apply last_None, app_nil in Hl as [_ Hl]; destruct post as [|? ?]; [simpl in Hm; lia|]; assert (lim <> 0)%nat by lia; destruct lim].
    cbn [fmap option_fmap option_map]. destruct (IH (pre ++ take lim post) (drop lim post)) as (pages & Hw & Hc & Hall).
    1-3: by rewrite <- app_assoc, take_drop.
    { rewrite length_drop. lia. }
    rewrite <- app_assoc, take_drop, <- Hl in Hw. cbn [fmap option_fmap option_map] in Hw. rewrite Hw. cbn [rbind].
    exists (take lim post :: pages). split; [done|]. cbn [concat]. rewrite Hc, take_drop. split; [done|]. by constructor.
  - exists [take lim post]. split; [done|]. cbn [concat]. rewrite app_nil_r. split; [by rewrite take_ge|]. by constructor.
Qed.

(** C39: Reading a listing of distinct automations from its first page to the one
    that gives no cursor, while it does not change, ends, and serves every row exactly
    once and in the listing's order, whatever the limit, each page within it. *)
Theorem pages_serve_the_listing limit (l : list entry) :
  NoDup (map fst l) -> Forall (fun e => exists status at_ aid, e.1 = order_key status at_ aid) l ->
  exists pages, walk (S (length l)) (ordered l) None limit = Ok pages /\ concat pages = ordered l /\ concat pages ≡ₚ l /\
    Forall (fun out => Z.of_nat (length out) <= Z.max 1 limit) pages.
Proof.
  intros Hn Hk. assert (ordered l ≡ₚ l) as Hp by apply py_sorted_perm.
  destruct (walk_app limit (S (length l)) [] (ordered l)) as (pages & Hw & Hc & Hall).
  - apply ordered_sorted.
  - cbn [app]. by rewrite Hp.
  - cbn [app]. rewrite Hp. eapply Forall_impl; [exact Hk|]. intros e (status & at_ & aid & He). unfold listed_rank. rewrite He. apply order_key_rank.
  - by rewrite Hp; lia.
  - exists pages. split; [exact Hw|]. by rewrite Hc.
Qed.
End Walk.

(** ** A run *)

Definition three_rows : list (order_key_t * nat) :=
  [(order_key "paused" (VStr "2026-10-27") (VStr "a"), 1%nat); (order_key "active" VNone (VStr "b"), 2%nat);
   (order_key "failed" (VStr "2026-10-26") (VStr "c"), 3%nat)].
Lemma pages_serve_the_listing_witness :
  exists pages, walk (fun s => s) (fun _ => None) 4 (ordered three_rows) None 2 = Ok pages /\ concat pages = ordered three_rows /\
    concat pages ≡ₚ three_rows /\ Forall (fun out => Z.of_nat (length out) <= Z.max 1 2) pages.
Proof.
  apply (pages_serve_the_listing (fun s => s) (fun _ => None) 2 three_rows).
  - by apply (bool_decide_unpack _); vm_compute.
  - repeat constructor; repeat eexists.
Defined.
Example three_rows_walk : (map (map snd)) <$> (match walk (fun s => s) (fun _ => None) 4 (ordered three_rows) None 2 with Ok p => Some p | Raise _ => None end) = Some [[3; 2]; [1]]%nat.
Proof. by vm_compute. Qed.
