(* ===== verification/ListMemo.v ===== *)
(** * The shared listing of automations

    [_ListMemo] and [_Flight] of [routes/automations.py]: identical requests share
    one computation, and its answer is kept a few seconds, under a stamp that
    every change of the plane moves. The methods are functions on the memo of one
    plane; the requests that call them are the steps of [step], one per critical
    section, with the writers of the plane between them. A computation is not one
    of those sections: it reads the stores one after the other while writers go on,
    and it takes the ids of its rows from a memory of their index ([_index_rows], up
    to [_INDEX_TTL_S] old) that the memo's drop does not clear. So it begins and ends
    as two steps, and what it answers is the argument [listing] of the versions the
    data went through in between and of whatever else it met, of which nothing is
    assumed; [None] when it raises.

    The world keeps, beside what the code has, the history of the data and what
    each value of a counter stands for: [hist] holds every version, and the n-th
    entry of [acks_bump] (of [acks_gen]) is the newest version whose writer had
    moved the plane's counter (the store's generation) when it first was n. *)

From S2P Require Import Prelude OrdDict.

Section Memo.
Context {K A D C : Type} `{EqDecision K}.
Context (listing : K -> list D -> C -> option A) (ttl_s : Z).

Abbreviation stamp_t := (nat * nat)%type.
(** How a computation ends: an answer, or what it raised. *)
Abbreviation outcome := (option A).

Record memo := mk_memo {
  answers : list (K * (Z * stamp_t * A));
  inflight : list (K * nat);
  flights : list (option outcome);
  computations : Z
}.

Definition cached (now : Z) (key : K) (stamp : stamp_t) (m : memo) : option A :=
  '(at_, hit_stamp, answer) ← oget key (answers m);
  if negb (bool_decide (hit_stamp = stamp)) || (ttl_s <? now - at_) then None else Some answer.

(** The flight of the key, and whether the caller leads it. *)
Definition flight (key : K) (m : memo) : nat * bool * memo :=
  match oget key (inflight m) with
  | Some f => (f, false, m)
  | None =>
      let f := length (flights m) in
      (f, true, mk_memo (answers m) (oset key f (inflight m)) (flights m ++ [None]) (computations m))
  end.

(** [_Flight.finish], as far as its waiters see it. *)
Definition finish (f : nat) (o : outcome) (m : memo) : memo :=
  mk_memo (answers m) (inflight m) (<[f := Some o]> (flights m)) (computations m).
(** [_Flight.wait]: [None] while it blocks. *)
Definition wait (f : nat) (m : memo) : option outcome := mjoin (flights m !! f).

(** The locked part of [land], which [finish] follows. *)
Definition land (now : Z) (key : K) (f : nat) (stamp : stamp_t) (o : outcome) (m : memo) : memo :=
  let inflight' := if bool_decide (oget key (inflight m) = Some f) then opop key (inflight m) else inflight m in
  let answers' := match o with Some a => oset key (now, stamp, a) (answers m) | None => answers m end in
  mk_memo answers' inflight' (flights m) (computations m).

Definition computing (m : memo) : memo := mk_memo (answers m) (inflight m) (flights m) (computations m + 1).
Definition clear (m : memo) : memo := mk_memo [] (inflight m) (flights m) (computations m).

(** ** The plane *)

Record world := mk_world { hist : list D; acks_bump : list nat; acks_gen : list nat }.
Definition bumps (w : world) : nat := pred (length (acks_bump w)).
Definition generation (w : world) : nat := pred (length (acks_gen w)).
Definition acked (l : list nat) : nat := default 0%nat (last l).

(** ** Requests *)

Inductive answered_by := Hit (s : stamp_t) | Led (s : stamp_t) | Joined.
Inductive phase :=
  | Start
  | HalfStamped (b : nat)
  | Stamped (s : stamp_t)
  | Missed (s : stamp_t)
  | Leading (f : nat) (s : stamp_t)
  | Reading (f : nat) (s : stamp_t) (n : nat)
  | Computed (f : nat) (s : stamp_t) (o : outcome)
  | Finishing (f : nat) (s : stamp_t) (o : outcome)
  | Landed (f : nat) (s : stamp_t)
  | Waiting (f : nat)
  | Answered (how : answered_by) (o : outcome).
Record request := mk_request { r_key : K; r_phase : phase }.

(** One critical section of [get] and [_compute]. *)
Inductive request_step (now : Z) (w : world) (m : memo) (key : K) : phase -> phase -> memo -> Prop :=
  | StampLocal : request_step now w m key Start (HalfStamped (bumps w)) m
  | StampGeneration b : request_step now w m key (HalfStamped b) (Stamped (b, generation w)) m
  | CacheHit s a : cached now key s m = Some a -> request_step now w m key (Stamped s) (Answered (Hit s) (Some a)) m
  | CacheMiss s : cached now key s m = None -> request_step now w m key (Stamped s) (Missed s) m
  | Lead s f m' : flight key m = (f, true, m') -> request_step now w m key (Missed s) (Leading f s) m'
  | Join s f m' : flight key m = (f, false, m') -> request_step now w m key (Missed s) (Waiting f) m'
  | Begin f s : request_step now w m key (Leading f s) (Reading f s (pred (length (hist w)))) (computing m)
  | Compute f s n met : request_step now w m key (Reading f s n) (Computed f s (listing key (drop n (hist w)) met)) m
  | Land f s o : request_step now w m key (Computed f s o) (Finishing f s o) (land now key f s o m)
  | Finish f s o : request_step now w m key (Finishing f s o) (Landed f s) (finish f o m)
  | LeaderWait f s o : wait f m = Some o -> request_step now w m key (Landed f s) (Answered (Led s) o) m
  | FollowerWait f o : wait f m = Some o -> request_step now w m key (Waiting f) (Answered Joined o) m.

Record state := mk_state { st_now : Z; st_world : world; st_memo : memo; st_requests : list request }.

Inductive step : state -> state -> Prop :=
  | StepRequest now w m rs i r p m' :
      rs !! i = Some r -> request_step now w m (r_key r) (r_phase r) p m' ->
      step (mk_state now w m rs) (mk_state now w m' (<[i := mk_request (r_key r) p]> rs))
  | StepArrive now w m rs key : step (mk_state now w m rs) (mk_state now w m (rs ++ [mk_request key Start]))
  | StepWrite now w m rs d : step (mk_state now w m rs) (mk_state now (mk_world (hist w ++ [d]) (acks_bump w) (acks_gen w)) m rs)
  (** The writer of version [v] drops the listing, or the store counts its change. *)
  | StepBump now w m rs v : (v < length (hist w))%nat ->
      step (mk_state now w m rs) (mk_state now (mk_world (hist w) (acks_bump w ++ [Nat.max v (acked (acks_bump w))]) (acks_gen w)) m rs)
  | StepGeneration now w m rs v : (v < length (hist w))%nat ->
      step (mk_state now w m rs) (mk_state now (mk_world (hist w) (acks_bump w) (acks_gen w ++ [Nat.max v (acked (acks_gen w))])) m rs)
  | StepClear now w m rs : step (mk_state now w m rs) (mk_state now w (clear m) rs)
  | StepTick now w m rs now' : now <= now' -> step (mk_state now w m rs) (mk_state now' w m rs).

Definition initial (d : D) : state := mk_state 0 (mk_world [d] [0%nat] [0%nat]) (mk_memo [] [] [] 0) [].
Definition reachable (d : D) : state -> Prop := rtc step (initial d).
End Memo.
