(* ===== verification/ListMemoFacts.v ===== *)
(** * The shared listing of automations: lemmas

    The invariant of the memo and its requests, and what a request is told. *)

From S2P Require Import Prelude OrdDict ListMemo.

Section Facts.
Context {K A D C : Type} `{EqDecision K} {C_met : Inhabited C}.
Context (listing : K -> list D -> C -> option A) (ttl_s : Z).
Abbreviation memo := (@memo K A).
Abbreviation world := (@world D).
Abbreviation phase := (@phase A).
Abbreviation request := (@request K A).
Abbreviation request_step := (@request_step K A D C _ listing ttl_s).
Abbreviation step := (@step K A D C _ listing ttl_s).
Abbreviation state := (@state K A D).

(** ** What an answer stands for *)

Definition covers (w : world) (s : nat * nat) (n : nat) : Prop :=
  (exists x, acks_bump w !! s.1 = Some x /\ x <= n)%nat /\ (exists y, acks_gen w !! s.2 = Some y /\ y <= n)%nat.
(** What a computation of the key answers that began at version [n]: it met the
    versions [ds] from there on. *)
Definition computed (w : world) (key : K) (n : nat) (o : option A) : Prop :=
  exists ds met, ds `prefix_of` drop n (hist w) /\ ds <> [] /\ listing key ds met = o.
(** An outcome of a computation that began at a version that covers the stamp. *)
Definition valid (w : world) (key : K) (o : option A) (s : nat * nat) : Prop :=
  exists n, computed w key n o /\ covers w s n.
Definition stamped (w : world) (s : nat * nat) : Prop := is_Some (acks_bump w !! s.1) /\ is_Some (acks_gen w !! s.2).

Definition lead_of (p : phase) : option nat :=
  match p with Leading f _ | Reading f _ _ | Computed f _ _ | Finishing f _ _ => Some f | _ => None end.
Definition holds (p : phase) : option nat :=
  match p with Leading f _ | Reading f _ _ | Computed f _ _ => Some f | _ => None end.
Lemma holds_lead p f : holds p = Some f -> lead_of p = Some f.
Proof. by destruct p. Qed.

Definition phase_ok (w : world) (m : memo) (rs : list request) (key : K) (p : phase) : Prop :=
  match p with
  | Start => True
  | HalfStamped b => is_Some (acks_bump w !! b)
  | Stamped s | Missed s | Leading _ s => stamped w s
  | Reading _ s n => (n < length (hist w))%nat /\ covers w s n
  | Computed _ s o | Finishing _ s o => valid w key o s
  | Landed f s => exists o, flights m !! f = Some (Some o) /\ valid w key o s
  | Waiting f =>
      (exists o s, flights m !! f = Some (Some o) /\ valid w key o s) \/
      (flights m !! f = Some None /\ exists j r, rs !! j = Some r /\ r_key r = key /\ lead_of (r_phase r) = Some f)
  | Answered (Hit s) o | Answered (Led s) o => valid w key o s
  | Answered Joined o => exists s, valid w key o s
  end.

Record world_ok (w : world) : Prop := {
  wo_hist : hist w <> [];
  wo_bump : acks_bump w <> [];
  wo_gen : acks_gen w <> [];
  wo_known : forall x, x ∈ acks_bump w \/ x ∈ acks_gen w -> (x < length (hist w))%nat
}.
Record memo_ok (w : world) (m : memo) (rs : list request) : Prop := {
  mo_answers : forall key at_ s a, (key, (at_, s, a)) ∈ answers m -> valid w key (Some a) s;
  mo_flight : forall i r f, rs !! i = Some r -> lead_of (r_phase r) = Some f -> flights m !! f = Some None;
  mo_unique : forall i j r r' f, rs !! i = Some r -> rs !! j = Some r' -> lead_of (r_phase r) = Some f -> lead_of (r_phase r') = Some f -> i = j;
  mo_held : forall i r f, rs !! i = Some r -> holds (r_phase r) = Some f -> oget (r_key r) (inflight m) = Some f;
  mo_inflight : forall key f, oget key (inflight m) = Some f -> exists i r, rs !! i = Some r /\ r_key r = key /\ holds (r_phase r) = Some f;
  mo_phases : forall i r, rs !! i = Some r -> phase_ok w m rs (r_key r) (r_phase r)
}.
Definition state_ok (st : state) : Prop := world_ok (st_world st) /\ memo_ok (st_world st) (st_memo st) (st_requests st).

(** ** The world only grows *)

Record grows (w w' : world) : Prop := {
  g_hist : hist w `prefix_of` hist w';
  g_bump : acks_bump w `prefix_of` acks_bump w';
  g_gen : acks_gen w `prefix_of` acks_gen w'
}.
#[local] Instance grows_po : PreOrder grows.
Proof. split; [by split|]. intros w1 w2 w3 [H1 H2 H3] [H1' H2' H3']. split; by etrans. Qed.
Lemma covers_grows w w' s n : grows w w' -> covers w s n -> covers w' s n.
Proof. intros [_ Hb Hg] [(x & Hx & Hn) (y & Hy & Hm)]. split; [exists x|exists y]; split; try done; by eapply prefix_lookup_Some. Qed.
Lemma computed_grows w w' key n o : grows w w' -> computed w key n o -> computed w' key n o.
Proof.
  intros [[l Hl] _ _] (ds & met & Hp & Hd). exists ds, met. split; [|done]. etrans; [exact Hp|]. rewrite Hl, drop_app. by apply prefix_app_r.
Qed.
Lemma valid_grows w w' key o s : grows w w' -> valid w key o s -> valid w' key o s.
Proof. intros Hg (n & Ho & Hc). exists n. split; [by eapply computed_grows|by eapply covers_grows]. Qed.
Lemma stamped_grows w w' s : grows w w' -> stamped w s -> stamped w' s.
Proof. intros [_ Hb Hg] [[x Hx] [y Hy]]. split; eexists; by eapply prefix_lookup_Some. Qed.
Lemma phase_ok_grows w w' m rs key p : grows w w' -> phase_ok w m rs key p -> phase_ok w' m rs key p.
Proof.
  intros Hg. destruct p as [|b|s|s|f s|f s n|f s o|f s o|f s|f|[s|s|] o]; simpl; eauto using stamped_grows, valid_grows.
  - intros [x Hx]. eexists. by eapply prefix_lookup_Some; [|apply Hg].
  - intros [Hn Hc]. split; [|by eapply covers_grows]. destruct Hg as [[l ->] _ _]. rewrite length_app. lia.
  - intros (o & Ho & H). eauto using valid_grows.
  - intros [(o & s & Ho & H)|H]; [left; eauto 6 using valid_grows|by right].
  - intros (s & H). eauto using valid_grows.
Qed.
Lemma memo_ok_grows w w' m rs : grows w w' -> memo_ok w m rs -> memo_ok w' m rs.
Proof. intros Hg [Ha Hf Hu Hh Hi Hp]. split; eauto using valid_grows, phase_ok_grows. Qed.

(** ** Requests keep the invariant *)

Definition led (rs : list request) (key : K) (f : nat) : Prop := exists j r, rs !! j = Some r /\ r_key r = key /\ lead_of (r_phase r) = Some f.

Lemma phase_ok_frame w m m' rs rs' key p :
  (forall f o, flights m !! f = Some (Some o) -> flights m' !! f = Some (Some o)) ->
  (forall f, flights m !! f = Some None -> led rs key f ->
    flights m' !! f = Some None /\ led rs' key f \/ exists o s, flights m' !! f = Some (Some o) /\ valid w key o s) ->
  phase_ok w m rs key p -> phase_ok w m' rs' key p.
Proof.
  intros Hd Hw. destruct p as [|b|s|s|f s|f s n|f s o|f s o|f s|f|how o]; simpl; auto.
  - intros (o & Ho & H). eauto.
  - intros [(o & s & Ho & H)|[Hn H]]; [left; eauto|]. destruct (Hw f Hn H) as [[? ?]|?]; [by right|by left].
Qed.
Lemma insert_lookup (rs : list request) i x j y : <[i := x]> rs !! j = Some y -> j = i /\ y = x \/ j <> i /\ rs !! j = Some y.
Proof. intros H%list_lookup_insert_Some. naive_solver. Qed.
Lemma led_insert rs i r p key f : rs !! i = Some r -> lead_of p = lead_of (r_phase r) -> led rs key f -> led (<[i := mk_request (r_key r) p]> rs) key f.
Proof.
  intros Hi Hp (j & r' & Hj & Hk & Hf). destruct (decide (j = i)) as [->|Hne].
  - exists i, (mk_request (r_key r) p). rewrite Hi in Hj. injection Hj as <-. split; [apply list_lookup_insert_eq; by eapply lookup_lt_Some|]. split; [done|]. cbn [r_phase]. congruence.
  - exists j, r'. split; [by rewrite list_lookup_insert_ne|done].
Qed.

(** A step that changes no flight and no role. *)
Lemma quiet_step w m m' rs i r p : memo_ok w m rs -> rs !! i = Some r ->
  answers m' = answers m -> inflight m' = inflight m -> flights m' = flights m ->
  lead_of p = lead_of (r_phase r) -> holds p = holds (r_phase r) ->
  phase_ok w m rs (r_key r) p -> memo_ok w m' (<[i := mk_request (r_key r) p]> rs).
Proof.
  intros [Ha Hf Hu Hh Hi Hp] Hr E1 E2 E3 L1 L2 Hok. split; rewrite ?E1, ?E2, ?E3.
  - done.
  - intros j r' f [[-> ->]|[_ Hj]]%insert_lookup; [|eauto]. cbn [r_phase]. rewrite L1. eauto.
  - intros j j' r1 r2 f [[-> ->]|[Hn Hj]]%insert_lookup [[-> ->]|[Hn' Hj']]%insert_lookup; cbn [r_phase]; rewrite ?L1; eauto.
  - intros j r' f [[-> ->]|[_ Hj]]%insert_lookup; [|eauto]. cbn [r_phase r_key]. rewrite L2. eauto.
  - intros key f H. destruct (Hi key f H) as (j & r' & Hj & Hk & Hl). destruct (decide (j = i)) as [->|Hne].
    + exists i, (mk_request (r_key r) p). rewrite Hr in Hj. injection Hj as <-. split; [apply list_lookup_insert_eq; by eapply lookup_lt_Some|].
      split; [done|]. cbn [r_phase]. congruence.
    + exists j, r'. by rewrite list_lookup_insert_ne.
  - intros j r' Hj. apply (phase_ok_frame w m m' rs); [by intros; rewrite E3|intros f H1 H2; left; rewrite E3; eauto using led_insert|].
    apply insert_lookup in Hj as [[-> ->]|[_ Hj]]; eauto.
Qed.

Lemma acked_last (l : list nat) : l <> [] -> l !! pred (length l) = Some (acked l).
Proof. intros Hl. unfold acked. rewrite <- last_lookup. destruct (last l) eqn:E; [done|]. by apply last_None in E. Qed.
(** The newest version covers every stamp so far. *)
Lemma newest_covers w s : world_ok w -> stamped w s -> (pred (length (hist w)) < length (hist w))%nat /\ covers w s (pred (length (hist w))).
Proof.
  intros [Hh Hb Hg Hk] [[x Hx] [y Hy]]. split; [by destruct (hist w); [|simpl; lia]|].
  split; [exists x|exists y]; (split; [done|]); [assert (x < length (hist w))%nat by (apply Hk; left; by eapply list_elem_of_lookup_2)|assert (y < length (hist w))%nat by (apply Hk; right; by eapply list_elem_of_lookup_2)]; lia.
Qed.

Lemma cached_valid now w m rs key s a : memo_ok w m rs -> cached ttl_s now key s m = Some a -> valid w key (Some a) s.
Proof.
  intros Hm H. unfold cached in H. apply bind_Some in H as ([[at_ s'] a'] & Hg & H). destruct (negb _ || _) eqn:E; [done|]. injection H as ->.
  apply orb_false_iff in E as [E _]. bool_to_prop. subst s'. eapply (mo_answers w m rs Hm). by apply oget_Some_elem.
Qed.

(** What a computation that ends now has read. *)
Lemma read_valid w key s n met : (n < length (hist w))%nat -> covers w s n -> valid w key (listing key (drop n (hist w)) met) s.
Proof.
  intros Hn Hc. exists n. split; [|done]. exists (drop n (hist w)), met. split_and!; [done| |done]. intros E. apply (f_equal length) in E. rewrite length_drop in E. simpl in E. lia.
Qed.

(** The start of a flight. *)
Lemma lead_step w m rs i r s f m' : memo_ok w m rs -> rs !! i = Some r -> r_phase r = Missed s -> flight (r_key r) m = (f, true, m') ->
  memo_ok w m' (<[i := mk_request (r_key r) (Leading f s)]> rs).
Proof.
  intros [Ha Hf Hu Hh Hi Hp] Hr Hph H. unfold flight in H. destruct (oget (r_key r) (inflight m)) eqn:E; [done|]. injection H as <- <-.
  assert (forall j r' f', rs !! j = Some r' -> lead_of (r_phase r') = Some f' -> (f' < length (flights m))%nat) as Hlt by (intros; eapply lookup_lt_Some; eauto).
  assert (i < length rs)%nat as Hlen by by eapply lookup_lt_Some.
  assert (forall f' o, flights m !! f' = Some o -> (flights m ++ [None]) !! f' = Some o) as Hk by (intros f' o H'; by apply lookup_app_l_Some).
  split; cbn [answers inflight flights].
  - done.
  - intros j r' f [[-> ->]|[_ Hj]]%insert_lookup; cbn [r_phase lead_of]; [intros [= <-]; by apply list_lookup_middle|eauto].
  - intros j j' r1 r2 f [[-> ->]|[Hn Hj]]%insert_lookup [[-> ->]|[Hn' Hj']]%insert_lookup; cbn [r_phase lead_of]; [done| | |eauto].
    + intros [= <-] H. specialize (Hlt _ _ _ Hj' H). lia.
    + intros H [= <-]. specialize (Hlt _ _ _ Hj H). lia.
  - intros j r' f [[-> ->]|[_ Hj]]%insert_lookup; cbn [r_phase r_key holds]; [intros [= <-]; apply oget_oset_eq|].
    intros H. specialize (Hh _ _ _ Hj H). rewrite oget_oset. case_decide as Hd; [congruence|done].
  - intros key f. rewrite oget_oset. case_decide as Hd; [intros [= <-]; subst key; exists i; eexists; split; [by apply list_lookup_insert_eq|done]|].
    intros H. destruct (Hi key f H) as (j & r' & Hj & Hkey & Hl). exists j, r'. split; [|done]. rewrite list_lookup_insert_ne; [done|]. intros ->. congruence.
  - intros j r' Hj. apply (phase_ok_frame w m _ rs); cbn [flights]; [auto| |].
    + intros f H1 (j' & r1 & Hj' & Hkey & Hl). left. split; [auto|]. exists j', r1. split; [|done]. rewrite list_lookup_insert_ne; [done|]. intros ->.
      rewrite Hr in Hj'. injection Hj' as ->. by rewrite Hph in Hl.
    + apply insert_lookup in Hj as [[-> ->]|[_ Hj]]; [|eauto]. specialize (Hp _ _ Hr). rewrite Hph in Hp. exact Hp.
Qed.

(** The locked part of the landing. *)
Lemma land_step now w m rs i r f s o : memo_ok w m rs -> rs !! i = Some r -> r_phase r = Computed f s o ->
  memo_ok w (land now (r_key r) f s o m) (<[i := mk_request (r_key r) (Finishing f s o)]> rs).
Proof.
  intros [Ha Hf Hu Hh Hi Hp] Hr Hph. pose proof (Hp _ _ Hr) as Hv. rewrite Hph in Hv. cbn [phase_ok] in Hv.
  assert (oget (r_key r) (inflight m) = Some f) as Hin by (apply (Hh i r); [done|by rewrite Hph]).
  assert (lead_of (r_phase r) = Some f) as Hl by by rewrite Hph.
  assert (lead_of (Finishing f s o) = lead_of (r_phase r)) as Hl' by by rewrite Hph.
  unfold land. rewrite bool_decide_eq_true_2 by done. split; cbn [answers inflight flights].
  - intros key at_ s' a. destruct o as [a0|]; [|apply Ha]. intros [[= -> -> -> ->]|H]%elem_of_oset; [exact Hv|eauto].
  - intros j r' f' [[-> ->]|[_ Hj]]%insert_lookup; [|eauto]. cbn [r_phase lead_of]. intros [= <-]. eauto.
  - intros j j' r1 r2 f' [[-> ->]|[Hn Hj]]%insert_lookup [[-> ->]|[Hn' Hj']]%insert_lookup; cbn [r_phase]; rewrite ?Hl'; eauto.
  - intros j r' f' [[-> ->]|[Hne Hj]]%insert_lookup; [done|]. intros H. specialize (Hh _ _ _ Hj H). rewrite oget_opop. case_decide as Hd; [|done].
    destruct Hne. apply (Hu j i r' r f); [done|done| |done]. apply holds_lead. congruence.
  - intros key f'. rewrite oget_opop. case_decide as Hd; [done|]. intros H. destruct (Hi key f' H) as (j & r' & Hj & Hkey & Hho).
    exists j, r'. split; [|done]. rewrite list_lookup_insert_ne; [done|]. intros ->. congruence.
  - intros j r' Hj. apply (phase_ok_frame w m _ rs); cbn [flights]; [auto|intros f' H1 H2; left; eauto using led_insert|].
    apply insert_lookup in Hj as [[-> ->]|[_ Hj]]; [exact Hv|eauto].
Qed.

(** The end of a flight. *)
Lemma finish_step w m rs i r f s o : memo_ok w m rs -> rs !! i = Some r -> r_phase r = Finishing f s o ->
  memo_ok w (finish f o m) (<[i := mk_request (r_key r) (Landed f s)]> rs).
Proof.
  intros [Ha Hf Hu Hh Hi Hp] Hr Hph. pose proof (Hp _ _ Hr) as Hv. rewrite Hph in Hv. cbn [phase_ok] in Hv.
  assert (lead_of (r_phase r) = Some f) as Hl by by rewrite Hph. pose proof (Hf _ _ _ Hr Hl) as Hn.
  assert (<[f:=Some o]> (flights m) !! f = Some (Some o)) as Hnew by (apply list_lookup_insert_eq; by eapply lookup_lt_Some).
  split; cbn [finish answers inflight flights].
  - done.
  - intros j r' f' [[-> ->]|[Hne Hj]]%insert_lookup; [done|]. intros H. rewrite list_lookup_insert_ne; [eauto|]. intros <-. destruct Hne. eauto.
  - intros j j' r1 r2 f' [[-> ->]|[? Hj]]%insert_lookup [[-> ->]|[? Hj']]%insert_lookup; cbn [r_phase lead_of]; try done; eauto.
  - intros j r' f' [[-> ->]|[_ Hj]]%insert_lookup; [done|eauto].
  - intros key f' H. destruct (Hi key f' H) as (j & r' & Hj & Hkey & Hho). exists j, r'. split; [|done]. rewrite list_lookup_insert_ne; [done|].
    intros ->. rewrite Hr in Hj. injection Hj as ->. by rewrite Hph in Hho.
  - intros j r' [[-> ->]|[_ Hj]]%insert_lookup; [by exists o|]. apply (phase_ok_frame w m _ rs); cbn [finish flights]; [| |eauto].
    + intros f' o' H. rewrite list_lookup_insert_ne; [done|]. intros <-. congruence.
    + intros f' H1 (j' & r1 & Hj' & Hkey & Hl1). destruct (decide (f' = f)) as [->|Hne].
      * right. assert (j' = i) as -> by eauto. rewrite Hr in Hj'. injection Hj' as <-. exists o, s. by rewrite <- Hkey.
      * left. rewrite list_lookup_insert_ne by done. split; [done|]. exists j', r1. split; [|done]. rewrite list_lookup_insert_ne; [done|]. intros ->. congruence.
Qed.

Lemma request_keeps now w m rs i r p m' : world_ok w -> memo_ok w m rs -> rs !! i = Some r ->
  request_step now w m (r_key r) (r_phase r) p m' -> memo_ok w m' (<[i := mk_request (r_key r) p]> rs).
Proof.
  intros Hw Hm Hr H. pose proof (mo_phases w m rs Hm _ _ Hr) as Hp. destruct r as [key ph]. cbn [r_key r_phase] in *.
  destruct H as [|b|s a Hc|s|s f m' Hf|s f m' Hf|f s|f s n met|f s o|f s o|f s o Ho|f o Ho]; cbn [phase_ok] in Hp.
  - eapply (quiet_step w m m rs i (mk_request key Start)); try done. cbn. eexists. apply acked_last, wo_bump, Hw.
  - eapply (quiet_step w m m rs i (mk_request key (HalfStamped b))); try done. split; [done|]. eexists. apply acked_last, wo_gen, Hw.
  - eapply (quiet_step w m m rs i (mk_request key (Stamped s))); try done. by eapply cached_valid.
  - by eapply (quiet_step w m m rs i (mk_request key (Stamped s))).
  - by eapply (lead_step w m rs i (mk_request key (Missed s))).
  - unfold flight in Hf. destruct (oget key (inflight m)) as [f'|] eqn:E; [|done]. injection Hf as -> <-.
    eapply (quiet_step w m m rs i (mk_request key (Missed s))); try done. right.
    destruct (mo_inflight w m rs Hm key f E) as (j & r' & Hj & Hk & Hl). split; [eapply (mo_flight w m rs Hm); [done|by apply holds_lead]|].
    exists j, r'. split; [done|]. split; [done|]. by apply holds_lead.
  - eapply (quiet_step w m _ rs i (mk_request key (Leading f s))); try done. by apply newest_covers.
  - destruct Hp as [Hn Hc]. eapply (quiet_step w m m rs i (mk_request key (Reading f s n))); try done. by apply read_valid.
  - by apply (land_step now w m rs i (mk_request key (Computed f s o))).
  - by apply (finish_step w m rs i (mk_request key (Finishing f s o))).
  - eapply (quiet_step w m m rs i (mk_request key (Landed f s))); try done. destruct Hp as (o' & Ho' & Hv). unfold wait in Ho. rewrite Ho' in Ho. simpl in Ho. by injection Ho as <-.
  - eapply (quiet_step w m m rs i (mk_request key (Waiting f))); try done. unfold wait in Ho.
    destruct Hp as [(o' & s & Ho' & Hv)|[Ho' _]]; rewrite Ho' in Ho; [|done]. simpl in Ho. injection Ho as <-. by exists s.
Qed.

Lemma write_grows w d : grows w (mk_world (hist w ++ [d]) (acks_bump w) (acks_gen w)).
Proof. split; simpl; try done. by apply prefix_app_r. Qed.
Lemma bump_grows w x : grows w (mk_world (hist w) (acks_bump w ++ [x]) (acks_gen w)).
Proof. split; simpl; try done. by apply prefix_app_r. Qed.
Lemma generation_grows w x : grows w (mk_world (hist w) (acks_bump w) (acks_gen w ++ [x])).
Proof. split; simpl; try done. by apply prefix_app_r. Qed.
Lemma acked_in l : l <> [] -> acked l ∈ l.
Proof. intros Hl. eapply list_elem_of_lookup_2. by apply acked_last. Qed.

Lemma step_ok st st' : step st st' -> state_ok st -> state_ok st'.
Proof.
  intros H [Hw Hm]. destruct H as [now w m rs i r p m' Hi Hs|now w m rs key|now w m rs d|now w m rs v Hv|now w m rs v Hv|now w m rs|now w m rs now']; cbn [st_world st_memo st_requests] in *; (split; cbn [st_world st_memo st_requests]); try done.
  - by eapply request_keeps.
  - assert (forall j r, (rs ++ [mk_request key Start]) !! j = Some r -> rs !! j = Some r \/ j = length rs /\ r = mk_request key Start) as Hl.
    { intros j r [Hj|[Hj Hs]]%lookup_app_Some; [by left|]. right. apply list_lookup_singleton_Some in Hs as [? <-]. split; [lia|done]. }
    destruct Hm as [Ha Hf Hu Hh Hi Hp]. split; [done| | | | |].
    + intros j r f [Hj|[-> ->]]%Hl; [eauto|done].
    + intros j j' r r' f [Hj|[-> ->]]%Hl [Hj'|[-> ->]]%Hl; [eauto|done|done|done].
    + intros j r f [Hj|[-> ->]]%Hl; [eauto|done].
    + intros k f Hkf. destruct (Hi k f Hkf) as (j & r & Hj & H). exists j, r. split; [by apply lookup_app_l_Some|done].
    + intros j r [Hj|[-> ->]]%Hl; [|done]. apply (phase_ok_frame w m m rs); [auto| |by eauto].
      intros f H1 (j' & r' & Hj' & Hk' & H). left. split; [done|]. exists j', r'. split; [by apply lookup_app_l_Some|done].
  - destruct Hw as [Hh Hb Hg Hk]. split; simpl; [by destruct (hist w)|done|done|]. intros x Hx. rewrite length_app. specialize (Hk x Hx). simpl. lia.
  - by eapply memo_ok_grows; [apply write_grows|].
  - destruct Hw as [Hh Hb Hg Hk]. split; simpl; [done|by destruct (acks_bump w)|done|]. intros x [[Hx|Hx%list_elem_of_singleton]%elem_of_app|Hx]; [auto| |auto].
    subst x. pose proof (Hk _ (or_introl (acked_in _ Hb))). lia.
  - by eapply memo_ok_grows; [apply bump_grows|].
  - destruct Hw as [Hh Hb Hg Hk]. split; simpl; [done|done|by destruct (acks_gen w)|]. intros x [Hx|[Hx|Hx%list_elem_of_singleton]%elem_of_app]; [auto|auto|].
    subst x. pose proof (Hk _ (or_intror (acked_in _ Hg))). lia.
  - by eapply memo_ok_grows; [apply generation_grows|].
  - destruct Hm as [Ha Hf Hu Hh Hi Hp]. split; cbn [clear answers inflight flights]; try done. intros k at_ s a H. by apply elem_of_nil in H.
Qed.
Lemma reachable_ok d st : reachable listing ttl_s d st -> state_ok st.
Proof.
  intros H. apply (rtc_preserves step state_ok (initial d) st); [intros; by eapply step_ok| |exact H]. split.
  - split; simpl; try done. intros x Hx. assert (x = 0%nat) as -> by set_solver. lia.
  - split; simpl; try done. intros k at_ s a H'. by apply elem_of_nil in H'.
Qed.

(** ** Property: reads see the writes before them *)

(** What a request that began after version [v] was acknowledged knows of [v]. *)
Definition knows (w : world) (v : nat) (s : nat * nat) : Prop :=
  (exists x, acks_bump w !! s.1 = Some x /\ v <= x)%nat \/ (exists y, acks_gen w !! s.2 = Some y /\ v <= y)%nat.
Definition phase_knows (w : world) (v : nat) (p : phase) : Prop :=
  match p with
  | Start => True
  | HalfStamped b => (exists x, acks_bump w !! b = Some x /\ v <= x)%nat \/ (v <= acked (acks_gen w))%nat
  | Stamped s | Missed s | Leading _ s | Reading _ s _ | Computed _ s _ | Finishing _ s _ | Landed _ s => knows w v s
  | Answered (Hit s) _ | Answered (Led s) _ => knows w v s
  | Waiting _ | Answered Joined _ => True
  end.
Definition acknowledged (w : world) (v : nat) : Prop := (v <= acked (acks_bump w))%nat \/ (v <= acked (acks_gen w))%nat.

Lemma knows_grows w w' v s : grows w w' -> knows w v s -> knows w' v s.
Proof. intros [_ Hb Hg] [(x & Hx & H)|(x & Hx & H)]; [left|right]; exists x; (split; [|done]); by eapply prefix_lookup_Some. Qed.
Lemma phase_knows_grows w w' v p : grows w w' -> (acked (acks_gen w) <= acked (acks_gen w'))%nat -> phase_knows w v p -> phase_knows w' v p.
Proof.
  intros Hg Ha. destruct p as [|b|s|s|f s|f s n|f s o|f s o|f s|f|[s|s|] o]; simpl; eauto using knows_grows.
  intros [(x & Hx & H)|H]; [left|right; lia]. exists x. split; [|done]. eapply prefix_lookup_Some; [done|apply Hg].
Qed.
Lemma request_knows now w m key p p' m' v : world_ok w -> acknowledged w v -> phase_knows w v p -> request_step now w m key p p' m' -> phase_knows w v p'.
Proof.
  intros [_ Hb Hg _] Ha Hp H. destruct H; simpl in *; auto.
  - destruct Ha as [Ha|Ha]; [left; exists (acked (acks_bump w)); split; [by apply acked_last|done]|by right].
  - destruct Hp as [?|Hp]; [by left|right]. exists (acked (acks_gen w)). split; [by apply acked_last|done].
Qed.

Definition run_knows (v i : nat) (st : state) : Prop :=
  state_ok st /\ acknowledged (st_world st) v /\ forall r, st_requests st !! i = Some r -> phase_knows (st_world st) v (r_phase r).
Lemma step_knows v i st st' : step st st' -> run_knows v i st -> run_knows v i st'.
Proof.
  intros H (Hok & Ha & Hp). split; [by eapply step_ok|]. destruct Hok as [Hw Hm].
  destruct H as [now w m rs j r p m' Hj Hs|now w m rs key|now w m rs d|now w m rs x Hx|now w m rs x Hx|now w m rs|now w m rs now']; cbn [st_world st_requests st_memo] in *; (split; [|intros r0 Hr]); try done; eauto.
  - apply insert_lookup in Hr as [[-> ->]|[_ Hr]]; [|eauto]. eapply request_knows; eauto.
  - apply lookup_app_Some in Hr as [Hr|[_ Hr]]; [eauto|]. by apply list_lookup_singleton_Some in Hr as [_ <-].
  - unfold acknowledged, acked in *. simpl. rewrite last_snoc. simpl. lia.
  - by eapply phase_knows_grows; [apply bump_grows| |eauto].
  - unfold acknowledged, acked in *. simpl. rewrite last_snoc. simpl. lia.
  - eapply phase_knows_grows; [apply generation_grows| |eauto]. unfold acked. simpl. rewrite last_snoc. simpl. lia.
Qed.

(** C37: Once a writer of the plane has dropped the listing (or the store has counted
    its change), every later request that is answered from the cache or computes
    the listing itself is told what a computation answers that began when the data
    held the write: an answer begun before is never served again, however requests,
    computations and writers interleave. What the computation makes of the
    versions it meets, and of the memories it consults ([_index_rows]: the ids of
    the rows, up to [_INDEX_TTL_S] old), is not claimed. *)
Theorem reads_see_earlier_writes d st1 st2 v i key how o :
  reachable listing ttl_s d st1 -> acknowledged (st_world st1) v ->
  (forall r, st_requests st1 !! i = Some r -> r_phase r = Start) ->
  rtc step st1 st2 -> st_requests st2 !! i = Some (mk_request key (Answered how o)) -> how <> Joined ->
  exists n ds met, (v <= n)%nat /\ ds `prefix_of` drop n (hist (st_world st2)) /\ ds <> [] /\ listing key ds met = o.
Proof.
  intros Hr Ha Hs H Hi Hj. assert (run_knows v i st2) as ([_ Hm] & _ & Hk).
  { eapply (rtc_preserves step (run_knows v i)); [intros; by eapply step_knows| |exact H]. split; [by eapply reachable_ok|]. split; [done|].
    intros r Hri. by rewrite (Hs r Hri). }
  specialize (Hk _ Hi). pose proof (mo_phases _ _ _ Hm _ _ Hi) as Hp. cbn [r_key r_phase] in *.
  assert (exists s, valid (st_world st2) key o s /\ knows (st_world st2) v s) as (s & (n & (ds & met & Hn) & Hx & Hy) & Hkn) by (destruct how as [s|s|]; [by exists s|by exists s|done]).
  exists n, ds, met. split; [|done]. destruct Hx as (x & Hx & ?), Hy as (y & Hy & ?), Hkn as [(z & Hz & ?)|(z & Hz & ?)]; [rewrite Hx in Hz|rewrite Hy in Hz]; injection Hz as ->; lia.
Qed.

(** ** Property: one computation at a time *)

(** In every reachable state at most one request computes the listing of a key. *)
Theorem single_flight d st i j r r' : reachable listing ttl_s d st ->
  st_requests st !! i = Some r -> st_requests st !! j = Some r' -> r_key r = r_key r' ->
  is_Some (holds (r_phase r)) -> is_Some (holds (r_phase r')) -> i = j.
Proof.
  intros [_ Hm]%reachable_ok Hi Hj Hk [f Hf] [f' Hf']. pose proof (mo_held _ _ _ Hm _ _ _ Hi Hf) as E. pose proof (mo_held _ _ _ Hm _ _ _ Hj Hf') as E'.
  rewrite Hk, E' in E. injection E as ->. eapply (mo_unique _ _ _ Hm); eauto using holds_lead.
Qed.

(** ** Property: every request is answered *)

Definition left_of (p : phase) : nat :=
  match p with Start => 9 | HalfStamped _ => 8 | Stamped _ => 7 | Missed _ => 6 | Leading _ _ => 5 | Reading _ _ _ => 4 | Computed _ _ _ => 3 | Finishing _ _ _ => 2 | Landed _ _ | Waiting _ => 1 | Answered _ _ => 0 end.
Definition work (st : state) : nat := list_sum (map (fun r => left_of (r_phase r)) (st_requests st)).
(** The requests go on by themselves. *)
Inductive served : state -> state -> Prop :=
  | Served now w m rs i r p m' : rs !! i = Some r -> request_step now w m (r_key r) (r_phase r) p m' ->
      served (mk_state now w m rs) (mk_state now w m' (<[i := mk_request (r_key r) p]> rs)).

Lemma request_step_less now w m key p p' m' : request_step now w m key p p' m' -> (left_of p' < left_of p)%nat.
Proof. destruct 1; simpl; lia. Qed.
Lemma sum_insert (g : request -> nat) rs i r r' : rs !! i = Some r -> (list_sum (map g (<[i := r']> rs)) + g r = list_sum (map g rs) + g r')%nat.
Proof. revert i. induction rs as [|x rs IH]; intros [|i] H; simpl in *; [done|done|injection H as ->; lia|]. specialize (IH i H). lia. Qed.
Lemma served_less st st' : served st st' -> (work st' < work st)%nat.
Proof.
  destruct 1 as [now w m rs i r p m' Hi Hs]. unfold work. cbn [st_requests]. pose proof (sum_insert (fun r => left_of (r_phase r)) rs i r (mk_request (r_key r) p) Hi) as H.
  cbn [r_phase] in H. apply request_step_less in Hs. lia.
Qed.
Lemma served_ok st st' : served st st' -> state_ok st -> state_ok st'.
Proof. intros H. apply step_ok. destruct H. by econstructor. Qed.

(** A request that is not answered can go on, or waits for one that can. *)
Lemma can_go_on w m rs now i r : world_ok w -> memo_ok w m rs -> rs !! i = Some r -> left_of (r_phase r) <> 0%nat ->
  exists st', served (mk_state now w m rs) st'.
Proof.
  intros Hw Hm Hi Hn. pose proof (mo_phases w m rs Hm _ _ Hi) as Hp. destruct r as [key p]. cbn [r_phase r_key] in *.
  assert (forall j key' q q' m', rs !! j = Some (mk_request key' q) -> request_step now w m key' q q' m' -> exists st', served (mk_state now w m rs) st') as Hgo
    by (intros j key' q q' m' Hj Hs; eexists; by eapply (Served now w m rs j (mk_request key' q))).
  assert (forall j key' q f, rs !! j = Some (mk_request key' q) -> lead_of q = Some f -> exists st', served (mk_state now w m rs) st') as Hlead.
  { intros j key' q f Hj Hl. destruct q as [|b|s|s|f' s|f' s n|f' s o|f' s o|f' s|f'|how o]; try done.
    - by eapply Hgo, Begin.
    - by eapply Hgo, (Compute _ _ _ _ _ _ _ _ _ inhabitant).
    - by eapply Hgo, Land.
    - by eapply Hgo, Finish. }
  destruct p as [|b|s|s|f s|f s n|f s o|f s o|f s|f|how o]; simpl in Hp; eauto.
  - by eapply Hgo, StampLocal.
  - by eapply Hgo, StampGeneration.
  - destruct (cached ttl_s now key s m) as [a|] eqn:E; [by eapply Hgo, CacheHit|by eapply Hgo, CacheMiss].
  - destruct (flight key m) as [[f [|]] m'] eqn:E; [by eapply Hgo, Lead|by eapply Hgo, Join].
  - destruct Hp as (o & Ho & _). eapply Hgo; [done|]. apply (LeaderWait _ _ _ _ _ _ _ _ o). unfold wait. by rewrite Ho.
  - destruct Hp as [(o & s & Ho & _)|(_ & j & [key' q] & Hj & _ & Hl)]; [|by eapply Hlead].
    eapply Hgo; [done|]. apply (FollowerWait _ _ _ _ _ _ _ o). unfold wait. by rewrite Ho.
  - done.
Qed.

(** C38: From every reachable state the requests, each doing a bounded number of
    critical sections (a computation is two: it begins, and it ends with an answer
    or an exception), come to rest, and only when every one of them is answered: no
    waiter is forgotten, whatever a computation raised. *)
Theorem every_request_answered d st : reachable listing ttl_s d st ->
  (forall n st', nsteps served n st st' -> (n <= 9 * length (st_requests st))%nat) /\
  (forall st', rtc served st st' -> (forall st'', ~ served st' st'') -> Forall (fun r => exists how o, r_phase r = Answered how o) (st_requests st')).
Proof.
  intros Hr. apply reachable_ok in Hr as Hok. split.
  - intros n st' H. assert (n + work st' <= work st)%nat as Hwk by (clear Hr Hok; induction H as [|n x y z Hxy _ IH]; [lia|]; apply served_less in Hxy; lia).
    assert (work st <= 9 * length (st_requests st))%nat; [|lia]. unfold work. clear. induction (st_requests st) as [|r rs IH]; simpl; [lia|]. destruct (r_phase r); simpl; lia.
  - intros st' H Hstuck. assert (state_ok st') as [Hw Hm] by (eapply (rtc_preserves served state_ok); [intros; by eapply served_ok|exact Hok|exact H]).
    destruct st' as [now w m rs]. cbn [st_world st_memo st_requests] in *. apply Forall_lookup_2. intros i r Hi. destruct (decide (left_of (r_phase r) = 0%nat)) as [E|E].
    + destruct (r_phase r); try done. eauto.
    + destruct (can_go_on w m rs now i r Hw Hm Hi E) as [st' Hs]. by destruct (Hstuck st').
Qed.
End Facts.

(** ** The shared listing of automations: runs

    The steps as a function, to evaluate a schedule of requests and writers; the
    witnesses of the properties; and a request that is told of data older than a
    write that was answered before it began. *)

(** ** Schedules *)

Section Schedules.
Context {K A D C : Type} `{EqDecision K} {C_met : Inhabited C}.
Context (listing : K -> list D -> C -> option A) (ttl_s : Z).

Definition request_next (now : Z) (w : @world D) (m : memo) (key : K) (p : @phase A) : option (@phase A * memo) :=
  match p with
  | Start => Some (HalfStamped (bumps w), m)
  | HalfStamped b => Some (Stamped (b, generation w), m)
  | Stamped s => match cached ttl_s now key s m with Some a => Some (Answered (Hit s) (Some a), m) | None => Some (Missed s, m) end
  | Missed s => match flight key m with (f, true, m') => Some (Leading f s, m') | (f, false, m') => Some (Waiting f, m') end
  | Leading f s => Some (Reading f s (pred (length (hist w))), computing m)
  | Reading f s n => Some (Computed f s (listing key (drop n (hist w)) inhabitant), m)
  | Computed f s o => Some (Finishing f s o, land now key f s o m)
  | Finishing f s o => Some (Landed f s, finish f o m)
  | Landed f s => o ← wait f m; Some (Answered (Led s) o, m)
  | Waiting f => o ← wait f m; Some (Answered Joined o, m)
  | Answered _ _ => None
  end.
Lemma request_next_sound now w m key p p' m' : request_next now w m key p = Some (p', m') -> request_step listing ttl_s now w m key p p' m'.
Proof.
  destruct p as [|b|s|s|f s|f s n|f s o|f s o|f s|f|how o]; simpl.
  - intros [= <- <-]. constructor.
  - intros [= <- <-]. constructor.
  - destruct (cached ttl_s now key s m) eqn:E; intros [= <- <-]; by constructor.
  - destruct (flight key m) as [[f [|]] m2] eqn:E; intros [= <- <-]; by constructor.
  - intros [= <- <-]. constructor.
  - intros [= <- <-]. constructor.
  - intros [= <- <-]. constructor.
  - intros [= <- <-]. constructor.
  - intros H. apply bind_Some in H as (o & Ho & [= <- <-]). by constructor.
  - intros H. apply bind_Some in H as (o & Ho & [= <- <-]). by constructor.
  - done.
Qed.

Inductive action := Act (i : nat) | Arrive (key : K) | Write (d : D) | Drop (v : nat).
Definition perform (st : @state K A D) (a : action) : option state :=
  let '(mk_state now w m rs) := st in
  match a with
  | Act i => r ← rs !! i; '(p, m') ← request_next now w m (r_key r) (r_phase r); Some (mk_state now w m' (<[i := mk_request (r_key r) p]> rs))
  | Arrive key => Some (mk_state now w m (rs ++ [mk_request key Start]))
  | Write d => Some (mk_state now (mk_world (hist w ++ [d]) (acks_bump w) (acks_gen w)) m rs)
  | Drop v => if bool_decide (v < length (hist w))%nat then Some (mk_state now (mk_world (hist w) (acks_bump w ++ [Nat.max v (acked (acks_bump w))]) (acks_gen w)) m rs) else None
  end.
Fixpoint schedule (st : @state K A D) (l : list action) : option state :=
  match l with [] => Some st | a :: l => st' ← perform st a; schedule st' l end.
Lemma schedule_sound l : forall st st', schedule st l = Some st' -> rtc (step listing ttl_s) st st'.
Proof.
  induction l as [|a l IH]; intros st st' H; [injection H as ->; done|]. cbn [schedule] in H. apply bind_Some in H as (st1 & H1 & H2).
  eapply rtc_l; [|by apply IH]. destruct st as [now w m rs], a as [i|key|d|v]; cbn [perform] in H1.
  - apply bind_Some in H1 as (r & Hr & H1). apply bind_Some in H1 as ([p m'] & Hn & [= <-]). econstructor; [done|]. by apply request_next_sound.
  - injection H1 as <-. constructor.
  - injection H1 as <-. constructor.
  - case_bool_decide; [|done]. injection H1 as <-. by constructor.
Qed.
End Schedules.

(** ** A plane whose data is a number, listed as the numbers met *)

Definition met_listing (key : string) (ds : list nat) (met : unit) : option (list nat) := Some ds.
Abbreviation runs := (schedule met_listing 3).
Definition empty_plane : @state string (list nat) nat := initial 0%nat.
(** The first request computes, the second of the same key joins it. *)
Definition two_requests : list (@action string nat) := [Arrive "mine"; Arrive "mine"; Act 0; Act 0; Act 0; Act 0; Act 1; Act 1; Act 1; Act 1]%nat.
(** A write that is answered, then a request, and a write while it computes. *)
Definition write_then_read : list (@action string nat) := [Write 1; Drop 1]%nat.
Definition read_alone : list (@action string nat) := [Arrive "mine"; Act 0; Act 0; Act 0; Act 0; Act 0; Write 2; Act 0; Act 0; Act 0; Act 0]%nat.

Definition after (l : list (@action string nat)) (st : @state string (list nat) nat) : @state string (list nat) nat := default st (runs st l).
Lemma after_reachable l st : is_Some (runs st l) -> rtc (step met_listing 3) st (after l st).
Proof. intros [st' H]. unfold after. rewrite H. by eapply schedule_sound. Qed.

Lemma reads_see_earlier_writes_witness :
  exists n ds met, (1 <= n)%nat /\ ds `prefix_of` drop n [0; 1; 2]%nat /\ ds <> [] /\ met_listing "mine" ds met = Some [1; 2]%nat.
Proof.
  apply (reads_see_earlier_writes met_listing 3 0%nat (after write_then_read empty_plane) (after read_alone (after write_then_read empty_plane)) 1 0 "mine" (Led (1, 0)%nat) (Some [1; 2]%nat)).
  - by apply after_reachable; eexists; vm_compute.
  - left. by apply (bool_decide_unpack _); vm_compute.
  - intros r H. by vm_compute in H.
  - by apply after_reachable; eexists; vm_compute.
  - by vm_compute.
  - done.
Defined.
Lemma single_flight_witness : 0%nat = 0%nat.
Proof.
  apply (single_flight met_listing 3 0%nat (after two_requests empty_plane) 0 0 (mk_request "mine" (Leading 0%nat (0, 0)%nat)) (mk_request "mine" (Leading 0%nat (0, 0)%nat))).
  - by apply after_reachable; eexists; vm_compute.
  - by vm_compute.
  - by vm_compute.
  - done.
  - by eexists.
  - by eexists.
Defined.
Lemma every_request_answered_witness :
  (forall n st', nsteps (served met_listing 3) n (after two_requests empty_plane) st' -> (n <= 18)%nat) /\
  (forall st', rtc (served met_listing 3) (after two_requests empty_plane) st' ->
    (forall st'', ~ served met_listing 3 st' st'') -> Forall (fun r => exists how o, r_phase r = Answered how o) (st_requests st')).
Proof.
  apply (every_request_answered met_listing 3 0%nat (after two_requests empty_plane)).
  by apply after_reachable; eexists; vm_compute.
Defined.

(** A request that begins after a write was answered joins the computation of a
    request that read before it, and is told of the data without the write: the
    flight is taken by its key alone, whatever the stamp. *)
Definition joined_late : list (@action string nat) :=
  [Arrive "mine"; Act 0; Act 0; Act 0; Act 0; Act 0; Act 0; Write 1; Drop 1; Arrive "mine"; Act 1; Act 1; Act 1; Act 1; Act 0; Act 0; Act 1]%nat.
Lemma joined_request_misses_write :
  reachable met_listing 3 0%nat (after joined_late empty_plane) /\
  hist (st_world (after joined_late empty_plane)) = [0; 1]%nat /\
  r_phase <$> (st_requests (after joined_late empty_plane) !! 1%nat) = Some (Answered Joined (Some [0]%nat)).
Proof. split; [by apply after_reachable; eexists; vm_compute|by vm_compute]. Qed.
