(* ===== verification/StopSwitch.v ===== *)
(** * The Stop kill switch

    [stop_kill_switch.py]: a cancelled run tree is watched until its model calls
    have stopped; one that has not at the deadline is killed, and only it. The
    functions follow the methods of [StopKillSwitch]; [step] interleaves the
    thread that watches with the threads that arm it.

    An incident is shared: the table names it by its place in [objs], so that a
    second Stop changes the run ids a check in progress goes on with. Times are in
    microseconds; the text [:g] gives a number of seconds is the argument [fmt_g].
    The gateway builds the switch with its thread on ([watch_enabled]) and never
    calls its [stop]: both are left out. *)

From S2P Require Import Prelude PyStr PyVal OrdDict IsoTime RunStore RunnerExec.

Definition DEFAULT_DEADLINE : Z := 10 * second.
Definition KILL_GRACE : Z := 5 * second.
Definition INFERENCE_EFFECT_TYPES : list string := ["llm_call"].
(** The pause of the wait for killed calls. *)
Definition UNWIND_PAUSE : Z := 50000.

(** What the runtime's registry says of a call that is executing; [e_info] is what
    the switch only reports (node, provider, model, thread, times). *)
Record effect := mk_effect { e_run : string; e_step : string; e_type : string; e_info : dict }.
Definition is_inference (e : effect) : bool := bool_decide (e_type e ∈ INFERENCE_EFFECT_TYPES).
Record kill_result := mk_kill { k_step : string; k_injected : bool; k_reason : option string }.

(** [_Incident] *)
Record incident := mk_incident {
  i_root : string; i_runs : list string; i_deadline : Z; i_armed : Z; i_armed_at : string; i_command : option string
}.
(** The record of a forced stop, without its constant fields. *)
Record forced := mk_forced {
  f_text : string; f_interrupted : bool; f_root : string; f_first : option effect; f_since : Z; f_deadline : Z;
  f_unwind : Z; f_killed : list string; f_stuck : list string; f_kills : list kill_result
}.

(** What the switch is given: the registry, the kill, the clocks, the settings and
    the ledger. The settings are a deadline, when there is one. *)
Class KillOps (W : Type) `{HostOps W} := {
  inflight : list string -> W -> res (list effect);
  kill : string -> string -> M W kill_result;
  mono : W -> Z;
  wall : W -> Z;
  pause_for : Z -> M W unit;
  kill_settings : W -> res (option Z);
  append_status : run -> string -> forced -> M W unit;
}.

(** [StopKillSwitch]: the incidents, the table by root run, and what was fired. *)
Record switch := mk_switch { objs : list incident; table : list (string * nat); fired : list forced }.

Section Switch.
Context {W : Type} `{H : HostOps W} `{K : !KillOps W}.
Context (fmt_g : Z -> string).

Definition forced_stop_text (deadline : Z) (interrupted : bool) : string :=
  if interrupted then "Stop forced at " +:+ fmt_g deadline +:+ " s: inference killed"
  else "Stop forced at " +:+ fmt_g deadline +:+ " s: inference could not be interrupted (blocked in a native call)".

(** ** Arming *)

(** [arm]: the incident the Stop belongs to, if the switch is not disabled, and
    whether it is a new one. *)
Definition arm (root : string) (run_ids : list string) (command : option string) (w : W) (s : switch) : res (option nat * switch) :=
  settings <== kill_settings w;
  let deadline := default DEFAULT_DEADLINE settings in
  if deadline <=? 0 then Ok (None, s)
  else
    let ids := match run_ids with [] => [root] | _ => run_ids end in
    match oget root (table s) with
    | Some i =>
        let merge e := mk_incident (i_root e) (sorted_set (i_runs e ++ ids)) (i_deadline e) (i_armed e) (i_armed_at e) (i_command e) in
        Ok (Some i, mk_switch (alter merge i (objs s)) (table s) (fired s))
    | None =>
        let i := length (objs s) in
        Ok (Some i, mk_switch (objs s ++ [mk_incident root ids deadline (mono w) (isoformat (wall w)) command]) (oset root i (table s)) (fired s))
    end.
Definition pending (s : switch) : list string := okeys (table s).

(** ** Firing *)

(** Each stuck call is killed; a kill that raises is reported as its result. *)
Definition kill_one (reason : string) (e : effect) : M W kill_result :=
  try_ (kill (e_step e) reason) (fun x => ret (mk_kill (e_step e) false (Some (exn_text x)))).
Fixpoint kill_all (reason : string) (l : list effect) : M W (list kill_result) :=
  match l with
  | [] => ret []
  | e :: l => k <- kill_one reason e ;; ks <- kill_all reason l ;; ret (k :: ks)
  end.
(** The steps of [steps] that are still executing. *)
Definition still_there (ids steps : list string) : M W (list string) :=
  w <- get ;;
  live <- of_res (inflight ids w) ;;
  ret (List.filter (fun x => bool_decide (x ∈ map e_step live)) steps).
(** The bounded wait for the killed calls to leave the registry. *)
Fixpoint unwind (fuel : nat) (ids steps : list string) (t_kill : Z) : M W (list string) :=
  match fuel with
  | O => raise (RuntimeError "the wait goes on")
  | S fuel =>
      remaining <- still_there ids steps ;;
      t <- gets mono ;;
      if bool_decide (remaining = []) || (KILL_GRACE <=? t - t_kill) then ret remaining
      else pause_for UNWIND_PAUSE ;;; unwind fuel ids steps t_kill
  end.

(** [_load] *)
Definition load_or_none (rid : string) (w : W) : option run :=
  match load rid w with Ok r => r | Raise _ => None end.
Definition append_one (i : incident) (f : forced) (rid : string) : M W unit :=
  w <- get ;;
  match load_or_none rid w with
  | None => ret tt
  | Some r => try_ (append_status r ("system:stop_kill_switch:" +:+ i_armed_at i) f) (fun _ => ret tt)
  end.
(** The run as [_cancel_tree] leaves it. *)
Definition set_cancelled (reason now : string) (r : run) : run :=
  mk_run (run_id r) (workflow_id r) CANCELLED (current_node r) (vars r) None (output r) (Some reason)
    (created_at r) now (actor_id r) (session_id r) (parent_run_id r).
Definition cancel_one (reason : string) (rid : string) : M W unit :=
  w <- get ;;
  match load_or_none rid w with
  | None => ret tt
  | Some r =>
      if bool_decide (status r = COMPLETED) || bool_decide (status r = FAILED) then ret tt
      else
        t <- gets wall ;;
        let r := set_cancelled reason (isoformat t) r in
        fun w =>
          match save r w with
          | (Raise _, w) => (Ok tt, w)
          | (Ok _, w) => try_ (close_live_state r) (fun _ => ret tt) w
          end
  end.

(** [_fire]; the log lines are left out. *)
Definition fire (fuel : nat) (i : incident) (inference : list effect) (elapsed : Z) : M W forced :=
  kills <- kill_all (forced_stop_text (i_deadline i) true) inference ;;
  let steps := remove_dups (map e_step inference) in
  t_kill <- gets mono ;;
  remaining <- unwind fuel (i_runs i) steps t_kill ;;
  t <- gets mono ;;
  let interrupted := bool_decide (remaining = []) in
  let text := forced_stop_text (i_deadline i) interrupted in
  let f := mk_forced text interrupted (i_root i) (head inference) elapsed (i_deadline i) (t - t_kill)
             (sort_str (List.filter (fun x => negb (bool_decide (x ∈ remaining))) steps)) (sort_str remaining) kills in
  for_ (i_runs i) (append_one i f) ;;;
  for_ (i_runs i) (cancel_one (text +:+ " (killed_by=kill_switch)")) ;;;
  ret f.

(** ** Checking *)

(** [check] reads the clock and the registry, then acts under the lock. *)
Definition look (i : nat) (s : switch) (w : W) : res (Z * list effect) :=
  match objs s !! i with
  | None => Raise (OtherError "no incident")
  | Some e => live <== inflight (i_runs e) w; Ok (mono w - i_armed e, live)
  end.
Inductive verdict := Stopped | StillWaiting | Fired.
Definition drop_incident (root : string) (s : switch) : switch := mk_switch (objs s) (opop root (table s)) (fired s).
Definition act (fuel : nat) (i : nat) (elapsed : Z) (live : list effect) (s : switch) (w : W) : res verdict * (switch * W) :=
  match objs s !! i with
  | None => (Raise (OtherError "no incident"), (s, w))
  | Some e =>
      let inference := List.filter is_inference live in
      if bool_decide (inference = []) then (Ok Stopped, (drop_incident (i_root e) s, w))
      else if elapsed <? i_deadline e then (Ok StillWaiting, (s, w))
      else
        match oget (i_root e) (table s) with
        | None => (Ok Fired, (s, w))
        | Some _ =>
            let s := drop_incident (i_root e) s in
            match fire fuel e inference elapsed w with
            | (Ok f, w) => (Ok Fired, (mk_switch (objs s) (table s) (fired s ++ [f]), w))
            | (Raise x, w) => (Raise x, (s, w))
            end
        end
  end.
Definition check (fuel : nat) (i : nat) (s : switch) (w : W) : res verdict * (switch * W) :=
  match look i s w with
  | Ok (elapsed, live) => act fuel i elapsed live s w
  | Raise x => (Raise x, (s, w))
  end.

(** ** The watching thread among the others *)

(** Where the thread is: not running, before it reads the table, in a round over
    the incidents it read, between the two halves of a check. *)
Inductive watcher := Off | Head | Round (l : list nat) | Looked (i : nat) (elapsed : Z) (live : list effect) (l : list nat).
Record state := mk_state { sw : switch; thread : watcher; world : W }.

(** A move of the thread ([_watch]); an exception of a check is logged. *)
Inductive watch (fuel : nat) : state -> state -> Prop :=
  | WatchEnds s w : table s = [] -> watch fuel (mk_state s Head w) (mk_state s Off w)
  | WatchBegins s w : table s <> [] -> watch fuel (mk_state s Head w) (mk_state s (Round (map snd (table s))) w)
  | WatchLooks s w i l elapsed live : look i s w = Ok (elapsed, live) ->
      watch fuel (mk_state s (Round (i :: l)) w) (mk_state s (Looked i elapsed live l) w)
  | WatchCannotLook s w i l x : look i s w = Raise x -> watch fuel (mk_state s (Round (i :: l)) w) (mk_state s (Round l) w)
  | WatchActs s w i elapsed live l r s' w' : act fuel i elapsed live s w = (r, (s', w')) ->
      watch fuel (mk_state s (Looked i elapsed live l) w) (mk_state s' (Round l) w')
  | WatchWaits s w : watch fuel (mk_state s (Round []) w) (mk_state s Head w).

Definition start_thread (t : watcher) : watcher := match t with Off => Head | _ => t end.
Inductive step (fuel : nat) : state -> state -> Prop :=
  | StepWatch st st' : watch fuel st st' -> step fuel st st'
  | StepArm s t w root ids command o s' : arm root ids command w s = Ok (o, s') ->
      (** An incident that was there, or none, starts no thread. *)
      let started := match o with Some i => negb (bool_decide (i < length (objs s))%nat) | None => false end in
      step fuel (mk_state s t w) (mk_state s' (if started then start_thread t else t) w)
  | StepWorld s t w w' : mono w <= mono w' -> step fuel (mk_state s t w) (mk_state s t w').
Definition initial (w : W) : state := mk_state (mk_switch [] [] []) Off w.
End Switch.
