(* ===== verification/StopSwitchFacts.v ===== *)
(** * The Stop kill switch: lemmas

    What a forced stop does to the world, that every incident is watched, and that
    each is decided once its deadline has passed. *)

From S2P Require Import Prelude PyStr PyVal OrdDict IsoTime RunStore RunnerExec StopSwitch.

(** The units of fuel the wait for killed calls needs. *)
Definition UNWIND_FUEL : nat := Z.to_nat (KILL_GRACE / UNWIND_PAUSE) + 2.

(** What the stores and the runtime promise: the runs killed so far ([killed]: the
    steps), a pause that takes its time, and that nothing but [kill] kills, and
    nothing but [save] changes a stored run while the tree is cancelled. *)
Class KillLaws (W : Type) `{H : HostOps W} `{K : !KillOps W} := {
  killed : W -> list string;
  killed_kill s r w : killed (kill s r w).2 ⊆ s :: killed w;
  killed_pause t w : killed (pause_for t w).2 = killed w;
  killed_status r k f w : killed (append_status r k f w).2 = killed w;
  killed_save r w : killed (save r w).2 = killed w;
  killed_close r w : killed (close_live_state r w).2 = killed w;
  pause_ok t w : (pause_for t w).1 = Ok tt;
  pause_takes t w : mono w + t <= mono (pause_for t w).2;
  load_save r w : (save r w).1 = Ok tt -> load (run_id r) (save r w).2 = Ok (Some r);
  load_save_other r w j : j <> run_id r -> load j (save r w).2 = load j w;
  load_id i w r : load i w = Ok (Some r) -> run_id r = i;
  load_status r k f w j : load j (append_status r k f w).2 = load j w;
  load_close r w j : load j (close_live_state r w).2 = load j w;
}.

Section Facts.
Context {W : Type} `{H : HostOps W} `{K : !KillOps W}.
Context (fmt_g : Z -> string).

(** ** The table *)

Definition incident_at (s : switch) (root : string) (i : nat) : Prop := oget root (table s) = Some i.
(** The table names the incidents by their roots. *)
Record switch_ok (s : switch) : Prop := {
  so_keys : NoDup (okeys (table s));
  so_root : forall root i, incident_at s root i -> exists e, objs s !! i = Some e /\ i_root e = root
}.
Lemma incident_alter (f : incident -> incident) i (l : list incident) j e : alter f i l !! j = Some e ->
  exists e0, l !! j = Some e0 /\ (j = i /\ e = f e0 \/ j <> i /\ e = e0).
Proof.
  destruct (decide (j = i)) as [->|Hne].
  - rewrite list_lookup_alter_eq. intros (e0 & He & Hf)%fmap_Some. exists e0. auto.
  - rewrite list_lookup_alter_ne by done. intros He. exists e. auto.
Qed.
Lemma drop_ok root s : switch_ok s -> switch_ok (drop_incident root s).
Proof.
  intros [Hk Hr]. split; cbn [drop_incident table objs]; [by apply NoDup_okeys_opop|].
  intros r i Hi. unfold incident_at in Hi. cbn [drop_incident table] in Hi. rewrite oget_opop in Hi. case_decide; [done|]. by apply Hr.
Qed.

(** What arming does to the switch: an incident of the root is merged with, or
    a new one is entered. *)
Lemma arm_inv root ids command w s o s' : arm root ids command w s = Ok (o, s') ->
  (o = None /\ s' = s) \/
  (exists i f, o = Some i /\ incident_at s root i /\ s' = mk_switch (alter f i (objs s)) (table s) (fired s) /\
     forall e, i_root (f e) = i_root e /\ i_deadline (f e) = i_deadline e /\ i_armed (f e) = i_armed e /\
               forall x, x ∈ i_runs e \/ x ∈ ids -> x ∈ i_runs (f e)) \/
  (exists e, o = Some (length (objs s)) /\ oget root (table s) = None /\ i_root e = root /\ i_armed e = mono w /\ 0 < i_deadline e /\
     (forall x, x ∈ ids -> x ∈ i_runs e) /\
     s' = mk_switch (objs s ++ [e]) (oset root (length (objs s)) (table s)) (fired s)).
Proof.
  unfold arm. destruct (kill_settings w) as [settings|]; [|done]. cbn [rbind]. destruct (Z.leb_spec (default DEFAULT_DEADLINE settings) 0) as [Hd|Hd]; [intros [= <- <-]; by left|].
  destruct (oget root (table s)) as [i|] eqn:E; intros [= <- <-]; right.
  - left. exists i. eexists. split; [done|]. split; [done|]. split; [done|]. intros e. split_and!; [done..|]. intros x Hx. cbn. apply sorted_set_elem.
    apply elem_of_app. destruct Hx as [Hx|Hx]; [by left|right]. destruct ids; [by apply elem_of_nil in Hx|done].
  - right. exists (mk_incident root (match ids with [] => [root] | _ => ids end) (default DEFAULT_DEADLINE settings) (mono w) (isoformat (wall w)) command). split_and!; try done. intros x Hx. destruct ids; [by apply elem_of_nil in Hx|done].
Qed.
Lemma arm_ok root ids command w s o s' : arm root ids command w s = Ok (o, s') -> switch_ok s -> switch_ok s'.
Proof.
  intros Ha [Hk Hr]. destruct (arm_inv _ _ _ _ _ _ _ Ha) as [[_ ->]|[(i & f & _ & Hi & -> & Hf)|(e & _ & Hn & He & _ & _ & _ & ->)]].
  - by split.
  - split; cbn; [done|]. intros r j Hj. destruct (Hr r j Hj) as (e & He & Hroot). destruct (decide (j = i)) as [->|Hne].
    + exists (f e). rewrite list_lookup_alter_eq, He. split; [done|]. by rewrite (proj1 (Hf e)).
    + exists e. by rewrite list_lookup_alter_ne.
  - split; cbn; [by apply NoDup_okeys_oset|]. intros r j Hj. unfold incident_at in Hj. cbn in Hj. rewrite oget_oset in Hj. case_decide as Hd.
    + injection Hj as <-. exists e. subst r. split; [by apply list_lookup_middle|done].
    + destruct (Hr r j Hj) as (e0 & He0 & Hroot). exists e0. split; [by apply lookup_app_l_Some|done].
Qed.

(** What a check leaves of the switch. *)
Lemma act_inv fuel i elapsed live s w r s' w' : act fmt_g fuel i elapsed live s w = (r, (s', w')) ->
  (s' = s /\ w' = w /\ (forall e, objs s !! i = Some e -> elapsed < i_deadline e \/ oget (i_root e) (table s) = None)) \/
  (exists e, objs s !! i = Some e /\ objs s' = objs s /\ table s' = opop (i_root e) (table s) /\
     (w' = w /\ r = Ok Stopped /\ List.filter is_inference live = [] \/
      List.filter is_inference live <> [] /\ i_deadline e <= elapsed /\ is_Some (oget (i_root e) (table s)) /\
      w' = (fire fmt_g fuel e (List.filter is_inference live) elapsed w).2)).
Proof.
  unfold act. destruct (objs s !! i) as [e|] eqn:Ei; [|intros [= <- <- <-]; left; split_and!; congruence].
  case_bool_decide as Hn; [intros [= <- <- <-]; right; exists e; split_and!; [done..|]; left; by split_and!|].
  destruct (Z.ltb_spec elapsed (i_deadline e)) as [Hlt|Hge]; [intros [= <- <- <-]; left; split_and!; [done..|]; intros e' [= <-]; by left|].
  destruct (oget (i_root e) (table s)) as [j|] eqn:Et; [|intros [= <- <- <-]; left; split_and!; [done..|]; intros e' [= <-]; by right].
  destruct (fire fmt_g fuel e _ elapsed w) as [[f|x] w1] eqn:Ef; intros [= <- <- <-]; right; exists e; cbn; split_and!; try done; right; split_and!; try done; by rewrite Ef.
Qed.

(** ** Property: every incident is watched *)

Definition watched (st : state (W := W)) : Prop := switch_ok (sw st) /\ (table (sw st) <> [] -> thread st <> Off).
Lemma opop_nil {V} root (l : list (string * V)) : opop root l <> [] -> l <> [].
Proof. by intros Hn ->. Qed.
Lemma watch_watched fuel st st' : watch fmt_g fuel st st' -> watched st -> watched st'.
Proof.
  intros Hw [Hok Ht]. destruct Hw as [s w Hn|s w Hn|s w i l elapsed live Hl|s w i l x Hl|s w i elapsed live l r s' w' Ha|s w]; (split; cbn [sw thread] in *; [|try done]); try done.
  destruct (act_inv _ _ _ _ _ _ _ _ _ Ha) as [(-> & _)|(e & _ & Ho & Htab & _)]; [done|].
  destruct (drop_ok (i_root e) s Hok) as [Hk Hr]. split; [by rewrite Htab|]. intros root j Hj. unfold incident_at in Hj. rewrite Htab in Hj. rewrite Ho. by apply Hr.
Qed.
Lemma step_watched fuel st st' : step fmt_g fuel st st' -> watched st -> watched st'.
Proof.
  destruct 1 as [st st' Hw|s t w root ids command o s' Ha started|s t w w' Hm]; [by eapply watch_watched| |done].
  intros [Hok Ht]. cbn [sw thread] in *. split; cbn [sw thread]; [by eapply arm_ok|]. subst started.
  destruct (arm_inv _ _ _ _ _ _ _ Ha) as [[-> ->]|[(i & f & -> & Hi & -> & Hf)|(e & -> & Hn & _ & _ & _ & _ & ->)]]; cbn.
  - done.
  - destruct (so_root s Hok root i Hi) as (e & He & _). apply lookup_lt_Some in He. rewrite bool_decide_eq_true_2 by done. exact Ht.
  - rewrite bool_decide_eq_false_2 by lia. intros _. by destruct t.
Qed.

(** C5: Whatever threads arm it and whatever a check raises, the switch never
    holds an incident while no thread watches, and each entry of its table is
    the incident of its own root run. *)
Theorem no_stop_unwatched fuel (w : W) st : rtc (step fmt_g fuel) (initial w) st ->
  (table (sw st) <> [] -> thread st <> Off) /\
  forall root i, incident_at (sw st) root i -> exists e, objs (sw st) !! i = Some e /\ i_root e = root.
Proof.
  intros Hr. assert (watched st) as [Hok Ht].
  { apply (rtc_preserves (step fmt_g fuel) watched (initial w) st); [intros; by eapply step_watched| |done]. split; [|done]. split; [by constructor|done]. }
  split; [done|]. by apply so_root.
Qed.

(** ** An incident keeps its first deadline *)

Record continues (e0 e : incident) : Prop := {
  ct_root : i_root e = i_root e0;
  ct_deadline : i_deadline e = i_deadline e0;
  ct_armed : i_armed e = i_armed e0;
  ct_runs : i_runs e0 ⊆ i_runs e
}.
#[local] Instance continues_po : PreOrder continues.
Proof. split; [by split|]. intros x y z [] []. split; [congruence..|by etrans]. Qed.
Definition same_incidents (st st' : state (W := W)) : Prop :=
  forall i e0, objs (sw st) !! i = Some e0 -> exists e, objs (sw st') !! i = Some e /\ continues e0 e.
#[local] Instance same_po : PreOrder same_incidents.
Proof.
  split; [intros st i e He; by exists e|]. intros x y z H1 H2 i e0 H0. destruct (H1 i e0 H0) as (e1 & He1 & C1). destruct (H2 i e1 He1) as (e2 & He2 & C2). exists e2. split; [done|]. by etrans.
Qed.
Lemma step_same fuel st st' : step fmt_g fuel st st' -> same_incidents st st'.
Proof.
  destruct 1 as [st st' Hw|s t w root ids command o s' Ha started|s t w w' Hm]; [|cbn|by intros j e0 He; exists e0].
  - destruct Hw as [s w Hn|s w Hn|s w i l elapsed live Hl|s w i l x Hl|s w i elapsed live l r s' w' Ha|s w]; try (by intros j e0 He; exists e0).
    intros j e0 He. exists e0. cbn in *. by destruct (act_inv _ _ _ _ _ _ _ _ _ Ha) as [(-> & _)|(e & _ & -> & _)].
  - intros j e0 He. cbn in He. destruct (arm_inv _ _ _ _ _ _ _ Ha) as [[_ ->]|[(i & f & _ & _ & -> & Hf)|(e & _ & _ & _ & _ & _ & _ & ->)]]; cbn.
    + by exists e0.
    + destruct (decide (j = i)) as [->|Hne]; [|exists e0; by rewrite list_lookup_alter_ne]. exists (f e0). rewrite list_lookup_alter_eq, He. split; [done|].
      destruct (Hf e0) as (H1 & H2 & H3 & H4). split; [done..|]. intros x Hx. apply H4. by left.
    + exists e0. split; [by apply lookup_app_l_Some|done].
Qed.
Lemma steps_same fuel st st' : rtc (step fmt_g fuel) st st' -> same_incidents st st'.
Proof. induction 1 as [|x y z Hxy _ IH]; [done|]. etrans; [by eapply step_same|done]. Qed.

(** ** What a forced stop kills *)

Context `{KL : !KillLaws W}.

(** A computation that kills nothing beyond [l]. *)
Definition kills_only {A} (l : list string) (m : M W A) : Prop := forall w, killed (m w).2 ⊆ l ++ killed w.
Lemma kept (l k : list string) : k ⊆ l ++ k.
Proof. intros x Hx. apply elem_of_app. by right. Qed.
Lemma kills_ret {A} l (a : A) : kills_only l (ret a).
Proof. intros w. apply kept. Qed.
Lemma kills_bind {A B} l (m : M W A) (k : A -> M W B) : kills_only l m -> (forall a, kills_only l (k a)) -> kills_only l (mbind_ m k).
Proof.
  intros Hm Hk w. unfold mbind_. specialize (Hm w). destruct (m w) as [[a|x] w1]; cbn in *; [|done]. specialize (Hk a w1). intros y Hy. specialize (Hk y Hy). set_solver.
Qed.
Lemma kills_try {A} l (m : M W A) (h : exn -> M W A) : kills_only l m -> (forall x, kills_only l (h x)) -> kills_only l (try_ m h).
Proof.
  intros Hm Hh w. unfold try_. specialize (Hm w). destruct (m w) as [[a|x] w1]; cbn in *; [done|]. specialize (Hh x w1). intros y Hy. specialize (Hh y Hy). set_solver.
Qed.
Lemma kills_same {A} l (m : M W A) : (forall w, killed (m w).2 = killed w) -> kills_only l m.
Proof. intros Hm w. rewrite Hm. apply kept. Qed.
Lemma kills_for {A} l (f : A -> M W unit) xs : (forall x, kills_only l (f x)) -> kills_only l (for_ xs f).
Proof. intros Hf. induction xs as [|x xs IH]; cbn [for_]; [apply kills_ret|]. by apply kills_bind. Qed.
Lemma kills_pure {A} l (f : W -> A) : kills_only l (gets f).
Proof. by apply kills_same. Qed.
Lemma kills_more {A} l l' (m : M W A) : l ⊆ l' -> kills_only l m -> kills_only l' m.
Proof. intros Hl Hm w. specialize (Hm w). set_solver. Qed.

Lemma kills_all reason l : kills_only (map e_step l) (kill_all reason l).
Proof.
  induction l as [|e l IH]; cbn [kill_all map]; [apply kills_ret|]. apply kills_bind; [|intros k; apply kills_bind; [|intros ks; apply kills_ret]].
  - apply kills_try; [|intros x; apply kills_ret]. intros w. pose proof (killed_kill (e_step e) reason w). set_solver.
  - eapply kills_more; [|exact IH]. set_solver.
Qed.
Lemma kills_unwind l fuel ids steps t : kills_only l (unwind fuel ids steps t).
Proof.
  induction fuel as [|fuel IH]; cbn [unwind]; [by apply kills_same|]. apply kills_bind; [|intros rem; apply kills_bind; [apply kills_pure|intros t']].
  - apply kills_bind; [by apply kills_same|intros w; apply kills_bind; [by apply kills_same|intros live; apply kills_ret]].
  - destruct (_ || _); [apply kills_ret|]. apply kills_bind; [|intros; apply IH]. apply kills_same. intros w. apply killed_pause.
Qed.
Lemma kills_append l i f rid : kills_only l (append_one i f rid).
Proof.
  apply kills_bind; [by apply kills_same|]. intros w. destruct (load_or_none rid w) as [r|]; [|apply kills_ret].
  apply kills_try; [apply kills_same; intros; apply killed_status|intros; apply kills_ret].
Qed.
Lemma kills_cancel l reason rid : kills_only l (cancel_one reason rid).
Proof.
  apply kills_bind; [by apply kills_same|]. intros w. destruct (load_or_none rid w) as [r|]; [|apply kills_ret]. destruct (_ || _); [apply kills_ret|].
  apply kills_bind; [apply kills_pure|]. intros t w1. cbv beta zeta. set (r' := set_cancelled _ _ r). pose proof (killed_save r' w1) as Hs.
  destruct (save r' w1) as [[[]|x] w2]; cbn in *; [|rewrite Hs; apply kept]. unfold try_. pose proof (killed_close r' w2) as Hc.
  destruct (close_live_state r' w2) as [[[]|x] w3]; cbn in *; rewrite Hc, Hs; apply kept.
Qed.
Lemma kills_fire fuel e inference elapsed : kills_only (map e_step inference) (fire fmt_g fuel e inference elapsed).
Proof.
  apply kills_bind; [apply kills_all|intros kills]. apply kills_bind; [apply kills_pure|intros t]. apply kills_bind; [apply kills_unwind|intros rem].
  apply kills_bind; [apply kills_pure|intros t']. apply kills_bind; [apply kills_for; intros; apply kills_append|intros []].
  apply kills_bind; [apply kills_for; intros; apply kills_cancel|intros []]. apply kills_ret.
Qed.

(** What the thread looked at: calls the registry named at an earlier moment of
    the execution, for the incident's runs of then. *)
Definition seen_before fuel (w : W) (st : state) (i : nat) (elapsed : Z) (live : list effect) : Prop :=
  exists st0 e0, rtc (step fmt_g fuel) (initial w) st0 /\ rtc (step fmt_g fuel) st0 st /\ objs (sw st0) !! i = Some e0 /\
    inflight (i_runs e0) (world st0) = Ok live /\ elapsed = mono (world st0) - i_armed e0.
Definition looked_before fuel (w : W) (st : state) : Prop :=
  match thread st with Looked i elapsed live _ => seen_before fuel w st i elapsed live | _ => True end.
Lemma looked fuel w st : rtc (step fmt_g fuel) (initial w) st -> looked_before fuel w st.
Proof.
  intros Hr. enough (rtc (step fmt_g fuel) (initial w) st /\ looked_before fuel w st) as [_ Hl] by done.
  apply (rtc_preserves (step fmt_g fuel) (fun st => rtc (step fmt_g fuel) (initial w) st /\ looked_before fuel w st) (initial w) st); [|done|done].
  clear st Hr. intros st st' Hs [Hr Hl]. split; [by eapply rtc_r|].
  assert (forall i elapsed live, seen_before fuel w st i elapsed live -> seen_before fuel w st' i elapsed live) as Hlater
    by (intros i elapsed live (st0 & e0 & H1 & H2 & H3); exists st0, e0; split_and!; [done|by eapply rtc_r|apply H3..]).
  destruct Hs as [st st' Hw|s t w0 root ids command o s' Ha started|s t w0 w' Hm].
  - destruct Hw as [s w0 Hn|s w0 Hn|s w0 i l elapsed live Hlook|s w0 i l x Hlook|s w0 i elapsed live l r s' w' Ha|s w0]; try done.
    unfold looked_before. cbn [thread]. unfold look in Hlook. destruct (objs s !! i) as [e0|] eqn:E; [|done]. destruct (inflight (i_runs e0) w0) as [live'|] eqn:El; [|done].
    injection Hlook as <- <-. eexists _, e0. split; [exact Hr|]. cbn [sw world]. split_and!; try done. apply rtc_once. constructor. constructor. unfold look. by rewrite E, El.
  - unfold looked_before in *. cbn [thread] in *. destruct t; cbn in *; (destruct started; cbn; [done|]) || (destruct started; cbn); try done; by apply Hlater.
  - unfold looked_before in *. cbn [thread] in *. destruct t; try done. by apply Hlater.
Qed.

(** C6: The thread kills a call only when the call is a model call of the cancelled
    tree that was still executing when the incident's first deadline had passed:
    never a tool, never a call of another tree, never before the deadline,
    however often Stop is pressed. *)
Theorem only_late_inference_is_killed fuel (w : W) st st' x : rtc (step fmt_g fuel) (initial w) st -> watch fmt_g fuel st st' ->
  x ∈ killed (world st') -> x ∉ killed (world st) ->
  exists st0 i e0 live c, rtc (step fmt_g fuel) (initial w) st0 /\ rtc (step fmt_g fuel) st0 st /\
    objs (sw st0) !! i = Some e0 /\ inflight (i_runs e0) (world st0) = Ok live /\ c ∈ live /\ e_step c = x /\ e_type c = "llm_call" /\
    i_deadline e0 <= mono (world st0) - i_armed e0.
Proof.
  intros Hr Hw Hx Hnx. pose proof (looked fuel w st Hr) as Hl.
  destruct Hw as [s w0 Hn|s w0 Hn|s w0 i l elapsed live Hlook|s w0 i l y Hlook|s w0 i elapsed live l r s' w' Ha|s w0]; try done.
  cbn [looked_before thread world] in *. destruct Hl as (st0 & e0 & H1 & H2 & He0 & Hlive & ->).
  destruct (act_inv _ _ _ _ _ _ _ _ _ Ha) as [(_ & -> & _)|(e & He & _ & _ & [(-> & _)|(_ & Hd & _ & ->)])]; [done|done|].
  pose proof (kills_fire fuel e (List.filter is_inference live) (mono (world st0) - i_armed e0) w0 x Hx) as [Hin|Hin]%elem_of_app; [|done].
  apply list_elem_of_fmap in Hin as (c & -> & [Hc Hi]%elem_of_lfilter). exists st0, i, e0, live, c.
  destruct (steps_same fuel st0 _ H2 i e0 He0) as (e' & He' & Hct). cbn [sw] in He'. rewrite He in He'. injection He' as <-.
  split_and!; try done; [|by rewrite <- (ct_deadline _ _ Hct)]. unfold is_inference in Hi. apply bool_decide_eq_true in Hi. by apply list_elem_of_singleton in Hi.
Qed.
End Facts.
