(* ===== verification/StopSwitchEnds.v ===== *)
(** * The Stop kill switch: how a stop ends

    A forced stop ends, and its tree with it; and every incident is decided by the
    second round after its deadline. *)

From S2P Require Import Prelude PyStr PyVal IsoTime RunStore MemoryHost RunnerExec OrdDict StopSwitch StopSwitchFacts.

Section Ends.
Context {W : Type} `{H : HostOps W} `{K : !KillOps W} `{KL : !KillLaws W}.
Context (fmt_g : Z -> string).

(** ** A forced stop ends *)

(** The registry can be read, and runs can be saved. *)
Definition registry_reads : Prop := forall ids (w : W), is_ok (inflight ids w) = true.
Definition runs_save : Prop := forall r (w : W), (save r w).1 = Ok tt.

Lemma kill_one_ok reason e (w : W) : exists k w', kill_one reason e w = (Ok k, w').
Proof. unfold kill_one, try_. destruct (kill (e_step e) reason w) as [[k|x] w']; eauto. Qed.
Lemma kill_all_ok reason l (w : W) : exists ks w', kill_all reason l w = (Ok ks, w').
Proof.
  revert w. induction l as [|e l IH]; intros w; cbn [kill_all]; [by eexists _, _|]. unfold mbind_.
  destruct (kill_one_ok reason e w) as (k & w1 & ->). destruct (IH w1) as (ks & w2 & ->). by eexists _, _.
Qed.
Lemma still_there_ok ids steps (w : W) : registry_reads -> exists live, inflight ids w = Ok live /\
  still_there ids steps w = (Ok (List.filter (fun x => bool_decide (x ∈ map e_step live)) steps), w).
Proof.
  intros Hr. specialize (Hr ids w). unfold still_there, mbind_, get, of_res, ret. destruct (inflight ids w) as [live|x]; [|done]. by exists live.
Qed.
(** [n] pauses of the wait. *)
Definition pauses (n : nat) (w : W) : W := Nat.iter n (fun w => (pause_for UNWIND_PAUSE w).2) w.
Lemma pauses_S n (w : W) : pauses n (pause_for UNWIND_PAUSE w).2 = pauses (S n) w.
Proof. unfold pauses. by rewrite Nat.iter_succ_r. Qed.
Lemma pauses_killed n (w : W) : killed (pauses n w) = killed w.
Proof. induction n as [|n IH]; [done|]. cbn. by rewrite killed_pause. Qed.
(** The calls among [steps] that the registry still names. *)
Definition those_left (steps : list string) (live : list effect) : list string :=
  List.filter (fun x => bool_decide (x ∈ map e_step live)) steps.

(** The wait takes at most the grace, whatever the calls do, and gives up none before. *)
Lemma unwind_ends ids steps t_kill fuel (w : W) : registry_reads ->
  KILL_GRACE <= mono w - t_kill + (Z.of_nat fuel - 1) * UNWIND_PAUSE -> (0 < fuel)%nat ->
  exists n live, unwind fuel ids steps t_kill w = (Ok (those_left steps live), pauses n w) /\ inflight ids (pauses n w) = Ok live /\
    (those_left steps live <> [] -> KILL_GRACE <= mono (pauses n w) - t_kill).
Proof.
  intros Hr. revert w. induction fuel as [|fuel IH]; intros w Ht Hf; [lia|]. cbn [unwind]. unfold mbind_ at 1.
  destruct (still_there_ok ids steps w Hr) as (live & Hl & ->). unfold mbind_ at 1, gets. fold (those_left steps live).
  destruct (bool_decide _ || (KILL_GRACE <=? mono w - t_kill)) eqn:E.
  { exists 0%nat, live. split_and!; [done|done|]. intros Hn. rewrite bool_decide_eq_false_2 in E by done. by apply Z.leb_le. }
  apply orb_false_iff in E as [_ E]. apply Z.leb_gt in E.
  destruct fuel as [|fuel]; [unfold UNWIND_PAUSE in Ht; lia|]. unfold mbind_. pose proof (pause_ok UNWIND_PAUSE w) as Hok. pose proof (pause_takes UNWIND_PAUSE w) as Htk.
  destruct (IH (pause_for UNWIND_PAUSE w).2) as (n & live' & Hu & Hrest); [unfold UNWIND_PAUSE in *; lia|lia|].
  destruct (pause_for UNWIND_PAUSE w) as [[[]|x] w1] eqn:Ep; [|done]. cbn [snd] in Hu, Hrest. rewrite Hu. exists (S n), live'. rewrite <- pauses_S, Ep. by cbn [snd].
Qed.
Lemma unwind_enough ids steps (w : W) : registry_reads ->
  exists n live, unwind UNWIND_FUEL ids steps (mono w) w = (Ok (those_left steps live), pauses n w) /\ inflight ids (pauses n w) = Ok live /\
    (those_left steps live <> [] -> KILL_GRACE <= mono (pauses n w) - mono w).
Proof. intros Hr. apply unwind_ends; [done| |unfold UNWIND_FUEL; lia]. assert (Z.of_nat UNWIND_FUEL = 102) as -> by reflexivity. unfold KILL_GRACE, second, UNWIND_PAUSE. lia. Qed.

(** ** The kills *)

(** [killed] lists the steps [kill] was asked for, the latest first. *)
Definition kills_logged : Prop := forall x r (w : W), killed (kill x r w).2 = x :: killed w.
Lemma kill_all_logs reason l (w : W) : kills_logged ->
  exists ks w', kill_all reason l w = (Ok ks, w') /\ killed w' = rev (map e_step l) ++ killed w.
Proof.
  intros Hk. revert w. induction l as [|e l IH]; intros w; cbn [kill_all]; [by eexists _, _|]. unfold mbind_.
  destruct (kill_one_ok reason e w) as (k & w1 & E). rewrite E. destruct (IH w1) as (ks & w2 & -> & H2). eexists _, w2. split; [done|].
  rewrite H2. cbn. rewrite <- app_assoc. f_equal. cbn. specialize (Hk (e_step e) reason w). unfold kill_one, try_ in E.
  destruct (kill (e_step e) reason w) as [[k'|x] w']; injection E as _ <-; exact Hk.
Qed.
Lemma kept_for {A} (f : A -> M W unit) xs (w : W) : (forall x w, exists w', f x w = (Ok tt, w') /\ killed w' = killed w) -> killed (for_ xs f w).2 = killed w.
Proof. intros Hf. revert w. induction xs as [|x xs IH]; intros w; [done|]. cbn [for_]. unfold mbind_. destruct (Hf x w) as (w1 & -> & <-). apply IH. Qed.
Lemma append_kills i f rid (w : W) : exists w', append_one i f rid w = (Ok tt, w') /\ killed w' = killed w.
Proof.
  unfold append_one, mbind_, get. destruct (load_or_none rid w) as [r|]; [|by exists w]. unfold try_.
  pose proof (killed_status r ("system:stop_kill_switch:" +:+ i_armed_at i) f w) as Hl. destruct (append_status r _ f w) as [[[]|x] w']; cbn in Hl; by exists w'.
Qed.
Lemma cancel_kills reason rid (w : W) : exists w', cancel_one reason rid w = (Ok tt, w') /\ killed w' = killed w.
Proof.
  unfold cancel_one, mbind_, get, gets. destruct (load_or_none rid w) as [r|]; [|by exists w]. destruct (_ || _); [by exists w|].
  set (r' := set_cancelled _ _ r). pose proof (killed_save r' w) as Hs. destruct (save r' w) as [[[]|x] w1]; [|by exists w1]. cbn in Hs. unfold try_.
  pose proof (killed_close r' w1) as Hc. destruct (close_live_state r' w1) as [[[]|x] w2]; cbn in Hc; exists w2; (split; [done|congruence]).
Qed.

(** ** The tree ends *)

Definition over (w : W) (rid : string) : Prop :=
  match load_or_none rid w with None => True | Some r => is_terminal (status r) = true end.
Lemma append_loads i f rid (w : W) : exists w', append_one i f rid w = (Ok tt, w') /\ forall j, load j w' = load j w.
Proof.
  unfold append_one, mbind_, get. destruct (load_or_none rid w) as [r|]; [|by exists w]. unfold try_.
  pose proof (load_status r ("system:stop_kill_switch:" +:+ i_armed_at i) f w) as Hl. destruct (append_status r _ f w) as [[[]|x] w']; cbn in Hl; by exists w'.
Qed.
Lemma append_all_loads i f ids (w : W) : exists w', for_ ids (append_one i f) w = (Ok tt, w') /\ forall j, load j w' = load j w.
Proof.
  revert w. induction ids as [|rid ids IH]; intros w; [by exists w|]. cbn [for_]. unfold mbind_. destruct (append_loads i f rid w) as (w1 & -> & H1).
  destruct (IH w1) as (w2 & -> & H2). exists w2. split; [done|]. intros j. by rewrite H2.
Qed.
Lemma over_loads w w' rid : (forall j, load j w' = load j w) -> over w rid -> over w' rid.
Proof. intros Hl. unfold over, load_or_none. by rewrite Hl. Qed.
Lemma cancel_over reason rid (w : W) : runs_save ->
  exists w', cancel_one reason rid w = (Ok tt, w') /\ over w' rid /\ forall j, over w j -> over w' j.
Proof.
  intros Hs. unfold cancel_one, mbind_, get, gets. destruct (load_or_none rid w) as [r|] eqn:E; [|exists w; unfold over at 1; rewrite E; by split_and!].
  destruct (bool_decide (status r = COMPLETED) || bool_decide (status r = FAILED)) eqn:Est.
  { exists w. unfold over at 1. rewrite E. split_and!; try done. apply orb_true_iff in Est as [Est|Est]; bool_to_prop; by rewrite Est. }
  assert (run_id r = rid) as Hid.
  { unfold load_or_none in E. destruct (load rid w) as [o|x] eqn:El; [|done]. subst o. by apply load_id in El. }
  set (r' := set_cancelled reason (isoformat (wall w)) r). 
  pose proof (Hs r' w) as Hok. pose proof (load_save r' w Hok) as Hown. pose proof (load_save_other r' w) as Hoth.
  destruct (save r' w) as [[[]|x] w1]; [|done]. cbn in Hown, Hoth. unfold try_. pose proof (load_close r' w1) as Hcl.
  assert (over w1 rid) as Ho by (unfold over, load_or_none; rewrite Hid in Hown; by rewrite Hown).
  assert (forall j, over w j -> over w1 j) as Hk.
  { intros j Hj. destruct (decide (j = rid)) as [->|Hne]; [done|]. unfold over, load_or_none in *. rewrite Hoth; [done|]. cbn. congruence. }
  destruct (close_live_state r' w1) as [[[]|x] w2]; cbn in Hcl; exists w2; (split; [done|]); (split; [by eapply over_loads|]); intros j Hj; by eapply over_loads, Hk.
Qed.
Lemma cancel_all_over reason ids (w : W) : runs_save ->
  exists w', for_ ids (cancel_one reason) w = (Ok tt, w') /\ (forall rid, rid ∈ ids -> over w' rid) /\ forall j, over w j -> over w' j.
Proof.
  intros Hs. revert w. induction ids as [|rid ids IH]; intros w; [exists w; split_and!; [done|intros rid Hr; by apply elem_of_nil in Hr|done]|].
  cbn [for_]. unfold mbind_. destruct (cancel_over reason rid w Hs) as (w1 & -> & Ho & Hk). destruct (IH w1) as (w2 & -> & Ho2 & Hk2).
  exists w2. split; [done|]. split; [|auto]. intros j [->|Hj]%elem_of_cons; auto.
Qed.

(** How the kill of the calls [inference] went: the worlds after the kills and after
    [n] pauses, and what the registry names at the end. *)
Record forced_as (e : incident) (inference : list effect) (w : W) (f : forced) : Prop := {
  fa_root : f_root f = i_root e;
  fa_wait : exists w1 n live, kill_all (forced_stop_text fmt_g (i_deadline e) true) inference w = (Ok (f_kills f), w1) /\
    killed w1 = rev (map e_step inference) ++ killed w /\ inflight (i_runs e) (pauses n w1) = Ok live /\
    (forall x, x ∈ f_killed f <-> x ∈ map e_step inference /\ x ∉ map e_step live) /\
    (forall x, x ∈ f_stuck f <-> x ∈ map e_step inference /\ x ∈ map e_step live) /\
    (f_interrupted f = false -> KILL_GRACE <= mono (pauses n w1) - mono w1);
  fa_interrupted : f_interrupted f = true <-> f_stuck f = [];
}.
Lemma fire_ends e inference elapsed (w : W) : registry_reads -> runs_save -> kills_logged ->
  exists f w', fire fmt_g UNWIND_FUEL e inference elapsed w = (Ok f, w') /\ (forall rid, rid ∈ i_runs e -> over w' rid) /\
    killed w' = rev (map e_step inference) ++ killed w /\ forced_as e inference w f.
Proof.
  intros Hr Hs Hlog. unfold fire. unfold mbind_ at 1. destruct (kill_all_logs (forced_stop_text fmt_g (i_deadline e) true) inference w Hlog) as (ks & w1 & Hks & Hk1). rewrite Hks.
  set (steps := remove_dups (map e_step inference)). unfold mbind_ at 1, gets at 1. unfold mbind_ at 1.
  destruct (unwind_enough (i_runs e) steps w1 Hr) as (n & live & -> & Hlive & Hgrace). unfold mbind_ at 1, gets. set (w2 := pauses n w1) in *.
  set (left := those_left steps live) in *. set (f := mk_forced _ _ _ _ _ _ _ _ _ _). set (text := forced_stop_text _ _ (bool_decide _)). unfold mbind_ at 1.
  pose proof (kept_for (append_one e f) (i_runs e) w2 (append_kills e f)) as Ka. destruct (append_all_loads e f (i_runs e) w2) as (w3 & E3 & _). rewrite E3 in *. cbn in Ka.
  unfold mbind_. set (reason := text +:+ _). pose proof (kept_for (cancel_one reason) (i_runs e) w3 (cancel_kills reason)) as Kc.
  destruct (cancel_all_over reason (i_runs e) w3 Hs) as (w4 & E4 & Ho & _). rewrite E4 in *. cbn in Kc.
  assert (forall x, x ∈ steps <-> x ∈ map e_step inference) as Hst by (intros x; apply elem_of_remove_dups).
  assert (forall x, x ∈ left <-> x ∈ map e_step inference /\ x ∈ map e_step live) as Hleft.
  { intros x. unfold left, those_left. rewrite elem_of_lfilter, bool_decide_eq_true, Hst. done. }
  exists f, w4. split; [done|]. split; [done|]. split; [rewrite Kc, Ka; unfold w2; by rewrite pauses_killed|]. split; [done| |].
  - exists w1, n, live. split_and!; [done|done|done| | |]; cbn [f f_killed f_stuck f_interrupted].
    + intros x. rewrite elem_of_sort_str, elem_of_lfilter, negb_true_iff, bool_decide_eq_false, Hleft, Hst. tauto.
    + intros x. by rewrite elem_of_sort_str.
    + intros Hb. apply bool_decide_eq_false in Hb. by apply Hgrace.
  - cbn [f f_interrupted f_stuck]. rewrite bool_decide_eq_true. split; [by intros ->|]. intros E. destruct left as [|x l]; [done|]. exfalso.
    assert (x ∈ sort_str (x :: l)) as Hx by (apply elem_of_sort_str; set_solver). rewrite E in Hx. by apply elem_of_nil in Hx.
Qed.

(** C7: When a check finds model calls of a waiting incident past its deadline, the
    stop is forced in bounded time: each of them is killed, once, and nothing else;
    the incident leaves the table; every run of its tree that the store has is over;
    and one record is kept: it names as killed the calls that the registry no longer
    named when the wait ended, as stuck those it still did, and a wait that left any
    had lasted the whole grace. *)
Theorem forced_stop_ends_the_tree i e elapsed live s (w : W) : registry_reads -> runs_save -> kills_logged ->
  objs s !! i = Some e -> is_Some (oget (i_root e) (table s)) -> List.filter is_inference live <> [] -> i_deadline e <= elapsed ->
  exists f s' w', act fmt_g UNWIND_FUEL i elapsed live s w = (Ok Fired, (s', w')) /\
    table s' = opop (i_root e) (table s) /\ fired s' = fired s ++ [f] /\ (forall rid, rid ∈ i_runs e -> over w' rid) /\
    killed w' = rev (map e_step (List.filter is_inference live)) ++ killed w /\ forced_as e (List.filter is_inference live) w f.
Proof.
  intros Hr Hs Hk He [j Ht] Hn Hd. unfold act. rewrite He, Ht. rewrite bool_decide_eq_false_2 by done. rewrite (proj2 (Z.ltb_ge _ _) Hd).
  destruct (fire_ends e (List.filter is_inference live) elapsed w Hr Hs Hk) as (f & w' & -> & Ho & Hkw & Hf). by eexists f, _, w'.
Qed.

(** ** Every incident is decided *)

(** Every deadline has passed. *)
Definition late (s : switch) (w : W) : Prop := forall i e, objs s !! i = Some e -> i_deadline e <= mono w - i_armed e.
(** The thread goes on while time does; nobody arms. *)
Inductive alone : state -> state -> Prop :=
  | Alone st s t w w' : watch fmt_g UNWIND_FUEL st (mk_state s t w) -> mono (world st) <= mono w' -> alone st (mk_state s t w').

(** Where the thread stands in its decision: what the rounds have still to look at. *)
Definition in_round (st : state (W := W)) (l : list nat) : Prop := forall root i, incident_at (sw st) root i -> i ∈ l.
Definition progress (n : nat) (st : state (W := W)) : Prop :=
  match thread st with
  | Off => table (sw st) = []
  | Head => table (sw st) = [] \/ (2 * length (table (sw st)) + 3 <= n)%nat
  | Round l => in_round st l /\ (2 * length l + 2 <= n)%nat \/ (2 * length l + 2 * length (table (sw st)) + 4 <= n)%nat
  | Looked i elapsed live l =>
      (exists e, objs (sw st) !! i = Some e /\ i_deadline e <= elapsed) /\ in_round st (i :: l) /\ (2 * length l + 3 <= n)%nat \/
      (2 * length l + 2 * length (table (sw st)) + 5 <= n)%nat
  end.
Lemma opop_length root (l : list (string * nat)) : (length (opop root l) <= length l)%nat.
Proof. apply length_opop. Qed.

Lemma in_table root i (s : switch) : NoDup (okeys (table s)) -> (root, i) ∈ table s -> incident_at s root i.
Proof. intros Hn Hi. by apply NoDup_oget. Qed.
(** Acting on an incident that is late takes it from the table. *)
Lemma act_decides fuel i elapsed live s (w : W) r s' w' e : switch_ok s -> act fmt_g fuel i elapsed live s w = (r, (s', w')) ->
  objs s !! i = Some e -> i_deadline e <= elapsed -> objs s' = objs s /\ table s' = opop (i_root e) (table s).
Proof.
  intros Hok Ha He Hd. destruct (act_inv _ _ _ _ _ _ _ _ _ _ Ha) as [(-> & _ & Hor)|(e' & He' & Ho & Ht & _)].
  - split; [done|]. destruct (Hor e He) as [?|Hn]; [lia|]. by rewrite oget_opop_None.
  - rewrite He in He'. injection He' as <-. by split.
Qed.

Definition deciding (n : nat) (st : state (W := W)) : Prop := switch_ok (sw st) /\ late (sw st) (world st) /\ progress n st.
Lemma alone_decides n st st' : registry_reads -> alone st st' -> deciding (S n) st -> deciding n st'.
Proof.
  intros Hr Ha (Hok & Hlate & Hp). destruct Ha as [st s t w w' Hw Hm].
  assert (watched st -> switch_ok s) as Hok' by (intros Hwd; by apply (watch_watched fmt_g UNWIND_FUEL _ _ Hw)).
  assert (objs s = objs (sw st)) as Hobjs.
  { inversion Hw as [| | | |s0 w0 i elapsed live l r s' w1 Ha|]; subst; try done. cbn. by destruct (act_inv _ _ _ _ _ _ _ _ _ _ Ha) as [(-> & _)|(e & _ & -> & _)]. }
  assert (late s w') as Hl by (intros i e He; rewrite Hobjs in He; specialize (Hlate i e He); lia).
  inversion Hw as [s0 w0 Ht|s0 w0 Ht|s0 w0 i l elapsed live Hlook|s0 w0 i l x Hlook|s0 w0 i elapsed live l r s' w1 Ha|s0 w0]; subst; cbn [sw world thread] in *; split_and!; cbn [sw world]; try done.
  - cbn in *. destruct Hp as [?|Hp]; [done|]. left. unfold in_round. cbn. rewrite length_map. split; [|lia]. intros root i Hi. apply oget_Some_elem in Hi.
    by apply (list_elem_of_fmap_2 snd) in Hi.
  - cbn in *. unfold look in Hlook. destruct (objs s !! i) as [e|] eqn:E; [|done]. destruct (inflight (i_runs e) w) as [live'|]; [|done]. injection Hlook as <- <-.
    destruct Hp as [[Hin Hp]|Hp]; [left; split_and!; [exists e; split; [done|exact (Hlate i e E)]|done|lia]|right; lia].
  - cbn in *. destruct Hp as [[Hin Hp]|Hp]; [left|right; lia]. split; [|lia]. intros root j Hj. specialize (Hin root j Hj). apply elem_of_cons in Hin as [->|Hin]; [|done].
    destruct (so_root s Hok root i Hj) as (e & He & _). unfold look in Hlook. rewrite He in Hlook. cbn in Hlook. specialize (Hr (i_runs e) w). by destruct (inflight (i_runs e) w).
  - destruct (act_inv _ _ _ _ _ _ _ _ _ _ Ha) as [(-> & _)|(e & _ & Ho & Htab & _)]; [done|].
    destruct (drop_ok (i_root e) s0 Hok) as [Hk Hro]. split; [by rewrite Htab|]. intros root j Hj. unfold incident_at in Hj. rewrite Htab in Hj. rewrite Ho. by apply Hro.
  - cbn in *. destruct Hp as [((e & He & Hd) & Hin & Hp)|Hp].
    + destruct (act_decides _ _ _ _ _ _ _ _ _ _ Hok Ha He Hd) as [_ Htab]. left. split; [|lia]. intros root j Hj. unfold incident_at in Hj. cbn in Hj. rewrite Htab, oget_opop in Hj.
      case_decide as Hroot; [done|]. specialize (Hin root j Hj). apply elem_of_cons in Hin as [->|Hin]; [|done]. destruct (so_root s0 Hok root i Hj) as (e' & He' & Hr'). congruence.
    + right. destruct (act_inv _ _ _ _ _ _ _ _ _ _ Ha) as [(-> & _)|(e & _ & _ & Htab & _)]; [lia|]. rewrite Htab. pose proof (opop_length (i_root e) (table s0)). lia.
  - cbn in *. destruct Hp as [[Hin Hp]|Hp]; [left|right; lia]. destruct (table s) as [|[root i] l] eqn:E; [done|]. exfalso.
    assert (i ∈ []) as Hi; [|by apply elem_of_nil in Hi]. apply (Hin root). unfold incident_at. cbn. rewrite E. cbn. by rewrite decide_True.
Qed.

(** C8: Once every deadline has passed and while nobody arms, the thread decides
    every incident it holds (stopped, or its stop forced) within two rounds: after
    a number of moves bounded by the incidents of the table and of the round in
    progress the table is empty, and until then the thread can always move. *)
Theorem armed_stop_is_decided (w0 : W) st : registry_reads -> rtc (step fmt_g UNWIND_FUEL) (initial w0) st -> late (sw st) (world st) ->
  (thread st <> Off -> exists st', alone st st') /\
  forall n st', nsteps alone n st st' ->
    (2 * length (match thread st with Round l => l | Looked _ _ _ l => l | _ => [] end) + 2 * length (table (sw st)) + 5 <= n)%nat -> table (sw st') = [].
Proof.
  intros Hr Hreach Hl. assert (watched st) as [Hok Ht].
  { apply (rtc_preserves (step fmt_g UNWIND_FUEL) watched (initial w0) st); [intros; by eapply step_watched| |done]. split; [|done]. split; [by constructor|done]. }
  split.
  - intros Hoff. destruct st as [s t w]. cbn [thread] in Hoff. destruct t as [| |[|i l]|i elapsed live l]; [done| | | |].
    + destruct (decide (table s = [])) as [E|E]; [exists (mk_state s Off w)|exists (mk_state s (Round (map snd (table s))) w)]; apply (Alone _ _ _ w w); [by constructor|cbn; lia|by constructor|cbn; lia].
    + exists (mk_state s Head w). apply (Alone _ _ _ w w); [by constructor|cbn; lia].
    + destruct (look i s w) as [[elapsed live]|x] eqn:E; [exists (mk_state s (Looked i elapsed live l) w)|exists (mk_state s (Round l) w)]; apply (Alone _ _ _ w w); [by constructor|cbn; lia|by econstructor|cbn; lia].
    + destruct (act fmt_g UNWIND_FUEL i elapsed live s w) as [r [s' w']] eqn:E. exists (mk_state s' (Round l) w). apply (Alone _ _ _ w' w); [by econstructor|cbn; lia].
  - intros n st' Hn Hb. assert (deciding n st) as Hd.
    { split_and!; [done..|]. unfold progress. destruct (thread st) as [| |l|i elapsed live l]; cbn in *; [|right; lia..]. destruct (table (sw st)); [done|]. by destruct Ht. }
    enough (deciding 0 st') as (_ & _ & Hp).
    { unfold progress in Hp. destruct (thread st') as [| |l|i elapsed live l]; [done|destruct Hp; [done|lia]|destruct Hp as [[_ ?]|?]; lia|destruct Hp as [(_ & _ & ?)|?]; lia]. }
    clear Hb Hl Ht Hok Hreach. revert Hd. induction Hn as [|n x y z Hxy _ IH]; [done|]. intros Hd. apply IH. by eapply alone_decides.
Qed.
End Ends.

(** ** The Stop kill switch: runs

    A host in memory with a registry of executing calls and a clock, the
    witnesses, and the second Stop whose calls nobody watches. *)

(** ** A host with more state beside it *)

Section Beside.
Context {W X : Type} `{H : HostOps W}.
Definition beside {A} (m : M W A) : M (W * X) A := fun s => let '(r, w) := m s.1 in (r, (w, s.2)).
#[export] Instance host_beside : HostOps (W * X) := {
  handle := handle;
  load i s := load i s.1;
  save r := beside (save r);
  list_runs := (fun f st q n s => f st q n s.1) <$> list_runs;
  list_due_wait_until := (fun f t n s => f t n s.1) <$> list_due_wait_until;
  list_children := (fun f p s => f p s.1) <$> list_children;
  list_event_waiters := (fun f k n s => f k n s.1) <$> list_event_waiters;
  list_mailbox_runs := (fun f k s => f k s.1) <$> list_mailbox_runs;
  next_wait_deadline := (fun f s => f s.1) <$> next_wait_deadline;
  is_paused_vars := is_paused_vars;
  resolve i := beside (resolve i);
  rt_resume h i k p := beside (rt_resume h i k p);
  rt_tick h i n := beside (rt_tick h i n);
  rt_node_traces h i s := rt_node_traces h i s.1;
  pause_run i r := beside (pause_run i r);
  resume_run i := beside (resume_run i);
  cancel_run i r := beside (cancel_run i r);
  ledger_fail r a b c := beside (ledger_fail r a b c);
  utc_now_iso := utc_now_iso;
  inline_run_active i s := inline_run_active i s.1;
  is_interrupted_voice_stream_wait := is_interrupted_voice_stream_wait;
  close_interrupted_voice_stream a b := beside (close_interrupted_voice_stream a b);
  event_wait_key := event_wait_key;
  close_live_state r := beside (close_live_state r);
  stream_run r := beside (stream_run r);
  maybe_auto_compact r := beside (maybe_auto_compact r);
}.
End Beside.

(** ** A registry and a clock *)

Record engine := mk_engine { executing : list effect; kills_done : list string; clock : Z }.
Abbreviation host := (mem * engine)%type.
Definition on_engine (f : engine -> engine) : M host unit := fun s => (Ok tt, (s.1, f s.2)).
(** A call whose step is ["native"] is blocked where no kill reaches it. *)
#[export] Instance engine_ops : KillOps host := {
  inflight ids s := Ok (List.filter (fun e => bool_decide (e_run e ∈ ids)) (executing s.2));
  kill x _ := fun s =>
    let e := s.2 in
    (Ok (mk_kill x true None),
     (s.1, mk_engine (if String.eqb x "native" then executing e else List.filter (fun c => negb (String.eqb (e_step c) x)) (executing e)) (x :: kills_done e) (clock e)));
  mono s := clock s.2;
  wall s := clock s.2;
  pause_for t := on_engine (fun e => mk_engine (executing e) (kills_done e) (clock e + t));
  kill_settings _ := Ok None;
  append_status r k f := fun s => (Ok tt, s);
}.
Lemma mem_find_put r l : mem_find (run_id r) (mem_put r l) = Some r.
Proof.
  unfold mem_find. induction l as [|q l IH]; cbn; [by rewrite String.eqb_refl|]. destruct (String.eqb_spec (run_id q) (run_id r)) as [E|E]; cbn; [by rewrite String.eqb_refl|].
  destruct (String.eqb_spec (run_id q) (run_id r)); done.
Qed.
Lemma mem_find_put_other r l j : j <> run_id r -> mem_find j (mem_put r l) = mem_find j l.
Proof.
  intros Hj. unfold mem_find. induction l as [|q l IH]; cbn.
  - destruct (String.eqb_spec (run_id r) j); [congruence|done].
  - destruct (String.eqb_spec (run_id q) (run_id r)) as [E|E]; cbn.
    + rewrite E. by destruct (String.eqb_spec (run_id r) j); [congruence|].
    + by rewrite IH.
Qed.
#[export] Instance engine_laws : KillLaws host.
Proof.
  unshelve refine {| killed := fun s => kills_done s.2 |}; try done.
  - intros r [m e] _. change (Ok (mem_find (run_id r) (mem_put r (m_runs m))) = Ok (Some r)). by rewrite mem_find_put.
  - intros r [m e] j Hj. change (Ok (mem_find j (mem_put r (m_runs m))) = Ok (mem_find j (m_runs m))). by rewrite mem_find_put_other.
  - intros i [m e] r H. assert (mem_find i (m_runs m) = Some r) as Hf by (by injection H). apply find_some in Hf as [_ Hf]. by apply String.eqb_eq in Hf.
Defined.

(** ** A stop that has to be forced *)

Definition call (rid step type : string) : effect := mk_effect rid step type [].
(** A cancelled run whose model call and tool go on, and the root's child. *)
Definition decoding : host :=
  (mem_of [sample_run "root" CANCELLED None None; sample_run "kid" RUNNING None (Some "root"); sample_run "late" RUNNING None (Some "root")],
   mk_engine [call "kid" "s1" "llm_call"; call "kid" "t1" "tool_calls"] [] 0).
Definition at_time (t : Z) (w : host) : host := (w.1, mk_engine (executing w.2) (kills_done w.2) t).
Definition seconds (d : Z) : string := str_of_Z (d / second).
Definition tree : incident := mk_incident "root" ["root"; "kid"] DEFAULT_DEADLINE 0 "1970-01-01T00:00:00+00:00" None.
Definition armed : switch := mk_switch [tree] [("root", 0%nat)] [].
Abbreviation later t := (at_time (t * second) decoding).

Example arm_enters : arm "root" ["root"; "kid"] None decoding (mk_switch [] [] []) = Ok (Some 0%nat, armed).
Proof. by vm_compute. Qed.
Lemma reads : registry_reads (W := host).
Proof. done. Qed.
Lemma saves : runs_save (W := host).
Proof. done. Qed.

Lemma logged : kills_logged (W := host).
Proof. done. Qed.
Lemma forced_stop_ends_the_tree_witness :
  let live := [call "kid" "s1" "llm_call"; call "kid" "t1" "tool_calls"] in
  List.filter is_inference live = [call "kid" "s1" "llm_call"] /\
  exists f s' w', act seconds UNWIND_FUEL 0 DEFAULT_DEADLINE live armed (later 10) = (Ok Fired, (s', w')) /\
    table s' = opop (i_root tree) (table armed) /\ fired s' = fired armed ++ [f] /\ (forall rid, rid ∈ i_runs tree -> over w' rid) /\
    killed w' = rev (map e_step (List.filter is_inference live)) ++ killed (later 10) /\ forced_as seconds tree (List.filter is_inference live) (later 10) f.
Proof.
  split; [by vm_compute|].
  apply (forced_stop_ends_the_tree seconds 0 tree DEFAULT_DEADLINE [call "kid" "s1" "llm_call"; call "kid" "t1" "tool_calls"] armed (later 10)).
  - exact reads.
  - exact saves.
  - exact logged.
  - done.
  - by eexists.
  - done.
  - done.
Defined.
(** The tool goes on, the model call does not. *)
Example tool_goes_on : executing (act seconds UNWIND_FUEL 0 DEFAULT_DEADLINE (executing decoding.2) armed (later 10)).2.2.2 = [call "kid" "t1" "tool_calls"].
Proof. by vm_compute. Qed.

(** The states of a stop from its arming to the moves after the deadline. *)
Abbreviation st t th := (mk_state armed th (later t)).
Lemma armed_steps t th : 0 <= t -> rtc (step seconds UNWIND_FUEL) (mk_state armed Head decoding) (mk_state armed th decoding) ->
  rtc (step seconds UNWIND_FUEL) (initial decoding) (st t th).
Proof.
  intros Ht Hs. eapply rtc_l; [apply (StepArm seconds UNWIND_FUEL _ Off decoding "root" ["root"; "kid"] None (Some 0%nat) armed arm_enters)|].
  etrans; [exact Hs|]. apply rtc_once. apply StepWorld. cbn. unfold second. lia.
Qed.
Lemma no_stop_unwatched_witness :
  (table armed <> [] -> Head <> Off) /\ forall root i, incident_at armed root i -> exists e, objs armed !! i = Some e /\ i_root e = root.
Proof. apply (no_stop_unwatched seconds UNWIND_FUEL decoding (st 10 Head)). by apply armed_steps. Defined.

Lemma armed_stop_is_decided_witness :
  (Head <> Off -> exists st', alone seconds (st 10 Head) st') /\
  forall n st', nsteps (alone seconds) n (st 10 Head) st' -> (7 <= n)%nat -> table (sw st') = [].
Proof.
  apply (armed_stop_is_decided seconds decoding (st 10 Head)).
  - exact reads.
  - by apply armed_steps.
  - intros [|i] e; [|done]. intros [= <-]. by vm_compute.
Defined.

Abbreviation live_calls := [call "kid" "s1" "llm_call"; call "kid" "t1" "tool_calls"].
Lemma only_late_inference_is_killed_witness :
  exists st0 i e0 live c, rtc (step seconds UNWIND_FUEL) (initial decoding) st0 /\
    rtc (step seconds UNWIND_FUEL) st0 (st 10 (Looked 0%nat DEFAULT_DEADLINE live_calls [])) /\
    objs (sw st0) !! i = Some e0 /\ inflight (i_runs e0) (world st0) = Ok live /\ c ∈ live /\ e_step c = "s1" /\ e_type c = "llm_call" /\
    i_deadline e0 <= mono (world st0) - i_armed e0.
Proof.
  set (next := act seconds UNWIND_FUEL 0 DEFAULT_DEADLINE live_calls armed (later 10)).
  apply (only_late_inference_is_killed seconds UNWIND_FUEL decoding (st 10 (Looked 0%nat DEFAULT_DEADLINE live_calls [])) (mk_state next.2.1 (Round []) next.2.2) "s1").
  - etrans; [exact (armed_steps 10 Head ltac:(lia) (rtc_refl _ _))|]. eapply rtc_l; [by apply StepWatch, WatchBegins; discriminate|]. apply rtc_once, StepWatch, WatchLooks. by vm_compute.
  - apply (WatchActs _ _ _ _ _ _ _ _ next.1). change (next = (next.1, (next.2.1, next.2.2))). clearbody next. by destruct next as [r [s' w']].
  - by vm_compute; left.
  - by apply (bool_decide_unpack _); vm_compute.
Defined.

(** ** The second Stop *)

(** Between the two halves of a check that finds nothing, a second Stop brings a
    run whose model call is executing; the check then drops the incident of both. *)
Definition quiet_tree : host := (decoding.1, mk_engine [call "late" "s9" "llm_call"] [] second).
Definition second_stop : res (option nat * switch) := arm "root" ["root"; "kid"; "late"] None quiet_tree armed.
Lemma second_stop_unwatched :
  look 0 armed quiet_tree = Ok (second, []) /\
  exists s1, second_stop = Ok (Some 0%nat, s1) /\
    look 0 s1 quiet_tree = Ok (second, [call "late" "s9" "llm_call"]) /\
    act seconds UNWIND_FUEL 0 second [] s1 quiet_tree = (Ok Stopped, (mk_switch (objs s1) [] [], quiet_tree)).
Proof. split; [by vm_compute|]. eexists. split; [by vm_compute|]. split; by vm_compute. Qed.
