(* ===== verification/Passwords.v ===== *)
(** * Passwords

    [passwords.py]: the strength rule, and the hash of a password with its
    verification. [hashlib.scrypt] is an argument, which may raise; it takes the text
    whose UTF-8 bytes the code digests, the salt, the three costs and the length of
    the key. The limits on sign-in attempts of the same file are SignInLimiter. *)

From S2P Require Import Prelude PyStr PyVal PyNum PyText.

Definition SCRYPT_N : Z := 65536.
Definition SCRYPT_R : Z := 8.
Definition SCRYPT_P : Z := 1.
Definition DKLEN : Z := 32.
Definition MIN_LENGTH : Z := 10.
Definition MIN_DISTINCT : Z := 5.
Definition MAX_LENGTH : Z := 256.

Definition COMMON : list string :=
  [ "1234567890"; "12345678910"; "0123456789"; "qwertyuiop"; "1q2w3e4r5t"; "password1"; "password12";
    "password123"; "password1234"; "passw0rd123"; "iloveyou12"; "qwerty1234"; "qwerty12345";
    "abc1234567"; "abcd123456"; "letmein123"; "welcome123"; "admin12345"; "administrator";
    "adminadmin"; "changeme123"; "trustno1234"; "football123"; "baseball123"; "superman123";
    "1qaz2wsx3edc"; "zaq12wsxcde"; "qazwsxedc123"; "asdfghjkl1"; "zxcvbnm123"; "princess123";
    "sunshine123"; "monkey12345"; "dragon12345"; "master12345"; "starwars123"; "whatever123";
    "abstractgateway"; "abstractframework"; "gatewayadmin"; "mypassword"; "mypassword1";
    "secretpassword"; "passwordpassword"; "correcthorsebatterystaple" ].

Definition distinct_chars (s : string) : Z := Z.of_nat (length (remove_dups (String.list_ascii_of_string s))).
Definition password_problem (pw account : string) : option string :=
  let low := lower pw in
  let acct := lower (strip account) in
  if len pw <? MIN_LENGTH then Some ("Use at least " +:+ str_of_Z MIN_LENGTH +:+ " characters.")
  else if MAX_LENGTH <? len pw then Some ("Use at most " +:+ str_of_Z MAX_LENGTH +:+ " characters.")
  else if distinct_chars pw <? MIN_DISTINCT then Some ("Use at least " +:+ str_of_Z MIN_DISTINCT +:+ " different characters.")
  else if negb (String.eqb acct "") && (3 <=? len acct) && contains acct low && (len low - len acct <? MIN_LENGTH)
  then Some "Don't build the password around the account name."
  else if bool_decide (sfilter (fun c => negb (Ascii.eqb c " ")) low ∈ COMMON)
  then Some "That password is too well known; choose another."
  else None.

Section Passwords.
Context (scrypt : string -> string -> Z -> Z -> Z -> Z -> res string).

Definition hash_password (password salt : string) : res string :=
  key <== scrypt password salt SCRYPT_N SCRYPT_R SCRYPT_P DKLEN;
  Ok ("scrypt$" +:+ str_of_Z SCRYPT_N +:+ "$" +:+ str_of_Z SCRYPT_R +:+ "$" +:+ str_of_Z SCRYPT_P +:+ "$" +:+ hex salt +:+ "$" +:+ hex key).

(** Any exception of the body answers [False]. *)
Definition verify_password (password password_hash : string) : bool :=
  match splitn 5 "$" password_hash with
  | [scheme; n_raw; r_raw; p_raw; salt_hex; key_hex] =>
      if negb (String.eqb scheme "scrypt") then false
      else
        match int_of_str n_raw, int_of_str r_raw, int_of_str p_raw with
        | Some n, Some r, Some p =>
            if (n <? 16384) || (1048576 <? n) || (r <? 1) || (32 <? r) || (p <? 1) || (16 <? p) then false
            else
              match fromhex key_hex, fromhex salt_hex with
              | Some expected, Some salt =>
                  let dklen := if len expected =? 0 then DKLEN else len expected in
                  match scrypt password salt n r p dklen with Ok actual => String.eqb actual expected | Raise _ => false end
              | _, _ => false
              end
        | _, _, _ => false
        end
  | _ => false
  end.

(** The key has the length that was asked for. *)
Definition key_length : Prop := forall pw salt n r p k key, scrypt pw salt n r p k = Ok key -> len key = k.

(** What is hashed verifies, and another password passes exactly when it digests
    alike with the same salt; the cost of the hash is within the bounds a
    verification accepts. *)
Theorem password_hash_verifies pw salt h : key_length -> hash_password pw salt = Ok h ->
  verify_password pw h = true /\
  forall t, verify_password t h = true <->
    scrypt t salt SCRYPT_N SCRYPT_R SCRYPT_P DKLEN = scrypt pw salt SCRYPT_N SCRYPT_R SCRYPT_P DKLEN.
Proof.
  intros Hlen. unfold hash_password. destruct (scrypt pw salt _ _ _ _) as [key|e] eqn:Hd; [|done]. cbn [rbind]. intros [= <-].
  pose proof (Hlen _ _ _ _ _ _ _ Hd) as Hk.
  match goal with |- context[verify_password pw ?h] => set (stored := h) end.
  assert (forall t, verify_password t stored =
    match scrypt t salt SCRYPT_N SCRYPT_R SCRYPT_P DKLEN with Ok actual => String.eqb actual key | Raise _ => false end) as Hv.
  { intros t. unfold verify_password. cbn [splitn].
    assert (forall s x, has_char "$" s = false -> split1 "$" (s +:+ "$" +:+ x) = Some (s, x)) as H2
      by (intros s x; apply split1_app).
    assert (forall x, split1 "$" ("scrypt$" +:+ x) = Some ("scrypt", x)) as H1 by (intros x; by apply (split1_app "$" "scrypt")).
    unfold stored. rewrite H1, !H2 by (apply hex_no_dollar || by vm_compute).
    change (int_of_str (str_of_Z SCRYPT_N)) with (Some SCRYPT_N). change (int_of_str (str_of_Z SCRYPT_R)) with (Some SCRYPT_R).
    change (int_of_str (str_of_Z SCRYPT_P)) with (Some SCRYPT_P). cbn [String.eqb]. rewrite !fromhex_hex, Hk. done. }
  split.
  - rewrite Hv, Hd. apply String.eqb_refl.
  - intros t. rewrite Hv, <- Hd. destruct (scrypt t salt _ _ _ _) as [d'|]; [|by rewrite Hd].
    rewrite Hd, String.eqb_eq. split; [by intros ->|by intros [= ->]].
Qed.
End Passwords.


(** A toy digest of 32 characters. *)
Definition pad_32 : string := "................................".
Definition toy_scrypt (t s : string) (n r p k : Z) : res string :=
  if k =? DKLEN then Ok (stake 32 (t +:+ s +:+ pad_32)) else Raise (ValueError "dklen").
Lemma length_stake_enough n s : (n <= String.length s)%nat -> String.length (stake n s) = n.
Proof. revert s. induction n as [|n IH]; intros [|c s] H; simpl in *; [done|done|lia|]. rewrite IH; lia. Qed.
#[local] Arguments stake : simpl never.
Lemma toy_key_length : key_length toy_scrypt.
Proof.
  intros pw salt n r p k key. unfold toy_scrypt. destruct (Z.eqb_spec k DKLEN) as [->|]; [|done]. intros [= <-].
  unfold len. rewrite length_stake_enough; [done|]. rewrite !length_sapp. change (String.length pad_32) with 32%nat. lia.
Qed.
Definition good_hash : string :=
  match hash_password toy_scrypt "four words are good" "sa" with Ok h => h | Raise _ => "" end.
Lemma password_hash_verifies_witness :
  password_problem "four words are good" "alice" = None /\ verify_password toy_scrypt "four words are good" good_hash = true /\
  verify_password toy_scrypt "four words are bad" good_hash <> true.
Proof.
  destruct (password_hash_verifies toy_scrypt "four words are good" "sa" good_hash toy_key_length) as [H1 H2]; [by vm_compute|].
  split_and!; [by vm_compute|done|]. by rewrite H2.
Defined.
