(* ===== verification/AdminAccounts.v ===== *)
(** * The accounts page

    [admin_accounts.py] and the routes of [routes/gateway.py] over it: users and
    entities in one list, their Active switch, their archive, and the edit of an
    account. The functions compose the operations of UserRegistry, which are atomic,
    with the file of suspended entities and with the entities themselves.

    Entities are the class [EntityOps]: what their registry lists, and the acts on
    one of them in the plane that holds it. An account's address and mailbox come
    from [email_view] of the same class. Writing the file of suspended entities does
    not fail. *)

From S2P Require Import Prelude PyStr PyVal PyNum PyText OrdDict IsoTime RunnerExec ToolGrants Principal Authorization EntityAccess Sessions UserRegistry.

(** What the page asks of the entities and of the mailboxes. *)
Class EntityOps (W : Type) := {
  (** [_registry().list_entities()] of the caller's plane. *)
  own_census : W -> res (list val);
  (** The caller's own directory, when it can be resolved. *)
  own_dir : W -> option string;
  (** The planes whose directory exists, in order: the directory (resolved), the
      text of its parent, its census. *)
  planes : W -> list (string * string * res (list val));
  (** The homes of each plane: the name, the manifest's [created_by]. *)
  manifests : W -> list (list (string * val));
  (** [entity_plane_for]: entering the plane that holds an entity. *)
  enter_plane : string -> M W unit;
  state_of : string -> W -> res val;
  set_entity_state : string -> string -> string -> M W unit;
  set_state : string -> string -> string -> M W unit;
  (** The home an own-time loop runs in, and its durable stop. *)
  home_dir : string -> W -> res string;
  stop_loop : string -> string -> string -> M W unit;
  sync_entity_workers : M W unit;
  email_view : GatewayPrincipal -> W -> res (val * val);
}.

Definition CANNOT_DEACTIVATE_SELF : string := "You can't deactivate your own account.".
Definition REASON_OWN_ARCHIVE : string := "You can't archive your own account.".
Definition REASON_ARCHIVED : string := "Archived accounts stay inactive: unarchive it first.".
Definition REASON_NOT_ARCHIVED : string := "This account isn't archived.".
Definition REASON_CREATOR_CONFIGURE (id : string) : string := "Only an admin or " +:+ id +:+ "'s creator can change its settings.".
Definition REASON_ENTITY_ROTATE : string :=
  "An entity has no token to rotate: its credential is discarded when it is created and no one holds it.".
Definition REASON_USER_MANAGE : string := "Only entities have a management page.".
Definition REASON_ENTITY_PASSWORD : string := "An entity has no password: it acts through its door, never through a sign-in form.".
Definition REASON_ENTITY_NO_HOME : string := "This entity's home is not on this gateway's runtime, so it can't be managed here.".
Definition REASON_LAST_ADMIN : string := "This is the last active admin account; make another account admin first.".
Definition REASON_ENTITY_OPENAI : string := "Entities have no key, so they never use the OpenAI API.".
Definition REASON_ADMIN_OPENAI : string := "Only an admin can change who may use the OpenAI API.".

(** ** Accounts *)

Definition same (p : GatewayPrincipal) (user tenant : string) : bool :=
  String.eqb (safe_name (user_id p)) (safe_name user) &&
  String.eqb (safe_principal_component (or_default (tenant_id p)) (Some "default"))
             (safe_principal_component (or_default tenant) (Some "default")).
Definition is_admin_record (a : GatewayUserRecord) : bool := bool_decide ("admin" ∈ map strip (a_roles a)).
(** An account that counts as an administrator who can sign in. *)
Definition enabled_admin (a : GatewayUserRecord) : bool := a_enabled a && is_admin_record a && negb (is_entity a).
Definition last_enabled_admin (a : GatewayUserRecord) (records : list GatewayUserRecord) : bool :=
  enabled_admin a && negb (existsb (fun o => negb (String.eqb (account_key o) (account_key a)) && enabled_admin o) records).
(** [_find_record] *)
Definition is_account (id tenant : string) (a : GatewayUserRecord) : bool :=
  String.eqb (a_user_id a) id && (String.eqb (a_tenant_id a) tenant || is_entity a).
Definition find_record (records : list GatewayUserRecord) (id tenant : string) : option GatewayUserRecord :=
  List.find (is_account id tenant) records.

(** [_act] *)
Record action := mk_action { available : bool; why : option string }.
Definition act_ (ok : bool) (reason : string) : action := mk_action ok (if ok then None else Some reason).
Definition free_act : action := mk_action true None.

(** A row; [None] of [r_created_by] is a row without the key. *)
Record row := mk_row {
  r_id : string; r_tenant : string; r_kind : string; r_role : string; r_own : bool; r_email : val; r_mailbox : val;
  r_runtime : string; r_active : bool; r_archived : bool; r_archived_at : val; r_state : val; r_created_by : option val;
  r_openai : bool; r_password_set : bool; r_name : val; r_actions : list (string * action)
}.

Section Accounts.
Context {W : Type} `{E : EntityOps W}.
Context (clk : nat -> Z) (sha256_hex : string -> string) (pbkdf2 : string -> string -> Z -> res string) (multi_user : bool).

(** The registry, the file of suspended entities, and the rest. *)
Record desk := mk_desk { d_reg : registry; d_marks : option content; d_world : W }.
Definition on_reg {A} (m : M registry A) : M desk A := fun d =>
  let '(r, w) := m (d_reg d) in (r, mk_desk w (d_marks d) (d_world d)).
Definition on_world {A} (m : M W A) : M desk A := fun d =>
  let '(r, w) := m (d_world d) in (r, mk_desk (d_reg d) (d_marks d) w).

(** [_now_iso], to the second. *)
Definition now_iso : M desk string := fun d =>
  (Ok (isoformat (clk (clock_reads (d_reg d)) / second * second)),
   mk_desk (mk_registry (users_file (d_reg d)) (S (clock_reads (d_reg d)))) (d_marks d) (d_world d)).

(** ** The file of suspended entities *)

Definition suspended_doc (d : desk) : dict := match d_marks d with Some (Json (VDict doc)) => doc | _ => [] end.
(** [_write_suspended] *)
Definition write_suspended (doc : dict) : M desk unit :=
  modify (fun d => mk_desk (d_reg d) (Some (Json (VDict doc))) (d_world d)).
(** [suspended_record] *)
Definition suspended_record (slug : string) (d : desk) : option dict := as_dict (get_ slug (suspended_doc d)).
Definition marked_archived (slug : string) (d : desk) : bool :=
  match suspended_record slug d with Some mark => truthy (get_ "archived" mark) | None => false end.
(** [_entity_is_archived] *)
Definition entity_is_archived (slug : string) (rec : option GatewayUserRecord) (d : desk) : bool :=
  match rec with Some a => a_archived a | None => false end || marked_archived slug d.
(** [_entity_archived_at] *)
Definition entity_archived_at (slug : string) (rec : option GatewayUserRecord) (d : desk) : val :=
  let mark := default [] (suspended_record slug d) in
  let marked := if truthy (get_ "archived" mark) then or_none (str_or (get_ "archived_at" mark) "") else VNone in
  match rec with Some a => if a_archived a then or_none (a_archived_at a) else marked | None => marked end.

(** ** The census of entities *)

Abbreviation homes := (list (string * dict)).
(** A summary that is listed: it names its entity and carries no error. *)
Definition listed (r : val) : option (string * dict) :=
  match r with
  | VDict h => if truthy (get_ "slug" h) && negb (truthy (get_ "error" h)) then Some (py_str (get_ "slug" h), h) else None
  | _ => None
  end.
(** [_entity_homes]: the homes, and a warning. *)
Definition entity_homes (w : W) : homes * option string :=
  match own_census w with
  | Raise x => ([], Some ("The entity list could not be read: " +:+ exn_msg x))
  | Ok rows => (fold_left (fun hs kv => oset kv.1 kv.2 hs) (omap listed rows) [], None)
  end.
(** [_all_entity_homes] *)
Definition add_plane (own : option string) (acc : homes * option string) (plane : string * string * res (list val)) : homes * option string :=
  let '(dir, parent, census) := plane in
  if bool_decide (own = Some dir) then acc
  else
    match census with
    | Raise x =>
        (acc.1, Some (match acc.2 with Some warning => warning +:+ " " | None => "" end
                      +:+ "The entities of " +:+ parent +:+ " could not be read: " +:+ exn_msg x))
    | Ok rows => (fold_left (fun hs kv => osetdefault kv.1 kv.2 hs) (omap listed rows) acc.1, acc.2)
    end.
Definition all_entity_homes (w : W) : homes * option string := fold_left (add_plane (own_dir w)) (planes w) (entity_homes w).
Definition homes_for (caller : GatewayPrincipal) (w : W) : homes * option string :=
  if is_admin caller then all_entity_homes w else entity_homes w.

(** [_entity_creators] *)
Definition creator_entry (created_by : val) : option dict :=
  match created_by with
  | VDict c => if truthy (get_ "user_id" c)
               then Some [("tenant_id", VStr (str_or (get_ "tenant_id" c) "default")); ("user_id", VStr (py_str (get_ "user_id" c)))]
               else None
  | _ => None
  end.
Definition entity_creators (w : W) : list (string * dict) :=
  fold_left (fun out kv => match creator_entry kv.2 with Some c => osetdefault kv.1 c out | None => out end) (concat (manifests w)) [].
(** [_creator] *)
Definition creator (slug : string) (home : option dict) (creators : list (string * dict)) : option dict :=
  match home with
  | Some h => match get_ "created_by" h with VDict c => Some c | _ => oget slug creators end
  | None => oget slug creators
  end.

(** ** Rows *)

Definition role_order (role : string) : Z :=
  if String.eqb role "admin" then 0 else if String.eqb role "user" then 1 else if String.eqb role "entity" then 2 else 3.
Definition row_leb (a b : row) : bool :=
  if role_order (r_role a) =? role_order (r_role b) then pair_leb (r_id a, r_tenant a) (r_id b, r_tenant b)
  else role_order (r_role a) <? role_order (r_role b).

(** Suspending and archiving, as the row of a user offers them. *)
Definition user_switches (a : GatewayUserRecord) (caller : GatewayPrincipal) (records : list GatewayUserRecord) : action * action :=
  if a_archived a then (act_ false REASON_ARCHIVED, act_ false REASON_ARCHIVED)
  else if same caller (a_user_id a) (a_tenant_id a) then (act_ false CANNOT_DEACTIVATE_SELF, act_ false REASON_OWN_ARCHIVE)
  else if last_enabled_admin a records then (act_ false REASON_LAST_ADMIN, act_ false REASON_LAST_ADMIN)
  else (free_act, free_act).
Definition user_row (a : GatewayUserRecord) (caller : GatewayPrincipal) (records : list GatewayUserRecord) (w : W) : res row :=
  view <== email_view (account_principal a "") w;
  let live := act_ (negb (a_archived a)) REASON_ARCHIVED in
  let '(suspend, archive) := user_switches a caller records in
  Ok (mk_row (a_user_id a) (a_tenant_id a) "user" (if is_admin_record a then "admin" else "user")
    (same caller (a_user_id a) (a_tenant_id a)) view.1 view.2 (runtime_of a) (a_enabled a && negb (a_archived a)) (a_archived a)
    (or_none (a_archived_at a)) VNone None (openai_api_allowed a) (nonempty (a_password_hash a)) (or_none (a_display_name a))
    [ ("openai_api", live); ("email", live); ("logs", free_act); ("workspace", live); ("preferences", live); ("rotate", live);
      ("password", live); ("manage", act_ false REASON_USER_MANAGE); ("configure", act_ false REASON_USER_MANAGE);
      ("archive", archive); ("unarchive", act_ (a_archived a) REASON_NOT_ARCHIVED); ("suspend", suspend) ]).

(** The state a summary tells. *)
Definition home_state (home : option dict) : val :=
  match home with
  | Some h => match get_ "state" h with VDict st => VStr (str_or (get_ "state" st) "awake") | _ => VNone end
  | None => VNone
  end.
Definition entity_email_view (rec : option GatewayUserRecord) (w : W) : res (val * val) :=
  match rec with
  | None => Ok (VNone, VDict [("state", VStr "not_connected"); ("address", VNone); ("provider", VNone); ("reason", VNone)])
  | Some a => email_view (account_principal a "") w
  end.
Definition entity_row (slug : string) (rec : option GatewayUserRecord) (home : option dict) (created_by : option dict) (d : desk) : res row :=
  let state := home_state home in
  let enabled := match rec with Some a => a_enabled a | None => true end in
  let has_home := bool_decide (is_Some home) in
  let archived := entity_is_archived slug rec d in
  view <== entity_email_view rec (d_world d);
  let live := act_ (negb archived) REASON_ARCHIVED in
  let managed := act_ (has_home && negb archived) (if archived then REASON_ARCHIVED else REASON_ENTITY_NO_HOME) in
  Ok (mk_row slug (match rec with Some a => a_tenant_id a | None => "default" end) "entity" "entity" false view.1 view.2
    (match rec with Some a => runtime_of a | None => slug end)
    (enabled && negb (bool_decide (state = VStr "paused")) && negb archived) archived (entity_archived_at slug rec d) state
    (Some (match created_by with Some c => VDict c | None => VNone end)) false false VNone
    [ ("openai_api", act_ false REASON_ENTITY_OPENAI); ("email", managed); ("logs", free_act); ("workspace", live);
      ("preferences", live); ("rotate", act_ false REASON_ENTITY_ROTATE); ("password", act_ false REASON_ENTITY_PASSWORD);
      ("manage", managed);
      ("configure", act_ (has_home && negb archived)
        (if archived then REASON_ARCHIVED else if has_home then REASON_CREATOR_CONFIGURE slug else REASON_ENTITY_NO_HOME));
      ("archive", live); ("unarchive", act_ archived REASON_NOT_ARCHIVED);
      ("suspend", act_ ((has_home || bool_decide (is_Some rec)) && negb archived) (if archived then REASON_ARCHIVED else REASON_ENTITY_NO_HOME)) ]).

Fixpoint rmap {A B} (f : A -> res B) (l : list A) : res (list B) :=
  match l with
  | [] => Ok []
  | x :: l => y <== f x; ys <== rmap f l; Ok (y :: ys)
  end.
Definition record_row (caller : GatewayPrincipal) (records : list GatewayUserRecord) (hs : homes) (creators : list (string * dict))
    (d : desk) (a : GatewayUserRecord) : res row :=
  if is_entity a
  then let home := oget (a_user_id a) hs in entity_row (a_user_id a) (Some a) home (creator (a_user_id a) home creators) d
  else user_row a caller records (d_world d).
(** A home whose entity has no account. *)
Definition homeless (records : list GatewayUserRecord) (kv : string * dict) : bool :=
  negb (existsb (fun a => is_entity a && String.eqb (a_user_id a) kv.1) records).
Definition listing (caller : GatewayPrincipal) (include_archived : bool) (records : list GatewayUserRecord) (d : desk) : res (list row * option string) :=
  let '(hs, warning) := homes_for caller (d_world d) in
  let creators := entity_creators (d_world d) in
  rows <== rmap (record_row caller records hs creators d) records;
  others <== rmap (fun kv => entity_row kv.1 None (Some kv.2) (creator kv.1 (Some kv.2) creators) d) (List.filter (homeless records) hs);
  let rows := rows ++ others in
  let rows := if include_archived then rows else List.filter (fun r => negb (r_archived r)) rows in
  Ok (py_sorted row_leb rows, warning).
Definition list_accounts (caller : GatewayPrincipal) (include_archived : bool) : M desk (list row * option string) :=
  records <- on_reg (list_users clk) ;;
  fun d => (listing caller include_archived records d, d).
(** [account_row] *)
Definition is_row (id tenant : string) (r : row) : bool :=
  String.eqb (r_id r) id && (String.eqb (r_tenant r) tenant || String.eqb (r_kind r) "entity").
Definition account_row (caller : GatewayPrincipal) (id tenant : string) : M desk (option row) :=
  '(rows, _) <- list_accounts caller true ;; ret (List.find (is_row id tenant) rows).

(** [list_my_accounts] *)
Definition with_action (k : string) (x : action) (r : row) : row :=
  mk_row (r_id r) (r_tenant r) (r_kind r) (r_role r) (r_own r) (r_email r) (r_mailbox r) (r_runtime r) (r_active r) (r_archived r)
    (r_archived_at r) (r_state r) (r_created_by r) (r_openai r) (r_password_set r) (r_name r) (oset k x (r_actions r)).
Definition mine_only (caller : GatewayPrincipal) (r : row) : row :=
  if is_admin caller then r else with_action "openai_api" (act_ false REASON_ADMIN_OPENAI) r.
Definition my_entity (caller : GatewayPrincipal) (slug : string) (home : dict) : option dict :=
  match get_ "created_by" home with
  | VDict c => if (if is_admin caller then same_account caller c else entity_visible_to multi_user (Some caller) slug (VDict c))
               then Some c else None
  | _ => None
  end.
Definition my_rows (caller : GatewayPrincipal) (include_archived : bool) (records : list GatewayUserRecord) (hs : homes) (d : desk) : res (list row) :=
  mine <== match List.find (fun a => same caller (a_user_id a) (a_tenant_id a)) records with
           | Some a => if negb (is_entity a) && negb (a_archived a)
                       then r <== user_row a caller records (d_world d); Ok [mine_only caller r]
                       else Ok []
           | None => Ok []
           end;
  let by_id := fold_left (fun out a => oset (a_user_id a) a out) (List.filter is_entity records) [] in
  entities <== rmap (fun p => r <== entity_row p.1.1 (oget p.1.1 by_id) (Some p.1.2) (Some p.2) d; Ok (mine_only caller r))
                 (omap (fun kv => pair kv <$> my_entity caller kv.1 kv.2) hs);
  Ok (py_sorted row_leb (mine ++ List.filter (fun r => include_archived || negb (r_archived r)) entities)).
Definition list_my_accounts (caller : GatewayPrincipal) (include_archived : bool) : M desk (list row * option string) :=
  records <- on_reg (list_users clk) ;;
  fun d =>
    let '(hs, warning) := entity_homes (d_world d) in
    (rows <== my_rows caller include_archived records hs d; Ok (rows, warning), d).
(** [my_account_ids] *)
Definition my_account_ids (caller : GatewayPrincipal) : M desk (list (string * string)) :=
  '(rows, _) <- list_my_accounts caller false ;; ret (map (fun r => (r_id r, or_else (r_tenant r) "default")) rows).

(** ** Suspending and resuming an entity *)

Definition missing (id : string) : exn := AccountError 404 "account_not_found" ("There is no account named " +:+ repr_str id +:+ " on this gateway.").
Definition actor_of (caller : GatewayPrincipal) : string := "person:" +:+ user_id caller.

(** [str((... or {}).get("state") or "awake")]; a missing home is [None]. *)
Definition read_state (slug : string) : M desk (option string) := fun d =>
  (match state_of slug (d_world d) with
   | Raise (KeyError _) => Ok None
   | Raise x => Raise x
   | Ok v => match py_or v (VDict []) with
             | VDict st => Ok (Some (str_or (get_ "state" st) "awake"))
             | _ => Raise (AttributeError "object has no attribute 'get'")
             end
   end, d).
(** [_suspend_entity] *)
Definition remember_state (slug before actor : string) : M desk unit :=
  doc <- gets suspended_doc ;;
  if dmem slug doc then ret tt
  else
    now <- now_iso ;;
    write_suspended (dset slug (VDict [ ("previous_state", VStr (if bool_decide (before ∈ ["awake"; "asleep"]) then before else "awake"));
                                        ("suspended_at", VStr now); ("by", VStr actor) ]) doc).
Definition suspend_entity (slug actor : string) : M desk unit :=
  before <- read_state slug ;;
  match before with
  | None => ret tt
  | Some before =>
      remember_state slug before actor ;;;
      if String.eqb before "paused" then ret tt
      else on_world (set_entity_state slug "paused" "Suspended from Accounts")
  end.
(** [_resume_entity] *)
Definition previous_state (stored : option val) : res string :=
  match stored with
  | None => Ok "awake"
  | Some v => match py_or v (VDict []) with
              | VDict entry => Ok (str_or (get_ "previous_state" entry) "awake")
              | _ => Raise (AttributeError "object has no attribute 'get'")
              end
  end.
Definition resume_entity (slug actor : string) : M desk unit :=
  doc <- gets suspended_doc ;;
  let stored := dget slug doc in
  (match stored with Some VNone | None => ret tt | Some _ => write_suspended (dpop slug doc) end) ;;;
  current <- read_state slug ;;
  if bool_decide (current = Some "paused")
  then previous <- of_res (previous_state stored) ;;
       on_world (set_state slug previous ("Resumed from Accounts [by " +:+ actor +:+ "]"))
  else ret tt.
(** [_mark_entity_archived] *)
Definition mark_entity_archived (slug : string) (archived : bool) (actor : string) : M desk unit :=
  doc <- gets suspended_doc ;;
  entry <- of_res (dict_of (get_ slug doc)) ;;
  if archived then
    t1 <- now_iso ;;
    t2 <- now_iso ;;
    let entry := setdefault "by" (VStr actor) (setdefault "suspended_at" (VStr t1) (setdefault "previous_state" (VStr "awake") entry)) in
    write_suspended (dset slug (VDict (dmerge entry [("archived", VBool true); ("archived_at", VStr t2); ("archived_by", VStr actor)])) doc)
  else
    match entry with
    | [] => ret tt
    | _ => write_suspended (dset slug (VDict (dpop "archived_by" (dpop "archived_at" (dpop "archived" entry)))) doc)
    end.
(** [_stop_entity_loop] *)
Definition stop_entity_loop (slug actor : string) : M desk unit := fun d =>
  match home_dir slug (d_world d) with
  | Raise _ => (Ok tt, d)
  | Ok dir => on_world (stop_loop dir "Archived from Accounts" actor) d
  end.

(** ** The switches *)

(** [_require_creator] *)
Definition require_creator (caller : GatewayPrincipal) (id : string) (hs : homes) : M desk unit := fun d =>
  let created_by := match oget id hs with
                    | Some h => get_ "created_by" h
                    | None => match oget id (entity_creators (d_world d)) with Some c => VDict c | None => VNone end
                    end in
  match configure_role (Some caller) created_by with Some _ => (Ok tt, d) | None => (Raise (missing id), d) end.
(** The row an operation answers. *)
Definition answer_row (caller : GatewayPrincipal) (id tenant : string) : M desk row :=
  o <- account_row caller id tenant ;;
  match o with Some r => ret r | None => raise (missing id) end.
Definition tenant_of (rec : option GatewayUserRecord) (tenant : string) : string :=
  match rec with Some a => a_tenant_id a | None => tenant end.
Definition enable (a : GatewayUserRecord) (b : bool) : M desk unit :=
  on_reg (update_user clk sha256_hex pbkdf2 (a_user_id a) (a_tenant_id a) None None (Some b) None None None None "" "") ;;; ret tt.
Definition archive (a : GatewayUserRecord) (b : bool) (actor : string) : M desk unit :=
  on_reg (set_archived clk (a_user_id a) (a_tenant_id a) b actor) ;;; ret tt.
Definition is_person (rec : option GatewayUserRecord) : bool := match rec with Some a => negb (is_entity a) | None => false end.

(** [set_active]: what is checked, and what is then done. *)
Definition active_checks (caller : GatewayPrincipal) (id : string) (active : bool) (tenant : string) : M desk (option GatewayUserRecord) :=
  records <- on_reg (list_users clk) ;;
  let rec := find_record records id tenant in
  (if is_admin caller then ret tt
   else if is_person rec then raise (missing id)
   else fun d => require_creator caller id (entity_homes (d_world d)).1 d) ;;;
  d <- get ;;
  if active && match rec with Some a => a_archived a | None => marked_archived id d end
  then raise (AccountError 409 "archived" (id +:+ " is archived: unarchive it first, then turn Active on."))
  else
    match rec with
    | Some a =>
        if is_entity a || active then ret rec
        else if same caller (a_user_id a) (a_tenant_id a) then raise (AccountError 409 "cannot_deactivate_self" CANNOT_DEACTIVATE_SELF)
        else if last_enabled_admin a records then raise (AccountError 409 "last_admin" REASON_LAST_ADMIN)
        else ret rec
    | None => ret rec
    end.
Definition switch_entity (caller : GatewayPrincipal) (id : string) (active : bool) (rec : option GatewayUserRecord) : M desk unit :=
  w <- gets d_world ;;
  let hs := (homes_for caller w).1 in
  let known := bool_decide (is_Some (oget id hs)) in
  if bool_decide (rec = None) && negb known then raise (missing id)
  else
    let in_home (m : M desk unit) := if known then on_world (enter_plane id) ;;; m else ret tt in
    let set_account b := match rec with Some a => enable a b | None => ret tt end in
    (if active then set_account true ;;; in_home (resume_entity id (actor_of caller))
     else in_home (suspend_entity id (actor_of caller)) ;;; set_account false) ;;;
    on_world sync_entity_workers.
Definition active_apply (caller : GatewayPrincipal) (id : string) (active : bool) (tenant : string) (rec : option GatewayUserRecord) : M desk row :=
  (match rec with
   | Some a => if is_entity a then switch_entity caller id active rec else enable a active
   | None => switch_entity caller id active rec
   end) ;;;
  answer_row caller id (tenant_of rec tenant).
Definition set_active (caller : GatewayPrincipal) (id : string) (active : bool) (tenant : string) : M desk row :=
  rec <- active_checks caller id active tenant ;; active_apply caller id active tenant rec.

Definition set_openai_api (caller : GatewayPrincipal) (id : string) (enabled : bool) (tenant : string) : M desk row :=
  records <- on_reg (list_users clk) ;;
  w <- gets d_world ;;
  match find_record records id tenant with
  | None =>
      if bool_decide (is_Some (oget id (entity_homes w).1)) then raise (AccountError 409 "entity_no_key" REASON_ENTITY_OPENAI)
      else raise (missing id)
  | Some a =>
      if is_entity a then raise (AccountError 409 "entity_no_key" REASON_ENTITY_OPENAI)
      else if a_archived a then raise (AccountError 409 "archived" REASON_ARCHIVED)
      else
        on_reg (update_user clk sha256_hex pbkdf2 (a_user_id a) (a_tenant_id a) None None None None None None (Some enabled) "" "") ;;;
        o <- account_row caller (a_user_id a) (a_tenant_id a) ;;
        match o with Some r => ret r | None => raise (missing id) end
  end.

(** [archive_account] *)
Definition archive_checks (caller : GatewayPrincipal) (id tenant : string) : M desk (option GatewayUserRecord * homes) :=
  records <- on_reg (list_users clk) ;;
  d <- get ;;
  let rec := find_record records id tenant in
  let hs := if is_person rec then [] else (homes_for caller (d_world d)).1 in
  if bool_decide (rec = None) && bool_decide (oget id hs = None) then raise (missing id)
  else
    (if is_admin caller then ret tt
     else if is_person rec then raise (missing id)
     else require_creator caller id hs) ;;;
    match rec with
    | Some a =>
        if is_entity a then
          if entity_is_archived id rec d then raise (AccountError 409 "already_archived" (id +:+ " is already archived.")) else ret (rec, hs)
        else if a_archived a then raise (AccountError 409 "already_archived" (a_user_id a +:+ " is already archived."))
        else if same caller (a_user_id a) (a_tenant_id a) then raise (AccountError 409 "cannot_archive_self" REASON_OWN_ARCHIVE)
        else if last_enabled_admin a records then raise (AccountError 409 "last_admin" REASON_LAST_ADMIN)
        else ret (rec, hs)
    | None => if entity_is_archived id rec d then raise (AccountError 409 "already_archived" (id +:+ " is already archived.")) else ret (rec, hs)
    end.
Definition archive_entity (caller : GatewayPrincipal) (id : string) (rec : option GatewayUserRecord) (hs : homes) : M desk unit :=
  let actor := actor_of caller in
  (if bool_decide (is_Some (oget id hs))
   then on_world (enter_plane id) ;;; suspend_entity id actor ;;; stop_entity_loop id actor
   else ret tt) ;;;
  mark_entity_archived id true actor ;;;
  (match rec with Some a => archive a true actor | None => ret tt end) ;;;
  on_world sync_entity_workers.
Definition archive_apply (caller : GatewayPrincipal) (id tenant : string) (p : option GatewayUserRecord * homes) : M desk row :=
  (match p.1 with
   | Some a => if is_entity a then archive_entity caller id p.1 p.2 else archive a true (actor_of caller)
   | None => archive_entity caller id p.1 p.2
   end) ;;;
  answer_row caller id (tenant_of p.1 tenant).
Definition archive_account (caller : GatewayPrincipal) (id tenant : string) : M desk row :=
  p <- archive_checks caller id tenant ;; archive_apply caller id tenant p.

Definition unarchive_account (caller : GatewayPrincipal) (id tenant : string) : M desk row :=
  records <- on_reg (list_users clk) ;;
  let rec := find_record records id tenant in
  let actor := actor_of caller in
  (if is_admin caller then ret tt
   else if is_person rec then raise (missing id)
   else fun d => require_creator caller id (entity_homes (d_world d)).1 d) ;;;
  d <- get ;;
  let not_archived := AccountError 409 "not_archived" REASON_NOT_ARCHIVED in
  (if is_person rec then
     match rec with
     | Some a => if a_archived a then archive a false actor else raise not_archived
     | None => ret tt
     end
   else if negb (entity_is_archived id rec d) then
     if bool_decide (rec = None) && bool_decide (oget id (homes_for caller (d_world d)).1 = None) then raise (missing id)
     else raise not_archived
   else
     mark_entity_archived id false actor ;;;
     match rec with Some a => archive a false actor | None => ret tt end) ;;;
  answer_row caller id (tenant_of rec tenant).
End Accounts.
Arguments desk : clear implicits.
#[global] Arguments mk_desk {W} _ _ _.
