(* ===== verification/AdminRoutes.v ===== *)
(** * The routes over the accounts

    [routes/gateway.py]: the creation and the edit of an account by an
    administrator, and the routes of the accounts page. A route's computation
    answers a reply or ends in an exception the framework turns into a 500; the
    audit lines and the closing of the onboarding window are left out. *)

From S2P Require Import Prelude PyStr PyVal PyNum PyText OrdDict IsoTime RunnerExec Principal Authorization EntityAccess Sessions UserRegistry Passwords AdminAccounts.

Inductive reply (A : Type) := Answer (a : A) | HttpError (status : Z) (detail : val).
Arguments Answer {A} _.
Arguments HttpError {A} _ _.
Definition detail (code m : string) : val := VDict [("reason_code", VStr code); ("message", VStr m)].
Definition admin_required : val := VStr "Admin principal required".

(** The exceptions that are a [ValueError]. *)
Definition is_value_error (x : exn) : bool :=
  match x with
  | ValueError _ | StaleResumeError _ | WorkspacePolicyError _ _ | OpenAIKeyError _ _ _ | AccountArchivedError _ | EntityPrincipalGuardError _ => true
  | _ => false
  end.

(** [GatewayUserCreateRequest], [GatewayUserUpdateRequest]. *)
Record create_request := mk_create {
  cr_user : string; cr_tenant : string; cr_email : option string; cr_roles : list string; cr_scopes : list string;
  cr_enabled : bool; cr_runtime : option string; cr_token : option string; cr_password : option string
}.
Record update_request := mk_update {
  up_email : option string; up_roles : option (list string); up_scopes : option (list string); up_enabled : option bool;
  up_runtime : option string; up_token : option string; up_rotate : bool
}.

(** ** Roles *)

Definition ACCOUNT_ROLES : list string := ["admin"; "user"].
Definition folded_role (r : string) : string := lower (strip r).
(** [_refuse_unknown_roles] *)
Definition unknown_roles (roles : list string) : list string :=
  map strip (List.filter (fun r => negb (String.eqb (strip r) "") && negb (bool_decide (folded_role r ∈ ACCOUNT_ROLES ++ ["entity"]))) roles).
Definition unknown_role_detail (unknown : list string) : val :=
  detail "unknown_role" (join ", " (map repr_str unknown) +:+
    " is not a role: an account is an admin or a member (roles " +:+ quoted "admin" +:+ " and " +:+ quoted "user" +:+ ").").
Definition roles_grant_admin (roles : list string) : bool := bool_decide ("admin" ∈ map strip roles).

Definition USER_ACCOUNTS_OFF_NON_ADMIN : string :=
  "This gateway runs with user accounts off, so a non-admin account could not sign in here: " +:+
  "without user accounts every signed-in person shares the operator's own runtime and settings, " +:+
  "which only an admin may change. Two ways forward: the gateway operator turns user accounts on " +:+
  "(each user then gets their own runtime), or give this account the admin role.".
Definition accounts_off_detail : val := detail "user_accounts_off_admin_only" USER_ACCOUNTS_OFF_NON_ADMIN.
Definition last_admin_detail (user action : string) : val :=
  detail "last_admin" ("'" +:+ user +:+ "' is the last enabled admin account on this gateway; " +:+ action +:+
    " it would leave no account that can sign in and administer users. Create or enable another admin account first.").
Definition entity_lane_detail : val :=
  VStr ("entity principals are created through /entities (an entity bearer must " +:+
        "not exist); the generic users lane does not mint role=entity accounts").

Section Routes.
Context {W : Type} `{E : EntityOps W}.
Context (clk : nat -> Z) (sha256_hex : string -> string) (pbkdf2 : string -> string -> Z -> res string) (multi_user : bool).
(** [gateway_user_auth_enabled()], and the scrypt of passwords. *)
Context (user_auth : bool) (scrypt : string -> string -> Z -> Z -> Z -> Z -> res string).

(** [_refuse_removing_last_admin]: the account that is refused, if it is. *)
Definition removing_last_admin (user tenant : string) : M (desk W) (option string) :=
  target <- on_reg (get_user clk user tenant) ;;
  match target with
  | None => ret None
  | Some t =>
      if negb (a_enabled t) || negb (roles_grant_admin (a_roles t)) then ret None
      else
        records <- on_reg (list_users clk) ;;
        let other o := negb (String.eqb (account_key o) (account_key t)) && a_enabled o && roles_grant_admin (a_roles o) && negb (is_entity o) in
        ret (if existsb other records then None else Some (a_user_id t))
  end.

(** [_refuse_non_admin_account_while_user_accounts_off] *)
Definition accounts_off (roles : list string) : bool := negb (user_auth || roles_grant_admin roles).

(** [gateway_admin_update_user], from its last check to its answer. *)
Definition update_write (user tenant : string) (p : update_request) (random salt : string) : M (desk W) (reply (GatewayUserRecord * option string)) :=
  let token := match up_token p with Some t => Some t | None => if up_rotate p then Some "" else None end in
  fun d =>
    match on_reg (update_user clk sha256_hex pbkdf2 user tenant (up_roles p) (up_scopes p) (up_enabled p) (up_runtime p) (up_email p) token None random salt) d with
    | (Ok a, d) => (Ok (Answer a), d)
    | (Raise x, d) =>
        (match x with
         | KeyError _ => Ok (HttpError 404 (VStr "Gateway user not found"))
         | EntityPrincipalGuardError m => Ok (HttpError 403 (VStr m))
         | AccountArchivedError _ => Ok (HttpError 409 (detail "archived" (exn_msg x)))
         | _ => if is_value_error x then Ok (HttpError 400 (VStr (exn_msg x))) else Raise x
         end, d)
    end.
Definition gateway_admin_update_user (caller : GatewayPrincipal) (user tenant : string) (p : update_request) (random salt : string) :
    M (desk W) (reply (GatewayUserRecord * option string)) :=
  let disabling := bool_decide (up_enabled p = Some false) in
  let demoting := match up_roles p with Some roles => negb (roles_grant_admin roles) | None => false end in
  if negb (is_admin caller) then ret (HttpError 403 admin_required)
  else if disabling && same caller user tenant then ret (HttpError 409 (detail "cannot_deactivate_self" CANNOT_DEACTIVATE_SELF))
  else
    match unknown_roles (default [] (up_roles p)) with
    | _ :: _ as unknown => ret (HttpError 400 (unknown_role_detail unknown))
    | [] =>
        refused <- (if demoting || disabling then removing_last_admin user tenant else ret None) ;;
        match refused with
        | Some u => ret (HttpError 409 (last_admin_detail u (if demoting then "demoting" else "disabling")))
        | None =>
            current <- (if demoting then on_reg (get_user clk user tenant) else ret None) ;;
            if match current with Some a => roles_grant_admin (a_roles a) | None => false end && accounts_off (default [] (up_roles p))
            then ret (HttpError 409 accounts_off_detail)
            else update_write user tenant p random salt
        end
    end.

(** [gateway_admin_create_user] *)
Definition create_write (p : create_request) (hash : string) (random salt : string) : M (desk W) (reply (GatewayUserRecord * string)) := fun d =>
  let email := match cr_email p with Some e => VStr e | None => VNone end in
  match on_reg (create_user clk sha256_hex pbkdf2 (cr_user p) (cr_tenant p) (Some (cr_roles p)) (Some (cr_scopes p)) (cr_enabled p)
                  (cr_runtime p) email (cr_token p) random salt) d with
  | (Raise x, d) => (if is_value_error x then Ok (HttpError 400 (VStr (exn_msg x))) else Raise x, d)
  | (Ok (a, issued), d) =>
      if String.eqb hash "" then (Ok (Answer (a, issued)), d)
      else (a <- on_reg (set_password clk (a_user_id a) (a_tenant_id a) hash None) ;; ret (Answer (a, issued))) d
  end.
Definition gateway_admin_create_user (caller : GatewayPrincipal) (p : create_request) (random salt psalt : string) :
    M (desk W) (reply (GatewayUserRecord * string)) :=
  let password := default "" (cr_password p) in
  if negb (is_admin caller) then ret (HttpError 403 admin_required)
  else if bool_decide ("entity" ∈ map folded_role (cr_roles p)) then ret (HttpError 403 entity_lane_detail)
  else
    match unknown_roles (cr_roles p) with
    | _ :: _ as unknown => ret (HttpError 400 (unknown_role_detail unknown))
    | [] =>
        if accounts_off (cr_roles p) then ret (HttpError 409 accounts_off_detail)
        else if String.eqb password "" then create_write p "" random salt
        else
          match password_problem password (cr_user p) with
          | Some problem => ret (HttpError 400 (VDict [("reason_code", VStr "password_too_weak"); ("message", VStr problem); ("field", VStr "password")]))
          | None => hash <- of_res (hash_password scrypt password psalt) ;; create_write p hash random salt
          end
    end.

(** ** The accounts page *)

(** [_account_error] *)
Definition answered {A} (m : M (desk W) A) : M (desk W) (reply A) :=
  try_ (a <- m ;; ret (Answer a)) (fun x => match x with AccountError status code m => ret (HttpError status (detail code m)) | _ => raise x end).
Definition as_admin {A} (caller : GatewayPrincipal) (m : M (desk W) (reply A)) : M (desk W) (reply A) :=
  if is_admin caller then m else ret (HttpError 403 admin_required).

Definition gateway_admin_list_accounts (caller : GatewayPrincipal) (include_archived : bool) : M (desk W) (reply (list row * option string)) :=
  as_admin caller (rows <- list_accounts clk caller include_archived ;; ret (Answer rows)).
Definition gateway_admin_set_account_active (caller : GatewayPrincipal) (id : string) (active : bool) (tenant : string) : M (desk W) (reply row) :=
  as_admin caller (answered (set_active clk sha256_hex pbkdf2 caller id active tenant)).
Definition gateway_admin_set_account_openai_api (caller : GatewayPrincipal) (id : string) (enabled : bool) (tenant : string) : M (desk W) (reply row) :=
  as_admin caller (answered (set_openai_api clk sha256_hex pbkdf2 caller id enabled tenant)).
Definition gateway_admin_archive_account (caller : GatewayPrincipal) (id tenant : string) : M (desk W) (reply row) :=
  as_admin caller (answered (archive_account clk caller id tenant)).
Definition gateway_admin_unarchive_account (caller : GatewayPrincipal) (id tenant : string) : M (desk W) (reply row) :=
  as_admin caller (answered (unarchive_account clk caller id tenant)).
Definition gateway_me_archive_account (caller : GatewayPrincipal) (id : string) : M (desk W) (reply row) :=
  answered (archive_account clk caller id "default").
Definition gateway_me_unarchive_account (caller : GatewayPrincipal) (id : string) : M (desk W) (reply row) :=
  answered (unarchive_account clk caller id "default").
Definition gateway_me_set_account_active (caller : GatewayPrincipal) (id : string) (active : bool) : M (desk W) (reply row) :=
  answered (set_active clk sha256_hex pbkdf2 caller id active "default").
Definition gateway_me_accounts (caller : GatewayPrincipal) (include_archived : bool) : M (desk W) (reply (list row * option string)) :=
  rows <- list_my_accounts clk multi_user caller include_archived ;; ret (Answer rows).
End Routes.
