(* ===== verification/AdminFacts.v ===== *)
(** * The accounts page: an administrator remains

    Whole requests leave an administrator who can sign in. The lemmas go through a
    computation once: what does not touch the registry is [quiet]; what does is one
    operation of the registry that spares some administrator ([spares]). *)

From S2P Require Import Prelude PyStr PyVal PyNum PyText OrdDict IsoTime RunnerExec Principal Authorization EntityAccess Sessions UserRegistry UserRegistryFile UserRegistryOps UserRegistryFacts Passwords AdminAccounts AdminRoutes.

(** ** Administrators among the records *)

Definition admin_roles (l : list string) : Prop := "admin" ∈ map strip l /\ "entity" ∉ map (fun r => lower (strip r)) l.
Lemma enabled_admin_spec a : enabled_admin a = true <-> a_enabled a = true /\ admin_roles (a_roles a).
Proof.
  unfold enabled_admin, is_admin_record, is_entity, admin_roles. rewrite !andb_true_iff, negb_true_iff, bool_decide_eq_true, bool_decide_eq_false. naive_solver.
Qed.
Lemma admin_roles_canon b : admin_roles (a_roles b) -> admin_roles (a_roles (canon b)).
Proof.
  intros [Ha He]. assert ("admin" ∈ norm_texts (a_roles b)) as Hn.
  { apply list_elem_of_fmap in Ha as (r & Hr & Hin). unfold norm_texts. apply elem_of_lfilter. split; [|done].
    rewrite Hr. by apply list_elem_of_fmap_2. }
  split.
  - unfold canon. cbn [a_roles]. destruct (norm_texts (a_roles b)) as [|x l] eqn:E; [by apply not_elem_of_nil in Hn|].
    apply list_elem_of_fmap. exists "admin". split; [done|]. by rewrite <- E in *.
  - pose proof (canon_entity b) as Hc. unfold is_entity in Hc. intros Hin. rewrite bool_decide_eq_true_2 in Hc by done.
    symmetry in Hc. by apply bool_decide_eq_true in Hc.
Qed.

(** An administrator who can sign in; and no archived account is enabled. *)
Definition rules (a : GatewayUserRecord) : Prop := is_active a = true /\ admin_roles (a_roles a).
Record administered (rs : accounts) : Prop := {
  ad_admin : exists k a, oget k rs = Some a /\ rules a;
  ad_shut : forall k a, oget k rs = Some a -> a_archived a = true -> a_enabled a = false;
}.
Lemma shut_rules a : (a_archived a = true -> a_enabled a = false) -> enabled_admin a = true -> rules a.
Proof.
  intros Hs [He Hr]%enabled_admin_spec. split; [|done]. unfold is_active. destruct (a_archived a); [|by rewrite He].
  rewrite Hs in He by done. done.
Qed.
Lemma rules_enabled a : rules a -> enabled_admin a = true /\ a_archived a = false.
Proof. intros [H Hr]. unfold is_active in H. bool_to_prop. split; [by apply enabled_admin_spec|done]. Qed.

(** The operation leaves some administrator one. *)
Definition spares (o : op) (rs : accounts) : Prop :=
  exists k a, oget k rs = Some a /\ rules a /\ says_enabled o k a = true /\ says_archived o k a = false /\ admin_roles (says_roles o k a).
(** The operations that no account is disabled, archived or given roles by. *)
Definition plain (o : op) : Prop := match o with Update _ _ _ _ _ _ _ _ _ _ _ | SetArchived _ _ _ _ => False | _ => True end.
Lemma plain_spares o rs : administered rs -> plain o -> spares o rs.
Proof.
  intros [(k & a & Hg & Hr) _] Ho. exists k, a. pose proof (rules_enabled a Hr) as [He Ha]. apply enabled_admin_spec in He as [He Hro].
  by destruct o.
Qed.

Section Facts.
Context (clk : nat -> Z) (sha256_hex : string -> string) (pbkdf2 : string -> string -> Z -> res string).

Lemma change_administered o rs rv rs' rv' :
  store_ok rs rv -> change o rs rv rs' rv' -> store_ok rs' rv' -> administered rs -> spares o rs -> administered (reload_accounts rs').
Proof.
  intros Hok Hc Hok' [_ Hshut] (k & a & Hg & Hr & He & Ha & Hro). pose proof Hok' as [Hrs' _]. split.
  - destruct (reload_get o rs rv rs' rv' k a Hok Hc Hok' Hg) as (b & Hb & Hab & _).
    exists k, (canon b). split; [done|]. destruct Hab as [->|[_ _ _ _ _ (E1 & E2 & E3)]].
    + destruct Hr as [Hr1 Hr2]. split; [done|by apply admin_roles_canon].
    + split; [unfold is_active, canon; cbn [a_enabled a_archived]; by rewrite E1, E3, He, Ha|apply admin_roles_canon; by rewrite E2].
  - intros j c Hj Hca. rewrite oget_reload in Hj by done. destruct (oget j rs') as [b|] eqn:Hb; [|done]. injection Hj as <-. cbn in *.
    assert (forall a0 b0, oget j rs = Some a0 -> edits o j a0 b0 -> a_archived b0 = true -> a_enabled b0 = false) as Hed.
    { intros a0 b0 Hg0 [_ _ _ _ Har (E1 & _ & E3)] Hb0. pose proof (Hshut j a0 Hg0) as Hs. rewrite Hb0 in E3.
      destruct o; cbn in *; try (rewrite E1; apply Hs; congruence).
      - destruct (String.eqb (asked_key tenant user) j); [|rewrite E1; apply Hs; congruence].
        rewrite <- E3 in *. destruct (Har eq_refl eq_refl) as [_ Hen]. destruct (a_enabled b0); [|done]. rewrite Hen in Hs by done. auto.
      - destruct (String.eqb (asked_key tenant user) j); [done|]. rewrite E1. apply Hs. congruence. }
    destruct Hc as [n Hn Hst Hna _|k0 a0 b0 Hg0 Hed0 _ _|k0 a0 b0 rv1 Hg0 Hed0 _ _ _|f Hf].
    + rewrite oget_oset in Hb. destruct (decide (j = account_key n)) as [->|]; [simplify_eq; congruence|by apply (Hshut j b)].
    + rewrite oget_oset in Hb. destruct (decide (j = k0)) as [->|]; [simplify_eq; by apply (Hed a0)|by apply (Hshut j b)].
    + rewrite oget_oset in Hb. destruct (decide (j = k0)) as [->|]; [simplify_eq; by apply (Hed a0)|by apply (Hshut j b)].
    + unfold map_accounts in Hb. rewrite oget_map_values in Hb. destruct (oget j rs) as [a0|] eqn:Hg0; [|done]. injection Hb as <-.
      apply (Hed a0); [done|apply Hf; done|done].
Qed.

(** One operation on a settled, administered file. *)
Lemma op_administered o w rs rv : settled clk w rs rv -> administered rs -> spares o rs ->
  exists rs' rv', settled clk (run_op clk sha256_hex pbkdf2 o w).2 rs' rv' /\ administered rs'.
Proof.
  intros Hs Ha Hsp. destruct (settled_step clk sha256_hex pbkdf2 o w rs rv Hs) as [H|(rs' & rv' & Hc & Hok & H)]; [by exists rs, rv|].
  eexists _, _. split; [exact H|]. apply (change_administered o rs rv rs' rv'); try done. apply Hs.
Qed.

(** ** Computations over the desk *)

Context {W : Type} `{E : EntityOps W}.
Context (user_auth : bool) (scrypt : string -> string -> Z -> Z -> Z -> Z -> res string).

(** It leaves the registry's file. *)
Definition quiet {A} (m : M (desk W) A) : Prop := forall d, users_file (d_reg (m d).2) = users_file (d_reg d).
Lemma quiet_seq {A B} (m : M (desk W) A) (f : A -> M (desk W) B) : quiet m -> (forall a, quiet (f a)) -> quiet (mbind_ m f).
Proof.
  intros Hm Hf d. unfold mbind_. specialize (Hm d). destruct (m d) as [[a|x] d1]; cbn in *; [|done]. by rewrite Hf.
Qed.
Lemma quiet_reg {A} (m : M registry A) : still m -> quiet (on_reg m).
Proof. intros Hm d. unfold on_reg. specialize (Hm (d_reg d)). by destruct (m (d_reg d)). Qed.
Lemma quiet_world {A} (m : M W A) : quiet (on_world m).
Proof. intros d. unfold on_world. by destruct (m (d_world d)). Qed.
Lemma quiet_list : quiet (on_reg (list_users clk)).
Proof. apply quiet_reg, still_bind; [apply still_load|by intros []]. Qed.
Lemma quiet_user u t : quiet (on_reg (get_user clk u t)).
Proof. apply quiet_reg, still_bind; [apply still_load|by intros []]. Qed.

Ltac quietly :=
  repeat first
    [ apply quiet_seq; [|intros ?] | apply quiet_world | apply quiet_list | apply quiet_user | done
    | match goal with
      | |- quiet (if ?b then _ else _) => destruct b
      | |- quiet (match ?x with _ => _ end) => destruct x
      | |- quiet (let '(_, _) := ?x in _) => destruct x
      end ].

Lemma quiet_suspend slug actor : quiet (suspend_entity clk slug actor).
Proof. unfold suspend_entity, remember_state. quietly. Qed.
Lemma quiet_resume slug actor : quiet (resume_entity slug actor).
Proof. unfold resume_entity. quietly. Qed.
Lemma quiet_mark slug b actor : quiet (mark_entity_archived clk slug b actor).
Proof. unfold mark_entity_archived. quietly. Qed.
Lemma quiet_stop slug actor : quiet (stop_entity_loop slug actor).
Proof. intros d. unfold stop_entity_loop. destruct (home_dir slug (d_world d)); [|done]. apply quiet_world. Qed.
Lemma quiet_require caller id hs : quiet (require_creator caller id hs).
Proof. intros d. unfold require_creator. by destruct (configure_role _ _). Qed.
Lemma quiet_require_own caller id : quiet (fun d => require_creator caller id (entity_homes (d_world d)).1 d).
Proof. intros d. apply quiet_require. Qed.
Lemma quiet_answer caller id tenant : quiet (answer_row clk caller id tenant).
Proof. unfold answer_row, account_row, list_accounts. quietly. Qed.

(** ** What leaves an administrator *)

Definition good (d : desk W) : Prop := exists rs rv, settled clk (d_reg d) rs rv /\ administered rs.

Section Safe.
Context (rs : accounts) (rv : reservations) (Hadm : administered rs).

(** From the records [rs], an administrator remains. *)
Definition safe {A} (m : M (desk W) A) : Prop := forall d, settled clk (d_reg d) rs rv -> good (m d).2.
(** It leaves the registry, and its value satisfies [P]. *)
Definition yields {A} (P : A -> Prop) (m : M (desk W) A) : Prop :=
  forall d, settled clk (d_reg d) rs rv ->
    users_file (d_reg (m d).2) = users_file (d_reg d) /\ match (m d).1 with Ok a => P a | Raise _ => True end.

Lemma safe_quiet {A} (m : M (desk W) A) : quiet m -> safe m.
Proof. intros Hm d Hs. exists rs, rv. split; [|done]. by eapply settled_file. Qed.
Lemma yields_quiet {A} (m : M (desk W) A) : quiet m -> yields (fun _ => True) m.
Proof. intros Hm d Hs. split; [done|]. by destruct (m d).1. Qed.
Lemma yields_ret {A} (P : A -> Prop) a : P a -> yields P (ret a).
Proof. by intros Ha d _. Qed.
Lemma yields_raise {A} (P : A -> Prop) x : yields P (raise x).
Proof. by intros d _. Qed.
Lemma yields_bind {A B} (P : A -> Prop) (Q : B -> Prop) (m : M (desk W) A) (f : A -> M (desk W) B) :
  yields P m -> (forall a, P a -> yields Q (f a)) -> yields Q (mbind_ m f).
Proof.
  intros Hm Hf d Hs. unfold mbind_. destruct (Hm d Hs) as [H1 H2]. destruct (m d) as [[a|x] d1]; cbn in *; [|done].
  destruct (Hf a H2 d1) as [H3 H4]; [by eapply settled_file|]. split; [congruence|done].
Qed.
Lemma yields_list : yields (eq (sorted_accounts rs)) (on_reg (list_users clk)).
Proof. intros d Hs. unfold on_reg, list_users, mbind_. by rewrite (se_load _ _ _ _ Hs). Qed.
Lemma yields_user u t : yields (eq (oget (asked_key t u) rs)) (on_reg (get_user clk u t)).
Proof. intros d Hs. unfold on_reg, get_user, mbind_. by rewrite (se_load _ _ _ _ Hs). Qed.
Lemma safe_bind {A B} (P : A -> Prop) (m : M (desk W) A) (f : A -> M (desk W) B) :
  yields P m -> (forall a, P a -> safe (f a)) -> safe (mbind_ m f).
Proof.
  intros Hm Hf d Hs. unfold mbind_. destruct (Hm d Hs) as [H1 H2]. destruct (m d) as [[a|x] d1]; cbn in *.
  - apply Hf; [done|by eapply settled_file].
  - exists rs, rv. split; [by eapply settled_file|done].
Qed.
Lemma safe_bind_quiet {A B} (m : M (desk W) A) (f : A -> M (desk W) B) : quiet m -> (forall a, safe (f a)) -> safe (mbind_ m f).
Proof. intros Hm Hf. eapply safe_bind; [by apply yields_quiet|]. intros a _. apply Hf. Qed.
Lemma safe_then {A B} (m : M (desk W) A) (f : A -> M (desk W) B) : safe m -> (forall a, quiet (f a)) -> safe (mbind_ m f).
Proof.
  intros Hm Hf d Hs. unfold mbind_. specialize (Hm d Hs). destruct (m d) as [[a|x] d1]; cbn in *; [|done].
  destruct Hm as (rs' & rv' & Hs' & Ha). exists rs', rv'. split; [|done]. eapply settled_file; [done|]. apply Hf.
Qed.
Lemma safe_op {A} (m : M registry A) o :
  spares o rs -> (forall w, (m w).2 = (run_op clk sha256_hex pbkdf2 o w).2) -> safe (on_reg m).
Proof.
  intros Hsp Hm d Hs. unfold on_reg. specialize (Hm (d_reg d)). destruct (m (d_reg d)) as [r w]. cbn in *. subst w.
  destruct (op_administered o (d_reg d) rs rv Hs Hadm Hsp) as (rs' & rv' & H1 & H2). by exists rs', rv'.
Qed.
Lemma run_then {A} (m : M registry A) w : (m w).2 = ((m ;;; ret tt) w).2.
Proof. unfold mbind_. by destruct (m w) as [[]]. Qed.

(** ** The account an operation changes *)

Context (Hok : store_ok rs rv).
Lemma record_get a : a ∈ sorted_accounts rs -> oget (account_key a) rs = Some a /\ asked_key (a_tenant_id a) (a_user_id a) = account_key a.
Proof.
  intros Hin%elem_of_py_sorted. destruct Hok as [Hrs _]. apply list_elem_of_fmap in Hin as ([k a'] & -> & Hin). cbn in *.
  pose proof Hrs as [Hnd Hall]. destruct (Hall k a' Hin) as [-> Hst]. split; [by apply NoDup_oget|].
  unfold asked_key, account_key. rewrite safe_tenant_id, safe_name_id by apply Hst. done.
Qed.
Lemma find_record_get id tenant a : find_record (sorted_accounts rs) id tenant = Some a ->
  oget (account_key a) rs = Some a /\ asked_key (a_tenant_id a) (a_user_id a) = account_key a.
Proof. intros [Hin%list_elem_of_In _]%find_some. by apply record_get. Qed.

(** Some administrator has another key than this account. *)
Definition other_admin (key : string) : Prop := exists k a, oget k rs = Some a /\ rules a /\ k <> key.
Lemma other_if_not_admin key a : oget key rs = Some a -> enabled_admin a = false -> other_admin key.
Proof.
  intros Hg Hn. destruct Hadm as [(k & b & Hb & Hr) _]. exists k, b. split_and!; [done|done|]. intros ->.
  pose proof (rules_enabled b Hr) as [He _]. congruence.
Qed.
Lemma other_if_listed a o : o ∈ sorted_accounts rs -> account_key o <> account_key a -> enabled_admin o = true -> other_admin (account_key a).
Proof.
  intros Hin Hne He. destruct (record_get o Hin) as [Hg _]. exists (account_key o), o. split_and!; [done| |done].
  apply shut_rules; [|done]. by apply (ad_shut rs Hadm (account_key o)).
Qed.
Lemma other_if_not_last a : oget (account_key a) rs = Some a -> last_enabled_admin a (sorted_accounts rs) = false -> other_admin (account_key a).
Proof.
  intros Hg. unfold last_enabled_admin. destruct (enabled_admin a) eqn:He; [|intros _; by eapply other_if_not_admin].
  cbn. intros [o [Hin Ho]]%negb_false_iff%existsb_exists. bool_to_prop. eapply other_if_listed; [by apply list_elem_of_In| |done].
  first [done|by apply String.eqb_neq].
Qed.

Lemma spares_update u t roles scopes e rt email tok api rnd salt :
  (forall a, oget (asked_key t u) rs = Some a -> rules a -> other_admin (asked_key t u) \/
     (e <> Some false /\ match roles with Some l => admin_roles l | None => True end)) ->
  spares (Update u t roles scopes e rt email tok api rnd salt) rs.
Proof.
  intros Hkey. assert (forall k a, oget k rs = Some a -> rules a -> k <> asked_key t u -> spares (Update u t roles scopes e rt email tok api rnd salt) rs) as Hother.
  { intros k a Hg Hr Hne. exists k, a. pose proof (rules_enabled a Hr) as [[He Hro]%enabled_admin_spec Har]. cbn.
    rewrite (proj2 (String.eqb_neq _ _)) by congruence. by split_and!. }
  destruct Hadm as [(k & a & Hg & Hr) _]. destruct (decide (k = asked_key t u)) as [->|]; [|by eapply Hother].
  destruct (Hkey a Hg Hr) as [(k2 & a2 & H1 & H2 & H3)|[Hen Hl]]; [by eapply Hother|].
  exists (asked_key t u), a. pose proof (rules_enabled a Hr) as [[He Hro]%enabled_admin_spec Har]. cbn. rewrite String.eqb_refl.
  split_and!; [done|done| |done|by destruct roles]. destruct e as [[]|]; done.
Qed.
Lemma spares_archive u t b actor : other_admin (asked_key t u) -> spares (SetArchived u t b actor) rs.
Proof.
  intros (k & a & Hg & Hr & Hne). exists k, a. pose proof (rules_enabled a Hr) as [[He Hro]%enabled_admin_spec Har]. cbn.
  rewrite (proj2 (String.eqb_neq _ _)) by congruence. by split_and!.
Qed.

(** ** The operations of the page *)

Lemma safe_enable a b : oget (account_key a) rs = Some a -> asked_key (a_tenant_id a) (a_user_id a) = account_key a ->
  b = true \/ is_entity a = true \/ last_enabled_admin a (sorted_accounts rs) = false ->
  safe (enable clk sha256_hex pbkdf2 (W:=W) a b).
Proof.
  intros Hg Hk Hb. apply safe_then; [|done].
  apply (safe_op _ (Update (a_user_id a) (a_tenant_id a) None None (Some b) None None None None "" "")).
  - apply spares_update. rewrite Hk. intros a' Hg' Hr. simplify_eq. destruct Hb as [->|[He|Hl]]; [by right|left|left].
    + eapply other_if_not_admin; [done|]. unfold enabled_admin. by rewrite He, andb_false_r.
    + by apply other_if_not_last.
  - intros w. apply run_then.
Qed.
Lemma safe_archive a b actor : oget (account_key a) rs = Some a -> asked_key (a_tenant_id a) (a_user_id a) = account_key a ->
  a_archived a = true \/ is_entity a = true \/ last_enabled_admin a (sorted_accounts rs) = false ->
  safe (archive clk (W:=W) a b actor).
Proof.
  intros Hg Hk Hb. apply safe_then; [|done]. apply (safe_op _ (SetArchived (a_user_id a) (a_tenant_id a) b actor)).
  - apply spares_archive. rewrite Hk. destruct Hb as [Ha|[He|Hl]]; [| |by apply other_if_not_last].
    + eapply other_if_not_admin; [done|]. unfold enabled_admin. by rewrite (ad_shut rs Hadm _ _ Hg Ha).
    + eapply other_if_not_admin; [done|]. unfold enabled_admin. by rewrite He, andb_false_r.
  - intros w. apply run_then.
Qed.

Definition known (rec : option GatewayUserRecord) : Prop := forall a, rec = Some a ->
  oget (account_key a) rs = Some a /\ asked_key (a_tenant_id a) (a_user_id a) = account_key a.
Lemma found_known id tenant : known (find_record (sorted_accounts rs) id tenant).
Proof. intros a Ha. by eapply find_record_get. Qed.

Lemma active_checks_yields caller id active tenant :
  yields (fun rec => known rec /\ forall a, rec = Some a -> is_entity a = true \/ active = true \/ last_enabled_admin a (sorted_accounts rs) = false)
    (active_checks clk caller id active tenant).
Proof.
  eapply yields_bind; [apply yields_list|]. intros records <-. pose proof (found_known id tenant) as Hk.
  destruct (find_record _ id tenant) as [a|]; cbn zeta.
  all: eapply yields_bind; [apply yields_quiet|intros ? _; apply (yields_bind (fun _ => True)); [by intros d _|intros d _]].
  1,3: destruct (is_admin caller); [done|]; destruct (is_person _); [done|]; apply quiet_require_own.
  - destruct (active && a_archived a); [apply yields_raise|]. destruct (is_entity a) eqn:He.
    { apply yields_ret. split; [done|]. intros b [= <-]. by left. }
    destruct active; cbn.
    { apply yields_ret. split; [done|]. intros b _. by right; left. }
    destruct (same caller _ _); [apply yields_raise|]. destruct (last_enabled_admin a _) eqn:Hl; [apply yields_raise|].
    apply yields_ret. split; [done|]. intros b [= <-]. by right; right.
  - destruct (active && _); [apply yields_raise|]. by apply yields_ret.
Qed.
Lemma safe_switch_entity caller id active rec : known rec -> (forall a, rec = Some a -> is_entity a = true) ->
  safe (switch_entity clk sha256_hex pbkdf2 caller id active rec).
Proof.
  intros Hk He. apply safe_bind_quiet; [done|]. intros w. cbn zeta. destruct (_ && _); [by apply safe_quiet|].
  apply safe_then; [|intros ?; apply quiet_world].
  assert (forall b, safe (match rec with Some a => enable clk sha256_hex pbkdf2 (W:=W) a b | None => ret tt end)) as Hset.
  { intros b. destruct rec as [a|]; [|by apply safe_quiet]. destruct (Hk a eq_refl). apply safe_enable; eauto. }
  assert (forall m, quiet m -> quiet (if bool_decide (is_Some (oget id (homes_for caller w).1)) then on_world (enter_plane id) ;;; m else ret tt)) as Hin.
  { intros m Hm. case_bool_decide; [|done]. apply quiet_seq; [apply quiet_world|done]. }
  destruct active.
  - apply safe_then; [apply Hset|]. intros _. apply Hin, quiet_resume.
  - apply safe_bind_quiet; [apply Hin, quiet_suspend|]. intros _. apply Hset.
Qed.
Lemma safe_set_active caller id active tenant : safe (set_active clk sha256_hex pbkdf2 caller id active tenant).
Proof.
  eapply safe_bind; [apply active_checks_yields|]. intros rec [Hk Hr]. apply safe_then; [|intros ?; apply quiet_answer].
  destruct rec as [a|]; [|by apply safe_switch_entity]. destruct (Hk a eq_refl). destruct (is_entity a) eqn:He.
  - apply safe_switch_entity; [done|]. by intros b [= <-].
  - apply safe_enable; [done|done|]. destruct (Hr a eq_refl) as [?|[?|?]]; auto.
Qed.
Lemma safe_set_openai_api caller id enabled tenant : safe (set_openai_api clk sha256_hex pbkdf2 caller id enabled tenant).
Proof.
  eapply safe_bind; [apply yields_list|]. intros records <-. apply safe_bind_quiet; [done|]. intros w.
  destruct (find_record _ id tenant) as [a|]; [|case_bool_decide; by apply safe_quiet].
  destruct (is_entity a); [by apply safe_quiet|]. destruct (a_archived a); [by apply safe_quiet|].
  apply safe_then.
  - apply (safe_op _ (Update (a_user_id a) (a_tenant_id a) None None None None None None (Some enabled) "" "")).
    + apply spares_update. intros a' _ _. by right.
    + intros w'. apply run_then.
  - intros _. unfold account_row, list_accounts. apply quiet_seq; [|by intros []].
    apply quiet_seq; [|by intros []]. apply quiet_seq; [apply quiet_list|done].
Qed.

Lemma archive_checks_yields caller id tenant :
  yields (fun p => known p.1 /\ forall a, p.1 = Some a -> is_entity a = true \/ last_enabled_admin a (sorted_accounts rs) = false)
    (archive_checks clk caller id tenant).
Proof.
  eapply yields_bind; [apply yields_list|]. intros records <-. apply (yields_bind (fun _ => True)); [by intros d _|]. intros d _.
  pose proof (found_known id tenant) as Hk. cbn zeta. destruct (bool_decide _ && _); [apply yields_raise|].
  eapply yields_bind; [apply yields_quiet|intros [] _].
  { destruct (is_admin caller); [done|]. destruct (is_person _); [done|]. apply quiet_require. }
  destruct (find_record _ id tenant) as [a|].
  - destruct (is_entity a) eqn:He.
    { destruct (entity_is_archived _ _ _); [apply yields_raise|]. apply yields_ret. split; [done|]. intros b [= <-]. by left. }
    destruct (a_archived a); [apply yields_raise|]. destruct (same caller _ _); [apply yields_raise|].
    destruct (last_enabled_admin a _) eqn:Hl; [apply yields_raise|]. apply yields_ret. split; [done|]. intros b [= <-]. by right.
  - destruct (entity_is_archived _ _ _); [apply yields_raise|]. by apply yields_ret.
Qed.
Lemma safe_archive_account caller id tenant : safe (archive_account clk caller id tenant).
Proof.
  eapply safe_bind; [apply archive_checks_yields|]. intros [rec hs] [Hk Hr]. cbn [fst] in *. apply safe_then; [|intros ?; apply quiet_answer].
  assert ((forall a, rec = Some a -> is_entity a = true) -> safe (archive_entity clk caller id rec hs)) as Hent.
  { intros He. apply safe_bind_quiet.
    { case_bool_decide; [|done]. apply quiet_seq; [apply quiet_world|intros ?]. apply quiet_seq; [apply quiet_suspend|intros ?; apply quiet_stop]. }
    intros _. apply safe_bind_quiet; [apply quiet_mark|]. intros _. apply safe_then; [|intros ?; apply quiet_world].
    destruct rec as [a|]; [|by apply safe_quiet]. destruct (Hk a eq_refl). apply safe_archive; eauto. }
  destruct rec as [a|]; cbn [fst snd]; [|by apply Hent]. destruct (Hk a eq_refl). destruct (is_entity a) eqn:He; [apply Hent; by intros b [= <-]|].
  apply safe_archive; [done|done|]. destruct (Hr a eq_refl); auto.
Qed.
Lemma safe_unarchive_account caller id tenant : safe (unarchive_account clk caller id tenant).
Proof.
  eapply safe_bind; [apply yields_list|]. intros records <-. cbn zeta. pose proof (found_known id tenant) as Hk.
  apply safe_bind_quiet.
  { destruct (is_admin caller); [done|]. destruct (is_person _); [done|]. apply quiet_require_own. }
  intros _. apply safe_bind_quiet; [done|]. intros d. apply safe_then; [|intros ?; apply quiet_answer].
  destruct (is_person (find_record _ id tenant)) eqn:Hp.
  - destruct (find_record _ id tenant) as [a|]; [|done]. destruct (Hk a eq_refl). destruct (a_archived a) eqn:Ha; [|by apply safe_quiet].
    apply safe_archive; auto.
  - destruct (negb _); [case_match; by apply safe_quiet|]. apply safe_bind_quiet; [apply quiet_mark|]. intros _.
    destruct (find_record _ id tenant) as [a|]; [|by apply safe_quiet]. destruct (Hk a eq_refl). cbn in Hp. apply negb_false_iff in Hp.
    apply safe_archive; auto.
Qed.

(** ** The routes *)

Lemma safe_answered {A} (m : M (desk W) A) : safe m -> safe (answered m).
Proof.
  intros Hm d Hs. unfold answered, try_, mbind_. specialize (Hm d Hs). destruct (m d) as [[a|x] d1]; cbn in *; [done|].
  by destruct x.
Qed.
Lemma safe_admin {A} caller (m : M (desk W) (reply A)) : safe m -> safe (as_admin caller m).
Proof. intros Hm. unfold as_admin. destruct (is_admin caller); [done|by apply safe_quiet]. Qed.

Lemma removing_last_admin_yields user tenant :
  yields (fun o => o = None -> forall a, oget (asked_key tenant user) rs = Some a -> rules a -> other_admin (asked_key tenant user))
    (removing_last_admin clk user tenant).
Proof.
  eapply yields_bind; [apply yields_user|]. intros target <-. destruct (oget (asked_key tenant user) rs) as [t|] eqn:Hg.
  2: { apply yields_ret. by intros _ a. }
  destruct (negb (a_enabled t) || negb (roles_grant_admin (a_roles t))) eqn:Hn.
  { apply yields_ret. intros _ a [= <-] Hr. apply rules_enabled in Hr as [[He [Hro _]]%enabled_admin_spec _].
    unfold roles_grant_admin in Hn. rewrite He, bool_decide_eq_true_2 in Hn by done. done. }
  eapply yields_bind; [apply yields_list|]. intros records <-. apply yields_ret. intros Hnone a [= <-] Hr.
  destruct (existsb _ _) eqn:Hx; [|done]. apply existsb_exists in Hx as (o & Hin & [[[Hne Hen]%andb_true_iff Hro]%andb_true_iff Hpe]%andb_true_iff).
  destruct Hok as [Hrs _]. destruct (accounts_ok_get rs _ t Hrs Hg) as [Hkey _]. rewrite Hkey.
  apply (other_if_listed t o); [by apply list_elem_of_In|by apply String.eqb_neq, negb_true_iff|].
  unfold enabled_admin, is_admin_record. unfold roles_grant_admin in *. by rewrite Hen, Hro, Hpe.
Qed.
Lemma safe_update_write user tenant p random salt :
  (forall a, oget (asked_key tenant user) rs = Some a -> rules a -> other_admin (asked_key tenant user) \/
     (up_enabled p <> Some false /\ match up_roles p with Some l => admin_roles l | None => True end)) ->
  safe (update_write clk sha256_hex pbkdf2 (W:=W) user tenant p random salt).
Proof.
  intros Hsp d Hs. unfold update_write. set (token := match up_token p with Some t => _ | None => _ end).
  pose proof (safe_op _ (Update user tenant (up_roles p) (up_scopes p) (up_enabled p) (up_runtime p) (up_email p) token None random salt)
    (spares_update _ _ _ _ _ _ _ _ _ _ _ Hsp) (fun w => run_then _ w) d Hs) as Hg.
  destruct (on_reg _ d) as [[a|x] d1]; done.
Qed.
Lemma safe_update_route caller user tenant p random salt :
  match up_roles p with Some roles => "entity" ∉ map folded_role roles | None => True end ->
  safe (gateway_admin_update_user clk sha256_hex pbkdf2 user_auth (W:=W) caller user tenant p random salt).
Proof.
  intros Hroles. unfold gateway_admin_update_user. cbv zeta. destruct (negb (is_admin caller)); [by apply safe_quiet|].
  destruct (_ && same caller user tenant); [by apply safe_quiet|]. destruct (unknown_roles _); [|by apply safe_quiet].
  set (demoting := match up_roles p with Some roles => _ | None => _ end).
  apply (safe_bind (fun o => o = None -> forall a, oget (asked_key tenant user) rs = Some a -> rules a -> other_admin (asked_key tenant user) \/
     (up_enabled p <> Some false /\ match up_roles p with Some l => admin_roles l | None => True end))).
  - destruct (demoting || bool_decide (up_enabled p = Some false)) eqn:Hd.
    + intros d Hs. destruct (removing_last_admin_yields user tenant d Hs) as [H1 H2]. split; [done|].
      destruct (removing_last_admin clk user tenant d).1 as [o|]; [|done]. intros Hn a Hg Hr. left. by apply (H2 Hn a).
    + apply yields_ret. intros _ a _ _. right. apply orb_false_iff in Hd as [Hd1 Hd2%bool_decide_eq_false]. split; [done|].
      subst demoting. destruct (up_roles p) as [l|]; [|done]. apply negb_false_iff, bool_decide_eq_true in Hd1. by split.
  - intros [u|] Ho; [by apply safe_quiet|]. apply safe_bind_quiet; [destruct demoting; [apply quiet_user|done]|].
    intros current. destruct (_ && _); [by apply safe_quiet|]. apply safe_update_write. by apply Ho.
Qed.
End Safe.

(** Over whole computations. *)
Definition keeps {A} (m : M (desk W) A) : Prop := forall d, good d -> good (m d).2.
Lemma keeps_safe {A} (m : M (desk W) A) : (forall rs rv, administered rs -> store_ok rs rv -> safe rs rv m) -> keeps m.
Proof. intros Hm d (rs & rv & Hs & Ha). apply (Hm rs rv); [done|apply Hs|done]. Qed.
Lemma keeps_quiet {A} (m : M (desk W) A) : quiet m -> keeps m.
Proof. intros Hm. apply keeps_safe. intros rs rv Ha _. by apply safe_quiet. Qed.
Lemma keeps_bind {A B} (m : M (desk W) A) (f : A -> M (desk W) B) : keeps m -> (forall a, keeps (f a)) -> keeps (mbind_ m f).
Proof. intros Hm Hf d Hg. unfold mbind_. specialize (Hm d Hg). destruct (m d) as [[a|x] d1]; cbn in *; [by apply Hf|done]. Qed.
Lemma keeps_op {A} (m : M registry A) o : plain o -> (forall w, (m w).2 = (run_op clk sha256_hex pbkdf2 o w).2) -> keeps (on_reg m).
Proof. intros Ho Hm. apply keeps_safe. intros rs rv Ha _. eapply safe_op; [done|by apply plain_spares|done]. Qed.

Lemma keeps_create_write p hash random salt : keeps (create_write clk sha256_hex pbkdf2 (W:=W) p hash random salt).
Proof.
  intros d Hg. unfold create_write. set (email := match cr_email p with Some e => _ | None => _ end).
  pose proof (keeps_op _ (Create (cr_user p) (cr_tenant p) (Some (cr_roles p)) (Some (cr_scopes p)) (cr_enabled p) (cr_runtime p) email (cr_token p) random salt)
    I (fun w => run_then _ w) d Hg) as H1.
  destruct (on_reg _ d) as [[[a issued]|x] d1]; [|done]. destruct (String.eqb hash ""); [done|]. revert d1 H1. cbn [snd].
  apply keeps_bind; [|by intros ? ?]. apply (keeps_op _ (SetPassword (a_user_id a) (a_tenant_id a) hash None)); [done|]. intros w. apply run_then.
Qed.
Lemma keeps_create_route caller p random salt psalt :
  keeps (gateway_admin_create_user clk sha256_hex pbkdf2 user_auth scrypt (W:=W) caller p random salt psalt).
Proof.
  unfold gateway_admin_create_user. cbv zeta. destruct (negb _); [by apply keeps_quiet|]. destruct (bool_decide _); [by apply keeps_quiet|].
  destruct (unknown_roles _); [|by apply keeps_quiet]. destruct (accounts_off _ _); [by apply keeps_quiet|].
  destruct (String.eqb _ ""); [apply keeps_create_write|]. destruct (password_problem _ _); [by apply keeps_quiet|].
  apply keeps_bind; [by apply keeps_quiet|]. intros hash. apply keeps_create_write.
Qed.

(** ** Requests *)

(** Whole requests to the gateway, with the caller; the other operations of the
    registry; and what happens to the entities meanwhile. *)
Inductive request :=
  | CreateUser (caller : GatewayPrincipal) (p : create_request) (random salt psalt : string)
  | UpdateUser (caller : GatewayPrincipal) (user tenant : string) (p : update_request) (random salt : string)
  | SetActive (caller : GatewayPrincipal) (id : string) (active : bool) (tenant : string)
  | SetOpenai (caller : GatewayPrincipal) (id : string) (enabled : bool) (tenant : string)
  | Archive (caller : GatewayPrincipal) (id tenant : string)
  | Unarchive (caller : GatewayPrincipal) (id tenant : string)
  | MySetActive (caller : GatewayPrincipal) (id : string) (active : bool)
  | MyArchive (caller : GatewayPrincipal) (id : string)
  | MyUnarchive (caller : GatewayPrincipal) (id : string)
  | Registry (o : op)
  | Elsewhere (w : W).
Definition serve (q : request) (d : desk W) : desk W :=
  match q with
  | CreateUser caller p random salt psalt => (gateway_admin_create_user clk sha256_hex pbkdf2 user_auth scrypt caller p random salt psalt d).2
  | UpdateUser caller user tenant p random salt => (gateway_admin_update_user clk sha256_hex pbkdf2 user_auth caller user tenant p random salt d).2
  | SetActive caller id active tenant => (gateway_admin_set_account_active clk sha256_hex pbkdf2 caller id active tenant d).2
  | SetOpenai caller id enabled tenant => (gateway_admin_set_account_openai_api clk sha256_hex pbkdf2 caller id enabled tenant d).2
  | Archive caller id tenant => (gateway_admin_archive_account clk caller id tenant d).2
  | Unarchive caller id tenant => (gateway_admin_unarchive_account clk caller id tenant d).2
  | MySetActive caller id active => (gateway_me_set_account_active clk sha256_hex pbkdf2 caller id active d).2
  | MyArchive caller id => (gateway_me_archive_account clk caller id d).2
  | MyUnarchive caller id => (gateway_me_unarchive_account clk caller id d).2
  | Registry o => (on_reg (run_op clk sha256_hex pbkdf2 o) d).2
  | Elsewhere w => mk_desk (d_reg d) (d_marks d) w
  end.
Definition serve_all (qs : list request) (d : desk W) : desk W := fold_left (fun d q => serve q d) qs d.
(** No edit gives the role of an entity; the registry's own operations are the ones
    that disable nobody. *)
Definition permitted (q : request) : Prop :=
  match q with
  | UpdateUser _ _ _ p _ _ => match up_roles p with Some roles => "entity" ∉ map folded_role roles | None => True end
  | Registry o => plain o
  | _ => True
  end.

Lemma serve_keeps q d : permitted q -> good d -> good (serve q d).
Proof.
  intros Hp. destruct q; cbn [serve].
  - apply keeps_create_route.
  - apply keeps_safe. intros rs rv Ha Ho. by apply safe_update_route.
  - apply keeps_safe. intros rs rv Ha Ho. by apply safe_admin, safe_answered, safe_set_active.
  - apply keeps_safe. intros rs rv Ha Ho. by apply safe_admin, safe_answered, safe_set_openai_api.
  - apply keeps_safe. intros rs rv Ha Ho. by apply safe_admin, safe_answered, safe_archive_account.
  - apply keeps_safe. intros rs rv Ha Ho. by apply safe_admin, safe_answered, safe_unarchive_account.
  - apply keeps_safe. intros rs rv Ha Ho. by apply safe_answered, safe_set_active.
  - apply keeps_safe. intros rs rv Ha Ho. by apply safe_answered, safe_archive_account.
  - apply keeps_safe. intros rs rv Ha Ho. by apply safe_answered, safe_unarchive_account.
  - by apply (keeps_op _ o).
  - intros (rs & rv & Hs & Ha). by exists rs, rv.
Qed.

(** C13: Whole requests never leave the gateway without an administrator who can sign
    in: if there is an enabled, unarchived person with the administrator's role (and
    no archived account is enabled), then after any requests of any callers there is
    one, as long as no edit gives an account the role of an entity. *)
Theorem an_admin_remains qs d : good d -> Forall permitted qs ->
  exists rs rv k a, settled clk (d_reg (serve_all qs d)) rs rv /\ oget k rs = Some a /\
    a_enabled a = true /\ a_archived a = false /\ is_entity a = false /\ "admin" ∈ map strip (a_roles a).
Proof.
  intros Hg Hp. assert (good (serve_all qs d)) as (rs & rv & Hs & [(k & a & Hk & Hr) _]).
  { revert d Hg. induction Hp as [|q qs Hq Hp IH]; intros d Hg; [done|]. by apply IH, serve_keeps. }
  exists rs, rv, k, a. pose proof (rules_enabled a Hr) as [He Ha]. unfold enabled_admin, is_admin_record in He.
  rewrite !andb_true_iff, negb_true_iff, bool_decide_eq_true in He. destruct He as [[He1 He2] He3]. by split_and!.
Qed.
End Facts.
