(* ===== verification/AdminRows.v ===== *)
(** * The accounts page: rows and switches

    What a row says of an account is what the gateway then does, and a caller who is
    no administrator acts only on entities it created; an entity suspended and
    resumed is as it was. *)

From S2P Require Import Prelude PyStr PyVal PyNum IsoTime PyText RunnerExec OrdDict ToolGrants Principal Authorization EntityAccess Sessions UserRegistry UserRegistryFile UserRegistryOps UserRegistryFacts Passwords AdminAccounts AdminRoutes AdminFacts.

Lemma rmap_elem {A B} (f : A -> res B) l ys y : rmap f l = Ok ys -> y ∈ ys -> exists x, x ∈ l /\ f x = Ok y.
Proof.
  revert ys. induction l as [|x l IH]; intros ys; cbn; [intros [= <-] H; by apply not_elem_of_nil in H|].
  destruct (f x) as [z|] eqn:Hf; [|done]. cbn. destruct (rmap f l) as [zs|]; [|done]. cbn. intros [= <-] [->|Hin]%elem_of_cons.
  - exists x. split; [apply list_elem_of_here|done].
  - destruct (IH zs eq_refl Hin) as (x' & H1 & H2). exists x'. split; [by apply list_elem_of_further|done].
Qed.
Lemma rmap_total {A B} (f : A -> res B) l : (forall x, x ∈ l -> is_ok (f x) = true) ->
  exists ys, rmap f l = Ok ys /\ forall x y, x ∈ l -> f x = Ok y -> y ∈ ys.
Proof.
  induction l as [|x l IH]; intros Hf; cbn; [exists []; split; [done|]; intros ? ? H; by apply not_elem_of_nil in H|].
  pose proof (Hf x (list_elem_of_here _ _)) as Hx. destruct (f x) as [z|] eqn:Hfx; [|done].
  destruct IH as (zs & -> & Hin); [intros; apply Hf; by apply list_elem_of_further|]. exists (z :: zs). split; [done|].
  intros x' y [->|H]%elem_of_cons Hy; [rewrite Hfx in Hy; injection Hy as ->; apply list_elem_of_here|].
  apply list_elem_of_further. by eapply Hin.
Qed.

Section Rows.
Context (clk : nat -> Z) (sha256_hex : string -> string) (pbkdf2 : string -> string -> Z -> res string).
Context {W : Type} `{E : EntityOps W}.

(** The mailboxes can be read. *)
Definition mail_answers : Prop := forall p w, is_ok (email_view (W:=W) p w) = true.

(** ** Rows *)

Lemma user_row_ok caller a records (w : W) : mail_answers -> exists r, user_row a caller records w = Ok r.
Proof.
  intros Hm. unfold user_row. specialize (Hm (account_principal a "") w). destruct (email_view _ w) as [v|]; [|done]. cbn.
  destruct (user_switches a caller records). by eexists.
Qed.
Lemma entity_row_ok slug rec home created_by (d : desk W) : mail_answers -> exists r, entity_row slug rec home created_by d = Ok r.
Proof.
  intros Hm. unfold entity_row, entity_email_view. destruct rec as [a|]; [|by eexists].
  specialize (Hm (account_principal a "") (d_world d)). destruct (email_view _ _); [|done]. by eexists.
Qed.
Lemma user_row_inv caller a records (w : W) r : user_row a caller records w = Ok r ->
  r_id r = a_user_id a /\ r_tenant r = a_tenant_id a /\ r_kind r = "user" /\ r_archived r = a_archived a /\
  oget "suspend" (r_actions r) = Some (user_switches a caller records).1 /\
  oget "archive" (r_actions r) = Some (user_switches a caller records).2.
Proof.
  unfold user_row. destruct (email_view _ w); [|done]. cbn. destruct (user_switches a caller records). by intros [= <-].
Qed.
Lemma entity_row_kind slug rec home created_by (d : desk W) r : entity_row slug rec home created_by d = Ok r -> r_kind r = "entity".
Proof. unfold entity_row. destruct (entity_email_view _ _); [|done]. cbn. by intros [= <-]. Qed.

(** The rows of users are the records of persons. *)
Lemma listing_user caller archived records (d : desk W) rows warning r :
  listing caller archived records d = Ok (rows, warning) -> r ∈ rows -> r_kind r = "user" ->
  exists a, a ∈ records /\ is_entity a = false /\ user_row a caller records (d_world d) = Ok r /\ (archived = false -> a_archived a = false).
Proof.
  unfold listing. destruct (homes_for caller (d_world d)) as [hs wn]. destruct (rmap (record_row _ _ _ _ _) records) as [rs|] eqn:H1; [|done].
  cbn [rbind]. destruct (rmap _ (List.filter _ hs)) as [os|] eqn:H2; [|done]. cbn [rbind]. intros [= <- <-] Hin%elem_of_py_sorted Hk.
  assert (r ∈ rs ++ os /\ (archived = false -> r_archived r = false)) as [[Hin1|Hin1]%elem_of_app Ha].
  { destruct archived; [done|]. apply elem_of_lfilter in Hin as [Hin Hna%negb_true_iff]. by split. }
  - destruct (rmap_elem _ _ _ _ H1 Hin1) as (a & Hina & Hrow). exists a. split; [done|].
    unfold record_row in Hrow. destruct (is_entity a); [apply entity_row_kind in Hrow; congruence|]. split_and!; [done|done|].
    intros Har. destruct (user_row_inv _ _ _ _ _ Hrow) as (_ & _ & _ & <- & _). by apply Ha.
  - destruct (rmap_elem _ _ _ _ H2 Hin1) as (kv & _ & Hrow). apply entity_row_kind in Hrow. congruence.
Qed.
(** With the mailboxes readable the list is there, with a row for each person. *)
Lemma listing_total caller archived records (d : desk W) : mail_answers -> exists rows warning,
  listing caller archived records d = Ok (rows, warning) /\
  forall a, archived = true -> a ∈ records -> is_entity a = false -> exists r, r ∈ rows /\ r_id r = a_user_id a /\ r_tenant r = a_tenant_id a.
Proof.
  intros Hm. unfold listing. destruct (homes_for caller (d_world d)) as [hs wn].
  destruct (rmap_total (record_row caller records hs (entity_creators (d_world d)) d) records) as (rs & H1 & Hin1).
  { intros a _. unfold record_row. destruct (is_entity a).
    - by destruct (entity_row_ok (a_user_id a) (Some a) (oget (a_user_id a) hs) (creator (a_user_id a) (oget (a_user_id a) hs) (entity_creators (d_world d))) d Hm) as [r ->].
    - by destruct (user_row_ok caller a records (d_world d) Hm) as [r ->]. }
  match goal with |- context[rmap ?f (List.filter _ hs)] => destruct (rmap_total f (List.filter (homeless records) hs)) as (os & H2 & _) end.
  { intros kv _. by destruct (entity_row_ok kv.1 None (Some kv.2) (creator kv.1 (Some kv.2) (entity_creators (d_world d))) d Hm) as [r ->]. }
  rewrite H1. cbn [rbind]. rewrite H2. cbn [rbind]. eexists _, _. split; [done|]. intros a -> Ha He.
  destruct (user_row_ok caller a records (d_world d) Hm) as [r Hr]. exists r.
  destruct (user_row_inv _ _ _ _ _ Hr) as (? & ? & _). split_and!; [|done|done]. apply elem_of_py_sorted, elem_of_app. left.
  apply (Hin1 a); [done|]. unfold record_row. by rewrite He.
Qed.

(** ** The answers of the operations *)

Lemma list_users_at w rs rv : settled clk w rs rv -> list_users clk w = (Ok (sorted_accounts rs), w).
Proof. intros Hs. unfold list_users, mbind_. by rewrite (se_load _ _ _ _ Hs). Qed.
Lemma on_list_users (d : desk W) rs rv : settled clk (d_reg d) rs rv -> on_reg (list_users clk) d = (Ok (sorted_accounts rs), d).
Proof. intros Hs. unfold on_reg. rewrite (list_users_at _ rs rv Hs). by destruct d. Qed.

Lemma answer_row_ok caller (d : desk W) rs rv a : settled clk (d_reg d) rs rv -> mail_answers ->
  a ∈ sorted_accounts rs -> is_entity a = false ->
  exists r, answer_row clk caller (a_user_id a) (a_tenant_id a) d = (Ok r, d) /\ r_id r = a_user_id a.
Proof.
  intros Hs Hm Ha He. unfold answer_row, account_row, list_accounts, mbind_. rewrite (on_list_users d rs rv Hs).
  destruct (listing_total caller true (sorted_accounts rs) d Hm) as (rows & wn & -> & Hin). cbn.
  destruct (Hin a eq_refl Ha He) as (r & Hr & H1 & H2).
  assert (is_row (a_user_id a) (a_tenant_id a) r = true) as Hrow by (unfold is_row; by rewrite H1, H2, !String.eqb_refl).
  destruct (List.find _ rows) as [r'|] eqn:Hf.
  - exists r'. split; [done|]. apply find_some in Hf as [_ Hf]. unfold is_row in Hf. apply andb_true_iff in Hf as [Hf _]. by apply String.eqb_eq.
  - apply list_elem_of_In in Hr. rewrite (find_none _ _ Hf r Hr) in Hrow. done.
Qed.

(** The account at a key as it is read back after a write of [b] there. *)
Lemma written w rs rv a b rv' now : settled clk w rs rv -> oget (account_key a) rs = Some a -> storable b -> account_key b = account_key a ->
  reservations_ok rv' -> forall w', users_file w' = Some (Json (payload (oset (account_key a) b rs) rv' now)) ->
  exists rs1 rv1, settled clk w' rs1 rv1 /\ oget (account_key a) rs1 = Some (canon b).
Proof.
  intros Hs Hg Hb Hk Hrv w' Hf. eexists _, _. split.
  - eapply settled_saved; [|done]. split; [|done]. rewrite <- Hk. apply accounts_ok_oset; [done|apply Hs].
  - rewrite oget_reload; [by rewrite oget_oset_eq|]. rewrite <- Hk. apply accounts_ok_oset; [done|apply Hs].
Qed.

Lemma disable_ok (d : desk W) rs rv a : settled clk (d_reg d) rs rv -> exclusive rs rv -> oget (account_key a) rs = Some a -> is_entity a = false ->
  exists d' rs1 rv1 b, enable clk sha256_hex pbkdf2 a false d = (Ok tt, d') /\ settled clk (d_reg d') rs1 rv1 /\
    oget (account_key a) rs1 = Some b /\ a_enabled b = false /\ is_entity b = false /\ account_key b = account_key a /\
    a_user_id b = a_user_id a /\ a_tenant_id b = a_tenant_id a.
Proof.
  intros Hs [Hx1 Hx2] Hg He. pose proof (se_ok _ _ _ _ Hs) as [Hrs Hrv]. destruct (accounts_ok_get rs _ a Hrs Hg) as [_ Hst].
  pose proof Hst as [H1 H2 H3 H4 H5 H6].
  set (now := isoformat (clk (clock_reads (d_reg d)))).
  set (b := mk_account (a_user_id a) (a_tenant_id a) (a_email a) (a_roles a) (a_scopes a) false
          (safe_principal_component (VStr (or_else "" (a_runtime_id a))) (Some (a_user_id a)))
          (a_token_hash a) (a_token_fingerprint a) (a_created_at a) now (a_archived a) (a_archived_at a) (a_archived_by a)
          (a_openai_api a) (a_openai_keys a) (a_password_hash a) (a_password_set_at a) (a_display_name a)).
  assert (runtime_of b = runtime_of a) as Hrb.
  { unfold runtime_of at 1, b. cbn -[safe_principal_component]. change (or_else "" (a_runtime_id a)) with (a_runtime_id a).
    unfold runtime_of, or_else in *. destruct (String.eqb_spec (a_runtime_id a) "") as [E0|].
    - rewrite E0, safe_component_fallback by done. by rewrite (proj2 (String.eqb_neq _ _)) by (by apply good_nonempty).
    - rewrite safe_component_id by done. by rewrite (proj2 (String.eqb_neq _ _)). }
  assert (storable b) as Hb by (split; [done|done|by rewrite Hrb|done|done|apply isoformat_nonempty]).
  assert (require_runtime_available rs rv (a_tenant_id b) (runtime_of b) (account_key b) = Ok tt) as Hreq.
  { unfold require_runtime_available, runtime_reservation_key. rewrite Hrb. change (a_tenant_id b) with (a_tenant_id a).
    rewrite !safe_tenant_id, !safe_name_id by done. rewrite (proj2 (String.eqb_neq _ _)) by (by apply good_nonempty).
    replace (runtime_taken rs (account_key b) (a_tenant_id a) (runtime_of a)) with false.
    - pose proof (Hx2 _ _ Hg) as Hno. unfold rkey in Hno. by rewrite Hno.
    - symmetry. unfold runtime_taken. apply not_true_iff_false. intros [[k c] [Hin%list_elem_of_In Hc]]%existsb_exists. cbn in Hc. bool_to_prop.
      destruct Hrs as [Hnd Hall]. destruct (Hall k c Hin) as [-> _]. apply NoDup_oget in Hin; [|done].
      by pose proof (Hx1 _ _ _ _ Hin Hg ltac:(done) ltac:(done)). }
  assert (asked_key (a_tenant_id a) (a_user_id a) = account_key a) as Hk by (unfold asked_key, account_key; by rewrite safe_tenant_id, safe_name_id).
  assert (exists w', update_user clk sha256_hex pbkdf2 (a_user_id a) (a_tenant_id a) None None (Some false) None None None None "" "" (d_reg d) =
    (Ok (b, None), w') /\ exists t, users_file w' = Some (Json (payload (oset (account_key a) b rs) (opop (rkey b) rv) t))) as (w' & Hu & t & Hf).
  { unfold update_user, mbind_. rewrite (se_load _ _ _ _ Hs) by done. rewrite Hk, Hg, He. cbn [andb default from_option id]. rewrite andb_false_r.
    cbn [of_res option_map default from_option id bool_decide]. cbv zeta. unfold of_res, now_utc_iso. fold now. fold b.
    rewrite Hreq, Hrb, String.eqb_refl. unfold save_store, mbind_, now_utc_iso, modify, ret. cbn [users_file clock_reads].
    unfold runtime_reservation_key. change (a_tenant_id b) with (a_tenant_id a). rewrite safe_tenant_id, safe_name_id by done.
    unfold rkey. rewrite Hrb. eexists. split; [done|]. by eexists. }
  destruct (written (d_reg d) rs rv a b (opop (rkey b) rv) t Hs Hg Hb eq_refl (reservations_ok_opop _ _ Hrv) w' Hf) as (rs1 & rv1 & Hs1 & Hg1).
  exists (mk_desk w' (d_marks d) (d_world d)), rs1, rv1, (canon b). unfold enable, mbind_, on_reg. rewrite Hu.
  split_and!; try done. by rewrite canon_entity.
Qed.
Lemma archive_ok (d : desk W) rs rv a actor : settled clk (d_reg d) rs rv -> oget (account_key a) rs = Some a -> is_entity a = false ->
  exists d' rs1 rv1 b, archive clk a true actor d = (Ok tt, d') /\ settled clk (d_reg d') rs1 rv1 /\
    oget (account_key a) rs1 = Some b /\ a_archived b = true /\ is_entity b = false /\ account_key b = account_key a /\
    a_user_id b = a_user_id a /\ a_tenant_id b = a_tenant_id a.
Proof.
  intros Hs Hg He. pose proof (se_ok _ _ _ _ Hs) as [Hrs Hrv]. destruct (accounts_ok_get rs _ a Hrs Hg) as [_ Hst].
  pose proof Hst as [H1 H2 H3 H4 H5 H6]. set (now := isoformat (clk (clock_reads (d_reg d)))). set (b := with_archive true now actor now a).
  assert (storable b) as Hb by (split; first [done|apply isoformat_nonempty]).
  assert (asked_key (a_tenant_id a) (a_user_id a) = account_key a) as Hk by (unfold asked_key, account_key; by rewrite safe_tenant_id, safe_name_id).
  assert (exists w', set_archived clk (a_user_id a) (a_tenant_id a) true actor (d_reg d) = (Ok b, w') /\
    exists t, users_file w' = Some (Json (payload (oset (account_key a) b rs) rv t))) as (w' & Hu & t & Hf).
  { unfold set_archived, mbind_. rewrite (se_load _ _ _ _ Hs) by done. rewrite Hk, Hg. unfold now_utc_iso, put_account, save_store, mbind_, now_utc_iso, modify, ret.
    eexists. split; [done|]. by eexists. }
  destruct (written (d_reg d) rs rv a b rv t Hs Hg Hb eq_refl Hrv w' Hf) as (rs1 & rv1 & Hs1 & Hg1).
  exists (mk_desk w' (d_marks d) (d_world d)), rs1, rv1, (canon b). unfold archive, mbind_, on_reg. rewrite Hu.
  split_and!; try done. by rewrite canon_entity.
Qed.

(** ** A row tells what works *)

(** What the switch [k] of the row says of the operation: available, it is done and
    the account is as [P]; not, the operation is refused with the row's reason and
    nothing changes. *)
Definition told (k : string) (m : M (desk W) row) (P : GatewayUserRecord -> Prop) (r : row) (d : desk W) : Prop :=
  match oget k (r_actions r) with
  | Some (mk_action true _) =>
      exists r' d' rs rv b, m d = (Ok r', d') /\ r_id r' = r_id r /\ settled clk (d_reg d') rs rv /\
        oget (pair_key (r_tenant r) (r_id r)) rs = Some b /\ P b
  | Some (mk_action false why) => exists code reason, why = Some reason /\ m d = (Raise (AccountError 409 code reason), d)
  | None => False
  end.

Lemma find_person rs a : accounts_ok rs -> a ∈ sorted_accounts rs ->
  (forall b, b ∈ sorted_accounts rs -> is_entity b = true -> a_user_id b <> a_user_id a) ->
  find_record (sorted_accounts rs) (a_user_id a) (a_tenant_id a) = Some a.
Proof.
  intros Hok Ha Hent. apply find_unique; [done|unfold is_account; by rewrite !String.eqb_refl|].
  intros b Hb. unfold is_account. intros [Hu%String.eqb_eq Ht]%andb_true_iff.
  destruct (is_entity b) eqn:He; [by destruct (Hent b Hb He)|]. rewrite orb_false_r in Ht. apply String.eqb_eq in Ht.
  assert (forall c, c ∈ sorted_accounts rs -> oget (account_key c) rs = Some c) as Hg.
  { intros c Hin%elem_of_py_sorted. destruct Hok as [Hnd Hall]. apply list_elem_of_fmap in Hin as ([k c'] & -> & Hin).
    destruct (Hall k c' Hin) as [-> _]. by apply NoDup_oget. }
  pose proof (Hg b Hb) as H1. pose proof (Hg a Ha) as H2. unfold account_key in *. rewrite Hu, Ht in H1. congruence.
Qed.
Lemma row_switch caller a records (w : W) r : user_row a caller records w = Ok r -> a_archived a = false ->
  let blocked reason reason' := oget "suspend" (r_actions r) = Some (mk_action false (Some reason)) /\
                                oget "archive" (r_actions r) = Some (mk_action false (Some reason')) in
  if same caller (a_user_id a) (a_tenant_id a) then blocked CANNOT_DEACTIVATE_SELF REASON_OWN_ARCHIVE
  else if last_enabled_admin a records then blocked REASON_LAST_ADMIN REASON_LAST_ADMIN
  else oget "suspend" (r_actions r) = Some free_act /\ oget "archive" (r_actions r) = Some free_act.
Proof.
  intros Hr Ha. destruct (user_row_inv _ _ _ _ _ Hr) as (_ & _ & _ & _ & -> & ->). unfold user_switches. rewrite Ha.
  destruct (same _ _ _); [done|]. by destruct (last_enabled_admin _ _).
Qed.

(** C15: The row of a person whose id no entity of the gateway has tells an
    administrator what works, while the mailboxes can be read and no two accounts
    share a runtime: a switch it shows as available (suspend, archive) is carried out,
    and the account is disabled or archived in the file; one it shows as not available
    is refused with the reason the row shows, and nothing changes. (With an entity of
    the same id the route acts on the entity: [AdminRuns.namesake_archived].) *)
Theorem row_tells_what_works caller (d : desk W) rs rv rows warning r :
  settled clk (d_reg d) rs rv -> exclusive rs rv -> mail_answers -> is_admin caller = true ->
  fst (list_accounts clk caller false d) = Ok (rows, warning) -> r ∈ rows -> r_kind r = "user" ->
  (forall b, b ∈ sorted_accounts rs -> is_entity b = true -> a_user_id b <> r_id r) ->
  told "suspend" (set_active clk sha256_hex pbkdf2 caller (r_id r) false (r_tenant r)) (fun b => a_enabled b = false) r d /\
  told "archive" (archive_account clk caller (r_id r) (r_tenant r)) (fun b => a_archived b = true) r d.
Proof.
  intros Hs Hx Hm Hadm Hl Hin Hk Hent. unfold list_accounts, mbind_ in Hl. rewrite (on_list_users d rs rv Hs) in Hl. cbn in Hl.
  destruct (listing_user _ _ _ _ _ _ _ Hl Hin Hk) as (a & Ha & He & Hrow & Harch). specialize (Harch eq_refl).
  destruct (user_row_inv _ _ _ _ _ Hrow) as (Hid & Hten & _). rewrite Hid, Hten in *.
  pose proof (se_ok _ _ _ _ Hs) as [Hrs _]. pose proof (find_person rs a Hrs Ha Hent) as Hf.
  destruct (record_get rs rv (se_ok _ _ _ _ Hs) a Ha) as [Hg _].
  pose proof (row_switch _ _ _ _ _ Hrow Harch) as Hsw. cbn zeta in Hsw.
  assert (forall b rs1 rv1, settled clk (d_reg b) rs1 rv1 -> forall c, oget (account_key a) rs1 = Some c -> is_entity c = false ->
    a_user_id c = a_user_id a -> a_tenant_id c = a_tenant_id a ->
    exists r', answer_row clk caller (a_user_id a) (a_tenant_id a) b = (Ok r', b) /\ r_id r' = a_user_id a) as Hans.
  { intros b rs1 rv1 Hb c Hc Hce Hcu Hct. rewrite <- Hcu, <- Hct. eapply answer_row_ok; [done|done| |done].
    apply elem_of_py_sorted. by apply (list_elem_of_fmap_2 snd _ (account_key a, c)), oget_Some_elem. }
  unfold told, set_active, archive_account, active_checks, archive_checks, mbind_. rewrite (on_list_users d rs rv Hs), Hf, Hadm.
  cbn [is_person andb bool_decide]. rewrite He, Harch. cbn [negb orb ret get]. rewrite bool_decide_eq_false_2 by done. cbn [andb ret].
  rewrite Hid, Hten. destruct (same caller _ _); [|destruct (last_enabled_admin a _)].
  1,2: destruct Hsw as [-> ->]; split; by eexists _, _.
  destruct Hsw as [-> ->]. cbn [free_act ret]. unfold active_apply, archive_apply, tenant_of, mbind_. cbn [fst snd]. rewrite He. split.
  - destruct (disable_ok d rs rv a Hs Hx Hg He) as (d' & rs1 & rv1 & b & -> & Hs1 & Hb & Hen & Hbe & _ & Hbu & Hbt).
    destruct (Hans d' rs1 rv1 Hs1 b Hb Hbe Hbu Hbt) as (r' & -> & Hr'). by exists r', d', rs1, rv1, b.
  - destruct (archive_ok d rs rv a (actor_of caller) Hs Hg He) as (d' & rs1 & rv1 & b & -> & Hs1 & Hb & Hen & Hbe & _ & Hbu & Hbt).
    destruct (Hans d' rs1 rv1 Hs1 b Hb Hbe Hbu Hbt) as (r' & -> & Hr'). by exists r', d', rs1, rv1, b.
Qed.

(** ** Creators *)

(** The creator an act of a caller who is no administrator is checked against. *)
Definition recorded_creator (id : string) (w : W) : val :=
  match oget id (entity_homes w).1 with
  | Some h => get_ "created_by" h
  | None => match oget id (entity_creators w) with Some c => VDict c | None => VNone end
  end.
Lemma configure_role_creator caller created_by r : is_admin caller = false -> configure_role (Some caller) created_by = Some r ->
  is_entity_principal caller = false /\ exists c, created_by = VDict c /\ same_account caller c = true.
Proof.
  intros Ha. unfold configure_role. rewrite Ha. destruct (is_entity_principal caller); [done|]. destruct created_by; try done.
  destruct (String.eqb _ ""); [done|]. destruct (same_account caller d) eqn:Hsame; [|done]. intros _. split; [done|]. by exists d.
Qed.

(** C14: A caller who is no administrator does something to an account (its switch,
    its archive, its end) only when the account is an entity whose recorded creator is
    the caller's own account; to any other it gets the answer of a missing account,
    and nothing changes. *)
Theorem creators_act_alone caller id tenant active (d : desk W) rs rv m :
  settled clk (d_reg d) rs rv -> is_admin caller = false ->
  m ∈ [set_active clk sha256_hex pbkdf2 caller id active tenant; archive_account clk caller id tenant; unarchive_account clk caller id tenant] ->
  m d = (Raise (missing id), d) \/
  is_person (find_record (sorted_accounts rs) id tenant) = false /\ is_entity_principal caller = false /\
  exists c, recorded_creator id (d_world d) = VDict c /\ same_account caller c = true.
Proof.
  intros Hs Hna Hm. destruct (is_person (find_record (sorted_accounts rs) id tenant)) eqn:Hp; [left|].
  - rewrite !elem_of_cons in Hm. destruct Hm as [->|[->|[->|Hm]]]; [| | |by apply not_elem_of_nil in Hm].
    + unfold set_active, active_checks, mbind_. by rewrite (on_list_users d rs rv Hs), Hna, Hp.
    + unfold archive_account, archive_checks, mbind_. rewrite (on_list_users d rs rv Hs), Hna, Hp. cbn [get].
      destruct (find_record _ _ _); [|done]. by rewrite bool_decide_eq_false_2.
    + unfold unarchive_account, mbind_. by rewrite (on_list_users d rs rv Hs), Hna, Hp.
  - destruct (configure_role (Some caller) (recorded_creator id (d_world d))) as [r|] eqn:Hc; [right|left].
    { split; [done|]. by eapply configure_role_creator. }
    assert (require_creator caller id (entity_homes (d_world d)).1 d = (Raise (missing id), d)) as Hreq.
    { unfold require_creator. unfold recorded_creator in Hc. by rewrite Hc. }
    rewrite !elem_of_cons in Hm. destruct Hm as [->|[->|[->|Hm]]]; [| | |by apply not_elem_of_nil in Hm].
    + unfold set_active, active_checks, mbind_. by rewrite (on_list_users d rs rv Hs), Hna, Hp, Hreq.
    + unfold archive_account, archive_checks, mbind_. rewrite (on_list_users d rs rv Hs). cbn [get]. unfold homes_for. rewrite Hna, Hp.
      destruct (_ && _); [done|]. by rewrite Hreq.
    + unfold unarchive_account, mbind_. by rewrite (on_list_users d rs rv Hs), Hna, Hp, Hreq.
Qed.
End Rows.

(** ** The accounts page: suspending and resuming

    What an entity was before it was suspended is what resuming it restores, whatever
    else was suspended, archived and resumed meanwhile. The entities' own state is
    behind the class EntityOps; EntityStates says what its two writers promise when
    they end well. *)

(** What a written state reads as. *)
Definition tells {W} `{EntityOps W} (slug s : string) (w : W) : Prop :=
  exists st, state_of slug w = Ok (VDict st) /\ get_ "state" st = VStr s.
Class EntityStates (W : Type) `{EntityOps W} := {
  pausing slug reason w w' : set_entity_state slug "paused" reason w = (Ok tt, w') -> tells slug "paused" w';
  writing slug s reason w w' : set_state slug s reason w = (Ok tt, w') -> tells slug s w';
}.

Section Suspend.
Context {W : Type} `{E : EntityOps W} {L : EntityStates W}.
Context (clk : nat -> Z).

(** The file keeps the state [s] for the entity. *)
Definition keeps_state (slug s : string) (d : desk W) : Prop :=
  exists entry, dget slug (suspended_doc d) = Some (VDict entry) /\ get_ "previous_state" entry = VStr s.

Lemma read_tells slug s (d : desk W) : s <> "" -> tells slug s (d_world d) -> read_state slug d = (Ok (Some s), d).
Proof.
  intros Hne (st & Hst & Hs). unfold read_state. rewrite Hst. destruct st as [|kv st]; [done|]. cbn [py_or truthy]. by rewrite Hs, str_or_str.
Qed.
Lemma now_marks (d : desk W) : exists t d', now_iso clk d = (Ok t, d') /\ d_marks d' = d_marks d /\ d_world d' = d_world d.
Proof. by eexists _, _. Qed.

(** ** One act *)

Lemma remember_first slug before actor (d : desk W) : dmem slug (suspended_doc d) = false -> before = "awake" \/ before = "asleep" ->
  exists d', remember_state clk slug before actor d = (Ok tt, d') /\ keeps_state slug before d' /\ d_world d' = d_world d.
Proof.
  intros Hn Hb. unfold remember_state, mbind_, gets. rewrite Hn. destruct (now_marks d) as (t & d1 & -> & _ & Hw).
  eexists. split; [done|]. split; [|done]. eexists. cbn. rewrite dget_dset_eq. split; [done|]. by destruct Hb as [-> | ->].
Qed.
Lemma remember_keeps slug s slug' before actor (d : desk W) : keeps_state slug s d -> keeps_state slug s (remember_state clk slug' before actor d).2.
Proof.
  intros (e & He & Hs). unfold remember_state, mbind_, gets. destruct (dmem slug' (suspended_doc d)) eqn:Hm; [by exists e|].
  destruct (now_marks d) as (t & d1 & -> & _). exists e. split; [|done]. cbn. rewrite dget_dset_ne; [done|]. intros ->.
  unfold dmem in Hm. by rewrite He in Hm.
Qed.
Lemma keeps_marks slug s (d d' : desk W) : d_marks d' = d_marks d -> keeps_state slug s d -> keeps_state slug s d'.
Proof. unfold keeps_state, suspended_doc. by intros ->. Qed.
Lemma on_world_marks {A} (m : M W A) (d : desk W) : d_marks (on_world m d).2 = d_marks d.
Proof. unfold on_world. by destruct (m (d_world d)). Qed.
Lemma read_state_same slug (d : desk W) : (read_state slug d).2 = d.
Proof. done. Qed.

Lemma suspend_keeps slug s slug' actor (d : desk W) : keeps_state slug s d -> keeps_state slug s (suspend_entity clk slug' actor d).2.
Proof.
  intros Hk. unfold suspend_entity, mbind_ at 1. pose proof (read_state_same slug' d) as Hr. destruct (read_state slug' d) as [[[before|]|x] d0]; cbn in Hr; subst d0; [|done|done].
  unfold mbind_. pose proof (remember_keeps slug s slug' before actor d Hk) as H1. destruct (remember_state _ _ _ _ d) as [[[]|x] d1]; [|done].
  destruct (String.eqb before "paused"); [done|]. eapply keeps_marks; [apply on_world_marks|done].
Qed.
Lemma mark_keeps slug s slug' b actor (d : desk W) : keeps_state slug s d -> keeps_state slug s (mark_entity_archived clk slug' b actor d).2.
Proof.
  intros (e & He & Hs). unfold mark_entity_archived, mbind_, gets, of_res. destruct (decide (slug' = slug)) as [->|Hne].
  - unfold get_. rewrite He. cbn [default]. destruct e as [|kv e]; [done|]. set (entry := kv :: e) in *. change (dict_of (VDict entry)) with (Ok entry).
    assert (dget "previous_state" entry = Some (VStr s)) as Hd.
    { unfold get_ in Hs. destruct (dget "previous_state" entry); [|done]. cbn in Hs. by rewrite Hs. }
    destruct b.
    + destruct (now_marks d) as (t1 & d1 & -> & H1 & _). destruct (now_marks d1) as (t2 & d2 & -> & H2 & _). eexists. cbn.
      rewrite dget_dset_eq. split; [done|]. unfold get_. rewrite !dget_dset_ne by done. by rewrite !dget_setdefault, Hd.
    + eexists. cbn -[dpop]. rewrite dget_dset_eq. split; [done|]. unfold get_. rewrite !dget_dpop_ne by done. by rewrite Hd.
  - destruct (dict_of (get_ slug' (suspended_doc d))) as [entry|]; [|by exists e]. destruct b.
    + destruct (now_marks d) as (t1 & d1 & -> & H1 & _). destruct (now_marks d1) as (t2 & d2 & -> & H2 & _). exists e.
      split; [|done]. cbn -[dmerge setdefault]. by rewrite dget_dset_ne.
    + destruct entry; [by exists e|]. exists e. split; [|done]. cbn -[dpop]. by rewrite dget_dset_ne.
Qed.
Lemma resume_keeps slug s slug' actor (d : desk W) : slug' <> slug -> keeps_state slug s d -> keeps_state slug s (resume_entity slug' actor d).2.
Proof.
  intros Hne (e & He & Hs). unfold resume_entity, mbind_ at 1, gets. unfold mbind_ at 1.
  assert (exists d1, (match dget slug' (suspended_doc d) with Some VNone | None => ret tt | Some _ => write_suspended (dpop slug' (suspended_doc d)) end) d = (Ok tt, d1) /\
    keeps_state slug s d1) as (d1 & -> & Hk).
  { destruct (dget slug' (suspended_doc d)) as [[]|]; eexists; (split; [done|]); exists e; cbn; rewrite ?dget_dpop_ne by done; done. }
  unfold mbind_ at 1. pose proof (read_state_same slug' d1) as Hr. destruct (read_state slug' d1) as [[cur|x] d0]; cbn in Hr; subst d0; [|done].
  case_bool_decide; [|done]. unfold mbind_, of_res. destruct (previous_state _); [|done]. eapply keeps_marks; [apply on_world_marks|done].
Qed.

(** ** What happens between the two *)

(** Acts on the file: a suspension of any entity (this one too), a mark of any, the
    resumption of another; and anything that leaves the file. *)
Inductive act := Suspends (slug actor : string) | Marks (slug : string) (archived : bool) (actor : string) | Resumes (slug actor : string)
  | Else (d : desk W).
Definition perform (a : act) (d : desk W) : desk W :=
  match a with
  | Suspends slug actor => (suspend_entity clk slug actor d).2
  | Marks slug b actor => (mark_entity_archived clk slug b actor d).2
  | Resumes slug actor => (resume_entity slug actor d).2
  | Else d' => mk_desk (d_reg d') (d_marks d) (d_world d')
  end.
Definition spares_entity (slug : string) (a : act) : Prop := match a with Resumes slug' _ => slug' <> slug | _ => True end.
Lemma perform_keeps slug s acts d : Forall (spares_entity slug) acts -> keeps_state slug s d ->
  keeps_state slug s (fold_left (fun d a => perform a d) acts d).
Proof.
  intros Ha. revert d. induction Ha as [|a acts Hsp Ha IH]; intros d Hk; [done|]. apply IH. destruct a; cbn [perform].
  - by apply suspend_keeps.
  - by apply mark_keeps.
  - by apply resume_keeps.
  - by eapply keeps_marks; [|done].
Qed.

(** An entity that was awake or asleep is suspended and, after any further
    suspensions, archivings, unarchivings and resumptions of others, resumed: when
    both calls end well it is as it was before, and the file holds nothing of it. *)
Theorem resumed_as_it_was slug actor actor' s acts (d d1 d3 : desk W) :
  s = "awake" \/ s = "asleep" -> tells slug s (d_world d) -> dget slug (suspended_doc d) = None ->
  suspend_entity clk slug actor d = (Ok tt, d1) -> Forall (spares_entity slug) acts ->
  let d2 := fold_left (fun d a => perform a d) acts d1 in
  tells slug "paused" (d_world d2) -> resume_entity slug actor' d2 = (Ok tt, d3) ->
  tells slug "paused" (d_world d1) /\ tells slug s (d_world d3) /\ suspended_record slug d3 = None.
Proof.
  intros Hs Ht Hn Hsus Ha d2 Hp Hres. assert (s <> "" /\ s <> "paused") as [Hne Hnp] by (by destruct Hs as [-> | ->]).
  unfold suspend_entity, mbind_ at 1 in Hsus. rewrite (read_tells slug s d Hne Ht) in Hsus.
  assert (dmem slug (suspended_doc d) = false) as Hmem by (unfold dmem; by rewrite Hn).
  destruct (remember_first slug s actor d Hmem Hs) as (d0 & Hd0 & Hk & Hw). unfold mbind_ in Hsus. rewrite Hd0 in Hsus.
  rewrite (proj2 (String.eqb_neq _ _)) in Hsus by done. unfold on_world in Hsus.
  destruct (set_entity_state slug "paused" _ (d_world d0)) as [[[]|x] w1] eqn:Hset; [|done]. injection Hsus as <-.
  split; [by eapply pausing|].
  assert (keeps_state slug s d2) as (e & He & Hps) by (apply perform_keeps; [done|by eapply keeps_marks; [|done]]).
  unfold resume_entity, mbind_ at 1, gets in Hres. rewrite He in Hres. unfold mbind_ at 1, write_suspended, modify in Hres.
  unfold mbind_ at 1 in Hres. rewrite read_tells with (s := "paused") in Hres by done. rewrite bool_decide_eq_true_2 in Hres by done.
  unfold mbind_, of_res, previous_state in Hres. destruct e as [|kv e]; [done|]. cbn [py_or truthy] in Hres. rewrite Hps, str_or_str in Hres by done.
  unfold on_world in Hres. cbn [d_world] in Hres. destruct (set_state slug s _ (d_world d2)) as [[[]|x] w3] eqn:Hset3; [|done]. injection Hres as <-.
  split; [by eapply writing|]. unfold suspended_record, get_. cbn. by rewrite dget_dpop_eq.
Qed.
End Suspend.
