(* ===== verification/AdminRuns.v ===== *)
(** * The accounts page: concrete runs

    A gateway with two entities in memory and the toy digests of UserRegistryRuns:
    the inputs at which the theorems are applied, and five runs in which the page
    does something else than it means to. *)

From S2P Require Import Prelude PyStr PyVal PyNum PyText OrdDict IsoTime RunnerExec ToolGrants Principal Authorization EntityAccess Sessions UserRegistry UserRegistryFile UserRegistryOps UserRegistryFacts UserRegistryRuns Passwords AdminAccounts AdminRoutes AdminFacts AdminRows.

(** Entities by name: their state and their creator. *)
Definition town : Type := list (string * (string * val)).
Definition summary (kv : string * (string * val)) : val :=
  VDict [("slug", VStr kv.1); ("created_by", kv.2.2); ("state", VDict [("state", VStr kv.2.1)])].
Definition put_state (slug s : string) : M town unit :=
  modify (fun w => match oget slug w with Some e => oset slug (s, e.2) w | None => w end).
#[export] Instance town_ops : EntityOps town := {
  own_census w := Ok (map summary w);
  own_dir _ := Some "/data/entities";
  planes w := [("/data/entities", "/data", Ok (map summary w))];
  manifests w := [map (fun kv => (kv.1, kv.2.2)) w];
  enter_plane _ := ret tt;
  state_of slug w := match oget slug w with Some e => Ok (VDict [("state", VStr e.1)]) | None => Raise (KeyError slug) end;
  set_entity_state slug s _ := fun w => if dmem slug (map (fun kv => (kv.1, kv.2.2)) w) then put_state slug s w else (Raise (KeyError slug), w);
  set_state slug s _ := fun w => if dmem slug (map (fun kv => (kv.1, kv.2.2)) w) then put_state slug s w else (Raise (KeyError slug), w);
  home_dir slug _ := Ok ("/data/entities/" +:+ slug);
  stop_loop _ _ _ := ret tt;
  sync_entity_workers := ret tt;
  email_view _ _ := Ok (VNone, VDict [("state", VStr "not_connected")]);
}.
Lemma town_writes slug s (w w' : town) :
  (if dmem slug (map (fun kv => (kv.1, kv.2.2)) w) then put_state slug s w else (Raise (KeyError slug), w)) = (Ok tt, w') -> tells slug s w'.
Proof.
  destruct (dmem slug _) eqn:Hm; [|done]. unfold put_state, modify. intros [= <-].
  assert (is_Some (oget slug w)) as [e He].
  { induction w as [|[k v] w IH]; [done|]. cbn in *. destruct (decide (slug = k)) as [->|Hne]; [by eexists|].
    apply IH. unfold dmem in *. cbn in Hm. by rewrite (proj2 (String.eqb_neq _ _)) in Hm. }
  rewrite He. unfold tells. cbn. rewrite oget_oset_eq. by eexists.
Qed.
#[export] Instance town_states : EntityStates town.
Proof. split; intros *; apply town_writes. Qed.

Definition member (name : string) (roles : list string) (tenant : string) : op :=
  Create name tenant (Some roles) None true None VNone (Some ("token-" +:+ name)) "" "salt".
Definition signed_in (name : string) (roles : list string) : GatewayPrincipal := mk_principal name "default" roles [] "" name "user-registry".
Definition ann : GatewayPrincipal := signed_in "ann" ["admin"].
Definition bob : GatewayPrincipal := signed_in "bob" ["admin"].
Definition dan : GatewayPrincipal := signed_in "dan" ["user"].
Definition created_by (name : string) : val := VDict [("tenant_id", VStr "default"); ("user_id", VStr name)].
Definition village : town := [("echo", ("awake", created_by "dan")); ("nyx", ("paused", created_by "ann"))].
Definition staff : list op := [member "ann" ["admin"] "default"; member "bob" ["admin"] "default"; member "dan" ["user"] "default"].
Definition desk_of (os : list op) (w : town) : desk town := mk_desk (run_ops sample_clk sample_sha sample_pbkdf2 os (mk_registry None 0)) None w.
Abbreviation office := (desk_of staff village).

Definition records_of (d : desk town) : accounts := (loaded (d_reg d)).1.
Definition with_admin (d : desk town) : bool := existsb (fun kv => enabled_admin kv.2 && negb (a_archived kv.2)) (records_of d).
Definition echo_state (d : desk town) : option string := fst <$> oget "echo" (d_world d).

Lemma desk_settled os w : settled sample_clk (d_reg (desk_of os w)) (records_of (desk_of os w)) (loaded (d_reg (desk_of os w))).2 /\
  exclusive (records_of (desk_of os w)) (loaded (d_reg (desk_of os w))).2.
Proof. apply loaded_settled. Qed.
Lemma administered_dec (rs : accounts) : NoDup (okeys rs) ->
  existsb (fun kv => enabled_admin kv.2 && negb (a_archived kv.2)) rs = true ->
  existsb (fun a => a_archived a && a_enabled a) (map snd rs) = false -> administered rs.
Proof.
  intros Hnd Hx Hs. split.
  - apply existsb_exists in Hx as ([k a] & Hin%list_elem_of_In & [He Ha%negb_true_iff]%andb_true_iff). cbn in *.
    exists k, a. split; [by apply NoDup_oget|]. apply shut_rules; [|done]. by rewrite Ha.
  - intros k a Hg Ha. pose proof (existsb_oget _ _ _ _ Hs Hg) as H. cbn in H. by rewrite Ha in H.
Qed.
Lemma office_good : good sample_clk office.
Proof.
  destruct (desk_settled staff village) as [Hs _]. eexists _, _. split; [exact Hs|].
  apply administered_dec; [apply (se_ok _ _ _ _ Hs)|by vm_compute|by vm_compute].
Qed.

(** ** The theorems on concrete inputs *)

Abbreviation served qs := (serve_all sample_clk sample_sha sample_pbkdf2 true toy_scrypt qs office).
Definition demote (name : string) : request (W:=town) :=
  UpdateUser ann name "default" (mk_update None (Some ["user"]) None None None None false) "" "".
Definition busy_day : list (request (W:=town)) :=
  [ Archive ann "bob" "default"; demote "ann"; SetActive bob "ann" false "default"; Archive ann "ann" "default"; MyArchive dan "echo" ].
(** Ann archives Bob, tries to demote and archive herself, Bob (as a principal still
    in flight) tries to disable her. *)
Lemma an_admin_remains_witness :
  (exists rs rv k a, settled sample_clk (d_reg (served busy_day)) rs rv /\ oget k rs = Some a /\
    a_enabled a = true /\ a_archived a = false /\ is_entity a = false /\ "admin" ∈ map strip (a_roles a)) /\
  a_archived <$> oget "default:bob" (records_of (served busy_day)) = Some true /\ echo_state (served busy_day) = Some "paused".
Proof.
  split; [|by vm_compute]. apply (an_admin_remains sample_clk sample_sha sample_pbkdf2 true toy_scrypt busy_day office office_good).
  repeat constructor. cbn. set_solver.
Defined.

Definition row_of (d : desk town) (caller : GatewayPrincipal) (id : string) : option row :=
  match (list_accounts sample_clk caller false d).1 with Ok (rows, _) => List.find (fun r => String.eqb (r_id r) id) rows | _ => None end.
Lemma row_of_listed {A} (f : row -> A) d caller id v : f <$> row_of d caller id = Some v ->
  exists rows warning r, (list_accounts sample_clk caller false d).1 = Ok (rows, warning) /\ r ∈ rows /\ f r = v.
Proof.
  unfold row_of. destruct (list_accounts sample_clk caller false d).1 as [[rows warning]|x]; [|done].
  destruct (List.find _ rows) as [r|] eqn:Hf; [|done]. intros [= <-]. apply find_some in Hf as [Hin%list_elem_of_In _].
  by exists rows, warning, r.
Qed.
Lemma ann_listed : exists rows warning r,
  (list_accounts sample_clk ann false office).1 = Ok (rows, warning) /\ r ∈ rows /\
  (r_id r, r_kind r, oget "archive" (r_actions r)) = ("ann", "user", Some (mk_action false (Some REASON_OWN_ARCHIVE))).
Proof. apply (row_of_listed (fun r => (r_id r, r_kind r, oget "archive" (r_actions r))) office ann "ann"). by vm_compute. Qed.
Lemma office_people b : b ∈ sorted_accounts (records_of office) -> is_entity b = true -> False.
Proof.
  intros Hb He. assert (existsb is_entity (sorted_accounts (records_of office)) = false) as Hno by (by vm_compute).
  rewrite <- not_true_iff_false in Hno. apply Hno, existsb_exists. exists b. split; [exact (proj1 (list_elem_of_In _ _) Hb)|exact He].
Qed.
(** Ann's own row says that she cannot archive herself, and she cannot. *)
Lemma row_tells_what_works_witness :
  exists r, oget "archive" (r_actions r) = Some (mk_action false (Some REASON_OWN_ARCHIVE)) /\ r_id r = "ann" /\
  told sample_clk "archive" (archive_account sample_clk ann (r_id r) (r_tenant r)) (fun b => a_archived b = true) r office.
Proof.
  destruct ann_listed as (rows & warning & r & Hl & Hin & [= Hid Hk Hx]). exists r. split; [exact Hx|]. split; [exact Hid|].
  destruct (desk_settled staff village) as [Hs He].
  refine (proj2 (row_tells_what_works sample_clk sample_sha sample_pbkdf2 ann office _ _ rows warning r Hs He (fun _ _ => eq_refl) eq_refl Hl Hin Hk _)).
  intros b Hb Hent. destruct (office_people b Hb Hent).
Defined.

(** Dan may archive the entity he created and no other. *)
Lemma creators_act_alone_witness :
  archive_account sample_clk dan "nyx" "default" office = (Raise (missing "nyx"), office) /\
  is_ok (archive_account sample_clk dan "echo" "default" office).1 = true.
Proof.
  split; [|by vm_compute]. destruct (desk_settled staff village) as [Hs _].
  destruct (creators_act_alone sample_clk sample_sha sample_pbkdf2 dan "nyx" "default" false office _ _ (archive_account sample_clk dan "nyx" "default") Hs)
    as [H|(_ & _ & c & Hc & Hsame)]; [done|apply list_elem_of_further, list_elem_of_here|exact H|].
  exfalso. assert (recorded_creator "nyx" village = created_by "ann") as Hr by (by vm_compute).
  change (d_world office) with village in Hc. rewrite Hr in Hc. injection Hc as <-. assert (same_account dan [("tenant_id", VStr "default"); ("user_id", VStr "ann")] = false) as Hno by (by vm_compute). congruence.
Defined.

Definition paused_echo : desk town := (suspend_entity sample_clk "echo" "person:dan" office).2.
Definition meanwhile : list (act (W:=town)) :=
  [ Suspends "echo" "person:ann"; Marks "echo" true "person:ann"; Resumes "nyx" "person:ann"; Marks "echo" false "person:ann" ].
Definition after_meanwhile : desk town := fold_left (fun d a => perform sample_clk a d) meanwhile paused_echo.
Lemma resumed_as_it_was_witness :
  echo_state paused_echo = Some "paused" /\ tells "echo" "awake" (d_world (resume_entity "echo" "person:dan" after_meanwhile).2).
Proof.
  split; [by vm_compute|].
  apply (resumed_as_it_was sample_clk "echo" "person:dan" "person:dan" "awake" meanwhile office paused_echo
    (resume_entity "echo" "person:dan" after_meanwhile).2); [by left|by eexists|done|by vm_compute| | |by vm_compute].
  - repeat constructor. done.
  - eexists. split; [by vm_compute|done].
Defined.

(** ** What the page does otherwise *)

(** Two administrators archive each other at once: each check finds the other, and
    the gateway is left without an administrator who can sign in. *)
Theorem two_admins_archive_each_other : exists p d1,
  archive_checks sample_clk ann "bob" "default" office = (Ok p, d1) /\ with_admin d1 = true /\
  let d2 := (archive_account sample_clk bob "ann" "default" d1).2 in
  with_admin d2 = true /\
  is_ok (archive_apply sample_clk ann "bob" "default" p d2).1 = true /\ with_admin (archive_apply sample_clk ann "bob" "default" p d2).2 = false.
Proof. eexists _, _. split; [by vm_compute|]. by vm_compute. Qed.

(** The last administrator gives herself the role of an entity beside her own: the
    edit passes the check of the last administrator, and none is left. *)
Theorem last_admin_made_entity :
  let d := desk_of [member "ann" ["admin"] "default"] village in
  let p := mk_update None (Some ["admin"; "entity"]) None None None None false in
  let r := gateway_admin_update_user sample_clk sample_sha sample_pbkdf2 true ann "ann" "default" p "" "" d in
  with_admin d = true /\ (match r.1 with Ok (Answer _) => true | _ => false end) = true /\ with_admin r.2 = false.
Proof. by vm_compute. Qed.

(** An entity without an account is archived; the next boot makes the account
    ([ensure_entity_accounts]); turning Active on then wakes the entity, which its row
    shows as archived, and forgets the archive. *)
Theorem archived_entity_woken :
  let d1 := (archive_account sample_clk ann "echo" "default" office).2 in
  let d2 := (on_reg (run_op sample_clk sample_sha sample_pbkdf2 (member "echo" ["entity"] "default")) d1).2 in
  let row := match (account_row sample_clk ann "echo" "default" d2).1 with Ok o => r_archived <$> o | _ => None end in
  let r := set_active sample_clk sample_sha sample_pbkdf2 ann "echo" true "default" d2 in
  echo_state d1 = Some "paused" /\ row = Some true /\ (r_archived <$> match r.1 with Ok x => Some x | _ => None end) = Some false /\
  echo_state r.2 = Some "awake".
Proof. by vm_compute. Qed.

(** A person is asked for by name and tenant; an entity of that name in a tenant that
    sorts before is archived in its place. *)
Theorem namesake_archived :
  let d := desk_of (staff ++ [member "echo" ["entity"] "default"; member "echo" ["user"] "zeta"]) village in
  let d' := (archive_account sample_clk ann "echo" "zeta" d).2 in
  a_archived <$> oget "zeta:echo" (records_of d') = Some false /\ a_archived <$> oget "default:echo" (records_of d') = Some true.
Proof. by vm_compute. Qed.

(** An entity that was paused before it was suspended is awake after it is resumed. *)
Theorem paused_entity_woken :
  let d := (suspend_entity sample_clk "nyx" "person:ann" office).2 in
  fst <$> oget "nyx" (d_world (resume_entity "nyx" "person:ann" d).2) = Some "awake".
Proof. by vm_compute. Qed.
