(* ===== verification/FirstRun.v ===== *)
(** * The first run of a gateway

    [first_run.py]: what the environment says of accounts, one-time claim links, the
    record of the running gateway, and the onboarding of a fresh data directory with
    its setup code; and [ensure_bootstrap_admin_user] of [config_cli.py], which makes
    the first administrator and opens the onboarding.

    The state is what the data directory holds of it. A claim link is redeemed in
    three steps (the file is read, removed, checked), which other processes may come
    between; every other operation is one step. The digest of a code ([hashlib]), the
    random parts ([secrets]) and the process ids are arguments. Writing a file does
    not fail, but for a claim's, which must be new. *)

From S2P Require Import Prelude PyStr PyVal PyNum IsoTime PyText OrdDict Principal Sessions UserRegistry.

(** ** What the environment says of accounts *)

Abbreviation environ := (string -> option string).
Definition env_set (name v : string) (env : environ) : environ := fun k => if String.eqb k name then Some v else env k.
(** [str(env.get(name) or "").strip()], and [_set] *)
Definition env_text (env : environ) (name : string) : string := strip (str_or (env_val env name) "").
Definition is_set (env : environ) (name : string) : bool := nonempty (env_text env name).

Definition AUTH_MODE_SOURCE_ENV : string := "ABSTRACTGATEWAY_AUTH_MODE_SOURCE".
Definition AUTH_SOURCE_LOOPBACK_DEFAULT : string := "loopback_default".
Definition USER_AUTH : string := "ABSTRACTGATEWAY_USER_AUTH".
Definition LOOPBACK_HOSTS : list string := ["127.0.0.1"; "::1"; "localhost"].
Definition USER_AUTH_ENV : list string :=
  [USER_AUTH; "ABSTRACTGATEWAY_MULTI_USER"; "ABSTRACTFLOW_GATEWAY_USER_AUTH"; "ABSTRACTGATEWAY_AUTH_MODE"].
Definition TOKEN_ENV : list string :=
  ["ABSTRACTGATEWAY_AUTH_TOKEN"; "ABSTRACTGATEWAY_AUTH_TOKENS"; "ABSTRACTFLOW_GATEWAY_AUTH_TOKEN"; "ABSTRACTFLOW_GATEWAY_AUTH_TOKENS"].
Definition POSTURE_ENV : list string :=
  ["ABSTRACTGATEWAY_SECURITY"; "ABSTRACTFLOW_GATEWAY_SECURITY"; "ABSTRACTGATEWAY_PROTECT_WRITE"; "ABSTRACTFLOW_GATEWAY_PROTECT_WRITE";
   "ABSTRACTGATEWAY_PROTECT_READ"; "ABSTRACTFLOW_GATEWAY_PROTECT_READ"].

(** [is_loopback_host]; [ip_loopback] is [ipaddress.ip_address(h).is_loopback],
    [None] for its [ValueError]. *)
Definition is_loopback_host (ip_loopback : string -> option bool) (host : string) : bool :=
  let h := strip_by (fun c => has_char c "[]") (lower (strip host)) in
  if bool_decide (h ∈ LOOPBACK_HOSTS) then true else default false (ip_loopback h).

Definition own_export (env : environ) : bool := String.eqb (env_text env AUTH_MODE_SOURCE_ENV) AUTH_SOURCE_LOOPBACK_DEFAULT.
Definition explicit_auth_configured (env : environ) : bool :=
  if own_export env then existsb (is_set env) (TOKEN_ENV ++ POSTURE_ENV)
  else existsb (is_set env) (TOKEN_ENV ++ USER_AUTH_ENV ++ POSTURE_ENV).
Definition default_bind_host (env : environ) : string := if explicit_auth_configured env then "0.0.0.0" else "127.0.0.1".
Definition loopback_auth_default_applies (ip_loopback : string -> option bool) (host : string) (env : environ) : bool :=
  if negb (is_loopback_host ip_loopback host) then false else negb (explicit_auth_configured env).
(** [apply_loopback_auth_default]: whether it applied, and the environment it leaves. *)
Definition apply_loopback_auth_default (ip_loopback : string -> option bool) (host : string) (env : environ) : bool * environ :=
  if own_export env && is_loopback_host ip_loopback host then (true, env_set USER_AUTH "1" env)
  else if negb (loopback_auth_default_applies ip_loopback host env) then (false, env)
  else (true, env_set AUTH_MODE_SOURCE_ENV AUTH_SOURCE_LOOPBACK_DEFAULT (env_set USER_AUTH "1" env)).

Record posture := mk_posture {
  ps_mode : string; ps_source : string; ps_user_auth : bool; ps_token : bool; ps_security : bool; ps_read_protected : bool
}.
Definition env_or (env : environ) (a b : string) (dflt : val) : val := py_or (py_or (env_val env a) (env_val env b)) dflt.
Definition auth_mode_summary (env : environ) : posture :=
  let flag name := as_bool (env_or env ("ABSTRACTGATEWAY_" +:+ name) ("ABSTRACTFLOW_GATEWAY_" +:+ name) (VStr "1")) true in
  let security_on := flag "SECURITY" in
  let protect_write := flag "PROTECT_WRITE" in
  let token := existsb (is_set env) TOKEN_ENV in
  let user_raw := env_or env USER_AUTH "ABSTRACTGATEWAY_MULTI_USER" (env_val env "ABSTRACTFLOW_GATEWAY_USER_AUTH") in
  let mode_raw := lower (env_text env "ABSTRACTGATEWAY_AUTH_MODE") in
  let users :=
    if negb (is_none user_raw) && nonempty (strip (py_str user_raw)) then as_bool user_raw false
    else bool_decide (mode_raw ∈ ["user"; "users"; "multi-user"; "multi_user"; "hosted"]) in
  let source := if own_export env then "loopback_default" else "env" in
  let '(mode, source) :=
    if negb security_on || negb protect_write then ("open", source)
    else if users && token then ("users+token", source)
    else if users then ("users", source)
    else if token then ("token", source)
    else ("loopback_auto", "default") in
  mk_posture mode source users token security_on (flag "PROTECT_READ").

(** ** Times and texts of the files *)

(** [text.replace(old, new)]; [skip] characters are passed over. *)
Fixpoint replace_text (old new : string) (skip : nat) (s : string) : string :=
  match s with
  | "" => ""
  | c ::s s' =>
      match skip with
      | S n => replace_text old new n s'
      | O => if startswith old s then new +:+ replace_text old new (String.length old - 1) s' else c ::s replace_text old new 0 s'
      end
  end.
(** [_iso], [_parse_iso] *)
Definition iso_z (t : Z) : string := replace_text "+00:00" "Z" 0 (isoformat t).
Definition parse_iso (raw : val) : option Z := parse_dt (str_or raw "").

(** ** The data directory *)

Record house := mk_house {
  h_reg : registry;
  (** [auth/claims/], by the stem of a file's name; [auth/onboarding.json],
      [first_run.json], [run/gateway-serve.json], [auth/bootstrap-admin-token]. *)
  h_claims : option (list (string * content));
  h_onboarding : option content;
  h_first_run : option content;
  h_serve : option content;
  h_token : option string;
}.
Definition put_reg (w : registry) (h : house) : house := mk_house w (h_claims h) (h_onboarding h) (h_first_run h) (h_serve h) (h_token h).
Definition put_claims (c : option (list (string * content))) (h : house) : house :=
  mk_house (h_reg h) c (h_onboarding h) (h_first_run h) (h_serve h) (h_token h).
Definition put_onboarding (c : content) (h : house) : house :=
  mk_house (h_reg h) (h_claims h) (Some c) (h_first_run h) (h_serve h) (h_token h).
Definition put_first_run (c : content) (h : house) : house :=
  mk_house (h_reg h) (h_claims h) (h_onboarding h) (Some c) (h_serve h) (h_token h).
Definition put_serve (c : option content) (h : house) : house :=
  mk_house (h_reg h) (h_claims h) (h_onboarding h) (h_first_run h) c (h_token h).
Definition put_token (t : string) (h : house) : house :=
  mk_house (h_reg h) (h_claims h) (h_onboarding h) (h_first_run h) (h_serve h) (Some t).
Definition on_users {A} (m : M registry A) : M house A := fun h => let '(r, w) := m (h_reg h) in (r, put_reg w h).
Definition claim_files (h : house) : list (string * content) := default [] (h_claims h).
Definition json_dict (c : option content) : option dict := match c with Some (Json (VDict d)) => Some d | _ => None end.

Section FirstRun.
Context (clk : nat -> Z) (sha256_hex : string -> string).

(** [_now] *)
Definition now_utc : M house Z := fun h =>
  let w := h_reg h in (Ok (clk (clock_reads w)), put_reg (mk_registry (users_file w) (S (clock_reads w))) h).

(** ** Claim links *)

Definition CLAIM_TTL_S : Z := 600.
Definition CLAIM_PREFIX : string := "agclaim_".
Definition CLAIM_SCHEMA : string := "gateway_claim_v1".
(** [_CLAIM_RE] *)
Definition claim_char (c : ascii) : bool := is_alnum_ascii c || has_char c "_-".
Definition claim_shape (raw : string) : bool :=
  let rest := sdrop 8 raw in
  startswith CLAIM_PREFIX raw && forall_chars claim_char rest && (20 <=? len rest) && (len rest <=? 80).

(** When a claim's file says that it expires. *)
Definition claim_expiry (c : content) : option Z := match c with Json (VDict d) => parse_iso (get_ "expires_at" d) | _ => None end.
Definition claim_live (now : Z) (c : content) : bool := match claim_expiry c with Some e => now <? e | None => false end.

Definition prune_claims : M house Z := fun h =>
  match h_claims h with
  | None => (Ok 0, h)
  | Some files =>
      (now <- now_utc ;;
       let live := List.filter (fun kv => claim_live now kv.2) files in
       modify (put_claims (Some live)) ;;; ret (Z.of_nat (length live))) h
  end.
(** How many links are pending, and the first expiry. *)
Definition pending_claims : M house (Z * val) := fun h =>
  match h_claims h with
  | None => (Ok (0, VNone), h)
  | Some files =>
      (now <- now_utc ;;
       let exps := omap (fun kv => if claim_live now kv.2 then claim_expiry kv.2 else None) files in
       ret (Z.of_nat (length exps), match exps with [] => VNone | e :: l => VStr (iso_z (fold_left Z.min l e)) end)) h
  end.

Record minted := mk_minted { m_code : string; m_expires_at : string; m_ttl : Z; m_tenant : string; m_user : string }.
Definition claim_record (digest tenant user created expires created_by : string) (pid : Z) : dict :=
  [ ("schema", VStr CLAIM_SCHEMA); ("digest", VStr digest); ("tenant_id", VStr tenant); ("user_id", VStr user);
    ("created_at", VStr created); ("expires_at", VStr expires); ("created_by", VStr created_by); ("pid", VInt pid) ].
(** [_write_private_json] of a claim *)
Definition write_claim (digest : string) (rec : dict) : M house unit := fun h =>
  match oget digest (claim_files h) with
  | Some _ => (Raise (OtherError "File exists"), h)
  | None => (Ok tt, put_claims (Some (oset digest (Json (VDict rec)) (claim_files h))) h)
  end.
Definition mint_claim (tenant user : string) (ttl_s : Z) (created_by random : string) (pid : Z) : M house minted :=
  let ttl := Z.max 30 (Z.min ttl_s 3600) in
  prune_claims ;;;
  let code := CLAIM_PREFIX +:+ random in
  let digest := sha256_hex code in
  now <- now_utc ;;
  let expires := iso_z (now + ttl * second) in
  let tenant := or_else tenant "default" in
  let user := or_else user "admin" in
  write_claim digest (claim_record digest tenant user (iso_z now) expires (or_else created_by "cli") pid) ;;;
  ret (mk_minted code expires ttl tenant user).

(** A [ClaimError]. *)
Record claim_error := mk_claim_error { ce_code : string; ce_message : string }.
Definition claim_invalid : claim_error :=
  mk_claim_error "claim_invalid" "This first-run link is not valid. Mint a new one with `abstractgateway-config claim-url`.".
Definition claim_unknown : claim_error :=
  mk_claim_error "claim_unknown" "This first-run link was already used or never existed. Mint a new one with `abstractgateway-config claim-url`.".
Definition claim_used : claim_error := mk_claim_error "claim_unknown" "This first-run link was already used.".
Definition claim_unreadable : claim_error := mk_claim_error "claim_invalid" "This first-run link's record is unreadable; mint a new one.".
Definition claim_mismatch : claim_error := mk_claim_error "claim_invalid" "This first-run link's record does not match; mint a new one.".
Definition claim_expired : claim_error :=
  mk_claim_error "claim_expired" "This first-run link expired (links last 10 minutes). Mint a new one with `abstractgateway-config claim-url`.".

(** [redeem_claim] in its three steps. *)
Definition redeem_read (code : string) : M house (claim_error + content) :=
  let raw := strip code in
  if negb (claim_shape raw) then ret (inl claim_invalid)
  else gets (fun h => match oget (sha256_hex raw) (claim_files h) with Some text => inr text | None => inl claim_unknown end).
Definition redeem_unlink (code : string) : M house (claim_error + unit) := fun h =>
  let digest := sha256_hex (strip code) in
  match oget digest (claim_files h) with
  | Some _ => (Ok (inr tt), put_claims (Some (opop digest (claim_files h))) h)
  | None => (Ok (inl claim_used), h)
  end.
Definition redeem_check (code : string) (text : content) : M house (claim_error + dict) :=
  match text with
  | NotJson _ => ret (inl claim_unreadable)
  | Json (VDict rec) =>
      if negb (bool_decide (get_ "digest" rec = VStr (sha256_hex (strip code)))) then ret (inl claim_mismatch)
      else
        match parse_iso (get_ "expires_at" rec) with
        | None => ret (inl claim_expired)
        | Some e => now <- now_utc ;; ret (if e <=? now then inl claim_expired else inr rec)
        end
  | Json _ => ret (inl claim_mismatch)
  end.
Definition redeem_claim (code : string) : M house (claim_error + dict) :=
  text <- redeem_read code ;;
  match text with
  | inl e => ret (inl e)
  | inr text =>
      gone <- redeem_unlink code ;;
      match gone with inl e => ret (inl e) | inr _ => redeem_check code text end
  end.
End FirstRun.

(** ** Onboarding

    [first_run.py], its second half: the record of the running gateway, the state of
    the first run, and the onboarding of a fresh data directory, which is unclaimed
    until its administrator has a password or signs in; and
    [ensure_bootstrap_admin_user] of [config_cli.py] with its use by [serve]
    ([cli.py]).
    
    [picks] are the indices [secrets.choice] takes, [os_pid] the process's own id. *)

(** ** The setup code *)

Definition SETUP_CODE_WORDS : nat := 6.
Definition SETUP_WORDLIST : list string := words
  "acorn actor adobe agent album alley amber anchor angle ankle apple apron arena armor arrow atlas
   attic autumn award bacon badge bagel baker balloon bamboo banana banjo barrel basil basket beach
   beacon beaver berry bicycle bison blanket blossom bonnet border bottle bracket branch bread
   breeze brick bridge brook bucket buffalo bundle butter button cabin cactus camel camera candle
   canoe canvas canyon carpet carrot castle cedar cello chalk channel cherry chess chimney cinema
   circle citrus clock cloud clover cobalt cocoa comet compass copper coral cotton cradle crayon
   cricket crystal cupcake curtain cushion daisy dancer delta desert diamond dolphin donkey dragon
   drum eagle easel echo elbow ember engine falcon feather fence fern ferry fiddle finch flame
   flute forest fossil fountain fox galaxy garden garlic gecko ginger giraffe glacier globe goose
   granite grape gravel guitar hammer harbor harp hazel helmet heron hill honey hornet iceberg
   igloo island ivory jacket jaguar jasmine jelly jewel jungle kayak kernel kettle kiwi koala
   ladder lagoon lantern laptop lemon lettuce library lily lion lizard lobster locket lotus magnet
   mango maple marble meadow melon meteor mirror mitten monkey moose mosaic muffin museum napkin
   needle nest nickel noodle oasis ocean olive onion orange orbit orchid otter oven owl paddle
   palace panda paper parrot peach peanut pebble pelican pencil pepper piano pickle pigeon pillow
   pine planet plum pocket pony poppy potato pretzel pumpkin puzzle quartz quilt rabbit radio raven
   ribbon river robin rocket saddle salmon sandal satin scarf shell silver sketch sled spider spoon
   squirrel stamp stone sunset swan tablet teapot temple thimble tiger timber tomato topaz tractor
   trumpet tulip tunnel turtle umbrella valley velvet violin walnut walrus wagon whale willow
   window yogurt zebra".

(** [re.split] on runs of separators: what is between them. *)
Definition code_separator (c : ascii) : bool := is_space c || has_char c ",.;:_-".
Fixpoint split_runs (f : ascii -> bool) (s : string) : list string :=
  match s with
  | "" => [""]
  | c ::s s' =>
      if f c then
        match s' with
        | d ::s _ => if f d then split_runs f s' else "" :: split_runs f s'
        | "" => [""; ""]
        end
      else match split_runs f s' with w :: l => (c ::s w) :: l | [] => [c ::s ""] end
  end.
Definition normalize_setup_code (raw : val) : string :=
  strip (join " " (split_runs code_separator (lower (strip (str_or raw ""))))).
Definition generate_setup_code (picks : nat -> nat) : string :=
  join " " (map (fun i => default "" (SETUP_WORDLIST !! picks i)) (seq 0 SETUP_CODE_WORDS)).

(** ** The record of the running gateway *)

Definition SERVE_RECORD_SCHEMA : string := "gateway_serve_record_v1".
Definition browser_base_url (host : string) (port : Z) : string :=
  let h := strip host in
  if bool_decide (h ∈ [""; "0.0.0.0"; "127.0.0.1"; "localhost"]) then "http://127.0.0.1:" +:+ str_of_Z port
  else if bool_decide (h ∈ ["::"; "::1"]) then "http://[::1]:" +:+ str_of_Z port
  else if has_char ":" h && negb (startswith "[" h) then "http://[" +:+ h +:+ "]:" +:+ str_of_Z port
  else "http://" +:+ h +:+ ":" +:+ str_of_Z port.
Definition claim_url (base_url code : string) : string :=
  rstrip_by (fun c => has_char c "/") base_url +:+ "/console#claim=" +:+ code.

Definition FIRST_RUN_SCHEMA : string := "gateway_first_run_v1".
Definition ONBOARDING_SCHEMA : string := "gateway_onboarding_v1".

Section Onboarding.
Context (clk : nat -> Z) (sha256_hex : string -> string) (pbkdf2 : string -> string -> Z -> res string).

Definition write_serve_record (ip_loopback : string -> option bool) (os_pid : Z) (host : string) (port : Z) (auth : dict)
    (data_dir data_dir_source version : string) : M house unit :=
  let base := browser_base_url host port in
  now <- now_utc clk ;;
  modify (put_serve (Some (Json (VDict
    [ ("schema", VStr SERVE_RECORD_SCHEMA); ("pid", VInt os_pid); ("host", VStr host); ("port", VInt port); ("url", VStr base);
      ("console_url", VStr (base +:+ "/console")); ("loopback", VBool (is_loopback_host ip_loopback host)); ("auth", VDict auth);
      ("data_dir", VStr data_dir); ("data_dir_source", VStr data_dir_source); ("version", VStr version);
      ("started_at", VStr (iso_z now)) ])))).
(** Only the process that wrote the record removes it. *)
Definition clear_serve_record (os_pid : Z) : M house unit := fun h =>
  match json_dict (h_serve h) with
  | None => (Ok tt, h)
  | Some rec =>
      match py_int (py_or (get_ "pid" rec) (VInt (-1))) with
      | None => (Raise (ValueError "invalid pid"), h)
      | Some pid => (Ok tt, if pid =? os_pid then put_serve None h else h)
      end
  end.
(** [read_serve_record]; [pid_alive] says whether a process lives, when it can. *)
Definition read_serve_record (pid_alive : val -> option bool) (h : house) : option dict :=
  option_map (fun rec => dset "alive" (match pid_alive (get_ "pid" rec) with Some b => VBool b | None => VNone end) rec)
    (json_dict (h_serve h)).

(** ** The state of the first run *)

Record first_run := mk_first_run { fr_completed : bool; fr_at : val; fr_by : val; fr_outcome : val }.
Definition first_run_state (h : house) : first_run :=
  match json_dict (h_first_run h) with
  | Some rec =>
      if truthy (get_ "completed_at" rec)
      then mk_first_run true (get_ "completed_at" rec) (get_ "completed_by" rec) (get_ "outcome" rec)
      else mk_first_run false VNone VNone VNone
  | None => mk_first_run false VNone VNone VNone
  end.
Definition mark_first_run_complete (by_ outcome : string) : M house first_run :=
  now <- now_utc clk ;;
  modify (put_first_run (Json (VDict
    [ ("schema", VStr FIRST_RUN_SCHEMA); ("completed_at", VStr (iso_z now)); ("completed_by", VStr by_);
      ("outcome", VStr (if String.eqb outcome "skipped" then "skipped" else "finished")) ]))) ;;;
  gets first_run_state.

(** ** The unclaimed window *)

Definition read_onboarding (h : house) : option dict :=
  match json_dict (h_onboarding h) with
  | Some rec => if bool_decide (get_ "schema" rec = VStr ONBOARDING_SCHEMA) then Some rec else None
  | None => None
  end.
Definition write_onboarding (rec : dict) : M house unit := modify (put_onboarding (Json (VDict rec))).
Definition says_unclaimed (rec : dict) : bool := bool_decide (get_ "state" rec = VStr "unclaimed").

Definition open_onboarding (picks : nat -> nat) (tenant user : string) : M house dict := fun h =>
  match read_onboarding h with
  | Some existing => (Ok existing, h)
  | None =>
      (now <- now_utc clk ;;
       let payload :=
         [ ("schema", VStr ONBOARDING_SCHEMA); ("state", VStr "unclaimed"); ("tenant_id", VStr (or_else tenant "default"));
           ("user_id", VStr (or_else user "admin")); ("setup_code", VStr (generate_setup_code picks)); ("created_at", VStr (iso_z now)) ] in
       write_onboarding payload ;;; ret payload) h
  end.

Definition rec_user (rec : dict) : string := str_or (get_ "user_id" rec) "admin".
Definition rec_tenant (rec : dict) : string := str_or (get_ "tenant_id" rec) "default".
Definition folded_admin (roles : list string) : bool := bool_decide ("admin" ∈ map (fun r => lower (strip r)) roles).
(** An administrator the window is open for. *)
Definition claimable (a : GatewayUserRecord) : bool :=
  a_enabled a && negb (a_archived a) && String.eqb (a_password_hash a) "" && folded_admin (a_roles a).
Definition onboarding_unclaimed : M house (option dict) := fun h =>
  match read_onboarding h with
  | None => (Ok None, h)
  | Some rec =>
      if negb (says_unclaimed rec) then (Ok None, h)
      else
        match on_users (get_user clk (rec_user rec) (rec_tenant rec)) h with
        | (Ok (Some a), h) => (Ok (if claimable a then Some rec else None), h)
        | (_, h) => (Ok None, h)
        end
  end.

Definition setup_code_for_display (picks : nat -> nat) : M house (option string) :=
  rec <- onboarding_unclaimed ;;
  match rec with
  | None => ret None
  | Some rec =>
      let code := strip (str_or (get_ "setup_code" rec) "") in
      if nonempty code then ret (Some code)
      else
        let code := generate_setup_code picks in
        write_onboarding (dset "setup_code" (VStr code) rec) ;;; ret (Some code)
  end.
Definition setup_code_matches (presented : val) (h : house) : bool :=
  let expected := normalize_setup_code (get_ "setup_code" (default [] (read_onboarding h))) in
  let given := normalize_setup_code presented in
  if String.eqb expected "" || String.eqb given "" then false else String.eqb expected given.

Definition close_onboarding (via client_ip user tenant : string) : M house bool := fun h =>
  match read_onboarding h with
  | None => (Ok false, h)
  | Some rec =>
      if negb (says_unclaimed rec) then (Ok false, h)
      else
        (now <- now_utc clk ;;
         write_onboarding (dmerge (dpop "setup_code" rec)
           [ ("state", VStr "claimed"); ("claimed_at", VStr (iso_z now)); ("claimed_via", VStr via);
             ("claimed_by", VStr (if nonempty user then or_else tenant "default" +:+ "/" +:+ user else ""));
             ("claimed_from", VStr client_ip) ]) ;;;
         modify (fun h => put_claims (option_map (fun _ => []) (h_claims h)) h) ;;;
         ret true) h
  end.

(** ** The first administrator *)

(** [dict.fromkeys] of a list, as a list. *)
Fixpoint first_of_each (seen l : list string) : list string :=
  match l with
  | [] => []
  | x :: l => if bool_decide (x ∈ seen) then first_of_each seen l else x :: first_of_each (x :: seen) l
  end.

(** The token file. *)
Definition read_token_file (h : house) : string := strip (default "" (h_token h)).
Definition nl : string := ascii_of_nat 10 ::s "".
Definition write_token_file (token : string) : M house unit := fun h =>
  let token := strip token in (Ok tt, if String.eqb token "" then h else put_token (token +:+ nl) h).

(** [ensure_bootstrap_admin_user]; [token] is the explicit one (the argument, or
    what the environment says). *)
Record bootstrap := mk_bootstrap { b_changed : bool; b_user : GatewayUserRecord; b_source : string; b_token : option string }.
Definition bootstrap_create (env : environ) (tenant user runtime : string) (email : option string) (explicit existing : string)
    (no_token_file : bool) (random salt : string) (picks : nat -> nat) : M house bootstrap :=
  let token := or_else explicit (or_else existing (generate_gateway_token random)) in
  users <- on_users (list_users clk) ;;
  let fresh := match users with [] => true | _ => false end && String.eqb explicit "" && String.eqb existing "" &&
               negb (existsb (is_set env) TOKEN_ENV) in
  '(a, issued) <- on_users (create_user clk sha256_hex pbkdf2 user tenant (Some ["admin"; "user"]) None true (Some runtime)
                              (match email with Some e => VStr e | None => VNone end) (Some token) "" salt) ;;
  (if no_token_file then ret tt else write_token_file issued) ;;;
  (if fresh then open_onboarding picks (a_tenant_id a) (a_user_id a) ;;; ret tt else ret tt) ;;;
  ret (mk_bootstrap true a (if nonempty explicit then "env" else if nonempty existing then "token-file" else "generated") (Some issued)).
Definition bootstrap_update (tenant user : string) (email : option string) (explicit existing : string)
    (no_token_file rotate : bool) (random salt : string) (a : GatewayUserRecord) : M house bootstrap :=
  let desired := first_of_each [] (a_roles a ++ ["admin"; "user"]) in
  let needs_update := negb (a_enabled a) || negb (bool_decide (desired = a_roles a)) ||
    match email with Some e => negb (String.eqb e (a_email a)) | None => false end || rotate in
  let source := if rotate then (if nonempty explicit then "env" else "generated") else "none" in
  '(a, issued) <- (if needs_update
                   then '(a', issued) <- on_users (update_user clk sha256_hex pbkdf2 user tenant (Some desired) None (Some true) None
                                           (Some (default (a_email a) email))
                                           (if rotate then Some (or_else explicit (generate_gateway_token random)) else None) None "" salt) ;;
                        (match issued with
                         | Some t => if nonempty t && negb no_token_file then write_token_file t else ret tt
                         | None => ret tt
                         end) ;;;
                        ret (a', issued)
                   else ret (a, None)) ;;
  '(issued, source) <- (match issued with
                        | None =>
                            if String.eqb existing "" then ret (None, source)
                            else
                              p <- on_users (authenticate clk sha256_hex pbkdf2 existing) ;;
                              ret (match p with
                                   | Some p => if String.eqb (user_id p) user && String.eqb (tenant_id p) tenant
                                               then (Some existing, "token-file") else (None, source)
                                   | None => (None, source)
                                   end)
                        | Some _ => ret (issued, source)
                        end) ;;
  ret (mk_bootstrap needs_update a source issued).
Definition ensure_bootstrap_admin_user (env : environ) (tenant user runtime email token : string) (no_token_file rotate : bool)
    (random salt : string) (picks : nat -> nat) : M house bootstrap :=
  let tenant := or_else (strip (or_else tenant "default")) "default" in
  let user := or_else (strip (or_else user "admin")) "admin" in
  let runtime := or_else (strip runtime) (if String.eqb tenant "default" && String.eqb user "admin" then "default" else user) in
  let email := if nonempty (strip email) then Some (strip email) else None in
  let explicit := strip (or_else token (str_or (env_val env "ABSTRACTGATEWAY_BOOTSTRAP_ADMIN_TOKEN") "")) in
  existing <- gets (fun h => if no_token_file then "" else read_token_file h) ;;
  found <- on_users (get_user clk user tenant) ;;
  match found with
  | None => bootstrap_create env tenant user runtime email explicit existing no_token_file random salt picks
  | Some a => bootstrap_update tenant user email explicit existing no_token_file rotate random salt a
  end.

(** [_env_falsey] and [_maybe_bootstrap_user_auth_admin] of [cli.py]: what a start
    of the gateway does of it, the link it prints and whether it speaks of the setup
    code. *)
Definition env_falsey (env : environ) (name : string) : bool :=
  bool_decide (lower (env_text env name) ∈ ["0"; "false"; "no"; "n"; "off"]).
Definition local_bind (host : string) : bool := bool_decide (lower (strip host) ∈ ["127.0.0.1"; "::1"; "localhost"]).
Definition public_bind (host : string) : bool := bool_decide (lower (strip host) ∈ ["0.0.0.0"; "::"]).
Definition first_run_link (host tenant user random : string) (os_pid : Z) : M house (option minted * bool) :=
  state <- gets first_run_state ;;
  if fr_completed state then ret (None, false)
  else if negb (local_bind host || public_bind host) then ret (None, false)
  else
    m <- mint_claim clk sha256_hex tenant user CLAIM_TTL_S "serve" random os_pid ;;
    rec <- onboarding_unclaimed ;;
    ret (Some m, bool_decide (is_Some rec)).
Definition maybe_bootstrap_user_auth_admin (env : environ) (host : string) (random salt link_random : string) (picks : nat -> nat)
    (os_pid : Z) : M house (option bootstrap * (option minted * bool)) :=
  if env_falsey env "ABSTRACTGATEWAY_BOOTSTRAP_ADMIN" || env_falsey env "ABSTRACTGATEWAY_AUTO_BOOTSTRAP_ADMIN"
  then ret (None, (None, false))
  else
    b <- ensure_bootstrap_admin_user env "" "" "" "" "" false false random salt picks ;;
    link <- try_ (first_run_link host (a_tenant_id (b_user b)) (a_user_id (b_user b)) link_random os_pid) (fun _ => ret (None, false)) ;;
    ret (Some b, link).
(** [current_setup_code] of [firstrun_cli.py] *)
Definition current_setup_code (env : environ) (random salt : string) (picks : nat -> nat) : M house (option string) :=
  let flag := lower (strip (py_str (py_or (py_or (env_val env "ABSTRACTGATEWAY_BOOTSTRAP_ADMIN")
                                            (env_val env "ABSTRACTGATEWAY_AUTO_BOOTSTRAP_ADMIN")) (VStr "")))) in
  if bool_decide (flag ∈ ["0"; "false"; "no"; "off"]) then ret None
  else ensure_bootstrap_admin_user env "" "" "" "" "" false false random salt picks ;;; setup_code_for_display picks.
End Onboarding.
