(* ===== verification/SessionPasswords.v ===== *)
(** * Sign-in and first-run routes

    [routes/session_passwords.py] and the sign-in routes of [routes/gateway.py]: the
    set-up of a fresh gateway in a browser, the sign-in by password, by token and by
    claim link, and the setting of passwords, over the user registry, the sessions,
    the limiters and the files of the first run.

    A route's computation answers a reply or ends in an exception the framework turns
    into a 500. Audit and log lines are left out, and the cookies of an answer, which
    carry what [create_session] gives. Requests that wait for a worker are cut where
    they wait: [onboarding_front] and [onboarding_back], [password_check] and
    [password_count]. *)

From S2P Require Import Prelude PyStr PyVal PyNum PyText OrdDict IsoTime RunnerExec ToolGrants Principal Authorization EntityAccess SignInLimiter Sessions UserRegistry UserRegistryFacts Passwords AdminAccounts AdminRoutes FirstRun.

(** What the routes call outside the gateway, and the settings they read: the clocks,
    the digests, [ipaddress], the keys of the limiters and of the sessions. *)
Class SignIn := {
  clk : nat -> Z;
  mono_clk : nat -> Z;
  sha256_hex : string -> string;
  pbkdf2 : string -> string -> Z -> res string;
  scrypt : string -> string -> Z -> Z -> Z -> Z -> res string;
  ip_loopback : string -> option bool;
  address_key : string -> string;
  account_digest : string -> string;
  is_loopback_key : string -> bool;
  session_sign : string -> string;
  session_digest : string -> string;
  max_sessions : Z;
  process : nat;
  session_ttl_s : Z;
  remember_ttl_s : Z;
  user_auth : bool;
  (** [live_reverse_proxy().trust_proxy], false when it cannot be read. *)
  trust_proxy : bool;
  (** The session cookie of a cookie header ([SimpleCookie]). *)
  cookie_value : string -> res (option string);
}.

Record front := mk_front { f_house : house; f_onboard : counters; f_password : counters; f_sessions : world }.
Definition on_house {A} (m : M house A) : M front A := fun f =>
  let '(r, h) := m (f_house f) in (r, mk_front h (f_onboard f) (f_password f) (f_sessions f)).
Definition on_registry {A} (m : M registry A) : M front A := on_house (on_users m).
Definition on_onboard {A} (m : M counters A) : M front A := fun f =>
  let '(r, c) := m (f_onboard f) in (r, mk_front (f_house f) c (f_password f) (f_sessions f)).
Definition on_password {A} (m : M counters A) : M front A := fun f =>
  let '(r, c) := m (f_password f) in (r, mk_front (f_house f) (f_onboard f) c (f_sessions f)).
Definition on_sessions {A} (m : M world A) : M front A := fun f =>
  let '(r, w) := m (f_sessions f) in (r, mk_front (f_house f) (f_onboard f) (f_password f) w).

(** A request: the peer of its connection, its headers, who it was authenticated as
    and the random parts its answer may take. *)
Record http := mk_http { q_peer : string; q_headers : list (string * string); q_principal : GatewayPrincipal;
  q_sid : string; q_csrf : string; q_salt : string }.
Definition header (q : http) (name : string) : string := default "" (oget name (q_headers q)).

(** [_refuse] *)
Definition refuse {A} (status : Z) (code message : string) (extra : dict) : reply A :=
  HttpError status (VDict ([("reason_code", VStr code); ("message", VStr message)] ++ extra)).
Definition field_ (name : string) : dict := [("field", VStr name)].
Definition too_many {A} (locked : string * Z) : reply A :=
  refuse 429 "too_many_attempts" (limit_message locked.1 locked.2) [("retry_after_s", VInt locked.2)].

(** The rest of a route, when what came before answers. *)
Definition then_ {S A B} (m : M S (reply A)) (k : A -> M S (reply B)) : M S (reply B) :=
  a <- m ;; match a with Answer a => k a | HttpError s d => ret (HttpError s d) end.
Notation "x <~ m ;; k" := (then_ m (fun x => k)) (at level 100, m at next level, right associativity) : gw_scope.

(** What a session is answered with: the cookie, the CSRF token and the record; what
    a setter of passwords answers: the account, and a session when the browser gets
    one. *)
Abbreviation issued := (string * string * session)%type.
Abbreviation password_set := (GatewayUserRecord * option issued)%type.

Section Routes.
Context {G : SignIn}.

(** The two clocks at one moment. *)
Definition stamp : M front (Z * Z) := fun f =>
  let n := clock_reads (h_reg (f_house f)) in on_house (now <- now_utc clk ;; ret (now, mono_clk n)) f.
Definition now_ : M front Z := '(now, _) <- stamp ;; ret now.

(** ** Addresses *)

(** [_is_loopback] *)
Definition loopback_peer (ip : string) : bool :=
  match ip_loopback (strip_by (fun c => has_char c "[]") ip) with
  | Some b => b
  | None => String.eqb (lower (strip ip)) "localhost"
  end.
Definition client_address (q : http) : string :=
  let peer := or_else (q_peer q) "unknown" in
  let xff := strip (hd "" (split_char "," (header q "x-forwarded-for"))) in
  if String.eqb xff "" then peer
  else if loopback_peer peer || trust_proxy then xff
  else peer.
Definition FORWARDING_HEADERS : list string := ["x-forwarded-for"; "x-forwarded-host"; "x-forwarded-proto"; "x-real-ip"; "forwarded"].
Definition direct_local (q : http) : bool :=
  loopback_peer (q_peer q) && negb (existsb (fun h => nonempty (header q h)) FORWARDING_HEADERS).

(** ** Sessions *)

(** [_close_onboarding_for] *)
Definition close_onboarding_for (q : http) (a : GatewayUserRecord) (via : string) : M front unit :=
  if negb (folded_admin (a_roles a)) then ret tt
  else on_house (close_onboarding clk via (client_address q) (a_user_id a) (a_tenant_id a)) ;;; ret tt.

(** [_issue_gateway_browser_session] *)
Definition issue_session (q : http) (p : GatewayPrincipal) (remember : bool) (via : string) : M front issued :=
  let ttl := if remember then Z.max 60 (Z.min (90 * 24 * 60 * 60) remember_ttl_s) else session_ttl_s in
  '(rs, _) <- on_registry (load_store clk) ;;
  '(now, mono) <- stamp ;;
  out <- on_sessions (create_session session_sign session_digest (session_users rs) user_auth max_sessions process p
                        (q_sid q) (q_csrf q) session_ttl_s (Some ttl) now mono) ;;
  (if is_admin p then
     a <- on_registry (get_user clk (user_id p) (or_else (tenant_id p) "default")) ;;
     match a with Some a => close_onboarding_for q a via | None => ret tt end
   else ret tt) ;;;
  ret out.

(** [_end_sessions] *)
Definition end_sessions (a : GatewayUserRecord) : M front unit :=
  '(now, mono) <- stamp ;;
  try_ (on_sessions (delete_sessions_for session_sign max_sessions process (a_user_id a) (a_tenant_id a) "" now mono) ;;; ret tt)
    (fun _ => ret tt).

(** [gateway_session_id_from_cookie_header] of the request, when it gives one. *)
Definition by_cookie (q : http) : bool :=
  let c := header q "cookie" in
  if String.eqb c "" then false
  else
    match cookie_value c with
    | Ok (Some v) => match session_id_from_value session_sign v with Ok (Some sid) => nonempty sid | _ => false end
    | _ => false
    end.

(** ** Onboarding *)

Definition SETUP_CODE_REASON : string :=
  "The first password takes over this gateway, so it asks for the gateway's six-word setup code.".
Definition PASSWORD_RULE : string :=
  "At least " +:+ str_of_Z MIN_LENGTH +:+ " characters with at least " +:+ str_of_Z MIN_DISTINCT +:+
  " different ones; not your account name and not a well-known password. A few words make a good one.".
Definition already_claimed {A} (message : string) : reply A := refuse 409 "already_claimed" message [].

Definition session_onboarding_status : M front dict :=
  rec <- (if user_auth then on_house (onboarding_unclaimed clk) else ret None) ;;
  ret [ ("unclaimed", VBool (bool_decide (is_Some rec))); ("setup_code_required", VBool (bool_decide (is_Some rec)));
        ("setup_code_reason", if bool_decide (is_Some rec) then VStr SETUP_CODE_REASON else VNone);
        ("account", match rec with Some rec => VStr (rec_user rec) | None => VNone end);
        ("password_rule", VStr PASSWORD_RULE); ("password_min_length", VInt MIN_LENGTH); ("password_sign_in", VBool user_auth) ].

(** [OnboardingRequest] *)
Record onboarding_request := mk_onboarding { o_display : option string; o_password : string; o_confirm : string;
  o_code : option string; o_remember : bool }.

(** [_claim_unlocked], which holds [_CLAIM_LOCK]. *)
Definition claim_unlocked (display : option string) (password salt client_ip : string) : M front (option GatewayUserRecord) :=
  rec <- on_house (onboarding_unclaimed clk) ;;
  match rec with
  | None => ret None
  | Some rec =>
      hash <- of_res (hash_password scrypt password salt) ;;
      a <- on_registry (set_password clk (rec_user rec) (rec_tenant rec) hash
                          (match display with Some n => if nonempty (strip n) then Some n else None | None => None end)) ;;
      on_house (close_onboarding clk "onboarding" client_ip (a_user_id a) (a_tenant_id a)) ;;;
      ret (Some a)
  end.

(** [session_onboarding_claim] up to the comparison of the code, the comparison with
    the count of a wrong one, and the rest. *)
Definition onboarding_front (q : http) (p : onboarding_request) : M front (reply unit) :=
  if negb user_auth
  then ret (refuse 409 "onboarding_requires_user_auth" "This gateway runs without user accounts, so it has no admin password to set." [])
  else if negb (nonempty (strip (header q "origin")))
  then ret (refuse 403 "onboarding_browser_only" "Set up the gateway from its console page in a browser." [])
  else
    rec <- on_house (onboarding_unclaimed clk) ;;
    match rec with
    | None => ret (already_claimed "This gateway is already set up. Sign in with your account and password.")
    | Some rec =>
        now <- now_ ;;
        locked <- gets (fun f => check ONBOARDING_LIMITER address_key account_digest is_loopback_key now (client_address q) "" (direct_local q) (f_onboard f)) ;;
        ret (match locked with
             | Some l => too_many l
             | None =>
                 if negb (String.eqb (o_password p) (o_confirm p))
                 then refuse 400 "password_mismatch" "The two passwords are different." (field_ "password_confirm")
                 else
                   match password_problem (o_password p) (rec_user rec) with
                   | Some problem => refuse 400 "password_too_weak" problem (field_ "password")
                   | None =>
                       if negb (nonempty (strip (default "" (o_code p))))
                       then refuse 403 "setup_code_required"
                              (SETUP_CODE_REASON +:+ " To see it, run `abstractgateway claim --code` on the gateway's machine.") (field_ "setup_code")
                       else Answer tt
                   end
             end)
    end.
Definition setup_code_right (p : onboarding_request) : M front bool :=
  gets (fun f => setup_code_matches (match o_code p with Some c => VStr c | None => VNone end) (f_house f)).
Definition wrong_setup_code (q : http) : M front unit :=
  now <- now_ ;; on_onboard (failure ONBOARDING_LIMITER address_key account_digest now (client_address q) "").
Record claimed := mk_claimed { cl_account : GatewayUserRecord; cl_session : issued; cl_first_run : first_run }.
Definition onboarding_take (q : http) (p : onboarding_request) : M front (reply claimed) :=
  a <- claim_unlocked (o_display p) (o_password p) (q_salt q) (client_address q) ;;
  match a with
  | None => ret (already_claimed "This gateway was just set up from another browser. Sign in instead.")
  | Some a =>
      now <- now_ ;;
      on_onboard (modify (success ONBOARDING_LIMITER address_key account_digest now (client_address q) "")) ;;;
      s <- issue_session q (account_principal a "") (o_remember p) "onboarding" ;;
      st <- gets (fun f => first_run_state (f_house f)) ;;
      ret (Answer (mk_claimed a s st))
  end.
Definition onboarding_back (q : http) (p : onboarding_request) : M front (reply claimed) :=
  right <- setup_code_right p ;;
  if negb right then
    wrong_setup_code q ;;;
    ret (refuse 403 "setup_code_refused" "That setup code is not right. Check the six words and try again." (field_ "setup_code"))
  else onboarding_take q p.
Definition session_onboarding_claim (q : http) (p : onboarding_request) : M front (reply claimed) :=
  _ <~ onboarding_front q p ;; onboarding_back q p.

(** ** Sign-in *)

Definition PASSWORD_REFUSED : string := "That account and password don't match.".
(** [_check_password], cut after the look at the limits. *)
Definition password_check (q : http) (key : string) : M front (option (string * Z)) :=
  now <- now_ ;;
  gets (fun f => check PASSWORD_LIMITER address_key account_digest is_loopback_key now (client_address q) key false (f_password f)).
Definition password_count (q : http) (key password hash : string) : M front (reply unit) :=
  let ok := if nonempty hash then verify_password scrypt password hash else false in
  now <- now_ ;;
  if negb ok
  then on_password (failure PASSWORD_LIMITER address_key account_digest now (client_address q) key) ;;;
       ret (refuse 401 "password_refused" PASSWORD_REFUSED [])
  else on_password (modify (success PASSWORD_LIMITER address_key account_digest now (client_address q) key)) ;;; ret (Answer tt).
Definition check_password (q : http) (key password hash : string) : M front (reply unit) :=
  locked <- password_check q key ;;
  match locked with Some l => ret (too_many l) | None => password_count q key password hash end.

(** The limiter's name of an account ([key] of [password_sign_in_principal]). *)
Definition limiter_key (tenant account : string) (rec : option GatewayUserRecord) : string :=
  tenant +:+ ":" +:+ match rec with Some a => a_user_id a | None => lower (strip account) end.
Definition password_opens (a : GatewayUserRecord) : bool := a_enabled a && negb (a_archived a) && nonempty (a_password_hash a).
Definition usable_hash (rec : option GatewayUserRecord) : string :=
  match rec with Some a => if password_opens a then a_password_hash a else "" | None => "" end.
Definition password_sign_in_principal (q : http) (account password tenant : string) : M front (reply GatewayPrincipal) :=
  rec <- on_registry (find_sign_in_account clk account tenant) ;;
  _ <~ check_password q (limiter_key tenant account rec) password (usable_hash rec) ;;
  match rec with
  | Some a => ret (Answer (account_principal a ""))
  | None => raise (AttributeError "'NoneType' object has no attribute 'to_principal'")
  end.

Definition user_accounts_off_detail (user : string) : val :=
  VDict [("reason_code", VStr "user_accounts_off_admin_only"); ("message", VStr (user_accounts_off_sign_in_refusal user))].
(** [_password_session_login] *)
Definition password_session_login (q : http) (account password tenant : string) (remember : bool) : M front (reply (GatewayPrincipal * issued)) :=
  if negb user_auth
  then ret (refuse 409 "password_requires_user_auth" "This gateway runs with a shared token only (no user accounts): sign in with the token." [])
  else
    p <~ password_sign_in_principal q account password (or_else tenant "default") ;;
    if barred_from_shared_runtime user_auth p then ret (HttpError 401 (user_accounts_off_detail (user_id p)))
    else s <- issue_session q p remember "password" ;; ret (Answer (p, s)).

Definition ENDPOINT_ONLY : string := "This is an API key for /v1; sign in with your gateway token.".
(** [gateway_session_login] with a token *)
Definition token_session_login (q : http) (user token : string) (remember : bool) : M front (reply (GatewayPrincipal * issued)) :=
  p <- on_registry (authenticate clk sha256_hex pbkdf2 token) ;;
  owner <- (match p with
            | Some _ => ret None
            | None => on_registry (openai_key_owner clk sha256_hex pbkdf2 (strip token))
            end) ;;
  match p, owner with
  | None, Some _ => ret (refuse 401 "openai_api_key" ENDPOINT_ONLY [])
  | None, None => ret (HttpError 401 (VStr "Invalid Gateway user token"))
  | Some p, _ =>
      let expected := strip user in
      if nonempty expected && negb (String.eqb (user_id p) expected)
      then ret (HttpError 401 (VStr ("Gateway token resolved to user '" +:+ or_else (user_id p) "unknown" +:+ "', not '" +:+ expected +:+ "'.")))
      else if barred_from_shared_runtime user_auth p then ret (HttpError 401 (user_accounts_off_detail (user_id p)))
      else s <- issue_session q p remember "token" ;; ret (Answer (p, s))
  end.
Definition gateway_session_login (q : http) (user : string) (token password : option string) (tenant : string) (remember : bool) :
    M front (reply (GatewayPrincipal * issued)) :=
  match token, password with
  | Some t, None => token_session_login q user t remember
  | None, Some pw => password_session_login q user pw tenant remember
  | _, _ => ret (refuse 400 "invalid_request" "Send the account with exactly one of token or password." [])
  end.

(** [_is_loopback_ip] of the security middleware, which the claim's route calls. *)
Definition loopback_ip (host : string) : bool :=
  let h := lower (strip host) in
  bool_decide (h ∈ ["localhost"; "testclient"]) ||
  default false (ip_loopback (if startswith "::ffff:" h then sdrop 7 h else h)).
Definition CLAIM_FORWARDING_HEADERS : list string := ["x-forwarded-for"; "x-forwarded-host"; "x-real-ip"; "forwarded"].
Definition gateway_session_claim (q : http) (code : string) (remember : bool) : M front (reply (GatewayPrincipal * issued * val)) :=
  if negb (loopback_ip (q_peer q)) || existsb (fun h => nonempty (header q h)) CLAIM_FORWARDING_HEADERS
  then ret (refuse 403 "claim_loopback_only" ("First-run links can only be redeemed from a browser on the gateway's own machine " +:+
                                              "(loopback, not through a proxy). Sign in with a Gateway user token instead.") [])
  else if negb user_auth
  then ret (refuse 409 "claim_requires_user_auth" ("This gateway was started with a shared token only (no user accounts), and first-run links " +:+
              "need accounts. Started with a plain `abstractgateway serve` on this computer (or the login item " +:+
              "`abstractgateway service enable` registers), it has accounts on by default.") [])
  else
    r <- on_house (redeem_claim clk sha256_hex code) ;;
    match r with
    | inl e => ret (refuse 401 (ce_code e) (ce_message e) [])
    | inr rec =>
        found <- on_registry (get_user clk (rec_user rec) (rec_tenant rec)) ;;
        match found with
        | Some a =>
            if negb (a_enabled a)
            then ret (refuse 409 "claim_user_unavailable" "The admin user this link was minted for is missing or disabled." [])
            else
              let p := account_principal a "" in
              if negb (is_admin p) then ret (refuse 409 "claim_user_not_admin" "The user this link was minted for is not an admin." [])
              else
                s <- issue_session q p remember "claim_link" ;;
                ret (Answer (p, s, if truthy (get_ "created_by" rec) then VStr (py_str (get_ "created_by" rec)) else VNone))
        | None => ret (refuse 409 "claim_user_unavailable" "The admin user this link was minted for is missing or disabled." [])
        end
    end.

(** ** Setting passwords *)

Definition after_password (q : http) (a : GatewayUserRecord) (own : bool) : M front (reply password_set) :=
  end_sessions a ;;;
  if own && by_cookie q
  then s <- issue_session q (account_principal a "") false "password_change" ;; ret (Answer (a, Some s))
  else close_onboarding_for q a "password_set" ;;; ret (Answer (a, None)).

Definition me_set_password (q : http) (current : option string) (new : string) (confirm : option string) : M front (reply password_set) :=
  let p := q_principal q in
  found <- on_registry (get_user clk (user_id p) (or_else (tenant_id p) "default")) ;;
  let no_own := refuse 404 "no_own_password" "This account has no password of its own: it signs in with the gateway's admin token." [] in
  match found with
  | None => ret no_own
  | Some a =>
      if is_entity a || negb (String.eqb (p_source p) "user-registry") then ret no_own
      else if match confirm with Some c => negb (String.eqb c new) | None => false end
      then ret (refuse 400 "password_mismatch" "The two passwords are different." (field_ "new_password_confirm"))
      else
        match password_problem new (a_user_id a) with
        | Some problem => ret (refuse 400 "password_too_weak" problem (field_ "new_password"))
        | None =>
            _ <~ (if nonempty (a_password_hash a) then
                    if negb (nonempty (default "" current))
                    then ret (refuse 400 "current_password_required" "Enter your current password." (field_ "current_password"))
                    else check_password q (account_key a) (default "" current) (a_password_hash a)
                  else ret (Answer tt)) ;;
            hash <- of_res (hash_password scrypt new (q_salt q)) ;;
            updated <- on_registry (set_password clk (a_user_id a) (a_tenant_id a) hash None) ;;
            after_password q updated true
        end
  end.

(** [_admin_target] *)
Definition admin_target (q : http) (id tenant : string) : M front (reply GatewayUserRecord) :=
  if negb (is_admin (q_principal q)) then ret (HttpError 403 admin_required)
  else
    found <- on_registry (get_user clk id tenant) ;;
    ret (match found with
         | None => refuse 404 "account_not_found" ("There is no account named " +:+ repr_str id +:+ " on this gateway.") []
         | Some a =>
             if is_entity a
             then refuse 409 "entity_no_password" (a_user_id a +:+ " is an entity: entities sign in through their door, never with a password.") []
             else if a_archived a
             then refuse 409 "account_archived" (a_user_id a +:+ " is archived: unarchive the account first.") []
             else Answer a
         end).
Definition admin_set_password (q : http) (id tenant password : string) : M front (reply password_set) :=
  a <~ admin_target q id tenant ;;
  match password_problem password (a_user_id a) with
  | Some problem => ret (refuse 400 "password_too_weak" problem (field_ "password"))
  | None =>
      hash <- of_res (hash_password scrypt password (q_salt q)) ;;
      updated <- on_registry (set_password clk (a_user_id a) (a_tenant_id a) hash None) ;;
      after_password q updated (same (q_principal q) (a_user_id a) (a_tenant_id a))
  end.
Definition admin_clear_password (q : http) (id tenant : string) : M front (reply GatewayUserRecord) :=
  a <~ admin_target q id tenant ;;
  updated <- on_registry (set_password clk (a_user_id a) (a_tenant_id a) "" None) ;;
  end_sessions updated ;;;
  ret (Answer updated).
End Routes.
