(* ===== verification/FirstRunFacts.v ===== *)
(** * The first run: links, codes and settings

    The three steps of a redemption ([FirstRun]) interleaved between any number of
    redeemers: a claim link is redeemed at most as often as it was minted, before it
    expires, for the account it was minted for. A setup code is its words. The
    default of a loopback start survives relaunches. *)

From S2P Require Import Prelude PyStr PyVal PyNum IsoTime PyText OrdDict Principal Sessions SessionFacts UserRegistry UserRegistryFile FirstRun.

(** ** Times in the files *)

Definition clock_char (c : ascii) : bool := is_digit c || has_char c "-T:.".
Lemma clock_char_digit n : 0 <= n < 10 -> clock_char (digit n) = true.
Proof. apply (forallb_below (fun k => clock_char (digit k)) 10). by vm_compute. Qed.
Lemma clock_char_pad2 n : 0 <= n < 100 -> forall_chars clock_char (pad2 n) = true.
Proof.
  intros H. destruct (div_10_bounds n H). unfold pad2. cbn [forall_chars].
  by rewrite !clock_char_digit.
Qed.
Lemma isoformat_split t : in_calendar t -> exists p, isoformat t = p +:+ "+00:00" /\ forall_chars clock_char p = true.
Proof.
  intros Ht. destruct (calendar_fields t Ht) as (y & m & d & Ec & Hy & Hm & Hd & Hd31 & _).
  destruct (time_of_day (t mod day)) as (Hh & Hmi & Hs & Hus & _); [by apply Z.mod_pos_bound|].
  unfold isoformat. rewrite Ec. cbv zeta. set (h := t mod day / hour) in *. set (mi := (t mod day / minute) mod 60) in *.
  set (se := (t mod day / second) mod 60) in *. set (us := (t mod day) mod second) in *. clearbody h mi se us.
  exists (pad4 y +:+ "-" +:+ pad2 m +:+ "-" +:+ pad2 d +:+ "T" +:+ pad2 h +:+ ":" +:+ pad2 mi +:+ ":" +:+ pad2 se +:+ (if us =? 0 then "" else "." +:+ pad6 us)).
  split; [by rewrite !sapp_assoc|].
  assert (forall_chars clock_char (if us =? 0 then "" else "." +:+ pad6 us) = true) as Hf.
  { destruct (us =? 0); [done|]. unfold pad6, second in *.
    rewrite !forall_chars_app, !clock_char_pad2 by (Z.to_euclidean_division_equations; lia). done. }
  unfold pad4. rewrite !forall_chars_app, Hf, !clock_char_pad2 by (Z.to_euclidean_division_equations; lia). done.
Qed.
Lemma replace_tail p : forall_chars clock_char p = true -> replace_text "+00:00" "Z" 0 (p +:+ "+00:00") = p +:+ "Z".
Proof.
  induction p as [|c p IH]; intros H; [by vm_compute|]. cbn [forall_chars] in H. apply andb_true_iff in H as [Hc Hp].
  rewrite !scons_app. cbn [replace_text]. assert (startswith "+00:00" (c ::s p +:+ "+00:00") = false) as ->.
  { unfold startswith. cbn [String.prefix]. destruct (ascii_dec "+" c) as [<-|]; [by vm_compute in Hc|done]. }
  by rewrite IH.
Qed.
Lemma stake_before p s : stake (String.length p) (p +:+ s) = p.
Proof. induction p as [|c p IH]; [by destruct s|]. rewrite scons_app. cbn. by rewrite IH. Qed.
Lemma endswith_last p c : endswith (c ::s "") (p +:+ (c ::s "")) = true.
Proof.
  unfold endswith, srev. assert (forall p acc, exists q, srev_append (p +:+ (c ::s "")) acc = c ::s q) as H.
  { intros q. induction q as [|d q IH]; intros acc; [by eexists|]. rewrite scons_app. cbn. apply IH. }
  destruct (H p "") as [q ->]. cbn. destruct (ascii_dec c c); [by destruct q|done].
Qed.
Lemma parse_iso_z t : in_calendar t -> parse_iso (VStr (iso_z t)) = Some t.
Proof.
  intros Ht. destruct (isoformat_split t Ht) as (p & Hp & Hc). destruct (isoformat_chars t Ht) as [Hi Hne].
  unfold parse_iso, iso_z. rewrite Hp, replace_tail by done.
  assert (str_or (VStr (p +:+ "Z")) "" = p +:+ "Z") as -> by (unfold str_or, py_or; cbn; by destruct p).
  unfold parse_dt. assert (strip (p +:+ "Z") = p +:+ "Z") as ->.
  { apply strip_no_space. rewrite forall_chars_app. apply andb_true_iff. split; [|done]. eapply forall_chars_weaken; [|exact Hc].
    intros c. destruct c as [[] [] [] [] [] [] [] []]; vm_compute; done. }
  destruct (String.eqb_spec (p +:+ "Z") "") as [He|_]; [by destruct p|].
  rewrite (endswith_last p "Z"), length_sapp, Nat.add_sub, stake_before, <- Hp. by apply iso_instant_isoformat.
Qed.

(** ** The system *)

(** A redeemer: it has asked, holds what it read, has removed the file, and at the
    end has the record (checked at a time) or is refused. *)
Inductive redeemer :=
  | Asked (code : string)
  | Holding (code : string) (text : content)
  | Removed (code : string) (text : content)
  | Won (code : string) (rec : dict) (at_ : Z)
  | Lost (code : string) (e : claim_error).
(** A link that was minted, and when. *)
Record mint := mk_mint { mi_tenant : string; mi_user : string; mi_ttl : Z; mi_by : string; mi_random : string; mi_pid : Z; mi_at : Z }.
Record lobby := mk_lobby { l_house : house; l_people : list redeemer; l_mints : list mint }.

Section Links.
Context (clk : nat -> Z) (sha256_hex : string -> string).

Definition code_digest (code : string) : string := sha256_hex (strip code).
Definition mint_digest (m : mint) : string := sha256_hex (CLAIM_PREFIX +:+ mi_random m).
Definition mint_seconds (m : mint) : Z := Z.max 30 (Z.min (mi_ttl m) 3600).
Definition mint_expiry (m : mint) : Z := mi_at m + mint_seconds m * second.
Definition mint_record (m : mint) : dict :=
  claim_record (mint_digest m) (or_else (mi_tenant m) "default") (or_else (mi_user m) "admin") (iso_z (mi_at m))
    (iso_z (mint_expiry m)) (or_else (mi_by m) "cli") (mi_pid m).

(** The time last read. *)
Definition last_read (h : house) : Z := clk (Nat.pred (clock_reads (h_reg h))).
Definition put_person (i : nat) (p : redeemer) (h : house) (l : lobby) : lobby := mk_lobby h (<[i := p]> (l_people l)) (l_mints l).

Inductive step : lobby -> lobby -> Prop :=
  | step_mint l tenant user ttl by_ random pid m h :
      mint_claim clk sha256_hex tenant user ttl by_ random pid (l_house l) = (Ok m, h) ->
      step l (mk_lobby h (l_people l) (l_mints l ++ [mk_mint tenant user ttl by_ random pid (last_read h)]))
  (** Whatever adds no link: pruning, a failed mint, the end of the onboarding, the
      work of others on the accounts. *)
  | step_else l h :
      (forall kv, kv ∈ claim_files h -> kv ∈ claim_files (l_house l)) ->
      step l (mk_lobby h (l_people l) (l_mints l))
  | step_ask l code : step l (mk_lobby (l_house l) (l_people l ++ [Asked code]) (l_mints l))
  | step_read l i code r h :
      l_people l !! i = Some (Asked code) -> redeem_read sha256_hex code (l_house l) = (Ok r, h) ->
      step l (put_person i (match r with inl e => Lost code e | inr text => Holding code text end) h l)
  | step_unlink l i code text r h :
      l_people l !! i = Some (Holding code text) -> redeem_unlink sha256_hex code (l_house l) = (Ok r, h) ->
      step l (put_person i (match r with inl e => Lost code e | inr _ => Removed code text end) h l)
  | step_check l i code text r h :
      l_people l !! i = Some (Removed code text) -> redeem_check clk sha256_hex code text (l_house l) = (Ok r, h) ->
      step l (put_person i (match r with inl e => Lost code e | inr rec => Won code rec (last_read h) end) h l).
Abbreviation reach := (rtc step).

(** Who has taken the link of a digest, how often it was minted, whether it is there. *)
Definition took (d : string) (p : redeemer) : bool :=
  match p with Removed code _ | Won code _ _ => String.eqb (code_digest code) d | _ => false end.
Definition takers (d : string) (l : lobby) : nat := length (List.filter (took d) (l_people l)).
Definition mints_of (d : string) (l : lobby) : nat := length (List.filter (fun m => String.eqb (mint_digest m) d) (l_mints l)).
Definition present (d : string) (h : house) : nat := match oget d (claim_files h) with Some _ => 1 | None => 0 end.

(** ** Counting *)

Definition one (b : bool) : nat := if b then 1 else 0.
Lemma count_insert {A} (f : A -> bool) i x y l : l !! i = Some x ->
  (length (List.filter f (<[i := y]> l)) + one (f x) = length (List.filter f l) + one (f y))%nat.
Proof.
  revert i. induction l as [|z l IH]; intros [|i] H; [done|done|..].
  - injection H as ->. cbn. destruct (f x), (f y); cbn; lia.
  - specialize (IH i H). change (<[S i:=y]> (z :: l)) with (z :: <[i:=y]> l). cbn [List.filter]. destruct (f z); cbn [length]; lia.
Qed.
Lemma count_snoc {A} (f : A -> bool) l x : length (List.filter f (l ++ [x])) = (length (List.filter f l) + one (f x))%nat.
Proof. rewrite List.filter_app, length_app. cbn. by destruct (f x). Qed.

Lemma takers_put d i p p' h l : l_people l !! i = Some p ->
  (takers d (put_person i p' h l) + one (took d p) = takers d l + one (took d p'))%nat.
Proof. apply count_insert. Qed.

(** ** What a mint leaves *)

Lemma files_put files h : claim_files (put_claims (Some files) h) = files.
Proof. done. Qed.
Lemma prune_files h z h' : prune_claims clk h = (Ok z, h') -> forall kv, kv ∈ claim_files h' -> kv ∈ claim_files h.
Proof.
  unfold prune_claims. destruct (h_claims h) as [files|] eqn:Hf; [|by intros [= _ <-]].
  unfold mbind_, now_utc. intros [= _ <-] kv. cbn. unfold claim_files. rewrite Hf. by intros [? _]%elem_of_lfilter.
Qed.
Lemma mint_files tenant user ttl by_ random pid h m h' :
  mint_claim clk sha256_hex tenant user ttl by_ random pid h = (Ok m, h') ->
  let x := mk_mint tenant user ttl by_ random pid (last_read h') in
  forall d c, (d, c) ∈ claim_files h' -> (d, c) ∈ claim_files h \/ d = mint_digest x /\ c = Json (VDict (mint_record x)).
Proof.
  unfold mint_claim, mbind_ at 1. destruct (prune_claims clk h) as [[z|e] h1] eqn:Ep; [|done].
  pose proof (prune_files h z h1 Ep) as Hp. unfold mbind_, now_utc, write_claim. cbn [h_claims put_reg claim_files].
  change (claim_files (put_reg _ h1)) with (claim_files h1). destruct (oget _ (claim_files h1)) as [c0|] eqn:Ho; [done|].
  intros [= _ <-] d c Hin. rewrite files_put in Hin.
  apply elem_of_oset in Hin as [[= -> ->]|Hin]; [by right|left; by apply Hp].
Qed.

Lemma present_spec d h : present d h = 1%nat <-> d ∈ okeys (claim_files h).
Proof.
  unfold present. destruct (oget d (claim_files h)) as [c|] eqn:Ho.
  - split; [intros _|done]. apply oget_Some_elem in Ho. by apply (list_elem_of_fmap_2 fst _ (d, c)).
  - apply oget_None in Ho. done.
Qed.
Lemma present_le d h h' : (d ∈ okeys (claim_files h') -> d ∈ okeys (claim_files h)) -> (present d h' <= present d h)%nat.
Proof.
  intros H. destruct (present d h') as [|[|n]] eqn:E; [lia| |unfold present in E; by destruct (oget _ _)].
  apply present_spec, H, present_spec in E. lia.
Qed.
Lemma keys_sub h h' d : (forall kv, kv ∈ claim_files h' -> kv ∈ claim_files h) -> d ∈ okeys (claim_files h') -> d ∈ okeys (claim_files h).
Proof. intros H (kv & -> & Hin)%list_elem_of_fmap. apply list_elem_of_fmap_2. auto. Qed.

(** ** The count *)

Definition balance (d : string) (l l' : lobby) : Prop :=
  (takers d l' + present d (l_house l') + mints_of d l <= takers d l + present d (l_house l) + mints_of d l')%nat.

Lemma read_files code h r h' : redeem_read sha256_hex code h = (Ok r, h') -> h' = h.
Proof. unfold redeem_read. destruct (negb _); by intros [= _ <-]. Qed.
Lemma check_files code text h r h' : redeem_check clk sha256_hex code text h = (Ok r, h') -> claim_files h' = claim_files h.
Proof.
  unfold redeem_check. destruct text as [[]|]; try by intros [= _ <-]. destruct (negb _); [by intros [= _ <-]|].
  destruct (parse_iso _); by intros [= _ <-].
Qed.
Lemma unlink_files code h r h' : redeem_unlink sha256_hex code h = (Ok r, h') ->
  (forall kv, kv ∈ claim_files h' -> kv ∈ claim_files h) /\
  match r with inr _ => present (code_digest code) h = 1%nat /\ present (code_digest code) h' = 0%nat | inl _ => True end.
Proof.
  unfold redeem_unlink. fold (code_digest code). destruct (oget (code_digest code) (claim_files h)) as [c|] eqn:Ho; [|by intros [= <- <-]].
  intros [= <- <-]. rewrite files_put. split.
  - intros kv. unfold opop. by intros [? _]%elem_of_lfilter.
  - unfold present. by rewrite Ho, files_put, oget_opop_eq.
Qed.

Lemma step_balance d l l' : step l l' -> balance d l l'.
Proof.
  unfold balance. intros [l0 tenant user ttl by_ random pid m h Hm|l0 h Hsub|l0 code|l0 i code r h Hi Hr|l0 i code text r h Hi Hr|l0 i code text r h Hi Hr].
  - pose proof (mint_files _ _ _ _ _ _ _ _ _ Hm) as Hf. cbv zeta in Hf. set (x := mk_mint _ _ _ _ _ _ _) in *.
    unfold mints_of. cbn [l_mints l_house]. rewrite count_snoc. change (takers d (mk_lobby h _ _)) with (takers d l0).
    destruct (String.eqb_spec (mint_digest x) d) as [He|He]; cbn [one].
    + assert (present d h <= 1)%nat by (unfold present; destruct (oget _ _); lia). lia.
    + assert (present d h <= present d (l_house l0))%nat; [|lia]. apply present_le.
      intros ([d' c] & -> & Hin)%list_elem_of_fmap. cbn in *. destruct (Hf d' c Hin) as [Hin'|[-> _]]; [|done].
      by apply (list_elem_of_fmap_2 fst _ (d', c)).
  - change (takers d (mk_lobby h _ _)) with (takers d l0). change (mints_of d (mk_lobby h _ _)) with (mints_of d l0). cbn [l_house].
    pose proof (present_le d _ h (keys_sub _ h d Hsub)). lia.
  - unfold takers. cbn [l_people l_house]. rewrite count_snoc. change (mints_of d (mk_lobby _ _ _)) with (mints_of d l0). cbn. lia.
  - apply read_files in Hr. subst h. pose proof (takers_put d i _ (match r with inl e => Lost code e | inr text => Holding code text end) (l_house l0) l0 Hi) as Ht.
    change (mints_of d (put_person _ _ _ l0)) with (mints_of d l0). cbn [l_house put_person]. destruct r; cbn [took one] in Ht; lia.
  - pose proof (takers_put d i _ (match r with inl e => Lost code e | inr _ => Removed code text end) h l0 Hi) as Ht.
    change (mints_of d (put_person _ _ _ l0)) with (mints_of d l0). cbn [l_house put_person].
    destruct (unlink_files code _ r h Hr) as [Hsub Hp]. pose proof (present_le d _ h (keys_sub _ h d Hsub)) as Hle.
    destruct r as [e|[]]; cbn [took one] in Ht; [lia|]. destruct Hp as [Hp1 Hp2].
    destruct (String.eqb_spec (code_digest code) d) as [<-|]; cbn [one] in Ht; lia.
  - pose proof (takers_put d i _ (match r with inl e => Lost code e | inr rec => Won code rec (last_read h) end) h l0 Hi) as Ht.
    change (mints_of d (put_person _ _ _ l0)) with (mints_of d l0). cbn [l_house put_person].
    unfold present in *. rewrite (check_files _ _ _ _ _ Hr). destruct r; cbn [took] in Ht; unfold one in Ht; destruct (String.eqb _ _); lia.
Qed.
Lemma reach_balance d l l' : reach l l' -> balance d l l'.
Proof.
  induction 1 as [l|l l1 l2 Hs _ IH]; [unfold balance; lia|]. pose proof (step_balance d l l1 Hs). unfold balance in *. lia.
Qed.

(** ** Where a record comes from *)

Definition from_mint (l : lobby) (d : string) (c : content) : Prop :=
  exists m, m ∈ l_mints l /\ d = mint_digest m /\ c = Json (VDict (mint_record m)).
Definition rightly (l : lobby) (p : redeemer) : Prop :=
  match p with
  | Asked _ | Lost _ _ => True
  | Holding code text | Removed code text => from_mint l (code_digest code) text
  | Won code rec t => exists m, m ∈ l_mints l /\ code_digest code = mint_digest m /\ rec = mint_record m /\ t < mint_expiry m
  end.
Record honest (l : lobby) : Prop := {
  ho_files : forall d c, (d, c) ∈ claim_files (l_house l) -> from_mint l d c;
  ho_people : forall i p, l_people l !! i = Some p -> rightly l p;
}.

Lemma rightly_more l l' p : (forall m, m ∈ l_mints l -> m ∈ l_mints l') -> rightly l p -> rightly l' p.
Proof. intros H. destruct p; cbn; [done|..|done]; intros (m & Hm & Hrest); exists m; split; [apply H|exact Hrest| apply H|exact Hrest|apply H|exact Hrest]; done. Qed.
Lemma honest_put i p h l : honest l -> (forall kv, kv ∈ claim_files h -> kv ∈ claim_files (l_house l)) -> rightly l p -> honest (put_person i p h l).
Proof.
  intros [Hf Hp] Hsub Hr. split; [intros d c Hin; apply Hf, Hsub, Hin|]. intros j p' Hj. unfold put_person in Hj. cbn [l_people] in Hj.
  apply list_lookup_insert_Some in Hj as [(_ & <- & _)|[_ Hj]]; [exact Hr|by apply (Hp j)].
Qed.

(** A redemption nobody comes between is three of these steps. *)
Lemma whole_redemption code h r h' people ms : redeem_claim clk sha256_hex code h = (Ok r, h') ->
  exists p, reach (mk_lobby h (people ++ [Asked code]) ms) (mk_lobby h' (people ++ [p]) ms) /\
    match r with inl e => p = Lost code e | inr rec => exists t, p = Won code rec t end.
Proof.
  assert (forall p, (people ++ [p]) !! length people = Some p) as Hat by (intros p; by rewrite lookup_app_r, Nat.sub_diag by lia).
  assert (forall p p', <[length people := p']> (people ++ [p]) = people ++ [p']) as Hput.
  { intros p p'. rewrite insert_app_r_alt by lia. by rewrite Nat.sub_diag. }
  unfold redeem_claim, mbind_. intros E.
  destruct (redeem_read sha256_hex code h) as [[[e|text]|x] h1] eqn:E1; [| |done].
  { injection E as <- <-. eexists. split; [|done]. apply rtc_once.
    pose proof (step_read (mk_lobby h (people ++ [Asked code]) ms) _ code _ h1 (Hat _) E1) as Hs. unfold put_person in Hs. cbn in Hs. by rewrite Hput in Hs. }
  pose proof (step_read (mk_lobby h (people ++ [Asked code]) ms) _ code _ h1 (Hat _) E1) as Hs1. unfold put_person in Hs1. cbn in Hs1. rewrite Hput in Hs1.
  destruct (redeem_unlink sha256_hex code h1) as [[[e|u]|x] h2] eqn:E2; [| |done].
  { injection E as <- <-. eexists. split; [|done]. eapply rtc_l; [exact Hs1|]. apply rtc_once.
    pose proof (step_unlink (mk_lobby h1 (people ++ [Holding code text]) ms) _ code text _ h2 (Hat _) E2) as Hs. unfold put_person in Hs. cbn in Hs. by rewrite Hput in Hs. }
  pose proof (step_unlink (mk_lobby h1 (people ++ [Holding code text]) ms) _ code text _ h2 (Hat _) E2) as Hs2. unfold put_person in Hs2. cbn in Hs2. rewrite Hput in Hs2.
  pose proof (step_check (mk_lobby h2 (people ++ [Removed code text]) ms) _ code text _ h' (Hat _) E) as Hs3. unfold put_person in Hs3. cbn in Hs3. rewrite Hput in Hs3.
  eexists. split; [eapply rtc_l; [exact Hs1|]; eapply rtc_l; [exact Hs2|]; apply rtc_once; exact Hs3|]. destruct r; [done|by eexists].
Qed.

(** The clock stays in the years that texts can give. *)
Context (Hcal : forall n k, 0 <= k <= 3600 -> in_calendar (clk n + k * second)).

Definition timed (l : lobby) : Prop := forall m, m ∈ l_mints l -> exists n, mi_at m = clk n.
Lemma mint_expiry_reads m n : mi_at m = clk n -> parse_iso (get_ "expires_at" (mint_record m)) = Some (mint_expiry m).
Proof.
  intros Ht. change (get_ "expires_at" (mint_record m)) with (VStr (iso_z (mint_expiry m))). apply parse_iso_z. unfold mint_expiry. rewrite Ht.
  apply Hcal. unfold mint_seconds. lia.
Qed.

(** What a check accepts is the record of a mint, in time. *)
Lemma check_right l code text rec h h' : timed l -> from_mint l (code_digest code) text ->
  redeem_check clk sha256_hex code text h = (Ok (inr rec), h') -> rightly l (Won code rec (last_read h')).
Proof.
  intros Ht (m & Hm & Hd & ->). destruct (Ht m Hm) as [n Hn]. unfold redeem_check. destruct (negb _); [done|].
  rewrite (mint_expiry_reads m n Hn). unfold mbind_, now_utc. destruct (mint_expiry m <=? _) eqn:He; intros [= <- <-].
  exists m. split_and!; try done. unfold last_read. cbn. by apply Z.leb_gt.
Qed.

Lemma step_honest l l' : step l l' -> timed l -> honest l -> timed l' /\ honest l'.
Proof.
  intros Hs Ht Ho. pose proof Ho as [Hf Hp].
  destruct Hs as [l0 tenant user ttl by_ random pid m h Hm|l0 h Hsub|l0 code|l0 i code r h Hi Hr|l0 i code text r h Hi Hr|l0 i code text r h Hi Hr].
  - pose proof (mint_files _ _ _ _ _ _ _ _ _ Hm) as Hfs. cbv zeta in Hfs. set (x := mk_mint _ _ _ _ _ _ _) in *.
    assert (forall y, y ∈ l_mints l0 -> y ∈ l_mints l0 ++ [x]) as Hin by (intros y Hy; apply elem_of_app; by left).
    split; [intros y [Hy|Hy%list_elem_of_singleton]%elem_of_app; [by apply Ht|subst y; by eexists]|]. split.
    + intros d c [Hc|[-> ->]]%Hfs.
      * destruct (Hf d c Hc) as (y & Hy & Hrest). exists y. split; [by apply Hin|done].
      * exists x. split; [|done]. apply elem_of_app. right. by apply list_elem_of_singleton.
    + intros i p Hi. apply (rightly_more l0); [exact Hin|by apply (Hp i)].
  - split; [done|]. split; [|exact Hp]. intros d c Hc. by apply Hf, Hsub.
  - split; [done|]. split; [exact Hf|]. intros i p Hi. cbn in Hi. apply lookup_app_Some in Hi as [Hi|[_ Hi]]; [by apply (Hp i)|].
    apply list_lookup_singleton_Some in Hi as [_ <-]. done.
  - split; [done|]. pose proof (read_files _ _ _ _ Hr) as ->. apply honest_put; [done|done|]. destruct r as [e|text]; [done|].
    unfold redeem_read in Hr. destruct (negb _); [done|]. injection Hr as Hr. cbn [rightly]. apply Hf.
    fold (code_digest code) in Hr. destruct (oget (code_digest code) _) eqn:E; [|done]. injection Hr as <-. by apply oget_Some_elem.
  - split; [done|]. destruct (unlink_files code _ r h Hr) as [Hsub _]. apply honest_put; [done|done|]. destruct r; [done|]. apply (Hp i _ Hi).
  - split; [done|]. apply honest_put; [done|by rewrite (check_files _ _ _ _ _ Hr)|]. destruct r as [e|rec]; [done|].
    eapply check_right; [done|exact (Hp i _ Hi)|exact Hr].
Qed.

(** C20: A claim link is redeemed at most as often as it was minted, however many ask for
    it at once and wherever their steps meet: each who gets its record got the very
    record of a mint of that link, before it expired (half a minute to an hour after
    it was minted); and once its file is gone (redeemed, expired, or removed when the
    gateway was claimed) it is gone for all who had not removed it, until it is
    minted anew. *)
Theorem link_redeemed_once (h : house) (l : lobby) :
  claim_files h = [] -> reach (mk_lobby h [] []) l ->
  (forall d, (takers d l <= mints_of d l)%nat) /\
  (forall i code rec t, l_people l !! i = Some (Won code rec t) ->
     exists m, m ∈ l_mints l /\ code_digest code = mint_digest m /\ rec = mint_record m /\ t < mi_at m + mint_seconds m * second /\
       30 <= mint_seconds m <= 3600) /\
  (forall d l', oget d (claim_files (l_house l)) = None -> reach l l' -> mints_of d l' = mints_of d l -> (takers d l' <= takers d l)%nat).
Proof.
  intros Hh Hr. split_and!.
  - intros d. pose proof (reach_balance d _ _ Hr) as Hb. unfold balance in Hb. cbn [l_house] in Hb. unfold present in Hb at 2. rewrite Hh in Hb.
    change (takers d (mk_lobby h [] [])) with 0%nat in Hb. cbn in Hb. lia.
  - intros i code rec t Hi. assert (timed l /\ honest l) as [_ [_ Hp]].
    { assert (timed (mk_lobby h [] []) /\ honest (mk_lobby h [] [])) as H0.
      { split; [intros m Hm; by apply not_elem_of_nil in Hm|]. split; [intros d c; cbn; rewrite Hh; by intros ?%not_elem_of_nil|done]. }
      clear Hi Hh. induction Hr as [l0|l0 l1 l2 Hs _ IH]; [done|]. apply IH. destruct H0. by eapply step_honest. }
    destruct (Hp i _ Hi) as (m & Hm & Hd & -> & Ht). exists m. split_and!; try done; unfold mint_seconds; lia.
  - intros d l' Ho Hr' Hm. pose proof (reach_balance d _ _ Hr') as Hb. unfold balance, present in Hb. rewrite Ho in Hb.
    destruct (oget d (claim_files (l_house l'))); lia.
Qed.
End Links.

(** ** The setup code as it is typed

    A code matches when its words are the ones stored, whatever the case and the
    separators they were typed with; and the code that is made is one of 273^6. *)

(** The words of a text. *)
Definition pieces (s : string) : list string := List.filter nonempty (split_runs code_separator s).

Lemma space_separates c : is_space c = true -> code_separator c = true.
Proof. unfold code_separator. by intros ->. Qed.

(** ** Pieces *)

Lemma split_runs_cons f s : exists w l, split_runs f s = w :: l.
Proof.
  induction s as [|c s [w [l IH]]]; [by eexists _, _|]. cbn. destruct (f c).
  - destruct s as [|d s]; [by eexists _, _|]. destruct (f d); [by eexists _, _|by eexists _, _].
  - rewrite IH. by eexists _, _.
Qed.
(** What the scan does at a separator. *)
Lemma pieces_sep c s : code_separator c = true -> pieces (c ::s s) = pieces s.
Proof.
  intros Hc. unfold pieces. cbn. rewrite Hc. destruct s as [|d s]; [done|]. by destruct (code_separator d).
Qed.
Lemma pieces_word w s : w <> "" -> forall_chars (fun c => negb (code_separator c)) w = true ->
  match s with "" => True | c ::s _ => code_separator c = true end -> pieces (w +:+ s) = w :: pieces s.
Proof.
  intros Hne Hw Hs. assert (forall l, split_runs code_separator s = l -> exists l', (forall u, forall_chars (fun c => negb (code_separator c)) u = true ->
    split_runs code_separator (u +:+ s) = u :: l') /\ List.filter nonempty l' = List.filter nonempty l) as H.
  { intros l Hl. destruct s as [|c s].
    - exists []. split; [|subst l; done]. intros u Hu. rewrite sapp_nil. induction u as [|d u IH]; [done|].
      cbn in Hu. apply andb_true_iff in Hu as [Hd%negb_true_iff Hu]. cbn. by rewrite Hd, IH.
    - pose proof (pieces_sep c s Hs) as Hp. unfold pieces in Hp. rewrite Hl in Hp.
      assert (exists l', split_runs code_separator (c ::s s) = "" :: l') as [l' Hl'].
      { clear Hp Hl. revert c Hs. induction s as [|d s IH]; intros c Hs; cbn; rewrite Hs; [by eexists|].
        destruct (code_separator d) eqn:Hd; [|by eexists]. destruct (IH d Hd) as [l' Hl']. cbn in Hl'. rewrite Hd in Hl'. by eexists. }
      exists l'. split; [|rewrite <- Hl, Hl'; done]. intros u Hu. induction u as [|d u IH]; [done|].
      cbn in Hu. apply andb_true_iff in Hu as [Hd%negb_true_iff Hu]. rewrite scons_app. cbn [split_runs]. by rewrite Hd, IH. }
  destruct (H _ eq_refl) as (l' & H1 & H2). unfold pieces. rewrite (H1 w Hw). cbn. apply nonempty_true in Hne. by rewrite Hne, H2.
Qed.
Lemma pieces_are_words s w : w ∈ pieces s -> w <> "" /\ forall_chars (fun c => negb (code_separator c)) w = true.
Proof.
  unfold pieces. intros [Hin Hne%nonempty_true]%elem_of_lfilter. split; [done|].
  assert (Forall (fun u => forall_chars (fun c => negb (code_separator c)) u = true) (split_runs code_separator s)) as H; [|rewrite Forall_forall in H; auto].
  clear. induction s as [|c s IH]; [by repeat constructor|]. cbn. destruct (code_separator c) eqn:Hc.
  - destruct s as [|d s]; [by repeat constructor|]. destruct (code_separator d); [exact IH|by constructor].
  - destruct (split_runs code_separator s) as [|u l]; [by repeat constructor; cbn; rewrite Hc|].
    apply Forall_cons in IH as [Hu Hl]. constructor; [|done]. cbn. by rewrite Hc.
Qed.

(** Spaces at the ends change no words. *)
Lemma pieces_lstrip s : pieces (lstrip s) = pieces s.
Proof. induction s as [|c s IH]; [done|]. cbn [lstrip]. destruct (is_space c) eqn:Hc; [|done]. by rewrite pieces_sep by (by apply space_separates). Qed.
Lemma split_sep_head c s : code_separator c = true -> exists l, split_runs code_separator (c ::s s) = "" :: l.
Proof.
  revert c. induction s as [|d s IH]; intros c Hc; cbn; rewrite Hc; [by eexists|]. destruct (code_separator d) eqn:Hd; [|by eexists].
  destruct (IH d Hd) as [l Hl]. cbn in Hl. rewrite Hd in Hl. by eexists.
Qed.
Lemma split_tail t s : forall_chars code_separator t = true -> exists w l l',
  split_runs code_separator (s +:+ t) = w :: l /\ split_runs code_separator s = w :: l' /\ List.filter nonempty l = List.filter nonempty l'.
Proof.
  intros Ht. induction s as [|c s (w & l & l' & H1 & H2 & H3)].
  - rewrite snil_app. exists "". assert (exists l, split_runs code_separator t = "" :: l /\ List.filter nonempty l = []) as (l & Hl & Hf).
    { induction t as [|c t IH]; [by exists []|]. cbn [forall_chars] in Ht. apply andb_true_iff in Ht as [Hc Ht]. destruct (IH Ht) as (l & Hl & Hf).
      pose proof (pieces_sep c t Hc) as Hp. destruct (split_sep_head c t Hc) as [l2 Hl2]. unfold pieces in Hp. rewrite Hl2, Hl in Hp.
      exists l2. split; [done|]. cbn in Hp. congruence. }
    exists l, []. by rewrite Hl.
  - rewrite scons_app. destruct (code_separator c) eqn:Hc.
    + destruct (split_sep_head c (s +:+ t) Hc) as [l1 E1]. destruct (split_sep_head c s Hc) as [l2 E2]. exists "", l1, l2. split_and!; [done|done|].
      pose proof (pieces_sep c (s +:+ t) Hc) as P1. pose proof (pieces_sep c s Hc) as P2. unfold pieces in P1, P2. rewrite E1, H1 in P1. rewrite E2, H2 in P2.
      cbn in P1, P2. rewrite P1, P2, H3. done.
    + exists (c ::s w), l, l'. cbn [split_runs]. by rewrite Hc, H1, H2.
Qed.
Lemma pieces_tail t s : forall_chars code_separator t = true -> pieces (s +:+ t) = pieces s.
Proof. intros Ht. destruct (split_tail t s Ht) as (w & l & l' & H1 & H2 & H3). unfold pieces. rewrite H1, H2. cbn. by rewrite H3. Qed.
Lemma rstrip_split s : exists t, s = rstrip s +:+ t /\ forall_chars is_space t = true.
Proof.
  unfold rstrip. induction s as [|c s (t & Hs & Ht)]; [by exists ""|]. cbn [rstrip_by].
  destruct (String.eqb_spec (rstrip_by is_space s) "") as [He|He]; cbn [andb]; [destruct (is_space c) eqn:Hc|].
  - exists (c ::s t). rewrite He in Hs. rewrite snil_app in Hs. subst t. split; [done|]. cbn. by rewrite Hc.
  - exists t. rewrite scons_app. by rewrite <- Hs.
  - exists t. rewrite scons_app. by rewrite <- Hs.
Qed.
Lemma pieces_strip s : pieces (strip s) = pieces s.
Proof.
  unfold strip. destruct (rstrip_split (lstrip s)) as (t & Hs & Ht). rewrite <- (pieces_lstrip s). rewrite Hs at 2. symmetry. apply pieces_tail.
  eapply forall_chars_weaken; [|exact Ht]. apply space_separates.
Qed.

(** ** What normalizing gives *)

(** Only the first and the last piece may be empty. *)
Lemma split_shape s : exists w mid e, split_runs code_separator s = w :: mid ++ e /\ Forall (fun u => u <> "") mid /\ (e = [] \/ e = [""]).
Proof.
  induction s as [|c s (w & mid & e & Hs & Hm & He)]; [exists "", [], []; by split_and!; [|constructor|left]|]. cbn.
  destruct (code_separator c) eqn:Hc.
  - destruct s as [|d s]; [exists "", [], [""]; by split_and!; [|constructor|right]|]. destruct (code_separator d) eqn:Hd; [by exists w, mid, e|].
    assert (w <> "") as Hw.
    { cbn in Hs. rewrite Hd in Hs. destruct (split_runs_cons code_separator s) as (u & l & Hu). rewrite Hu in Hs. by injection Hs as <- _. }
    rewrite Hs. exists "", (w :: mid), e. by split_and!; [|constructor|].
  - rewrite Hs. by exists (c ::s w), mid, e.
Qed.

Lemma rstrip_app_keep f a b : rstrip_by f b <> "" -> rstrip_by f (a +:+ b) = a +:+ rstrip_by f b.
Proof.
  intros H. induction a as [|c a IH]; [done|]. rewrite !scons_app. cbn. rewrite IH. destruct (String.eqb_spec (a +:+ rstrip_by f b) "") as [E|]; [|done].
  destruct a; [by rewrite snil_app in E|done].
Qed.
Lemma join_two w w' ws : join " " (w :: w' :: ws) = w +:+ " " ::s join " " (w' :: ws).
Proof. done. Qed.
Lemma words_rstrip ws : ws <> [] -> Forall is_word ws -> rstrip (join " " ws) = join " " ws /\ join " " ws <> "".
Proof.
  intros Hne. induction 1 as [|w ws [Hw Hn] Hws IH]; [done|]. destruct ws as [|w' ws].
  - cbn. split; [by apply rstrip_by_none|done].
  - destruct IH as [H1 H2]; [done|]. rewrite join_two. split; [|by destruct w]. unfold rstrip in *.
    assert (rstrip_by is_space (" " ::s join " " (w' :: ws)) = " " ::s join " " (w' :: ws)) as Hs.
    { cbn [rstrip_by]. rewrite H1. by destruct (String.eqb_spec (join " " (w' :: ws)) ""). }
    rewrite rstrip_app_keep by (by rewrite Hs). by rewrite Hs.
Qed.
Lemma words_lstrip ws : Forall is_word ws -> lstrip (join " " ws) = join " " ws.
Proof.
  destruct 1 as [|w ws [Hw Hn] _]; [done|]. destruct w as [|c w]; [done|]. cbn in Hn. apply andb_true_iff in Hn as [Hc%negb_true_iff _].
  destruct ws as [|w' ws]; [cbn; by rewrite Hc|]. rewrite join_two, scons_app. cbn [lstrip]. by rewrite Hc.
Qed.
Lemma rstrip_space s : rstrip (s +:+ " ") = rstrip s.
Proof.
  unfold rstrip. induction s as [|c s IH]; [done|]. rewrite scons_app. cbn. by rewrite IH.
Qed.
Lemma join_last ws : ws <> [] -> join " " (ws ++ [""]) = join " " ws +:+ " ".
Proof.
  intros Hne. induction ws as [|w [|w' ws] IH]; [done|done|]. change ((w :: w' :: ws) ++ [""]) with (w :: w' :: (ws ++ [""])).
  rewrite !join_two. change (w' :: ws ++ [""]) with ((w' :: ws) ++ [""]). rewrite IH by done. by rewrite sapp_assoc, scons_app.
Qed.
Lemma strip_join ws : Forall is_word ws -> strip (join " " ws) = join " " ws /\ strip (join " " (ws ++ [""])) = join " " ws.
Proof.
  intros Hw. unfold strip. destruct (decide (ws = [])) as [->|Hne]; [done|]. pose proof (words_rstrip ws Hne Hw) as [Hr He].
  rewrite words_lstrip, Hr by done. split; [done|]. rewrite join_last by done.
  assert (lstrip (join " " ws +:+ " ") = join " " ws +:+ " ") as ->.
  { pose proof (words_lstrip ws Hw) as Hl. destruct (join " " ws) as [|c s] eqn:E; [done|]. cbn [lstrip] in Hl. rewrite scons_app. cbn [lstrip].
    destruct (is_space c) eqn:Hc; [|done]. exfalso. assert (forall s, (String.length (lstrip s) <= String.length s)%nat) as Hlen.
    { clear. induction s as [|c s IH]; [done|]. cbn. destruct (is_space c); [cbn; lia|done]. }
    specialize (Hlen s). rewrite Hl in Hlen. cbn in Hlen. lia. }
  by rewrite rstrip_space.
Qed.

Lemma piece_word s w : w ∈ pieces s -> is_word w.
Proof.
  intros [Hne Hw]%pieces_are_words. split; [done|]. eapply forall_chars_weaken; [|exact Hw]. intros c Hc%negb_true_iff. apply negb_true_iff.
  destruct (is_space c) eqn:E; [|done]. by rewrite space_separates in Hc.
Qed.
Lemma strip_pieces s : strip (join " " (split_runs code_separator s)) = join " " (pieces s).
Proof.
  assert (Forall is_word (pieces s)) as Hp by (apply Forall_forall; intros w; apply piece_word).
  destruct (split_shape s) as (w & mid & e & Hs & Hm & He). unfold pieces in *. rewrite Hs in *. cbn [List.filter] in *. rewrite List.filter_app in *.
  assert (List.filter nonempty mid = mid) as Hmid by (apply lfilter_all; rewrite Forall_forall in Hm; intros u Hu; apply nonempty_true; auto).
  assert (List.filter nonempty e = []) as Hee by (by destruct He as [-> | ->]). rewrite Hmid, Hee, app_nil_r in *.
  destruct (nonempty w) eqn:Hw.
  - destruct He as [-> | ->]; rewrite ?app_nil_r; [apply (strip_join _ Hp)|]. apply (strip_join _ Hp).
  - apply nonempty_false in Hw. subst w. destruct mid as [|u mid].
    + by destruct He as [-> | ->].
    + change (join " " ("" :: (u :: mid) ++ e)) with (" " ::s join " " ((u :: mid) ++ e)).
      change (strip (" " ::s ?x)) with (strip x). destruct He as [-> | ->]; rewrite ?app_nil_r; apply (strip_join _ Hp).
Qed.

Definition typed_words (raw : val) : list string := pieces (lower (str_or raw "")).
Lemma normalize_words raw : normalize_setup_code raw = join " " (typed_words raw).
Proof.
  unfold normalize_setup_code, typed_words. rewrite strip_pieces. by rewrite <- strip_lower, pieces_strip.
Qed.
Lemma typed_words_ok raw : Forall is_word (typed_words raw).
Proof. apply Forall_forall. intros w. apply piece_word. Qed.
Lemma normalize_same a b : normalize_setup_code a = normalize_setup_code b <-> typed_words a = typed_words b.
Proof.
  rewrite !normalize_words. split; [|by intros ->]. intros H. rewrite <- (words_join (typed_words a)), <- (words_join (typed_words b)) by apply typed_words_ok.
  by rewrite H.
Qed.
Lemma normalize_empty a : normalize_setup_code a = "" <-> typed_words a = [].
Proof.
  rewrite normalize_words. split; [|by intros ->]. intros H. pose proof (words_join _ (typed_words_ok a)) as Hw. by rewrite H in Hw.
Qed.

(** ** The list of words *)

Definition plain_word (w : string) : bool := nonempty w && forall_chars (fun c => (97 <=? code c) && (code c <=? 122)) w.
Lemma wordlist_ok : length SETUP_WORDLIST = 273%nat /\ forallb plain_word SETUP_WORDLIST = true /\ length (remove_dups SETUP_WORDLIST) = 273%nat.
Proof. by vm_compute. Qed.
Lemma wordlist_nodup : NoDup SETUP_WORDLIST.
Proof. apply (bool_decide_unpack _). by vm_compute. Qed.
Lemma wordlist_word i w : SETUP_WORDLIST !! i = Some w -> plain_word w = true.
Proof.
  intros Hi. pose proof wordlist_ok as (_ & Hf & _). rewrite forallb_forall in Hf. apply Hf, list_elem_of_In. by apply list_elem_of_lookup_2 in Hi.
Qed.
Lemma plain_separates w : plain_word w = true -> w <> "" /\ forall_chars (fun c => negb (code_separator c)) w = true /\ lower w = w.
Proof.
  unfold plain_word. intros [Hne%nonempty_true Hw]%andb_true_iff. split_and!; [done| |].
  - eapply forall_chars_weaken; [|exact Hw]. intros c. destruct c as [[] [] [] [] [] [] [] []]; vm_compute; done.
  - clear Hne. induction w as [|c w IH]; [done|]. cbn in Hw. apply andb_true_iff in Hw as [Hc Hw]. unfold lower in *. cbn. rewrite IH by done.
    f_equal. revert Hc. destruct c as [[] [] [] [] [] [] [] []]; vm_compute; done.
Qed.

(** ** The code that is made *)

Definition in_list (picks : nat -> nat) : Prop := forall i, (i < SETUP_CODE_WORDS)%nat -> (picks i < 273)%nat.
Definition chosen (picks : nat -> nat) : list string := map (fun i => default "" (SETUP_WORDLIST !! picks i)) (seq 0 SETUP_CODE_WORDS).
#[local] Opaque SETUP_WORDLIST.
Lemma pick_word picks i : in_list picks -> (i < SETUP_CODE_WORDS)%nat -> exists w, SETUP_WORDLIST !! picks i = Some w /\ plain_word w = true.
Proof.
  intros Hp Hi. destruct (lookup_lt_is_Some_2 SETUP_WORDLIST (picks i)) as [w Hw]; [pose proof wordlist_ok as [-> _]; by apply Hp|].
  exists w. split; [done|by eapply wordlist_word].
Qed.
Lemma chosen_plain picks : in_list picks -> Forall (fun w => plain_word w = true) (chosen picks).
Proof.
  intros Hp. apply Forall_forall. intros w (i & -> & Hi%elem_of_seq)%list_elem_of_fmap. destruct (pick_word picks i Hp) as (w & -> & Hw); [lia|done].
Qed.
(** Plain words with separators between are given back by the scan. *)
Fixpoint typed (l : list (string * string)) : string := match l with [] => "" | (w, sep) :: l => w +:+ (sep +:+ typed l) end.
(** Each word in any case; something between two words. *)
Fixpoint typeable (l : list (string * string)) : Prop :=
  match l with
  | [] => True
  | (w, sep) :: l => plain_word (lower w) = true /\ forall_chars code_separator sep = true /\ (l <> [] -> sep <> "") /\ typeable l
  end.
Lemma separator_lower c : code_separator c = true -> lower_ascii c = c.
Proof. destruct c as [[] [] [] [] [] [] [] []]; vm_compute; done. Qed.
Lemma lower_separators s : forall_chars code_separator s = true -> lower s = s.
Proof.
  induction s as [|c s IH]; [done|]. cbn. intros [Hc Hs]%andb_true_iff. unfold lower in *. cbn. by rewrite separator_lower, IH.
Qed.
Lemma lower_app s t : lower (s +:+ t) = lower s +:+ lower t.
Proof. induction s as [|c s IH]; [done|]. rewrite scons_app. unfold lower in *. cbn [smap]. by rewrite IH, scons_app. Qed.
Lemma pieces_seps lead s : forall_chars code_separator lead = true -> pieces (lead +:+ s) = pieces s.
Proof.
  induction lead as [|c lead IH]; [done|]. cbn. intros [Hc Hl]%andb_true_iff. rewrite scons_app, pieces_sep by done. by apply IH.
Qed.
Lemma pieces_typed l : typeable l -> pieces (lower (typed l)) = map (fun x => lower x.1) l.
Proof.
  induction l as [|[w sep] l IH]; [done|]. cbn [typeable typed map fst]. intros (Hw & Hs & Hne & Hl). rewrite !lower_app, (lower_separators sep) by done.
  destruct (plain_separates _ Hw) as (Hw1 & Hw2 & _). rewrite pieces_word; [|done|done|].
  - rewrite pieces_seps, IH by done. done.
  - destruct sep as [|c sep]; [|cbn in Hs; apply andb_true_iff in Hs as [Hc _]; by rewrite scons_app].
    rewrite snil_app. destruct l as [|x l]; [done|]. by destruct Hne.
Qed.
Lemma str_or_text s : str_or (VStr s) "" = s.
Proof. unfold str_or, py_or. by destruct s. Qed.
Lemma chosen_typed picks : in_list picks -> typed_words (VStr (generate_setup_code picks)) = chosen picks.
Proof.
  intros Hp. unfold typed_words, generate_setup_code. fold (chosen picks). pose proof (chosen_plain picks Hp) as Hc.
  assert (forall ws, Forall (fun w => plain_word w = true) ws -> pieces (lower (join " " ws)) = ws) as H.
  { clear. induction 1 as [|w ws Hw Hws IH]; [done|]. destruct (plain_separates w Hw) as (H1 & H2 & H3). destruct ws as [|w' ws].
    - cbn [join]. rewrite H3. rewrite <- (sapp_nil w) at 1. by rewrite pieces_word.
    - rewrite join_two, lower_app, H3, pieces_word by done. f_equal. change (lower (" " ::s ?x)) with (" " ::s lower x).
      by rewrite pieces_sep, IH. }
  rewrite str_or_text. by apply H.
Qed.

(** C21: A setup code is its six words: a text matches the code of the gateway exactly when
    its words, read in lower case, are the words of the code in their order; it does in
    particular when they are typed in any case with any spaces, dashes, dots, commas,
    colons or underscores around them; and codes made from different choices among the
    273 words are different. *)
Theorem setup_code_is_its_words (h : house) (rec : dict) (picks : nat -> nat) :
  read_onboarding h = Some rec -> in_list picks -> get_ "setup_code" rec = VStr (generate_setup_code picks) ->
  (forall text, setup_code_matches (VStr text) h = true <-> pieces (lower text) = chosen picks) /\
  (forall lead l, forall_chars code_separator lead = true -> typeable l -> map (fun x => lower x.1) l = chosen picks ->
     setup_code_matches (VStr (lead +:+ typed l)) h = true) /\
  (forall picks' i, in_list picks' -> generate_setup_code picks' = generate_setup_code picks -> (i < SETUP_CODE_WORDS)%nat -> picks' i = picks i).
Proof.
  intros Hr Hp Hc. assert (forall text, setup_code_matches (VStr text) h = true <-> pieces (lower text) = chosen picks) as Hm.
  { intros text. unfold setup_code_matches. rewrite Hr. change (default [] (Some rec)) with rec. rewrite Hc. rewrite <- (chosen_typed picks Hp).
    assert (typed_words (VStr text) = pieces (lower text)) as <- by (unfold typed_words; by rewrite str_or_text).
    destruct (String.eqb_spec (normalize_setup_code (VStr (generate_setup_code picks))) "") as [E|E].
    { apply normalize_empty in E. rewrite chosen_typed in E by done. by vm_compute in E. }
    destruct (String.eqb_spec (normalize_setup_code (VStr text)) "") as [E2|E2]; cbn [orb].
    { split; [done|]. intros H. apply normalize_same in H. congruence. }
    rewrite String.eqb_eq, <- normalize_same. by split. }
  split_and!; [exact Hm| |].
  - intros lead l Hl Ht Hw. apply Hm. rewrite lower_app, (lower_separators lead), pieces_seps, pieces_typed by done. exact Hw.
  - intros picks' i Hp' He Hi. assert (chosen picks' = chosen picks) as E by (rewrite <- !chosen_typed by done; by rewrite He).
    destruct (pick_word picks i Hp Hi) as (w & Hw & _). destruct (pick_word picks' i Hp' Hi) as (w' & Hw' & _).
    assert (forall p, chosen p !! i = Some (default "" (SETUP_WORDLIST !! p i))) as Hat.
    { intros p. unfold chosen. rewrite list_lookup_fmap, lookup_seq_lt by done. done. }
    pose proof (Hat picks) as H1. rewrite <- E, Hat, Hw, Hw' in H1. injection H1 as ->. by eapply NoDup_lookup; [apply wordlist_nodup|..].
Qed.

(** ** What a start makes of the environment

    The default of a loopback start through relaunches, and where the posture that is
    reported differs from what the gateway does. *)

Lemma env_set_eq n v e : env_set n v e n = Some v.
Proof. unfold env_set. by rewrite String.eqb_refl. Qed.
Lemma env_set_ne n v e k : k <> n -> env_set n v e k = e k.
Proof. intros H. unfold env_set. by rewrite (proj2 (String.eqb_neq _ _)). Qed.
Lemma env_text_same e e' k : e k = e' k -> env_text e k = env_text e' k.
Proof. unfold env_text, env_val. by intros ->. Qed.
Lemma existsb_same e e' l : (forall k, k ∈ l -> e k = e' k) -> existsb (is_set e) l = existsb (is_set e') l.
Proof.
  intros H. induction l as [|k l IH]; [done|]. cbn [existsb]. unfold is_set at 1 3. rewrite (env_text_same e e') by (apply H; by left).
  rewrite IH; [done|]. intros j Hj. apply H. by right.
Qed.
(** The two variables the start exports are in neither list. *)
Lemma exported_apart k : k ∈ TOKEN_ENV ++ POSTURE_ENV -> k <> USER_AUTH /\ k <> AUTH_MODE_SOURCE_ENV.
Proof.
  intros Hk. assert (forallb (fun k => negb (String.eqb k USER_AUTH) && negb (String.eqb k AUTH_MODE_SOURCE_ENV)) (TOKEN_ENV ++ POSTURE_ENV) = true) as H by (by vm_compute).
  rewrite forallb_forall in H. apply list_elem_of_In, H, andb_true_iff in Hk as [H1%negb_true_iff H2%negb_true_iff]. split; by apply String.eqb_neq.
Qed.

Section Posture.
Context (ip_loopback : string -> option bool).

(** A start on a loopback address of a gateway nothing was configured for turns
    accounts on and marks the export as its own. A process started from that one sees
    the accounts on and takes them for the same default, not for a setting: it turns
    them on again on a loopback address, with nothing else changed, binds to the
    same address by default, and off loopback it leaves the environment as it is. *)
Theorem loopback_default_survives_relaunch (host : string) (env env' : environ) :
  apply_loopback_auth_default ip_loopback host env = (true, env') ->
  own_export env' = true /\ (forall present, gateway_user_auth_enabled env' present = true) /\
  explicit_auth_configured env' = explicit_auth_configured env /\ default_bind_host env' = default_bind_host env /\
  forall host', if is_loopback_host ip_loopback host'
    then exists env'', apply_loopback_auth_default ip_loopback host' env' = (true, env'') /\ forall k, env'' k = env' k
    else apply_loopback_auth_default ip_loopback host' env' = (false, env').
Proof.
  intros H. assert (env' USER_AUTH = Some "1" /\ own_export env' = true /\
    (forall k, k <> USER_AUTH -> k <> AUTH_MODE_SOURCE_ENV -> env' k = env k) /\ (own_export env = true \/ explicit_auth_configured env = false)) as (Hu & Ho & Hk & Hor).
  { unfold apply_loopback_auth_default in H. destruct (own_export env) eqn:Hown; cbn [andb] in H.
    - destruct (is_loopback_host ip_loopback host) eqn:Hl.
      + injection H as <-. split_and!; [apply env_set_eq|by rewrite <- Hown|by intros k Hne _; apply env_set_ne|by left].
      + unfold loopback_auth_default_applies in H. by rewrite Hl in H.
    - unfold loopback_auth_default_applies in H. destruct (is_loopback_host ip_loopback host); [|done]. cbn [negb] in H.
      destruct (explicit_auth_configured env) eqn:He; [done|]. injection H as <-.
      split_and!; [by vm_compute|by vm_compute|intros k H1 H2; by rewrite !env_set_ne|by right]. }
  assert (explicit_auth_configured env' = existsb (is_set env) (TOKEN_ENV ++ POSTURE_ENV)) as He'.
  { unfold explicit_auth_configured. rewrite Ho. apply existsb_same. intros k [H1 H2]%exported_apart. by apply Hk. }
  assert (explicit_auth_configured env' = explicit_auth_configured env) as Hee.
  { destruct Hor as [Hown|He]; rewrite He'.
    - unfold explicit_auth_configured. by rewrite Hown.
    - rewrite He. unfold explicit_auth_configured in He. destruct (own_export env); [done|].
      rewrite !existsb_app in He. rewrite existsb_app. apply orb_false_iff in He as [H1 [H2 H3]%orb_false_iff]. by rewrite H1, H3. }
  split_and!; [done| |done|unfold default_bind_host; by rewrite Hee|].
  - intros present. unfold gateway_user_auth_enabled, env_val. unfold USER_AUTH in Hu. rewrite Hu. by vm_compute.
  - intros host'. unfold apply_loopback_auth_default. rewrite Ho. cbn [andb]. destruct (is_loopback_host ip_loopback host') eqn:Hl.
    + eexists. split; [done|]. intros k. unfold env_set. destruct (String.eqb_spec k USER_AUTH) as [->|]; [by rewrite Hu|done].
    + unfold loopback_auth_default_applies. by rewrite Hl.
Qed.
End Posture.

(** ** The posture reported *)

Definition auth_raw (env : environ) : val := env_or env USER_AUTH "ABSTRACTGATEWAY_MULTI_USER" (env_val env "ABSTRACTFLOW_GATEWAY_USER_AUTH").
Definition auth_mode (env : environ) : string := lower (env_text env "ABSTRACTGATEWAY_AUTH_MODE").
Definition user_mode (env : environ) : bool := bool_decide (auth_mode env ∈ ["user"; "users"; "multi-user"; "multi_user"; "hosted"]).
Definition single_mode (env : environ) : bool := bool_decide (auth_mode env ∈ ["legacy"; "single"; "single-user"; "single_user"; "local"]).
Definition auth_auto (env : environ) : bool := as_bool (env_val env "ABSTRACTGATEWAY_USER_AUTH_AUTO") false.

Lemma raw_text env : auth_raw env = VNone \/ exists s, auth_raw env = VStr s.
Proof.
  unfold auth_raw, env_or, env_val. destruct (env USER_AUTH) as [s|]; destruct (env "ABSTRACTGATEWAY_MULTI_USER") as [t|];
    destruct (env "ABSTRACTFLOW_GATEWAY_USER_AUTH") as [u|]; unfold py_or; cbn [truthy].
  all: repeat match goal with |- context[if ?b then _ else _] => destruct b end; cbn; try (by left); right; by eexists.
Qed.
(** The posture says of the accounts what the gateway does, but in two settings: an
    account switch that is set to blank beside a mode with accounts, and the
    automatic switch with a registry that is there. *)
Theorem posture_tells_accounts (env : environ) (present : bool) :
  ps_user_auth (auth_mode_summary env) <> gateway_user_auth_enabled env present <->
  ((exists s, auth_raw env = VStr s /\ strip s = "") /\ user_mode env = true) \/
  (auth_raw env = VNone /\ user_mode env = false /\ single_mode env = false /\ auth_auto env = true /\ present = true).
Proof.
  assert (ps_user_auth (auth_mode_summary env) =
    if negb (is_none (auth_raw env)) && nonempty (strip (py_str (auth_raw env))) then as_bool (auth_raw env) false else user_mode env) as ->.
  { unfold auth_mode_summary. cbv zeta.
    match goal with |- context[let '(m, s) := ?p in _] => destruct p as [mode source] end. done. }
  assert (gateway_user_auth_enabled env present =
    if negb (is_none (auth_raw env)) then as_bool (auth_raw env) false
    else if user_mode env then true else if single_mode env then false else auth_auto env && present) as -> by done.
  destruct (raw_text env) as [->|[s ->]]; cbn [is_none negb andb].
  - destruct (user_mode env), (single_mode env), (auth_auto env), present; cbn; split; intros H; try done; try (by exfalso; apply H);
      try (by right); destruct H as [[(s & ? & ?) ?]|(? & ? & ? & ? & ?)]; done.
  - change (py_str (VStr s)) with s. unfold nonempty. unfold as_bool. change (py_str (VStr s)) with s.
    destruct (String.eqb_spec (strip s) "") as [Hs|Hs]; cbn [negb].
    + assert (String.eqb (lower (strip s)) "" = true) as -> by (by rewrite Hs). destruct (user_mode env); split; intros H; try done.
      * left. split; [by exists s|done].
      * by destruct H as [[_ ?]|(? & _)].
    + split; [done|]. intros [[(s' & [= <-] & ?) _]|(? & _)]; done.
Qed.
