(* ===== verification/WindowFacts.v ===== *)
(** * Sign-in and first-run routes: what they change

    A computation over the routes' state either leaves the users' file or writes one
    password; and it never opens the onboarding window again. [stable] carries both
    through the computations: a preorder every step respects. *)

From S2P Require Import Prelude PyStr PyVal PyNum IsoTime PyText OrdDict Principal Authorization EntityAccess SignInLimiter Sessions UserRegistry UserRegistryFile UserRegistryOps UserRegistryFacts Passwords AdminAccounts AdminRoutes FirstRun SessionPasswords.

(** ** Computations that respect a preorder *)

Section Stable.
Context {S : Type} (I : S -> S -> Prop) `{!PreOrder I}.
Definition stable {A} (m : M S A) : Prop := forall s, I s (m s).2.
Lemma stable_ret {A} (a : A) : stable (ret a).
Proof. intros s. reflexivity. Qed.
Lemma stable_raise {A} e : stable (raise (A:=A) e).
Proof. intros s. reflexivity. Qed.
Lemma stable_gets {A} (f : S -> A) : stable (gets f).
Proof. intros s. reflexivity. Qed.
Lemma stable_of_res {A} (r : res A) : stable (of_res r).
Proof. intros s. reflexivity. Qed.
Lemma stable_bind {A B} (m : M S A) (k : A -> M S B) : stable m -> (forall a, stable (k a)) -> stable (mbind_ m k).
Proof.
  intros Hm Hk s. specialize (Hm s). unfold mbind_. destruct (m s) as [[a|e] s1]; [|exact Hm]. etransitivity; [exact Hm|apply Hk].
Qed.
Lemma stable_try {A} (m : M S A) (h : exn -> M S A) : stable m -> (forall e, stable (h e)) -> stable (try_ m h).
Proof.
  intros Hm Hh s. specialize (Hm s). unfold try_. destruct (m s) as [[a|e] s1]; [exact Hm|]. etransitivity; [exact Hm|apply Hh].
Qed.
Lemma stable_then {A B} (m : M S (reply A)) (k : A -> M S (reply B)) : stable m -> (forall a, stable (k a)) -> stable (then_ m k).
Proof. intros Hm Hk. apply stable_bind; [done|]. intros [a|st d]; [apply Hk|apply stable_ret]. Qed.
End Stable.
Create HintDb stable_db.
#[export] Hint Resolve stable_ret stable_raise stable_gets stable_of_res : stable_db.
(** Through a computation, down to what touches the state. *)
Ltac stable_walk :=
  repeat first
    [ apply stable_then; [typeclasses eauto|..|intros ?]
    | apply stable_bind; [typeclasses eauto|..|intros ?]
    | apply stable_try; [typeclasses eauto|..|intros ?]
    | progress (cbv zeta)
    | match goal with
      | |- stable _ (match ?x with _ => _ end) => destruct x
      | |- stable _ (ret _) => apply stable_ret; typeclasses eauto
      | |- stable _ (raise _) => apply stable_raise; typeclasses eauto
      | |- stable _ (gets _) => apply stable_gets; typeclasses eauto
      | |- stable _ (of_res _) => apply stable_of_res; typeclasses eauto
      end
    | solve [eauto 2 with stable_db nocore] ].

(** ** Two preorders: the users' file stays, and a shut window stays shut *)

Definition same_users (f f' : front) : Prop := users_file (h_reg (f_house f')) = users_file (h_reg (f_house f)).
#[export] Instance same_users_preorder : PreOrder same_users.
Proof. split; [by intros ?|unfold same_users; intros x y z H1 H2; congruence]. Qed.

(** The gateway was claimed, and no setup code is kept. *)
Definition shut_house (h : house) : Prop :=
  exists rec, read_onboarding h = Some rec /\ get_ "state" rec = VStr "claimed" /\ get_ "setup_code" rec = VNone.
Definition shut (f : front) : Prop := shut_house (f_house f).
Definition stays_shut (f f' : front) : Prop := shut f -> shut f'.
#[export] Instance stays_shut_preorder : PreOrder stays_shut.
Proof. split; [intros x H; exact H|unfold stays_shut; intros x y z H1 H2 H; auto]. Qed.

(** Closes a step that touches neither. *)
Ltac untouched := first [reflexivity | exact (fun H => H) | done].

(** The same of a computation over the house. *)
Definition same_users_h (h h' : house) : Prop := users_file (h_reg h') = users_file (h_reg h).
#[export] Instance same_users_h_preorder : PreOrder same_users_h.
Proof. split; [by intros ?|unfold same_users_h; intros x y z H1 H2; congruence]. Qed.
Definition stays_shut_h (h h' : house) : Prop := shut_house h -> shut_house h'.
#[export] Instance stays_shut_h_preorder : PreOrder stays_shut_h.
Proof. split; [intros x H; exact H|unfold stays_shut_h; intros x y z H1 H2 H; auto]. Qed.

Lemma stable_on_house_users {A} (m : M house A) : stable same_users_h m -> stable same_users (on_house m).
Proof. intros H f. specialize (H (f_house f)). unfold on_house. by destruct (m (f_house f)). Qed.
Lemma stable_on_house_shut {A} (m : M house A) : stable stays_shut_h m -> stable stays_shut (on_house m).
Proof. intros H f. specialize (H (f_house f)). unfold on_house. by destruct (m (f_house f)). Qed.
Lemma stable_on_users {A} (m : M registry A) : still m -> stable same_users_h (on_users m).
Proof. intros H h. specialize (H (h_reg h)). unfold on_users. by destruct (m (h_reg h)). Qed.
Lemma stable_on_users_shut {A} (m : M registry A) : stable stays_shut_h (on_users m).
Proof. intros h. unfold on_users. destruct (m (h_reg h)). untouched. Qed.
Lemma stable_sessions_users {A} (m : M world A) : stable same_users (on_sessions m).
Proof. intros f. unfold on_sessions. destruct (m (f_sessions f)). untouched. Qed.
Lemma stable_sessions_shut {A} (m : M world A) : stable stays_shut (on_sessions m).
Proof. intros f. unfold on_sessions. destruct (m (f_sessions f)). untouched. Qed.
Lemma stable_onboard_users {A} (m : M counters A) : stable same_users (on_onboard m).
Proof. intros f. unfold on_onboard. destruct (m (f_onboard f)). untouched. Qed.
Lemma stable_onboard_shut {A} (m : M counters A) : stable stays_shut (on_onboard m).
Proof. intros f. unfold on_onboard. destruct (m (f_onboard f)). untouched. Qed.
Lemma stable_password_users {A} (m : M counters A) : stable same_users (on_password m).
Proof. intros f. unfold on_password. destruct (m (f_password f)). untouched. Qed.
Lemma stable_password_shut {A} (m : M counters A) : stable stays_shut (on_password m).
Proof. intros f. unfold on_password. destruct (m (f_password f)). untouched. Qed.
Lemma modify_claims_users c : stable same_users_h (modify (put_claims c)).
Proof. intros h. untouched. Qed.
Lemma now_users clk : stable same_users_h (now_utc clk).
Proof. intros h. untouched. Qed.
Lemma now_shut clk : stable stays_shut_h (now_utc clk).
Proof. intros h. untouched. Qed.

(** ** The files of the first run *)

Section House.
Context (clk : nat -> Z) (sha256_hex : string -> string) (pbkdf2 : string -> string -> Z -> res string).

Lemma shut_not_unclaimed rec : get_ "state" rec = VStr "claimed" -> says_unclaimed rec = false.
Proof. intros H. apply bool_decide_eq_false. by rewrite H. Qed.
Lemma write_claimed rec via now who ip h : read_onboarding h = Some rec ->
  shut_house (put_onboarding (Json (VDict (dmerge (dpop "setup_code" rec)
    [("state", VStr "claimed"); ("claimed_at", now); ("claimed_via", via); ("claimed_by", who); ("claimed_from", ip)]))) h).
Proof.
  intros Hr. set (l := [("state", _); _; _; _; _]). set (out := dmerge _ l).
  assert (forall k, dget k out = match dget k l with Some v => Some v | None => dget k (dpop "setup_code" rec) end) as Hg.
  { intros k. apply dget_dmerge. apply (bool_decide_unpack _). by vm_compute. }
  exists out. split_and!.
  - unfold read_onboarding in *. cbn [json_dict h_onboarding put_onboarding]. destruct (json_dict (h_onboarding h)) as [r|]; [|done].
    case_bool_decide as Hs; [|done]. injection Hr as ->. rewrite bool_decide_eq_true_2; [done|]. unfold get_ in *. by rewrite Hg, dget_dpop_ne by done.
  - unfold get_. by rewrite Hg.
  - unfold get_. by rewrite Hg, dget_dpop_eq.
Qed.

Lemma close_users via ip u t : stable same_users_h (close_onboarding clk via ip u t).
Proof. intros h. unfold close_onboarding. destruct (read_onboarding h) as [rec|]; [|done]. by destruct (says_unclaimed rec). Qed.
(** Closing shuts a window that is open. *)
Lemma close_shuts via ip u t h r h' : close_onboarding clk via ip u t h = (r, h') ->
  (exists rec, read_onboarding h = Some rec /\ says_unclaimed rec = true) -> shut_house h' /\ claim_files h' = [].
Proof.
  intros E (rec & Hr & Hs). revert E. unfold close_onboarding. rewrite Hr, Hs. cbn [negb]. unfold mbind_, now_utc. intros [= _ <-].
  set (h1 := put_reg _ h). assert (read_onboarding h1 = Some rec) as Hr1 by exact Hr. split.
  - pose proof (write_claimed rec (VStr via) (VStr (iso_z (clk (clock_reads (h_reg h)))))
      (VStr (if nonempty u then or_else t "default" +:+ "/" +:+ u else "")) (VStr ip) h1 Hr1) as (rec' & H). by exists rec'.
  - unfold claim_files. cbn. by destruct (h_claims h).
Qed.
Lemma close_keeps via ip u t : stable stays_shut_h (close_onboarding clk via ip u t).
Proof.
  intros h (rec & Hr & Hs & Hc). unfold close_onboarding. rewrite Hr, (shut_not_unclaimed rec Hs). by exists rec.
Qed.
Lemma unclaimed_users : stable same_users_h (onboarding_unclaimed clk).
Proof.
  intros h. unfold onboarding_unclaimed. destruct (read_onboarding h) as [rec|]; [|done]. destruct (negb (says_unclaimed rec)); [done|].
  assert (still (get_user clk (rec_user rec) (rec_tenant rec))) as Hst by (apply still_bind; [apply still_load|by intros []]).
  pose proof (stable_on_users _ Hst h) as H.
  destruct (on_users _ h) as [[[a|]|e] h1]; exact H.
Qed.
Lemma unclaimed_keeps : stable stays_shut_h (onboarding_unclaimed clk).
Proof.
  intros h. unfold onboarding_unclaimed. destruct (read_onboarding h) as [rec|]; [|done]. destruct (negb (says_unclaimed rec)); [done|].
  pose proof (stable_on_users_shut (get_user clk (rec_user rec) (rec_tenant rec)) h) as H.
  destruct (on_users _ h) as [[[a|]|e] h1]; exact H.
Qed.
(** Nothing is unclaimed once it was claimed. *)
Lemma shut_unclaimed h : shut_house h -> onboarding_unclaimed clk h = (Ok None, h).
Proof. intros (rec & Hr & Hs & _). unfold onboarding_unclaimed. by rewrite Hr, (shut_not_unclaimed rec Hs). Qed.

Lemma redeem_stable (I : house -> house -> Prop) `{!PreOrder I} code :
  stable I (now_utc clk) -> (forall c h, I h (put_claims c h)) -> stable I (redeem_claim clk sha256_hex code).
Proof.
  intros Hn Hc. unfold redeem_claim. apply stable_bind; [done| |].
  { unfold redeem_read. destruct (negb _); [by apply stable_ret|by apply stable_gets]. }
  intros [e|text]; [by apply stable_ret|]. apply stable_bind; [done| |].
  { intros h. unfold redeem_unlink. destruct (oget _ _); [apply Hc|reflexivity]. }
  intros [e|[]]; [by apply stable_ret|]. unfold redeem_check. destruct text as [[]|]; try by apply stable_ret.
  destruct (negb _); [by apply stable_ret|]. destruct (parse_iso _); [|by apply stable_ret].
  apply stable_bind; [done|done|]. intros ?. by apply stable_ret.
Qed.
End House.

(** ** The routes *)

Lemma still_ret {A} (a : A) : still (ret a).
Proof. by intros w. Qed.
Lemma still_get_user clk u t : still (get_user clk u t).
Proof. apply still_bind; [apply still_load|by intros []]. Qed.
Lemma still_find clk a t : still (find_sign_in_account clk a t).
Proof. unfold find_sign_in_account. destruct (String.eqb _ ""); [apply still_ret|]. apply still_bind; [apply still_load|by intros []]. Qed.
Lemma still_authenticate clk sha pb t : still (authenticate clk sha pb t).
Proof. unfold authenticate. destruct (String.eqb _ ""); [apply still_ret|]. apply still_bind; [apply still_load|by intros []]. Qed.
Lemma still_owner clk sha pb k : still (openai_key_owner clk sha pb k).
Proof. unfold openai_key_owner. destruct (String.eqb _ ""); [apply still_ret|]. apply still_bind; [apply still_load|by intros []]. Qed.
#[export] Hint Resolve still_load still_get_user still_find still_authenticate still_owner : stable_db.
#[export] Hint Resolve stable_on_users stable_on_users_shut stable_sessions_users stable_sessions_shut stable_onboard_users stable_onboard_shut
  stable_password_users stable_password_shut now_users now_shut close_users close_keeps unclaimed_users unclaimed_keeps : stable_db.

Section Front.
Context {G : SignIn}.

Lemma registry_users {A} (m : M registry A) : still m -> stable same_users (on_registry m).
Proof. intros H. by apply stable_on_house_users, stable_on_users. Qed.
Lemma registry_shut {A} (m : M registry A) : stable stays_shut (on_registry m).
Proof. apply stable_on_house_shut, stable_on_users_shut. Qed.
Lemma stamp_users : stable same_users stamp.
Proof. intros f. untouched. Qed.
Lemma stamp_shut : stable stays_shut stamp.
Proof. intros f. untouched. Qed.
Hint Resolve stable_on_house_users stable_on_house_shut registry_users registry_shut stamp_users stamp_shut : stable_db.
Lemma now_users_ : stable same_users now_.
Proof. unfold now_. stable_walk. Qed.
Lemma now_shut_ : stable stays_shut now_.
Proof. unfold now_. stable_walk. Qed.
Hint Resolve now_users_ now_shut_ : stable_db.

Lemma close_for_users q a via : stable same_users (close_onboarding_for q a via).
Proof. unfold close_onboarding_for. stable_walk. Qed.
Lemma close_for_shut q a via : stable stays_shut (close_onboarding_for q a via).
Proof. unfold close_onboarding_for. stable_walk. Qed.
Hint Resolve close_for_users close_for_shut : stable_db.
Lemma issue_users q p r via : stable same_users (issue_session q p r via).
Proof. unfold issue_session. stable_walk. Qed.
Lemma issue_shut q p r via : stable stays_shut (issue_session q p r via).
Proof. unfold issue_session. stable_walk. Qed.
Lemma end_users a : stable same_users (end_sessions a).
Proof. unfold end_sessions. stable_walk. Qed.
Lemma end_shut a : stable stays_shut (end_sessions a).
Proof. unfold end_sessions. stable_walk. Qed.
Hint Resolve issue_users issue_shut end_users end_shut : stable_db.
Lemma check_users q k pw h : stable same_users (check_password q k pw h).
Proof. unfold check_password, password_check, password_count. stable_walk. Qed.
Lemma check_shut q k pw h : stable stays_shut (check_password q k pw h).
Proof. unfold check_password, password_check, password_count. stable_walk. Qed.
Hint Resolve check_users check_shut : stable_db.

Lemma front_users q p : stable same_users (onboarding_front q p).
Proof. unfold onboarding_front. stable_walk. Qed.
Lemma login_users q u tok pw t r : stable same_users (gateway_session_login q u tok pw t r).
Proof.
  unfold gateway_session_login, token_session_login, password_session_login, password_sign_in_principal. stable_walk.
Qed.
Lemma claim_users q code r : stable same_users (gateway_session_claim q code r).
Proof.
  unfold gateway_session_claim. stable_walk. apply stable_on_house_users, redeem_stable; [typeclasses eauto|apply now_users|done].
Qed.
Lemma target_users q id t : stable same_users (admin_target q id t).
Proof. unfold admin_target. stable_walk. Qed.

Lemma onboards_shut q p : stable stays_shut (session_onboarding_claim q p).
Proof.
  unfold session_onboarding_claim, onboarding_front, onboarding_back, setup_code_right, wrong_setup_code, onboarding_take, claim_unlocked. stable_walk.
Qed.
Lemma login_shut q u tok pw t r : stable stays_shut (gateway_session_login q u tok pw t r).
Proof. unfold gateway_session_login, token_session_login, password_session_login, password_sign_in_principal. stable_walk. Qed.
Lemma claim_shut q code r : stable stays_shut (gateway_session_claim q code r).
Proof. unfold gateway_session_claim. stable_walk. apply stable_on_house_shut, redeem_stable; [typeclasses eauto|apply now_shut|intros ? ?; untouched]. Qed.
Lemma setters_shut q c n k id t pw :
  stable stays_shut (me_set_password q c n k) /\ stable stays_shut (admin_set_password q id t pw) /\ stable stays_shut (admin_clear_password q id t).
Proof. unfold me_set_password, admin_set_password, admin_clear_password, admin_target, after_password. split_and!; stable_walk. Qed.
End Front.

(** ** The unclaimed window: it is taken once

    Requests, starts of the gateway and the work of the command line as events on
    one state. The gateway is claimed through the console at most once, a claimed
    gateway stays claimed, and whoever gets an administrator's session or sets an
    administrator's password shuts the window. *)

Section Window.
Context {G : SignIn}.

(** ** Events *)

Inductive event :=
  | Onboards (q : http) (p : onboarding_request)
  | SignsIn (q : http) (user : string) (token password : option string) (tenant : string) (remember : bool)
  | FollowsLink (q : http) (code : string) (remember : bool)
  | SetsOwn (q : http) (current : option string) (new : string) (confirm : option string)
  | AdminSets (q : http) (id tenant password : string)
  | AdminClears (q : http) (id tenant : string)
  (** An operation of the registry by another route. *)
  | Registers (o : op)
  | Starts (env : environ) (host random salt link_random : string) (picks : nat -> nat) (pid : Z)
  | ShowsCode (env : environ) (random salt : string) (picks : nat -> nat)
  | MintsLink (tenant user : string) (ttl : Z) (by_ random : string) (pid : Z)
  | EndsFirstRun (by_ outcome : string).

(** The roles of the account an event answers a session for or sets a password of. *)
Definition answered {A} (roles_of : A -> list string) (m : M front (reply A)) : M front (option (list string)) :=
  r <- m ;; ret (match r with Answer a => Some (roles_of a) | HttpError _ _ => None end).
Definition run_event (e : event) : M front (option (list string)) :=
  match e with
  | Onboards q p => answered (fun c => a_roles (cl_account c)) (session_onboarding_claim q p)
  | SignsIn q u tok pw t r => answered (fun x => roles x.1) (gateway_session_login q u tok pw t r)
  | FollowsLink q code r => answered (fun x => roles x.1.1) (gateway_session_claim q code r)
  | SetsOwn q c n k => answered (fun x => a_roles x.1) (me_set_password q c n k)
  | AdminSets q id t pw => answered (fun x => a_roles x.1) (admin_set_password q id t pw)
  | AdminClears q id t => admin_clear_password q id t ;;; ret None
  | Registers o => on_registry (run_op clk sha256_hex pbkdf2 o) ;;; ret None
  | Starts env host r s l picks pid => on_house (maybe_bootstrap_user_auth_admin clk sha256_hex pbkdf2 env host r s l picks pid) ;;; ret None
  | ShowsCode env r s picks => on_house (current_setup_code clk sha256_hex pbkdf2 env r s picks) ;;; ret None
  | MintsLink t u ttl by_ r pid => on_house (mint_claim clk sha256_hex t u ttl by_ r pid) ;;; ret None
  | EndsFirstRun by_ outcome => on_house (mark_first_run_complete clk by_ outcome) ;;; ret None
  end.
Definition after_event (f : front) (e : event) : front := exec (run_event e) f.
Definition run_events (es : list event) (f : front) : front := fold_left after_event es f.
(** An event claims the gateway. *)
Definition claims (e : event) (f : front) : bool :=
  match e, (run_event e f).1 with Onboards _ _, Ok (Some _) => true | _, _ => false end.
Fixpoint claims_in (es : list event) (f : front) : nat :=
  match es with [] => 0 | e :: es => (if claims e f then 1 else 0) + claims_in es (after_event f e) end.

(** ** A shut window stays shut *)

Lemma open_keeps picks t u : stable stays_shut_h (open_onboarding clk picks t u).
Proof. intros h (rec & Hr & H). unfold open_onboarding. rewrite Hr. by exists rec. Qed.
Lemma bind_keeps {A B} (m : M house A) (k : A -> M house B) : stable stays_shut_h m -> (forall a, stable stays_shut_h (k a)) -> stable stays_shut_h (mbind_ m k).
Proof. apply stable_bind. typeclasses eauto. Qed.
Lemma token_keeps t : stable stays_shut_h (write_token_file t).
Proof. intros h. unfold write_token_file. cbn. destruct (String.eqb _ _); untouched. Qed.
Lemma prune_keeps : stable stays_shut_h (prune_claims clk).
Proof. intros h. unfold prune_claims. destruct (h_claims h); untouched. Qed.
Lemma write_claim_keeps d rec : stable stays_shut_h (write_claim d rec).
Proof. intros h. unfold write_claim. destruct (oget _ _); untouched. Qed.
Hint Resolve open_keeps token_keeps prune_keeps write_claim_keeps stable_on_users_shut now_shut unclaimed_keeps : stable_db.
Lemma mint_keeps t u ttl by_ r pid : stable stays_shut_h (mint_claim clk sha256_hex t u ttl by_ r pid).
Proof. unfold mint_claim. stable_walk. Qed.
Hint Resolve mint_keeps : stable_db.
Lemma bootstrap_keeps env t u rt em tok no rot r s picks : stable stays_shut_h (ensure_bootstrap_admin_user clk sha256_hex pbkdf2 env t u rt em tok no rot r s picks).
Proof. unfold ensure_bootstrap_admin_user, bootstrap_create, bootstrap_update. stable_walk. Qed.
Hint Resolve bootstrap_keeps : stable_db.
Lemma start_keeps env host r s l picks pid : stable stays_shut_h (maybe_bootstrap_user_auth_admin clk sha256_hex pbkdf2 env host r s l picks pid).
Proof. unfold maybe_bootstrap_user_auth_admin, first_run_link. stable_walk. Qed.
Lemma display_keeps picks : stable stays_shut_h (setup_code_for_display clk picks).
Proof. intros h Hs. unfold setup_code_for_display, mbind_. by rewrite (shut_unclaimed clk h Hs). Qed.
Lemma code_keeps env r s picks : stable stays_shut_h (current_setup_code clk sha256_hex pbkdf2 env r s picks).
Proof. unfold current_setup_code. destruct (bool_decide _); [apply stable_ret; typeclasses eauto|]. apply bind_keeps; [apply bootstrap_keeps|intros _; apply display_keeps]. Qed.
Lemma mark_first_run_keeps by_ outcome : stable stays_shut_h (mark_first_run_complete clk by_ outcome).
Proof. intros h. untouched. Qed.

Lemma event_keeps e : stable stays_shut (run_event e).
Proof.
  assert (forall A B (g : A -> B) (m : M front A), stable stays_shut m -> stable stays_shut (a <- m ;; ret (g a))) as Hm.
  { intros A B g m H. apply stable_bind; [typeclasses eauto|done|]. intros a. apply stable_ret. typeclasses eauto. }
  destruct e; cbn [run_event]; unfold answered; apply Hm.
  - apply onboards_shut.
  - apply login_shut.
  - apply claim_shut.
  - apply (setters_shut q current new confirm "" "" "").
  - apply (setters_shut q None "" None id tenant password).
  - apply (setters_shut q None "" None id tenant "").
  - apply registry_shut.
  - apply stable_on_house_shut, start_keeps.
  - apply stable_on_house_shut, code_keeps.
  - apply stable_on_house_shut, mint_keeps.
  - apply stable_on_house_shut, mark_first_run_keeps.
Qed.

(** ** Claiming shuts it *)

Lemma mbind_inv {S A B} (m : M S A) (k : A -> M S B) s b s' : mbind_ m k s = (Ok b, s') -> exists a s1, m s = (Ok a, s1) /\ k a s1 = (Ok b, s').
Proof. unfold mbind_. destruct (m s) as [[a|e] s1]; [|done]. by exists a, s1. Qed.
Lemma then_inv {S A B} (m : M S (reply A)) (k : A -> M S (reply B)) s b s' : then_ m k s = (Ok (Answer b), s') ->
  exists a s1, m s = (Ok (Answer a), s1) /\ k a s1 = (Ok (Answer b), s').
Proof. intros ([a|st d] & s1 & H1 & H2)%mbind_inv; [by exists a, s1|done]. Qed.

Definition opened (h : house) : Prop := exists rec, read_onboarding h = Some rec /\ says_unclaimed rec = true.
Lemma unclaimed_inv h rec h' : onboarding_unclaimed clk h = (Ok (Some rec), h') -> read_onboarding h = Some rec /\ says_unclaimed rec = true /\ h_onboarding h' = h_onboarding h.
Proof.
  unfold onboarding_unclaimed. destruct (read_onboarding h) as [r|]; [|done]. destruct (says_unclaimed r) eqn:Hs; cbn [negb]; [|done].
  unfold on_users. destruct (get_user clk _ _ _) as [[[a|]|e] w]; [|done|done]. destruct (claimable a); [|done]. by intros [= <- <-].
Qed.
Lemma opened_same h h' : h_onboarding h' = h_onboarding h -> opened h -> opened h'.
Proof. unfold opened, read_onboarding. by intros ->. Qed.
Lemma claim_unlocked_shuts d pw salt ip f a f' : claim_unlocked d pw salt ip f = (Ok (Some a), f') -> shut f'.
Proof.
  unfold claim_unlocked. intros ([rec|] & f1 & E1 & E)%mbind_inv; [|done]. unfold on_house in E1.
  destruct (onboarding_unclaimed clk (f_house f)) as [r1 h1] eqn:Eu. injection E1 as -> <-. apply unclaimed_inv in Eu as (Hr & Hs & Hh1).
  apply mbind_inv in E as (hash & f2 & [= E2 <-] & E). apply mbind_inv in E as (b & f3 & E3 & E). apply mbind_inv in E as (c & f4 & E4 & [= _ <-]).
  unfold on_registry, on_house, on_users in E3. cbn [f_house] in E3. destruct (set_password clk _ _ _ _ _) as [r3 w3]. injection E3 as _ <-.
  unfold on_house in E4. cbn [f_house f_onboard f_password f_sessions] in E4. destruct (close_onboarding _ _ _ _ _ _) as [r4 h4] eqn:Ec. injection E4 as _ <-.
  apply close_shuts in Ec as [Hc _]; [exact Hc|]. apply (opened_same (f_house f)); [exact Hh1|by exists rec].
Qed.
Lemma onboards_shuts q p f c f' : session_onboarding_claim q p f = (Ok (Answer c), f') -> shut f'.
Proof.
  intros ([] & f1 & _ & E)%then_inv. apply mbind_inv in E as (right & f2 & _ & E). destruct right; cbn [negb] in E; [|by apply mbind_inv in E as (? & ? & _ & ?)].
  unfold onboarding_take in E. apply mbind_inv in E as ([a|] & f3 & E3 & E); [|done]. apply claim_unlocked_shuts in E3.
  assert (stable stays_shut (now <- now_ ;; on_onboard (modify (success ONBOARDING_LIMITER address_key account_digest now (client_address q) "")) ;;;
    s <- issue_session q (account_principal a "") (o_remember p) "onboarding" ;; st <- gets (fun f => first_run_state (f_house f)) ;; ret (Answer (mk_claimed a s st)))) as Hst.
  { apply stable_bind; [typeclasses eauto|apply now_shut_|intros now]. apply stable_bind; [typeclasses eauto|apply stable_onboard_shut|intros _].
    apply stable_bind; [typeclasses eauto|apply issue_shut|intros s]. apply stable_bind; [typeclasses eauto|apply stable_gets; typeclasses eauto|intros st].
    apply stable_ret. typeclasses eauto. }
  specialize (Hst f3 E3). by rewrite E in Hst.
Qed.

(** In a shut window nobody claims, and no code matches. *)
Lemma shut_answers q p f : shut f -> forall c f', session_onboarding_claim q p f <> (Ok (Answer c), f').
Proof.
  intros Hs c f' ([] & f1 & E & _)%then_inv. unfold onboarding_front in E. destruct (negb user_auth); [done|].
  destruct (negb (nonempty _)); [done|]. apply mbind_inv in E as (rec & f2 & E1 & E2). unfold on_house in E1.
  rewrite (shut_unclaimed clk (f_house f) Hs) in E1. injection E1 as <- <-. done.
Qed.
Lemma shut_no_code h raw : shut_house h -> setup_code_matches raw h = false.
Proof. intros (rec & Hr & _ & Hc). unfold setup_code_matches. rewrite Hr. change (default [] (Some rec)) with rec. by rewrite Hc. Qed.
Lemma claims_spec e f : claims e f = true -> exists q p c f', e = Onboards q p /\ session_onboarding_claim q p f = (Ok (Answer c), f').
Proof.
  unfold claims. destruct e; try done. cbn [run_event]. unfold answered, mbind_, ret.
  destruct (session_onboarding_claim q p f) as [[[c|st d]|x] f'] eqn:E; cbn; try done. intros _. by exists q, p, c, f'.
Qed.
Lemma claims_shuts e f : claims e f = true -> shut (after_event f e).
Proof.
  intros (q & p & c & f' & -> & E)%claims_spec. unfold after_event, exec. cbn [run_event]. unfold answered, mbind_. rewrite E. cbn. by eapply onboards_shuts.
Qed.
Lemma shut_claims e f : shut f -> claims e f = false.
Proof. intros Hs. destruct (claims e f) eqn:E; [|done]. apply claims_spec in E as (q & p & c & f' & -> & E). by apply shut_answers in E. Qed.
Lemma shut_run es f : shut f -> shut (run_events es f) /\ claims_in es f = 0%nat.
Proof.
  revert f. induction es as [|e es IH]; intros f Hs; [done|]. cbn [claims_in run_events fold_left]. rewrite shut_claims by done.
  apply IH. by apply event_keeps.
Qed.

(** C16: However requests, starts of the gateway, commands and other routes follow each
    other, the gateway is claimed through its onboarding form at most once; from then
    on, and from any moment it was claimed in another way, the window stays shut: no
    later event claims it, and no text matches a setup code any more. *)
Theorem window_is_taken_once (es : list event) (f : front) :
  (claims_in es f <= 1)%nat /\
  (claims_in es f = 1%nat \/ shut f ->
     shut (run_events es f) /\ (forall es', claims_in es' (run_events es f) = 0%nat) /\
     forall es' text, setup_code_matches (VStr text) (f_house (run_events es' (run_events es f))) = false).
Proof.
  assert ((claims_in es f <= 1)%nat /\ (claims_in es f = 1%nat \/ shut f -> shut (run_events es f))) as [H1 H2].
  { revert f. induction es as [|e es IH]; intros f; [split; [cbn; lia|by intros [?|?]]|]. cbn [claims_in run_events fold_left].
    destruct (claims e f) eqn:Hc.
    - destruct (shut_run es _ (claims_shuts e f Hc)) as [Hs ->]. done.
    - destruct (IH (after_event f e)) as [Hle Hsh]. split; [exact Hle|]. intros [H|H]; apply Hsh; [by left|right]. by apply event_keeps. }
  split; [exact H1|]. intros H. specialize (H2 H). split_and!; [exact H2| |].
  - intros es'. by apply shut_run.
  - intros es' text. apply shut_no_code. by apply shut_run.
Qed.

(** ** Who shuts it *)

(** The gateway is not waiting to be claimed. *)
Definition closed (h : house) : Prop := match read_onboarding h with Some rec => says_unclaimed rec = false | None => True end.
Lemma shut_closed h : shut_house h -> closed h.
Proof. intros (rec & Hr & Hs & _). unfold closed. rewrite Hr. by apply shut_not_unclaimed. Qed.
Lemma close_closes via ip u t h : closed (close_onboarding clk via ip u t h).2.
Proof.
  destruct (close_onboarding clk via ip u t h) as [r h'] eqn:E. destruct (read_onboarding h) as [rec|] eqn:Hr.
  - destruct (says_unclaimed rec) eqn:Hs.
    + apply shut_closed. apply close_shuts in E as [? _]; [done|by exists rec].
    + unfold close_onboarding in E. rewrite Hr, Hs in E. injection E as _ <-. unfold closed. cbn. by rewrite Hr.
  - unfold close_onboarding in E. rewrite Hr in E. injection E as _ <-. unfold closed. cbn. by rewrite Hr.
Qed.
Lemma close_for_closes q a via f r f' : folded_admin (a_roles a) = true -> close_onboarding_for q a via f = (Ok r, f') -> closed (f_house f').
Proof.
  intros Ha. unfold close_onboarding_for. rewrite Ha. cbn [negb]. intros (b & f1 & E & [= _ <-])%mbind_inv. unfold on_house in E.
  pose proof (close_closes via (client_address q) (a_user_id a) (a_tenant_id a) (f_house f)) as H. destruct (close_onboarding _ _ _ _ _ _). by injection E as _ <-.
Qed.
Lemma admin_folds l : "admin" ∈ l -> folded_admin l = true.
Proof. intros H. apply bool_decide_eq_true. apply list_elem_of_fmap. by exists "admin". Qed.

Lemma settled_front (f f' : front) rs rv : settled clk (h_reg (f_house f)) rs rv -> same_users f f' -> settled clk (h_reg (f_house f')) rs rv.
Proof. intros H Hu. eapply settled_file; [exact H|exact Hu]. Qed.
Lemma stable_run {A} (m : M front A) f r f' : stable same_users m -> m f = (r, f') -> same_users f f'.
Proof. intros H E. specialize (H f). by rewrite E in H. Qed.
Lemma registry_settled {A} (m : M registry A) f rs rv (g : accounts -> A) : settled clk (h_reg (f_house f)) rs rv ->
  (forall w, load_store clk w = (Ok (rs, rv), w) -> m w = (Ok (g rs), w)) -> on_registry m f = (Ok (g rs), f).
Proof.
  intros Hs Hm. unfold on_registry, on_house, on_users. rewrite (Hm _ (se_load _ _ _ _ Hs _ eq_refl)). by destruct f as [[]].
Qed.
Lemma get_settled f rs rv u t : settled clk (h_reg (f_house f)) rs rv -> on_registry (get_user clk u t) f = (Ok (oget (asked_key t u) rs), f).
Proof. intros Hs. apply (registry_settled _ f rs rv (fun rs => oget (asked_key t u) rs) Hs). intros w Hw. unfold get_user, mbind_. by rewrite Hw. Qed.

(** A session answered to an administrator. *)
Lemma issue_closes q p r via f s f' rs rv a : settled clk (h_reg (f_house f)) rs rv -> issue_session q p r via f = (Ok s, f') ->
  is_admin p = true -> oget (asked_key (or_else (tenant_id p) "default") (user_id p)) rs = Some a -> folded_admin (a_roles a) = true -> closed (f_house f').
Proof.
  intros Hs E Ha Hg Hf. unfold issue_session in E. apply mbind_inv in E as ([rs0 rv0] & f1 & E1 & E).
  assert (settled clk (h_reg (f_house f1)) rs rv) as Hs1 by (eapply settled_front; [done|]; eapply stable_run; [|exact E1]; apply registry_users, still_load).
  apply mbind_inv in E as ([now mono] & f2 & E2 & E).
  assert (settled clk (h_reg (f_house f2)) rs rv) as Hs2 by (eapply settled_front; [done|]; eapply stable_run; [|exact E2]; apply stamp_users).
  apply mbind_inv in E as (out & f3 & E3 & E).
  assert (settled clk (h_reg (f_house f3)) rs rv) as Hs3 by (eapply settled_front; [done|]; eapply stable_run; [|exact E3]; apply stable_sessions_users).
  apply mbind_inv in E as (u & f4 & E4 & [= _ <-]). rewrite Ha in E4. apply mbind_inv in E4 as (found & f5 & E5 & E4).
  rewrite (get_settled f3 rs rv _ _ Hs3), Hg in E5. injection E5 as <- <-. by eapply close_for_closes.
Qed.

(** ** A password set *)

Lemma asked_account a : storable a -> asked_key (or_else (a_tenant_id a) "default") (a_user_id a) = account_key a.
Proof.
  intros [Hu Ht _ _ _ _]. unfold asked_key, account_key. rewrite or_else_nonempty by (by apply good_nonempty).
  by rewrite safe_tenant_id, safe_name_id.
Qed.
Lemma asked_account_key a : storable a -> asked_key (a_tenant_id a) (a_user_id a) = account_key a.
Proof. intros [Hu Ht _ _ _ _]. unfold asked_key, account_key. by rewrite safe_tenant_id, safe_name_id. Qed.
Lemma in_records rs a k : accounts_ok rs -> (k, a) ∈ rs -> oget (account_key a) rs = Some a /\ storable a.
Proof. intros [Hnd Hok] Hin. destruct (Hok k a Hin) as [<- Hst]. split; [by apply NoDup_oget|done]. Qed.

(** The record [set_password] leaves, from the record it found. *)
Record repassworded (hash : string) (a b : GatewayUserRecord) : Prop := {
  rp_hash : a_password_hash b = hash;
  rp_key : a_user_id b = a_user_id a /\ a_tenant_id b = a_tenant_id a;
  rp_rest : a_roles b = a_roles a /\ a_enabled b = a_enabled a /\ a_archived b = a_archived a;
  rp_storable : storable a -> storable b;
}.
Lemma set_password_inv u t hash name w rs rv b w' : settled clk w rs rv -> set_password clk u t hash name w = (Ok b, w') ->
  exists a, oget (asked_key t u) rs = Some a /\ is_entity a = false /\ repassworded hash a b /\
    settled clk w' (reload_accounts (oset (asked_key t u) b rs)) (reload_reservations rv).
Proof.
  intros Hs E. unfold set_password in E. apply mbind_inv in E as ([rs0 rv0] & w1 & E1 & E).
  rewrite (se_load _ _ _ _ Hs) in E1 by done. injection E1 as <- <- <-. destruct (oget (asked_key t u) rs) as [a|] eqn:Hg; [|done].
  destruct (is_entity a) eqn:He; [done|]. apply mbind_inv in E as (now & w2 & E2 & E). injection E2 as <- <-. cbv zeta in E.
  match type of E with context[put_account clk _ ?x] => set (b0 := x) in * end.
  assert (repassworded hash a b0) as Hrp by (split; [done|done|done|]; intros []; split; try done; apply isoformat_nonempty). clearbody b0.
  apply mbind_inv in E as ([] & w3 & E3 & E4). injection E4 as -> ->. exists a. split_and!; [done|done|done|].
  pose proof (se_ok _ _ _ _ Hs) as [Hrs Hrv]. destruct (accounts_ok_get rs _ a Hrs Hg) as [Hk Hst].
  unfold put_account in E3. unfold save_store in E3. apply mbind_inv in E3 as (now2 & w4 & E5 & [= E6]). injection E5 as <- <-.
  eapply settled_saved; [|by rewrite <- E6]. split; [|done]. rewrite Hk.
  assert (account_key a = account_key b) as -> by (unfold account_key; by destruct (rp_key _ _ _ Hrp) as [-> ->]).
  apply accounts_ok_oset; [by apply (rp_storable _ _ _ Hrp)|done].
Qed.
Lemma registry_run {A} (m : M registry A) f a f' : on_registry m f = (Ok a, f') ->
  exists w', m (h_reg (f_house f)) = (Ok a, w') /\ h_reg (f_house f') = w' /\ h_onboarding (f_house f') = h_onboarding (f_house f) /\ f_password f' = f_password f.
Proof.
  unfold on_registry, on_house, on_users. destruct (m (h_reg (f_house f))) as [r w]. intros [= -> <-]. by exists w.
Qed.
Lemma folded_canon a : "admin" ∈ a_roles a -> folded_admin (a_roles (canon a)) = true.
Proof.
  intros H. assert ("admin" ∈ norm_texts (a_roles a)) as Hn.
  { unfold norm_texts. apply elem_of_lfilter. split; [apply list_elem_of_fmap; by exists "admin"|done]. }
  apply admin_folds. unfold canon. cbn [a_roles]. destruct (norm_texts (a_roles a)); [by apply not_elem_of_nil in Hn|done].
Qed.

Lemma after_password_closes q b own f r f' rs rv : settled clk (h_reg (f_house f)) rs rv -> storable b ->
  oget (account_key b) rs = Some (canon b) -> after_password q b own f = (Ok (Answer r), f') -> "admin" ∈ a_roles r.1 -> closed (f_house f').
Proof.
  intros Hs Hst Hg E Ha. unfold after_password in E. apply mbind_inv in E as (u & f1 & E1 & E).
  assert (settled clk (h_reg (f_house f1)) rs rv) as Hs1 by (eapply settled_front; [done|]; eapply stable_run; [|exact E1]; apply end_users).
  destruct (own && by_cookie q).
  - apply mbind_inv in E as (s & f2 & E2 & [= <- <-]). cbn [fst] in Ha. eapply issue_closes; [exact Hs1|exact E2| | |by apply (folded_canon b)].
    + unfold is_admin. by apply bool_decide_eq_true.
    + cbn [account_principal tenant_id user_id]. by rewrite asked_account.
  - apply mbind_inv in E as (s & f2 & E2 & [= <- <-]). cbn [fst] in Ha. eapply close_for_closes; [|exact E2]. by apply admin_folds.
Qed.

(** The end of the two setters. *)
Definition put_password (q : http) (a : GatewayUserRecord) (pw : string) (own : bool) : M front (reply password_set) :=
  hash <- of_res (hash_password scrypt pw (q_salt q)) ;;
  updated <- on_registry (set_password clk (a_user_id a) (a_tenant_id a) hash None) ;;
  after_password q updated own.
Lemma put_password_inv q a pw own f r f' rs rv k : settled clk (h_reg (f_house f)) rs rv -> oget k rs = Some a -> put_password q a pw own f = (Ok r, f') ->
  exists hash b f1, hash_password scrypt pw (q_salt q) = Ok hash /\ repassworded hash a b /\ after_password q b own f1 = (Ok r, f') /\
    settled clk (h_reg (f_house f1)) (reload_accounts (oset k b rs)) (reload_reservations rv) /\ storable b /\ k = account_key b /\
    store_ok (oset k b rs) rv /\ f_password f1 = f_password f.
Proof.
  intros Hs Hg E. unfold put_password in E. apply mbind_inv in E as (hash & f0 & [= Eh <-] & E). apply mbind_inv in E as (b & f1 & E1 & E).
  pose proof (se_ok _ _ _ _ Hs) as [Hrs Hrv]. destruct (accounts_ok_get rs k a Hrs Hg) as [Hk Hst].
  apply registry_run in E1 as (w & E1 & Hw & _ & Hpw). destruct (set_password_inv _ _ _ _ _ _ _ _ _ Hs E1) as (a' & Hg' & _ & Hrp & Hs').
  rewrite asked_account_key, <- Hk, Hg in Hg' by done. injection Hg' as <-. rewrite asked_account_key, <- Hk in Hs' by done.
  exists hash, b, f1. assert (k = account_key b) as Hkb by (rewrite Hk; unfold account_key; by destruct (rp_key _ _ _ Hrp) as [-> ->]).
  pose proof (rp_storable _ _ _ Hrp Hst) as Hstb.
  split_and!; try done; [by rewrite Hw|]. split; [|done]. rewrite Hkb. by apply accounts_ok_oset.
Qed.
Lemma put_password_closes q a pw own f r f' rs rv k : settled clk (h_reg (f_house f)) rs rv -> oget k rs = Some a ->
  put_password q a pw own f = (Ok (Answer r), f') -> "admin" ∈ a_roles r.1 -> closed (f_house f').
Proof.
  intros Hs Hg E Ha. destruct (put_password_inv _ _ _ _ _ _ _ _ _ _ Hs Hg E) as (hash & b & f1 & _ & _ & E1 & Hs1 & Hst & -> & Hok & _).
  eapply after_password_closes; [exact Hs1|exact Hst| |exact E1|exact Ha]. rewrite oget_reload by apply Hok. by rewrite oget_oset_eq.
Qed.

(** ** Sign-ins *)

Lemma find_settled f rs rv text t : settled clk (h_reg (f_house f)) rs rv -> exists r, on_registry (find_sign_in_account clk text t) f = (Ok r, f) /\
  match r with Some a => oget (account_key a) rs = Some a /\ storable a /\ is_entity a = false | None => True end.
Proof.
  intros Hs. pose proof (se_ok _ _ _ _ Hs) as [Hrs _].
  unfold on_registry, on_house, on_users, find_sign_in_account. cbv zeta. destruct (String.eqb (strip text) ""); [exists None; by destruct f as [[]]|].
  unfold mbind_. rewrite (se_load _ _ _ _ Hs) by done. eexists. split; [by destruct f as [[]]|].
  set (by_name := match List.filter _ _ with [a] => Some a | _ => None end).
  assert (match by_name with Some a => oget (account_key a) rs = Some a /\ storable a /\ is_entity a = false | None => True end) as Hn.
  { subst by_name. destruct (List.filter _ _) as [|a [|]] eqn:E; try done. assert (a ∈ [a]) as Hin by (by apply list_elem_of_singleton). rewrite <- E in Hin.
    apply elem_of_lfilter in Hin as [Hin Hnm]. apply list_elem_of_fmap in Hin as ([k a'] & -> & Hin). destruct (in_records rs a' k Hrs Hin) as [Hg Hst].
    unfold named in Hnm. cbn [snd] in *. bool_to_prop. by split_and!. }
  destruct (String.eqb (safe_name (strip text)) ""); [exact Hn|].
  destruct (oget (pair_key (safe_tenant t) (safe_name (strip text))) rs) as [a|] eqn:Hg; [|exact Hn]. destruct (is_entity a) eqn:He; [exact Hn|].
  destruct (accounts_ok_get rs _ a Hrs Hg) as [Hk Hst]. rewrite Hk in Hg. by split_and!.
Qed.
Lemma sign_in_inv q acct pw t f p f' rs rv : settled clk (h_reg (f_house f)) rs rv -> password_sign_in_principal q acct pw t f = (Ok (Answer p), f') ->
  exists a, p = account_principal a "" /\ oget (account_key a) rs = Some a /\ storable a /\ same_users f f'.
Proof.
  intros Hs E. unfold password_sign_in_principal in E. apply mbind_inv in E as (rec & f1 & E1 & E).
  destruct (find_settled f rs rv acct t Hs) as (r & Hr & Hspec). rewrite Hr in E1. injection E1 as <- <-.
  apply then_inv in E as ([] & f2 & E2 & E). destruct r as [a|]; [|done]. injection E as <- <-. destruct Hspec as (Hg & Hst & _).
  exists a. split_and!; [done|done|done|]. eapply stable_run; [|exact E2]. apply check_users.
Qed.
Lemma roles_admin p : "admin" ∈ roles p -> is_admin p = true.
Proof. intros H. by apply bool_decide_eq_true. Qed.
(** A session answered for an account of the registry. *)
Lemma session_closes q p a fp r via f s f' rs rv : settled clk (h_reg (f_house f)) rs rv -> issue_session q p r via f = (Ok s, f') ->
  p = account_principal a fp -> oget (account_key a) rs = Some a -> storable a -> "admin" ∈ roles p -> closed (f_house f').
Proof.
  intros Hs E -> Hg Hst Ha. eapply issue_closes; [exact Hs|exact E|exact (roles_admin _ Ha)| |exact (admin_folds _ Ha)].
  cbn [account_principal tenant_id user_id]. by rewrite asked_account.
Qed.
Lemma login_closes q u tok pw t r f x f' rs rv : settled clk (h_reg (f_house f)) rs rv -> gateway_session_login q u tok pw t r f = (Ok (Answer x), f') ->
  "admin" ∈ roles x.1 -> closed (f_house f').
Proof.
  intros Hs E Ha. unfold gateway_session_login in E. destruct tok as [tok|], pw as [pw|]; try done.
  - unfold token_session_login in E. apply mbind_inv in E as (p & f1 & E1 & E). apply registry_run in E1 as (w & E1 & Hw & _).
    rewrite (authenticate_settled clk sha256_hex pbkdf2 tok _ _ _ Hs) in E1. injection E1 as Hp <-. rewrite <- Hw in Hs.
    apply mbind_inv in E as (owner & f2 & E2 & E). destruct p as [p|]; [|by destruct owner]. injection E2 as <- <-.
    destruct (nonempty _ && _); [done|]. destruct (barred_from_shared_runtime user_auth p); [done|]. apply mbind_inv in E as (s & f3 & E3 & [= <- <-]).
    destruct (String.eqb tok ""); [done|]. apply find_principal_spec in Hp as (a & Hg & _ & _ & _ & Hp); [|apply Hs].
    pose proof (se_ok _ _ _ _ Hs) as [Hrs _]. destruct (accounts_ok_get rs _ a Hrs Hg) as [Hk Hst]. rewrite Hk in Hg. eapply session_closes; [exact Hs|exact E3|exact Hp|exact Hg|exact Hst|exact Ha].
  - unfold password_session_login in E. destruct (negb user_auth); [done|]. apply then_inv in E as (p & f1 & E1 & E).
    destruct (sign_in_inv _ _ _ _ _ _ _ _ _ Hs E1) as (a & Hp & Hg & Hst & Hu). destruct (barred_from_shared_runtime user_auth p); [done|].
    apply mbind_inv in E as (s & f2 & E2 & [= <- <-]). eapply session_closes; [by eapply settled_front|exact E2|exact Hp|exact Hg|exact Hst|exact Ha].
Qed.
Lemma link_closes q code r f x f' rs rv : settled clk (h_reg (f_house f)) rs rv -> gateway_session_claim q code r f = (Ok (Answer x), f') ->
  "admin" ∈ roles x.1.1 -> closed (f_house f').
Proof.
  intros Hs E Ha. unfold gateway_session_claim in E. destruct (negb _ || _); [done|]. destruct (negb user_auth); [done|].
  apply mbind_inv in E as ([e|rec] & f1 & E1 & E); [done|].
  assert (settled clk (h_reg (f_house f1)) rs rv) as Hs1.
  { eapply settled_front; [done|]. eapply stable_run; [|exact E1]. apply stable_on_house_users. apply redeem_stable; [typeclasses eauto|apply now_users|done]. }
  apply mbind_inv in E as (found & f2 & E2 & E). rewrite (get_settled f1 rs rv _ _ Hs1) in E2. injection E2 as <- <-.
  destruct (oget _ rs) as [a|] eqn:Hg; [|done]. destruct (negb (a_enabled a)); [done|]. cbv zeta in E. destruct (negb (is_admin _)); [done|].
  apply mbind_inv in E as (s & f3 & E3 & [= <- <-]). pose proof (se_ok _ _ _ _ Hs) as [Hrs _]. destruct (accounts_ok_get rs _ a Hrs Hg) as [Hk Hst]. rewrite Hk in Hg.
  eapply session_closes; [exact Hs1|exact E3|done|exact Hg|exact Hst|exact Ha].
Qed.
Lemma target_inv q id t f a f' rs rv : settled clk (h_reg (f_house f)) rs rv -> admin_target q id t f = (Ok (Answer a), f') ->
  f' = f /\ is_admin (q_principal q) = true /\ oget (asked_key t id) rs = Some a /\ is_entity a = false /\ a_archived a = false.
Proof.
  intros Hs E. unfold admin_target in E. destruct (is_admin (q_principal q)) eqn:Had; cbn [negb] in E; [|done].
  apply mbind_inv in E as (found & f1 & E1 & E). rewrite (get_settled f rs rv _ _ Hs) in E1. injection E1 as <- <-.
  destruct (oget (asked_key t id) rs) as [b|] eqn:Hg; [|done]. destruct (is_entity b) eqn:He; [done|]. destruct (a_archived b) eqn:Har; [done|].
  by injection E as <- <-.
Qed.

(** C17: Whoever is answered a session as an administrator (by the onboarding form, a
    password, a token or a claim link), or has an administrator's password set, leaves
    the window shut: the gateway is not waiting to be claimed any more. *)
Theorem administrators_shut_the_window (e : event) (f f' : front) (rs : accounts) (rv : reservations) (roles_answered : list string) :
  settled clk (h_reg (f_house f)) rs rv -> run_event e f = (Ok (Some roles_answered), f') -> "admin" ∈ roles_answered -> closed (f_house f').
Proof.
  intros Hs E Ha. destruct e; cbn [run_event] in E; unfold answered in E; apply mbind_inv in E as (x & f1 & E & E'); try done.
  all: destruct x as [x|st d]; [|done]; injection E' as <- <-.
  - apply shut_closed. by eapply onboards_shuts.
  - by eapply login_closes.
  - by eapply link_closes.
  - unfold me_set_password in E. apply mbind_inv in E as (found & f2 & E2 & E). rewrite (get_settled f rs rv _ _ Hs) in E2. injection E2 as <- <-.
    cbv zeta in E. destruct (oget _ rs) as [a|] eqn:Hg; [|done]. destruct (is_entity a || _); [done|].
    match type of E with (if ?b then _ else _) _ = _ => destruct b; [done|] end. destruct (password_problem _ _); [done|]. apply then_inv in E as ([] & f3 & E3 & E).
    assert (settled clk (h_reg (f_house f3)) rs rv) as Hs3.
    { eapply settled_front; [done|]. eapply stable_run; [|exact E3].
      destruct (nonempty (a_password_hash a)); [destruct (negb _); [apply stable_ret; typeclasses eauto|apply check_users]|apply stable_ret; typeclasses eauto]. }
    by eapply (put_password_closes q a new true f3).
  - unfold admin_set_password in E. apply then_inv in E as (a & f2 & E2 & E). destruct (target_inv _ _ _ _ _ _ _ _ Hs E2) as (-> & _ & Hg & _).
    destruct (password_problem _ _); [done|]. by eapply (put_password_closes q a password (same (q_principal q) (a_user_id a) (a_tenant_id a)) f).
Qed.
End Window.
