(* ===== verification/PasswordFacts.v ===== *)
(** * Passwords: who changes one, and what it opens

    A route changes the password of an account only for its owner, for an
    administrator, or for whoever has the setup code while the gateway waits to be
    claimed; the password that was set signs its account in; and a refused sign-in
    says nothing of the account. *)

From S2P Require Import Prelude PyStr PyVal PyNum IsoTime PyText OrdDict Principal Authorization EntityAccess SignInLimiter Sessions UserRegistry UserRegistryFile UserRegistryOps UserRegistryFacts Passwords AdminAccounts AdminRoutes FirstRun SessionPasswords WindowFacts.

Lemma mbind_cases {S A B} (m : M S A) (k : A -> M S B) s r s' : mbind_ m k s = (r, s') ->
  (exists e, m s = (Raise e, s') /\ r = Raise e) \/ exists a s1, m s = (Ok a, s1) /\ k a s1 = (r, s').
Proof. unfold mbind_. destruct (m s) as [[a|e] s1]; [right; by exists a, s1|intros [= <- <-]; left; by exists e]. Qed.

(** What the routes do not write. *)
Definition same_onboarding (f f' : front) : Prop := h_onboarding (f_house f') = h_onboarding (f_house f).
#[export] Instance same_onboarding_preorder : PreOrder same_onboarding.
Proof. split; [by intros ?|unfold same_onboarding; intros x y z H1 H2; congruence]. Qed.

Section Passwords.
Context {G : SignIn}.

Lemma unclaimed_onboarding h : h_onboarding (onboarding_unclaimed clk h).2 = h_onboarding h.
Proof.
  unfold onboarding_unclaimed. destruct (read_onboarding h); [|done]. destruct (negb _); [done|]. unfold on_users.
  by destruct (get_user clk _ _ _) as [[[a|]|e] w].
Qed.
Lemma front_onboarding q p : stable same_onboarding (onboarding_front q p).
Proof.
  unfold onboarding_front. destruct (negb user_auth); [apply stable_ret; typeclasses eauto|].
  destruct (negb (nonempty _)); [apply stable_ret; typeclasses eauto|]. apply stable_bind; [typeclasses eauto| |].
  { intros f. unfold on_house. pose proof (unclaimed_onboarding (f_house f)) as H. by destruct (onboarding_unclaimed clk (f_house f)). }
  intros [rec|]; [|apply stable_ret; typeclasses eauto]. apply stable_bind; [typeclasses eauto|intros f; untouched|intros now].
  apply stable_bind; [typeclasses eauto|apply stable_gets; typeclasses eauto|intros locked]. apply stable_ret; typeclasses eauto.
Qed.

(** ** One password is written *)

(** The users' file stays, or the password of the account at one key, for which [P]
    holds, was written. *)
Definition writes (rs : accounts) (rv : reservations) (P : string -> GatewayUserRecord -> Prop) (f' : front) : Prop :=
  settled clk (h_reg (f_house f')) rs rv \/
  exists k a b hash, oget k rs = Some a /\ P k a /\ repassworded hash a b /\ store_ok (oset k b rs) rv /\
    settled clk (h_reg (f_house f')) (reload_accounts (oset k b rs)) (reload_reservations rv).
Lemma writes_passwords rs rv P f' : writes rs rv P f' -> exists rs' rv', settled clk (h_reg (f_house f')) rs' rv' /\
  forall k a, oget k rs = Some a -> exists b, oget k rs' = Some b /\ (a_password_hash b = a_password_hash a \/ P k a).
Proof.
  intros [Hs|(k & a & b & hash & Hg & HP & Hrp & [Hok _] & Hs)].
  - exists rs, rv. split; [done|]. intros k a Hg. exists a. by split; [|left].
  - exists (reload_accounts (oset k b rs)), (reload_reservations rv). split; [done|]. intros j c Hj. rewrite oget_reload by done. rewrite oget_oset.
    destruct (decide (j = k)) as [->|Hne].
    + exists (canon b). split; [done|]. right. congruence.
    + rewrite Hj. exists (canon c). split; [done|by left].
Qed.
Lemma writes_later rs rv P f f' : writes rs rv P f -> same_users f f' -> writes rs rv P f'.
Proof.
  intros [Hs|(k & a & b & hash & Hg & HP & Hrp & Hok & Hs)] Hu; [left|right; exists k, a, b, hash; split_and!; try done]; by eapply settled_front.
Qed.

Lemma set_password_raises u t hash name w e w' : set_password clk u t hash name w = (Raise e, w') -> users_file w' = users_file w.
Proof.
  unfold set_password. cbv zeta. intros [(x & E & _)|([rs rv] & w1 & E & E1)]%mbind_cases.
  - pose proof (still_load clk w) as H. by rewrite E in H.
  - pose proof (still_load clk w) as H. rewrite E in H. cbn in H. destruct (oget _ rs) as [a|]; [|by injection E1 as _ <-].
    by destruct (is_entity a); [injection E1 as _ <-|].
Qed.
(** The write itself, from a settled state, whatever comes out. *)
Lemma set_writes u t hash name f r f' rs rv P : settled clk (h_reg (f_house f)) rs rv -> on_registry (set_password clk u t hash name) f = (r, f') ->
  (forall a, oget (asked_key t u) rs = Some a -> is_entity a = false -> P (asked_key t u) a) -> writes rs rv P f'.
Proof.
  intros Hs E HP. unfold on_registry, on_house, on_users in E. destruct (set_password clk u t hash name (h_reg (f_house f))) as [[b|e] w] eqn:Es; injection E as _ <-.
  - right. pose proof Es as Es'. apply (set_password_inv u t hash name _ rs rv b w Hs) in Es' as (a & Hg & He & Hrp & Hs'). exists (asked_key t u), a, b, hash.
    split_and!; try done; [by apply HP|]. pose proof (se_ok _ _ _ _ Hs) as [Hrs Hrv]. destruct (accounts_ok_get rs _ a Hrs Hg) as [Hk Hst].
    split; [|done]. rewrite Hk. assert (account_key a = account_key b) as -> by (unfold account_key; by destruct (rp_key _ _ _ Hrp) as [-> ->]).
    apply accounts_ok_oset; [by apply (rp_storable _ _ _ Hrp)|done].
  - left. apply set_password_raises in Es. eapply settled_file; [exact Hs|exact Es].
Qed.
Lemma writes_then {A} rs rv P (m : M front A) f r f' : writes rs rv P f -> stable same_users m -> m f = (r, f') -> writes rs rv P f'.
Proof. intros Hw Hm E. eapply writes_later; [exact Hw|by eapply stable_run]. Qed.

Lemma after_users q b own : stable same_users (after_password q b own).
Proof.
  unfold after_password. apply stable_bind; [typeclasses eauto|apply end_users|intros _]. destruct (own && by_cookie q).
  - apply stable_bind; [typeclasses eauto|apply issue_users|intros s]. apply stable_ret; typeclasses eauto.
  - apply stable_bind; [typeclasses eauto|apply close_for_users|intros s]. apply stable_ret; typeclasses eauto.
Qed.
Lemma put_password_writes q a pw own f r f' rs rv k : settled clk (h_reg (f_house f)) rs rv -> oget k rs = Some a -> put_password q a pw own f = (r, f') ->
  writes rs rv (fun k' a' => k' = k /\ a' = a) f'.
Proof.
  intros Hs Hg E. unfold put_password in E. pose proof (se_ok _ _ _ _ Hs) as [Hrs _]. destruct (accounts_ok_get rs k a Hrs Hg) as [Hk Hst].
  apply mbind_cases in E as [(x & [= _ <-] & _)|(hash & f0 & [= _ <-] & E)]; [by left|].
  apply mbind_cases in E as [(x & E & _)|(b & f1 & E & E1)].
  - eapply set_writes; [exact Hs|exact E|]. intros a' Hg' _. rewrite asked_account_key, <- Hk in * by done. by rewrite Hg in Hg'; injection Hg' as ->.
  - eapply writes_then; [|apply after_users|exact E1]. eapply set_writes; [exact Hs|exact E|].
    intros a' Hg' _. rewrite asked_account_key, <- Hk in * by done. by rewrite Hg in Hg'; injection Hg' as ->.
Qed.

(** ** Who may *)

(** The routes of this component. *)
Definition is_route (e : event) : bool := match e with Registers _ | Starts _ _ _ _ _ _ _ | ShowsCode _ _ _ _ => false | _ => true end.
(** Who may have the password of the account [a] at [k] changed by an event on [f]:
    whoever has the setup code, for the administrator the gateway waits for; the
    account itself, with its password when it has one; an administrator. *)
Definition authorised (f : front) (e : event) (k : string) (a : GatewayUserRecord) : Prop :=
  match e with
  | Onboards q p =>
      exists rec, read_onboarding (f_house f) = Some rec /\ says_unclaimed rec = true /\ k = asked_key (rec_tenant rec) (rec_user rec) /\
        claimable a = true /\ setup_code_matches (match o_code p with Some c => VStr c | None => VNone end) (f_house f) = true /\
        user_auth = true /\ nonempty (strip (header q "origin")) = true
  | SetsOwn q current _ _ =>
      k = asked_key (or_else (tenant_id (q_principal q)) "default") (user_id (q_principal q)) /\ p_source (q_principal q) = "user-registry" /\
      is_entity a = false /\ (a_password_hash a = "" \/ verify_password scrypt (default "" current) (a_password_hash a) = true)
  | AdminSets q id tenant _ | AdminClears q id tenant =>
      is_admin (q_principal q) = true /\ k = asked_key tenant id /\ is_entity a = false /\ a_archived a = false
  | _ => False
  end.

Lemma front_opens q p f f1 : onboarding_front q p f = (Ok (Answer tt), f1) -> user_auth = true /\ nonempty (strip (header q "origin")) = true.
Proof.
  unfold onboarding_front. destruct user_auth; cbn [negb]; [|done]. destruct (nonempty _); cbn [negb]; [|done]. done.
Qed.
Lemma setup_same h h' raw : h_onboarding h' = h_onboarding h -> setup_code_matches raw h' = setup_code_matches raw h.
Proof. unfold setup_code_matches, read_onboarding. by intros ->. Qed.
Lemma unclaimed_settled h rec h' rs rv : settled clk (h_reg h) rs rv -> onboarding_unclaimed clk h = (Ok (Some rec), h') ->
  exists a, oget (asked_key (rec_tenant rec) (rec_user rec)) rs = Some a /\ claimable a = true.
Proof.
  intros Hs. unfold onboarding_unclaimed. destruct (read_onboarding h) as [r|]; [|done]. destruct (negb _); [done|].
  unfold on_users, get_user, mbind_. rewrite (se_load _ _ _ _ Hs) by done. cbn. destruct (oget _ rs) as [a|] eqn:Hg; [|done].
  destruct (claimable a) eqn:Hc; [|done]. intros [= <- _]. by exists a.
Qed.
(** The claim, whatever comes out. *)
Lemma claim_writes d pw salt ip f r f' rs rv (P : string -> GatewayUserRecord -> Prop) : settled clk (h_reg (f_house f)) rs rv ->
  claim_unlocked d pw salt ip f = (r, f') ->
  (forall rec a, read_onboarding (f_house f) = Some rec -> says_unclaimed rec = true -> oget (asked_key (rec_tenant rec) (rec_user rec)) rs = Some a ->
     claimable a = true -> P (asked_key (rec_tenant rec) (rec_user rec)) a) -> writes rs rv P f'.
Proof.
  intros Hs E HP. unfold claim_unlocked in E.
  assert (stable same_users (on_house (onboarding_unclaimed clk))) as Hst by apply stable_on_house_users, unclaimed_users.
  apply mbind_cases in E as [(x & E & _)|(rec & f1 & E & E1)]; [left; eapply settled_front; [exact Hs|by eapply stable_run]|].
  assert (settled clk (h_reg (f_house f1)) rs rv) as Hs1 by (eapply settled_front; [exact Hs|by eapply stable_run]).
  destruct rec as [rec|]; [|injection E1 as _ <-; by left]. unfold on_house in E. destruct (onboarding_unclaimed clk (f_house f)) as [r0 h1] eqn:Eu.
  injection E as -> Hf1. destruct (unclaimed_settled _ _ _ _ _ Hs Eu) as (a & Hg & Hc). destruct (unclaimed_inv _ _ _ Eu) as (Hr & Hu & _).
  apply mbind_cases in E1 as [(x & [= _ <-] & _)|(hash & f2 & [= _ <-] & E1)]; [by left|].
  apply mbind_cases in E1 as [(x & E1 & _)|(b & f3 & E1 & E2)].
  - eapply set_writes; [exact Hs1|exact E1|]. intros a' Hg' _. rewrite Hg in Hg'. injection Hg' as <-. by apply HP.
  - eapply (writes_then _ _ _ (on_house (close_onboarding clk "onboarding" ip (a_user_id b) (a_tenant_id b)) ;;; ret (Some b)) f3); [| |exact E2].
    + eapply set_writes; [exact Hs1|exact E1|]. intros a' Hg' _. rewrite Hg in Hg'. injection Hg' as <-. by apply HP.
    + apply stable_bind; [typeclasses eauto|apply stable_on_house_users, close_users|intros c]. apply stable_ret; typeclasses eauto.
Qed.
Lemma then_cases {S A B} (m : M S (reply A)) (k : A -> M S (reply B)) s r s' : then_ m k s = (r, s') ->
  (exists r0, m s = (r0, s')) \/ exists a s1, m s = (Ok (Answer a), s1) /\ k a s1 = (r, s').
Proof.
  intros [(e & E & _)|([a|st d] & s1 & E1 & E2)]%mbind_cases; [left; by eexists|right; by exists a, s1|].
  injection E2 as _ <-. left. by eexists.
Qed.
Lemma onboards_writes q p f r f' rs rv : settled clk (h_reg (f_house f)) rs rv -> session_onboarding_claim q p f = (r, f') ->
  writes rs rv (authorised f (Onboards q p)) f'.
Proof.
  intros Hs [(r0 & E)|([] & f1 & E & E1)]%then_cases; [left; eapply settled_front; [exact Hs|]; eapply stable_run; [apply front_users|exact E]|].
  assert (settled clk (h_reg (f_house f1)) rs rv) as Hs1 by (eapply settled_front; [exact Hs|]; eapply stable_run; [apply front_users|exact E]).
  assert (h_onboarding (f_house f1) = h_onboarding (f_house f)) as Ho by (pose proof (front_onboarding q p f) as H; by rewrite E in H).
  pose proof (front_opens _ _ _ _ E) as [Hua Hor]. apply mbind_cases in E1 as [(x & [= ?] & _)|(right & f2 & [= Hright <-] & E1)].
  destruct right; cbn [negb] in E1.
  - apply mbind_cases in E1 as [(x & E1 & _)|(a & f3 & E1 & E2)].
    + eapply claim_writes; [exact Hs1|exact E1|]. intros rec a Hr Hu Hg Hc. exists rec. unfold read_onboarding in *. rewrite Ho in Hr.
      rewrite (setup_same (f_house f)) in Hright by done. by split_and!.
    + eapply (writes_then _ _ _ (match a with Some a => _ | None => _ end) f3); [| |exact E2].
      * eapply claim_writes; [exact Hs1|exact E1|]. intros rec b Hr Hu Hg Hc. exists rec. unfold read_onboarding in *. rewrite Ho in Hr.
        rewrite (setup_same (f_house f)) in Hright by done. by split_and!.
      * destruct a as [a|]; [|apply stable_ret; typeclasses eauto]. apply stable_bind; [typeclasses eauto|apply now_users_|intros now].
        apply stable_bind; [typeclasses eauto|apply stable_onboard_users|intros []]. apply stable_bind; [typeclasses eauto|apply issue_users|intros s].
        apply stable_bind; [typeclasses eauto|apply stable_gets; typeclasses eauto|intros st]. apply stable_ret; typeclasses eauto.
  - left. eapply settled_front; [exact Hs1|]. eapply stable_run; [|exact E1]. apply stable_bind; [typeclasses eauto| |intros u; apply stable_ret; typeclasses eauto].
    unfold wrong_setup_code. apply stable_bind; [typeclasses eauto|apply now_users_|intros now; apply stable_onboard_users].
Qed.
Lemma own_writes q c n k f r f' rs rv : settled clk (h_reg (f_house f)) rs rv -> me_set_password q c n k f = (r, f') ->
  writes rs rv (authorised f (SetsOwn q c n k)) f'.
Proof.
  intros Hs E. unfold me_set_password in E. apply mbind_cases in E as [(x & E & _)|(found & f2 & E2 & E)].
  { rewrite (get_settled f rs rv _ _ Hs) in E. done. }
  rewrite (get_settled f rs rv _ _ Hs) in E2. injection E2 as <- <-. cbv zeta in E.
  destruct (oget _ rs) as [a|] eqn:Hg; [|injection E as _ <-; by left].
  destruct (is_entity a) eqn:He; cbn [orb] in E; [injection E as _ <-; by left|].
  destruct (String.eqb_spec (p_source (q_principal q)) "user-registry") as [Hsrc|]; cbn [negb] in E; [|injection E as _ <-; by left].
  match type of E with (if ?b then _ else _) _ = _ => destruct b; [injection E as _ <-; by left|] end.
  destruct (password_problem _ _); [injection E as _ <-; by left|].
  set (m := if nonempty (a_password_hash a) then _ else _) in E. assert (stable same_users m) as Hm.
  { subst m. destruct (nonempty (a_password_hash a)); [destruct (negb _); [apply stable_ret; typeclasses eauto|apply check_users]|apply stable_ret; typeclasses eauto]. }
  apply then_cases in E as [(r0 & E)|([] & f3 & E3 & E)]; [left; eapply settled_front; [exact Hs|by eapply stable_run]|].
  assert (settled clk (h_reg (f_house f3)) rs rv) as Hs3 by (eapply settled_front; [exact Hs|by eapply stable_run]).
  destruct (put_password_writes q a n true f3 r f' rs rv _ Hs3 Hg E) as [Hw|(k' & a' & b & hash & Hg' & [-> ->] & Hrest)]; [by left|].
  right. eexists _, a, b, hash. split; [exact Hg|]. split; [|exact Hrest]. split_and!; [done|done|done|].
  subst m. unfold nonempty in E3. destruct (String.eqb_spec (a_password_hash a) "") as [->|Hne]; [by left|right]. cbn [negb] in E3.
  destruct (negb (String.eqb (default "" c) "")) eqn:Hc; cbn [negb] in E3; [|done].
  unfold check_password in E3. apply mbind_inv in E3 as ([l|] & f4 & E4 & E3); [done|]. unfold password_count in E3.
  apply mbind_inv in E3 as (now & f5 & E5 & E3). assert (nonempty (a_password_hash a) = true) as Hn by (by apply nonempty_true). rewrite Hn in E3.
  destruct (verify_password scrypt (default "" c) (a_password_hash a)) eqn:Hv; [done|]. cbn [negb] in E3. by apply mbind_inv in E3 as (? & ? & _ & ?).
Qed.
Lemma admin_writes q id t f f' rs rv (k : GatewayUserRecord -> M front (reply password_set)) r : settled clk (h_reg (f_house f)) rs rv ->
  then_ (admin_target q id t) k f = (r, f') ->
  (forall a, oget (asked_key t id) rs = Some a -> forall r f', k a f = (r, f') -> writes rs rv (fun k' a' => k' = asked_key t id /\ a' = a) f') ->
  writes rs rv (fun k a => is_admin (q_principal q) = true /\ k = asked_key t id /\ is_entity a = false /\ a_archived a = false) f'.
Proof.
  intros Hs [(r0 & E)|(a & f1 & E & E1)]%then_cases Hk.
  { left. eapply settled_front; [exact Hs|]. eapply stable_run; [apply target_users|exact E]. }
  destruct (target_inv _ _ _ _ _ _ _ _ Hs E) as (-> & Had & Hg & He & Har). destruct (Hk a Hg r f' E1) as [Hw|(k' & a' & b & hash & Hg' & [-> ->] & Hrest)]; [by left|].
  right. eexists _, a, b, hash. by split; [exact Hg|].
Qed.

Lemma writes_mono rs rv P Q f' : (forall k a, P k a -> Q k a) -> writes rs rv P f' -> writes rs rv Q f'.
Proof. intros HPQ [Hs|(k & a & b & hash & Hg & HP & Hrest)]; [by left|right]. exists k, a, b, hash. split; [done|]. by split; [apply HPQ|]. Qed.
Lemma mint_users t u ttl by_ r pid : stable same_users_h (mint_claim clk sha256_hex t u ttl by_ r pid).
Proof.
  unfold mint_claim. apply stable_bind; [typeclasses eauto| |intros _].
  { intros h. unfold prune_claims. by destruct (h_claims h). }
  apply stable_bind; [typeclasses eauto|apply now_users|intros now]. apply stable_bind; [typeclasses eauto| |intros []; apply stable_ret; typeclasses eauto].
  intros h. unfold write_claim. by destruct (oget _ _).
Qed.
Lemma mark_users by_ outcome : stable same_users_h (mark_first_run_complete clk by_ outcome).
Proof. by intros h. Qed.
(** What an event answers is read off its route. *)
Lemma after_map {A} (m : M front A) (g : A -> option (list string)) f : exec (a <- m ;; ret (g a)) f = (m f).2.
Proof. unfold exec, mbind_. by destruct (m f) as [[a|e] s]. Qed.
Lemma stable_event {A} (m : M front A) (g : A -> option (list string)) f rs rv P : settled clk (h_reg (f_house f)) rs rv -> stable same_users m ->
  writes rs rv P (exec (a <- m ;; ret (g a)) f).
Proof. intros Hs Hm. rewrite after_map. left. by eapply settled_front, Hm. Qed.

Lemma route_writes e f rs rv : settled clk (h_reg (f_house f)) rs rv -> is_route e = true -> writes rs rv (authorised f e) (after_event f e).
Proof.
  intros Hs He. unfold after_event. destruct e; try done; cbn [run_event]; unfold answered.
  - rewrite after_map. destruct (session_onboarding_claim q p f) as [r f'] eqn:E. by eapply onboards_writes.
  - apply stable_event; [done|apply login_users].
  - apply stable_event; [done|apply claim_users].
  - rewrite after_map. destruct (me_set_password q current new confirm f) as [r f'] eqn:E. by eapply own_writes.
  - rewrite after_map. destruct (admin_set_password q id tenant password f) as [r f'] eqn:E. eapply admin_writes; [done|exact E|].
    intros a Hg r1 f1 E1. cbn beta in E1. destruct (password_problem _ _); [injection E1 as _ <-; by left|].
    by eapply (put_password_writes q a password (same (q_principal q) (a_user_id a) (a_tenant_id a)) f).
  - rewrite after_map. unfold admin_clear_password.
    destruct (then_ (admin_target q id tenant) _ f) as [r f'] eqn:E. apply then_cases in E as [(r0 & E)|(a & f1 & E & E1)].
    { left. eapply settled_front; [done|]. eapply stable_run; [apply target_users|exact E]. }
    destruct (target_inv _ _ _ _ _ _ _ _ Hs E) as (-> & Had & Hg & Hen & Har). pose proof (se_ok _ _ _ _ Hs) as [Hrs _].
    destruct (accounts_ok_get rs _ a Hrs Hg) as [Hk Hst].
    assert (forall a', oget (asked_key (a_tenant_id a) (a_user_id a)) rs = Some a' -> is_entity a' = false ->
      authorised f (AdminClears q id tenant) (asked_key (a_tenant_id a) (a_user_id a)) a') as HP.
    { intros a' Hg' _. rewrite asked_account_key, <- Hk in * by done. rewrite Hg in Hg'. injection Hg' as <-. by split_and!. }
    apply mbind_cases in E1 as [(x & E1 & _)|(b & f1 & E1 & E2)]; [by eapply set_writes|].
    eapply (writes_then _ _ _ (end_sessions b ;;; ret (Answer b)) f1); [by eapply set_writes| |exact E2].
    apply stable_bind; [typeclasses eauto|apply end_users|intros _; apply stable_ret; typeclasses eauto].
  - apply stable_event; [done|apply stable_on_house_users, mint_users].
  - apply stable_event; [done|apply stable_on_house_users, mark_users].
Qed.

End Passwords.

(** ** Passwords: what a password that was set opens

    From the answer of a route that set a password to the sign-in with it. *)

Section Opens.
Context {G : SignIn}.

(** The routes that set a password: the account they answer, and the password. *)
Inductive sets_to (f : front) : GatewayUserRecord -> string -> front -> Prop :=
  | Set_by_form q p c f' : session_onboarding_claim q p f = (Ok (Answer c), f') -> sets_to f (cl_account c) (o_password p) f'
  | Set_by_owner q current new confirm r f' : me_set_password q current new confirm f = (Ok (Answer r), f') -> sets_to f r.1 new f'
  | Set_by_admin q id tenant pw r f' : admin_set_password q id tenant pw f = (Ok (Answer r), f') -> sets_to f r.1 pw f'.

(** The password is in the file, under the account. *)
Inductive kept (b : GatewayUserRecord) (pw : string) (f : front) : Prop :=
  Kept salt rs rv (Hhash : hash_password scrypt pw salt = Ok (a_password_hash b)) (Hst : storable b) (Hperson : is_entity b = false)
    (Hs : settled clk (h_reg (f_house f)) rs rv) (Hfile : oget (account_key b) rs = Some (canon b)).
Lemma kept_later b pw f f' : kept b pw f -> same_users f f' -> kept b pw f'.
Proof. intros [salt rs rv Hh Hst He Hs Hg] Hu. by apply (Kept _ _ _ salt rs rv); [..|eapply settled_front|]. Qed.
Lemma repassworded_person hash a b : repassworded hash a b -> is_entity a = false -> is_entity b = false.
Proof. intros [_ _ (Hr & _ & _) _]. unfold is_entity. by rewrite Hr. Qed.
Lemma kept_written hash a b pw salt k rs rv f : hash_password scrypt pw salt = Ok hash -> repassworded hash a b -> is_entity a = false -> storable b ->
  k = account_key b -> store_ok (oset k b rs) rv -> settled clk (h_reg (f_house f)) (reload_accounts (oset k b rs)) (reload_reservations rv) -> kept b pw f.
Proof.
  intros Hh Hrp He Hst -> [Hok _] Hs. eapply (Kept _ _ _ salt); [by rewrite (rp_hash _ _ _ Hrp)|done|by eapply repassworded_person|exact Hs|].
  by rewrite oget_reload, oget_oset_eq.
Qed.
(** What follows the write answers the account written, and leaves the file. *)
Lemma after_answers q b own f r f' : after_password q b own f = (Ok (Answer r), f') -> r.1 = b /\ same_users f f'.
Proof.
  intros E. split; [|eapply stable_run; [apply after_users|exact E]]. unfold after_password in E. apply mbind_inv in E as (u & f1 & _ & E).
  destruct (own && by_cookie q); by apply mbind_inv in E as (s & f2 & _ & [= <- _]).
Qed.
Lemma put_password_kept q a pw own f r f' rs rv k : settled clk (h_reg (f_house f)) rs rv -> oget k rs = Some a -> is_entity a = false ->
  put_password q a pw own f = (Ok (Answer r), f') -> kept r.1 pw f'.
Proof.
  intros Hs Hg He E. destruct (put_password_inv _ _ _ _ _ _ _ _ _ _ Hs Hg E) as (hash & b & f1 & Hh & Hrp & E1 & Hs1 & Hst & Hk & Hok & _).
  destruct (after_answers _ _ _ _ _ _ E1) as [-> Hu]. eapply kept_later; [|exact Hu]. by eapply kept_written.
Qed.
Lemma claim_kept d pw salt ip f a f' rs rv : settled clk (h_reg (f_house f)) rs rv -> claim_unlocked d pw salt ip f = (Ok (Some a), f') -> kept a pw f'.
Proof.
  intros Hs E. unfold claim_unlocked in E. apply mbind_inv in E as ([rec|] & f1 & E1 & E); [|done].
  assert (settled clk (h_reg (f_house f1)) rs rv) as Hs1.
  { eapply settled_front; [exact Hs|]. eapply stable_run; [|exact E1]. apply stable_on_house_users, unclaimed_users. }
  apply mbind_inv in E as (hash & f2 & [= Eh <-] & E). apply mbind_inv in E as (b & f3 & E3 & E). apply mbind_inv in E as (c & f4 & E4 & [= <- <-]).
  apply registry_run in E3 as (w & E3 & Hw & _ & _). destruct (set_password_inv _ _ _ _ _ _ _ _ _ Hs1 E3) as (a' & Hg & He & Hrp & Hs3).
  rewrite <- Hw in Hs3. pose proof (se_ok _ _ _ _ Hs) as [Hrs Hrv]. destruct (accounts_ok_get rs _ a' Hrs Hg) as [Hk Hst].
  pose proof (rp_storable _ _ _ Hrp Hst) as Hstb.
  assert (account_key a' = account_key b) as Hkb by (unfold account_key; by destruct (rp_key _ _ _ Hrp) as [-> ->]).
  eapply kept_later; [|eapply stable_run; [|exact E4]; apply stable_on_house_users, close_users].
  eapply (kept_written _ _ _ _ _ _ _ _ _ Eh Hrp He Hstb); [|split|exact Hs3]; [by rewrite Hk| |exact Hrv].
  rewrite Hk, Hkb. by apply accounts_ok_oset.
Qed.
Lemma take_rest_users q a p : stable same_users (now <- now_ ;; on_onboard (modify (success ONBOARDING_LIMITER address_key account_digest now (client_address q) "")) ;;;
    s <- issue_session q (account_principal a "") (o_remember p) "onboarding" ;; st <- gets (fun f => first_run_state (f_house f)) ;; ret (Answer (mk_claimed a s st))).
Proof.
  apply stable_bind; [typeclasses eauto|apply now_users_|intros now]. apply stable_bind; [typeclasses eauto|apply stable_onboard_users|intros []].
  apply stable_bind; [typeclasses eauto|apply issue_users|intros s]. apply stable_bind; [typeclasses eauto|apply stable_gets; typeclasses eauto|intros st].
  apply stable_ret; typeclasses eauto.
Qed.
Lemma onboards_kept q p f c f' rs rv : settled clk (h_reg (f_house f)) rs rv -> session_onboarding_claim q p f = (Ok (Answer c), f') -> kept (cl_account c) (o_password p) f'.
Proof.
  intros Hs ([] & f1 & E & E1)%then_inv. assert (settled clk (h_reg (f_house f1)) rs rv) as Hs1 by (eapply settled_front; [exact Hs|]; eapply stable_run; [apply front_users|exact E]).
  apply mbind_inv in E1 as (right & f2 & [= _ <-] & E1). destruct right; cbn [negb] in E1; [|by apply mbind_inv in E1 as (? & ? & _ & ?)].
  apply mbind_inv in E1 as ([a|] & f3 & E3 & E1); [|done]. apply (claim_kept _ _ _ _ _ _ _ rs rv Hs1) in E3.
  pose proof (take_rest_users q a p f3) as Hu. cbv beta in Hu. rewrite E1 in Hu. eapply kept_later; [|exact Hu].
  apply mbind_inv in E1 as (now & f4 & _ & E1). apply mbind_inv in E1 as (u & f5 & _ & E1). apply mbind_inv in E1 as (s & f6 & _ & E1).
  by apply mbind_inv in E1 as (st & f7 & _ & [= <- _]).
Qed.
Lemma sets_kept f b pw f' rs rv : settled clk (h_reg (f_house f)) rs rv -> sets_to f b pw f' -> kept b pw f'.
Proof.
  intros Hs [q p c f1 E|q c n k r f1 E|q id t pw' r f1 E]; [by eapply onboards_kept| |].
  - unfold me_set_password in E. apply mbind_inv in E as (found & f2 & E2 & E). rewrite (get_settled f rs rv _ _ Hs) in E2. injection E2 as <- <-. cbv zeta in E.
    destruct (oget _ rs) as [a|] eqn:Hg; [|done]. destruct (is_entity a) eqn:He; cbn [orb] in E; [done|]. destruct (negb _); [done|].
    match type of E with (if ?b then _ else _) _ = _ => destruct b; [done|] end. destruct (password_problem _ _); [done|].
    apply then_inv in E as ([] & f3 & E3 & E). assert (settled clk (h_reg (f_house f3)) rs rv) as Hs3.
    { eapply settled_front; [done|]. eapply stable_run; [|exact E3].
      destruct (nonempty (a_password_hash a)); [destruct (negb _); [apply stable_ret; typeclasses eauto|apply check_users]|apply stable_ret; typeclasses eauto]. }
    by eapply (put_password_kept q a n true f3).
  - unfold admin_set_password in E. apply then_inv in E as (a & f2 & E2 & E). destruct (target_inv _ _ _ _ _ _ _ _ Hs E2) as (-> & _ & Hg & He & _).
    destruct (password_problem _ _); [done|]. by eapply (put_password_kept q a pw' (same (q_principal q) (a_user_id a) (a_tenant_id a)) f).
Qed.

(** ** The sign-in *)

Lemma good_stripped s : good_fallback s = true -> strip s = s.
Proof.
  intros [[_ Hs]%andb_true_iff _]%andb_true_iff. apply strip_no_space. revert Hs. apply forall_chars_weaken. intros c Hc. by rewrite safe_not_space.
Qed.
(** A person is found by the id and the tenant of the account. *)
Lemma find_by_id b f rs rv : settled clk (h_reg (f_house f)) rs rv -> storable b -> is_entity b = false -> oget (account_key b) rs = Some (canon b) ->
  on_registry (find_sign_in_account clk (a_user_id b) (a_tenant_id b)) f = (Ok (Some (canon b)), f).
Proof.
  intros Hs Hst He Hg. destruct (find_settled f rs rv (a_user_id b) (a_tenant_id b) Hs) as (r & Hr & _). rewrite Hr. do 2 f_equal.
  revert Hr. unfold on_registry, on_house, on_users, find_sign_in_account. cbv zeta. pose proof Hst as [Hu Ht _ _ _ _].
  rewrite good_stripped by done. pose proof (good_nonempty _ Hu) as Hne.
  destruct (String.eqb_spec (a_user_id b) "") as [Hz|_]; [done|]. unfold mbind_. rewrite (se_load _ _ _ _ Hs) by done. rewrite safe_name_id, safe_tenant_id by done.
  destruct (String.eqb_spec (a_user_id b) "") as [Hz|_]; [done|]. unfold account_key in Hg. rewrite Hg, canon_entity, He. by intros [= <-].
Qed.
Lemma opens_canon b : password_opens (canon b) = password_opens b.
Proof. reflexivity. Qed.
Lemma now_reads f : exists now f1, now_ f = (Ok now, f1) /\ same_users f f1 /\ f_password f1 = f_password f.
Proof. destruct f as [[[u n] c o r s t] o' p w]. eexists _, _. split_and!; [reflexivity|reflexivity|reflexivity]. Qed.
(** The comparison, when no limit stands. *)
Lemma check_answers q key pw hash f : (password_check q key f).1 = Ok None ->
  (check_password q key pw hash f).1 = Ok (Answer tt) <-> nonempty hash = true /\ verify_password scrypt pw hash = true.
Proof.
  intros Hc. unfold check_password, mbind_. destruct (password_check q key f) as [r f1]. cbn [fst] in Hc. subst r.
  unfold password_count, mbind_. destruct (now_reads f1) as (now & f2 & -> & _ & _).
  destruct (nonempty hash) eqn:Hn, (verify_password scrypt pw hash) eqn:Hv; cbn [negb].
  1: by split.
  all: unfold on_password; destruct (failure _ _ _ _ _ _ _) as [[[]|e] c]; split; first [intros [=]|intros [Ha Hb]; (discriminate Ha || discriminate Hb)].
Qed.

(** C19: A password that a route answered as set for an account that is enabled and
    not archived signs it in: whatever happened since, as long as the accounts' file
    was not written again, a text sent with the account's name and tenant, while no
    limit of failed attempts stands, opens the gateway as that account, with its
    present roles, exactly when the text digests like the password with the salt of
    that setting; so the password itself does. *)
Theorem set_password_signs_in (f : front) (b : GatewayUserRecord) (pw : string) (f' : front) (rs : accounts) (rv : reservations) :
  key_length scrypt -> settled clk (h_reg (f_house f)) rs rv -> sets_to f b pw f' -> a_enabled b = true -> a_archived b = false ->
  exists salt, forall f2 q text p,
    same_users f' f2 -> (password_check q (limiter_key (a_tenant_id b) (a_user_id b) (Some b)) f2).1 = Ok None ->
    (password_sign_in_principal q (a_user_id b) text (a_tenant_id b) f2).1 = Ok (Answer p) <->
    p = account_principal (canon b) "" /\
      scrypt text salt SCRYPT_N SCRYPT_R SCRYPT_P DKLEN = scrypt pw salt SCRYPT_N SCRYPT_R SCRYPT_P DKLEN.
Proof.
  intros Hlen Hs Hset Hen Har. apply (sets_kept f b pw f' rs rv Hs) in Hset. destruct Hset as [salt rs' rv' Hh Hst Hp Hs' Hg]. exists salt.
  intros f2 q text p Hu Hc. apply (settled_front _ _ _ _ Hs') in Hu as Hs2. destruct (password_hash_verifies scrypt pw salt _ Hlen Hh) as [_ Hv].
  assert (nonempty (a_password_hash b) = true) as Hne.
  { unfold hash_password in Hh. destruct (scrypt pw salt _ _ _ _); [|done]. by injection Hh as <-. }
  unfold password_sign_in_principal. unfold mbind_. rewrite (find_by_id b f2 rs' rv' Hs2 Hst Hp Hg).
  assert (limiter_key (a_tenant_id b) (a_user_id b) (Some (canon b)) = limiter_key (a_tenant_id b) (a_user_id b) (Some b)) as -> by done.
  assert (usable_hash (Some (canon b)) = a_password_hash b) as ->.
  { unfold usable_hash. rewrite opens_canon. unfold password_opens. by rewrite Hen, Har, Hne. }
  pose proof (check_answers q _ text (a_password_hash b) f2 Hc) as Hca. rewrite Hne, Hv in Hca.
  unfold then_, mbind_. destruct (check_password q _ text (a_password_hash b) f2) as [[[[]|st d]|e] f3]; cbn [fst] in *.
  - split; [intros [= <-]; split; [done|by apply Hca]|by intros [-> _]].
  - split; [done|]. intros [_ H]. destruct Hca as [_ Hca]. discriminate Hca. by split.
  - split; [done|]. intros [_ H]. destruct Hca as [_ Hca]. discriminate Hca. by split.
Qed.
End Opens.
