(* ===== verification/FirstRunRuns.v ===== *)
(** * First run and passwords: concrete runs

    A fresh gateway on a laptop with the toy digests of the other concrete runs: the
    inputs at which the theorems are applied, and the runs in which the code does
    something else than it means to. *)

From S2P Require Import Prelude PyStr PyVal PyNum PyText OrdDict IsoTime Principal Authorization EntityAccess SignInLimiter Lockout Sessions SessionFacts PyNet Middleware UserRegistry UserRegistryFile UserRegistryOps UserRegistryFacts UserRegistryRuns Passwords AdminAccounts AdminRoutes FirstRun SessionPasswords FirstRunFacts WindowFacts PasswordFacts.

#[export] Instance laptop : SignIn := {
  clk := sample_clk;
  mono_clk := fun n => Z.of_nat n * second;
  sha256_hex := sample_sha;
  pbkdf2 := sample_pbkdf2;
  scrypt := toy_scrypt;
  ip_loopback := fun h => oget h [("127.0.0.1", true); ("::1", true); ("::ffff:127.0.0.1", false); ("10.0.0.9", false); ("203.0.113.5", false)];
  address_key := fun a => a;
  account_digest := fun a => a;
  is_loopback_key := fun a => String.eqb a "127.0.0.1";
  session_sign := sample_sign;
  session_digest := sample_digest;
  max_sessions := 10;
  process := 0;
  session_ttl_s := 3600;
  remember_ttl_s := 86400;
  user_auth := true;
  trust_proxy := false;
  cookie_value := fun _ => Ok None;
}.

Definition no_house : house := mk_house (mk_registry None 0) None None None None None.
Definition fresh : front := mk_front no_house no_counters no_counters no_world.
Definition users_env : environ := fun k => if String.eqb k USER_AUTH then Some "1" else None.
Definition picks (i : nat) : nat := i.
Definition start (n : string) : event := Starts users_env "127.0.0.1" ("adminrandom" +:+ n) "salt" ("linkrandomlinkrandom" +:+ n) picks 77.
Definition someone (name : string) (rs : list string) : GatewayPrincipal := mk_principal name "default" rs [] "" name "user-registry".
Definition from (ip : string) (p : GatewayPrincipal) : http := mk_http ip [("origin", "http://127.0.0.1:8080")] p "sid1" "csrf1" "salt".
Definition nobody : GatewayPrincipal := someone "" [].
Definition good_words : string := "four words are good".
Definition form (code : string) : onboarding_request := mk_onboarding (Some "Ann") good_words good_words (Some code) false.
Definition six_words : string := "Acorn, actor adobe_agent  album-ALLEY".
Definition before : front := run_events [start "a"] fresh.
Definition opening : event := Onboards (from "127.0.0.1" nobody) (form six_words).

(** Events end as their answer and their state say. *)
Lemma ends {A} (m : M front A) f r : (m f).1 = r -> m f = (r, exec m f).
Proof. unfold exec. destruct (m f). by intros <-. Qed.

(** The gateway waits for its administrator, whom it has just made; Bob is there too. *)
Definition boot : op := Create "admin" "default" (Some ["admin"; "user"]) None true (Some "default") VNone (Some "token-admin") "" "salt".
Definition bob_joins : op := Create "bob" "default" (Some ["admin"]) None true None VNone (Some "token-bob") "" "salt".
Definition with_staff (os : list op) (f : front) : front := mk_front (put_reg (run os) (f_house f)) (f_onboard f) (f_password f) (f_sessions f).
Abbreviation waiting := (with_staff [boot; bob_joins] before).
Definition staff_of (os : list op) : accounts := (loaded (run os)).1.
Lemma staffed os f : settled clk (h_reg (f_house (with_staff os f))) (staff_of os) (loaded (run os)).2.
Proof. apply loaded_settled. Qed.

(** ** The theorems on concrete inputs *)

(** Two browsers send the right code: one claims the gateway, and then no code is right. *)
Definition rush : list event := [start "a"; opening; opening; start "b"].
Lemma window_is_taken_once_witness : claims_in rush fresh = 1%nat /\ shut (run_events rush fresh) /\
  forall es' text, setup_code_matches (VStr text) (f_house (run_events es' (run_events rush fresh))) = false.
Proof.
  assert (claims_in rush fresh = 1%nat) as H by (by vm_compute). split; [exact H|].
  destruct (window_is_taken_once rush fresh) as [_ Hw]. destruct (Hw (or_introl H)) as (H1 & _ & H2). split; [exact H1|exact H2].
Defined.

(** Bob signs in with his token while the gateway still waits: it waits no more. *)
Definition bob_signs_in : event := SignsIn (from "10.0.0.9" nobody) "" (Some "token-bob") None "" false.
Definition open_now (f : front) : bool := match read_onboarding (f_house f) with Some rec => says_unclaimed rec | None => false end.
Lemma bob_signed_in : (run_event bob_signs_in waiting).1 = Ok (Some ["admin"]).
Proof. by vm_compute. Qed.
Lemma administrators_shut_the_window_witness : open_now waiting = true /\ closed (f_house (exec (run_event bob_signs_in) waiting)).
Proof.
  split; [by vm_compute|].
  exact (administrators_shut_the_window bob_signs_in waiting _ _ _ ["admin"] (staffed _ _) (ends _ _ _ bob_signed_in) (list_elem_of_here _ _)).
Defined.

(** Bob sets the administrator's password; nobody else's changes. *)
Definition bob_resets : event := AdminSets (from "10.0.0.9" (someone "bob" ["admin"])) "admin" "default" good_words.

(** The password of the form signs the administrator in; another does not. *)
Abbreviation claimed_by_form := (after_event waiting opening).
Definition answered_account (q : http) (p : onboarding_request) (f : front) : option GatewayUserRecord :=
  match (session_onboarding_claim q p f).1 with Ok (Answer c) => Some (cl_account c) | _ => None end.
Lemma form_answered q p f x y u t : (fun a => (a_enabled a, a_archived a, a_user_id a, a_tenant_id a)) <$> answered_account q p f = Some (x, y, u, t) ->
  exists c, session_onboarding_claim q p f = (Ok (Answer c), after_event f (Onboards q p)) /\
    a_enabled (cl_account c) = x /\ a_archived (cl_account c) = y /\ a_user_id (cl_account c) = u /\ a_tenant_id (cl_account c) = t.
Proof.
  assert (after_event f (Onboards q p) = (session_onboarding_claim q p f).2) as -> by exact (after_map _ _ f).
  unfold answered_account. destruct (session_onboarding_claim q p f) as [[[c|st d]|e] f']; try done. intros [= <- <- <- <-]. by exists c.
Qed.
Lemma form_answers : exists c, session_onboarding_claim (from "127.0.0.1" nobody) (form six_words) waiting = (Ok (Answer c), claimed_by_form) /\
  a_enabled (cl_account c) = true /\ a_archived (cl_account c) = false /\ a_user_id (cl_account c) = "admin" /\ a_tenant_id (cl_account c) = "default".
Proof. apply form_answered. by vm_compute. Qed.
Lemma door_open : (password_check (from "10.0.0.9" nobody) "default:admin" claimed_by_form).1 = Ok None.
Proof. by vm_compute. Qed.
Lemma set_password_signs_in_witness : exists p,
  (password_sign_in_principal (from "10.0.0.9" nobody) "admin" good_words "default" claimed_by_form).1 = Ok (Answer p) /\ user_id p = "admin".
Proof.
  destruct form_answers as (c & E & Hen & Har & Hu & Ht).
  destruct (set_password_signs_in (G:=laptop) waiting (cl_account c) good_words claimed_by_form _ _ toy_key_length (staffed _ _) (Set_by_form _ _ _ _ _ E) Hen Har) as [salt H].
  rewrite Hu, Ht in H. exists (account_principal (canon (cl_account c)) ""). split; [|exact Hu].
  apply (H claimed_by_form (from "10.0.0.9" nobody) good_words); [reflexivity| |by split].
  unfold limiter_key. rewrite Hu. exact door_open.
Defined.

(** The code as someone types it. *)
Definition stored : dict := default [] (read_onboarding (f_house before)).
Lemma stored_code : read_onboarding (f_house before) = Some stored /\ get_ "setup_code" stored = VStr (generate_setup_code picks).
Proof. by vm_compute. Qed.
Lemma picks_in_list : in_list picks.
Proof. intros i Hi. unfold picks, SETUP_CODE_WORDS in *. vm_compute. lia. Qed.
Lemma setup_code_is_its_words_witness : setup_code_matches (VStr six_words) (f_house before) = true /\
  setup_code_matches (VStr "acorn actor adobe album agent alley") (f_house before) <> true.
Proof.
  destruct stored_code as [Hr Hc]. destruct (setup_code_is_its_words (f_house before) stored picks Hr picks_in_list Hc) as (H & _ & _).
  split; [apply H; by vm_compute|]. rewrite H. by vm_compute.
Defined.

(** Two browsers follow one link at the same moment: both read the file, one removes it. *)
Definition slow_clk (n : nat) : Z := 1735689600000000 + Z.of_nat (Nat.min n 1000) * second.
Lemma slow_calendar n k : 0 <= k <= 3600 -> in_calendar (slow_clk n + k * second).
Proof.
  pose proof (Nat.le_min_r n 1000) as Hm. assert (first_day * day <= 0) as H1 by (by vm_compute).
  assert (1735689600000000 + 4600 * second < (last_day + 1) * day) as H2 by (by vm_compute).
  unfold slow_clk, in_calendar. unfold second in *. lia.
Qed.
Definition link_code : string := CLAIM_PREFIX +:+ "linkrandomlinkrandom".
Definition does_mint (l : lobby) : lobby :=
  match mint_claim slow_clk sample_sha "default" "admin" 600 "serve" "linkrandomlinkrandom" 77 (l_house l) with
  | (Ok m, h) => mk_lobby h (l_people l) (l_mints l ++ [mk_mint "default" "admin" 600 "serve" "linkrandomlinkrandom" 77 (last_read slow_clk h)])
  | _ => l
  end.
Definition does_ask (l : lobby) : lobby := mk_lobby (l_house l) (l_people l ++ [Asked link_code]) (l_mints l).
Definition does_read (i : nat) (l : lobby) : lobby :=
  match l_people l !! i with
  | Some (Asked code) =>
      match redeem_read sample_sha code (l_house l) with
      | (Ok r, h) => put_person i (match r with inl e => Lost code e | inr text => Holding code text end) h l
      | _ => l
      end
  | _ => l
  end.
Definition does_unlink (i : nat) (l : lobby) : lobby :=
  match l_people l !! i with
  | Some (Holding code text) =>
      match redeem_unlink sample_sha code (l_house l) with
      | (Ok r, h) => put_person i (match r with inl e => Lost code e | inr _ => Removed code text end) h l
      | _ => l
      end
  | _ => l
  end.
Definition does_check (i : nat) (l : lobby) : lobby :=
  match l_people l !! i with
  | Some (Removed code text) =>
      match redeem_check slow_clk sample_sha code text (l_house l) with
      | (Ok r, h) => put_person i (match r with inl e => Lost code e | inr rec => Won code rec (last_read slow_clk h) end) h l
      | _ => l
      end
  | _ => l
  end.
Lemma does_steps i l : let R := rtc (step slow_clk sample_sha) l in
  R (does_mint l) /\ R (does_ask l) /\ R (does_read i l) /\ R (does_unlink i l) /\ R (does_check i l).
Proof.
  intros R. split_and!.
  - unfold does_mint. destruct (mint_claim _ _ _ _ _ _ _ _ _) as [[m|e] h] eqn:E; [|apply rtc_refl]. apply rtc_once. by eapply step_mint.
  - apply rtc_once, step_ask.
  - unfold does_read. destruct (l_people l !! i) as [[]|] eqn:Hi; try apply rtc_refl.
    destruct (redeem_read _ _ _) as [[r|e] h] eqn:E; [|apply rtc_refl]. apply rtc_once. by eapply step_read.
  - unfold does_unlink. destruct (l_people l !! i) as [[]|] eqn:Hi; try apply rtc_refl.
    destruct (redeem_unlink _ _ _) as [[r|e] h] eqn:E; [|apply rtc_refl]. apply rtc_once. by eapply step_unlink.
  - unfold does_check. destruct (l_people l !! i) as [[]|] eqn:Hi; try apply rtc_refl.
    destruct (redeem_check _ _ _ _ _) as [[r|e] h] eqn:E; [|apply rtc_refl]. apply rtc_once. by eapply step_check.
Qed.
Inductive move := Mints | Asks | Reads (i : nat) | Unlinks (i : nat) | Checks (i : nat).
Definition does (l : lobby) (m : move) : lobby :=
  match m with Mints => does_mint l | Asks => does_ask l | Reads i => does_read i l | Unlinks i => does_unlink i l | Checks i => does_check i l end.
Lemma moves_reach ms l : rtc (step slow_clk sample_sha) l (fold_left does ms l).
Proof.
  revert l. induction ms as [|m ms IH]; intros l; [apply rtc_refl|]. etransitivity; [|exact (IH (does l m))].
  destruct m as [| |i|i|i]; [destruct (does_steps 0 l) as (H & _)|destruct (does_steps 0 l) as (_ & H & _)|destruct (does_steps i l) as (_ & _ & H & _)|
    destruct (does_steps i l) as (_ & _ & _ & H & _)|destruct (does_steps i l) as (_ & _ & _ & _ & H)]; exact H.
Qed.
Definition race : lobby := fold_left does [Mints; Asks; Asks; Reads 0; Reads 1; Unlinks 0; Unlinks 1; Checks 0] (mk_lobby no_house [] []).
Lemma race_reached : rtc (step slow_clk sample_sha) (mk_lobby no_house [] []) race.
Proof. exact (moves_reach _ _). Qed.
Definition outcome (p : redeemer) : option string :=
  match p with Won _ rec _ => Some (str_or (get_ "user_id" rec) "") | Lost _ e => Some (ce_message e) | _ => None end.
Lemma link_redeemed_once_witness : map outcome (l_people race) = [Some "admin"; Some "This first-run link was already used."] /\
  (takers sample_sha (sample_sha link_code) race <= mints_of sample_sha (sample_sha link_code) race)%nat /\
  mints_of sample_sha (sample_sha link_code) race = 1%nat.
Proof.
  split; [by vm_compute|]. split; [|by vm_compute].
  destruct (link_redeemed_once slow_clk sample_sha slow_calendar no_house race eq_refl race_reached) as (H & _ & _). apply H.
Defined.

(** ** Runs that end otherwise than the code means to *)

(** Bob archives the first administrator, which the accounts page allows while he is
    one himself: from then on no start of the gateway ends, and neither does the
    command that shows the setup code. *)
Definition retired : front := with_staff [boot; bob_joins; SetArchived "admin" "default" true "person:default/bob"] before.
Theorem archived_admin_blocks_start :
  is_ok (run_event (start "b") waiting).1 = true /\
  is_ok (run_event (start "b") retired).1 = false /\ is_ok (run_event (ShowsCode users_env "r" "salt" picks) retired).1 = false.
Proof. by vm_compute. Qed.

(** The environment of a plain start, and what it leaves to a relaunch. *)
Definition plain : environ := fun _ => None.
Lemma loopback_default_survives_relaunch_witness :
  explicit_auth_configured (apply_loopback_auth_default ip_loopback "127.0.0.1" plain).2 = false /\
  (apply_loopback_auth_default ip_loopback "10.0.0.9" (apply_loopback_auth_default ip_loopback "127.0.0.1" plain).2).1 = false.
Proof.
  assert (apply_loopback_auth_default ip_loopback "127.0.0.1" plain = (true, (apply_loopback_auth_default ip_loopback "127.0.0.1" plain).2)) as E.
  { assert ((apply_loopback_auth_default ip_loopback "127.0.0.1" plain).1 = true) as H by (by vm_compute).
    rewrite <- H at 1. apply surjective_pairing. }
  destruct (loopback_default_survives_relaunch ip_loopback "127.0.0.1" plain _ E) as (_ & _ & H1 & _ & H2). split; [rewrite H1; by vm_compute|].
  specialize (H2 "10.0.0.9"). assert (is_loopback_host ip_loopback "10.0.0.9" = false) as Hl by (by vm_compute). rewrite Hl in H2. by rewrite H2.
Defined.

(** Twenty wrong passwords, from twenty addresses, lock the account for any address
    it has not signed in from; but for a sign-in that names its tenant with a dot
    behind it, which finds the same account, nothing was counted. *)
Definition tries (tenant : string) (n : nat) : list event :=
  map (fun i => SignsIn (from ("10.0.1." +:+ str_of_Z (Z.of_nat i)) nobody) "admin" None (Some "a wrong password") tenant false) (seq 0 n).
Definition signs_in (tenant pw : string) (f : front) : string + Z :=
  match (gateway_session_login (from "10.0.0.9" nobody) "admin" None (Some pw) tenant false f).1 with
  | Ok (Answer x) => inl (user_id x.1)
  | Ok (HttpError s _) => inr s
  | Raise _ => inr 500
  end.
Abbreviation guessed := (run_events (tries "default" 20) claimed_by_form).
Theorem tenant_text_evades_lock :
  signs_in "default" good_words guessed = inr 429 /\ signs_in "default" "nope nope nope" guessed = inr 429 /\
  signs_in "default." "nope nope nope" guessed = inr 401 /\ signs_in "default." good_words guessed = inl "admin".
Proof. by vm_compute. Qed.

(** Forty requests of one address look at the limits before the first of them has
    counted its failure: all forty are compared, and the last may be the right one. *)
Definition looks (n : nat) (f : front) : front * list bool :=
  fold_left (fun '(f, l) _ => let '(r, f) := password_check (from "10.0.0.9" nobody) "default:admin" f in
    (f, l ++ [match r with Ok None => true | _ => false end])) (seq 0 n) (f, []).
Definition admin_hash (f : front) : string := default "" (a_password_hash <$> oget "default:admin" (loaded (h_reg (f_house f))).1).
Definition compares (pw : string) (f : front) : res (reply unit) * front :=
  password_count (from "10.0.0.9" nobody) "default:admin" pw (admin_hash f) f.
Definition compared_all (n : nat) (f : front) : front := Nat.iter n (fun f => (compares "a wrong password" f).2) f.
Theorem parallel_guesses_pass_the_limits :
  forallb (fun b => b) (looks 40 claimed_by_form).2 = true /\
  (compares good_words (compared_all 39 (looks 40 claimed_by_form).1)).1 = Ok (Answer tt) /\
  signs_in "default" good_words (compared_all 10 (looks 10 claimed_by_form).1) = inr 429.
Proof. by vm_compute. Qed.

(** A proxy of this machine on a socket that takes both kinds of addresses: the
    middleware names its client, the limits on passwords name the proxy, where
    [ipaddress] does not look behind the mapped address. *)
Definition proxied : http := mk_http "::ffff:127.0.0.1" [("x-forwarded-for", "203.0.113.5")] nobody "" "" "".
Definition proxied_scope : http_request := Middleware.mk_http "/api/gateway/me" "GET" "http" [("x-forwarded-for", Some "203.0.113.5")] (Some "::ffff:127.0.0.1") None "".
Theorem mapped_proxy_counts_as_client (C : Setup) (e : Middleware.env) :
  Middleware.ip_loopback "127.0.0.1" = Some true ->
  Middleware.client_ip e proxied_scope = "203.0.113.5" /\ client_address proxied = "::ffff:127.0.0.1".
Proof.
  intros H. split; [|by vm_compute]. unfold Middleware.client_ip.
  assert (is_loopback_address (socket_peer_ip proxied_scope) = true) as ->; [|by vm_compute].
  unfold is_loopback_address. assert (unmapped (lower (strip (socket_peer_ip proxied_scope))) = "127.0.0.1") as -> by (by vm_compute). by rewrite H.
Qed.

(** With the administrator's bootstrap turned off under its second name a start makes
    no account, and the command that shows the setup code makes one. *)
Definition half_off : environ := fun k =>
  if String.eqb k "ABSTRACTGATEWAY_BOOTSTRAP_ADMIN" then Some "1" else if String.eqb k "ABSTRACTGATEWAY_AUTO_BOOTSTRAP_ADMIN" then Some "off" else None.
Theorem setup_code_command_ignores_switch :
  users_file (h_reg (f_house (after_event fresh (Starts half_off "127.0.0.1" "r" "salt" "linkrandom" picks 77)))) = None /\
  okeys (loaded (h_reg (f_house (after_event fresh (ShowsCode half_off "r" "salt" picks))))).1 = ["default:admin"].
Proof. by vm_compute. Qed.
